(* ===== verification/_CoqProject ===== *)
-Q . S2P
Prelude.v
Base.v
Runs.v
Bitmap.v
Pmm.v
Frames.v
Memory.v
KList.v
KMem.v
Kheap.v
KheapClient.v
Paging.v
PagingProps.v
HeapLive.v
KernelVm.v
Vmm.v
Words.v
VmaList.v
Mm.v
MmInit.v
VmSpace.v
Buffer.v
Ringbuf.v
Printf.v
Irq.v
Hal.v
I8259.v
Console.v
I8254.v
Iwbf.v
Descriptors.v
Log.v
Cpuid.v
Device.v
Drivers.v
Devdrv.v
Boot.v
Process.v
ProcessProps.v
ProcessStart.v
ProcessLoad.v
Progress.v
Kmain.v
KmainRun.v
Tree.v
TreeProps.v
Fat32.v
Fat32Props.v
Fat32Layout.v
Fat32Read.v
Mkimage.v
