(* ===== verification/Prelude.v ===== *)
(** * ItWorksOS: a verification library

    ItWorksOS is a small 32-bit x86 kernel written in C ([kernel/]) with the
    tool that builds its disk image ([tools/mkimage/]).  This library models the
    kernel's C code as functions in a state monad and proves what each component
    promises.  This root file is also the prelude the other files share.

    ** How C is modelled

    - A C function is a value of [M S A] (below): it maps a state to a result and
      a new state, or to [None], which stands for undefined behaviour (an access
      outside of an object, a NULL dereference, a division by zero).  Every theorem
      that a call ends in some state is therefore a memory-safety theorem as well.
      Error codes are values: the negative [int32_t] numbers the code returns.
    - Machine integers are [Z]; every operation that can leave its type is wrapped
      by [u8], [u16], [u32], [u64] or [s32] where the C code wraps it.
    - The kernel's memory ([Memory]) is one store of 32-bit words.  List nodes,
      heap blocks, page tables, VMAs and process objects all live in it, at their
      IA-32 offsets, so that aliasing between components is what it is in C.
      Objects that no pointer arithmetic reaches (static tables, the frame bitmap)
      are records and lists; an index outside of them is undefined.
    - [for] loops are [for_lt], [for_each] and [for_n] with the number of
      iterations the C loop has.  A [while] loop that follows a pointer or scans a
      string takes fuel; the theorems show that the fuel given is enough: the size
      of the heap bounds the number of its blocks ([Kheap]), the length of a string
      bounds a scan ([KMem], [Printf]), the number of nodes bounds a list walk.
    - Instructions ([in], [out], [pushf], [cli], [mov cr3], [invlpg], [iret]) are
      operations of classes or of the state ([Hal], [Paging], [Process]);
      controllers behind a port are described by a class with the laws of their
      data sheet ([I8259.I8259Hw]).  Function pointers whose target belongs to
      another component are parameters ([Irq], [Device], [I8254]).  Symbols of the
      linker script are arguments.
    - [wp c Q s] (below) says that [c] run from [s] is defined and ends in [Q]; it
      is a logic of total correctness.

    ** Components and files

    - Base: [Base] ([include/base], [kernel/error.h], [mm/layout.h]).
    - Physical memory: [Bitmap] ([klib/bitmap.c]), [Pmm] ([mm/pmm.c]) with the
      searching and counting facts of [Runs]; [Frames] states the frame allocator
      as a class, [Pmm] is its instance, and its clients are proved against it.
    - Kernel memory: [Memory], [KList] ([klib/list.h]), [KMem] ([klib/memory.c],
      [klib/string.c]), [Kheap] and [KheapClient] ([mm/kheap.c]); [HeapLive] is the
      heap as the components that keep objects on it see it.
    - Virtual memory: [Paging], [PagingProps] ([arch/x86/mm.c]), [KernelVm]
      ([mm/kernel_vm.c], [mm/kernel_stack.c]), [Vmm] ([mm/vmm.c]) specified by
      [VmaList] (the list of areas), [Mm] (with [mm/mm.c]: [vm_map], [vm_unmap]),
      [MmInit] (the start of the memory manager) and [VmSpace] ([vm_protect],
      [vm_space_destroy]).  [Words] shows that every program on the shared memory
      keeps it a memory of 32-bit words.
    - Processes: [Process] ([process/pid.c], [process/process.c],
      [arch/x86/proc.c]) specified by [ProcessProps] (creation), [ProcessLoad]
      (loading an image), [ProcessStart] (the way to user mode) and [Progress] (the
      memory with which all of them succeed); [Iwbf] ([format/iwbf.c],
      [klib/endian.h]) parses the image.
    - Interrupts: [Irq] ([irq/*.c]), [Hal] (ports and flags), [I8259]
      ([drivers/irqchip/i8259.c], [arch/x86/interrupt/irq.c], [irqchip.c]),
      [Descriptors] ([arch/x86/cpu/gdt.c], [tss.c], [interrupt/idt.c], [isr.c]: segment
      and interrupt descriptors and the dispatcher of vectors).
    - Devices: [Device] ([device/*.c]), [Console] ([console/console.c],
      [drivers/video/vga/vga_text.c]), [I8254] ([time/timer_device.c],
      [drivers/timer/i8254.c]), [Drivers] (the probes of both drivers, their
      registration and the platform devices of [arch/x86/platform]), [Devdrv]
      ([core/initcall.c]: the initcalls in any link order).
    - Text: [Buffer] (arrays), [Ringbuf] ([klib/ringbuf.c], [log/syslog.c]),
      [Printf] ([klib/printf.c], [klib/conv.c]), [Log] ([log/printk.c],
      [log/panic.c], [core/exception.c], [interrupt/nmi.c], [interrupt/exception.c]).
    - Start: [Cpuid] ([arch/x86/cpu/cpuid.c]), [Boot] ([core/boot.c]), [Kmain]
      ([arch/x86/arch.c], [core/kmain.c]), [KmainRun] (the whole start).
    - The image tool ([tools/mkimage]): [Tree] and [TreeProps] ([tree.c], [parser.c]:
      the tree of the files to write), [Fat32] ([fat32.c], [main.c]), [Fat32Props]
      (writing files and directories), [Fat32Layout] (sizes, reading the boot
      sectors, preparing and flushing the table), [Fat32Read] (a reader of FAT32
      volumes, the specification), [Mkimage] (the whole program).

    Components meet at classes: [Frames.FrameAllocator] (what the frame allocator
    promises; page tables, heap and stacks are proved against it), [Hal.PortIO],
    [Hal.Cpu], [Hal.CpuDirection] and [Cpuid.CpuId] (instructions), [Console.CrtcHw],
    [Drivers.CrtcRead], [I8259.I8259Hw] (devices behind ports),
    [I8254.HasTimers] (the timers kept beside a machine), [Log.LogHw],
    [Cpuid.CpuIdLaws], [Kmain.CldLaw] and [Devdrv.PlatformHw] (laws that relate
    them).  Every class has an instance, on which the witnesses run.

    ** What the theorems show

    Physical memory.  [Pmm]: from the map of the boot loader [pmm_init] reserves
    exactly what is not usable, the first MiB, the kernel image and the bitmap;
    allocation is first fit in its window and fails only when there is no run; a
    release succeeds exactly on used frames.  [Frames]: under any sequence of calls
    live blocks are disjoint; this is the contract the other components use.

    Heap.  [KList]: every operation of [list.h] implements its operation on
    sequences and writes only the nodes it has to.  [Kheap], [KheapClient]: the
    invariant of blocks and free list, what [kmalloc] and [kfree] do to it on every
    branch, and disjointness of live payloads under any sequence of calls and writes.
    [HeapLive]: a bound on fragmentation, below which [kmalloc] cannot fail.
    [Words]: memory stays a memory of 32-bit words.

    Virtual memory.  [Paging], [PagingProps]: mapping, unmapping, protecting and
    translating agree with the tables the processor walks, spaces share the kernel's
    half and nothing else, and destroying one returns its frames.  [KernelVm]: kernel
    stacks.  [VmaList], [Mm], [VmSpace]: the sorted list of areas and the page tables
    of a user space stay in step; each call affects one area, or fails with the
    effects the theorems name.  [MmInit]: the memory manager starts from the boot map,
    and the space that is loaded gives every page of the direct map the rights of
    the section it lies in.

    Processes.  [ProcessProps]: creation gives the process its object, PID, slot,
    address space and stack, or takes everything back.  [ProcessLoad]: an image is
    mapped and copied segment by segment.  [ProcessStart]: a prepared process reaches
    user mode at its entry with the frame the [iret] expects.  [Progress]: how many
    frames and how much heap each of the calls needs, and that it succeeds with them.
    [Iwbf]: the parsers accept exactly the encodings of valid headers.

    Interrupts and devices.  [I8259]: initialisation of the controllers from any
    state, the set of unmasked lines, dispatch and end of interrupt.  [Irq]: interrupt
    numbers.  [Descriptors]: descriptors read back by the processor's rules, 256
    gates.  [Console]: the driver stack implements an 80x25 terminal.  [I8254]: the
    count that is programmed.  [Device]: binding of devices and drivers.  [Drivers]:
    what each probe sets up, or undoes.  [Devdrv]: the initcalls succeed in every
    order the linker can choose.

    Text and log.  [Ringbuf]: a bounded queue, and the last bytes of the log.
    [Printf]: the bytes [vsnprintf] writes.  [Log]: [printk] appends to log and
    terminal; exceptions and NMIs stop the kernel with the report on both.

    Start.  [Boot]: the loader's description is copied.  [Kmain]: processor set-up,
    and the starts [kmain] refuses.  [KmainRun] puts the stages together: from reset to
    user mode [kmain] never does anything undefined, and it ends in the entry of the
    system image with the image in memory and mapped, or in one of three panics; with
    enough memory and a well-formed image it does reach user mode.

    Image tool.  [TreeProps]: the tree that is built from the list of files.
    [Mkimage]: from the image that is written a reader of FAT32 volumes reads back
    every directory and every byte of every file.

    Code that does not do what it means to is stated by theorems as well, next to
    the operation concerned: [KheapClient.kfree_refuses_last_block],
    [KheapClient.kmalloc_size_wraps], [PagingProps.arch_vm_map_truncates],
    [KernelVm.kstack_alloc_stuck], [VmaList.vm_user_range_valid_exact],
    [Printf.conv_atoi_int_min_undefined], [Log.printk_long_undefined],
    [Mkimage.short_name_overflow], [Mkimage.empty_file_overwrites_fat0],
    [Mkimage.cluster_alloc_full], [Mkimage.long_component_duplicated],
    [Mkimage.host_directory_accepted].

    ** What is not modelled

    - The boot loader ([bootloader/]) and the assembly entry stubs of the kernel:
      16-bit and 32-bit assembly.  A stub is an address, its interrupt frame an
      argument.
    - The wrappers of [mov cr0/cr2/cr4] and [hlt] ([arch/x86/cpu/control.c],
      [arch/x86/hal/cpu.c]): single instructions without a result the code uses.  An
      endless [hlt] loop is the outcome of its function.
    - That the kernel's own loads and stores go through the page tables: the direct
      map is taken to be in effect, also before [cr3] is loaded, which is what the
      loader sets up.  [MmInit] shows that the tables the kernel builds agree with it.
    - The arrival of interrupts during kernel code; handlers are modelled as calls.
    - The messages of [pmm_init], [kheap_init] and [kheap_dump] on the log; what
      [kheap_dump] reads and counts is its result.
    - The bytes of the driver objects ([Drivers]): their blocks are taken from the
      modelled heap, their fields are records beside it. *)

From Stdlib Require Export ZArith Lia.
From stdpp Require Export base tactics numbers option list list_numbers gmap.

#[global] Open Scope Z_scope.
#[export] Set Default Goal Selector "!".

(** ** Machine integers

    The kernel is compiled for IA-32 ([kernel/include/base/stdint.h]): [size_t],
    [uintptr_t] and [vaddr_t] are 32 bits wide, [paddr_t] is 64 bits wide.  A
    value of a [w]-bit unsigned type is a [Z] in [0, 2^w); every arithmetic
    expression that can leave the range is wrapped where the C code wraps it. *)

Definition u8 (x : Z) : Z := x mod 256.
Definition u16 (x : Z) : Z := x mod 65536.
Definition u32 (x : Z) : Z := x mod 4294967296.
Definition u64 (x : Z) : Z := x mod 18446744073709551616.

(** Conversion to [int32_t] (gcc: two's complement). *)
Definition s32 (x : Z) : Z :=
  let y := u32 x in if y <? 2147483648 then y else y - 4294967296.

Definition is_u8 (x : Z) : Prop := 0 <= x < 256.
Definition is_u16 (x : Z) : Prop := 0 <= x < 65536.
Definition is_u32 (x : Z) : Prop := 0 <= x < 4294967296.
Definition is_u64 (x : Z) : Prop := 0 <= x < 18446744073709551616.

Create HintDb iwos.

Lemma u8_id x : is_u8 x -> u8 x = x.
Proof. unfold is_u8, u8. intros. apply Z.mod_small. lia. Qed.
Lemma u16_id x : is_u16 x -> u16 x = x.
Proof. unfold is_u16, u16. intros. apply Z.mod_small. lia. Qed.
Lemma u32_id x : is_u32 x -> u32 x = x.
Proof. unfold is_u32, u32. intros. apply Z.mod_small. lia. Qed.
Lemma u64_id x : is_u64 x -> u64 x = x.
Proof. unfold is_u64, u64. intros. apply Z.mod_small. lia. Qed.

Lemma u8_range x : is_u8 (u8 x).
Proof. unfold is_u8, u8. apply Z.mod_pos_bound. lia. Qed.
Lemma u32_range x : is_u32 (u32 x).
Proof. unfold is_u32, u32. apply Z.mod_pos_bound. lia. Qed.
Lemma u64_range x : is_u64 (u64 x).
Proof. unfold is_u64, u64. apply Z.mod_pos_bound. lia. Qed.

#[export] Hint Resolve u8_range u32_range u64_range : iwos.

(** [lia] for goals with [/] and [mod]. *)
Ltac dlia := Z.div_mod_to_equations; lia.

(** The same with the integer ranges and wraps unfolded. *)
Ltac wrap_lia := unfold is_u8, is_u16, is_u32, is_u64, u8, u16, u32, u64 in *; dlia.

(** Remove a wrap whose argument is known to be in range. *)
Ltac unwrap32 := rewrite !u32_id by (unfold is_u32 in *; lia).

(** Split the boolean comparisons of a goal into their arithmetic meaning. *)
Ltac zcases :=
  repeat match goal with
  | |- context [?a <? ?b] => destruct (Z.ltb_spec a b)
  | |- context [?a <=? ?b] => destruct (Z.leb_spec a b)
  | |- context [?a =? ?b] => destruct (Z.eqb_spec a b)
  end.

(** ** The kernel monad

    A C function that reads and writes a state of type [S] and returns an [A]
    is a function [S -> option (A * S)].  [None] is undefined behaviour of the
    C program (an array access out of bounds, signed overflow): a theorem that
    a run ends in [Some _] is a memory-safety theorem.  Error codes are not
    [None]: they are the (negative) [int32_t] values the code returns. *)

Definition M (S A : Type) : Type := S -> option (A * S).

Section Monad.
Context {S : Type}.

Definition ret {A} (a : A) : M S A := fun s => Some (a, s).
Definition bind {A B} (c : M S A) (k : A -> M S B) : M S B :=
  fun s => match c s with Some (a, s') => k a s' | None => None end.
Definition undefined {A} : M S A := fun _ => None.
Definition gets {A} (f : S -> A) : M S A := fun s => Some (f s, s).
Definition modify (f : S -> S) : M S unit := fun s => Some (tt, f s).

(** Run a computation on a part of the state. *)
Definition zoom {T A} (get : S -> T) (set : T -> S -> S) (c : M T A) : M S A :=
  fun s => match c (get s) with
           | Some (a, t) => Some (a, set t s)
           | None => None
           end.

(** [for (i = lo; i < lo + n; i++)] with loop-carried locals [acc].  The body
    yields [inl acc'] to go on and [inr r] to leave the function with [r]. *)
Fixpoint for_n {A R} (n : nat) (i : Z) (acc : A)
    (body : Z -> A -> M S (A + R)) : M S (A + R) :=
  match n with
  | O => ret (inl acc)
  | Datatypes.S n' =>
      bind (body i acc) (fun r =>
        match r with
        | inl acc' => for_n n' (i + 1) acc' body
        | inr v => ret (inr v)
        end)
  end.

Definition for_lt {A R} (lo hi : Z) (acc : A)
    (body : Z -> A -> M S (A + R)) : M S (A + R) :=
  for_n (Z.to_nat (hi - lo)) lo acc body.

(** A loop without locals and without an early exit. *)
Definition for_each (lo hi : Z) (body : Z -> M S unit) : M S unit :=
  bind (for_lt (R := Empty_set) lo hi tt
          (fun i _ => bind (body i) (fun _ => ret (inl tt))))
       (fun _ => ret tt).
End Monad.

Declare Scope kernel_scope.
Delimit Scope kernel_scope with kernel.
Notation "x <-- c ;; k" := (bind c (fun x => k))
  (at level 20, c at level 99, k at level 200) : kernel_scope.
Notation "' p <-- c ;; k" := (bind c (fun x => match x with p => k end))
  (at level 20, p pattern, c at level 99, k at level 200) : kernel_scope.
Notation "c ;;; k" := (bind c (fun _ => k))
  (at level 100, k at level 200, right associativity) : kernel_scope.
(** [KERR_TRY(expr)]: leave the function when [expr] is negative. *)
Notation "'TRY' c ;;; k" := (bind c (fun r => if r <? 0 then ret r else k))
  (at level 20, c at level 99, k at level 200) : kernel_scope.
#[global] Open Scope kernel_scope.

(** ** Weakest preconditions

    [wp c Q s]: run from [s], [c] is defined and its result and final state
    satisfy [Q].  The logic is one of total correctness. *)

Definition wp {S A} (c : M S A) (Q : A -> S -> Prop) (s : S) : Prop :=
  match c s with Some (a, s') => Q a s' | None => False end.

Section WP.
Context {S : Type}.

Lemma wp_ret {A} (a : A) Q (s : S) : Q a s -> wp (ret a) Q s.
Proof. done. Qed.

Lemma wp_gets {A} (f : S -> A) Q s : Q (f s) s -> wp (gets f) Q s.
Proof. done. Qed.

Lemma wp_modify f Q (s : S) : Q tt (f s) -> wp (modify f) Q s.
Proof. done. Qed.

Lemma wp_bind {A B} (c : M S A) (k : A -> M S B) Q s :
  wp c (fun a s' => wp (k a) Q s') s -> wp (bind c k) Q s.
Proof. unfold wp, bind. destruct (c s) as [[a s']|]; done. Qed.

Lemma wp_bind_inv {A B} (c : M S A) (k : A -> M S B) Q s :
  wp (bind c k) Q s -> wp c (fun a s' => wp (k a) Q s') s.
Proof. unfold wp, bind. destruct (c s) as [[a s']|]; done. Qed.

Lemma wp_mono {A} (c : M S A) (Q Q' : A -> S -> Prop) s :
  wp c Q s -> (forall a s', Q a s' -> Q' a s') -> wp c Q' s.
Proof. unfold wp. destruct (c s) as [[a s']|]; auto. Qed.

Lemma wp_zoom {T A} (get : S -> T) set (c : M T A) Q s :
  wp c (fun a t => Q a (set t s)) (get s) -> wp (zoom get set c) Q s.
Proof. unfold wp, zoom. destruct (c (get s)) as [[a t]|]; done. Qed.

Lemma wp_and {A} (c : M S A) (Q Q' : A -> S -> Prop) s :
  wp c Q s -> wp c Q' s -> wp c (fun a s' => Q a s' /\ Q' a s') s.
Proof. unfold wp. destruct (c s) as [[a s']|]; auto. Qed.

(** The result of a run that satisfies a [wp]. *)
Lemma wp_run {A} (c : M S A) Q s :
  wp c Q s <-> exists a s', c s = Some (a, s') /\ Q a s'.
Proof.
  unfold wp. split.
  - destruct (c s) as [[a s']|]; [eauto | done].
  - intros (a & s' & -> & H). done.
Qed.

(** Loop rule: [I i acc s] holds before iteration [i]. *)
Lemma wp_for_n {A R} (I : Z -> A -> S -> Prop) (Q : A + R -> S -> Prop)
    (body : Z -> A -> M S (A + R)) n lo acc s :
  I lo acc s ->
  (forall i acc s, lo <= i < lo + Z.of_nat n -> I i acc s ->
     wp (body i acc) (fun r s' =>
       match r with inl acc' => I (i + 1) acc' s' | inr v => Q (inr v) s' end) s) ->
  (forall acc s, I (lo + Z.of_nat n) acc s -> Q (inl acc) s) ->
  wp (for_n n lo acc body) Q s.
Proof.
  revert lo acc s. induction n as [|n IH]; intros lo acc s H0 Hstep Hend; cbn [for_n].
  - apply wp_ret, Hend. by rewrite Z.add_0_r.
  - apply wp_bind. eapply wp_mono; [apply (Hstep lo); [lia | done]|].
    intros [acc'|v] s' H'; cbn beta iota.
    + apply IH; [done | |].
      * intros i ac t Hi. apply Hstep. lia.
      * intros ac t. replace (lo + 1 + Z.of_nat n) with (lo + Z.of_nat (Datatypes.S n)) by lia.
        apply Hend.
    + by apply wp_ret.
Qed.

Lemma wp_for_lt {A R} (I : Z -> A -> S -> Prop) (Q : A + R -> S -> Prop)
    (body : Z -> A -> M S (A + R)) lo hi acc s :
  I lo acc s ->
  (forall i acc s, lo <= i < hi -> I i acc s ->
     wp (body i acc) (fun r s' =>
       match r with inl acc' => I (i + 1) acc' s' | inr v => Q (inr v) s' end) s) ->
  (forall acc s, I (Z.max lo hi) acc s -> Q (inl acc) s) ->
  wp (for_lt lo hi acc body) Q s.
Proof.
  intros H0 Hstep Hend. unfold for_lt. apply (wp_for_n I); [done | |].
  - intros i ac t Hi. apply Hstep. lia.
  - intros ac t. replace (lo + Z.of_nat (Z.to_nat (hi - lo))) with (Z.max lo hi) by lia.
    apply Hend.
Qed.

Lemma wp_for_each (I : Z -> S -> Prop) (Q : unit -> S -> Prop) body lo hi s :
  I lo s ->
  (forall i s, lo <= i < hi -> I i s -> wp (body i) (fun _ s' => I (i + 1) s') s) ->
  (forall s, I (Z.max lo hi) s -> Q tt s) ->
  wp (for_each lo hi body) Q s.
Proof.
  intros H0 Hstep Hend. unfold for_each. apply wp_bind.
  apply (wp_for_lt (fun i _ => I i)); [done | |].
  - intros i [] t Hi Ht. apply wp_bind. eapply wp_mono; [by apply Hstep|].
    intros [] t' H'. by apply wp_ret.
  - intros [] t Ht. by apply wp_ret, Hend.
Qed.
End WP.

(** One symbolic step of a program through its monadic structure. *)
Ltac wp_step :=
  lazymatch goal with
  | |- wp (bind _ _) _ _ => apply wp_bind
  | |- wp (ret _) _ _ => apply wp_ret
  | |- wp (gets _) _ _ => apply wp_gets
  | |- wp (modify _) _ _ => apply wp_modify
  | |- wp (zoom _ _ _) _ _ => apply wp_zoom
  end; cbn beta iota.
Ltac wp_steps := cbn beta iota; repeat wp_step.

(** Use the specification [H] of a called function and go on with its result. *)
Ltac wp_use H := eapply wp_mono; [eapply H | cbn beta].
