(* ===== verification/Base.v ===== *)
(** * Base macros, error codes and the memory layout

    Models [kernel/include/base/{bit,align,limits}.h],
    [kernel/include/kernel/error.h] and [kernel/include/mm/layout.h].  A macro
    that is used at several integer types takes the wrap of that type. *)

From S2P Require Import Prelude.

(** ** Limits ([base/limits.h]) *)

Definition UINT16_MAX : Z := 65535.
Definition UINTPTR_MAX : Z := 4294967295.
Definition UINT64_MAX : Z := 18446744073709551615.

(** ** Bits ([base/bit.h]) *)

Definition BIT (n : Z) : Z := u32 (Z.shiftl 1 n).
Definition MASK_SET (v mask : Z) : Z := Z.lor v mask.
Definition MASK_CLEAR (v mask : Z) : Z := Z.land v (u32 (Z.lnot mask)).
Definition MASK_TEST (v mask : Z) : bool := negb (Z.land v mask =? 0).

(** ** Alignment ([base/align.h]) *)

Definition ALIGN_UP (wrap : Z -> Z) (x align : Z) : Z :=
  Z.land (wrap (x + align - 1)) (wrap (Z.lnot (align - 1))).
Definition ALIGN_DOWN (wrap : Z -> Z) (x align : Z) : Z :=
  Z.land x (wrap (Z.lnot (align - 1))).
Definition ALIGN_TEST (x align : Z) : bool := x mod align =? 0.

(** ** Error codes ([kernel/error.h]) *)

Definition KERR_OK : Z := 0.
Definition KERR_INVAL : Z := 1.
Definition KERR_RANGE : Z := 2.
Definition KERR_NOMEM : Z := 3.
Definition KERR_NOENT : Z := 4.
Definition KERR_EXISTS : Z := 5.
Definition KERR_BUSY : Z := 6.
Definition KERR_NOSPC : Z := 7.
Definition KERR_NOSUP : Z := 8.
Definition KERR_NODEV : Z := 9.

Definition KERR_IS_ERR (r : Z) : bool := r <? 0.

Definition KERR_MAX_ERRNO : Z := 4096.
Definition KERR_PTR (err : Z) : Z := u32 err.
Definition KERR_PTR_ERR (ptr : Z) : Z := s32 ptr.
Definition KERR_PTR_IS_ERR (ptr : Z) : bool :=
  u32 (UINTPTR_MAX - KERR_MAX_ERRNO + 1) <=? ptr.

(** ** Memory layout ([mm/layout.h]) *)

Definition KERNEL_VIRT_OFFSET : Z := 3221225472. (* 0xC0000000 *)
Definition KERNEL_DIRECT_MAP_SIZE : Z := 805306368. (* 0x30000000 *)
Definition USER_START : Z := 0.
Definition USER_SIZE : Z := u32 KERNEL_VIRT_OFFSET.
Definition DMA16_LIMIT : Z := 16 * 1024 * 1024.
Definition KERNEL_LOWMEM_LIMIT : Z := 768 * 1024 * 1024.
Definition PHYS_TO_VIRT (phys : Z) : Z := u32 (u64 (u64 phys + KERNEL_VIRT_OFFSET)).
Definition VIRT_TO_PHYS (phys : Z) : Z := u32 (u64 (u64 phys + KERNEL_VIRT_OFFSET)).

(** ** Lemmas on bits *)

Lemma testbit_high x n i : 0 <= n -> 0 <= x < 2 ^ n -> n <= i -> Z.testbit x i = false.
Proof.
  intros Hn Hx Hi. rewrite <- (Z.mod_small x (2 ^ n)) by lia.
  apply Z.mod_pow2_bits_high. lia.
Qed.

(** Masking an in-range value with a wrapped mask ignores the wrap. *)
Lemma land_mod_r x y n :
  0 <= n -> 0 <= x < 2 ^ n -> Z.land x (y mod 2 ^ n) = Z.land x y.
Proof.
  intros Hn Hx. rewrite <- Z.land_ones, (Z.land_comm y), Z.land_assoc, Z.land_ones by lia.
  by rewrite (Z.mod_small x) by lia.
Qed.

Lemma land_u32_r x y : is_u32 x -> Z.land x (u32 y) = Z.land x y.
Proof. apply (land_mod_r x y 32). lia. Qed.
Lemma land_u64_r x y : is_u64 x -> Z.land x (u64 y) = Z.land x y.
Proof. apply (land_mod_r x y 64). lia. Qed.

Lemma BIT_pow n : 0 <= n < 32 -> BIT n = 2 ^ n.
Proof.
  intros Hn. unfold BIT. rewrite Z.shiftl_1_l. apply u32_id. unfold is_u32. split; [lia|].
  change 4294967296 with (2 ^ 32). apply Z.pow_lt_mono_r; lia.
Qed.

Lemma BIT_testbit n i : 0 <= n < 32 -> 0 <= i -> Z.testbit (BIT n) i = (i =? n).
Proof. intros Hn Hi. rewrite BIT_pow, Z.pow2_bits_eqb by lia. apply Z.eqb_sym. Qed.

(** A word is a [u32] exactly when its bits from 32 on are clear. *)
Lemma is_u32_bits x : is_u32 x <-> 0 <= x /\ forall i, 32 <= i -> Z.testbit x i = false.
Proof.
  unfold is_u32. split.
  - intros Hx. split; [lia|]. intros i Hi. apply (testbit_high x 32); lia.
  - intros [H0 Hb]. split; [done|]. change 4294967296 with (2 ^ 32).
    destruct (Z.eq_dec x 0) as [->|Hne]; [lia|].
    apply Z.log2_lt_pow2; [lia|].
    destruct (Z.lt_ge_cases (Z.log2 x) 32) as [|Hge]; [done|].
    specialize (Hb _ Hge). rewrite Z.bit_log2 in Hb by lia. done.
Qed.

Lemma is_u32_lor x y : is_u32 x -> is_u32 y -> is_u32 (Z.lor x y).
Proof.
  rewrite !is_u32_bits. intros [Hx Bx] [Hy By]. split; [by apply Z.lor_nonneg|].
  intros i Hi. by rewrite Z.lor_spec, Bx, By.
Qed.

Lemma is_u32_land x y : is_u32 x -> is_u32 (Z.land x y).
Proof.
  rewrite !is_u32_bits. intros [Hx Bx]. split; [apply Z.land_nonneg; auto|].
  intros i Hi. by rewrite Z.land_spec, Bx.
Qed.

Lemma is_u32_BIT n : is_u32 (BIT n).
Proof. apply u32_range. Qed.

#[export] Hint Resolve is_u32_lor is_u32_land is_u32_BIT : iwos.

(** The three single-bit operations, bit by bit. *)
Lemma MASK_SET_bit w n i : 0 <= n < 32 -> 0 <= i ->
  Z.testbit (MASK_SET w (BIT n)) i = (i =? n) || Z.testbit w i.
Proof. intros. unfold MASK_SET. rewrite Z.lor_spec, BIT_testbit by done. apply orb_comm. Qed.

Lemma MASK_CLEAR_bit w n i : is_u32 w -> 0 <= n < 32 -> 0 <= i ->
  Z.testbit (MASK_CLEAR w (BIT n)) i = negb (i =? n) && Z.testbit w i.
Proof.
  intros Hw ??. unfold MASK_CLEAR. rewrite land_u32_r by done.
  rewrite Z.land_spec, Z.lnot_spec, BIT_testbit by done. apply andb_comm.
Qed.

Lemma MASK_TEST_bit w n : 0 <= n < 32 -> MASK_TEST w (BIT n) = Z.testbit w n.
Proof.
  intros Hn. unfold MASK_TEST. rewrite BIT_pow by done.
  destruct (Z.testbit w n) eqn:E.
  - destruct (Z.eqb_spec (Z.land w (2 ^ n)) 0) as [H|]; [|done].
    assert (Z.testbit (Z.land w (2 ^ n)) n = true) as H'.
    { rewrite Z.land_spec, E, Z.pow2_bits_true by lia. done. }
    by rewrite H, Z.bits_0 in H'.
  - destruct (Z.eqb_spec (Z.land w (2 ^ n)) 0) as [|H]; [done|]. exfalso. apply H.
    apply Z.bits_inj'. intros i Hi. rewrite Z.land_spec, Z.bits_0, Z.pow2_bits_eqb by lia.
    destruct (Z.eqb_spec n i) as [->|]; [by rewrite E | apply andb_false_r].
Qed.

(** ** Lemmas on alignment *)

Lemma lnot_ones_land x k : 0 <= k -> Z.land x (Z.lnot (2 ^ k - 1)) = x - x mod 2 ^ k.
Proof.
  intros Hk. replace (2 ^ k - 1) with (Z.ones k) by (rewrite Z.ones_equiv; lia).
  rewrite <- Z.ldiff_land, Z.ldiff_ones_r, Z.shiftl_mul_pow2, Z.shiftr_div_pow2 by lia.
  pose proof (Z.div_mod x (2 ^ k)). lia.
Qed.

Section Align.
Context (n : Z) (wrap : Z -> Z).
Hypothesis n_pos : 0 <= n.
Hypothesis wrap_mod : forall x, wrap x = x mod 2 ^ n.

Lemma ALIGN_DOWN_spec x k :
  0 <= k -> 0 <= x < 2 ^ n -> ALIGN_DOWN wrap x (2 ^ k) = x - x mod 2 ^ k.
Proof.
  intros Hk Hx. unfold ALIGN_DOWN. rewrite wrap_mod, land_mod_r by lia.
  by apply lnot_ones_land.
Qed.

Lemma ALIGN_UP_spec x k :
  0 <= k -> 0 <= x -> x + 2 ^ k - 1 < 2 ^ n ->
  ALIGN_UP wrap x (2 ^ k) = (x + 2 ^ k - 1) / 2 ^ k * 2 ^ k.
Proof.
  intros Hk Hx Hn. assert (0 < 2 ^ k) by (apply Z.pow_pos_nonneg; lia).
  unfold ALIGN_UP. rewrite !wrap_mod, Z.mod_small, land_mod_r by lia.
  rewrite lnot_ones_land by done. pose proof (Z.div_mod (x + 2 ^ k - 1) (2 ^ k)). lia.
Qed.
End Align.

Lemma ALIGN_UP_page64 x :
  0 <= x < 18446744073709547520 -> ALIGN_UP u64 x 4096 = (x + 4095) / 4096 * 4096.
Proof.
  intros Hx. change 4096 with (2 ^ 12) at 1. rewrite (ALIGN_UP_spec 64 u64 ltac:(lia) (fun _ => eq_refl) x 12) by lia.
  change (2 ^ 12) with 4096. by replace (x + 4096 - 1) with (x + 4095) by lia.
Qed.

Lemma ALIGN_DOWN_page64 x : is_u64 x -> ALIGN_DOWN u64 x 4096 = x / 4096 * 4096.
Proof.
  intros Hx. change 4096 with (2 ^ 12) at 1. rewrite (ALIGN_DOWN_spec 64 u64 ltac:(lia) (fun _ => eq_refl) x 12)
    by (unfold is_u64 in Hx; lia).
  change (2 ^ 12) with 4096. dlia.
Qed.

Lemma ALIGN_UP_4 x : 0 <= x < 4294967293 -> ALIGN_UP u32 x 4 = (x + 3) / 4 * 4.
Proof.
  intros Hx. change 4 with (2 ^ 2) at 1. rewrite (ALIGN_UP_spec 32 u32 ltac:(lia) (fun _ => eq_refl) x 2) by lia.
  change (2 ^ 2) with 4. by replace (x + 4 - 1) with (x + 3) by lia.
Qed.

Lemma ALIGN_TEST_true x a : ALIGN_TEST x a = true <-> x mod a = 0.
Proof. unfold ALIGN_TEST. by rewrite Z.eqb_eq. Qed.

(** ** Lemmas on the layout and on error pointers *)

Lemma PHYS_TO_VIRT_lowmem p :
  0 <= p < KERNEL_LOWMEM_LIMIT -> PHYS_TO_VIRT p = p + KERNEL_VIRT_OFFSET.
Proof.
  unfold KERNEL_LOWMEM_LIMIT, PHYS_TO_VIRT, KERNEL_VIRT_OFFSET. intros Hp.
  rewrite !u64_id by (unfold is_u64; rewrite ?u64_id; unfold is_u64; lia).
  apply u32_id. unfold is_u32. lia.
Qed.

(** No LowMem address is taken for an encoded error. *)
Lemma lowmem_not_err v :
  v < KERNEL_VIRT_OFFSET + KERNEL_LOWMEM_LIMIT -> KERR_PTR_IS_ERR v = false.
Proof.
  unfold KERNEL_LOWMEM_LIMIT, KERNEL_VIRT_OFFSET. intros Hv. apply Z.leb_gt.
  change (u32 (UINTPTR_MAX - KERR_MAX_ERRNO + 1)) with 4294963200. lia.
Qed.

Lemma KERR_PTR_IS_ERR_code e :
  - KERR_MAX_ERRNO <= e < 0 -> KERR_PTR_IS_ERR (KERR_PTR e) = true /\ KERR_PTR_ERR (KERR_PTR e) = e.
Proof.
  unfold KERR_PTR_IS_ERR, KERR_PTR_ERR, KERR_PTR, s32, KERR_MAX_ERRNO. intros He.
  assert (u32 e = e + 4294967296) as ->.
  { unfold u32. rewrite <- (Z.mod_add e 1 4294967296) by lia. apply Z.mod_small. lia. }
  rewrite (u32_id (e + _)) by (unfold is_u32; lia).
  change (u32 (UINTPTR_MAX - 4096 + 1)) with 4294963200.
  split; [apply Z.leb_le; lia|]. zcases; lia.
Qed.
