(* ===== verification/Runs.v ===== *)
(** * Searching and counting free positions

    Pure facts shared by the allocators that scan a bitmap for a run of
    consecutive free positions ([pmm_alloc], [irq_alloc_range]) and that keep
    a counter of free positions ([pmm.free_frames]). *)

From S2P Require Import Prelude.

Section Runs.
Context (used : Z -> bool).

(** All of [f, f + n) is free. *)
Definition free_run (f n : Z) : Prop := forall j, f <= j < f + n -> used j = false.

(** [f] starts the first free run of length [n] at or after [lo]. *)
Definition is_first_run (lo f n : Z) : Prop :=
  lo <= f /\ free_run f n /\ forall f', lo <= f' < f -> ~ free_run f' n.

(** State of the scan before position [i], with [c] consecutive free
    positions just seen. *)
Definition scan_inv (lo n i c : Z) : Prop :=
  0 <= c < n /\ c <= i - lo /\ free_run (i - c) c /\
  (c = i - lo \/ used (i - c - 1) = true) /\
  forall f, lo <= f -> f + n <= i -> ~ free_run f n.

Lemma scan_init lo n : 0 < n -> scan_inv lo n lo 0.
Proof.
  intros Hn. unfold scan_inv, free_run.
  split; [lia|]. split; [lia|]. split; [intros; lia|]. split; [lia|]. intros; lia.
Qed.

Lemma scan_used lo n i c :
  lo <= i -> scan_inv lo n i c -> used i = true -> scan_inv lo n (i + 1) 0.
Proof.
  intros Hi (Hc & _ & _ & _ & Hnone) Hu. unfold scan_inv, free_run.
  split; [lia|]. split; [lia|]. split; [intros; lia|]. split.
  { right. by replace (i + 1 - 0 - 1) with i by lia. }
  intros f Hf Hle Hrun. destruct (Z.eq_dec (f + n) (i + 1)) as [E|].
  - rewrite (Hrun i) in Hu by lia. done.
  - eapply (Hnone f); [done | lia | exact Hrun].
Qed.

Lemma scan_free lo n i c :
  scan_inv lo n i c -> used i = false -> c + 1 <> n -> scan_inv lo n (i + 1) (c + 1).
Proof.
  intros (Hc & Hci & Hrun & Hbefore & Hnone) Hu Hne. unfold scan_inv.
  split; [lia|]. split; [lia|]. split.
  { intros j Hj. destruct (Z.eq_dec j i) as [->|]; [done | apply Hrun; lia]. }
  split.
  { destruct Hbefore as [|Hb]; [left; lia|]. right.
    by replace (i + 1 - (c + 1) - 1) with (i - c - 1) by lia. }
  intros f Hf Hle Hr. destruct (Z.eq_dec (f + n) (i + 1)) as [E|].
  - destruct Hbefore as [|Hb]; [lia|]. rewrite (Hr (i - c - 1)) in Hb by lia. done.
  - eapply (Hnone f); [done | lia | exact Hr].
Qed.

Lemma scan_found lo n i c :
  scan_inv lo n i c -> used i = false -> c + 1 = n -> is_first_run lo (i - n + 1) n.
Proof.
  intros (Hc & Hci & Hrun & Hbefore & Hnone) Hu Heq. split; [lia|]. split.
  - intros j Hj. destruct (Z.eq_dec j i) as [->|]; [done | apply Hrun; lia].
  - intros f Hf Hr. destruct (Z.le_gt_cases (f + n) i).
    + eapply (Hnone f); [lia | done | exact Hr].
    + destruct Hbefore as [|Hb]; [lia|]. rewrite (Hr (i - c - 1)) in Hb by lia. done.
Qed.

(** Number of free positions in [0, n). *)
Fixpoint count_free (n : nat) : Z :=
  match n with
  | O => 0
  | S k => count_free k + (if used (Z.of_nat k) then 0 else 1)
  end.

Lemma count_free_bounds n : 0 <= count_free n <= Z.of_nat n.
Proof. induction n as [|n IH]; cbn [count_free]; [lia|]. destruct (used _); lia. Qed.
End Runs.

(** Marking a free range [lo, hi) as used moves [hi - lo] positions. *)
Lemma count_free_fill used used' lo hi n :
  0 <= lo <= hi ->
  (forall j, 0 <= j -> used' j = if (lo <=? j) && (j <? hi) then true else used j) ->
  (forall j, lo <= j < hi -> used j = false) ->
  count_free used n =
    count_free used' n + (Z.min (Z.of_nat n) hi - Z.min (Z.of_nat n) lo).
Proof.
  intros Hlh Hu' Hu. induction n as [|n IH]; cbn [count_free]; [lia|].
  rewrite IH, Hu' by lia.
  destruct (Z.leb_spec lo (Z.of_nat n)), (Z.ltb_spec (Z.of_nat n) hi); simpl;
    [rewrite Hu by lia | destruct (used (Z.of_nat n)) ..]; lia.
Qed.

Lemma count_free_ext used used' n :
  (forall j, 0 <= j < Z.of_nat n -> used j = used' j) -> count_free used n = count_free used' n.
Proof.
  intros H. induction n as [|n IH]; cbn [count_free]; [done|].
  rewrite IH by (intros; apply H; lia). by rewrite H by lia.
Qed.

(** Some position is free when the counter is positive. *)
Lemma count_free_pos used n :
  0 < count_free used n -> exists j, 0 <= j < Z.of_nat n /\ used j = false.
Proof.
  induction n as [|n IH]; cbn [count_free]; [lia|]. intros H.
  destruct (used (Z.of_nat n)) eqn:E.
  - destruct IH as (j & Hj & Hf); [lia|]. exists j. split; [lia | done].
  - exists (Z.of_nat n). split; [lia | done].
Qed.
