(* ===== verification/Bitmap.v ===== *)
(** * Bitmaps

    Models [kernel/klib/bitmap.c] and [kernel/include/klib/bitmap.h].  The
    buffer a [struct bitmap] points to is the list [bm_data] of its 32-bit
    words; an access past its end is undefined.  [bit b j] is the abstract view:
    a bitmap is a function from bit positions to booleans. *)

From S2P Require Import Prelude Base.

Record bitmap := mk_bitmap {
  bm_data : list Z;
  bm_nbits : Z;
  bm_nelems : Z
}.

Definition BITMAP_BITS_PER_ELEM : Z := 32.
Definition BITMAP_ELEMS (nbits : Z) : Z :=
  u32 (nbits + BITMAP_BITS_PER_ELEM - 1) / BITMAP_BITS_PER_ELEM.
Definition BITMAP_SIZE (nbits : Z) : Z := u32 (nbits * 4).
Definition BITMAP_INIT (buffer : list Z) (bits : Z) : bitmap :=
  {| bm_data := buffer; bm_nbits := bits; bm_nelems := BITMAP_ELEMS bits |}.

(** [bm->data[i]] as a value and as an assignment target. *)
Definition read_word (i : Z) : M bitmap Z := fun b =>
  match bm_data b !! Z.to_nat i with Some w => Some (w, b) | None => None end.
Definition write_word (i w : Z) : M bitmap unit := fun b =>
  match bm_data b !! Z.to_nat i with
  | Some _ => Some (tt, {| bm_data := <[Z.to_nat i := w]> (bm_data b);
                           bm_nbits := bm_nbits b; bm_nelems := bm_nelems b |})
  | None => None
  end.

Definition bitmap_init (buffer : list Z) (nbits : Z) : M bitmap unit :=
  modify (fun b => {| bm_data := buffer; bm_nbits := nbits; bm_nelems := bm_nelems b |}).

Definition bitmap_set (bitpos : Z) : M bitmap unit :=
  let i := bitpos / BITMAP_BITS_PER_ELEM in
  w <-- read_word i ;;
  write_word i (MASK_SET w (BIT (bitpos mod BITMAP_BITS_PER_ELEM))).

Definition bitmap_clear (bitpos : Z) : M bitmap unit :=
  let i := bitpos / BITMAP_BITS_PER_ELEM in
  w <-- read_word i ;;
  write_word i (MASK_CLEAR w (BIT (bitpos mod BITMAP_BITS_PER_ELEM))).

Definition bitmap_test (bitpos : Z) : M bitmap bool :=
  w <-- read_word (bitpos / BITMAP_BITS_PER_ELEM) ;;
  ret (MASK_TEST w (BIT (bitpos mod BITMAP_BITS_PER_ELEM))).

Definition bitmap_size (nbits : Z) : Z :=
  let nelems := u32 (nbits + BITMAP_BITS_PER_ELEM - 1) / BITMAP_BITS_PER_ELEM in
  u32 (nelems * 4).

(** [Some pos]: returns [true] with [*bitpos = pos]; [None]: returns [false]. *)
Definition bitmap_find_zero : M bitmap (option Z) :=
  nbits <-- gets bm_nbits ;;
  r <-- for_lt 0 (u32 (nbits + BITMAP_BITS_PER_ELEM - 1) / BITMAP_BITS_PER_ELEM) tt
    (fun i _ =>
       w <-- read_word i ;;
       let free := u32 (Z.lnot w) in
       if free =? 0 then ret (inl tt)
       else for_lt 0 BITMAP_BITS_PER_ELEM tt (fun bit _ =>
         if MASK_TEST free (BIT bit) then
           let pos := u32 (i * BITMAP_BITS_PER_ELEM + bit) in
           if nbits <=? pos then ret (inr None) else ret (inr (Some pos))
         else ret (inl tt))) ;;
  match r with inr v => ret v | inl _ => ret None end.

(** ** Abstract view and well-formedness *)

Definition bit (b : bitmap) (j : Z) : bool :=
  Z.testbit (bm_data b !!! Z.to_nat (j / 32)) (j mod 32).

Definition capacity (b : bitmap) : Z := 32 * Z.of_nat (length (bm_data b)).

(** The words are 32 bits wide and the buffer holds [nbits] bits. *)
Definition bitmap_ok (b : bitmap) : Prop :=
  Forall is_u32 (bm_data b) /\ 0 <= bm_nbits b <= capacity b /\ bm_nbits b <= 4294967264.

Definition same_shape (b b' : bitmap) : Prop :=
  bitmap_ok b' /\ bm_nbits b' = bm_nbits b /\ bm_nelems b' = bm_nelems b /\
  length (bm_data b') = length (bm_data b).

(** [b'] is [b] with the bits of [lo, hi) set to [v]. *)
Definition bits_upd (b b' : bitmap) (lo hi : Z) (v : bool) : Prop :=
  same_shape b b' /\
  forall j, 0 <= j -> bit b' j = if (lo <=? j) && (j <? hi) then v else bit b j.

Lemma same_shape_capacity b b' : same_shape b b' -> capacity b' = capacity b.
Proof. unfold same_shape, capacity. intros (_ & _ & _ & ->). done. Qed.

Lemma bits_upd_refl b lo v : bitmap_ok b -> bits_upd b b lo lo v.
Proof.
  intros Hok. split; [by split|]. intros j Hj.
  zcases; simpl; lia || done.
Qed.

Lemma bits_upd_step b b1 b2 lo i v :
  lo <= i -> bits_upd b b1 lo i v -> bits_upd b1 b2 i (i + 1) v ->
  bits_upd b b2 lo (i + 1) v.
Proof.
  intros Hi [(H1 & H2 & H3 & H4) Hb] [(G1 & G2 & G3 & G4) Gb]. split.
  { split; [done|]. split; [congruence|]. split; congruence. }
  intros j Hj. rewrite Gb, Hb by done. zcases; simpl; lia || done.
Qed.

(** A word index inside the capacity reads a [u32]. *)
Lemma read_word_wp b i Q :
  Forall is_u32 (bm_data b) -> 0 <= i < Z.of_nat (length (bm_data b)) ->
  (is_u32 (bm_data b !!! Z.to_nat i) -> Q (bm_data b !!! Z.to_nat i) b) ->
  wp (read_word i) Q b.
Proof.
  intros Hall Hi HQ.
  destruct (lookup_lt_is_Some_2 (bm_data b) (Z.to_nat i)) as [w Hw]; [lia|].
  rewrite (list_lookup_total_correct _ _ _ Hw) in HQ. unfold wp, read_word. rewrite Hw.
  apply HQ. by eapply Forall_lookup_1.
Qed.

(** Writing word [i] of a well-formed bitmap. *)
Lemma write_word_wp b i w Q :
  0 <= i < Z.of_nat (length (bm_data b)) ->
  Q tt {| bm_data := <[Z.to_nat i := w]> (bm_data b);
          bm_nbits := bm_nbits b; bm_nelems := bm_nelems b |} ->
  wp (write_word i w) Q b.
Proof.
  intros Hi HQ. destruct (lookup_lt_is_Some_2 (bm_data b) (Z.to_nat i)) as [w' Hw]; [lia|].
  unfold wp, write_word. by rewrite Hw.
Qed.

Lemma div32_range b p : 0 <= p < capacity b -> 0 <= p / 32 < Z.of_nat (length (bm_data b)).
Proof. unfold capacity. intros. dlia. Qed.

(** Replacing the word of bit [p] by one that differs in that bit alone. *)
Lemma write_bit b p w v :
  bitmap_ok b -> 0 <= p < capacity b -> is_u32 w ->
  (forall i, 0 <= i < 32 -> Z.testbit w i =
     if i =? p mod 32 then v else Z.testbit (bm_data b !!! Z.to_nat (p / 32)) i) ->
  bits_upd b {| bm_data := <[Z.to_nat (p / 32) := w]> (bm_data b);
                bm_nbits := bm_nbits b; bm_nelems := bm_nelems b |} p (p + 1) v.
Proof.
  intros (Hall & Hn & Hmax) Hp Hw Hbits. pose proof (div32_range _ _ Hp).
  split.
  - split; [split; [|split]|]; cbn.
    + by apply Forall_insert.
    + unfold capacity in *. cbn. by rewrite length_insert.
    + done.
    + by rewrite length_insert.
  - intros j Hj. unfold bit; cbn [bm_data].
    destruct (Z.eq_dec (j / 32) (p / 32)) as [E|E].
    + rewrite E, list_lookup_total_insert_eq by lia. rewrite Hbits by dlia.
      zcases; simpl; done || (exfalso; dlia).
    + rewrite list_lookup_total_insert_ne by dlia. zcases; simpl; done || (exfalso; dlia).
Qed.

(** ** Specifications of the operations *)

Lemma bitmap_test_wp b p Q :
  bitmap_ok b -> 0 <= p < capacity b -> Q (bit b p) b -> wp (bitmap_test p) Q b.
Proof.
  intros (Hall & _) Hp HQ. unfold bitmap_test, BITMAP_BITS_PER_ELEM. apply wp_bind.
  apply read_word_wp; [done | by apply div32_range|].
  intros Hw. apply wp_ret. rewrite MASK_TEST_bit by dlia. done.
Qed.

Lemma bitmap_set_wp b p Q :
  bitmap_ok b -> 0 <= p < capacity b ->
  (forall b', bits_upd b b' p (p + 1) true -> Q tt b') -> wp (bitmap_set p) Q b.
Proof.
  intros Hok Hp HQ. pose proof (div32_range _ _ Hp). unfold bitmap_set, BITMAP_BITS_PER_ELEM. apply wp_bind.
  apply read_word_wp; [apply Hok | done |]. intros Hw. apply write_word_wp; [done|].
  apply HQ, write_bit; [done.. | |].
  - unfold MASK_SET. auto with iwos.
  - intros i Hi. rewrite MASK_SET_bit by dlia. by zcases.
Qed.

Lemma bitmap_clear_wp b p Q :
  bitmap_ok b -> 0 <= p < capacity b ->
  (forall b', bits_upd b b' p (p + 1) false -> Q tt b') -> wp (bitmap_clear p) Q b.
Proof.
  intros Hok Hp HQ. pose proof (div32_range _ _ Hp). unfold bitmap_clear, BITMAP_BITS_PER_ELEM. apply wp_bind.
  apply read_word_wp; [apply Hok | done |]. intros Hw. apply write_word_wp; [done|].
  apply HQ, write_bit; [done.. | |].
  - unfold MASK_CLEAR. auto with iwos.
  - intros i Hi. rewrite MASK_CLEAR_bit by (done || dlia). by zcases.
Qed.

(** The complement of a word, bit by bit. *)
Lemma lnot32_bit w i : is_u32 w -> 0 <= i < 32 -> Z.testbit (u32 (Z.lnot w)) i = negb (Z.testbit w i).
Proof.
  intros Hw Hi. unfold u32. change 4294967296 with (2 ^ 32).
  rewrite Z.mod_pow2_bits_low, Z.lnot_spec by lia. done.
Qed.

Lemma lnot32_zero w : is_u32 w -> u32 (Z.lnot w) = 0 -> forall i, 0 <= i < 32 -> Z.testbit w i = true.
Proof.
  intros Hw H0 i Hi. pose proof (lnot32_bit w i Hw Hi) as H. rewrite H0, Z.bits_0 in H.
  by destruct (Z.testbit w i).
Qed.

(** [bitmap_find_zero] yields the least clear bit below [nbits], if any. *)
Definition is_first_clear (b : bitmap) (r : option Z) : Prop :=
  match r with
  | Some pos => 0 <= pos < bm_nbits b /\ bit b pos = false /\
                forall j, 0 <= j < pos -> bit b j = true
  | None => forall j, 0 <= j < bm_nbits b -> bit b j = true
  end.

Lemma bit_word b i k : 0 <= i -> 0 <= k < 32 -> bit b (32 * i + k) = Z.testbit (bm_data b !!! Z.to_nat i) k.
Proof.
  intros Hi Hk. unfold bit. by replace ((32 * i + k) / 32) with i by dlia;
    replace ((32 * i + k) mod 32) with k by dlia.
Qed.

(** The inner scan of word [i], when all bits before the word are set. *)
Lemma scan_word_wp b i (Q : unit + option Z -> bitmap -> Prop) :
  bitmap_ok b -> 0 <= i -> 32 * i < bm_nbits b ->
  is_u32 (bm_data b !!! Z.to_nat i) ->
  (forall j, 0 <= j < 32 * i -> bit b j = true) ->
  (forall r, is_first_clear b r -> Q (inr r) b) ->
  ((forall j, 0 <= j < 32 * (i + 1) -> bit b j = true) -> Q (inl tt) b) ->
  wp (for_lt 0 BITMAP_BITS_PER_ELEM tt (fun bt _ =>
        if MASK_TEST (u32 (Z.lnot (bm_data b !!! Z.to_nat i))) (BIT bt) then
          let pos := u32 (i * BITMAP_BITS_PER_ELEM + bt) in
          if bm_nbits b <=? pos then ret (inr None) else ret (inr (Some pos))
        else ret (inl tt))) Q b.
Proof.
  intros Hok Hi Hn Hw Hbefore HQr HQl. unfold BITMAP_BITS_PER_ELEM.
  apply (wp_for_lt (fun k _ s => s = b /\ forall j, 0 <= j < 32 * i + k -> bit b j = true)).
  - split; [done|]. intros j Hj. apply Hbefore. lia.
  - intros k [] s Hk [-> Hall]. rewrite MASK_TEST_bit by lia.
    rewrite lnot32_bit by (done || lia). rewrite <- bit_word by lia.
    replace (i * 32 + k) with (32 * i + k) by lia.
    destruct (bit b (32 * i + k)) eqn:E; simpl.
    + apply wp_ret. split; [done|]. intros j Hj.
      destruct (Z.eq_dec j (32 * i + k)) as [->|]; [done | apply Hall; lia].
    + rewrite u32_id by (destruct Hok as (_ & ? & ?); unfold is_u32; lia).
      destruct (Z.leb_spec (bm_nbits b) (32 * i + k)); apply wp_ret, HQr; simpl.
      * intros j Hj. apply Hall. lia.
      * repeat split; [lia | done.. | done].
  - intros [] s [-> Hall]. apply HQl. intros j Hj. apply Hall. lia.
Qed.

Lemma bitmap_find_zero_wp b Q :
  bitmap_ok b -> (forall r, is_first_clear b r -> Q r b) -> wp bitmap_find_zero Q b.
Proof.
  intros Hok HQ. destruct (Hok) as (Hall & Hn & Hmax). unfold bitmap_find_zero.
  wp_step. wp_step. wp_step. unfold BITMAP_BITS_PER_ELEM at 1 2. unwrap32.
  apply (wp_for_lt (fun i _ s => s = b /\ forall j, 0 <= j < 32 * i -> bit b j = true)).
  - split; [done | lia].
  - intros i [] s Hi [-> Hbits]. wp_step.
    apply read_word_wp; [done | unfold capacity in *; dlia |]. intros Hw. simpl.
    destruct (Z.eqb_spec (u32 (Z.lnot (bm_data b !!! Z.to_nat i))) 0) as [E|E].
    + apply wp_ret. split; [done|]. intros j Hj.
      destruct (Z.lt_ge_cases j (32 * i)); [apply Hbits; lia|].
      replace j with (32 * i + (j - 32 * i)) by lia. rewrite bit_word by lia.
      apply lnot32_zero; [done | done | lia].
    + apply scan_word_wp; [done | lia | dlia | done | done | | done].
      intros r Hr. apply wp_ret. by apply HQ.
  - intros [] s [-> Hbits]. apply wp_ret, HQ. simpl. intros j Hj. apply Hbits. dlia.
Qed.

(** ** Loops over the bits of a bitmap inside a larger state

    [get] and [set] select the bitmap in the state of the component; index [i]
    of the loop is bit [g i = f + (i - lo)]. *)

Section BitLoops.
Context {S : Type} (get : S -> bitmap) (set : bitmap -> S -> S).
Hypothesis get_set : forall b s, get (set b s) = b.
Hypothesis set_get : forall s, set (get s) s = s.
Hypothesis set_set : forall b b' s, set b (set b' s) = set b s.
Context (s : S) (g : Z -> Z) (lo hi f : Z).
Hypothesis bm_ok : bitmap_ok (get s).
Hypothesis g_index : forall i, lo <= i < hi -> g i = f + (i - lo).
Hypothesis f_range : 0 <= f /\ f + (hi - lo) <= capacity (get s).

(** A loop that sets, or clears, one bit per iteration. *)
Lemma upd_bits_wp (op : Z -> M bitmap unit) (v : bool) (Q : unit -> S -> Prop) :
  (forall b p Q, bitmap_ok b -> 0 <= p < capacity b ->
     (forall b', bits_upd b b' p (p + 1) v -> Q tt b') -> wp (op p) Q b) ->
  lo <= hi ->
  (forall b', bits_upd (get s) b' f (f + (hi - lo)) v -> Q tt (set b' s)) ->
  wp (for_each lo hi (fun i => zoom get set (op (g i)))) Q s.
Proof.
  intros Hop Hle HQ.
  apply (wp_for_each (fun i t => exists b', t = set b' s /\
           bits_upd (get s) b' f (f + (i - lo)) v)).
  - exists (get s). rewrite set_get, Z.sub_diag, Z.add_0_r. auto using bits_upd_refl.
  - intros i t Hi (b' & -> & Hb). rewrite g_index by lia. apply wp_zoom. rewrite get_set.
    pose proof (same_shape_capacity _ _ (proj1 Hb)) as Hcap.
    apply Hop; [apply Hb | lia |]. intros b'' Hb''. exists b''. rewrite set_set. split; [done|].
    replace (f + (i + 1 - lo)) with (f + (i - lo) + 1) by lia.
    eapply bits_upd_step; [lia | exact Hb | exact Hb''].
  - intros t (b' & -> & Hb). apply HQ. by rewrite Z.max_r in Hb.
Qed.

(** A loop that leaves at the first bit that satisfies [c]. *)
Lemma check_bits_wp (c : bool -> bool) (e : Z) (Q : unit + Z -> S -> Prop) :
  lo <= hi ->
  ((forall j, f <= j < f + (hi - lo) -> c (bit (get s) j) = false) -> Q (inl tt) s) ->
  ((exists j, f <= j < f + (hi - lo) /\ c (bit (get s) j) = true) -> Q (inr e) s) ->
  wp (for_lt lo hi tt (fun i _ =>
        t <-- zoom get set (bitmap_test (g i)) ;;
        if c t then ret (inr e) else ret (inl tt))) Q s.
Proof.
  intros Hle Hall Hex.
  apply (wp_for_lt (fun i _ t => t = s /\
           forall j, f <= j < f + (i - lo) -> c (bit (get s) j) = false)).
  - split; [done | intros; lia].
  - intros i [] t Hi [-> Hj]. rewrite g_index by lia. wp_step. wp_step.
    apply bitmap_test_wp; [done | lia |]. rewrite set_get.
    destruct (c _) eqn:E; apply wp_ret.
    + apply Hex. exists (f + (i - lo)). split; [lia | done].
    + split; [done|]. intros j Hj'. destruct (Z.eq_dec j (f + (i - lo))) as [->|]; [done|].
      apply Hj. lia.
  - intros [] t [-> Hj]. apply Hall. by rewrite Z.max_r in Hj.
Qed.
End BitLoops.
