(* ===== verification/Pmm.v ===== *)
(** * Physical memory manager

    Models [kernel/mm/pmm.c], [kernel/include/mm/pmm.h] and the memory map of
    [kernel/include/boot/boot_info.h].  The static [pmm] structure is the state;
    the frame bitmap is a [Bitmap.bitmap].  An [out] pointer argument is a
    boolean (is it non-NULL) and the value stored through it is part of the
    result: [inl e] is the returned error code [e], [inr addr] is [KERR_OK] with
    [*out = addr].  The [pr_debug] calls are left out. *)

From S2P Require Import Prelude Base Runs Bitmap.

Definition PMM_FRAME_SIZE : Z := 4096.
Definition KERNEL_VIRT_BASE : Z := 3221225472. (* 0xC0000000 *)
Definition BOOT_TYPE_USABLE : Z := 1.

Inductive pmm_policy := PMM_POLICY_STRICT | PMM_POLICY_FALLBACK.

Record boot_mem_map_entry := mk_entry {
  me_base : Z;
  me_length : Z;
  me_type : Z;
  me_attr : Z
}.

Record pmm := mk_pmm {
  pm_bm : bitmap;
  pm_max_addr : Z;
  pm_total_frames : Z;
  pm_free_frames : Z
}.

Definition set_bm (b : bitmap) (s : pmm) : pmm :=
  mk_pmm b (pm_max_addr s) (pm_total_frames s) (pm_free_frames s).
Definition set_max_addr (v : Z) (s : pmm) : pmm :=
  mk_pmm (pm_bm s) v (pm_total_frames s) (pm_free_frames s).
Definition set_total_frames (v : Z) (s : pmm) : pmm :=
  mk_pmm (pm_bm s) (pm_max_addr s) v (pm_free_frames s).
Definition set_free_frames (v : Z) (s : pmm) : pmm :=
  mk_pmm (pm_bm s) (pm_max_addr s) (pm_total_frames s) v.

(** A call on [&pmm.bm]. *)
Abbreviation on_bm := (zoom pm_bm set_bm).

Definition pmm_addr_to_frame (addr : Z) : Z := u32 (addr / PMM_FRAME_SIZE).
Definition pmm_frame_to_addr (frame : Z) : Z := u64 (frame * PMM_FRAME_SIZE).

Definition pmm_validate_range (first_frame pages : Z) : M pmm Z :=
  if pages =? 0 then ret (- KERR_INVAL)
  else
    total <-- gets pm_total_frames ;;
    if total <=? first_frame then ret (- KERR_INVAL)
    else if u32 (total - first_frame) <? pages then ret (- KERR_INVAL)
    else ret KERR_OK.

Definition pmm_reserve (addr pages : Z) : M pmm Z :=
  if pages =? 0 then ret (- KERR_INVAL)
  else if negb (addr mod PMM_FRAME_SIZE =? 0) then ret (- KERR_INVAL)
  else
    let first_frame := pmm_addr_to_frame addr in
    v <-- pmm_validate_range first_frame pages ;;
    if v <? 0 then ret (- KERR_INVAL)
    else
      r <-- for_lt 0 pages tt (fun i _ =>
              t <-- on_bm (bitmap_test (u32 (first_frame + i))) ;;
              if t then ret (inr (- KERR_BUSY)) else ret (inl tt)) ;;
      match r with
      | inr e => ret e
      | inl _ =>
          for_each 0 pages (fun i => on_bm (bitmap_set (u32 (first_frame + i)))) ;;;
          modify (fun s => set_free_frames (u32 (pm_free_frames s - pages)) s) ;;;
          ret KERR_OK
      end.

Definition pmm_unreserve (addr pages : Z) : M pmm Z :=
  if pages =? 0 then ret (- KERR_INVAL)
  else if negb (addr mod PMM_FRAME_SIZE =? 0) then ret (- KERR_INVAL)
  else
    let first_frame := pmm_addr_to_frame addr in
    v <-- pmm_validate_range first_frame pages ;;
    if v <? 0 then ret (- KERR_INVAL)
    else
      r <-- for_lt 0 pages tt (fun i _ =>
              t <-- on_bm (bitmap_test (u32 (first_frame + i))) ;;
              if negb t then ret (inr (- KERR_INVAL)) else ret (inl tt)) ;;
      match r with
      | inr e => ret e
      | inl _ =>
          for_each 0 pages (fun i => on_bm (bitmap_clear (u32 (first_frame + i)))) ;;;
          modify (fun s => set_free_frames (u32 (pm_free_frames s + pages)) s) ;;;
          ret KERR_OK
      end.

Definition pmm_force_reserve_range (start_frame pages : Z) : M pmm unit :=
  for_each 0 pages (fun i =>
    let frame := u32 (start_frame + i) in
    total <-- gets pm_total_frames ;;
    if frame <? total then on_bm (bitmap_set frame) else ret tt).

(** ** Initialisation *)

Section Init.
(** Linker symbols [__kernel_start] and [__kernel_end], and the words of RAM
    from [__kernel_end] on, where the bitmap is placed. *)
Context (kernel_start kernel_end : Z) (kernel_end_words : list Z).

(** [map_ptr[i]] *)
Definition map_entry (map : list boot_mem_map_entry) (i : Z) : M pmm boot_mem_map_entry :=
  match map !! Z.to_nat i with Some e => ret e | None => undefined end.

Definition pmm_init (map_ptr : option (list boot_mem_map_entry)) (count : Z) : M pmm Z :=
  match map_ptr with
  | None => ret (- KERR_INVAL)
  | Some map =>
    if count =? 0 then ret (- KERR_INVAL)
    else
      modify (set_max_addr 0) ;;;
      for_each 0 count (fun i =>
        e <-- map_entry map i ;;
        if negb (me_type e =? BOOT_TYPE_USABLE) then ret tt
        else
          let entry_end := u64 (me_base e + me_length e) in
          max_addr <-- gets pm_max_addr ;;
          if max_addr <? entry_end then modify (set_max_addr entry_end) else ret tt) ;;;
      modify (fun s => set_total_frames
        (u32 (ALIGN_UP u64 (pm_max_addr s) PMM_FRAME_SIZE / PMM_FRAME_SIZE)) s) ;;;
      total <-- gets pm_total_frames ;;
      on_bm (bitmap_init kernel_end_words total) ;;;
      for_each 0 total (fun i => on_bm (bitmap_set i)) ;;;
      for_each 0 count (fun i =>
        e <-- map_entry map i ;;
        if negb (me_type e =? BOOT_TYPE_USABLE) then ret tt
        else
          let start := ALIGN_UP u64 (me_base e) PMM_FRAME_SIZE in
          let end_ := ALIGN_DOWN u64 (u64 (me_base e + me_length e)) PMM_FRAME_SIZE in
          let start_frame := u32 (start / PMM_FRAME_SIZE) in
          let end_frame := u32 (end_ / PMM_FRAME_SIZE) in
          for_each start_frame end_frame (fun frame => on_bm (bitmap_clear frame))) ;;;
      let first_mib_frames := (1024 * 1024) / PMM_FRAME_SIZE in
      pmm_force_reserve_range 0 first_mib_frames ;;;
      let kernel_start_phys := u64 (kernel_start - KERNEL_VIRT_BASE) in
      let kernel_end_phys := u64 (kernel_end - KERNEL_VIRT_BASE) in
      let kernel_start_frame :=
        pmm_addr_to_frame (ALIGN_DOWN u64 kernel_start_phys PMM_FRAME_SIZE) in
      let kernel_end_frame :=
        pmm_addr_to_frame (ALIGN_UP u64 kernel_end_phys PMM_FRAME_SIZE) in
      pmm_force_reserve_range kernel_start_frame
        (u32 (kernel_end_frame - kernel_start_frame)) ;;;
      let bitmap_size_bytes := u32 (total + 7) / 8 in
      let bitmap_start_phys := kernel_end_phys in
      let bitmap_end_phys := u64 (bitmap_start_phys + bitmap_size_bytes) in
      let bitmap_start_frame :=
        pmm_addr_to_frame (ALIGN_DOWN u64 bitmap_start_phys PMM_FRAME_SIZE) in
      let bitmap_end_frame :=
        pmm_addr_to_frame (ALIGN_UP u64 bitmap_end_phys PMM_FRAME_SIZE) in
      pmm_force_reserve_range bitmap_start_frame
        (u32 (bitmap_end_frame - bitmap_start_frame)) ;;;
      modify (set_free_frames 0) ;;;
      for_each 0 total (fun i =>
        t <-- on_bm (bitmap_test i) ;;
        if negb t
        then modify (fun s => set_free_frames (u32 (pm_free_frames s + 1)) s)
        else ret tt) ;;;
      ret KERR_OK
  end.
End Init.

(** ** Allocation *)

(** One activation of [pmm_alloc]; [fallback] is what it does when its own
    search fails. *)
Definition pmm_alloc_body (fallback : M pmm (Z + Z)) (min max pages : Z) (out : bool) :
    M pmm (Z + Z) :=
  if negb out || (pages =? 0) then ret (inl (- KERR_INVAL))
  else
    total <-- gets pm_total_frames ;;
    let start_frame :=
      if negb (min =? 0) then pmm_addr_to_frame (ALIGN_UP u64 min PMM_FRAME_SIZE) else 0 in
    let max_frame := if negb (max =? 0) then pmm_addr_to_frame max else total in
    let max_frame := if total <? max_frame then total else max_frame in
    r <-- (if start_frame <? max_frame then
             for_lt start_frame max_frame 0 (fun i consecutive =>
               t <-- on_bm (bitmap_test i) ;;
               if t then ret (inl 0)
               else
                 let consecutive := u32 (consecutive + 1) in
                 if consecutive =? pages then
                   let first_found_frame := u32 (i - pages + 1) in
                   for_each 0 pages (fun j =>
                     on_bm (bitmap_set (u32 (first_found_frame + j)))) ;;;
                   modify (fun s => set_free_frames (u32 (pm_free_frames s - pages)) s) ;;;
                   ret (inr (pmm_frame_to_addr first_found_frame))
                 else ret (inl consecutive))
           else ret (inl 0)) ;;
    match r with
    | inr addr => ret (inr addr)
    | inl _ => fallback
    end.

Definition pmm_alloc (min max pages : Z) (policy : pmm_policy) (out : bool) : M pmm (Z + Z) :=
  let strict min max := pmm_alloc_body (ret (inl (- KERR_NOMEM))) min max pages out in
  match policy with
  | PMM_POLICY_STRICT => strict min max
  | PMM_POLICY_FALLBACK => pmm_alloc_body (strict 0 0) min max pages out
  end.

Definition PMM_ALLOC_DMA16 (pages : Z) := pmm_alloc 0 DMA16_LIMIT pages PMM_POLICY_STRICT true.
Definition PMM_ALLOC_LOWMEM (pages : Z) := pmm_alloc 0 KERNEL_LOWMEM_LIMIT pages PMM_POLICY_STRICT true.
Definition PMM_ALLOC_HIGHMEM (pages : Z) := pmm_alloc KERNEL_LOWMEM_LIMIT 0 pages PMM_POLICY_FALLBACK true.
Definition PMM_ALLOC_ANY (pages : Z) := pmm_alloc 0 0 pages PMM_POLICY_STRICT true.

Definition pmm_free (addr pages : Z) : M pmm Z :=
  if pages =? 0 then ret (- KERR_INVAL)
  else if negb (addr mod PMM_FRAME_SIZE =? 0) then ret (- KERR_INVAL)
  else
    let start_frame := pmm_addr_to_frame addr in
    v <-- pmm_validate_range start_frame pages ;;
    if v <? 0 then ret (- KERR_INVAL)
    else
      r <-- for_lt start_frame (u32 (start_frame + pages)) tt (fun i _ =>
              t <-- on_bm (bitmap_test i) ;;
              if negb t then ret (inr (- KERR_INVAL)) else ret (inl tt)) ;;
      match r with
      | inr e => ret e
      | inl _ =>
          for_each start_frame (u32 (start_frame + pages)) (fun i => on_bm (bitmap_clear i)) ;;;
          modify (fun s => set_free_frames (u32 (pm_free_frames s + pages)) s) ;;;
          ret KERR_OK
      end.

(** ** Well-formedness and abstract view

    A PMM state is a set of used frames [frame_used]; [pmm_ok] says that the
    bitmap covers [total_frames] frames and that [free_frames] counts its clear
    bits. *)

Definition frame_used (s : pmm) (f : Z) : bool := bit (pm_bm s) f.

Definition pmm_ok (s : pmm) : Prop :=
  bitmap_ok (pm_bm s) /\ bm_nbits (pm_bm s) = pm_total_frames s /\
  pm_free_frames s = count_free (frame_used s) (Z.to_nat (pm_total_frames s)).

(** [s'] is [s] with the [n] frames from [f] marked used ([v = true]) or free. *)
Definition frames_upd (s s' : pmm) (f n : Z) (v : bool) : Prop :=
  (forall j, 0 <= j -> frame_used s' j = if (f <=? j) && (j <? f + n) then v else frame_used s j) /\
  pm_max_addr s' = pm_max_addr s /\ pm_total_frames s' = pm_total_frames s /\
  pm_free_frames s' = pm_free_frames s + (if v then - n else n).

Lemma set_bm_id s : set_bm (pm_bm s) s = s.
Proof. by destruct s. Qed.

Lemma pmm_ok_bounds s :
  pmm_ok s -> 0 <= pm_total_frames s <= 4294967264 /\ pm_total_frames s <= capacity (pm_bm s) /\
              0 <= pm_free_frames s <= pm_total_frames s.
Proof.
  intros ((_ & Hn & Hmax) & Ht & Hf). rewrite Ht in *. split; [lia|]. split; [lia|].
  pose proof (count_free_bounds (frame_used s) (Z.to_nat (pm_total_frames s))). lia.
Qed.

(** ** Loops over frames *)

Section FrameLoops.
Context (s : pmm) (g : Z -> Z) (lo hi f : Z).
Hypothesis bm_ok : bitmap_ok (pm_bm s).
Hypothesis g_index : forall i, lo <= i < hi -> g i = f + (i - lo).
Hypothesis f_range : 0 <= f /\ f + (hi - lo) <= capacity (pm_bm s).

(** A loop that sets, or clears, one bit per iteration. *)
Lemma upd_frames_wp (op : Z -> M bitmap unit) (v : bool) (Q : unit -> pmm -> Prop) :
  (forall b p Q, bitmap_ok b -> 0 <= p < capacity b ->
     (forall b', bits_upd b b' p (p + 1) v -> Q tt b') -> wp (op p) Q b) ->
  lo <= hi ->
  (forall b', bits_upd (pm_bm s) b' f (f + (hi - lo)) v -> Q tt (set_bm b' s)) ->
  wp (for_each lo hi (fun i => on_bm (op (g i)))) Q s.
Proof. apply (upd_bits_wp pm_bm set_bm); auto using set_bm_id. Qed.

(** A loop that leaves at the first frame whose bit satisfies [c]. *)
Lemma check_frames_wp (c : bool -> bool) (e : Z) (Q : unit + Z -> pmm -> Prop) :
  lo <= hi ->
  ((forall j, f <= j < f + (hi - lo) -> c (frame_used s j) = false) -> Q (inl tt) s) ->
  ((exists j, f <= j < f + (hi - lo) /\ c (frame_used s j) = true) -> Q (inr e) s) ->
  wp (for_lt lo hi tt (fun i _ =>
        t <-- on_bm (bitmap_test (g i)) ;;
        if c t then ret (inr e) else ret (inl tt))) Q s.
Proof. apply (check_bits_wp pm_bm set_bm); auto using set_bm_id. Qed.
End FrameLoops.

Lemma pmm_validate_range_wp s first n (Q : Z -> pmm -> Prop) :
  pmm_ok s -> 0 <= first -> 0 <= n ->
  (0 < n -> first + n <= pm_total_frames s -> Q KERR_OK s) ->
  (~ (0 < n /\ first + n <= pm_total_frames s) -> Q (- KERR_INVAL) s) ->
  wp (pmm_validate_range first n) Q s.
Proof.
  intros Hok Hf Hn HQ HQ'. pose proof (pmm_ok_bounds s Hok). unfold pmm_validate_range.
  destruct (Z.eqb_spec n 0); [apply wp_ret, HQ'; lia|]. wp_step. wp_step.
  destruct (Z.leb_spec (pm_total_frames s) first); [apply wp_ret, HQ'; lia|].
  rewrite u32_id by (unfold is_u32; lia).
  destruct (Z.ltb_spec (pm_total_frames s - first) n); apply wp_ret; [apply HQ' | apply HQ]; lia.
Qed.

(** Marking the [n] frames from [f], all of them in the opposite state, and
    adjusting the counter keeps the state well formed. *)
Lemma upd_ok s b' f n (v : bool) c :
  pmm_ok s -> 0 <= f -> 0 <= n -> f + n <= pm_total_frames s ->
  bits_upd (pm_bm s) b' f (f + n) v ->
  (forall j, f <= j < f + n -> frame_used s j = negb v) ->
  c = u32 (pm_free_frames s + (if v then - n else n)) ->
  let s' := set_free_frames c (set_bm b' s) in
  pmm_ok s' /\ frames_upd s s' f n v.
Proof.
  intros Hok Hf Hn Hle [(Hok' & Hnb & Hne & Hlen) Hbits] Hstate ->. cbn zeta.
  pose proof (pmm_ok_bounds s Hok) as Hb. destruct (Hok) as (_ & Ht & Hfree).
  set (s' := set_free_frames _ _).
  assert (count_free (frame_used s') (Z.to_nat (pm_total_frames s)) =
          pm_free_frames s + (if v then - n else n)) as Hcount.
  { rewrite Hfree. destruct v.
    - rewrite (count_free_fill (frame_used s) (frame_used s') f (f + n)); [lia.. | |].
      + intros j Hj. by apply Hbits.
      + done.
    - rewrite (count_free_fill (frame_used s') (frame_used s) f (f + n) _); [lia.. | |].
      + intros j Hj. unfold s', frame_used; cbn. rewrite Hbits by done.
        specialize (Hstate j). unfold frame_used in Hstate.
        zcases; simpl; auto with lia.
      + intros j Hj. unfold s', frame_used; cbn. rewrite Hbits by lia.
        zcases; simpl; done || lia. }
  pose proof (count_free_bounds (frame_used s') (Z.to_nat (pm_total_frames s))).
  assert (u32 (pm_free_frames s + (if v then - n else n)) = pm_free_frames s + (if v then - n else n))
    as Hw by (apply u32_id; unfold is_u32; lia).
  split.
  - split; [done|]. split; [cbn; congruence|]. cbn. rewrite Hw. symmetry. exact Hcount.
  - split; [done|]. cbn. auto.
Qed.

(** ** Allocation *)

(** The search window of [pmm_alloc], in frames: [lo] is the first frame at or
    above [min], [hi] is the frame bound given by [max], 0 meaning "no bound". *)
Definition window_lo (min : Z) : Z := (min + 4095) / 4096.
Definition window_hi (s : pmm) (max : Z) : Z :=
  if max =? 0 then pm_total_frames s else Z.min (max / 4096) (pm_total_frames s).

(** What a successful allocation of [n] frames in [lo, hi) yields. *)
Definition alloc_result (s s' : pmm) (lo hi n addr : Z) : Prop :=
  exists f, addr = f * 4096 /\ f + n <= hi /\ is_first_run (frame_used s) lo f n /\
    pmm_ok s' /\ frames_upd s s' f n true.

Definition no_run (s : pmm) (lo hi n : Z) : Prop :=
  forall f, lo <= f -> f + n <= hi -> ~ free_run (frame_used s) f n.

(** The scanning loop of [pmm_alloc]. *)
Lemma alloc_scan_wp s lo hi n (Q : Z + Z -> pmm -> Prop) :
  pmm_ok s -> 0 <= lo <= hi -> hi <= pm_total_frames s -> 0 < n < 4294967296 ->
  (forall addr s', alloc_result s s' lo hi n addr -> Q (inr addr) s') ->
  (forall c, no_run s lo hi n -> Q (inl c) s) ->
  wp (for_lt lo hi 0 (fun i consecutive =>
        t <-- on_bm (bitmap_test i) ;;
        if t then ret (inl 0)
        else
          let consecutive := u32 (consecutive + 1) in
          if consecutive =? n then
            let first_found_frame := u32 (i - n + 1) in
            for_each 0 n (fun j => on_bm (bitmap_set (u32 (first_found_frame + j)))) ;;;
            modify (fun s => set_free_frames (u32 (pm_free_frames s - n)) s) ;;;
            ret (inr (pmm_frame_to_addr first_found_frame))
          else ret (inl consecutive))) Q s.
Proof.
  intros Hok Hlh Hhi Hn HQ HQ'. pose proof (pmm_ok_bounds s Hok) as Hb.
  apply (wp_for_lt (fun i c t => t = s /\ scan_inv (frame_used s) lo n i c)).
  - split; [done|]. apply scan_init. lia.
  - intros i c t Hi [-> Hinv]. wp_step. wp_step.
    apply bitmap_test_wp; [apply Hok | lia |]. rewrite set_bm_id. fold (frame_used s i).
    destruct (frame_used s i) eqn:E.
    + apply wp_ret. split; [done|]. eapply scan_used; [lia | done..].
    + destruct (Hinv) as ((Hc & Hcn) & Hci & _). unwrap32. cbn zeta.
      destruct (Z.eqb_spec (c + 1) n) as [Heq|Hne].
      2: { wp_step. split; [done|]. by apply scan_free. }
      pose proof (scan_found _ _ _ _ _ Hinv E Heq) as Hfirst.
      cbn zeta. rewrite (u32_id (i - n + 1)) by (unfold is_u32; lia). wp_step.
      eapply (upd_frames_wp s _ 0 n (i - n + 1));
        [apply Hok | intros j Hj; rewrite u32_id; unfold is_u32; lia | lia
        | exact bitmap_set_wp | lia |].
      rewrite Z.sub_0_r. intros b' Hb'. wp_steps.
      assert (pmm_frame_to_addr (i - n + 1) = (i - n + 1) * 4096) as ->
        by (apply u64_id; unfold is_u64, PMM_FRAME_SIZE; lia).
      apply HQ. exists (i - n + 1). split; [done|]. split; [lia|]. split; [done|].
      apply (upd_ok s b' _ n true); [done | lia.. | done | apply Hfirst | done].
  - intros c t [-> (_ & _ & _ & _ & Hnone)]. apply HQ'. intros f Hf Hle. apply Hnone; lia.
Qed.

Lemma alloc_body_wp s fb min max n (Q : Z + Z -> pmm -> Prop) :
  pmm_ok s -> 0 <= min <= 17592186040320 -> 0 <= max < 17592186044416 -> is_u32 n ->
  let lo := window_lo min in
  let hi := window_hi s max in
  (n = 0 -> Q (inl (- KERR_INVAL)) s) ->
  (forall addr s', 0 < n -> alloc_result s s' lo hi n addr -> Q (inr addr) s') ->
  (0 < n -> no_run s lo hi n -> wp fb Q s) ->
  wp (pmm_alloc_body fb min max n true) Q s.
Proof.
  intros Hok Hmin Hmax Hn lo hi HQ0 HQ HQfb. pose proof (pmm_ok_bounds s Hok) as Hb.
  unfold pmm_alloc_body. simpl (negb true || _).
  destruct (Z.eqb_spec n 0) as [->|Hn0]; [apply wp_ret; auto|]. wp_step. wp_step.
  assert ((if negb (min =? 0) then pmm_addr_to_frame (ALIGN_UP u64 min PMM_FRAME_SIZE) else 0) = lo)
    as ->.
  { unfold lo, window_lo, pmm_addr_to_frame, PMM_FRAME_SIZE. destruct (Z.eqb_spec min 0) as [->|]; [done|].
    simpl. rewrite ALIGN_UP_page64, Z.div_mul by lia. apply u32_id. unfold is_u32. dlia. }
  assert ((let max_frame := if negb (max =? 0) then pmm_addr_to_frame max else pm_total_frames s in
           if pm_total_frames s <? max_frame then pm_total_frames s else max_frame) = hi) as Hhi.
  { unfold hi, window_hi, pmm_addr_to_frame, PMM_FRAME_SIZE.
    destruct (Z.eqb_spec max 0); simpl; [by rewrite Z.ltb_irrefl|].
    rewrite u32_id by (unfold is_u32; dlia). zcases; lia. }
  cbn zeta in Hhi |- *. rewrite Hhi. clear Hhi.
  assert (0 <= lo /\ hi <= pm_total_frames s) as [Hlo Hhi].
  { unfold lo, hi, window_lo, window_hi. split; [dlia|]. zcases; lia. }
  unfold is_u32 in Hn. wp_step.
  destruct (Z.ltb_spec lo hi).
  - apply alloc_scan_wp; [done | lia.. | |].
    + intros addr s' Hr. apply wp_ret. apply HQ; [lia | done].
    + intros c Hnone. apply HQfb; [lia | done].
  - wp_step. apply HQfb; [lia|]. intros f Hf Hle. lia.
Qed.

(** The frames given out by a successful strict allocation are the first fit
    inside the window; a failure is reported only when there is no fit. *)
Definition alloc_spec (s : pmm) (lo hi n : Z) (r : Z + Z) (s' : pmm) : Prop :=
  match r with
  | inr addr => 0 < n /\ alloc_result s s' lo hi n addr
  | inl e => s' = s /\ ((n = 0 /\ e = - KERR_INVAL) \/
                        (0 < n /\ e = - KERR_NOMEM /\ no_run s lo hi n))
  end.

Lemma pmm_alloc_strict_wp s min max n :
  pmm_ok s -> 0 <= min <= 17592186040320 -> 0 <= max < 17592186044416 -> is_u32 n ->
  wp (pmm_alloc min max n PMM_POLICY_STRICT true)
     (alloc_spec s (window_lo min) (window_hi s max) n) s.
Proof.
  intros Hok Hmin Hmax Hn. unfold pmm_alloc. apply alloc_body_wp; [done.. | | |].
  - intros ->. split; [done|]. by left.
  - done.
  - intros Hpos Hnone. apply wp_ret. split; [done|]. by right.
Qed.

Lemma pmm_alloc_fallback_wp s min max n :
  pmm_ok s -> 0 <= min <= 17592186040320 -> 0 <= max < 17592186044416 -> is_u32 n ->
  wp (pmm_alloc min max n PMM_POLICY_FALLBACK true)
     (fun r s' => match r with
        | inr addr => alloc_result s s' (window_lo min) (window_hi s max) n addr \/
            (no_run s (window_lo min) (window_hi s max) n /\
             alloc_result s s' 0 (pm_total_frames s) n addr)
        | inl e => s' = s /\ ((n = 0 /\ e = - KERR_INVAL) \/
            (e = - KERR_NOMEM /\ no_run s 0 (pm_total_frames s) n))
        end) s.
Proof.
  intros Hok Hmin Hmax Hn. unfold pmm_alloc. apply alloc_body_wp; [done.. | | |].
  - intros ->. split; [done|]. by left.
  - intros addr s' _ Hr. by left.
  - intros Hpos Hnone. wp_use (pmm_alloc_strict_wp s 0 0 n); [done | lia.. | done |].
    intros [e|addr] s'.
    + intros [-> [[-> _]|(_ & -> & Hno)]]; [lia|]. split; [done|]. by right.
    + intros [_ Hr]. right. split; [exact Hnone | exact Hr].
Qed.

(** ** Release *)

(** The range named by an address and a number of pages is inside the PMM. *)
Definition range_ok (s : pmm) (addr n : Z) : Prop :=
  0 < n /\ addr mod 4096 = 0 /\ addr / 4096 + n <= pm_total_frames s.

Definition all_used (s : pmm) (f n : Z) : Prop :=
  forall j, f <= j < f + n -> frame_used s j = true.

(** The argument checks shared by [pmm_reserve], [pmm_unreserve], [pmm_free]. *)
Lemma range_check_wp s addr n (k : M pmm Z) (Q : Z -> pmm -> Prop) :
  pmm_ok s -> 0 <= addr < 17592186044416 -> 0 <= n ->
  (range_ok s addr n -> wp k Q s) ->
  (~ range_ok s addr n -> Q (- KERR_INVAL) s) ->
  wp (if n =? 0 then ret (- KERR_INVAL)
      else if negb (addr mod PMM_FRAME_SIZE =? 0) then ret (- KERR_INVAL)
      else
        v <-- pmm_validate_range (pmm_addr_to_frame addr) n ;;
        if v <? 0 then ret (- KERR_INVAL) else k) Q s.
Proof.
  intros Hok Ha Hn Hk HQ. unfold PMM_FRAME_SIZE, pmm_addr_to_frame, range_ok in *.
  destruct (Z.eqb_spec n 0); [apply wp_ret, HQ; lia|].
  destruct (Z.eqb_spec (addr mod 4096) 0); simpl; [|apply wp_ret, HQ; lia].
  wp_step. unfold PMM_FRAME_SIZE. rewrite u32_id by (unfold is_u32; dlia).
  apply pmm_validate_range_wp; [done | dlia | lia | |].
  - intros Hpos Hle. apply Hk. auto.
  - intros Hno. apply wp_ret, HQ. tauto.
Qed.

Lemma frame_of_addr addr : 0 <= addr < 17592186044416 -> pmm_addr_to_frame addr = addr / 4096.
Proof. intros H. apply u32_id. unfold is_u32, PMM_FRAME_SIZE. dlia. Qed.

Lemma pmm_free_wp s addr n :
  pmm_ok s -> 0 <= addr < 17592186044416 -> is_u32 n ->
  wp (pmm_free addr n) (fun r s' =>
    (r = KERR_OK /\ range_ok s addr n /\ all_used s (addr / 4096) n /\
     pmm_ok s' /\ frames_upd s s' (addr / 4096) n false) \/
    (r = - KERR_INVAL /\ s' = s /\ ~ (range_ok s addr n /\ all_used s (addr / 4096) n))) s.
Proof.
  intros Hok Ha Hn. pose proof (pmm_ok_bounds s Hok) as Hb. unfold is_u32 in Hn.
  unfold pmm_free. apply range_check_wp; [done | done | lia | |].
  2: { intros Hno. right. tauto. }
  intros Hr. destruct (Hr) as (Hpos & Hal & Hle). rewrite frame_of_addr by done.
  assert (0 <= addr / 4096) by dlia.
  rewrite !(u32_id (addr / 4096 + n)) by (unfold is_u32; lia). wp_step.
  apply (check_frames_wp s id _ _ (addr / 4096)); unfold id; [apply Hok | lia | lia | lia | |].
  - intros Hall. cbn beta iota. wp_step.
    eapply (upd_frames_wp s id _ _ (addr / 4096)); unfold id;
      [apply Hok | lia | lia | exact bitmap_clear_wp | lia |].
    replace (addr / 4096 + (addr / 4096 + n - addr / 4096)) with (addr / 4096 + n) in * by lia.
    intros b' Hb'. wp_steps. left. split; [done|]. split; [done|].
    assert (all_used s (addr / 4096) n) as Hused.
    { intros j Hj. specialize (Hall j Hj). by destruct (frame_used s j). }
    split; [done|]. apply upd_ok; done || lia.
  - intros (j & Hj & Hc). wp_step. right. split; [done|]. split; [done|]. intros [_ Hu].
    rewrite Hu in Hc by lia. done.
Qed.

(** ** Reservation *)

Lemma pmm_reserve_wp s addr n :
  pmm_ok s -> 0 <= addr < 17592186044416 -> is_u32 n ->
  wp (pmm_reserve addr n) (fun r s' =>
    (r = KERR_OK /\ range_ok s addr n /\ free_run (frame_used s) (addr / 4096) n /\
     pmm_ok s' /\ frames_upd s s' (addr / 4096) n true) \/
    (r = - KERR_BUSY /\ s' = s /\ range_ok s addr n /\ ~ free_run (frame_used s) (addr / 4096) n) \/
    (r = - KERR_INVAL /\ s' = s /\ ~ range_ok s addr n)) s.
Proof.
  intros Hok Ha Hn. pose proof (pmm_ok_bounds s Hok) as Hb. unfold is_u32 in Hn.
  unfold pmm_reserve. apply range_check_wp; [done | done | lia | |].
  2: { intros Hno. right; right. tauto. }
  intros Hr. destruct (Hr) as (Hpos & Hal & Hle). rewrite frame_of_addr by done.
  assert (0 <= addr / 4096) by dlia. wp_step.
  apply (check_frames_wp s (fun i => u32 (addr / 4096 + i)) 0 n (addr / 4096))
    with (c := fun b : bool => b);
    [apply Hok | intros i Hi; rewrite u32_id; unfold is_u32; lia | lia | lia | |]; rewrite Z.sub_0_r.
  - intros Hall. cbn beta iota. wp_step.
    eapply (upd_frames_wp s (fun i => u32 (addr / 4096 + i)) 0 n (addr / 4096));
      [apply Hok | intros i Hi; rewrite u32_id; unfold is_u32; lia | lia
      | exact bitmap_set_wp | lia |].
    rewrite Z.sub_0_r. intros b' Hb'. wp_steps. left. split; [done|]. split; [done|].
    split; [done|]. apply upd_ok; done || lia.
  - intros (j & Hj & Hc). wp_step. right; left. split; [done|]. split; [done|].
    split; [done|]. intros Hfree. rewrite Hfree in Hc by lia. done.
Qed.

Lemma pmm_unreserve_wp s addr n :
  pmm_ok s -> 0 <= addr < 17592186044416 -> is_u32 n ->
  wp (pmm_unreserve addr n) (fun r s' =>
    (r = KERR_OK /\ range_ok s addr n /\ all_used s (addr / 4096) n /\
     pmm_ok s' /\ frames_upd s s' (addr / 4096) n false) \/
    (r = - KERR_INVAL /\ s' = s /\ ~ (range_ok s addr n /\ all_used s (addr / 4096) n))) s.
Proof.
  intros Hok Ha Hn. pose proof (pmm_ok_bounds s Hok) as Hb. unfold is_u32 in Hn.
  unfold pmm_unreserve. apply range_check_wp; [done | done | lia | |].
  2: { intros Hno. right. tauto. }
  intros Hr. destruct (Hr) as (Hpos & Hal & Hle). rewrite frame_of_addr by done.
  assert (0 <= addr / 4096) by dlia. wp_step.
  apply (check_frames_wp s (fun i => u32 (addr / 4096 + i)) 0 n (addr / 4096));
    [apply Hok | intros i Hi; rewrite u32_id; unfold is_u32; lia | lia | lia | |];
    rewrite Z.sub_0_r.
  - intros Hall. cbn beta iota. wp_step.
    eapply (upd_frames_wp s (fun i => u32 (addr / 4096 + i)) 0 n (addr / 4096));
      [apply Hok | intros i Hi; rewrite u32_id; unfold is_u32; lia | lia
      | exact bitmap_clear_wp | lia |].
    rewrite Z.sub_0_r. intros b' Hb'. wp_steps. left. split; [done|]. split; [done|].
    assert (all_used s (addr / 4096) n) as Hused.
    { intros j Hj. specialize (Hall j Hj). by destruct (frame_used s j). }
    split; [done|]. apply upd_ok; done || lia.
  - intros (j & Hj & Hc). wp_step. right. split; [done|]. split; [done|]. intros [_ Hu].
    rewrite Hu in Hc by lia. done.
Qed.

(** ** Initialisation *)

Definition usable (e : boot_mem_map_entry) : bool := me_type e =? BOOT_TYPE_USABLE.

(** End of the highest usable entry. *)
Definition max_end (map : list boot_mem_map_entry) : Z :=
  foldl (fun m e => if usable e then Z.max m (me_base e + me_length e) else m) 0 map.

(** Frame [f] lies entirely inside a usable entry. *)
Definition in_usable (map : list boot_mem_map_entry) (f : Z) : bool :=
  existsb (fun e => usable e && (me_base e <=? 4096 * f) &&
                    (4096 * f + 4096 <=? me_base e + me_length e)) map.

(** Entries that end below 2^44 - 4096, so that frame numbers fit 32 bits. *)
Definition entry_ok (e : boot_mem_map_entry) : Prop :=
  0 <= me_base e /\ 0 <= me_length e /\ me_base e + me_length e <= 17592186040320.

(** During initialisation: the bitmap covers [total] frames and says [P]. *)
Definition init_st (total maxa : Z) (P : Z -> bool) (s : pmm) : Prop :=
  bitmap_ok (pm_bm s) /\ bm_nbits (pm_bm s) = total /\ pm_total_frames s = total /\
  pm_max_addr s = maxa /\ forall j, 0 <= j < total -> frame_used s j = P j.

Lemma init_st_bounds total maxa P s :
  init_st total maxa P s -> 0 <= total <= capacity (pm_bm s) /\ total <= 4294967264.
Proof. intros ((_ & Hn & Hm) & Hnb & _). rewrite <- Hnb. lia. Qed.

Lemma init_st_ext total maxa P P' s :
  init_st total maxa P s -> (forall j, 0 <= j < total -> P j = P' j) -> init_st total maxa P' s.
Proof.
  intros (H1 & H2 & H3 & H4 & H5) He. repeat (split; [done|]).
  intros j Hj. by rewrite H5, He.
Qed.

(** A bitmap update during initialisation. *)
Lemma init_st_upd total maxa P s b' lo hi v :
  init_st total maxa P s -> bits_upd (pm_bm s) b' lo hi v ->
  init_st total maxa (fun j => if (lo <=? j) && (j <? hi) then v else P j) (set_bm b' s).
Proof.
  intros (H1 & H2 & H3 & H4 & H5) [(G1 & G2 & _) G3].
  split; [done|]. split; [cbn; congruence|]. split; [done|]. split; [done|].
  intros j Hj. unfold frame_used; cbn. rewrite G3 by lia. by rewrite <- H5.
Qed.

Lemma for_each_empty {S} lo hi (body : Z -> M S unit) (Q : unit -> S -> Prop) s :
  hi <= lo -> Q tt s -> wp (for_each lo hi body) Q s.
Proof.
  intros Hle HQ. apply (wp_for_each (fun _ t => t = s)); [done | intros; lia|].
  by intros t ->.
Qed.

(** Setting or clearing a range of frames below [total]. *)
Lemma init_range_wp total maxa P s lo hi op v (Q : unit -> pmm -> Prop) :
  init_st total maxa P s -> 0 <= lo -> hi <= total ->
  (forall b p Q, bitmap_ok b -> 0 <= p < capacity b ->
     (forall b', bits_upd b b' p (p + 1) v -> Q tt b') -> wp (op p) Q b) ->
  (forall s', init_st total maxa (fun j => if (lo <=? j) && (j <? hi) then v else P j) s' ->
     pm_free_frames s' = pm_free_frames s -> Q tt s') ->
  wp (for_each lo hi (fun i => on_bm (op i))) Q s.
Proof.
  intros Hs Hlo Hhi Hop HQ. destruct (init_st_bounds _ _ _ _ Hs).
  destruct (Z.le_gt_cases hi lo) as [Hle|Hgt].
  - apply for_each_empty; [done|]. apply HQ; [|done].
    eapply init_st_ext; [exact Hs|]. intros j Hj. zcases; simpl; done || lia.
  - eapply (upd_frames_wp s id lo hi lo); unfold id; [apply Hs | lia | lia | exact Hop | lia |].
    intros b' Hb'. replace (lo + (hi - lo)) with hi in Hb' by lia.
    apply HQ; [|done]. by apply init_st_upd.
Qed.

Lemma force_reserve_wp total maxa P s start n (Q : unit -> pmm -> Prop) :
  init_st total maxa P s -> 0 <= start -> 0 <= n -> start + n <= 4294967296 ->
  (forall s', init_st total maxa
       (fun j => if (start <=? j) && (j <? start + n) then true else P j) s' -> Q tt s') ->
  wp (pmm_force_reserve_range start n) Q s.
Proof.
  intros Hs Hst Hn Hle HQ. unfold pmm_force_reserve_range.
  apply (wp_for_each (fun i t => init_st total maxa
           (fun j => if (start <=? j) && (j <? start + i) then true else P j) t)).
  - eapply init_st_ext; [exact Hs|]. intros j Hj. zcases; simpl; done || lia.
  - intros i t Hi Ht. destruct (init_st_bounds _ _ _ _ Ht) as [Hcap Hmax].
    rewrite u32_id by (unfold is_u32; lia). wp_step. wp_step.
    destruct (Ht) as (_ & _ & -> & _).
    destruct (Z.ltb_spec (start + i) total).
    + wp_step. apply bitmap_set_wp; [apply Ht | lia |]. intros b' Hb'.
      eapply init_st_ext; [eapply init_st_upd; [exact Ht | exact Hb'] |].
      intros j Hj; cbn beta. zcases; simpl; done || lia.
    + wp_step. eapply init_st_ext; [exact Ht |].
      intros j Hj; cbn beta. zcases; simpl; done || lia.
  - intros t Ht. apply HQ. by rewrite Z.max_r in Ht.
Qed.

(** A loop over the entries of the memory map, at the start of an array. *)
Lemma wp_entries map rest (I : list boot_mem_map_entry -> pmm -> Prop) body (Q : unit -> pmm -> Prop) s :
  I [] s ->
  (forall pre e t, e ∈ map -> I pre t -> wp (body e) (fun _ t' => I (pre ++ [e]) t') t) ->
  (forall t, I map t -> Q tt t) ->
  wp (for_each 0 (Z.of_nat (length map)) (fun i => e <-- map_entry (map ++ rest) i ;; body e)) Q s.
Proof.
  intros H0 Hstep Hend.
  apply (wp_for_each (fun i t => I (take (Z.to_nat i) map) t)); [done | |].
  - intros i t Hi Ht.
    destruct (lookup_lt_is_Some_2 map (Z.to_nat i)) as [e He]; [lia|].
    unfold map_entry. rewrite lookup_app_l, He by lia. wp_step. wp_step.
    replace (Z.to_nat (i + 1)) with (S (Z.to_nat i)) by lia.
    rewrite (take_S_r _ _ e He). apply Hstep; [|done]. by eapply list_elem_of_lookup_2.
  - intros t Ht. apply Hend. by rewrite Z.max_r, Nat2Z.id, take_ge in Ht by lia.
Qed.

Lemma max_end_app m e :
  max_end (m ++ [e]) = if usable e then Z.max (max_end m) (me_base e + me_length e) else max_end m.
Proof. unfold max_end. by rewrite foldl_app. Qed.

Lemma max_end_spec map :
  0 <= max_end map /\ forall e, e ∈ map -> usable e = true -> me_base e + me_length e <= max_end map.
Proof.
  induction map as [|e map IH] using rev_ind; [split; [done | set_solver]|].
  rewrite max_end_app. destruct IH as [H0 IH]. split; [destruct (usable e); lia|].
  intros e' He' Hu. apply elem_of_app in He' as [He'|He'].
  - specialize (IH _ He' Hu). destruct (usable e); lia.
  - apply list_elem_of_singleton in He' as ->. rewrite Hu. lia.
Qed.

Lemma max_end_bound map : Forall entry_ok map -> max_end map <= 17592186040320.
Proof.
  induction map as [|e map IH] using rev_ind; intros Hall; [done|].
  apply Forall_app in Hall as [H1 H2]. inversion H2 as [|?? He]; subst.
  rewrite max_end_app. unfold entry_ok in He. specialize (IH H1). destruct (usable e); lia.
Qed.

Section InitSpec.
Context (map : list boot_mem_map_entry) (kernel_start kernel_end : Z) (rest : list boot_mem_map_entry).

Definition boot_frames : Z := (max_end map + 4095) / 4096.

(** Frames withheld from allocation: the first MiB, the kernel image and the
    bitmap that follows it. *)
Definition boot_reserved (f : Z) : bool :=
  let ks := kernel_start - KERNEL_VIRT_BASE in
  let ke := kernel_end - KERNEL_VIRT_BASE in
  (f <? 256) ||
  ((ks / 4096 <=? f) && (f <? (ke + 4095) / 4096)) ||
  ((ke / 4096 <=? f) && (f <? (ke + (boot_frames + 7) / 8 + 4095) / 4096)).

Hypothesis entries_ok : Forall entry_ok map.

Lemma boot_frames_nonneg : 0 <= boot_frames.
Proof. unfold boot_frames. destruct (max_end_spec map). dlia. Qed.

(** First loop: the end of the highest usable entry. *)
Lemma init_max_wp s (Q : unit -> pmm -> Prop) :
  (forall s', pm_max_addr s' = max_end map -> Q tt s') ->
  pm_max_addr s = 0 ->
  wp (for_each 0 (Z.of_nat (length map)) (fun i =>
        e <-- map_entry (map ++ rest) i ;;
        if negb (me_type e =? BOOT_TYPE_USABLE) then ret tt
        else
          let entry_end := u64 (me_base e + me_length e) in
          max_addr <-- gets pm_max_addr ;;
          if max_addr <? entry_end then modify (set_max_addr entry_end) else ret tt)) Q s.
Proof.
  intros HQ H0. apply (wp_entries map rest (fun pre t => pm_max_addr t = max_end pre)); [done | |auto].
  intros pre e t He Ht. rewrite max_end_app. fold (usable e).
  rewrite Forall_forall in entries_ok. pose proof (entries_ok e He) as (? & ? & ?).
  destruct (usable e); simpl; [|by wp_step].
  rewrite u64_id by (unfold is_u64; lia). wp_step. wp_step. rewrite Ht.
  destruct (Z.ltb_spec (max_end pre) (me_base e + me_length e)); wp_step; cbn; lia.
Qed.

(** Third loop: free the frames of the usable entries. *)
Lemma init_usable_wp s (Q : unit -> pmm -> Prop) :
  init_st boot_frames (max_end map) (fun _ => true) s ->
  (forall s', init_st boot_frames (max_end map) (fun f => negb (in_usable map f)) s' -> Q tt s') ->
  wp (for_each 0 (Z.of_nat (length map)) (fun i =>
        e <-- map_entry (map ++ rest) i ;;
        if negb (me_type e =? BOOT_TYPE_USABLE) then ret tt
        else
          let start := ALIGN_UP u64 (me_base e) PMM_FRAME_SIZE in
          let end_ := ALIGN_DOWN u64 (u64 (me_base e + me_length e)) PMM_FRAME_SIZE in
          let start_frame := u32 (start / PMM_FRAME_SIZE) in
          let end_frame := u32 (end_ / PMM_FRAME_SIZE) in
          for_each start_frame end_frame (fun frame => on_bm (bitmap_clear frame)))) Q s.
Proof.
  intros Hs HQ.
  apply (wp_entries map rest (fun pre t =>
    init_st boot_frames (max_end map) (fun f => negb (in_usable pre f)) t)); [done | |auto].
  intros pre e t He Ht. fold (usable e).
  rewrite Forall_forall in entries_ok. pose proof (entries_ok e He) as (? & ? & ?).
  pose proof (proj2 (max_end_spec map) e He) as Hmax.
  assert (forall f, in_usable (pre ++ [e]) f = in_usable pre f ||
            (usable e && (me_base e <=? 4096 * f) &&
             (4096 * f + 4096 <=? me_base e + me_length e))) as Happ.
  { intros f. unfold in_usable. rewrite existsb_app. simpl. by rewrite orb_false_r. }
  destruct (usable e) eqn:Hu; simpl.
  2: { wp_step. eapply init_st_ext; [exact Ht|]. intros j Hj. by rewrite Happ, orb_false_r. }
  specialize (Hmax eq_refl). unfold PMM_FRAME_SIZE.
  rewrite (u64_id (me_base e + _)) by (unfold is_u64; lia).
  rewrite ALIGN_UP_page64, ALIGN_DOWN_page64, !Z.div_mul by (unfold is_u64; lia).
  rewrite !u32_id by (unfold is_u32; dlia).
  eapply init_range_wp; [exact Ht | dlia | unfold boot_frames; dlia | exact bitmap_clear_wp |].
  intros s' Hs' _. eapply init_st_ext; [exact Hs'|]. intros f Hf. cbn beta. rewrite Happ. simpl.
  rewrite negb_orb. destruct (in_usable pre f); simpl; [by destruct (_ && _)|].
  destruct (Z.leb_spec ((me_base e + 4095) / 4096) f),
    (Z.ltb_spec f ((me_base e + me_length e) / 4096)), (Z.leb_spec (me_base e) (4096 * f)),
    (Z.leb_spec (4096 * f + 4096) (me_base e + me_length e)); simpl; done || (exfalso; dlia).
Qed.

(** Last loop: count the free frames. *)
Lemma init_count_wp s P (Q : unit -> pmm -> Prop) :
  init_st boot_frames (max_end map) P s -> pm_free_frames s = 0 ->
  (forall s', pmm_ok s' -> init_st boot_frames (max_end map) P s' -> Q tt s') ->
  wp (for_each 0 boot_frames (fun i =>
        t <-- on_bm (bitmap_test i) ;;
        if negb t
        then modify (fun s => set_free_frames (u32 (pm_free_frames s + 1)) s)
        else ret tt)) Q s.
Proof.
  intros Hs H0 HQ. pose proof boot_frames_nonneg. destruct (init_st_bounds _ _ _ _ Hs).
  apply (wp_for_each (fun i t => init_st boot_frames (max_end map) P t /\
           pm_free_frames t = count_free (frame_used t) (Z.to_nat i))); [done | |].
  - intros i t Hi [Ht Hc]. destruct (init_st_bounds _ _ _ _ Ht). wp_step. wp_step.
    apply bitmap_test_wp; [apply Ht | lia |]. rewrite set_bm_id. fold (frame_used t i).
    pose proof (count_free_bounds (frame_used t) (Z.to_nat i)).
    replace (Z.to_nat (i + 1)) with (S (Z.to_nat i)) by lia. cbn [count_free].
    destruct (frame_used t i) eqn:E; simpl; wp_step.
    + split; [done|]. rewrite Z2Nat.id, E by lia. lia.
    + split; [exact Ht|]. cbn. change (frame_used (set_free_frames _ t)) with (frame_used t).
      rewrite Z2Nat.id, E by lia. rewrite u32_id by (unfold is_u32; lia). lia.
  - intros t [Ht Hc]. rewrite Z.max_r in Hc by lia. apply HQ; [|done].
    destruct Ht as (Hb & Hnb & Htot & _). rewrite <- Htot in *. done.
Qed.
End InitSpec.

(** ** Correctness of the operations *)

Section InitTheorem.
Context (map : list boot_mem_map_entry) (kernel_start kernel_end : Z) (words : list Z) (rest : list boot_mem_map_entry).

Lemma pmm_init_wp s :
  map <> [] -> Forall entry_ok map ->
  KERNEL_VIRT_BASE <= kernel_start <= kernel_end -> kernel_end < 4294967296 ->
  Forall is_u32 words ->
  boot_frames map <= 32 * Z.of_nat (length words) -> boot_frames map <= 4294967264 ->
  wp (pmm_init kernel_start kernel_end words (Some (map ++ rest)) (Z.of_nat (length map)))
     (fun r s' => r = KERR_OK /\ pmm_ok s' /\ pm_max_addr s' = max_end map /\
        pm_total_frames s' = boot_frames map /\
        forall f, 0 <= f < boot_frames map -> frame_used s' f =
          negb (in_usable map f) || boot_reserved map kernel_start kernel_end f) s.
Proof.
  intros Hne Hall Hk Hke Hw Hcap Hfit. unfold KERNEL_VIRT_BASE in Hk.
  pose proof (boot_frames_nonneg map) as Hbf. pose proof (max_end_bound _ Hall) as Hmb.
  pose proof (proj1 (max_end_spec map)) as Hm0. unfold pmm_init.
  destruct (Z.eqb_spec (Z.of_nat (length map)) 0) as [E|_].
  { destruct map; [done | simpl in E; lia]. }
  wp_steps. apply init_max_wp; [done | | done]. intros s1 Hs1.
  wp_steps. cbn [set_total_frames pm_total_frames].
  assert (u32 (ALIGN_UP u64 (pm_max_addr s1) PMM_FRAME_SIZE / PMM_FRAME_SIZE) = boot_frames map) as ->.
  { unfold PMM_FRAME_SIZE. rewrite Hs1, ALIGN_UP_page64, Z.div_mul by lia.
    apply u32_id. unfold is_u32. fold (boot_frames map). lia. }
  unfold bitmap_init. wp_steps.
  match goal with |- wp _ _ ?s => assert (init_st (boot_frames map) (max_end map) (frame_used s) s) as Hst end.
  { split; [split; [done | split; [unfold capacity; cbn; lia | done]] | done]. }
  eapply init_range_wp; [exact Hst | lia | lia | exact bitmap_set_wp |]. clear Hst. intros s2 Hs2 _.
  wp_steps. eapply init_usable_wp; [done| |].
  { eapply init_st_ext; [exact Hs2|]. intros j Hj. cbn beta. by zcases; try lia. }
  clear Hs2. intros s3 Hs3. wp_steps. unfold KERNEL_VIRT_BASE.
  eapply force_reserve_wp; [exact Hs3 | done.. |]. intros s4 Hs4. wp_steps.
  rewrite !(u64_id (_ - 3221225472)) by (unfold is_u64; lia).
  rewrite !(u32_id (boot_frames map + 7)), (u64_id (_ + _ / 8)) by (unfold is_u32, is_u64; dlia).
  unfold pmm_addr_to_frame, PMM_FRAME_SIZE.
  rewrite !ALIGN_DOWN_page64, !ALIGN_UP_page64, !Z.div_mul by (unfold is_u64; dlia).
  rewrite !(u32_id (_ / 4096)) by (unfold is_u32; dlia).
  rewrite !(u32_id (_ / 4096 - _ / 4096)) by (unfold is_u32; dlia).
  eapply force_reserve_wp; [exact Hs4 | dlia.. |]. intros s5 Hs5. wp_steps.
  eapply force_reserve_wp; [exact Hs5 | dlia.. |]. intros s6 Hs6. wp_steps.
  eapply init_count_wp; [exact Hs6 | done |]. intros s7 Hok Hs7. wp_steps.
  destruct Hs7 as (_ & _ & Ht & Hm & Hused). split; [done|]. split; [done|]. split; [done|].
  split; [done|]. intros f Hf. rewrite Hused by done. unfold boot_reserved, KERNEL_VIRT_BASE.
  change ((1024 * 1024) / PMM_FRAME_SIZE) with 256.
  set (ks := kernel_start - 3221225472). set (ke := kernel_end - 3221225472).
  clear - Hf. clearbody ks ke. zcases; simpl; rewrite ?orb_true_r; done || lia || (by destruct (in_usable map f)).
Qed.
End InitTheorem.

(** ** Properties *)

(** A state with 8 frames, frames 0, 3 and 4 in use. *)
Definition pmm_sample : pmm :=
  mk_pmm (mk_bitmap [25] 8 1) 32768 8 5.

Lemma pmm_sample_ok : pmm_ok pmm_sample.
Proof.
  split; [|done]. split; [repeat constructor; unfold is_u32; lia|].
  unfold capacity; cbn. lia.
Qed.



(** C21. Strict allocation is first fit.  From a well-formed state,
    [pmm_alloc min max n STRICT] returns the lowest run of [n] free frames inside
    the window given by [min] and [max], marks exactly those frames, lowers the
    counter by [n] and stays well formed; it returns [-KERR_NOMEM], leaving the
    state alone, only when the window has no such run. *)
Theorem pmm_alloc_first_fit s min max n :
  pmm_ok s -> 0 <= min <= 17592186040320 -> 0 <= max < 17592186044416 -> is_u32 n ->
  exists r s', pmm_alloc min max n PMM_POLICY_STRICT true s = Some (r, s') /\
    match r with
    | inr addr => exists f, addr = f * 4096 /\ window_lo min <= f /\ f + n <= window_hi s max /\
        free_run (frame_used s) f n /\
        (forall f', window_lo min <= f' < f -> ~ free_run (frame_used s) f' n) /\
        pmm_ok s' /\ frames_upd s s' f n true
    | inl e => s' = s /\
        ((n = 0 /\ e = - KERR_INVAL) \/
         (0 < n /\ e = - KERR_NOMEM /\ no_run s (window_lo min) (window_hi s max) n))
    end.
Proof.
  intros H1 H2 H3 H4. pose proof (pmm_alloc_strict_wp s min max n H1 H2 H3 H4) as H.
  apply wp_run in H as (r & s' & Hrun & Hs). exists r, s'. split; [done|].
  destruct r as [e|addr]; [done|]. destruct Hs as [_ (f & -> & Hle & (Hlo & Hrun' & Hmin) & Hok & Hu)].
  exists f. repeat (split; [done|]). done.
Qed.

Lemma pmm_alloc_first_fit_witness :
  exists r s', pmm_alloc 8192 0 3 PMM_POLICY_STRICT true pmm_sample = Some (r, s') /\
    match r with
    | inr addr => exists f, addr = f * 4096 /\ window_lo 8192 <= f /\ f + 3 <= window_hi pmm_sample 0 /\
        free_run (frame_used pmm_sample) f 3 /\
        (forall f', window_lo 8192 <= f' < f -> ~ free_run (frame_used pmm_sample) f' 3) /\
        pmm_ok s' /\ frames_upd pmm_sample s' f 3 true
    | inl e => s' = pmm_sample /\
        ((3 = 0 /\ e = - KERR_INVAL) \/
         (0 < 3 /\ e = - KERR_NOMEM /\ no_run pmm_sample (window_lo 8192) (window_hi pmm_sample 0) 3))
    end.
Proof.
  apply (pmm_alloc_first_fit pmm_sample 8192 0 3 pmm_sample_ok); unfold is_u32; lia.
Defined.

(** Fallback allocation.  [pmm_alloc ... FALLBACK] (used for HighMem) gives
    the first fit of the preferred window when there is one, otherwise the first
    fit of the whole memory, and fails with [-KERR_NOMEM] only when no run of [n]
    free frames exists anywhere. *)
Theorem pmm_alloc_fallback s min max n :
  pmm_ok s -> 0 <= min <= 17592186040320 -> 0 <= max < 17592186044416 -> is_u32 n -> 0 < n ->
  exists r s', pmm_alloc min max n PMM_POLICY_FALLBACK true s = Some (r, s') /\
    match r with
    | inr addr => alloc_result s s' (window_lo min) (window_hi s max) n addr \/
        (no_run s (window_lo min) (window_hi s max) n /\
         alloc_result s s' 0 (pm_total_frames s) n addr)
    | inl e => s' = s /\ e = - KERR_NOMEM /\ no_run s 0 (pm_total_frames s) n
    end.
Proof.
  intros H1 H2 H3 H4 H5. pose proof (pmm_alloc_fallback_wp s min max n H1 H2 H3 H4) as H.
  apply wp_run in H as (r & s' & Hrun & Hs). exists r, s'. split; [done|].
  destruct r as [e|addr]; [|done]. destruct Hs as [-> [[-> _]|Hs]]; [lia | done].
Qed.

(** The preferred window [frame 7, end) is too small: the fallback is used. *)
Lemma pmm_alloc_fallback_witness :
  exists r s', pmm_alloc 28672 0 2 PMM_POLICY_FALLBACK true pmm_sample = Some (r, s') /\
    match r with
    | inr addr => alloc_result pmm_sample s' (window_lo 28672) (window_hi pmm_sample 0) 2 addr \/
        (no_run pmm_sample (window_lo 28672) (window_hi pmm_sample 0) 2 /\
         alloc_result pmm_sample s' 0 (pm_total_frames pmm_sample) 2 addr)
    | inl e => s' = pmm_sample /\ e = - KERR_NOMEM /\ no_run pmm_sample 0 (pm_total_frames pmm_sample) 2
    end.
Proof.
  apply (pmm_alloc_fallback pmm_sample 28672 0 2 pmm_sample_ok); unfold is_u32; lia.
Defined.

(** C22. Release.  [pmm_free addr n] succeeds exactly when [addr] is page
    aligned, the [n > 0] frames are managed and every one of them is in use; it
    then frees exactly those frames and raises the counter by [n].  In every
    other case (a double free among them) it returns [-KERR_INVAL] and leaves the
    state as it was. *)
Theorem pmm_free_correct s addr n :
  pmm_ok s -> 0 <= addr < 17592186044416 -> is_u32 n ->
  exists r s', pmm_free addr n s = Some (r, s') /\
    ((r = KERR_OK /\ range_ok s addr n /\ all_used s (addr / 4096) n /\
      pmm_ok s' /\ frames_upd s s' (addr / 4096) n false) \/
     (r = - KERR_INVAL /\ s' = s /\ ~ (range_ok s addr n /\ all_used s (addr / 4096) n))).
Proof.
  intros H1 H2 H3. apply wp_run. exact (pmm_free_wp s addr n H1 H2 H3).
Qed.

Lemma pmm_free_correct_witness :
  exists r s', pmm_free 12288 2 pmm_sample = Some (r, s') /\
    ((r = KERR_OK /\ range_ok pmm_sample 12288 2 /\ all_used pmm_sample (12288 / 4096) 2 /\
      pmm_ok s' /\ frames_upd pmm_sample s' (12288 / 4096) 2 false) \/
     (r = - KERR_INVAL /\ s' = pmm_sample /\
      ~ (range_ok pmm_sample 12288 2 /\ all_used pmm_sample (12288 / 4096) 2))).
Proof. apply (pmm_free_correct pmm_sample 12288 2 pmm_sample_ok); unfold is_u32; lia. Defined.
