(* ===== verification/Frames.v ===== *)
(** * The frame allocator interface

    What the page-table code, the heap and the process loader rely on from the
    physical memory manager: [FrameAllocator] gives the operations they call
    ([PMM_ALLOC_LOWMEM], [PMM_ALLOC_ANY], [pmm_free]) and [FrameAllocatorLaws]
    what they promise.  [pmm] is an instance.  The theorem on live allocations
    is proved once against the interface. *)

From stdpp Require Import relations.
From S2P Require Import Prelude Base Runs Bitmap Pmm.

(** First frame number past LowMem. *)
Definition LOWMEM_FRAMES : Z := 196608.

Class FrameAllocator (A : Type) := {
  fa_ok : A -> Prop;
  fa_total : A -> Z;
  fa_used : A -> Z -> bool;
  fa_alloc_lowmem : Z -> M A (Z + Z);
  fa_alloc_any : Z -> M A (Z + Z);
  fa_free : Z -> Z -> M A Z
}.

(** The outcome of an allocation of [n] frames below frame [bound]. *)
Definition fa_alloc_post {A} `{FrameAllocator A} (s : A) (bound n : Z) (r : Z + Z) (s' : A) : Prop :=
  match r with
  | inr addr => exists f, addr = f * 4096 /\ 0 < n /\ 0 <= f /\ f + n <= Z.min bound (fa_total s) /\
      (forall j, f <= j < f + n -> fa_used s j = false) /\
      fa_ok s' /\ fa_total s' = fa_total s /\
      (forall j, 0 <= j -> fa_used s' j = ((f <=? j) && (j <? f + n)) || fa_used s j)
  | inl e => s' = s /\ - KERR_MAX_ERRNO <= e < 0
  end.

(** [n] consecutive free frames below [bound], the first of them [f]. *)
Definition run_at {A} `{FrameAllocator A} (s : A) (bound f n : Z) : Prop :=
  0 <= f /\ f + n <= Z.min bound (fa_total s) /\ forall j, f <= j < f + n -> fa_used s j = false.

Class FrameAllocatorLaws (A : Type) `{FrameAllocator A} := {
  fa_total_bound : forall s, fa_ok s -> 0 <= fa_total s <= 4294967264;
  fa_alloc_lowmem_wp : forall s n, fa_ok s -> is_u32 n ->
    wp (fa_alloc_lowmem n) (fa_alloc_post s LOWMEM_FRAMES n) s;
  fa_alloc_lowmem_first : forall s n f, fa_ok s -> 0 < n -> is_u32 n -> run_at s LOWMEM_FRAMES f n ->
    wp (fa_alloc_lowmem n) (fun r _ => exists f', r = inr (f' * 4096) /\ f' <= f) s;
  fa_alloc_any_wp : forall s n, fa_ok s -> is_u32 n ->
    wp (fa_alloc_any n) (fa_alloc_post s (fa_total s) n) s;
  fa_alloc_any_first : forall s n f, fa_ok s -> 0 < n -> is_u32 n -> run_at s (fa_total s) f n ->
    wp (fa_alloc_any n) (fun r _ => exists f', r = inr (f' * 4096) /\ f' <= f) s;
  fa_free_wp : forall s f n, fa_ok s -> 0 <= f < 4294967296 -> is_u32 n ->
    wp (fa_free (f * 4096) n) (fun r s' =>
      (r = KERR_OK /\ 0 < n /\ f + n <= fa_total s /\
       (forall j, f <= j < f + n -> fa_used s j = true) /\
       fa_ok s' /\ fa_total s' = fa_total s /\
       forall j, 0 <= j -> fa_used s' j = negb ((f <=? j) && (j <? f + n)) && fa_used s j) \/
      (r = - KERR_INVAL /\ s' = s /\
       ~ (0 < n /\ f + n <= fa_total s /\ forall j, f <= j < f + n -> fa_used s j = true))) s
}.

(** ** The PMM implements the interface *)

#[export] Instance pmm_frame_allocator : FrameAllocator pmm := {
  fa_ok := pmm_ok;
  fa_total := pm_total_frames;
  fa_used := frame_used;
  fa_alloc_lowmem := PMM_ALLOC_LOWMEM;
  fa_alloc_any := PMM_ALLOC_ANY;
  fa_free := pmm_free
}.

Lemma alloc_spec_post s lo hi bound n r s' :
  0 <= lo -> hi = Z.min bound (pm_total_frames s) ->
  alloc_spec s lo hi n r s' -> fa_alloc_post s bound n r s'.
Proof.
  intros Hlo -> Hs. destruct r as [e|addr]; cbn in *.
  - destruct Hs as [-> [[_ ->]|(_ & -> & _)]]; by unfold KERR_MAX_ERRNO, KERR_INVAL, KERR_NOMEM.
  - destruct Hs as [Hn (f & -> & Hle & (Hf & Hfree & _) & Hok & (Hu & _ & Ht & _))].
    exists f. split; [done|]. split; [done|]. split; [lia|]. split; [done|]. split; [done|].
    split; [done|]. split; [done|]. intros j Hj. rewrite Hu by done. by destruct (_ && _).
Qed.

(** First fit: a run of [n] free frames bounds the result. *)
Lemma alloc_first s max bound n f :
  pmm_ok s -> 0 <= max < 17592186044416 -> window_hi s max = Z.min bound (pm_total_frames s) ->
  0 < n -> is_u32 n -> run_at s bound f n ->
  wp (pmm_alloc 0 max n PMM_POLICY_STRICT true) (fun r _ => exists f', r = inr (f' * 4096) /\ f' <= f) s.
Proof.
  intros Hok Hmax Hhi Hpos Hn (Hf & Hle & Hfree).
  eapply wp_mono; [apply (pmm_alloc_strict_wp s 0 max); [exact Hok | lia | done | exact Hn]|].
  rewrite Hhi. change (window_lo 0) with 0. intros [e|addr] s'; cbn.
  - intros (_ & [[? _]|(_ & _ & Hno)]); [lia|]. by destruct (Hno f Hf Hle).
  - intros (_ & f' & -> & _ & (_ & _ & Hfirst) & _). exists f'. split; [done|].
    destruct (Z.le_gt_cases f' f); [done|]. by destruct (Hfirst f).
Qed.

#[export] Instance pmm_frame_allocator_laws : FrameAllocatorLaws pmm.
Proof.
  split.
  - intros s Hok. apply pmm_ok_bounds in Hok. cbn. lia.
  - intros s n Hok Hn. eapply wp_mono; [apply pmm_alloc_strict_wp; [exact Hok | | | exact Hn]|].
    + lia.
    + unfold KERNEL_LOWMEM_LIMIT. lia.
    + intros r s'. apply alloc_spec_post; [done|].
      change (window_hi s KERNEL_LOWMEM_LIMIT) with (Z.min 196608 (pm_total_frames s)). done.
  - intros s n f Hok Hpos Hn Hrun.
    by apply (alloc_first s KERNEL_LOWMEM_LIMIT LOWMEM_FRAMES).
  - intros s n Hok Hn. eapply wp_mono; [apply pmm_alloc_strict_wp; [exact Hok | lia | lia | exact Hn]|].
    intros r s'. apply alloc_spec_post; [done|]. cbn. by rewrite Z.min_id.
  - intros s n f Hok Hpos Hn Hrun.
    apply (alloc_first s 0 (fa_total s)); [done | done | cbn; by rewrite Z.min_id | done..].
  - intros s f n Hok Hf Hn. eapply wp_mono; [apply pmm_free_wp; [exact Hok | lia | exact Hn]|].
    cbn. unfold range_ok, all_used. rewrite Z.div_mul, Z.mod_mul by lia.
    intros r s' [(-> & (H1 & _ & H2) & H3 & H4 & (H5 & _ & H6 & _))|(-> & -> & Hno)].
    + left. repeat (split; [done|]). intros j Hj. rewrite H5 by done. by destruct (_ && _).
    + right. split; [done|]. split; [done|]. intros (? & ? & ?). apply Hno. auto.
Qed.

(** ** Room

    An allocator with [n + k] consecutive free frames in LowMem can serve a request
    for [n] frames and then one for [k]: first fit takes at most the low end of the run. *)

Section Room.
Context {A : Type} `{FrameAllocatorLaws A}.

Definition lowmem_room (s : A) (n : Z) : Prop := exists f, run_at s LOWMEM_FRAMES f n.

Lemma lowmem_room_le s n k : 0 <= k -> lowmem_room s (n + k) -> lowmem_room s n.
Proof. intros Hk (f & Hf & Hle & Hfree). exists f. split; [done|]. split; [lia|]. intros j Hj. apply Hfree. lia. Qed.

(** The rest of the run after an allocation that first fit placed at or below it. *)
Lemma room_rest s bound n k f f' s' : 0 < n -> 0 <= k -> run_at s LOWMEM_FRAMES f (n + k) ->
  fa_alloc_post s bound n (inr (f' * 4096)) s' -> f' <= f -> lowmem_room s' k.
Proof.
  intros Hn Hk (Hf & Hle & Hfree) (f1 & E1 & _ & _ & _ & _ & _ & Htot & Hu') Hf'. assert (f1 = f') as -> by lia.
  exists (Z.max f (f' + n)). split; [lia|]. rewrite Htot. split; [lia|]. intros j Hj. rewrite Hu' by lia.
  rewrite Hfree by lia. destruct (Z.leb_spec f' j), (Z.ltb_spec j (f' + n)); cbn; lia || done.
Qed.

Lemma run_part s bound bound' f n k : bound <= bound' -> 0 <= k -> run_at s bound f (n + k) -> run_at s bound' f n.
Proof. intros Hb Hk (Hf & Hle & Hfree). split; [done|]. split; [lia|]. intros j Hj. apply Hfree. lia. Qed.

Lemma alloc_lowmem_room s n k :
  fa_ok s -> 0 < n -> is_u32 n -> 0 <= k -> lowmem_room s (n + k) ->
  wp (fa_alloc_lowmem n) (fun r s' => (exists addr, r = inr addr) /\ fa_alloc_post s LOWMEM_FRAMES n r s' /\ lowmem_room s' k) s.
Proof.
  intros Hok Hn Hu Hk (f & Hf).
  eapply wp_mono; [apply wp_and; [by apply fa_alloc_lowmem_wp | apply (fa_alloc_lowmem_first s n f); [done..|by eapply run_part]]|].
  intros r s' [Hp (f' & -> & Hf')]. split; [by eexists|]. split; [done|]. by eapply room_rest.
Qed.

Lemma alloc_any_room s n k :
  fa_ok s -> 0 < n -> is_u32 n -> 0 <= k -> lowmem_room s (n + k) ->
  wp (fa_alloc_any n) (fun r s' => (exists addr, r = inr addr) /\ fa_alloc_post s (fa_total s) n r s' /\ lowmem_room s' k) s.
Proof.
  intros Hok Hn Hu Hk (f & Hf). assert (run_at s (fa_total s) f n) as Hrun.
  { destruct Hf as (? & Hle & Hfree). split; [done|]. split; [lia|]. intros j Hj. apply Hfree. lia. }
  eapply wp_mono; [apply wp_and; [by apply fa_alloc_any_wp | by apply (fa_alloc_any_first s n f)]|].
  intros r s' [Hp (f' & -> & Hf')]. split; [by eexists|]. split; [done|]. by eapply room_rest.
Qed.
End Room.

(** ** Live allocations *)

Section Live.
Context {A : Type} `{FrameAllocatorLaws A}.

(** A live block: first frame and number of frames. *)
Abbreviation block := (Z * Z)%type.

Definition covers (b : block) (j : Z) : bool := (b.1 <=? j) && (j <? b.1 + b.2).

(** Number of live blocks that contain frame [j]. *)
Definition cover_count (L : list block) (j : Z) : Z :=
  foldr (fun b n => (if covers b j then 1 else 0) + n) 0 L.

(** One call by a client of the allocator; clients free only what they hold. *)
Inductive client_step : A * list block -> A * list block -> Prop :=
| client_alloc_lowmem s L n addr s' :
    is_u32 n -> fa_alloc_lowmem n s = Some (inr addr, s') ->
    client_step (s, L) (s', (addr / 4096, n) :: L)
| client_alloc_any s L n addr s' :
    is_u32 n -> fa_alloc_any n s = Some (inr addr, s') ->
    client_step (s, L) (s', (addr / 4096, n) :: L)
| client_alloc_lowmem_fails s L n e s' :
    is_u32 n -> fa_alloc_lowmem n s = Some (inl e, s') -> client_step (s, L) (s', L)
| client_alloc_any_fails s L n e s' :
    is_u32 n -> fa_alloc_any n s = Some (inl e, s') -> client_step (s, L) (s', L)
| client_free s L1 L2 f n r s' :
    fa_free (f * 4096) n s = Some (r, s') ->
    client_step (s, L1 ++ (f, n) :: L2) (s', L1 ++ L2).

(** A frame is in use exactly when it was at the start or one live block
    contains it. *)
Definition live_inv (s0 : A) (st : A * list block) : Prop :=
  let '(s, L) := st in
  fa_ok s /\ fa_total s = fa_total s0 /\
  Forall (fun b => 0 < b.2 /\ is_u32 b.2 /\ 0 <= b.1 /\ b.1 + b.2 <= fa_total s0) L /\
  forall j, 0 <= j -> Z.b2z (fa_used s j) = Z.b2z (fa_used s0 j) + cover_count L j.

Lemma cover_count_cons b L j :
  cover_count (b :: L) j = (if covers b j then 1 else 0) + cover_count L j.
Proof. done. Qed.

Lemma cover_count_app L1 L2 j : cover_count (L1 ++ L2) j = cover_count L1 j + cover_count L2 j.
Proof.
  induction L1 as [|b L1 IH]; [done|]. rewrite <- app_comm_cons, !cover_count_cons, IH. lia.
Qed.

Lemma cover_count_nonneg L j : 0 <= cover_count L j.
Proof. induction L as [|b L IH]; [done|]. rewrite cover_count_cons. destruct (covers b j); lia. Qed.

Lemma run_wp {B} (c : M A B) (Q : B -> A -> Prop) s a s' : wp c Q s -> c s = Some (a, s') -> Q a s'.
Proof. unfold wp. intros Hwp E. by rewrite E in Hwp. Qed.

Lemma live_alloc s0 s L bound n addr s' :
  live_inv s0 (s, L) -> is_u32 n -> fa_alloc_post s bound n (inr addr) s' ->
  live_inv s0 (s', (addr / 4096, n) :: L).
Proof.
  intros (Hok & Ht & HL & Hcount) Hn (f & -> & Hpos & Hf & Hle & Hfree & Hok' & Ht' & Hu).
  rewrite Z.div_mul by lia. split; [done|]. split; [congruence|]. split.
  - constructor; [|done]. cbn. repeat (split; [done || lia|]). lia.
  - intros j Hj. rewrite cover_count_cons, Hu by done. specialize (Hcount j Hj).
    unfold covers; cbn [fst snd].
    destruct ((f <=? j) && (j <? f + n)) eqn:E; simpl; [|lia].
    rewrite Hfree in Hcount by lia. simpl in *. lia.
Qed.

(** A live block can always be freed. *)
Lemma live_free s0 s L1 L2 f n :
  live_inv s0 (s, L1 ++ (f, n) :: L2) ->
  wp (fa_free (f * 4096) n) (fun r s' => r = KERR_OK /\ live_inv s0 (s', L1 ++ L2)) s.
Proof.
  intros (Hok & Ht & HL & Hcount). pose proof (fa_total_bound _ Hok) as Htb.
  apply Forall_app in HL as [HL1 HL2]. inversion HL2 as [|?? (Hpos & Hn & Hf & Hle) HL2']; subst.
  cbn in Hpos, Hn, Hf, Hle.
  assert (forall j, f <= j < f + n -> fa_used s j = true /\ fa_used s0 j = false /\
            cover_count (L1 ++ L2) j = 0) as Hcov.
  { intros j Hj. specialize (Hcount j ltac:(lia)). rewrite cover_count_app in Hcount |- *.
    rewrite cover_count_cons in Hcount. unfold covers in Hcount; cbn [fst snd] in Hcount.
    replace ((f <=? j) && (j <? f + n)) with true in Hcount by lia.
    pose proof (cover_count_nonneg L1 j). pose proof (cover_count_nonneg L2 j).
    destruct (fa_used s j), (fa_used s0 j); simpl in *; repeat split; lia. }
  wp_use (fa_free_wp s f n); [done | lia | done |].
  intros r s' [(-> & _ & _ & _ & Hok' & Ht' & Hu)|(_ & _ & Hno)].
  - split; [done|]. split; [done|]. split; [congruence|]. split; [by apply Forall_app|].
    intros j Hj. rewrite Hu by done. specialize (Hcount j Hj). specialize (Hcov j).
    rewrite cover_count_app, cover_count_cons in Hcount. rewrite cover_count_app in *.
    unfold covers in Hcount; cbn [fst snd] in Hcount.
    destruct ((f <=? j) && (j <? f + n)) eqn:E; simpl in *; [|lia].
    destruct Hcov as (_ & -> & ->); [lia | done].
  - exfalso. apply Hno. split; [done|]. split; [lia|]. intros j Hj. by apply Hcov.
Qed.

Lemma live_step s0 st st' : client_step st st' -> live_inv s0 st -> live_inv s0 st'.
Proof.
  intros Hstep Hinv. destruct Hstep as [s L n addr s' Hn Hr|s L n addr s' Hn Hr
    |s L n e s' Hn Hr|s L n e s' Hn Hr|s L1 L2 f n r s' Hr]; pose proof (proj1 Hinv) as Hok.
  - pose proof (run_wp _ _ _ _ _ (fa_alloc_lowmem_wp s n Hok Hn) Hr). by eapply live_alloc.
  - pose proof (run_wp _ _ _ _ _ (fa_alloc_any_wp s n Hok Hn) Hr). by eapply live_alloc.
  - pose proof (run_wp _ _ _ _ _ (fa_alloc_lowmem_wp s n Hok Hn) Hr) as [-> _]. done.
  - pose proof (run_wp _ _ _ _ _ (fa_alloc_any_wp s n Hok Hn) Hr) as [-> _]. done.
  - by pose proof (run_wp _ _ _ _ _ (live_free _ _ _ _ _ _ Hinv) Hr) as [_ ?].
Qed.

Lemma live_steps s0 st st' : rtc client_step st st' -> live_inv s0 st -> live_inv s0 st'.
Proof. induction 1; eauto using live_step. Qed.

Lemma live_reachable s0 st : fa_ok s0 -> rtc client_step (s0, []) st -> live_inv s0 st.
Proof.
  intros Hok Hr. apply (live_steps s0 _ _ Hr).
  split; [done|]. split; [done|]. split; [constructor|].
  intros j Hj. change (cover_count [] j) with 0. lia.
Qed.
End Live.

(** ** Properties *)

(** C23. Live allocations never overlap.  Take any sequence of
    [PMM_ALLOC_LOWMEM], [PMM_ALLOC_ANY] and [pmm_free] calls, successful or not,
    by clients that free only blocks they hold.  Then the allocator is still well
    formed, no frame belongs to two live blocks or to a live block and to the
    frames in use at the start (so the frames reserved at boot are never given
    out), and freeing any live block succeeds. *)
Theorem pmm_live_blocks_disjoint (s0 s : pmm) (L : list (Z * Z)) :
  pmm_ok s0 -> rtc client_step (s0, []) (s, L) ->
  pmm_ok s /\
  (forall j, 0 <= j -> cover_count L j <= 1) /\
  (forall j, 0 <= j -> frame_used s0 j = true -> frame_used s j = true /\ cover_count L j = 0) /\
  (forall L1 L2 f n, L = L1 ++ (f, n) :: L2 ->
     exists s', pmm_free (f * 4096) n s = Some (KERR_OK, s')).
Proof.
  intros Hok Hr. pose proof (live_reachable s0 (s, L) Hok Hr) as Hinv.
  destruct (Hinv) as (Hok' & _ & _ & Hcount). cbn in Hcount. split; [done|]. split; [|split].
  - intros j Hj. specialize (Hcount j Hj). destruct (frame_used s j), (frame_used s0 j); simpl in *; lia.
  - intros j Hj Hu. specialize (Hcount j Hj). pose proof (cover_count_nonneg L j).
    rewrite Hu in Hcount. destruct (frame_used s j); simpl in *; split; done || lia.
  - intros L1 L2 f n ->. pose proof (live_free _ _ _ _ _ _ Hinv) as Hwp.
    apply wp_run in Hwp as (r & s' & Hrun & -> & _). by exists s'.
Qed.

(** Allocate two frames, then one, then free the first block. *)
Lemma pmm_live_blocks_disjoint_witness :
  exists s, let L := [(5, 1)] in
    pmm_ok s /\
    (forall j, 0 <= j -> cover_count L j <= 1) /\
    (forall j, 0 <= j -> frame_used pmm_sample j = true -> frame_used s j = true /\ cover_count L j = 0) /\
    (forall L1 L2 f n, L = L1 ++ (f, n) :: L2 ->
       exists s', pmm_free (f * 4096) n s = Some (KERR_OK, s')).
Proof.
  eexists. apply (pmm_live_blocks_disjoint pmm_sample _ [(5, 1)] pmm_sample_ok).
  eapply rtc_l.
  { apply (client_alloc_lowmem pmm_sample [] 2); [unfold is_u32; lia | vm_compute; reflexivity]. }
  eapply rtc_l.
  { eapply (client_alloc_any _ _ 1); [unfold is_u32; lia | vm_compute; reflexivity]. }
  eapply rtc_l; [|apply rtc_refl].
  eapply (client_free _ [(5, 1)] [] 1 2). vm_compute. reflexivity.
Defined.
