(* ===== verification/Memory.v ===== *)
(** * Kernel memory

    The higher-half virtual memory the kernel works on: a store of 32-bit
    little-endian words, keyed by their (4-byte aligned) virtual address.  A
    32-bit access that is not aligned, or that is below [KERNEL_VIRT_OFFSET] (a
    NULL pointer among others), is undefined.  Bytes are read and written inside
    their word.  The heap, the intrusive lists and the page tables share it. *)

From S2P Require Import Prelude Base.

Definition valid (a : Z) : Prop :=
  a mod 4 = 0 /\ KERNEL_VIRT_OFFSET <= a /\ a + 4 <= 4294967296.

Definition validb (a : Z) : bool :=
  (a mod 4 =? 0) && (KERNEL_VIRT_OFFSET <=? a) && (a + 4 <=? 4294967296).

Lemma validb_true a : validb a = true <-> valid a.
Proof. unfold validb, valid. rewrite !andb_true_iff, Z.eqb_eq, !Z.leb_le. tauto. Qed.

Abbreviation mem := (gmap Z Z).

(** Contents of the word at [a]; the word at [a] replaced. *)
Definition rd (m : mem) (a : Z) : Z := default 0 (m !! a).
Definition wr (m : mem) (a v : Z) : mem := <[a := v]> m.

Definition load32 (a : Z) : M mem Z := fun m =>
  if validb a then Some (rd m a, m) else None.
Definition store32 (a v : Z) : M mem unit := fun m =>
  if validb a then Some (tt, wr m a v) else None.

(** Byte [k] of a word, and the word with byte [k] replaced. *)
Definition get_byte (w k : Z) : Z := Z.land (Z.shiftr w (8 * k)) 255.
Definition set_byte (w k v : Z) : Z :=
  Z.lor (Z.land w (Z.lnot (Z.shiftl 255 (8 * k)))) (Z.shiftl v (8 * k)).

Definition rd8 (m : mem) (a : Z) : Z := get_byte (rd m (a - a mod 4)) (a mod 4).
Definition wr8 (m : mem) (a v : Z) : mem :=
  wr m (a - a mod 4) (set_byte (rd m (a - a mod 4)) (a mod 4) v).

Definition load8 (a : Z) : M mem Z := fun m =>
  if validb (a - a mod 4) then Some (rd8 m a, m) else None.
Definition store8 (a v : Z) : M mem unit := fun m =>
  if validb (a - a mod 4) then Some (tt, wr8 m a v) else None.

(** ** Words *)

Lemma rd_wr_eq m a v : rd (wr m a v) a = v.
Proof. unfold rd, wr. by rewrite lookup_insert_eq. Qed.

Lemma rd_wr_ne m a b v : a <> b -> rd (wr m a v) b = rd m b.
Proof. intros H. unfold rd, wr. by rewrite lookup_insert_ne. Qed.

Lemma load32_wp m a (Q : Z -> mem -> Prop) : valid a -> Q (rd m a) m -> wp (load32 a) Q m.
Proof. intros Hv HQ. unfold wp, load32. apply validb_true in Hv. by rewrite Hv. Qed.

Lemma store32_wp m a v (Q : unit -> mem -> Prop) :
  valid a -> Q tt (wr m a v) -> wp (store32 a v) Q m.
Proof. intros Hv HQ. unfold wp, store32. apply validb_true in Hv. by rewrite Hv. Qed.

(** Read through a chain of writes whose addresses are decided by [lia]. *)
Ltac mem_simp :=
  repeat first
    [ rewrite rd_wr_eq
    | rewrite rd_wr_ne by (first [done | lia]) ].

(** ** Bytes *)

Lemma is_u8_bits x : is_u8 x <-> 0 <= x /\ forall i, 8 <= i -> Z.testbit x i = false.
Proof.
  unfold is_u8. split.
  - intros Hx. split; [lia|]. intros i Hi. apply (testbit_high x 8); lia.
  - intros [H0 Hb]. split; [done|]. change 256 with (2 ^ 8).
    destruct (Z.eq_dec x 0) as [->|Hne]; [lia|].
    apply Z.log2_lt_pow2; [lia|].
    destruct (Z.lt_ge_cases (Z.log2 x) 8) as [|Hge]; [done|].
    specialize (Hb _ Hge). rewrite Z.bit_log2 in Hb by lia. done.
Qed.

Lemma get_byte_bit w k i :
  0 <= k -> 0 <= i -> Z.testbit (get_byte w k) i = (i <? 8) && Z.testbit w (i + 8 * k).
Proof.
  intros Hk Hi. unfold get_byte. change 255 with (Z.ones 8).
  rewrite Z.land_spec, Z.shiftr_spec, Z.testbit_ones_nonneg by lia. apply andb_comm.
Qed.

Lemma set_byte_bit w k v i :
  0 <= k -> 0 <= i -> is_u8 v ->
  Z.testbit (set_byte w k v) i =
    if (8 * k <=? i) && (i <? 8 * k + 8) then Z.testbit v (i - 8 * k) else Z.testbit w i.
Proof.
  intros Hk Hi Hv. unfold set_byte. change 255 with (Z.ones 8).
  rewrite Z.lor_spec, Z.land_spec, Z.lnot_spec, !Z.shiftl_spec by lia.
  destruct (Z.leb_spec (8 * k) i).
  - rewrite Z.testbit_ones_nonneg by lia.
    destruct (Z.ltb_spec i (8 * k + 8)); simpl.
    + replace (i - 8 * k <? 8) with true by lia. by rewrite andb_false_r.
    + replace (i - 8 * k <? 8) with false by lia.
      apply is_u8_bits in Hv as [_ Hb]. rewrite Hb by lia. by rewrite orb_false_r, andb_true_r.
  - simpl. rewrite !(Z.testbit_neg_r _ (i - 8 * k)) by lia. by rewrite orb_false_r, andb_true_r.
Qed.

Lemma get_set_byte_eq w k v : 0 <= k -> is_u8 v -> get_byte (set_byte w k v) k = v.
Proof.
  intros Hk Hv. apply Z.bits_inj'. intros i Hi.
  rewrite get_byte_bit, set_byte_bit by (done || lia). destruct (Z.ltb_spec i 8).
  - replace ((8 * k <=? i + 8 * k) && (i + 8 * k <? 8 * k + 8)) with true by lia.
    simpl. f_equal. lia.
  - apply is_u8_bits in Hv as [_ Hb]. by rewrite (Hb i) by lia.
Qed.

Lemma get_set_byte_ne w k k' v :
  0 <= k -> 0 <= k' -> k <> k' -> is_u8 v -> get_byte (set_byte w k v) k' = get_byte w k'.
Proof.
  intros Hk Hk' Hne Hv. apply Z.bits_inj'. intros i Hi.
  rewrite !get_byte_bit, set_byte_bit by (done || lia).
  destruct (Z.ltb_spec i 8); [|done].
  by replace ((8 * k <=? i + 8 * k') && (i + 8 * k' <? 8 * k + 8)) with false by lia.
Qed.

Lemma rd8_wr8_eq m a v : is_u8 v -> rd8 (wr8 m a v) a = v.
Proof. intros Hv. unfold rd8, wr8. rewrite rd_wr_eq. apply get_set_byte_eq; [dlia | done]. Qed.

Lemma rd8_wr8_ne m a b v : a <> b -> is_u8 v -> rd8 (wr8 m a v) b = rd8 m b.
Proof.
  intros Hne Hv. unfold rd8, wr8.
  destruct (Z.eq_dec (a - a mod 4) (b - b mod 4)) as [E|E].
  - rewrite E, rd_wr_eq. apply get_set_byte_ne; try done; dlia.
  - by rewrite rd_wr_ne.
Qed.

Lemma rd8_range m a : is_u8 (rd8 m a).
Proof.
  unfold rd8, get_byte, is_u8. change 255 with (Z.ones 8). rewrite Z.land_ones by lia.
  change (2 ^ 8) with 256. apply Z.mod_pos_bound. lia.
Qed.

#[export] Hint Resolve rd8_range : iwos.

(** A byte address of the kernel's half. *)
Definition valid8 (a : Z) : Prop := KERNEL_VIRT_OFFSET <= a < 4294967296.

Lemma valid8_word a : valid8 a -> valid (a - a mod 4).
Proof. unfold valid8, valid, KERNEL_VIRT_OFFSET. intros. dlia. Qed.

Lemma load8_wp m a (Q : Z -> mem -> Prop) : valid8 a -> Q (rd8 m a) m -> wp (load8 a) Q m.
Proof.
  intros Hv HQ. unfold wp, load8. apply valid8_word, validb_true in Hv. by rewrite Hv.
Qed.

Lemma store8_wp m a v (Q : unit -> mem -> Prop) :
  valid8 a -> Q tt (wr8 m a v) -> wp (store8 a v) Q m.
Proof.
  intros Hv HQ. unfold wp, store8. apply valid8_word, validb_true in Hv. by rewrite Hv.
Qed.
