(* ===== verification/KList.v ===== *)
(** * Intrusive doubly-linked lists

    Models [kernel/include/klib/list.h] on the shared store of [Memory]: a
    [struct list_node] at address [n] has its [next] pointer at [n] and its
    [prev] pointer at [n + 4]; a [struct list] is its sentinel node.  [dll m h xs]
    says that the list with sentinel [h] holds the nodes [xs], front to back. *)

From S2P Require Import Prelude Base Memory.

Definition NULL : Z := 0.

(** ** Operations *)

Definition get_next (n : Z) : M mem Z := load32 n.
Definition get_prev (n : Z) : M mem Z := load32 (u32 (n + 4)).
Definition set_next (n v : Z) : M mem unit := store32 n v.
Definition set_prev (n v : Z) : M mem unit := store32 (u32 (n + 4)) v.

Definition list_init (list : Z) : M mem unit :=
  set_next list list ;;;
  set_prev list list.

Definition list_empty (list : Z) : M mem bool :=
  n <-- get_next list ;; ret (n =? list).

Definition list_front (list : Z) : M mem Z :=
  e <-- list_empty list ;; if e then ret NULL else get_next list.

Definition list_back (list : Z) : M mem Z :=
  e <-- list_empty list ;; if e then ret NULL else get_prev list.

Definition list_insert_after (node new : Z) : M mem unit :=
  set_prev new node ;;;
  n <-- get_next node ;;
  set_next new n ;;;
  n' <-- get_next node ;;
  set_prev n' new ;;;
  set_next node new.

Definition list_insert_before (node new : Z) : M mem unit :=
  set_next new node ;;;
  p <-- get_prev node ;;
  set_prev new p ;;;
  p' <-- get_prev node ;;
  set_next p' new ;;;
  set_prev node new.

Definition list_remove (node : Z) : M mem unit :=
  n <-- get_next node ;;
  p <-- get_prev node ;;
  set_next p n ;;;
  p' <-- get_prev node ;;
  n' <-- get_next node ;;
  set_prev n' p' ;;;
  set_next node NULL ;;;
  set_prev node NULL.

Definition list_insert_front (list node : Z) : M mem unit := list_insert_after list node.
Definition list_insert_back (list node : Z) : M mem unit := list_insert_before list node.

Definition list_pop_front (list : Z) : M mem Z :=
  e <-- list_empty list ;;
  if e then ret NULL
  else
    node <-- get_next list ;;
    list_remove node ;;;
    ret node.

Definition list_pop_back (list : Z) : M mem Z :=
  e <-- list_empty list ;;
  if e then ret NULL
  else
    node <-- get_prev list ;;
    list_remove node ;;;
    ret node.

Definition list_replace (old_node new_node : Z) : M mem unit :=
  p <-- get_prev old_node ;;
  set_prev new_node p ;;;
  n <-- get_next old_node ;;
  set_next new_node n ;;;
  p' <-- get_prev old_node ;;
  set_next p' new_node ;;;
  n' <-- get_next old_node ;;
  set_prev n' new_node ;;;
  set_next old_node NULL ;;;
  set_prev old_node NULL.

(** [list_for_each(node, list)] from [node] on.  The body yields [Some r] to
    leave the loop with [r]; the result is [None] when the sentinel is reached.
    Running out of [fuel] is undefined. *)
Fixpoint list_for_each {R} (fuel : nat) (list node : Z) (body : Z -> M mem (option R)) :
    M mem (option R) :=
  match fuel with
  | O => undefined
  | S k =>
      if node =? list then ret None
      else
        r <-- body node ;;
        match r with
        | Some v => ret (Some v)
        | None => n <-- get_next node ;; list_for_each k list n body
        end
  end.

(** ** Representation *)

(** Both fields of a node are in kernel memory. *)
Definition node_ok (n : Z) : Prop := valid n /\ valid (n + 4).

(** Consecutive elements of [c] are linked in both directions. *)
Fixpoint chain (m : mem) (c : list Z) : Prop :=
  match c with
  | a :: ((b :: _) as t) => rd m a = b /\ rd m (b + 4) = a /\ chain m t
  | _ => True
  end.

(** The nodes of [l] form a ring in this order; the first one is the sentinel. *)
Definition ring (m : mem) (l : list Z) : Prop :=
  match l with [] => False | h :: t => chain m (h :: t ++ [h]) end.

(** Distinct nodes do not overlap. *)
Definition apart (x y : Z) : Prop := x <> y /\ x <> y + 4 /\ y <> x + 4.
Definition nodes_apart (l : list Z) : Prop := ForallOrdPairs apart l.

Definition rings (m : mem) (l : list Z) : Prop :=
  ring m l /\ nodes_apart l /\ Forall node_ok l.

(** The list with sentinel [h] holds the nodes [xs]. *)
Definition dll (m : mem) (h : Z) (xs : list Z) : Prop := rings m (h :: xs).

(** [a] is a field of one of the nodes [l]. *)
Definition in_nodes (l : list Z) (a : Z) : Prop := exists x, x ∈ l /\ (a = x \/ a = x + 4).

(** [m'] differs from [m] at most in the fields of the nodes [l]. *)
Definition frame (m m' : mem) (l : list Z) : Prop :=
  forall a, ~ in_nodes l a -> rd m' a = rd m a.

(** ** Facts on chains *)

Lemma chain_cons2 m a b c : chain m (a :: b :: c) <-> rd m a = b /\ rd m (b + 4) = a /\ chain m (b :: c).
Proof. done. Qed.

Lemma chain_app m l1 a l2 : chain m (l1 ++ a :: l2) <-> chain m (l1 ++ [a]) /\ chain m (a :: l2).
Proof.
  induction l1 as [|x l1 IH]; [simpl; tauto|].
  destruct l1 as [|y l1].
  - simpl app. rewrite !chain_cons2. simpl (chain m [a]). tauto.
  - rewrite <- !app_comm_cons, !chain_cons2. rewrite <- !app_comm_cons in IH. tauto.
Qed.

(** A chain survives a change of memory outside the fields it uses. *)
Lemma chain_frame m m' q l p :
  chain m (q :: l ++ [p]) ->
  (forall x, x ∈ q :: l -> rd m' x = rd m x) ->
  (forall x, x ∈ l ++ [p] -> rd m' (x + 4) = rd m (x + 4)) ->
  chain m' (q :: l ++ [p]).
Proof.
  revert q. induction l as [|y l IH]; intros q Hc Hn Hp.
  - destruct Hc as (H1 & H2 & _). split; [rewrite Hn by set_solver; done|].
    split; [rewrite Hp by set_solver; done | done].
  - rewrite <- app_comm_cons in *. apply chain_cons2 in Hc as (H1 & H2 & Hc). apply chain_cons2.
    split; [rewrite Hn by set_solver; done|]. split; [rewrite Hp by set_solver; done|].
    apply IH; [done | |]; intros x Hx; [apply Hn | apply Hp]; set_solver.
Qed.

Lemma ring_rot m l1 l2 : ring m (l1 ++ l2) -> ring m (l2 ++ l1).
Proof.
  destruct l1 as [|a l1], l2 as [|b l2]; rewrite ?app_nil_r; [done..|]. simpl.
  change (chain m ((a :: l1 ++ b :: l2) ++ [a]) -> chain m ((b :: l2 ++ a :: l1) ++ [b])).
  replace ((a :: l1 ++ b :: l2) ++ [a]) with ((a :: l1) ++ b :: (l2 ++ [a]))
    by (by rewrite <- !app_comm_cons, <- app_assoc).
  replace ((b :: l2 ++ a :: l1) ++ [b]) with ((b :: l2) ++ a :: (l1 ++ [b]))
    by (by rewrite <- !app_comm_cons, <- app_assoc).
  rewrite (chain_app m (a :: l1) b), (chain_app m (b :: l2) a). intros [H1 H2]. by split.
Qed.

Lemma apart_sym x y : apart x y -> apart y x.
Proof. unfold apart. lia. Qed.

Lemma nodes_apart_app l1 l2 :
  nodes_apart (l1 ++ l2) <->
  nodes_apart l1 /\ nodes_apart l2 /\ forall x y, x ∈ l1 -> y ∈ l2 -> apart x y.
Proof.
  unfold nodes_apart. induction l1 as [|a l1 IH]; simpl.
  - split; [|tauto]. intros H. split; [constructor|]. split; [done | set_solver].
  - split.
    + intros H. inversion H as [|?? Ha Hr]; subst. apply IH in Hr as (H1 & H2 & H3).
      apply Forall_app in Ha as [Ha1 Ha2]. rewrite Forall_forall in Ha2.
      split; [by constructor|]. split; [done|]. intros x y [->|Hx]%elem_of_cons Hy; auto.
    + intros (H1 & H2 & H3). inversion H1 as [|?? Ha Hr]; subst. constructor.
      * apply Forall_app. split; [done|]. apply Forall_forall. intros y Hy. apply H3; set_solver.
      * apply IH. split; [done|]. split; [done|]. intros x y Hx Hy. apply H3; set_solver.
Qed.

Lemma nodes_apart_cons a l : nodes_apart (a :: l) <-> (forall y, y ∈ l -> apart a y) /\ nodes_apart l.
Proof.
  unfold nodes_apart. split.
  - intros H. inversion H as [|?? Ha Hr]; subst. rewrite Forall_forall in Ha. done.
  - intros [Ha Hr]. constructor; [|done]. by rewrite Forall_forall.
Qed.

Lemma nodes_apart_perm l l' : l ≡ₚ l' -> nodes_apart l -> nodes_apart l'.
Proof.
  induction 1 as [|x l l' Hp IH|x y l|l l' l'' ? IH1 ? IH2]; [done | | |auto].
  - rewrite !nodes_apart_cons. intros [H1 H2]. split; [|auto]. intros y Hy. apply H1. by rewrite Hp.
  - rewrite !nodes_apart_cons. intros (H1 & H2 & H3). split.
    + intros z [->|Hz]%elem_of_cons; [apply apart_sym, H1; set_solver | auto].
    + split; [|done]. intros z Hz. apply H1. set_solver.
Qed.

Lemma valid_u32 n : valid (n + 4) -> u32 (n + 4) = n + 4.
Proof. unfold valid, KERNEL_VIRT_OFFSET. intros. apply u32_id. unfold is_u32. lia. Qed.

(** ** Surgery on rings

    [p] is the node before the place of the change, [q] the node after it. *)

Definition after (p : Z) (l : list Z) : Z := hd p l.

(** The part of the ring that does not touch the change. *)
Lemma ring_rest m m' p l :
  chain m (after p l :: tl l ++ [p]) -> l <> [] ->
  nodes_apart (p :: l) ->
  (forall y, y ∈ l -> y <> p -> rd m' y = rd m y) ->
  (forall y, y ∈ p :: l -> y <> after p l -> rd m' (y + 4) = rd m (y + 4)) ->
  chain m' (l ++ [p]).
Proof.
  destruct l as [|q l]; [done|]. cbn [after hd tl]. intros Hc _ Hap Hn Hp.
  rewrite !nodes_apart_cons in Hap. destruct Hap as (H1 & H2 & _).
  apply (chain_frame m); [done | |].
  - intros x Hx. apply Hn; [done|]. specialize (H1 x Hx). unfold apart in H1. lia.
  - intros x Hx. apply Hp; [set_solver|].
    apply elem_of_app in Hx as [Hx| ->%list_elem_of_singleton].
    + specialize (H2 x Hx). unfold apart in H2. lia.
    + specialize (H1 q ltac:(set_solver)). unfold apart in H1. lia.
Qed.

Lemma ring_after m p l : ring m (p :: l) ->
  rd m p = after p l /\ rd m (after p l + 4) = p /\
  (l <> [] -> chain m (after p l :: tl l ++ [p])).
Proof. destruct l as [|q l]; simpl; [tauto|]. intros (H1 & H2 & H3). auto. Qed.

(** A new node [n] between [p] and its successor. *)
Lemma ring_insert m m' p l n :
  ring m (p :: l) -> nodes_apart (p :: l) ->
  rd m' p = n -> rd m' (n + 4) = p -> rd m' n = after p l -> rd m' (after p l + 4) = n ->
  (forall y, y ∈ l -> y <> p -> rd m' y = rd m y) ->
  (forall y, y ∈ p :: l -> y <> after p l -> rd m' (y + 4) = rd m (y + 4)) ->
  ring m' (p :: n :: l).
Proof.
  intros Hr Hap H1 H2 H3 H4 H5 H6. apply ring_after in Hr as (_ & _ & Hc).
  simpl. split; [done|]. split; [done|]. destruct l as [|q l]; [done|].
  split; [done|]. split; [done|]. by apply (ring_rest m m' p (q :: l)); auto.
Qed.

(** The node between [p] and the rest [l] is unlinked. *)
Lemma ring_remove m m' p x l :
  ring m (p :: x :: l) -> nodes_apart (p :: l) ->
  rd m' p = after p l -> rd m' (after p l + 4) = p ->
  (forall y, y ∈ l -> y <> p -> rd m' y = rd m y) ->
  (forall y, y ∈ p :: l -> y <> after p l -> rd m' (y + 4) = rd m (y + 4)) ->
  ring m' (p :: l).
Proof.
  intros Hr Hap H1 H2 H3 H4. simpl in Hr. destruct Hr as (_ & _ & Hr).
  destruct l as [|q l]; [done|]. simpl in Hr |- *. destruct Hr as (_ & _ & Hr).
  split; [done|]. split; [done|]. by apply (ring_rest m m' p (q :: l)); auto.
Qed.

(** The successor and predecessor of a node in the middle of a ring. *)
Lemma ring_mid m p x l : ring m (p :: x :: l) ->
  rd m p = x /\ rd m (x + 4) = p /\ rd m x = after p l /\ rd m (after p l + 4) = x.
Proof. destruct l as [|q l]; simpl; tauto. Qed.

(** ** Specifications of the operations *)

Lemma rings_rot m l1 l2 : rings m (l1 ++ l2) -> rings m (l2 ++ l1).
Proof.
  intros (H1 & H2 & H3). split; [by apply ring_rot|]. split.
  - eapply nodes_apart_perm; [|exact H2]. by rewrite Permutation_app_comm.
  - by rewrite Permutation_app_comm.
Qed.

Lemma frame_perm m m' l l' : l ≡ₚ l' -> frame m m' l -> frame m m' l'.
Proof.
  intros Hp Hf a Ha. apply Hf. intros (x & Hx & Hax). apply Ha. exists x. by rewrite <- Hp.
Qed.

Lemma after_elem p l : after p l ∈ p :: l.
Proof. destruct l; set_solver. Qed.

(** Step through field accesses of nodes known to be valid. *)
Ltac list_step :=
  first
    [ wp_step
    | progress unfold get_next, get_prev, set_next, set_prev
    | rewrite valid_u32 by done
    | apply load32_wp; [done|]
    | apply store32_wp; [done|] ]; mem_simp.

Section Between.
Context (m : mem) (p n : Z) (l : list Z).
Hypothesis H_ring : rings m (p :: l).
Hypothesis H_n : node_ok n.
Hypothesis H_apart : forall y, y ∈ p :: l -> apart n y.

(** What both insertions leave behind. *)
Lemma insert_result m' :
  (forall a, a <> p -> a <> n -> a <> n + 4 -> a <> after p l + 4 -> rd m' a = rd m a) ->
  rd m' p = n -> rd m' (n + 4) = p -> rd m' n = after p l -> rd m' (after p l + 4) = n ->
  rings m' (p :: n :: l) /\ frame m m' (n :: p :: l).
Proof.
  intros Hsame H1 H2 H3 H4. destruct H_ring as (Hr & Hap & Hok).
  pose proof (after_elem p l) as Hq. pose proof (nodes_apart_cons p l) as [Hpl _].
  destruct (Hpl Hap) as [Hpl' _]. split.
  - split; [|split].
    + apply (ring_insert m m' p l n); try done.
      * intros y Hy Hne. pose proof (Hpl' y Hy). pose proof (H_apart y ltac:(set_solver)).
        apply Hsame; [done | unfold apart in *; lia..|].
        destruct l as [|q l']; [set_solver|]. cbn [after hd] in *.
        apply nodes_apart_cons in Hap as [_ [Hq' _]%nodes_apart_cons].
        apply elem_of_cons in Hy as [->|Hy]; [lia|]. specialize (Hq' y Hy). unfold apart in Hq'. lia.
      * intros y Hy Hne. pose proof (H_apart y Hy).
        apply Hsame; [|unfold apart in *; lia..].
        apply elem_of_cons in Hy as [->|Hy]; [lia|]. pose proof (Hpl' y Hy). unfold apart in *; lia.
    + apply (nodes_apart_perm (n :: p :: l)); [by constructor|]. by apply nodes_apart_cons.
    + apply Forall_cons in Hok as [Hp Hl]. do 2 (constructor; [done|]); done.
  - intros a Ha. apply Hsame; intros ->; apply Ha; [exists p | exists n | exists n | exists (after p l)];
      (split; [set_solver | tauto]).
Qed.

Lemma around_facts : node_ok n /\ node_ok p /\ node_ok (after p l) /\ apart n p /\ apart n (after p l) /\
  (after p l = p \/ apart p (after p l)) /\ rd m p = after p l /\ rd m (after p l + 4) = p.
Proof.
  destruct H_ring as (Hr & Hap & Hok). pose proof (after_elem p l) as Hq.
  rewrite Forall_forall in Hok. apply ring_after in Hr as (Hr1 & Hr2 & _).
  split; [done|]. split; [apply Hok; set_solver|]. split; [by apply Hok|]. split; [apply H_apart; set_solver|].
  split; [by apply H_apart|]. split; [|done].
  destruct l as [|q l']; [by left|]. right. apply nodes_apart_cons in Hap as [Hap _]. apply Hap. set_solver.
Qed.

Lemma list_insert_after_wp (Q : unit -> mem -> Prop) :
  (forall m', rings m' (p :: n :: l) -> frame m m' (n :: p :: l) -> Q tt m') ->
  wp (list_insert_after p n) Q m.
Proof.
  intros HQ. destruct around_facts as ([? ?] & [? ?] & [? ?] & Hnp & Hnq & Hpq & Hrp & Hrq).
  set (q := after p l) in *. unfold list_insert_after, apart in *.
  repeat list_step. rewrite ?Hrp. repeat list_step. rewrite ?Hrp. repeat list_step.
  edestruct insert_result as [Hres Hfr]; [| | | | |apply HQ; [exact Hres | exact Hfr]]; fold q;
    intros; mem_simp; done || lia.
Qed.

Lemma list_insert_before_wp (Q : unit -> mem -> Prop) :
  (forall m', rings m' (p :: n :: l) -> frame m m' (n :: p :: l) -> Q tt m') ->
  wp (list_insert_before (after p l) n) Q m.
Proof.
  intros HQ. destruct around_facts as ([? ?] & [? ?] & [? ?] & Hnp & Hnq & Hpq & Hrp & Hrq).
  set (q := after p l) in *. unfold list_insert_before, apart in *.
  repeat list_step. rewrite ?Hrq. repeat list_step. rewrite ?Hrq. repeat list_step.
  edestruct insert_result as [Hres Hfr]; [| | | | |apply HQ; [exact Hres | exact Hfr]]; fold q;
    intros; mem_simp; done || lia.
Qed.
End Between.

(** A node [x] between [p] and the rest [l]. *)
Section Middle.
Context (m : mem) (p x : Z) (l : list Z).
Hypothesis H_ring : rings m (p :: x :: l).

Lemma middle_facts : node_ok x /\ node_ok p /\ node_ok (after p l) /\ apart p x /\
  apart x (after p l) /\ (after p l = p \/ apart p (after p l)) /\ rd m p = x /\ rd m (x + 4) = p /\
  rd m x = after p l /\ rd m (after p l + 4) = x.
Proof.
  destruct H_ring as (Hr & Hap & Hok). pose proof (after_elem p l) as Hq.
  rewrite Forall_forall in Hok. apply ring_mid in Hr.
  apply nodes_apart_cons in Hap as [Hp [Hx _]%nodes_apart_cons].
  split; [apply Hok; set_solver|]. split; [apply Hok; set_solver|]. split; [apply Hok; set_solver|].
  split; [apply Hp; set_solver|].
  apply elem_of_cons in Hq as [Hq|Hq].
  - rewrite !Hq in *. split; [apply apart_sym, Hp; set_solver|]. split; [by left|]. done.
  - split; [by apply Hx|]. split; [|done]. right. apply Hp. set_solver.
Qed.

Lemma remove_result m' :
  (forall a, a <> p -> a <> x -> a <> x + 4 -> a <> after p l + 4 -> rd m' a = rd m a) ->
  rd m' p = after p l -> rd m' (after p l + 4) = p ->
  rings m' (p :: l) /\ frame m m' (x :: p :: l).
Proof.
  intros Hsame H1 H2. destruct H_ring as (Hr & Hap & Hok). pose proof (after_elem p l) as Hq.
  assert (nodes_apart (x :: p :: l)) as [Hx Hpl]%nodes_apart_cons
    by (eapply nodes_apart_perm; [|exact Hap]; constructor).
  pose proof (proj1 (nodes_apart_cons p l) Hpl) as [Hp Hl]. split; [split; [|split]|].
  - apply (ring_remove m m' p x l); try done.
    + intros y Hy Hne. pose proof (Hp y Hy). pose proof (Hx y ltac:(set_solver)).
      apply Hsame; [done | unfold apart in *; lia..|].
      destruct l as [|q l']; [set_solver|]. cbn [after hd] in *.
      apply nodes_apart_cons in Hl as [Hq' _].
      apply elem_of_cons in Hy as [->|Hy]; [lia|]. specialize (Hq' y Hy). unfold apart in Hq'. lia.
    + intros y Hy Hne. pose proof (Hx y Hy). apply Hsame; [|unfold apart in *; lia..].
      apply elem_of_cons in Hy as [->|Hy]; [lia|]. pose proof (Hp y Hy). unfold apart in *; lia.
  - done.
  - apply Forall_cons in Hok as [? [? ?]%Forall_cons]. by constructor.
  - intros a Ha. apply Hsame; intros ->; apply Ha; [exists p | exists x | exists x | exists (after p l)];
      (split; [set_solver | tauto]).
Qed.

Lemma list_remove_wp (Q : unit -> mem -> Prop) :
  (forall m', rings m' (p :: l) -> frame m m' (x :: p :: l) ->
     rd m' x = NULL -> rd m' (x + 4) = NULL -> Q tt m') ->
  wp (list_remove x) Q m.
Proof.
  intros HQ. destruct middle_facts
    as ([? ?] & [? ?] & [? ?] & Hpx & Hxq & Hpq & Hp & Hx4 & Hx & Hq4).
  set (q := after p l) in *. unfold list_remove, apart in *.
  repeat list_step. rewrite ?Hx, ?Hx4. repeat list_step. rewrite ?Hx, ?Hx4. repeat list_step.
  rewrite ?Hx, ?Hx4. repeat list_step.
  edestruct remove_result as [Hres Hfr]; [| | |apply HQ; [exact Hres | exact Hfr | |]]; fold q;
    intros; mem_simp; done || lia.
Qed.

Lemma replace_result m' n :
  node_ok n -> (forall y, y ∈ p :: x :: l -> apart n y) ->
  (forall a, a <> p -> a <> n -> a <> n + 4 -> a <> x -> a <> x + 4 -> a <> after p l + 4 ->
     rd m' a = rd m a) ->
  rd m' p = n -> rd m' (n + 4) = p -> rd m' n = after p l -> rd m' (after p l + 4) = n ->
  rings m' (p :: n :: l) /\ frame m m' (n :: x :: p :: l).
Proof.
  intros Hn Han Hsame H1 H2 H3 H4.
  destruct middle_facts as (_ & _ & _ & Hpx & Hxq & Hpq & _).
  pose proof (Han p ltac:(set_solver)) as Hnp. pose proof (after_elem p l) as Hq.
  assert (apart n (after p l)) as Hnq by (apply Han; set_solver). unfold apart in *.
  (* a memory in which [x] is unlinked and its fields already have their last value *)
  set (m0 := wr (wr (wr (wr m x (rd m' x)) (x + 4) (rd m' (x + 4))) p (after p l)) (after p l + 4) p).
  destruct (remove_result m0) as [Hr0 Hf0]; [subst m0; intros; mem_simp; done || lia..|].
  destruct (insert_result m0 p n l Hr0 Hn) with (m' := m') as [Hr Hf]; try done.
  - intros y [->|Hy]%elem_of_cons; apply Han; apply elem_of_cons; [by left|].
    right. apply elem_of_cons. by right.
  - intros a ????. destruct (Z.eq_dec a x) as [->|]; [subst m0; by mem_simp|].
    destruct (Z.eq_dec a (x + 4)) as [->|]; [subst m0; by mem_simp|].
    subst m0. mem_simp. by apply Hsame.
  - split; [done|]. intros a Ha. rewrite Hf, Hf0; [done | |];
      intros (y & Hy & Hay); apply Ha; exists y; (split; [|done]);
      rewrite !elem_of_cons in *; tauto.
Qed.

Lemma list_replace_wp n (Q : unit -> mem -> Prop) :
  node_ok n -> (forall y, y ∈ p :: x :: l -> apart n y) ->
  (forall m', rings m' (p :: n :: l) -> frame m m' (n :: x :: p :: l) ->
     rd m' x = NULL -> rd m' (x + 4) = NULL -> Q tt m') ->
  wp (list_replace x n) Q m.
Proof.
  intros Hn Han HQ. pose proof middle_facts as Hmid.
  assert (apart n p /\ apart n x /\ apart n (after p l)) as (Hnp & Hnx & Hnq).
  { pose proof (after_elem p l). split; [|split]; apply Han; set_solver. }
  pose proof Hn as [? ?]. pose proof (replace_result) as Hres.
  destruct Hmid as ([? ?] & [? ?] & [? ?] & Hpx & Hxq & Hpq & Hp & Hx4 & Hx & Hq4).
  set (q := after p l) in *. unfold list_replace, apart in *.
  repeat list_step. rewrite ?Hx, ?Hx4. repeat list_step. rewrite ?Hx, ?Hx4. repeat list_step.
  rewrite ?Hx, ?Hx4. repeat list_step. rewrite ?Hx, ?Hx4. repeat list_step.
  edestruct Hres as [Hr Hf]; [exact Hn | exact Han | | | | | |apply HQ; [exact Hr | exact Hf | |]];
    fold q; intros; mem_simp; done || lia.
Qed.
End Middle.

(** ** Lists with a sentinel

    A position in the list [xs1 ++ xs2] is the gap between [xs1] and [xs2]: the
    node before it is the last one of [h :: xs1], the node after it the first one
    of [xs2 ++ [h]]. *)

Definition before_gap (h : Z) (xs1 : list Z) : Z := List.last xs1 h.
Definition after_gap (h : Z) (xs2 : list Z) : Z := hd h xs2.

Lemma gap_split h xs1 : h :: xs1 = removelast (h :: xs1) ++ [before_gap h xs1].
Proof.
  rewrite (app_removelast_last h (l := h :: xs1)) at 1 by done. do 2 f_equal.
  unfold before_gap. destruct xs1 as [|y xs1]; [done|].
  change (List.last (h :: y :: xs1) h) with (List.last (y :: xs1) h). done.
Qed.

Lemma dll_gap m h xs1 xs2 :
  dll m h (xs1 ++ xs2) <-> rings m (before_gap h xs1 :: xs2 ++ removelast (h :: xs1)).
Proof.
  unfold dll. rewrite app_comm_cons. rewrite (gap_split h xs1) at 1. rewrite <- app_assoc.
  change (before_gap h xs1 :: xs2 ++ removelast (h :: xs1))
    with (([before_gap h xs1] ++ xs2) ++ removelast (h :: xs1)).
  split; apply rings_rot.
Qed.

Lemma after_gap_spec h xs1 xs2 :
  after (before_gap h xs1) (xs2 ++ removelast (h :: xs1)) = after_gap h xs2.
Proof.
  unfold after, after_gap. destruct xs2 as [|x xs2]; [|done].
  destruct xs1 as [|y xs1]; done.
Qed.

Lemma gap_perm h xs1 xs2 :
  before_gap h xs1 :: xs2 ++ removelast (h :: xs1) ≡ₚ h :: xs1 ++ xs2.
Proof.
  transitivity (removelast (h :: xs1) ++ before_gap h xs1 :: xs2).
  - rewrite app_comm_cons. apply Permutation_app_comm.
  - change (before_gap h xs1 :: xs2) with ([before_gap h xs1] ++ xs2).
    by rewrite app_assoc, <- gap_split.
Qed.

Lemma gap_elem h xs1 xs2 y :
  y ∈ before_gap h xs1 :: xs2 ++ removelast (h :: xs1) <-> y ∈ h :: xs1 ++ xs2.
Proof. by rewrite gap_perm. Qed.

Lemma dll_node_ok m h xs y : dll m h xs -> y ∈ h :: xs -> node_ok y.
Proof. intros (_ & _ & H) Hy. rewrite Forall_forall in H. auto. Qed.

Lemma dll_apart m h xs : dll m h xs -> nodes_apart (h :: xs).
Proof. by intros (_ & H & _). Qed.

Lemma dll_empty m h xs : dll m h xs -> (rd m h =? h) = bool_decide (xs = []).
Proof.
  intros (Hr & Hap & _). apply ring_after in Hr as (Hh & _). rewrite Hh.
  destruct xs as [|x xs]; [simpl; by rewrite Z.eqb_refl|].
  apply nodes_apart_cons in Hap as [Hap _]. specialize (Hap x ltac:(set_solver)).
  unfold apart in Hap. rewrite bool_decide_false by done. simpl. lia.
Qed.

Lemma dll_ends m h xs : dll m h xs -> rd m h = after_gap h xs /\ rd m (h + 4) = before_gap h xs.
Proof.
  intros H. split.
  - destruct H as (Hr & _). by apply ring_after in Hr as (Hh & _).
  - rewrite <- (app_nil_r xs) in H. apply dll_gap in H as (Hr & _).
    apply ring_after in Hr as (_ & Hp & _). by rewrite after_gap_spec in Hp.
Qed.

Lemma frame_dll m m' h xs l :
  dll m h xs -> frame m m' l -> (forall x y, x ∈ h :: xs -> y ∈ l -> apart x y) -> dll m' h xs.
Proof.
  intros (Hr & Hap & Hok) Hf Hd. split; [|done].
  assert (Hs : forall x, x ∈ h :: xs -> rd m' x = rd m x /\ rd m' (x + 4) = rd m (x + 4)).
  { intros x Hx. split; apply Hf; intros (y & Hy & Hay); specialize (Hd x y Hx Hy);
      unfold apart in Hd; lia. }
  simpl in *. apply (chain_frame m); [done | |]; intros x Hx; apply Hs; set_solver.
Qed.

(** [list_init] makes an empty list. *)
Lemma list_init_wp m h (Q : unit -> mem -> Prop) :
  node_ok h -> (forall m', dll m' h [] -> frame m m' [h] -> Q tt m') -> wp (list_init h) Q m.
Proof.
  intros [? ?] HQ. unfold list_init. repeat list_step. apply HQ.
  - split; [|split].
    + simpl. split; [|split; [|done]]; mem_simp; done.
    + constructor; constructor.
    + constructor; [done | constructor].
  - intros a Ha. rewrite !rd_wr_ne; [done | |]; intros <-; apply Ha; exists h; set_solver.
Qed.

Lemma list_empty_wp m h xs (Q : bool -> mem -> Prop) :
  dll m h xs -> Q (bool_decide (xs = [])) m -> wp (list_empty h) Q m.
Proof.
  intros Hd HQ. destruct (dll_node_ok m h xs h Hd ltac:(set_solver)).
  unfold list_empty. repeat list_step. by rewrite (dll_empty m h xs Hd).
Qed.

Lemma list_front_wp m h xs (Q : Z -> mem -> Prop) :
  dll m h xs -> Q (hd NULL xs) m -> wp (list_front h) Q m.
Proof.
  intros Hd HQ. unfold list_front. wp_step. eapply list_empty_wp; [done|].
  destruct xs as [|x xs]; [by rewrite bool_decide_true by done|]. rewrite bool_decide_false by done.
  destruct (dll_node_ok _ _ _ h Hd ltac:(set_solver)). repeat list_step.
  by destruct (dll_ends _ _ _ Hd) as [-> _].
Qed.

Lemma last_cons_indep (x : Z) xs d d' : List.last (x :: xs) d = List.last (x :: xs) d'.
Proof. revert x. induction xs as [|y xs IH]; intros x; [done|]. apply (IH y). Qed.

Lemma list_back_wp m h xs (Q : Z -> mem -> Prop) :
  dll m h xs -> Q (List.last xs NULL) m -> wp (list_back h) Q m.
Proof.
  intros Hd HQ. unfold list_back. wp_step. eapply list_empty_wp; [done|].
  destruct xs as [|x xs]; [by rewrite bool_decide_true by done|]. rewrite bool_decide_false by done.
  destruct (dll_node_ok _ _ _ h Hd ltac:(set_solver)). repeat list_step.
  destruct (dll_ends _ _ _ Hd) as [_ ->]. unfold before_gap.
  by rewrite (last_cons_indep x xs h NULL).
Qed.

(** *** Insertion and removal at a gap *)

Section Gap.
Context (m : mem) (h : Z) (xs1 xs2 : list Z).

Lemma list_insert_after_gap n (Q : unit -> mem -> Prop) :
  dll m h (xs1 ++ xs2) -> node_ok n -> (forall y, y ∈ h :: xs1 ++ xs2 -> apart n y) ->
  (forall m', dll m' h (xs1 ++ n :: xs2) -> frame m m' (n :: h :: xs1 ++ xs2) -> Q tt m') ->
  wp (list_insert_after (before_gap h xs1) n) Q m.
Proof.
  intros Hd Hn Ha HQ. apply dll_gap in Hd. eapply list_insert_after_wp; [exact Hd | done | |].
  - intros y Hy. by apply Ha, gap_elem.
  - intros m' Hr Hf. apply HQ; [by apply dll_gap|]. eapply frame_perm; [|exact Hf].
    by rewrite gap_perm.
Qed.

Lemma list_insert_before_gap n (Q : unit -> mem -> Prop) :
  dll m h (xs1 ++ xs2) -> node_ok n -> (forall y, y ∈ h :: xs1 ++ xs2 -> apart n y) ->
  (forall m', dll m' h (xs1 ++ n :: xs2) -> frame m m' (n :: h :: xs1 ++ xs2) -> Q tt m') ->
  wp (list_insert_before (after_gap h xs2) n) Q m.
Proof.
  intros Hd Hn Ha HQ. apply dll_gap in Hd. rewrite <- (after_gap_spec h xs1).
  eapply list_insert_before_wp; [exact Hd | done | |].
  - intros y Hy. by apply Ha, gap_elem.
  - intros m' Hr Hf. apply HQ; [by apply dll_gap|]. eapply frame_perm; [|exact Hf].
    by rewrite gap_perm.
Qed.

Lemma list_remove_gap x (Q : unit -> mem -> Prop) :
  dll m h (xs1 ++ x :: xs2) ->
  (forall m', dll m' h (xs1 ++ xs2) -> frame m m' (h :: xs1 ++ x :: xs2) ->
     rd m' x = NULL -> rd m' (x + 4) = NULL -> Q tt m') ->
  wp (list_remove x) Q m.
Proof.
  intros Hd HQ. apply dll_gap in Hd. eapply list_remove_wp; [exact Hd|].
  intros m' Hr Hf H1 H2. apply HQ; [by apply dll_gap | | done..]. eapply frame_perm; [|exact Hf].
  rewrite gap_perm. by rewrite <- Permutation_middle, perm_swap.
Qed.

Lemma list_replace_gap x n (Q : unit -> mem -> Prop) :
  dll m h (xs1 ++ x :: xs2) -> node_ok n -> (forall y, y ∈ h :: xs1 ++ x :: xs2 -> apart n y) ->
  (forall m', dll m' h (xs1 ++ n :: xs2) -> frame m m' (n :: h :: xs1 ++ x :: xs2) ->
     rd m' x = NULL -> rd m' (x + 4) = NULL -> Q tt m') ->
  wp (list_replace x n) Q m.
Proof.
  intros Hd Hn Ha HQ. apply dll_gap in Hd. eapply list_replace_wp; [exact Hd | done | |].
  - intros y Hy. apply Ha, gap_elem. exact Hy.
  - intros m' Hr Hf H1 H2. apply HQ; [by apply dll_gap | | done..]. eapply frame_perm; [|exact Hf].
    rewrite gap_perm. by rewrite <- Permutation_middle, (perm_swap x h).
Qed.
End Gap.

Lemma list_pop_front_wp m h xs (Q : Z -> mem -> Prop) :
  dll m h xs ->
  (forall m', dll m' h (tl xs) -> frame m m' (h :: xs) -> Q (hd NULL xs) m') ->
  wp (list_pop_front h) Q m.
Proof.
  intros Hd HQ. unfold list_pop_front. wp_step. eapply list_empty_wp; [done|].
  destruct xs as [|x xs]; [rewrite bool_decide_true by done; by apply wp_ret, HQ|].
  rewrite bool_decide_false by done.
  destruct (dll_node_ok _ _ _ h Hd ltac:(set_solver)). destruct (dll_ends _ _ _ Hd) as [Hh _].
  repeat list_step. rewrite Hh. apply (list_remove_gap m h [] xs x); [done|].
  intros m' Hd' Hf _ _. by apply wp_ret, HQ.
Qed.

Lemma list_pop_back_wp m h xs (Q : Z -> mem -> Prop) :
  dll m h xs ->
  (forall m', dll m' h (removelast xs) -> frame m m' (h :: xs) -> Q (List.last xs NULL) m') ->
  wp (list_pop_back h) Q m.
Proof.
  intros Hd HQ. unfold list_pop_back. wp_step. eapply list_empty_wp; [done|].
  destruct xs as [|x xs]; [rewrite bool_decide_true by done; by apply wp_ret, HQ|].
  rewrite bool_decide_false by done.
  destruct (dll_node_ok _ _ _ h Hd ltac:(set_solver)). destruct (dll_ends _ _ _ Hd) as [_ Hh].
  repeat list_step. rewrite Hh. unfold before_gap. rewrite (last_cons_indep x xs h NULL).
  pose proof (app_removelast_last NULL (l := x :: xs) ltac:(done)) as E.
  eapply (list_remove_gap m h (removelast (x :: xs)) []); [by rewrite <- E|].
  intros m' Hd' Hf _ _. rewrite <- E in Hf. rewrite app_nil_r in Hd'. by apply wp_ret, HQ.
Qed.

(** *** Traversal

    [I pre m]: the nodes [pre] have been visited; the body may change memory as
    long as the list itself stays in place.  One unit of fuel per node and one
    for the sentinel are enough. *)
Lemma list_for_each_wp {R} (I : list Z -> mem -> Prop) (Q : option R -> mem -> Prop) body h :
  forall xs2 xs1 fuel m,
  (length xs2 < fuel)%nat ->
  (forall pre m', I pre m' -> dll m' h (xs1 ++ xs2)) ->
  I xs1 m ->
  (forall pre x post m', xs1 ++ xs2 = pre ++ x :: post -> I pre m' ->
     wp (body x) (fun r m'' => match r with
                               | Some v => Q (Some v) m''
                               | None => I (pre ++ [x]) m''
                               end) m') ->
  (forall m', I (xs1 ++ xs2) m' -> Q None m') ->
  wp (list_for_each fuel h (after_gap h xs2) body) Q m.
Proof.
  induction xs2 as [|x xs2 IH]; intros xs1 fuel m Hfuel Hdll HI Hbody Hend;
    (destruct fuel as [|fuel]; [simpl in Hfuel; lia|]); cbn [list_for_each after_gap hd].
  - rewrite Z.eqb_refl. apply wp_ret, Hend. by rewrite app_nil_r.
  - pose proof (Hdll _ _ HI) as Hd.
    assert (x <> h) as Hne.
    { apply dll_apart, nodes_apart_cons in Hd as [Hd _]. specialize (Hd x ltac:(set_solver)).
      unfold apart in Hd. lia. }
    destruct (Z.eqb_spec x h); [done|]. wp_step.
    wp_use Hbody; [reflexivity | exact HI|]. intros [v|] m' Hm'; [by apply wp_ret|].
    pose proof (Hdll _ _ Hm') as Hd'. wp_step. unfold get_next.
    destruct (dll_node_ok _ _ _ x Hd' ltac:(set_solver)).
    apply load32_wp; [done|].
    assert (rd m' x = after_gap h xs2) as ->.
    { apply dll_gap in Hd' as (Hr & _). apply (ring_mid _ _ _ (xs2 ++ removelast (h :: xs1))) in Hr.
      destruct Hr as (_ & _ & -> & _). apply after_gap_spec. }
    apply (IH (xs1 ++ [x])); rewrite <- ?app_assoc; simpl in *; try done; lia.
Qed.

(** ** The operations implement operations on sequences *)

(** The calls a client makes on a list; nodes are named by their address. *)
Inductive list_op : Type :=
  | OpInsertFront (n : Z)
  | OpInsertBack (n : Z)
  | OpInsertAfter (x n : Z)
  | OpInsertBefore (x n : Z)
  | OpRemove (x : Z)
  | OpReplace (x n : Z)
  | OpPopFront
  | OpPopBack.

(** The code a call runs; calls without a result yield NULL. *)
Definition run_op (h : Z) (op : list_op) : M mem Z :=
  match op with
  | OpInsertFront n => list_insert_front h n ;;; ret NULL
  | OpInsertBack n => list_insert_back h n ;;; ret NULL
  | OpInsertAfter x n => list_insert_after x n ;;; ret NULL
  | OpInsertBefore x n => list_insert_before x n ;;; ret NULL
  | OpRemove x => list_remove x ;;; ret NULL
  | OpReplace x n => list_replace x n ;;; ret NULL
  | OpPopFront => list_pop_front h
  | OpPopBack => list_pop_back h
  end.

(** What the call means: put [f x] in the place of the element [x] of [xs]. *)
Definition splice (x : Z) (new : list Z) (xs : list Z) : list Z :=
  flat_map (fun y => if decide (y = x) then new else [y]) xs.

Definition spec_op (op : list_op) (xs : list Z) : Z * list Z :=
  match op with
  | OpInsertFront n => (NULL, n :: xs)
  | OpInsertBack n => (NULL, xs ++ [n])
  | OpInsertAfter x n => (NULL, splice x [x; n] xs)
  | OpInsertBefore x n => (NULL, splice x [n; x] xs)
  | OpRemove x => (NULL, splice x [] xs)
  | OpReplace x n => (NULL, splice x [n] xs)
  | OpPopFront => (hd NULL xs, tl xs)
  | OpPopBack => (List.last xs NULL, removelast xs)
  end.

(** The node a call adds, and the node it takes as its position. *)
Definition op_new (op : list_op) : option Z :=
  match op with
  | OpInsertFront n | OpInsertBack n | OpInsertAfter _ n | OpInsertBefore _ n | OpReplace _ n => Some n
  | _ => None
  end.
Definition op_pos (op : list_op) : option Z :=
  match op with
  | OpInsertAfter x _ | OpInsertBefore x _ | OpRemove x | OpReplace x _ => Some x
  | _ => None
  end.

(** The rules of use: a position is in the list, a new node is not and does
    not overlap it. *)
Definition op_ok (h : Z) (xs : list Z) (op : list_op) : Prop :=
  match op_new op with Some n => node_ok n /\ (forall y, y ∈ h :: xs -> apart n y) | None => True end /\
  match op_pos op with Some x => x ∈ xs | None => True end.

Lemma splice_at h x new xs1 xs2 :
  nodes_apart (h :: xs1 ++ x :: xs2) -> splice x new (xs1 ++ x :: xs2) = xs1 ++ new ++ xs2.
Proof.
  intros [_ Hap]%nodes_apart_cons. apply nodes_apart_app in Hap as (_ & Hap & H12).
  apply nodes_apart_cons in Hap as [H2 _].
  assert (Hid : forall l, (forall y, y ∈ l -> y <> x) -> splice x new l = l).
  { intros l Hl. induction l as [|y l IH]; [done|]. simpl.
    rewrite decide_False by (apply Hl; set_solver). simpl. f_equal. apply IH. set_solver. }
  unfold splice in *. rewrite flat_map_app. cbn [flat_map]. rewrite decide_True by done.
  rewrite !Hid; [done | |]; intros y Hy.
  - specialize (H2 y Hy). unfold apart in H2. lia.
  - specialize (H12 y x Hy ltac:(set_solver)). unfold apart in H12. lia.
Qed.

Lemma before_gap_snoc h xs1 x : before_gap h (xs1 ++ [x]) = x.
Proof. unfold before_gap. apply List.last_last. Qed.

Lemma run_op_wp m h xs op :
  dll m h xs -> op_ok h xs op ->
  wp (run_op h op) (fun r m' => r = (spec_op op xs).1 /\ dll m' h (spec_op op xs).2 /\
    frame m m' (from_option (fun n => [n]) [] (op_new op) ++ h :: xs)) m.
Proof.
  intros Hd [Hnew Hpos].
  destruct op as [n|n|x n|x n|x|x n| |]; cbn [op_new op_pos run_op spec_op fst snd from_option] in *;
    try match type of Hnew with _ /\ _ => destruct Hnew as [Hn Ha] end;
    try (apply list_elem_of_split in Hpos as (xs1 & xs2 & ->); pose proof (dll_apart _ _ _ Hd) as Hap;
         rewrite (splice_at h) by done; cbn [app]).
  - wp_step. apply (list_insert_after_gap m h [] xs n); auto. intros. by wp_step.
  - wp_step. apply (list_insert_before_gap m h xs [] n); rewrite ?app_nil_r; auto. intros. by wp_step.
  - wp_step. rewrite <- (before_gap_snoc h xs1 x) at 1.
    apply (list_insert_after_gap m h (xs1 ++ [x]) xs2 n); rewrite <- ?app_assoc; auto.
    intros. by wp_step.
  - wp_step. apply (list_insert_before_gap m h xs1 (x :: xs2) n); auto. intros. by wp_step.
  - wp_step. apply (list_remove_gap m h xs1 xs2 x); auto. intros. by wp_step.
  - wp_step. apply (list_replace_gap m h xs1 xs2 x n); auto. intros. by wp_step.
  - apply (list_pop_front_wp m h xs); auto.
  - apply (list_pop_back_wp m h xs); auto.
Qed.


(** A sentinel and two nodes, built with the operations themselves. *)
Definition list_sample : mem :=
  match (list_init 3221225472 ;;; list_insert_back 3221225472 3221225480 ;;;
         list_insert_back 3221225472 3221225488) ∅ with
  | Some (_, m) => m
  | None => ∅
  end.

Lemma list_sample_ok : dll list_sample 3221225472 [3221225480; 3221225488].
Proof.
  split; [|split].
  - repeat split; vm_compute; reflexivity.
  - rewrite !nodes_apart_cons. split; [|split; [|split; [|constructor]]]; intros y Hy;
      rewrite ?elem_of_cons, ?elem_of_nil in Hy; unfold apart; lia.
  - rewrite !Forall_cons, Forall_nil. unfold node_ok, valid, KERNEL_VIRT_OFFSET. dlia.
Qed.


