(* ===== verification/KMem.v ===== *)
(** * Byte and string routines

    Models [kernel/klib/memory.c] and [kernel/klib/string.c] on the store of
    [Memory].  A pointer is an address; reading or writing outside the kernel's
    half is undefined.  The [while] loops of the string routines take a fuel
    argument; the theorems show that the length of the string bounds it. *)

From S2P Require Import Prelude Base Memory KList.

(** ** memory.c *)

Definition memset (dst val n : Z) : M mem Z :=
  let v := u8 val in
  for_each 0 n (fun i => store8 (u32 (dst + i)) v) ;;;
  ret dst.

Definition memcpy (dst src n : Z) : M mem Z :=
  for_each 0 n (fun i => b <-- load8 (u32 (src + i)) ;; store8 (u32 (dst + i)) b) ;;;
  ret dst.

Definition memcmp (src1 src2 n : Z) : M mem Z :=
  r <-- for_lt 0 n tt (fun i _ =>
    a <-- load8 (u32 (src1 + i)) ;;
    b <-- load8 (u32 (src2 + i)) ;;
    if negb (a =? b) then ret (inr (a - b)) else ret (inl tt)) ;;
  match r with inl _ => ret 0 | inr v => ret v end.

Definition memmove (dst src n : Z) : M mem Z :=
  if dst =? src then ret dst
  else if dst <? src then
    for_each 0 n (fun i => b <-- load8 (u32 (src + i)) ;; store8 (u32 (dst + i)) b) ;;;
    ret dst
  else
    (* i runs from n down to 1 *)
    for_each 0 n (fun k =>
      let i := n - k in
      b <-- load8 (u32 (src + (i - 1))) ;; store8 (u32 (dst + (i - 1))) b) ;;;
    ret dst.

Definition memchr (src val n : Z) : M mem Z :=
  let v := u8 val in
  r <-- for_lt 0 n tt (fun i _ =>
    b <-- load8 (u32 (src + i)) ;;
    if b =? v then ret (inr (u32 (src + i))) else ret (inl tt)) ;;
  match r with inl _ => ret NULL | inr p => ret p end.

(** ** string.c *)

Fixpoint strlen_loop (fuel : nat) (s : Z) : M mem Z :=
  match fuel with
  | O => undefined
  | S k =>
      c <-- load8 s ;;
      if c =? 0 then ret s else strlen_loop k (u32 (s + 1))
  end.

Definition strlen (fuel : nat) (str : Z) : M mem Z :=
  s <-- strlen_loop fuel str ;; ret (u32 (s - str)).

Fixpoint strcmp (fuel : nat) (str1 str2 : Z) : M mem Z :=
  match fuel with
  | O => undefined
  | S k =>
      a <-- load8 str1 ;;
      b <-- load8 str2 ;;
      if negb (a =? 0) && (a =? b) then strcmp k (u32 (str1 + 1)) (u32 (str2 + 1))
      else ret (a - b)
  end.

(** [n] bounds the loop: no fuel is needed. *)
Fixpoint strncmp_loop (n : nat) (str1 str2 : Z) : M mem Z :=
  match n with
  | O => ret 0
  | S k =>
      a <-- load8 str1 ;;
      b <-- load8 str2 ;;
      if negb (a =? 0) && (a =? b) then strncmp_loop k (u32 (str1 + 1)) (u32 (str2 + 1))
      else ret (a - b)
  end.
Definition strncmp (str1 str2 n : Z) : M mem Z := strncmp_loop (Z.to_nat n) str1 str2.

Definition strcpy (fuel : nat) (dst src : Z) : M mem Z :=
  l <-- strlen fuel src ;;
  let len := u32 (l + 1) in
  memcpy dst src len ;;;
  ret dst.

Fixpoint strncpy_fill (n : nat) (dst : Z) : M mem unit :=
  match n with
  | O => ret tt
  | S k => store8 dst 0 ;;; strncpy_fill k (u32 (dst + 1))
  end.
Fixpoint strncpy_copy (n : nat) (dst src : Z) : M mem unit :=
  match n with
  | O => ret tt
  | S k =>
      c <-- load8 src ;;
      if c =? 0 then strncpy_fill n dst
      else store8 dst c ;;; strncpy_copy k (u32 (dst + 1)) (u32 (src + 1))
  end.
Definition strncpy (dst src n : Z) : M mem Z := strncpy_copy (Z.to_nat n) dst src ;;; ret dst.

Fixpoint strchr (fuel : nat) (str c : Z) : M mem Z :=
  match fuel with
  | O => undefined
  | S k =>
      b <-- load8 str ;;
      if b =? 0 then ret (if u8 c =? 0 then str else NULL)
      else if b =? u8 c then ret str
      else strchr k (u32 (str + 1)) c
  end.

Fixpoint strrchr_loop (fuel : nat) (str c last : Z) : M mem Z :=
  match fuel with
  | O => undefined
  | S k =>
      b <-- load8 str ;;
      if b =? 0 then ret (if u8 c =? 0 then str else last)
      else strrchr_loop k (u32 (str + 1)) c (if b =? u8 c then str else last)
  end.
Definition strrchr (fuel : nat) (str c : Z) : M mem Z := strrchr_loop fuel str c NULL.

(** ** Ranges of bytes *)

(** The [n] bytes from [a] are in the kernel's half. *)
Definition range_valid (a n : Z) : Prop := KERNEL_VIRT_OFFSET <= a /\ 0 <= n /\ a + n <= 4294967296.

Lemma range_valid8 a n i : range_valid a n -> 0 <= i < n -> valid8 (a + i) /\ u32 (a + i) = a + i.
Proof.
  unfold range_valid, valid8, KERNEL_VIRT_OFFSET. intros. split; [lia|]. apply u32_id. unfold is_u32. lia.
Qed.

(** The bytes [bs] are at [a]. *)
Definition bytes_at (m : mem) (a : Z) (bs : list Z) : Prop :=
  forall i, 0 <= i < Z.of_nat (length bs) -> rd8 m (a + i) = nth (Z.to_nat i) bs 0.

(** [m'] is [m] with the [n] bytes from [a] replaced as [f] says. *)
Definition bytes_upd (m m' : mem) (a n : Z) (f : Z -> Z) : Prop :=
  (forall i, 0 <= i < n -> rd8 m' (a + i) = f i) /\
  (forall x, x < a \/ a + n <= x -> rd8 m' x = rd8 m x).

Lemma memset_wp m dst val n :
  range_valid dst n ->
  wp (memset dst val n) (fun r m' => r = dst /\ bytes_upd m m' dst n (fun _ => u8 val)) m.
Proof.
  intros Hr. unfold memset. wp_step.
  apply (wp_for_each (fun i m' => bytes_upd m m' dst i (fun _ => u8 val))).
  - split; [lia | done].
  - intros i m1 Hi [H1 H2]. destruct (range_valid8 dst n i Hr Hi) as [Hv ->].
    apply store8_wp; [done|]. split.
    + intros j Hj. destruct (Z.eq_dec j i) as [->|]; [by apply rd8_wr8_eq, u8_range|].
      rewrite rd8_wr8_ne by (lia || apply u8_range). apply H1. lia.
    + intros x Hx. rewrite rd8_wr8_ne by (lia || apply u8_range). apply H2. lia.
  - intros m' H. wp_step. split; [done|]. destruct Hr as (_ & ? & _).
    by replace (Z.max 0 n) with n in H by lia.
Qed.

(** Copying upwards is right when the destination is below the source or the
    ranges do not overlap. *)
Lemma copy_up_wp m dst src n :
  range_valid dst n -> range_valid src n -> dst <= src \/ src + n <= dst ->
  wp (for_each 0 n (fun i => b <-- load8 (u32 (src + i)) ;; store8 (u32 (dst + i)) b))
    (fun _ m' => bytes_upd m m' dst n (fun i => rd8 m (src + i))) m.
Proof.
  intros Hd Hs Hov.
  apply (wp_for_each (fun i m' => bytes_upd m m' dst i (fun i => rd8 m (src + i)))).
  - split; [lia | done].
  - intros i m1 Hi [H1 H2]. destruct (range_valid8 dst n i Hd Hi) as [Hvd Ed].
    destruct (range_valid8 src n i Hs Hi) as [Hvs Es]. rewrite Ed, Es. wp_step.
    apply load8_wp; [done|]. apply store8_wp; [done|]. rewrite (H2 (src + i)) by lia. split.
    + intros j Hj. destruct (Z.eq_dec j i) as [->|]; [apply rd8_wr8_eq; auto with iwos|].
      rewrite rd8_wr8_ne by (lia || auto with iwos). apply H1. lia.
    + intros x Hx. rewrite rd8_wr8_ne by (lia || auto with iwos). apply H2. lia.
  - intros m' H. destruct Hd as (_ & ? & _). by replace (Z.max 0 n) with n in H by lia.
Qed.

Lemma copy_down_wp m dst src n :
  range_valid dst n -> range_valid src n -> src <= dst ->
  wp (for_each 0 n (fun k => b <-- load8 (u32 (src + (n - k - 1))) ;; store8 (u32 (dst + (n - k - 1))) b))
    (fun _ m' => bytes_upd m m' dst n (fun i => rd8 m (src + i))) m.
Proof.
  intros Hd Hs Hov.
  apply (wp_for_each (fun k m' => bytes_upd m m' (dst + (n - k)) k (fun i => rd8 m (src + (n - k) + i)))).
  - split; [lia | done].
  - intros k m1 Hi [H1 H2]. destruct (range_valid8 dst n (n - k - 1) Hd ltac:(lia)) as [Hvd Ed].
    destruct (range_valid8 src n (n - k - 1) Hs ltac:(lia)) as [Hvs Es]. rewrite Ed, Es. wp_step.
    apply load8_wp; [done|]. apply store8_wp; [done|]. rewrite (H2 (src + (n - k - 1))) by lia. split.
    + intros j Hj. destruct (Z.eq_dec j 0) as [->|].
      * replace (dst + (n - (k + 1)) + 0) with (dst + (n - k - 1)) by lia.
        rewrite rd8_wr8_eq by auto with iwos. f_equal. lia.
      * rewrite rd8_wr8_ne by (lia || auto with iwos).
        replace (dst + (n - (k + 1)) + j) with (dst + (n - k) + (j - 1)) by lia.
        rewrite H1 by lia. f_equal. lia.
    + intros x Hx. rewrite rd8_wr8_ne by (lia || auto with iwos). apply H2. lia.
  - intros m' H. destruct Hd as (_ & ? & _). replace (Z.max 0 n) with n in H by lia.
    destruct H as [H1 H2]. split.
    + intros i Hi. rewrite <- (Z.add_0_r (dst + i)). replace (dst + i + 0) with (dst + (n - n) + i) by lia.
      rewrite H1 by done. f_equal. lia.
    + intros x Hx. apply H2. lia.
Qed.

Lemma memcpy_wp m dst src n :
  range_valid dst n -> range_valid src n -> dst <= src \/ src + n <= dst ->
  wp (memcpy dst src n) (fun r m' => r = dst /\ bytes_upd m m' dst n (fun i => rd8 m (src + i))) m.
Proof.
  intros Hd Hs Hov. unfold memcpy. wp_step. wp_use copy_up_wp; [done..|]. intros _ m' H. by wp_step.
Qed.

Lemma memmove_wp m dst src n :
  range_valid dst n -> range_valid src n ->
  wp (memmove dst src n) (fun r m' => r = dst /\ bytes_upd m m' dst n (fun i => rd8 m (src + i))) m.
Proof.
  intros Hd Hs. unfold memmove. destruct (Z.eqb_spec dst src) as [->|Hne].
  { wp_step. done. }
  destruct (Z.ltb_spec dst src).
  - wp_step. wp_use copy_up_wp; [done | done | lia|]. intros _ m' Hm. by wp_step.
  - wp_step. wp_use copy_down_wp; [done | done | lia|]. intros _ m' Hm. by wp_step.
Qed.

(** [memcmp] returns the difference at the first byte that differs. *)
Lemma memcmp_wp m a b n :
  range_valid a n -> range_valid b n ->
  wp (memcmp a b n) (fun r m' => m' = m /\
    ((r = 0 /\ forall i, 0 <= i < n -> rd8 m (a + i) = rd8 m (b + i)) \/
     (exists i, 0 <= i < n /\ (forall j, 0 <= j < i -> rd8 m (a + j) = rd8 m (b + j)) /\
        r = rd8 m (a + i) - rd8 m (b + i) /\ r <> 0))) m.
Proof.
  intros Ha Hb. unfold memcmp. wp_step.
  apply (wp_for_lt (fun i _ m' => m' = m /\ forall j, 0 <= j < i -> rd8 m (a + j) = rd8 m (b + j))).
  - split; [done | lia].
  - intros i [] m' Hi [-> H]. destruct (range_valid8 a n i Ha Hi) as [Hva ->].
    destruct (range_valid8 b n i Hb Hi) as [Hvb ->]. wp_steps. apply load8_wp; [done|].
    wp_steps. apply load8_wp; [done|]. destruct (Z.eqb_spec (rd8 m (a + i)) (rd8 m (b + i))); cbn [negb]; wp_steps.
    + split; [done|]. intros j Hj. destruct (Z.eq_dec j i) as [->|]; [done | apply H; lia].
    + split; [done|]. right. exists i. split; [done|]. split; [done|]. split; [done | lia].
  - intros [] m' [-> H]. wp_steps. split; [done|]. left. split; [done|]. intros i Hi. apply H. lia.
Qed.

(** [memchr] returns the address of the first occurrence. *)
Lemma memchr_wp m a val n :
  range_valid a n ->
  wp (memchr a val n) (fun r m' => m' = m /\
    ((r = NULL /\ forall i, 0 <= i < n -> rd8 m (a + i) <> u8 val) \/
     (exists i, 0 <= i < n /\ r = a + i /\ rd8 m (a + i) = u8 val /\
        forall j, 0 <= j < i -> rd8 m (a + j) <> u8 val))) m.
Proof.
  intros Ha. unfold memchr. wp_step.
  apply (wp_for_lt (fun i _ m' => m' = m /\ forall j, 0 <= j < i -> rd8 m (a + j) <> u8 val)).
  - split; [done | lia].
  - intros i [] m' Hi [-> H]. destruct (range_valid8 a n i Ha Hi) as [Hva ->]. wp_steps.
    apply load8_wp; [done|]. destruct (Z.eqb_spec (rd8 m (a + i)) (u8 val)); wp_steps.
    + split; [done|]. right. exists i. done.
    + split; [done|]. intros j Hj. destruct (Z.eq_dec j i) as [->|]; [done | apply H; lia].
  - intros [] m' [-> H]. wp_steps. split; [done|]. left. split; [done|]. intros i Hi. apply H. lia.
Qed.

(** ** C strings *)

(** The NUL-terminated string [bs] is at [a]. *)
Fixpoint cstr (m : mem) (a : Z) (bs : list Z) : Prop :=
  match bs with
  | [] => valid8 a /\ rd8 m a = 0
  | b :: t => valid8 a /\ a + 1 < 4294967296 /\ rd8 m a = b /\ b <> 0 /\ cstr m (a + 1) t
  end.

Lemma cstr_valid m a bs : cstr m a bs -> valid8 a.
Proof. destruct bs; simpl; tauto. Qed.

Lemma u32_succ a : valid8 a -> a + 1 < 4294967296 -> u32 (a + 1) = a + 1.
Proof. unfold valid8, KERNEL_VIRT_OFFSET. intros. apply u32_id. unfold is_u32. lia. Qed.

Lemma cstr_range m a bs : cstr m a bs -> range_valid a (Z.of_nat (length bs) + 1).
Proof.
  revert a. induction bs as [|b bs IH]; intros a H; simpl in *.
  - unfold range_valid, valid8 in *. lia.
  - destruct H as (Hv & _ & _ & _ & H). apply IH in H. unfold range_valid, valid8 in *. lia.
Qed.

(** The bytes of a string with its terminator. *)
Lemma cstr_bytes m a bs : cstr m a bs -> bytes_at m a (bs ++ [0]).
Proof.
  unfold bytes_at. revert a. induction bs as [|b bs IH]; intros a H i Hi; simpl in *.
  - assert (i = 0) as -> by lia. simpl. rewrite Z.add_0_r. tauto.
  - destruct H as (_ & _ & Hb & _ & H). destruct (Z.eq_dec i 0) as [->|].
    + simpl. by rewrite Z.add_0_r.
    + replace (Z.to_nat i) with (S (Z.to_nat (i - 1))) by lia. cbn [nth].
      rewrite <- (IH (a + 1) H (i - 1)) by lia. f_equal. lia.
Qed.

(** A string is determined by its bytes. *)
Lemma cstr_of_bytes m a bs :
  bytes_at m a (bs ++ [0]) -> range_valid a (Z.of_nat (length bs) + 1) -> Forall (fun b => b <> 0) bs ->
  cstr m a bs.
Proof.
  unfold bytes_at. rewrite length_app. revert a. induction bs as [|b bs IH]; intros a Hb Hr Hnz; simpl in *.
  - specialize (Hb 0 ltac:(lia)). rewrite Z.add_0_r in Hb. unfold range_valid, valid8 in *. split; [lia | done].
  - apply Forall_cons in Hnz as [Hb0 Hnz]. unfold range_valid, valid8 in *. split; [lia|]. split; [lia|].
    split; [specialize (Hb 0 ltac:(lia)); by rewrite Z.add_0_r in Hb|]. split; [done|].
    apply IH; [|lia|done]. intros i Hi. specialize (Hb (i + 1) ltac:(lia)).
    replace (Z.to_nat (i + 1)) with (S (Z.to_nat i)) in Hb by lia. cbn [nth] in Hb. rewrite <- Hb. f_equal. lia.
Qed.

Lemma strlen_loop_wp m bs : forall a fuel,
  cstr m a bs -> (length bs < fuel)%nat ->
  wp (strlen_loop fuel a) (fun r m' => m' = m /\ r = a + Z.of_nat (length bs)) m.
Proof.
  induction bs as [|b bs IH]; intros a fuel H Hf; (destruct fuel as [|fuel]; [simpl in Hf; lia|]);
    cbn [strlen_loop cstr] in *; wp_step; (apply load8_wp; [tauto|]).
  - destruct H as [_ ->]. simpl. wp_steps. split; [done | lia].
  - destruct H as (Hv & Hle & -> & Hb & H). destruct (Z.eqb_spec b 0); [done|].
    rewrite u32_succ by done. wp_use IH; [exact H | simpl in Hf; lia|].
    intros r m' [-> ->]. split; [done|]. simpl. lia.
Qed.

Lemma strlen_wp m a bs fuel :
  cstr m a bs -> (length bs < fuel)%nat ->
  wp (strlen fuel a) (fun r m' => m' = m /\ r = Z.of_nat (length bs)) m.
Proof.
  intros H Hf. unfold strlen. wp_step. wp_use strlen_loop_wp; [done..|]. intros r m' [-> ->]. wp_steps.
  split; [done|]. pose proof (cstr_range _ _ _ H) as Hr.
  replace (a + Z.of_nat (length bs) - a) with (Z.of_nat (length bs)) by lia.
  apply u32_id. unfold range_valid, is_u32, KERNEL_VIRT_OFFSET in *. lia.
Qed.

(** What the comparisons compute. *)
Fixpoint str_diff (s1 s2 : list Z) : Z :=
  match s1, s2 with
  | [], [] => 0
  | [], b :: _ => 0 - b
  | a :: _, [] => a - 0
  | a :: t1, b :: t2 => if a =? b then str_diff t1 t2 else a - b
  end.

Lemma str_diff_zero s1 s2 :
  Forall (fun b => b <> 0) s1 -> Forall (fun b => b <> 0) s2 -> (str_diff s1 s2 = 0 <-> s1 = s2).
Proof.
  revert s2. induction s1 as [|a s1 IH]; intros [|b s2] H1 H2; simpl.
  - done.
  - apply Forall_cons in H2 as [? _]. split; [lia | done].
  - apply Forall_cons in H1 as [? _]. split; [lia | done].
  - apply Forall_cons in H1 as [? H1]. apply Forall_cons in H2 as [? H2].
    destruct (Z.eqb_spec a b) as [->|]; [rewrite IH by done|]; split; try congruence; lia.
Qed.

Lemma cstr_nonzero m a bs : cstr m a bs -> Forall (fun b => b <> 0) bs.
Proof. revert a. induction bs as [|b bs IH]; intros a H; simpl in *; constructor; [tauto|]. eapply IH. apply H. Qed.

Lemma strcmp_wp m : forall s1 s2 a b fuel,
  cstr m a s1 -> cstr m b s2 -> (length s1 < fuel)%nat ->
  wp (strcmp fuel a b) (fun r m' => m' = m /\ r = str_diff s1 s2) m.
Proof.
  induction s1 as [|x s1 IH]; intros s2 a b fuel H1 H2 Hf; (destruct fuel as [|fuel]; [simpl in Hf; lia|]);
    cbn [strcmp]; wp_steps; (apply load8_wp; [by eapply cstr_valid|]); wp_steps;
    (apply load8_wp; [by eapply cstr_valid|]); cbn [cstr] in H1.
  - destruct H1 as [_ ->]. simpl. wp_steps. split; [done|].
    destruct s2; cbn [cstr] in H2; destruct H2 as (_ & H2); [by rewrite H2|]. destruct H2 as (_ & -> & _). done.
  - destruct H1 as (Hv1 & Hl1 & -> & Hx & H1). destruct (Z.eqb_spec x 0); [done|]. cbn [negb andb].
    destruct s2 as [|y s2]; cbn [cstr] in H2.
    + destruct H2 as [_ ->]. destruct (Z.eqb_spec x 0); [done|]. by wp_steps.
    + destruct H2 as (Hv2 & Hl2 & -> & Hy & H2). cbn [str_diff]. destruct (Z.eqb_spec x y); [|by wp_steps].
      rewrite !u32_succ by done. apply IH; [done | done | simpl in Hf; lia].
Qed.

(** [strcpy] copies the string with its terminator. *)
Lemma strcpy_wp m dst src bs fuel :
  cstr m src bs -> (length bs < fuel)%nat -> range_valid dst (Z.of_nat (length bs) + 1) ->
  dst <= src \/ src + Z.of_nat (length bs) + 1 <= dst ->
  wp (strcpy fuel dst src) (fun r m' => r = dst /\ cstr m' dst bs /\
    forall x, x < dst \/ dst + Z.of_nat (length bs) + 1 <= x -> rd8 m' x = rd8 m x) m.
Proof.
  intros H Hf Hd Hov. unfold strcpy. wp_step. wp_use strlen_wp; [done..|]. intros l m0 [-> ->].
  pose proof (cstr_range _ _ _ H) as Hr.
  rewrite u32_id by (unfold range_valid, is_u32, KERNEL_VIRT_OFFSET in *; lia).
  wp_step. wp_use memcpy_wp; [done | done | lia|]. intros r m' [_ [H1 H2]]. wp_step. split; [done|]. split.
  - apply cstr_of_bytes; [|done | by eapply cstr_nonzero]. intros i Hi. rewrite length_app in Hi. simpl in Hi.
    rewrite H1 by lia. apply (cstr_bytes _ _ _ H). rewrite length_app. simpl. lia.
  - intros x Hx. apply H2. lia.
Qed.

Lemma strncmp_wp m : forall n s1 s2 a b,
  cstr m a s1 -> cstr m b s2 ->
  wp (strncmp_loop n a b) (fun r m' => m' = m /\ r = str_diff (firstn n s1) (firstn n s2)) m.
Proof.
  induction n as [|n IH]; intros s1 s2 a b H1 H2; cbn [strncmp_loop].
  { wp_steps. done. }
  wp_steps; (apply load8_wp; [by eapply cstr_valid|]); wp_steps; (apply load8_wp; [by eapply cstr_valid|]).
  destruct s1 as [|x s1]; cbn [cstr] in H1.
  - destruct H1 as [_ ->]. simpl. wp_steps. split; [done|].
    destruct s2; cbn [cstr] in H2; destruct H2 as (_ & H2); [by rewrite H2|]. destruct H2 as (_ & -> & _). done.
  - destruct H1 as (Hv1 & Hl1 & -> & Hx & H1). destruct (Z.eqb_spec x 0); [done|]. cbn [negb andb].
    destruct s2 as [|y s2]; cbn [cstr] in H2.
    + destruct H2 as [_ ->]. destruct (Z.eqb_spec x 0); [done|]. by wp_steps.
    + destruct H2 as (Hv2 & Hl2 & -> & Hy & H2). cbn [firstn str_diff]. destruct (Z.eqb_spec x y); [|by wp_steps].
      rewrite !u32_succ by done. by apply IH.
Qed.

Lemma strncpy_fill_wp : forall n m dst,
  range_valid dst (Z.of_nat n) ->
  wp (strncpy_fill n dst) (fun _ m' => bytes_upd m m' dst (Z.of_nat n) (fun _ => 0)) m.
Proof.
  induction n as [|n IH]; intros m dst Hr; cbn [strncpy_fill].
  - wp_steps. split; [lia | done].
  - wp_step. apply store8_wp; [unfold range_valid, valid8 in *; lia|].
    destruct (Nat.eq_dec n O) as [->|Hn].
    { cbn [strncpy_fill]. wp_steps. split.
      - intros i Hi. assert (i = 0) as -> by lia. rewrite Z.add_0_r. by apply rd8_wr8_eq.
      - intros x Hx. apply rd8_wr8_ne; [lia | done]. }
    rewrite u32_id by (unfold range_valid, is_u32, KERNEL_VIRT_OFFSET in *; lia).
    wp_use IH; [unfold range_valid in *; lia|]. intros _ m' [H1 H2]. split.
    + intros i Hi. destruct (Z.eq_dec i 0) as [->|].
      * rewrite H2, Z.add_0_r by lia. by apply rd8_wr8_eq.
      * rewrite <- (H1 (i - 1)) by lia. f_equal. lia.
    + intros x Hx. rewrite H2 by lia. apply rd8_wr8_ne; [lia | done].
Qed.

Lemma cstr_ext m m' : forall bs a,
  (forall x, a <= x <= a + Z.of_nat (length bs) -> rd8 m' x = rd8 m x) -> cstr m a bs -> cstr m' a bs.
Proof.
  induction bs as [|b bs IH]; intros a Hx H; simpl in *.
  - rewrite Hx by lia. done.
  - destruct H as (? & ? & ? & ? & H). repeat (split; [done || (rewrite ?Hx by lia; done)|]).
    apply IH; [|done]. intros x Hx'. apply Hx. lia.
Qed.

(** [strncpy] writes exactly [n] bytes: the string cut or padded with NULs. *)
Lemma strncpy_copy_wp : forall n bs m dst src,
  cstr m src bs -> range_valid dst (Z.of_nat n) ->
  dst + Z.of_nat n <= src \/ src + Z.of_nat (length bs) < dst ->
  wp (strncpy_copy n dst src) (fun _ m' => bytes_upd m m' dst (Z.of_nat n) (fun i => nth (Z.to_nat i) bs 0)) m.
Proof.
  induction n as [|n IH]; intros bs m dst src H Hr Hov; cbn [strncpy_copy].
  { wp_steps. split; [lia | done]. }
  wp_step. apply load8_wp; [by eapply cstr_valid|]. destruct bs as [|b bs]; cbn [cstr] in H.
  - destruct H as [_ ->]. simpl Z.eqb. cbv iota. wp_use strncpy_fill_wp; [done|].
    intros _ m' [H1 H2]. split; [|done]. intros i Hi. rewrite H1 by done. by destruct (Z.to_nat i).
  - destruct H as (Hv & Hle & Hb & Hnz & H). simpl length in Hov. rewrite Hb.
    destruct (Z.eqb_spec b 0); [done|]. wp_step. apply store8_wp; [unfold range_valid, valid8 in *; lia|].
    assert (is_u8 b) as Hb8 by (rewrite <- Hb; auto with iwos).
    destruct (Nat.eq_dec n O) as [->|Hn].
    { cbn [strncpy_copy]. wp_steps. split.
      - intros i Hi. assert (i = 0) as -> by lia. rewrite Z.add_0_r. by apply rd8_wr8_eq.
      - intros x Hx. apply rd8_wr8_ne; [lia | done]. }
    rewrite (u32_id (dst + 1)) by (unfold range_valid, is_u32, KERNEL_VIRT_OFFSET in *; lia).
    rewrite u32_succ by done. wp_use IH.
    + eapply cstr_ext; [|exact H]. intros x Hx. apply rd8_wr8_ne; [lia | done].
    + unfold range_valid in *. lia.
    + lia.
    + intros _ m' [H1 H2]. split.
      * intros i Hi. destruct (Z.eq_dec i 0) as [->|].
        -- rewrite H2, Z.add_0_r by lia. by apply rd8_wr8_eq.
        -- replace (Z.to_nat i) with (S (Z.to_nat (i - 1))) by lia. cbn [nth].
           rewrite <- (H1 (i - 1)) by lia. f_equal. lia.
      * intros x Hx. rewrite H2 by lia. apply rd8_wr8_ne; [lia | done].
Qed.

(** Index of the first and of the last occurrence of [c], the terminator
    included. *)
Fixpoint first_index (c : Z) (bs : list Z) : option Z :=
  match bs with
  | [] => if c =? 0 then Some 0 else None
  | b :: t => if b =? c then Some 0 else option_map (Z.add 1) (first_index c t)
  end.
Fixpoint last_index (c : Z) (bs : list Z) : option Z :=
  match bs with
  | [] => if c =? 0 then Some 0 else None
  | b :: t => match last_index c t with
              | Some i => Some (1 + i)
              | None => if b =? c then Some 0 else None
              end
  end.

Lemma strchr_wp m c : forall bs a fuel,
  cstr m a bs -> (length bs < fuel)%nat ->
  wp (strchr fuel a c) (fun r m' => m' = m /\ r = from_option (Z.add a) NULL (first_index (u8 c) bs)) m.
Proof.
  induction bs as [|b bs IH]; intros a fuel H Hf; (destruct fuel as [|fuel]; [simpl in Hf; lia|]);
    cbn [strchr cstr first_index] in *; wp_step; (apply load8_wp; [tauto|]).
  - destruct H as [_ ->]. simpl Z.eqb. cbv iota. wp_step. split; [done|].
    destruct (u8 c =? 0); simpl; [lia | done].
  - destruct H as (Hv & Hle & -> & Hb & H). destruct (Z.eqb_spec b 0); [done|].
    destruct (Z.eqb_spec b (u8 c)); [wp_step; simpl; split; [done | lia]|].
    rewrite u32_succ by done. wp_use IH; [exact H | simpl in Hf; lia|]. intros r m' [-> ->]. split; [done|].
    destruct (first_index (u8 c) bs); simpl; [lia | done].
Qed.

Lemma strrchr_loop_wp m c : forall bs a fuel last,
  cstr m a bs -> (length bs < fuel)%nat ->
  wp (strrchr_loop fuel a c last) (fun r m' => m' = m /\ r = from_option (Z.add a) last (last_index (u8 c) bs)) m.
Proof.
  induction bs as [|b bs IH]; intros a fuel last H Hf; (destruct fuel as [|fuel]; [simpl in Hf; lia|]);
    cbn [strrchr_loop cstr last_index] in *; wp_step; (apply load8_wp; [tauto|]).
  - destruct H as [_ ->]. simpl Z.eqb. cbv iota. wp_step. split; [done|].
    destruct (u8 c =? 0); simpl; [lia | done].
  - destruct H as (Hv & Hle & -> & Hb & H). destruct (Z.eqb_spec b 0); [done|].
    rewrite u32_succ by done. wp_use IH; [exact H | simpl in Hf; lia|]. intros r m' [-> ->]. split; [done|].
    destruct (last_index (u8 c) bs); simpl; [lia|]. destruct (b =? u8 c); simpl; lia.
Qed.

(** ** Properties *)

(** [memmove] copies correctly whatever the overlap: afterwards the [n]
    destination bytes are the [n] source bytes as they were before the call, no
    other byte changes, and the call returns [dst]. *)
Theorem memmove_correct m dst src n :
  range_valid dst n -> range_valid src n ->
  exists m', memmove dst src n m = Some (dst, m') /\
    (forall i, 0 <= i < n -> rd8 m' (dst + i) = rd8 m (src + i)) /\
    (forall x, x < dst \/ dst + n <= x -> rd8 m' x = rd8 m x).
Proof.
  intros Hd Hs. pose proof (memmove_wp m dst src n Hd Hs) as H.
  apply wp_run in H as (r & m' & Hrun & -> & H1 & H2). by exists m'.
Qed.

Lemma memmove_correct_witness :
  let m := wr ∅ 3221225472 67305985 in
  exists m', memmove 3221225473 3221225472 3 m = Some (3221225473, m') /\
    (forall i, 0 <= i < 3 -> rd8 m' (3221225473 + i) = rd8 m (3221225472 + i)).
Proof.
  intros m. destruct (memmove_correct m 3221225473 3221225472 3) as (m' & H1 & H2 & _).
  - unfold range_valid, KERNEL_VIRT_OFFSET. lia.
  - unfold range_valid, KERNEL_VIRT_OFFSET. lia.
  - exists m'. split; [exact H1 | exact H2].
Defined.

(** [strcmp] terminates on two strings and returns 0 exactly when they are
    equal; otherwise it returns the difference of the first bytes that differ
    (the terminator counts as 0).  Fuel past the length of the first string is
    enough. *)
Theorem strcmp_correct m a b s1 s2 fuel :
  cstr m a s1 -> cstr m b s2 -> (length s1 < fuel)%nat ->
  strcmp fuel a b m = Some (str_diff s1 s2, m) /\ (str_diff s1 s2 = 0 <-> s1 = s2).
Proof.
  intros H1 H2 Hf. split; [|apply str_diff_zero; by eapply cstr_nonzero].
  pose proof (strcmp_wp m s1 s2 a b fuel H1 H2 Hf) as H.
  apply wp_run in H as (r & m' & Hrun & -> & ->). done.
Qed.

Lemma strcmp_correct_witness :
  let m := wr (wr ∅ 3221225472 25185) 3221225476 25441 in
  strcmp 3 3221225472 3221225476 m = Some (-1, m).
Proof.
  intros m. apply (strcmp_correct m 3221225472 3221225476 [97; 98] [97; 99] 3);
    [vm_compute; repeat split; congruence..| simpl; lia].
Defined.

(** [strncpy] writes exactly [n] bytes and nothing else: the string, cut at
    [n] or padded with NULs; a source of [n] bytes or more is left without a
    terminator. *)
Theorem strncpy_correct m dst src bs n :
  cstr m src bs -> range_valid dst n ->
  dst + n <= src \/ src + Z.of_nat (length bs) < dst ->
  exists m', strncpy dst src n m = Some (dst, m') /\
    (forall i, 0 <= i < n -> rd8 m' (dst + i) = nth (Z.to_nat i) bs 0) /\
    (forall x, x < dst \/ dst + n <= x -> rd8 m' x = rd8 m x).
Proof.
  intros H Hr Hov. assert (0 <= n) as Hn by (unfold range_valid in Hr; lia).
  pose proof (strncpy_copy_wp (Z.to_nat n) bs m dst src H) as Hwp. rewrite Z2Nat.id in Hwp by done.
  specialize (Hwp Hr Hov). apply wp_run in Hwp as ([] & m' & Hrun & H1 & H2).
  exists m'. split; [|done]. unfold strncpy, bind. by rewrite Hrun.
Qed.

Lemma strncpy_correct_witness :
  let m := wr ∅ 3221225472 25185 in
  exists m', strncpy 3221225476 3221225472 4 m = Some (3221225476, m') /\
    (forall i, 0 <= i < 4 -> rd8 m' (3221225476 + i) = nth (Z.to_nat i) [97; 98] 0).
Proof.
  intros m. destruct (strncpy_correct m 3221225476 3221225472 [97; 98] 4) as (m' & H1 & H2 & _).
  - vm_compute. repeat split; congruence.
  - unfold range_valid, KERNEL_VIRT_OFFSET. lia.
  - simpl. lia.
  - exists m'. split; [exact H1 | exact H2].
Defined.
