(* ===== verification/Kheap.v ===== *)
(** * The kernel heap

    Models [kernel/mm/kheap.c]: an explicit free list threaded through the free
    blocks of one contiguous LowMem region.  The blocks live in the store of
    [Memory]: a block at [a] of [n] bytes has its size at [a], its flags at
    [a + 4], its free-list node at [a + 8], its payload from [a + 16] to
    [a + n - 4] and its footer (the size again) at [a + n - 4]. *)

From S2P Require Import Prelude Base Memory KList Frames.

Definition KHEAP_PADDING_ALIGN : Z := 4.
Definition KHEAP_FLAG_ALLOC : Z := BIT 0.
Definition sizeof_kheap_header : Z := 16.
Definition sizeof_kheap_footer : Z := 4.
Definition KHEAP_MIN_BLOCK_SIZE : Z := sizeof_kheap_header + KHEAP_PADDING_ALIGN + sizeof_kheap_footer.

Record kheap := mk_kheap {
  kh_mem : mem;
  kheap_start : Z;
  kheap_end : Z
}.

Definition set_kh_mem (m : mem) (s : kheap) : kheap := mk_kheap m (kheap_start s) (kheap_end s).
Definition set_kheap_start (v : Z) (s : kheap) : kheap := mk_kheap (kh_mem s) v (kheap_end s).
Definition set_kheap_end (v : Z) (s : kheap) : kheap := mk_kheap (kh_mem s) (kheap_start s) v.

Abbreviation in_mem := (zoom kh_mem set_kh_mem).

(** Fields of [struct kheap_header] and [struct kheap_footer]. *)
Definition hdr_size (hdr : Z) : M mem Z := load32 hdr.
Definition set_hdr_size (hdr v : Z) : M mem unit := store32 hdr v.
Definition hdr_flags (hdr : Z) : M mem Z := load32 (u32 (hdr + 4)).
Definition set_hdr_flags (hdr v : Z) : M mem unit := store32 (u32 (hdr + 4)) v.
Definition free_node (hdr : Z) : Z := u32 (hdr + 8).
Definition container_of_node (node : Z) : Z := u32 (node - 8).

Section Kheap.
(** The address of the static object [kheap_free_list]. *)
Variable kheap_free_list : Z.

(** Every block has at least [KHEAP_MIN_BLOCK_SIZE] bytes, which bounds the
    number of nodes of the free list and of blocks of the heap. *)
Definition kheap_fuel (s : kheap) : nat :=
  S (Z.to_nat ((kheap_end s - kheap_start s) / KHEAP_MIN_BLOCK_SIZE)).

(** The body of the search loop of [kmalloc]. *)
Definition kmalloc_try (block_size node : Z) : M mem (option Z) :=
  let hdr := container_of_node node in
  size <-- hdr_size hdr ;;
  if block_size <=? size then
    old_size <-- hdr_size hdr ;;
    let remaining := u32 (old_size - block_size) in
    (if KHEAP_MIN_BLOCK_SIZE <=? remaining then
       fl <-- hdr_flags hdr ;;
       set_hdr_flags hdr (MASK_SET fl KHEAP_FLAG_ALLOC) ;;;
       set_hdr_size hdr block_size ;;;
       let footer := u32 (hdr + block_size - sizeof_kheap_footer) in
       store32 footer block_size ;;;
       let free_hdr := u32 (footer + sizeof_kheap_footer) in
       fl' <-- hdr_flags free_hdr ;;
       set_hdr_flags free_hdr (MASK_CLEAR fl' KHEAP_FLAG_ALLOC) ;;;
       set_hdr_size free_hdr remaining ;;;
       let free_footer := u32 (free_hdr + remaining - sizeof_kheap_footer) in
       store32 free_footer remaining ;;;
       list_replace (free_node hdr) (free_node free_hdr)
     else
       list_remove (free_node hdr) ;;;
       fl <-- hdr_flags hdr ;;
       set_hdr_flags hdr (MASK_SET fl KHEAP_FLAG_ALLOC)) ;;;
    ret (Some (u32 (hdr + sizeof_kheap_header)))
  else ret None.

Definition kmalloc (size : Z) : M kheap Z :=
  if size =? 0 then ret (KERR_PTR (- KERR_INVAL))
  else
    let payload_size := ALIGN_UP u32 size KHEAP_PADDING_ALIGN in
    let block_size := u32 (sizeof_kheap_header + payload_size + sizeof_kheap_footer) in
    fuel <-- gets kheap_fuel ;;
    first <-- in_mem (get_next kheap_free_list) ;;
    r <-- in_mem (list_for_each fuel kheap_free_list first (kmalloc_try block_size)) ;;
    match r with
    | Some p => ret p
    | None => ret (KERR_PTR (- KERR_NOMEM))
    end.

Definition kheap_merge (left right : Z) : M mem unit :=
  lsz <-- hdr_size left ;;
  rsz <-- hdr_size right ;;
  set_hdr_size left (u32 (lsz + rsz)) ;;;
  rsz' <-- hdr_size right ;;
  let footer := u32 (right + rsz' - sizeof_kheap_footer) in
  lsz' <-- hdr_size left ;;
  store32 footer lsz'.

(** Whether the block after (before) [hdr] exists and is free, and its header. *)
Definition next_free_of (hdr : Z) : M kheap (Z * bool) :=
  sz <-- in_mem (hdr_size hdr) ;;
  e <-- gets kheap_end ;;
  if u32 (hdr + sz) <? e then
    let next_hdr := u32 (hdr + sz) in
    fl <-- in_mem (hdr_flags next_hdr) ;;
    ret (next_hdr, negb (MASK_TEST fl KHEAP_FLAG_ALLOC))
  else ret (NULL, false).

Definition prev_free_of (hdr : Z) : M kheap (Z * bool) :=
  st <-- gets kheap_start ;;
  if negb (hdr =? st) then
    psz <-- in_mem (load32 (u32 (hdr - sizeof_kheap_footer))) ;;
    let prev_hdr := u32 (hdr - psz) in
    fl <-- in_mem (hdr_flags prev_hdr) ;;
    ret (prev_hdr, negb (MASK_TEST fl KHEAP_FLAG_ALLOC))
  else ret (NULL, false).

(** The merges and the free-list update at the end of [kfree]. *)
Definition coalesce (hdr prev_hdr next_hdr : Z) (prev_free next_free : bool) : M mem unit :=
  (if prev_free then kheap_merge prev_hdr hdr else ret tt) ;;;
  let hdr := if prev_free then prev_hdr else hdr in
  (if next_free then
     list_remove (free_node next_hdr) ;;;
     kheap_merge hdr next_hdr
   else ret tt) ;;;
  if negb prev_free then list_insert_front kheap_free_list (free_node hdr) else ret tt.

Definition kfree (ptr : Z) : M kheap Z :=
  if ptr =? NULL then ret (- KERR_INVAL)
  else
    st <-- gets kheap_start ;;
    e <-- gets kheap_end ;;
    if (ptr <? u32 (st + sizeof_kheap_header)) || (u32 (e - KHEAP_MIN_BLOCK_SIZE) <=? ptr) then
      ret (- KERR_INVAL)
    else if negb (ptr mod 4 =? 0) then ret (- KERR_INVAL)
    else
      let hdr := u32 (ptr - sizeof_kheap_header) in
      fl <-- in_mem (hdr_flags hdr) ;;
      if negb (MASK_TEST fl KHEAP_FLAG_ALLOC) then ret (- KERR_INVAL)
      else
        in_mem (set_hdr_flags hdr (MASK_CLEAR fl KHEAP_FLAG_ALLOC)) ;;;
        ' (next_hdr, next_free) <-- next_free_of hdr ;;
        ' (prev_hdr, prev_free) <-- prev_free_of hdr ;;
        in_mem (coalesce hdr prev_hdr next_hdr prev_free next_free) ;;;
        ret KERR_OK.

(** [kheap_init], over the heap and a frame allocator. *)
Definition kheap_init `{FrameAllocator A} : M (kheap * A) Z :=
  r <-- zoom snd (fun a s => (fst s, a)) (fa_alloc_lowmem 256) ;;
  match r with
  | inl e => ret e
  | inr phys =>
      zoom fst (fun k s => (k, snd s))
        (modify (set_kheap_start (PHYS_TO_VIRT phys)) ;;;
         let block_size := 4096 * 256 in
         st <-- gets kheap_start ;;
         modify (set_kheap_end (u32 (st + block_size))) ;;;
         hdr <-- gets kheap_start ;;
         in_mem (set_hdr_size hdr block_size) ;;;
         in_mem (set_hdr_flags hdr 0) ;;;
         e <-- gets kheap_end ;;
         in_mem (store32 (u32 (e - sizeof_kheap_footer)) block_size) ;;;
         in_mem (list_init kheap_free_list) ;;;
         in_mem (list_insert_front kheap_free_list (free_node hdr)) ;;;
         ret KERR_OK)
  end.

(** What [kheap_dump] prints: a line per block, the counters, a line per free
    block. *)
Record heap_dump := mk_dump {
  dump_lines : list (Z * Z * bool);
  total_blocks : Z;
  allocated_blocks : Z;
  free_blocks : Z;
  allocated_bytes : Z;
  free_bytes : Z;
  dump_free_list : list (Z * Z)
}.

Definition dump_add (addr size : Z) (allocated : bool) (d : heap_dump) : heap_dump :=
  mk_dump (dump_lines d ++ [(addr, size, allocated)])
    (u32 (total_blocks d + 1))
    (if allocated then u32 (allocated_blocks d + 1) else allocated_blocks d)
    (if allocated then free_blocks d else u32 (free_blocks d + 1))
    (if allocated then u32 (allocated_bytes d + size) else allocated_bytes d)
    (if allocated then free_bytes d else u32 (free_bytes d + size))
    (dump_free_list d).

Definition dump_add_free (hdr size : Z) (d : heap_dump) : heap_dump :=
  mk_dump (dump_lines d) (total_blocks d) (allocated_blocks d) (free_blocks d)
    (allocated_bytes d) (free_bytes d) (dump_free_list d ++ [(hdr, size)]).

Fixpoint dump_blocks (fuel : nat) (end_ addr : Z) (d : heap_dump) : M mem heap_dump :=
  match fuel with
  | O => undefined
  | S k =>
      if addr <? end_ then
        fl <-- hdr_flags addr ;;
        size <-- hdr_size addr ;;
        dump_blocks k end_ (u32 (addr + size)) (dump_add addr size (MASK_TEST fl KHEAP_FLAG_ALLOC) d)
      else ret d
  end.

Fixpoint dump_nodes (fuel : nat) (node : Z) (d : heap_dump) : M mem heap_dump :=
  match fuel with
  | O => undefined
  | S k =>
      if node =? kheap_free_list then ret d
      else
        let hdr := container_of_node node in
        size <-- hdr_size hdr ;;
        n <-- get_next node ;;
        dump_nodes k n (dump_add_free hdr size d)
  end.

Definition kheap_dump : M kheap heap_dump :=
  fuel <-- gets kheap_fuel ;;
  addr <-- gets kheap_start ;;
  e <-- gets kheap_end ;;
  d <-- in_mem (dump_blocks fuel e addr (mk_dump [] 0 0 0 0 0 [])) ;;
  first <-- in_mem (get_next kheap_free_list) ;;
  in_mem (dump_nodes fuel first d).

(** ** The heap invariant *)

(** A block: address, size in bytes, allocated or free. *)
Record blk := mk_blk { b_addr : Z; b_size : Z; b_used : bool }.

(** The header and footer of [b] in memory. *)
Definition blk_ok (m : mem) (b : blk) : Prop :=
  24 <= b_size b /\ b_size b mod 4 = 0 /\
  rd m (b_addr b) = b_size b /\
  Z.testbit (rd m (b_addr b + 4)) 0 = b_used b /\
  rd m (b_addr b + b_size b - 4) = b_size b.

(** The blocks tile the addresses from [a] to [e]. *)
Fixpoint contig (a : Z) (bs : list blk) (e : Z) : Prop :=
  match bs with
  | [] => a = e
  | b :: t => b_addr b = a /\ contig (a + b_size b) t e
  end.

(** No two neighbours are free. *)
Fixpoint coalesced (bs : list blk) : Prop :=
  match bs with
  | a :: ((b :: _) as t) => b_used a || b_used b = true /\ coalesced t
  | _ => True
  end.

Definition node_of (b : blk) : Z := b_addr b + 8.
Definition free_nodes (bs : list blk) : list Z :=
  flat_map (fun b => if b_used b then [] else [node_of b]) bs.

Record heap_shape (st e : Z) (bs : list blk) : Prop := {
  hs_bounds : KERNEL_VIRT_OFFSET <= st /\ e <= 4026531840 /\ st mod 4 = 0;
  hs_sentinel : node_ok kheap_free_list /\ (kheap_free_list + 8 <= st \/ e <= kheap_free_list);
  hs_contig : contig st bs e;
  hs_sizes : Forall (fun b => 24 <= b_size b /\ b_size b mod 4 = 0) bs
}.

Record heap_inv (s : kheap) (bs : list blk) (ns : list Z) : Prop := {
  hi_shape : heap_shape (kheap_start s) (kheap_end s) bs;
  hi_blocks : Forall (blk_ok (kh_mem s)) bs;
  hi_coalesced : coalesced bs;
  hi_list : dll (kh_mem s) kheap_free_list ns;
  hi_nodes : ns ≡ₚ free_nodes bs
}.

(** Addresses the heap never writes: outside the heap and its sentinel, and
    the payloads of the allocated blocks. *)
Definition client_addr (s : kheap) (bs : list blk) (a : Z) : Prop :=
  ((a < kheap_start s \/ kheap_end s <= a) /\ a <> kheap_free_list /\ a <> kheap_free_list + 4) \/
  exists b, b ∈ bs /\ b_used b = true /\ b_addr b + 16 <= a < b_addr b + b_size b - 4.

(** ** Geometry of the blocks *)

Lemma contig_app a bs1 bs2 e :
  contig a (bs1 ++ bs2) e <-> exists mid, contig a bs1 mid /\ contig mid bs2 e.
Proof.
  revert a. induction bs1 as [|b bs1 IH]; intros a; simpl.
  - split; [eauto | by intros (? & -> & ?)].
  - rewrite IH. naive_solver.
Qed.

Lemma contig_end a bs e e' : contig a bs e -> contig a bs e' -> e = e'.
Proof.
  revert a. induction bs as [|c l IH]; simpl; intros a; [congruence|]. intros [_ H] [_ H']. eauto.
Qed.

Lemma contig_bounds a bs e b :
  contig a bs e -> Forall (fun b => 24 <= b_size b /\ b_size b mod 4 = 0) bs ->
  a <= e /\ (b ∈ bs -> a <= b_addr b /\ b_addr b + b_size b <= e /\ (a mod 4 = 0 -> b_addr b mod 4 = 0)).
Proof.
  revert a. induction bs as [|c bs IH]; intros a Hc Hs.
  - simpl in Hc. subst. split; [lia | by intros ?%elem_of_nil].
  - destruct Hc as [<- Hc]. apply Forall_cons in Hs as [[Hs1 Hs2] Hs].
    destruct (IH _ Hc Hs) as [H1 H2]. split; [lia|]. intros [->|Hb]%elem_of_cons; [lia|].
    destruct (H2 Hb) as (H3 & H4 & H5). split; [lia|]. split; [lia|]. intros H6. apply H5. dlia.
Qed.

(** Blocks before and after [b] in the list are before and after it in memory. *)
Lemma contig_order a bs1 b bs2 e c :
  contig a (bs1 ++ b :: bs2) e ->
  Forall (fun b => 24 <= b_size b /\ b_size b mod 4 = 0) (bs1 ++ b :: bs2) ->
  (c ∈ bs1 -> b_addr c + b_size c <= b_addr b) /\ (c ∈ bs2 -> b_addr b + b_size b <= b_addr c).
Proof.
  intros (mid & H1 & [Hb H2])%contig_app [Hs1 [_ Hs2]%Forall_cons]%Forall_app. split; intros Hc.
  - destruct (contig_bounds _ _ _ c H1 Hs1) as [_ H]. specialize (H Hc). lia.
  - destruct (contig_bounds _ _ _ c H2 Hs2) as [_ H]. specialize (H Hc). lia.
Qed.

Lemma contig_sep a bs e b c :
  contig a bs e -> Forall (fun b => 24 <= b_size b /\ b_size b mod 4 = 0) bs -> b ∈ bs -> c ∈ bs ->
  b = c \/ b_addr b + b_size b <= b_addr c \/ b_addr c + b_size c <= b_addr b.
Proof.
  intros Hc Hs (bs1 & bs2 & ->)%list_elem_of_split Hin.
  destruct (contig_order _ _ _ _ _ c Hc Hs) as [H1 H2].
  apply elem_of_app in Hin as [Hin|[->|Hin]%elem_of_cons]; auto.
Qed.

Lemma elem_of_free_nodes bs x : x ∈ free_nodes bs <-> exists b, b ∈ bs /\ b_used b = false /\ x = node_of b.
Proof.
  unfold free_nodes. rewrite list_elem_of_In, in_flat_map. split.
  - intros (b & Hb & Hx). exists b. rewrite list_elem_of_In. destruct (b_used b); [done|].
    destruct Hx as [<-|[]]. done.
  - intros (b & Hb & Hu & ->). exists b. rewrite <- list_elem_of_In, Hu. split; [done | by left].
Qed.

Lemma free_nodes_app bs1 bs2 : free_nodes (bs1 ++ bs2) = free_nodes bs1 ++ free_nodes bs2.
Proof. apply flat_map_app. Qed.

Section Shape.
Context (st e : Z) (bs : list blk).
Hypothesis H_shape : heap_shape st e bs.

Lemma shape_block b : b ∈ bs ->
  24 <= b_size b /\ b_size b mod 4 = 0 /\ b_addr b mod 4 = 0 /\
  KERNEL_VIRT_OFFSET <= st /\ st <= b_addr b /\ b_addr b + b_size b <= e /\ e <= 4026531840.
Proof.
  intros Hb. destruct H_shape as [(H1 & H2 & H3) _ Hc Hs].
  destruct (contig_bounds _ _ _ b Hc Hs) as [_ H]. specialize (H Hb) as (H4 & H5 & H6).
  rewrite Forall_forall in Hs. specialize (Hs b Hb). repeat split; auto; lia.
Qed.

(** [y] is the sentinel or the node of a block. *)
Definition heap_node (y : Z) : Prop := y = kheap_free_list \/ exists c, c ∈ bs /\ y = node_of c.

(** Inside a block, only its node field is a node. *)
Lemma inside_not_node N b a :
  (forall y, y ∈ N -> heap_node y) -> b ∈ bs -> b_addr b <= a < b_addr b + b_size b ->
  a <> b_addr b + 8 -> a <> b_addr b + 12 -> ~ in_nodes N a.
Proof.
  intros HN Hb Ha H8 H12 (y & Hy & Hay). destruct H_shape as [_ [_ Hsent] Hc Hs].
  destruct (shape_block b Hb) as (? & ? & ? & ? & ? & ? & ?).
  destruct (HN y Hy) as [->|(c & Hcb & ->)]; [lia|].
  destruct (shape_block c Hcb) as (? & ? & ? & ? & ? & ? & ?). unfold node_of in Hay.
  destruct (contig_sep _ _ _ b c Hc Hs Hb Hcb) as [<-|Hsep]; lia.
Qed.

Lemma outside_not_node N a :
  (forall y, y ∈ N -> heap_node y) -> (a < st \/ e <= a) ->
  a <> kheap_free_list -> a <> kheap_free_list + 4 -> ~ in_nodes N a.
Proof.
  intros HN Ha H1 H2 (y & Hy & Hay). destruct (HN y Hy) as [->|(c & Hcb & ->)]; [lia|].
  destruct (shape_block c Hcb) as (? & ? & ? & ? & ? & ? & ?). unfold node_of in Hay. lia.
Qed.

Lemma heap_node_ok y : heap_node y -> node_ok y.
Proof.
  intros [->|(c & Hcb & ->)]; [by destruct H_shape as [_ [H _] _ _]|].
  destruct (shape_block c Hcb) as (? & ? & ? & ? & ? & ? & ?).
  unfold node_ok, valid, node_of, KERNEL_VIRT_OFFSET in *. split; dlia.
Qed.

Lemma heap_nodes_apart x y : heap_node x -> heap_node y -> x <> y -> apart x y.
Proof.
  destruct H_shape as [_ [_ Hsent] Hc Hs].
  intros [->|(b & Hb & ->)] [->|(c & Hcb & ->)] Hne; unfold node_of in *; [done| | |].
  - destruct (shape_block c Hcb) as (? & ? & ? & ? & ? & ? & ?). unfold apart. lia.
  - destruct (shape_block b Hb) as (? & ? & ? & ? & ? & ? & ?). unfold apart. lia.
  - destruct (shape_block b Hb) as (? & ? & ? & ? & ? & ? & ?).
    destruct (shape_block c Hcb) as (? & ? & ? & ? & ? & ? & ?).
    destruct (contig_sep _ _ _ b c Hc Hs Hb Hcb) as [<-|Hsep]; unfold apart; lia.
Qed.
End Shape.

(** Header and footer survive a change elsewhere. *)
Lemma blk_ok_ext m m' b :
  (forall a, a = b_addr b \/ a = b_addr b + 4 \/ a = b_addr b + b_size b - 4 -> rd m' a = rd m a) ->
  blk_ok m b -> blk_ok m' b.
Proof. intros H (H1 & H2 & H3 & H4 & H5). unfold blk_ok. rewrite !H by tauto. done. Qed.

Lemma dll_ext m m' h xs :
  (forall a, in_nodes (h :: xs) a -> rd m' a = rd m a) -> dll m h xs -> dll m' h xs.
Proof.
  intros H (Hr & Hap & Hok). split; [|done]. simpl in *.
  apply (chain_frame m); [done | |]; intros x Hx; apply H; exists x; set_solver.
Qed.

Lemma heap_nodes s bs ns y : heap_inv s bs ns -> y ∈ kheap_free_list :: ns -> heap_node bs y.
Proof.
  intros H [->|Hy]%elem_of_cons; [by left|]. right.
  rewrite (hi_nodes _ _ _ H) in Hy. apply elem_of_free_nodes in Hy as (b & Hb & _ & ->). eauto.
Qed.

Lemma coalesced_app l1 a l2 : coalesced (l1 ++ a :: l2) <-> coalesced (l1 ++ [a]) /\ coalesced (a :: l2).
Proof.
  induction l1 as [|x l1 IH]; [simpl; tauto|].
  destruct l1 as [|y l1]; [simpl; tauto|]. rewrite <- !app_comm_cons in *. simpl in *. tauto.
Qed.

Lemma free_nodes_length bs : (length (free_nodes bs) <= length bs)%nat.
Proof.
  unfold free_nodes. induction bs as [|b bs IH]; [done|]. simpl. destruct (b_used b); simpl; lia.
Qed.

Lemma contig_length a bs e :
  contig a bs e -> Forall (fun b => 24 <= b_size b /\ b_size b mod 4 = 0) bs ->
  24 * Z.of_nat (length bs) <= e - a.
Proof.
  revert a. induction bs as [|b bs IH]; intros a Hc Hs; simpl in *; [lia|].
  destruct Hc as [<- Hc]. apply Forall_cons in Hs as [? Hs]. specialize (IH _ Hc Hs). lia.
Qed.

(** The fuel is enough for the blocks and for the free list. *)
Lemma kheap_fuel_enough s bs ns :
  heap_inv s bs ns -> (length bs < kheap_fuel s)%nat /\ (length ns < kheap_fuel s)%nat.
Proof.
  intros H. destruct (hi_shape _ _ _ H) as [_ _ Hc Hs]. pose proof (contig_length _ _ _ Hc Hs).
  unfold kheap_fuel. change KHEAP_MIN_BLOCK_SIZE with 24.
  assert (Z.of_nat (length bs) <= (kheap_end s - kheap_start s) / 24) by dlia.
  rewrite (hi_nodes _ _ _ H). pose proof (free_nodes_length bs). lia.
Qed.

(** ** Replacing the blocks of a region

    Every operation replaces the blocks [old] of one region by blocks [new] that
    tile the same region and writes outside it only to nodes of the free list. *)
Section Update.
Context (s : kheap) (bs1 old bs2 new : list blk) (ns : list Z) (x y : Z).
Hypothesis H_inv : heap_inv s (bs1 ++ old ++ bs2) ns.
Hypothesis H_ne : old <> [].
Hypothesis H_old : contig x old y.
Hypothesis H_new : contig x new y.
Hypothesis H_sizes : Forall (fun b => 24 <= b_size b /\ b_size b mod 4 = 0) new.

Lemma update_shape : heap_shape (kheap_start s) (kheap_end s) (bs1 ++ new ++ bs2).
Proof.
  destruct (hi_shape _ _ _ H_inv) as [Hb Hse Hc Hs]. split; [done | done | |].
  - apply contig_app in Hc as (mid & H1 & (mid2 & H2 & H3)%contig_app).
    destruct old as [|b o]; [done|]. assert (mid = x) as -> by (destruct H2, H_old; congruence).
    pose proof (contig_end _ _ _ _ H2 H_old) as ->.
    apply contig_app. exists x. split; [done|]. apply contig_app. eauto.
  - rewrite !Forall_app in *. tauto.
Qed.

Lemma region_facts : KERNEL_VIRT_OFFSET <= x /\ kheap_start s <= x /\ x <= y /\ y <= kheap_end s /\
  y <= 4026531840 /\ x mod 4 = 0 /\
  forall c, c ∈ bs1 ++ bs2 -> b_addr c + b_size c <= x \/ y <= b_addr c.
Proof.
  pose proof update_shape as Hsh. pose proof (hs_bounds _ _ _ Hsh) as (Hb1 & Hb2 & Hb3).
  destruct (hi_shape _ _ _ H_inv) as [_ _ Hc Hs]. destruct old as [|b o]; [done|].
  apply contig_app in Hc as (mid & H1 & (mid2 & H2 & H3)%contig_app).
  assert (mid = x) as -> by (destruct H2, H_old; congruence).
  pose proof (contig_end _ _ _ _ H2 H_old) as ->.
  rewrite !Forall_app in Hs. destruct Hs as (Hs1 & Hso & Hs2).
  pose proof (contig_bounds _ _ _ b H_old Hso) as [Hxy Hxb].
  pose proof (contig_bounds _ _ _ b H1 Hs1) as [Hsx _].
  pose proof (contig_bounds _ _ _ b H3 Hs2) as [Hye _].
  assert (x mod 4 = 0).
  { destruct (shape_block _ _ _ (hi_shape _ _ _ H_inv) b ltac:(set_solver)) as (_ & _ & H & _).
    destruct H_old as [<- _]. done. }
  repeat (split; [lia|]). intros c [Hc|Hc]%elem_of_app.
  - destruct (contig_bounds _ _ _ c H1 Hs1) as [_ H']. specialize (H' Hc). lia.
  - destruct (contig_bounds _ _ _ c H3 Hs2) as [_ H']. specialize (H' Hc). lia.
Qed.

Context (m' : mem) (N ns' : list Z).
Hypothesis H_N : forall z, z ∈ N -> z ∈ kheap_free_list :: ns \/ x <= z /\ z + 8 <= y.
Hypothesis H_frame : forall a, a < x \/ y <= a -> ~ in_nodes N a -> rd m' a = rd (kh_mem s) a.

Lemma update_not_node a : a < x \/ y <= a ->
  ~ in_nodes (kheap_free_list :: ns) a -> ~ in_nodes N a.
Proof.
  intros Hxy Hno (z & Hz & Haz). destruct (H_N z Hz) as [Hz'|Hz']; [|lia].
  apply Hno. by exists z.
Qed.

Lemma update_frame a : client_addr s (bs1 ++ bs2) a -> rd m' a = rd (kh_mem s) a.
Proof.
  intros Ha. destruct region_facts as (? & ? & ? & ? & ? & ? & Hsep).
  assert (HN : forall z, z ∈ kheap_free_list :: ns -> heap_node (bs1 ++ old ++ bs2) z)
    by (intros z; by apply (heap_nodes s)).
  pose proof (hi_shape _ _ _ H_inv) as Hsh. destruct Ha as [[Ha [Hs1 Hs2]]|(c & Hc & _ & Hac)].
  - apply H_frame; [lia|]. apply update_not_node; [lia|].
    by apply (outside_not_node _ _ _ Hsh).
  - specialize (Hsep c Hc). apply H_frame; [lia|]. apply update_not_node; [lia|].
    apply (inside_not_node _ _ _ Hsh _ c); [done | set_solver | lia..].
Qed.

Lemma heap_update :
  Forall (blk_ok m') new -> coalesced (bs1 ++ new ++ bs2) ->
  dll m' kheap_free_list ns' -> ns' ≡ₚ free_nodes (bs1 ++ new ++ bs2) ->
  heap_inv (set_kh_mem m' s) (bs1 ++ new ++ bs2) ns' /\
  forall a, client_addr s (bs1 ++ bs2) a -> rd m' a = rd (kh_mem s) a.
Proof.
  intros Hnew Hco Hd Hp. split; [|apply update_frame]. split; [apply update_shape | | done..]. cbn [kh_mem set_kh_mem].
  destruct region_facts as (? & ? & ? & ? & ? & ? & Hsep).
  assert (HN : forall z, z ∈ kheap_free_list :: ns -> heap_node (bs1 ++ old ++ bs2) z)
    by (intros z; by apply (heap_nodes s)).
  pose proof (hi_shape _ _ _ H_inv) as Hsh. pose proof (hi_blocks _ _ _ H_inv) as Hbl.
  rewrite !Forall_forall in *. intros c Hc. rewrite !elem_of_app in Hc.
  assert (c ∈ new \/ c ∈ bs1 ++ bs2) as [Hcn|Hcb] by (rewrite elem_of_app; tauto); [by apply Hnew|].
  assert (c ∈ bs1 ++ old ++ bs2) as Hcb' by set_solver.
  destruct (shape_block _ _ _ Hsh c Hcb') as (? & ? & ? & ? & ? & ? & ?).
  apply (blk_ok_ext (kh_mem s)); [|by apply Hbl]. specialize (Hsep c Hcb).
  intros a Ha. apply H_frame; [lia|]. apply update_not_node; [lia|].
  apply (inside_not_node _ _ _ Hsh _ c); [done | done | lia..].
Qed.
End Update.

(** ** Allocation *)

(** The blocks after [need] bytes are taken from the free block [b]. *)
Definition alloc_blocks (need : Z) (b : blk) : list blk :=
  if 24 <=? b_size b - need
  then [mk_blk (b_addr b) need true; mk_blk (b_addr b + need) (b_size b - need) false]
  else [mk_blk (b_addr b) (b_size b) true].

(** Step through field accesses of blocks at known addresses. *)
Ltac valid_solve := unfold valid, node_of, KERNEL_VIRT_OFFSET in *; dlia.
Ltac heap_step :=
  first
    [ wp_step
    | progress unfold hdr_size, set_hdr_size, hdr_flags, set_hdr_flags, free_node
    | rewrite u32_id by (unfold is_u32, node_of, KERNEL_VIRT_OFFSET in *; lia)
    | apply load32_wp; [valid_solve|]
    | apply store32_wp; [valid_solve|] ]; mem_simp.

Lemma container_node_of b : is_u32 (b_addr b) -> container_of_node (node_of b) = b_addr b.
Proof.
  intros H. unfold container_of_node, node_of. replace (b_addr b + 8 - 8) with (b_addr b) by lia.
  by apply u32_id.
Qed.

Lemma MASK_SET_flag w : Z.testbit (MASK_SET w KHEAP_FLAG_ALLOC) 0 = true.
Proof. unfold KHEAP_FLAG_ALLOC. rewrite MASK_SET_bit by lia. done. Qed.

Lemma MASK_CLEAR_flag w : Z.testbit (MASK_CLEAR w KHEAP_FLAG_ALLOC) 0 = false.
Proof.
  unfold MASK_CLEAR. rewrite Z.land_spec. change (Z.testbit (u32 (Z.lnot KHEAP_FLAG_ALLOC)) 0) with false.
  apply andb_false_r.
Qed.

Lemma coalesced_alloc bs1 b bs2 need :
  b_used b = false -> coalesced (bs1 ++ b :: bs2) -> coalesced (bs1 ++ alloc_blocks need b ++ bs2).
Proof.
  intros Hu Hc. apply coalesced_app in Hc as [H1 H2].
  assert (forall c, b_used c = true -> coalesced (bs1 ++ [c])) as Hl.
  { intros c Hcu. clear H2. induction bs1 as [|d [|d' l] IH]; [done | | ].
    - simpl in *. rewrite Hcu, orb_true_r. done.
    - simpl in *. destruct H1 as [? H1]. split; [done|]. by apply IH. }
  assert (coalesced (mk_blk (b_addr b) (b_size b) true :: bs2)) as Hr.
  { destruct bs2; simpl in *; tauto. }
  unfold alloc_blocks. case_match; cbn [app]; apply coalesced_app; (split; [by apply Hl|]); [|done].
  destruct bs2 as [|c bs2]; simpl in *; [tauto|]. rewrite Hu in H2. tauto.
Qed.

Section Alloc.
Context (s : kheap) (bs1 bs2 : list blk) (b : blk) (pre post : list Z) (need : Z).
Hypothesis H_inv : heap_inv s (bs1 ++ b :: bs2) (pre ++ node_of b :: post).
Hypothesis H_free : b_used b = false.
Hypothesis H_need : 24 <= need <= b_size b /\ need mod 4 = 0.

Lemma node_addr_cases a : in_nodes (kheap_free_list :: pre ++ node_of b :: post) a ->
  a < b_addr b \/ b_addr b + b_size b <= a \/ a = b_addr b + 8 \/ a = b_addr b + 12.
Proof.
  intros Ha. destruct (Z.lt_ge_cases a (b_addr b)); [tauto|].
  destruct (Z.lt_ge_cases a (b_addr b + b_size b)); [|tauto].
  destruct (Z.eq_dec a (b_addr b + 8)); [tauto|]. destruct (Z.eq_dec a (b_addr b + 12)); [tauto|].
  exfalso. eapply (inside_not_node _ _ _ (hi_shape _ _ _ H_inv)); [| | | | |exact Ha]; try done.
  - intros y. by apply (heap_nodes s).
  - set_solver.
Qed.

Definition alloc_nodes : list Z :=
  if 24 <=? b_size b - need then pre ++ (b_addr b + need + 8) :: post else pre ++ post.

Lemma alloc_nodes_perm : alloc_nodes ≡ₚ free_nodes (bs1 ++ alloc_blocks need b ++ bs2).
Proof.
  pose proof (hi_nodes _ _ _ H_inv) as Hp. unfold alloc_nodes, alloc_blocks.
  rewrite free_nodes_app in *. cbn [free_nodes flat_map] in Hp. rewrite H_free in Hp.
  fold (free_nodes bs2) in Hp. cbn [app] in Hp.
  rewrite <- !Permutation_middle in Hp. apply Permutation_cons_inv in Hp.
  case_match; cbn [free_nodes flat_map b_used app]; fold (free_nodes bs2); [|done].
  rewrite <- !Permutation_middle. by rewrite Hp.
Qed.

Lemma new_node_apart z :
  24 <= b_size b - need -> z ∈ kheap_free_list :: pre ++ node_of b :: post ->
  apart (b_addr b + need + 8) z.
Proof.
  intros Hsplit Hz. apply (heap_nodes s _ _ _ H_inv) in Hz.
  pose proof (hi_shape _ _ _ H_inv) as Hsh. destruct Hsh as [_ [_ Hsent] Hc Hs].
  destruct (shape_block _ _ _ (hi_shape _ _ _ H_inv) b ltac:(set_solver)) as (? & ? & ? & ? & ? & ? & ?).
  destruct Hz as [->|(c & Hcb & ->)]; unfold apart, node_of; [lia|].
  destruct (contig_sep _ _ _ b c Hc Hs ltac:(set_solver) Hcb) as [<-|Hsep]; [lia|].
  destruct (shape_block _ _ _ (hi_shape _ _ _ H_inv) c Hcb) as (? & ? & ? & ? & ? & ? & ?). lia.
Qed.

Lemma alloc_split_result m1 m' :
  24 <= b_size b - need ->
  rd m1 (b_addr b) = need -> Z.testbit (rd m1 (b_addr b + 4)) 0 = true ->
  rd m1 (b_addr b + need - 4) = need ->
  rd m1 (b_addr b + need) = b_size b - need -> Z.testbit (rd m1 (b_addr b + need + 4)) 0 = false ->
  rd m1 (b_addr b + b_size b - 4) = b_size b - need ->
  (forall a, a < b_addr b \/ b_addr b + b_size b <= a -> rd m1 a = rd (kh_mem s) a) ->
  dll m' kheap_free_list (pre ++ (b_addr b + need + 8) :: post) ->
  frame m1 m' ((b_addr b + need + 8) :: kheap_free_list :: pre ++ node_of b :: post) ->
  heap_inv (set_kh_mem m' s) (bs1 ++ alloc_blocks need b ++ bs2) alloc_nodes /\
  (forall a, client_addr s (bs1 ++ bs2) a -> rd m' a = rd (kh_mem s) a).
Proof.
  intros Hsplit H1 H2 H3 H4 H5 H6 Hout Hd Hf. pose proof (alloc_nodes_perm) as Hperm.
  pose proof (coalesced_alloc bs1 b bs2 need H_free (hi_coalesced _ _ _ H_inv)) as Hco.
  destruct (shape_block _ _ _ (hi_shape _ _ _ H_inv) b ltac:(set_solver)) as (H24 & Hs4 & Ha4 & _).
  unfold alloc_blocks, alloc_nodes in *. replace (24 <=? b_size b - need) with true in * by lia.
  assert (forall a, b_addr b <= a < b_addr b + b_size b -> a <> b_addr b + 8 -> a <> b_addr b + 12 ->
            a <> b_addr b + need + 8 -> a <> b_addr b + need + 12 -> rd m' a = rd m1 a) as Hin.
  { intros a Ha ????. apply Hf. intros (z & [->|Hz]%elem_of_cons & Haz); [lia|].
    pose proof (node_addr_cases a ltac:(by exists z)). lia. }
  apply (heap_update s bs1 [b] bs2 _ (pre ++ node_of b :: post) (b_addr b) (b_addr b + b_size b))
    with (N := (b_addr b + need + 8) :: kheap_free_list :: pre ++ node_of b :: post);
    [exact H_inv | done | done | | | | | | done..].
  - simpl. lia.
  - repeat constructor; simpl; dlia.
  - intros z [->|Hz]%elem_of_cons; [right; lia | by left].
  - intros a Ha Hno. rewrite Hf by done. by apply Hout.
  - rewrite !Forall_cons, Forall_nil. unfold blk_ok. cbn [b_addr b_size b_used].
    replace (b_addr b + need + (b_size b - need) - 4) with (b_addr b + b_size b - 4) by lia.
    rewrite !Hin by lia. repeat split; done || dlia.
Qed.

Lemma alloc_whole_result m1 v :
  b_size b - need < 24 -> Z.testbit v 0 = true ->
  dll m1 kheap_free_list (pre ++ post) ->
  frame (kh_mem s) m1 (kheap_free_list :: pre ++ node_of b :: post) ->
  heap_inv (set_kh_mem (wr m1 (b_addr b + 4) v) s) (bs1 ++ alloc_blocks need b ++ bs2) alloc_nodes /\
  (forall a, client_addr s (bs1 ++ bs2) a -> rd (wr m1 (b_addr b + 4) v) a = rd (kh_mem s) a).
Proof.
  intros Hsplit Hv Hd Hf. pose proof (alloc_nodes_perm) as Hperm.
  pose proof (coalesced_alloc bs1 b bs2 need H_free (hi_coalesced _ _ _ H_inv)) as Hco.
  destruct (shape_block _ _ _ (hi_shape _ _ _ H_inv) b ltac:(set_solver)) as (H24 & Hs4 & Ha4 & _).
  pose proof (hi_blocks _ _ _ H_inv) as Hbl. rewrite Forall_forall in Hbl.
  destruct (Hbl b ltac:(set_solver)) as (_ & _ & Hrs & _ & Hrt).
  unfold alloc_blocks, alloc_nodes in *. replace (24 <=? b_size b - need) with false in * by lia.
  assert (forall a, b_addr b <= a < b_addr b + b_size b -> a <> b_addr b + 8 -> a <> b_addr b + 12 ->
            rd m1 a = rd (kh_mem s) a) as Hin.
  { intros a Ha ??. apply Hf. intros Hn%node_addr_cases. lia. }
  apply (heap_update s bs1 [b] bs2 _ (pre ++ node_of b :: post) (b_addr b) (b_addr b + b_size b))
    with (N := kheap_free_list :: pre ++ node_of b :: post);
    [exact H_inv | done | done | done | | | | | done | | done].
  - repeat constructor; simpl; dlia.
  - auto.
  - intros a Ha Hno. rewrite rd_wr_ne by lia. by apply Hf.
  - rewrite Forall_cons, Forall_nil. unfold blk_ok. cbn [b_addr b_size b_used].
    rewrite rd_wr_eq, !rd_wr_ne, !Hin by lia. done.
  - apply (dll_ext m1); [|done]. intros a Ha. apply rd_wr_ne. intros <-.
    assert (in_nodes (kheap_free_list :: pre ++ node_of b :: post) (b_addr b + 4)) as Hx%node_addr_cases; [|lia].
    destruct Ha as (z & Hz & Haz). exists z. split; [set_solver | done].
Qed.

Lemma kmalloc_try_found (Q : option Z -> mem -> Prop) :
  (forall m', heap_inv (set_kh_mem m' s) (bs1 ++ alloc_blocks need b ++ bs2) alloc_nodes ->
     (forall a, client_addr s (bs1 ++ bs2) a -> rd m' a = rd (kh_mem s) a) ->
     Q (Some (b_addr b + 16)) m') ->
  wp (kmalloc_try need (node_of b)) Q (kh_mem s).
Proof.
  intros HQ. pose proof (hi_shape _ _ _ H_inv) as Hsh. pose proof (hi_list _ _ _ H_inv) as Hdll.
  destruct (shape_block _ _ _ Hsh b ltac:(set_solver)) as (H24 & Hs4 & Ha4 & Hst & Hsta & Hend & Htop).
  pose proof (hi_blocks _ _ _ H_inv) as Hbl. rewrite Forall_forall in Hbl.
  destruct (Hbl b ltac:(set_solver)) as (_ & _ & Hrs & Hrf & Hrt).
  unfold kmalloc_try. rewrite container_node_of by (unfold is_u32, KERNEL_VIRT_OFFSET in *; lia).
  change KHEAP_MIN_BLOCK_SIZE with 24. unfold sizeof_kheap_footer, sizeof_kheap_header, free_node.
  repeat heap_step. rewrite Hrs. replace (need <=? b_size b) with true by lia. cbv iota.
  repeat heap_step. rewrite Hrs.
  assert (forall z, b_addr b <= z <= b_addr b + b_size b -> u32 z = z) as Hu
    by (intros; apply u32_id; unfold is_u32, KERNEL_VIRT_OFFSET in *; lia).
  rewrite ?(u32_id (b_size b - need)) by (unfold is_u32, KERNEL_VIRT_OFFSET in *; lia).
  rewrite ?(Hu (b_addr b + need - 4)) by lia.
  replace (b_addr b + need - 4 + 4) with (b_addr b + need) by lia. rewrite ?(Hu (b_addr b + need)) by lia.
  replace (b_addr b + need + (b_size b - need) - 4) with (b_addr b + b_size b - 4) by lia.
  rewrite ?(Hu (b_addr b + b_size b - 4)), ?(Hu (b_addr b + 8)), ?(Hu (b_addr b + 16)) by lia.
  destruct (Z.leb_spec 24 (b_size b - need)) as [Hsplit|Hsplit].
  - rewrite ?(Hu (b_addr b + need + 8)) by lia. repeat heap_step.
    match goal with |- wp _ _ ?M => set (m1 := M) end.
    fold (node_of b) in *. apply (list_replace_gap m1 kheap_free_list pre post).
    + apply (dll_ext (kh_mem s)); [|done]. intros a Ha%node_addr_cases. subst m1. by mem_simp.
    + unfold node_ok. valid_solve.
    + intros z Hz. by apply new_node_apart.
    + intros m' Hd Hf _ _. wp_step.
      edestruct (alloc_split_result m1 m'); [done | subst m1; mem_simp; done || apply MASK_SET_flag || apply MASK_CLEAR_flag..| | exact Hd | exact Hf |].
      * subst m1. intros. by mem_simp.
      * by apply HQ.
  - repeat heap_step. fold (node_of b) in *.
    apply (list_remove_gap (kh_mem s) kheap_free_list pre post); [done|].
    intros m1 Hd Hf _ _. repeat heap_step. 
    edestruct (alloc_whole_result m1); [done | | exact Hd | exact Hf | by apply HQ].
    apply MASK_SET_flag.
Qed.
End Alloc.

(** The bytes a block needs for a payload of [size] bytes. *)
Definition block_need (size : Z) : Z := (size + 3) / 4 * 4 + 20.

(** The outcome of [kmalloc]: the first block of the free list that is large
    enough gives its first bytes, and the rest stays free when it can hold a block. *)
Definition kmalloc_post (s : kheap) (bs : list blk) (ns : list Z) (size r : Z) (s' : kheap) : Prop :=
  (size = 0 /\ r = KERR_PTR (- KERR_INVAL) /\ s' = s) \/
  (0 < size /\ r = KERR_PTR (- KERR_NOMEM) /\ s' = s /\
   forall c, c ∈ bs -> b_used c = false -> b_size c < block_need size) \/
  (0 < size /\ exists bs1 b bs2 pre post m',
     bs = bs1 ++ b :: bs2 /\ ns = pre ++ node_of b :: post /\ b_used b = false /\
     block_need size <= b_size b /\
     (forall c, c ∈ bs -> b_used c = false -> node_of c ∈ pre -> b_size c < block_need size) /\
     r = b_addr b + 16 /\ s' = set_kh_mem m' s /\
     heap_inv s' (bs1 ++ alloc_blocks (block_need size) b ++ bs2)
       (alloc_nodes b pre post (block_need size)) /\
     forall a, client_addr s (bs1 ++ bs2) a -> rd m' a = rd (kh_mem s) a).

Lemma kmalloc_try_small b need m (Q : option Z -> mem -> Prop) :
  valid (b_addr b) -> rd m (b_addr b) < need -> Q None m -> wp (kmalloc_try need (node_of b)) Q m.
Proof.
  intros Hv Hlt HQ. unfold kmalloc_try.
  rewrite container_node_of by (unfold valid, is_u32, KERNEL_VIRT_OFFSET in *; lia).
  repeat heap_step. replace (need <=? rd m (b_addr b)) with false by lia. by wp_step.
Qed.

Lemma node_of_block s bs ns x : heap_inv s bs ns -> x ∈ ns ->
  exists bs1 b bs2, bs = bs1 ++ b :: bs2 /\ b_used b = false /\ x = node_of b.
Proof.
  intros H Hx. rewrite (hi_nodes _ _ _ H) in Hx. apply elem_of_free_nodes in Hx as (b & Hb & Hu & ->).
  apply list_elem_of_split in Hb as (bs1 & bs2 & ->). by exists bs1, b, bs2.
Qed.

Lemma block_addr_inj s bs ns b c : heap_inv s bs ns -> b ∈ bs -> c ∈ bs -> b_addr b = b_addr c -> b = c.
Proof.
  intros H Hb Hc E. destruct (hi_shape _ _ _ H) as [_ _ Hco Hs].
  destruct (shape_block _ _ _ (hi_shape _ _ _ H) b Hb) as (? & _).
  destruct (shape_block _ _ _ (hi_shape _ _ _ H) c Hc) as (? & _).
  destruct (contig_sep _ _ _ b c Hco Hs Hb Hc); [done | lia].
Qed.

Lemma set_kh_mem_id s : set_kh_mem (kh_mem s) s = s.
Proof. by destruct s. Qed.

Lemma kmalloc_wp s bs ns size :
  heap_inv s bs ns -> 0 <= size <= 4294967272 ->
  wp (kmalloc size) (kmalloc_post s bs ns size) s.
Proof.
  intros H Hsize. unfold kmalloc. destruct (Z.eqb_spec size 0) as [->|Hne].
  { apply wp_ret. left. done. }
  rewrite ALIGN_UP_4 by lia. unfold sizeof_kheap_header, sizeof_kheap_footer.
  rewrite u32_id by (unfold is_u32; dlia).
  replace (16 + (size + 3) / 4 * 4 + 4) with (block_need size) by (unfold block_need; lia).
  pose proof (hi_list _ _ _ H) as Hd. pose proof (kheap_fuel_enough _ _ _ H) as [_ Hfuel].
  destruct (dll_node_ok _ _ _ kheap_free_list Hd ltac:(set_solver)) as [Hv _].
  wp_steps. unfold get_next. apply load32_wp; [done|]. wp_steps. rewrite set_kh_mem_id.
  destruct (dll_ends _ _ _ Hd) as [-> _].
  apply (list_for_each_wp (fun pre m => m = kh_mem s /\
      forall c, c ∈ bs -> b_used c = false -> node_of c ∈ pre -> b_size c < block_need size))
    with (xs1 := []).
  - done.
  - by intros pre m [-> _].
  - split; [done|]. set_solver.
  - intros pre x post m Hns [-> Hpre]. simpl in Hns. subst ns.
    destruct (node_of_block _ _ _ x H ltac:(set_solver)) as (bs1 & b & bs2 & -> & Hu & ->).
    pose proof (hi_blocks _ _ _ H) as Hbl. rewrite Forall_forall in Hbl.
    destruct (Hbl b ltac:(set_solver)) as (_ & _ & Hrs & _).
    destruct (shape_block _ _ _ (hi_shape _ _ _ H) b ltac:(set_solver)) as (? & ? & ? & ? & ? & ? & ?).
    destruct (Z.lt_ge_cases (b_size b) (block_need size)) as [Hlt|Hge].
    + apply kmalloc_try_small; [valid_solve | lia|]. split; [done|].
      intros c Hc Hcu [Hcp|Hcb%list_elem_of_singleton]%elem_of_app; [by apply Hpre|].
      rewrite (block_addr_inj _ _ _ c b H Hc ltac:(set_solver)); [done|]. unfold node_of in Hcb. lia.
    + apply (kmalloc_try_found s bs1 bs2 b pre post); [done | done | unfold block_need in *; dlia|].
      intros m' Hinv Hfr. wp_steps. right; right. split; [lia|].
      exists bs1, b, bs2, pre, post, m'. done.
  - intros m [-> Hall]. wp_steps. right; left. rewrite set_kh_mem_id. split; [lia|].
    split; [done|]. split; [done|]. intros c Hc Hcu. apply Hall; [done..|]. simpl.
    rewrite (hi_nodes _ _ _ H). apply elem_of_free_nodes. eauto.
Qed.

(** ** Release

    The block [b] to free has the free neighbours [op] and [on], if any; the
    blocks before are [L], those after are [R]. *)

Definition ends_used (L : list blk) : Prop := forall L' p, L = L' ++ [p] -> b_used p = true.
Definition starts_used (R : list blk) : Prop := forall n R', R = n :: R' -> b_used n = true.

Lemma coalesced_cons a l : coalesced (a :: l) <-> (b_used a = false -> starts_used l) /\ coalesced l.
Proof.
  destruct l as [|c l]; simpl.
  - split; [|done]. split; [|done]. by intros _ n R'.
  - split.
    + intros [H1 H2]. split; [|done]. intros Ha n R' [= -> ->]. by rewrite Ha in H1.
    + intros [H1 H2]. split; [|done]. destruct (b_used a); [done|]. by rewrite (H1 eq_refl c l).
Qed.

Lemma coalesced_snoc l a : coalesced (l ++ [a]) <-> (b_used a = false -> ends_used l) /\ coalesced l.
Proof.
  induction l as [|c l IH]; simpl app.
  - simpl. split; [|done]. split; [|done]. intros _ [|] p; done.
  - rewrite !coalesced_cons, IH. split.
    + intros (H1 & H2 & H3). repeat split; [|intros Hc; specialize (H1 Hc)|done].
      * intros Ha [|d L'] p [= E1 E2]; [subst; simpl in *|].
        -- destruct (b_used p) eqn:Ep; [done|]. specialize (H1 eq_refl a []). congruence || (rewrite H1 in Ha; done).
        -- subst. by apply (H2 Ha L' p).
      * intros n R' ->. by apply (H1 n (R' ++ [a])).
    + intros (H1 & H2 & H3). repeat split; [|intros Ha|done].
      * intros Hc n R' E. destruct l as [|d l]; simpl in E; inversion E; subst.
        -- destruct (b_used n) eqn:En; [done|]. specialize (H1 eq_refl [] c eq_refl). congruence.
        -- by apply (H2 Hc n l).
      * intros L' p ->. by apply (H1 Ha (c :: L') p).
Qed.

Lemma coalesced_join L c R :
  coalesced L -> coalesced R -> ends_used L -> starts_used R -> coalesced (L ++ c :: R).
Proof.
  intros. apply coalesced_app. split; [by apply coalesced_snoc | by apply coalesced_cons].
Qed.

Lemma coalesced_parts L c R :
  coalesced (L ++ c :: R) ->
  coalesced L /\ coalesced R /\ (b_used c = false -> ends_used L /\ starts_used R).
Proof.
  intros [[H1 H2]%coalesced_snoc [H3 H4]%coalesced_cons]%coalesced_app. auto.
Qed.

Lemma kheap_merge_wp m left right ls rs (Q : unit -> mem -> Prop) :
  valid left -> valid right -> valid (right + rs - 4) -> left <> right -> 
  rd m left = ls -> rd m right = rs -> is_u32 (ls + rs) ->
  Q tt (wr (wr m left (ls + rs)) (right + rs - 4) (ls + rs)) ->
  wp (kheap_merge left right) Q m.
Proof.
  intros Hl Hr Hf Hne H1 H2 Hu HQ. unfold kheap_merge, sizeof_kheap_footer.
  repeat heap_step. rewrite ?H1, ?H2, ?(u32_id (ls + rs)) by done. repeat heap_step.
  rewrite ?H1, ?H2, ?(u32_id (right + rs - 4)) by (unfold valid, is_u32, KERNEL_VIRT_OFFSET in *; lia).
  repeat heap_step. done.
Qed.

Section Free.
Context (s : kheap) (L R : list blk) (b : blk) (op on : option blk) (ns : list Z).
Hypothesis H_inv : heap_inv s (L ++ option_list op ++ b :: option_list on ++ R) ns.
Hypothesis H_used : b_used b = true.
Hypothesis H_op : match op with Some p => b_used p = false | None => ends_used L end.
Hypothesis H_on : match on with Some n => b_used n = false | None => starts_used R end.

Definition merged_start : Z := from_option b_addr (b_addr b) op.
Definition merged_end : Z := from_option (fun n => b_addr n + b_size n) (b_addr b + b_size b) on.
Definition merged : blk := mk_blk merged_start (merged_end - merged_start) false.

Lemma free_coalesced : coalesced (L ++ merged :: R).
Proof.
  pose proof (hi_coalesced _ _ _ H_inv) as Hc.
  assert (coalesced L /\ ends_used L) as [HL HeL].
  { destruct op as [p|]; simpl in Hc; apply coalesced_parts in Hc as (H1 & _ & H2); [|done].
    split; [done | by apply H2]. }
  assert (coalesced R /\ starts_used R) as [HR HsR].
  { rewrite app_assoc in Hc. destruct on as [n|]; simpl in Hc.
    - change (b :: n :: R) with ([b] ++ n :: R) in Hc. rewrite app_assoc in Hc.
      apply coalesced_parts in Hc as (_ & H1 & H2). split; [done | by apply H2].
    - by apply coalesced_parts in Hc as (_ & H1 & _). }
  by apply coalesced_join.
Qed.

Lemma free_geometry :
  contig merged_start (option_list op ++ b :: option_list on) merged_end /\
  (forall p, op = Some p -> b_addr p + b_size p = b_addr b) /\
  (forall n, on = Some n -> b_addr b + b_size b = b_addr n) /\
  forall c, c ∈ option_list op ++ b :: option_list on ->
    24 <= b_size c /\ b_size c mod 4 = 0 /\ b_addr c mod 4 = 0 /\
    KERNEL_VIRT_OFFSET <= b_addr c /\ b_addr c + b_size c <= 4026531840 /\ blk_ok (kh_mem s) c.
Proof.
  pose proof (hi_shape _ _ _ H_inv) as Hsh. destruct (Hsh) as [_ _ Hc Hs].
  apply contig_app in Hc as (x & _ & Hc).
  assert (forall n, on = Some n -> b_addr b + b_size b = b_addr n) as Hn.
  { intros n ->. apply contig_app in Hc as (z & _ & [? [? _]]). simpl in *. lia. }
  assert (forall p, op = Some p -> b_addr p + b_size p = b_addr b) as Hp.
  { intros p ->. simpl in Hc. destruct Hc as (? & ? & _). lia. }
  split; [|split; [done|split; [done|]]].
  - unfold merged_start, merged_end. destruct op as [p|], on as [n|]; simpl;
      rewrite ?(Hp _ eq_refl), <- ?(Hn _ eq_refl); repeat split; rewrite ?(Hp _ eq_refl); lia.
  - intros c Hcin.
    assert (c ∈ L ++ option_list op ++ b :: option_list on ++ R) as Hcb by set_solver.
    destruct (shape_block _ _ _ Hsh c Hcb) as (? & ? & ? & ? & ? & ? & ?).
    pose proof (hi_blocks _ _ _ H_inv) as Hbl. rewrite Forall_forall in Hbl.
    repeat (split; [done || lia|]). by apply Hbl.
Qed.

Lemma free_result m' ns' :
  rd m' merged_start = merged_end - merged_start ->
  Z.testbit (rd m' (merged_start + 4)) 0 = false ->
  rd m' (merged_end - 4) = merged_end - merged_start ->
  (forall a, a < merged_start \/ merged_end <= a -> ~ in_nodes (kheap_free_list :: ns) a ->
     rd m' a = rd (kh_mem s) a) ->
  dll m' kheap_free_list ns' -> ns' ≡ₚ free_nodes (L ++ merged :: R) ->
  heap_inv (set_kh_mem m' s) (L ++ merged :: R) ns' /\
  forall a, client_addr s (L ++ R) a -> rd m' a = rd (kh_mem s) a.
Proof.
  intros H1 H2 H3 H4 Hd Hp. destruct free_geometry as (Hc & Hgp & Hgn & Hg).
  pose proof free_coalesced as Hco.
  assert (24 <= merged_end - merged_start /\ (merged_end - merged_start) mod 4 = 0) as [Hsz Hmod].
  { destruct (Hg b ltac:(set_solver)) as (? & ? & ? & _). unfold merged_start, merged_end.
    destruct op as [p|], on as [n|]; simpl; try specialize (Hgp _ eq_refl);
      try specialize (Hgn _ eq_refl);
      try (destruct (Hg p ltac:(set_solver)) as (? & ? & ? & _));
      try (destruct (Hg n ltac:(set_solver)) as (? & ? & ? & _)); dlia. }
  apply (heap_update s L (option_list op ++ b :: option_list on) R [merged] ns merged_start merged_end)
    with (N := kheap_free_list :: ns); try done.
  - by rewrite <- app_assoc.
  - by destruct op.
  - simpl. lia.
  - by repeat constructor.
  - auto.
  - rewrite Forall_cons, Forall_nil. unfold blk_ok, merged; cbn [b_addr b_size b_used].
    replace (merged_start + (merged_end - merged_start) - 4) with (merged_end - 4) by lia. done.
Qed.

Context (pre post : list Z).
Hypothesis H_ns : ns = pre ++ option_list (node_of <$> on) ++ post.

Definition freed_nodes : list Z :=
  match op with Some _ => pre ++ post | None => node_of b :: pre ++ post end.

Lemma freed_nodes_perm : freed_nodes ≡ₚ free_nodes (L ++ merged :: R).
Proof.
  pose proof (hi_nodes _ _ _ H_inv) as Hp. rewrite H_ns in Hp.
  assert (pre ++ post ≡ₚ free_nodes (L ++ option_list op ++ R)) as Hrest.
  { rewrite !free_nodes_app in *. cbn [free_nodes flat_map] in Hp. rewrite H_used in Hp.
    fold (free_nodes (option_list on ++ R)) in Hp. simpl in Hp. rewrite free_nodes_app in Hp.
    destruct on as [n|]; cbn in Hp; [|done]. rewrite H_on in Hp. cbn [app] in Hp.
    rewrite !(app_assoc (free_nodes L)) in *. rewrite <- !Permutation_middle in Hp.
    by apply Permutation_cons_inv in Hp. }
  unfold freed_nodes, merged, merged_start. rewrite free_nodes_app in *.
  destruct op as [p|]; cbn in *; [rewrite H_op in Hrest; done|]. rewrite Hrest.
  by rewrite Permutation_middle.
Qed.

(** The store with the flag of [b] cleared. *)
Definition cleared : mem :=
  wr (kh_mem s) (b_addr b + 4) (MASK_CLEAR (rd (kh_mem s) (b_addr b + 4)) KHEAP_FLAG_ALLOC).

Lemma free_node_cases a : in_nodes (kheap_free_list :: ns) a ->
  forall c, c ∈ option_list op ++ b :: option_list on ->
  a < b_addr c \/ b_addr c + b_size c <= a \/ (a = b_addr c + 8 \/ a = b_addr c + 12).
Proof.
  intros Ha c Hc. destruct (Z.lt_ge_cases a (b_addr c)); [tauto|].
  destruct (Z.lt_ge_cases a (b_addr c + b_size c)); [|tauto].
  destruct (Z.eq_dec a (b_addr c + 8)); [tauto|]. destruct (Z.eq_dec a (b_addr c + 12)); [tauto|].
  exfalso. eapply (inside_not_node _ _ _ (hi_shape _ _ _ H_inv)); [| | | | |exact Ha]; try done.
  - intros y. by apply (heap_nodes s).
  - set_solver.
Qed.

Lemma cleared_dll : dll cleared kheap_free_list ns.
Proof.
  apply (dll_ext (kh_mem s)); [|apply (hi_list _ _ _ H_inv)]. intros a Ha.
  pose proof (free_node_cases a Ha b ltac:(set_solver)).
  destruct free_geometry as (_ & _ & _ & Hg). destruct (Hg b ltac:(set_solver)) as (? & _).
  unfold cleared. by rewrite rd_wr_ne by lia.
Qed.

Lemma own_node_apart y : y ∈ kheap_free_list :: ns -> apart (node_of b) y.
Proof.
  intros Hy. pose proof (hi_shape _ _ _ H_inv) as Hsh.
  apply (heap_nodes_apart _ _ _ Hsh); [right; exists b; set_solver | by apply (heap_nodes s _ ns)|].
  apply elem_of_cons in Hy as [->|Hy].
  - destruct Hsh as [_ [_ Hse] _ _]. unfold node_of.
    destruct (shape_block _ _ _ (hi_shape _ _ _ H_inv) b ltac:(set_solver)) as (? & ? & ? & ? & ? & ? & ?).
    lia.
  - rewrite (hi_nodes _ _ _ H_inv) in Hy. apply elem_of_free_nodes in Hy as (c & Hc & Hcu & ->).
    intros E. rewrite (block_addr_inj _ _ _ b c H_inv) in H_used; unfold node_of in *;
      [congruence | set_solver | done | lia].
Qed.

(** Facts on a neighbour or on [b] in the store [cleared]. *)
Lemma cleared_facts c : c ∈ option_list op ++ b :: option_list on ->
  24 <= b_size c /\ b_addr c mod 4 = 0 /\ b_size c mod 4 = 0 /\
  KERNEL_VIRT_OFFSET <= b_addr c /\ b_addr c + b_size c <= 4026531840 /\
  rd cleared (b_addr c) = b_size c /\ rd cleared (b_addr c + b_size c - 4) = b_size c /\
  Z.testbit (rd cleared (b_addr c + 4)) 0 = false /\
  node_ok (node_of c).
Proof.
  intros Hc. destruct free_geometry as (_ & _ & _ & Hg).
  destruct (Hg c Hc) as (? & ? & ? & ? & ? & (_ & _ & H1 & H2 & H3)).
  destruct (Hg b ltac:(set_solver)) as (? & ? & ? & ? & ? & _).
  destruct (hi_shape _ _ _ H_inv) as [_ _ Hco Hs].
  assert (c = b \/ b_addr b + b_size b <= b_addr c \/ b_addr c + b_size c <= b_addr b) as Hsep.
  { destruct (contig_sep _ _ _ b c Hco Hs) as [->|]; [set_solver.. | by left | by right]. }
  repeat (split; [done|]). unfold cleared. rewrite !rd_wr_ne by (destruct Hsep as [->|]; lia).
  split; [done|]. split; [done|]. split; [|unfold node_ok; split; valid_solve].
  destruct Hsep as [->|Hsep]; [rewrite rd_wr_eq; apply MASK_CLEAR_flag|].
  rewrite rd_wr_ne by lia. rewrite H2. destruct op as [p|], on as [n|]; simpl in Hc;
    repeat (apply elem_of_cons in Hc as [->|Hc]; [done || lia|]); by apply elem_of_nil in Hc.
Qed.

Lemma cleared_outside a : a < merged_start \/ merged_end <= a -> rd cleared a = rd (kh_mem s) a.
Proof.
  intros Ha. apply rd_wr_ne. destruct free_geometry as (_ & Hp & Hn & Hg).
  destruct (Hg b ltac:(set_solver)) as (? & _). revert Ha. unfold merged_start, merged_end.
  destruct op as [p|], on as [n|]; simpl; try specialize (Hp _ eq_refl); try specialize (Hn _ eq_refl);
    try (destruct (Hg p ltac:(set_solver)) as (? & _));
    try (destruct (Hg n ltac:(set_solver)) as (? & _)); lia.
Qed.

(** The facts above in one statement, for the four cases below. *)
Lemma release_facts :
  dll cleared kheap_free_list ns /\
  (forall y, y ∈ kheap_free_list :: ns -> apart (node_of b) y) /\
  (forall c, c ∈ option_list op ++ b :: option_list on ->
    24 <= b_size c /\ b_addr c mod 4 = 0 /\ b_size c mod 4 = 0 /\
    KERNEL_VIRT_OFFSET <= b_addr c /\ b_addr c + b_size c <= 4026531840 /\
    rd cleared (b_addr c) = b_size c /\ rd cleared (b_addr c + b_size c - 4) = b_size c /\
    Z.testbit (rd cleared (b_addr c + 4)) 0 = false /\ node_ok (node_of c)) /\
  (forall a, a < merged_start \/ merged_end <= a -> rd cleared a = rd (kh_mem s) a) /\
  (forall a, in_nodes (kheap_free_list :: ns) a ->
    forall c, c ∈ option_list op ++ b :: option_list on ->
    a < b_addr c \/ b_addr c + b_size c <= a \/ (a = b_addr c + 8 \/ a = b_addr c + 12)) /\
  (forall p, op = Some p -> b_addr p + b_size p = b_addr b) /\
  (forall n, on = Some n -> b_addr b + b_size b = b_addr n) /\
  freed_nodes ≡ₚ free_nodes (L ++ merged :: R).
Proof.
  destruct free_geometry as (_ & Hp & Hn & _).
  split; [apply cleared_dll|]. split; [apply own_node_apart|]. split; [apply cleared_facts|].
  split; [apply cleared_outside|]. split; [apply free_node_cases|]. split; [done|]. split; [done|].
  apply freed_nodes_perm.
Qed.
End Free.

(** The four ways to coalesce. *)
Section Coalesce.
Context (s : kheap) (L R : list blk) (b : blk).
Hypothesis H_used : b_used b = true.

Definition coalesced_to (bs' : list blk) (ns' : list Z) (m' : mem) : Prop :=
  heap_inv (set_kh_mem m' s) bs' ns' /\
  forall a, client_addr s (L ++ R) a -> rd m' a = rd (kh_mem s) a.

Ltac u32_addr := rewrite u32_id by (unfold is_u32, KERNEL_VIRT_OFFSET in *; lia).

Lemma coalesce_none prev_hdr next_hdr ns :
  heap_inv s (L ++ b :: R) ns -> ends_used L -> starts_used R ->
  wp (coalesce (b_addr b) prev_hdr next_hdr false false)
    (fun _ => coalesced_to (L ++ merged b None None :: R) (node_of b :: ns)) (cleared s b).
Proof.
  intros H HL HR. unfold coalesce. wp_steps. unfold free_node.
  edestruct (release_facts s L R b None None ns H H_used HL HR ns []) as
    (Hd & Hap & Hc & Hout & Hin & _ & _ & Hperm); [by rewrite app_nil_r|].
  pose proof (fun a Ha => Hin a Ha b ltac:(set_solver)) as Hinb.
  destruct (Hc b ltac:(set_solver)) as (? & ? & ? & ? & ? & Hrs & Hrt & Hrf & Hnok).
  u32_addr. fold (node_of b).
  apply (list_insert_after_gap (cleared s b) kheap_free_list [] ns); [done.. |].
  intros m' Hd' Hf. cbn [app] in *.
  assert (forall a, a <> b_addr b + 8 -> a <> b_addr b + 12 ->
            ~ in_nodes (kheap_free_list :: ns) a \/ b_addr b <= a < b_addr b + b_size b ->
            rd m' a = rd (cleared s b) a) as Hf'.
  { intros a ?? Hno. apply Hf. intros (z & [->|Hz]%elem_of_cons & Haz); [unfold node_of in Haz; lia|].
    assert (in_nodes (kheap_free_list :: ns) a) as Hn by (by exists z).
    pose proof (Hinb a Hn). destruct Hno as [Hno|?]; [by apply Hno | lia]. }
  unfold freed_nodes in Hperm. rewrite app_nil_r in Hperm.
  apply (free_result s L R b None None ns H H_used HL HR m' (node_of b :: ns)); try done;
    unfold merged_start, merged_end in *; cbn [from_option] in *.
  - rewrite Hf' by lia. lia.
  - by rewrite Hf' by lia.
  - rewrite Hf' by lia. lia.
  - intros a Ha Hna. rewrite Hf' by (try lia; by left). by apply Hout.
Qed.

Lemma coalesce_prev p next_hdr ns :
  heap_inv s (L ++ p :: b :: R) ns -> b_used p = false -> starts_used R ->
  wp (coalesce (b_addr b) (b_addr p) next_hdr true false)
    (fun _ => coalesced_to (L ++ merged b (Some p) None :: R) ns) (cleared s b).
Proof.
  intros H HL HR. unfold coalesce. wp_steps.
  edestruct (release_facts s L R b (Some p) None ns H H_used HL HR ns []) as
    (Hd & Hap & Hc & Hout & Hin & Hgp & _ & Hperm); [by rewrite app_nil_r|]. specialize (Hgp p eq_refl).
  pose proof (fun a Ha => Hin a Ha b ltac:(set_solver)) as Hinb.
  destruct (Hc b ltac:(set_solver)) as (? & ? & ? & ? & ? & Hrs & Hrt & Hrf & _).
  pose proof (fun a Ha => Hin a Ha p ltac:(set_solver)) as Hinp.
  destruct (Hc p ltac:(set_solver)) as (? & ? & ? & ? & ? & Hps & Hpt & Hpf & _).
  apply (kheap_merge_wp _ _ _ (b_size p) (b_size b)); [valid_solve.. | lia | done | done | unfold is_u32, KERNEL_VIRT_OFFSET in *; lia|].
  wp_steps. unfold freed_nodes in Hperm. rewrite app_nil_r in Hperm.
  apply (free_result s L R b (Some p) None ns H H_used HL HR _ ns); try done;
    unfold merged_start, merged_end in *; cbn [from_option] in *.
  - mem_simp. lia.
  - by mem_simp.
  - mem_simp. lia.
  - intros a Ha Hna. mem_simp. by apply Hout.
  - apply (dll_ext (cleared s b)); [|done]. intros a Ha.
    pose proof (Hinb a Ha). pose proof (Hinp a Ha). by mem_simp.
Qed.

Lemma coalesce_next prev_hdr n pre post :
  heap_inv s (L ++ b :: n :: R) (pre ++ node_of n :: post) -> ends_used L -> b_used n = false ->
  wp (coalesce (b_addr b) prev_hdr (b_addr n) false true)
    (fun _ => coalesced_to (L ++ merged b None (Some n) :: R) (node_of b :: pre ++ post)) (cleared s b).
Proof.
  intros H HL HR. unfold coalesce. wp_steps. unfold free_node. set (ns := pre ++ node_of n :: post) in *.
  destruct (release_facts s L R b None (Some n) ns H H_used HL HR pre post eq_refl) as
    (Hd & Hap & Hc & Hout & Hin & _ & Hgn & Hperm). specialize (Hgn n eq_refl).
  pose proof (fun a Ha => Hin a Ha b ltac:(set_solver)) as Hinb.
  destruct (Hc b ltac:(set_solver)) as (? & ? & ? & ? & ? & Hrs & Hrt & Hrf & Hnok).
  pose proof (fun a Ha => Hin a Ha n ltac:(set_solver)) as Hinn.
  destruct (Hc n ltac:(set_solver)) as (? & ? & ? & ? & ? & Hns & Hnt & Hnf & _).
  rewrite !u32_id by (unfold is_u32, KERNEL_VIRT_OFFSET in *; lia). fold (node_of n) (node_of b).
  apply (list_remove_gap (cleared s b) kheap_free_list pre post); [done|]. fold ns.
  intros m1 Hd1 Hf1 _ _.
  assert (forall a, a = b_addr b \/ a = b_addr b + 4 \/ a = b_addr n \/ a = b_addr n + b_size n - 4 \/
            ~ in_nodes (kheap_free_list :: ns) a -> rd m1 a = rd (cleared s b) a) as Hf1'.
  { intros a Ha. apply Hf1. intros Hn. pose proof (Hinb a Hn).
    pose proof (Hinn a Hn). destruct Ha as [|[|[|[|Ha]]]]; [lia..|done]. }
  wp_steps. apply (kheap_merge_wp _ _ _ (b_size b) (b_size n));
    [valid_solve.. | lia | rewrite Hf1'; tauto | rewrite Hf1'; tauto | unfold is_u32, KERNEL_VIRT_OFFSET in *; lia|].
  assert (Hsub : forall a, in_nodes (kheap_free_list :: pre ++ post) a -> in_nodes (kheap_free_list :: ns) a).
  { intros a (z & Hz & Haz). exists z. split; [subst ns; set_solver | done]. }
  apply (list_insert_after_gap _ kheap_free_list [] (pre ++ post)); [| done | | ].
  { apply (dll_ext m1); [|done]. intros a Ha%Hsub.
    pose proof (Hinb a Ha). pose proof (Hinn a Ha). by mem_simp. }
  { intros y Hy. apply Hap. subst ns. set_solver. }
  intros m' Hd' Hf. cbn [app] in *.
  match type of Hf with frame ?M _ _ => set (m2 := M) in * end.
  assert (forall a, a <> b_addr b + 8 -> a <> b_addr b + 12 ->
            a = b_addr b \/ a = b_addr b + 4 \/ a = b_addr n + b_size n - 4 \/ ~ in_nodes (kheap_free_list :: ns) a ->
            rd m' a = rd m2 a) as Hf'.
  { intros a ?? Ha. apply Hf. intros (z & [->|Hz]%elem_of_cons & Haz); [unfold node_of in Haz; lia|].
    assert (in_nodes (kheap_free_list :: ns) a) as Hn by (apply Hsub; by exists z).
    pose proof (Hinb a Hn). pose proof (Hinn a Hn).
    destruct Ha as [|[|[|Ha]]]; [lia..|done]. }
  apply (free_result s L R b None (Some n) ns H H_used HL HR m' (node_of b :: pre ++ post)); try done;
    unfold merged_start, merged_end in *; cbn [from_option] in *.
  - rewrite Hf' by lia. subst m2. mem_simp. lia.
  - rewrite Hf' by lia. subst m2. mem_simp. by rewrite Hf1' by tauto.
  - rewrite Hf' by lia. subst m2. mem_simp. lia.
  - intros a Ha Hna. rewrite Hf' by (try lia; tauto). subst m2. mem_simp.
    rewrite Hf1' by tauto. by apply Hout.
Qed.

Lemma coalesce_both p n pre post :
  heap_inv s (L ++ p :: b :: n :: R) (pre ++ node_of n :: post) -> b_used p = false -> b_used n = false ->
  wp (coalesce (b_addr b) (b_addr p) (b_addr n) true true)
    (fun _ => coalesced_to (L ++ merged b (Some p) (Some n) :: R) (pre ++ post)) (cleared s b).
Proof.
  intros H HL HR. unfold coalesce. wp_steps. set (ns := pre ++ node_of n :: post) in *.
  destruct (release_facts s L R b (Some p) (Some n) ns H H_used HL HR pre post eq_refl) as
    (Hd & Hap & Hc & Hout & Hin & Hgp & Hgn & Hperm).
  specialize (Hgn n eq_refl). specialize (Hgp p eq_refl).
  pose proof (fun a Ha => Hin a Ha b ltac:(set_solver)) as Hinb.
  destruct (Hc b ltac:(set_solver)) as (? & ? & ? & ? & ? & Hrs & Hrt & Hrf & _).
  pose proof (fun a Ha => Hin a Ha p ltac:(set_solver)) as Hinp.
  destruct (Hc p ltac:(set_solver)) as (? & ? & ? & ? & ? & Hps & Hpt & Hpf & _).
  pose proof (fun a Ha => Hin a Ha n ltac:(set_solver)) as Hinn.
  destruct (Hc n ltac:(set_solver)) as (? & ? & ? & ? & ? & Hns & Hnt & Hnf & _).
  apply (kheap_merge_wp _ _ _ (b_size p) (b_size b));
    [valid_solve.. | lia | done | done | unfold is_u32, KERNEL_VIRT_OFFSET in *; lia|].
  set (m1 := wr (wr _ _ _) _ _). wp_steps. unfold free_node. u32_addr. fold (node_of n).
  apply (list_remove_gap m1 kheap_free_list pre post).
  { fold ns. apply (dll_ext (cleared s b)); [|done]. intros a Ha.
    pose proof (Hinb a Ha). pose proof (Hinp a Ha).
    subst m1. by mem_simp. }
  fold ns. intros m2 Hd2 Hf2 _ _.
  assert (forall a, a = b_addr p \/ a = b_addr p + 4 \/ a = b_addr n \/ ~ in_nodes (kheap_free_list :: ns) a ->
            rd m2 a = rd m1 a) as Hf2'.
  { intros a Ha. apply Hf2. intros Hn. pose proof (Hinp a Hn).
    pose proof (Hinn a Hn). destruct Ha as [|[|[|Ha]]]; [lia..|done]. }
  apply (kheap_merge_wp _ _ _ (b_size p + b_size b) (b_size n));
    [valid_solve.. | lia | | | unfold is_u32, KERNEL_VIRT_OFFSET in *; lia|].
  { rewrite Hf2' by tauto. subst m1. by mem_simp. }
  { rewrite Hf2' by tauto. subst m1. by mem_simp. }
  wp_steps. apply (free_result s L R b (Some p) (Some n) ns H H_used HL HR _ (pre ++ post)); try done;
    unfold merged_start, merged_end in *; cbn [from_option] in *.
  - mem_simp. lia.
  - mem_simp. rewrite Hf2' by tauto. subst m1. by mem_simp.
  - mem_simp. lia.
  - intros a Ha Hna. mem_simp. rewrite Hf2' by tauto. subst m1. mem_simp. by apply Hout.
  - apply (dll_ext m2); [|done]. intros a (z & Hz & Haz).
    assert (in_nodes (kheap_free_list :: ns) a) as Ha by (exists z; split; [subst ns; set_solver | done]).
    pose proof (Hinp a Ha). pose proof (Hinn a Ha). by mem_simp.
Qed.
End Coalesce.

Lemma snoc_or_nil (l : list blk) : l = [] \/ exists L p, l = L ++ [p].
Proof. induction l using rev_ind; eauto. Qed.

Lemma split_left bs1 : exists L op, bs1 = L ++ option_list op /\
  match op with Some p => b_used p = false | None => ends_used L end.
Proof.
  destruct (snoc_or_nil bs1) as [->|(L & p & ->)].
  - exists [], None. split; [done|]. by intros [|] ?.
  - destruct (b_used p) eqn:E; [|by exists L, (Some p)].
    exists (L ++ [p]), None. split; [by rewrite app_nil_r|].
    intros L' p' [_ ->]%app_inj_tail. done.
Qed.

Lemma split_right bs2 : exists on R, bs2 = option_list on ++ R /\
  match on with Some n => b_used n = false | None => starts_used R end.
Proof.
  destruct bs2 as [|n R].
  - exists None, []. split; [done|]. by intros ? ?.
  - destruct (b_used n) eqn:E; [|by exists (Some n), R].
    exists None, (n :: R). split; [done|]. by intros ?? [= <- <-].
Qed.

Section Neighbours.
Context (s : kheap) (L R : list blk) (b : blk) (op on : option blk) (ns : list Z).
Hypothesis H_inv : heap_inv s (L ++ option_list op ++ b :: option_list on ++ R) ns.
Hypothesis H_op : match op with Some p => b_used p = false | None => ends_used L end.
Hypothesis H_on : match on with Some n => b_used n = false | None => starts_used R end.

Let s1 := set_kh_mem (cleared s b) s.

(** Other blocks read the same before and after the flag of [b] is cleared. *)
Lemma cleared_other bs1 bs2 c :
  L ++ option_list op ++ b :: option_list on ++ R = bs1 ++ b :: bs2 -> c ∈ bs1 ++ bs2 ->
  blk_ok (cleared s b) c /\ 24 <= b_size c /\ b_addr c mod 4 = 0 /\ b_size c mod 4 = 0 /\
  KERNEL_VIRT_OFFSET <= b_addr c /\ b_addr c + b_size c <= kheap_end s /\ kheap_start s <= b_addr c.
Proof.
  intros E Hc. pose proof H_inv as H. rewrite E in H.
  pose proof (hi_shape _ _ _ H) as Hsh. destruct (Hsh) as [_ _ Hco Hs].
  destruct (contig_order _ _ _ _ _ c Hco Hs) as [H1 H2].
  destruct (shape_block _ _ _ Hsh c ltac:(set_solver)) as (? & ? & ? & ? & ? & ? & ?).
  destruct (shape_block _ _ _ Hsh b ltac:(set_solver)) as (? & ? & ? & ? & ? & ? & ?).
  pose proof (hi_blocks _ _ _ H) as Hbl. rewrite Forall_forall in Hbl.
  split; [|lia]. apply (blk_ok_ext (kh_mem s)); [|apply Hbl; set_solver].
  intros a Ha. apply rd_wr_ne. apply elem_of_app in Hc as [Hc|Hc]; [specialize (H1 Hc) | specialize (H2 Hc)]; lia.
Qed.

Lemma block_facts : 24 <= b_size b /\ b_addr b mod 4 = 0 /\ b_size b mod 4 = 0 /\
  KERNEL_VIRT_OFFSET <= kheap_start s /\ kheap_start s <= b_addr b /\
  b_addr b + b_size b <= kheap_end s /\ kheap_end s <= 4026531840 /\
  rd (cleared s b) (b_addr b) = b_size b.
Proof.
  destruct (shape_block _ _ _ (hi_shape _ _ _ H_inv) b ltac:(set_solver)) as (? & ? & ? & ? & ? & ? & ?).
  pose proof (hi_blocks _ _ _ H_inv) as Hbl. rewrite Forall_forall in Hbl.
  destruct (Hbl b ltac:(set_solver)) as (_ & _ & Hrs & _).
  repeat (split; [done|]). unfold cleared. by rewrite rd_wr_ne by lia.
Qed.

Lemma next_free_of_wp :
  wp (next_free_of (b_addr b)) (fun r t => t = s1 /\ r.2 = (match on with Some _ => true | None => false end) /\
    forall n, on = Some n -> r.1 = b_addr n) s1.
Proof.
  destruct block_facts as (? & ? & ? & ? & ? & ? & ? & Hrs). unfold next_free_of, hdr_size.
  wp_steps. apply load32_wp; [subst s1; cbn; valid_solve|]. wp_steps. subst s1. cbn [kh_mem set_kh_mem kheap_end].
  rewrite Hrs, u32_id by (unfold is_u32, KERNEL_VIRT_OFFSET in *; lia).
  assert (exists l, option_list on ++ R = l) as [[|n R'] E] by eauto.
  - assert (b_addr b + b_size b = kheap_end s) as Hend.
    { destruct (hi_shape _ _ _ H_inv) as [_ _ Hc _]. rewrite app_assoc, ?E in Hc.
      apply contig_app in Hc as (z & _ & [? ?]). simpl in *. lia. }
    destruct on; [done|]. rewrite Hend, Z.ltb_irrefl. wp_steps. done.
  - edestruct (cleared_other (L ++ option_list op) (n :: R') n) as ((_ & _ & _ & Hfl & _) & ? & ? & ? & ? & ? & ?);
      [by rewrite <- app_assoc, E | set_solver |].
    assert (b_addr b + b_size b = b_addr n) as Hn.
    { destruct (hi_shape _ _ _ H_inv) as [_ _ Hc _]. rewrite app_assoc, ?E in Hc.
      apply contig_app in Hc as (z & _ & (? & ? & _)). lia. }
    rewrite Hn. replace (b_addr n <? kheap_end s) with true by lia. wp_steps.
    unfold hdr_flags. rewrite u32_id by (unfold is_u32, KERNEL_VIRT_OFFSET in *; lia).
    apply load32_wp; [valid_solve|]. wp_steps. cbn [kh_mem set_kh_mem].
    unfold KHEAP_FLAG_ALLOC. rewrite MASK_TEST_bit, Hfl by lia. split; [done|].
    destruct on as [n'|]; simpl in E.
    + injection E as <- <-. rewrite H_on. split; [done|]. by intros ? [= ->].
    + rewrite (H_on n R' E). split; [done|]. done.
Qed.

Lemma prev_free_of_wp :
  wp (prev_free_of (b_addr b)) (fun r t => t = s1 /\ r.2 = (match op with Some _ => true | None => false end) /\
    forall p, op = Some p -> r.1 = b_addr p) s1.
Proof.
  destruct block_facts as (? & ? & ? & ? & ? & ? & ? & Hrs). unfold prev_free_of.
  wp_steps. subst s1. cbn [kheap_start set_kh_mem].
  destruct (snoc_or_nil (L ++ option_list op)) as [E|(L' & p & E)].
  - assert (b_addr b = kheap_start s) as Hst.
    { destruct (hi_shape _ _ _ H_inv) as [_ _ Hc _]. rewrite app_assoc, ?E in Hc. by destruct Hc. }
    rewrite Hst, Z.eqb_refl. wp_steps. destruct op; [by destruct L|]. done.
  - edestruct (cleared_other (L ++ option_list op) (option_list on ++ R) p) as ((_ & _ & _ & Hfl & Hft) & ? & ? & ? & ? & ? & ?);
      [by rewrite <- app_assoc | rewrite E; set_solver |].
    assert (b_addr p + b_size p = b_addr b) as Hp.
    { destruct (hi_shape _ _ _ H_inv) as [_ _ Hc _]. rewrite app_assoc, ?E, <- app_assoc in Hc.
      apply contig_app in Hc as (z & _ & (? & ? & _)). lia. }
    replace (b_addr b =? kheap_start s) with false by lia. cbn [negb]. wp_steps.
    unfold sizeof_kheap_footer. rewrite u32_id by (unfold is_u32, KERNEL_VIRT_OFFSET in *; lia).
    apply load32_wp; [valid_solve|]. wp_steps. cbn [kh_mem set_kh_mem].
    replace (b_addr b - 4) with (b_addr p + b_size p - 4) by lia. rewrite Hft.
    replace (b_addr b - b_size p) with (b_addr p) by lia. unfold hdr_flags.
    rewrite (u32_id (b_addr p)) by (unfold is_u32, KERNEL_VIRT_OFFSET in *; lia).
    rewrite u32_id by (unfold is_u32, KERNEL_VIRT_OFFSET in *; lia).
    apply load32_wp; [valid_solve|]. wp_steps. cbn [kh_mem set_kh_mem].
    unfold KHEAP_FLAG_ALLOC. rewrite MASK_TEST_bit, Hfl by lia. split; [done|].
    destruct op as [p'|].
    + apply app_inj_tail in E as [_ ->]. rewrite H_op. split; [done|]. by intros ? [= ->].
    + simpl in E. rewrite app_nil_r in E. rewrite (H_op L' p E). done.
Qed.
End Neighbours.

(** The outcome of freeing [b]: it is merged with its free neighbours, and no
    other payload changes. *)
Definition kfree_post (s : kheap) (bs1 bs2 : list blk) (b : blk) (s' : kheap) : Prop :=
  exists L op on R ns' m',
    bs1 = L ++ option_list op /\ bs2 = option_list on ++ R /\
    match op with Some p => b_used p = false | None => True end /\
    match on with Some n => b_used n = false | None => True end /\
    s' = set_kh_mem m' s /\ heap_inv s' (L ++ merged b op on :: R) ns' /\
    forall a, client_addr s (bs1 ++ bs2) a -> rd m' a = rd (kh_mem s) a.

Lemma client_addr_free s L op on R a :
  match op with Some p => b_used p = false | None => True end ->
  match on with Some n => b_used n = false | None => True end ->
  client_addr s ((L ++ option_list op) ++ option_list on ++ R) a -> client_addr s (L ++ R) a.
Proof.
  intros Hop Hon [Ha|(c & Hc & Hu & Ha)]; [by left|]. right. exists c. split; [|done].
  destruct op as [p|], on as [n|]; rewrite !elem_of_app in *; simpl in Hc;
    rewrite ?list_elem_of_singleton, ?elem_of_nil in Hc; destruct_or? Hc; subst; tauto || congruence.
Qed.

Lemma coalesce_wp s L op b on R ns prev_hdr next_hdr :
  heap_inv s (L ++ option_list op ++ b :: option_list on ++ R) ns -> b_used b = true ->
  match op with Some p => b_used p = false /\ prev_hdr = b_addr p | None => ends_used L end ->
  match on with Some n => b_used n = false /\ next_hdr = b_addr n | None => starts_used R end ->
  wp (coalesce (b_addr b) prev_hdr next_hdr (match op with Some _ => true | None => false end)
        (match on with Some _ => true | None => false end))
    (fun _ m' => exists ns', coalesced_to s L R (L ++ merged b op on :: R) ns' m') (cleared s b).
Proof.
  intros H Hu Hop Hon.
  assert (forall n, on = Some n -> exists pre post, ns = pre ++ node_of n :: post) as Hns.
  { intros n ->. destruct Hon as [Hn _]. apply list_elem_of_split. rewrite (hi_nodes _ _ _ H).
    apply elem_of_free_nodes. exists n. split; [set_solver | done]. }
  destruct op as [p|], on as [n|]; simpl in H;
    try (destruct (Hns n eq_refl) as (pre & post & ->)); try destruct Hop as [Hop ->];
    try destruct Hon as [Hon ->].
  - wp_use coalesce_both; [done | exact H | done | done |]. eauto.
  - wp_use coalesce_prev; [done | exact H | done | done |]. eauto.
  - wp_use coalesce_next; [done | exact H | done | done |]. eauto.
  - wp_use coalesce_none; [done | exact H | done | done |]. eauto.
Qed.

Lemma kfree_wp s bs1 b bs2 ns :
  heap_inv s (bs1 ++ b :: bs2) ns -> b_used b = true ->
  b_addr b + 16 < kheap_end s - 24 ->
  wp (kfree (b_addr b + 16)) (fun r s' => r = KERR_OK /\ kfree_post s bs1 bs2 b s') s.
Proof.
  intros H Hu Hlast. destruct (split_left bs1) as (L & op & -> & Hop).
  destruct (split_right bs2) as (on & R & -> & Hon). rewrite <- app_assoc in H.
  destruct (block_facts s L R b op on ns H) as (? & ? & ? & ? & ? & ? & ? & Hrs); [done..|].
  unfold kfree, NULL. replace (b_addr b + 16 =? 0) with false by (unfold KERNEL_VIRT_OFFSET in *; lia).
  wp_steps. change KHEAP_MIN_BLOCK_SIZE with 24. unfold sizeof_kheap_header.
  rewrite !u32_id by (unfold is_u32, KERNEL_VIRT_OFFSET in *; lia).
  replace ((b_addr b + 16 <? kheap_start s + 16) || (kheap_end s - 24 <=? b_addr b + 16)) with false by lia.
  replace ((b_addr b + 16) mod 4 =? 0) with true by dlia. cbn [negb].
  replace (b_addr b + 16 - 16) with (b_addr b) by lia.
  wp_steps. unfold hdr_flags. rewrite u32_id by (unfold is_u32, KERNEL_VIRT_OFFSET in *; lia).
  apply load32_wp; [valid_solve|]. rewrite set_kh_mem_id.
  pose proof (hi_blocks _ _ _ H) as Hbl. rewrite Forall_forall in Hbl.
  destruct (Hbl b ltac:(set_solver)) as (_ & _ & _ & Hfl & _).
  unfold KHEAP_FLAG_ALLOC at 1. rewrite MASK_TEST_bit, Hfl, Hu by lia. cbn [negb]. wp_steps.
  unfold set_hdr_flags. rewrite u32_id by (unfold is_u32, KERNEL_VIRT_OFFSET in *; lia).
  apply store32_wp; [valid_solve|]. fold (cleared s b).
  wp_steps. wp_use next_free_of_wp; [exact H | done | done|]. intros [next_hdr nf] ? (-> & Hnf & Hnext).
  wp_steps. wp_use prev_free_of_wp; [exact H | done | done|]. intros [prev_hdr pf] ? (-> & Hpf & Hprev).
  wp_steps. cbn [fst snd] in *. subst nf pf. cbn [kh_mem set_kh_mem].
  wp_use (coalesce_wp s L op b on R ns); [done | done | | |].
  { destruct op; auto. }
  { destruct on; auto. }
  intros [] m' (ns' & Hinv & Hfr). wp_steps. split; [done|].
  exists L, op, on, R, ns', m'. split; [done|]. split; [done|].
  assert (match op with Some p => b_used p = false | None => True end) by by destruct op.
  assert (match on with Some n => b_used n = false | None => True end) by by destruct on.
  repeat (split; [done|]). intros a Ha. apply Hfr. by apply (client_addr_free s L op on R).
Qed.

(** Pointers [kfree] refuses: NULL, outside the window it accepts, unaligned, or
    with a header whose allocation flag is clear. *)
Lemma kfree_reject_wp s ptr :
  KERNEL_VIRT_OFFSET <= kheap_start s -> kheap_end s <= 4026531840 -> kheap_start s <= kheap_end s ->
  is_u32 ptr ->
  ptr = NULL \/ ptr < kheap_start s + 16 \/ kheap_end s - 24 <= ptr \/ ptr mod 4 <> 0 \/
    Z.testbit (rd (kh_mem s) (ptr - 12)) 0 = false ->
  wp (kfree ptr) (fun r s' => r = - KERR_INVAL /\ s' = s) s.
Proof.
  intros H1 H2 H3 Hp Hc. unfold kfree, NULL in *. destruct (Z.eqb_spec ptr 0); [cbn [orb]; by wp_steps|].
  wp_steps. change KHEAP_MIN_BLOCK_SIZE with 24. unfold sizeof_kheap_header.
  rewrite (u32_id (kheap_start s + 16)), (u32_id (kheap_end s - 24))
    by (unfold is_u32, KERNEL_VIRT_OFFSET in *; lia).
  destruct (Z.ltb_spec ptr (kheap_start s + 16)); [cbn [orb]; by wp_steps|].
  destruct (Z.leb_spec (kheap_end s - 24) ptr); [cbn [orb]; by wp_steps|]. cbn [orb].
  destruct (Z.eqb_spec (ptr mod 4) 0); [cbn [negb] | cbn [negb]; by wp_steps].
  unfold hdr_flags. rewrite (u32_id (ptr - 16)), u32_id by (unfold is_u32, KERNEL_VIRT_OFFSET in *; lia).
  replace (ptr - 16 + 4) with (ptr - 12) by lia.
  wp_steps. apply load32_wp; [valid_solve|]. rewrite set_kh_mem_id.
  unfold KHEAP_FLAG_ALLOC at 1. rewrite MASK_TEST_bit by lia.
  destruct Hc as [?|[?|[?|[?|Hc]]]]; [lia..|]. rewrite Hc. cbn [negb]. by wp_steps.
Qed.

(** ** Initialisation *)

Section Init.
Context {A : Type} `{FrameAllocatorLaws A}.

Lemma kheap_init_wp k a :
  fa_ok a -> node_ok kheap_free_list -> kheap_free_list < KERNEL_VIRT_OFFSET + KERNEL_LOWMEM_LIMIT ->
  (forall j, j = (kheap_free_list - KERNEL_VIRT_OFFSET) / 4096 \/
             j = (kheap_free_list + 7 - KERNEL_VIRT_OFFSET) / 4096 -> fa_used a j = true) ->
  wp kheap_init (fun r st =>
    (r < 0 /\ st = (k, a)) \/
    (r = KERR_OK /\ exists f,
       f + 256 <= Z.min LOWMEM_FRAMES (fa_total a) /\
       kheap_start st.1 = f * 4096 + KERNEL_VIRT_OFFSET /\ kheap_end st.1 = kheap_start st.1 + 1048576 /\
       heap_inv st.1 [mk_blk (kheap_start st.1) 1048576 false] [kheap_start st.1 + 8] /\
       fa_ok st.2 /\ (forall j, 0 <= j -> fa_used st.2 j = ((f <=? j) && (j <? f + 256)) || fa_used a j) /\
       0 <= f /\ (forall j, f <= j < f + 256 -> fa_used a j = false) /\ fa_total st.2 = fa_total a /\
       (forall c, ~ kheap_start st.1 <= c < kheap_end st.1 -> ~ kheap_free_list <= c < kheap_free_list + 8 ->
          rd (kh_mem st.1) c = rd (kh_mem k) c))) (k, a).
Proof.
  intros Hok Hsn Hsl Hsu. unfold kheap_init. wp_steps.
  wp_use fa_alloc_lowmem_wp; [done | unfold is_u32; lia|].
  intros [err|phys] a' Hpost; cbn [fa_alloc_post] in Hpost.
  { wp_steps. left. destruct Hpost as [-> He]. split; [unfold KERR_MAX_ERRNO in He; lia | done]. }
  destruct Hpost as (f & -> & _ & Hf & Hle & Hfree & Hok' & Ht & Hu).
  set (st := f * 4096 + KERNEL_VIRT_OFFSET).
  assert (PHYS_TO_VIRT (f * 4096) = st) as E.
  { apply PHYS_TO_VIRT_lowmem. unfold KERNEL_LOWMEM_LIMIT, LOWMEM_FRAMES in *. lia. }
  assert (KERNEL_VIRT_OFFSET <= st /\ st + 1048576 <= 4026531840 /\ st mod 4096 = 0) as (Hst1 & Hst2 & Hst3).
  { subst st. unfold LOWMEM_FRAMES, KERNEL_VIRT_OFFSET in *. dlia. }
  assert (kheap_free_list + 8 <= st \/ st + 1048576 <= kheap_free_list) as Hsep.
  { pose proof (Hsu _ (or_introl eq_refl)) as U1. pose proof (Hsu _ (or_intror eq_refl)) as U2.
    assert (forall j, fa_used a j = true -> ~ f <= j < f + 256) as Hnot.
    { intros j Hj Hr. rewrite Hfree in Hj by done. done. }
    apply Hnot in U1, U2. subst st. destruct Hsn as [[? [? ?]] [? ?]]. unfold KERNEL_VIRT_OFFSET in *. dlia. }
  wp_steps. unfold set_hdr_size, set_hdr_flags, sizeof_kheap_footer, free_node. cbn -[Z.mul list_init list_insert_front]. rewrite E.
  change (4096 * 256) with 1048576.
  rewrite !(u32_id (st + 1048576)) by (unfold is_u32, KERNEL_VIRT_OFFSET in *; lia).
  rewrite !u32_id by (unfold is_u32, KERNEL_VIRT_OFFSET in *; lia).
  apply store32_wp; [valid_solve|]. wp_steps. apply store32_wp; [valid_solve|]. wp_steps.
  cbn [kheap_end kheap_start kh_mem set_kh_mem set_kheap_end set_kheap_start].
  rewrite u32_id by (unfold is_u32, KERNEL_VIRT_OFFSET in *; lia).
  apply store32_wp; [valid_solve|]. wp_steps. apply list_init_wp; [done|]. intros m1 Hd1 Hf1. wp_steps.
  assert (forall y, y ∈ [kheap_free_list] -> apart (st + 8) y) as Hap.
  { intros y ->%list_elem_of_singleton. unfold apart. lia. }
  apply (list_insert_after_gap m1 kheap_free_list [] []);
    [done | unfold node_ok; split; valid_solve | exact Hap |].
  intros m2 Hd2 Hf2. wp_steps. right. split; [done|]. exists f.
  cbn [kheap_end kheap_start kh_mem set_kh_mem set_kheap_end set_kheap_start fst snd app] in *.
  assert (forall c, st <= c < st + 1048576 -> c <> st + 8 -> c <> st + 12 ->
            rd m2 c = rd (wr (wr (wr (kh_mem k) st 1048576) (st + 4) 0) (st + 1048576 - 4) 1048576) c) as Hrd.
  { intros c Hc ??. rewrite Hf2, Hf1; [done | |];
      intros (z & Hz & Hcz); rewrite ?elem_of_cons, ?elem_of_nil in Hz; lia. }
  split; [done|]. split; [done|]. split; [done|]. split; [|split; [done|]; split; [done|]; split; [done|]; split; [done|]; split; [done|]].
  2: { intros c Hc1 Hc2. rewrite Hf2, Hf1; [by mem_simp | |];
      intros (z & Hz & Hcz); rewrite ?elem_of_cons, ?elem_of_nil in Hz; lia. }
  split; cbn [kheap_end kheap_start kh_mem set_kh_mem set_kheap_end set_kheap_start]; [|  | done | done | done].
  - split; [dlia | by split | simpl; lia |]. by repeat constructor.
  - rewrite Forall_cons, Forall_nil. unfold blk_ok. cbn [b_addr b_size b_used].
    rewrite !Hrd by lia. mem_simp. done.
Qed.
End Init.

(** ** The dump *)

Definition count_blocks (u : bool) (bs : list blk) : Z :=
  foldr (fun b n => (if Bool.eqb (b_used b) u then 1 else 0) + n) 0 bs.
Definition count_bytes (u : bool) (bs : list blk) : Z :=
  foldr (fun b n => (if Bool.eqb (b_used b) u then b_size b else 0) + n) 0 bs.

Definition dump_of (d : heap_dump) (bs : list blk) : heap_dump :=
  mk_dump (dump_lines d ++ map (fun b => (b_addr b, b_size b, b_used b)) bs)
    (total_blocks d + Z.of_nat (length bs))
    (allocated_blocks d + count_blocks true bs) (free_blocks d + count_blocks false bs)
    (allocated_bytes d + count_bytes true bs) (free_bytes d + count_bytes false bs)
    (dump_free_list d).

(** The counters of [d] leave room for [n] more. *)
Definition dump_room (d : heap_dump) (n : Z) : Prop :=
  Forall (fun c => 0 <= c /\ c + n < 4294967296)
    [total_blocks d; allocated_blocks d; free_blocks d; allocated_bytes d; free_bytes d].

Lemma dump_of_cons d b bs n : dump_room d n -> 24 <= b_size b <= n ->
  dump_of (dump_add (b_addr b) (b_size b) (b_used b) d) bs = dump_of d (b :: bs) /\
  dump_room (dump_add (b_addr b) (b_size b) (b_used b) d) (n - b_size b).
Proof.
  unfold dump_room, dump_of, dump_add. rewrite !Forall_cons, !Forall_nil. intros (? & ? & ? & ? & ? & _) Hb.
  destruct (b_used b) eqn:E; cbn [dump_lines total_blocks allocated_blocks free_blocks allocated_bytes
    free_bytes dump_free_list count_blocks count_bytes foldr length map]; rewrite E;
    rewrite !u32_id by (unfold is_u32; lia); cbn [Bool.eqb];
    (split; [rewrite <- app_assoc; f_equal; fold (count_blocks true bs) (count_blocks false bs)
               (count_bytes true bs) (count_bytes false bs); lia | lia]).
Qed.

Lemma dump_blocks_wp m e : forall bs fuel a d (Q : heap_dump -> mem -> Prop),
  contig a bs e -> Forall (blk_ok m) bs -> KERNEL_VIRT_OFFSET <= a -> e <= 4026531840 -> a mod 4 = 0 ->
  (length bs < fuel)%nat -> dump_room d (e - a) -> Q (dump_of d bs) m ->
  wp (dump_blocks fuel e a d) Q m.
Proof.
  induction bs as [|b bs IH]; intros fuel a d Q Hc Hbl Ha He Ha4 Hfuel Hroom HQ;
    (destruct fuel as [|fuel]; [simpl in Hfuel; lia|]); cbn [dump_blocks].
  - simpl in Hc. subst. rewrite Z.ltb_irrefl. apply wp_ret. revert HQ. unfold dump_of.
    cbn. rewrite !Z.add_0_r, app_nil_r. by destruct d.
  - destruct Hc as [<- Hc]. apply Forall_cons in Hbl as [(H24 & H4 & Hs & Hf & _) Hbl].
    assert (Forall (fun b => 24 <= b_size b /\ b_size b mod 4 = 0) bs) as Hsz
      by (eapply Forall_impl; [exact Hbl|]; intros ? (? & ? & _); done).
    destruct (contig_bounds _ _ _ b Hc Hsz) as [Hle _].
    replace (b_addr b <? e) with true by lia. wp_steps. unfold hdr_flags, hdr_size.
    rewrite u32_id by (unfold is_u32, KERNEL_VIRT_OFFSET in *; lia).
    apply load32_wp; [valid_solve|]. wp_steps. apply load32_wp; [valid_solve|].
    rewrite Hs. unfold KHEAP_FLAG_ALLOC. rewrite MASK_TEST_bit, Hf by lia.
    rewrite u32_id by (unfold is_u32, KERNEL_VIRT_OFFSET in *; lia).
    destruct (dump_of_cons d b bs (e - b_addr b) Hroom ltac:(lia)) as [E Hroom'].
    apply IH; [done | done | lia | done | dlia | simpl in Hfuel; lia | | by rewrite E].
    by replace (e - (b_addr b + b_size b)) with (e - b_addr b - b_size b) by lia.
Qed.

Lemma dump_nodes_wp m bs st e : forall ns2 ns1 fuel d (Q : heap_dump -> mem -> Prop),
  dll m kheap_free_list (ns1 ++ ns2) -> heap_shape st e bs ->
  (forall x, x ∈ ns2 -> exists b, b ∈ bs /\ x = node_of b) ->
  (length ns2 < fuel)%nat ->
  Q (mk_dump (dump_lines d) (total_blocks d) (allocated_blocks d) (free_blocks d) (allocated_bytes d)
       (free_bytes d) (dump_free_list d ++ map (fun x => (x - 8, rd m (x - 8))) ns2)) m ->
  wp (dump_nodes fuel (after_gap kheap_free_list ns2) d) Q m.
Proof.
  induction ns2 as [|x ns2 IH]; intros ns1 fuel d Q Hd Hsh Hns Hfuel HQ;
    (destruct fuel as [|fuel]; [simpl in Hfuel; lia|]); cbn [dump_nodes after_gap hd].
  - rewrite Z.eqb_refl. apply wp_ret. simpl in HQ. rewrite app_nil_r in HQ. by destruct d.
  - pose proof (dll_apart _ _ _ Hd) as [Hap _]%nodes_apart_cons. specialize (Hap x ltac:(set_solver)).
    destruct (Z.eqb_spec x kheap_free_list) as [->|_]; [unfold apart in Hap; lia|].
    destruct (Hns x ltac:(set_solver)) as (b & Hb & ->).
    destruct (shape_block _ _ _ Hsh b Hb) as (? & ? & ? & ? & ? & ? & ?).
    rewrite container_node_of by (unfold is_u32, KERNEL_VIRT_OFFSET in *; lia).
    wp_steps. unfold hdr_size, get_next. apply load32_wp; [valid_solve|]. wp_steps.
    apply load32_wp; [valid_solve|].
    assert (rd m (node_of b) = after_gap kheap_free_list ns2) as ->.
    { apply dll_gap in Hd as (Hr & _). apply (ring_mid _ _ _ (ns2 ++ removelast (kheap_free_list :: ns1))) in Hr.
      destruct Hr as (_ & _ & -> & _). apply after_gap_spec. }
    apply (IH (ns1 ++ [node_of b])); [by rewrite <- app_assoc | done | set_solver | simpl in Hfuel; lia|].
    cbn [dump_add_free dump_lines total_blocks allocated_blocks free_blocks allocated_bytes free_bytes dump_free_list].
    rewrite <- app_assoc. cbn [map app] in *. unfold node_of at 1 2 in HQ.
    by replace (b_addr b + 8 - 8) with (b_addr b) in HQ by lia.
Qed.

Lemma count_bytes_total a bs e : contig a bs e -> count_bytes true bs + count_bytes false bs = e - a.
Proof.
  unfold count_bytes. revert a. induction bs as [|b bs IH]; intros a Hc; simpl in *; [lia|].
  destruct Hc as [<- Hc]. specialize (IH _ Hc). destruct (b_used b); simpl in *; lia.
Qed.

Lemma kheap_dump_wp s bs ns :
  heap_inv s bs ns ->
  wp kheap_dump (fun d s' => s' = s /\
    dump_lines d = map (fun b => (b_addr b, b_size b, b_used b)) bs /\
    total_blocks d = Z.of_nat (length bs) /\
    allocated_blocks d = count_blocks true bs /\ free_blocks d = count_blocks false bs /\
    allocated_bytes d = count_bytes true bs /\ free_bytes d = count_bytes false bs /\
    dump_free_list d = map (fun x => (x - 8, rd (kh_mem s) (x - 8))) ns) s.
Proof.
  intros H. pose proof (hi_shape _ _ _ H) as Hsh. destruct (Hsh) as [(H1 & H2 & H3) _ Hc Hs].
  destruct (kheap_fuel_enough _ _ _ H) as [Hf1 Hf2]. pose proof (contig_length _ _ _ Hc Hs).
  unfold kheap_dump. wp_steps.
  apply (dump_blocks_wp (kh_mem s) (kheap_end s) bs); [done | apply (hi_blocks _ _ _ H) | done | done | done | done | |].
  { unfold dump_room. cbn. unfold KERNEL_VIRT_OFFSET in *. repeat constructor; lia. }
  destruct (dll_node_ok _ _ _ kheap_free_list (hi_list _ _ _ H) ltac:(set_solver)) as [Hv _].
  wp_steps. unfold get_next. rewrite set_kh_mem_id. apply load32_wp; [done|]. wp_steps. rewrite set_kh_mem_id.
  destruct (dll_ends _ _ _ (hi_list _ _ _ H)) as [-> _].
  apply (dump_nodes_wp (kh_mem s) bs (kheap_start s) (kheap_end s) ns []); [apply (hi_list _ _ _ H) | done | | done |].
  { intros x Hx. rewrite (hi_nodes _ _ _ H) in Hx. apply elem_of_free_nodes in Hx as (b & ? & _ & ?). eauto. }
  rewrite set_kh_mem_id. split; [done|]. cbn. done.
Qed.
End Kheap.
