(* ===== verification/KheapClient.v ===== *)
(** * Properties of the kernel heap

    The theorems on [kheap_init], [kmalloc], [kfree] and [kheap_dump] proved from
    the lemmas of [Kheap], and the theorem on the live pointers of a client that
    makes any sequence of calls. *)

From stdpp Require Import relations.
From S2P Require Import Prelude Base Memory KList Bitmap Pmm Frames Kheap.

(** ** Clients of the heap *)

(** A live pointer with the number of bytes asked for. *)
Abbreviation live := (Z * Z)%type.

Section Client.
Variable kheap_free_list : Z.

(** One action of a client: it allocates, frees a pointer it holds, or writes a
    word of a payload it holds. *)
Inductive heap_step : kheap * list live -> kheap * list live -> Prop :=
| step_kmalloc s s' L size p :
    0 <= size <= 4294967272 -> kmalloc kheap_free_list size s = Some (p, s') ->
    KERR_PTR_IS_ERR p = false -> heap_step (s, L) (s', (p, size) :: L)
| step_kmalloc_fails s s' L size p :
    0 <= size <= 4294967272 -> kmalloc kheap_free_list size s = Some (p, s') ->
    KERR_PTR_IS_ERR p = true -> heap_step (s, L) (s', L)
| step_kfree s s' L1 L2 p size r :
    p < kheap_end s - 24 -> kfree kheap_free_list p s = Some (r, s') ->
    heap_step (s, L1 ++ (p, size) :: L2) (s', L1 ++ L2)
| step_write s L p size a v :
    (p, size) ∈ L -> a mod 4 = 0 -> p <= a -> a + 4 <= p + size ->
    heap_step (s, L) (set_kh_mem (wr (kh_mem s) a v) s, L).

Definition used_blocks (bs : list blk) : list blk := List.filter b_used bs.

(** The pointer [l] points to the payload of [b], which is at most 46 bytes larger than
    the request: header and footer, alignment, and a rest too small for a block. *)
Definition owns (l : live) (b : blk) : Prop :=
  l.1 = b_addr b + 16 /\ 0 < l.2 /\ l.2 + 20 <= b_size b <= l.2 + 46.

Definition client_inv (st : kheap * list live) : Prop :=
  exists bs ns us, heap_inv kheap_free_list st.1 bs ns /\
    us ≡ₚ used_blocks bs /\ Forall2 owns st.2 us.

Lemma used_blocks_app bs1 bs2 : used_blocks (bs1 ++ bs2) = used_blocks bs1 ++ used_blocks bs2.
Proof. apply List.filter_app. Qed.

Lemma elem_of_used bs b : b ∈ used_blocks bs <-> b ∈ bs /\ b_used b = true.
Proof. unfold used_blocks. rewrite !list_elem_of_In. apply filter_In. Qed.

Lemma block_ptr_not_err s bs ns b :
  heap_inv kheap_free_list s bs ns -> b ∈ bs -> KERR_PTR_IS_ERR (b_addr b + 16) = false.
Proof.
  intros H Hb. destruct (shape_block _ _ _ _ (hi_shape _ _ _ _ H) b Hb) as (? & ? & ? & ? & ? & ? & ?).
  apply lowmem_not_err. unfold KERNEL_LOWMEM_LIMIT, KERNEL_VIRT_OFFSET in *. lia.
Qed.

Lemma client_kmalloc s L size p s' :
  client_inv (s, L) -> 0 <= size <= 4294967272 -> kmalloc kheap_free_list size s = Some (p, s') ->
  client_inv (s', if KERR_PTR_IS_ERR p then L else (p, size) :: L).
Proof.
  intros (bs & ns & us & H & Hus & HL) Hsize Hr.
  pose proof (run_wp _ _ _ _ _ (kmalloc_wp kheap_free_list s bs ns size H Hsize) Hr) as Hpost.
  destruct Hpost as [(_ & -> & ->)|[(_ & -> & -> & _)|(Hpos & bs1 & b & bs2 & pre & post & m' & -> & -> &
    Hu & Hneed & _ & -> & -> & Hinv & _)]].
  - change (KERR_PTR_IS_ERR _) with true. by exists bs, ns, us.
  - change (KERR_PTR_IS_ERR _) with true. by exists bs, ns, us.
  - rewrite (block_ptr_not_err s _ _ b H) by set_solver.
    set (b' := mk_blk (b_addr b) (if 24 <=? b_size b - block_need size then block_need size else b_size b) true).
    eexists _, _, (b' :: us). split; [exact Hinv|]. split.
    + rewrite Hus, !used_blocks_app. unfold alloc_blocks, used_blocks. cbn [List.filter]. rewrite Hu.
      subst b'. destruct (24 <=? _); cbn [List.filter b_used app]; by rewrite Permutation_middle.
    + constructor; [|done]. unfold owns. subst b'. cbn [fst snd b_addr b_size].
      split; [done|]. split; [done|]. unfold block_need in *. case_match; dlia.
Qed.

Lemma client_kfree s L1 L2 p size r s' :
  client_inv (s, L1 ++ (p, size) :: L2) -> p < kheap_end s - 24 ->
  kfree kheap_free_list p s = Some (r, s') -> r = KERR_OK /\ client_inv (s', L1 ++ L2).
Proof.
  intros (bs & ns & us & H & Hus & HL) Hp Hr. cbn [fst snd] in *.
  apply Forall2_app_inv_l in HL as (us1 & us' & HL1 & HL' & ->).
  apply Forall2_cons_inv_l in HL' as (b & us2 & (Hpb & Hsz & Hsz') & HL2 & ->). cbn [fst snd] in *. subst p.
  assert (b ∈ bs /\ b_used b = true) as [Hb Hu] by (apply elem_of_used; rewrite <- Hus; set_solver).
  apply list_elem_of_split in Hb as (bs1 & bs2 & ->).
  pose proof (run_wp _ _ _ _ _ (kfree_wp kheap_free_list s bs1 b bs2 ns H Hu Hp) Hr)
    as [-> (L & op & on & R & ns' & m' & -> & -> & Hop & Hon & -> & Hinv & _)].
  split; [done|]. exists (L ++ merged b op on :: R), ns', (us1 ++ us2).
  split; [done|]. split; [|by apply Forall2_app].
  rewrite !used_blocks_app in *. cbn [used_blocks List.filter merged b_used] in *. rewrite Hu in Hus.
  rewrite <- !Permutation_middle in Hus. apply Permutation_cons_inv in Hus. rewrite Hus.
  fold (used_blocks (option_list on ++ R)) (used_blocks R). rewrite used_blocks_app.
  assert (used_blocks (option_list op) = []) as -> by (destruct op; unfold used_blocks; simpl; by rewrite ?Hop).
  assert (used_blocks (option_list on) = []) as -> by (destruct on; unfold used_blocks; simpl; by rewrite ?Hon).
  by rewrite app_nil_r.
Qed.

Lemma client_write s L p size a v :
  client_inv (s, L) -> (p, size) ∈ L -> p <= a -> a + 4 <= p + size ->
  client_inv (set_kh_mem (wr (kh_mem s) a v) s, L).
Proof.
  intros (bs & ns & us & H & Hus & HL) Hin H1 H2. cbn [fst snd] in *.
  exists bs, ns, us. split; [|done]. cbn [fst].
  apply list_elem_of_split in Hin as (L1 & L2 & ->).
  apply Forall2_app_inv_l in HL as (us1 & us' & HL1 & HL' & ->).
  apply Forall2_cons_inv_l in HL' as (b & us2 & (Hpb & Hsz & Hsz') & HL2 & ->). cbn [fst snd] in *.
  assert (b ∈ bs /\ b_used b = true) as [Hb Hu] by (apply elem_of_used; rewrite <- Hus; set_solver).
  pose proof (hi_shape _ _ _ _ H) as Hsh. destruct (Hsh) as [_ _ Hc Hs].
  split; [done | | apply (hi_coalesced _ _ _ _ H) | | apply (hi_nodes _ _ _ _ H)]; cbn [kh_mem set_kh_mem].
  - pose proof (hi_blocks _ _ _ _ H) as Hbl. rewrite Forall_forall in Hbl |- *. intros c Hcb.
    apply (blk_ok_ext (kh_mem s)); [|by apply Hbl]. intros x Hx. apply rd_wr_ne.
    destruct (shape_block _ _ _ _ Hsh c Hcb) as (? & _).
    destruct (contig_sep _ _ _ b c Hc Hs Hb Hcb) as [<-|]; lia.
  - apply (dll_ext (kh_mem s)); [|apply (hi_list _ _ _ _ H)]. intros x Hx. apply rd_wr_ne. intros <-.
    revert Hx. apply (inside_not_node kheap_free_list _ _ _ Hsh _ b); [|done | lia..].
    intros y. by apply (heap_nodes kheap_free_list s).
Qed.

Lemma client_step_inv st st' : heap_step st st' -> client_inv st -> client_inv st'.
Proof.
  intros Hstep Hinv. destruct Hstep as [s s' L size p Hs Hr He|s s' L size p Hs Hr He|s s' L1 L2 p size r Hp Hr|].
  - pose proof (client_kmalloc _ _ _ _ _ Hinv Hs Hr) as Hc. by rewrite He in Hc.
  - pose proof (client_kmalloc _ _ _ _ _ Hinv Hs Hr) as Hc. by rewrite He in Hc.
  - by apply (client_kfree _ _ _ _ _ _ _ Hinv Hp Hr).
  - by eapply client_write.
Qed.

Lemma client_steps_inv st st' : rtc heap_step st st' -> client_inv st -> client_inv st'.
Proof. induction 1; eauto using client_step_inv. Qed.

(** Payloads of live pointers do not overlap. *)
Definition disjoint (l l' : live) : Prop := l.1 + l.2 <= l'.1 \/ l'.1 + l'.2 <= l.1.

Lemma contig_NoDup a bs e :
  contig a bs e -> Forall (fun b => 24 <= b_size b /\ b_size b mod 4 = 0) bs -> NoDup bs.
Proof.
  revert a. induction bs as [|b bs IH]; intros a Hc Hs; [constructor|].
  destruct Hc as [<- Hc]. apply Forall_cons in Hs as [Hb Hs]. constructor; [|by eapply IH].
  intros Hin. destruct (contig_bounds _ _ _ b Hc Hs) as [_ H]. specialize (H Hin). lia.
Qed.

Lemma client_disjoint s L : client_inv (s, L) ->
  ForallOrdPairs disjoint L /\
  Forall (fun l => kheap_start s + 16 <= l.1 /\ l.1 + l.2 <= kheap_end s - 4 /\ l.1 mod 4 = 0) L.
Proof.
  intros (bs & ns & us & H & Hus & HL). cbn [fst snd] in *.
  pose proof (hi_shape _ _ _ _ H) as Hsh. destruct (Hsh) as [_ _ Hc Hs].
  assert (Hin : forall b, b ∈ us -> b ∈ bs) by (intros b Hb; rewrite Hus in Hb; by apply elem_of_used in Hb as [? _]).
  assert (Hnd : NoDup us).
  { rewrite Hus. apply NoDup_ListNoDup, List.NoDup_filter, NoDup_ListNoDup. by eapply contig_NoDup. }
  clear Hus. induction HL as [|l b L us (H1 & H2 & H3) HL IH]; [split; constructor|].
  apply NoDup_cons in Hnd as [Hnb Hnd]. destruct IH as [IH1 IH2]; [set_solver | done|].
  destruct (shape_block _ _ _ _ Hsh b ltac:(set_solver)) as (? & ? & ? & ? & ? & ? & ?).
  split; constructor; [|done | dlia | done]. rewrite Forall_forall. intros l' Hl'.
  apply list_elem_of_split in Hl' as (L1 & L2 & ->).
  apply Forall2_app_inv_l in HL as (us1 & us' & _ & HL' & ->).
  apply Forall2_cons_inv_l in HL' as (c & us2 & (H1' & H2' & H3') & _ & ->).
  destruct (contig_sep _ _ _ b c Hc Hs ltac:(set_solver) ltac:(set_solver)) as [<-|Hsep]; [set_solver|].
  unfold disjoint. lia.
Qed.
End Client.

(** ** Properties *)

(** A machine with 288 frames, the first 32 of them in use. *)
Definition pmm_sample_288 : pmm := mk_pmm (mk_bitmap (4294967295 :: replicate 8 0) 288 9) 1179648 288 256.

Lemma pmm_sample_288_ok : pmm_ok pmm_sample_288.
Proof.
  split; [|by vm_compute]. split; [repeat constructor; unfold is_u32; lia|].
  unfold capacity; cbn. lia.
Qed.

(** An address for the sentinel, and a heap of 128 bytes with one free block. *)
Definition sentinel : Z := 3221225728.
Definition heap_sample : kheap :=
  match (list_init sentinel ;;; list_insert_front sentinel 3221233672 ;;;
         store32 3221233664 128 ;;; store32 3221233668 0 ;;; store32 3221233788 128) ∅ with
  | Some (_, m) => mk_kheap m 3221233664 3221233792
  | None => mk_kheap ∅ 0 0
  end.

Lemma heap_sample_ok : heap_inv sentinel heap_sample [mk_blk 3221233664 128 false] [3221233672].
Proof.
  split.
  - split.
    + vm_compute. repeat split; congruence.
    + vm_compute. repeat split; (congruence || (left; congruence)).
    + vm_compute. done.
    + by repeat constructor.
  - repeat constructor; by vm_compute.
  - done.
  - split; [|split].
    + vm_compute. done.
    + apply nodes_apart_cons. split; [|constructor; constructor].
      intros y ->%list_elem_of_singleton. unfold apart, sentinel. lia.
    + rewrite !Forall_cons, Forall_nil. unfold node_ok, valid, KERNEL_VIRT_OFFSET, sentinel. dlia.
  - done.
Qed.

(** [kheap_init] takes 256 frames below the LowMem limit that were free and
    makes them a well-formed heap with one free block of 1 MiB; when the frame
    allocator fails, its error is returned and nothing changes.  The static
    sentinel must lie in frames already in use, as the kernel image does. *)
Theorem kheap_init_correct (free_list : Z) (k : kheap) (a : pmm) :
  pmm_ok a -> node_ok free_list -> free_list < KERNEL_VIRT_OFFSET + KERNEL_LOWMEM_LIMIT ->
  frame_used a ((free_list - KERNEL_VIRT_OFFSET) / 4096) = true ->
  frame_used a ((free_list + 7 - KERNEL_VIRT_OFFSET) / 4096) = true ->
  exists r k' a', kheap_init free_list (k, a) = Some (r, (k', a')) /\
    ((r < 0 /\ k' = k /\ a' = a) \/
     (r = KERR_OK /\ exists f,
        f + 256 <= Z.min LOWMEM_FRAMES (pm_total_frames a) /\
        kheap_start k' = f * 4096 + KERNEL_VIRT_OFFSET /\ kheap_end k' = kheap_start k' + 1048576 /\
        heap_inv free_list k' [mk_blk (kheap_start k') 1048576 false] [kheap_start k' + 8] /\
        pmm_ok a' /\ forall j, 0 <= j -> frame_used a' j = ((f <=? j) && (j <? f + 256)) || frame_used a j)).
Proof.
  intros Ha Hn Hl Hu1 Hu2.
  assert (forall j, j = (free_list - KERNEL_VIRT_OFFSET) / 4096 \/
             j = (free_list + 7 - KERNEL_VIRT_OFFSET) / 4096 -> fa_used a j = true) as Hu
    by (intros j [-> | ->]; done).
  pose proof (kheap_init_wp free_list k a Ha Hn Hl Hu) as H.
  apply wp_run in H as (r & [k' a'] & Hrun & [[Hr [= -> ->]]|(-> & f & Hf)]).
  - exists r, k, a. auto.
  - exists KERR_OK, k', a'. split; [done|]. right. split; [done|]. exists f.
    destruct Hf as (H1 & H2 & H3 & H4 & H5 & H6 & _). auto 10.
Qed.

Lemma kheap_init_correct_witness :
  exists k' a', kheap_init sentinel (mk_kheap ∅ 0 0, pmm_sample_288) = Some (KERR_OK, (k', a')) /\
    heap_inv sentinel k' [mk_blk (kheap_start k') 1048576 false] [kheap_start k' + 8].
Proof.
  destruct (kheap_init_correct sentinel (mk_kheap ∅ 0 0) pmm_sample_288) as (r & k' & a' & Hr & H).
  - apply pmm_sample_288_ok.
  - unfold node_ok, valid, sentinel, KERNEL_VIRT_OFFSET. dlia.
  - unfold sentinel, KERNEL_VIRT_OFFSET, KERNEL_LOWMEM_LIMIT. lia.
  - vm_compute. reflexivity.
  - vm_compute. reflexivity.
  - assert (option_map fst (kheap_init sentinel (mk_kheap ∅ 0 0, pmm_sample_288)) = Some KERR_OK) as E
      by (vm_compute; reflexivity).
    rewrite Hr in E. injection E as ->.
    destruct H as [(Hneg & _)|(_ & f & _ & _ & _ & Hinv & _)]; [discriminate Hneg|].
    exists k', a'. split; [exact Hr | exact Hinv].
Defined.

(** C25. [kmalloc] is first fit over the free list.  On a well-formed heap, for a
    request of at most 2^32 - 24 bytes, it returns [-KERR_INVAL] for 0 bytes;
    [-KERR_NOMEM], with nothing changed, only when no free block is large enough;
    and otherwise the payload of the first free-list block that is, splitting it
    when the rest can hold a block.  The heap stays well formed and no allocated
    payload nor any memory outside the heap is written. *)
Theorem kmalloc_correct (free_list : Z) (s : kheap) (bs : list blk) (ns : list Z) (size : Z) :
  heap_inv free_list s bs ns -> 0 <= size <= 4294967272 ->
  exists r s', kmalloc free_list size s = Some (r, s') /\ kmalloc_post free_list s bs ns size r s' /\
    (forall a, client_addr free_list s bs a -> rd (kh_mem s') a = rd (kh_mem s) a).
Proof.
  intros H Hs. pose proof (kmalloc_wp free_list s bs ns size H Hs) as Hwp.
  apply wp_run in Hwp as (r & s' & Hrun & Hpost). exists r, s'. split; [done|]. split; [done|].
  destruct Hpost as [(_ & _ & ->)|[(_ & _ & -> & _)|(_ & bs1 & b & bs2 & pre & post & m' & -> & _ & Hu & _ & _ & _ & -> & _ & Hfr)]];
    [done..|]. intros a Ha. apply Hfr. apply (client_addr_free free_list s bs1 (Some b) None bs2); [done..|].
  simpl. by rewrite <- app_assoc.
Qed.

Lemma kmalloc_correct_witness :
  exists r s', kmalloc sentinel 10 heap_sample = Some (r, s') /\
    kmalloc_post sentinel heap_sample [mk_blk 3221233664 128 false] [3221233672] 10 r s'.
Proof.
  destruct (kmalloc_correct sentinel heap_sample [mk_blk 3221233664 128 false] [3221233672] 10)
    as (r & s' & H1 & H2 & _).
  - apply heap_sample_ok.
  - lia.
  - exists r, s'. split; [exact H1 | exact H2].
Defined.

(** C27. [kfree] of an allocated block whose payload starts more than 24 bytes
    before the end of the heap succeeds: the block is merged with the free
    neighbours on both sides, the heap stays well formed (so no two neighbours
    are free), and no other allocated payload nor memory outside the heap is
    written. *)
Theorem kfree_correct (free_list : Z) (s : kheap) (bs1 bs2 : list blk) (b : blk) (ns : list Z) :
  heap_inv free_list s (bs1 ++ b :: bs2) ns -> b_used b = true -> b_addr b + 16 < kheap_end s - 24 ->
  exists s', kfree free_list (b_addr b + 16) s = Some (KERR_OK, s') /\ kfree_post free_list s bs1 bs2 b s'.
Proof.
  intros H Hu Hl. pose proof (kfree_wp free_list s bs1 b bs2 ns H Hu Hl) as Hwp.
  apply wp_run in Hwp as (r & s' & Hrun & -> & Hpost). by exists s'.
Qed.

(** The sample heap after two allocations, and its blocks. *)
Definition heap_sample2 : kheap :=
  match (kmalloc sentinel 10 ;;; kmalloc sentinel 4) heap_sample with
  | Some (_, s) => s
  | None => heap_sample
  end.
Definition heap_sample2_blocks : list blk :=
  [mk_blk 3221233664 32 true; mk_blk 3221233696 24 true; mk_blk 3221233720 72 false].

Lemma heap_sample2_ok : heap_inv sentinel heap_sample2 heap_sample2_blocks [3221233728].
Proof.
  split.
  - split; [vm_compute; repeat split; congruence | | vm_compute; done | by repeat constructor].
    vm_compute. repeat split; (congruence || (left; congruence)).
  - repeat constructor; by vm_compute.
  - by vm_compute.
  - split; [|split].
    + vm_compute. done.
    + apply nodes_apart_cons. split; [|constructor; constructor].
      intros y ->%list_elem_of_singleton. unfold apart, sentinel. lia.
    + rewrite !Forall_cons, Forall_nil. unfold node_ok, valid, KERNEL_VIRT_OFFSET, sentinel. dlia.
  - done.
Qed.

Lemma kfree_correct_witness :
  exists s', kfree sentinel 3221233712 heap_sample2 = Some (KERR_OK, s') /\
    kfree_post sentinel heap_sample2 [mk_blk 3221233664 32 true] [mk_blk 3221233720 72 false]
      (mk_blk 3221233696 24 true) s'.
Proof.
  apply (kfree_correct sentinel heap_sample2 [mk_blk 3221233664 32 true] [mk_blk 3221233720 72 false]
           (mk_blk 3221233696 24 true) [3221233728]).
  - apply heap_sample2_ok.
  - reflexivity.
  - vm_compute. reflexivity.
Defined.

(** [kfree] refuses, with [-KERR_INVAL] and no effect, NULL, a pointer
    outside its window, an unaligned pointer, and the payload of a block that is
    already free. *)
Theorem kfree_rejects (free_list : Z) (s : kheap) (bs : list blk) (ns : list Z) (ptr : Z) :
  heap_inv free_list s bs ns -> kheap_start s + 40 <= kheap_end s -> is_u32 ptr ->
  ptr = NULL \/ ptr < kheap_start s + 16 \/ kheap_end s - 24 <= ptr \/ ptr mod 4 <> 0 \/
    (exists b, b ∈ bs /\ b_used b = false /\ ptr = b_addr b + 16) ->
  kfree free_list ptr s = Some (- KERR_INVAL, s).
Proof.
  intros H Hsz Hp Hc. destruct (hs_bounds _ _ _ _ (hi_shape _ _ _ _ H)) as (H1 & H2 & _).
  pose proof (kfree_reject_wp free_list s ptr H1 H2 ltac:(lia) Hp) as Hwp.
  assert (wp (kfree free_list ptr) (fun r s' => r = - KERR_INVAL /\ s' = s) s) as Hw.
  { apply Hwp. destruct Hc as [?|[?|[?|[?|(b & Hb & Hu & ->)]]]]; [tauto..|].
    right; right; right; right. pose proof (hi_blocks _ _ _ _ H) as Hbl. rewrite Forall_forall in Hbl.
    destruct (Hbl b Hb) as (_ & _ & _ & Hf & _).
    replace (b_addr b + 16 - 12) with (b_addr b + 4) by lia. congruence. }
  apply wp_run in Hw as (r & s' & Hrun & -> & ->). done.
Qed.

Lemma kfree_rejects_witness : kfree sentinel 3221233736 heap_sample2 = Some (- KERR_INVAL, heap_sample2).
Proof.
  apply (kfree_rejects sentinel heap_sample2 heap_sample2_blocks [3221233728]).
  - apply heap_sample2_ok.
  - vm_compute. congruence.
  - unfold is_u32. lia.
  - right; right; right; right. exists (mk_blk 3221233720 72 false). split; [|done].
    unfold heap_sample2_blocks. set_solver.
Defined.



(** [kheap_dump] changes nothing and reports the heap exactly: one line
    per block in address order, counters that match, byte counts that add up to
    the size of the heap, and the blocks of the free list. *)
Theorem kheap_dump_correct (free_list : Z) (s : kheap) (bs : list blk) (ns : list Z) :
  heap_inv free_list s bs ns ->
  exists d, kheap_dump free_list s = Some (d, s) /\
    dump_lines d = map (fun b => (b_addr b, b_size b, b_used b)) bs /\
    total_blocks d = Z.of_nat (length bs) /\
    allocated_blocks d = count_blocks true bs /\ free_blocks d = count_blocks false bs /\
    allocated_bytes d + free_bytes d = kheap_end s - kheap_start s /\
    map fst (dump_free_list d) ≡ₚ map b_addr (List.filter (fun b => negb (b_used b)) bs).
Proof.
  intros H. pose proof (kheap_dump_wp free_list s bs ns H) as Hwp.
  apply wp_run in Hwp as (d & s' & Hrun & -> & H1 & H2 & H3 & H4 & H5 & H6 & H7).
  exists d. repeat (split; [done|]). split.
  - rewrite H5, H6. apply count_bytes_total, (hs_contig _ _ _ _ (hi_shape _ _ _ _ H)).
  - rewrite H7, (hi_nodes _ _ _ _ H). clear. unfold free_nodes.
    induction bs as [|b bs IH]; [done|]. cbn [flat_map List.filter].
    destruct (b_used b); cbn [negb app map fst]; rewrite IH; [done|].
    unfold node_of. by replace (b_addr b + 8 - 8) with (b_addr b) by lia.
Qed.

Lemma kheap_dump_correct_witness :
  exists d, kheap_dump sentinel heap_sample2 = Some (d, heap_sample2) /\ total_blocks d = 3.
Proof.
  destruct (kheap_dump_correct sentinel heap_sample2 heap_sample2_blocks [3221233728] heap_sample2_ok)
    as (d & H1 & _ & H2 & _).
  exists d. split; [exact H1 | exact H2].
Defined.

(** A valid pointer [kfree] refuses: when the last block of the heap is
    allocated and has at most 40 bytes (a payload of at most 20), its payload
    starts at or after [kheap_end - KHEAP_MIN_BLOCK_SIZE] and the block can never
    be freed. *)
Theorem kfree_refuses_last_block (free_list : Z) (s : kheap) (bs : list blk) (b : blk) (ns : list Z) :
  heap_inv free_list s (bs ++ [b]) ns -> b_used b = true -> b_size b <= 40 ->
  kheap_start s + 40 <= kheap_end s ->
  kfree free_list (b_addr b + 16) s = Some (- KERR_INVAL, s).
Proof.
  intros H Hu Hsz Hheap. pose proof (hi_shape _ _ _ _ H) as Hsh.
  destruct (hs_bounds _ _ _ _ Hsh) as (H1 & H2 & _).
  destruct (shape_block _ _ _ _ Hsh b ltac:(set_solver)) as (? & ? & ? & ? & ? & ? & ?).
  assert (b_addr b + b_size b = kheap_end s) as Hend.
  { pose proof (hs_contig _ _ _ _ Hsh) as Hc. apply contig_app in Hc as (z & _ & [? ?]). simpl in *. lia. }
  assert (is_u32 (b_addr b + 16)) as Hp by (unfold is_u32, KERNEL_VIRT_OFFSET in *; lia).
  pose proof (kfree_reject_wp free_list s (b_addr b + 16) H1 H2 ltac:(lia) Hp) as Hwp.
  assert (wp (kfree free_list (b_addr b + 16)) (fun r s' => r = - KERR_INVAL /\ s' = s) s) as Hw
    by (apply Hwp; lia).
  apply wp_run in Hw as (r & s' & Hrun & -> & ->). done.
Qed.

(** The sample heap with its last 72 bytes taken by 40 and 32 byte blocks. *)
Definition heap_sample3 : kheap :=
  match (kmalloc sentinel 20 ;;; kmalloc sentinel 12) heap_sample2 with
  | Some (_, s) => s
  | None => heap_sample
  end.

Lemma heap_sample3_ok :
  heap_inv sentinel heap_sample3
    ([mk_blk 3221233664 32 true; mk_blk 3221233696 24 true; mk_blk 3221233720 40 true] ++
     [mk_blk 3221233760 32 true]) [].
Proof.
  split.
  - split; [vm_compute; repeat split; congruence | | vm_compute; done | by repeat constructor].
    vm_compute. repeat split; (congruence || (left; congruence)).
  - repeat constructor; by vm_compute.
  - by vm_compute.
  - split; [|split].
    + vm_compute. done.
    + constructor; constructor.
    + rewrite !Forall_cons, Forall_nil. unfold node_ok, valid, KERNEL_VIRT_OFFSET, sentinel. dlia.
  - done.
Qed.

Lemma kfree_refuses_last_block_witness :
  kfree sentinel 3221233776 heap_sample3 = Some (- KERR_INVAL, heap_sample3).
Proof.
  apply (kfree_refuses_last_block sentinel heap_sample3
           [mk_blk 3221233664 32 true; mk_blk 3221233696 24 true; mk_blk 3221233720 40 true]
           (mk_blk 3221233760 32 true) []).
  - apply heap_sample3_ok.
  - reflexivity.
  - vm_compute. congruence.
  - vm_compute. congruence.
Defined.

(** Sizes close to 2^32 wrap: a request for 4294967295 bytes is rounded to
    0 and served by a block of 20 bytes, whose payload is empty and which is
    smaller than any block of a well-formed heap. *)
Theorem kmalloc_size_wraps :
  exists s', kmalloc sentinel 4294967295 heap_sample = Some (3221233680, s') /\
    rd (kh_mem s') 3221233664 = 20 /\
    ~ exists bs ns, heap_inv sentinel s' bs ns.
Proof.
  eexists. split; [vm_compute; reflexivity|]. split; [by vm_compute|].
  intros (bs & ns & H). pose proof (hi_shape _ _ _ _ H) as Hsh. pose proof (hs_contig _ _ _ _ Hsh) as Hc.
  pose proof (hi_blocks _ _ _ _ H) as Hbl. destruct bs as [|b bs].
  - by vm_compute in Hc.
  - destruct Hc as [Hb _]. apply Forall_cons in Hbl as [(H24 & _ & Hrd & _) _]. rewrite Hb in Hrd.
    assert (20 = b_size b) as E by (rewrite <- Hrd; vm_compute; reflexivity). lia.
Qed.
