(* ===== verification/Paging.v ===== *)
(** * Page tables

    Models [kernel/arch/x86/mm.c]: two-level IA-32 page tables of 4 KiB pages,
    kept in LowMem frames and edited through the direct map.  The state is the
    kernel's memory, the frame allocator, the CR3 register and the list of pages
    whose TLB entry was invalidated (latest first).  [walk] is the translation the
    processor performs; the theorems state what each operation does to it. *)

From S2P Require Import Prelude Base Memory KList KMem Frames.

Definition X86_PAGE_SIZE : Z := 4096.
Definition X86_PDE_COUNT : Z := 1024.
Definition X86_KERNEL_PDE_BASE : Z := 768.
Definition X86_PTE_COUNT : Z := 1024.
Definition X86_PAGE_MASK : Z := 4294963200.

Definition X86_PDE_PRESENT : Z := BIT 0.
Definition X86_PDE_WRITABLE : Z := BIT 1.
Definition X86_PDE_USER : Z := BIT 2.
Definition X86_PDE_PAGE_SIZE : Z := BIT 7.
Definition X86_PTE_PRESENT : Z := BIT 0.
Definition X86_PTE_WRITABLE : Z := BIT 1.
Definition X86_PTE_USER : Z := BIT 2.

(** [mm/vmm.h] *)
Definition VM_READ : Z := BIT 0.
Definition VM_WRITE : Z := BIT 1.
Definition VM_EXEC : Z := BIT 2.
Definition VM_USER : Z := BIT 3.
Definition VM_GROWSDOWN : Z := BIT 4.

Record arch_vm_space := mk_space { pd_phys : Z }.

Record vmstate (A : Type) := mk_vmstate {
  vs_mem : mem;
  vs_frames : A;
  vs_cr3 : Z;
  vs_invlpg : list Z
}.
Arguments mk_vmstate {A}.
Arguments vs_mem {A}.
Arguments vs_frames {A}.
Arguments vs_cr3 {A}.
Arguments vs_invlpg {A}.

Definition x86_vm_flags_to_pte (flags : Z) : Z :=
  let pte_flags := X86_PTE_PRESENT in
  let pte_flags := if MASK_TEST flags VM_WRITE then Z.lor pte_flags X86_PTE_WRITABLE else pte_flags in
  let pte_flags := if MASK_TEST flags VM_USER then Z.lor pte_flags X86_PTE_USER else pte_flags in
  pte_flags.

Definition x86_vm_flags_to_pde (flags : Z) : Z :=
  let pde_flags := Z.lor X86_PDE_PRESENT X86_PDE_WRITABLE in
  if MASK_TEST flags VM_USER then Z.lor pde_flags X86_PDE_USER else pde_flags.

Definition arch_vm_page_size : Z := X86_PAGE_SIZE.

(** Element [i] of an array of 32-bit words at [a]. *)
Definition word_at (a i : Z) : Z := u32 (a + 4 * i).

Section Ops.
Context {A : Type} `{FrameAllocator A}.

Definition set_vs_mem (m : mem) (s : vmstate A) : vmstate A :=
  mk_vmstate m (vs_frames s) (vs_cr3 s) (vs_invlpg s).
Definition set_vs_frames (a : A) (s : vmstate A) : vmstate A :=
  mk_vmstate (vs_mem s) a (vs_cr3 s) (vs_invlpg s).
Definition set_vs_cr3 (v : Z) (s : vmstate A) : vmstate A :=
  mk_vmstate (vs_mem s) (vs_frames s) v (vs_invlpg s).
Definition add_invlpg (va : Z) (s : vmstate A) : vmstate A :=
  mk_vmstate (vs_mem s) (vs_frames s) (vs_cr3 s) (va :: vs_invlpg s).

Abbreviation vmem := (zoom vs_mem set_vs_mem).
Abbreviation vframes := (zoom vs_frames set_vs_frames).

Definition x86_invlpg (va : Z) : M (vmstate A) unit := modify (add_invlpg va).

(** [struct arch_vm_space *vm] is [None] for NULL; an operation that changes the
    structure returns it. *)
Definition arch_vm_space_init (vm : option arch_vm_space) : M (vmstate A) (Z * option arch_vm_space) :=
  match vm with
  | None => ret (- KERR_INVAL, None)
  | Some v =>
      r <-- vframes (fa_alloc_lowmem 1) ;;
      match r with
      | inl e => ret (e, Some v)
      | inr pd =>
          vmem (memset (PHYS_TO_VIRT pd) 0 X86_PAGE_SIZE) ;;;
          ret (KERR_OK, Some (mk_space pd))
      end
  end.

Definition arch_vm_kernel_prepare (vm : option arch_vm_space) : M (vmstate A) Z :=
  match vm with
  | None => ret (- KERR_INVAL)
  | Some v =>
      let pd := PHYS_TO_VIRT (pd_phys v) in
      r <-- for_lt X86_KERNEL_PDE_BASE X86_PDE_COUNT tt (fun i _ =>
        a <-- vframes (fa_alloc_lowmem 1) ;;
        match a with
        | inl e => ret (inr e)
        | inr pt_phys =>
            vmem (memset (PHYS_TO_VIRT pt_phys) 0 X86_PAGE_SIZE) ;;;
            vmem (store32 (word_at pd i) (u32 (Z.lor (Z.lor pt_phys X86_PDE_PRESENT) X86_PDE_WRITABLE))) ;;;
            ret (inl tt)
        end) ;;
      match r with inl _ => ret KERR_OK | inr e => ret e end
  end.

Definition arch_vm_space_destroy (vm : option arch_vm_space) : M (vmstate A) (Z * option arch_vm_space) :=
  match vm with
  | None => ret (- KERR_INVAL, None)
  | Some v =>
      let pd := PHYS_TO_VIRT (pd_phys v) in
      r <-- for_lt 0 X86_KERNEL_PDE_BASE tt (fun i _ =>
        pde <-- vmem (load32 (word_at pd i)) ;;
        if Z.land pde X86_PDE_PRESENT =? 0 then ret (inl tt)
        else if negb (Z.land pde X86_PDE_PAGE_SIZE =? 0) then ret (inl tt)
        else
          let pt_phys := Z.land pde X86_PAGE_MASK in
          e <-- vframes (fa_free pt_phys 1) ;;
          if e <? 0 then ret (inr e) else ret (inl tt)) ;;
      match r with
      | inr e => ret (e, Some v)
      | inl _ =>
          e <-- vframes (fa_free (pd_phys v) 1) ;;
          if e <? 0 then ret (e, Some v) else ret (KERR_OK, Some (mk_space 0))
      end
  end.

Definition arch_vm_space_attach_kernel (vm kernel_vm : option arch_vm_space) : M (vmstate A) Z :=
  match vm, kernel_vm with
  | Some v, Some k =>
      let pd := PHYS_TO_VIRT (pd_phys v) in
      let kernel_pd := PHYS_TO_VIRT (pd_phys k) in
      for_each X86_KERNEL_PDE_BASE X86_PDE_COUNT (fun i =>
        w <-- vmem (load32 (word_at kernel_pd i)) ;;
        vmem (store32 (word_at pd i) w)) ;;;
      ret KERR_OK
  | _, _ => ret (- KERR_INVAL)
  end.

(** The body of the loop of [arch_vm_map] for the page at offset [off]. *)
Definition map_page (pd virt phys flags off : Z) : M (vmstate A) (unit + Z) :=
  let va := u32 (virt + off) in
  let pa := u64 (phys + off) in
  let pde_index := Z.shiftr va 22 in
  let pte_index := Z.land (Z.shiftr va 12) 1023 in
  pde <-- vmem (load32 (word_at pd pde_index)) ;;
  r <-- (if Z.land pde X86_PDE_PRESENT =? 0 then
           a <-- vframes (fa_alloc_lowmem 1) ;;
           match a with
           | inl e => ret (inr e)
           | inr pt_phys =>
               vmem (memset (PHYS_TO_VIRT pt_phys) 0 X86_PAGE_SIZE) ;;;
               vmem (store32 (word_at pd pde_index) (u32 (Z.lor pt_phys (x86_vm_flags_to_pde flags)))) ;;;
               pde' <-- vmem (load32 (word_at pd pde_index)) ;;
               ret (inl pde')
           end
         else if negb (Z.land pde X86_PDE_PAGE_SIZE =? 0) then ret (inr (- KERR_NOSUP))
         else ret (inl pde)) ;;
  match r with
  | inr e => ret (inr e)
  | inl pde =>
      let pt := PHYS_TO_VIRT (Z.land pde X86_PAGE_MASK) in
      pte <-- vmem (load32 (word_at pt pte_index)) ;;
      if negb (Z.land pte X86_PTE_PRESENT =? 0) then ret (inr (- KERR_EXISTS))
      else
        vmem (store32 (word_at pt pte_index)
                (Z.lor (Z.land pa X86_PAGE_MASK) (x86_vm_flags_to_pte flags))) ;;;
        x86_invlpg va ;;;
        ret (inl tt)
  end.

(** [off] takes the multiples of the page size below [size], itself one. *)
Definition arch_vm_map (vm : option arch_vm_space) (virt phys size flags : Z) : M (vmstate A) Z :=
  match vm with
  | None => ret (- KERR_INVAL)
  | Some v =>
      if size =? 0 then ret (- KERR_INVAL)
      else if negb (ALIGN_TEST virt X86_PAGE_SIZE) || negb (ALIGN_TEST phys X86_PAGE_SIZE)
              || negb (ALIGN_TEST size X86_PAGE_SIZE) then ret (- KERR_INVAL)
      else
        let pd := PHYS_TO_VIRT (pd_phys v) in
        r <-- for_lt 0 (size / X86_PAGE_SIZE) tt (fun i _ =>
                map_page pd virt phys flags (i * X86_PAGE_SIZE)) ;;
        match r with inl _ => ret KERR_OK | inr e => ret e end
  end.

(** The page table entry for [va], shared by the three operations below: its
    address and value, or the error to return. *)
Definition find_pte (pd va : Z) : M (vmstate A) (Z * Z + Z) :=
  let pde_index := Z.shiftr va 22 in
  let pte_index := Z.land (Z.shiftr va 12) 1023 in
  pde <-- vmem (load32 (word_at pd pde_index)) ;;
  if Z.land pde X86_PDE_PRESENT =? 0 then ret (inr (- KERR_NOENT))
  else if negb (Z.land pde X86_PDE_PAGE_SIZE =? 0) then ret (inr (- KERR_NOSUP))
  else
    let pt := PHYS_TO_VIRT (Z.land pde X86_PAGE_MASK) in
    pte <-- vmem (load32 (word_at pt pte_index)) ;;
    if Z.land pte X86_PTE_PRESENT =? 0 then ret (inr (- KERR_NOENT))
    else ret (inl (word_at pt pte_index, pte)).

Definition unmap_page (pd virt off : Z) : M (vmstate A) (unit + Z) :=
  let va := u32 (virt + off) in
  r <-- find_pte pd va ;;
  match r with
  | inr e => ret (inr e)
  | inl (p, _) => vmem (store32 p 0) ;;; x86_invlpg va ;;; ret (inl tt)
  end.

Definition arch_vm_unmap (vm : option arch_vm_space) (virt size : Z) : M (vmstate A) Z :=
  match vm with
  | None => ret (- KERR_INVAL)
  | Some v =>
      if size =? 0 then ret (- KERR_INVAL)
      else if negb (ALIGN_TEST virt X86_PAGE_SIZE) || negb (ALIGN_TEST size X86_PAGE_SIZE)
           then ret (- KERR_INVAL)
      else
        let pd := PHYS_TO_VIRT (pd_phys v) in
        r <-- for_lt 0 (size / X86_PAGE_SIZE) tt (fun i _ => unmap_page pd virt (i * X86_PAGE_SIZE)) ;;
        match r with inl _ => ret KERR_OK | inr e => ret e end
  end.

Definition protect_page (pd virt flags off : Z) : M (vmstate A) (unit + Z) :=
  let va := u32 (virt + off) in
  r <-- find_pte pd va ;;
  match r with
  | inr e => ret (inr e)
  | inl (p, pte) =>
      let phys := Z.land pte X86_PAGE_MASK in
      vmem (store32 p (u32 (Z.lor phys (x86_vm_flags_to_pte flags)))) ;;;
      x86_invlpg va ;;;
      ret (inl tt)
  end.

Definition arch_vm_protect (vm : option arch_vm_space) (virt size flags : Z) : M (vmstate A) Z :=
  match vm with
  | None => ret (- KERR_INVAL)
  | Some v =>
      if size =? 0 then ret (- KERR_INVAL)
      else if negb (ALIGN_TEST virt X86_PAGE_SIZE) || negb (ALIGN_TEST size X86_PAGE_SIZE)
           then ret (- KERR_INVAL)
      else
        let pd := PHYS_TO_VIRT (pd_phys v) in
        r <-- for_lt 0 (size / X86_PAGE_SIZE) tt (fun i _ => protect_page pd virt flags (i * X86_PAGE_SIZE)) ;;
        match r with inl _ => ret KERR_OK | inr e => ret e end
  end.

Definition arch_vm_space_load (vm : option arch_vm_space) : M (vmstate A) Z :=
  match vm with
  | None => ret (- KERR_INVAL)
  | Some v => modify (set_vs_cr3 (u32 (pd_phys v))) ;;; ret KERR_OK
  end.

(** The output parameter [phys] is the right summand; [phys = NULL] is [false]. *)
Definition arch_vm_translate (vm : option arch_vm_space) (virt : Z) (phys : bool) : M (vmstate A) (Z + Z) :=
  match vm with
  | None => ret (inl (- KERR_INVAL))
  | Some v =>
      if negb phys then ret (inl (- KERR_INVAL))
      else
        r <-- find_pte (PHYS_TO_VIRT (pd_phys v)) virt ;;
        match r with
        | inr e => ret (inl e)
        | inl (_, pte) =>
            ret (inr (Z.lor (Z.land pte X86_PAGE_MASK) (Z.land virt (X86_PAGE_SIZE - 1))))
        end
  end.
End Ops.

(** ** Translation *)

(** Page [p] holds the virtual addresses from [4096 * p]; entry [p / 1024] of the
    directory names the table whose entry [p mod 1024] maps it. *)
Definition pde_at (m : mem) (pd i : Z) : Z := rd m (pd + KERNEL_VIRT_OFFSET + 4 * i).
Definition table_of (pde : Z) : Z := Z.land pde X86_PAGE_MASK.
Definition tbl (m : mem) (pd i : Z) : option Z :=
  let pde := pde_at m pd i in
  if Z.testbit pde 0 && negb (Z.testbit pde 7) then Some (table_of pde) else None.
Definition pte_in (m : mem) (t k : Z) : option Z :=
  let pte := rd m (t + KERNEL_VIRT_OFFSET + 4 * k) in
  if Z.testbit pte 0 then Some pte else None.
Definition walk (m : mem) (pd p : Z) : option Z :=
  match tbl m pd (p / 1024) with
  | Some t => pte_in m t (p mod 1024)
  | None => None
  end.

(** The entry that maps a page to the frame at [pa] with [flags]. *)
Definition pte_of (pa flags : Z) : Z := Z.lor (Z.land pa X86_PAGE_MASK) (x86_vm_flags_to_pte flags).

(** ** Words and bits of entries *)

Lemma land_page_mask x : is_u32 x -> Z.land x X86_PAGE_MASK = x - x mod 4096.
Proof.
  intros Hx. unfold X86_PAGE_MASK. change 4294963200 with (u32 (Z.lnot (2 ^ 12 - 1))).
  rewrite land_u32_r by done. by rewrite lnot_ones_land.
Qed.

(** [pa & X86_PAGE_MASK] drops the bits of a 64-bit address above 32. *)
Lemma land_page_mask64 x : 0 <= x -> Z.land x X86_PAGE_MASK = u32 x - u32 x mod 4096.
Proof.
  intros Hx. rewrite <- land_page_mask by apply u32_range.
  unfold u32. change 4294967296 with (2 ^ 32). rewrite <- Z.land_ones by lia.
  rewrite <- Z.land_assoc. f_equal.
Qed.

Lemma land_bit_zero w n : 0 <= n < 32 -> (Z.land w (BIT n) =? 0) = negb (Z.testbit w n).
Proof.
  intros Hn. pose proof (MASK_TEST_bit w n Hn) as H. unfold MASK_TEST in H. by rewrite <- H, negb_involutive.
Qed.

(** Flags fit below the page number. *)
Lemma page_flags_bits p fl n :
  p mod 4096 = 0 -> 0 <= n < 12 -> Z.testbit (Z.lor p fl) n = Z.testbit fl n.
Proof.
  intros Hp Hn. rewrite Z.lor_spec. replace (Z.testbit p n) with false; [done|].
  symmetry. rewrite <- (Z.mod_pow2_bits_low p 12) by lia. change (2 ^ 12) with 4096. by rewrite Hp, Z.bits_0.
Qed.

Lemma page_or_add p fl : p mod 4096 = 0 -> 0 <= fl < 4096 -> Z.lor p fl = p + fl.
Proof.
  intros Hp Hf.
  assert (Z.land p fl = 0) as Hz.
  { apply Z.bits_inj'. intros n Hn. rewrite Z.land_spec, Z.bits_0. destruct (Z.lt_ge_cases n 12).
    - rewrite <- (Z.mod_pow2_bits_low p 12) by lia. change (2 ^ 12) with 4096. by rewrite Hp, Z.bits_0.
    - rewrite (testbit_high fl 12 n) by lia. apply andb_false_r. }
  rewrite <- Z.lxor_lor by done. symmetry. by apply Z.add_nocarry_lxor.
Qed.

Lemma page_flags_table p fl :
  p mod 4096 = 0 -> is_u32 p -> 0 <= fl < 4096 ->
  is_u32 (Z.lor p fl) /\ table_of (Z.lor p fl) = p.
Proof.
  intros Hp Hu Hf. assert (is_u32 (Z.lor p fl)) as Hl by (apply is_u32_lor; [done | unfold is_u32; lia]).
  split; [done|]. unfold table_of. rewrite land_page_mask by done.
  rewrite page_or_add by done.
  unfold is_u32 in *. dlia.
Qed.

Lemma pte_flags_small flags : 0 <= x86_vm_flags_to_pte flags < 4096 /\
  Z.testbit (x86_vm_flags_to_pte flags) 0 = true.
Proof. unfold x86_vm_flags_to_pte. repeat case_match; by vm_compute. Qed.

Lemma pde_flags_small flags : 0 <= x86_vm_flags_to_pde flags < 4096 /\
  Z.testbit (x86_vm_flags_to_pde flags) 0 = true /\ Z.testbit (x86_vm_flags_to_pde flags) 7 = false.
Proof. unfold x86_vm_flags_to_pde. repeat case_match; by vm_compute. Qed.

Lemma pte_of_spec pa flags : 0 <= pa -> pa mod 4096 = 0 ->
  is_u32 (pte_of pa flags) /\ table_of (pte_of pa flags) = u32 pa /\ Z.testbit (pte_of pa flags) 0 = true.
Proof.
  intros Hpa Hal. unfold pte_of. rewrite land_page_mask64 by done.
  assert (u32 pa mod 4096 = 0) as Hu by (unfold u32; dlia). rewrite Hu, Z.sub_0_r.
  destruct (pte_flags_small flags) as [Hf Hf0].
  destruct (page_flags_table (u32 pa) (x86_vm_flags_to_pte flags)) as [H1 H2]; [done | apply u32_range | done|].
  split; [done|]. split; [done|]. by rewrite page_flags_bits by (done || lia).
Qed.

(** *** The store as words *)

Definition mem_ok (m : mem) : Prop := forall a, is_u32 (rd m a).

Lemma mem_ok_wr m a v : mem_ok m -> is_u32 v -> mem_ok (wr m a v).
Proof.
  intros Hm Hv x. destruct (Z.eq_dec a x) as [->|]; [by rewrite rd_wr_eq | by rewrite rd_wr_ne].
Qed.

Lemma set_byte_u32 w k v : is_u32 w -> 0 <= k < 4 -> is_u8 v -> is_u32 (set_byte w k v).
Proof.
  intros Hw Hk Hv. apply is_u32_bits in Hw as [Hw0 Hw]. apply is_u32_bits. split.
  - unfold set_byte. apply Z.lor_nonneg. split; [apply Z.land_nonneg; auto|]. apply Z.shiftl_nonneg.
    unfold is_u8 in Hv. lia.
  - intros i Hi. rewrite set_byte_bit by (done || lia).
    replace ((8 * k <=? i) && (i <? 8 * k + 8)) with false by lia. by apply Hw.
Qed.

Lemma word_zero w : is_u32 w -> (forall k, 0 <= k < 4 -> get_byte w k = 0) -> w = 0.
Proof.
  intros Hw Hb. apply is_u32_bits in Hw as [Hw0 Hw]. apply Z.bits_inj'. intros n Hn. rewrite Z.bits_0.
  destruct (Z.lt_ge_cases n 32); [|by apply Hw].
  assert (Z.testbit (get_byte w (n / 8)) (n mod 8) = Z.testbit w n) as <-.
  { rewrite get_byte_bit by dlia. replace (n mod 8 + 8 * (n / 8)) with n by dlia.
    replace (n mod 8 <? 8) with true by (symmetry; apply Z.ltb_lt; dlia). done. }
  rewrite Hb by dlia. apply Z.bits_0.
Qed.

(** Zeroing whole words sets them to 0 and no other word. *)
Lemma memset_words_wp m d n :
  mem_ok m -> d mod 4 = 0 -> n mod 4 = 0 -> range_valid d n ->
  wp (memset d 0 n) (fun _ m' => mem_ok m' /\
    (forall a, a mod 4 = 0 -> d <= a < d + n -> rd m' a = 0) /\
    (forall a, a < d \/ d + n <= a -> rd m' a = rd m a)) m.
Proof.
  intros Hm Hd Hn Hr. unfold memset. wp_step. change (u8 0) with 0.
  apply (wp_for_each (fun i m' => mem_ok m' /\ (forall j, 0 <= j < i -> rd8 m' (d + j) = 0) /\
    (forall a, a < d \/ d + n <= a -> rd m' a = rd m a))).
  - split; [done|]. split; [lia | done].
  - intros i m1 Hi (H1 & H2 & H3). destruct (range_valid8 d n i Hr Hi) as [Hv ->].
    apply store8_wp; [done|]. split; [|split].
    + apply mem_ok_wr; [done|]. apply set_byte_u32; [done | dlia | unfold is_u8; lia].
    + intros j Hj. destruct (Z.eq_dec j i) as [->|]; [by apply rd8_wr8_eq|].
      rewrite rd8_wr8_ne by (done || lia). apply H2. lia.
    + intros a Ha. unfold wr8. rewrite rd_wr_ne by dlia. by apply H3.
  - intros m' (H1 & H2 & H3). replace (Z.max 0 n) with n in H2 by (unfold range_valid in Hr; lia). wp_step.
    split; [done|]. split; [|done].
    intros a Hal Ha. apply word_zero; [done|]. intros j Hj.
    specialize (H2 (a - d + j) ltac:(dlia)). unfold rd8 in H2. replace (d + (a - d + j)) with (a + j) in H2 by lia.
    replace ((a + j) mod 4) with j in H2 by dlia. by replace (a + j - j) with a in H2 by lia.
Qed.

Lemma memset_page_wp m t :
  mem_ok m -> 0 <= t < KERNEL_LOWMEM_LIMIT -> t mod 4096 = 0 ->
  wp (memset (t + KERNEL_VIRT_OFFSET) 0 4096) (fun _ m' => mem_ok m' /\
    (forall k, 0 <= k < 1024 -> rd m' (t + KERNEL_VIRT_OFFSET + 4 * k) = 0) /\
    (forall a, a < t + KERNEL_VIRT_OFFSET \/ t + KERNEL_VIRT_OFFSET + 4096 <= a -> rd m' a = rd m a)) m.
Proof.
  intros Hm Ht Hal. wp_use memset_words_wp; [done | unfold KERNEL_VIRT_OFFSET; dlia | done
    | unfold range_valid, KERNEL_LOWMEM_LIMIT, KERNEL_VIRT_OFFSET in *; dlia|].
  intros _ m' (H1 & H2 & H3). split; [done|]. split; [|done]. intros k Hk. apply H2; unfold KERNEL_VIRT_OFFSET; dlia.
Qed.

(** ** Well-formed page tables *)

Section Tables.
Context {A : Type} `{FrameAllocatorLaws A}.

(** [t] is the address of a LowMem frame in use. *)
Definition page_frame (a : A) (t : Z) : Prop :=
  t mod 4096 = 0 /\ 0 <= t < KERNEL_LOWMEM_LIMIT /\
  fa_used a (t / 4096) = true /\ t / 4096 < fa_total a.

(** The directories [R] of the address spaces: directories and tables are distinct
    frames in use; two directories may share a table only in the same kernel slot. *)
Record tables_ok (m : mem) (a : A) (R : list Z) : Prop := {
  t_root : forall r, r ∈ R -> page_frame a r;
  t_present : forall r i, r ∈ R -> 0 <= i < 1024 -> Z.testbit (pde_at m r i) 0 = true ->
    Z.testbit (pde_at m r i) 7 = false;
  t_table : forall r i t, r ∈ R -> 0 <= i < 1024 -> tbl m r i = Some t -> page_frame a t /\ (t ∉ R);
  t_inj : forall r r' i j t, r ∈ R -> r' ∈ R -> 0 <= i < 1024 -> 0 <= j < 1024 ->
    tbl m r i = Some t -> tbl m r' j = Some t -> i = j /\ (r = r' \/ X86_KERNEL_PDE_BASE <= i)
}.

Record vm_ok (s : vmstate A) (R : list Z) : Prop := {
  v_mem : mem_ok (vs_mem s);
  v_frames : fa_ok (vs_frames s);
  v_tables : tables_ok (vs_mem s) (vs_frames s) R
}.

(** Entry [k] of the page at [t]: address arithmetic. *)
Lemma entry_addr a t k : page_frame a t -> 0 <= k < 1024 ->
  word_at (PHYS_TO_VIRT t) k = t + KERNEL_VIRT_OFFSET + 4 * k /\ valid (t + KERNEL_VIRT_OFFSET + 4 * k).
Proof.
  intros (Hal & Hlow & _) Hk. unfold word_at. rewrite PHYS_TO_VIRT_lowmem by done.
  unfold KERNEL_LOWMEM_LIMIT, KERNEL_VIRT_OFFSET, valid in *. split; [apply u32_id; unfold is_u32; lia|].
  unfold KERNEL_VIRT_OFFSET. dlia.
Qed.

Lemma entry_inj a t t' k k' : page_frame a t -> page_frame a t' -> 0 <= k < 1024 -> 0 <= k' < 1024 ->
  t + KERNEL_VIRT_OFFSET + 4 * k = t' + KERNEL_VIRT_OFFSET + 4 * k' -> t = t' /\ k = k'.
Proof. intros (H1 & _) (H2 & _) Hk Hk' E. dlia. Qed.

(** *** A change of one table entry *)

Section SetPte.
Context (m : mem) (a : A) (R : list Z) (r i t k v : Z).
Hypothesis H_ok : tables_ok m a R.
Hypothesis H_r : r ∈ R.
Hypothesis H_i : 0 <= i < 1024.
Hypothesis H_k : 0 <= k < 1024.
Hypothesis H_t : tbl m r i = Some t.

Let m' := wr m (t + KERNEL_VIRT_OFFSET + 4 * k) v.

Lemma set_pte_pde r' j : r' ∈ R -> 0 <= j < 1024 -> pde_at m' r' j = pde_at m r' j.
Proof.
  intros Hr' Hj. unfold pde_at, m'. apply rd_wr_ne. intros E.
  destruct (t_table _ _ _ H_ok r i t H_r H_i H_t) as [Hpt Hnr].
  destruct (entry_inj a t r' k j Hpt (t_root _ _ _ H_ok r' Hr') H_k Hj E) as [-> _]. done.
Qed.

Lemma set_pte_tbl r' j : r' ∈ R -> 0 <= j < 1024 -> tbl m' r' j = tbl m r' j.
Proof. intros Hr' Hj. unfold tbl. by rewrite set_pte_pde. Qed.

Lemma set_pte_ok : tables_ok m' a R.
Proof.
  split; intros; rewrite ?set_pte_pde, ?set_pte_tbl in * by done; first [by eapply (t_root m) | by eapply (t_present m)
    | by eapply (t_table m) | by eapply (t_inj m)].
Qed.

(** Only page [1024 * i + k] changes, in the spaces that use the table. *)
Lemma set_pte_walk r' p : r' ∈ R -> 0 <= p < 1048576 ->
  walk m' r' p =
    if bool_decide (p = 1024 * i + k /\ tbl m r' i = Some t)
    then (if Z.testbit v 0 then Some v else None)
    else walk m r' p.
Proof.
  intros Hr' Hp. unfold walk. rewrite set_pte_tbl by (done || dlia).
  destruct (tbl m r' (p / 1024)) as [t'|] eqn:Et'.
  - destruct (t_table _ _ _ H_ok r i t H_r H_i H_t) as [Hpt _].
    destruct (t_table _ _ _ H_ok r' (p / 1024) t' Hr' ltac:(dlia) Et') as [Hpt' _].
    case_bool_decide as Hd.
    + destruct Hd as [-> Hd]. replace ((1024 * i + k) / 1024) with i in Et' by dlia.
      replace ((1024 * i + k) mod 1024) with k by dlia. assert (t' = t) as -> by congruence.
      unfold pte_in, m'. by rewrite rd_wr_eq.
    + unfold pte_in, m'. rewrite rd_wr_ne; [done|]. intros E.
      destruct (entry_inj a t t' k (p mod 1024) Hpt Hpt' H_k ltac:(dlia) E) as [-> Hk].
      destruct (t_inj _ _ _ H_ok r r' i (p / 1024) t' H_r Hr' H_i ltac:(dlia) H_t Et') as [Hi _].
      apply Hd. split; [dlia|]. by rewrite Hi.
  - rewrite bool_decide_false; [done|]. intros [-> Hd].
    replace ((1024 * i + k) / 1024) with i in Et' by dlia. congruence.
Qed.
End SetPte.

(** *** A new table *)

(** Frames in use stay in use. *)
Definition frames_grow (a a' : A) : Prop :=
  fa_total a' = fa_total a /\ forall j, 0 <= j -> fa_used a j = true -> fa_used a' j = true.

Lemma page_frame_grow a a' t : frames_grow a a' -> page_frame a t -> page_frame a' t.
Proof.
  intros [Ht Hg] (H1 & H2 & H3 & H4). split; [done|]. split; [done|]. split; [apply Hg; [dlia | done]|]. by rewrite Ht.
Qed.

Section NewTable.
Context (m : mem) (a : A) (R : list Z) (r i t fl : Z) (a' : A) (m1 : mem).
Hypothesis H_ok : tables_ok m a R.
Hypothesis H_r : r ∈ R.
Hypothesis H_i : 0 <= i < 1024.
Hypothesis H_none : Z.testbit (pde_at m r i) 0 = false.
Hypothesis H_grow : frames_grow a a'.
Hypothesis H_fresh : fa_used a (t / 4096) = false.
Hypothesis H_t : page_frame a' t.
Hypothesis H_fl : 0 <= fl < 4096 /\ Z.testbit fl 0 = true /\ Z.testbit fl 7 = false.
Hypothesis H_zero : forall k, 0 <= k < 1024 -> rd m1 (t + KERNEL_VIRT_OFFSET + 4 * k) = 0.
Hypothesis H_same : forall x, x < t + KERNEL_VIRT_OFFSET \/ t + KERNEL_VIRT_OFFSET + 4096 <= x -> rd m1 x = rd m x.

Let m' := wr m1 (r + KERNEL_VIRT_OFFSET + 4 * i) (Z.lor t fl).

(** A frame in use before is not the new one: its words are kept. *)
Lemma new_table_other t' : page_frame a t' -> t' <> t /\
  forall k, 0 <= k < 1024 -> rd m1 (t' + KERNEL_VIRT_OFFSET + 4 * k) = rd m (t' + KERNEL_VIRT_OFFSET + 4 * k).
Proof.
  intros (H1 & H2 & H3 & _). destruct H_t as (H4 & H5 & _).
  assert (t' <> t) as Hne by (intros ->; congruence). split; [done|]. intros k Hk. apply H_same. dlia.
Qed.

Lemma new_table_pde r' j : r' ∈ R -> 0 <= j < 1024 ->
  pde_at m' r' j = if bool_decide (r' = r /\ j = i) then Z.lor t fl else pde_at m r' j.
Proof.
  intros Hr' Hj. pose proof (t_root _ _ _ H_ok r' Hr') as Hpr'. pose proof (t_root _ _ _ H_ok r H_r) as Hpr.
  unfold pde_at, m'. case_bool_decide as Hd.
  - destruct Hd as [-> ->]. by rewrite rd_wr_eq.
  - rewrite rd_wr_ne.
    + by apply (new_table_other r' Hpr').
    + intros E. apply Hd. destruct (entry_inj a r r' i j Hpr Hpr' H_i Hj E). done.
Qed.

Lemma new_table_tbl r' j : r' ∈ R -> 0 <= j < 1024 ->
  tbl m' r' j = if bool_decide (r' = r /\ j = i) then Some t else tbl m r' j.
Proof.
  intros Hr' Hj. unfold tbl. rewrite new_table_pde by done. case_bool_decide; [|done].
  destruct H_fl as (Hf1 & Hf2 & Hf3). destruct H_t as (Ht1 & Ht2 & _).
  rewrite !page_flags_bits, Hf2, Hf3 by (done || lia). cbn [negb andb].
  f_equal. apply page_flags_table; [done | unfold is_u32, KERNEL_LOWMEM_LIMIT in *; lia | done].
Qed.

Lemma new_table_fresh r' j t' : r' ∈ R -> 0 <= j < 1024 -> tbl m r' j = Some t' -> t' <> t.
Proof.
  intros Hr' Hj Ht'. destruct (t_table _ _ _ H_ok r' j t' Hr' Hj Ht') as [Hpt' _].
  by apply new_table_other.
Qed.

Lemma new_table_ok : tables_ok m' a' R.
Proof.
  split.
  - intros r' Hr'. by apply (page_frame_grow a), (t_root m a R).
  - intros r' j Hr' Hj. rewrite new_table_pde by done. case_bool_decide; [|by apply (t_present _ _ _ H_ok)].
    intros _. destruct H_fl as (Hf1 & Hf2 & Hf3), H_t as (Ht1 & _). rewrite page_flags_bits by (done || lia). done.
  - intros r' j t' Hr' Hj. rewrite new_table_tbl by done. case_bool_decide.
    + intros [= <-]. split; [done|]. intros Hin. destruct (t_root _ _ _ H_ok t Hin) as (_ & _ & Hu & _). congruence.
    + intros Ht'. destruct (t_table _ _ _ H_ok r' j t' Hr' Hj Ht') as [? ?].
      split; [by apply (page_frame_grow a) | done].
  - intros r1 r2 j1 j2 t' Hr1 Hr2 Hj1 Hj2. rewrite !new_table_tbl by done.
    case_bool_decide as D1; case_bool_decide as D2.
    + intros _ _. destruct D1 as [-> ->], D2 as [-> ->]. auto.
    + intros [= <-] Ht'. by apply new_table_fresh in Ht'.
    + intros Ht' [= <-]. by apply new_table_fresh in Ht'.
    + by apply (t_inj _ _ _ H_ok).
Qed.

(** No translation changes. *)
Lemma new_table_walk r' p : r' ∈ R -> 0 <= p < 1048576 -> walk m' r' p = walk m r' p.
Proof.
  intros Hr' Hp. unfold walk. rewrite new_table_tbl by (done || dlia).
  pose proof (t_root _ _ _ H_ok r H_r) as Hpr. case_bool_decide as Hd.
  - destruct Hd as [-> Hd]. unfold tbl at 1. rewrite Hd, H_none. cbn [andb].
    unfold pte_in, m'. rewrite rd_wr_ne.
    + by rewrite H_zero by dlia.
    + intros E. destruct (entry_inj a' r t i (p mod 1024) (page_frame_grow _ _ _ H_grow Hpr) H_t H_i ltac:(dlia) E)
        as [-> _]. destruct Hpr as (_ & _ & Hu & _). congruence.
  - destruct (tbl m r' (p / 1024)) as [t'|] eqn:Et'; [|done].
    destruct (t_table _ _ _ H_ok r' (p / 1024) t' Hr' ltac:(dlia) Et') as [Hpt' Hnr].
    unfold pte_in, m'. rewrite rd_wr_ne.
    + destruct (new_table_other t' Hpt') as [_ Hx]. by rewrite Hx by dlia.
    + intros E. destruct (entry_inj a r t' i (p mod 1024) Hpr Hpt' H_i ltac:(dlia) E) as [-> _]. done.
Qed.
End NewTable.

(** ** Specifications of the operations *)

(** [r'] reaches slot [j] through the same table as [r]. *)
Definition shares (m : mem) (r r' j : Z) : bool :=
  (r' =? r) || match tbl m r j, tbl m r' j with Some t, Some t' => t =? t' | _, _ => false end.

(** [t] is a directory or a table of the spaces [R]; [a] is a word of one. *)
Definition table_page (m : mem) (R : list Z) (t : Z) : Prop :=
  t ∈ R \/ exists r i, r ∈ R /\ 0 <= i < 1024 /\ tbl m r i = Some t.
Definition table_word (m : mem) (R : list Z) (a : Z) : Prop :=
  exists t, table_page m R t /\ t + KERNEL_VIRT_OFFSET <= a < t + KERNEL_VIRT_OFFSET + 4096.

(** What an operation on the space [r] keeps: well-formedness, the other
    directories, the tables already there, CR3, and all memory but the tables. *)
Record pt_step (R : list Z) (r : Z) (s s' : vmstate A) : Prop := {
  ps_ok : vm_ok s' R;
  ps_grow : frames_grow (vs_frames s) (vs_frames s');
  ps_other : forall r' j, r' ∈ R -> 0 <= j < 1024 -> r' <> r -> tbl (vs_mem s') r' j = tbl (vs_mem s) r' j;
  ps_mono : forall j t, 0 <= j < 1024 -> tbl (vs_mem s) r j = Some t -> tbl (vs_mem s') r j = Some t;
  ps_new : forall j t, 0 <= j < 1024 -> tbl (vs_mem s') r j = Some t ->
    tbl (vs_mem s) r j = Some t \/ 0 <= t /\ fa_used (vs_frames s) (t / 4096) = false;
  ps_shares : forall r' j, r' ∈ R -> 0 <= j < 1024 -> shares (vs_mem s') r r' j = shares (vs_mem s) r r' j;
  ps_cr3 : vs_cr3 s' = vs_cr3 s;
  ps_frame : forall a, ~ table_word (vs_mem s') R a -> rd (vs_mem s') a = rd (vs_mem s) a
}.

(** Page [p] of [r] now reads [v]; no other translation changes, except that of
    the same page in the spaces that share the table. *)
Definition page_set (R : list Z) (r : Z) (s s' : vmstate A) (p : Z) (v : option Z) : Prop :=
  forall r' p', r' ∈ R -> 0 <= p' < 1048576 ->
    walk (vs_mem s') r' p' =
      if (p' =? p) && shares (vs_mem s) r r' (p / 1024) then v else walk (vs_mem s) r' p'.

Lemma pt_step_refl R r s : vm_ok s R -> pt_step R r s s.
Proof. intros Hok. split; auto; by split. Qed.

Lemma pt_step_trans R r s1 s2 s3 : pt_step R r s1 s2 -> pt_step R r s2 s3 -> pt_step R r s1 s3.
Proof.
  intros [O1 G1 T1 M1 N1 S1 C1 F1] [O2 G2 T2 M2 N2 S2 C2 F2]. split; [done | | | | | | congruence |].
  - destruct G1 as [E1 G1], G2 as [E2 G2]. split; [congruence|]. intros j Hj Hu. by apply G2, G1.
  - intros r' j Hr' Hj Hne. by rewrite T2, T1.
  - intros j t Hj Ht. by apply M2, M1.
  - intros j t Hj Ht. apply N2 in Ht as [Ht|[Ht Hu]]; [by apply N1|..|done]. right. split; [done|].
    destruct (fa_used (vs_frames s1) (t / 4096)) eqn:E; [|done]. apply (proj2 G1) in E; [congruence | dlia].
  - intros r' j Hr' Hj. by rewrite S2, S1.
  - intros a Ha. rewrite F2 by done. apply F1. intros (t & [Ht|(r' & i & Hr' & Hi & Ht)] & Hin); apply Ha; exists t;
      (split; [|done]); [by left|]. right. exists r', i. split; [done|]. split; [done|].
    destruct (Z.eq_dec r' r) as [->|]; [by apply M2 | by rewrite T2].
Qed.

Lemma shares_spec m r r' j t : tbl m r j = Some t -> shares m r r' j = bool_decide (tbl m r' j = Some t).
Proof.
  intros Ht. unfold shares. rewrite Ht. destruct (Z.eqb_spec r' r) as [->|].
  - rewrite Ht. by rewrite bool_decide_true.
  - cbn [orb]. destruct (tbl m r' j) as [t'|]; [|by rewrite bool_decide_false].
    destruct (Z.eqb_spec t t') as [->|]; [by rewrite bool_decide_true|]. rewrite bool_decide_false; [done | congruence].
Qed.

(** Writing entry [k] of the table of slot [i] of [r]. *)
Lemma set_pte_step s R r i t k v inv :
  vm_ok s R -> r ∈ R -> 0 <= i < 1024 -> 0 <= k < 1024 -> tbl (vs_mem s) r i = Some t -> is_u32 v ->
  let s' := mk_vmstate (wr (vs_mem s) (t + KERNEL_VIRT_OFFSET + 4 * k) v) (vs_frames s) (vs_cr3 s) inv in
  pt_step R r s s' /\
  page_set R r s s' (1024 * i + k) (if Z.testbit v 0 then Some v else None).
Proof.
  intros [Hm Ha Ht] Hr Hi Hk Et Hv s'. split.
  - assert (Hts : forall r' j, r' ∈ R -> 0 <= j < 1024 -> tbl (vs_mem s') r' j = tbl (vs_mem s) r' j).
    { intros r' j Hr' Hj. by apply (set_pte_tbl (vs_mem s) (vs_frames s) R r i t k v). }
    split.
    + split; [by apply mem_ok_wr | done | by apply (set_pte_ok _ _ R r i)].
    + split; [done|]. by intros j.
    + intros r' j Hr' Hj _. by apply Hts.
    + intros j t' Hj Ht'. by rewrite Hts.
    + intros j t' Hj Ht'. left. by rewrite <- Hts.
    + intros r' j Hr' Hj. unfold shares. by rewrite !Hts.
    + done.
    + intros x Hx. cbn. apply rd_wr_ne. intros <-. apply Hx. exists t. split; [|lia]. right. exists r, i.
      rewrite Hts by done. done.
  - intros r' p' Hr' Hp'. cbn. rewrite (set_pte_walk _ (vs_frames s) R r i t k v) by done.
    replace ((1024 * i + k) / 1024) with i by dlia. rewrite (shares_spec _ _ _ _ t) by done.
    destruct (Z.eqb_spec p' (1024 * i + k)) as [->|Hne]; cbn [andb].
    + case_bool_decide as D1; case_bool_decide as D2; tauto.
    + rewrite bool_decide_false; [done|]. tauto.
Qed.

Lemma walk_none_tbl m r p t : tbl m r (p / 1024) = Some t -> walk m r p = pte_in m t (p mod 1024).
Proof. intros Ht. unfold walk. by rewrite Ht. Qed.

Lemma set_vs_mem_id (s : vmstate A) : set_vs_mem (vs_mem s) s = s.
Proof. by destruct s. Qed.
Lemma set_vs_frames_id (s : vmstate A) : set_vs_frames (vs_frames s) s = s.
Proof. by destruct s. Qed.

(** Indices of a 32-bit address. *)
Lemma va_indices va : is_u32 va ->
  Z.shiftr va 22 = va / 4096 / 1024 /\ Z.land (Z.shiftr va 12) 1023 = (va / 4096) mod 1024 /\
  0 <= va / 4096 / 1024 < 1024 /\ 0 <= (va / 4096) mod 1024 < 1024 /\ 0 <= va / 4096 < 1048576.
Proof.
  intros Hv. rewrite !Z.shiftr_div_pow2 by lia. change (2 ^ 22) with 4194304. change (2 ^ 12) with 4096.
  change 1023 with (Z.ones 10). rewrite Z.land_ones by lia. change (2 ^ 10) with 1024.
  unfold is_u32 in Hv. repeat split; dlia.
Qed.

(** A table made for slot [i] of [r], and nothing else. *)
Lemma new_table_step s R r i t fl a' m1 :
  vm_ok s R -> r ∈ R -> 0 <= i < 1024 -> Z.testbit (pde_at (vs_mem s) r i) 0 = false ->
  frames_grow (vs_frames s) a' -> fa_ok a' -> fa_used (vs_frames s) (t / 4096) = false -> page_frame a' t ->
  0 <= fl < 4096 /\ Z.testbit fl 0 = true /\ Z.testbit fl 7 = false ->
  mem_ok m1 ->
  (forall k, 0 <= k < 1024 -> rd m1 (t + KERNEL_VIRT_OFFSET + 4 * k) = 0) ->
  (forall x, x < t + KERNEL_VIRT_OFFSET \/ t + KERNEL_VIRT_OFFSET + 4096 <= x -> rd m1 x = rd (vs_mem s) x) ->
  let s' := mk_vmstate (wr m1 (r + KERNEL_VIRT_OFFSET + 4 * i) (Z.lor t fl)) a' (vs_cr3 s) (vs_invlpg s) in
  pt_step R r s s' /\ tbl (vs_mem s') r i = Some t /\
  (forall r' p, r' ∈ R -> 0 <= p < 1048576 -> walk (vs_mem s') r' p = walk (vs_mem s) r' p) /\
  (forall k, 0 <= k < 1024 -> pte_in (vs_mem s') t k = None).
Proof.
  intros [Hm Ha Ht] Hr Hi Hn Hg Hok Hfr Hpt Hfl Hm1 Hz Hsame s'.
  assert (Htb : forall r' j, r' ∈ R -> 0 <= j < 1024 ->
    tbl (vs_mem s') r' j = if bool_decide (r' = r /\ j = i) then Some t else tbl (vs_mem s) r' j).
  { intros r' j Hr' Hj. by apply (new_table_tbl (vs_mem s) (vs_frames s) R r i t fl a' m1). }
  assert (tbl (vs_mem s) r i = None) as Hri by (unfold tbl; by rewrite Hn).
  pose proof (t_root _ _ _ Ht r Hr) as Hpr.
  split; [split; try done|split; [|split]].
  - split; cbn; [|done | by apply (new_table_ok (vs_mem s) (vs_frames s))].
    apply mem_ok_wr; [done|]. apply page_flags_table; [apply Hpt | | by apply Hfl].
    destruct Hpt as (_ & Hlow & _). unfold is_u32, KERNEL_LOWMEM_LIMIT in *. lia.
  - intros r' j Hr' Hj Hne. rewrite Htb by done. rewrite bool_decide_false; [done | tauto].
  - intros j t' Hj Ht'. rewrite Htb by done. rewrite bool_decide_false; [done|]. intros [_ ->]. congruence.
  - intros j t' Hj. rewrite Htb by done. case_bool_decide; [|by left]. intros [= <-]. right. split; [apply Hpt | done].
  - intros r' j Hr' Hj. unfold shares. rewrite !Htb by done.
    destruct (Z.eqb_spec r' r) as [->|Hne]; [done|]. cbn [orb].
    rewrite (bool_decide_false (r' = r /\ j = i)) by tauto.
    case_bool_decide as D; [|done]. destruct D as [_ ->]. rewrite Hri.
    destruct (tbl (vs_mem s) r' i) as [t'|] eqn:Et'; [|done]. apply Z.eqb_neq.
    destruct (t_table _ _ _ Ht r' i t' Hr' Hi Et') as [(_ & _ & Hu & _) _]. intros ->. congruence.
  - intros x Hx. cbn. rewrite rd_wr_ne.
    + apply Hsame. destruct (Z.lt_ge_cases x (t + KERNEL_VIRT_OFFSET)); [by left|].
      destruct (Z.lt_ge_cases x (t + KERNEL_VIRT_OFFSET + 4096)); [|by right]. exfalso. apply Hx. exists t. split; [|lia].
      right. exists r, i. rewrite Htb, bool_decide_true by done. done.
    + intros <-. apply Hx. exists r. split; [by left | lia].
  - rewrite Htb by done. by rewrite bool_decide_true.
  - intros r' p Hr' Hp. by apply (new_table_walk (vs_mem s) (vs_frames s) R r i t fl a' m1).
  - intros k Hk. unfold pte_in. cbn. rewrite rd_wr_ne; [by rewrite Hz|].
    intros E. destruct (entry_inj a' r t i k (page_frame_grow _ _ _ Hg Hpr) Hpt Hi Hk E) as [-> _].
    destruct Hpr as (_ & _ & Hu & _). congruence.
Qed.

Lemma alloc_page_facts a t a' :
  fa_alloc_post a LOWMEM_FRAMES 1 (inr t) a' ->
  frames_grow a a' /\ fa_ok a' /\ fa_used a (t / 4096) = false /\ page_frame a' t.
Proof.
  intros (f & -> & _ & Hf & Hle & Hfree & Hok & Htot & Hu). unfold LOWMEM_FRAMES in Hle.
  rewrite Z.div_mul by lia. split; [|split; [done|split; [apply Hfree; lia|]]].
  - split; [done|]. intros j Hj Huj. rewrite Hu by done. rewrite Huj. apply orb_true_r.
  - split; [apply Z.mod_mul; lia|]. split; [unfold KERNEL_LOWMEM_LIMIT; lia|].
    rewrite Z.div_mul, Hu by lia. split; [by replace ((f <=? f) && (f <? f + 1)) with true by lia | lia].
Qed.

(** The outcome of mapping one page. *)
Definition map_page_post (R : list Z) (r va pa flags : Z) (s : vmstate A) (res : unit + Z) (s' : vmstate A) : Prop :=
  match res with
  | inr e => s' = s /\ e < 0 /\
      (walk (vs_mem s) r (va / 4096) <> None /\ e = - KERR_EXISTS \/
       walk (vs_mem s) r (va / 4096) = None /\ tbl (vs_mem s) r (va / 4096 / 1024) = None)
  | inl _ => walk (vs_mem s) r (va / 4096) = None /\ pt_step R r s s' /\
      page_set R r s s' (va / 4096) (Some (pte_of pa flags)) /\ vs_invlpg s' = va :: vs_invlpg s /\
      (tbl (vs_mem s) r (va / 4096 / 1024) <> None -> vs_frames s' = vs_frames s)
  end.

(** The second half of the loop body: the table of the page is there. *)
Lemma map_pte_wp s R r t pa flags va :
  vm_ok s R -> r ∈ R -> is_u32 va -> 0 <= pa -> pa mod 4096 = 0 ->
  tbl (vs_mem s) r (va / 4096 / 1024) = Some t ->
  wp (pte <-- zoom vs_mem set_vs_mem (load32 (word_at (PHYS_TO_VIRT t) ((va / 4096) mod 1024))) ;;
      if negb (Z.land pte X86_PTE_PRESENT =? 0) then ret (inr (- KERR_EXISTS))
      else
        zoom vs_mem set_vs_mem (store32 (word_at (PHYS_TO_VIRT t) ((va / 4096) mod 1024)) (pte_of pa flags)) ;;;
        x86_invlpg va ;;;
        ret (inl tt)) (map_page_post R r va pa flags s) s.
Proof.
  intros Hok Hr Hva Hpa Hal Ht. destruct (va_indices va Hva) as (_ & _ & Hi & Hk & Hp).
  destruct (t_table _ _ _ (v_tables _ _ Hok) r _ t Hr Hi Ht) as [Hpt _].
  destruct (entry_addr _ t _ Hpt Hk) as [Ea Hv]. rewrite Ea.
  wp_steps. apply load32_wp; [done|]. rewrite set_vs_mem_id. unfold X86_PTE_PRESENT.
  rewrite land_bit_zero, negb_involutive by lia.
  pose proof (walk_none_tbl _ _ _ _ Ht) as Hw. unfold pte_in in Hw.
  destruct (Z.testbit _ 0) eqn:Eb.
  - wp_steps. split; [done|]. split; [done|]. left. by rewrite Hw.
  - wp_steps. apply store32_wp; [done|]. unfold x86_invlpg. wp_steps.
    destruct (pte_of_spec pa flags Hpa Hal) as (Hu & _ & Hb).
    edestruct (set_pte_step s R r (va / 4096 / 1024) t ((va / 4096) mod 1024) (pte_of pa flags) (va :: vs_invlpg s))
      as [Hs Hset]; [done..|].
    split; [done|]. split; [exact Hs|]. split; [|by split].
    rewrite Hb in Hset. by replace (1024 * (va / 4096 / 1024) + (va / 4096) mod 1024) with (va / 4096) in Hset by dlia.
Qed.

Lemma map_page_wp s R r virt phys flags off :
  vm_ok s R -> r ∈ R -> is_u64 (phys + off) -> (phys + off) mod 4096 = 0 ->
  wp (map_page (PHYS_TO_VIRT r) virt phys flags off)
    (map_page_post R r (u32 (virt + off)) (phys + off) flags s) s.
Proof.
  intros Hok Hr Hpa Hal. set (va := u32 (virt + off)).
  destruct (va_indices va (u32_range _)) as (E1 & E2 & Hi & Hk & Hp).
  pose proof (v_tables _ _ Hok) as Ht.
  unfold map_page. fold va. rewrite E1, E2, (u64_id (phys + off)) by done.
  destruct (entry_addr _ r _ (t_root _ _ _ Ht r Hr) Hi) as [Ea Hv]. rewrite Ea.
  wp_steps. apply load32_wp; [done|]. rewrite set_vs_mem_id. fold (pde_at (vs_mem s) r (va / 4096 / 1024)).
  unfold X86_PDE_PRESENT, X86_PDE_PAGE_SIZE. rewrite !land_bit_zero by lia.
  destruct (Z.testbit (pde_at (vs_mem s) r (va / 4096 / 1024)) 0) eqn:Eb; cbn [negb].
  - rewrite (t_present _ _ _ Ht r _ Hr Hi Eb). cbn [negb]. apply wp_ret.
    apply (map_pte_wp s R r _ (phys + off) flags va); [done | done | apply u32_range | unfold is_u64 in Hpa; lia | done |].
    unfold tbl. rewrite Eb, (t_present _ _ _ Ht r _ Hr Hi Eb). done.
  - assert (tbl (vs_mem s) r (va / 4096 / 1024) = None) as Htn by (unfold tbl; by rewrite Eb).
    assert (walk (vs_mem s) r (va / 4096) = None) as Hwn by (unfold walk; by rewrite Htn).
    wp_steps. wp_use fa_alloc_lowmem_wp; [apply (v_frames _ _ Hok) | unfold is_u32; lia|].
    intros [e|t] a' Hpost.
    + destruct Hpost as [-> He]. wp_steps. rewrite set_vs_frames_id. split; [done|]. split; [lia|]. auto.
    + apply alloc_page_facts in Hpost as (Hg & Hoka & Hfr & Hpt).
      wp_steps. destruct (Hpt) as (Hta & Hlow & _). rewrite PHYS_TO_VIRT_lowmem by done.
      wp_use (memset_page_wp (vs_mem s) t); [apply (v_mem _ _ Hok) | done | done|].
      intros _ m1 (Hm1 & Hz & Hsame). wp_steps.
      destruct (pde_flags_small flags) as (Hf1 & Hf2 & Hf3).
      assert (u32 (Z.lor t (x86_vm_flags_to_pde flags)) = Z.lor t (x86_vm_flags_to_pde flags)) as ->.
      { apply u32_id. apply page_flags_table; [done | unfold is_u32, KERNEL_LOWMEM_LIMIT in *; lia | done]. }
      apply store32_wp; [done|]. wp_steps. apply load32_wp; [done|]. apply wp_ret. cbn [vs_mem set_vs_mem set_vs_frames].
      rewrite rd_wr_eq.
      edestruct (new_table_step s R r (va / 4096 / 1024) t (x86_vm_flags_to_pde flags) a' m1)
        as (Hs1 & Ht1 & Hw1 & Hp1); [done..|].
      set (s1 := mk_vmstate _ _ _ _) in Hs1, Ht1, Hw1, Hp1.
      assert (table_of (Z.lor t (x86_vm_flags_to_pde flags)) = t) as Et.
      { apply page_flags_table; [done | unfold is_u32, KERNEL_LOWMEM_LIMIT in *; lia | done]. }
      unfold table_of in Et. rewrite Et.
      change (set_vs_mem _ _) with s1.
      wp_use (map_pte_wp s1 R r t (phys + off) flags va); [apply (ps_ok _ _ _ _ Hs1) | done | apply u32_range
        | unfold is_u64 in Hpa; lia | done | done |].
      intros [[]|e] s'; cbn [map_page_post].
      * intros (_ & Hs' & Hset & Hinv & _). split; [done|]. split; [by eapply pt_step_trans|].
        split; [|split; [done|]; by rewrite Htn].
        intros r' p' Hr' Hp'. rewrite Hset by done.
        rewrite (ps_shares _ _ _ _ Hs1) by done. by rewrite Hw1.
      * intros (_ & _ & [[Hne _]|[_ Hno]]); [|congruence]. exfalso. apply Hne.
        rewrite (walk_none_tbl _ _ _ _ Ht1). by apply Hp1.
Qed.

(** *** Operations on ranges of pages

    The three loops change pages [p0], [p0 + 1], ... until they are done or a page
    is refused; [g i old] is the new entry of page [p0 + i]. *)

Definition range_set (R : list Z) (r : Z) (s s' : vmstate A) (p0 k : Z) (g : Z -> option Z -> option Z) : Prop :=
  forall r' p', r' ∈ R -> 0 <= p' < 1048576 ->
    walk (vs_mem s') r' p' =
      if ((p0 <=? p') && (p' <? p0 + k)) && shares (vs_mem s) r r' (p' / 1024)
      then g (p' - p0) (walk (vs_mem s) r p') else walk (vs_mem s) r' p'.

(** The outcome of a loop over [n] pages that changed the first [k] of them: [P]
    held of each, and a page [k] that was refused satisfies [E] of its table, its
    translation and the error. *)
Definition range_post (R : list Z) (r : Z) (s : vmstate A) (p0 n : Z) (g : Z -> option Z -> option Z)
    (P : option Z -> Prop) (E : option Z -> option Z -> Z -> Prop) (res : unit + Z) (s' : vmstate A) : Prop :=
  exists k, 0 <= k <= n /\ pt_step R r s s' /\ range_set R r s s' p0 k g /\
    (forall i, 0 <= i < k -> P (walk (vs_mem s) r (p0 + i))) /\
    (forall i, 0 <= i < k -> 4096 * (p0 + i) ∈ vs_invlpg s') /\
    ((forall i, 0 <= i < k -> tbl (vs_mem s) r ((p0 + i) / 1024) <> None) -> vs_frames s' = vs_frames s) /\
    match res with
    | inl _ => k = n
    | inr e => k < n /\ E (tbl (vs_mem s) r ((p0 + k) / 1024)) (walk (vs_mem s) r (p0 + k)) e
    end.

Section PageLoop.
Context (R : list Z) (r p0 n : Z) (body : Z -> unit -> M (vmstate A) (unit + Z)).
Context (g : Z -> option Z -> option Z) (P : option Z -> Prop) (E : option Z -> option Z -> Z -> Prop).
Hypothesis H_r : r ∈ R.
Hypothesis H_n : 0 <= n /\ 0 <= p0 /\ p0 + n <= 1048576.
Hypothesis H_body : forall i s, 0 <= i < n -> vm_ok s R ->
  wp (body i tt) (fun res s' =>
    match res with
    | inl _ => P (walk (vs_mem s) r (p0 + i)) /\ pt_step R r s s' /\
        page_set R r s s' (p0 + i) (g i (walk (vs_mem s) r (p0 + i))) /\
        vs_invlpg s' = 4096 * (p0 + i) :: vs_invlpg s /\
        (tbl (vs_mem s) r ((p0 + i) / 1024) <> None -> vs_frames s' = vs_frames s)
    | inr e => s' = s /\ E (tbl (vs_mem s) r ((p0 + i) / 1024)) (walk (vs_mem s) r (p0 + i)) e
    end) s.
Hypothesis H_E : forall t t' old e, (forall x, t = Some x -> t' = Some x) -> E t' old e -> E t old e.

Lemma page_loop_wp s : vm_ok s R -> wp (for_lt 0 n tt body) (range_post R r s p0 n g P E) s.
Proof.
  intros Hok.
  apply (wp_for_lt (fun k _ s' => pt_step R r s s' /\ range_set R r s s' p0 k g /\
    (forall i, 0 <= i < k -> P (walk (vs_mem s) r (p0 + i))) /\
    (forall i, 0 <= i < k -> 4096 * (p0 + i) ∈ vs_invlpg s') /\
    ((forall i, 0 <= i < k -> tbl (vs_mem s) r ((p0 + i) / 1024) <> None) -> vs_frames s' = vs_frames s))).
  - split; [by apply pt_step_refl|]. split; [|split; [lia|split; [lia | done]]]. intros r' p' Hr' Hp'.
    by replace ((p0 <=? p') && (p' <? p0 + 0)) with false by lia.
  - intros k [] s1 Hk (Hs & Hset & HP & Hinv & Hfr).
    assert (walk (vs_mem s1) r (p0 + k) = walk (vs_mem s) r (p0 + k)) as Ew.
    { rewrite Hset by (done || lia). by replace ((p0 <=? p0 + k) && (p0 + k <? p0 + k)) with false by lia. }
    wp_use H_body; [done | apply (ps_ok _ _ _ _ Hs)|]. rewrite Ew. intros [[]|e] s2.
    + intros (HPk & Hs2 & Hset2 & Hinv2 & Hfr2). split; [by eapply pt_step_trans|]. split; [|split; [|split]].
      * intros r' p' Hr' Hp'. rewrite Hset2 by done. rewrite (ps_shares _ _ _ _ Hs) by (done || dlia).
        destruct (Z.eqb_spec p' (p0 + k)) as [->|Hne].
        -- replace ((p0 <=? p0 + k) && (p0 + k <? p0 + (k + 1))) with true by lia.
           replace (p0 + k - p0) with k by lia. cbn [andb]. destruct (shares _ _ _ _); [done|].
           rewrite Hset by done. by replace ((p0 <=? p0 + k) && (p0 + k <? p0 + k)) with false by lia.
        -- cbn [andb]. rewrite Hset by done.
           by replace ((p0 <=? p') && (p' <? p0 + (k + 1))) with ((p0 <=? p') && (p' <? p0 + k)) by lia.
      * intros i Hi. destruct (Z.eq_dec i k) as [->|]; [done | apply HP; lia].
      * intros i Hi. rewrite Hinv2. apply elem_of_cons.
        destruct (Z.eq_dec i k) as [->|]; [by left | right; apply Hinv; lia].
      * intros Htb. rewrite Hfr2, Hfr; [done | intros i Hi; apply Htb; lia|].
        pose proof (Htb k ltac:(lia)) as Hk'. destruct (tbl (vs_mem s) r ((p0 + k) / 1024)) as [t|] eqn:Et; [|done].
        by rewrite (ps_mono _ _ _ _ Hs _ t) by (done || dlia).
    + intros [-> HE]. exists k. split; [lia|]. do 5 (split; [done|]). split; [lia|].
      eapply H_E; [|exact HE]. intros x Hx. apply (ps_mono _ _ _ _ Hs); [dlia | done].
  - intros [] s1 (Hs & Hset & HP & Hinv & Hfr). replace (Z.max 0 n) with n in * by lia.
    exists n. split; [lia|]. done.
Qed.
End PageLoop.

(** Arguments [arch_vm_map] accepts, for a range inside the address space. *)
Definition map_args_ok (virt phys size : Z) : Prop :=
  0 < size /\ virt mod 4096 = 0 /\ phys mod 4096 = 0 /\ size mod 4096 = 0.

Lemma align_tests x y z :
  (negb (ALIGN_TEST x X86_PAGE_SIZE) || negb (ALIGN_TEST y X86_PAGE_SIZE) || negb (ALIGN_TEST z X86_PAGE_SIZE)) =
  negb (bool_decide (x mod 4096 = 0 /\ y mod 4096 = 0 /\ z mod 4096 = 0)).
Proof.
  unfold ALIGN_TEST, X86_PAGE_SIZE.
  destruct (Z.eqb_spec (x mod 4096) 0), (Z.eqb_spec (y mod 4096) 0), (Z.eqb_spec (z mod 4096) 0);
    cbn; case_bool_decide; tauto.
Qed.

(** The code a loop returns. *)
Definition loop_code (o : unit + Z) : Z := match o with inl _ => KERR_OK | inr e => e end.

Lemma loop_code_wp (o : unit + Z) (Q : Z -> vmstate A -> Prop) s :
  Q (loop_code o) s -> wp (match o with inl _ => ret KERR_OK | inr e => ret e end) Q s.
Proof. by destruct o. Qed.

Lemma arch_vm_map_wp s R v virt phys size flags :
  vm_ok s R -> pd_phys v ∈ R -> 0 <= virt -> 0 <= size -> virt + size <= 4294967296 ->
  0 <= phys -> phys + size <= 18446744073709551616 ->
  wp (arch_vm_map (Some v) virt phys size flags) (fun res s' =>
    (~ map_args_ok virt phys size /\ res = - KERR_INVAL /\ s' = s) \/
    (map_args_ok virt phys size /\ exists o, res = loop_code o /\
     range_post R (pd_phys v) s (virt / 4096) (size / 4096)
       (fun i _ => Some (pte_of (phys + 4096 * i) flags)) (fun old => old = None)
       (fun t old e => e < 0 /\ (old <> None -> e = - KERR_EXISTS) /\ (old = None -> t = None)) o s')) s.
Proof.
  intros Hok Hr Hv0 Hs0 Hvs Hp0 Hps. unfold arch_vm_map, map_args_ok.
  destruct (Z.eqb_spec size 0) as [->|Hne]; [wp_step; left; split; [lia | done]|].
  rewrite align_tests. case_bool_decide as Hal; cbn [negb]; [|wp_steps; left; split; [tauto | done]].
  destruct Hal as (Ha1 & Ha2 & Ha3). wp_step.
  eapply wp_mono; [apply (page_loop_wp R (pd_phys v) (virt / 4096) (size / X86_PAGE_SIZE)) with
    (g := fun i _ => Some (pte_of (phys + 4096 * i) flags)) (P := fun old => old = None)
    (E := fun t old e => e < 0 /\ (old <> None -> e = - KERR_EXISTS) /\ (old = None -> t = None))|].
  - done.
  - unfold X86_PAGE_SIZE. dlia.
  - unfold X86_PAGE_SIZE. intros i s1 Hi Hok1.
    assert (u32 (virt + i * 4096) = virt + i * 4096) as Eva by (apply u32_id; unfold is_u32; dlia).
    eapply wp_mono; [apply map_page_wp; [exact Hok1 | exact Hr | unfold is_u64; dlia | dlia]|].
    rewrite Eva. replace ((virt + i * 4096) / 4096) with (virt / 4096 + i) by dlia.
    unfold map_page_post. replace ((virt + i * 4096) / 4096) with (virt / 4096 + i) by dlia.
    intros [[]|e] s2.
    + intros (H1 & H2 & H3 & H4 & H5). split; [done|]. split; [done|].
      replace (phys + 4096 * i) with (phys + i * 4096) by lia. split; [done|]. split; [rewrite H4; f_equal; dlia | done].
    + intros (H1 & H2 & H3). split; [done|]. split; [done|]. tauto.
  - intros t t' old e Hx (H1 & H2 & H3). split; [done|]. split; [done|]. intros Ho. specialize (H3 Ho). subst t'.
    destruct t as [x|]; [|done]. by specialize (Hx x eq_refl).
  - done.
  - intros o s' Ho. apply loop_code_wp. right. split; [lia|]. by exists o.
Qed.

(** *** Lookups *)

Lemma find_pte_wp s R r va :
  vm_ok s R -> r ∈ R -> is_u32 va ->
  wp (find_pte (PHYS_TO_VIRT r) va) (fun res s' => s' = s /\
    match res with
    | inr e => walk (vs_mem s) r (va / 4096) = None /\ e = - KERR_NOENT
    | inl (p, pte) => walk (vs_mem s) r (va / 4096) = Some pte /\
        exists t, tbl (vs_mem s) r (va / 4096 / 1024) = Some t /\ page_frame (vs_frames s) t /\
          p = t + KERNEL_VIRT_OFFSET + 4 * ((va / 4096) mod 1024)
    end) s.
Proof.
  intros Hok Hr Hva. destruct (va_indices va Hva) as (E1 & E2 & Hi & Hk & Hp).
  pose proof (v_tables _ _ Hok) as Ht. unfold find_pte. rewrite E1, E2.
  destruct (entry_addr _ r _ (t_root _ _ _ Ht r Hr) Hi) as [Ea Hv]. rewrite Ea.
  wp_steps. apply load32_wp; [done|]. rewrite set_vs_mem_id. fold (pde_at (vs_mem s) r (va / 4096 / 1024)).
  unfold X86_PDE_PRESENT, X86_PDE_PAGE_SIZE. rewrite !land_bit_zero by lia.
  destruct (Z.testbit (pde_at (vs_mem s) r (va / 4096 / 1024)) 0) eqn:Eb; cbn [negb].
  - pose proof (t_present _ _ _ Ht r _ Hr Hi Eb) as E7. rewrite E7. cbn [negb].
    assert (tbl (vs_mem s) r (va / 4096 / 1024) = Some (table_of (pde_at (vs_mem s) r (va / 4096 / 1024)))) as Htb
      by (unfold tbl; by rewrite Eb, E7).
    destruct (t_table _ _ _ Ht r _ _ Hr Hi Htb) as [Hpt _].
    destruct (entry_addr _ _ _ Hpt Hk) as [Et Hvt]. unfold table_of in Et, Hvt. rewrite Et. wp_steps.
    apply load32_wp; [done|]. rewrite set_vs_mem_id. unfold X86_PTE_PRESENT. rewrite land_bit_zero by lia.
    pose proof (walk_none_tbl _ _ _ _ Htb) as Hw. unfold pte_in, table_of in Hw.
    destruct (Z.testbit (rd _ _) 0) eqn:Ep; cbn [negb]; wp_steps; (split; [done|]); rewrite Hw; [|done].
    split; [done|]. exists (table_of (pde_at (vs_mem s) r (va / 4096 / 1024))). done.
  - wp_steps. split; [done|]. unfold walk, tbl. by rewrite Eb.
Qed.

Lemma align_tests2 x y :
  (negb (ALIGN_TEST x X86_PAGE_SIZE) || negb (ALIGN_TEST y X86_PAGE_SIZE)) =
  negb (bool_decide (x mod 4096 = 0 /\ y mod 4096 = 0)).
Proof.
  unfold ALIGN_TEST, X86_PAGE_SIZE.
  destruct (Z.eqb_spec (x mod 4096) 0), (Z.eqb_spec (y mod 4096) 0); cbn; case_bool_decide; tauto.
Qed.

Definition range_args_ok (virt size : Z) : Prop := 0 < size /\ virt mod 4096 = 0 /\ size mod 4096 = 0.

(** Replace the entry found at [va] by [v]. *)
Lemma replace_pte_step s R r va t v :
  vm_ok s R -> r ∈ R -> is_u32 va -> va mod 4096 = 0 -> is_u32 v ->
  tbl (vs_mem s) r (va / 4096 / 1024) = Some t ->
  let s' := mk_vmstate (wr (vs_mem s) (t + KERNEL_VIRT_OFFSET + 4 * ((va / 4096) mod 1024)) v)
              (vs_frames s) (vs_cr3 s) (va :: vs_invlpg s) in
  pt_step R r s s' /\ page_set R r s s' (va / 4096) (if Z.testbit v 0 then Some v else None) /\
  vs_invlpg s' = 4096 * (va / 4096) :: vs_invlpg s /\
  (tbl (vs_mem s) r (va / 4096 / 1024) <> None -> vs_frames s' = vs_frames s).
Proof.
  intros Hok Hr Hva Hal Hv Ht s'. destruct (va_indices va Hva) as (_ & _ & Hi & Hk & _).
  edestruct (set_pte_step s R r (va / 4096 / 1024) t ((va / 4096) mod 1024) v (va :: vs_invlpg s)) as [Hs Hset];
    [done..|].
  split; [exact Hs|]. replace (1024 * (va / 4096 / 1024) + (va / 4096) mod 1024) with (va / 4096) in Hset by dlia.
  split; [exact Hset|]. split; [cbn; f_equal; dlia | done].
Qed.

Lemma arch_vm_unmap_wp s R v virt size :
  vm_ok s R -> pd_phys v ∈ R -> 0 <= virt -> 0 <= size -> virt + size <= 4294967296 ->
  wp (arch_vm_unmap (Some v) virt size) (fun res s' =>
    (~ range_args_ok virt size /\ res = - KERR_INVAL /\ s' = s) \/
    (range_args_ok virt size /\ exists o, res = loop_code o /\
     range_post R (pd_phys v) s (virt / 4096) (size / 4096) (fun _ _ => None) (fun old => old <> None)
       (fun _ old e => old = None /\ e = - KERR_NOENT) o s')) s.
Proof.
  intros Hok Hr Hv0 Hs0 Hvs. unfold arch_vm_unmap, range_args_ok.
  destruct (Z.eqb_spec size 0) as [->|Hne]; [wp_step; left; split; [lia | done]|].
  rewrite align_tests2. case_bool_decide as Hal; cbn [negb]; [|wp_steps; left; split; [tauto | done]].
  destruct Hal as (Ha1 & Ha3). wp_step.
  eapply wp_mono; [apply (page_loop_wp R (pd_phys v) (virt / 4096) (size / X86_PAGE_SIZE)) with
    (g := fun _ _ => None) (P := fun old => old <> None) (E := fun _ old e => old = None /\ e = - KERR_NOENT)|].
  - done.
  - unfold X86_PAGE_SIZE. dlia.
  - unfold X86_PAGE_SIZE, unmap_page. intros i s1 Hi Hok1.
    assert (is_u32 (virt + i * 4096)) as Hva by (unfold is_u32; dlia). rewrite (u32_id _ Hva).
    replace (virt / 4096 + i) with ((virt + i * 4096) / 4096) by dlia.
    wp_step. wp_use find_pte_wp; [exact Hok1 | exact Hr | exact Hva|]. intros [[p pte]|e] s2 [-> Hf].
    + destruct Hf as (Hw & t & Ht & Hpt & ->). wp_steps.
      destruct (va_indices _ Hva) as (_ & _ & _ & Hk & _). destruct (entry_addr _ t _ Hpt Hk) as [_ Hvt].
      apply store32_wp; [done|]. unfold x86_invlpg. wp_steps. split; [by rewrite Hw|].
      apply (replace_pte_step s1 R (pd_phys v) (virt + i * 4096) t 0); [done | done | done | dlia | done | done].
    + by wp_steps.
  - done.
  - done.
  - intros o s' Ho. apply loop_code_wp. right. split; [lia|]. by exists o.
Qed.

(** The entry [old] with its permissions replaced. *)
Definition reprotect (flags : Z) (old : option Z) : option Z :=
  match old with Some pte => Some (Z.lor (table_of pte) (x86_vm_flags_to_pte flags)) | None => None end.

Lemma arch_vm_protect_wp s R v virt size flags :
  vm_ok s R -> pd_phys v ∈ R -> 0 <= virt -> 0 <= size -> virt + size <= 4294967296 ->
  wp (arch_vm_protect (Some v) virt size flags) (fun res s' =>
    (~ range_args_ok virt size /\ res = - KERR_INVAL /\ s' = s) \/
    (range_args_ok virt size /\ exists o, res = loop_code o /\
     range_post R (pd_phys v) s (virt / 4096) (size / 4096) (fun _ => reprotect flags) (fun old => old <> None)
       (fun _ old e => old = None /\ e = - KERR_NOENT) o s')) s.
Proof.
  intros Hok Hr Hv0 Hs0 Hvs. unfold arch_vm_protect, range_args_ok.
  destruct (Z.eqb_spec size 0) as [->|Hne]; [wp_step; left; split; [lia | done]|].
  rewrite align_tests2. case_bool_decide as Hal; cbn [negb]; [|wp_steps; left; split; [tauto | done]].
  destruct Hal as (Ha1 & Ha3). wp_step.
  eapply wp_mono; [apply (page_loop_wp R (pd_phys v) (virt / 4096) (size / X86_PAGE_SIZE)) with
    (g := fun _ => reprotect flags) (P := fun old => old <> None) (E := fun _ old e => old = None /\ e = - KERR_NOENT)|].
  - done.
  - unfold X86_PAGE_SIZE. dlia.
  - unfold X86_PAGE_SIZE, protect_page. intros i s1 Hi Hok1.
    assert (is_u32 (virt + i * 4096)) as Hva by (unfold is_u32; dlia). rewrite (u32_id _ Hva).
    replace (virt / 4096 + i) with ((virt + i * 4096) / 4096) by dlia.
    wp_step. wp_use find_pte_wp; [exact Hok1 | exact Hr | exact Hva|]. intros [[p pte]|e] s2 [-> Hf].
    + destruct Hf as (Hw & t & Ht & Hpt & ->). wp_steps.
      destruct (va_indices _ Hva) as (_ & _ & _ & Hk & _). destruct (entry_addr _ t _ Hpt Hk) as [_ Hvt].
      assert (is_u32 pte) as Hpte.
      { rewrite (walk_none_tbl _ _ _ _ Ht) in Hw. unfold pte_in in Hw. case_match; [|done].
        injection Hw as <-. apply (v_mem _ _ Hok1). }
      destruct (pte_flags_small flags) as [Hf1 Hf2].
      assert (table_of pte mod 4096 = 0 /\ is_u32 (table_of pte)) as [Hta Htu].
      { unfold table_of. rewrite land_page_mask by done. unfold is_u32 in *. dlia. }
      destruct (page_flags_table (table_of pte) (x86_vm_flags_to_pte flags) Hta Htu Hf1) as [Hnu _].
      fold (table_of pte). rewrite u32_id by done.
      apply store32_wp; [done|]. unfold x86_invlpg. wp_steps. split; [by rewrite Hw|].
      pose proof (replace_pte_step s1 R (pd_phys v) (virt + i * 4096) t _ Hok1 Hr Hva ltac:(dlia) Hnu Ht) as Hst.
      rewrite page_flags_bits, Hf2 in Hst by (done || lia). rewrite Hw. exact Hst.
    + by wp_steps.
  - done.
  - done.
  - intros o s' Ho. apply loop_code_wp. right. split; [lia|]. by exists o.
Qed.

Lemma arch_vm_translate_wp s R v virt :
  vm_ok s R -> pd_phys v ∈ R -> is_u32 virt ->
  wp (arch_vm_translate (Some v) virt true) (fun res s' => s' = s /\
    res = match walk (vs_mem s) (pd_phys v) (virt / 4096) with
          | Some pte => inr (table_of pte + virt mod 4096)
          | None => inl (- KERR_NOENT)
          end) s.
Proof.
  intros Hok Hr Hva. unfold arch_vm_translate. cbn [negb]. wp_step.
  wp_use find_pte_wp; [exact Hok | exact Hr | exact Hva|]. intros [[p pte]|e] s2 [-> Hf].
  - destruct Hf as (Hw & t & Ht & _). rewrite Hw. wp_steps. split; [done|]. f_equal.
    assert (is_u32 pte) as Hpte.
    { rewrite (walk_none_tbl _ _ _ _ Ht) in Hw. unfold pte_in in Hw. case_match; [|done].
      injection Hw as <-. apply (v_mem _ _ Hok). }
    change (X86_PAGE_SIZE - 1) with (Z.ones 12). rewrite Z.land_ones by lia. change (2 ^ 12) with 4096.
    fold (table_of pte).
    assert (table_of pte mod 4096 = 0) as Hta.
    { unfold table_of. rewrite land_page_mask by done. unfold is_u32 in *. dlia. }
    apply page_or_add; [done | dlia].
  - destruct Hf as [-> ->]. by wp_steps.
Qed.

(** *** Creating and destroying spaces *)

(** A zeroed fresh page is an empty address space. *)
Lemma new_root_step s R t a' m1 :
  vm_ok s R -> frames_grow (vs_frames s) a' -> fa_ok a' ->
  fa_used (vs_frames s) (t / 4096) = false -> page_frame a' t -> mem_ok m1 ->
  (forall k, 0 <= k < 1024 -> rd m1 (t + KERNEL_VIRT_OFFSET + 4 * k) = 0) ->
  (forall x, x < t + KERNEL_VIRT_OFFSET \/ t + KERNEL_VIRT_OFFSET + 4096 <= x -> rd m1 x = rd (vs_mem s) x) ->
  let s' := mk_vmstate m1 a' (vs_cr3 s) (vs_invlpg s) in
  (t ∉ R) /\ vm_ok s' (t :: R) /\
  (forall i, 0 <= i < 1024 -> pde_at m1 t i = 0) /\
  (forall p, 0 <= p < 1048576 -> walk m1 t p = None) /\
  (forall r p, r ∈ R -> 0 <= p < 1048576 -> walk m1 r p = walk (vs_mem s) r p).
Proof.
  intros [Hm Ha Ht] Hg Hok Hfr Hpt Hm1 Hz Hsame s'.
  assert (Hold : forall t', page_frame (vs_frames s) t' -> t' <> t /\ forall k, 0 <= k < 1024 ->
    rd m1 (t' + KERNEL_VIRT_OFFSET + 4 * k) = rd (vs_mem s) (t' + KERNEL_VIRT_OFFSET + 4 * k)).
  { intros t' (T1 & T2 & T3 & _). destruct Hpt as (T4 & T5 & _).
    assert (t' <> t) as Hne by (intros ->; congruence). split; [done|]. intros k Hk. apply Hsame. dlia. }
  assert (Hpz : forall i, 0 <= i < 1024 -> pde_at m1 t i = 0) by (intros i Hi; by apply Hz).
  assert (Htz : forall i, 0 <= i < 1024 -> tbl m1 t i = None).
  { intros i Hi. unfold tbl. by rewrite Hpz. }
  assert (Hpo : forall r i, r ∈ R -> 0 <= i < 1024 -> pde_at m1 r i = pde_at (vs_mem s) r i).
  { intros r i Hr Hi. by apply (Hold r (t_root _ _ _ Ht r Hr)). }
  assert (Hto : forall r i, r ∈ R -> 0 <= i < 1024 -> tbl m1 r i = tbl (vs_mem s) r i).
  { intros r i Hr Hi. unfold tbl. by rewrite Hpo. }
  assert (t ∉ R) as HtR by (intros Hin; by destruct (Hold t (t_root _ _ _ Ht t Hin)) as [? _]).
  split; [done|]. split; [|split; [done|split]].
  - split; [done | done|]. split.
    + intros r [->|Hr]%elem_of_cons; [done|]. by apply (page_frame_grow (vs_frames s)), (t_root _ _ _ Ht).
    + intros r i [->|Hr]%elem_of_cons Hi; [by rewrite Hpz|]. cbn. rewrite Hpo by done. by apply (t_present _ _ _ Ht).
    + cbn. intros r i t' [->|Hr]%elem_of_cons Hi; [by rewrite Htz|]. rewrite Hto by done. intros Ht'.
      destruct (t_table _ _ _ Ht r i t' Hr Hi Ht') as [Hpt' HnR].
      split; [by apply (page_frame_grow (vs_frames s))|].
      intros [->|?]%elem_of_cons; [|done]. by destruct (Hold t Hpt').
    + cbn. intros r r' i j t' [->|Hr]%elem_of_cons [->|Hr']%elem_of_cons Hi Hj; rewrite ?Htz by done; try done.
      rewrite !Hto by done. by apply (t_inj _ _ _ Ht).
  - intros p Hp. unfold walk. by rewrite Htz by dlia.
  - intros r p Hr Hp. unfold walk. rewrite Hto by (done || dlia).
    destruct (tbl (vs_mem s) r (p / 1024)) as [t'|] eqn:Et'; [|done].
    destruct (t_table _ _ _ Ht r (p / 1024) t' Hr ltac:(dlia) Et') as [Hpt' _].
    destruct (Hold t' Hpt') as [_ Hx]. unfold pte_in. by rewrite Hx by dlia.
Qed.

Lemma arch_vm_space_init_wp s R v :
  vm_ok s R ->
  wp (arch_vm_space_init (Some v)) (fun res s' =>
    (exists e, res = (e, Some v) /\ e < 0 /\ s' = s /\ - KERR_MAX_ERRNO <= e) \/
    (exists t, res = (KERR_OK, Some (mk_space t)) /\ (t ∉ R) /\ vm_ok s' (t :: R) /\ vs_cr3 s' = vs_cr3 s /\
       frames_grow (vs_frames s) (vs_frames s') /\ fa_used (vs_frames s) (t / 4096) = false /\
       (forall i, 0 <= i < 1024 -> pde_at (vs_mem s') t i = 0) /\
       (forall p, 0 <= p < 1048576 -> walk (vs_mem s') t p = None) /\
       (forall r p, r ∈ R -> 0 <= p < 1048576 -> walk (vs_mem s') r p = walk (vs_mem s) r p) /\
       (forall r i, r ∈ R -> 0 <= i < 1024 -> tbl (vs_mem s') r i = tbl (vs_mem s) r i) /\
       page_frame (vs_frames s') t /\
       (forall j, 0 <= j -> fa_used (vs_frames s') j = (j =? t / 4096) || fa_used (vs_frames s) j) /\
       (forall a, a < t + KERNEL_VIRT_OFFSET \/ t + KERNEL_VIRT_OFFSET + 4096 <= a -> rd (vs_mem s') a = rd (vs_mem s) a))) s.
Proof.
  intros Hok. unfold arch_vm_space_init. wp_steps.
  wp_use fa_alloc_lowmem_wp; [apply (v_frames _ _ Hok) | unfold is_u32; lia|]. intros [e|t] a' Hpost.
  - destruct Hpost as [-> He]. wp_steps. left. exists e. split; [done|]. split; [lia|]. split; [by destruct s | lia].
  - assert (forall j, 0 <= j -> fa_used a' j = (j =? t / 4096) || fa_used (vs_frames s) j) as Hu.
    { destruct Hpost as (f & -> & _ & _ & _ & _ & _ & _ & Hu). intros j Hj. rewrite Hu by done. f_equal.
      rewrite Z.div_mul by lia. lia. }
    apply alloc_page_facts in Hpost as (Hg & Hoka & Hfr & Hpt). wp_steps.
    destruct (Hpt) as (Hta & Hlow & _). rewrite PHYS_TO_VIRT_lowmem by done.
    wp_use (memset_page_wp (vs_mem s) t); [apply (v_mem _ _ Hok) | done | done|].
    intros _ m1 (Hm1 & Hz & Hsame). wp_steps. right. exists t. split; [done|].
    edestruct (new_root_step s R t a' m1) as (H1 & H2 & H3 & H4 & H5); [done..|].
    split; [done|]. split; [done|]. do 6 (split; [done|]). split; [|done].
    intros r i Hr Hi. unfold tbl. assert (pde_at m1 r i = pde_at (vs_mem s) r i) as E; [|by cbn; rewrite E].
    apply Hsame. destruct (t_root _ _ _ (v_tables _ _ Hok) r Hr) as (Hra & _ & Hru & _).
    assert (r / 4096 <> t / 4096) by congruence. dlia.
Qed.

(** [arch_vm_kernel_prepare] gives every kernel slot a table and maps nothing. *)
Lemma arch_vm_kernel_prepare_wp s R v :
  vm_ok s R -> pd_phys v ∈ R ->
  (forall i, X86_KERNEL_PDE_BASE <= i < 1024 -> Z.testbit (pde_at (vs_mem s) (pd_phys v) i) 0 = false) ->
  wp (arch_vm_kernel_prepare (Some v)) (fun res s' =>
    pt_step R (pd_phys v) s s' /\
    (forall r p, r ∈ R -> 0 <= p < 1048576 -> walk (vs_mem s') r p = walk (vs_mem s) r p) /\
    (res < 0 \/ res = KERR_OK /\
       forall i, X86_KERNEL_PDE_BASE <= i < 1024 -> exists t, tbl (vs_mem s') (pd_phys v) i = Some t)) s.
Proof.
  intros Hok Hr Hnone. unfold arch_vm_kernel_prepare. set (r := pd_phys v) in *. wp_step.
  unfold X86_KERNEL_PDE_BASE, X86_PDE_COUNT in *.
  apply (wp_for_lt (fun i _ s' => pt_step R r s s' /\
    (forall r' p, r' ∈ R -> 0 <= p < 1048576 -> walk (vs_mem s') r' p = walk (vs_mem s) r' p) /\
    (forall j, i <= j < 1024 -> tbl (vs_mem s') r j = None /\ Z.testbit (pde_at (vs_mem s') r j) 0 = false) /\
    (forall j, 768 <= j < i -> exists t, tbl (vs_mem s') r j = Some t))).
  - split; [by apply pt_step_refl|]. split; [done|]. split; [|lia].
    intros j Hj. split; [unfold tbl; by rewrite Hnone | by apply Hnone].
  - intros i [] s1 Hi (Hs & Hw & Hno & Hyes). pose proof (ps_ok _ _ _ _ Hs) as Hok1.
    wp_steps. wp_use fa_alloc_lowmem_wp; [apply (v_frames _ _ Hok1) | unfold is_u32; lia|]. intros [e|t] a' Hpost.
    + destruct Hpost as [-> He]. wp_steps. rewrite set_vs_frames_id. split; [done|]. split; [done|]. left. lia.
    + apply alloc_page_facts in Hpost as (Hg & Hoka & Hfr & Hpt). wp_steps.
      destruct (Hpt) as (Hta & Hlow & _). rewrite PHYS_TO_VIRT_lowmem by done.
      wp_use (memset_page_wp (vs_mem s1) t); [apply (v_mem _ _ Hok1) | done | done|].
      intros _ m1 (Hm1 & Hz & Hsame). wp_steps.
      destruct (entry_addr _ r i (t_root _ _ _ (v_tables _ _ Hok1) r Hr) ltac:(lia)) as [Ea Hv]. rewrite Ea.
      rewrite <- Z.lor_assoc. change (Z.lor X86_PDE_PRESENT X86_PDE_WRITABLE) with 3.
      rewrite u32_id by (apply page_flags_table; [done | unfold is_u32, KERNEL_LOWMEM_LIMIT in *; lia | lia]).
      apply store32_wp; [done|]. wp_steps.
      destruct (Hno i ltac:(lia)) as [Hti Hpi].
      edestruct (new_table_step s1 R r i t 3 a' m1) as (Hs1 & Ht1 & Hw1 & _); [done | done | lia | done..|].
      split; [by eapply pt_step_trans|]. split; [|split].
      * intros r' p Hr' Hp. cbn. rewrite Hw1 by done. by apply Hw.
      * intros j Hj. assert (Ej : pde_at (wr m1 (r + KERNEL_VIRT_OFFSET + 4 * i) (Z.lor t 3)) r j = pde_at (vs_mem s1) r j).
        { rewrite (new_table_pde (vs_mem s1) (vs_frames s1) R r i t 3 a' m1);
            [rewrite bool_decide_false; [done | lia] | first [done | lia | apply (v_tables _ _ Hok1)]..]. }
        destruct (Hno j ltac:(lia)) as [Htj Hpj]. split; [unfold tbl | ]; cbn [vs_mem set_vs_mem set_vs_frames]; by rewrite Ej, Hpj.
      * intros j Hj. destruct (Z.eq_dec j i) as [->|]; [by exists t|].
        destruct (Hyes j ltac:(lia)) as [t' Ht']. exists t'. apply (ps_mono _ _ _ _ Hs1); [lia | done].
  - intros [] s1 (Hs & Hw & _ & Hyes). wp_steps. split; [done|]. split; [done|]. right. split; [done|].
    intros i Hi. apply Hyes. lia.
Qed.

(** Sharing the kernel half: slots 768 to 1023 of [r] become those of [k]. *)
Section Attach.
Context (m m' : mem) (a : A) (R : list Z) (r k : Z).
Hypothesis H_ok : tables_ok m a R.
Hypothesis H_r : r ∈ R.
Hypothesis H_k : k ∈ R.
Hypothesis H_new : forall i, 768 <= i < 1024 -> rd m' (r + KERNEL_VIRT_OFFSET + 4 * i) = pde_at m k i.
Hypothesis H_old : forall x, (forall i, 768 <= i < 1024 -> x <> r + KERNEL_VIRT_OFFSET + 4 * i) -> rd m' x = rd m x.

Lemma attach_pde r' i : r' ∈ R -> 0 <= i < 1024 ->
  pde_at m' r' i = if bool_decide (r' = r /\ 768 <= i) then pde_at m k i else pde_at m r' i.
Proof.
  intros Hr' Hi. case_bool_decide as D.
  - destruct D as [-> D]. apply H_new. lia.
  - unfold pde_at. apply H_old. intros j Hj E.
    destruct (entry_inj a r' r i j (t_root _ _ _ H_ok r' Hr') (t_root _ _ _ H_ok r H_r) Hi ltac:(lia) E)
      as [-> ->]. apply D. split; [done | lia].
Qed.

Lemma attach_tbl r' i : r' ∈ R -> 0 <= i < 1024 ->
  tbl m' r' i = if bool_decide (r' = r /\ 768 <= i) then tbl m k i else tbl m r' i.
Proof. intros Hr' Hi. unfold tbl. rewrite attach_pde by done. by case_bool_decide. Qed.

Lemma attach_ok : tables_ok m' a R.
Proof.
  split.
  - apply (t_root _ _ _ H_ok).
  - intros r' i Hr' Hi. rewrite attach_pde by done. case_bool_decide; by apply (t_present _ _ _ H_ok).
  - intros r' i t Hr' Hi. rewrite attach_tbl by done. case_bool_decide; by apply (t_table _ _ _ H_ok).
  - intros r1 r2 i j t Hr1 Hr2 Hi Hj. rewrite !attach_tbl by done. unfold X86_KERNEL_PDE_BASE.
    case_bool_decide as D1; case_bool_decide as D2; intros T1 T2.
    + destruct (t_inj _ _ _ H_ok k k i j t H_k H_k Hi Hj T1 T2). lia.
    + destruct (t_inj _ _ _ H_ok k r2 i j t H_k Hr2 Hi Hj T1 T2). lia.
    + destruct (t_inj _ _ _ H_ok r1 k i j t Hr1 H_k Hi Hj T1 T2). lia.
    + exact (t_inj _ _ _ H_ok r1 r2 i j t Hr1 Hr2 Hi Hj T1 T2).
Qed.

Lemma attach_walk r' p : r' ∈ R -> 0 <= p < 1048576 ->
  walk m' r' p = if bool_decide (r' = r /\ 786432 <= p) then walk m k p else walk m r' p.
Proof.
  intros Hr' Hp.
  assert (Hpte : forall t r0 i n, r0 ∈ R -> 0 <= i < 1024 -> tbl m r0 i = Some t -> 0 <= n < 1024 ->
            pte_in m' t n = pte_in m t n).
  { intros t r0 i n Hr0 Hi Ht Hn. destruct (t_table _ _ _ H_ok r0 i t Hr0 Hi Ht) as [Hpt HnR].
    unfold pte_in. rewrite H_old; [done|]. intros j Hj E.
    destruct (entry_inj a t r n j Hpt (t_root _ _ _ H_ok r H_r) Hn ltac:(lia) E) as [-> _]. done. }
  unfold walk. rewrite attach_tbl by (done || dlia).
  assert (bool_decide (r' = r /\ 768 <= p / 1024) = bool_decide (r' = r /\ 786432 <= p)) as ->.
  { apply bool_decide_ext. dlia. }
  case_bool_decide.
  - destruct (tbl m k (p / 1024)) as [t|] eqn:Et; [|done]. apply (Hpte t k (p / 1024)); done || dlia.
  - destruct (tbl m r' (p / 1024)) as [t|] eqn:Et; [|done]. apply (Hpte t r' (p / 1024)); done || dlia.
Qed.
End Attach.

Lemma arch_vm_space_attach_kernel_wp s R v k :
  vm_ok s R -> pd_phys v ∈ R -> pd_phys k ∈ R ->
  wp (arch_vm_space_attach_kernel (Some v) (Some k)) (fun res s' => res = KERR_OK /\ vm_ok s' R /\
    vs_frames s' = vs_frames s /\ vs_cr3 s' = vs_cr3 s /\
    (forall r' p, r' ∈ R -> 0 <= p < 1048576 ->
       walk (vs_mem s') r' p =
         if bool_decide (r' = pd_phys v /\ 786432 <= p) then walk (vs_mem s) (pd_phys k) p
         else walk (vs_mem s) r' p) /\
    (forall r' i, r' ∈ R -> 0 <= i < 1024 ->
       tbl (vs_mem s') r' i =
         if bool_decide (r' = pd_phys v /\ 768 <= i) then tbl (vs_mem s) (pd_phys k) i
         else tbl (vs_mem s) r' i) /\
    (forall a, a < pd_phys v + KERNEL_VIRT_OFFSET \/ pd_phys v + KERNEL_VIRT_OFFSET + 4096 <= a ->
       rd (vs_mem s') a = rd (vs_mem s) a)) s.
Proof.
  intros Hok Hv Hk. pose proof (v_tables _ _ Hok) as Ht. unfold arch_vm_space_attach_kernel. wp_step.
  set (r := pd_phys v) in *. set (q := pd_phys k) in *. unfold X86_KERNEL_PDE_BASE, X86_PDE_COUNT.
  apply (wp_for_each (fun i s' => mem_ok (vs_mem s') /\ vs_frames s' = vs_frames s /\ vs_cr3 s' = vs_cr3 s /\
    (forall j, 768 <= j < i -> rd (vs_mem s') (r + KERNEL_VIRT_OFFSET + 4 * j) = pde_at (vs_mem s) q j) /\
    (forall x, (forall j, 768 <= j < i -> x <> r + KERNEL_VIRT_OFFSET + 4 * j) -> rd (vs_mem s') x = rd (vs_mem s) x))).
  - split; [apply (v_mem _ _ Hok)|]. do 2 (split; [done|]). split; [lia | done].
  - intros i s1 Hi (Hm & Hf & Hc & Hnew & Hold).
    destruct (entry_addr _ q i (t_root _ _ _ Ht q Hk) ltac:(lia)) as [Eq Hvq].
    destruct (entry_addr _ r i (t_root _ _ _ Ht r Hv) ltac:(lia)) as [Er Hvr]. rewrite Eq, Er.
    assert (rd (vs_mem s1) (q + KERNEL_VIRT_OFFSET + 4 * i) = pde_at (vs_mem s) q i) as Eqi.
    { apply Hold. intros j Hj E. destruct (entry_inj _ q r i j (t_root _ _ _ Ht q Hk) (t_root _ _ _ Ht r Hv)
        ltac:(lia) ltac:(lia) E). lia. }
    wp_steps. apply load32_wp; [done|]. wp_steps. rewrite set_vs_mem_id, Eqi.
    apply store32_wp; [done|]. split; [apply mem_ok_wr; [done | apply (v_mem _ _ Hok)]|].
    do 2 (split; [done|]). cbn [vs_mem set_vs_mem]. split.
    + intros j Hj. destruct (Z.eq_dec j i) as [->|]; [by rewrite rd_wr_eq|]. rewrite rd_wr_ne by lia. apply Hnew. lia.
    + intros x Hx. rewrite rd_wr_ne by (symmetry; apply Hx; lia). apply Hold. intros j Hj. apply Hx. lia.
  - intros s' (Hm & Hf & Hc & Hnew & Hold). change (Z.max 768 1024) with 1024 in *. wp_step. split; [done|].
    split; [|split; [done|split; [done|split; [|split]]]].
    + split; [done | rewrite Hf; apply (v_frames _ _ Hok)|]. rewrite Hf. by apply (attach_ok (vs_mem s) (vs_mem s') _ R r q).
    + intros r' p Hr' Hp. by apply (attach_walk (vs_mem s) (vs_mem s') (vs_frames s) R r q).
    + intros r' i Hr' Hi. by apply (attach_tbl (vs_mem s) (vs_mem s') (vs_frames s) R r q).
    + intros a Ha. apply Hold. lia.
Qed.

(** The frames [arch_vm_space_destroy] gives back: the directory and the tables
    of the user half. *)
Definition owned (m : mem) (r j : Z) : Prop :=
  j = r / 4096 \/ exists i, 0 <= i < 768 /\ tbl m r i = Some (4096 * j).

Lemma arch_vm_space_destroy_wp s R v :
  vm_ok s (pd_phys v :: R) -> pd_phys v ∉ R ->
  wp (arch_vm_space_destroy (Some v)) (fun res s' => res = (KERR_OK, Some (mk_space 0)) /\
    vs_mem s' = vs_mem s /\ vs_cr3 s' = vs_cr3 s /\ vm_ok s' R /\
    (forall j, 0 <= j -> owned (vs_mem s) (pd_phys v) j -> fa_used (vs_frames s') j = false) /\
    (forall j, 0 <= j -> ~ owned (vs_mem s) (pd_phys v) j -> fa_used (vs_frames s') j = fa_used (vs_frames s) j)) s.
Proof.
  intros Hok HnR. pose proof (v_tables _ _ Hok) as Ht. unfold arch_vm_space_destroy. set (r := pd_phys v) in *.
  assert (r ∈ r :: R) as Hr by set_solver. destruct (t_root _ _ _ Ht r Hr) as (Hra & Hrl & Hru & Hrt).
  wp_step. unfold X86_KERNEL_PDE_BASE.
  apply (wp_for_lt (fun i _ s' => fa_ok (vs_frames s') /\ fa_total (vs_frames s') = fa_total (vs_frames s) /\
    vs_mem s' = vs_mem s /\ vs_cr3 s' = vs_cr3 s /\
    (forall j i', 0 <= i' < i -> tbl (vs_mem s) r i' = Some (4096 * j) -> fa_used (vs_frames s') j = false) /\
    (forall j, 0 <= j -> (forall i', 0 <= i' < i -> tbl (vs_mem s) r i' <> Some (4096 * j)) ->
       fa_used (vs_frames s') j = fa_used (vs_frames s) j))).
  - split; [apply (v_frames _ _ Hok)|]. do 3 (split; [done|]). split; [lia | done].
  - intros i [] s1 Hi (Hf & Htot & Em & Ec & Hgone & Hkeep).
    destruct (entry_addr _ r i (t_root _ _ _ Ht r Hr) ltac:(lia)) as [Er Hvr]. rewrite Er.
    wp_steps. apply load32_wp; [done|]. rewrite set_vs_mem_id, Em. fold (pde_at (vs_mem s) r i).
    unfold X86_PDE_PRESENT, X86_PDE_PAGE_SIZE. rewrite !land_bit_zero by lia.
    destruct (Z.testbit (pde_at (vs_mem s) r i) 0) eqn:Eb; cbn [negb].
    + pose proof (t_present _ _ _ Ht r i Hr ltac:(lia) Eb) as E7. rewrite E7. cbn [negb].
      assert (tbl (vs_mem s) r i = Some (table_of (pde_at (vs_mem s) r i))) as Hti by (unfold tbl; by rewrite Eb, E7).
      fold (table_of (pde_at (vs_mem s) r i)).
      set (t := table_of (pde_at (vs_mem s) r i)) in *.
      destruct (t_table _ _ _ Ht r i t Hr ltac:(lia) Hti) as [(Hta & Htl & Htu & Htt) HtR].
      assert (Et : t = t / 4096 * 4096) by dlia.
      assert (fa_used (vs_frames s1) (t / 4096) = true) as Hused.
      { rewrite Hkeep; [done | dlia|]. intros i' Hi' Ht'.
        replace (4096 * (t / 4096)) with t in Ht' by lia.
        destruct (t_inj _ _ _ Ht r r i i' t Hr Hr ltac:(lia) ltac:(lia) Hti Ht'). lia. }
      wp_steps. rewrite Et at 1.
      wp_use fa_free_wp; [done | unfold KERNEL_LOWMEM_LIMIT in Htl; dlia | unfold is_u32; lia|].
      intros e a' [(-> & _ & _ & _ & Hok' & Htot' & Hu)|(_ & _ & Hno)].
      2: { exfalso. apply Hno. split; [lia|]. split; [rewrite Htot; lia|]. intros j Hj.
           by replace j with (t / 4096) by lia. }
      wp_steps. cbn [Z.ltb]. wp_steps. split; [done|]. cbn [vs_frames vs_mem vs_cr3 set_vs_frames].
      split; [congruence|]. do 2 (split; [done|]). split.
      * intros j i' Hi' Ht'. destruct (t_table _ _ _ Ht r i' _ Hr ltac:(lia) Ht') as [(_ & Hl & _) _].
        rewrite Hu by lia. destruct (Z.eq_dec j (t / 4096)) as [->|Hne].
        -- by replace ((t / 4096 <=? t / 4096) && (t / 4096 <? t / 4096 + 1)) with true by lia.
        -- rewrite (Hgone j i'); [apply andb_false_r | | done]. destruct (Z.eq_dec i' i) as [->|]; [|lia].
           rewrite Hti in Ht'. injection Ht' as Ht'. lia.
      * intros j Hj Hnone. rewrite Hu by done. rewrite Hkeep; [|done | intros i' Hi'; apply Hnone; lia].
        assert (j <> t / 4096) by (intros ->; apply (Hnone i ltac:(lia)); rewrite Hti; f_equal; lia).
        by replace ((t / 4096 <=? j) && (j <? t / 4096 + 1)) with false by lia.
    + wp_steps. split; [done|]. do 3 (split; [done|]).
      assert (tbl (vs_mem s) r i = None) as Hn by (unfold tbl; by rewrite Eb). split.
      * intros j i' Hi' Ht'. destruct (Z.eq_dec i' i) as [->|]; [congruence|]. apply (Hgone j i'); [lia | done].
      * intros j Hj Hnone. apply Hkeep; [done|]. intros i' Hi'. apply Hnone. lia.
  - intros [] s1 (Hf & Htot & Em & Ec & Hgone & Hkeep). change (Z.max 0 768) with 768 in *. wp_steps.
    assert (Er : r = r / 4096 * 4096) by dlia. rewrite Er at 1.
    assert (fa_used (vs_frames s1) (r / 4096) = true) as Hused.
    { rewrite Hkeep; [done | dlia|]. intros i' Hi' Ht'. replace (4096 * (r / 4096)) with r in Ht' by lia.
      destruct (t_table _ _ _ Ht r i' r Hr ltac:(lia) Ht') as [_ Hnr]. done. }
    wp_use fa_free_wp; [done | unfold KERNEL_LOWMEM_LIMIT in Hrl; dlia | unfold is_u32; lia|].
    intros e a' [(-> & _ & _ & _ & Hok' & Htot' & Hu)|(_ & _ & Hno)].
    2: { exfalso. apply Hno. split; [lia|]. split; [rewrite Htot; lia|]. intros j Hj.
         by replace j with (r / 4096) by lia. }
    cbn [Z.ltb Z.compare KERR_OK]. wp_steps. split; [done|]. split; [done|]. split; [done|].
    cbn [vs_frames vs_mem vs_cr3 set_vs_frames].
    assert (Hown : forall j, 0 <= j -> owned (vs_mem s) r j -> fa_used a' j = false).
    { intros j Hj Ho. rewrite Hu by done. destruct (Z.eq_dec j (r / 4096)) as [->|Hne].
      - by replace ((r / 4096 <=? r / 4096) && (r / 4096 <? r / 4096 + 1)) with true by lia.
      - destruct Ho as [?|(i & Hi & Hti)]; [done|]. rewrite (Hgone j i Hi Hti). apply andb_false_r. }
    assert (Hnot : forall j, 0 <= j -> ~ owned (vs_mem s) r j -> fa_used a' j = fa_used (vs_frames s) j).
    { intros j Hj Ho. rewrite Hu by done. rewrite Hkeep; [|done|].
      - assert (j <> r / 4096) by (intros ->; apply Ho; by left).
        by replace ((r / 4096 <=? j) && (j <? r / 4096 + 1)) with false by lia.
      - intros i Hi Hti. apply Ho. right. eauto. }
    split; [|done].
    assert (Hfr : forall t, page_frame (vs_frames s) t -> ~ owned (vs_mem s) r (t / 4096) -> page_frame a' t).
    { intros t (P1 & P2 & P3 & P4) Ho. split; [done|]. split; [done|]. rewrite Hnot by (done || dlia).
      split; [done|]. by rewrite Htot', Htot. }
    split; cbn [vs_frames vs_mem set_vs_frames]; rewrite ?Em; [apply (v_mem _ _ Hok) | done|]. split.
    + intros r' Hr'. apply Hfr; [apply (t_root _ _ _ Ht); set_solver|].
      destruct (t_root _ _ _ Ht r' ltac:(set_solver)) as (P1 & _). intros [E|(i & Hi & Hti)].
      * assert (r' = r) as -> by dlia. done.
      * replace (4096 * (r' / 4096)) with r' in Hti by dlia.
        destruct (t_table _ _ _ Ht r i r' Hr ltac:(lia) Hti) as [_ Hnr]. set_solver.
    + intros r' i Hr'. apply (t_present _ _ _ Ht). set_solver.
    + intros r' i t Hr' Hi Hti. destruct (t_table _ _ _ Ht r' i t ltac:(set_solver) Hi Hti) as [Hpt HtR].
      split; [|set_solver]. apply Hfr; [done|]. destruct Hpt as (P1 & _). intros [E|(i' & Hi' & Hti')].
      * assert (t = r) as -> by dlia. set_solver.
      * replace (4096 * (t / 4096)) with t in Hti' by dlia.
        destruct (t_inj _ _ _ Ht r' r i i' t ltac:(set_solver) Hr Hi ltac:(lia) Hti Hti') as [-> [->|Hge]]; [done|].
        unfold X86_KERNEL_PDE_BASE in Hge. lia.
    + intros r1 r2 i j t Hr1 Hr2. apply (t_inj _ _ _ Ht); set_solver.
Qed.
End Tables.
