(* ===== verification/PagingProps.v ===== *)
(** * Properties of the page tables

    The theorems on [kernel/arch/x86/mm.c] for the frame allocator [pmm], from the
    lemmas of [Paging]: mapping, translation, unmapping, protection, isolation of
    address spaces, sharing of the kernel half, and destruction. *)

From S2P Require Import Prelude Base Memory KList Bitmap Pmm Frames KheapClient Paging.

Abbreviation machine := (vmstate pmm).

(** A slot of the user half is shared with no other space. *)
Lemma user_slot_private (s : machine) R r r' j t :
  vm_ok s R -> r ∈ R -> r' ∈ R -> r' <> r -> 0 <= j < 768 -> tbl (vs_mem s) r j = Some t ->
  shares (vs_mem s) r r' j = false.
Proof.
  intros Hok Hr Hr' Hne Hj Ht. unfold shares. destruct (Z.eqb_spec r' r); [done|]. cbn [orb]. rewrite Ht.
  destruct (tbl (vs_mem s) r' j) as [t'|] eqn:Et'; [|done]. apply Z.eqb_neq. intros <-.
  destruct (t_inj _ _ _ (v_tables _ _ Hok) r r' j j t Hr Hr' ltac:(lia) ltac:(lia) Ht Et') as [_ [?|Hge]];
    [congruence|]. unfold X86_KERNEL_PDE_BASE in Hge. lia.
Qed.

Lemma shares_self m r j : shares m r r j = true.
Proof. unfold shares. by rewrite Z.eqb_refl. Qed.

Lemma user_slot_shares (s : machine) R r r' j :
  vm_ok s R -> r ∈ R -> r' ∈ R -> r' <> r -> 0 <= j < 768 -> shares (vs_mem s) r r' j = false.
Proof.
  intros Hok Hr Hr' Hne Hj. destruct (tbl (vs_mem s) r j) as [t|] eqn:Et.
  - by apply (user_slot_private s R r r' j t).
  - unfold shares. destruct (Z.eqb_spec r' r); [done|]. by rewrite Et.
Qed.

(** A range operation that returned [KERR_OK] covered the whole range. *)
Lemma range_post_ok (s s' : machine) R r p0 n g P E o :
  KERR_OK = loop_code o -> range_post R r s p0 n g P E o s' -> (forall t old e, E t old e -> e < 0) ->
  pt_step R r s s' /\ range_set R r s s' p0 n g /\
  (forall i, 0 <= i < n -> P (walk (vs_mem s) r (p0 + i))) /\
  (forall i, 0 <= i < n -> 4096 * (p0 + i) ∈ vs_invlpg s').
Proof.
  intros Ho (k & Hk & H1 & H2 & H3 & H4 & _ & H5) HE. destruct o as [[]|e].
  - subst k. auto.
  - destruct H5 as [_ H5]. apply HE in H5. simpl in Ho. subst e. discriminate H5.
Qed.

(** ** A machine with one empty address space *)

(** The state after a run. *)
Definition run_state {S B} (c : M S B) (s : S) : S := match c s with Some (_, s') => s' | None => s end.

Lemma run_state_eq {S B} (c : M S B) s b s' : c s = Some (b, s') -> run_state c s = s'.
Proof. unfold run_state. by intros ->. Qed.

Definition machine0 : machine := mk_vmstate ∅ pmm_sample_288 0 [].
Definition machine1 : machine :=
  run_state (arch_vm_space_init (Some (mk_space 0))) machine0.

Lemma machine0_ok : vm_ok machine0 [].
Proof.
  split; [|apply pmm_sample_288_ok|].
  - intros a. unfold rd, machine0. cbn. rewrite lookup_empty. unfold is_u32. cbn. lia.
  - by split; intros; set_solver.
Qed.

Lemma machine1_ok : vm_ok machine1 [131072] /\ forall p, 0 <= p < 1048576 -> walk (vs_mem machine1) 131072 p = None.
Proof.
  pose proof (arch_vm_space_init_wp machine0 [] (mk_space 0) machine0_ok) as H.
  destruct (proj1 (wp_run _ _ _) H) as (r & s' & Hrun & Hpost). clear H.
  destruct Hpost as [(e & Er & He & _)|(t & Er & _ & Hok & _ & _ & _ & _ & Hw & _)]; rewrite Er in Hrun.
  - exfalso. assert (option_map (fun r => fst (fst r)) (arch_vm_space_init (Some (mk_space 0)) machine0) = Some KERR_OK) as E
      by (vm_compute; reflexivity). rewrite Hrun in E. injection E as ->. discriminate He.
  - assert (option_map (fun r => snd (fst r)) (arch_vm_space_init (Some (mk_space 0)) machine0) = Some (Some (mk_space 131072))) as E
      by (vm_compute; reflexivity). rewrite Hrun in E. injection E as ->.
    unfold machine1. rewrite (run_state_eq _ _ _ _ Hrun). exact (conj Hok Hw).
Qed.

(** ** Properties *)

(** C29. [arch_vm_map] maps exactly the pages it is asked for.  In well-formed
    page tables, for a range inside the address space, it is defined; it refuses
    unaligned or empty requests; when it returns [KERR_OK] every page of the range
    was unmapped and now translates to the frame at the same offset with the
    requested permissions, in this space and in those that share the table, and
    no other page of any space changes; when it fails at a page, the pages before
    it are mapped and the error is [-KERR_EXISTS] if that page was mapped; otherwise
    it had no table and a frame for one could not be allocated.  The tables stay
    well formed and the TLB entry of every changed page is invalidated. *)
Theorem arch_vm_map_correct (s : machine) R v virt phys size flags :
  vm_ok s R -> pd_phys v ∈ R -> 0 <= virt -> 0 <= size -> virt + size <= 4294967296 ->
  0 <= phys -> phys + size <= 18446744073709551616 ->
  exists res s', arch_vm_map (Some v) virt phys size flags s = Some (res, s') /\
    ((~ map_args_ok virt phys size /\ res = - KERR_INVAL /\ s' = s) \/
     (map_args_ok virt phys size /\ exists o, res = loop_code o /\
      range_post R (pd_phys v) s (virt / 4096) (size / 4096)
        (fun i _ => Some (pte_of (phys + 4096 * i) flags)) (fun old => old = None)
        (fun t old e => e < 0 /\ (old <> None -> e = - KERR_EXISTS) /\ (old = None -> t = None)) o s')).
Proof.
  intros. pose proof (arch_vm_map_wp s R v virt phys size flags) as Hwp.
  apply wp_run in Hwp as (res & s' & Hrun & Hpost); [by exists res, s' | done..].
Qed.

Lemma arch_vm_map_correct_witness :
  exists s', arch_vm_map (Some (mk_space 131072)) 4096 8192 8192 3 machine1 = Some (KERR_OK, s') /\
    range_post [131072] 131072 machine1 1 2 (fun i _ => Some (pte_of (8192 + 4096 * i) 3)) (fun old => old = None)
        (fun t old e => e < 0 /\ (old <> None -> e = - KERR_EXISTS) /\ (old = None -> t = None)) (inl tt) s'.
Proof.
  destruct (arch_vm_map_correct machine1 [131072] (mk_space 131072) 4096 8192 8192 3) as (res & s' & Hrun & Hpost).
  - apply machine1_ok.
  - simpl. set_solver.
  - lia.
  - lia.
  - lia.
  - lia.
  - lia.
  - assert (option_map fst (arch_vm_map (Some (mk_space 131072)) 4096 8192 8192 3 machine1) = Some KERR_OK) as E
      by (vm_compute; reflexivity).
    rewrite Hrun in E. injection E as ->. exists s'. split; [exact Hrun|].
    destruct Hpost as [(_ & Hbad & _)|(_ & [[]|e] & Hres & Hpost)]; [discriminate Hbad | exact Hpost |].
    destruct Hpost as (k & _ & _ & _ & _ & _ & _ & _ & He & _). simpl in Hres. subst e. discriminate He.
Defined.

(** Mapping and translating agree: after a successful [arch_vm_map] of
    physical memory below 4 GiB, [arch_vm_translate] of every address of the range
    returns the physical address at the same offset, and of every address outside
    it in the same space what it returned before. *)
Theorem map_translate_roundtrip (s s1 : machine) R v virt phys size flags a :
  vm_ok s R -> pd_phys v ∈ R -> 0 <= virt -> 0 <= size -> virt + size <= 4294967296 ->
  0 <= phys -> phys + size <= 4294967296 ->
  arch_vm_map (Some v) virt phys size flags s = Some (KERR_OK, s1) ->
  is_u32 a ->
  exists r, arch_vm_translate (Some v) a true s1 = Some (r, s1) /\
    (virt <= a < virt + size -> r = inr (phys + (a - virt))) /\
    (~ virt <= a < virt + size -> arch_vm_translate (Some v) a true s = Some (r, s)).
Proof.
  intros Hok Hv Hv0 Hs0 Hvs Hp0 Hps Hrun Ha.
  pose proof (run_wp _ _ _ _ _ (arch_vm_map_wp s R v virt phys size flags Hok Hv Hv0 Hs0 Hvs Hp0 ltac:(lia)) Hrun)
    as [(_ & Hbad & _)|((Hpos & Ha1 & Ha2 & Ha3) & o & Hres & Hpost)]; [discriminate Hbad|].
  destruct (range_post_ok _ _ _ _ _ _ _ _ _ _ Hres Hpost) as (Hst & Hset & _ & _); [intros ??? [? _]; done|].
  pose proof (arch_vm_translate_wp s1 R v a (ps_ok _ _ _ _ Hst) Hv Ha) as Ht1.
  pose proof (arch_vm_translate_wp s R v a Hok Hv Ha) as Ht0.
  apply wp_run in Ht1 as (r1 & ? & Hr1 & -> & E1). apply wp_run in Ht0 as (r0 & ? & Hr0 & -> & E0).
  exists r1. split; [done|]. rewrite Hset, shares_self in E1 by (done || (unfold is_u32 in Ha; dlia)).
  split; intros Hin.
  - replace ((virt / 4096 <=? a / 4096) && (a / 4096 <? virt / 4096 + size / 4096)) with true in E1 by (symmetry; apply andb_true_iff; rewrite Z.leb_le, Z.ltb_lt; dlia).
    cbn [andb] in E1. rewrite E1. f_equal.
    destruct (pte_of_spec (phys + 4096 * (a / 4096 - virt / 4096)) flags) as (_ & -> & _); [dlia | dlia|].
    rewrite u32_id by (unfold is_u32; dlia). dlia.
  - replace ((virt / 4096 <=? a / 4096) && (a / 4096 <? virt / 4096 + size / 4096)) with false in E1
      by (symmetry; apply andb_false_iff; rewrite Z.leb_gt, Z.ltb_ge; dlia).
    cbn [andb] in E1. by rewrite Hr0, E0, E1.
Qed.

Lemma map_translate_roundtrip_witness :
  exists s1 r, arch_vm_map (Some (mk_space 131072)) 4096 8192 8192 3 machine1 = Some (KERR_OK, s1) /\
    arch_vm_translate (Some (mk_space 131072)) 8199 true s1 = Some (r, s1) /\ r = inr 12295.
Proof.
  destruct (arch_vm_map (Some (mk_space 131072)) 4096 8192 8192 3 machine1) as [[res s1]|] eqn:Hrun.
  - assert (res = KERR_OK) as ->.
    { assert (option_map fst (arch_vm_map (Some (mk_space 131072)) 4096 8192 8192 3 machine1) = Some KERR_OK) as E
        by (vm_compute; reflexivity). rewrite Hrun in E. injection E as ->. reflexivity. }
    destruct (map_translate_roundtrip machine1 s1 [131072] (mk_space 131072) 4096 8192 8192 3 8199)
      as (r & H1 & H2 & _).
    + apply machine1_ok.
    + apply list_elem_of_here.
    + lia.
    + lia.
    + lia.
    + lia.
    + lia.
    + exact Hrun.
    + unfold is_u32. lia.
    + exists s1, r. split; [reflexivity|]. split; [exact H1|]. apply H2. lia.
  - exfalso. assert (option_map fst (arch_vm_map (Some (mk_space 131072)) 4096 8192 8192 3 machine1) = Some KERR_OK) as E
      by (vm_compute; reflexivity). rewrite Hrun in E. discriminate E.
Defined.

(** C30. [arch_vm_unmap] undoes [arch_vm_map]: after a successful mapping,
    unmapping the same range succeeds and every page of every address space
    translates as it did before the mapping. *)
Theorem map_unmap_roundtrip (s s1 : machine) R v virt phys size flags :
  vm_ok s R -> pd_phys v ∈ R -> 0 <= virt -> 0 <= size -> virt + size <= 4294967296 ->
  0 <= phys -> phys + size <= 18446744073709551616 ->
  arch_vm_map (Some v) virt phys size flags s = Some (KERR_OK, s1) ->
  exists s2, arch_vm_unmap (Some v) virt size s1 = Some (KERR_OK, s2) /\ vm_ok s2 R /\
    forall r p, r ∈ R -> 0 <= p < 1048576 -> walk (vs_mem s2) r p = walk (vs_mem s) r p.
Proof.
  intros Hok Hv Hv0 Hs0 Hvs Hp0 Hps Hrun.
  pose proof (run_wp _ _ _ _ _ (arch_vm_map_wp s R v virt phys size flags Hok Hv Hv0 Hs0 Hvs Hp0 Hps) Hrun)
    as [(_ & Hbad & _)|((Hpos & Ha1 & Ha2 & Ha3) & o & Hres & Hpost)]; [discriminate Hbad|].
  destruct (range_post_ok _ _ _ _ _ _ _ _ _ _ Hres Hpost) as (Hst & Hset & Hnone & _); [intros ??? [? _]; done|].
  pose proof (arch_vm_unmap_wp s1 R v virt size (ps_ok _ _ _ _ Hst) Hv Hv0 Hs0 Hvs) as Hun.
  apply wp_run in Hun as (res & s2 & Hrun2 & [(Hbad & _)|(_ & o2 & -> & Hpost2)]).
  { exfalso. apply Hbad. split; [lia|]. done. }
  assert (Hmapped : forall p, virt / 4096 <= p < virt / 4096 + size / 4096 ->
            walk (vs_mem s1) (pd_phys v) p <> None).
  { intros p Hp. rewrite Hset, shares_self by (done || dlia).
    by replace ((virt / 4096 <=? p) && (p <? virt / 4096 + size / 4096)) with true by lia. }
  destruct o2 as [[]|e].
  2: { exfalso. destruct Hpost2 as (k & Hk & _ & _ & _ & _ & _ & Hlt & Hn & _). by apply (Hmapped (virt / 4096 + k)); [lia|]. }
  destruct (range_post_ok _ _ _ _ _ _ _ _ _ (inl tt) eq_refl Hpost2) as (Hst2 & Hset2 & _ & _); [by intros ??? [? ->]|].
  exists s2. split; [done|]. split; [apply (ps_ok _ _ _ _ Hst2)|]. intros r p Hr Hp.
  rewrite Hset2 by done. rewrite (ps_shares _ _ _ _ Hst) by (done || dlia).
  rewrite Hset by done. destruct ((virt / 4096 <=? p) && (p <? virt / 4096 + size / 4096)) eqn:Ein; cbn [andb]; [|done].
  destruct (shares _ _ _ _) eqn:Esh; [|done].
  (* a space that shares the table had no mapping either *)
  assert (walk (vs_mem s) (pd_phys v) p = None) as Hn.
  { replace p with (virt / 4096 + (p - virt / 4096)) by lia. apply Hnone. lia. }
  symmetry. revert Hn Esh. unfold walk, shares.
  destruct (Z.eqb_spec r (pd_phys v)) as [->|]; [done|]. cbn [orb].
  destruct (tbl _ (pd_phys v) _) as [t|], (tbl _ r _) as [t'|]; try done.
  intros Hn Et%Z.eqb_eq. by subst t'.
Qed.

Lemma map_unmap_roundtrip_witness :
  exists s1 s2, arch_vm_map (Some (mk_space 131072)) 4096 8192 8192 3 machine1 = Some (KERR_OK, s1) /\
    arch_vm_unmap (Some (mk_space 131072)) 4096 8192 s1 = Some (KERR_OK, s2).
Proof.
  destruct (arch_vm_map (Some (mk_space 131072)) 4096 8192 8192 3 machine1) as [[res s1]|] eqn:Hrun.
  - assert (res = KERR_OK) as ->.
    { assert (option_map fst (arch_vm_map (Some (mk_space 131072)) 4096 8192 8192 3 machine1) = Some KERR_OK) as E
        by (vm_compute; reflexivity). rewrite Hrun in E. injection E as ->. reflexivity. }
    destruct (map_unmap_roundtrip machine1 s1 [131072] (mk_space 131072) 4096 8192 8192 3) as (s2 & H1 & _).
    + apply machine1_ok.
    + apply list_elem_of_here.
    + lia.
    + lia.
    + lia.
    + lia.
    + lia.
    + exact Hrun.
    + exists s1, s2. split; [reflexivity | exact H1].
  - exfalso. assert (option_map fst (arch_vm_map (Some (mk_space 131072)) 4096 8192 8192 3 machine1) = Some KERR_OK) as E
      by (vm_compute; reflexivity). rewrite Hrun in E. discriminate E.
Defined.

(** User mappings are private: an [arch_vm_map] of a range below the
    kernel's half, successful or not, changes no translation of any other address
    space. *)
Theorem user_map_isolated (s : machine) R v virt phys size flags :
  vm_ok s R -> pd_phys v ∈ R -> 0 <= virt -> 0 <= size -> virt + size <= KERNEL_VIRT_OFFSET ->
  0 <= phys -> phys + size <= 18446744073709551616 ->
  exists res s', arch_vm_map (Some v) virt phys size flags s = Some (res, s') /\ vm_ok s' R /\
    forall r p, r ∈ R -> r <> pd_phys v -> 0 <= p < 1048576 -> walk (vs_mem s') r p = walk (vs_mem s) r p.
Proof.
  intros Hok Hv Hv0 Hs0 Hvs Hp0 Hps. unfold KERNEL_VIRT_OFFSET in Hvs.
  pose proof (arch_vm_map_wp s R v virt phys size flags Hok Hv Hv0 Hs0 ltac:(lia) Hp0 Hps) as Hwp.
  apply wp_run in Hwp as (res & s' & Hrun & Hpost). exists res, s'. split; [done|].
  destruct Hpost as [(_ & _ & ->)|(_ & o & _ & k & Hk & Hst & Hset & _)]; [done|].
  split; [apply (ps_ok _ _ _ _ Hst)|]. intros r p Hr Hne Hp. rewrite Hset by done.
  destruct ((virt / 4096 <=? p) && (p <? virt / 4096 + k)) eqn:Ein; cbn [andb]; [|done].
  by rewrite (user_slot_shares s R) by (done || dlia).
Qed.

(** A second space beside the first. *)
Definition machine2 : machine :=
  run_state (arch_vm_space_init (Some (mk_space 0))) machine1.

Lemma machine2_ok : vm_ok machine2 [135168; 131072].
Proof.
  pose proof (arch_vm_space_init_wp machine1 [131072] (mk_space 0) (proj1 machine1_ok)) as H.
  destruct (proj1 (wp_run _ _ _) H) as (r & s' & Hrun & Hpost). clear H.
  destruct Hpost as [(e & Er & He & _)|(t & Er & _ & Hok & _ & _ & _ & _ & Hw & _)]; rewrite Er in Hrun.
  - exfalso. assert (option_map (fun r => fst (fst r)) (arch_vm_space_init (Some (mk_space 0)) machine1) = Some KERR_OK) as E
      by (vm_compute; reflexivity). rewrite Hrun in E. injection E as ->. discriminate He.
  - assert (option_map (fun r => snd (fst r)) (arch_vm_space_init (Some (mk_space 0)) machine1) = Some (Some (mk_space 135168))) as E
      by (vm_compute; reflexivity). rewrite Hrun in E. injection E as ->.
    unfold machine2. rewrite (run_state_eq _ _ _ _ Hrun). exact Hok.
Qed.

Lemma user_map_isolated_witness :
  exists res s', arch_vm_map (Some (mk_space 131072)) 4096 8192 8192 3 machine2 = Some (res, s') /\
    forall p, 0 <= p < 1048576 -> walk (vs_mem s') 135168 p = walk (vs_mem machine2) 135168 p.
Proof.
  destruct (user_map_isolated machine2 [135168; 131072] (mk_space 131072) 4096 8192 8192 3) as (res & s' & H1 & _ & H2).
  - apply machine2_ok.
  - apply list_elem_of_further, list_elem_of_here.
  - lia.
  - lia.
  - unfold KERNEL_VIRT_OFFSET. lia.
  - lia.
  - lia.
  - exists res, s'. split; [exact H1|]. intros p Hp. apply H2; [apply list_elem_of_here | simpl; lia | exact Hp].
Defined.

(** C31. The kernel half is shared for good.  Once a space is attached to the
    kernel's, every kernel page translates in it as in the kernel's space, and
    still does after the kernel's space has mapped more kernel memory through
    tables it already had (as [arch_vm_kernel_prepare] makes them). *)
Theorem kernel_mappings_shared (s s1 s2 : machine) R v k virt phys size flags p :
  vm_ok s R -> pd_phys v ∈ R -> pd_phys k ∈ R ->
  (forall i, virt <= 4194304 * i + 4194303 -> 4194304 * i < virt + size ->
     exists t, tbl (vs_mem s) (pd_phys k) i = Some t) ->
  arch_vm_space_attach_kernel (Some v) (Some k) s = Some (KERR_OK, s1) ->
  KERNEL_VIRT_OFFSET <= virt -> 0 <= size -> virt + size <= 4294967296 ->
  0 <= phys -> phys + size <= 18446744073709551616 ->
  arch_vm_map (Some k) virt phys size flags s1 = Some (KERR_OK, s2) ->
  786432 <= p < 1048576 ->
  walk (vs_mem s1) (pd_phys v) p = walk (vs_mem s) (pd_phys k) p /\
  walk (vs_mem s2) (pd_phys v) p = walk (vs_mem s2) (pd_phys k) p.
Proof.
  intros Hok Hv Hk Hall Hatt Hv0 Hs0 Hvs Hp0 Hps Hmap Hp. unfold KERNEL_VIRT_OFFSET in Hv0.
  pose proof (run_wp _ _ _ _ _ (arch_vm_space_attach_kernel_wp s R v k Hok Hv Hk) Hatt)
    as (_ & Hok1 & _ & _ & Hw1 & Ht1 & _).
  split; [rewrite Hw1 by (done || lia); rewrite bool_decide_true; [done | lia]|].
  pose proof (run_wp _ _ _ _ _ (arch_vm_map_wp s1 R k virt phys size flags Hok1 Hk ltac:(lia) Hs0 Hvs Hp0 Hps) Hmap)
    as [(_ & Hbad & _)|(_ & o & Hres & Hpost)]; [discriminate Hbad|].
  destruct (range_post_ok _ _ _ _ _ _ _ _ _ _ Hres Hpost) as (Hst & Hset & _ & _); [intros ??? [? _]; done|].
  assert (Hwv : walk (vs_mem s1) (pd_phys v) p = walk (vs_mem s1) (pd_phys k) p).
  { rewrite !Hw1 by (done || lia). rewrite bool_decide_true by lia. by case_bool_decide. }
  rewrite !Hset by (done || lia). rewrite shares_self.
  destruct ((virt / 4096 <=? p) && (p <? virt / 4096 + size / 4096)) eqn:Ein; cbn [andb]; [|done].
  assert (shares (vs_mem s1) (pd_phys k) (pd_phys v) (p / 1024) = true) as ->; [|done].
  unfold shares. destruct (Z.eqb_spec (pd_phys v) (pd_phys k)) as [|Hne]; [done|]. cbn [orb].
  destruct (Hall (p / 1024)) as [t Ht]; [dlia | dlia|].
  rewrite !Ht1 by (done || dlia). rewrite bool_decide_false, bool_decide_true by (split || intros []; done || dlia).
  rewrite Ht. apply Z.eqb_refl.
Qed.

(** The result of a run whose code is known by evaluation. *)
Lemma run_code {S B} (c : M S B) s b :
  option_map fst (c s) = Some b -> exists s', c s = Some (b, s').
Proof. destruct (c s) as [[b' s']|]; simpl; [intros [= ->]; eauto | done]. Qed.

Lemma bind_run {S B C} (c : M S B) (k : B -> M S C) s b s' :
  c s = Some (b, s') -> bind c k s = k b s'.
Proof. unfold bind. by intros ->. Qed.

(** [machine2] with the first page of the kernel's half mapped in the second space. *)
Definition machine3 : machine :=
  run_state (arch_vm_map (Some (mk_space 135168)) 3221225472 0 4096 3) machine2.

Lemma machine3_ok : vm_ok machine3 [135168; 131072].
Proof.
  pose proof (arch_vm_map_wp machine2 [135168; 131072] (mk_space 135168) 3221225472 0 4096 3 machine2_ok
    (list_elem_of_here _ _) ltac:(lia) ltac:(lia) ltac:(lia) ltac:(lia) ltac:(lia)) as Hwp.
  destruct (proj1 (wp_run _ _ _) Hwp) as (res & s' & Hrun & Hpost). clear Hwp. unfold machine3. rewrite (run_state_eq _ _ _ _ Hrun).
  destruct Hpost as [(Hbad & _)|(_ & o & _ & kk & _ & Hst & _)].
  - exfalso. apply Hbad. unfold map_args_ok. clear. by vm_compute.
  - exact (ps_ok _ _ _ _ Hst).
Qed.

Lemma kernel_mappings_shared_witness :
  exists s1 s2,
    arch_vm_space_attach_kernel (Some (mk_space 131072)) (Some (mk_space 135168)) machine3 = Some (KERR_OK, s1) /\
    arch_vm_map (Some (mk_space 135168)) 3221229568 4096 4096 3 s1 = Some (KERR_OK, s2) /\
    walk (vs_mem s2) 131072 786433 = walk (vs_mem s2) 135168 786433.
Proof.
  destruct (run_code (arch_vm_space_attach_kernel (Some (mk_space 131072)) (Some (mk_space 135168))) machine3 KERR_OK)
    as [s1 H1]; [vm_compute; reflexivity|].
  assert (option_map fst (arch_vm_map (Some (mk_space 135168)) 3221229568 4096 4096 3 s1) = Some KERR_OK) as E.
  { etransitivity; [symmetry; apply f_equal; exact (bind_run (arch_vm_space_attach_kernel (Some (mk_space 131072))
      (Some (mk_space 135168))) (fun _ => arch_vm_map (Some (mk_space 135168)) 3221229568 4096 4096 3) machine3 KERR_OK s1 H1)|].
    vm_compute. reflexivity. }
  destruct (run_code _ _ _ E) as [s2 H2]. exists s1, s2. split; [exact H1|]. split; [exact H2|].
  apply (kernel_mappings_shared machine3 s1 s2 [135168; 131072] (mk_space 131072) (mk_space 135168)
           3221229568 4096 4096 3 786433).
  - exact machine3_ok.
  - apply list_elem_of_further, list_elem_of_here.
  - apply list_elem_of_here.
  - intros i Hi1 Hi2. assert (i = 768) as -> by lia. eexists. vm_compute. reflexivity.
  - exact H1.
  - unfold KERNEL_VIRT_OFFSET. lia.
  - lia.
  - lia.
  - lia.
  - lia.
  - exact H2.
  - lia.
Defined.

(** [arch_vm_space_destroy] of one of several spaces always succeeds and
    gives back exactly the frames of the space: its directory and the tables of
    its user half.  The kernel's tables stay in use, no memory is written, and the
    other spaces stay well formed (so none of them used a frame given back). *)
Theorem arch_vm_space_destroy_correct (s : machine) R v :
  vm_ok s (pd_phys v :: R) -> pd_phys v ∉ R ->
  exists s', arch_vm_space_destroy (Some v) s = Some ((KERR_OK, Some (mk_space 0)), s') /\
    vs_mem s' = vs_mem s /\ vm_ok s' R /\
    (forall j, 0 <= j -> owned (vs_mem s) (pd_phys v) j -> frame_used (vs_frames s') j = false) /\
    (forall j, 0 <= j -> ~ owned (vs_mem s) (pd_phys v) j ->
       frame_used (vs_frames s') j = frame_used (vs_frames s) j).
Proof.
  intros Hok HnR. pose proof (arch_vm_space_destroy_wp s R v Hok HnR) as H.
  apply wp_run in H as (r & s' & Hrun & -> & H1 & _ & H2 & H3 & H4). exists s'. done.
Qed.

Lemma arch_vm_space_destroy_correct_witness :
  exists s', arch_vm_space_destroy (Some (mk_space 135168)) machine3 = Some ((KERR_OK, Some (mk_space 0)), s') /\
    vm_ok s' [131072] /\ frame_used (vs_frames s') 33 = false.
Proof.
  destruct (arch_vm_space_destroy_correct machine3 [131072] (mk_space 135168)) as (s' & H1 & _ & H2 & H3 & _).
  - exact machine3_ok.
  - intros Hin. apply list_elem_of_singleton in Hin. discriminate Hin.
  - exists s'. split; [exact H1|]. split; [exact H2|]. apply H3; [lia|]. left. reflexivity.
Defined.

(** Physical addresses are cut to 32 bits: [arch_vm_map] accepts memory at
    or above 4 GiB and maps the frame 4 GiB (or a multiple) lower instead. *)
Theorem arch_vm_map_truncates (s s1 : machine) R v virt phys flags :
  vm_ok s R -> pd_phys v ∈ R -> 0 <= virt -> virt + 4096 <= 4294967296 ->
  4294967296 <= phys -> phys + 4096 <= 18446744073709551616 ->
  arch_vm_map (Some v) virt phys 4096 flags s = Some (KERR_OK, s1) ->
  arch_vm_translate (Some v) virt true s1 = Some (inr (phys mod 4294967296), s1) /\
  phys mod 4294967296 <> phys.
Proof.
  intros Hok Hv Hv0 Hvs Hp0 Hps Hrun. split; [|dlia].
  pose proof (run_wp _ _ _ _ _ (arch_vm_map_wp s R v virt phys 4096 flags Hok Hv Hv0 ltac:(lia) Hvs ltac:(lia) Hps) Hrun)
    as [(_ & Hbad & _)|((_ & Ha1 & Ha2 & _) & o & Hres & Hpost)]; [discriminate Hbad|].
  destruct (range_post_ok _ _ _ _ _ _ _ _ _ _ Hres Hpost) as (Hst & Hset & _ & _); [intros ??? [? _]; done|].
  assert (is_u32 virt) as Hvu by (unfold is_u32; lia).
  pose proof (arch_vm_translate_wp s1 R v virt (ps_ok _ _ _ _ Hst) Hv Hvu) as Ht.
  apply wp_run in Ht as (r & s2 & -> & -> & ->). rewrite Hset, shares_self by (done || dlia).
  change (4096 / 4096) with 1.
  replace ((virt / 4096 <=? virt / 4096) && (virt / 4096 <? virt / 4096 + 1)) with true by lia. cbn [andb].
  replace (phys + 4096 * (virt / 4096 - virt / 4096)) with phys by lia.
  destruct (pte_of_spec phys flags) as (_ & -> & _); [lia | done|]. rewrite Ha1, Z.add_0_r. done.
Qed.

Lemma arch_vm_map_truncates_witness :
  exists s1, arch_vm_map (Some (mk_space 131072)) 4096 4294975488 4096 3 machine1 = Some (KERR_OK, s1) /\
    arch_vm_translate (Some (mk_space 131072)) 4096 true s1 = Some (inr 8192, s1).
Proof.
  destruct (run_code (arch_vm_map (Some (mk_space 131072)) 4096 4294975488 4096 3) machine1 KERR_OK)
    as [s1 H1]; [vm_compute; reflexivity|]. exists s1. split; [exact H1|].
  apply (arch_vm_map_truncates machine1 s1 [131072] (mk_space 131072) 4096 4294975488 3).
  - apply machine1_ok.
  - apply list_elem_of_here.
  - lia.
  - lia.
  - lia.
  - lia.
  - exact H1.
Defined.
