(* ===== verification/HeapLive.v ===== *)
(** * The heap as its clients see it

    Specifications of [kmalloc] and [kfree] in terms of the live pointers only,
    for components that keep objects on the heap: what is allocated, and that no
    word of another live object, nor any word outside the heap, changes. *)

From stdpp Require Import relations.
From S2P Require Import Prelude Base Memory KList Bitmap Pmm Frames Kheap KheapClient.

Section Live.
Variable kheap_free_list : Z.

(** Words that belong to the clients: outside the heap, or in a live object. *)
Definition live_addr (s : kheap) (L : list (Z * Z)) (a : Z) : Prop :=
  ((a < kheap_start s \/ kheap_end s <= a) /\ a <> kheap_free_list /\ a <> kheap_free_list + 4) \/
  exists p sz, (p, sz) ∈ L /\ p <= a < p + sz.

Abbreviation heap_ok s L := (client_inv kheap_free_list (s, L)).

Lemma live_block s L bs us : Forall2 owns L us -> us ≡ₚ used_blocks bs ->
  forall a, live_addr s L a -> client_addr kheap_free_list s bs a.
Proof.
  intros HL Hus a [Ha|(p & sz & Hin & Ha)]; [by left|]. right.
  apply list_elem_of_lookup_1 in Hin as [i Hi].
  destruct (Forall2_lookup_l _ _ _ _ _ HL Hi) as (b & Hb & Ho). destruct Ho as (H1 & H2 & H3). cbn in *.
  assert (b ∈ bs /\ b_used b = true) as [Hbs Hu].
  { apply elem_of_used. rewrite <- Hus. by apply list_elem_of_lookup_2 in Hb. }
  exists b. split; [done|]. split; [done|]. lia.
Qed.

(** Changing client words keeps the heap well formed. *)
Lemma heap_inv_frame s bs ns m' :
  heap_inv kheap_free_list s bs ns ->
  (forall a, ~ client_addr kheap_free_list s bs a -> rd m' a = rd (kh_mem s) a) ->
  heap_inv kheap_free_list (set_kh_mem m' s) bs ns.
Proof.
  intros H Hfr. pose proof (hi_shape _ _ _ _ H) as Hsh. destruct (Hsh) as [_ [_ Hsent] Hc Hs].
  split; [done | | apply (hi_coalesced _ _ _ _ H) | | apply (hi_nodes _ _ _ _ H)]; cbn [kh_mem set_kh_mem].
  - pose proof (hi_blocks _ _ _ _ H) as Hbl. rewrite Forall_forall in Hbl |- *. intros c Hcb.
    apply (blk_ok_ext (kh_mem s)); [|by apply Hbl]. intros x Hx. apply Hfr.
    destruct (shape_block _ _ _ _ Hsh c Hcb) as (? & ? & ? & ? & ? & ? & ?).
    intros [Ho|(b & Hb & Hu & Hin)]; [lia|].
    destruct (shape_block _ _ _ _ Hsh b Hb) as (? & _).
    destruct (contig_sep _ _ _ b c Hc Hs Hb Hcb) as [<-|]; lia.
  - apply (dll_ext (kh_mem s)); [|apply (hi_list _ _ _ _ H)]. intros x Hx. apply Hfr.
    assert (forall y, y ∈ kheap_free_list :: ns -> heap_node kheap_free_list bs y) as Hn.
    { intros y. by apply (heap_nodes kheap_free_list s). }
    intros [(Ho & H1 & H2)|(b & Hb & Hu & Hin)]; revert Hx.
    + by apply (outside_not_node kheap_free_list (kheap_start s) (kheap_end s) bs).
    + apply (inside_not_node kheap_free_list _ _ _ Hsh _ b); [done | done | lia..].
Qed.

Lemma heap_ok_frame s L m' :
  heap_ok s L -> (forall a, ~ live_addr s L a -> rd m' a = rd (kh_mem s) a) -> heap_ok (set_kh_mem m' s) L.
Proof.
  intros (bs & ns & us & H & Hus & HL) Hfr. cbn [fst snd] in *. exists bs, ns, us. split; [|done].
  apply heap_inv_frame; [done|]. intros a Ha. apply Hfr. intros Hl. by apply Ha, (live_block s L bs us).
Qed.

Lemma heap_ok_perm s L L' : L ≡ₚ L' -> heap_ok s L -> heap_ok s L'.
Proof.
  intros HP (bs & ns & us & H & Hus & HL). cbn [fst snd] in *.
  destruct (Permutation_Forall2 HP HL) as (us' & HP' & HL').
  exists bs, ns, us'. cbn [fst snd]. split; [done|]. split; [|done]. by rewrite <- HP'.
Qed.

(** There are fewer objects than the fuel of the loops over the heap. *)
Lemma heap_ok_fuel s L : heap_ok s L -> (length L < kheap_fuel s)%nat.
Proof.
  intros (bs & ns & us & H & Hus & HL). cbn [fst snd] in *. apply Forall2_length in HL.
  apply Permutation_length in Hus. pose proof (List.filter_length_le b_used bs).
  destruct (kheap_fuel_enough _ _ _ _ H) as [Hf _]. unfold used_blocks in Hus. lia.
Qed.

(** *** Room

    Neighbouring free blocks are merged, so there is at most one more free block than
    there are objects: when the objects leave enough bytes for that many blocks, one of
    the free blocks is large enough. *)

(** What the objects take at most. *)
Definition heap_load (L : list (Z * Z)) : Z := foldr (fun l n => l.2 + 46 + n) 0 L.

Definition heap_fits (s : kheap) (L : list (Z * Z)) (size : Z) : Prop :=
  heap_load L + (Z.of_nat (length L) + 1) * block_need size <= kheap_end s - kheap_start s.

Lemma heap_load_app L1 L2 : heap_load (L1 ++ L2) = heap_load L1 + heap_load L2.
Proof. unfold heap_load. induction L1 as [|l L1 IH]; cbn [app foldr]; [done | rewrite IH; lia]. Qed.

Lemma heap_load_perm L1 L2 : L1 ≡ₚ L2 -> heap_load L1 = heap_load L2.
Proof. unfold heap_load. induction 1; cbn [foldr] in *; lia. Qed.

Lemma free_count bs : coalesced bs ->
  count_blocks false bs <= count_blocks true bs + match bs with b :: _ => if b_used b then 0 else 1 | [] => 0 end.
Proof.
  unfold count_blocks. induction bs as [|b bs IH]; intros Hc; [done|]. cbn [foldr].
  destruct bs as [|c bs]; [cbn; destruct (b_used b); cbn; lia|]. destruct Hc as [Hu Hc]. specialize (IH Hc).
  destruct (b_used b), (b_used c); cbn [Bool.eqb] in *; (lia || done).
Qed.

Lemma free_bytes_small need bs : (forall c, c ∈ bs -> b_used c = false -> b_size c < need) ->
  count_bytes false bs <= count_blocks false bs * (need - 1).
Proof.
  unfold count_bytes, count_blocks. induction bs as [|b bs IH]; intros Hs; [done|]. cbn [foldr].
  specialize (IH ltac:(intros c Hc; apply Hs; by apply list_elem_of_further)).
  pose proof (Hs b (list_elem_of_here _ _)) as Hb. destruct (b_used b); cbn [Bool.eqb]; [lia|]. specialize (Hb eq_refl). lia.
Qed.

Lemma used_load L us : Forall2 owns L us ->
  foldr (fun b n => b_size b + n) 0 us <= heap_load L /\ length us = length L.
Proof.
  unfold heap_load. induction 1 as [|l b L us (_ & _ & _ & Hb) _ [IH E]]; cbn [foldr length]; [done|]. lia.
Qed.

Lemma count_used bs : count_bytes true bs = foldr (fun b n => b_size b + n) 0 (used_blocks bs) /\
  count_blocks true bs = Z.of_nat (length (used_blocks bs)).
Proof.
  unfold count_bytes, count_blocks, used_blocks. induction bs as [|b bs [IH1 IH2]]; [done|]. cbn [foldr List.filter].
  destruct (b_used b); cbn [Bool.eqb foldr length]; lia.
Qed.

Lemma sum_perm us vs : us ≡ₚ vs -> foldr (fun b n => b_size b + n) 0 us = foldr (fun b n => b_size b + n) 0 vs.
Proof. induction 1; cbn [foldr] in *; lia. Qed.

Lemma heap_fits_free s L bs ns us size :
  heap_inv kheap_free_list s bs ns -> us ≡ₚ used_blocks bs -> Forall2 owns L us -> 0 < size ->
  (forall c, c ∈ bs -> b_used c = false -> b_size c < block_need size) -> ~ heap_fits s L size.
Proof.
  intros H Hus HL Hsz Hsmall. pose proof (count_bytes_total _ _ _ (hs_contig _ _ _ _ (hi_shape _ _ _ _ H))) as Ht.
  pose proof (free_count bs (hi_coalesced _ _ _ _ H)) as Hc. pose proof (free_bytes_small _ _ Hsmall) as Hb.
  destruct (used_load _ _ HL) as [Hl Hn], (count_used bs) as [E1 E2].
  rewrite (sum_perm _ _ Hus) in Hl. rewrite (Permutation_length Hus) in Hn.
  assert (count_blocks false bs <= Z.of_nat (length L) + 1) as Hfree by (destruct bs as [|b bs']; [|destruct (b_used b)]; lia).
  assert (20 < block_need size) by (unfold block_need; dlia). unfold heap_fits. nia.
Qed.

(** *** Allocation *)

Lemma kmalloc_live_wp s L size :
  heap_ok s L -> 0 < size <= 4294967272 ->
  wp (kmalloc kheap_free_list size) (fun p s' =>
    (KERR_PTR_IS_ERR p = true /\ s' = s /\ ~ heap_fits s L size) \/
    (KERR_PTR_IS_ERR p = false /\ exists m', s' = set_kh_mem m' s /\ heap_ok s' ((p, size) :: L) /\
       forall a, live_addr s L a -> rd m' a = rd (kh_mem s) a)) s.
Proof.
  intros Hinv Hsize. destruct (Hinv) as (bs & ns & us & H & Hus & HL). cbn [fst snd] in *.
  destruct (proj1 (wp_run _ _ _) (kmalloc_wp kheap_free_list s bs ns size H ltac:(lia))) as (p & s' & Hrun & Hpost).
  apply wp_run. exists p, s'. split; [done|].
  pose proof (client_kmalloc kheap_free_list s L size p s' Hinv ltac:(lia) Hrun) as Hinv'.
  destruct Hpost as [(-> & _)|[(_ & -> & -> & Hsmall)|(_ & bs1 & b & bs2 & pre & post & m' & -> & _ & Hu & _ & _ & -> & -> & _ & Hfr)]].
  - lia.
  - left. split; [done|]. split; [done|]. eapply heap_fits_free; [done..| lia | done].
  - right. rewrite (block_ptr_not_err _ _ _ _ _ H) in * by (apply elem_of_app; right; apply list_elem_of_here).
    split; [done|]. exists m'. split; [done|]. split; [done|]. intros a Ha. apply Hfr.
    apply (client_addr_free kheap_free_list s bs1 (Some b) None bs2); [done..|]. simpl. rewrite <- app_assoc.
    by apply (live_block s L _ us).
Qed.

(** *** Release: the object is gone, unless it is the last one of the heap, which
    [kfree] refuses. *)
Lemma kfree_live_wp s L p size :
  heap_ok s ((p, size) :: L) ->
  wp (kfree kheap_free_list p) (fun _ s' =>
    (kheap_end s - 24 <= p /\ s' = s) \/
    (p < kheap_end s - 24 /\ exists m', s' = set_kh_mem m' s /\ heap_ok s' L /\
       forall a, live_addr s L a -> rd m' a = rd (kh_mem s) a)) s.
Proof.
  intros Hinv. destruct (Hinv) as (bs & ns & us & H & Hus & HL). cbn [fst snd] in *.
  apply Forall2_cons_inv_l in HL as (b & us' & (Hpb & Hsz & Hsz') & HL & ->). cbn [fst snd] in *. subst p.
  assert (b ∈ bs /\ b_used b = true) as [Hb Hu].
  { apply elem_of_used. rewrite <- Hus. apply list_elem_of_here. }
  pose proof (hi_shape _ _ _ _ H) as Hsh.
  destruct (shape_block _ _ _ _ Hsh b Hb) as (? & ? & ? & ? & ? & ? & ?).
  destruct (Z.lt_ge_cases (b_addr b + 16) (kheap_end s - 24)) as [Hlt|Hge].
  - apply list_elem_of_split in Hb as (bs1 & bs2 & ->).
    destruct (proj1 (wp_run _ _ _) (kfree_wp kheap_free_list s bs1 b bs2 ns H Hu Hlt)) as (r & s' & Hrun & -> & Hpost).
    apply wp_run. exists KERR_OK, s'. split; [done|]. right. split; [done|].
    destruct (client_kfree kheap_free_list s [] L _ size _ s' Hinv Hlt Hrun) as [_ Hinv'].
    destruct Hpost as (Lb & op & on & R & ns' & m' & _ & _ & _ & _ & -> & _ & Hfr).
    exists m'. split; [done|]. split; [done|]. intros a Ha. apply Hfr.
    rewrite used_blocks_app in Hus. unfold used_blocks at 2 in Hus. cbn [List.filter] in Hus. rewrite Hu in Hus.
    rewrite <- Permutation_middle in Hus. apply Permutation_cons_inv in Hus.
    apply (live_block s L _ us'); [done | | done]. rewrite used_blocks_app. exact Hus.
  - destruct (hs_bounds _ _ _ _ Hsh) as (? & ? & ?).
    wp_use kfree_reject_wp; [lia | lia | lia | unfold is_u32, KERNEL_VIRT_OFFSET in *; lia | right; right; left; lia|].
    intros r s' [_ ->]. left. done.
Qed.

(** Live objects are aligned, inside the heap, and do not overlap. *)
Lemma heap_ok_disjoint s L : heap_ok s L ->
  ForallOrdPairs disjoint L /\
  Forall (fun l => kheap_start s + 16 <= l.1 /\ l.1 + l.2 <= kheap_end s - 4 /\ l.1 mod 4 = 0) L.
Proof. apply client_disjoint. Qed.

Lemma heap_ok_bounds s L : heap_ok s L -> KERNEL_VIRT_OFFSET <= kheap_start s /\ kheap_end s <= 4026531840 /\
  (kheap_free_list + 8 <= kheap_start s \/ kheap_end s <= kheap_free_list).
Proof. intros (bs & ns & us & H & _). destruct (hi_shape _ _ _ _ H) as [(? & ? & ?) [_ ?] _ _]. done. Qed.
End Live.

(** ** Property *)


