(* ===== verification/KernelVm.v ===== *)
(** * Kernel mappings and kernel stacks

    Models [kernel/mm/kernel_vm.c] (the kernel's own address space) and
    [kernel/mm/kernel_stack.c] (stacks of four pages taken from a window of 64
    slots above the direct map).  The state adds to the page-table machine the
    static objects [kernel_vm] and [kernel_stack_bm]. *)

From S2P Require Import Prelude Base Memory KList Bitmap Pmm Frames KheapClient Paging PagingProps.

Record kvm (A : Type) := mk_kvm {
  kv_vm : vmstate A;
  kernel_vm : arch_vm_space;
  kernel_stack_bm : bitmap
}.
Arguments mk_kvm {A}.
Arguments kv_vm {A}.
Arguments kernel_vm {A}.
Arguments kernel_stack_bm {A}.

Definition KERNEL_STACK_MAX : Z := 64.
Definition KERNEL_STACK_PAGES : Z := 4.
Definition KERNEL_STACK_BASE : Z := 4026531840. (* 0xF0000000 *)

Record kernel_stack := mk_kstack {
  ks_base : Z;
  ks_stack_pointer : Z;
  ks_size : Z
}.

Definition vm_kern_range_valid (virt size : Z) : bool :=
  if size =? 0 then false
  else if virt <? KERNEL_VIRT_OFFSET then false
  else if UINTPTR_MAX - virt <? size - 1 then false
  else true.

Section Ops.
Context {A : Type} `{FrameAllocator A}.

Definition set_kv_vm (v : vmstate A) (s : kvm A) : kvm A := mk_kvm v (kernel_vm s) (kernel_stack_bm s).
Definition set_kernel_vm (v : arch_vm_space) (s : kvm A) : kvm A := mk_kvm (kv_vm s) v (kernel_stack_bm s).
Definition set_kernel_stack_bm (b : bitmap) (s : kvm A) : kvm A := mk_kvm (kv_vm s) (kernel_vm s) b.

Abbreviation in_vm := (zoom kv_vm set_kv_vm).
Abbreviation in_bm := (zoom kernel_stack_bm set_kernel_stack_bm).

Definition vm_kern_map (virt phys size flags : Z) : M (kvm A) Z :=
  if negb (vm_kern_range_valid virt size) then ret (- KERR_INVAL)
  else k <-- gets kernel_vm ;; in_vm (arch_vm_map (Some k) virt phys size flags).

Definition vm_kern_unmap (virt size : Z) : M (kvm A) Z :=
  if negb (vm_kern_range_valid virt size) then ret (- KERR_INVAL)
  else k <-- gets kernel_vm ;; in_vm (arch_vm_unmap (Some k) virt size).

Definition vm_kern_protect (virt size flags : Z) : M (kvm A) Z :=
  if negb (vm_kern_range_valid virt size) then ret (- KERR_INVAL)
  else k <-- gets kernel_vm ;; in_vm (arch_vm_protect (Some k) virt size flags).

Definition vm_kern_attach (vm : option arch_vm_space) : M (kvm A) Z :=
  match vm with
  | None => ret (- KERR_INVAL)
  | Some _ => k <-- gets kernel_vm ;; in_vm (arch_vm_space_attach_kernel vm (Some k))
  end.

(** [phys = NULL] is [false]. *)
Definition vm_kern_translate (virt : Z) (phys : bool) : M (kvm A) (Z + Z) :=
  if negb phys then ret (inl (- KERR_INVAL))
  else if negb (vm_kern_range_valid virt 1) then ret (inl (- KERR_INVAL))
  else k <-- gets kernel_vm ;; in_vm (arch_vm_translate (Some k) virt phys).

(** The addresses of the linker symbols [__text_start], [__text_end],
    [__rodata_start] and [__rodata_end] are arguments. *)
Definition vm_kern_init (text_start text_end rodata_start rodata_end : Z) : M (kvm A) Z :=
  k <-- gets kernel_vm ;;
  ' (e, k') <-- in_vm (arch_vm_space_init (Some k)) ;;
  if e <? 0 then ret e
  else
    modify (set_kernel_vm (default k k')) ;;;
    k <-- gets kernel_vm ;;
    TRY in_vm (arch_vm_kernel_prepare (Some k)) ;;;
    TRY vm_kern_map KERNEL_VIRT_OFFSET 0 KERNEL_DIRECT_MAP_SIZE (Z.lor VM_READ VM_WRITE) ;;;
    TRY vm_kern_protect text_start (u32 (text_end - text_start)) (Z.lor VM_READ VM_EXEC) ;;;
    TRY vm_kern_protect rodata_start (u32 (rodata_end - rodata_start)) VM_READ ;;;
    k <-- gets kernel_vm ;;
    TRY in_vm (arch_vm_space_load (Some k)) ;;;
    ret KERR_OK.

Definition kv_alloc_any (n : Z) : M (kvm A) (Z + Z) :=
  in_vm (zoom vs_frames set_vs_frames (fa_alloc_any n)).
Definition kv_free (addr n : Z) : M (kvm A) Z :=
  in_vm (zoom vs_frames set_vs_frames (fa_free addr n)).

(** One page of a new stack: a frame from anywhere, mapped at [va]. *)
Definition kstack_page (va : Z) : M (kvm A) (unit + Z) :=
  r <-- kv_alloc_any 1 ;;
  match r with
  | inl e => ret (inr e)
  | inr frame =>
      e <-- vm_kern_map va frame arch_vm_page_size (Z.lor (Z.lor VM_GROWSDOWN VM_READ) VM_WRITE) ;;
      if e <? 0 then ret (inr e) else ret (inl tt)
  end.

(** [stack = NULL] is [None]; the updated structure is returned. *)
Definition kstack_alloc (stack : option kernel_stack) : M (kvm A) (Z * option kernel_stack) :=
  match stack with
  | None => ret (- KERR_INVAL, None)
  | Some st =>
      if negb (ks_base st =? 0) || negb (ks_size st =? 0) then ret (- KERR_EXISTS, Some st)
      else
        r <-- in_bm bitmap_find_zero ;;
        match r with
        | None => ret (- KERR_NOSPC, Some st)
        | Some pos =>
            let page_size := arch_vm_page_size in
            let base := u32 (KERNEL_STACK_BASE + KERNEL_STACK_PAGES * pos * page_size) in
            l <-- for_lt 0 KERNEL_STACK_PAGES tt (fun i _ => kstack_page (u32 (base + i * page_size))) ;;
            match l with
            | inr e => ret (e, Some st)
            | inl _ =>
                in_bm (bitmap_set pos) ;;;
                ret (KERR_OK, Some (mk_kstack base (ks_stack_pointer st) (KERNEL_STACK_PAGES * arch_vm_page_size)))
            end
        end
  end.

(** One page of [kstack_free]. *)
Definition kstack_free_page (va : Z) : M (kvm A) (unit + Z) :=
  r <-- vm_kern_translate va true ;;
  match r with
  | inl e => ret (inr e)
  | inr phys =>
      e <-- vm_kern_unmap va arch_vm_page_size ;;
      if e <? 0 then ret (inr e)
      else
        e' <-- kv_free phys 1 ;;
        if e' <? 0 then ret (inr e') else ret (inl tt)
  end.

Definition kstack_free (stack : option kernel_stack) : M (kvm A) (Z * option kernel_stack) :=
  match stack with
  | None => ret (- KERR_INVAL, None)
  | Some st =>
      if (ks_base st =? 0) || (ks_size st =? 0) then ret (- KERR_NOENT, Some st)
      else
        let page_size := arch_vm_page_size in
        let pos := u32 (ks_base st - KERNEL_STACK_BASE) / (KERNEL_STACK_PAGES * arch_vm_page_size) in
        l <-- for_lt 0 KERNEL_STACK_PAGES tt (fun i _ => kstack_free_page (u32 (ks_base st + i * page_size))) ;;
        match l with
        | inr e => ret (e, Some st)
        | inl _ =>
            in_bm (bitmap_clear pos) ;;;
            ret (KERR_OK, Some (mk_kstack 0 0 0))
        end
  end.
End Ops.

(** ** Specifications *)

Lemma vm_kern_range_valid_spec virt size : is_u32 virt -> is_u32 size ->
  vm_kern_range_valid virt size = true <-> 0 < size /\ KERNEL_VIRT_OFFSET <= virt /\ virt + size <= 4294967296.
Proof.
  unfold vm_kern_range_valid, UINTPTR_MAX, is_u32. intros Hv Hs. zcases; split; try done; try lia.
Qed.

Section Spec.
Context {A : Type} `{FrameAllocatorLaws A}.

(** The machine, with the spaces [R] and the kernel's own among them. *)
Record kvm_ok (s : kvm A) (R : list Z) : Prop := {
  kv_ok : vm_ok (kv_vm s) R;
  kv_root : pd_phys (kernel_vm s) ∈ R;
  kv_bm : bitmap_ok (kernel_stack_bm s) /\ bm_nbits (kernel_stack_bm s) = KERNEL_STACK_MAX
}.

Abbreviation kwalk s p := (walk (vs_mem (kv_vm s)) (pd_phys (kernel_vm s)) p).

Lemma set_kv_vm_id (s : kvm A) : set_kv_vm (kv_vm s) s = s.
Proof. by destruct s. Qed.

(** The directory slot of the stack window has a table ([vm_kern_init] makes one
    for every slot of the kernel's half). *)
Definition prepared (s : kvm A) : Prop :=
  tbl (vs_mem (kv_vm s)) (pd_phys (kernel_vm s)) 960 <> None.

Abbreviation kframes s := (vs_frames (kv_vm s)).

(** Frame [f] holds a directory or a table of one of the spaces. *)
Definition table_frame (s : kvm A) (R : list Z) (f : Z) : Prop :=
  f * 4096 ∈ R \/ exists r i, r ∈ R /\ 0 <= i < 1024 /\ tbl (vs_mem (kv_vm s)) r i = Some (f * 4096).

Lemma free_not_table s R f : kvm_ok s R -> fa_used (kframes s) f = false -> ~ table_frame s R f.
Proof.
  intros [[_ _ Ht] _ _] Hu [Hin|(r & i & Hr & Hi & Et)].
  - destruct (t_root _ _ _ Ht _ Hin) as (_ & _ & Hu' & _). rewrite Z.div_mul in Hu' by lia. congruence.
  - destruct (t_table _ _ _ Ht r i _ Hr Hi Et) as [(_ & _ & Hu' & _) _]. rewrite Z.div_mul in Hu' by lia. congruence.
Qed.

Abbreviation kmem s := (vs_mem (kv_vm s)).

(** What the operations below keep: they make no page table, write no memory but the
    tables, and change no page below the stack window. *)
Record kvm_step (R : list Z) (s s' : kvm A) : Prop := {
  ks_ok : kvm_ok s' R;
  ks_prep : prepared s';
  ks_vm : kernel_vm s' = kernel_vm s;
  ks_tot : fa_total (kframes s') = fa_total (kframes s);
  ks_tbl : forall r i, r ∈ R -> 0 <= i < 1024 -> tbl (kmem s') r i = tbl (kmem s) r i;
  ks_mem : forall a, ~ table_word (kmem s) R a -> rd (kmem s') a = rd (kmem s) a;
  ks_low : forall r p, r ∈ R -> 0 <= p < 983040 -> walk (kmem s') r p = walk (kmem s) r p
}.

Lemma kvm_step_refl R s : kvm_ok s R -> prepared s -> kvm_step R s s.
Proof. by intros; split. Qed.

Lemma table_word_tbl m m' R a :
  (forall r i, r ∈ R -> 0 <= i < 1024 -> tbl m' r i = tbl m r i) -> table_word m' R a -> table_word m R a.
Proof.
  intros Htb (t & [Ht|(r & i & Hr & Hi & Ht)] & Ha); exists t; (split; [|done]); [by left|].
  right. exists r, i. rewrite <- Htb by done. done.
Qed.

Lemma kvm_step_trans R s1 s2 s3 : kvm_step R s1 s2 -> kvm_step R s2 s3 -> kvm_step R s1 s3.
Proof.
  intros [O1 P1 V1 T1 B1 M1 U1] [O2 P2 V2 T2 B2 M2 U2]. split; [done | done | congruence | congruence | | |].
  - intros r i Hr Hi. by rewrite B2, B1.
  - intros a Ha. rewrite M2, M1; [done..|]. intros Ht. by apply Ha, (table_word_tbl _ _ _ _ B1).
  - intros r p Hr Hp. by rewrite U2, U1.
Qed.

Lemma ks_tab R s s' f : kvm_step R s s' -> table_frame s' R f -> table_frame s R f.
Proof.
  intros Hst [Hin|(r & i & Hr & Hi & Et)]; [by left|]. right. exists r, i. rewrite <- (ks_tbl _ _ _ Hst) by done. done.
Qed.

(** A page-table step of the kernel's space, lifted to the whole state. *)
Lemma kvm_step_vm R s vm' :
  kvm_ok s R -> prepared s -> pt_step R (pd_phys (kernel_vm s)) (kv_vm s) vm' -> vs_frames vm' = kframes s ->
  (forall r p, r ∈ R -> 0 <= p < 983040 -> walk (vs_mem vm') r p = walk (kmem s) r p) ->
  kvm_step R s (set_kv_vm vm' s).
Proof.
  intros [Hok Hr Hbm] Hprep Hst Hfr Hlow.
  assert (kvm_ok (set_kv_vm vm' s) R) as Hok' by (by split; [apply (ps_ok _ _ _ _ Hst)| |]).
  assert (Htb : forall r i, r ∈ R -> 0 <= i < 1024 -> tbl (vs_mem vm') r i = tbl (kmem s) r i).
  { intros r i Hrr Hi. destruct (decide (r = pd_phys (kernel_vm s))) as [->|Hne]; [|by apply (ps_other _ _ _ _ Hst)].
    destruct (tbl (vs_mem vm') (pd_phys (kernel_vm s)) i) as [t|] eqn:Et.
    - destruct (ps_new _ _ _ _ Hst i _ Hi Et) as [?|[_ Hu]]; [done|]. exfalso.
      destruct (t_table _ _ _ (v_tables _ _ (ps_ok _ _ _ _ Hst)) _ i _ Hrr Hi Et) as [(_ & _ & Hu' & _) _].
      rewrite Hfr in Hu'. congruence.
    - destruct (tbl (kmem s) (pd_phys (kernel_vm s)) i) as [t|] eqn:Et'; [|done].
      apply (ps_mono _ _ _ _ Hst) in Et'; [congruence | done]. }
  split; [done | | done | cbn; by rewrite Hfr | exact Htb | | exact Hlow].
  - unfold prepared in *. cbn. by rewrite Htb by (done || lia).
  - intros a Ha. apply (ps_frame _ _ _ _ Hst). intros Ht. by apply Ha, (table_word_tbl _ _ _ _ Htb).
Qed.

Lemma single_page n k p0 p : n = 1 -> 0 <= k <= n ->
  ((p0 <=? p) && (p <? p0 + k)) = (p =? p0) && (k =? 1).
Proof. intros -> Hk. destruct (Z.eqb_spec p p0), (Z.eqb_spec k 1); cbn; lia. Qed.

(** Mapping one page under the window's table. *)
Lemma vm_kern_map_page_wp s R va pa flags :
  kvm_ok s R -> prepared s -> KERNEL_STACK_BASE <= va -> va + 4096 <= 4030726144 -> va mod 4096 = 0 ->
  0 <= pa -> pa + 4096 <= 18446744073709551616 -> pa mod 4096 = 0 ->
  wp (vm_kern_map va pa 4096 flags) (fun res s' =>
    kvm_step R s s' /\ kernel_stack_bm s' = kernel_stack_bm s /\ kframes s' = kframes s /\
    ((res = KERR_OK /\ kwalk s (va / 4096) = None /\
      forall p, 0 <= p < 1048576 ->
        kwalk s' p = if p =? va / 4096 then Some (pte_of pa flags) else kwalk s p) \/
     (res = - KERR_EXISTS /\ kwalk s (va / 4096) <> None /\ forall p, 0 <= p < 1048576 -> kwalk s' p = kwalk s p))) s.
Proof.
  intros Hkv Hprep Hva Hve Hval Hpa Hpe Hpal. destruct (Hkv) as [Hok Hr Hbm]. unfold vm_kern_map.
  assert (vm_kern_range_valid va 4096 = true) as ->.
  { apply vm_kern_range_valid_spec; unfold is_u32, KERNEL_VIRT_OFFSET, KERNEL_STACK_BASE in *; lia. }
  cbn [negb]. wp_steps.
  wp_use (arch_vm_map_wp (kv_vm s) R (kernel_vm s) va pa 4096 flags); [done | done | unfold KERNEL_STACK_BASE in *; lia | lia..|].
  intros res vm' [(Hbad & _)|(_ & o & -> & k & Hk & Hst & Hset & HP & _ & Hfr & Ho)].
  { exfalso. apply Hbad. unfold map_args_ok. dlia. }
  change (4096 / 4096) with 1 in *.
  assert (vs_frames vm' = kframes s) as Hfr'.
  { apply Hfr. intros i Hi. replace ((va / 4096 + i) / 1024) with 960 by (unfold KERNEL_STACK_BASE in *; dlia). done. }
  split; [apply kvm_step_vm; try done|].
  { intros r p Hrr Hp. rewrite Hset by (done || lia).
    replace ((va / 4096 <=? p) && (p <? va / 4096 + k)) with false by (unfold KERNEL_STACK_BASE in *; dlia). done. }
  split; [done|]. split; [done|]. cbn [kv_vm set_kv_vm kernel_vm].
  assert (Hsh : forall p, 0 <= p < 1048576 -> walk (vs_mem vm') (pd_phys (kernel_vm s)) p =
    if (p =? va / 4096) && (k =? 1) then Some (pte_of pa flags) else kwalk s p).
  { intros p Hp. rewrite Hset by done. unfold shares. rewrite Z.eqb_refl. cbn [orb]. rewrite andb_true_r.
    rewrite (single_page 1) by done. destruct (Z.eqb_spec p (va / 4096)) as [->|]; [|done]. cbn [andb].
    destruct (k =? 1); [|done]. do 2 f_equal. lia. }
  destruct o as [[]|e].
  - subst k. left. split; [done|]. split; [rewrite <- (Z.add_0_r (va / 4096)); apply HP; lia|].
    intros p Hp. rewrite Hsh by done. by rewrite andb_true_r.
  - destruct Ho as (Hk1 & He & Hex & Hnt). assert (k = 0) as -> by lia. right. rewrite Z.add_0_r in Hex, Hnt.
    assert (walk (vs_mem (kv_vm s)) (pd_phys (kernel_vm s)) (va / 4096) <> None) as Hmapped.
    { intros Hn. apply Hprep. replace 960 with (va / 4096 / 1024) by (unfold KERNEL_STACK_BASE in *; dlia). by apply Hnt. }
    split; [by apply Hex|]. split; [done|]. intros p Hp. rewrite Hsh by done. by rewrite andb_false_r.
Qed.

(** The same for removing the mapping of a page. *)
Lemma vm_kern_unmap_page_wp s R va :
  kvm_ok s R -> prepared s -> KERNEL_STACK_BASE <= va -> va + 4096 <= 4030726144 -> va mod 4096 = 0 ->
  kwalk s (va / 4096) <> None ->
  wp (vm_kern_unmap va 4096) (fun res s' => res = KERR_OK /\
    kvm_step R s s' /\ kernel_stack_bm s' = kernel_stack_bm s /\ kframes s' = kframes s /\
    forall p, 0 <= p < 1048576 -> kwalk s' p = if p =? va / 4096 then None else kwalk s p) s.
Proof.
  intros Hkv Hprep Hva Hve Hval Hmap. destruct (Hkv) as [Hok Hr Hbm]. unfold vm_kern_unmap.
  assert (vm_kern_range_valid va 4096 = true) as ->.
  { apply vm_kern_range_valid_spec; unfold is_u32, KERNEL_VIRT_OFFSET, KERNEL_STACK_BASE in *; lia. }
  cbn [negb]. wp_steps.
  wp_use (arch_vm_unmap_wp (kv_vm s) R (kernel_vm s) va 4096); [done | done | unfold KERNEL_STACK_BASE in *; lia | lia..|].
  intros res vm' [(Hbad & _)|(_ & o & -> & k & Hk & Hst & Hset & HP & _ & Hfr & Ho)].
  { exfalso. apply Hbad. unfold range_args_ok. dlia. }
  change (4096 / 4096) with 1 in *. destruct o as [[]|e].
  2: { destruct Ho as (Hk1 & Hn & _). replace k with 0 in Hn by lia. by rewrite Z.add_0_r in Hn. }
  subst k. assert (vs_frames vm' = kframes s) as Hfr'.
  { apply Hfr. intros i Hi. replace ((va / 4096 + i) / 1024) with 960 by (unfold KERNEL_STACK_BASE in *; dlia). done. }
  split; [done|]. split; [apply kvm_step_vm; try done|].
  { intros r p Hrr Hp. rewrite Hset by (done || lia).
    replace ((va / 4096 <=? p) && (p <? va / 4096 + 1)) with false by (unfold KERNEL_STACK_BASE in *; dlia). done. }
  split; [done|]. split; [done|]. cbn [kv_vm set_kv_vm kernel_vm].
  intros p Hp. rewrite Hset by done. unfold shares. rewrite Z.eqb_refl. cbn [orb]. rewrite andb_true_r.
  rewrite (single_page 1) by done. by destruct (p =? va / 4096).
Qed.

Lemma vm_kern_translate_wp s R va pte :
  kvm_ok s R -> KERNEL_VIRT_OFFSET <= va < 4294967296 -> kwalk s (va / 4096) = Some pte ->
  wp (vm_kern_translate va true) (fun res s' => s' = s /\ res = inr (table_of pte + va mod 4096)) s.
Proof.
  intros [Hok Hr Hbm] Hva Hw. unfold vm_kern_translate. cbn [negb].
  assert (vm_kern_range_valid va 1 = true) as ->.
  { apply vm_kern_range_valid_spec; unfold is_u32, KERNEL_VIRT_OFFSET in *; lia. }
  cbn [negb]. wp_steps. wp_use arch_vm_translate_wp; [done | done | unfold is_u32, KERNEL_VIRT_OFFSET in *; lia|].
  intros res vm' [-> ->]. rewrite set_kv_vm_id, Hw. done.
Qed.

(** The page tables only need their own frames. *)
Lemma kvm_step_frames s R a' :
  kvm_ok s R -> prepared s -> fa_ok a' -> fa_total a' = fa_total (kframes s) ->
  (forall f, 0 <= f -> table_frame s R f -> fa_used a' f = fa_used (kframes s) f) ->
  kvm_step R s (set_kv_vm (set_vs_frames a' (kv_vm s)) s).
Proof.
  intros [[Hm Ha Ht] Hr Hbm] Hprep Ha' Htot Hu.
  assert (Hpf : forall t, page_frame (kframes s) t -> table_frame s R (t / 4096) -> page_frame a' t).
  { intros t (P1 & P2 & P3 & P4) Hf. split; [done|]. split; [done|]. rewrite Hu by (done || dlia). by rewrite Htot. }
  assert (Hal : forall t, page_frame (kframes s) t -> t / 4096 * 4096 = t) by (intros t (P1 & _); dlia).
  split; [|done..]. split; [|done..].
  split; cbn [kv_vm set_kv_vm vs_frames vs_mem set_vs_frames]; [done | done|].
  split; [| apply (t_present _ _ _ Ht) | | apply (t_inj _ _ _ Ht)].
  - intros r Hrr. pose proof (t_root _ _ _ Ht r Hrr) as Hp. apply Hpf; [done|]. left. by rewrite Hal.
  - intros r i t Hrr Hi Et. destruct (t_table _ _ _ Ht r i t Hrr Hi Et) as [Hp HnR]. split; [|done].
    apply Hpf; [done|]. right. exists r, i. by rewrite Hal.
Qed.

(** ** Kernel stacks *)

(** First page of stack slot [pos]. *)
Definition stack_page (pos : Z) : Z := KERNEL_STACK_BASE / 4096 + KERNEL_STACK_PAGES * pos.
Definition stack_flags : Z := Z.lor (Z.lor VM_GROWSDOWN VM_READ) VM_WRITE.

(** [s] is [s0] with the frames [fs] taken and mapped at the pages [p0], [p0 + 1], ... *)
Record stack_grown (R : list Z) (s0 s : kvm A) (p0 : Z) (fs : list Z) : Prop := {
  sg_step : kvm_step R s0 s;
  sg_bm : kernel_stack_bm s = kernel_stack_bm s0;
  sg_nodup : NoDup fs;
  sg_fresh : forall f, f ∈ fs -> 0 <= f < fa_total (kframes s0) /\ fa_used (kframes s0) f = false;
  sg_used : forall j, 0 <= j -> fa_used (kframes s) j = bool_decide (j ∈ fs) || fa_used (kframes s0) j;
  sg_free : forall i, 0 <= i < Z.of_nat (length fs) -> kwalk s0 (p0 + i) = None;
  sg_walk : forall p, 0 <= p < 1048576 -> kwalk s p =
    if (p0 <=? p) && (p <? p0 + Z.of_nat (length fs))
    then Some (pte_of (fs !!! Z.to_nat (p - p0) * 4096) stack_flags) else kwalk s0 p
}.

Lemma stack_grown_nil R s p0 : kvm_ok s R -> prepared s -> stack_grown R s s p0 [].
Proof.
  intros Hok Hp. split; [by apply kvm_step_refl | done | constructor | by intros f ?%elem_of_nil | | cbn; lia|].
  - intros j Hj. by rewrite bool_decide_false by apply not_elem_of_nil.
  - intros p Hpp. destruct (_ && _) eqn:E; [apply andb_true_iff in E as [E1%Z.leb_le E2%Z.ltb_lt]; rewrite Z.add_0_r in E2; lia | done].
Qed.

Lemma bool_decide_snoc (j f : Z) fs : bool_decide (j ∈ fs ++ [f]) = ((f <=? j) && (j <? f + 1)) || bool_decide (j ∈ fs).
Proof.
  assert (((f <=? j) && (j <? f + 1)) = true <-> j = f) as Hj by lia.
  apply eq_true_iff_eq. rewrite orb_true_iff, !bool_decide_eq_true, elem_of_app, list_elem_of_singleton, Hj. tauto.
Qed.

(** What a failed allocation may leave behind: mappings and frames in use, never
    fewer than before. *)
Definition stack_leaked (s s' : kvm A) : Prop :=
  (forall p, 0 <= p < 1048576 -> kwalk s p <> None -> kwalk s' p <> None) /\
  (forall j, 0 <= j -> fa_used (kframes s) j = true -> fa_used (kframes s') j = true).

(** One page more: the frame is fresh and the page was not mapped. *)
Lemma kstack_page_wp R s0 s p0 fs :
  stack_grown R s0 s p0 fs -> 983040 <= p0 -> p0 + Z.of_nat (length fs) < 984064 ->
  wp (kstack_page (4096 * (p0 + Z.of_nat (length fs)))) (fun res s' =>
    match res with
    | inl _ => exists f, stack_grown R s0 s' p0 (fs ++ [f])
    | inr e => - KERR_MAX_ERRNO <= e < 0 /\ kvm_step R s0 s' /\ kernel_stack_bm s' = kernel_stack_bm s0 /\ stack_leaked s0 s'
    end) s.
Proof.
  intros [Hst Hbm Hnd Hfresh Hused Hfree Hwalk] Hp0 Hp1. remember (Z.of_nat (length fs)) as n eqn:En.
  destruct (Hst) as [Hok Hprep Hkv Htot _ _ _].
  assert (kwalk s (p0 + n) = kwalk s0 (p0 + n)) as Hn.
  { rewrite Hwalk by lia. by replace ((p0 <=? p0 + n) && (p0 + n <? p0 + n)) with false by lia. }
  assert (stack_leaked s0 s) as [Hl1 Hl2].
  { split.
    - intros p Hp Hm. rewrite Hwalk by done. by destruct (_ && _).
    - intros j Hj Hu. rewrite Hused, Hu by done. apply orb_true_r. }
  unfold kstack_page, kv_alloc_any. do 3 wp_step.
  wp_use fa_alloc_any_wp; [apply (v_frames _ _ (kv_ok _ _ Hok)) | unfold is_u32; lia|].
  intros [e|addr] a' Hpost; cbn [fa_alloc_post] in Hpost.
  { destruct Hpost as [-> He]. wp_steps. rewrite set_vs_frames_id, set_kv_vm_id. split; [lia|]. done. }
  destruct Hpost as (f & -> & _ & Hf0 & Hf1 & Hf2 & Ha' & Ht' & Hu').
  assert (fa_used (kframes s) f = false) as Hff by (apply Hf2; lia).
  assert (kvm_step R s (set_kv_vm (set_vs_frames a' (kv_vm s)) s)) as Hs1.
  { apply kvm_step_frames; [done | done | done | done|]. intros g Hg Htg. rewrite Hu' by done.
    destruct (Z.eq_dec g f) as [->|]; [by destruct (free_not_table s R f)|].
    by replace ((f <=? g) && (g <? f + 1)) with false by lia. }
  set (s1 := set_kv_vm _ s) in *. pose proof (fa_total_bound _ Ha') as Hb.
  wp_step. change arch_vm_page_size with 4096.
  wp_use (vm_kern_map_page_wp s1 R); [apply Hs1 | apply Hs1 | unfold KERNEL_STACK_BASE; lia | lia | dlia | lia | lia | dlia|].
  replace (4096 * (p0 + n) / 4096) with (p0 + n) by dlia. fold stack_flags.
  intros e s2 (Hs2 & Hb2 & Hfr2 & [(-> & Hw1 & Hw2)|(-> & _ & Hw2)]).
  2: { cbn. wp_steps. split; [done|]. split; [by eapply kvm_step_trans, kvm_step_trans|]. split; [by rewrite Hb2|]. split.
       - intros p Hp Hm. rewrite Hw2 by done. by apply Hl1.
       - intros j Hj Hu. rewrite Hfr2, Hu' by done. rewrite Hl2 by done. apply orb_true_r. }
  cbn. wp_steps. exists f.
  assert (f ∉ fs) as Hnf.
  { intros Hin. rewrite Hused, bool_decide_true in Hff by done. discriminate Hff. }
  assert (kernel_vm s2 = kernel_vm s0) as Hkv2 by (rewrite (ks_vm _ _ _ Hs2); exact Hkv).
  split.
  - by eapply kvm_step_trans, kvm_step_trans.
  - by rewrite Hb2.
  - apply NoDup_app. split; [done|]. split; [|apply NoDup_singleton]. by intros x Hx ->%list_elem_of_singleton.
  - intros g [Hg| ->%list_elem_of_singleton]%elem_of_app; [by apply Hfresh|]. split; [lia|].
    rewrite Hused in Hff by done. by apply orb_false_iff in Hff as [_ ?].
  - intros j Hj. rewrite Hfr2, Hu', Hused, bool_decide_snoc by done. by rewrite orb_assoc.
  - rewrite length_app. cbn [length]. intros i Hi. destruct (Z.eq_dec i n) as [->|]; [|apply Hfree; lia].
    rewrite <- Hn. exact Hw1.
  - intros p Hp. rewrite Hw2 by done. change (kwalk s1 p) with (kwalk s p). rewrite Hwalk, length_app by done. cbn [length].
    assert (0 <= n /\ Z.of_nat (length fs + 1) = n + 1) as [Hn0 ->] by lia.
    destruct (Z.eqb_spec p (p0 + n)) as [->|Hne].
    + replace ((p0 <=? p0 + n) && (p0 + n <? p0 + (n + 1))) with true by lia.
      do 3 f_equal. rewrite lookup_total_app_r by lia. by replace (Z.to_nat (p0 + n - p0) - length fs)%nat with O by lia.
    + replace ((p0 <=? p) && (p <? p0 + (n + 1))) with ((p0 <=? p) && (p <? p0 + n)) by lia.
      destruct ((p0 <=? p) && (p <? p0 + n)) eqn:E; [|done]. by rewrite lookup_total_app_l by lia.
Qed.

Definition stack_at (pos sp : Z) : kernel_stack := mk_kstack (KERNEL_STACK_BASE + 16384 * pos) sp 16384.

Lemma stack_va pos i : 0 <= pos < 64 -> 0 <= i < 4 ->
  u32 (u32 (KERNEL_STACK_BASE + KERNEL_STACK_PAGES * pos * arch_vm_page_size) + i * arch_vm_page_size) =
    4096 * (stack_page pos + i) /\
  u32 (KERNEL_STACK_BASE + KERNEL_STACK_PAGES * pos * arch_vm_page_size) = KERNEL_STACK_BASE + 16384 * pos.
Proof.
  unfold stack_page, KERNEL_STACK_BASE, KERNEL_STACK_PAGES, arch_vm_page_size, X86_PAGE_SIZE. intros Hp Hi.
  rewrite !u32_id by (unfold is_u32; rewrite ?u32_id; unfold is_u32; lia). dlia.
Qed.

Lemma stack_page_bounds pos : 0 <= pos < 64 -> 983040 <= stack_page pos /\ stack_page pos + 4 <= 983296.
Proof. unfold stack_page, KERNEL_STACK_BASE, KERNEL_STACK_PAGES. intros. dlia. Qed.

(** The outcome of [kstack_alloc]. *)
Definition kstack_alloc_post (R : list Z) (s : kvm A) (st : kernel_stack) (res : Z * option kernel_stack) (s' : kvm A) : Prop :=
  ((forall j, 0 <= j < KERNEL_STACK_MAX -> bit (kernel_stack_bm s) j = true) /\ res = (- KERR_NOSPC, Some st) /\ s' = s) \/
  (exists e, e < 0 /\ res = (e, Some st) /\ kvm_step R s s' /\ kernel_stack_bm s' = kernel_stack_bm s /\ stack_leaked s s' /\
     - KERR_MAX_ERRNO <= e) \/
  (exists pos fs s1 b', is_first_clear (kernel_stack_bm s) (Some pos) /\ length fs = 4%nat /\
     stack_grown R s s1 (stack_page pos) fs /\ bits_upd (kernel_stack_bm s) b' pos (pos + 1) true /\
     s' = set_kernel_stack_bm b' s1 /\ res = (KERR_OK, Some (stack_at pos (ks_stack_pointer st)))).

Lemma kstack_alloc_wp R s st :
  kvm_ok s R -> prepared s -> ks_base st = 0 -> ks_size st = 0 ->
  wp (kstack_alloc (Some st)) (kstack_alloc_post R s st) s.
Proof.
  intros Hok Hprep Hb Hs. destruct (Hok) as [_ _ [Hbm Hnb]]. unfold kstack_alloc, kstack_alloc_post. rewrite Hb, Hs. cbn [Z.eqb negb orb].
  do 2 wp_step. apply bitmap_find_zero_wp; [done|]. intros [pos|] Hpos.
  2: { wp_steps. left. unfold is_first_clear in Hpos. rewrite Hnb in Hpos. split; [done|]. split; [done|]. by destruct s. }
  assert (0 <= pos < 64) as Hp by (destruct Hpos as [Hpos _]; by rewrite Hnb in Hpos).
  assert (set_kernel_stack_bm (kernel_stack_bm s) s = s) as -> by (by destruct s).
  destruct (stack_page_bounds pos Hp) as [Hb1 Hb2]. wp_step.
  apply (wp_for_lt (fun i _ s1 => exists fs, Z.of_nat (length fs) = i /\ stack_grown R s s1 (stack_page pos) fs)).
  - exists []. split; [done|]. by apply stack_grown_nil.
  - intros i [] s1 Hi (fs & Hlen & Hg). destruct (stack_va pos i Hp Hi) as [-> _]. rewrite <- Hlen.
    unfold KERNEL_STACK_PAGES in Hi. wp_use kstack_page_wp; [exact Hg | lia | lia|].
    intros [[]|e] s2.
    + intros (f & Hg2). exists (fs ++ [f]). split; [rewrite length_app; cbn [length]; lia | done].
    + intros ([He1 He2] & Hst & Hbm2 & Hlk). apply wp_ret. right. left. by exists e.
  - intros [] s1 (fs & Hlen & Hg). change (Z.max 0 KERNEL_STACK_PAGES) with 4 in Hlen. do 2 wp_step.
    assert (kernel_stack_bm s1 = kernel_stack_bm s) as -> by apply Hg.
    apply bitmap_set_wp; [done | destruct Hbm; rewrite Hnb in *; unfold KERNEL_STACK_MAX in *; lia|].
    intros b' Hb'. wp_steps. right. right. exists pos, fs, s1, b'. split; [done|]. split; [lia|]. do 3 (split; [done|]).
    do 2 f_equal. unfold stack_at. f_equal. by apply (stack_va pos 0).
Qed.

(** *** Freeing a stack *)

(** [s'] is [s] without the mappings of the pages [p0], [p0 + 1], ... and without
    their frames [fs]. *)
Record stack_shrunk (R : list Z) (s s' : kvm A) (p0 : Z) (fs : list Z) : Prop := {
  sh_step : kvm_step R s s';
  sh_bm : kernel_stack_bm s' = kernel_stack_bm s;
  sh_used : forall j, 0 <= j -> fa_used (kframes s') j = negb (bool_decide (j ∈ fs)) && fa_used (kframes s) j;
  sh_walk : forall p, 0 <= p < 1048576 -> kwalk s' p =
    if (p0 <=? p) && (p <? p0 + Z.of_nat (length fs)) then None else kwalk s p
}.

(** The four pages from [p0] are mapped to the frames [fs], which are in use, distinct
    and not page tables. *)
Record stack_mapped (R : list Z) (s : kvm A) (p0 : Z) (fs : list Z) : Prop := {
  sm_len : length fs = 4%nat;
  sm_nodup : NoDup fs;
  sm_frames : forall f, f ∈ fs -> 0 <= f < 1048576 /\ f < fa_total (kframes s) /\
    fa_used (kframes s) f = true /\ ~ table_frame s R f;
  sm_walk : forall i f, fs !! i = Some f -> kwalk s (p0 + Z.of_nat i) = Some (pte_of (f * 4096) stack_flags)
}.

Lemma pte_of_frame f : 0 <= f < 1048576 -> table_of (pte_of (f * 4096) stack_flags) = f * 4096.
Proof.
  intros Hf. destruct (pte_of_spec (f * 4096) stack_flags) as (_ & H1 & _); [lia | dlia|].
  rewrite H1. apply u32_id. unfold is_u32. lia.
Qed.

Lemma kstack_free_page_wp R s s1 p0 fs f fs' :
  stack_mapped R s p0 (fs ++ f :: fs') -> stack_shrunk R s s1 p0 fs -> 983040 <= p0 -> p0 + 4 <= 984064 ->
  wp (kstack_free_page (4096 * (p0 + Z.of_nat (length fs)))) (fun res s' =>
    res = inl tt /\ stack_shrunk R s s' p0 (fs ++ [f])) s1.
Proof.
  intros [Hlen Hnd Hfr Hwm] [Hst Hbm Hused Hwalk] Hp0 Hp1. rewrite length_app in Hlen. cbn [length] in Hlen.
  remember (Z.of_nat (length fs)) as n eqn:En. destruct (Hst) as [Hok Hprep Hkv Htot _ _ _].
  destruct (Hfr f) as (Hf0 & Hf1 & Hf2 & Hf3); [apply elem_of_app; right; apply list_elem_of_here|].
  assert (f ∉ fs) as Hnf.
  { apply NoDup_app in Hnd as (_ & Hnd & _). intros Hin. apply (Hnd f Hin), list_elem_of_here. }
  assert (kwalk s1 (p0 + n) = Some (pte_of (f * 4096) stack_flags)) as Hn.
  { rewrite Hwalk by lia. replace ((p0 <=? p0 + n) && (p0 + n <? p0 + n)) with false by lia.
    rewrite En. apply Hwm. rewrite lookup_app_r, Nat.sub_diag by lia. done. }
  unfold kstack_free_page. wp_step.
  wp_use vm_kern_translate_wp; [exact Hok | unfold KERNEL_VIRT_OFFSET; lia | |].
  { replace (4096 * (p0 + n) / 4096) with (p0 + n) by dlia. exact Hn. }
  intros res s2 [-> ->]. rewrite pte_of_frame by lia. replace ((4096 * (p0 + n)) mod 4096) with 0 by dlia. rewrite Z.add_0_r.
  wp_step. change arch_vm_page_size with 4096.
  wp_use vm_kern_unmap_page_wp; [exact Hok | exact Hprep | unfold KERNEL_STACK_BASE; lia | lia | dlia | |].
  { replace (4096 * (p0 + n) / 4096) with (p0 + n) by dlia. by rewrite Hn. }
  replace (4096 * (p0 + n) / 4096) with (p0 + n) by dlia.
  intros e s2 (-> & Hs2 & Hb2 & Hfr2 & Hw2). cbn. unfold kv_free. do 3 wp_step. rewrite Hfr2.
  wp_use fa_free_wp; [apply (v_frames _ _ (kv_ok _ _ Hok)) | lia | unfold is_u32; lia|].
  assert (fa_used (kframes s1) f = true) as Huf by (rewrite Hused, bool_decide_false by (done || lia); done).
  intros e a' [(-> & _ & _ & _ & Ha' & Ht' & Hu')|(_ & _ & Hno)].
  2: { exfalso. apply Hno. split; [lia|]. split; [lia|]. intros j Hj. by replace j with f by lia. }
  cbn. wp_steps. split; [done|].
  assert (kvm_step R s2 (set_kv_vm (set_vs_frames a' (kv_vm s2)) s2)) as Hs3.
  { apply kvm_step_frames; [apply Hs2 | apply Hs2 | done | by rewrite Hfr2|]. intros g Hg Htg.
    rewrite Hu', Hfr2 by done. destruct (Z.eq_dec g f) as [->|].
    - exfalso. apply Hf3. exact (ks_tab _ _ _ _ Hst (ks_tab _ _ _ _ Hs2 Htg)).
    - by replace ((f <=? g) && (g <? f + 1)) with false by lia. }
  split.
  - by eapply kvm_step_trans, kvm_step_trans.
  - cbn. by rewrite Hb2.
  - intros j Hj. cbn [kv_vm set_kv_vm vs_frames set_vs_frames]. rewrite Hu', Hused, bool_decide_snoc by done.
    by rewrite negb_orb, andb_assoc.
  - intros p Hp. trans (kwalk s2 p); [done|]. rewrite Hw2, Hwalk, length_app by done. cbn [length].
    assert (0 <= n /\ Z.of_nat (length fs + 1) = n + 1) as [Hn0 ->] by lia.
    destruct (Z.eqb_spec p (p0 + n)) as [->|Hne].
    + by replace ((p0 <=? p0 + n) && (p0 + n <? p0 + (n + 1))) with true by lia.
    + by replace ((p0 <=? p) && (p <? p0 + (n + 1))) with ((p0 <=? p) && (p <? p0 + n)) by lia.
Qed.

Lemma stack_shrunk_nil R s p0 : kvm_ok s R -> prepared s -> stack_shrunk R s s p0 [].
Proof.
  intros Hok Hp. split; [by apply kvm_step_refl | done | |].
  - intros j Hj. by rewrite bool_decide_false by apply not_elem_of_nil.
  - intros p Hpp. destruct (_ && _) eqn:E; [|done].
    apply andb_true_iff in E as [E1%Z.leb_le E2%Z.ltb_lt]. rewrite Z.add_0_r in E2. lia.
Qed.

Lemma kstack_free_wp R s pos sp fs :
  kvm_ok s R -> prepared s -> 0 <= pos < 64 -> stack_mapped R s (stack_page pos) fs ->
  wp (kstack_free (Some (stack_at pos sp))) (fun res s' => res = (KERR_OK, Some (mk_kstack 0 0 0)) /\
    exists s1 b', stack_shrunk R s s1 (stack_page pos) fs /\ s' = set_kernel_stack_bm b' s1 /\
      bits_upd (kernel_stack_bm s) b' pos (pos + 1) false) s.
Proof.
  intros Hok Hprep Hp Hm. destruct (Hok) as [_ _ [Hbm Hnb]]. destruct (stack_page_bounds pos Hp) as [Hb1 Hb2].
  unfold kstack_free, stack_at. cbn [ks_base ks_size]. unfold KERNEL_STACK_BASE at 1.
  replace (4026531840 + 16384 * pos =? 0) with false by lia. cbn [Z.eqb orb]. wp_step.
  replace (u32 (KERNEL_STACK_BASE + 16384 * pos - KERNEL_STACK_BASE) / (KERNEL_STACK_PAGES * arch_vm_page_size)) with pos.
  2: { rewrite u32_id by (unfold is_u32; lia). change (KERNEL_STACK_PAGES * arch_vm_page_size) with 16384. dlia. }
  apply (wp_for_lt (fun i _ s1 => exists fs1 fs2, fs = fs1 ++ fs2 /\ Z.of_nat (length fs1) = i /\
    stack_shrunk R s s1 (stack_page pos) fs1)).
  - exists [], fs. split; [done|]. split; [done|]. by apply stack_shrunk_nil.
  - intros i [] s1 Hi (fs1 & fs2 & -> & Hlen & Hsh). unfold KERNEL_STACK_PAGES in Hi.
    pose proof (sm_len _ _ _ _ Hm) as Hl. rewrite length_app in Hl.
    destruct fs2 as [|f fs2]; [cbn [length] in Hl; lia|].
    destruct (stack_va pos i Hp Hi) as [Hva Hba]. rewrite Hba in Hva. rewrite Hva, <- Hlen.
    wp_use kstack_free_page_wp; [exact Hm | exact Hsh | lia | lia|].
    intros r s2 [-> Hsh2]. exists (fs1 ++ [f]), fs2. rewrite length_app, <- app_assoc. cbn [length app].
    split; [done|]. split; [lia | done].
  - intros [] s1 (fs1 & fs2 & -> & Hlen & Hsh). change (Z.max 0 KERNEL_STACK_PAGES) with 4 in Hlen.
    pose proof (sm_len _ _ _ _ Hm) as Hl. rewrite length_app in Hl.
    destruct fs2; [|cbn [length] in Hl; lia]. rewrite app_nil_r. do 2 wp_step.
    assert (kernel_stack_bm s1 = kernel_stack_bm s) as -> by apply Hsh.
    apply bitmap_clear_wp; [done | destruct Hbm; rewrite Hnb in *; unfold KERNEL_STACK_MAX in *; lia|].
    intros b' Hb'. wp_steps. split; [done|]. by exists s1, b'.
Qed.

Lemma kvm_ok_bm R s b' lo hi v : kvm_ok s R -> bits_upd (kernel_stack_bm s) b' lo hi v ->
  kvm_ok (set_kernel_stack_bm b' s) R.
Proof.
  intros [Hok Hr [Hb Hn]] [(Hb' & Hn' & _) _]. split; [done | done|]. split; [done|]. cbn. by rewrite Hn'.
Qed.

(** A stack just allocated is mapped, and its frames are not page tables. *)
Lemma stack_grown_mapped R s s1 b' pos fs :
  kvm_ok s R -> 0 <= pos < 64 -> fa_total (kframes s) <= 1048576 -> length fs = 4%nat ->
  stack_grown R s s1 (stack_page pos) fs -> stack_mapped R (set_kernel_stack_bm b' s1) (stack_page pos) fs.
Proof.
  intros Hok Hp Htot Hlen [Hst Hbm Hnd Hfresh Hused Hfree Hwalk]. destruct (stack_page_bounds pos Hp) as [Hb1 Hb2].
  split; [done | done | |].
  - intros f Hf. destruct (Hfresh f Hf) as [Hf1 Hf2]. cbn [kv_vm set_kernel_stack_bm].
    split; [lia|]. split; [rewrite (ks_tot _ _ _ Hst); lia|].
    split; [rewrite Hused, bool_decide_true by (done || lia); done|].
    intros Ht. apply (free_not_table s R f Hok Hf2). exact (ks_tab _ _ _ _ Hst Ht).
  - intros i f Hi. cbn [kv_vm set_kernel_stack_bm kernel_vm].
    apply lookup_lt_Some in Hi as Hil. rewrite Hwalk by lia.
    assert (((stack_page pos <=? stack_page pos + Z.of_nat i) &&
      (stack_page pos + Z.of_nat i <? stack_page pos + Z.of_nat (length fs))) = true) as ->.
    { apply andb_true_iff. rewrite Z.leb_le, Z.ltb_lt. lia. }
    replace (stack_page pos + Z.of_nat i - stack_page pos) with (Z.of_nat i) by lia. rewrite Nat2Z.id.
    by rewrite (list_lookup_total_correct _ _ _ Hi).
Qed.
End Spec.

(** ** Properties *)

Abbreviation kernel := (kvm pmm).

(** [kstack_alloc] gives the caller a stack of its own.  When it returns
    [KERR_OK] it took the first free slot of the window, marked it, and mapped its
    four pages, which were not mapped, to four distinct frames that were free and
    are now in use; no other page of the kernel's space changes.  It returns
    [-KERR_NOSPC] only when all 64 slots are taken, and then changes nothing; on any
    other failure the slot stays free (frames and mappings made before the failure
    remain). *)
Theorem kstack_alloc_correct (s : kernel) R st :
  kvm_ok s R -> prepared s -> ks_base st = 0 -> ks_size st = 0 ->
  exists res s', kstack_alloc (Some st) s = Some (res, s') /\ kvm_ok s' R /\ prepared s' /\ kstack_alloc_post R s st res s'.
Proof.
  intros Hok Hp Hb Hs. destruct (proj1 (wp_run _ _ _) (kstack_alloc_wp R s st Hok Hp Hb Hs)) as (res & s' & Hrun & Hpost).
  exists res, s'. split; [done|].
  destruct (Hpost) as [(_ & _ & ->)|[(e & _ & _ & Hst & _)|(pos & fs & s1 & b' & _ & _ & Hg & Hb' & -> & _)]].
  - done.
  - split; [apply Hst|]. split; [apply Hst | done].
  - split; [|split; [exact (ks_prep _ _ _ (sg_step _ _ _ _ _ Hg)) | done]].
    apply (kvm_ok_bm R s1 b' pos (pos + 1) true); [apply Hg|]. by rewrite (sg_bm _ _ _ _ _ Hg).
Qed.

(** [kstack_free] undoes [kstack_alloc].  On a machine with at most 4 GiB, freeing
    a stack just allocated succeeds, clears the caller's structure, and leaves every
    frame, every mapping of the kernel's space and every slot as they were. *)
Theorem kstack_roundtrip (s s1 : kernel) R sp st :
  kvm_ok s R -> prepared s -> fa_total (vs_frames (kv_vm s)) <= 1048576 ->
  kstack_alloc (Some (mk_kstack 0 sp 0)) s = Some ((KERR_OK, Some st), s1) ->
  exists s2, kstack_free (Some st) s1 = Some ((KERR_OK, Some (mk_kstack 0 0 0)), s2) /\ kvm_ok s2 R /\
    kernel_vm s2 = kernel_vm s /\
    (forall j, 0 <= j -> frame_used (vs_frames (kv_vm s2)) j = frame_used (vs_frames (kv_vm s)) j) /\
    (forall p, 0 <= p < 1048576 -> walk (vs_mem (kv_vm s2)) (pd_phys (kernel_vm s)) p =
       walk (vs_mem (kv_vm s)) (pd_phys (kernel_vm s)) p) /\
    (forall j, 0 <= j -> bit (kernel_stack_bm s2) j = bit (kernel_stack_bm s) j).
Proof.
  intros Hok Hp Ht Hrun. pose proof (run_wp _ _ _ _ _ (kstack_alloc_wp R s (mk_kstack 0 sp 0) Hok Hp eq_refl eq_refl) Hrun) as Hpost.
  destruct Hpost as [(_ & E & _)|[(e & He & E & _)|(pos & fs & s' & b' & Hpos & Hlen & Hg & Hb' & -> & E)]].
  { discriminate E. }
  { injection E as <- _. discriminate He. }
  injection E as ->. assert (0 <= pos < 64) as Hpp by (destruct Hpos as [Hpos _]; by rewrite (proj2 (kv_bm _ _ Hok)) in Hpos).
  pose proof (stack_grown_mapped R s s' b' pos fs Hok Hpp Ht Hlen Hg) as Hm.
  assert (kvm_ok (set_kernel_stack_bm b' s') R) as Hok'.
  { apply (kvm_ok_bm R s' b' pos (pos + 1) true); [apply Hg|]. by rewrite (sg_bm _ _ _ _ _ Hg). }
  destruct (proj1 (wp_run _ _ _) (kstack_free_wp R _ pos sp fs Hok' (ks_prep _ _ _ (sg_step _ _ _ _ _ Hg)) Hpp Hm))
    as (res & s2 & Hrun2 & -> & s3 & b3 & Hsh & -> & Hb3).
  exists (set_kernel_stack_bm b3 s3). split; [exact Hrun2|].
  destruct Hg as [Hst Hbm Hnd Hfresh Hused Hfree Hwalk], Hsh as [Hst2 Hbm2 Hused2 Hwalk2].
  cbn [kv_vm set_kernel_stack_bm kernel_vm kernel_stack_bm] in *.
  assert (kernel_vm s3 = kernel_vm s) as Hk by (rewrite (ks_vm _ _ _ Hst2); apply (ks_vm _ _ _ Hst)).
  split; [apply (kvm_ok_bm R s3 b3 pos (pos + 1) false); [apply Hst2 | by rewrite Hbm2]|]. split; [done|].
  split; [|split].
  - intros j Hj. specialize (Hused j Hj). specialize (Hused2 j Hj). cbn in Hused, Hused2. rewrite Hused2, Hused.
    case_bool_decide as Hin; [|done]. cbn. symmetry. by apply (Hfresh j Hin).
  - intros p Hpr. rewrite <- Hk at 1. rewrite Hwalk2, Hwalk by done. destruct (_ && _) eqn:E; [|done].
    apply andb_true_iff in E as [E1%Z.leb_le E2%Z.ltb_lt]. rewrite <- (Hfree (p - stack_page pos)) by lia. do 2 f_equal. lia.
  - intros j Hj. rewrite (proj2 Hb3), (proj2 Hb') by done. destruct Hpos as (_ & Hclr & _).
    destruct ((pos <=? j) && (j <? pos + 1)) eqn:E; [|done]. by replace j with pos by lia.
Qed.

(** A kernel stack slot that was left half mapped blocks the window.  While the
    first page of the first free slot is mapped, [kstack_alloc] fails, and it leaves
    the state such that it will fail again, whatever memory is free by then. *)
Theorem kstack_alloc_stuck (s : kernel) R pos sp :
  kvm_ok s R -> prepared s -> is_first_clear (kernel_stack_bm s) (Some pos) ->
  walk (vs_mem (kv_vm s)) (pd_phys (kernel_vm s)) (stack_page pos) <> None ->
  exists e s', kstack_alloc (Some (mk_kstack 0 sp 0)) s = Some ((e, Some (mk_kstack 0 sp 0)), s') /\ e < 0 /\
    kvm_ok s' R /\ prepared s' /\ is_first_clear (kernel_stack_bm s') (Some pos) /\
    walk (vs_mem (kv_vm s')) (pd_phys (kernel_vm s')) (stack_page pos) <> None.
Proof.
  intros Hok Hp Hpos Hm. assert (0 <= pos < 64) as Hpp.
  { destruct Hpos as [Hpos _]. by rewrite (proj2 (kv_bm _ _ Hok)) in Hpos. }
  destruct (stack_page_bounds pos Hpp) as [Hb1 Hb2].
  destruct (proj1 (wp_run _ _ _) (kstack_alloc_wp R s (mk_kstack 0 sp 0) Hok Hp eq_refl eq_refl)) as (res & s' & Hrun & Hpost).
  destruct Hpost as [(Hall & _ & _)|[(e & He & -> & Hst & Hbm & [Hlk _] & _)|(pos' & fs & s1 & b' & Hpos' & Hlen & Hg & _)]].
  - exfalso. destruct Hpos as (_ & Hclr & _). rewrite Hall in Hclr; [discriminate Hclr | done].
  - exists e, s'. split; [done|]. split; [done|]. split; [apply Hst|]. split; [apply Hst|]. rewrite Hbm. split; [done|].
    apply Hlk; [lia | done].
  - exfalso. assert (pos' = pos) as ->.
    { destruct Hpos as (H1 & H2 & H3), Hpos' as (H4 & H5 & H6).
      destruct (Z.lt_trichotomy pos pos') as [Hlt|[->|Hlt]]; [|done|].
      - rewrite H6 in H2; [discriminate H2 | lia].
      - rewrite H3 in H5; [discriminate H5 | lia]. }
    apply Hm. rewrite <- (Z.add_0_r (stack_page pos)). apply (sg_free _ _ _ _ _ Hg). lia.
Qed.

(** ** A kernel with one page of the window's table mapped *)

Definition kernel_sample (va : Z) : kernel :=
  mk_kvm (run_state (arch_vm_map (Some (mk_space 131072)) va 0 4096 3) machine1) (mk_space 131072)
    (mk_bitmap [0; 0] 64 2).

Lemma kernel_sample_ok va : map_args_ok va 0 4096 -> KERNEL_STACK_BASE <= va -> va + 4096 <= 4030726144 ->
  tbl (vs_mem (kv_vm (kernel_sample va))) 131072 960 <> None ->
  kvm_ok (kernel_sample va) [131072] /\ prepared (kernel_sample va).
Proof.
  intros Hargs Hva Hve Ht. unfold KERNEL_STACK_BASE in Hva. split; [|exact Ht]. split.
  - pose proof (arch_vm_map_wp machine1 [131072] (mk_space 131072) va 0 4096 3 (proj1 machine1_ok)
      (list_elem_of_here _ _) ltac:(lia) ltac:(lia) ltac:(lia) ltac:(lia) ltac:(lia)) as Hwp.
    destruct (proj1 (wp_run _ _ _) Hwp) as (res & s' & Hrun & Hpost). clear Hwp.
    unfold kernel_sample, kv_vm. rewrite (run_state_eq _ _ _ _ Hrun).
    destruct Hpost as [(Hbad & _)|(_ & o & _ & kk & _ & Hst & _)]; [contradiction | exact (ps_ok _ _ _ _ Hst)].
  - apply list_elem_of_here.
  - split; [|reflexivity]. split; [repeat constructor; unfold is_u32; lia|]. unfold capacity. cbn. lia.
Qed.

(** The page mapped is past the window: all slots can be used. *)
Lemma kernel_free_ok : kvm_ok (kernel_sample 4027580416) [131072] /\ prepared (kernel_sample 4027580416).
Proof.
  apply kernel_sample_ok; [by vm_compute | unfold KERNEL_STACK_BASE; lia | lia | by vm_compute].
Qed.

(** The page mapped is the first of slot 0. *)
Lemma kernel_stuck_ok : kvm_ok (kernel_sample 4026531840) [131072] /\ prepared (kernel_sample 4026531840).
Proof.
  apply kernel_sample_ok; [by vm_compute | unfold KERNEL_STACK_BASE; lia | lia | by vm_compute].
Qed.

Lemma kstack_alloc_correct_witness :
  exists s', kstack_alloc (Some (mk_kstack 0 7 0)) (kernel_sample 4027580416) = Some ((KERR_OK, Some (stack_at 0 7)), s') /\
    kvm_ok s' [131072] /\
    kstack_alloc_post [131072] (kernel_sample 4027580416) (mk_kstack 0 7 0) (KERR_OK, Some (stack_at 0 7)) s'.
Proof.
  destruct (kstack_alloc_correct (kernel_sample 4027580416) [131072] (mk_kstack 0 7 0) (proj1 kernel_free_ok)
    (proj2 kernel_free_ok) eq_refl eq_refl) as (res & s' & Hrun & Hok & _ & Hpost).
  assert (option_map fst (kstack_alloc (Some (mk_kstack 0 7 0)) (kernel_sample 4027580416)) = Some (KERR_OK, Some (stack_at 0 7)))
    as E by (vm_compute; reflexivity).
  rewrite Hrun in E. injection E as ->. exists s'. exact (conj Hrun (conj Hok Hpost)).
Defined.

Lemma kstack_roundtrip_witness :
  exists s1 s2, kstack_alloc (Some (mk_kstack 0 7 0)) (kernel_sample 4027580416) = Some ((KERR_OK, Some (stack_at 0 7)), s1) /\
    kstack_free (Some (stack_at 0 7)) s1 = Some ((KERR_OK, Some (mk_kstack 0 0 0)), s2) /\
    forall j, 0 <= j -> bit (kernel_stack_bm s2) j = bit (kernel_stack_bm (kernel_sample 4027580416)) j.
Proof.
  destruct (run_code (kstack_alloc (Some (mk_kstack 0 7 0))) (kernel_sample 4027580416) (KERR_OK, Some (stack_at 0 7)))
    as [s1 H1]; [vm_compute; reflexivity|].
  destruct (kstack_roundtrip (kernel_sample 4027580416) s1 [131072] 7 (stack_at 0 7) (proj1 kernel_free_ok) (proj2 kernel_free_ok))
    as (s2 & H2 & _ & _ & _ & _ & H3).
  - vm_compute. discriminate.
  - exact H1.
  - exists s1, s2. exact (conj H1 (conj H2 H3)).
Defined.

Lemma kstack_alloc_stuck_witness :
  exists e s', kstack_alloc (Some (mk_kstack 0 7 0)) (kernel_sample 4026531840) = Some ((e, Some (mk_kstack 0 7 0)), s') /\ e < 0.
Proof.
  destruct (kstack_alloc_stuck (kernel_sample 4026531840) [131072] 0 7 (proj1 kernel_stuck_ok) (proj2 kernel_stuck_ok))
    as (e & s' & H1 & H2 & _).
  - split; [unfold kernel_sample; cbn; lia|]. split; [reflexivity | lia].
  - by vm_compute.
  - exists e, s'. exact (conj H1 H2).
Defined.
