(* ===== verification/Vmm.v ===== *)
(** * User address spaces

    Models [kernel/mm/vmm.c].  The VMAs of a space are [struct vma] objects on the
    kernel heap, linked in the list [vm->vmas] in the order of their addresses.
    The operations on VMAs run on the heap (whose memory holds the list); the
    operations of the interface also run on the page tables, in the same memory.
    [VmaList] specifies the list, [Mm] and [VmSpace] the whole operations. *)

From S2P Require Import Prelude Base Memory KList Bitmap Pmm Frames Kheap KheapClient HeapLive Paging KernelVm.

Definition VM_USER_START : Z := USER_START.
Definition VM_USER_END : Z := u32 (USER_START + USER_SIZE).

(** [struct vma]: [start], [end] and [flags] at offsets 0, 4 and 8, [vmas_node] at
    offset 12. *)
Definition sizeof_vma : Z := 20.
Definition vma_start (vma : Z) : M mem Z := load32 vma.
Definition vma_end (vma : Z) : M mem Z := load32 (u32 (vma + 4)).
Definition vma_flags (vma : Z) : M mem Z := load32 (u32 (vma + 8)).
Definition set_vma_start (vma v : Z) : M mem unit := store32 vma v.
Definition set_vma_end (vma v : Z) : M mem unit := store32 (u32 (vma + 4)) v.
Definition set_vma_flags (vma v : Z) : M mem unit := store32 (u32 (vma + 8)) v.
Definition vmas_node (vma : Z) : Z := u32 (vma + 12).
Definition container_of_vma (node : Z) : Z := u32 (node - 12).

(** [struct vm_space]: the address of its list head, and its page directory. *)
Record vm_space := mk_vm_space { vmas : Z; vm_arch : arch_vm_space }.

Definition vm_user_range_valid (virt size : Z) : bool :=
  if size =? 0 then false
  else if (virt <? VM_USER_START) || (VM_USER_END <=? virt) then false
  else if UINTPTR_MAX - virt <? size - 1 then false
  else
    let end_ := u32 (virt + size) in
    end_ <=? VM_USER_END.

Definition vm_phys_range_valid (phys size : Z) : bool :=
  if size =? 0 then false
  else if UINT64_MAX - phys <? size - 1 then false
  else true.

Section Vma.
(** The address of the static object [kheap_free_list]. *)
Variable kheap_free_list : Z.

Abbreviation in_mem := (zoom kh_mem set_kh_mem).

(** Every VMA is a heap block, so the fuel of the heap is enough for their list. *)
Definition vmas_for_each {R} (vm : vm_space) (body : Z -> M mem (option R)) : M kheap (option R) :=
  fuel <-- gets kheap_fuel ;;
  first <-- in_mem (get_next (vmas vm)) ;;
  in_mem (list_for_each fuel (vmas vm) first body).

(** Body of the loop of [vm_find_vma_range]; a [break] leads to [return NULL]. *)
Definition find_range_try (virt end_ node : Z) : M mem (option Z) :=
  let vma := container_of_vma node in
  st <-- vma_start vma ;;
  if virt <? st then ret (Some NULL)
  else
    st <-- vma_start vma ;;
    e <-- vma_end vma ;;
    if (st <=? virt) && (end_ <=? e) then ret (Some vma) else ret None.

Definition vm_find_vma_range (vm : option vm_space) (virt size : Z) : M kheap Z :=
  match vm with
  | None => ret NULL
  | Some v =>
      if negb (vm_user_range_valid virt size) then ret NULL
      else
        let end_ := u32 (virt + size) in
        r <-- vmas_for_each v (find_range_try virt end_) ;;
        ret (default NULL r)
  end.

(** Body of the loop of [vm_find_vma]. *)
Definition find_try (virt node : Z) : M mem (option Z) :=
  let vma := container_of_vma node in
  st <-- vma_start vma ;;
  if virt <? st then ret (Some NULL)
  else
    st <-- vma_start vma ;;
    e <-- vma_end vma ;;
    if (st <=? virt) && (virt <? e) then ret (Some vma) else ret None.

Definition vm_find_vma (vm : option vm_space) (virt : Z) : M kheap Z :=
  match vm with
  | None => ret NULL
  | Some v =>
      if VM_USER_END <=? virt then ret NULL
      else
        r <-- vmas_for_each v (find_try virt) ;;
        ret (default NULL r)
  end.

(** Body of the loop of [vm_add_vma]: [inl node] is the [break] at [node], [inr e]
    the [return e]. *)
Definition add_try (virt new_end node : Z) : M mem (option (Z + Z)) :=
  let vma := container_of_vma node in
  e <-- vma_end vma ;;
  if e <=? virt then ret None
  else
    st <-- vma_start vma ;;
    if new_end <=? st then ret (Some (inl node)) else ret (Some (inr (- KERR_EXISTS))).

Definition vm_add_vma (vm : option vm_space) (virt size flags : Z) : M kheap Z :=
  match vm with
  | None => ret (- KERR_INVAL)
  | Some v =>
      if size =? 0 then ret (- KERR_INVAL)
      else
        let page_size := arch_vm_page_size in
        if negb (ALIGN_TEST virt page_size) || negb (ALIGN_TEST size page_size) then ret (- KERR_INVAL)
        else if negb (vm_user_range_valid virt size) then ret (- KERR_INVAL)
        else
          let new_end := u32 (virt + size) in
          r <-- vmas_for_each v (add_try virt new_end) ;;
          match r with
          | Some (inr e) => ret e
          | _ =>
              let node := match r with Some (inl n) => n | _ => vmas v end in
              new_vma <-- kmalloc kheap_free_list sizeof_vma ;;
              if KERR_PTR_IS_ERR new_vma then ret (- KERR_NOMEM)
              else
                in_mem (set_vma_start new_vma virt ;;;
                        set_vma_end new_vma new_end ;;;
                        set_vma_flags new_vma flags ;;;
                        list_insert_before node (vmas_node new_vma)) ;;;
                ret KERR_OK
          end
  end.

Definition vm_remove_vma (vm : option vm_space) (virt : Z) : M kheap Z :=
  vma <-- vm_find_vma vm virt ;;
  if vma =? NULL then ret (- KERR_NOENT)
  else
    in_mem (list_remove (vmas_node vma)) ;;;
    kfree kheap_free_list vma ;;;
    ret KERR_OK.

(** [list_for_each_safe(node, next, &vm->vmas)], both removing and freeing the VMA. *)
Fixpoint free_vmas (fuel : nat) (head node next : Z) : M kheap unit :=
  match fuel with
  | O => undefined
  | S k =>
      if node =? head then ret tt
      else
        let vma := container_of_vma node in
        in_mem (list_remove (vmas_node vma)) ;;;
        kfree kheap_free_list vma ;;;
        next' <-- in_mem (get_next next) ;;
        free_vmas k head next next'
  end.

(** ** The interface *)

(** The memory manager: page tables and kernel stacks, and the bounds of the heap,
    which lives in the same memory. *)
Record vmm (A : Type) := mk_vmm {
  vmm_kvm : kvm A;
  vmm_heap_start : Z;
  vmm_heap_end : Z
}.
#[global] Arguments mk_vmm {A}.
#[global] Arguments vmm_kvm {A}.
#[global] Arguments vmm_heap_start {A}.
#[global] Arguments vmm_heap_end {A}.

Section Ops.
Context {A : Type} `{FrameAllocator A}.

Definition set_vmm_kvm (k : kvm A) (s : vmm A) : vmm A := mk_vmm k (vmm_heap_start s) (vmm_heap_end s).
Definition vmm_heap (s : vmm A) : kheap := mk_kheap (vs_mem (kv_vm (vmm_kvm s))) (vmm_heap_start s) (vmm_heap_end s).
Definition set_vmm_heap (h : kheap) (s : vmm A) : vmm A :=
  mk_vmm (set_kv_vm (set_vs_mem (kh_mem h) (kv_vm (vmm_kvm s))) (vmm_kvm s)) (kheap_start h) (kheap_end h).

Abbreviation in_kvm := (zoom vmm_kvm set_vmm_kvm).
Abbreviation in_arch c := (zoom vmm_kvm set_vmm_kvm (zoom kv_vm set_kv_vm c)).
Abbreviation in_heap := (zoom vmm_heap set_vmm_heap).

Definition vm_map (vm : option vm_space) (virt phys size flags : Z) : M (vmm A) Z :=
  match vm with
  | None => ret (- KERR_INVAL)
  | Some v =>
      if size =? 0 then ret (- KERR_INVAL)
      else
        let page_size := arch_vm_page_size in
        if negb (ALIGN_TEST virt page_size) || negb (ALIGN_TEST phys page_size) || negb (ALIGN_TEST size page_size)
        then ret (- KERR_INVAL)
        else if negb (vm_user_range_valid virt size) then ret (- KERR_INVAL)
        else if negb (vm_phys_range_valid phys size) then ret (- KERR_INVAL)
        else
          TRY in_heap (vm_add_vma vm virt size flags) ;;;
          err <-- in_arch (arch_vm_map (Some (vm_arch v)) virt phys size flags) ;;
          if err <? 0 then
            in_heap (vm_remove_vma vm virt) ;;;
            ret err
          else ret KERR_OK
  end.

Definition vm_unmap (vm : option vm_space) (virt size : Z) : M (vmm A) Z :=
  match vm with
  | None => ret (- KERR_INVAL)
  | Some v =>
      if size =? 0 then ret (- KERR_INVAL)
      else
        let page_size := arch_vm_page_size in
        if negb (ALIGN_TEST virt page_size) || negb (ALIGN_TEST size page_size) then ret (- KERR_INVAL)
        else if negb (vm_user_range_valid virt size) then ret (- KERR_INVAL)
        else
          vma <-- in_heap (vm_find_vma_range vm virt size) ;;
          if vma =? NULL then ret (- KERR_NOENT)
          else
            st <-- in_heap (in_mem (vma_start vma)) ;;
            e <-- in_heap (in_mem (vma_end vma)) ;;
            if negb (st =? virt) || negb (e =? u32 (virt + size)) then ret (- KERR_INVAL)
            else
              TRY in_arch (arch_vm_unmap (Some (vm_arch v)) virt size) ;;;
              in_heap (in_mem (list_remove (vmas_node vma))) ;;;
              in_heap (kfree kheap_free_list vma) ;;;
              ret KERR_OK
  end.

Definition vm_protect (vm : option vm_space) (virt size flags : Z) : M (vmm A) Z :=
  match vm with
  | None => ret (- KERR_INVAL)
  | Some v =>
      if size =? 0 then ret (- KERR_INVAL)
      else
        let page_size := arch_vm_page_size in
        if negb (ALIGN_TEST virt page_size) || negb (ALIGN_TEST size page_size) then ret (- KERR_INVAL)
        else if negb (vm_user_range_valid virt size) then ret (- KERR_INVAL)
        else
          vma <-- in_heap (vm_find_vma_range vm virt size) ;;
          if vma =? NULL then ret (- KERR_NOENT)
          else
            st <-- in_heap (in_mem (vma_start vma)) ;;
            e <-- in_heap (in_mem (vma_end vma)) ;;
            if negb (st =? virt) || negb (e =? u32 (virt + size)) then ret (- KERR_INVAL)
            else
              TRY in_arch (arch_vm_protect (Some (vm_arch v)) virt size flags) ;;;
              in_heap (in_mem (set_vma_flags vma flags)) ;;;
              ret KERR_OK
  end.

(** The updated structure is returned. *)
Definition vm_space_init (vm : option vm_space) : M (vmm A) (Z * option vm_space) :=
  match vm with
  | None => ret (- KERR_INVAL, None)
  | Some v =>
      in_heap (in_mem (list_init (vmas v))) ;;;
      ' (e, a) <-- in_arch (arch_vm_space_init (Some (vm_arch v))) ;;
      let v1 := mk_vm_space (vmas v) (default (vm_arch v) a) in
      if e <? 0 then ret (e, Some v1)
      else
        err <-- in_kvm (vm_kern_attach (Some (vm_arch v1))) ;;
        if err <? 0 then
          ' (_, a') <-- in_arch (arch_vm_space_destroy (Some (vm_arch v1))) ;;
          ret (err, Some (mk_vm_space (vmas v) (default (vm_arch v1) a')))
        else ret (KERR_OK, Some v1)
  end.

Definition vm_space_destroy (vm : option vm_space) : M (vmm A) (Z * option vm_space) :=
  match vm with
  | None => ret (- KERR_INVAL, None)
  | Some v =>
      fuel <-- gets (fun s => kheap_fuel (vmm_heap s)) ;;
      node <-- in_heap (in_mem (get_next (vmas v))) ;;
      next <-- in_heap (in_mem (get_next node)) ;;
      in_heap (free_vmas fuel (vmas v) node next) ;;;
      ' (e, a) <-- in_arch (arch_vm_space_destroy (Some (vm_arch v))) ;;
      ret (e, Some (mk_vm_space (vmas v) (default (vm_arch v) a)))
  end.

Definition vm_space_load (vm : option vm_space) : M (vmm A) Z :=
  match vm with
  | None => ret (- KERR_INVAL)
  | Some v => in_arch (arch_vm_space_load (Some (vm_arch v)))
  end.

(** The linker symbols are those of [vm_kern_init]. *)
Definition vmm_init (text_start text_end rodata_start rodata_end : Z) : M (vmm A) Z :=
  TRY in_kvm (vm_kern_init text_start text_end rodata_start rodata_end) ;;;
  ret KERR_OK.
End Ops.
End Vma.
