(* ===== verification/Words.v ===== *)
(** * Memory stays a memory of 32-bit words

    A typing judgement for programs: [typed I c P] says that a run of [c] from a
    state of type [I] ends, if it ends, in a state of type [I] with a result of type
    [P].  The rules follow the syntax of the program, so the functions of [list.h],
    [kheap.c] and [vmm.c] are typed by a tactic.  The page tables rely on it: their
    entries share the memory with the heap. *)

From S2P Require Import Prelude Base Memory KList KMem Frames Kheap KheapClient Paging KernelVm Vmm.

Definition typed {S A} (I : S -> Prop) (c : M S A) (P : A -> Prop) : Prop :=
  forall s a s', I s -> c s = Some (a, s') -> I s' /\ P a.

Abbreviation any := (fun _ => True).

Section Rules.
Context {S : Type} (I : S -> Prop).

Lemma typed_ret {A} (a : A) (P : A -> Prop) : P a -> typed I (ret a) P.
Proof. intros HP s b s' Hs [= <- <-]. done. Qed.

Lemma typed_undefined {A} (P : A -> Prop) : typed I undefined P.
Proof. intros s b s' Hs [=]. Qed.

Lemma typed_gets {A} (f : S -> A) (P : A -> Prop) : (forall s, I s -> P (f s)) -> typed I (gets f) P.
Proof. intros HP s b s' Hs [= <- <-]. auto. Qed.

Lemma typed_bind {A B} (c : M S A) (k : A -> M S B) P Q :
  typed I c P -> (forall a, P a -> typed I (k a) Q) -> typed I (bind c k) Q.
Proof.
  intros Hc Hk s b s' Hs. unfold bind. destruct (c s) as [[a s1]|] eqn:E; [|done]. intros Hb.
  destruct (Hc _ _ _ Hs E) as [Hs1 Ha]. exact (Hk a Ha s1 b s' Hs1 Hb).
Qed.

Lemma typed_weaken {A} (c : M S A) (P Q : A -> Prop) : typed I c P -> (forall a, P a -> Q a) -> typed I c Q.
Proof. intros Hc HPQ s a s' Hs E. destruct (Hc _ _ _ Hs E). auto. Qed.

Lemma typed_zoom {T A} (J : T -> Prop) (get : S -> T) set (c : M T A) P :
  (forall s, I s -> J (get s)) -> (forall s t, I s -> J t -> I (set t s)) ->
  typed J c P -> typed I (zoom get set c) P.
Proof.
  intros Hg Hs Hc s a s' HI. unfold zoom. destruct (c (get s)) as [[b t]|] eqn:E; [|done]. intros [= <- <-].
  destruct (Hc _ _ _ (Hg s HI) E). auto.
Qed.

(** A specification and a type. *)
Lemma wp_typed {A} (c : M S A) Q P s :
  wp c Q s -> typed I c P -> I s -> wp c (fun a s' => Q a s' /\ I s' /\ P a) s.
Proof.
  intros (a & s' & E & HQ)%wp_run Hc HI. apply wp_run. exists a, s'. split; [done|]. split; [done|]. by apply (Hc s).
Qed.

Lemma typed_if {A} (b : bool) (c d : M S A) P : typed I c P -> typed I d P -> typed I (if b then c else d) P.
Proof. by destruct b. Qed.

Lemma typed_for_n {A R} (P : A -> Prop) (Q : R -> Prop) (body : Z -> A -> M S (A + R)) n : forall i a,
  (forall j a, i <= j < i + Z.of_nat n -> P a -> typed I (body j a) (fun r => match r with inl a' => P a' | inr v => Q v end)) ->
  P a -> typed I (for_n n i a body) (fun r => match r with inl a' => P a' | inr v => Q v end).
Proof.
  induction n as [|n IH]; intros i a Hb HP; cbn [for_n]; [by apply typed_ret|].
  eapply typed_bind; [apply Hb; [lia | done]|]. intros [a'|v] Hr; [|by apply typed_ret].
  apply IH; [|done]. intros j a2 Hj. apply Hb. lia.
Qed.

Lemma typed_for_each (body : Z -> M S unit) lo hi :
  (forall i, lo <= i < hi -> typed I (body i) any) -> typed I (for_each lo hi body) any.
Proof.
  intros Hb. eapply (typed_bind _ _ any); [|intros; by apply typed_ret].
  eapply typed_weaken; [apply (typed_for_n any any)|done]; [|done].
  intros i [] Hi _. eapply typed_bind; [apply Hb; lia|]. intros. by apply typed_ret.
Qed.
End Rules.

(** ** Words *)

Lemma is_u32_set v mask : is_u32 v -> is_u32 mask -> is_u32 (MASK_SET v mask).
Proof. apply is_u32_lor. Qed.
Lemma is_u32_clear v mask : is_u32 v -> is_u32 (MASK_CLEAR v mask).
Proof. intros H. by apply is_u32_land. Qed.
Lemma is_u32_bit n : is_u32 (BIT n).
Proof. apply u32_range. Qed.
Lemma is_u32_null : is_u32 NULL.
Proof. unfold is_u32, NULL. lia. Qed.

Lemma typed_load32 a : typed mem_ok (load32 a) is_u32.
Proof. intros m v m' Hm. unfold load32. destruct (validb a); [|done]. intros [= <- <-]. auto. Qed.
Lemma typed_store32 a v : is_u32 v -> typed mem_ok (store32 a v) any.
Proof.
  intros Hv m u m' Hm. unfold store32. destruct (validb a); [|done]. intros [= <- <-].
  split; [by apply mem_ok_wr | done].
Qed.
Lemma typed_load8 a : typed mem_ok (load8 a) is_u8.
Proof. intros m v m' Hm. unfold load8. destruct (validb _); [|done]. intros [= <- <-]. split; [done | apply rd8_range]. Qed.
Lemma typed_store8 a v : is_u8 v -> typed mem_ok (store8 a v) any.
Proof.
  intros Hv m u m' Hm. unfold store8. destruct (validb _); [|done]. intros [= <- <-].
  split; [|done]. apply mem_ok_wr; [done|]. apply set_byte_u32; [done | dlia | done].
Qed.

Create HintDb words.
#[export] Hint Resolve u32_range u8_range is_u32_set is_u32_clear is_u32_bit is_u32_null : words.

(** Follow the syntax of a program whose parts are typed. *)
Ltac type_step :=
  lazymatch goal with
  | |- typed _ (bind _ _) _ => eapply typed_bind; [|intros ? ?]
  | |- typed _ (ret _) _ => apply typed_ret
  | |- typed _ undefined _ => apply typed_undefined
  | |- typed _ (if _ then _ else _) _ => apply typed_if
  | |- typed _ (match ?x with _ => _ end) _ => destruct x
  | |- typed _ (let _ := _ in _) _ => cbv zeta
  | |- typed _ _ _ => first [solve [eauto with words] | eapply typed_weaken; [solve [eauto with words] | done]]
  | |- _ => solve [eauto with words | done]
  end; cbn beta.
Ltac type_check := repeat type_step.

#[export] Hint Resolve typed_load32 typed_store32 typed_load8 typed_store8 : words.
#[export] Hint Unfold get_next get_prev set_next set_prev hdr_size set_hdr_size hdr_flags set_hdr_flags
  vma_start vma_end vma_flags set_vma_start set_vma_end set_vma_flags : words.

(** *** [list.h] *)

Lemma typed_list_init l : is_u32 l -> typed mem_ok (list_init l) any.
Proof. intros. unfold list_init. type_check. Qed.
Lemma typed_list_insert_after a n : is_u32 a -> is_u32 n -> typed mem_ok (list_insert_after a n) any.
Proof. intros. unfold list_insert_after. type_check. Qed.
Lemma typed_list_insert_before a n : is_u32 a -> is_u32 n -> typed mem_ok (list_insert_before a n) any.
Proof. intros. unfold list_insert_before. type_check. Qed.
Lemma typed_list_remove n : typed mem_ok (list_remove n) any.
Proof. unfold list_remove. type_check. Qed.
Lemma typed_list_replace a n : is_u32 n -> typed mem_ok (list_replace a n) any.
Proof. intros. unfold list_replace. type_check. Qed.
Lemma typed_list_for_each {R} (P : R -> Prop) (body : Z -> M mem (option R)) fuel l n :
  (forall n, is_u32 n -> typed mem_ok (body n) (fun o => match o with Some r => P r | None => True end)) -> is_u32 n ->
  typed mem_ok (list_for_each fuel l n body) (fun o => match o with Some r => P r | None => True end).
Proof.
  intros Hb. revert n. induction fuel as [|k IH]; intros n Hn; cbn [list_for_each]; [apply typed_undefined|].
  apply typed_if; [by apply typed_ret|]. eapply typed_bind; [by apply Hb|].
  intros [r|] Hr; [by apply typed_ret|]. eapply typed_bind; [apply typed_load32|]. intros. by apply IH.
Qed.
#[export] Hint Resolve typed_list_init typed_list_insert_after typed_list_insert_before typed_list_remove
  typed_list_replace : words.

(** *** [kheap.c] *)

Definition heap_words (s : kheap) : Prop := mem_ok (kh_mem s).

Lemma typed_in_mem {A} (c : M mem A) P : typed mem_ok c P -> typed heap_words (zoom kh_mem set_kh_mem c) P.
Proof. by apply typed_zoom. Qed.
Lemma typed_gets_any {S A} (I : S -> Prop) (f : S -> A) : typed I (gets f) any.
Proof. by apply typed_gets. Qed.
#[export] Hint Resolve typed_in_mem typed_gets_any : words.

Section Heap.
Variable kheap_free_list : Z.
Hypothesis H_list : is_u32 kheap_free_list.

Lemma typed_kmalloc_try n node : is_u32 n -> typed mem_ok (kmalloc_try n node) (fun o => match o with Some r => is_u32 r | None => True end).
Proof. intros. unfold kmalloc_try, free_node, container_of_node. type_check. Qed.

Lemma typed_kmalloc n : typed heap_words (kmalloc kheap_free_list n) is_u32.
Proof.
  unfold kmalloc. apply typed_if; [apply typed_ret, u32_range|]. cbv zeta.
  eapply typed_bind; [by apply typed_gets_any|]. intros fuel _.
  eapply typed_bind; [apply typed_in_mem, typed_load32|]. intros first Hf.
  eapply typed_bind; [apply typed_in_mem, (typed_list_for_each is_u32); [intros; apply typed_kmalloc_try, u32_range | done]|].
  intros [p|] Hp; apply typed_ret; [done | apply u32_range].
Qed.

Lemma typed_kheap_merge l r : typed mem_ok (kheap_merge l r) any.
Proof. unfold kheap_merge. type_check. Qed.

Lemma typed_coalesce hdr p n b1 b2 : typed mem_ok (coalesce kheap_free_list hdr p n b1 b2) any.
Proof.
  pose proof typed_kheap_merge. unfold coalesce, list_insert_front, free_node. type_check.
Qed.

Lemma typed_kfree p : typed heap_words (kfree kheap_free_list p) any.
Proof.
  pose proof typed_coalesce.
  assert (forall hdr, typed heap_words (next_free_of hdr) any) by (intros; unfold next_free_of; type_check).
  assert (forall hdr, typed heap_words (prev_free_of hdr) any) by (intros; unfold prev_free_of; type_check).
  unfold kfree. type_check.
Qed.
End Heap.

(** *** [memory.c] *)

Lemma typed_memset d v n : typed mem_ok (memset d v n) any.
Proof.
  unfold memset. cbv zeta. eapply typed_bind; [|intros; by apply typed_ret].
  apply typed_for_each. intros. apply typed_store8, u8_range.
Qed.
Lemma typed_memcpy d s n : typed mem_ok (memcpy d s n) any.
Proof.
  unfold memcpy. eapply typed_bind; [|intros; by apply typed_ret].
  apply typed_for_each. intros. eapply typed_bind; [apply typed_load8|]. intros. by apply typed_store8.
Qed.

(** *** [vmm.c] *)

Section Vma.
Variable kheap_free_list : Z.
Hypothesis H_list : is_u32 kheap_free_list.

Lemma typed_vmas_for_each {R} (P : R -> Prop) vm (body : Z -> M mem (option R)) :
  (forall n, is_u32 n -> typed mem_ok (body n) (fun o => match o with Some r => P r | None => True end)) ->
  typed heap_words (vmas_for_each vm body) (fun o => match o with Some r => P r | None => True end).
Proof.
  intros Hb. unfold vmas_for_each. eapply typed_bind; [by apply typed_gets_any|]. intros.
  eapply typed_bind; [apply typed_in_mem, typed_load32|]. intros. by apply typed_in_mem, typed_list_for_each.
Qed.

Lemma typed_vm_add_vma vm virt size flags : is_u32 virt -> is_u32 flags ->
  (forall v, vm = Some v -> is_u32 (vmas v)) ->
  typed heap_words (vm_add_vma kheap_free_list vm virt size flags) any.
Proof.
  intros Hv Hf Hl. unfold vm_add_vma. destruct vm as [v|]; [|by apply typed_ret]. specialize (Hl v eq_refl).
  do 3 (apply typed_if; [by apply typed_ret|]; cbv zeta).
  eapply typed_bind.
  { apply (typed_vmas_for_each (fun r => match r with inl n => is_u32 n | inr _ => True end)).
    intros n Hn. unfold add_try. type_check. }
  pose proof (typed_kmalloc kheap_free_list) as Hk. unfold vmas_node.
  intros [[n|e]|] Hn; [|by apply typed_ret|]; (eapply typed_bind; [by apply Hk|]); intros p Hp;
    (apply typed_if; [by apply typed_ret|]); (eapply typed_bind; [|intros; by apply typed_ret]);
    apply typed_in_mem; type_check.
Qed.

Lemma typed_vm_find_vma vm virt : typed heap_words (vm_find_vma vm virt) any.
Proof.
  unfold vm_find_vma. destruct vm as [v|]; [|by apply typed_ret]. apply typed_if; [by apply typed_ret|].
  eapply typed_bind; [|intros; by apply typed_ret]. apply (typed_vmas_for_each any).
  intros n Hn. unfold find_try. type_check.
Qed.

Lemma typed_vm_remove_vma vm virt : typed heap_words (vm_remove_vma kheap_free_list vm virt) any.
Proof.
  pose proof typed_vm_find_vma. pose proof (typed_kfree kheap_free_list H_list). unfold vm_remove_vma. type_check.
Qed.

Lemma typed_free_vmas fuel head node next : typed heap_words (free_vmas kheap_free_list fuel head node next) any.
Proof.
  pose proof (typed_kfree kheap_free_list H_list) as Hk. revert node next. induction fuel as [|fuel IH]; intros node next.
  - apply typed_undefined.
  - cbn [free_vmas]. apply typed_if; [by apply typed_ret|]. eapply typed_bind; [apply typed_in_mem, typed_list_remove|]. intros.
    eapply typed_bind; [apply Hk|]. intros. eapply typed_bind; [apply typed_in_mem, typed_load32|]. intros. apply IH.
Qed.
End Vma.

Lemma mem_ok_dec (m : mem) : bool_decide (map_Forall (fun _ v => is_u32 v) m) = true -> mem_ok m.
Proof.
  intros H%bool_decide_eq_true a. unfold rd. destruct (m !! a) as [v|] eqn:E; [exact (H a v E)|].
  unfold is_u32. cbn. lia.
Qed.

(** ** Properties *)


