(* ===== verification/VmaList.v ===== *)
(** * The VMA list refines a sorted list of intervals

    Specifies the VMA operations of [kernel/mm/vmm.c] against lists of disjoint
    intervals in increasing order, for VMAs that are objects of a well-formed
    kernel heap. *)

From S2P Require Import Prelude Base Memory KList Bitmap Pmm Frames Kheap KheapClient HeapLive Paging PagingProps KernelVm Vmm.

(** ** Intervals *)

Record vma := mk_vma { va_start : Z; va_end : Z; va_flags : Z }.

#[export] Instance vma_eq_dec : EqDecision vma.
Proof. solve_decision. Defined.

Definition in_vma (virt : Z) (v : vma) : bool := (va_start v <=? virt) && (virt <? va_end v).
Definition overlaps (virt e : Z) (v : vma) : bool := (va_start v <? e) && (virt <? va_end v).

(** Non-empty, disjoint, in increasing order, and above [lo]. *)
Fixpoint sorted_from (lo : Z) (vs : list vma) : Prop :=
  match vs with
  | [] => True
  | v :: t => lo <= va_start v /\ va_start v < va_end v /\ sorted_from (va_end v) t
  end.

(** The user's half bounds them. *)
Definition vmas_ok (vs : list vma) : Prop :=
  sorted_from 0 vs /\ Forall (fun v => va_end v <= VM_USER_END) vs.

Fixpoint insert_vma (n : vma) (vs : list vma) : list vma :=
  match vs with
  | [] => [n]
  | v :: t => if va_end v <=? va_start n then v :: insert_vma n t else n :: v :: t
  end.

Lemma sorted_from_le lo lo' vs : lo' <= lo -> sorted_from lo vs -> sorted_from lo' vs.
Proof. destruct vs; [done|]. simpl. intros ? (? & ? & ?). split; [lia | done]. Qed.

Lemma sorted_from_bound lo vs : sorted_from lo vs -> forall v, v ∈ vs -> lo <= va_start v /\ va_start v < va_end v.
Proof.
  revert lo. induction vs as [|u vs IH]; intros lo Hs v Hv; [by apply elem_of_nil in Hv|].
  destruct Hs as (H1 & H2 & H3). apply elem_of_cons in Hv as [->|Hv]; [done|].
  destruct (IH _ H3 v Hv). lia.
Qed.

Lemma sorted_from_app lo vs1 vs2 : sorted_from lo (vs1 ++ vs2) ->
  sorted_from lo vs1 /\ sorted_from lo vs2 /\ forall v w, v ∈ vs1 -> w ∈ vs2 -> va_end v <= va_start w.
Proof.
  revert lo. induction vs1 as [|u vs1 IH]; intros lo Hs.
  - split; [done|]. split; [done|]. by intros v w ?%elem_of_nil.
  - destruct Hs as (H1 & H2 & H3). destruct (IH _ H3) as (H4 & H5 & H6). split; [done|].
    split; [by apply (sorted_from_le (va_end u)); [lia|]|].
    intros v w [->|Hv]%elem_of_cons Hw; [|by apply H6]. by apply (sorted_from_bound _ _ H5).
Qed.

Lemma sorted_from_remove lo vs1 v vs2 : sorted_from lo (vs1 ++ v :: vs2) -> sorted_from lo (vs1 ++ vs2).
Proof.
  revert lo. induction vs1 as [|u vs1 IH]; intros lo; simpl.
  - intros (H1 & H2 & H3). apply (sorted_from_le (va_end v)); [lia | done].
  - intros (H1 & H2 & H3). auto.
Qed.

(** Inserting an interval that overlaps none keeps the order. *)
Lemma insert_vma_sorted n vs : va_start n < va_end n ->
  forall lo, sorted_from lo vs -> lo <= va_start n ->
  (forall v, v ∈ vs -> overlaps (va_start n) (va_end n) v = false) -> sorted_from lo (insert_vma n vs).
Proof.
  intros Hn. induction vs as [|u vs IH]; intros lo Hs Hlo Hov; simpl; [lia|].
  destruct Hs as (H1 & H2 & H3). destruct (Z.leb_spec (va_end u) (va_start n)).
  - split; [done|]. split; [done|]. apply IH; [done | done|]. intros v Hv. apply Hov. by apply list_elem_of_further.
  - simpl. specialize (Hov u (list_elem_of_here _ _)). unfold overlaps in Hov. repeat (split; [lia|]). done.
Qed.

Lemma insert_vma_perm n vs : insert_vma n vs ≡ₚ n :: vs.
Proof.
  induction vs as [|u vs IH]; [done|]. simpl. destruct (_ <=? _); [|done]. rewrite IH. apply perm_swap.
Qed.

(** The first interval [f] accepts, with its address. *)
Fixpoint scan {R} (f : Z -> vma -> option R) (ps : list Z) (vs : list vma) : option R :=
  match ps, vs with
  | p :: ps', v :: vs' => match f p v with Some r => Some r | None => scan f ps' vs' end
  | _, _ => None
  end.

(** ** Representation *)

Section Spec.
Variable kheap_free_list : Z.

Abbreviation heap_ok s L := (client_inv kheap_free_list (s, L)).
Abbreviation objs ps := (map (fun p => (p, sizeof_vma)) ps).
Abbreviation nodes ps := (map (fun p => p + 12) ps).

Definition vma_at (m : mem) (p : Z) (v : vma) : Prop :=
  rd m p = va_start v /\ rd m (p + 4) = va_end v /\ rd m (p + 8) = va_flags v.

(** The space [vm] has the VMAs [vs], at the addresses [ps]; the other live objects
    of the heap are [Lo]. *)
Record space_ok (s : kheap) (vm : vm_space) (ps : list Z) (vs : list vma) (Lo : list (Z * Z)) : Prop := {
  so_heap : heap_ok s (objs ps ++ Lo);
  so_list : dll (kh_mem s) (vmas vm) (nodes ps);
  so_vmas : Forall2 (vma_at (kh_mem s)) ps vs;
  so_head : forall a, a = vmas vm \/ a = vmas vm + 4 -> live_addr kheap_free_list s Lo a;
  so_ok : vmas_ok vs
}.

Lemma space_obj s vm ps vs Lo p : space_ok s vm ps vs Lo -> p ∈ ps ->
  KERNEL_VIRT_OFFSET <= p /\ p + 20 <= 4026531840 /\ p mod 4 = 0.
Proof.
  intros H Hp. destruct (heap_ok_disjoint _ _ _ (so_heap _ _ _ _ _ H)) as [_ Hall].
  destruct (heap_ok_bounds _ _ _ (so_heap _ _ _ _ _ H)) as (? & ? & _).
  rewrite Forall_forall in Hall. specialize (Hall (p, sizeof_vma)). cbn [fst snd] in Hall. unfold sizeof_vma in Hall.
  destruct Hall as (? & ? & ?); [|lia]. apply elem_of_app. left. by apply (list_elem_of_fmap_2 (fun p => (p, 20))).
Qed.

Lemma obj_addrs p : KERNEL_VIRT_OFFSET <= p -> p + 20 <= 4026531840 -> p mod 4 = 0 ->
  vmas_node p = p + 12 /\ container_of_vma (p + 12) = p /\ u32 (p + 4) = p + 4 /\ u32 (p + 8) = p + 8 /\
  valid p /\ valid (p + 4) /\ valid (p + 8) /\ node_ok (p + 12).
Proof.
  intros H1 H2 H3. unfold vmas_node, container_of_vma, node_ok, valid, KERNEL_VIRT_OFFSET in *.
  rewrite !u32_id by (unfold is_u32; lia). repeat split; dlia.
Qed.

(** A loop over the VMAs whose body only reads. *)
Lemma vmas_for_each_wp {R} (f : Z -> vma -> option R) body s vm ps vs Lo :
  space_ok s vm ps vs Lo ->
  (forall p v, p ∈ ps -> vma_at (kh_mem s) p v ->
     wp (body (p + 12)) (fun r m => m = kh_mem s /\ r = f p v) (kh_mem s)) ->
  wp (vmas_for_each vm body) (fun r s' => s' = s /\ r = scan f ps vs) s.
Proof.
  intros H Hbody. pose proof (so_list _ _ _ _ _ H) as Hd.
  assert (length ps < kheap_fuel s)%nat as Hfuel.
  { pose proof (heap_ok_fuel _ _ _ (so_heap _ _ _ _ _ H)) as Hf. rewrite length_app, length_map in Hf. lia. }
  destruct (dll_node_ok _ _ _ (vmas vm) Hd (list_elem_of_here _ _)) as [Hv _].
  unfold vmas_for_each. wp_steps. unfold get_next. apply load32_wp; [done|]. wp_steps. rewrite set_kh_mem_id.
  destruct (dll_ends _ _ _ Hd) as [-> _].
  apply (list_for_each_wp (fun pre m' => m' = kh_mem s /\ exists ps1 ps2 vs1 vs2, ps = ps1 ++ ps2 /\ vs = vs1 ++ vs2 /\
      pre = nodes ps1 /\ Forall2 (vma_at (kh_mem s)) ps2 vs2 /\ scan f ps vs = scan f ps2 vs2)) with (xs1 := []).
  - by rewrite length_map.
  - by intros pre m' [-> _].
  - split; [done|]. exists [], ps, [], vs. repeat (split; [done|]). split; [apply (so_vmas _ _ _ _ _ H) | done].
  - intros pre x post m' Hns (-> & ps1 & ps2 & vs1 & vs2 & Eps & Evs & -> & Hps2 & Hscan). simpl in Hns.
    rewrite Eps, map_app in Hns. apply app_inv_head in Hns.
    destruct ps2 as [|p ps2]; [done|]. injection Hns as <- Hpost.
    apply Forall2_cons_inv_l in Hps2 as (v & vs2' & Hpv & Hps2 & ->).
    wp_use Hbody; [rewrite Eps; apply elem_of_app; right; apply list_elem_of_here | exact Hpv|].
    intros r m' [-> ->]. simpl in Hscan. destruct (f p v) as [r|] eqn:Ef.
    + by rewrite set_kh_mem_id.
    + split; [done|]. exists (ps1 ++ [p]), ps2, (vs1 ++ [v]), vs2'. rewrite <- !app_assoc, map_app. done.
  - intros m' (-> & ps1 & ps2 & vs1 & vs2 & Eps & Evs & Hpre & Hps2 & Hscan). rewrite set_kh_mem_id. split; [done|].
    simpl in Hpre. rewrite Eps, map_app in Hpre. assert (ps2 = []) as ->.
    { apply (f_equal length) in Hpre. rewrite length_app, !length_map in Hpre. destruct ps2; [done|]. simpl in Hpre. lia. }
    by rewrite Hscan.
Qed.

(** The fields of the VMAs and of the list head belong to live objects. *)
Lemma live_obj s ps Lo p a : p ∈ ps -> p <= a < p + 20 -> live_addr kheap_free_list s (objs ps ++ Lo) a.
Proof.
  intros Hp Ha. right. exists p, sizeof_vma. split; [|done]. apply elem_of_app. left.
  by apply (list_elem_of_fmap_2 (fun p => (p, sizeof_vma))).
Qed.

Lemma live_more s L L' a : (forall l, l ∈ L -> l ∈ L') ->
  live_addr kheap_free_list s L a -> live_addr kheap_free_list s L' a.
Proof. intros HL [?|(p & sz & Hp & Ha)]; [by left|]. right. exists p, sz. auto. Qed.

Lemma live_node s vm ps vs Lo a : space_ok s vm ps vs Lo -> in_nodes (vmas vm :: nodes ps) a ->
  live_addr kheap_free_list s (objs ps ++ Lo) a.
Proof.
  intros H (x & [->|Hx]%elem_of_cons & Ha).
  - apply (live_more _ Lo); [intros l Hl; apply elem_of_app; by right|]. by apply (so_head _ _ _ _ _ H).
  - apply list_elem_of_fmap_1 in Hx as (p & -> & Hp). apply (live_obj _ _ _ p); [done | lia].
Qed.

Lemma vma_at_ext m m' p v : (forall a, p <= a < p + 20 -> rd m' a = rd m a) -> vma_at m p v -> vma_at m' p v.
Proof. unfold vma_at. intros H (H1 & H2 & H3). rewrite !H by lia. done. Qed.

(** *** Lookup *)

Definition lookup_by (q : vma -> bool) : list Z -> list vma -> option Z :=
  scan (fun p v => if q v then Some p else None).
Definition lookup_vma (virt : Z) : list Z -> list vma -> option Z := lookup_by (in_vma virt).

(** Stopping at the first VMA above [virt] misses nothing. *)
Lemma scan_find (q : vma -> bool) virt ps vs lo :
  (forall v, q v = true -> va_start v <= virt) -> Forall2 (fun _ _ => True) ps vs -> sorted_from lo vs ->
  default NULL (scan (fun p v => if virt <? va_start v then Some NULL else if q v then Some p else None) ps vs) =
  default NULL (lookup_by q ps vs).
Proof.
  intros Hq Hl. revert lo. induction Hl as [|p v ps vs _ Hl IH]; intros lo Hs; [done|].
  destruct Hs as (H1 & H2 & H3). unfold lookup_by in *. cbn [scan].
  assert (Hq' : forall w, virt < va_start w -> q w = false).
  { intros w Hw. destruct (q w) eqn:E; [|done]. apply Hq in E. lia. }
  destruct (Z.ltb_spec virt (va_start v)).
  - rewrite Hq' by done. cbn [default].
    assert (forall w, w ∈ vs -> q w = false) as Hno.
    { intros w Hw. apply Hq'. destruct (sorted_from_bound _ _ H3 w Hw). lia. }
    clear -Hl Hno. induction Hl as [|p' v' ps vs _ Hl IH]; [done|]. cbn [scan].
    rewrite Hno by apply list_elem_of_here. apply IH. intros w Hw. apply Hno. by apply list_elem_of_further.
  - destruct (q v); [done|]. by apply (IH (va_end v)).
Qed.

Lemma lookup_by_spec q ps vs : Forall2 (fun _ _ => True) ps vs ->
  match lookup_by q ps vs with
  | Some p => exists ps1 ps2 vs1 v vs2, ps = ps1 ++ p :: ps2 /\ vs = vs1 ++ v :: vs2 /\ length ps1 = length vs1 /\
                q v = true
  | None => forall v, v ∈ vs -> q v = false
  end.
Proof.
  unfold lookup_by. induction 1 as [|p v ps vs _ Hl IH]; cbn [scan]; [by intros v ?%elem_of_nil|].
  destruct (q v) eqn:E; [by exists [], ps, [], v, vs|]. destruct (scan _ ps vs).
  - destruct IH as (ps1 & ps2 & vs1 & v' & vs2 & -> & -> & Hlen & Hin).
    exists (p :: ps1), ps2, (v :: vs1), v', vs2. split; [done|]. split; [done|]. split; [simpl; lia | done].
  - intros w [->|Hw]%elem_of_cons; auto.
Qed.

Lemma vm_find_vma_wp s vm ps vs Lo virt :
  space_ok s vm ps vs Lo -> 
  wp (vm_find_vma (Some vm) virt) (fun r s' => s' = s /\ r = default NULL (lookup_vma virt ps vs)) s.
Proof.
  intros H. pose proof (so_vmas _ _ _ _ _ H) as Hv. destruct (so_ok _ _ _ _ _ H) as [Hs Hb].
  assert (Forall2 (fun (_ : Z) (_ : vma) => True) ps vs) as Hl by (eapply Forall2_impl; [exact Hv | done]).
  unfold vm_find_vma. destruct (Z.leb_spec VM_USER_END virt).
  { wp_steps. split; [done|]. pose proof (lookup_by_spec (in_vma virt) ps vs Hl) as Hspec. fold (lookup_vma virt) in Hspec.
    destruct (lookup_vma virt ps vs) as [p|]; [|done]. destruct Hspec as (_ & _ & vs1 & v & vs2 & _ & -> & _ & Hin).
    rewrite Forall_forall in Hb. specialize (Hb v ltac:(apply elem_of_app; right; apply list_elem_of_here)).
    unfold in_vma in Hin. lia. }
  wp_step. wp_use (vmas_for_each_wp (fun p v => if virt <? va_start v then Some NULL else if in_vma virt v then Some p else None));
    [exact H | |].
  - intros p v Hp (H1 & H2 & H3). destruct (space_obj _ _ _ _ _ p H Hp) as (? & ? & ?).
    destruct (obj_addrs p) as (_ & E1 & E2 & E3 & ? & ? & ? & _); [done..|].
    unfold find_try, vma_start, vma_end. rewrite E1, E2. wp_step. apply load32_wp; [done|]. rewrite H1.
    destruct (virt <? va_start v); [by wp_steps|]. wp_step. apply load32_wp; [done|]. wp_step. apply load32_wp; [done|].
    rewrite H1, H2. unfold in_vma. by destruct (_ && _); wp_steps.
  - intros r s' [-> ->]. wp_steps. split; [done|]. apply (scan_find (in_vma virt) virt ps vs 0); [|done..].
    unfold in_vma. lia.
Qed.

(** The VMA that contains the whole range. *)
Definition in_range (virt e : Z) (v : vma) : bool := (va_start v <=? virt) && (e <=? va_end v).

Lemma vm_find_vma_range_wp s vm ps vs Lo virt size :
  space_ok s vm ps vs Lo -> vm_user_range_valid virt size = true ->
  wp (vm_find_vma_range (Some vm) virt size) (fun r s' => s' = s /\
    r = default NULL (lookup_by (in_range virt (u32 (virt + size))) ps vs)) s.
Proof.
  intros H Hr. pose proof (so_vmas _ _ _ _ _ H) as Hv. destruct (so_ok _ _ _ _ _ H) as [Hs Hb].
  assert (Forall2 (fun (_ : Z) (_ : vma) => True) ps vs) as Hl by (eapply Forall2_impl; [exact Hv | done]).
  unfold vm_find_vma_range. rewrite Hr. cbn [negb]. set (e := u32 (virt + size)).
  wp_step. wp_use (vmas_for_each_wp (fun p v => if virt <? va_start v then Some NULL else if in_range virt e v then Some p else None));
    [exact H | |].
  - intros p v Hp (H1 & H2 & H3). destruct (space_obj _ _ _ _ _ p H Hp) as (? & ? & ?).
    destruct (obj_addrs p) as (_ & E1 & E2 & E3 & ? & ? & ? & _); [done..|].
    unfold find_range_try, vma_start, vma_end. rewrite E1, E2. wp_step. apply load32_wp; [done|]. rewrite H1.
    destruct (virt <? va_start v); [by wp_steps|]. wp_step. apply load32_wp; [done|]. wp_step. apply load32_wp; [done|].
    rewrite H1, H2. unfold in_range. by destruct (_ && _); wp_steps.
  - intros r s' [-> ->]. wp_steps. split; [done|]. apply (scan_find (in_range virt e) virt ps vs 0); [|done..].
    unfold in_range. lia.
Qed.

(** *** Insertion *)

Definition add_scan (virt e p : Z) (v : vma) : option (Z + Z) :=
  if va_end v <=? virt then None else if e <=? va_start v then Some (inl (p + 12)) else Some (inr (- KERR_EXISTS)).

(** The loop either meets an overlapping VMA or stops where the new one belongs. *)
Lemma scan_add n h ps vs lo : Forall2 (fun _ _ => True) ps vs -> sorted_from lo vs -> va_start n < va_end n ->
  match scan (add_scan (va_start n) (va_end n)) ps vs with
  | Some (inr e) => e = - KERR_EXISTS /\ exists v, v ∈ vs /\ overlaps (va_start n) (va_end n) v = true
  | r => exists ps1 ps2 vs1 vs2, ps = ps1 ++ ps2 /\ vs = vs1 ++ vs2 /\ length ps1 = length vs1 /\
      insert_vma n vs = vs1 ++ n :: vs2 /\
      (forall v, v ∈ vs -> overlaps (va_start n) (va_end n) v = false) /\
      match r with Some (inl x) => x | _ => h end = after_gap h (nodes ps2)
  end.
Proof.
  intros Hl Hs Hn. revert lo Hs. induction Hl as [|p v ps vs _ Hl IH]; intros lo Hs; cbn [scan].
  { exists [], [], [], []. repeat (split; [done|]). by split; [intros v ?%elem_of_nil|]. }
  destruct Hs as (H1 & H2 & H3). unfold add_scan at 1. cbn [insert_vma].
  destruct (Z.leb_spec (va_end v) (va_start n)) as [Hle|Hgt].
  - specialize (IH _ H3). destruct (scan _ ps vs) as [[x|e]|].
    + destruct IH as (ps1 & ps2 & vs1 & vs2 & -> & -> & Hlen & -> & Hov & Hx).
      exists (p :: ps1), ps2, (v :: vs1), vs2. split; [done|]. split; [done|]. split; [simpl; lia|]. split; [done|]. split; [|done].
      intros w [->|Hw]%elem_of_cons; [|by apply Hov]. unfold overlaps. lia.
    + destruct IH as (-> & w & Hw & Hov). split; [done|]. exists w. split; [by apply list_elem_of_further | done].
    + destruct IH as (ps1 & ps2 & vs1 & vs2 & -> & -> & Hlen & -> & Hov & Hx).
      exists (p :: ps1), ps2, (v :: vs1), vs2. split; [done|]. split; [done|]. split; [simpl; lia|]. split; [done|]. split; [|done].
      intros w [->|Hw]%elem_of_cons; [|by apply Hov]. unfold overlaps. lia.
  - destruct (Z.leb_spec (va_end n) (va_start v)) as [Hle|Hlt].
    + exists [], (p :: ps), [], (v :: vs). repeat (split; [done|]). split; [|done].
      intros w [->|Hw]%elem_of_cons; [unfold overlaps; lia|]. destruct (sorted_from_bound _ _ H3 w Hw). unfold overlaps. lia.
    + split; [done|]. exists v. split; [apply list_elem_of_here|]. unfold overlaps. lia.
Qed.

Lemma forall2_mono_in {B C} (P Q : B -> C -> Prop) l k :
  (forall x y, x ∈ l -> P x y -> Q x y) -> Forall2 P l k -> Forall2 Q l k.
Proof.
  intros HQ Hl. induction Hl as [|x y l k Hx Hl IH]; constructor.
  - apply HQ; [apply list_elem_of_here | done].
  - apply IH. intros x' y' Hx'. apply HQ. by apply list_elem_of_further.
Qed.

Lemma fop_app {B} (R : B -> B -> Prop) l1 l2 : ForallOrdPairs R (l1 ++ l2) -> forall x y, x ∈ l1 -> y ∈ l2 -> R x y.
Proof.
  induction l1 as [|z l1 IH]; intros Hf x y Hx Hy; [by apply elem_of_nil in Hx|]. inversion Hf as [|?? Hz Hr]; subst.
  apply elem_of_cons in Hx as [->|Hx]; [|by apply IH]. rewrite Forall_forall in Hz. apply Hz, elem_of_app. by right.
Qed.

(** The first three words of a VMA are not list fields. *)
Lemma word_not_node s vm ps vs Lo q a :
  space_ok s vm ps vs Lo -> q ∈ ps -> q <= a < q + 12 -> ~ in_nodes (vmas vm :: nodes ps) a.
Proof.
  intros H Hq Ha (x & [->|Hx]%elem_of_cons & Hax).
  - destruct (heap_ok_disjoint _ _ _ (so_heap _ _ _ _ _ H)) as [Hdis Hall].
    pose proof (fop_app _ _ _ Hdis (q, sizeof_vma)) as Hd. destruct (so_head _ _ _ _ _ H a Hax) as [[Ho _]|(r & sz & Hr & Hra)].
    + rewrite Forall_forall in Hall. specialize (Hall (q, sizeof_vma)). cbn in Hall. unfold sizeof_vma in *.
      destruct Hall as (? & ? & _); [|lia]. apply elem_of_app. left. by apply (list_elem_of_fmap_2 (fun p => (p, 20))).
    + specialize (Hd (r, sz) ltac:(by apply (list_elem_of_fmap_2 (fun p => (p, sizeof_vma)))) Hr).
      unfold disjoint, sizeof_vma in Hd. cbn in Hd. lia.
  - apply list_elem_of_fmap_1 in Hx as (r & -> & Hr).
    destruct (heap_ok_disjoint _ _ _ (so_heap _ _ _ _ _ H)) as [Hdis _].
    destruct (ForallOrdPairs_In Hdis (q, sizeof_vma) (r, sizeof_vma)) as [E|Hd].
    + apply list_elem_of_In, elem_of_app. left. by apply (list_elem_of_fmap_2 (fun p => (p, sizeof_vma))).
    + apply list_elem_of_In, elem_of_app. left. by apply (list_elem_of_fmap_2 (fun p => (p, sizeof_vma))).
    + injection E as ->. lia.
    + unfold disjoint, sizeof_vma in Hd. cbn in Hd. lia.
Qed.

(** What an operation on the list of [vm] keeps: the words of the other live objects
    and those outside the heap, except the list head. *)
Definition vma_frame (s : kheap) (vm : vm_space) (Lo : list (Z * Z)) (s' : kheap) : Prop :=
  kheap_start s' = kheap_start s /\ kheap_end s' = kheap_end s /\
  forall a, live_addr kheap_free_list s Lo a -> a <> vmas vm -> a <> vmas vm + 4 -> rd (kh_mem s') a = rd (kh_mem s) a.

Lemma live_other s vm ps vs Lo a : space_ok s vm ps vs Lo ->
  live_addr kheap_free_list s Lo a -> a <> vmas vm -> a <> vmas vm + 4 -> ~ in_nodes (vmas vm :: nodes ps) a.
Proof.
  intros H Hl H1 H2 (x & [->|Hx]%elem_of_cons & Hax); [lia|]. apply list_elem_of_fmap_1 in Hx as (q & -> & Hq).
  destruct (heap_ok_disjoint _ _ _ (so_heap _ _ _ _ _ H)) as [Hdis Hall].
  assert ((q, sizeof_vma) ∈ objs ps) as Hqo by by apply (list_elem_of_fmap_2 (fun p => (p, sizeof_vma))).
  destruct Hl as [[Ho _]|(r & sz & Hr & Hra)].
  - rewrite Forall_forall in Hall. specialize (Hall (q, sizeof_vma)). cbn in Hall. unfold sizeof_vma in *.
    destruct Hall as (? & ? & _); [|lia]. apply elem_of_app. by left.
  - pose proof (fop_app _ _ _ Hdis (q, sizeof_vma) (r, sz) Hqo Hr) as Hd. unfold disjoint, sizeof_vma in Hd. cbn in Hd. lia.
Qed.

(** Writing a new object and linking it in. *)
Lemma link_vma_wp s vm ps1 ps2 vs1 vs2 Lo n p m1 :
  space_ok s vm (ps1 ++ ps2) (vs1 ++ vs2) Lo -> length ps1 = length vs1 ->
  heap_ok (set_kh_mem m1 s) ((p, sizeof_vma) :: objs (ps1 ++ ps2) ++ Lo) ->
  (forall a, live_addr kheap_free_list s (objs (ps1 ++ ps2) ++ Lo) a -> rd m1 a = rd (kh_mem s) a) ->
  vmas_ok (vs1 ++ n :: vs2) ->
  wp (zoom kh_mem set_kh_mem
       (set_vma_start p (va_start n) ;;; set_vma_end p (va_end n) ;;; set_vma_flags p (va_flags n) ;;;
        list_insert_before (after_gap (vmas vm) (nodes ps2)) (vmas_node p)))
    (fun _ s' => space_ok s' vm (ps1 ++ p :: ps2) (vs1 ++ n :: vs2) Lo /\ vma_frame s vm Lo s') (set_kh_mem m1 s).
Proof.
  intros H Hlen Hh Hfr Hok.
  destruct (heap_ok_disjoint _ _ _ Hh) as [Hdis Hall]. inversion Hdis as [|?? Hdp _]; subst.
  apply Forall_cons in Hall as [(Hb1 & Hb2 & Hb3) _]. cbn [fst snd set_kh_mem kheap_start kheap_end] in Hb1, Hb2, Hb3.
  unfold sizeof_vma in Hb2.
  destruct (heap_ok_bounds _ _ _ Hh) as (Hk1 & Hk2 & Hk3). cbn [set_kh_mem kheap_start kheap_end] in Hk1, Hk2, Hk3.
  rewrite Forall_forall in Hdp.
  destruct (obj_addrs p) as (En & _ & E4 & E8 & V0 & V4 & V8 & Hnode); [lia.. | done|].
  (** words of the other objects and of the list head are not in the new object *)
  assert (Hout : forall a, live_addr kheap_free_list s (objs (ps1 ++ ps2) ++ Lo) a -> a < p \/ p + 20 <= a).
  { intros a [[Ho _]|(q & sz & Hq & Ha)]; [lia|]. specialize (Hdp (q, sz) Hq). unfold disjoint in Hdp. cbn in Hdp.
    unfold sizeof_vma in Hdp. lia. }
  wp_step. unfold set_vma_start, set_vma_end, set_vma_flags. rewrite En, E4, E8.
  do 3 (wp_step; apply store32_wp; [done|]). set (m3 := wr _ (p + 8) _). cbn [kh_mem set_kh_mem] in m3.
  assert (Hm3 : forall a, a < p \/ p + 20 <= a -> rd m3 a = rd m1 a).
  { intros a Ha. unfold m3. rewrite !rd_wr_ne by lia. done. }
  assert (dll m3 (vmas vm) (nodes ps1 ++ nodes ps2)) as Hd.
  { rewrite <- map_app. apply (dll_ext (kh_mem s)); [|apply (so_list _ _ _ _ _ H)]. intros a Ha.
    pose proof (live_node _ _ _ _ _ _ H Ha) as Hl. rewrite Hm3 by (by apply Hout). by apply Hfr. }
  apply (list_insert_before_gap m3 (vmas vm) (nodes ps1) (nodes ps2)); [done | done | |].
  { intros y Hy. rewrite <- map_app in Hy.
    pose proof (Hout y (live_node _ _ _ _ _ _ H (ex_intro _ y (conj Hy (or_introl eq_refl))))).
    pose proof (Hout (y + 4) (live_node _ _ _ _ _ _ H (ex_intro _ y (conj Hy (or_intror eq_refl))))).
    unfold apart. lia. }
  intros m' Hd' Hf. rewrite <- map_app in Hf.
  (** what the whole step changed: the new object, and nodes of the list *)
  assert (Hm' : forall a, a <> p + 12 -> a <> p + 16 -> ~ in_nodes (vmas vm :: nodes (ps1 ++ ps2)) a -> rd m' a = rd m3 a).
  { intros a H1 H2 Hn. apply Hf. intros (x & [->|Hx]%elem_of_cons & Ha); [lia|]. apply Hn. by exists x. }
  split; [split|].
  - apply (heap_ok_perm _ _ ((p, sizeof_vma) :: objs (ps1 ++ ps2) ++ Lo)).
    { rewrite !map_app. cbn [map]. rewrite <- !app_assoc. apply Permutation_middle. }
    apply heap_ok_frame; [done|]. intros a Ha.
    assert (a < p \/ p + 20 <= a) as Hap.
    { destruct (Z.lt_ge_cases a p); [by left|]. destruct (Z.le_gt_cases (p + 20) a); [by right|]. exfalso. apply Ha.
      right. exists p, sizeof_vma. split; [apply list_elem_of_here | unfold sizeof_vma; lia]. }
    rewrite Hm', Hm3; [done | done | lia | lia|]. intros Hn. apply Ha.
    apply (live_more _ (objs (ps1 ++ ps2) ++ Lo)); [intros l; apply list_elem_of_further|].
    exact (live_node s vm (ps1 ++ ps2) (vs1 ++ vs2) Lo a H Hn).
  - cbn. by rewrite map_app.
  - pose proof (so_vmas _ _ _ _ _ H) as Hv.
    assert (Hext : forall q v, q ∈ ps1 ++ ps2 -> vma_at (kh_mem s) q v -> vma_at m' q v).
    { intros q v Hq. assert (Hq' : forall a, q <= a < q + 12 -> rd m' a = rd (kh_mem s) a).
      { intros a Ha. pose proof (live_obj s (ps1 ++ ps2) Lo q a Hq ltac:(lia)) as Hl. pose proof (Hout a Hl).
        rewrite Hm', Hm3; [by apply Hfr | done | lia | lia | by apply (word_not_node s vm _ (vs1 ++ vs2) Lo q)]. }
      unfold vma_at. intros (H1 & H2 & H3). rewrite !Hq' by lia. done. }
    assert (Hn : vma_at m' p n).
    { assert (Hp' : forall a, p <= a < p + 12 -> rd m' a = rd m3 a).
      { intros a Ha. apply Hm'; [lia | lia|]. intros Hn. pose proof (Hout a (live_node _ _ _ _ _ _ H Hn)). lia. }
      unfold vma_at. rewrite !Hp' by lia. unfold m3. by rewrite !rd_wr_eq, !rd_wr_ne, !rd_wr_eq, rd_wr_ne, rd_wr_eq by lia. }
    apply Forall2_app_inv in Hv as [Hv1 Hv2]; [|done].
    apply Forall2_app; [|constructor; [done|]]; (eapply forall2_mono_in; [|eassumption]); intros q v Hq; apply Hext, elem_of_app; auto.
  - exact (so_head _ _ _ _ _ H).
  - done.
  - split; [done|]. split; [done|]. intros a Hl H1 H2. cbn [kh_mem set_kh_mem].
    assert (live_addr kheap_free_list s (objs (ps1 ++ ps2) ++ Lo) a) as Hl'
      by (apply (live_more _ Lo); [intros l Hin; apply elem_of_app; by right | done]).
    pose proof (Hout a Hl'). rewrite Hm', Hm3; [by apply Hfr | done | lia | lia|].
    by apply (live_other s vm (ps1 ++ ps2) (vs1 ++ vs2) Lo).
Qed.

Lemma user_range_spec virt size : is_u32 virt -> is_u32 size ->
  vm_user_range_valid virt size = true <->
  0 < size /\ virt < VM_USER_END /\ (virt + size <= VM_USER_END \/ virt + size = 4294967296).
Proof.
  unfold vm_user_range_valid, VM_USER_START, UINTPTR_MAX, is_u32. change VM_USER_END with 3221225472. change USER_START with 0.
  intros Hv Hs. destruct (Z.eqb_spec size 0); [lia|].
  destruct (Z.ltb_spec virt 0); [lia|]. cbn [orb]. destruct (Z.leb_spec 3221225472 virt); [lia|].
  destruct (Z.ltb_spec (4294967295 - virt) (size - 1)); [lia|].
  destruct (Z.eq_dec (virt + size) 4294967296) as [->|].
  - change (u32 4294967296) with 0. split; [intros _; split; [lia|]; split; [done | by right] | done].
  - rewrite u32_id by (unfold is_u32; lia). rewrite Z.leb_le. lia.
Qed.

(** Requests [vm_add_vma] accepts, when the range does not end at 2^32. *)
Definition add_args_ok (virt size : Z) : Prop :=
  0 < size /\ virt mod 4096 = 0 /\ size mod 4096 = 0 /\ virt + size <= VM_USER_END.

(** With the VMAs [vs] and the objects [Lo] on it, the heap has room for one VMA more. *)
Definition vma_fits (s : kheap) (vs : list vma) (Lo : list (Z * Z)) : Prop :=
  heap_load Lo + 66 * Z.of_nat (length vs) + 40 * (Z.of_nat (length vs) + Z.of_nat (length Lo) + 1) <= kheap_end s - kheap_start s.

Lemma vma_fits_objs s (ps : list Z) vs Lo : length ps = length vs -> vma_fits s vs Lo -> heap_fits s (objs ps ++ Lo) sizeof_vma.
Proof.
  unfold vma_fits, heap_fits. intros E H. rewrite heap_load_app, length_app, length_map.
  assert (heap_load (objs ps) = 66 * Z.of_nat (length ps)) as ->.
  { clear. induction ps as [|p ps IH]; [done|]. cbn [map heap_load foldr length snd] in *. unfold heap_load in IH. rewrite IH.
    unfold sizeof_vma. lia. }
  change (block_need sizeof_vma) with 40. lia.
Qed.

Definition vm_add_post (s : kheap) (vm : vm_space) (ps : list Z) (vs : list vma) (Lo : list (Z * Z))
    (virt size flags res : Z) (s' : kheap) : Prop :=
  (~ add_args_ok virt size /\ res = - KERR_INVAL /\ s' = s) \/
  (add_args_ok virt size /\
   ((res = - KERR_EXISTS /\ s' = s /\ exists v, v ∈ vs /\ overlaps virt (virt + size) v = true) \/
    ((forall v, v ∈ vs -> overlaps virt (virt + size) v = false) /\
     ((res = - KERR_NOMEM /\ s' = s /\ ~ vma_fits s vs Lo) \/
      (res = KERR_OK /\ exists ps1 p ps2, ps = ps1 ++ ps2 /\
         space_ok s' vm (ps1 ++ p :: ps2) (insert_vma (mk_vma virt (virt + size) flags) vs) Lo /\
         vma_frame s vm Lo s'))))).

Lemma vm_add_vma_wp s vm ps vs Lo virt size flags :
  space_ok s vm ps vs Lo -> is_u32 virt -> is_u32 size -> virt + size <> 4294967296 ->
  wp (vm_add_vma kheap_free_list (Some vm) virt size flags) (vm_add_post s vm ps vs Lo virt size flags) s.
Proof.
  intros H Hv Hs Hne. unfold vm_add_vma, vm_add_post, add_args_ok.
  destruct (Z.eqb_spec size 0) as [->|Hs0]; [apply wp_ret; left; split; [lia | done]|].
  change arch_vm_page_size with 4096. rewrite align_tests2. case_bool_decide as Hal; cbn [negb];
    [|apply wp_ret; left; split; [tauto | done]].
  destruct (vm_user_range_valid virt size) eqn:Er; cbn [negb].
  2: { apply wp_ret. left. split; [|done]. intros (H1 & _ & _ & H2).
       assert (vm_user_range_valid virt size = true) as Et; [|congruence]. apply user_range_spec; [done | done|].
       split; [done|]. split; [lia | by left]. }
  apply user_range_spec in Er as (Hs1 & Hv1 & [He|He]); [|done.. ].
  assert (0 < size /\ virt mod 4096 = 0 /\ size mod 4096 = 0 /\ virt + size <= VM_USER_END) as Hargs by tauto.
  rewrite u32_id by (change VM_USER_END with 3221225472 in *; unfold is_u32 in *; lia).
  pose proof (so_vmas _ _ _ _ _ H) as Hvm. destruct (so_ok _ _ _ _ _ H) as [Hsort Hb].
  assert (Forall2 (fun (_ : Z) (_ : vma) => True) ps vs) as Hl by (eapply Forall2_impl; [exact Hvm | done]).
  wp_step. wp_use (vmas_for_each_wp (add_scan virt (virt + size))); [exact H | |].
  { intros p v Hp (H1 & H2 & H3). destruct (space_obj _ _ _ _ _ p H Hp) as (? & ? & ?).
    destruct (obj_addrs p) as (_ & E1 & E2 & E3 & ? & ? & ? & _); [done..|].
    unfold add_try, add_scan, vma_start, vma_end. rewrite E1, E2. wp_step. apply load32_wp; [done|]. rewrite H2.
    destruct (va_end v <=? virt); [by wp_steps|]. wp_step. apply load32_wp; [done|]. rewrite H1.
    by destruct (virt + size <=? va_start v); wp_steps. }
  intros r s' [-> ->]. pose proof (scan_add (mk_vma virt (virt + size) flags) (vmas vm) ps vs 0 Hl Hsort ltac:(cbn; lia)) as Hscan.
  cbn [va_start va_end] in Hscan. destruct (scan _ ps vs) as [[x|e]|] eqn:Es.
  2: { destruct Hscan as (-> & v & Hin & Hov). apply wp_ret. right. split; [done|]. left. eauto. }
  all: destruct Hscan as (ps1 & ps2 & vs1 & vs2 & Eps & Evs & Hlen & Hins & Hov & Hx); wp_step;
    (wp_use kmalloc_live_wp; [apply (so_heap _ _ _ _ _ H) | by unfold sizeof_vma|]);
    (intros p s' [(-> & -> & Hfull)|(-> & m1 & -> & Hh & Hfr)];
       [apply wp_ret; right; split; [done|]; right; split; [done|]; left; split; [done|]; split; [done|];
        intros Hfits; by apply Hfull, (vma_fits_objs _ _ vs); [apply (Forall2_length _ _ _ Hl) |]|]).
  all: assert (vmas_ok (vs1 ++ mk_vma virt (virt + size) flags :: vs2)) as Hok' by
    (rewrite <- Hins; split; [apply insert_vma_sorted; cbn; [lia | done | unfold is_u32 in *; lia | done]
      | rewrite insert_vma_perm; by constructor]).
  all: rewrite Hx, Hins; wp_step; subst ps vs.
  all: wp_use (link_vma_wp s vm ps1 ps2 vs1 vs2 Lo (mk_vma virt (virt + size) flags) p m1); [done.. |].
  all: intros [] s' [Hs' Hfr']; wp_step; right; split; [done|]; right; split; [done|]; right; split; [done|]; by exists ps1, p, ps2.
Qed.

(** *** Removal *)

(** [kfree] refuses a VMA that fills the end of the heap; the object then stays
    allocated. *)
Definition after_free (s : kheap) (p : Z) (Lo Lo' : list (Z * Z)) : Prop :=
  Lo' = Lo \/ (Lo' = (p, sizeof_vma) :: Lo /\ kheap_end s - 24 <= p).

Lemma unlink_vma_wp s vm ps1 p ps2 vs1 v vs2 Lo :
  space_ok s vm (ps1 ++ p :: ps2) (vs1 ++ v :: vs2) Lo -> length ps1 = length vs1 ->
  wp (zoom kh_mem set_kh_mem (list_remove (vmas_node p)) ;;; kfree kheap_free_list p)
    (fun _ s' => vma_frame s vm Lo s' /\
       exists Lo', after_free s p Lo Lo' /\ space_ok s' vm (ps1 ++ ps2) (vs1 ++ vs2) Lo') s.
Proof.
  intros H Hlen. assert (p ∈ ps1 ++ p :: ps2) as Hp by (apply elem_of_app; right; apply list_elem_of_here).
  destruct (space_obj _ _ _ _ _ p H Hp) as (? & ? & ?).
  destruct (obj_addrs p) as (En & _ & _ & _ & _ & _ & _ & _); [done..|].
  wp_step. wp_step. rewrite En. pose proof (so_list _ _ _ _ _ H) as Hd. rewrite map_app in Hd. cbn [map] in Hd.
  eapply list_remove_gap; [exact Hd|]. intros m1 Hd1 Hf1 _ _. rewrite <- map_app in Hd1.
  assert (Ef : vmas vm :: nodes ps1 ++ (p + 12) :: nodes ps2 = vmas vm :: nodes (ps1 ++ p :: ps2)) by by rewrite map_app.
  rewrite Ef in Hf1.
  assert (Hsub : forall q, q ∈ ps1 ++ ps2 -> q ∈ ps1 ++ p :: ps2).
  { intros q. rewrite !elem_of_app, elem_of_cons. tauto. }
  assert (Hh1 : heap_ok (set_kh_mem m1 s) (objs (ps1 ++ p :: ps2) ++ Lo)).
  { apply heap_ok_frame; [apply (so_heap _ _ _ _ _ H)|]. intros a Ha. apply Hf1. intros Hn. apply Ha.
    by apply (live_node s vm _ (vs1 ++ v :: vs2)). }
  assert (Hperm : objs (ps1 ++ p :: ps2) ++ Lo ≡ₚ (p, sizeof_vma) :: objs (ps1 ++ ps2) ++ Lo).
  { rewrite !map_app. cbn [map]. rewrite <- !app_assoc. symmetry. apply Permutation_middle. }
  apply (heap_ok_perm _ _ _ _ Hperm) in Hh1 as Hh2.
  assert (Hvs : Forall2 (vma_at m1) (ps1 ++ ps2) (vs1 ++ vs2)).
  { pose proof (so_vmas _ _ _ _ _ H) as Hv. apply Forall2_app_inv in Hv as [Hv1 Hv2]; [|done].
    inversion Hv2 as [|? ? ? ? Hpv Hv2']; subst.
    apply (forall2_mono_in (vma_at (kh_mem s))); [|by apply Forall2_app].
    intros q w Hq (W1 & W2 & W3). unfold vma_at.
    rewrite !Hf1 by (apply (word_not_node s vm _ (vs1 ++ v :: vs2) Lo q); [done | by apply Hsub | lia]). done. }
  assert (Hok' : vmas_ok (vs1 ++ vs2)).
  { destruct (so_ok _ _ _ _ _ H) as [Hs Hb]. split; [by eapply sorted_from_remove|].
    apply Forall_app in Hb as [? Hb]. apply Forall_cons in Hb as [_ ?]. by apply Forall_app. }
  assert (Hfr1 : forall a, live_addr kheap_free_list s Lo a -> a <> vmas vm -> a <> vmas vm + 4 -> rd m1 a = rd (kh_mem s) a).
  { intros a Hl Ha1 Ha2. apply Hf1. by apply (live_other s vm (ps1 ++ p :: ps2) (vs1 ++ v :: vs2) Lo). }
  wp_use kfree_live_wp; [exact Hh2|]. intros _ s' [[Hend ->]|(Hlt & m2 & -> & Hh & Hfr)].
  - split; [done|]. exists ((p, sizeof_vma) :: Lo). split; [by right|]. split; [| exact Hd1 | exact Hvs | | done].
    + apply (heap_ok_perm _ _ _ _ Hperm) in Hh1. eapply heap_ok_perm; [|exact Hh1]. apply Permutation_middle.
    + intros a Ha. apply (live_more _ Lo); [intros l; apply list_elem_of_further|]. by apply (so_head _ _ _ _ _ H).
  - cbn [kh_mem set_kh_mem] in Hfr. split.
    { split; [done|]. split; [done|]. intros a Hl Ha1 Ha2. cbn [kh_mem set_kh_mem]. rewrite Hfr; [by apply Hfr1|].
      apply (live_more _ Lo); [intros l Hin; apply elem_of_app; by right | done]. }
    exists Lo. split; [by left|]. split; [done | | | apply (so_head _ _ _ _ _ H) | done]; cbn [kh_mem set_kh_mem].
    + apply (dll_ext m1); [|exact Hd1]. intros a (x & [->|Hx]%elem_of_cons & Ha); apply Hfr.
      * apply (live_more _ Lo); [intros l Hl; apply elem_of_app; by right|]. by apply (so_head _ _ _ _ _ H).
      * apply list_elem_of_fmap_1 in Hx as (q & -> & Hq). apply (live_obj _ _ _ q); [done | lia].
    + apply (forall2_mono_in (vma_at m1)); [|exact Hvs]. intros q w Hq. apply vma_at_ext. intros a Ha. apply Hfr.
      by apply (live_obj _ _ _ q).
Qed.

Lemma vm_remove_vma_wp s vm ps vs Lo virt :
  space_ok s vm ps vs Lo ->
  wp (vm_remove_vma kheap_free_list (Some vm) virt) (fun res s' =>
    (res = - KERR_NOENT /\ s' = s /\ forall v, v ∈ vs -> in_vma virt v = false) \/
    (res = KERR_OK /\ exists ps1 p ps2 vs1 v vs2 Lo', ps = ps1 ++ p :: ps2 /\ vs = vs1 ++ v :: vs2 /\
       in_vma virt v = true /\ after_free s p Lo Lo' /\ space_ok s' vm (ps1 ++ ps2) (vs1 ++ vs2) Lo' /\
       vma_frame s vm Lo s')) s.
Proof.
  intros H. unfold vm_remove_vma. wp_step. wp_use vm_find_vma_wp; [exact H|]. intros r s1 [-> ->].
  assert (Forall2 (fun (_ : Z) (_ : vma) => True) ps vs) as Hl by (eapply Forall2_impl; [apply (so_vmas _ _ _ _ _ H) | done]).
  pose proof (lookup_by_spec (in_vma virt) ps vs Hl) as Hspec. fold (lookup_vma virt) in Hspec. destruct (lookup_vma virt ps vs) as [p|]; cbn [default].
  2: { wp_steps. by left. }
  destruct Hspec as (ps1 & ps2 & vs1 & v & vs2 & -> & -> & Hlen & Hin).
  destruct (space_obj _ _ _ _ _ p H) as (Hp & _); [apply elem_of_app; right; apply list_elem_of_here|].
  unfold id, NULL. destruct (Z.eqb_spec p 0); [unfold KERNEL_VIRT_OFFSET in Hp; lia|].
  pose proof (unlink_vma_wp _ _ _ _ _ _ _ _ _ H Hlen) as Hu. unfold wp, bind in Hu. apply wp_bind. unfold wp, bind.
  destruct (zoom _ _ _ s) as [[[] s1]|]; [|done]. destruct (kfree _ p s1) as [[e s2]|]; [|done].
  destruct Hu as (Hfr & Lo' & Hf & Hs'). cbn. right. split; [done|]. by exists ps1, p, ps2, vs1, v, vs2, Lo'.
Qed.

(** *** Creation and destruction of the list *)

Lemma init_vmas_wp s vm Lo :
  heap_ok s Lo -> node_ok (vmas vm) ->
  (forall a, a = vmas vm \/ a = vmas vm + 4 -> live_addr kheap_free_list s Lo a) ->
  wp (zoom kh_mem set_kh_mem (list_init (vmas vm))) (fun _ s' => space_ok s' vm [] [] Lo) s.
Proof.
  intros Hh Hn Hl. wp_step. apply list_init_wp; [done|]. intros m' Hd Hf. split; [|done | constructor | done | by split].
  apply heap_ok_frame; [done|]. intros a Ha. apply Hf. intros (x & ->%list_elem_of_singleton & Hx). by apply Ha, Hl.
Qed.

Lemma dll_next m h xs1 x xs2 : dll m h (xs1 ++ x :: xs2) -> rd m x = after_gap h xs2.
Proof.
  intros Hd. apply dll_gap in Hd as (Hr & _). apply (ring_mid _ _ _ (xs2 ++ removelast (h :: xs1))) in Hr.
  destruct Hr as (_ & _ & -> & _). apply after_gap_spec.
Qed.

(** The objects left when the VMAs were released: [kfree] refuses the heap's last block. *)
Definition unfreed (s : kheap) (Lx : list (Z * Z)) : Prop :=
  Forall (fun l => l.2 = sizeof_vma /\ kheap_end s - 24 <= l.1) Lx.

Lemma vma_frame_trans s vm Lx Lo s1 s2 : vma_frame s vm Lo s1 -> vma_frame s1 vm (Lx ++ Lo) s2 -> vma_frame s vm Lo s2.
Proof.
  intros (A1 & A2 & A3) (B1 & B2 & B3). split; [congruence|]. split; [congruence|]. intros a Ha H1 H2. rewrite B3, A3; [done..| |done|done].
  destruct Ha as [Ha|(p & sz & Hp & Ha)]; [left; by rewrite A1, A2|]. right. exists p, sz. split; [apply elem_of_app; by right | done].
Qed.

(** [list_for_each_safe] visits and frees every VMA although each step unlinks the
    node it stands on. *)
Lemma free_vmas_wp vm : forall ps vs Lo fuel s next,
  space_ok s vm ps vs Lo -> (length ps < fuel)%nat -> (ps <> [] -> next = after_gap (vmas vm) (nodes (tl ps))) ->
  wp (free_vmas kheap_free_list fuel (vmas vm) (after_gap (vmas vm) (nodes ps)) next)
    (fun _ s' => exists Lx, space_ok s' vm [] [] (Lx ++ Lo) /\ unfreed s Lx /\ vma_frame s vm Lo s') s.
Proof.
  induction ps as [|p ps IH]; intros vs Lo fuel s next H Hfuel Hnext; (destruct fuel as [|fuel]; [simpl in Hfuel; lia|]);
    cbn [free_vmas map after_gap hd].
  - rewrite Z.eqb_refl. apply wp_ret. pose proof (so_vmas _ _ _ _ _ H) as Hv. inversion Hv; subst.
    exists []. split; [done|]. split; [constructor | by split].
  - rewrite Hnext by done. cbn [tl]. pose proof (so_list _ _ _ _ _ H) as Hd.
    destruct (space_obj _ _ _ _ _ p H (list_elem_of_here _ _)) as (? & ? & ?).
    destruct (obj_addrs p) as (En & Ec & _); [done..|]. rewrite Ec.
    assert (p + 12 <> vmas vm) as Hne.
    { apply dll_apart, nodes_apart_cons in Hd as [Hd _]. specialize (Hd (p + 12) (list_elem_of_here _ _)). unfold apart in Hd. lia. }
    destruct (Z.eqb_spec (p + 12) (vmas vm)); [done|].
    pose proof (so_vmas _ _ _ _ _ H) as Hv. inversion Hv as [|? v ? vs' _ _]; subst.
    pose proof (unlink_vma_wp s vm [] p ps [] v vs' Lo H eq_refl) as Hu. unfold wp, bind in Hu. apply wp_bind.
    apply wp_run. destruct (zoom _ _ _ s) as [[[] s1]|]; [|done]. exists tt, s1. split; [done|]. apply wp_bind, wp_run.
    destruct (kfree _ p s1) as [[e s2]|]; [|done]. exists e, s2. split; [done|].
    destruct Hu as (Hfr & Lo' & Haf & Hs2). cbn [app] in Hs2. pose proof (so_list _ _ _ _ _ Hs2) as Hd2.
    assert (node_ok (after_gap (vmas vm) (nodes ps))) as [Hva _].
    { apply (dll_node_ok _ _ _ _ Hd2). destruct ps; [apply list_elem_of_here | apply list_elem_of_further, list_elem_of_here]. }
    wp_step. wp_step. unfold get_next. apply load32_wp; [done|]. rewrite set_kh_mem_id.
    wp_use (IH vs' Lo'); [done | simpl in Hfuel; lia | |].
    { intros Hps. destruct ps as [|q ps]; [done|]. exact (dll_next _ _ [] _ _ Hd2). }
    intros _ s3 (Lx & Hs3 & Hun & Hfr3). unfold unfreed in Hun. rewrite (proj1 (proj2 Hfr)) in Hun.
    destruct Haf as [->|[-> Hend]].
    + exists Lx. split; [done|]. split; [done|]. by apply (vma_frame_trans s vm [] Lo s2).
    + exists (Lx ++ [(p, sizeof_vma)]). rewrite <- app_assoc. split; [done|].
      split; [apply Forall_app; split; [done | by constructor]|]. by apply (vma_frame_trans s vm [(p, sizeof_vma)] Lo s2).
Qed.
End Spec.

(** ** Properties *)

(** [vm_add_vma] adds an interval to the sorted list.  On a space whose VMAs are
    disjoint intervals of the user's half in increasing order, it refuses empty or
    unaligned ranges and ranges outside the user's half; returns [-KERR_EXISTS]
    exactly when the new range overlaps a VMA; [-KERR_NOMEM] when the heap has no
    room; and otherwise the VMAs are the old ones and the new one, disjoint and
    sorted again.  On every error nothing changes.  (Ranges that end at 2^32 are
    the subject of the next property.) *)
Theorem vm_add_vma_correct (free_list : Z) (s : kheap) vm ps vs Lo virt size flags :
  space_ok free_list s vm ps vs Lo -> is_u32 virt -> is_u32 size -> virt + size <> 4294967296 ->
  exists res s', vm_add_vma free_list (Some vm) virt size flags s = Some (res, s') /\
    vm_add_post free_list s vm ps vs Lo virt size flags res s'.
Proof. intros. by apply wp_run, vm_add_vma_wp. Qed.

(** The range check of user addresses is wrong at the end of the address space.
    [vm_user_range_valid] accepts a range if and only if it lies in the user's half
    or it starts there and ends at 2^32 exactly, covering the whole kernel half (the
    end wraps to 0, which is below [VM_USER_END]). *)
Theorem vm_user_range_valid_exact virt size : is_u32 virt -> is_u32 size ->
  (vm_user_range_valid virt size = true <->
   0 < size /\ virt < VM_USER_END /\ (virt + size <= VM_USER_END \/ virt + size = 4294967296)).
Proof. apply user_range_spec. Qed.

Lemma vm_user_range_valid_exact_witness : vm_user_range_valid 4096 4294963200 = true.
Proof.
  apply vm_user_range_valid_exact; [unfold is_u32; lia | unfold is_u32; lia|].
  split; [lia|]. split; [reflexivity | right; reflexivity].
Defined.

(** [vm_find_vma] and [vm_remove_vma] are lookup and removal by address.  On such a
    space, [vm_find_vma] returns the VMA that contains the address and NULL if there
    is none; [vm_remove_vma] returns [-KERR_NOENT] then, and otherwise takes that VMA
    out of the list and keeps all the others.  (The object itself stays allocated
    when it is the last of the heap, which [kfree] refuses.) *)
Theorem vm_remove_vma_correct (free_list : Z) (s : kheap) vm ps vs Lo virt :
  space_ok free_list s vm ps vs Lo ->
  vm_find_vma (Some vm) virt s = Some (default NULL (lookup_vma virt ps vs), s) /\
  exists res s', vm_remove_vma free_list (Some vm) virt s = Some (res, s') /\
    ((res = - KERR_NOENT /\ s' = s /\ forall v, v ∈ vs -> in_vma virt v = false) \/
     (res = KERR_OK /\ exists ps1 p ps2 vs1 v vs2 Lo', ps = ps1 ++ p :: ps2 /\ vs = vs1 ++ v :: vs2 /\
        in_vma virt v = true /\ after_free s p Lo Lo' /\ space_ok free_list s' vm (ps1 ++ ps2) (vs1 ++ vs2) Lo' /\
        vma_frame free_list s vm Lo s')).
Proof.
  intros H. split; [|by apply wp_run, vm_remove_vma_wp].
  destruct (proj1 (wp_run _ _ _) (vm_find_vma_wp free_list s vm ps vs Lo virt H)) as (r & s' & Hrun & -> & ->). done.
Qed.

(** A space whose list head lies outside the heap. *)
Definition space_sample : vm_space := mk_vm_space 3221226240 (mk_space 0).
Definition vmas_sample : kheap := run_state (zoom kh_mem set_kh_mem (list_init 3221226240)) heap_sample.

Lemma vmas_sample_ok : space_ok sentinel vmas_sample space_sample [] [] [].
Proof.
  assert (client_inv sentinel (heap_sample, [])) as Hh.
  { exists [mk_blk 3221233664 128 false], [3221233672], []. split; [apply heap_sample_ok|]. split; [done | constructor]. }
  destruct (proj1 (wp_run _ _ _) (init_vmas_wp sentinel heap_sample space_sample [] Hh
    ltac:(unfold node_ok, valid, KERNEL_VIRT_OFFSET, space_sample; cbn; dlia)
    ltac:(intros a Ha; left; change (kheap_start heap_sample) with 3221233664; unfold sentinel; cbn in Ha; lia)))
    as (u & s' & Hrun & Hs').
  assert (vmas_sample = s') as -> by (apply (run_state_eq _ _ u); exact Hrun). exact Hs'.
Qed.

Lemma vm_add_vma_correct_witness :
  exists s' p, vm_add_vma sentinel (Some space_sample) 8192 4096 3 vmas_sample = Some (KERR_OK, s') /\
    space_ok sentinel s' space_sample [p] [mk_vma 8192 12288 3] [].
Proof.
  destruct (vm_add_vma_correct sentinel vmas_sample space_sample [] [] [] 8192 4096 3 vmas_sample_ok
    ltac:(unfold is_u32; lia) ltac:(unfold is_u32; lia) ltac:(lia)) as (res & s' & Hrun & Hpost).
  assert (option_map fst (vm_add_vma sentinel (Some space_sample) 8192 4096 3 vmas_sample) = Some KERR_OK) as E
    by (vm_compute; reflexivity).
  rewrite Hrun in E. injection E as ->.
  destruct Hpost as [(_ & Hbad & _)|(_ & [(Hbad & _)|(_ & [[Hbad _]|(_ & ps1 & p & ps2 & E & Hok & _)])])]; [discriminate Hbad..|].
  symmetry in E. apply app_eq_nil in E as [-> ->]. exists s', p. split; [exact Hrun | exact Hok].
Defined.

Lemma vm_remove_vma_correct_witness :
  exists res s', vm_remove_vma sentinel (Some space_sample) 8192 vmas_sample = Some (res, s') /\ res = - KERR_NOENT.
Proof.
  destruct (vm_remove_vma_correct sentinel vmas_sample space_sample [] [] [] 8192 vmas_sample_ok)
    as (_ & res & s' & Hrun & [(H1 & _)|(_ & ps1 & p & ps2 & _ & _ & _ & _ & E & _)]).
  - exists res, s'. split; [exact Hrun | exact H1].
  - exfalso. destruct ps1; discriminate E.
Defined.
