(* ===== verification/Mm.v ===== *)
(** * The memory manager as a whole

    Models [kernel/mm/mm.c] and composes the heap, the VMA lists and the page tables,
    which share one memory: the theorems on [vm_map] and [vm_unmap] of
    [kernel/mm/vmm.c] state what happens to the intervals of the space and to the
    translations of every space together. *)

From S2P Require Import Prelude Base Memory KList Bitmap Pmm Frames Kheap KheapClient HeapLive Paging PagingProps KernelVm Vmm Words VmaList.

Abbreviation mm := (vmm pmm).
Abbreviation mm_vs s := (kv_vm (vmm_kvm s)).
Abbreviation mm_mem s := (vs_mem (kv_vm (vmm_kvm s))).
Abbreviation mm_frames s := (vs_frames (kv_vm (vmm_kvm s))).

(** ** [mm_init]

    The memory map of the boot state, the linker symbols and the words that follow
    the kernel image are arguments. *)
Section Init.
Variable kheap_free_list : Z.

Definition mm_init (kernel_start kernel_end : Z) (kernel_end_words : list Z)
    (text_start text_end rodata_start rodata_end : Z)
    (memory_map : option (list boot_mem_map_entry)) (memory_map_count : Z) : M mm Z :=
  TRY zoom vmm_kvm set_vmm_kvm (zoom kv_vm set_kv_vm (zoom vs_frames set_vs_frames
        (pmm_init kernel_start kernel_end kernel_end_words memory_map memory_map_count))) ;;;
  TRY vmm_init text_start text_end rodata_start rodata_end ;;;
  TRY zoom (fun s => (vmm_heap s, mm_frames s))
        (fun p s => let s1 := set_vmm_heap (fst p) s in
                    set_vmm_kvm (set_kv_vm (set_vs_frames (snd p) (mm_vs s1)) (vmm_kvm s1)) s1)
        (kheap_init kheap_free_list) ;;;
  ret KERR_OK.
End Init.

(** ** Page tables and other memory *)

(** A change of memory outside the tables changes no translation. *)
Lemma tables_frame (s : machine) R m' :
  vm_ok s R -> mem_ok m' -> (forall a, table_word (vs_mem s) R a -> rd m' a = rd (vs_mem s) a) ->
  vm_ok (set_vs_mem m' s) R /\
  (forall r i, r ∈ R -> 0 <= i < 1024 -> tbl m' r i = tbl (vs_mem s) r i) /\
  (forall r p, r ∈ R -> 0 <= p < 1048576 -> walk m' r p = walk (vs_mem s) r p).
Proof.
  intros [Hm Ha Ht] Hm' Hfr.
  assert (Hp : forall r i, r ∈ R -> 0 <= i < 1024 -> pde_at m' r i = pde_at (vs_mem s) r i).
  { intros r i Hr Hi. apply Hfr. exists r. split; [by left | lia]. }
  assert (Htb : forall r i, r ∈ R -> 0 <= i < 1024 -> tbl m' r i = tbl (vs_mem s) r i).
  { intros r i Hr Hi. unfold tbl. by rewrite Hp. }
  split; [|split; [done|]].
  - split; [done | done|]. cbn. destruct Ht as [H1 H2 H3 H4]. split; [done | | |].
    + intros r i Hr Hi. rewrite Hp by done. by apply H2.
    + intros r i t Hr Hi. rewrite Htb by done. by apply H3.
    + intros r r' i j t Hr Hr' Hi Hj. rewrite !Htb by done. by apply H4.
  - intros r p Hr Hpr. unfold walk. rewrite Htb by (done || dlia).
    destruct (tbl (vs_mem s) r (p / 1024)) as [t|] eqn:Et; [|done]. unfold pte_in. rewrite Hfr; [done|].
    exists t. split; [right; exists r, (p / 1024); split; [done | split; [dlia | done]] | dlia].
Qed.

(** A table after a step was one before, or lies in a frame that was free. *)
Lemma table_word_step (s s' : machine) R r a :
  vm_ok s R -> r ∈ R -> pt_step R r s s' -> table_word (vs_mem s') R a ->
  table_word (vs_mem s) R a \/ fa_used (vs_frames s) ((a - KERNEL_VIRT_OFFSET) / 4096) = false.
Proof.
  intros Hok Hr Hst (t & [Ht|(r' & i & Hr' & Hi & Ht)] & Ha); [left; exists t; split; [by left | done]|].
  destruct (Z.eq_dec r' r) as [->|Hne].
  - destruct (ps_new _ _ _ _ Hst i t Hi Ht) as [Ht'|[H0 Hu]].
    + left. exists t. split; [right; by exists r, i | done].
    + right. destruct (t_table _ _ _ (v_tables _ _ (ps_ok _ _ _ _ Hst)) r i t Hr Hi Ht) as [(Hal & _) _].
      replace ((a - KERNEL_VIRT_OFFSET) / 4096) with (t / 4096) by dlia. done.
  - rewrite (ps_other _ _ _ _ Hst) in Ht by done. left. exists t. split; [right; by exists r', i | done].
Qed.

Section Spec.
Variable kheap_free_list : Z.

Abbreviation heap_ok s L := (client_inv kheap_free_list (s, L)).
Abbreviation space_ok := (space_ok kheap_free_list).

(** The heap and its sentinel. *)
Definition heap_area (s : mm) (a : Z) : Prop :=
  vmm_heap_start s <= a < vmm_heap_end s \/ kheap_free_list <= a < kheap_free_list + 8.

(** Page tables [R], the heap, and the space [vm] with the VMAs [vs] whose head lies
    in a live object; no page table lies in the heap. *)
Record mm_ok (s : mm) (R : list Z) (vm : vm_space) (ps : list Z) (vs : list vma) (Lo : list (Z * Z)) : Prop := {
  mm_vm : vm_ok (mm_vs s) R;
  mm_space : space_ok (vmm_heap s) vm ps vs Lo;
  mm_head : vmm_heap_start s <= vmas vm /\ vmas vm + 8 <= vmm_heap_end s;
  mm_root : pd_phys (vm_arch vm) ∈ R;
  mm_sep : forall a, heap_area s a ->
    ~ table_word (mm_mem s) R a /\ fa_used (mm_frames s) ((a - KERNEL_VIRT_OFFSET) / 4096) = true
}.

Lemma node_u32 n : node_ok n -> is_u32 n.
Proof. unfold node_ok, valid, is_u32, KERNEL_VIRT_OFFSET. lia. Qed.

Lemma heap_list_u32 s L : heap_ok s L -> is_u32 kheap_free_list.
Proof.
  intros (bs & ns & us & H & _). apply node_u32. apply (dll_node_ok _ _ _ _ (hi_list _ _ _ _ H)). apply list_elem_of_here.
Qed.

Lemma space_head_u32 s vm ps vs Lo : space_ok s vm ps vs Lo -> is_u32 (vmas vm).
Proof. intros H. apply node_u32. apply (dll_node_ok _ _ _ _ (so_list _ _ _ _ _ _ H)). apply list_elem_of_here. Qed.

(** A space only depends on the words of the heap. *)
Lemma space_frame (h : kheap) vm ps vs Lo m' :
  space_ok h vm ps vs Lo -> kheap_start h <= vmas vm -> vmas vm + 8 <= kheap_end h ->
  (forall a, kheap_start h <= a < kheap_end h \/ kheap_free_list <= a < kheap_free_list + 8 -> rd m' a = rd (kh_mem h) a) ->
  space_ok (set_kh_mem m' h) vm ps vs Lo.
Proof.
  intros H Hh1 Hh2 Hfr. destruct (heap_ok_disjoint _ _ _ (so_heap _ _ _ _ _ _ H)) as [_ Hall].
  assert (Hobj : forall p, p ∈ ps -> kheap_start h <= p /\ p + 20 <= kheap_end h).
  { intros p Hp. rewrite Forall_forall in Hall. specialize (Hall (p, sizeof_vma)). cbn in Hall. unfold sizeof_vma in Hall.
    destruct Hall as (? & ? & _); [|lia]. apply elem_of_app. left. by apply (list_elem_of_fmap_2 (fun p => (p, 20))). }
  split; [| | | exact (so_head _ _ _ _ _ _ H) | exact (so_ok _ _ _ _ _ _ H)].
  - apply heap_ok_frame; [apply (so_heap _ _ _ _ _ _ H)|]. intros a Ha. apply Hfr.
    destruct (Z.lt_ge_cases a (kheap_start h)); [|destruct (Z.lt_ge_cases a (kheap_end h)); [by left|]];
      (destruct (Z.eq_dec a kheap_free_list); [right; lia|]; destruct (Z.eq_dec a (kheap_free_list + 4)); [right; lia|];
       exfalso; apply Ha; left; lia).
  - apply (dll_ext (kh_mem h)); [|apply (so_list _ _ _ _ _ _ H)]. intros a (x & [->|Hx]%elem_of_cons & Ha).
    + apply Hfr. left. lia.
    + apply list_elem_of_fmap_1 in Hx as (p & -> & Hp). specialize (Hobj p Hp). apply Hfr. left. lia.
  - apply (forall2_mono_in (vma_at (kh_mem h))); [|apply (so_vmas _ _ _ _ _ _ H)]. intros p v Hp.
    specialize (Hobj p Hp). apply vma_at_ext. intros a Ha. apply Hfr. left. lia.
Qed.

(** A page-table step keeps the heap and the space. *)
Lemma mm_pt_step s R vm ps vs Lo r vm' :
  mm_ok s R vm ps vs Lo -> r ∈ R -> pt_step R r (mm_vs s) vm' ->
  mm_ok (set_vmm_kvm (set_kv_vm vm' (vmm_kvm s)) s) R vm ps vs Lo.
Proof.
  intros [Hvm Hsp Hh Hr Hsep] Hrr Hst.
  assert (Hsep' : forall a, heap_area s a -> ~ table_word (vs_mem vm') R a).
  { intros a Ha Htw. destruct (Hsep a Ha) as [Hn Hu].
    destruct (table_word_step _ _ _ _ _ Hvm Hrr Hst Htw) as [?|Hf]; [done|]. rewrite Hu in Hf. done. }
  split; cbn; [apply (ps_ok _ _ _ _ Hst) | | done | done|].
  - apply (space_frame (vmm_heap s) vm ps vs Lo (vs_mem vm') Hsp); [apply Hh..|].
    intros a Ha. apply (ps_frame _ _ _ _ Hst). by apply Hsep'.
  - intros a Ha. change (heap_area s a) in Ha. split; [by apply Hsep'|].
    destruct (Z.lt_ge_cases ((a - KERNEL_VIRT_OFFSET) / 4096) 0) as [Hneg|Hpos].
    + destruct (Hsep a Ha) as [_ Hu]. exfalso.
      destruct (heap_ok_bounds _ _ _ (so_heap _ _ _ _ _ _ Hsp)) as (Hb & _). cbn in Hb.
      destruct Ha as [Ha|Ha]; [unfold KERNEL_VIRT_OFFSET in *; dlia|].
      destruct (so_heap _ _ _ _ _ _ Hsp) as (bs & ns & us & Hi & _).
      destruct (dll_node_ok _ _ _ _ (hi_list _ _ _ _ Hi) (list_elem_of_here _ _)) as [(_ & Hv & _) _]. dlia.
    + apply (ps_grow _ _ _ _ Hst); [done|]. by apply Hsep.
Qed.

(** An operation on the list of [vm] keeps the page tables. *)
Lemma mm_heap_step s R vm ps vs Lo h' ps' vs' Lo' :
  mm_ok s R vm ps vs Lo -> mem_ok (kh_mem h') -> vma_frame kheap_free_list (vmm_heap s) vm Lo h' ->
  space_ok h' vm ps' vs' Lo' ->
  mm_ok (set_vmm_heap h' s) R vm ps' vs' Lo' /\
  (forall r p, r ∈ R -> 0 <= p < 1048576 -> walk (kh_mem h') r p = walk (mm_mem s) r p).
Proof.
  intros [Hvm Hsp Hh Hr Hsep] Hm (Hst & He & Hfr) Hsp'. cbn in Hst, He.
  destruct (tables_frame (mm_vs s) R (kh_mem h') Hvm Hm) as (Hvm' & Htb & Hw).
  { intros a Ha. apply Hfr.
    - left. cbn. assert (~ heap_area s a) as Hn by (intros Hn; by apply (Hsep a Hn)). unfold heap_area in Hn. lia.
    - intros ->. apply (Hsep (vmas vm)); [left; lia | done].
    - intros ->. apply (Hsep (vmas vm + 4)); [left; lia | done]. }
  split; [|done]. split; cbn; [done | by destruct h' | rewrite Hst, He; done | done|].
  intros a Ha. assert (heap_area s a) as Ha' by (unfold heap_area in *; cbn in Ha; rewrite Hst, He in Ha; done).
  destruct (Hsep a Ha') as [Hn Hu]. split; [|done]. intros (t & Ht & Hta). apply Hn. exists t. split; [|done].
  destruct Ht as [Ht|(r & i & Hrr & Hi & Ht)]; [by left|]. right. exists r, i. rewrite <- Htb by done. done.
Qed.

(** ** [vm_map] *)

(** Requests [vm_map] accepts, when the range does not end at 2^32. *)
Definition map_ok (virt phys size : Z) : Prop :=
  add_args_ok virt size /\ phys mod 4096 = 0 /\ phys + size <= 18446744073709551616.

(** In the space [r] and in no other, the pages [p0 .. p0 + k) now read [g]. *)
Definition pages_set (R : list Z) (r : Z) (s s' : mm) (p0 k : Z) (g : Z -> option Z) : Prop :=
  forall r' p, r' ∈ R -> 0 <= p < 1048576 ->
    walk (mm_mem s') r' p =
      if (r' =? r) && ((p0 <=? p) && (p <? p0 + k)) then g (p - p0) else walk (mm_mem s) r' p.

(** The parts of the state the operations on user spaces leave alone. *)
Definition same_kernel (s s' : mm) : Prop :=
  kernel_vm (vmm_kvm s') = kernel_vm (vmm_kvm s) /\ kernel_stack_bm (vmm_kvm s') = kernel_stack_bm (vmm_kvm s) /\
  vmm_heap_start s' = vmm_heap_start s /\ vmm_heap_end s' = vmm_heap_end s.

(** What they keep of the objects [Lo] and of the frames in use. *)
Definition objs_kept (vm : vm_space) (Lo : list (Z * Z)) (s s' : mm) : Prop :=
  forall q sz a, (q, sz) ∈ Lo -> q <= a < q + sz -> a <> vmas vm -> a <> vmas vm + 4 -> rd (mm_mem s') a = rd (mm_mem s) a.

(** Words of frames in use that belong to no page table; those that are not of the heap
    either. *)
Definition used_word (R : list Z) (s : mm) (a : Z) : Prop :=
  KERNEL_VIRT_OFFSET <= a /\ fa_used (mm_frames s) ((a - KERNEL_VIRT_OFFSET) / 4096) = true /\
  ~ table_word (mm_mem s) R a.
Definition kept_word (R : list Z) (s : mm) (a : Z) : Prop :=
  KERNEL_VIRT_OFFSET <= a /\ fa_used (mm_frames s) ((a - KERNEL_VIRT_OFFSET) / 4096) = true /\
  ~ heap_area s a /\ ~ table_word (mm_mem s) R a.
Definition words_kept (R : list Z) (s s' : mm) : Prop :=
  forall a, kept_word R s a -> rd (mm_mem s') a = rd (mm_mem s) a /\ kept_word R s' a.

Definition vm_kept (R : list Z) (vm : vm_space) (Lo : list (Z * Z)) (s s' : mm) : Prop :=
  same_kernel s s' /\ (objs_kept vm Lo s s' /\ words_kept R s s') /\ frames_grow (mm_frames s) (mm_frames s').

Definition vm_map_post (R : list Z) (vm : vm_space) (vs : list vma) (Lo : list (Z * Z))
    (virt phys size flags : Z) (s : mm) (res : Z) (s' : mm) : Prop :=
  (~ map_ok virt phys size /\ res = - KERR_INVAL /\ s' = s) \/
  (map_ok virt phys size /\
   ((res = - KERR_EXISTS /\ s' = s /\ exists v, v ∈ vs /\ overlaps virt (virt + size) v = true) \/
    ((forall v, v ∈ vs -> overlaps virt (virt + size) v = false) /\
     ((res = - KERR_NOMEM /\ s' = s /\ ~ vma_fits (vmm_heap s) vs Lo) \/
      (res = KERR_OK /\ vm_kept R vm Lo s s' /\
       (forall i, 0 <= i < size / 4096 -> walk (mm_mem s) (pd_phys (vm_arch vm)) (virt / 4096 + i) = None) /\
       (exists ps', mm_ok s' R vm ps' (insert_vma (mk_vma virt (virt + size) flags) vs) Lo) /\
       pages_set R (pd_phys (vm_arch vm)) s s' (virt / 4096) (size / 4096)
         (fun i => Some (pte_of (phys + 4096 * i) flags))) \/
      (res < 0 /\ vm_kept R vm Lo s s' /\ exists k, 0 <= k < size / 4096 /\
       (walk (mm_mem s) (pd_phys (vm_arch vm)) (virt / 4096 + k) <> None -> res = - KERR_EXISTS) /\
       (exists ps' Lo', mm_ok s' R vm ps' vs Lo') /\
       pages_set R (pd_phys (vm_arch vm)) s s' (virt / 4096) k
         (fun i => Some (pte_of (phys + 4096 * i) flags))))))).

Lemma set_vmm_heap_id (s : mm) : set_vmm_heap (vmm_heap s) s = s.
Proof. by destruct s as [[[] ? ?] ? ?]. Qed.

Lemma set_vmm_heap_set (h : kheap) (s : mm) : vmm_heap (set_vmm_heap h s) = h.
Proof. by destruct h. Qed.

Lemma same_kernel_refl s : same_kernel s s.
Proof. done. Qed.

Lemma same_kernel_trans s1 s2 s3 : same_kernel s1 s2 -> same_kernel s2 s3 -> same_kernel s1 s3.
Proof. intros (? & ? & ? & ?) (? & ? & ? & ?). repeat split; congruence. Qed.

Lemma objs_kept_trans vm Lo s1 s2 s3 : objs_kept vm Lo s1 s2 -> objs_kept vm Lo s2 s3 -> objs_kept vm Lo s1 s3.
Proof. intros K1 K2 q sz a Hin Ha N1 N2. by rewrite (K2 q sz), (K1 q sz). Qed.

(** A live object lies in the heap. *)
Lemma obj_area s R vm ps vs Lo q sz a : mm_ok s R vm ps vs Lo -> (q, sz) ∈ Lo -> q <= a < q + sz -> heap_area s a.
Proof.
  intros Hmm Hin Ha. destruct (heap_ok_disjoint _ _ _ (so_heap _ _ _ _ _ _ (mm_space _ _ _ _ _ _ Hmm))) as [_ Hall].
  rewrite Forall_forall in Hall. destruct (Hall (q, sz)) as (H1 & H2 & _); [apply elem_of_app; by right|]. cbn in H1, H2. left. lia.
Qed.

Lemma words_kept_trans R s1 s2 s3 : words_kept R s1 s2 -> words_kept R s2 s3 -> words_kept R s1 s3.
Proof. intros K1 K2 a Ha. destruct (K1 a Ha) as [E1 Ha2]. destruct (K2 a Ha2) as [E2 Ha3]. split; [congruence | done]. Qed.

(** An operation on the list of [vm] keeps the directories' entries and these words. *)
Lemma heap_step_tbl s R vm ps vs Lo h' :
  mm_ok s R vm ps vs Lo -> mem_ok (kh_mem h') -> vma_frame kheap_free_list (vmm_heap s) vm Lo h' ->
  forall r i, r ∈ R -> 0 <= i < 1024 -> tbl (kh_mem h') r i = tbl (mm_mem s) r i.
Proof.
  intros [Hvm Hsp Hh Hr Hsep] Hm (Hst & He & Hfr). apply (tables_frame (mm_vs s) R (kh_mem h') Hvm Hm).
  intros a Ha. apply Hfr.
  - left. cbn. assert (~ heap_area s a) as Hn by (intros Hn; by apply (Hsep a Hn)). unfold heap_area in Hn. lia.
  - intros ->. apply (Hsep (vmas vm)); [left; lia | done].
  - intros ->. apply (Hsep (vmas vm + 4)); [left; lia | done].
Qed.

Lemma heap_step_words s R vm ps vs Lo h' :
  mm_ok s R vm ps vs Lo -> mem_ok (kh_mem h') -> vma_frame kheap_free_list (vmm_heap s) vm Lo h' ->
  words_kept R s (set_vmm_heap h' s).
Proof.
  intros Hmm Hm Hfr a (H1 & H2 & H3 & H4). pose proof (heap_step_tbl _ _ _ _ _ _ _ Hmm Hm Hfr) as Htb.
  destruct Hfr as (Hst & He & Hfr). destruct (mm_head _ _ _ _ _ _ Hmm) as [Hh1 Hh2]. cbn in Hst, He. split.
  - apply Hfr; [left; unfold heap_area in H3; cbn; lia | unfold heap_area in H3; lia | unfold heap_area in H3; lia].
  - split; [done|]. split; [done|]. split; [unfold heap_area in *; cbn; by rewrite Hst, He|].
    intros Ht. by apply H4, (table_word_tbl _ _ _ _ Htb).
Qed.

Lemma pt_step_words s R r vm' : vm_ok (mm_vs s) R -> r ∈ R -> pt_step R r (mm_vs s) vm' ->
  words_kept R s (set_vmm_kvm (set_kv_vm vm' (vmm_kvm s)) s).
Proof.
  intros Hvm Hr Hst a (H1 & H2 & H3 & H4).
  assert (~ table_word (vs_mem vm') R a) as Hn.
  { intros Ht. destruct (table_word_step _ _ _ _ _ Hvm Hr Hst Ht) as [?|Hf]; [done|]. rewrite H2 in Hf. done. }
  split; [by apply (ps_frame _ _ _ _ Hst)|]. split; [done|]. split; [|done].
  apply (ps_grow _ _ _ _ Hst); [|done]. clear -H1. dlia.
Qed.

Lemma vma_frame_objs s vm Lo h' : vma_frame kheap_free_list (vmm_heap s) vm Lo h' -> objs_kept vm Lo s (set_vmm_heap h' s).
Proof. intros (_ & _ & Hfr) q sz a Hin Ha. apply Hfr. right. by exists q, sz. Qed.

(** Only the new interval contains its first address. *)
Lemma insert_vma_unique n vs vs1 v vs2 :
  va_start n < va_end n -> (forall w, w ∈ vs -> overlaps (va_start n) (va_end n) w = false) ->
  insert_vma n vs = vs1 ++ v :: vs2 -> in_vma (va_start n) v = true -> vs1 ++ vs2 = vs.
Proof.
  intros Hn Hov. revert vs1. induction vs as [|w vs IH]; intros vs1 E Hin; cbn [insert_vma] in E.
  - destruct vs1 as [|x vs1]; [injection E as _ <-; done|]. injection E as _ E. by destruct vs1.
  - assert (in_vma (va_start n) w = false) as Hw.
    { specialize (Hov w (list_elem_of_here _ _)). unfold overlaps, in_vma in *. lia. }
    destruct (va_end w <=? va_start n).
    + destruct vs1 as [|x vs1]; [injection E as -> _; congruence|]. injection E as -> E. cbn [app]. f_equal.
      apply IH; [|done..]. intros u Hu. apply Hov. by apply list_elem_of_further.
    + destruct vs1 as [|x vs1]; [by injection E as _ <-|]. injection E as _ E. exfalso.
      assert (v ∈ w :: vs) as Hv by (rewrite E; apply elem_of_app; right; apply list_elem_of_here).
      specialize (Hov v Hv). unfold overlaps, in_vma in *. lia.
Qed.

(** The pages a loop over the user's half changed. *)
Lemma user_range_set R r (s s' : machine) p0 k g :
  vm_ok s R -> r ∈ R -> 0 <= p0 -> p0 + k <= 786432 -> range_set R r s s' p0 k g ->
  forall r' p, r' ∈ R -> 0 <= p < 1048576 ->
    walk (vs_mem s') r' p =
      if (r' =? r) && ((p0 <=? p) && (p <? p0 + k)) then g (p - p0) (walk (vs_mem s) r p) else walk (vs_mem s) r' p.
Proof.
  intros Hok Hr H0 Hk Hset r' p Hr' Hp. rewrite Hset by done.
  destruct ((p0 <=? p) && (p <? p0 + k)) eqn:E; [|by rewrite andb_false_r]. cbn [andb]. rewrite andb_true_r.
  destruct (Z.eqb_spec r' r) as [->|Hne]; [by rewrite shares_self|].
  rewrite (user_slot_shares s R) by (done || dlia). done.
Qed.

Lemma map_ok_check virt phys size : is_u32 virt -> is_u32 size -> is_u64 phys -> virt + size <> 4294967296 ->
  reflect (map_ok virt phys size)
    (negb (size =? 0) &&
     negb (negb (ALIGN_TEST virt arch_vm_page_size) || negb (ALIGN_TEST phys arch_vm_page_size) ||
           negb (ALIGN_TEST size arch_vm_page_size)) &&
     vm_user_range_valid virt size && vm_phys_range_valid phys size).
Proof.
  intros Hv Hs Hp Hne. change arch_vm_page_size with X86_PAGE_SIZE. rewrite align_tests, negb_involutive.
  pose proof (user_range_spec virt size Hv Hs) as Hu.
  assert (vm_phys_range_valid phys size = true <-> 0 < size /\ phys + size <= 18446744073709551616) as Hph.
  { unfold vm_phys_range_valid, UINT64_MAX, is_u32 in *. zcases; split; try done; lia. }
  apply iff_reflect. rewrite !andb_true_iff, bool_decide_eq_true, Hu, Hph, negb_true_iff, Z.eqb_neq.
  unfold map_ok, add_args_ok, VM_USER_START in *. change USER_START with 0 in *. change VM_USER_END with 3221225472 in *.
  unfold is_u32 in *. split; [lia|]. intros (((H1 & H2) & H3 & H4 & H5) & H6). lia.
Qed.

(** Adding the interval: the page tables stay. *)
Lemma add_vma_mm_wp s R vm ps vs Lo virt size flags :
  mm_ok s R vm ps vs Lo -> is_u32 virt -> is_u32 size -> is_u32 flags -> add_args_ok virt size ->
  wp (zoom vmm_heap set_vmm_heap (vm_add_vma kheap_free_list (Some vm) virt size flags)) (fun res s' =>
    (res = - KERR_EXISTS /\ s' = s /\ exists v, v ∈ vs /\ overlaps virt (virt + size) v = true) \/
    ((forall v, v ∈ vs -> overlaps virt (virt + size) v = false) /\
     ((res = - KERR_NOMEM /\ s' = s /\ ~ vma_fits (vmm_heap s) vs Lo) \/
      (res = KERR_OK /\ same_kernel s s' /\ mm_frames s' = mm_frames s /\
       (exists ps', mm_ok s' R vm ps' (insert_vma (mk_vma virt (virt + size) flags) vs) Lo) /\ (objs_kept vm Lo s s' /\ words_kept R s s') /\
       forall r p, r ∈ R -> 0 <= p < 1048576 -> walk (mm_mem s') r p = walk (mm_mem s) r p)))) s.
Proof.
  intros Hmm Hv Hs Hf Hargs. pose proof (mm_space _ _ _ _ _ _ Hmm) as Hsp. wp_step.
  wp_use (fun P HP => wp_typed heap_words _ _ P _ (vm_add_vma_wp _ _ _ _ _ _ virt size flags Hsp Hv Hs HP)); [| | exact (v_mem _ _ (mm_vm _ _ _ _ _ _ Hmm)) |].
  { destruct Hargs as (_ & _ & _ & He). change VM_USER_END with 3221225472 in He. lia. }
  { apply (typed_vm_add_vma kheap_free_list); [done | done|].
    intros v [= <-]. exact (space_head_u32 _ _ _ _ _ Hsp). }
  intros res h' ([(Hbad & _)|(_ & Hpost)] & Hm & _); [done|].
  destruct Hpost as [(-> & -> & Hov)|(Hov & [(-> & -> & Hfull)|(-> & ps1 & p & ps2 & _ & Hsp' & Hfr)])].
  - left. split; [done|]. by rewrite set_vmm_heap_id.
  - right. split; [done|]. left. by rewrite set_vmm_heap_id.
  - right. split; [done|]. right. destruct (mm_heap_step s R vm ps vs Lo h' _ _ _ Hmm Hm Hfr Hsp') as [Hmm' Hw].
    split; [done|]. pose proof (vma_frame_objs _ _ _ _ Hfr) as Hobj.
    pose proof (heap_step_words _ _ _ _ _ _ _ Hmm Hm Hfr) as Hwk. destruct Hfr as (Hst & He & _).
    split; [by repeat split|]. split; [done|]. split; [by eexists | done].
Qed.

(** Taking the interval that contains [virt] out again. *)
Lemma remove_vma_mm_wp s R vm ps vs Lo n :
  mm_ok s R vm ps (insert_vma n vs) Lo -> va_start n < va_end n ->
  (forall w, w ∈ vs -> overlaps (va_start n) (va_end n) w = false) ->
  wp (zoom vmm_heap set_vmm_heap (vm_remove_vma kheap_free_list (Some vm) (va_start n))) (fun _ s' =>
    same_kernel s s' /\ mm_frames s' = mm_frames s /\ (exists ps' Lo', mm_ok s' R vm ps' vs Lo') /\ (objs_kept vm Lo s s' /\ words_kept R s s') /\
    forall r p, r ∈ R -> 0 <= p < 1048576 -> walk (mm_mem s') r p = walk (mm_mem s) r p) s.
Proof.
  intros Hmm Hn Hov. pose proof (mm_space _ _ _ _ _ _ Hmm) as Hsp. wp_step.
  wp_use (fun P => wp_typed heap_words _ _ P _ (vm_remove_vma_wp _ _ _ _ _ _ (va_start n) Hsp)); [| exact (v_mem _ _ (mm_vm _ _ _ _ _ _ Hmm)) |].
  { apply (typed_vm_remove_vma kheap_free_list). exact (heap_list_u32 _ _ (so_heap _ _ _ _ _ _ Hsp)). }
  intros res h' ([(_ & _ & Hno)|(_ & ps1 & p & ps2 & vs1 & v & vs2 & Lo' & _ & Evs & Hin & _ & Hsp' & Hfr)] & Hm & _).
  { exfalso. specialize (Hno n). rewrite insert_vma_perm in Hno. specialize (Hno (list_elem_of_here _ _)).
    unfold in_vma in Hno. lia. }
  rewrite (insert_vma_unique n vs vs1 v vs2) in Hsp' by done.
  destruct (mm_heap_step s R vm ps _ Lo h' _ _ _ Hmm Hm Hfr Hsp') as [Hmm' Hw].
  pose proof (vma_frame_objs _ _ _ _ Hfr) as Hobj.
    pose proof (heap_step_words _ _ _ _ _ _ _ Hmm Hm Hfr) as Hwk. destruct Hfr as (Hst & He & _).
  split; [by repeat split|]. split; [done|]. split; [by do 2 eexists | done].
Qed.

Lemma vm_map_wp s R vm ps vs Lo virt phys size flags :
  mm_ok s R vm ps vs Lo -> is_u32 virt -> is_u32 size -> is_u64 phys -> is_u32 flags -> virt + size <> 4294967296 ->
  wp (vm_map kheap_free_list (Some vm) virt phys size flags) (vm_map_post R vm vs Lo virt phys size flags s) s.
Proof.
  intros Hmm Hv Hs Hp Hf Hne. unfold vm_map. pose proof (map_ok_check virt phys size Hv Hs Hp Hne) as Hc.
  destruct (size =? 0); cbn in Hc; [inversion Hc; wp_steps; by left|].
  destruct (negb (ALIGN_TEST virt arch_vm_page_size) || _ || _); cbn in Hc; [inversion Hc; wp_steps; by left|].
  destruct (vm_user_range_valid virt size); cbn in Hc |- *; [|inversion Hc; wp_steps; by left].
  destruct (vm_phys_range_valid phys size); cbn in Hc |- *; inversion Hc as [Hok|]; [|wp_steps; by left].
  clear Hc. destruct (Hok) as (Hargs & Hpa & Hpe). destruct (Hargs) as (Hs0 & Hva & Hsa & Hve).
  change VM_USER_END with 3221225472 in Hve.
  assert (0 <= virt / 4096 /\ virt / 4096 + size / 4096 <= 786432) as [Hb1 Hb2] by (unfold is_u32 in *; dlia).
  set (r := pd_phys (vm_arch vm)). set (n := mk_vma virt (virt + size) flags).
  wp_step. wp_use add_vma_mm_wp; [exact Hmm | done..|].
  intros res s1 [(-> & -> & Hov)|(Hov & [(-> & -> & Hfull)|(-> & Hk1 & Hf1 & (ps1 & Hmm1) & [Hobj1 Hwk1] & Hw1)])].
  { wp_steps. right. split; [done|]. left. done. }
  { wp_steps. right. split; [done|]. right. split; [done|]. by left. }
  change (KERR_OK <? 0) with false. cbn iota. wp_steps.
  pose proof (mm_root _ _ _ _ _ _ Hmm) as Hr. pose proof (mm_vm _ _ _ _ _ _ Hmm1) as Hvm1.
  wp_use (arch_vm_map_wp (mm_vs s1) R (vm_arch vm) virt phys size flags);
    [exact Hvm1 | exact Hr | unfold is_u32, is_u64 in *; lia..|].
  intros res vm' [(Hbad & _)|(_ & o & -> & k & Hk & Hst & Hset & HP & _ & _ & Ho)];
    [exfalso; apply Hbad; unfold map_args_ok; tauto|].
  pose proof (mm_pt_step s1 R vm ps1 _ Lo r vm' Hmm1 Hr Hst) as Hmm2.
  assert (Hpages : forall r' p, r' ∈ R -> 0 <= p < 1048576 -> walk (vs_mem vm') r' p =
    if (r' =? r) && ((virt / 4096 <=? p) && (p <? virt / 4096 + k))
    then Some (pte_of (phys + 4096 * (p - virt / 4096)) flags) else walk (mm_mem s) r' p).
  { intros r' p Hr' Hpp. rewrite (user_range_set R r (mm_vs s1) vm' (virt / 4096) k
      (fun i _ => Some (pte_of (phys + 4096 * i) flags))) by (done || lia). by rewrite Hw1. }
  set (s2 := set_vmm_kvm (set_kv_vm vm' (vmm_kvm s1)) s1) in *.
  assert (vm_kept R vm Lo s s2) as (Hk2 & [Hobj2 Hwk2] & Hgrow).
  { split; [exact Hk1|]. split; [|rewrite <- Hf1; apply (ps_grow _ _ _ _ Hst)].
    split; [apply (objs_kept_trans _ _ _ s1); [done|] | apply (words_kept_trans _ _ s1); [done | by apply (pt_step_words s1 R r)]].
    intros q sz a Hin Ha _ _. apply (ps_frame _ _ _ _ Hst). apply (mm_sep _ _ _ _ _ _ Hmm2), (obj_area s1 R vm ps1 (insert_vma n vs) Lo q sz a Hmm1 Hin Ha). }
  destruct o as [[]|e]; cbn [loop_code].
  - subst k. change (KERR_OK <? 0) with false. cbn iota. wp_step. right. split; [done|]. right. split; [done|]. right. left.
    split; [done|]. split; [done|]. split; [|split; [by exists ps1 | exact Hpages]].
    intros i Hi. rewrite <- Hw1 by (done || lia). by apply HP.
  - destruct Ho as (Hkn & He & Hex & _). destruct (Z.ltb_spec e 0); [|lia]. wp_step.
    wp_use (remove_vma_mm_wp s2 R vm ps1 vs Lo n); [exact Hmm2 | cbn; lia | done |].
    intros _ s3 (Hk3 & Hf3 & Hmm3 & [Hobj3 Hwk3] & Hw3). wp_step. right. split; [done|]. right. split; [done|]. right. right.
    split; [done|]. split.
    { split; [by eapply same_kernel_trans|]. split; [split; [by eapply objs_kept_trans | by eapply words_kept_trans] | by rewrite Hf3]. }
    exists k. split; [lia|]. split; [|split; [done|]].
    + rewrite <- Hw1 by (done || lia). exact Hex.
    + intros r' p Hr' Hpp. rewrite Hw3 by done. by apply Hpages.
Qed.

(** ** [vm_unmap] *)

(** The requests that [vm_unmap] and [vm_protect] refuse, because the range is not a
    whole VMA, and the error. *)
Definition not_whole (vs : list vma) (virt size res : Z) : Prop :=
  (~ add_args_ok virt size /\ res = - KERR_INVAL) \/
  (add_args_ok virt size /\
   (((forall v, v ∈ vs -> in_range virt (virt + size) v = false) /\ res = - KERR_NOENT) \/
    ((exists v, v ∈ vs /\ in_range virt (virt + size) v = true /\ (va_start v <> virt \/ va_end v <> virt + size)) /\
     res = - KERR_INVAL))).

Definition vm_unmap_post (R : list Z) (vm : vm_space) (vs : list vma) (virt size : Z)
    (mm_ok' : mm -> list vma -> Prop) (s : mm) (res : Z) (s' : mm) : Prop :=
  (not_whole vs virt size res /\ s' = s) \/
  (add_args_ok virt size /\ same_kernel s s' /\ exists vs1 f vs2, vs = vs1 ++ mk_vma virt (virt + size) f :: vs2 /\
     ((res = KERR_OK /\
       (forall i, 0 <= i < size / 4096 -> walk (mm_mem s) (pd_phys (vm_arch vm)) (virt / 4096 + i) <> None) /\
       mm_ok' s' (vs1 ++ vs2) /\
       pages_set R (pd_phys (vm_arch vm)) s s' (virt / 4096) (size / 4096) (fun _ => None)) \/
      (res = - KERR_NOENT /\ exists k, 0 <= k < size / 4096 /\
       walk (mm_mem s) (pd_phys (vm_arch vm)) (virt / 4096 + k) = None /\ mm_ok' s' vs /\
       pages_set R (pd_phys (vm_arch vm)) s s' (virt / 4096) k (fun _ => None)))).

Lemma vma_words s vm ps1 p ps2 vs1 v vs2 Lo :
  space_ok s vm (ps1 ++ p :: ps2) (vs1 ++ v :: vs2) Lo -> length ps1 = length vs1 ->
  vma_at (kh_mem s) p v /\ valid p /\ u32 (p + 4) = p + 4 /\ valid (p + 4) /\ p <> NULL.
Proof.
  intros H Hlen. pose proof (so_vmas _ _ _ _ _ _ H) as Hv. apply Forall2_app_inv in Hv as [_ Hv]; [|done].
  inversion Hv as [|? ? ? ? Hpv _]; subst.
  destruct (space_obj kheap_free_list _ _ _ _ _ p H) as (? & ? & ?); [apply elem_of_app; right; apply list_elem_of_here|].
  destruct (obj_addrs p) as (_ & _ & E & _ & ? & ? & _); [done..|]. repeat (split; [done|]).
  unfold NULL, KERNEL_VIRT_OFFSET in *. lia.
Qed.

(** Unlinking and freeing the VMA at [p]. *)
Lemma unlink_mm_wp s R vm ps1 p ps2 vs1 v vs2 Lo :
  mm_ok s R vm (ps1 ++ p :: ps2) (vs1 ++ v :: vs2) Lo -> length ps1 = length vs1 ->
  wp (zoom vmm_heap set_vmm_heap (zoom kh_mem set_kh_mem (list_remove (vmas_node p))) ;;;
      zoom vmm_heap set_vmm_heap (kfree kheap_free_list p)) (fun _ s' =>
    same_kernel s s' /\ (exists ps' Lo', mm_ok s' R vm ps' (vs1 ++ vs2) Lo') /\
    forall r q, r ∈ R -> 0 <= q < 1048576 -> walk (mm_mem s') r q = walk (mm_mem s) r q) s.
Proof.
  intros Hmm Hlen. pose proof (mm_space _ _ _ _ _ _ Hmm) as Hsp.
  assert (typed heap_words (zoom kh_mem set_kh_mem (list_remove (vmas_node p)) ;;; kfree kheap_free_list p) any) as Hty.
  { pose proof (typed_kfree kheap_free_list (heap_list_u32 _ _ (so_heap _ _ _ _ _ _ Hsp))). type_check. }
  pose proof (wp_typed heap_words _ _ _ _ (unlink_vma_wp _ _ _ _ _ _ _ _ _ _ Hsp Hlen) Hty
    (v_mem _ _ (mm_vm _ _ _ _ _ _ Hmm))) as Hu.
  apply wp_run in Hu as (e & h' & Hrun & (Hfr & Lo' & _ & Hsp') & Hm & _).
  destruct (mm_heap_step s R vm _ _ Lo h' _ _ _ Hmm Hm Hfr Hsp') as [Hmm' Hw]. destruct Hfr as (Hst & He & _).
  apply wp_run. exists e, (set_vmm_heap h' s). split.
  - unfold bind, zoom in *. cbn in Hrun |- *. destruct (list_remove (vmas_node p) _) as [[[] m1]|]; [|done].
    rewrite set_vmm_heap_set. destruct (kfree _ p _) as [[e' h1]|]; [|done]. injection Hrun as <- <-. done.
  - split; [by repeat split|]. split; [by do 2 eexists | done].
Qed.

(** The prefix that both share. *)
Lemma whole_vma_wp s R vm ps vs Lo virt size (k : Z -> M mm Z) (Q : Z -> mm -> Prop) :
  mm_ok s R vm ps vs Lo -> is_u32 virt -> is_u32 size -> virt + size <> 4294967296 ->
  (forall res, not_whole vs virt size res -> Q res s) ->
  (forall ps1 p ps2 vs1 f vs2, ps = ps1 ++ p :: ps2 -> vs = vs1 ++ mk_vma virt (virt + size) f :: vs2 -> length ps1 = length vs1 ->
     add_args_ok virt size -> wp (k p) Q s) ->
  wp (if size =? 0 then ret (- KERR_INVAL)
      else if negb (ALIGN_TEST virt arch_vm_page_size) || negb (ALIGN_TEST size arch_vm_page_size) then ret (- KERR_INVAL)
      else if negb (vm_user_range_valid virt size) then ret (- KERR_INVAL)
      else
        vma <-- zoom vmm_heap set_vmm_heap (vm_find_vma_range (Some vm) virt size) ;;
        if vma =? NULL then ret (- KERR_NOENT)
        else
          st <-- zoom vmm_heap set_vmm_heap (zoom kh_mem set_kh_mem (vma_start vma)) ;;
          e <-- zoom vmm_heap set_vmm_heap (zoom kh_mem set_kh_mem (vma_end vma)) ;;
          if negb (st =? virt) || negb (e =? u32 (virt + size)) then ret (- KERR_INVAL) else k vma) Q s.
Proof.
  intros Hmm Hv Hs Hne Hno Hyes. pose proof (user_range_spec virt size Hv Hs) as Hu.
  assert (Hgood : add_args_ok virt size -> 0 < size /\ virt mod 4096 = 0 /\ size mod 4096 = 0 /\ virt + size <= 3221225472)
    by done. change VM_USER_END with 3221225472 in Hu.
  destruct (Z.eqb_spec size 0) as [->|Hs0]; [wp_steps; apply Hno; left; split; [intros Hg%Hgood; lia | done]|].
  change arch_vm_page_size with X86_PAGE_SIZE. rewrite align_tests2. case_bool_decide as Hal; cbn [negb];
    [|wp_steps; apply Hno; left; split; [intros Hg%Hgood; tauto | done]].
  destruct (vm_user_range_valid virt size) eqn:Er; cbn [negb].
  2: { wp_steps. apply Hno. left. split; [|done]. intros Hg%Hgood. assert (false = true); [apply Hu; unfold is_u32 in *; lia | done]. }
  destruct (proj1 Hu eq_refl) as (H1 & H2 & [He|He]); [|done]. clear Hu.
  assert (add_args_ok virt size) as Hg by (unfold add_args_ok; change VM_USER_END with 3221225472; tauto). pose proof (mm_space _ _ _ _ _ _ Hmm) as Hsp.
  wp_steps. wp_use vm_find_vma_range_wp; [exact Hsp | done|]. intros q h' [-> ->]. rewrite set_vmm_heap_id.
  rewrite (u32_id (virt + size)) by (unfold is_u32 in *; lia).
  assert (Forall2 (fun (_ : Z) (_ : vma) => True) ps vs) as Hl by (eapply Forall2_impl; [apply (so_vmas _ _ _ _ _ _ Hsp) | done]).
  pose proof (lookup_by_spec (in_range virt (virt + size)) ps vs Hl) as Hspec.
  destruct (lookup_by _ ps vs) as [p|]; cbn [default]; [|wp_steps; apply Hno; right; split; [done|]; by left].
  destruct Hspec as (ps1 & ps2 & vs1 & v & vs2 & -> & -> & Hlen & Hin). unfold id.
  assert (v ∈ vs1 ++ v :: vs2) as Hvin by (apply elem_of_app; right; apply list_elem_of_here).
  destruct (vma_words _ _ _ _ _ _ _ _ _ Hsp Hlen) as ((W1 & W2 & _) & V0 & E4 & V4 & Hp0).
  destruct (Z.eqb_spec p NULL); [done|]. wp_steps. unfold vma_start, vma_end. rewrite E4.
  apply load32_wp; [done|]. wp_steps. change (set_vmm_heap (set_kh_mem (kh_mem (vmm_heap s)) (vmm_heap s)) s) with (set_vmm_heap (vmm_heap s) s).
  rewrite set_vmm_heap_id. apply load32_wp; [done|].
  change (set_vmm_heap (set_kh_mem (kh_mem (vmm_heap s)) (vmm_heap s)) s) with (set_vmm_heap (vmm_heap s) s).
  rewrite set_vmm_heap_id, W1, W2.
  destruct (Z.eqb_spec (va_start v) virt) as [Ev|]; cbn [negb orb].
  2: { wp_steps. apply Hno. right. split; [done|]. right. split; [|done]. exists v. split; [done|]. split; [done | by left]. }
  destruct (Z.eqb_spec (va_end v) (virt + size)) as [Ee|]; cbn [negb].
  2: { wp_steps. apply Hno. right. split; [done|]. right. split; [|done]. exists v. split; [done|]. split; [done | by right]. }
  destruct v as [st e f]. cbn in Ev, Ee. subst st e. by eapply Hyes.
Qed.

Lemma user_pages virt size : is_u32 virt -> is_u32 size -> add_args_ok virt size ->
  0 <= virt / 4096 /\ virt / 4096 + size / 4096 <= 786432 /\ virt + size <= 4294967296 /\ range_args_ok virt size.
Proof.
  intros Hv Hs (H1 & H2 & H3 & H4). change VM_USER_END with 3221225472 in H4. unfold range_args_ok, is_u32 in *.
  split; [dlia|]. split; [dlia|]. split; [lia | tauto].
Qed.

Lemma vm_unmap_wp s R vm ps vs Lo virt size :
  mm_ok s R vm ps vs Lo -> is_u32 virt -> is_u32 size -> virt + size <> 4294967296 ->
  wp (vm_unmap kheap_free_list (Some vm) virt size)
    (vm_unmap_post R vm vs virt size (fun s' vs' => exists ps' Lo', mm_ok s' R vm ps' vs' Lo') s) s.
Proof.
  intros Hmm Hv Hs Hne. unfold vm_unmap. cbv zeta. eapply whole_vma_wp; [exact Hmm | done.. | intros res Hno; by left|].
  intros ps1 p ps2 vs1 f vs2 -> -> Hlen Hg. destruct (user_pages _ _ Hv Hs Hg) as (Hb1 & Hb2 & Hvs & Hargs).
  pose proof (mm_root _ _ _ _ _ _ Hmm) as Hr. pose proof (mm_vm _ _ _ _ _ _ Hmm) as Hvm. wp_steps.
  wp_use (arch_vm_unmap_wp (mm_vs s) R (vm_arch vm) virt size); [exact Hvm | exact Hr | unfold is_u32 in *; lia..|].
  intros res vm' [(Hbad & _)|(_ & o & -> & k & Hk & Hst & Hset & HP & _ & _ & Ho)]; [by exfalso|].
  pose proof (mm_pt_step s R vm _ _ Lo _ vm' Hmm Hr Hst) as Hmm2.
  pose proof (user_range_set R _ (mm_vs s) vm' (virt / 4096) k (fun _ _ => None) Hvm Hr Hb1 ltac:(lia) Hset) as Hpages.
  set (s2 := set_vmm_kvm (set_kv_vm vm' (vmm_kvm s)) s) in *.
  destruct o as [[]|e]; cbn [loop_code].
  - subst k. change (KERR_OK <? 0) with false. cbn iota.
    pose proof (unlink_mm_wp s2 R vm ps1 p ps2 vs1 _ vs2 Lo Hmm2 Hlen) as Hun.
    apply wp_run in Hun as (e & s3 & Hrun & Hk3 & Hmm3 & Hw3). unfold bind in Hrun. apply wp_bind, wp_run.
    destruct (zoom _ _ _ s2) as [[[] s4]|]; [|done]. exists tt, s4. split; [done|]. apply wp_bind, wp_run.
    exists e, s3. split; [done|]. wp_step. right. split; [done|]. split; [done|].
    exists vs1, f, vs2. split; [done|]. left. split; [done|]. split; [exact HP|]. split; [done|].
    intros r' q Hr' Hq. rewrite Hw3 by done. by apply Hpages.
  - destruct Ho as (Hkn & Hn & ->). wp_steps. right. split; [done|]. split; [done|].
    exists vs1, f, vs2. split; [done|]. right. split; [done|]. exists k. split; [lia|]. split; [done|].
    split; [by do 2 eexists | exact Hpages].
Qed.

(** ** [vm_space_init] *)

(** The page tables and the heap, before a space is made. *)
Record mm_inv (s : mm) (R : list Z) (L : list (Z * Z)) : Prop := {
  mi_vm : vm_ok (mm_vs s) R;
  mi_heap : heap_ok (vmm_heap s) L;
  mi_sep : forall a, heap_area s a ->
    ~ table_word (mm_mem s) R a /\ fa_used (mm_frames s) ((a - KERNEL_VIRT_OFFSET) / 4096) = true
}.

Lemma mm_ok_inv s R vm ps vs Lo : mm_ok s R vm ps vs Lo -> mm_inv s R (map (fun p => (p, sizeof_vma)) ps ++ Lo).
Proof. intros [H1 H2 _ _ H5]. split; [done | apply (so_heap _ _ _ _ _ _ H2) | done]. Qed.

Lemma heap_area_frame (s : mm) L m' : heap_ok (vmm_heap s) L ->
  (forall a, heap_area s a -> rd m' a = rd (mm_mem s) a) -> heap_ok (set_kh_mem m' (vmm_heap s)) L.
Proof.
  intros Hh Hfr. apply heap_ok_frame; [done|]. intros a Ha. apply Hfr.
  destruct (Z.lt_ge_cases a (vmm_heap_start s)); [|destruct (Z.lt_ge_cases a (vmm_heap_end s)); [by left|]];
    (destruct (Z.eq_dec a kheap_free_list); [right; lia|]; destruct (Z.eq_dec a (kheap_free_list + 4)); [right; lia|];
     exfalso; apply Ha; left; cbn; lia).
Qed.

Lemma heap_area_low s R L a : mm_inv s R L -> heap_area s a -> KERNEL_VIRT_OFFSET <= a.
Proof.
  intros [_ Hh _] [Ha|Ha].
  - destruct (heap_ok_bounds _ _ _ Hh) as (Hb & _). cbn in Hb. lia.
  - destruct Hh as (bs & ns & us & Hi & _).
    destruct (dll_node_ok _ _ _ _ (hi_list _ _ _ _ Hi) (list_elem_of_here _ _)) as [(_ & Hv & _) _]. lia.
Qed.

(** The head of the list of VMAs, in a live object. *)
Definition head_in (s : mm) (Lo : list (Z * Z)) (h : Z) : Prop :=
  h mod 4 = 0 /\ exists p sz, (p, sz) ∈ Lo /\ p <= h /\ h + 8 <= p + sz.

Lemma head_bounds s R Lo h : mm_inv s R Lo -> head_in s Lo h ->
  node_ok h /\ vmm_heap_start s <= h /\ h + 8 <= vmm_heap_end s /\
  forall a, a = h \/ a = h + 4 -> live_addr kheap_free_list (vmm_heap s) Lo a.
Proof.
  intros [_ Hh _] (Hal & p & sz & Hin & H1 & H2). destruct (heap_ok_disjoint _ _ _ Hh) as [_ Hall].
  destruct (heap_ok_bounds _ _ _ Hh) as (Hb1 & Hb2 & _). rewrite Forall_forall in Hall. specialize (Hall _ Hin).
  cbn in *. destruct Hall as (? & ? & _). split; [|split; [lia|split; [lia|]]].
  - unfold node_ok, valid in *. unfold KERNEL_VIRT_OFFSET in *. dlia.
  - intros a Ha. right. exists p, sz. split; [done | lia].
Qed.

(** Writing the list head. *)
Lemma list_init_mm_wp s R Lo h :
  mm_inv s R Lo -> head_in s Lo h ->
  wp (zoom vmm_heap set_vmm_heap (zoom kh_mem set_kh_mem (list_init h))) (fun _ s' =>
    mm_inv s' R Lo /\ same_kernel s s' /\ mm_frames s' = mm_frames s /\
    (forall vm, vmas vm = h -> space_ok (vmm_heap s') vm [] [] Lo) /\
    (forall r i, r ∈ R -> 0 <= i < 1024 -> tbl (mm_mem s') r i = tbl (mm_mem s) r i) /\
    (forall r p, r ∈ R -> 0 <= p < 1048576 -> walk (mm_mem s') r p = walk (mm_mem s) r p) /\
    (forall a, a <> h -> a <> h + 4 -> rd (mm_mem s') a = rd (mm_mem s) a)) s.
Proof.
  intros Hmi Hh. destruct (head_bounds _ _ _ _ Hmi Hh) as (Hn & Hb1 & Hb2 & Hlive). destruct (Hmi) as [Hvm Hhp Hsep].
  assert (typed mem_ok (list_init h) any) as Hty by apply typed_list_init, node_u32, Hn.
  wp_step. wp_step. pose proof (wp_run (list_init h) (fun _ m' => dll m' h [] /\ frame (mm_mem s) m' [h]) (mm_mem s)) as Hr.
  destruct (proj1 Hr) as ([] & m' & Hrun & Hd & Hf); [by apply list_init_wp|]. clear Hr.
  destruct (Hty _ _ _ (v_mem _ _ Hvm) Hrun) as [Hm' _]. apply wp_run. exists tt, m'. split; [exact Hrun|].
  assert (Hfr : forall a, a <> h -> a <> h + 4 -> rd m' a = rd (mm_mem s) a).
  { intros a H1 H2. apply Hf. intros (x & ->%list_elem_of_singleton & Hx). lia. }
  destruct (tables_frame (mm_vs s) R m' Hvm Hm') as (Hvm' & Htb & Hw).
  { intros a Ha. apply Hfr; intros ->; [apply (Hsep h) | apply (Hsep (h + 4))]; try done; left; lia. }
  assert (heap_ok (set_kh_mem m' (vmm_heap s)) Lo) as Hhp'.
  { apply heap_ok_frame; [done|]. intros a Ha. apply Hfr; intros ->; apply Ha, Hlive; auto. }
  cbn. split; [|split; [done|split; [done|split; [|done]]]].
  - split; cbn; [done | exact Hhp'|]. intros a Ha. destruct (Hsep a Ha) as [Hns Hu]. split; [|done].
    intros (t & Ht & Hta). apply Hns. exists t. split; [|done].
    destruct Ht as [Ht|(r & j & Hrr & Hj & Ht)]; [by left|]. right. exists r, j. rewrite <- Htb by done. done.
  - intros vm <-. split; [exact Hhp' | exact Hd | constructor | exact Hlive | by split].
Qed.

Definition space_init_post (s : mm) (R : list Z) (Lo : list (Z * Z)) (v : vm_space)
    (res : Z * option vm_space) (s' : mm) : Prop :=
  same_kernel s s' /\
  (forall a, used_word R s a -> a <> vmas v -> a <> vmas v + 4 -> rd (mm_mem s') a = rd (mm_mem s) a) /\
  (forall r p, r ∈ R -> 0 <= p < 1048576 -> walk (mm_mem s') r p = walk (mm_mem s) r p) /\
  (forall r i, r ∈ R -> 0 <= i < 1024 -> tbl (mm_mem s') r i = tbl (mm_mem s) r i) /\
  ((exists e, res = (e, Some v) /\ - KERR_MAX_ERRNO <= e < 0 /\ mm_inv s' R Lo /\ mm_frames s' = mm_frames s) \/
   (exists t, res = (KERR_OK, Some (mk_vm_space (vmas v) (mk_space t))) /\ (t ∉ R) /\
      mm_ok s' (t :: R) (mk_vm_space (vmas v) (mk_space t)) [] [] Lo /\
      fa_used (mm_frames s) (t / 4096) = false /\
      (forall j, 0 <= j -> fa_used (mm_frames s') j = (j =? t / 4096) || fa_used (mm_frames s) j) /\
      (forall p, 0 <= p < 1048576 ->
         walk (mm_mem s') t p = if 786432 <=? p then walk (mm_mem s) (pd_phys (kernel_vm (vmm_kvm s))) p else None) /\
      (forall i, 0 <= i < 1024 ->
         tbl (mm_mem s') t i = if 768 <=? i then tbl (mm_mem s) (pd_phys (kernel_vm (vmm_kvm s))) i else None))).

Lemma heap_area_used s R L a : mm_inv s R L -> heap_area s a -> used_word R s a.
Proof.
  intros Hmi Ha. destruct (mi_sep _ _ _ Hmi a Ha) as [Hn Hu]. pose proof (heap_area_low _ _ _ _ Hmi Ha). split; [lia | done].
Qed.

(** A word in use does not meet a frame that was free, nor the tables of a space made
    from such a frame. *)
Lemma used_word_fresh s R t a : used_word R s a -> t mod 4096 = 0 ->
  fa_used (mm_frames s) (t / 4096) = false -> a < t + KERNEL_VIRT_OFFSET \/ t + KERNEL_VIRT_OFFSET + 4096 <= a.
Proof.
  intros (_ & Hu & _) Hal Hf. assert ((a - KERNEL_VIRT_OFFSET) / 4096 <> t / 4096) by congruence. dlia.
Qed.

Lemma used_word_space s s' R k t a :
  used_word R s a -> k ∈ R -> t mod 4096 = 0 -> fa_used (mm_frames s) (t / 4096) = false ->
  (forall j, 0 <= j -> fa_used (mm_frames s') j = (j =? t / 4096) || fa_used (mm_frames s) j) ->
  (forall r i, r ∈ R -> 0 <= i < 1024 -> tbl (mm_mem s') r i = tbl (mm_mem s) r i) ->
  (forall i, 0 <= i < 1024 -> tbl (mm_mem s') t i = if 768 <=? i then tbl (mm_mem s) k i else None) ->
  used_word (t :: R) s' a.
Proof.
  intros Ha Hk Hal Hf Hu Htb Htt. pose proof (used_word_fresh _ _ _ _ Ha Hal Hf) as Hout. destruct (Ha) as (H1 & H2 & H3).
  split; [done|]. split; [rewrite Hu, H2; [apply orb_true_r | clear -H1; dlia]|].
  intros (t' & [[->|Ht']%elem_of_cons|(r & i & [->|Hr]%elem_of_cons & Hi & Ht')] & Hta); [lia | apply H3; exists t'; split; [by left | done] | |].
  - rewrite Htt in Ht' by done. destruct (768 <=? i); [|done]. apply H3. exists t'. split; [right; by exists k, i | done].
  - rewrite Htb in Ht' by done. apply H3. exists t'. split; [right; by exists r, i | done].
Qed.

(** A state with the same kernel, frames and tables uses the same words. *)
Lemma used_word_same s s' R a : mm_frames s' = mm_frames s ->
  (forall r i, r ∈ R -> 0 <= i < 1024 -> tbl (mm_mem s') r i = tbl (mm_mem s) r i) -> used_word R s a -> used_word R s' a.
Proof. intros Hf Htb (H1 & H2 & H3). split; [done|]. split; [by rewrite Hf|]. intros Ht. by apply H3, (table_word_tbl _ _ _ _ Htb). Qed.

Lemma vm_space_init_wp s R Lo v :
  mm_inv s R Lo -> head_in s Lo (vmas v) -> pd_phys (kernel_vm (vmm_kvm s)) ∈ R ->
  wp (vm_space_init (Some v)) (space_init_post s R Lo v) s.
Proof.
  intros Hmi Hh Hk. unfold vm_space_init.
  destruct (head_bounds _ _ _ _ Hmi Hh) as (_ & Hb1 & Hb2 & _).
  wp_step. wp_use list_init_mm_wp; [exact Hmi | exact Hh|].
  intros [] s1 (Hmi1 & Hk1 & Hf1 & Hsp1 & Htb1 & Hw1 & Hfr1). wp_steps.
  wp_use arch_vm_space_init_wp; [apply (mi_vm _ _ _ Hmi1)|].
  intros [e o] vm1 [(e' & E & He & -> & Hmax)|(t & E & HtR & Hvm2 & _ & Hg & Hfree & Hpz & Hwt & Hw2 & Htb2 & Hpt & Hu2 & Hfr2)].
  - injection E as -> ->. destruct (Z.ltb_spec e' 0); [|lia].
    assert (set_vmm_kvm (set_kv_vm (mm_vs s1) (vmm_kvm s1)) s1 = s1) as -> by by destruct s1 as [[] ? ?].
    wp_steps. split; [done|]. split; [intros a _; by apply Hfr1|]. split; [done|]. split; [done|]. left. exists e'. destruct v as [h [pd]]. done.
  - injection E as -> ->. change (KERR_OK <? 0) with false. cbn iota. wp_step. cbn [default vm_arch].
    set (s2 := set_vmm_kvm (set_kv_vm vm1 (vmm_kvm s1)) s1). unfold vm_kern_attach. wp_steps.
    assert (Hk2 : kernel_vm (vmm_kvm s2) = kernel_vm (vmm_kvm s)) by (cbn; apply Hk1). rewrite Hk2.
    assert (pd_phys (kernel_vm (vmm_kvm s)) <> t) as Hkt by (intros Et; apply HtR; by rewrite <- Et).
    wp_use (arch_vm_space_attach_kernel_wp vm1 (t :: R) (mk_space t) (kernel_vm (vmm_kvm s)));
      [exact Hvm2 | apply list_elem_of_here | by apply list_elem_of_further|].
    intros res vm2 (-> & Hvm3 & Hf3 & _ & Hw3 & Htb3 & Hfr3). change (KERR_OK <? 0) with false. cbn iota. wp_steps.
    cbn [pd_phys] in *. set (s3 := set_vmm_kvm _ s2).
    assert (Hfresh : fa_used (mm_frames s) (t / 4096) = false) by (rewrite <- Hf1; exact Hfree).
    assert (Hmem : forall a, used_word R s a -> rd (vs_mem vm2) a = rd (mm_mem s1) a).
    { intros a Ha. pose proof (used_word_fresh s R t a Ha (proj1 Hpt) Hfresh). rewrite Hfr3, Hfr2 by done. done. }
    assert (Hother : forall r, r ∈ R -> r <> t) by (by intros r Hr ->).
    assert (Htbl : forall r i, r ∈ R -> 0 <= i < 1024 -> tbl (vs_mem vm2) r i = tbl (mm_mem s) r i).
    { intros r i Hr Hi. rewrite Htb3 by (done || by apply list_elem_of_further).
      rewrite bool_decide_false by (by intros [? _]; apply (Hother r)). by rewrite Htb2, Htb1. }
    assert (Htt : forall i, 0 <= i < 1024 ->
      tbl (vs_mem vm2) t i = if 768 <=? i then tbl (mm_mem s) (pd_phys (kernel_vm (vmm_kvm s))) i else None).
    { intros i Hi. rewrite Htb3 by (done || apply list_elem_of_here).
      destruct (Z.leb_spec 768 i); [rewrite bool_decide_true by done; by rewrite Htb2, Htb1|].
      rewrite bool_decide_false by lia. unfold tbl. by rewrite Hpz. }
    assert (Hu : forall j, 0 <= j -> fa_used (vs_frames vm2) j = (j =? t / 4096) || fa_used (mm_frames s) j).
    { intros j Hj. rewrite Hf3, Hu2 by done. by rewrite Hf1. }
    split; [exact Hk1|]. split; [intros a Ha H1 H2; cbn; by rewrite Hmem, Hfr1|]. split; [|split; [exact Htbl|]].
    { intros r p Hr Hp. cbn. rewrite Hw3 by (done || by apply list_elem_of_further).
      rewrite bool_decide_false by (by intros [? _]; apply (Hother r)). by rewrite Hw2, Hw1. }
    right. exists t. split; [done|]. split; [done|]. split; [|split; [done|split; [exact Hu|split; [|exact Htt]]]].
    + destruct Hk1 as (_ & _ & Hs1 & Hs2). split; cbn; [exact Hvm3 | | rewrite Hs1, Hs2; done | apply list_elem_of_here|].
      * apply (space_frame (vmm_heap s1) _ [] [] Lo (vs_mem vm2)); [by apply Hsp1 | cbn; lia | cbn; lia|].
        intros a Ha. apply Hmem, (heap_area_used _ _ _ _ Hmi). unfold heap_area. rewrite <- Hs1, <- Hs2. exact Ha.
      * intros a Ha. assert (heap_area s a) as Ha' by (unfold heap_area in *; cbn in Ha; rewrite Hs1, Hs2 in Ha; exact Ha).
        pose proof (used_word_space s s3 R _ t a (heap_area_used _ _ _ _ Hmi Ha') Hk (proj1 Hpt) Hfresh Hu Htbl Htt) as (_ & ? & ?).
        done.
    + intros p Hp. cbn. rewrite Hw3 by (done || apply list_elem_of_here).
      destruct (Z.leb_spec 786432 p); [rewrite bool_decide_true by done; by rewrite Hw2, Hw1|].
      rewrite bool_decide_false by lia. by apply Hwt.
Qed.

(** ** Objects of the heap *)

(** A step that keeps the words [K]. *)
Record mm_keep (s s' : mm) (R : list Z) (K : Z -> Prop) : Prop := {
  mk_kernel : same_kernel s s';
  mk_frames : mm_frames s' = mm_frames s;
  mk_tbl : forall r i, r ∈ R -> 0 <= i < 1024 -> tbl (mm_mem s') r i = tbl (mm_mem s) r i;
  mk_walk : forall r p, r ∈ R -> 0 <= p < 1048576 -> walk (mm_mem s') r p = walk (mm_mem s) r p;
  mk_mem : forall a, K a -> rd (mm_mem s') a = rd (mm_mem s) a
}.

Lemma mm_keep_refl s R K : mm_keep s s R K.
Proof. by split. Qed.

Lemma mm_keep_trans s1 s2 s3 R K : mm_keep s1 s2 R K -> mm_keep s2 s3 R K -> mm_keep s1 s3 R K.
Proof.
  intros [(A1 & A2 & A3 & A4) B C D E] [(A1' & A2' & A3' & A4') B' C' D' E'].
  split; [by repeat split; congruence | congruence | | |].
  - intros r i Hr Hi. by rewrite C', C.
  - intros r q Hr Hq. by rewrite D', D.
  - intros a Ha. by rewrite E', E.
Qed.

Lemma mm_inv_heap s R L h' L' (K : Z -> Prop) :
  mm_inv s R L -> mem_ok (kh_mem h') -> kheap_start h' = vmm_heap_start s -> kheap_end h' = vmm_heap_end s ->
  heap_ok h' L' -> (forall a, ~ heap_area s a -> K a) -> (forall a, K a -> rd (kh_mem h') a = rd (mm_mem s) a) ->
  mm_inv (set_vmm_heap h' s) R L' /\ mm_keep s (set_vmm_heap h' s) R K.
Proof.
  intros [Hvm Hh Hsep] Hm Hs He Hh' HK Hfr.
  destruct (tables_frame (mm_vs s) R (kh_mem h') Hvm Hm) as (Hvm' & Htb & Hw).
  { intros a Ha. apply Hfr, HK. intros Hn. by apply (Hsep a Hn). }
  split; [|by split].
  split; cbn; [done | by destruct h'|]. intros a Ha.
  assert (heap_area s a) as Ha' by (unfold heap_area in *; cbn in Ha; rewrite Hs, He in Ha; done).
  destruct (Hsep a Ha') as [Hn Hu]. split; [|done]. intros Ht. by apply Hn, (table_word_tbl _ _ _ _ Htb).
Qed.

Lemma live_outside s L a : ~ heap_area s a -> live_addr kheap_free_list (vmm_heap s) L a.
Proof. unfold heap_area. intros Ha. left. cbn. lia. Qed.

Lemma kmalloc_mm_wp s R L size :
  mm_inv s R L -> 0 < size <= 4294967272 ->
  wp (zoom vmm_heap set_vmm_heap (kmalloc kheap_free_list size)) (fun p s' =>
    (KERR_PTR_IS_ERR p = true /\ s' = s /\ ~ heap_fits (vmm_heap s) L size) \/
    (KERR_PTR_IS_ERR p = false /\ mm_inv s' R ((p, size) :: L) /\
     mm_keep s s' R (live_addr kheap_free_list (vmm_heap s) L))) s.
Proof.
  intros Hmi Hsz. wp_step.
  wp_use (wp_typed heap_words _ _ _ _ (kmalloc_live_wp _ _ _ size (mi_heap _ _ _ Hmi) Hsz) (typed_kmalloc kheap_free_list size)
    (v_mem _ _ (mi_vm _ _ _ Hmi))).
  intros p h' ([(Hp & -> & Hfull)|(Hp & m' & -> & Hh' & Hfr)] & Hm & _); [left; by rewrite set_vmm_heap_id|].
  right. split; [done|]. apply (mm_inv_heap s R L); [done | exact Hm | done | done | exact Hh' | apply live_outside | exact Hfr].
Qed.

(** The object is released, unless it is the last of the heap. *)
Lemma kfree_mm_wp s R L p size :
  mm_inv s R ((p, size) :: L) ->
  wp (zoom vmm_heap set_vmm_heap (kfree kheap_free_list p)) (fun _ s' =>
    (vmm_heap_end s - 24 <= p /\ s' = s) \/
    (mm_inv s' R L /\ mm_keep s s' R (live_addr kheap_free_list (vmm_heap s) L))) s.
Proof.
  intros Hmi. wp_step.
  wp_use (wp_typed heap_words _ _ _ _ (kfree_live_wp _ _ _ p size (mi_heap _ _ _ Hmi))
    (typed_kfree kheap_free_list (heap_list_u32 _ _ (mi_heap _ _ _ Hmi)) p) (v_mem _ _ (mi_vm _ _ _ Hmi))).
  intros e h' ([[Hp ->]|(Hp & m' & -> & Hh' & Hfr)] & Hm & _); [left; by rewrite set_vmm_heap_id|].
  right. apply (mm_inv_heap s R ((p, size) :: L)); [done | exact Hm | done | done | exact Hh' | apply live_outside | exact Hfr].
Qed.

(** Where an object lies. *)
Lemma obj_bounds s R L p size : mm_inv s R L -> (p, size) ∈ L ->
  p mod 4 = 0 /\ vmm_heap_start s + 16 <= p /\ p + size <= vmm_heap_end s - 4 /\
  KERNEL_VIRT_OFFSET <= vmm_heap_start s /\ vmm_heap_end s <= 4026531840.
Proof.
  intros [_ Hh _] Hin. destruct (heap_ok_disjoint _ _ _ Hh) as [_ Hall]. destruct (heap_ok_bounds _ _ _ Hh) as (Hb1 & Hb2 & _).
  rewrite Forall_forall in Hall. specialize (Hall _ Hin). cbn in *. tauto.
Qed.

(** A program that writes words of one object. *)
Lemma obj_write_wp {B} s R L p size (c : M mem B) (Q : B -> mem -> Prop) :
  mm_inv s R L -> (p, size) ∈ L ->
  wp c (fun b m' => mem_ok m' /\ (forall a, ~ (p <= a < p + size) -> rd m' a = rd (mm_mem s) a) /\ Q b m') (mm_mem s) ->
  wp (zoom vmm_heap set_vmm_heap (zoom kh_mem set_kh_mem c)) (fun b s' =>
    mm_inv s' R L /\ mm_keep s s' R (fun a => ~ (p <= a < p + size)) /\ Q b (mm_mem s')) s.
Proof.
  intros Hmi Hin Hc. destruct (obj_bounds _ _ _ _ _ Hmi Hin) as (_ & Hb1 & Hb2 & _).
  wp_step. wp_step. eapply wp_mono; [exact Hc|]. intros b m' (Hm & Hfr & HQ).
  destruct (mm_inv_heap s R L (set_kh_mem m' (vmm_heap s)) L (fun a => ~ (p <= a < p + size))) as [H1 H2]; [done.. | | | exact Hfr | done].
  - apply heap_ok_frame; [apply Hmi|]. intros a Ha. apply Hfr. intros Hp. apply Ha. right. by exists p, size.
  - intros a Ha Hp. apply Ha. left. lia.
Qed.

(** A space without VMAs is made of the two words of its head. *)
Lemma empty_space s R L vm :
  mm_inv s R L -> head_in s L (vmas vm) -> pd_phys (vm_arch vm) ∈ R ->
  rd (mm_mem s) (vmas vm) = vmas vm -> rd (mm_mem s) (vmas vm + 4) = vmas vm -> mm_ok s R vm [] [] L.
Proof.
  intros Hmi Hh Hr H1 H2. destruct (head_bounds _ _ _ _ Hmi Hh) as (Hn & Hb1 & Hb2 & Hlive). destruct (Hmi) as [Hvm Hhp Hsep].
  split; [done | | done | done | done]. split; [done | | constructor | done | by split].
  split; [|split; [constructor; constructor | by constructor; [|constructor]]]. cbn. done.
Qed.
End Spec.

(** ** A machine with a small heap and one space *)

(** The heap of [heap_sample] in the frames in use of [pmm_sample_288], with one
    object, and the kernel's directory in the first free frame. *)
Definition mm_heap_sample : kheap := run_state (kmalloc sentinel 8) heap_sample.
Definition mm_obj : Z := 3221233680.
Definition mm_machine (h : kheap) : machine :=
  run_state (arch_vm_space_init (Some (mk_space 0))) (mk_vmstate (kh_mem h) pmm_sample_288 0 []).
Definition mm_base (h : kheap) : mm :=
  mk_vmm (mk_kvm (mm_machine h) (mk_space 131072) (mk_bitmap [0; 0] 64 2)) (kheap_start h) (kheap_end h).

Lemma heap_sample_client : client_inv sentinel (heap_sample, []).
Proof.
  exists [mk_blk 3221233664 128 false], [3221233672], []. split; [apply heap_sample_ok|]. split; [done | constructor].
Qed.

Lemma no_tables m (a : pmm) : tables_ok m a [].
Proof. split; intros *; by intros ?%elem_of_nil. Qed.

Lemma low_frames_used a : 3221225472 <= a < 3221356544 ->
  0 <= (a - KERNEL_VIRT_OFFSET) / 4096 /\ frame_used pmm_sample_288 ((a - KERNEL_VIRT_OFFSET) / 4096) = true.
Proof.
  intros Ha. assert (0 <= (a - KERNEL_VIRT_OFFSET) / 4096 < 32) as Hf by (unfold KERNEL_VIRT_OFFSET; dlia).
  generalize dependent ((a - KERNEL_VIRT_OFFSET) / 4096). intros f Hf. split; [lia|]. unfold frame_used, bit, pmm_sample_288.
  cbn [pm_bm bm_data]. replace (f / 32) with 0 by dlia. replace (f mod 32) with f by dlia.
  cbn [Z.to_nat lookup_total list_lookup_total]. change 4294967295 with (Z.ones 32). apply Z.ones_spec_low. lia.
Qed.

(** The first directory leaves the heap alone. *)
Lemma first_space (s0 : machine) h L t :
  client_inv sentinel (h, L) -> mem_ok (kh_mem h) -> fa_ok (vs_frames s0) -> vs_mem s0 = kh_mem h ->
  (forall a, kheap_start h <= a < kheap_end h \/ sentinel <= a < sentinel + 8 -> KERNEL_VIRT_OFFSET <= a /\
     fa_used (vs_frames s0) ((a - KERNEL_VIRT_OFFSET) / 4096) = true) ->
  option_map (fun r => fst r) (arch_vm_space_init (Some (mk_space 0)) s0) = Some (KERR_OK, Some (mk_space t)) ->
  forall bm, mm_inv sentinel (mk_vmm (mk_kvm (run_state (arch_vm_space_init (Some (mk_space 0))) s0) (mk_space t) bm)
    (kheap_start h) (kheap_end h)) [t] L.
Proof.
  intros Hh Hm Hfa Em Hused Hcode bm.
  assert (vm_ok s0 []) as Hok0 by (split; [by rewrite Em | exact Hfa | apply no_tables]).
  pose proof (arch_vm_space_init_wp s0 [] (mk_space 0) Hok0) as Hwp. apply wp_run in Hwp as (r & s' & Hrun & Hpost).
  rewrite (run_state_eq _ _ _ _ Hrun). rewrite Hrun in Hcode. injection Hcode as ->.
  destruct Hpost as [(e & E & He' & _)|(t' & E & _ & Hok & _ & _ & Hfree & Hz & _ & _ & _ & Hpt & Hu & Hfr)];
    [injection E as <-; discriminate He'|]. injection E as <-.
  assert (Hout : forall a, kheap_start h <= a < kheap_end h \/ sentinel <= a < sentinel + 8 ->
            a < t + KERNEL_VIRT_OFFSET \/ t + KERNEL_VIRT_OFFSET + 4096 <= a).
  { intros a Ha. destruct (Hused a Ha) as [_ Hua]. destruct Hpt as (Hal & _).
    assert ((a - KERNEL_VIRT_OFFSET) / 4096 <> t / 4096) by congruence. dlia. }
  split; cbn [vmm_kvm kv_vm].
  - exact Hok.
  - pose proof (heap_area_frame sentinel (mk_vmm (mk_kvm s0 (mk_space 0) bm) (kheap_start h) (kheap_end h)) L (vs_mem s')) as Hf.
    unfold vmm_heap in Hf |- *. cbn [vmm_kvm kv_vm vmm_heap_start vmm_heap_end] in Hf |- *. rewrite Em in Hf.
    destruct h as [m hs he]. apply (Hf Hh). intros a Ha. rewrite <- Em. apply Hfr, Hout, Ha.
  - intros a Ha. destruct (Hused a Ha) as [Hlow Hua]. split.
    + intros (q & [->%list_elem_of_singleton|(r & i & ->%list_elem_of_singleton & Hi & Ht)] & Hta).
      * specialize (Hout a Ha). lia.
      * unfold tbl in Ht. rewrite Hz in Ht by done. discriminate Ht.
    + rewrite Hu by dlia. by rewrite Hua, orb_true_r.
Qed.

(** In the sample it takes frame 32. *)
Lemma mm_base_inv h L :
  client_inv sentinel (h, L) -> mem_ok (kh_mem h) -> kheap_end h <= 3221356544 ->
  option_map (fun r => fst r) (arch_vm_space_init (Some (mk_space 0)) (mk_vmstate (kh_mem h) pmm_sample_288 0 [])) =
    Some (KERR_OK, Some (mk_space 131072)) ->
  mm_inv sentinel (mm_base h) [131072] L.
Proof.
  intros Hh Hm He Hcode. destruct (heap_ok_bounds _ _ _ Hh) as (Hb & _ & _).
  unfold mm_base, mm_machine.
  refine (first_space (mk_vmstate (kh_mem h) pmm_sample_288 0 []) h L 131072 Hh Hm pmm_sample_288_ok eq_refl _ Hcode _).
  intros a Ha. assert (3221225472 <= a < 3221356544) as Hr by (clear -Hb He Ha; unfold sentinel, KERNEL_VIRT_OFFSET in *; lia).
  split; [clear -Hr; unfold KERNEL_VIRT_OFFSET; lia | apply (low_frames_used a Hr)].
Qed.

Definition mm_space_sample : vm_space := mk_vm_space mm_obj (mk_space 135168).
Definition mm_sample : mm := run_state (vm_space_init (Some (mk_vm_space mm_obj (mk_space 0)))) (mm_base mm_heap_sample).

Lemma mm_heap_sample_ok : client_inv sentinel (mm_heap_sample, [(mm_obj, 8)]).
Proof.
  pose proof (kmalloc_live_wp sentinel heap_sample [] 8 heap_sample_client ltac:(lia)) as H.
  destruct (proj1 (wp_run _ _ _) H) as (p & h & Hrun & Hpost). clear H.
  unfold mm_heap_sample. rewrite (run_state_eq _ _ _ _ Hrun).
  assert (option_map fst (kmalloc sentinel 8 heap_sample) = Some mm_obj) as E by (vm_compute; reflexivity).
  rewrite Hrun in E. injection E as ->. destruct Hpost as [(Hbad & _)|(_ & m' & -> & Hok & _)]; [discriminate Hbad | exact Hok].
Qed.

Lemma mm_sample_ok : mm_ok sentinel mm_sample [135168; 131072] mm_space_sample [] [] [(mm_obj, 8)].
Proof.
  assert (mm_inv sentinel (mm_base mm_heap_sample) [131072] [(mm_obj, 8)]) as Hinv.
  { apply mm_base_inv; [exact mm_heap_sample_ok | apply mem_ok_dec; vm_compute; reflexivity
      | vm_compute; discriminate | vm_compute; reflexivity]. }
  assert (head_in (mm_base mm_heap_sample) [(mm_obj, 8)] mm_obj) as Hh.
  { split; [reflexivity|]. exists mm_obj, 8. split; [apply list_elem_of_here | unfold mm_obj; lia]. }
  assert (option_map fst (vm_space_init (Some (mk_vm_space mm_obj (mk_space 0))) (mm_base mm_heap_sample)) =
    Some (KERR_OK, Some mm_space_sample)) as E by (vm_compute; reflexivity).
  pose proof (vm_space_init_wp sentinel (mm_base mm_heap_sample) [131072] [(mm_obj, 8)] (mk_vm_space mm_obj (mk_space 0))
    Hinv Hh (list_elem_of_here _ _)) as H. unfold mm_sample.
  remember (mm_base mm_heap_sample) as s0 eqn:Es0. clear Es0.
  apply wp_run in H as (r & s' & Hrun & _ & _ & _ & _ & Hpost). rewrite (run_state_eq _ _ _ _ Hrun).
  rewrite Hrun in E. injection E as ->.
  destruct Hpost as [(e & Er & [_ He] & _)|(t & Er & _ & Hok & _)]; [injection Er as <-; discriminate He|].
  injection Er as <-. exact Hok.
Qed.

(** ** Properties *)

(** C6. [vm_map] keeps the VMAs and the page tables of a space in step.  With a
    well-formed heap, well-formed page tables of any number of spaces and a space whose
    VMAs are disjoint and sorted, it is defined for every request (that does not end
    at 2^32) and refuses requests that are empty, unaligned or outside the user's half,
    and those that overlap a VMA, without an effect; [-KERR_NOMEM] without an effect is
    returned only if the objects on the heap leave no room for a VMA.  When it returns [KERR_OK], all
    pages of the range were unmapped, they now translate to the requested frames with
    the requested permissions in this space, no other page of this or of any other
    space changes, and exactly the requested interval joins the VMAs.  When mapping
    fails after [k] pages, the interval is taken out again, but the [k] pages stay
    mapped.  In both cases frames in use stay in use, and the other objects of the heap
    and all memory in use outside the heap and the page tables are unchanged.  Heap,
    lists and page tables are well formed in every case. *)
Theorem vm_map_correct (free_list : Z) (s : mm) R vm ps vs Lo virt phys size flags :
  mm_ok free_list s R vm ps vs Lo -> is_u32 virt -> is_u32 size -> is_u64 phys -> is_u32 flags ->
  virt + size <> 4294967296 ->
  exists res s', vm_map free_list (Some vm) virt phys size flags s = Some (res, s') /\
    vm_map_post free_list R vm vs Lo virt phys size flags s res s'.
Proof. intros. by apply wp_run, vm_map_wp with ps. Qed.

Lemma vm_map_correct_witness :
  exists s', vm_map sentinel (Some mm_space_sample) 4096 8192 8192 11 mm_sample = Some (KERR_OK, s') /\
    vm_map_post sentinel [135168; 131072] mm_space_sample [] [(mm_obj, 8)] 4096 8192 8192 11 mm_sample KERR_OK s'.
Proof.
  assert (option_map fst (vm_map sentinel (Some mm_space_sample) 4096 8192 8192 11 mm_sample) = Some KERR_OK) as E
    by (vm_compute; reflexivity).
  destruct (vm_map_correct sentinel mm_sample [135168; 131072] mm_space_sample [] [] [(mm_obj, 8)] 4096 8192 8192 11
    mm_sample_ok ltac:(unfold is_u32; lia) ltac:(unfold is_u32; lia) ltac:(unfold is_u64; lia) ltac:(unfold is_u32; lia)
    ltac:(lia)) as (res & s' & Hrun & Hpost).
  rewrite Hrun in E. injection E as ->. exists s'. exact (conj Hrun Hpost).
Defined.


