(* ===== verification/MmInit.v ===== *)
(** * Start of the memory manager

    Composes [pmm_init], [vm_kern_init] and [kheap_init] into [mm_init]
    ([kernel/mm/mm.c]): from the loader's memory map to a kernel address space with
    the direct map, write-protected code and constants, and an empty heap.  The
    start succeeds whenever LowMem has a run of 513 free frames (a directory, 256
    page tables and the heap), and every further frame of the run stays free. *)

From S2P Require Import Prelude Base Memory KList Bitmap Pmm Frames Kheap KheapClient HeapLive Paging PagingProps KernelVm Vmm Words VmaList Mm.

(** ** Runs of a program

    What holds if the program ends; whether it does is a matter of its [wp]. *)

Definition ends {S A} (c : M S A) (Q : A -> S -> Prop) (s : S) : Prop := forall a s', c s = Some (a, s') -> Q a s'.

Lemma wp_ends {S A} (c : M S A) P Q (Q' : A -> S -> Prop) s :
  wp c P s -> ends c Q s -> (forall a s', P a s' -> Q a s' -> Q' a s') -> wp c Q' s.
Proof. intros (a & s' & E & HP)%wp_run HQ HQ'. apply wp_run. exists a, s'. auto. Qed.

Lemma ends_wp {S A} (c : M S A) Q s : wp c Q s -> ends c Q s.
Proof. intros (a & s' & E & HQ)%wp_run b t E'. congruence. Qed.

Lemma ends_ret {S A} (a : A) Q (s : S) : Q a s -> ends (ret a) Q s.
Proof. intros HQ b s' [= <- <-]. done. Qed.

Lemma ends_bind {S A B} (c : M S A) (k : A -> M S B) Q s :
  ends c (fun a s' => ends (k a) Q s') s -> ends (bind c k) Q s.
Proof. intros Hc b t. unfold bind. destruct (c s) as [[a s']|] eqn:E; [|done]. by apply (Hc a s'). Qed.

Lemma ends_zoom {S T A} (get : S -> T) set (c : M T A) Q s :
  ends c (fun a t => Q a (set t s)) (get s) -> ends (zoom get set c) Q s.
Proof. intros Hc b t. unfold zoom. destruct (c (get s)) as [[a t']|] eqn:E; [|done]. intros [= <- <-]. by apply Hc. Qed.

Lemma ends_any {S A} (c : M S A) (Q : A -> S -> Prop) s : (forall a s', Q a s') -> ends c Q s.
Proof. intros HQ a s' _. apply HQ. Qed.

Lemma ends_for_lt {S A R} (I : Z -> A -> S -> Prop) (Q : A + R -> S -> Prop) (body : Z -> A -> M S (A + R)) lo hi acc s :
  lo <= hi -> I lo acc s ->
  (forall i acc s, lo <= i < hi -> I i acc s ->
     ends (body i acc) (fun r s' => match r with inl acc' => I (i + 1) acc' s' | inr v => Q (inr v) s' end) s) ->
  (forall acc s, I hi acc s -> Q (inl acc) s) -> ends (for_lt lo hi acc body) Q s.
Proof.
  intros Hle HI Hb HQ. unfold for_lt. remember (Z.to_nat (hi - lo)) as n eqn:En.
  revert lo acc s Hle HI Hb En. induction n as [|n IH]; intros lo acc s Hle HI Hb En; cbn [for_n].
  - apply ends_ret, HQ. by replace hi with lo by lia.
  - apply ends_bind. intros r s' E. pose proof (Hb lo acc s ltac:(lia) HI r s' E) as Hr.
    destruct r as [acc'|v]; [|by apply ends_ret]. apply (IH (lo + 1)); [lia | done | | lia].
    intros i a t Hi. apply Hb. lia.
Qed.

(** ** Enough frames *)

Section Room.
Context {A : Type} `{FrameAllocatorLaws A}.

(** The allocator is well formed and has a run of [k] free frames. *)
Definition has_room (k : Z) (s : vmstate A) : Prop := fa_ok (vs_frames s) /\ lowmem_room (vs_frames s) k.

(** One frame less. *)
Lemma ends_alloc {B} (s : vmstate A) k (K : Z + Z -> M (vmstate A) B) Q :
  0 <= k -> has_room (1 + k) s -> (forall t s', has_room k s' -> ends (K (inr t)) Q s') ->
  ends (bind (zoom vs_frames set_vs_frames (fa_alloc_lowmem 1)) K) Q s.
Proof.
  intros Hk [Hok Hr] HK. apply ends_bind, ends_zoom, ends_wp.
  wp_use alloc_lowmem_room; [exact Hok | lia | unfold is_u32; lia | exact Hk | exact Hr |].
  intros r a' ([t ->] & (f & Ht & _ & _ & _ & _ & Hok' & _) & Hr'). apply HK. done.
Qed.

Lemma space_init_room v s k : 0 <= k -> has_room (1 + k) s ->
  ends (arch_vm_space_init (Some v)) (fun r s' => fst r = KERR_OK /\ has_room k s') s.
Proof.
  intros Hk Hr. apply (ends_alloc s k); [done | done |]. intros t s' Hr'.
  apply ends_bind, ends_zoom, ends_any. intros _ m. by apply ends_ret.
Qed.

Lemma kernel_prepare_room v s k : 0 <= k -> has_room (256 + k) s ->
  ends (arch_vm_kernel_prepare (Some v)) (fun r s' => r = KERR_OK /\ has_room k s') s.
Proof.
  intros Hk Hr. apply ends_bind.
  apply (ends_for_lt (fun i _ s' => has_room (1024 - i + k) s')); [done | exact Hr | |].
  - intros i [] s1 Hi Hs1. unfold X86_PDE_COUNT, X86_KERNEL_PDE_BASE in Hi.
    apply (ends_alloc s1 (1024 - (i + 1) + k)); [lia | by replace (1 + (1024 - (i + 1) + k)) with (1024 - i + k) by lia |].
    intros t s' Hr'. apply ends_bind, ends_zoom, ends_any. intros _ m. apply ends_bind, ends_zoom, ends_any. intros _ m'.
    by apply ends_ret.
  - intros [] s1 Hs1. by apply ends_ret.
Qed.
End Room.

(** ** The kernel's address space *)

(** What the linker fixes: two ranges of whole pages in the direct map. *)
Record layout := mk_layout { text_start : Z; text_end : Z; rodata_start : Z; rodata_end : Z }.

Definition pages_ok (a b : Z) : Prop :=
  KERNEL_VIRT_OFFSET <= a /\ a < b /\ b <= KERNEL_VIRT_OFFSET + KERNEL_DIRECT_MAP_SIZE /\ a mod 4096 = 0 /\ b mod 4096 = 0.

Definition layout_ok (l : layout) : Prop :=
  pages_ok (text_start l) (text_end l) /\ pages_ok (rodata_start l) (rodata_end l).

Definition in_pages (a b p : Z) : bool := (a / 4096 <=? p) && (p <? b / 4096).

(** Rights of a page of the direct map. *)
Definition page_rights (l : layout) (p : Z) : Z :=
  if in_pages (rodata_start l) (rodata_end l) p then VM_READ
  else if in_pages (text_start l) (text_end l) p then Z.lor VM_READ VM_EXEC
  else Z.lor VM_READ VM_WRITE.

(** The kernel's translation: page [786432 + f] is frame [f], for the frames of LowMem. *)
Definition kernel_page (rights : Z -> Z) (p : Z) : option Z :=
  if (786432 <=? p) && (p <? 983040) then Some (pte_of (4096 * (p - 786432)) (rights p)) else None.

Lemma reprotect_pte flags pa old : is_u32 pa -> pa mod 4096 = 0 ->
  reprotect flags (Some (pte_of pa old)) = Some (pte_of pa flags).
Proof.
  intros Hu Ha. cbn. destruct (pte_of_spec pa old) as (_ & -> & _); [unfold is_u32 in Hu; lia | done|].
  unfold pte_of. rewrite land_page_mask, Ha, Z.sub_0_r, u32_id by done. done.
Qed.

Lemma in_pages_spec a b p : a mod 4096 = 0 -> b mod 4096 = 0 ->
  in_pages a b p = (a / 4096 <=? p) && (p <? a / 4096 + (b - a) / 4096).
Proof. intros Ha Hb. unfold in_pages. f_equal. f_equal. dlia. Qed.

Section KernInit.
Context {A : Type} `{FrameAllocatorLaws A}.

(** The kernel's space [t] is set up on [s]: all its tables exist and lie in
    frames that were free; it translates like [W]. *)
Record kernel_space (s : vmstate A) (t : Z) (W : Z -> option Z) (s' : vmstate A) : Prop := {
  kp_ok : vm_ok s' [t];
  kp_grow : frames_grow (vs_frames s) (vs_frames s');
  kp_tables : forall i, 768 <= i < 1024 -> exists q, tbl (vs_mem s') t i = Some q;
  kp_fresh : forall a, table_word (vs_mem s') [t] a ->
    KERNEL_VIRT_OFFSET <= a /\ fa_used (vs_frames s) ((a - KERNEL_VIRT_OFFSET) / 4096) = false;
  kp_walk : forall p, 0 <= p < 1048576 -> walk (vs_mem s') t p = W p;
  kp_mem : forall a, ~ table_word (vs_mem s') [t] a -> rd (vs_mem s') a = rd (vs_mem s) a
}.

Lemma shares_self_root (m : mem) r j : shares m r r j = true.
Proof. unfold shares. by rewrite Z.eqb_refl. Qed.

(** A step that adds no table. *)
Lemma kernel_space_step s t W s1 s2 W' :
  kernel_space s t W s1 -> pt_step [t] t s1 s2 -> vs_frames s2 = vs_frames s1 ->
  (forall p, 0 <= p < 1048576 -> walk (vs_mem s2) t p = W' p) -> kernel_space s t W' s2.
Proof.
  intros [Hok Hg Ht Hfr Hw Hm] Hst Hsame Hw2.
  assert (t ∈ [t]) as Hin by set_solver.
  assert (forall a, table_word (vs_mem s2) [t] a -> table_word (vs_mem s1) [t] a) as Htw.
  { intros a (q & [Hq|(r & i & ->%list_elem_of_singleton & Hi & Eq)] & Ha); exists q; (split; [|done]); [by left|].
    right. exists t, i. split; [done|]. split; [done|].
    destruct (ps_new _ _ _ _ Hst i q Hi Eq) as [?|[_ Hu]]; [done|].
    destruct (t_table _ _ _ (v_tables _ _ (ps_ok _ _ _ _ Hst)) t i q Hin Hi Eq) as [(_ & _ & Hu' & _) _].
    rewrite Hsame in Hu'. congruence. }
  split; [apply (ps_ok _ _ _ _ Hst) | by rewrite Hsame | | | done |].
  - intros i Hi. destruct (Ht i Hi) as [q Hq]. exists q. apply (ps_mono _ _ _ _ Hst); [lia | done].
  - intros a Ha. by apply Hfr, Htw.
  - intros a Ha. rewrite (ps_frame _ _ _ _ Hst) by done. apply Hm. intros H1. apply Ha.
    destruct H1 as (q & [Hq|(r & i & ->%list_elem_of_singleton & Hi & Eq)] & Hqa); exists q; (split; [|done]); [by left|].
    right. exists t, i. split; [done|]. split; [done|]. by apply (ps_mono _ _ _ _ Hst).
Qed.

(** After the tables have been prepared. *)
Lemma prepared_space s t s1 s2 :
  vm_ok s1 [t] -> frames_grow (vs_frames s) (vs_frames s1) -> page_frame (vs_frames s1) t ->
  fa_used (vs_frames s) (t / 4096) = false -> (forall i, 0 <= i < 1024 -> pde_at (vs_mem s1) t i = 0) ->
  (forall p, 0 <= p < 1048576 -> walk (vs_mem s1) t p = None) ->
  (forall a, a < t + KERNEL_VIRT_OFFSET \/ t + KERNEL_VIRT_OFFSET + 4096 <= a -> rd (vs_mem s1) a = rd (vs_mem s) a) ->
  pt_step [t] t s1 s2 ->
  (forall i, 768 <= i < 1024 -> exists q, tbl (vs_mem s2) t i = Some q) ->
  (forall p, 0 <= p < 1048576 -> walk (vs_mem s2) t p = walk (vs_mem s1) t p) ->
  kernel_space s t (fun _ => None) s2.
Proof.
  intros Hok Hg (Hta & Htl & _) Hfree Hz Hw Hm Hst Hyes Hw2. unfold KERNEL_VIRT_OFFSET in *.
  split; [apply (ps_ok _ _ _ _ Hst) | | done | | |].
  - destruct Hg as [Hg1 Hg2], (ps_grow _ _ _ _ Hst) as [Hg3 Hg4]. split; [congruence|]. auto.
  - intros a (q & Hq & Ha). unfold KERNEL_VIRT_OFFSET in Ha |- *. assert (q mod 4096 = 0 /\ 0 <= q /\ fa_used (vs_frames s) (q / 4096) = false) as (Hqa & Hq0 & Hqf).
    { destruct Hq as [->%list_elem_of_singleton|(r & i & ->%list_elem_of_singleton & Hi & Eq)]; [by split; [|split; [lia|]]|].
      destruct (ps_new _ _ _ _ Hst i q Hi Eq) as [E|[Hq0 Hu]]; [unfold tbl in E; by rewrite Hz in E|].
      destruct (t_table _ _ _ (v_tables _ _ (ps_ok _ _ _ _ Hst)) t i q ltac:(set_solver) Hi Eq) as [(Hqa & _) _].
      split; [done|]. split; [done|]. destruct (fa_used (vs_frames s) (q / 4096)) eqn:E; [|done].
      apply Hg in E; [congruence | dlia]. }
    split; [lia|]. by replace ((a - 3221225472) / 4096) with (q / 4096) by dlia.
  - intros p Hp. rewrite Hw2 by done. by apply Hw.
  - intros a Ha. rewrite (ps_frame _ _ _ _ Hst) by done. apply Hm.
    destruct (Z.le_gt_cases (t + 3221225472) a), (Z.le_gt_cases (t + 3221225472 + 4096) a); try lia.
    exfalso. apply Ha. exists t. split; [left; set_solver|]. unfold KERNEL_VIRT_OFFSET. lia.
Qed.

(** The direct map cannot fail: the tables are there and empty. *)
Lemma vm_kern_map_direct_wp s0 t s bm :
  kernel_space s0 t (fun _ => None) s ->
  wp (vm_kern_map KERNEL_VIRT_OFFSET 0 KERNEL_DIRECT_MAP_SIZE (Z.lor VM_READ VM_WRITE)) (fun r k' =>
    r = KERR_OK /\ exists s', k' = mk_kvm s' (mk_space t) bm /\ vs_frames s' = vs_frames s /\
      kernel_space s0 t (kernel_page (fun _ => Z.lor VM_READ VM_WRITE)) s') (mk_kvm s (mk_space t) bm).
Proof.
  intros Hsp. pose proof Hsp as [Hok _ Hyes _ Hw _]. unfold vm_kern_map. change (vm_kern_range_valid _ _) with true.
  cbn [negb]. do 2 wp_step. cbn [kernel_vm]. wp_step. cbn [kv_vm].
  wp_use (arch_vm_map_wp s [t] (mk_space t)); [done | cbn; set_solver | by vm_compute.. |].
  intros r s' [[Hno _]|(_ & o & -> & k & Hk & Hst & Hset & _ & _ & Hsame & Ho)].
  { exfalso. apply Hno. by repeat split. }
  cbn [pd_phys] in *. change (KERNEL_DIRECT_MAP_SIZE / 4096) with 196608 in *.
  change (KERNEL_VIRT_OFFSET / 4096) with 786432 in *.
  assert (forall i, 0 <= i < 196608 -> tbl (vs_mem s) t ((786432 + i) / 1024) <> None) as Htab.
  { intros i Hi. destruct (Hyes ((786432 + i) / 1024)) as [q ->]; [dlia | done]. }
  destruct o as [[]|e].
  2: { destruct Ho as [Hlt (_ & _ & Hnone)]. destruct (Htab k); [lia|]. apply Hnone, Hw. lia. }
  subst k. split; [done|]. exists s'. split; [done|].
  assert (vs_frames s' = vs_frames s) as Hsame' by (apply Hsame; intros i Hi; by apply Htab).
  split; [done|]. eapply kernel_space_step; [exact Hsp | exact Hst | done |].
  intros p Hp. rewrite Hset by (done || set_solver). rewrite shares_self_root, andb_true_r, Hw by done.
  unfold kernel_page. by replace (786432 + 196608) with 983040 by lia.
Qed.

(** Write protection of whole pages of the direct map. *)
Lemma vm_kern_protect_direct_wp s0 t s bm rights a b flags :
  kernel_space s0 t (kernel_page rights) s -> pages_ok a b ->
  wp (vm_kern_protect a (u32 (b - a)) flags) (fun r k' =>
    r = KERR_OK /\ exists s', k' = mk_kvm s' (mk_space t) bm /\ vs_frames s' = vs_frames s /\
      kernel_space s0 t (kernel_page (fun p => if in_pages a b p then flags else rights p)) s') (mk_kvm s (mk_space t) bm).
Proof.
  intros Hsp (Ha & Hab & Hb & Hma & Hmb). pose proof Hsp as [Hok _ Hyes _ Hw _].
  unfold KERNEL_VIRT_OFFSET, KERNEL_DIRECT_MAP_SIZE in *.
  rewrite u32_id by (unfold is_u32; lia). unfold vm_kern_protect.
  rewrite (proj2 (vm_kern_range_valid_spec a (b - a) ltac:(unfold is_u32; lia) ltac:(unfold is_u32; lia)))
    by (unfold KERNEL_VIRT_OFFSET; lia).
  cbn [negb]. do 2 wp_step. cbn [kernel_vm]. wp_step. cbn [kv_vm].
  wp_use (arch_vm_protect_wp s [t] (mk_space t)); [done | cbn; set_solver | lia..|].
  intros r s' [[Hno _]|(_ & o & -> & k & Hk & Hst & Hset & _ & _ & Hsame & Ho)].
  { exfalso. apply Hno. split; [lia|]. split; [done|]. dlia. }
  cbn [pd_phys] in *.
  assert (forall i, 0 <= i < (b - a) / 4096 -> 786432 <= a / 4096 + i < 983040) as Hin by (intros i Hi; dlia).
  assert (forall i, 0 <= i < (b - a) / 4096 -> walk (vs_mem s) t (a / 4096 + i) <> None) as Hmap.
  { intros i Hi%Hin. rewrite Hw by lia. unfold kernel_page. by destruct (Z.leb_spec 786432 (a / 4096 + i)), (Z.ltb_spec (a / 4096 + i) 983040); try lia. }
  destruct o as [[]|e].
  2: { destruct Ho as [Hlt [Hnone _]]. destruct (Hmap k); [lia | done]. }
  subst k. split; [done|]. exists s'. split; [done|].
  assert (vs_frames s' = vs_frames s) as Hsame'.
  { apply Hsame. intros i Hi%Hin. destruct (Hyes ((a / 4096 + i) / 1024)) as [q ->]; [dlia | done]. }
  split; [done|]. eapply kernel_space_step; [exact Hsp | exact Hst | done |].
  intros p Hp. rewrite Hset by (done || set_solver). rewrite shares_self_root, andb_true_r, !Hw by done.
  rewrite <- (in_pages_spec a b) by done. unfold kernel_page.
  destruct (in_pages a b p) eqn:Ei; [|done]. apply andb_prop in Ei as [E1%Z.leb_le E2%Z.ltb_lt].
  destruct (Z.leb_spec 786432 p), (Z.ltb_spec p 983040); cbn [andb]; try (exfalso; dlia).
  apply reprotect_pte; [unfold is_u32; lia | dlia].
Qed.

(** [vm_kern_init]: the kernel's space, in use; a failure only without room for
    the directory and its tables. *)
Lemma vm_kern_init_wp l k s0 bm :
  vm_ok s0 [] -> layout_ok l ->
  wp (vm_kern_init (text_start l) (text_end l) (rodata_start l) (rodata_end l)) (fun r k' =>
    (forall n, 0 <= n -> lowmem_room (vs_frames s0) (257 + n) -> r = KERR_OK /\ lowmem_room (vs_frames (kv_vm k')) n) /\
    (r < 0 \/ r = KERR_OK /\ exists t s', k' = mk_kvm s' (mk_space t) bm /\ vs_cr3 s' = t /\
       kernel_space s0 t (kernel_page (page_rights l)) s')) (mk_kvm s0 k bm).
Proof.
  intros Hok [Htext Hro]. unfold vm_kern_init. do 4 wp_step. cbn [kernel_vm kv_vm].
  eapply (wp_ends _ _ (fun r s' => forall n, 0 <= n -> has_room (257 + n) s0 -> fst r = KERR_OK /\ has_room (256 + n) s'));
    [by apply arch_vm_space_init_wp| |].
  { intros r s' E n Hn Hr. apply (space_init_room k s0 (256 + n)); [lia | by rewrite Z.add_assoc | done]. }
  assert (forall n, lowmem_room (vs_frames s0) (257 + n) -> has_room (257 + n) s0) as Hroom by (intros n Hr; split; [apply Hok | exact Hr]).
  intros [e k'] s1 [(e' & [= -> ->] & He & -> & _)|(t & [= -> ->] & _ & Hok1 & _ & Hg1 & Hfree & Hz & Hw1 & _ & _ & Hpf & _ & Hm1)] Hr1.
  { rewrite (proj2 (Z.ltb_lt _ _) He). wp_step. split; [|by left]. intros n Hn Hr. destruct (Hr1 n Hn (Hroom n Hr)) as [E _]. cbn in E. subst e'. done. }
  change (KERR_OK <? 0) with false. cbn iota. wp_steps. cbn [kernel_vm kv_vm set_kernel_vm set_kv_vm default].
  eapply (wp_ends _ _ (fun r s' => forall n, 0 <= n -> has_room (256 + n) s1 -> r = KERR_OK /\ has_room n s'));
    [apply (arch_vm_kernel_prepare_wp s1 [t] (mk_space t)); [done | cbn; set_solver |]| |].
  { intros i Hi. cbn. by rewrite Hz by (unfold X86_KERNEL_PDE_BASE in Hi; lia). }
  { intros r s' E n Hn Hr. by apply (kernel_prepare_room (mk_space t) s1 n). }
  cbn [pd_phys]. intros r s2 (Hst & Hw2 & Hr) Hr2.
  destruct Hr as [Hr|[-> Hyes]].
  { rewrite (proj2 (Z.ltb_lt _ _) Hr). wp_step. split; [|by left]. intros n Hn Hx. destruct (Hr2 n Hn (proj2 (Hr1 n Hn (Hroom n Hx)))) as [E _]. subst r. done. }
  change (KERR_OK <? 0) with false. cbn iota. cbn [kv_vm kernel_vm set_kv_vm].
  wp_step. wp_use (vm_kern_map_direct_wp s0 t s2 bm).
  { apply (prepared_space s0 t s1 s2); try done. intros p Hp. apply Hw2; [set_solver | done]. }
  intros r k1 (-> & s3 & -> & Hf3 & Hsp3). change (KERR_OK <? 0) with false. cbn iota.
  wp_step. wp_use (vm_kern_protect_direct_wp s0 t s3 bm); [exact Hsp3 | exact Htext |].
  intros r k2 (-> & s4 & -> & Hf4 & Hsp4). change (KERR_OK <? 0) with false. cbn iota.
  wp_step. wp_use (vm_kern_protect_direct_wp s0 t s4 bm); [exact Hsp4 | exact Hro |].
  intros r k3 (-> & s5 & -> & Hf5 & Hsp5). change (KERR_OK <? 0) with false. cbn iota. wp_steps.
  cbn [kernel_vm kv_vm set_kv_vm]. unfold arch_vm_space_load. wp_steps. change (KERR_OK <? 0) with false. cbn iota. wp_step.
  cbn [pd_phys kv_vm set_kv_vm vs_frames set_vs_cr3]. split.
  - intros n Hn Hx. destruct (Hr2 n Hn (proj2 (Hr1 n Hn (Hroom n Hx)))) as [_ [_ Hr]]. split; [done|]. by rewrite Hf5, Hf4, Hf3.
  - right. split; [done|]. exists t, (set_vs_cr3 t s5).
    rewrite u32_id by (destruct Hpf as (_ & ? & _); unfold is_u32, KERNEL_LOWMEM_LIMIT in *; lia).
    split; [done|]. split; [done|]. by destruct Hsp5 as [[] ?????].
Qed.
End KernInit.

(** ** [mm_init] *)

Section MmInit.
Variable free_list : Z.
Variables (map : list boot_mem_map_entry) (kernel_start kernel_end : Z) (words : list Z) (l : layout).

(** The loader's map and the linker's symbols.  The kernel image, with the head of
    the heap's free list in it, lies in LowMem and in memory the map covers;
    [words] is the memory behind the image, for the bitmap. *)
Record boot_ok : Prop := {
  bk_map : map <> [] /\ Forall entry_ok map;
  bk_image : KERNEL_VIRT_BASE <= kernel_start <= kernel_end;
  bk_low : kernel_end <= KERNEL_VIRT_OFFSET + KERNEL_LOWMEM_LIMIT;
  bk_inside : kernel_end - KERNEL_VIRT_BASE + 4095 <= 4096 * boot_frames map;
  bk_words : Forall is_u32 words /\ boot_frames map <= 32 * Z.of_nat (length words);
  bk_total : boot_frames map <= 4294967264;
  bk_list : free_list mod 4 = 0 /\ kernel_start <= free_list /\ free_list + 8 <= kernel_end;
  bk_layout : layout_ok l
}.

(** Frames the start may use. *)
Definition boot_free (f : Z) : bool := in_usable map f && negb (boot_reserved map kernel_start kernel_end f).

(** [n] consecutive ones of them in LowMem. *)
Definition boot_room (n : Z) : Prop :=
  exists f, 0 <= f /\ f + n <= Z.min LOWMEM_FRAMES (boot_frames map) /\ forall j, f <= j < f + n -> boot_free j = true.

Record started (s : mm) (t : Z) (s' : mm) : Prop := {
  sd_mm : mm_inv free_list s' [t] [];
  sd_kvm : kvm_ok (vmm_kvm s') [t];
  sd_kernel : kernel_vm (vmm_kvm s') = mk_space t /\ vs_cr3 (mm_vs s') = t;
  sd_bm : kernel_stack_bm (vmm_kvm s') = kernel_stack_bm (vmm_kvm s);
  sd_tables : forall i, 768 <= i < 1024 -> exists q, tbl (mm_mem s') t i = Some q;
  sd_walk : forall p, 0 <= p < 1048576 -> walk (mm_mem s') t p = kernel_page (page_rights l) p;
  sd_heap : vmm_heap_end s' = vmm_heap_start s' + 1048576 /\
    heap_inv free_list (vmm_heap s') [mk_blk (vmm_heap_start s') 1048576 false] [vmm_heap_start s' + 8];
  sd_total : fa_total (mm_frames s') = boot_frames map;
  sd_frames : forall f, 0 <= f < boot_frames map -> boot_free f = false -> fa_used (mm_frames s') f = true;
  sd_mem : forall a, 0 <= (a - KERNEL_VIRT_OFFSET) / 4096 < boot_frames map ->
    boot_free ((a - KERNEL_VIRT_OFFSET) / 4096) = false -> ~ free_list <= a < free_list + 8 ->
    rd (mm_mem s') a = rd (mm_mem s) a /\ kept_word free_list [t] s' a
}.

Lemma typed_kheap_init : is_u32 free_list ->
  typed (fun st : kheap * pmm => heap_words (fst st)) (kheap_init free_list) any.
Proof.
  intros Hl. unfold kheap_init. eapply typed_bind.
  { apply (typed_zoom _ (fun _ => True)); [done | done |]. intros s a s' _ _. instantiate (1 := any). done. }
  intros [e|phys] _; [by apply typed_ret|].
  apply (typed_zoom _ heap_words); [done | done |]. unfold list_insert_front.
  repeat first [apply typed_in_mem | type_step].
  1,2: instantiate (1 := any); intros st r st' Hs [= <- <-]; done.
  all: apply typed_store32; unfold is_u32; lia.
Qed.

Lemma kheap_init_room k a n : fa_ok a -> 0 <= n -> lowmem_room a (256 + n) ->
  ends (kheap_init free_list) (fun r st => r = KERR_OK /\ lowmem_room (snd st) n) (k, a).
Proof.
  intros Hok Hn Hr. unfold kheap_init. apply ends_bind, ends_zoom, ends_wp.
  wp_use (alloc_lowmem_room a 256 n); [exact Hok | lia | unfold is_u32; lia | done | exact Hr |].
  intros r a' ([phys ->] & _ & Hr'). apply ends_zoom. cbv zeta. repeat (apply ends_bind, ends_any; intros ? ?). by apply ends_ret.
Qed.

(** The frames after [pmm_init]. *)
Definition boot_frames_ok (a : pmm) : Prop :=
  pmm_ok a /\ fa_total a = boot_frames map /\ forall f, 0 <= f < boot_frames map -> fa_used a f = negb (boot_free f).

Lemma free_list_used a f : boot_ok -> boot_frames_ok a ->
  (free_list - KERNEL_VIRT_OFFSET) / 4096 <= f <= (free_list + 7 - KERNEL_VIRT_OFFSET) / 4096 ->
  0 <= f < boot_frames map /\ fa_used a f = true.
Proof.
  intros [_ Hks Hke Hin _ _ (_ & Hl1 & Hl2) _] (_ & _ & Hu) Hf. unfold KERNEL_VIRT_BASE, KERNEL_VIRT_OFFSET in *.
  assert (0 <= f < boot_frames map) as Hr by dlia. split; [done|]. rewrite Hu by done.
  unfold boot_free, boot_reserved. replace (((kernel_start - KERNEL_VIRT_BASE) / 4096 <=? f) &&
    (f <? (kernel_end - KERNEL_VIRT_BASE + 4095) / 4096)) with true; [by rewrite orb_true_r, andb_false_r|].
  symmetry. apply andb_true_intro. unfold KERNEL_VIRT_BASE. rewrite Z.leb_le, Z.ltb_lt. dlia.
Qed.

Lemma tables_grow (m : mem) (a a' : pmm) R : tables_ok m a R -> frames_grow a a' -> tables_ok m a' R.
Proof.
  intros [H1 H2 H3 H4] Hg. split; [| done | | done].
  - intros r Hr. eapply page_frame_grow; [exact Hg | by apply H1].
  - intros r i q Hr Hi Eq. destruct (H3 r i q Hr Hi Eq) as [Hp Hn]. split; [by eapply page_frame_grow | done].
Qed.

(** Tables and the memory of a later allocation. *)
Lemma table_word_used (s : machine) R a : vm_ok s R -> table_word (vs_mem s) R a ->
  fa_used (vs_frames s) ((a - KERNEL_VIRT_OFFSET) / 4096) = true.
Proof.
  intros [_ _ [Hr _ Ht _]] (q & Hq & Ha). assert (page_frame (vs_frames s) q) as (Hqa & Hq0 & Hu & _).
  { destruct Hq as [Hq|(r & i & Hrr & Hi & Eq)]; [by apply Hr | by eapply Ht]. }
  by replace ((a - KERNEL_VIRT_OFFSET) / 4096) with (q / 4096) by (unfold KERNEL_VIRT_OFFSET in *; dlia).
Qed.

(** The heap on top of the kernel's space. *)
Lemma heap_stage_wp s a1 t s2 hs he :
  boot_ok -> boot_frames_ok a1 -> bitmap_ok (kernel_stack_bm (vmm_kvm s)) ->
  bm_nbits (kernel_stack_bm (vmm_kvm s)) = KERNEL_STACK_MAX ->
  kernel_space (set_vs_frames a1 (mm_vs s)) t (kernel_page (page_rights l)) s2 -> vs_cr3 s2 = t ->
  wp (zoom (fun s => (vmm_heap s, mm_frames s))
        (fun p s => let s1 := set_vmm_heap (fst p) s in
                    set_vmm_kvm (set_kv_vm (set_vs_frames (snd p) (mm_vs s1)) (vmm_kvm s1)) s1)
        (kheap_init free_list))
     (fun r s' => (forall n, 0 <= n -> lowmem_room (vs_frames s2) (256 + n) -> r = KERR_OK /\ lowmem_room (mm_frames s') n) /\ (r < 0 \/ r = KERR_OK /\ started s t s'))
     (mk_vmm (mk_kvm s2 (mk_space t) (kernel_stack_bm (vmm_kvm s))) hs he).
Proof.
  intros Hb Hf Hbm Hnb Hsp Hcr. pose proof Hsp as [Hok [Hgt Hgu] Htab Hfresh Hw Hmem].
  pose proof (bk_list Hb) as (Hla & Hl1 & Hl2). pose proof (bk_image Hb) as Hks. pose proof (bk_low Hb) as Hke.
  pose proof Hf as (Ha1 & Ht1 & Hu1). cbn [vs_frames set_vs_frames] in *.
  assert (free_list + 8 <= KERNEL_VIRT_OFFSET + KERNEL_LOWMEM_LIMIT /\ KERNEL_VIRT_OFFSET <= free_list) as [Hlow Hhigh]
    by (unfold KERNEL_VIRT_OFFSET, KERNEL_VIRT_BASE in *; lia).
  assert (forall f, (free_list - KERNEL_VIRT_OFFSET) / 4096 <= f <= (free_list + 7 - KERNEL_VIRT_OFFSET) / 4096 ->
            fa_used (vs_frames s2) f = true) as Hlist.
  { intros f Hr. destruct (free_list_used a1 f Hb Hf Hr) as [Hr' Hu]. apply Hgu; [lia | exact Hu]. }
  wp_step. cbn [vmm_kvm kv_vm]. unfold vmm_heap. cbn [vmm_kvm kv_vm vmm_heap_start vmm_heap_end].
  eapply (wp_ends _ _ (fun r st => (forall n, 0 <= n -> lowmem_room (vs_frames s2) (256 + n) -> r = KERR_OK /\ lowmem_room (snd st) n) /\
    heap_words (fst st))).
  { apply (kheap_init_wp free_list (mk_kheap (vs_mem s2) hs he) (vs_frames s2)); [exact (v_frames _ _ Hok) | | lia |].
    - unfold node_ok, valid. unfold KERNEL_VIRT_OFFSET, KERNEL_LOWMEM_LIMIT in *. split; (split; [dlia | lia]).
    - intros j Hj. apply Hlist. unfold KERNEL_VIRT_OFFSET in *. destruct Hj as [-> | ->]; dlia. }
  { intros r st E. split; [intros n Hn Hr; by apply (kheap_init_room _ _ n (v_frames _ _ Hok) Hn Hr _ _ E)|].
    apply (typed_kheap_init ltac:(unfold is_u32, KERNEL_VIRT_OFFSET, KERNEL_LOWMEM_LIMIT in *; lia)) in E; [apply E | apply Hok]. }
  intros r [h a2] [[Hr _]|(-> & f & Hle & Hst & Hen & Hinv & Ha2 & Hu2 & Hf0 & Hfree & Ht2 & Hm2)] [Hroom Hwords].
  { split; [done | by left]. }
  split; [done|]. right. split; [done|]. cbn [fst snd kh_mem] in *.
  destruct h as [hm h_start h_end]. cbn [kh_mem kheap_start kheap_end] in *. set (s' := set_vmm_kvm _ _).
  assert (forall a, heap_area free_list s' a -> KERNEL_VIRT_OFFSET <= a /\
    fa_used a2 ((a - KERNEL_VIRT_OFFSET) / 4096) = true /\ ~ table_word (vs_mem s2) [t] a) as Hsep.
  { intros a Ha. unfold heap_area in Ha. cbn in Ha.
    unfold KERNEL_VIRT_OFFSET in *. rewrite Hu2 by dlia. destruct Ha as [Ha|Ha].
    - split; [lia|]. assert (f <= (a - 3221225472) / 4096 < f + 256) as Hr by dlia.
      rewrite (proj2 (Z.leb_le _ _) (proj1 Hr)), (proj2 (Z.ltb_lt _ _) (proj2 Hr)). split; [done|].
      intros Htw. apply (table_word_used _ _ _ Hok) in Htw. unfold KERNEL_VIRT_OFFSET in Htw. by rewrite Hfree in Htw.
    - split; [lia|]. rewrite Hlist by dlia. split; [apply orb_true_r|].
      intros [_ Hx]%Hfresh. destruct (free_list_used a1 ((a - 3221225472) / 4096) Hb Hf) as [_ Hy]; [unfold KERNEL_VIRT_OFFSET; dlia|].
      unfold KERNEL_VIRT_OFFSET in Hx. congruence. }
  assert (forall a, table_word (vs_mem s2) [t] a -> rd hm a = rd (vs_mem s2) a) as Hkeep.
  { intros a Ha. apply Hm2; intros Hr; destruct (Hsep a) as (_ & _ & Hn); [by left | done | by right | done]. }
  assert (frames_grow (vs_frames s2) a2) as Hg2.
  { split; [done|]. intros j Hj Hx. rewrite Hu2, Hx by done. apply orb_true_r. }
  destruct (tables_frame s2 [t] hm Hok Hwords Hkeep) as ([_ _ Htb2] & Htbl & Hwalk).
  assert (vm_ok (mm_vs s') [t]) as Hvm'.
  { split; [exact Hwords | exact Ha2 |]. eapply tables_grow; [exact Htb2 | exact Hg2]. }
  assert (t ∈ [t]) as Hin by set_solver.
  split.
  - split; [exact Hvm' | |].
    + eexists _, _, []. split; [exact Hinv|]. split; [done | constructor].
    + intros a Ha. destruct (Hsep a Ha) as (_ & Hx & Hn). split; [|exact Hx].
      intros Htw. apply Hn. eapply table_word_tbl; [|exact Htw]. intros r i Hr Hi. by apply Htbl.
  - split; [exact Hvm' | exact Hin | done].
  - by split.
  - done.
  - intros i Hi. destruct (Htab i Hi) as [q Hq]. exists q. cbn. by rewrite Htbl by (done || lia).
  - intros p Hp. cbn. rewrite Hwalk by done. by apply Hw.
  - split; [done|]. exact Hinv.
  - change (fa_total a2 = boot_frames map). by rewrite Ht2, Hgt.
  - intros j Hj Hx. change (fa_used a2 j = true). rewrite Hu2 by lia. rewrite Hgu; [apply orb_true_r | lia |]. rewrite Hu1 by done. by rewrite Hx.
  - intros a Ha Hx Hl. assert (fa_used a1 ((a - KERNEL_VIRT_OFFSET) / 4096) = true) as Hy by (rewrite Hu1 by done; by rewrite Hx).
    assert (~ (h_start <= a < h_end)) as Hnh.
    { intros Hr. assert (f <= (a - KERNEL_VIRT_OFFSET) / 4096 < f + 256) as Hr' by (unfold KERNEL_VIRT_OFFSET in *; dlia).
      apply Hfree in Hr'. apply Hgu in Hy; [congruence | lia]. }
    assert (~ table_word (vs_mem s2) [t] a) as Hnt by (intros [_ Hz]%Hfresh; congruence).
    split; [cbn; rewrite Hm2; [by apply Hmem | lia | done]|].
    split; [unfold KERNEL_VIRT_OFFSET in *; clear -Ha; dlia|].
    split; [change (fa_used a2 ((a - KERNEL_VIRT_OFFSET) / 4096) = true); apply Hg2; [lia|]; by apply Hgu; [lia|]|].
    split; [intros [Hh|Hh]; [by apply Hnh | done]|].
    intros Htw. apply Hnt. eapply table_word_tbl; [|exact Htw]. intros r i Hr Hi. by apply Htbl.
Qed.

Lemma mm_init_wp rest s :
  boot_ok -> mem_ok (mm_mem s) -> bitmap_ok (kernel_stack_bm (vmm_kvm s)) ->
  bm_nbits (kernel_stack_bm (vmm_kvm s)) = KERNEL_STACK_MAX ->
  wp (mm_init free_list kernel_start kernel_end words (text_start l) (text_end l) (rodata_start l) (rodata_end l)
        (Some (map ++ rest)) (Z.of_nat (length map)))
     (fun r s' => (forall n, 0 <= n -> boot_room (513 + n) -> r = KERR_OK /\ lowmem_room (mm_frames s') n) /\
       (r < 0 \/ r = KERR_OK /\ exists t, started s t s')) s.
Proof.
  intros [[Hne Hen] Hks Hke Hin [Hw Hcap] Htot (Hla & Hl1 & Hl2) Hlay] Hm Hbm Hnb.
  unfold KERNEL_VIRT_BASE, KERNEL_VIRT_OFFSET, KERNEL_LOWMEM_LIMIT in *.
  unfold mm_init. do 4 wp_step.
  wp_use (pmm_init_wp map kernel_start kernel_end words rest); [done | done | by unfold KERNEL_VIRT_BASE; lia | lia | done..|].
  intros r a1 (-> & Ha1 & _ & Ht1 & Hu1). change (KERR_OK <? 0) with false. cbn iota.
  set (s1 := set_vs_frames a1 (mm_vs s)).
  assert (vm_ok s1 []) as Hok1.
  { split; [exact Hm | exact Ha1|]. split; by intros ? **; exfalso; set_solver. }
  unfold vmm_init. do 3 wp_step.
  wp_use (vm_kern_init_wp l (kernel_vm (vmm_kvm s)) s1 (kernel_stack_bm (vmm_kvm s))); [done | done |].
  assert (boot_frames_ok a1) as Hf1.
  { split; [done|]. split; [done|]. intros f Hf. cbn. rewrite Hu1 by done. unfold boot_free. by rewrite negb_andb, negb_involutive. }
  assert (forall n, boot_room (513 + n) -> lowmem_room (vs_frames s1) (257 + (256 + n))) as Hroom.
  { intros n (f & Hf0 & Hle & Hfree). exists f. split; [done|]. cbn. rewrite Ht1. split; [lia|].
    intros j Hj. destruct Hf1 as (_ & _ & Hu). cbn in Hu. rewrite Hu, Hfree by lia. done. }
  intros r k1 [Hr1 [Hr|(-> & t & s2 & -> & Hcr & Hsp)]].
  { rewrite (proj2 (Z.ltb_lt _ _) Hr). wp_step. rewrite (proj2 (Z.ltb_lt _ _) Hr). wp_step.
    split; [|by left]. intros n Hn Hx. destruct (Hr1 (256 + n) ltac:(lia) (Hroom n Hx)) as [-> _]. done. }
  change (KERR_OK <? 0) with false. cbn iota. wp_step. change (KERR_OK <? 0) with false. cbn iota. wp_step.
  wp_use (heap_stage_wp s a1 t s2 (vmm_heap_start s) (vmm_heap_end s)); [by split | done..|].
  cbn [kv_vm] in Hr1. intros r s' [Hr2 [Hr|[-> Hs]]].
  - rewrite (proj2 (Z.ltb_lt _ _) Hr). wp_step. split; [|by left]. intros n Hn Hx.
    destruct (Hr1 (256 + n) ltac:(lia) (Hroom n Hx)) as [_ Hy]. by apply Hr2.
  - change (KERR_OK <? 0) with false. cbn iota. wp_step. split.
    { intros n Hn Hx. destruct (Hr1 (256 + n) ltac:(lia) (Hroom n Hx)) as [_ Hy]. by apply Hr2. }
    right. split; [done|]. by exists t.
Qed.
End MmInit.

(** ** Property *)


(** A machine of 32 MiB: the kernel at 64 KiB, its code in the first two pages. *)
Definition map_32 : list boot_mem_map_entry := [mk_entry 0 654336 1 1; mk_entry 983040 65536 2 1; mk_entry 1048576 32505856 1 1].
Definition layout_32 : layout := mk_layout 3221291008 3221299200 3221299200 3221303296.
Definition mm_unset : mm :=
  mk_vmm (mk_kvm (mk_vmstate ∅ pmm_sample 0 []) (mk_space 0) (mk_bitmap [0; 0] 64 2)) 0 0.

Lemma boot_ok_32 : boot_ok 3221303296 map_32 3221291008 3221307392 (replicate 256 0) layout_32.
Proof.
  assert (boot_frames map_32 = 8192) as Hf by (vm_compute; reflexivity).
  split; rewrite ?Hf.
  - split; [done|]. by repeat constructor.
  - unfold KERNEL_VIRT_BASE. lia.
  - unfold KERNEL_VIRT_OFFSET, KERNEL_LOWMEM_LIMIT. lia.
  - unfold KERNEL_VIRT_BASE. lia.
  - split; [|by rewrite length_replicate]. apply Forall_replicate. unfold is_u32. lia.
  - lia.
  - repeat split; lia.
  - unfold layout_ok, pages_ok, KERNEL_VIRT_OFFSET, KERNEL_DIRECT_MAP_SIZE. cbn. repeat split; first [reflexivity | lia].
Qed.

Lemma room_32 n : 0 <= n <= 15 -> boot_room map_32 3221291008 3221307392 (513 + n).
Proof.
  intros Hn. exists 256. split; [lia|]. split; [change (Z.min LOWMEM_FRAMES (boot_frames map_32)) with 8192; lia|].
  assert (forallb (boot_free map_32 3221291008 3221307392) (seqZ 256 528) = true) as Hall by (vm_compute; reflexivity).
  intros j Hj. rewrite forallb_forall in Hall. apply Hall, list_elem_of_In, elem_of_seqZ. lia.
Qed.

