(* ===== verification/VmSpace.v ===== *)
(** * Whole address spaces

    The theorems on the operations of [kernel/mm/vmm.c] that treat whole VMAs or whole
    spaces: [vm_protect] and [vm_space_destroy]. *)

From S2P Require Import Prelude Base Memory KList KMem Bitmap Pmm Frames Kheap KheapClient HeapLive Paging PagingProps KernelVm Vmm Words VmaList Mm.

Section Spec.
Variable kheap_free_list : Z.

Abbreviation mm_ok := (mm_ok kheap_free_list).
Abbreviation mm_inv := (mm_inv kheap_free_list).

(** ** [vm_space_destroy] *)

Definition vm_space_destroy_post (R : list Z) (vm : vm_space) (Lo : list (Z * Z)) (s : mm) (s' : mm) : Prop :=
  exists Lx, unfreed (vmm_heap s) Lx /\ mm_inv s' R (Lx ++ Lo) /\ same_kernel s s' /\ objs_kept vm Lo s s' /\
    dll (mm_mem s') (vmas vm) [] /\
    (forall r q, r ∈ R -> 0 <= q < 1048576 -> walk (mm_mem s') r q = walk (mm_mem s) r q) /\
    (forall j, 0 <= j -> owned (mm_mem s) (pd_phys (vm_arch vm)) j -> fa_used (mm_frames s') j = false) /\
    (forall j, 0 <= j -> ~ owned (mm_mem s) (pd_phys (vm_arch vm)) j -> fa_used (mm_frames s') j = fa_used (mm_frames s) j).

(** Giving a space without VMAs back. *)
Lemma arch_destroy_wp s R vm Lo :
  mm_ok s (pd_phys (vm_arch vm) :: R) vm [] [] Lo -> (pd_phys (vm_arch vm) ∉ R) ->
  wp (zoom vmm_kvm set_vmm_kvm (zoom kv_vm set_kv_vm (arch_vm_space_destroy (Some (vm_arch vm))))) (fun res s' =>
    res = (KERR_OK, Some (mk_space 0)) /\ mm_inv s' R Lo /\ same_kernel s s' /\ mm_mem s' = mm_mem s /\
    (forall j, 0 <= j -> owned (mm_mem s) (pd_phys (vm_arch vm)) j -> fa_used (mm_frames s') j = false) /\
    (forall j, 0 <= j -> ~ owned (mm_mem s) (pd_phys (vm_arch vm)) j -> fa_used (mm_frames s') j = fa_used (mm_frames s) j)) s.
Proof.
  intros Hmm HnR. set (r := pd_phys (vm_arch vm)) in *. do 2 wp_step.
  wp_use (arch_vm_space_destroy_wp (mm_vs s) R (vm_arch vm)); [apply (mm_vm _ _ _ _ _ _ _ Hmm) | done|].
  intros res vm' (-> & Em & _ & Hok & Hfree & Hkept). split; [done|].
  split; [|split; [done|]; split; [exact Em|]; split; [exact Hfree | exact Hkept]].
  pose proof (mm_ok_inv _ _ _ _ _ _ _ Hmm) as Hmi. cbn [map app] in Hmi. split; [exact Hok | |].
  - unfold vmm_heap. cbn. rewrite Em. exact (mi_heap _ _ _ _ Hmi).
  - intros a Ha. change (heap_area kheap_free_list s a) in Ha. destruct (mi_sep _ _ _ _ Hmi a Ha) as [Hn Hus].
    pose proof (heap_area_low _ _ _ _ _ Hmi Ha). assert (0 <= (a - KERNEL_VIRT_OFFSET) / 4096) as H0 by dlia. split.
    + cbn. rewrite Em. intros (q & [Hq|(r' & i & Hr & Hi & Hq)] & Hqa); apply Hn; exists q; (split; [|done]).
      * left. by apply list_elem_of_further.
      * right. exists r', i. split; [by apply list_elem_of_further | done].
    + cbn. rewrite Hkept; [done | done|]. intros Ho. apply Hn.
      assert (Htab : forall q, table_page (mm_mem s) (r :: R) q -> q mod 4096 = 0).
      { intros q Hq. pose proof (v_tables _ _ (mm_vm _ _ _ _ _ _ _ Hmm)) as Ht. destruct Hq as [Hq|(r' & i & Hr & Hi & Hq)].
        - by destruct (t_root _ _ _ Ht q Hq) as (? & _).
        - by destruct (t_table _ _ _ Ht r' i q Hr Hi Hq) as [(? & _) _]. }
      destruct Ho as [Hj|(i & Hi & Hj)].
      * assert (table_page (mm_mem s) (r :: R) r) as Hp by (left; apply list_elem_of_here). exists r. split; [done|].
        specialize (Htab r Hp). fold r in Hj. dlia.
      * assert (table_page (mm_mem s) (r :: R) (4096 * ((a - KERNEL_VIRT_OFFSET) / 4096))) as Hp.
        { right. exists r, i. split; [apply list_elem_of_here | split; [lia | done]]. }
        exists (4096 * ((a - KERNEL_VIRT_OFFSET) / 4096)). split; [done | dlia].
Qed.

Lemma vm_space_destroy_wp s R vm ps vs Lo :
  mm_ok s (pd_phys (vm_arch vm) :: R) vm ps vs Lo -> (pd_phys (vm_arch vm) ∉ R) ->
  wp (vm_space_destroy kheap_free_list (Some vm)) (fun res s' =>
    res = (KERR_OK, Some (mk_vm_space (vmas vm) (mk_space 0))) /\ vm_space_destroy_post R vm Lo s s') s.
Proof.
  intros Hmm HnR. pose proof (mm_space _ _ _ _ _ _ _ Hmm) as Hsp. pose proof (so_list _ _ _ _ _ _ Hsp) as Hd.
  destruct (dll_node_ok _ _ _ (vmas vm) Hd (list_elem_of_here _ _)) as [Hv0 _]. destruct (dll_ends _ _ _ Hd) as [Hnx _].
  assert (Hid : set_vmm_heap (set_kh_mem (mm_mem s) (vmm_heap s)) s = s) by exact (set_vmm_heap_id s).
  change (kh_mem (vmm_heap s)) with (mm_mem s) in Hnx.
  assert (length ps < kheap_fuel (vmm_heap s))%nat as Hfuel.
  { pose proof (heap_ok_fuel _ _ _ (so_heap _ _ _ _ _ _ Hsp)) as Hf. rewrite length_app, length_map in Hf. lia. }
  unfold vm_space_destroy. do 5 wp_step. unfold get_next. apply load32_wp; [done|]. change (kh_mem (vmm_heap s)) with (mm_mem s).
  rewrite Hid, Hnx. fold (after_gap (vmas vm) (map (fun p => p + 12) ps)).
  set (node := after_gap (vmas vm) (map (fun p => p + 12) ps)).
  assert (node_ok node) as [Hvn _].
  { apply (dll_node_ok _ _ _ _ Hd). unfold node. destruct ps; [apply list_elem_of_here | apply list_elem_of_further, list_elem_of_here]. }
  do 3 wp_step. apply load32_wp; [done|]. change (kh_mem (vmm_heap s)) with (mm_mem s). rewrite Hid. do 2 wp_step.
  assert (ps <> [] -> rd (mm_mem s) node = after_gap (vmas vm) (map (fun p => p + 12) (tl ps))) as Hnext.
  { intros Hps. destruct ps as [|p ps']; [done|]. exact (dll_next _ _ [] _ _ Hd). }
  pose proof (wp_typed heap_words _ _ _ _ (free_vmas_wp kheap_free_list vm ps vs Lo _ _ _ Hsp Hfuel Hnext)
    (typed_free_vmas kheap_free_list (heap_list_u32 _ _ _ (so_heap _ _ _ _ _ _ Hsp)) _ _ _ _) (v_mem _ _ (mm_vm _ _ _ _ _ _ _ Hmm))) as Hwp.
  wp_use Hwp. intros _ h' ((Lx & Hsp' & Hun & Hfr) & Hm & _).
  destruct (mm_heap_step _ _ _ _ _ _ _ _ _ _ _ Hmm Hm Hfr Hsp') as [Hmm' Hw].
  pose proof (heap_step_tbl _ _ _ _ _ _ _ _ Hmm Hm Hfr) as Htb. pose proof (vma_frame_objs _ _ _ _ _ Hfr) as Hobj.
  set (s1 := set_vmm_heap h' s) in *.
  assert (same_kernel s s1) as Hk1 by (destruct Hfr as (? & ? & _); by repeat split).
  assert (Hown : forall j, owned (mm_mem s1) (pd_phys (vm_arch vm)) j <-> owned (mm_mem s) (pd_phys (vm_arch vm)) j).
  { intros j. unfold owned. split; (intros [->|(i & Hi & Ht)]; [by left|]; right; exists i; split; [done|]).
    - rewrite <- Htb by (lia || apply list_elem_of_here). exact Ht.
    - etrans; [|exact Ht]. apply Htb; [apply list_elem_of_here | lia]. }
  wp_step. wp_use arch_destroy_wp; [exact Hmm' | done|]. intros res s2 (-> & Hmi2 & Hk2 & Em2 & Hfree & Hkept). wp_step.
  split; [done|]. exists Lx. split; [done|]. split; [done|]. split; [by eapply same_kernel_trans|].
  split; [intros q sz a Hin Ha N1 N2; rewrite Em2; by apply (Hobj q sz)|].
  split; [rewrite Em2; apply (so_list _ _ _ _ _ _ Hsp')|].
  split; [intros r q Hr Hq; rewrite Em2; apply Hw; [by apply list_elem_of_further | done]|].
  split; intros j Hj Ho; [apply Hfree; [done | by apply Hown]|]. rewrite Hkept; [done | done|]. by rewrite Hown.
Qed.

(** ** [vm_protect] *)

(** A change of flags keeps the intervals in order. *)
Lemma vmas_ok_flags vs1 v v' vs2 : va_start v' = va_start v -> va_end v' = va_end v ->
  vmas_ok (vs1 ++ v :: vs2) -> vmas_ok (vs1 ++ v' :: vs2).
Proof.
  intros E1 E2 [Hs Hb]. split.
  - revert Hs. clear Hb. generalize 0. induction vs1 as [|u vs1 IH]; intros lo; cbn [app sorted_from]; [by rewrite E1, E2|].
    intros (? & ? & ?). split; [done|]. split; [done|]. by apply IH.
  - apply Forall_app in Hb as [Hb1 Hb2]. apply Forall_cons in Hb2 as [Hb2 Hb3]. apply Forall_app. split; [done|].
    constructor; [by rewrite E2 | done].
Qed.

(** Two VMAs are apart. *)
Lemma objs_apart ps1 p ps2 Lo q : ForallOrdPairs disjoint (map (fun p => (p, sizeof_vma)) (ps1 ++ p :: ps2) ++ Lo) ->
  q ∈ ps1 \/ q ∈ ps2 -> p + 20 <= q \/ q + 20 <= p.
Proof.
  intros Hd Hq. rewrite map_app, <- app_assoc in Hd. cbn [map app] in Hd.
  assert (disjoint (q, sizeof_vma) (p, sizeof_vma) \/ disjoint (p, sizeof_vma) (q, sizeof_vma)) as Hdis.
  { destruct Hq as [Hq|Hq].
    - left. apply (fop_app _ _ _ Hd); [by apply (list_elem_of_fmap_2 (fun p => (p, sizeof_vma))) | apply list_elem_of_here].
    - right. clear -Hd Hq. induction ps1 as [|u ps1 IH]; cbn [map app] in Hd; inversion Hd as [|? ? Hall Hd']; subst; [|by apply IH].
      rewrite Forall_forall in Hall. apply Hall, elem_of_app. left. by apply (list_elem_of_fmap_2 (fun p => (p, sizeof_vma))). }
  unfold disjoint, sizeof_vma in Hdis. cbn in Hdis. lia.
Qed.

(** Storing new flags in the VMA at [p]. *)
Lemma set_flags_wp s R vm ps1 p ps2 vs1 v vs2 Lo flags :
  mm_ok s R vm (ps1 ++ p :: ps2) (vs1 ++ v :: vs2) Lo -> length ps1 = length vs1 -> is_u32 flags ->
  wp (zoom vmm_heap set_vmm_heap (zoom kh_mem set_kh_mem (set_vma_flags p flags))) (fun _ s' =>
    same_kernel s s' /\ mm_frames s' = mm_frames s /\
    mm_ok s' R vm (ps1 ++ p :: ps2) (vs1 ++ mk_vma (va_start v) (va_end v) flags :: vs2) Lo /\
    forall r q, r ∈ R -> 0 <= q < 1048576 -> walk (mm_mem s') r q = walk (mm_mem s) r q) s.
Proof.
  intros Hmm Hlen Hf. pose proof (mm_space _ _ _ _ _ _ _ Hmm) as Hsp. destruct (Hmm) as [Hvm _ Hh Hr Hsep].
  assert (p ∈ ps1 ++ p :: ps2) as Hp by (apply elem_of_app; right; apply list_elem_of_here).
  destruct (space_obj _ _ _ _ _ _ p Hsp Hp) as (Hp1 & Hp2 & Hp3).
  destruct (obj_addrs p) as (_ & _ & _ & E8 & _ & _ & V8 & _); [done..|].
  destruct (heap_ok_disjoint _ _ _ (so_heap _ _ _ _ _ _ Hsp)) as [Hdis Hall].
  assert (heap_area kheap_free_list s (p + 8)) as Har.
  { rewrite Forall_forall in Hall. destruct (Hall (p, sizeof_vma)) as (B1 & B2 & _).
    - apply elem_of_app. left. by apply (list_elem_of_fmap_2 (fun p => (p, sizeof_vma))).
    - cbn in B1, B2. unfold sizeof_vma in B2. left. lia. }
  unfold set_vma_flags. do 2 wp_step. rewrite E8. apply store32_wp; [done|].
  set (m' := wr (mm_mem s) (p + 8) flags).
  destruct (tables_frame (mm_vs s) R m' Hvm) as (Hvm' & Htb & Hw).
  { apply mem_ok_wr; [apply (v_mem _ _ Hvm) | done]. }
  { intros a Ha. unfold m'. apply rd_wr_ne. intros <-. by apply (Hsep (p + 8)). }
  split; [done|]. split; [done|]. split; [|exact Hw]. split; [exact Hvm' | | done | done|].
  - pose proof (so_vmas _ _ _ _ _ _ Hsp) as Hv. split; [| | | exact (so_head _ _ _ _ _ _ Hsp) | ].
    + apply (heap_ok_frame kheap_free_list (vmm_heap s)); [exact (so_heap _ _ _ _ _ _ Hsp)|]. intros a Ha. apply rd_wr_ne.
      intros <-. apply Ha. right. exists p, sizeof_vma. split; [|unfold sizeof_vma; lia].
      apply elem_of_app. left. by apply (list_elem_of_fmap_2 (fun p => (p, sizeof_vma))).
    + apply (dll_ext (mm_mem s)); [|exact (so_list _ _ _ _ _ _ Hsp)]. intros a Ha. apply rd_wr_ne.
      intros <-. by apply (word_not_node _ _ _ _ _ _ p (p + 8) Hsp Hp ltac:(lia)).
    + apply Forall2_app_inv in Hv as [Hv1 Hv2]; [|done]. inversion Hv2 as [|? ? ? ? (W1 & W2 & _) Hv3]; subst.
      assert (Hother : forall q w, q ∈ ps1 \/ q ∈ ps2 -> vma_at (mm_mem s) q w -> vma_at m' q w).
      { intros q w Hq. apply vma_at_ext. intros a Ha. apply rd_wr_ne. destruct (objs_apart _ _ _ _ _ Hdis Hq); lia. }
      apply Forall2_app; [|constructor].
      * apply (forall2_mono_in (vma_at (mm_mem s))); [intros q w Hq; apply Hother; by left | done].
      * unfold vma_at, m'. cbn. rewrite rd_wr_eq, !rd_wr_ne by lia. done.
      * apply (forall2_mono_in (vma_at (mm_mem s))); [intros q w Hq; apply Hother; by right | done].
    + by apply (vmas_ok_flags vs1 v), (so_ok _ _ _ _ _ _ Hsp).
  - intros a Ha. change (heap_area kheap_free_list s a) in Ha. destruct (Hsep a Ha) as [Hn Hu]. split; [|done].
    intros (t & Ht & Hta). apply Hn. exists t. split; [|done].
    destruct Ht as [Ht|(r & i & Hrr & Hi & Ht)]; [by left|]. right. exists r, i. rewrite <- Htb by done. done.
Qed.

(** The outcome of [vm_protect]. *)
Definition vm_protect_post (R : list Z) (vm : vm_space) (ps : list Z) (vs : list vma) (Lo : list (Z * Z)) (virt size flags : Z)
    (s : mm) (res : Z) (s' : mm) : Prop :=
  let r := pd_phys (vm_arch vm) in
  let changed k := forall r' q, r' ∈ R -> 0 <= q < 1048576 -> walk (mm_mem s') r' q =
    if (r' =? r) && ((virt / 4096 <=? q) && (q <? virt / 4096 + k)) then reprotect flags (walk (mm_mem s) r q)
    else walk (mm_mem s) r' q in
  (not_whole vs virt size res /\ s' = s) \/
  (add_args_ok virt size /\ same_kernel s s' /\ exists vs1 f vs2, vs = vs1 ++ mk_vma virt (virt + size) f :: vs2 /\
   ((res = KERR_OK /\ (forall i, 0 <= i < size / 4096 -> walk (mm_mem s) r (virt / 4096 + i) <> None) /\
     mm_ok s' R vm ps (vs1 ++ mk_vma virt (virt + size) flags :: vs2) Lo /\ changed (size / 4096)) \/
    (res = - KERR_NOENT /\ exists k, 0 <= k < size / 4096 /\ walk (mm_mem s) r (virt / 4096 + k) = None /\
     mm_ok s' R vm ps vs Lo /\ changed k))).

Lemma vm_protect_wp s R vm ps vs Lo virt size flags :
  mm_ok s R vm ps vs Lo -> is_u32 virt -> is_u32 size -> is_u32 flags -> virt + size <> 4294967296 ->
  wp (vm_protect (Some vm) virt size flags) (vm_protect_post R vm ps vs Lo virt size flags s) s.
Proof.
  intros Hmm Hv Hs Hf Hne. unfold vm_protect. cbv zeta. eapply whole_vma_wp; [exact Hmm | done.. | intros res Hno; by left|].
  intros ps1 p ps2 vs1 f vs2 -> -> Hlen Hg. destruct (user_pages _ _ Hv Hs Hg) as (Hb1 & Hb2 & Hvs & Hargs).
  pose proof (mm_root _ _ _ _ _ _ _ Hmm) as Hr. pose proof (mm_vm _ _ _ _ _ _ _ Hmm) as Hvm. wp_steps.
  wp_use (arch_vm_protect_wp (mm_vs s) R (vm_arch vm) virt size flags); [exact Hvm | exact Hr | unfold is_u32 in *; lia..|].
  intros res vm' [(Hbad & _)|(_ & o & -> & k & Hk & Hst & Hset & HP & _ & _ & Ho)]; [by exfalso|].
  pose proof (mm_pt_step _ s R vm _ _ Lo _ vm' Hmm Hr Hst) as Hmm2.
  pose proof (user_range_set R _ (mm_vs s) vm' (virt / 4096) k (fun _ => reprotect flags) Hvm Hr Hb1 ltac:(lia) Hset) as Hpages.
  set (s2 := set_vmm_kvm (set_kv_vm vm' (vmm_kvm s)) s) in *.
  destruct o as [[]|e]; cbn [loop_code].
  - subst k. change (KERR_OK <? 0) with false. cbn iota. wp_step.
    wp_use (set_flags_wp s2 R vm ps1 p ps2 vs1 (mk_vma virt (virt + size) f) vs2 Lo flags); [exact Hmm2 | done | done|].
    intros _ s3 (Hk3 & _ & Hmm3 & Hw3). wp_step. right. split; [done|]. split; [exact Hk3|].
    exists vs1, f, vs2. split; [done|]. left. split; [done|]. split; [exact HP|]. split; [done|].
    intros r' q Hr' Hq. rewrite Hw3 by done. by apply Hpages.
  - destruct Ho as (Hkn & Hn & ->). wp_steps. right. split; [done|]. split; [done|].
    exists vs1, f, vs2. split; [done|]. right. split; [done|]. exists k. split; [lia|]. split; [done|].
    split; [done | exact Hpages].
Qed.
End Spec.

(** The sample's space with one VMA. *)
Lemma mapped_sample : exists s1 ps1, vm_map sentinel (Some mm_space_sample) 4096 8192 8192 11 mm_sample = Some (KERR_OK, s1) /\
  mm_ok sentinel s1 [135168; 131072] mm_space_sample ps1 [mk_vma 4096 12288 11] [(mm_obj, 8)].
Proof.
  assert (option_map fst (vm_map sentinel (Some mm_space_sample) 4096 8192 8192 11 mm_sample) = Some KERR_OK) as E
    by (vm_compute; reflexivity).
  pose proof (vm_map_wp sentinel mm_sample [135168; 131072] mm_space_sample [] [] [(mm_obj, 8)] 4096 8192 8192 11
    mm_sample_ok ltac:(unfold is_u32; lia) ltac:(unfold is_u32; lia) ltac:(unfold is_u64; lia) ltac:(unfold is_u32; lia)
    ltac:(lia)) as H. revert E H. generalize mm_sample as s0. intros s0 E H.
  apply wp_run in H as (res & s1 & Hrun & Hpost). rewrite Hrun in E. injection E as ->.
  destruct Hpost as [(_ & Hbad & _)|(_ & [(Hbad & _)|(_ & [[Hbad _]|[(_ & _ & _ & (ps1 & Hok1) & _)|(Hbad & _)]])])];
    [discriminate Hbad..| |discriminate Hbad].
  exists s1, ps1. split; [exact Hrun | exact Hok1].
Qed.

Lemma sample_root : pd_phys (vm_arch mm_space_sample) ∉ [131072].
Proof. intros H%list_elem_of_singleton. discriminate H. Qed.

(** ** Properties *)



(** C9. [vm_space_destroy] always terminates and gives a space back, whatever its
    VMAs are: the loop that unlinks and frees the node it stands on visits every VMA.
    It returns [KERR_OK] with the directory cleared; the frames of the directory and of
    the private page tables are free again and no other frame changes; the VMA objects
    are released (all but one that lies in the last block of the heap, which [kfree]
    refuses), the list is empty; the other spaces translate as before and the other
    objects are unchanged. *)
Theorem vm_space_destroy_correct (free_list : Z) (s : mm) R vm ps vs Lo :
  mm_ok free_list s (pd_phys (vm_arch vm) :: R) vm ps vs Lo -> (pd_phys (vm_arch vm) ∉ R) ->
  exists s', vm_space_destroy free_list (Some vm) s = Some ((KERR_OK, Some (mk_vm_space (vmas vm) (mk_space 0))), s') /\
    vm_space_destroy_post free_list R vm Lo s s'.
Proof.
  intros Hmm HnR. destruct (proj1 (wp_run _ _ _) (vm_space_destroy_wp _ _ _ _ _ _ _ Hmm HnR)) as (res & s' & Hrun & -> & Hpost).
  by exists s'.
Qed.

Lemma vm_space_destroy_correct_witness :
  exists s1 s2, vm_map sentinel (Some mm_space_sample) 4096 8192 8192 11 mm_sample = Some (KERR_OK, s1) /\
    vm_space_destroy sentinel (Some mm_space_sample) s1 = Some ((KERR_OK, Some (mk_vm_space mm_obj (mk_space 0))), s2) /\
    vm_space_destroy_post sentinel [131072] mm_space_sample [(mm_obj, 8)] s1 s2.
Proof.
  destruct mapped_sample as (s1 & ps1 & Hrun & Hok). exists s1.
  destruct (vm_space_destroy_correct sentinel s1 [131072] mm_space_sample ps1 _ _ Hok sample_root) as (s2 & Hrun2 & Hpost).
  exists s2. exact (conj Hrun (conj Hrun2 Hpost)).
Defined.
