(* ===== verification/Buffer.v ===== *)
(** * Arrays

    An array object is a [list Z]; access outside of it is undefined.  C strings
    passed to a function are the bytes of the array they point into, up to and
    including a terminating zero. *)

From S2P Require Import Prelude.

Definition buf_get (i : Z) : M (list Z) Z := fun b =>
  if (0 <=? i) && (i <? Z.of_nat (length b)) then Some (b !!! Z.to_nat i, b) else None.
Definition buf_set (i v : Z) : M (list Z) unit := fun b =>
  if (0 <=? i) && (i <? Z.of_nat (length b)) then Some (tt, <[Z.to_nat i := v]> b) else None.

Lemma in_range_bool b i : 0 <= i < Z.of_nat (length (A := Z) b) -> ((0 <=? i) && (i <? Z.of_nat (length b))) = true.
Proof. intros [H1 H2]. apply andb_true_iff. by rewrite Z.leb_le, Z.ltb_lt. Qed.

Lemma buf_get_wp b i (Q : Z -> list Z -> Prop) :
  0 <= i < Z.of_nat (length b) -> Q (b !!! Z.to_nat i) b -> wp (buf_get i) Q b.
Proof. intros Hi HQ. unfold wp, buf_get. by rewrite in_range_bool. Qed.

Lemma buf_set_wp b i v (Q : unit -> list Z -> Prop) :
  0 <= i < Z.of_nat (length b) -> Q tt (<[Z.to_nat i := v]> b) -> wp (buf_set i v) Q b.
Proof. intros Hi HQ. unfold wp, buf_set. by rewrite in_range_bool. Qed.

Lemma lookup_total_set b i j v : 0 <= i < Z.of_nat (length b) -> 0 <= j < Z.of_nat (length b) ->
  <[Z.to_nat i := v]> b !!! Z.to_nat j = (if j =? i then v else b !!! Z.to_nat j) :> Z.
Proof.
  intros Hi Hj. destruct (Z.eqb_spec j i) as [->|Hne].
  - apply list_lookup_total_insert_eq. lia.
  - apply list_lookup_total_insert_ne. lia.
Qed.

(** Overwriting the part of an array from [n] on by one more byte. *)
Lemma set_snoc b l v n : length l = n -> (n < length b)%nat ->
  <[n := v]> (l ++ drop n b) = (l ++ [v]) ++ drop (S n) b :> list Z.
Proof.
  intros Hl Hn. rewrite insert_app_r_alt by lia. replace (n - length l)%nat with O by lia.
  rewrite <- app_assoc. f_equal. destruct (drop n b) as [|x t] eqn:E.
  - apply (f_equal length) in E. rewrite length_drop in E. simpl in E. lia.
  - simpl. f_equal. replace (S n) with (n + 1)%nat by lia. rewrite <- drop_drop, E. done.
Qed.
