(* ===== verification/Ringbuf.v ===== *)
(** * Ring buffer and system log

    Models [kernel/klib/ringbuf.c] and [kernel/log/syslog.c] and proves that the
    ring buffer is a bounded queue whose counters may wrap, and that the log keeps
    the last 4096 bytes written. *)

From S2P Require Import Prelude Base Buffer.

Record ringbuf := mk_ringbuf {
  rb_buf : list Z;
  rb_cap : Z;
  rb_head : Z;
  rb_tail : Z
}.

Definition set_rb_buf (b : list Z) (rb : ringbuf) : ringbuf := mk_ringbuf b (rb_cap rb) (rb_head rb) (rb_tail rb).
Definition set_rb_head (v : Z) (rb : ringbuf) : ringbuf := mk_ringbuf (rb_buf rb) (rb_cap rb) v (rb_tail rb).
Definition set_rb_tail (v : Z) (rb : ringbuf) : ringbuf := mk_ringbuf (rb_buf rb) (rb_cap rb) (rb_head rb) v.

Abbreviation in_buf := (zoom rb_buf set_rb_buf).

Definition ringbuf_init (storage : list Z) (cap : Z) : M ringbuf unit :=
  modify (fun _ => mk_ringbuf storage cap 0 0).

Definition ringbuf_is_empty : M ringbuf bool := gets (fun rb => rb_head rb =? rb_tail rb).
Definition ringbuf_len : M ringbuf Z := gets (fun rb => u32 (rb_head rb - rb_tail rb)).
Definition ringbuf_is_full : M ringbuf bool := gets (fun rb => u32 (rb_head rb - rb_tail rb) =? rb_cap rb).
Definition ringbuf_available : M ringbuf Z := gets (fun rb => u32 (rb_cap rb - u32 (rb_head rb - rb_tail rb))).

Definition ringbuf_overwrite (data : Z) : M ringbuf unit :=
  full <-- ringbuf_is_full ;;
  (if full then modify (fun rb => set_rb_tail (u32 (rb_tail rb + 1)) rb) else ret tt) ;;;
  i <-- gets (fun rb => Z.land (rb_head rb) (u32 (rb_cap rb - 1))) ;;
  in_buf (buf_set i data) ;;;
  modify (fun rb => set_rb_head (u32 (rb_head rb + 1)) rb).

Definition ringbuf_push (data : Z) : M ringbuf bool :=
  full <-- ringbuf_is_full ;;
  if full then ret false
  else
    ringbuf_overwrite data ;;;
    ret true.

(** The result is [None] for [false], and [Some data] for [true]; a NULL pointer for
    the data ([want = false]) skips the read. *)
Definition ringbuf_pop (want : bool) : M ringbuf (option (option Z)) :=
  empty <-- ringbuf_is_empty ;;
  if empty then ret None
  else
    data <-- (if want then
                i <-- gets (fun rb => Z.land (rb_tail rb) (u32 (rb_cap rb - 1))) ;;
                c <-- in_buf (buf_get i) ;;
                ret (Some c)
              else ret None) ;;
    modify (fun rb => set_rb_tail (u32 (rb_tail rb + 1)) rb) ;;;
    ret (Some data).

Definition ringbuf_peek (index : Z) (want : bool) : M ringbuf (option (option Z)) :=
  len <-- ringbuf_len ;;
  if len <=? index then ret None
  else
    calc_idx <-- gets (fun rb => Z.land (u32 (rb_tail rb + index)) (u32 (rb_cap rb - 1))) ;;
    if want then
      c <-- in_buf (buf_get calc_idx) ;;
      ret (Some (Some c))
    else ret (Some None).

(** ** The system log *)

Definition SYSLOG_BUFFER_SIZE : Z := 4096.

Record syslog := mk_syslog {
  syslog_rb : ringbuf;
  syslog_ready : bool
}.

Definition set_syslog_rb (rb : ringbuf) (s : syslog) : syslog := mk_syslog rb (syslog_ready s).

Abbreviation in_rb := (zoom syslog_rb set_syslog_rb).

(** [syslog_storage] is an array of zeros when the kernel starts. *)
Definition syslog_init (syslog_storage : list Z) : M syslog unit :=
  in_rb (ringbuf_init syslog_storage SYSLOG_BUFFER_SIZE) ;;;
  modify (fun s => mk_syslog (syslog_rb s) true).

Definition syslog_putc (c : Z) : M syslog unit :=
  ready <-- gets syslog_ready ;;
  if negb ready then ret tt else in_rb (ringbuf_overwrite (u8 c)).

(** [str] is the array from [str] on; running past its end is undefined. *)
Fixpoint syslog_write (str : list Z) : M syslog unit :=
  match str with
  | [] => undefined
  | c :: str' => if c =? 0 then ret tt else syslog_putc c ;;; syslog_write str'
  end.

Definition syslog_len : M syslog Z :=
  ready <-- gets syslog_ready ;;
  if negb ready then ret 0 else in_rb ringbuf_len.

(** The caller's array [dst] ([None] for NULL) is part of the state. *)
Definition syslog_read (dst : bool) (size : Z) : M (syslog * list Z) Z :=
  ready <-- gets (fun s => syslog_ready s.1) ;;
  if negb ready || negb dst || (size =? 0) then ret 0
  else
    len <-- zoom fst (fun a s => (a, s.2)) (in_rb ringbuf_len) ;;
    let len := if size <=? len then size - 1 else len in
    for_each 0 len (fun i =>
      r <-- zoom fst (fun a s => (a, s.2)) (in_rb (ringbuf_peek i true)) ;;
      match r with
      | Some (Some c) => zoom snd (fun b s => (s.1, b)) (buf_set i c)
      | _ => ret tt
      end) ;;;
    zoom snd (fun b s => (s.1, b)) (buf_set len 0) ;;;
    ret len.

(** ** The queue *)

Definition rb_len (rb : ringbuf) : Z := u32 (rb_head rb - rb_tail rb).

(** Byte [i] of the queue, the oldest being byte 0. *)
Definition rb_at (rb : ringbuf) (i : Z) : Z := rb_buf rb !!! Z.to_nat ((rb_tail rb + i) mod rb_cap rb).

Definition contents (rb : ringbuf) : list Z := map (rb_at rb) (seqZ 0 (rb_len rb)).

Record ringbuf_ok (rb : ringbuf) : Prop := {
  ro_cap : exists k, 0 <= k < 32 /\ rb_cap rb = 2 ^ k;
  ro_buf : Z.of_nat (length (rb_buf rb)) = rb_cap rb;
  ro_head : is_u32 (rb_head rb);
  ro_tail : is_u32 (rb_tail rb);
  ro_len : rb_len rb <= rb_cap rb
}.

Lemma cap_facts k : 0 <= k < 32 -> 0 < 2 ^ k <= 2147483648 /\ (2 ^ k | 4294967296).
Proof.
  intros Hk. split.
  - split; [by apply Z.pow_pos_nonneg; lia|]. change 2147483648 with (2 ^ 31). apply Z.pow_le_mono_r; lia.
  - exists (2 ^ (32 - k)). rewrite <- Z.pow_add_r by lia. by replace (32 - k + k) with 32 by lia.
Qed.

(** Indices: masking is reduction modulo the capacity, also across a wrap. *)
Lemma rb_index rb x : ringbuf_ok rb -> Z.land (u32 x) (u32 (rb_cap rb - 1)) = x mod rb_cap rb.
Proof.
  intros [(k & Hk & Ec) _ _ _ _]. destruct (cap_facts k Hk) as [Hc Hd]. rewrite Ec.
  rewrite (u32_id (2 ^ k - 1)) by (unfold is_u32; lia).
  replace (2 ^ k - 1) with (Z.ones k) by (rewrite Z.ones_equiv; lia). rewrite Z.land_ones by lia.
  unfold u32. by apply Z.mod_mod_divide.
Qed.

Lemma cap_pos rb : ringbuf_ok rb -> 0 < rb_cap rb <= 2147483648 /\ (rb_cap rb | 4294967296).
Proof. intros [(k & Hk & ->) _ _ _ _]. by apply cap_facts. Qed.

Lemma mod_inj t c i j : 0 <= i < c -> 0 <= j < c -> (t + i) mod c = (t + j) mod c -> i = j.
Proof.
  intros Hi Hj E. pose proof (Z.div_mod (t + i) c). pose proof (Z.div_mod (t + j) c).
  assert ((t + i) / c = (t + j) / c); nia.
Qed.

(** Reading at a wrapped position. *)
Lemma u32_mod_cap rb x : ringbuf_ok rb -> (u32 x) mod rb_cap rb = x mod rb_cap rb.
Proof. intros Hok. destruct (cap_pos rb Hok) as [_ Hd]. by apply Z.mod_mod_divide. Qed.

Lemma head_pos rb : ringbuf_ok rb -> rb_head rb mod rb_cap rb = (rb_tail rb + rb_len rb) mod rb_cap rb.
Proof.
  intros Hok. destruct (cap_pos rb Hok) as [Hc Hd]. unfold rb_len.
  rewrite <- Z.add_mod_idemp_r, (u32_mod_cap rb) by (done || lia). rewrite Z.add_mod_idemp_r by lia. f_equal. lia.
Qed.

Lemma contents_length rb : length (contents rb) = Z.to_nat (rb_len rb).
Proof. unfold contents. by rewrite length_map, length_seqZ. Qed.

Lemma contents_at rb i : 0 <= i < rb_len rb -> contents rb !! Z.to_nat i = Some (rb_at rb i).
Proof.
  intros Hi. unfold contents. rewrite list_lookup_fmap. rewrite lookup_seqZ_lt by lia. cbn. do 2 f_equal. lia.
Qed.

Lemma contents_eq rb l : length l = Z.to_nat (rb_len rb) ->
  (forall i, 0 <= i < rb_len rb -> l !! Z.to_nat i = Some (rb_at rb i)) -> contents rb = l.
Proof.
  intros Hl Hi. apply list_eq. intros n. destruct (decide (n < Z.to_nat (rb_len rb))%nat) as [Hn|Hn].
  - specialize (Hi (Z.of_nat n) ltac:(lia)). rewrite Nat2Z.id in Hi. rewrite Hi.
    rewrite <- (Nat2Z.id n). rewrite contents_at by lia. by rewrite Nat2Z.id.
  - rewrite !lookup_ge_None_2; [done | lia | rewrite contents_length; lia].
Qed.

Lemma index_range rb x : ringbuf_ok rb -> 0 <= x mod rb_cap rb < Z.of_nat (length (rb_buf rb)).
Proof. intros Hok. destruct (cap_pos rb Hok) as [Hc _]. rewrite (ro_buf _ Hok). apply Z.mod_pos_bound. lia. Qed.

(** A byte written at the head. *)
Definition put_head (data : Z) (rb : ringbuf) : ringbuf :=
  mk_ringbuf (<[Z.to_nat (rb_head rb mod rb_cap rb) := data]> (rb_buf rb)) (rb_cap rb) (u32 (rb_head rb + 1)) (rb_tail rb).

Lemma put_head_spec data rb : ringbuf_ok rb -> rb_len rb < rb_cap rb ->
  ringbuf_ok (put_head data rb) /\ contents (put_head data rb) = contents rb ++ [data].
Proof.
  intros Hok Hlt. destruct (cap_pos rb Hok) as [Hc _]. destruct (Hok) as [Hcap Hbuf Hh Ht Hl].
  assert (rb_len (put_head data rb) = rb_len rb + 1) as El.
  { unfold rb_len, put_head in *; cbn. unfold u32 in *. rewrite Zminus_mod_idemp_l.
    replace (rb_head rb + 1 - rb_tail rb) with (rb_head rb - rb_tail rb + 1) by lia.
    rewrite <- Z.add_mod_idemp_l by lia. apply Z.mod_small.
    pose proof (Z.mod_pos_bound (rb_head rb - rb_tail rb) 4294967296). lia. }
  assert (0 <= rb_len rb) as Hl0 by (unfold rb_len, u32; apply Z.mod_pos_bound; lia).
  split.
  - split; [done | cbn; by rewrite length_insert | apply u32_range | done | cbn; lia].
  - apply contents_eq; [rewrite length_app, contents_length; cbn [length]; lia|]. rewrite El. intros i Hi.
    unfold rb_at, put_head; cbn [rb_buf rb_tail rb_cap].
    rewrite lookup_total_set by (by apply index_range). rewrite head_pos by done.
    destruct (Z.eqb_spec ((rb_tail rb + i) mod rb_cap rb) ((rb_tail rb + rb_len rb) mod rb_cap rb)) as [E|E].
    + apply mod_inj in E; [|lia..]. subst i. rewrite lookup_app_r by (rewrite contents_length; lia).
      rewrite contents_length. by rewrite Nat.sub_diag.
    + assert (i <> rb_len rb) by (intros ->; done). rewrite lookup_app_l by (rewrite contents_length; lia).
      apply contents_at. lia.
Qed.

(** The oldest byte dropped. *)
Definition drop_tail (rb : ringbuf) : ringbuf := set_rb_tail (u32 (rb_tail rb + 1)) rb.

Lemma drop_tail_spec rb : ringbuf_ok rb -> 0 < rb_len rb ->
  ringbuf_ok (drop_tail rb) /\ rb_len (drop_tail rb) = rb_len rb - 1 /\ contents rb = rb_at rb 0 :: contents (drop_tail rb).
Proof.
  intros Hok Hpos. destruct (cap_pos rb Hok) as [Hc _]. destruct (Hok) as [Hcap Hbuf Hh Ht Hl].
  assert (rb_len (drop_tail rb) = rb_len rb - 1) as El.
  { unfold rb_len, drop_tail in *; cbn. unfold u32 in *. rewrite Zminus_mod_idemp_r.
    replace (rb_head rb - (rb_tail rb + 1)) with (rb_head rb - rb_tail rb - 1) by lia.
    rewrite <- Zminus_mod_idemp_l. apply Z.mod_small.
    pose proof (Z.mod_pos_bound (rb_head rb - rb_tail rb) 4294967296). lia. }
  split; [split; [done | done | done | apply u32_range | cbn [rb_cap drop_tail set_rb_tail]; lia]|]. split; [done|].
  apply contents_eq; [cbn [length]; rewrite contents_length; lia|]. intros i Hi.
  destruct (Z.eq_dec i 0) as [->|Hne]; [done|]. replace (Z.to_nat i) with (S (Z.to_nat (i - 1))) by lia.
  cbn [lookup list_lookup]. change (contents (drop_tail rb) !! Z.to_nat (i - 1) = Some (rb_at rb i)).
  rewrite contents_at by lia. unfold rb_at, drop_tail; cbn [rb_buf rb_tail rb_cap set_rb_tail]. do 3 f_equal.
  rewrite <- Z.add_mod_idemp_l, (u32_mod_cap rb), Z.add_mod_idemp_l by (done || lia). f_equal. lia.
Qed.

(** ** The operations *)

Lemma rb_land_head rb : ringbuf_ok rb -> Z.land (rb_head rb) (u32 (rb_cap rb - 1)) = rb_head rb mod rb_cap rb.
Proof. intros Hok. rewrite <- (u32_id (rb_head rb)) at 1 by apply Hok. by apply rb_index. Qed.
Lemma rb_land_tail rb : ringbuf_ok rb -> Z.land (rb_tail rb) (u32 (rb_cap rb - 1)) = rb_tail rb mod rb_cap rb.
Proof. intros Hok. rewrite <- (u32_id (rb_tail rb)) at 1 by apply Hok. by apply rb_index. Qed.

Lemma rb_len_nonneg rb : 0 <= rb_len rb.
Proof. unfold rb_len, u32. apply Z.mod_pos_bound. lia. Qed.

Lemma rb_len_contents rb : rb_len rb = Z.of_nat (length (contents rb)).
Proof. rewrite contents_length. pose proof (rb_len_nonneg rb). lia. Qed.

Definition queue_put (cap : Z) (q : list Z) (d : Z) : list Z :=
  (if Z.of_nat (length q) =? cap then tl q else q) ++ [d].

Lemma ringbuf_overwrite_wp rb d (Q : unit -> ringbuf -> Prop) :
  ringbuf_ok rb ->
  (forall rb', ringbuf_ok rb' -> rb_cap rb' = rb_cap rb -> contents rb' = queue_put (rb_cap rb) (contents rb) d -> Q tt rb') ->
  wp (ringbuf_overwrite d) Q rb.
Proof.
  intros Hok HQ. unfold ringbuf_overwrite, ringbuf_is_full, queue_put in *. rewrite <- rb_len_contents in HQ.
  wp_steps. fold (rb_len rb). destruct (cap_pos rb Hok) as [Hc _].
  destruct (Z.eqb_spec (rb_len rb) (rb_cap rb)) as [E|E].
  - destruct (drop_tail_spec rb Hok ltac:(lia)) as (Hok1 & Hl1 & Hq). wp_steps. fold (drop_tail rb).
    rewrite rb_land_head by done. apply buf_set_wp; [by apply index_range|]. wp_steps.
    destruct (put_head_spec d _ Hok1 ltac:(cbn in *; lia)) as [Hok2 Hq2]. apply (HQ (put_head d (drop_tail rb))); [done | done|].
    by rewrite Hq2, Hq.
  - wp_steps. rewrite rb_land_head by done. apply buf_set_wp; [by apply index_range|]. wp_steps.
    pose proof (ro_len _ Hok). destruct (put_head_spec d _ Hok ltac:(lia)) as [Hok2 Hq2]. by apply (HQ (put_head d rb)).
Qed.

Lemma ringbuf_peek_wp rb i :
  ringbuf_ok rb -> 0 <= i ->
  wp (ringbuf_peek i true) (fun r rb' => rb' = rb /\ r = option_map Some (contents rb !! Z.to_nat i)) rb.
Proof.
  intros Hok Hi. unfold ringbuf_peek, ringbuf_len. wp_steps. fold (rb_len rb). destruct (Z.leb_spec (rb_len rb) i).
  - wp_steps. split; [done|]. by rewrite lookup_ge_None_2 by (rewrite contents_length; lia).
  - wp_steps. rewrite rb_index by done. apply buf_get_wp; [by apply index_range|]. wp_steps. split; [by destruct rb|].
    by rewrite contents_at by lia.
Qed.

(** Calls on a ring buffer, and their results. *)
Inductive rb_op : Type :=
  | RbOverwrite (d : Z) | RbPush (d : Z) | RbPop | RbPeek (i : Z) | RbLen | RbEmpty | RbFull | RbAvailable.
Inductive rb_res : Type :=
  | RUnit | RBool (b : bool) | RByte (o : option Z) | RNum (n : Z).

Definition byte_res (o : option (option Z)) : rb_res := RByte (o ≫= id).

Definition run_rb (op : rb_op) : M ringbuf rb_res :=
  match op with
  | RbOverwrite d => ringbuf_overwrite d ;;; ret RUnit
  | RbPush d => b <-- ringbuf_push d ;; ret (RBool b)
  | RbPop => o <-- ringbuf_pop true ;; ret (byte_res o)
  | RbPeek i => o <-- ringbuf_peek i true ;; ret (byte_res o)
  | RbLen => n <-- ringbuf_len ;; ret (RNum n)
  | RbEmpty => b <-- ringbuf_is_empty ;; ret (RBool b)
  | RbFull => b <-- ringbuf_is_full ;; ret (RBool b)
  | RbAvailable => n <-- ringbuf_available ;; ret (RNum n)
  end.

(** The same calls on a queue of at most [cap] bytes. *)
Definition queue_op (cap : Z) (op : rb_op) (q : list Z) : rb_res * list Z :=
  let len := Z.of_nat (length q) in
  match op with
  | RbOverwrite d => (RUnit, queue_put cap q d)
  | RbPush d => if len =? cap then (RBool false, q) else (RBool true, q ++ [d])
  | RbPop => (RByte (head q), tl q)
  | RbPeek i => (RByte (q !! Z.to_nat i), q)
  | RbLen => (RNum len, q)
  | RbEmpty => (RBool (bool_decide (q = [])), q)
  | RbFull => (RBool (len =? cap), q)
  | RbAvailable => (RNum (cap - len), q)
  end.

Definition op_ok (op : rb_op) : Prop := match op with RbPeek i => 0 <= i | _ => True end.

Lemma ringbuf_empty rb : ringbuf_ok rb -> (rb_head rb =? rb_tail rb) = bool_decide (contents rb = []).
Proof.
  intros Hok. pose proof (rb_len_contents rb) as Hl. destruct (ro_head _ Hok), (ro_tail _ Hok).
  destruct (Z.eqb_spec (rb_head rb) (rb_tail rb)) as [E|E].
  - rewrite bool_decide_true; [done|]. apply length_zero_iff_nil. unfold rb_len in Hl. rewrite E, Z.sub_diag in Hl.
    change (u32 0) with 0 in Hl. lia.
  - rewrite bool_decide_false; [done|]. intros Hn. rewrite Hn in Hl. cbn in Hl. unfold rb_len in Hl.
    unfold u32 in Hl. apply Z.mod_divide in Hl as [q Hq]; [|lia]. lia.
Qed.

Lemma run_rb_wp rb op : ringbuf_ok rb -> op_ok op ->
  wp (run_rb op) (fun r rb' => ringbuf_ok rb' /\ rb_cap rb' = rb_cap rb /\
    (r, contents rb') = queue_op (rb_cap rb) op (contents rb)) rb.
Proof.
  intros Hok Hop. pose proof (rb_len_contents rb) as Hl. destruct (cap_pos rb Hok) as [Hc _].
  pose proof (ro_len _ Hok) as Hle. pose proof (rb_len_nonneg rb) as Hl0.
  destruct op as [d|d| |i| | | |]; cbn [run_rb queue_op].
  - wp_step. apply ringbuf_overwrite_wp; [done|]. intros rb' Hok' Hc' Hq. wp_steps. by rewrite Hq.
  - unfold ringbuf_push, ringbuf_is_full. wp_steps. fold (rb_len rb). rewrite <- Hl.
    destruct (Z.eqb_spec (rb_len rb) (rb_cap rb)); [by wp_steps|]. wp_step.
    apply ringbuf_overwrite_wp; [done|]. intros rb' Hok' Hc' Hq. wp_steps. split; [done|]. split; [done|].
    rewrite Hq. unfold queue_put. rewrite <- Hl. by destruct (Z.eqb_spec (rb_len rb) (rb_cap rb)).
  - unfold ringbuf_pop, ringbuf_is_empty. wp_steps. rewrite ringbuf_empty by done. case_bool_decide as Hn.
    + wp_steps. by rewrite Hn.
    + wp_steps. rewrite rb_land_tail by done. apply buf_get_wp; [by apply index_range|]. wp_steps.
      replace (set_rb_buf (rb_buf rb) rb) with rb by (by destruct rb). fold (drop_tail rb).
      assert (0 < rb_len rb) as Hpos by (destruct (contents rb); [done | cbn [length] in Hl; lia]).
      destruct (drop_tail_spec rb Hok Hpos) as (Hok1 & _ & Hq). split; [done|]. split; [done|]. rewrite Hq.
      unfold rb_at. by rewrite Z.add_0_r.
  - wp_step. wp_use ringbuf_peek_wp; [done | exact Hop|]. intros r rb' [-> ->]. wp_steps. split; [done|]. split; [done|].
    unfold byte_res. by destruct (contents rb !! Z.to_nat i).
  - unfold ringbuf_len. wp_steps. fold (rb_len rb). by rewrite Hl.
  - unfold ringbuf_is_empty. wp_steps. by rewrite ringbuf_empty.
  - unfold ringbuf_is_full. wp_steps. fold (rb_len rb). by rewrite Hl.
  - unfold ringbuf_available. wp_steps. fold (rb_len rb). rewrite u32_id by (unfold is_u32; lia). by rewrite <- Hl.
Qed.

Fixpoint run_rbs (ops : list rb_op) : M ringbuf (list rb_res) :=
  match ops with
  | [] => ret []
  | op :: ops' => r <-- run_rb op ;; rs <-- run_rbs ops' ;; ret (r :: rs)
  end.

Fixpoint queue_ops (cap : Z) (ops : list rb_op) (q : list Z) : list rb_res * list Z :=
  match ops with
  | [] => ([], q)
  | op :: ops' => let '(r, q1) := queue_op cap op q in
                  let '(rs, q2) := queue_ops cap ops' q1 in (r :: rs, q2)
  end.

(** ** Properties *)

(** C32. The ring buffer is a bounded queue.  For a capacity that is a power of two,
    any sequence of calls gives the results, and leaves the bytes, that the same calls
    give on a queue of at most [cap] bytes; the free-running counters may wrap at 2^32
    on the way, and no access leaves the storage. *)
Theorem ringbuf_refines_queue (rb : ringbuf) (ops : list rb_op) :
  ringbuf_ok rb -> Forall op_ok ops ->
  exists rs rb', run_rbs ops rb = Some (rs, rb') /\ ringbuf_ok rb' /\ rb_cap rb' = rb_cap rb /\
    (rs, contents rb') = queue_ops (rb_cap rb) ops (contents rb).
Proof.
  intros Hok Hops. revert rb Hok. induction Hops as [|op ops Hop Hops IH]; intros rb Hok.
  - by exists [], rb.
  - destruct (proj1 (wp_run _ _ _) (run_rb_wp rb op Hok Hop)) as (r & rb1 & Hr & Hok1 & Hc1 & Hq1).
    destruct (IH rb1 Hok1) as (rs & rb2 & Hr2 & Hok2 & Hc2 & Hq2). exists (r :: rs), rb2.
    cbn [run_rbs queue_ops]. unfold bind. rewrite Hr, Hr2. split; [done|]. split; [done|]. split; [congruence|].
    rewrite <- Hq1. rewrite Hc1 in Hq2. by rewrite <- Hq2.
Qed.

(** A buffer of four bytes whose counters are about to wrap. *)
Lemma ringbuf_refines_queue_witness :
  exists rb', run_rbs [RbPush 1; RbPush 2; RbPush 3; RbPop; RbPush 4; RbLen] (mk_ringbuf [0; 0; 0; 0] 4 4294967294 4294967294)
      = Some ([RBool true; RBool true; RBool true; RByte (Some 1); RBool true; RNum 3], rb') /\
    contents rb' = [2; 3; 4].
Proof.
  destruct (ringbuf_refines_queue (mk_ringbuf [0; 0; 0; 0] 4 4294967294 4294967294)
    [RbPush 1; RbPush 2; RbPush 3; RbPop; RbPush 4; RbLen]) as (rs & rb' & Hr & _ & _ & Hq).
  - split; cbn; [by exists 2 | done | unfold is_u32; lia | unfold is_u32; lia | vm_compute; discriminate].
  - repeat constructor.
  - assert (queue_ops 4 [RbPush 1; RbPush 2; RbPush 3; RbPop; RbPush 4; RbLen] [] =
      ([RBool true; RBool true; RBool true; RByte (Some 1); RBool true; RNum 3], [2; 3; 4])) as E by reflexivity.
    cbn [rb_cap] in Hq. change (contents _) with (@nil Z) in Hq at 2. rewrite E in Hq. injection Hq as -> Hq.
    exists rb'. split; [exact Hr | exact Hq].
Defined.

(** ** The log keeps the end of what was written *)

Definition last_n (n : nat) (l : list Z) : list Z := drop (length l - n) l.

Lemma last_n_short n l : (length l <= n)%nat -> last_n n l = l.
Proof. intros H. unfold last_n. by replace (length l - n)%nat with O by lia. Qed.

Lemma last_n_snoc n l d : (0 < n)%nat -> last_n n (l ++ [d]) = last_n (n - 1) l ++ [d].
Proof.
  intros Hn. unfold last_n. rewrite length_app. cbn [length]. rewrite drop_app_le by lia. do 2 f_equal. lia.
Qed.

Lemma last_n_length n l : length (last_n n l) = Nat.min n (length l).
Proof. unfold last_n. rewrite length_drop. lia. Qed.

Lemma queue_put_last n L d : (0 < n)%nat -> queue_put (Z.of_nat n) (last_n n L) d = last_n n (L ++ [d]).
Proof.
  intros Hn. unfold queue_put. rewrite last_n_snoc, last_n_length by done. f_equal.
  destruct (Z.eqb_spec (Z.of_nat (n `min` length L)) (Z.of_nat n)).
  - unfold last_n. replace (tl (drop (length L - n) L)) with (drop 1 (drop (length L - n) L)) by (destruct (drop (length L - n) L); by rewrite ?skipn_cons, ?drop_0).
    rewrite drop_drop. f_equal. lia.
  - rewrite !last_n_short by lia. done.
Qed.

(** The log holds the end of [L], all the bytes ever written. *)
Definition log_ok (s : syslog) (L : list Z) : Prop :=
  syslog_ready s = true /\ ringbuf_ok (syslog_rb s) /\ rb_cap (syslog_rb s) = SYSLOG_BUFFER_SIZE /\
  contents (syslog_rb s) = last_n 4096 L.

Lemma syslog_putc_wp s L c : log_ok s L -> wp (syslog_putc c) (fun _ s' => log_ok s' (L ++ [u8 c])) s.
Proof.
  intros (Hr & Hok & Hc & Hq). unfold syslog_putc. wp_steps. rewrite Hr. cbn [negb]. wp_step.
  apply ringbuf_overwrite_wp; [done|]. intros rb' Hok' Hc' Hq'. split; [done|]. split; [done|]. split; [cbn; congruence|].
  cbn. rewrite Hq', Hq, Hc. apply (queue_put_last 4096). lia.
Qed.

Lemma syslog_write_wp bs rest : Forall (fun c => c <> 0) bs ->
  forall s L, log_ok s L -> wp (syslog_write (bs ++ 0 :: rest)) (fun _ s' => log_ok s' (L ++ map u8 bs)) s.
Proof.
  induction 1 as [|c bs Hc Hbs IH]; intros s L Hs; cbn [syslog_write app map].
  - cbn. by rewrite app_nil_r.
  - destruct (Z.eqb_spec c 0); [done|]. wp_step. wp_use syslog_putc_wp; [exact Hs|]. intros [] s1 Hs1.
    wp_use (IH s1 _ Hs1). by rewrite <- app_assoc.
Qed.

Lemma syslog_read_wp s L dst size : log_ok s L -> 0 < size <= Z.of_nat (length dst) ->
  let out := take (Z.to_nat (size - 1)) (last_n 4096 L) in
  wp (syslog_read true size) (fun n st => n = Z.of_nat (length out) /\
    st = (s, out ++ 0 :: drop (S (length out)) dst)) (s, dst).
Proof.
  intros (Hr & Hok & Hc & Hq) Hsize out. pose proof (rb_len_contents (syslog_rb s)) as Hl.
  unfold syslog_read, ringbuf_len. wp_steps. cbn [fst]. rewrite Hr. cbn [negb orb].
  destruct (Z.eqb_spec size 0); [lia|]. wp_steps. fold (rb_len (syslog_rb s)). cbn [fst snd].
  replace (set_syslog_rb (syslog_rb s) s) with s by (by destruct s).
  assert (Z.of_nat (length out) = if size <=? rb_len (syslog_rb s) then size - 1 else rb_len (syslog_rb s)) as Hn.
  { unfold out. rewrite length_take, <- Hq, Hl. zcases; lia. }
  change (u32 (rb_head (syslog_rb s) - rb_tail (syslog_rb s))) with (rb_len (syslog_rb s)). rewrite <- Hn.
  assert (length out < length dst)%nat as Hlt by (unfold out; rewrite length_take; lia).
  apply (wp_for_each (fun i st => st = (s, take (Z.to_nat i) out ++ drop (Z.to_nat i) dst))).
  - done.
  - intros i st Hi ->. do 3 wp_step. wp_use ringbuf_peek_wp; [exact Hok | lia|]. cbn [fst snd]. intros r rb' [-> ->].
    replace (set_syslog_rb (syslog_rb s) s) with s by (by destruct s).
    assert (out !! Z.to_nat i = contents (syslog_rb s) !! Z.to_nat i) as Ho.
    { unfold out. rewrite Hq. apply lookup_take_lt. unfold out in Hi. rewrite length_take in Hi. lia. }
    rewrite <- Ho. destruct (out !! Z.to_nat i) as [c|] eqn:Ec.
    2: { apply lookup_ge_None in Ec. lia. }
    cbn [option_map]. wp_step. cbn [fst snd].
    assert (length (take (Z.to_nat i) out) = Z.to_nat i) as Ht by (rewrite length_take; lia).
    apply buf_set_wp; [rewrite length_app, length_drop; lia|]. cbn [fst]. rewrite set_snoc by lia.
    replace (Z.to_nat (i + 1)) with (S (Z.to_nat i)) by lia. by rewrite (take_S_r _ _ c).
  - intros st ->. replace (Z.to_nat (Z.max 0 (Z.of_nat (length out)))) with (length out) by lia. rewrite firstn_all.
    wp_steps. cbn [fst snd].
    apply buf_set_wp; [rewrite length_app, length_drop; lia|]. cbn [fst snd]. rewrite Nat2Z.id, set_snoc by lia. wp_steps.
    split; [done|]. by rewrite <- app_assoc.
Qed.

(** The system log keeps the last 4096 bytes.  Writing a string appends its bytes
    to the log, dropping the oldest; reading copies, oldest first, as much of the last
    4096 bytes as fits before a terminating zero, returns the number of bytes, writes
    nothing beyond, and consumes nothing. *)
Theorem syslog_keeps_tail (s : syslog) (L bs rest dst : list Z) (size : Z) :
  log_ok s L -> Forall (fun c => c <> 0) bs -> 0 < size <= Z.of_nat (length dst) ->
  exists s1, syslog_write (bs ++ 0 :: rest) s = Some (tt, s1) /\ log_ok s1 (L ++ map u8 bs) /\
    let out := take (Z.to_nat (size - 1)) (last_n 4096 (L ++ map u8 bs)) in
    syslog_read true size (s1, dst) = Some (Z.of_nat (length out), (s1, out ++ 0 :: drop (S (length out)) dst)).
Proof.
  intros Hs Hbs Hsize. destruct (proj1 (wp_run _ _ _) (syslog_write_wp bs rest Hbs s L Hs)) as ([] & s1 & Hrun & Hs1).
  exists s1. split; [done|]. split; [done|].
  destruct (proj1 (wp_run _ _ _) (syslog_read_wp s1 _ dst size Hs1 Hsize)) as (n & st & Hr & -> & ->). exact Hr.
Qed.

Definition syslog_sample : syslog := mk_syslog (mk_ringbuf (replicate 4096 0) 4096 0 0) true.

Lemma syslog_sample_ok : log_ok syslog_sample [].
Proof.
  split; [done|]. split; [|done]. split; cbn; [by exists 12 | done | unfold is_u32; lia | unfold is_u32; lia|].
  vm_compute. discriminate.
Qed.

(** "ab", read into four bytes. *)
Lemma syslog_keeps_tail_witness :
  exists s1, syslog_write [97; 98; 0] syslog_sample = Some (tt, s1) /\
    syslog_read true 4 (s1, [7; 7; 7; 7]) = Some (2, (s1, [97; 98; 0; 7])).
Proof.
  destruct (syslog_keeps_tail syslog_sample [] [97; 98] [] [7; 7; 7; 7] 4 syslog_sample_ok) as (s1 & H1 & _ & H2).
  - repeat constructor; lia.
  - cbn. lia.
  - exists s1. split; [exact H1 | exact H2].
Defined.
