(* ===== verification/Printf.v ===== *)
(** * Formatted output and number conversion

    Models [kernel/klib/printf.c] and [kernel/klib/conv.c].  Output is specified by
    a function from the format and its arguments to the full text; numbers by the
    value of their digits. *)

From S2P Require Import Prelude Base Buffer.

(** Run code on a local array of the function. *)
Definition on_local {S A} (b : list Z) (c : M (list Z) A) : M S (A * list Z) := fun s =>
  match c b with Some (a, b') => Some ((a, b'), s) | None => None end.

(** ** [printf.c] *)

Record printf_buffer := mk_pbuf {
  pb_buf : list Z;
  pb_size : Z;
  pb_pos : Z;
  pb_total : Z
}.

Definition set_pb_buf (b : list Z) (s : printf_buffer) : printf_buffer := mk_pbuf b (pb_size s) (pb_pos s) (pb_total s).
Definition set_pb_pos (v : Z) (s : printf_buffer) : printf_buffer := mk_pbuf (pb_buf s) (pb_size s) v (pb_total s).
Definition set_pb_total (v : Z) (s : printf_buffer) : printf_buffer := mk_pbuf (pb_buf s) (pb_size s) (pb_pos s) v.

Abbreviation in_pb := (zoom pb_buf set_pb_buf).

Definition buffer_putc (c : Z) : M printf_buffer unit :=
  room <-- gets (fun b => (0 <? pb_size b) && (pb_pos b <? u32 (pb_size b - 1))) ;;
  (if room then
     pos <-- gets pb_pos ;;
     in_pb (buf_set pos c) ;;;
     modify (fun b => set_pb_pos (u32 (pb_pos b + 1)) b)
   else ret tt) ;;;
  modify (fun b => set_pb_total (u32 (pb_total b + 1)) b).

Fixpoint buffer_puts (str : list Z) : M printf_buffer unit :=
  match str with
  | [] => undefined
  | c :: str' => if c =? 0 then ret tt else buffer_putc c ;;; buffer_puts str'
  end.

Definition buffer_finish : M printf_buffer unit :=
  size <-- gets pb_size ;;
  if 0 <? size then
    pos <-- gets pb_pos ;;
    if pos <? size then in_pb (buf_set pos 0) else in_pb (buf_set (u32 (size - 1)) 0)
  else ret tt.

Definition reverse (len : Z) : M (list Z) unit :=
  for_each 0 (len / 2) (fun i =>
    tmp <-- buf_get i ;;
    x <-- buf_get (u32 (len - i - 1)) ;;
    buf_set i x ;;;
    buf_set (u32 (len - i - 1)) tmp).

(** The digit loop of [format_uint]; the result is the final [i].  32 digits are
    enough for any base from 2 on. *)
Fixpoint uint_digits (fuel : nat) (value base : Z) (uppercase : bool) (i : Z) : M (list Z) Z :=
  match fuel with
  | O => undefined
  | S k =>
      if value =? 0 then ret i
      else
        let digit := value mod base in
        (if digit <? 10 then buf_set i (48 + digit)
         else buf_set i ((if uppercase then 65 else 97) + (digit - 10))) ;;;
        uint_digits k (value / base) base uppercase (i + 1)
  end.

Definition format_uint (value base : Z) (uppercase : bool) : M printf_buffer unit :=
  if value =? 0 then buffer_putc 48
  else
    ' (i, tmp) <-- on_local (replicate 64 0) (uint_digits 33 value base uppercase 0) ;;
    ' (_, tmp) <-- on_local tmp (reverse i) ;;
    for_each 0 i (fun j => ' (c, _) <-- on_local tmp (buf_get j) ;; buffer_putc c).

Definition format_int (value : Z) : M printf_buffer unit :=
  if value <? 0 then
    buffer_putc 45 ;;;
    let n := u32 (- u32 value) in
    format_uint n 10 false
  else format_uint (u32 value) 10 false.

(** A variadic argument: a word ([int], [unsigned int], [void *]), or a pointer to a
    string ([None] for NULL).  Reading an argument at the wrong type, or one that is
    not there, is undefined. *)
Inductive vararg : Type :=
  | VWord (w : Z)
  | VStr (s : option (list Z)).

Definition va_word (args : list vararg) : M printf_buffer (Z * list vararg) :=
  match args with VWord w :: args' => ret (w, args') | _ => undefined end.
Definition va_str (args : list vararg) : M printf_buffer (option (list Z) * list vararg) :=
  match args with VStr s :: args' => ret (s, args') | _ => undefined end.

Definition str_null : list Z := [40; 110; 117; 108; 108; 41; 0]. (* "(null)" *)
Definition str_0x : list Z := [48; 120; 0]. (* "0x" *)

(** The [switch] of [vsnprintf] on the character after a percent sign; the result is
    the list of arguments left. *)
Definition convert (c : Z) (args : list vararg) : M printf_buffer (list vararg) :=
  if c =? 37 (* % *) then buffer_putc 37 ;;; ret args
  else if c =? 99 (* c *) then
    ' (w, args) <-- va_word args ;; buffer_putc (u8 w) ;;; ret args
  else if c =? 115 (* s *) then
    ' (s, args) <-- va_str args ;;
    match s with
    | Some str => buffer_puts str ;;; ret args
    | None => buffer_puts str_null ;;; ret args
    end
  else if (c =? 100) || (c =? 105) (* d, i *) then
    ' (w, args) <-- va_word args ;; format_int (s32 w) ;;; ret args
  else if c =? 117 (* u *) then
    ' (w, args) <-- va_word args ;; format_uint w 10 false ;;; ret args
  else if c =? 120 (* x *) then
    ' (w, args) <-- va_word args ;; format_uint w 16 false ;;; ret args
  else if c =? 88 (* X *) then
    ' (w, args) <-- va_word args ;; format_uint w 16 true ;;; ret args
  else if c =? 111 (* o *) then
    ' (w, args) <-- va_word args ;; format_uint w 8 false ;;; ret args
  else if c =? 112 (* p *) then
    ' (w, args) <-- va_word args ;; buffer_puts str_0x ;;; format_uint w 16 false ;;; ret args
  else buffer_putc 37 ;;; buffer_putc c ;;; ret args.

(** The loop of [vsnprintf] over the format. *)
Fixpoint vsnprintf_loop (fmt : list Z) (args : list vararg) : M printf_buffer unit :=
  match fmt with
  | [] => undefined
  | c :: fmt1 =>
      if c =? 0 then ret tt
      else if negb (c =? 37) then buffer_putc c ;;; vsnprintf_loop fmt1 args
      else
        match fmt1 with
        | [] => undefined
        | d :: fmt2 =>
            if d =? 0 then ret tt
            else args' <-- convert d args ;; vsnprintf_loop fmt2 args'
        end
  end.

Definition vsnprintf (size : Z) (fmt : list Z) (args : list vararg) : M (list Z) Z := fun buf =>
  match (vsnprintf_loop fmt args ;;; buffer_finish ;;; gets pb_total) (mk_pbuf buf size 0 0) with
  | Some (total, b) => Some (s32 total, pb_buf b)
  | None => None
  end.

Definition snprintf : Z -> list Z -> list vararg -> M (list Z) Z := vsnprintf.

(** ** [conv.c] *)

Definition CONV_BASE_10 : Z := 10.

(** The digit loop of [conv_itoa]: the result is [ptr] and [digits]. *)
Fixpoint itoa_digits (fuel : nat) (n base ptr digits : Z) : M (list Z) (Z * Z) :=
  match fuel with
  | O => undefined
  | S k =>
      if n =? 0 then ret (ptr, digits)
      else
        let remainder := u8 (n mod base) in
        buf_set ptr (if 9 <? remainder then (remainder - 10) + 65 else remainder + 48) ;;;
        itoa_digits k (n / base) base (ptr + 1) (u8 (digits + 1))
  end.

(** [str] is the array the text is written to; base 0 is a division by zero. *)
Definition conv_itoa (value base : Z) : M (list Z) unit :=
  let is_negative := (base =? CONV_BASE_10) && (value <? 0) in
  ' (ptr, n) <-- (if is_negative then buf_set 0 45 ;;; ret (1, u32 (- u32 value)) else ret (0, u32 value)) ;;
  if n =? 0 then
    buf_set ptr 48 ;;;
    buf_set (ptr + 1) 0
  else if base =? 0 then undefined
  else
    ' (ptr, digits) <-- itoa_digits 33 n base ptr 0 ;;
    buf_set ptr 0 ;;;
    let start := if is_negative then 1 else 0 in
    for_each 0 (digits / 2) (fun i =>
      tmp <-- buf_get (start + i) ;;
      x <-- buf_get (start + (digits - 1 - i)) ;;
      buf_set (start + i) x ;;;
      buf_set (start + (digits - 1 - i)) tmp).

Definition is_s32 (x : Z) : bool := (-2147483648 <=? x) && (x <? 2147483648).

Definition atoi_num (c : Z) : Z :=
  if (48 <=? c) && (c <=? 57) then c - 48
  else if (65 <=? c) && (c <=? 70) then c - 65 + 10
  else if (97 <=? c) && (c <=? 102) then c - 97 + 10
  else 255.

(** [result * base + num] in [int]: overflow is undefined. *)
Fixpoint atoi_loop (str : list Z) (base result : Z) : option Z :=
  match str with
  | [] => None
  | c :: str' =>
      if c =? 0 then Some result
      else
        let num := atoi_num c in
        if base <=? num then Some result
        else if is_s32 (result * base) && is_s32 (result * base + num)
        then atoi_loop str' base (result * base + num)
        else None
  end.

Definition conv_atoi (str : list Z) (base : Z) : option Z :=
  match str with
  | [] => None
  | c :: str' =>
      let is_negative := c =? 45 in
      option_map (fun r => if is_negative then - r else r) (atoi_loop (if is_negative then str' else str) base 0)
  end.

(** ** Reversal in place *)

Section Swap.
Context (f g : Z -> Z) (o len : Z) (b0 : list Z).
Hypothesis H_len : 0 <= o /\ 0 <= len /\ o + len <= Z.of_nat (length b0).
Hypothesis H_f : forall i, 0 <= i < len / 2 -> f i = o + i.
Hypothesis H_g : forall i, 0 <= i < len / 2 -> g i = o + (len - 1 - i).

(** The array after [i] swaps. *)
Definition swapped (i j : Z) : Z :=
  if ((o <=? j) && (j <? o + i)) || ((o + len - i <=? j) && (j <? o + len)) then o + (len - 1 - (j - o)) else j.

Lemma swapped_in i j : o <= j < o + i \/ o + len - i <= j < o + len -> swapped i j = o + (len - 1 - (j - o)).
Proof.
  intros H. unfold swapped. destruct H as [H|H].
  - by replace ((o <=? j) && (j <? o + i)) with true by lia.
  - replace ((o + len - i <=? j) && (j <? o + len)) with true by lia. by rewrite orb_true_r.
Qed.

Lemma swapped_out i j : (j < o \/ o + i <= j) -> (j < o + len - i \/ o + len <= j) -> swapped i j = j.
Proof.
  intros H1 H2. unfold swapped. replace ((o <=? j) && (j <? o + i)) with false by (destruct H1; lia).
  by replace ((o + len - i <=? j) && (j <? o + len)) with false by (destruct H2; lia).
Qed.

Lemma swap_loop_wp (Q : unit -> list Z -> Prop) :
  (forall b, length b = length b0 ->
     (forall j, 0 <= j < Z.of_nat (length b0) -> b !!! Z.to_nat j =
        if (o <=? j) && (j <? o + len) then b0 !!! Z.to_nat (o + (len - 1 - (j - o))) else b0 !!! Z.to_nat j) -> Q tt b) ->
  wp (for_each 0 (len / 2) (fun i => tmp <-- buf_get (f i) ;; x <-- buf_get (g i) ;; buf_set (f i) x ;;; buf_set (g i) tmp)) Q b0.
Proof.
  intros HQ. apply (wp_for_each (fun i b => length b = length b0 /\
    forall j, 0 <= j < Z.of_nat (length b0) -> b !!! Z.to_nat j = b0 !!! Z.to_nat (swapped i j))).
  - split; [done|]. intros j Hj. unfold swapped.
    destruct (((o <=? j) && (j <? o + 0)) || ((o + len - 0 <=? j) && (j <? o + len))) eqn:E; [lia | done].
  - intros i b Hi [Hl Hb]. rewrite H_f, H_g by done. assert (2 * i < len) as Hi2 by dlia.
    assert (o + i < o + (len - 1 - i) \/ False) as [Hlt|[]] by (left; dlia).
    wp_step. apply buf_get_wp; [lia|]. wp_step. apply buf_get_wp; [lia|].
    wp_step. apply buf_set_wp; [lia|]. apply buf_set_wp; [rewrite length_insert; lia|].
    split; [by rewrite !length_insert|]. intros j Hj.
    rewrite lookup_total_set by (rewrite length_insert; lia). rewrite lookup_total_set by lia. rewrite !Hb by lia.
    clear Hb HQ. destruct (Z.eqb_spec j (o + (len - 1 - i))) as [->|N1].
    { rewrite swapped_out, swapped_in by lia. do 2 f_equal. lia. }
    destruct (Z.eqb_spec j (o + i)) as [->|N2].
    { rewrite swapped_out, swapped_in by lia. do 2 f_equal. lia. }
    destruct (decide (o <= j < o + i \/ o + len - i <= j < o + len)) as [Hin|Hout].
    + by rewrite !swapped_in by lia.
    + by rewrite !swapped_out by lia.
  - intros b [Hl Hb]. apply HQ; [done|]. intros j Hj. rewrite Hb by done. clear Hb HQ.
    replace (Z.max 0 (len / 2)) with (len / 2) by dlia. assert (len / 2 * 2 = len \/ len / 2 * 2 = len - 1) as Hh by dlia.
    destruct ((o <=? j) && (j <? o + len)) eqn:E; [|by rewrite swapped_out by lia].
    destruct (decide (o <= j < o + len / 2 \/ o + len - len / 2 <= j < o + len)) as [Hin|Hout].
    + by rewrite swapped_in by lia.
    + rewrite swapped_out by lia. do 2 f_equal. lia.
Qed.
End Swap.

(** Reversing the middle part of an array. *)
Lemma rev_part (o len : Z) (l1 l l2 b : list Z) :
  Z.of_nat (length l1) = o -> Z.of_nat (length l) = len -> length b = length (l1 ++ l ++ l2) ->
  (forall j, 0 <= j < Z.of_nat (length b) -> b !!! Z.to_nat j =
     if (o <=? j) && (j <? o + len) then (l1 ++ l ++ l2) !!! Z.to_nat (o + (len - 1 - (j - o))) else (l1 ++ l ++ l2) !!! Z.to_nat j) ->
  b = l1 ++ rev l ++ l2.
Proof.
  intros Ho Hl Hb Hj. apply list_eq_same_length with (length b); [by rewrite Hb, !length_app, length_rev | done|].
  rewrite !length_app in Hb.
  intros i x y Hi Hx Hy. specialize (Hj (Z.of_nat i) ltac:(lia)). rewrite Nat2Z.id in Hj.
  rewrite (list_lookup_total_correct _ _ _ Hx) in Hj. subst x.
  destruct (decide (i < length l1)%nat) as [H1|H1].
  - rewrite lookup_app_l in Hy by done. replace ((o <=? Z.of_nat i) && (Z.of_nat i <? o + len)) with false.
    2: { symmetry. apply andb_false_iff. left. apply Z.leb_gt. lia. }
    rewrite lookup_total_app_l by done. by apply list_lookup_total_correct.
  - rewrite lookup_app_r in Hy by lia. destruct (decide (i < length l1 + length l)%nat) as [H2|H2].
    + rewrite lookup_app_l in Hy by (rewrite length_rev; lia).
      assert (((o <=? Z.of_nat i) && (Z.of_nat i <? o + len)) = true) as ->.
      { apply andb_true_iff. rewrite Z.leb_le, Z.ltb_lt. lia. }
      rewrite lookup_total_app_r by lia. rewrite lookup_total_app_l by lia.
      apply list_lookup_total_correct. rewrite rev_alt in Hy. change (rev_append l []) with (list.reverse l) in Hy.
      rewrite reverse_lookup in Hy by lia. rewrite <- Hy. f_equal. lia.
    + rewrite lookup_app_r in Hy by (rewrite length_rev; lia). rewrite length_rev in Hy.
      assert (((o <=? Z.of_nat i) && (Z.of_nat i <? o + len)) = false) as ->.
      { apply andb_false_iff. right. apply Z.ltb_ge. lia. }
      rewrite !lookup_total_app_r by lia. apply list_lookup_total_correct. rewrite <- Hy. f_equal; lia.
Qed.

(** ** Digits *)

Definition digit_char (uppercase : bool) (d : Z) : Z :=
  if d <? 10 then 48 + d else (if uppercase then 65 else 97) + (d - 10).

(** The digits of [n], least significant first; none for 0. *)
Fixpoint rev_digits (k : nat) (base n : Z) : list Z :=
  match k with
  | O => []
  | S k' => if n =? 0 then [] else n mod base :: rev_digits k' base (n / base)
  end.

Definition digits (base n : Z) : list Z := rev (rev_digits 32 base n).

(** The number a sequence of digits denotes. *)
Definition digits_value (base : Z) (ds : list Z) : Z := fold_left (fun acc d => acc * base + d) ds 0.

Lemma digits_value_app base ds d : digits_value base (ds ++ [d]) = digits_value base ds * base + d.
Proof. unfold digits_value. by rewrite fold_left_app. Qed.

Lemma div_bound n base k : 2 <= base -> 0 <= n < 2 ^ Z.of_nat (S k) -> 0 <= n / base < 2 ^ Z.of_nat k.
Proof.
  intros Hb Hn. rewrite Nat2Z.inj_succ, Z.pow_succ_r in Hn by lia. split; [apply Z.div_pos; lia|].
  apply Z.div_lt_upper_bound; [lia|]. nia.
Qed.

(** Printing and reading a number are inverse. *)
Lemma rev_digits_value base k n : 2 <= base -> 0 <= n < 2 ^ Z.of_nat k ->
  digits_value base (rev (rev_digits k base n)) = n.
Proof.
  intros Hb. revert n. induction k as [|k IH]; intros n Hn; cbn [rev_digits]; [cbn in Hn; cbn; lia|].
  destruct (Z.eqb_spec n 0) as [->|]; [done|]. cbn [rev]. rewrite digits_value_app, IH by (by apply div_bound).
  pose proof (Z.div_mod n base). lia.
Qed.

Lemma rev_digits_range base k n d : 2 <= base -> d ∈ rev_digits k base n -> 0 <= d < base.
Proof.
  intros Hb. revert n. induction k as [|k IH]; intros n; cbn [rev_digits]; [by intros ?%elem_of_nil|].
  destruct (n =? 0); [by intros ?%elem_of_nil|]. intros [->|Hd]%elem_of_cons; [apply Z.mod_pos_bound; lia | by eapply IH].
Qed.

Lemma rev_digits_length base k n : (length (rev_digits k base n) <= k)%nat.
Proof.
  revert n. induction k as [|k IH]; intros n; cbn [rev_digits]; [done|].
  destruct (n =? 0); cbn [length]; [lia|]. specialize (IH (n / base)). lia.
Qed.

Lemma rev_digits_ne base k n : 0 < n < 2 ^ Z.of_nat k -> rev_digits k base n <> [].
Proof. destruct k; [cbn; lia|]. intros Hn. cbn [rev_digits]. destruct (Z.eqb_spec n 0); [lia | done]. Qed.

(** The digit loop of [format_uint] writes the digits from position [length l] on. *)
Lemma uint_digits_wp uppercase base : 2 <= base ->
  forall k n l r (Q : Z -> list Z -> Prop), 0 <= n < 2 ^ Z.of_nat k -> (k <= length r)%nat ->
  (let ds := rev_digits k base n in
   Q (Z.of_nat (length l + length ds)) (l ++ map (digit_char uppercase) ds ++ drop (length ds) r)) ->
  wp (uint_digits (S k) n base uppercase (Z.of_nat (length l))) Q (l ++ r).
Proof.
  intros Hb. induction k as [|k IH]; intros n l r Q Hn Hr HQ.
  - cbn in Hn. assert (n = 0) as -> by lia. cbn in HQ |- *. rewrite Nat.add_0_r, drop_0 in HQ. by apply wp_ret.
  - cbn [uint_digits]. cbn [rev_digits] in HQ. destruct (Z.eqb_spec n 0) as [->|Hne].
    { cbn in HQ. rewrite Nat.add_0_r, drop_0 in HQ. by apply wp_ret. }
    destruct r as [|x r]; [simpl in Hr; lia|]. wp_step.
    assert (Hset : wp (if n mod base <? 10 then buf_set (Z.of_nat (length l)) (48 + n mod base)
                  else buf_set (Z.of_nat (length l)) ((if uppercase then 65 else 97) + (n mod base - 10)))
              (fun _ b => b = (l ++ [digit_char uppercase (n mod base)]) ++ r) (l ++ x :: r)).
    { unfold digit_char. assert (<[length l := digit_char uppercase (n mod base)]> (l ++ x :: r) =
        (l ++ [digit_char uppercase (n mod base)]) ++ r) as E.
      { rewrite insert_app_r_alt, Nat.sub_diag by lia. by rewrite <- app_assoc. }
      unfold digit_char in E.
      destruct (n mod base <? 10); apply buf_set_wp; rewrite ?length_app, ?Nat2Z.id; cbn [length]; try lia; exact E. }
    eapply wp_mono; [exact Hset|]. intros [] b ->.
    replace (Z.of_nat (length l) + 1) with (Z.of_nat (length (l ++ [digit_char uppercase (n mod base)])))
      by (rewrite length_app; cbn [length]; lia).
    apply IH; [by apply div_bound | simpl in Hr; lia|]. cbv zeta. rewrite length_app, <- !app_assoc. cbn [length map app] in HQ |- *.
    rewrite skipn_cons in HQ. by replace (length l + 1 + length (rev_digits k base (n / base)))%nat
      with (length l + S (length (rev_digits k base (n / base))))%nat by lia.
Qed.

(** ** Output *)

(** The buffer after the text [out] was put into the array [b0]. *)
Definition emitted (b0 : list Z) (size : Z) (out : list Z) : printf_buffer :=
  let n := Nat.min (length out) (Z.to_nat (size - 1)) in
  mk_pbuf (take n out ++ drop n b0) size (Z.of_nat n) (u32 (Z.of_nat (length out))).

Section Emit.
Context (b0 : list Z) (size : Z).
Hypothesis H_size : 0 <= size <= Z.of_nat (length b0) /\ size < 4294967296.

Lemma buffer_putc_wp c out (Q : unit -> printf_buffer -> Prop) :
  Q tt (emitted b0 size (out ++ [c])) -> wp (buffer_putc c) Q (emitted b0 size out).
Proof.
  intros HQ. destruct H_size as [Hs1 Hs2].
  assert (u32 (u32 (Z.of_nat (length out)) + 1) = u32 (Z.of_nat (length (out ++ [c])))) as Et.
  { rewrite length_app. cbn [length]. unfold u32. rewrite Zplus_mod_idemp_l. f_equal. lia. }
  unfold buffer_putc. wp_step. wp_step. unfold emitted at 1 2. cbn [pb_size pb_pos].
  destruct (Z.ltb_spec 0 size) as [Hpos|Hz]; cbn [andb].
  2: { wp_steps. replace (set_pb_total _ _) with (emitted b0 size (out ++ [c])); [done|].
       unfold emitted, set_pb_total. cbn [pb_buf pb_size pb_pos pb_total]. rewrite Et.
       replace (Z.to_nat (size - 1)) with O by lia. by rewrite !Nat.min_0_r. }
  change (pb_size (emitted b0 size out)) with size. rewrite (u32_id (size - 1)) by (unfold is_u32; lia).
  destruct (Z.ltb_spec (Z.of_nat (length out `min` Z.to_nat (size - 1))) (size - 1)) as [Hlt|Hge].
  - assert (length out `min` Z.to_nat (size - 1) = length out)%nat as En by lia.
    wp_steps. unfold emitted. rewrite En. cbn [pb_buf pb_pos]. rewrite (take_ge out) by done.
    apply buf_set_wp; [rewrite length_app, length_drop; lia|]. wp_steps.
    replace (set_pb_total _ _) with (emitted b0 size (out ++ [c])); [done|].
    unfold emitted, set_pb_total, set_pb_pos, set_pb_buf. cbn [pb_buf pb_size pb_pos pb_total]. rewrite Et, Nat2Z.id.
    assert (length (out ++ [c]) `min` Z.to_nat (size - 1) = S (length out))%nat as -> by (rewrite length_app; cbn [length]; lia).
    rewrite set_snoc by lia. rewrite take_ge by (rewrite length_app; cbn [length]; lia).
    rewrite (u32_id (Z.of_nat (length out) + 1)) by (unfold is_u32; lia). f_equal. lia.
  - wp_steps. replace (set_pb_total _ _) with (emitted b0 size (out ++ [c])); [done|].
    unfold emitted, set_pb_total. cbn [pb_buf pb_size pb_pos pb_total]. rewrite Et.
    assert (length (out ++ [c]) `min` Z.to_nat (size - 1) = length out `min` Z.to_nat (size - 1))%nat as ->
      by (rewrite length_app; cbn [length]; lia).
    by rewrite take_app_le by lia.
Qed.

(** The bytes of a C string. *)
Fixpoint cstr (l : list Z) : option (list Z) :=
  match l with
  | [] => None
  | c :: l' => if c =? 0 then Some [] else option_map (cons c) (cstr l')
  end.

Lemma buffer_puts_wp str : forall s out (Q : unit -> printf_buffer -> Prop), cstr str = Some s ->
  Q tt (emitted b0 size (out ++ s)) -> wp (buffer_puts str) Q (emitted b0 size out).
Proof.
  induction str as [|c str IH]; intros s out Q Hs HQ; cbn [cstr buffer_puts] in *; [done|].
  destruct (c =? 0).
  - injection Hs as <-. rewrite app_nil_r in HQ. by apply wp_ret.
  - destruct (cstr str) as [s'|] eqn:E; [|done]. injection Hs as <-. wp_step. apply buffer_putc_wp.
    apply (IH s' (out ++ [c])); [done|]. by rewrite <- app_assoc.
Qed.

Lemma on_local_wp {S A} b (c : M (list Z) A) (Q : A * list Z -> S -> Prop) (s : S) :
  wp c (fun a b' => Q (a, b') s) b -> wp (on_local b c) Q s.
Proof. unfold wp, on_local. by destruct (c b) as [[a b']|]. Qed.

(** The text of an unsigned number. *)
Definition uint_text (base : Z) (uppercase : bool) (n : Z) : list Z :=
  if n =? 0 then [48] else map (digit_char uppercase) (digits base n).

Lemma reverse_wp l r (Q : unit -> list Z -> Prop) : Z.of_nat (length l) < 4294967296 ->
  Q tt (rev l ++ r) -> wp (reverse (Z.of_nat (length l))) Q (l ++ r).
Proof.
  intros Hl HQ. unfold reverse. apply (swap_loop_wp (fun i => i) (fun i => u32 (Z.of_nat (length l) - i - 1)) 0).
  - rewrite length_app. lia.
  - done.
  - intros i Hi. rewrite u32_id by (unfold is_u32; dlia). lia.
  - intros b Hb Hj. rewrite (rev_part 0 (Z.of_nat (length l)) [] l r b) by (done || (intros j Hjj; rewrite Hj by lia; done)).
    done.
Qed.

Lemma format_uint_wp n base uppercase out (Q : unit -> printf_buffer -> Prop) :
  2 <= base -> is_u32 n -> Q tt (emitted b0 size (out ++ uint_text base uppercase n)) ->
  wp (format_uint n base uppercase) Q (emitted b0 size out).
Proof.
  intros Hb Hn HQ. unfold format_uint, uint_text in *. destruct (Z.eqb_spec n 0); [by apply buffer_putc_wp|].
  wp_step. apply on_local_wp. apply (uint_digits_wp uppercase base Hb 32 n [] (replicate 64 0)); [done | by rewrite length_replicate; lia|].
  set (ds := rev_digits 32 base n). cbv zeta. cbn [length app Nat.add].
  assert (length ds <= 32)%nat as Hl by apply rev_digits_length.
  wp_step. apply on_local_wp. rewrite <- (length_map (digit_char uppercase) ds) at 1. apply reverse_wp; [rewrite length_map; lia|].
  rewrite <- map_rev. change (rev ds) with (digits base n). set (t := map (digit_char uppercase) (digits base n)) in *.
  assert (length t = length ds) as Ht by (unfold t, digits; by rewrite length_map, length_rev).
  apply (wp_for_each (fun j s => s = emitted b0 size (out ++ take (Z.to_nat j) t))).
  - by rewrite take_0, app_nil_r.
  - intros j s Hj ->. wp_step. apply on_local_wp. apply buf_get_wp; [rewrite length_app; lia|].
    rewrite lookup_total_app_l by lia. apply buffer_putc_wp. rewrite <- app_assoc. do 2 f_equal.
    replace (Z.to_nat (j + 1)) with (S (Z.to_nat j)) by lia. symmetry. apply take_S_r.
    apply list_lookup_lookup_total_lt. lia.
  - intros s ->. rewrite take_ge by lia. done.
Qed.

Definition int_text (v : Z) : list Z :=
  if v <? 0 then 45 :: uint_text 10 false (- v) else uint_text 10 false v.

Lemma format_int_wp v out (Q : unit -> printf_buffer -> Prop) :
  -2147483648 <= v < 2147483648 -> Q tt (emitted b0 size (out ++ int_text v)) ->
  wp (format_int v) Q (emitted b0 size out).
Proof.
  intros Hv HQ. unfold format_int, int_text in *. destruct (Z.ltb_spec v 0).
  - wp_step. apply buffer_putc_wp. assert (u32 (- u32 v) = - v) as ->.
    { unfold u32. rewrite <- (Z.sub_0_l (v mod _)), Zminus_mod_idemp_r. apply Z.mod_small. lia. }
    apply format_uint_wp; [lia | unfold is_u32; lia|]. by rewrite <- app_assoc.
  - rewrite u32_id by (unfold is_u32; lia). apply format_uint_wp; [lia | unfold is_u32; lia | done].
Qed.
End Emit.

(** ** The text of a format *)

Definition word_text (f : Z -> list Z) (args : list vararg) : option (list Z * list vararg) :=
  match args with VWord w :: args' => Some (f w, args') | _ => None end.

(** The text of one conversion and the arguments left; [None] when the arguments do
    not fit the conversion. *)
Definition conv_text (c : Z) (args : list vararg) : option (list Z * list vararg) :=
  if c =? 37 then Some ([37], args)
  else if c =? 99 then word_text (fun w => [u8 w]) args
  else if c =? 115 then
    match args with
    | VStr (Some str) :: args' => option_map (fun s => (s, args')) (cstr str)
    | VStr None :: args' => Some ([40; 110; 117; 108; 108; 41], args')
    | _ => None
    end
  else if (c =? 100) || (c =? 105) then word_text (fun w => int_text (s32 w)) args
  else if c =? 117 then word_text (uint_text 10 false) args
  else if c =? 120 then word_text (uint_text 16 false) args
  else if c =? 88 then word_text (uint_text 16 true) args
  else if c =? 111 then word_text (uint_text 8 false) args
  else if c =? 112 then word_text (fun w => [48; 120] ++ uint_text 16 false w) args
  else Some ([37; c], args).

(** The full text of a zero-terminated format. *)
Fixpoint render (fmt : list Z) (args : list vararg) : option (list Z) :=
  match fmt with
  | [] => None
  | c :: fmt1 =>
      if c =? 0 then Some []
      else if negb (c =? 37) then option_map (cons c) (render fmt1 args)
      else
        match fmt1 with
        | [] => None
        | d :: fmt2 =>
            if d =? 0 then Some []
            else match conv_text d args with
                 | Some (t, args') => option_map (app t) (render fmt2 args')
                 | None => None
                 end
        end
  end.

Definition arg_ok (a : vararg) : Prop := match a with VWord w => is_u32 w | VStr _ => True end.

Lemma s32_range w : -2147483648 <= s32 w < 2147483648.
Proof. unfold s32. pose proof (u32_range w) as H. unfold is_u32 in H. zcases; lia. Qed.

Section Format.
Context (b0 : list Z) (size : Z).
Hypothesis H_size : 0 <= size <= Z.of_nat (length b0) /\ size < 4294967296.

Lemma word_conv_wp f g args t args' out (Q : list vararg -> printf_buffer -> Prop) :
  (forall w (Q : unit -> printf_buffer -> Prop), is_u32 w -> Q tt (emitted b0 size (out ++ g w)) -> wp (f w) Q (emitted b0 size out)) ->
  Forall arg_ok args -> word_text g args = Some (t, args') ->
  (Forall arg_ok args' -> Q args' (emitted b0 size (out ++ t))) ->
  wp (' (w, args) <-- va_word args ;; f w ;;; ret args) Q (emitted b0 size out).
Proof.
  intros Hf Ha Ht HQ. destruct args as [|[w|s] args]; [done| |done]. injection Ht as <- <-.
  apply Forall_cons in Ha as [Hw Ha]. wp_step. cbn [va_word]. wp_step. wp_step. apply Hf; [done|]. apply wp_ret. by apply HQ.
Qed.

Lemma convert_wp c args t args' out (Q : list vararg -> printf_buffer -> Prop) :
  Forall arg_ok args -> conv_text c args = Some (t, args') ->
  (Forall arg_ok args' -> Q args' (emitted b0 size (out ++ t))) ->
  wp (convert c args) Q (emitted b0 size out).
Proof.
  intros Ha Ht HQ. unfold convert, conv_text in *.
  destruct (c =? 37). { injection Ht as <- <-. wp_step. apply buffer_putc_wp; [done|]. by apply wp_ret, HQ. }
  destruct (c =? 99).
  { apply (word_conv_wp (fun w => buffer_putc (u8 w)) (fun w => [u8 w]) args t args'); [|done..]. intros w Q' _. by apply buffer_putc_wp. }
  destruct (c =? 115).
  { destruct args as [|[w|[str|]] args]; [done | done| |]; apply Forall_cons in Ha as [_ Ha]; wp_step; cbn [va_str]; wp_step; wp_step.
    - destruct (cstr str) as [s|] eqn:E; [|done]. injection Ht as <- <-. apply (buffer_puts_wp b0 size H_size str s); [done|].
      by apply wp_ret, HQ.
    - injection Ht as <- <-. eapply buffer_puts_wp; [done | reflexivity|]. by apply wp_ret, HQ. }
  destruct ((c =? 100) || (c =? 105)).
  { apply (word_conv_wp (fun w => format_int (s32 w)) (fun w => int_text (s32 w)) args t args'); [|done..]. intros w Q' _.
    apply format_int_wp; [done | apply s32_range]. }
  destruct (c =? 117). { eapply word_conv_wp; [|done..]. intros w Q' Hw. by apply format_uint_wp. }
  destruct (c =? 120). { eapply word_conv_wp; [|done..]. intros w Q' Hw. by apply format_uint_wp. }
  destruct (c =? 88). { eapply word_conv_wp; [|done..]. intros w Q' Hw. by apply format_uint_wp. }
  destruct (c =? 111). { eapply word_conv_wp; [|done..]. intros w Q' Hw. by apply format_uint_wp. }
  destruct (c =? 112).
  { destruct args as [|[w|s] args]; [done| |done]. injection Ht as <- <-. apply Forall_cons in Ha as [Hw Ha]. wp_step. cbn [va_word]. do 2 wp_step.
    eapply buffer_puts_wp; [done | reflexivity|]. wp_step. apply format_uint_wp; [done | lia | done|]. apply wp_ret.
    rewrite <- app_assoc. by apply HQ. }
  injection Ht as <- <-. wp_step. apply buffer_putc_wp; [done|]. wp_step. apply buffer_putc_wp; [done|]. apply wp_ret.
  rewrite <- app_assoc. by apply HQ.
Qed.

Lemma vsnprintf_loop_wp : forall n fmt args t out (Q : unit -> printf_buffer -> Prop), (length fmt <= n)%nat ->
  Forall arg_ok args -> render fmt args = Some t -> Q tt (emitted b0 size (out ++ t)) ->
  wp (vsnprintf_loop fmt args) Q (emitted b0 size out).
Proof.
  induction n as [|n IH]; intros fmt args t out Q Hn Ha Ht HQ; (destruct fmt as [|c fmt]; [done|]); [simpl in Hn; lia|].
  cbn [vsnprintf_loop render length] in *. destruct (c =? 0).
  { injection Ht as <-. rewrite app_nil_r in HQ. by apply wp_ret. }
  destruct (negb (c =? 37)).
  - destruct (render fmt args) as [t'|] eqn:E; [|done]. injection Ht as <-. wp_step. apply buffer_putc_wp; [done|].
    apply (IH fmt args t' (out ++ [c])); [lia | done | done|]. by rewrite <- app_assoc.
  - destruct fmt as [|d fmt]; [done|]. cbn [length] in Hn. destruct (d =? 0).
    { injection Ht as <-. rewrite app_nil_r in HQ. by apply wp_ret. }
    destruct (conv_text d args) as [[t1 args']|] eqn:E1; [|done].
    destruct (render fmt args') as [t2|] eqn:E2; [|done]. injection Ht as <-.
    wp_step. eapply convert_wp; [done | exact E1|]. intros Ha'.
    apply (IH fmt args' t2 (out ++ t1)); [lia | done | done|]. by rewrite <- app_assoc.
Qed.

Lemma buffer_finish_wp out (Q : unit -> printf_buffer -> Prop) :
  (let n := Nat.min (length out) (Z.to_nat (size - 1)) in
   Q tt (if 0 <? size
         then mk_pbuf (take n out ++ 0 :: drop (S n) b0) size (Z.of_nat n) (u32 (Z.of_nat (length out)))
         else emitted b0 size out)) ->
  wp buffer_finish Q (emitted b0 size out).
Proof.
  intros HQ. destruct H_size as [Hs1 Hs2]. unfold buffer_finish. wp_steps. change (pb_size (emitted b0 size out)) with size.
  destruct (Z.ltb_spec 0 size); [|by apply wp_ret]. wp_steps. unfold emitted. cbn [pb_pos]. set (n := (_ `min` _)%nat) in *.
  assert (n <= Z.to_nat (size - 1))%nat as Hn by lia.
  destruct (Z.ltb_spec (Z.of_nat n) size); [|lia]. wp_step. cbn [pb_buf].
  assert (length (take n out) = n) as Hl by (rewrite length_take; lia).
  apply buf_set_wp; [rewrite length_app, length_drop; lia|]. rewrite Nat2Z.id, set_snoc by lia.
  unfold set_pb_buf. cbn [pb_size pb_pos pb_total]. rewrite <- app_assoc. exact HQ.
Qed.
End Format.

(** What a buffer of [size] bytes holds after the text [out]. *)
Definition printed (size : Z) (out buf : list Z) : list Z :=
  if 0 <? size then
    let n := Nat.min (length out) (Z.to_nat (size - 1)) in take n out ++ 0 :: drop (S n) buf
  else buf.

Lemma vsnprintf_wp (buf fmt out : list Z) (size : Z) (args : list vararg) :
  0 <= size <= Z.of_nat (length buf) -> size < 4294967296 -> Forall arg_ok args ->
  render fmt args = Some out -> Z.of_nat (length out) < 2147483648 ->
  wp (vsnprintf size fmt args) (fun r b => r = Z.of_nat (length out) /\ b = printed size out buf) buf.
Proof.
  intros Hs1 Hs2 Ha Hr Hl. unfold wp, vsnprintf.
  assert (emitted buf size [] = mk_pbuf buf size 0 0) as E0 by done.
  assert (wp (vsnprintf_loop fmt args ;;; buffer_finish ;;; gets pb_total)
    (fun t b => t = Z.of_nat (length out) /\ pb_buf b = printed size out buf) (mk_pbuf buf size 0 0)) as Hwp.
  { rewrite <- E0. wp_step. eapply (vsnprintf_loop_wp buf size); [done | reflexivity | done | exact Hr|]. cbn [app].
    wp_step. apply buffer_finish_wp; [done|]. cbv zeta. apply wp_gets. unfold printed.
    assert (u32 (Z.of_nat (length out)) = Z.of_nat (length out)) as E by (apply u32_id; unfold is_u32; lia).
    destruct (Z.ltb_spec 0 size); cbn [pb_total pb_buf emitted]; (split; [done|]); [done|].
    replace (Z.to_nat (size - 1)) with O by lia. by rewrite Nat.min_0_r. }
  apply wp_run in Hwp as (t & b & -> & -> & ->). split; [|done].
  unfold s32. rewrite u32_id by (unfold is_u32; lia). zcases; lia.
Qed.

(** ** Properties *)

(** C33. [vsnprintf] never writes outside the buffer and returns the full length.  For a
    zero-terminated format whose text is [out] (at most 2^31 - 1 bytes) and a buffer
    of at least [size] bytes, it writes the first [size - 1] bytes of [out] (all of
    them if they fit) and a zero, leaves the rest of the buffer alone, writes
    nothing at all when [size] is 0, and returns the length of [out]. *)
Theorem vsnprintf_correct (buf fmt out : list Z) (size : Z) (args : list vararg) :
  0 <= size <= Z.of_nat (length buf) -> size < 4294967296 -> Forall arg_ok args ->
  render fmt args = Some out -> Z.of_nat (length out) < 2147483648 ->
  vsnprintf size fmt args buf = Some (Z.of_nat (length out),
    if 0 <? size then
      let n := Nat.min (length out) (Z.to_nat (size - 1)) in take n out ++ 0 :: drop (S n) buf
    else buf).
Proof.
  intros Hs1 Hs2 Ha Hr Hl.
  destruct (proj1 (wp_run _ _ _) (vsnprintf_wp buf fmt out size args Hs1 Hs2 Ha Hr Hl)) as (r & b & -> & -> & ->).
  done.
Qed.

(** "a%d" with -12, into four bytes. *)
Lemma vsnprintf_correct_witness :
  vsnprintf 4 [97; 37; 100; 0] [VWord 4294967284] [7; 7; 7; 7; 7] = Some (4, [97; 45; 49; 0; 7]).
Proof.
  apply (vsnprintf_correct [7; 7; 7; 7; 7] [97; 37; 100; 0] [97; 45; 49; 50] 4 [VWord 4294967284]).
  - cbn. lia.
  - lia.
  - constructor; [unfold arg_ok, is_u32; lia | constructor].
  - vm_compute. reflexivity.
  - cbn. lia.
Defined.

(** ** Conversion of integers *)

Definition itoa_text (value base : Z) : list Z :=
  if (base =? 10) && (value <? 0) then 45 :: uint_text base true (- value) else uint_text base true (u32 value).

Lemma itoa_digits_wp base : 2 <= base <= 16 ->
  forall k n l r cnt (Q : Z * Z -> list Z -> Prop), 0 <= n < 2 ^ Z.of_nat k -> (k <= length r)%nat ->
  0 <= cnt -> cnt + Z.of_nat k < 256 ->
  (let ds := rev_digits k base n in
   Q (Z.of_nat (length l + length ds), cnt + Z.of_nat (length ds)) (l ++ map (digit_char true) ds ++ drop (length ds) r)) ->
  wp (itoa_digits (S k) n base (Z.of_nat (length l)) cnt) Q (l ++ r).
Proof.
  intros Hb. induction k as [|k IH]; intros n l r cnt Q Hn Hr Hc0 Hc HQ.
  - cbn in Hn. assert (n = 0) as -> by lia. cbn in HQ |- *. rewrite Nat.add_0_r, drop_0, Z.add_0_r in HQ. by apply wp_ret.
  - cbn [itoa_digits]. cbn [rev_digits] in HQ. destruct (Z.eqb_spec n 0) as [->|Hne].
    { cbn in HQ. rewrite Nat.add_0_r, drop_0, Z.add_0_r in HQ. by apply wp_ret. }
    destruct r as [|x r]; [simpl in Hr; lia|]. pose proof (Z.mod_pos_bound n base ltac:(lia)) as Hm.
    rewrite (u8_id (n mod base)) by (unfold is_u8; lia).
    replace (if 9 <? n mod base then n mod base - 10 + 65 else n mod base + 48) with (digit_char true (n mod base))
      by (unfold digit_char; zcases; lia).
    wp_step. apply buf_set_wp; [rewrite length_app; cbn [length]; lia|]. rewrite Nat2Z.id, insert_app_r_alt, Nat.sub_diag by lia.
    cbn [insert list_insert]. change (l ++ digit_char true (n mod base) :: r) with (l ++ [digit_char true (n mod base)] ++ r).
    rewrite app_assoc, (u8_id (cnt + 1)) by (unfold is_u8; lia).
    replace (Z.of_nat (length l) + 1) with (Z.of_nat (length (l ++ [digit_char true (n mod base)])))
      by (rewrite length_app; cbn [length]; lia).
    apply IH; [apply div_bound; [lia | done] | simpl in Hr; lia | lia | lia|]. cbv zeta. rewrite length_app, <- !app_assoc.
    cbn [length map app] in HQ |- *. rewrite skipn_cons in HQ.
    replace (length l + 1 + length (rev_digits k base (n / base)))%nat
      with (length l + S (length (rev_digits k base (n / base))))%nat by lia.
    by replace (cnt + 1 + Z.of_nat (length (rev_digits k base (n / base))))
      with (cnt + Z.of_nat (S (length (rev_digits k base (n / base))))) by lia.
Qed.

(** Zero-terminated text written over an array. *)
Definition written (b t : list Z) : list Z := t ++ 0 :: drop (S (length t)) b.

(** The part of [conv_itoa] after the sign, which is [l]. *)
Lemma itoa_body_wp base n l r : 2 <= base <= 16 -> is_u32 n -> (33 <= length r)%nat ->
  forall start, start = Z.of_nat (length l) ->
  wp (if n =? 0 then buf_set start 48 ;;; buf_set (start + 1) 0
      else if base =? 0 then undefined
      else
        ' (ptr, digits) <-- itoa_digits 33 n base start 0 ;;
        buf_set ptr 0 ;;;
        for_each 0 (digits / 2) (fun i =>
          tmp <-- buf_get (start + i) ;;
          x <-- buf_get (start + (digits - 1 - i)) ;;
          buf_set (start + i) x ;;;
          buf_set (start + (digits - 1 - i)) tmp))
    (fun _ b => b = written (l ++ r) (l ++ uint_text base true n)) (l ++ r).
Proof.
  intros Hb Hn Hr start ->. unfold uint_text, written. destruct (Z.eqb_spec n 0) as [->|Hne].
  - destruct r as [|x [|y r]]; [simpl in Hr; lia | simpl in Hr; lia|].
    wp_step. apply buf_set_wp; [rewrite length_app; cbn [length]; lia|]. rewrite Nat2Z.id, insert_app_r_alt, Nat.sub_diag by lia.
    cbn [insert list_insert]. apply buf_set_wp; [rewrite length_app; cbn [length]; lia|].
    rewrite insert_app_r_alt by lia. replace (Z.to_nat (Z.of_nat (length l) + 1) - length l)%nat with 1%nat by lia.
    cbn. rewrite length_app, <- app_assoc. cbn [length app]. do 3 f_equal.
    rewrite skipn_app, (skipn_all2 l) by lia. cbn [app].
    by replace (S (length l + 1) - length l)%nat with 2%nat by lia.
  - destruct (Z.eqb_spec base 0); [lia|]. wp_step. apply itoa_digits_wp; [done | exact Hn | lia | lia | lia|]. cbv zeta.
    unfold digits. remember (rev_digits 32 base n) as ds eqn:Eds.
    assert (length ds <= 32)%nat as Hl by (subst; apply rev_digits_length).
    wp_step. apply buf_set_wp; [rewrite !length_app, length_map, length_drop; lia|].
    set (t := map (digit_char true) ds). assert (length t = length ds) as Ht by apply length_map.
    assert (<[Z.to_nat (Z.of_nat (length l + length ds)) := 0]> (l ++ t ++ drop (length ds) r) =
      l ++ t ++ 0 :: drop (S (length ds)) r) as ->.
    { rewrite Nat2Z.id, app_assoc, insert_app_r_alt by (rewrite length_app; lia).
      rewrite length_app, Ht, Nat.sub_diag. rewrite <- app_assoc. do 2 f_equal.
      destruct (drop (length ds) r) as [|x t'] eqn:E.
      - apply (f_equal length) in E. rewrite length_drop in E. simpl in E. lia.
      - simpl. f_equal. replace (S (length ds)) with (length ds + 1)%nat by lia. rewrite <- drop_drop, E. done. }
    rewrite Z.add_0_l. apply (swap_loop_wp (fun i => Z.of_nat (length l) + i) (fun i => Z.of_nat (length l) + (Z.of_nat (length ds) - 1 - i))
      (Z.of_nat (length l))); [rewrite !length_app, Ht; lia | done | done|].
    intros b Hbl Hj. rewrite (rev_part (Z.of_nat (length l)) (Z.of_nat (length ds)) l t (0 :: drop (S (length ds)) r) b)
      by (done || lia || (intros j Hjj; rewrite Hj by lia; done)).
    rewrite map_rev. fold t. rewrite length_app, length_rev, Ht, <- app_assoc. do 3 f_equal.
    rewrite skipn_app, (skipn_all2 l) by lia. cbn [app]. f_equal. lia.
Qed.

Lemma conv_itoa_wp value base b : 2 <= base <= 16 -> -2147483648 <= value < 2147483648 -> (34 <= length b)%nat ->
  wp (conv_itoa value base) (fun _ b' => b' = written b (itoa_text value base)) b.
Proof.
  intros Hb Hv Hl. unfold conv_itoa, itoa_text, CONV_BASE_10.
  destruct ((base =? 10) && (value <? 0)) eqn:En.
  - destruct b as [|x r]; [simpl in Hl; lia|]. wp_step. wp_step. apply buf_set_wp; [cbn [length]; lia|]. wp_step.
    cbn [Z.to_nat insert list_insert]. assert (u32 (- u32 value) = - value) as ->.
    { unfold u32. rewrite <- (Z.sub_0_l (value mod _)), Zminus_mod_idemp_r. apply Z.mod_small. lia. }
    eapply wp_mono; [apply (itoa_body_wp base (- value) [45] r Hb ltac:(unfold is_u32; lia) ltac:(simpl in Hl; lia) 1 eq_refl)|].
    intros _ b' ->. done.
  - wp_step. wp_step. eapply wp_mono; [apply (itoa_body_wp base (u32 value) [] b Hb (u32_range _) ltac:(lia) 0 eq_refl)|].
    intros _ b' ->. done.
Qed.

Lemma atoi_num_digit d : 0 <= d < 16 -> atoi_num (digit_char true d) = d /\ digit_char true d <> 0 /\ digit_char true d <> 45.
Proof. intros Hd. unfold atoi_num, digit_char. destruct (Z.ltb_spec d 10); zcases; cbn [andb]; lia. Qed.

Lemma fold_digits_ge base ds : 1 <= base -> Forall (fun d => 0 <= d) ds ->
  forall acc, 0 <= acc -> acc <= fold_left (fun acc d => acc * base + d) ds acc.
Proof.
  intros Hb. induction 1 as [|d ds Hd Hds IH]; intros acc Ha; cbn [fold_left]; [lia|].
  specialize (IH (acc * base + d) ltac:(nia)). nia.
Qed.

(** Reading digits: no step overflows when the number fits in an [int32_t]. *)
Lemma atoi_loop_digits base ds r : 2 <= base <= 16 -> Forall (fun d => 0 <= d < base) ds ->
  forall acc, 0 <= acc -> fold_left (fun acc d => acc * base + d) ds acc < 2147483648 ->
  atoi_loop (map (digit_char true) ds ++ 0 :: r) base acc = Some (fold_left (fun acc d => acc * base + d) ds acc).
Proof.
  intros Hb. induction 1 as [|d ds Hd Hds IH]; intros acc Ha Hlt; cbn [fold_left map app atoi_loop]; [done|].
  destruct (atoi_num_digit d ltac:(lia)) as (-> & Hz & _). destruct (Z.eqb_spec (digit_char true d) 0); [done|].
  destruct (Z.leb_spec base d); [lia|]. cbn [fold_left] in Hlt.
  pose proof (fold_digits_ge base ds ltac:(lia) (Forall_impl _ _ _ Hds (fun d H => proj1 H)) (acc * base + d) ltac:(nia)).
  assert (0 <= acc * base) by nia. unfold is_s32.
  replace ((-2147483648 <=? acc * base) && (acc * base <? 2147483648)) with true by lia.
  replace ((-2147483648 <=? acc * base + d) && (acc * base + d <? 2147483648)) with true by lia.
  cbn [andb]. apply IH; [lia | done].
Qed.

Lemma uint_text_atoi base n r : 2 <= base <= 16 -> 0 <= n < 2147483648 ->
  atoi_loop (uint_text base true n ++ 0 :: r) base 0 = Some n /\ exists c t, uint_text base true n = c :: t /\ c <> 45.
Proof.
  intros Hb Hn. unfold uint_text. destruct (Z.eqb_spec n 0) as [->|Hne].
  - split; [|by exists 48, []]. cbn [app atoi_loop]. change (atoi_num 48) with 0. cbn [Z.eqb].
    destruct (Z.leb_spec base 0); [lia|]. by rewrite Z.mul_0_l.
  - assert (Hr : Forall (fun d => 0 <= d < base) (digits base n)).
    { apply Forall_forall. intros d Hd. apply (rev_digits_range base 32 n d); [lia|]. unfold digits in Hd.
      rewrite list_elem_of_In in Hd |- *. by apply in_rev. }
    assert (Hv : fold_left (fun acc d => acc * base + d) (digits base n) 0 = n).
    { apply (rev_digits_value base 32 n); [lia|]. cbn. lia. }
    split; [rewrite atoi_loop_digits; [by rewrite Hv | done | done | lia | by rewrite Hv; lia]|].
    assert (digits base n <> []) as Hds.
    { unfold digits. intros E. apply (f_equal (@rev Z)) in E. rewrite rev_involutive in E.
      by apply (rev_digits_ne base 32 n) in E; [|cbn; lia]. }
    destruct (digits base n) as [|d ds]; [done|]. exists (digit_char true d), (map (digit_char true) ds). split; [done|].
    apply Forall_cons in Hr as [Hd _]. apply atoi_num_digit. lia.
Qed.

(** [conv_atoi] reads back what [conv_itoa] writes.  For any base from 2 to 16 and a
    buffer of 34 bytes, [conv_itoa] stays inside the buffer and zero-terminates the
    text; [conv_atoi] of that text is the value, for every non-negative value, and in
    base 10 for every negative one but [INT32_MIN]. *)
Theorem conv_roundtrip (value base : Z) (str : list Z) :
  2 <= base <= 16 -> (34 <= length str)%nat -> value < 2147483648 ->
  0 <= value \/ (base = 10 /\ -2147483648 < value) ->
  exists str', conv_itoa value base str = Some (tt, str') /\ length str' = length str /\ conv_atoi str' base = Some value.
Proof.
  intros Hb Hl Hv Hc. destruct (proj1 (wp_run _ _ _) (conv_itoa_wp value base str Hb ltac:(lia) Hl)) as ([] & str' & Hrun & ->).
  eexists. split; [exact Hrun|].
  assert (Hlen : (length (itoa_text value base) <= 33)%nat).
  { unfold itoa_text, uint_text, digits.
    pose proof (rev_digits_length base 32 (- value)). pose proof (rev_digits_length base 32 (u32 value)).
    destruct (_ && _), (_ =? 0); cbn [length]; rewrite ?length_map, ?length_rev; lia. }
  split; [unfold written; rewrite length_app; cbn [length]; rewrite length_drop; lia|].
  unfold written, itoa_text. set (rest := drop _ str).
  destruct ((base =? 10) && (value <? 0)) eqn:En.
  - cbn [app conv_atoi]. cbn [Z.eqb Pos.eqb]. destruct (uint_text_atoi base (- value) rest Hb ltac:(lia)) as [-> _]. cbn.
    f_equal. lia.
  - assert (0 <= value) as Hpos by (destruct Hc as [?|[-> ?]]; [done | cbn in En; lia]).
    rewrite (u32_id value) by (unfold is_u32; lia).
    destruct (uint_text_atoi base value rest Hb ltac:(lia)) as [Ha (c & t & E & Hc45)].
    rewrite E in Ha |- *. cbn [app conv_atoi] in Ha |- *. destruct (Z.eqb_spec c 45); [done|]. by rewrite Ha.
Qed.

Lemma conv_roundtrip_witness :
  exists str', conv_itoa (-305) 10 (replicate 34 7) = Some (tt, str') /\ conv_atoi str' 10 = Some (-305).
Proof.
  destruct (conv_roundtrip (-305) 10 (replicate 34 7)) as (str' & H1 & _ & H2).
  - lia.
  - reflexivity.
  - lia.
  - right. lia.
  - exists str'. split; [exact H1 | exact H2].
Defined.

(** Reading back [INT32_MIN] overflows. *)
Theorem conv_atoi_int_min_undefined : exists str,
  conv_itoa (-2147483648) 10 (replicate 34 0) = Some (tt, str) /\ conv_atoi str 10 = None.
Proof. exists ([45; 50; 49; 52; 55; 52; 56; 51; 54; 52; 56; 0] ++ replicate 22 0). split; vm_compute; reflexivity. Qed.
