(* ===== verification/Irq.v ===== *)
(** * Generic interrupt subsystem

    Models [kernel/irq/irq.c], [kernel/irq/desc.c] and [kernel/irq/map.c].

    - [irqs] holds the static data of the three files: the bitmap of allocated
      interrupt numbers, the descriptor table and the [struct irq_map] objects
      by address (reading an address that holds no map is undefined).
    - Pointers to chips, handlers and driver data are numbers, 0 is [NULL].
      What they point to is code of other components: [chip_ops] gives the
      operations of the chip at an address and [call_handler] what a handler
      does.  Both act on the whole system, [irqs] and a device state [D], so a
      handler may call back into this subsystem.
    - A [struct irq_desc *] is the index of the descriptor in the table. *)

From S2P Require Import Prelude Base Bitmap Runs.

Definition IRQ_INVALID : Z := 4294967295. (* (irq_t) -1 *)
Definition IRQ_MAX : Z := 256.

Record irq_desc := mk_irq_desc {
  desc_hwirq : Z;
  desc_map : Z;
  desc_chip : Z;
  desc_handler : Z;
  desc_dev_id : Z
}.

Record irq_map := mk_irq_map {
  map_name : Z;
  map_first_hwirq : Z;
  map_first_irq : Z;
  map_count : Z
}.

Record irqs := mk_irqs {
  irq_allocated : bitmap;
  irq_descs : list irq_desc;
  irq_maps : gmap Z irq_map
}.

#[export] Instance irq_desc_inhabited : Inhabited irq_desc := populate (mk_irq_desc 0 0 0 0 0).

Definition set_allocated (b : bitmap) (s : irqs) : irqs := mk_irqs b (irq_descs s) (irq_maps s).
Definition set_descs (l : list irq_desc) (s : irqs) : irqs := mk_irqs (irq_allocated s) l (irq_maps s).
Definition set_maps (m : gmap Z irq_map) (s : irqs) : irqs := mk_irqs (irq_allocated s) (irq_descs s) m.

Abbreviation on_alloc := (zoom irq_allocated set_allocated).

(** ** Interrupt numbers ([irq.c]) *)

(** The static buffer [irq_allocated_data] starts out zeroed. *)
Definition irq_init : M irqs Z :=
  on_alloc (bitmap_init (replicate (Z.to_nat (BITMAP_ELEMS IRQ_MAX)) 0) IRQ_MAX) ;;;
  ret KERR_OK.

(** [inr irq]: [KERR_OK] with [*out = irq]; [inl e]: the error [e]. *)
Definition irq_alloc_range (n : Z) (out : bool) : M irqs (Z + Z) :=
  if (n =? 0) || negb out then ret (inl (- KERR_INVAL))
  else if IRQ_MAX <? n then ret (inl (- KERR_INVAL))
  else
    r <-- for_lt 0 IRQ_MAX 0 (fun i consecutive =>
      t <-- on_alloc (bitmap_test i) ;;
      if t then ret (inl 0)
      else
        let consecutive := u32 (consecutive + 1) in
        if consecutive =? n then
          let first_irq := u32 (i - n + 1) in
          for_each 0 n (fun j => on_alloc (bitmap_set (u32 (first_irq + j)))) ;;;
          ret (inr first_irq)
        else ret (inl consecutive)) ;;
    match r with
    | inr irq => ret (inr irq)
    | inl _ => ret (inl (- KERR_NOSPC))
    end.

Definition irq_free_range (first_irq n : Z) : M irqs Z :=
  if n =? 0 then ret (- KERR_INVAL)
  else if (IRQ_MAX <=? first_irq) || (u32 (IRQ_MAX - first_irq) <? n) then ret (- KERR_INVAL)
  else
    r <-- for_lt 0 n tt (fun i _ =>
      t <-- on_alloc (bitmap_test (u32 (i + first_irq))) ;;
      if negb t then ret (inr (- KERR_NOENT)) else ret (inl tt)) ;;
    match r with
    | inr e => ret e
    | inl _ =>
        for_each first_irq (u32 (first_irq + n)) (fun i => on_alloc (bitmap_clear i)) ;;;
        ret KERR_OK
    end.

Definition irq_is_allocated (irq : Z) : M irqs bool :=
  if IRQ_MAX <=? irq then ret false else on_alloc (bitmap_test irq).

(** ** Descriptors ([desc.c]) *)

Definition irq_desc_get (irq : Z) : option Z :=
  if IRQ_MAX <=? irq then None else Some irq.

(** [*desc] as a value and as an assignment target. *)
Definition read_desc (desc : Z) : M irqs irq_desc := fun s =>
  match irq_descs s !! Z.to_nat desc with Some d => Some (d, s) | None => None end.
Definition write_desc (desc : Z) (d : irq_desc) : M irqs unit := fun s =>
  match irq_descs s !! Z.to_nat desc with
  | Some _ => Some (tt, set_descs (<[Z.to_nat desc := d]> (irq_descs s)) s)
  | None => None
  end.

(** [*map] *)
Definition read_map (map : Z) : M irqs irq_map := fun s =>
  match irq_maps s !! map with Some m => Some (m, s) | None => None end.
Definition write_map (map : Z) (m : irq_map) : M irqs unit := fun s =>
  match irq_maps s !! map with
  | Some _ => Some (tt, set_maps (<[map := m]> (irq_maps s)) s)
  | None => None
  end.

(** [hwirq < map->first_hwirq || hwirq >= map->first_hwirq + map->count] *)
Definition outside_map (m : irq_map) (hwirq : Z) : bool :=
  (hwirq <? map_first_hwirq m) || (u32 (map_first_hwirq m + map_count m) <=? hwirq).

Definition irq_desc_configure (irq hwirq map chip : Z) : M irqs Z :=
  if (IRQ_MAX <=? irq) || (map =? 0) || (chip =? 0) then ret (- KERR_INVAL)
  else
    a <-- irq_is_allocated irq ;;
    if negb a then ret (- KERR_NOENT)
    else
      d <-- read_desc irq ;;
      if negb (desc_map d =? 0) then ret (- KERR_BUSY)
      else
        m <-- read_map map ;;
        if outside_map m hwirq then ret (- KERR_INVAL)
        else
          write_desc irq (mk_irq_desc hwirq map chip (desc_handler d) (desc_dev_id d)) ;;;
          ret KERR_OK.

(** ** Handlers ([irq.c]) *)

Definition irq_request (irq handler dev_id : Z) : M irqs Z :=
  if (handler =? 0) || (IRQ_MAX <=? irq) then ret (- KERR_INVAL)
  else
    a <-- irq_is_allocated irq ;;
    if negb a then ret (- KERR_NOENT)
    else
      match irq_desc_get irq with
      | None => undefined
      | Some desc =>
          d <-- read_desc desc ;;
          if (desc_map d =? 0) || (desc_chip d =? 0) then ret (- KERR_NOENT)
          else if negb (desc_handler d =? 0) then ret (- KERR_BUSY)
          else
            write_desc desc (mk_irq_desc (desc_hwirq d) (desc_map d) (desc_chip d) handler dev_id) ;;;
            ret KERR_OK
      end.

Definition irq_free (irq : Z) : M irqs Z :=
  if IRQ_MAX <=? irq then ret (- KERR_INVAL)
  else
    a <-- irq_is_allocated irq ;;
    if negb a then ret (- KERR_NOENT)
    else
      match irq_desc_get irq with
      | None => undefined
      | Some desc =>
          d <-- read_desc desc ;;
          if (desc_map d =? 0) || (desc_chip d =? 0) then ret (- KERR_NOENT)
          else if desc_handler d =? 0 then ret (- KERR_NOENT)
          else
            write_desc desc (mk_irq_desc (desc_hwirq d) (desc_map d) (desc_chip d) 0 (desc_dev_id d)) ;;;
            ret KERR_OK
      end.

(** ** Maps ([map.c]) *)

Definition irq_map_init (map name first_hwirq count : Z) : M irqs Z :=
  if (map =? 0) || (name =? 0) || (count =? 0) then ret (- KERR_INVAL)
  else
    r <-- irq_alloc_range count true ;;
    match r with
    | inl e => ret e
    | inr irq => write_map map (mk_irq_map name first_hwirq irq count) ;;; ret KERR_OK
    end.

Definition irq_map_hwirq_to_irq (map hwirq : Z) : M irqs Z :=
  if map =? 0 then ret IRQ_INVALID
  else
    m <-- read_map map ;;
    if outside_map m hwirq then ret IRQ_INVALID
    else ret (u32 (map_first_irq m + u32 (hwirq - map_first_hwirq m))).

Definition irq_map_destroy (map : Z) : M irqs Z :=
  if map =? 0 then ret (- KERR_INVAL)
  else
    m <-- read_map map ;;
    TRY irq_free_range (map_first_irq m) (map_count m) ;;;
    ret KERR_OK.

(** ** Chips and dispatch *)

(** [struct irq_chip]: [handle_vector vector] returns its code and [*hwirq];
    the other operations get the index of a descriptor. *)
Record irq_chip (D : Type) := mk_irq_chip {
  handle_vector : Z -> M (irqs * D) (Z * Z);
  chip_enable : Z -> M (irqs * D) unit;
  chip_disable : Z -> M (irqs * D) unit;
  chip_eoi : Z -> M (irqs * D) unit
}.
Arguments handle_vector {D} _.
Arguments chip_enable {D} _.
Arguments chip_disable {D} _.
Arguments chip_eoi {D} _.

Definition on_irqs {D A} (c : M irqs A) : M (irqs * D) A :=
  zoom fst (fun t s => (t, snd s)) c.
Definition on_dev {D A} (c : M D A) : M (irqs * D) A :=
  zoom snd (fun t s => (fst s, t)) c.

Section Dispatch.
Context {D : Type}.
Context (chip_ops : Z -> option (irq_chip D)).
Context (call_handler : Z -> Z -> M (irqs * D) unit).

(** [chip->op]: the operations of the object at address [chip]. *)
Definition with_chip {A} (chip : Z) (k : irq_chip D -> M (irqs * D) A) : M (irqs * D) A :=
  match chip_ops chip with Some ops => k ops | None => undefined end.

Definition irq_dispatch (chip map vector : Z) : M (irqs * D) Z :=
  if (chip =? 0) || (map =? 0) then ret (- KERR_INVAL)
  else
    with_chip chip (fun ops =>
      ' (r, hwirq) <-- handle_vector ops vector ;;
      if r <? 0 then ret r
      else
        irq <-- on_irqs (irq_map_hwirq_to_irq map hwirq) ;;
        if irq =? IRQ_INVALID then ret (- KERR_NOENT)
        else
          match irq_desc_get irq with
          | None => ret (- KERR_NOENT)
          | Some desc =>
              d <-- on_irqs (read_desc desc) ;;
              if desc_handler d =? 0 then ret (- KERR_NOENT)
              else
                call_handler (desc_handler d) (desc_dev_id d) ;;;
                chip_eoi ops desc ;;;
                ret KERR_OK
          end).

Definition irq_enable (irq : Z) : M (irqs * D) Z :=
  if IRQ_MAX <=? irq then ret (- KERR_INVAL)
  else
    match irq_desc_get irq with
    | None => ret (- KERR_NOENT)
    | Some desc =>
        d <-- on_irqs (read_desc desc) ;;
        if desc_chip d =? 0 then ret (- KERR_NOENT)
        else with_chip (desc_chip d) (fun ops => chip_enable ops desc ;;; ret KERR_OK)
    end.

Definition irq_disable (irq : Z) : M (irqs * D) Z :=
  if IRQ_MAX <=? irq then ret (- KERR_INVAL)
  else
    match irq_desc_get irq with
    | None => ret (- KERR_NOENT)
    | Some desc =>
        d <-- on_irqs (read_desc desc) ;;
        if desc_chip d =? 0 then ret (- KERR_NOENT)
        else with_chip (desc_chip d) (fun ops => chip_disable ops desc ;;; ret KERR_OK)
    end.
End Dispatch.

(** ** Well-formedness and specifications *)

Definition irq_used (s : irqs) (j : Z) : bool := bit (irq_allocated s) j.

Definition irqs_ok (s : irqs) : Prop :=
  bitmap_ok (irq_allocated s) /\ bm_nbits (irq_allocated s) = IRQ_MAX /\
  length (irq_descs s) = 256%nat.

(** [s'] is [s] with the numbers of [f, f + n) allocated or released. *)
Definition irq_upd (s s' : irqs) (f n : Z) (v : bool) : Prop :=
  irqs_ok s' /\ irq_descs s' = irq_descs s /\ irq_maps s' = irq_maps s /\
  forall j, 0 <= j -> irq_used s' j = if (f <=? j) && (j <? f + n) then v else irq_used s j.

Lemma set_allocated_id s : set_allocated (irq_allocated s) s = s.
Proof. by destruct s. Qed.

Lemma irqs_ok_capacity s : irqs_ok s -> 256 <= capacity (irq_allocated s).
Proof. intros ((_ & Hn & _) & Hb & _). unfold IRQ_MAX in Hb. lia. Qed.

Lemma irq_upd_intro s b' f n v : irqs_ok s ->
  bits_upd (irq_allocated s) b' f (f + n) v -> irq_upd s (set_allocated b' s) f n v.
Proof.
  intros (Hb & Hn & Hd) [(H1 & H2 & _) Hbit].
  split; [|done]. split; [done|]. split; [by rewrite <- Hn | done].
Qed.

(** What [irq_alloc_range] promises. *)
Definition irq_alloc_spec (s : irqs) (n : Z) (r : Z + Z) (s' : irqs) : Prop :=
  match r with
  | inr f => 1 <= n <= 256 /\ f + n <= 256 /\ is_first_run (irq_used s) 0 f n /\ irq_upd s s' f n true
  | inl e => s' = s /\
      (e = - KERR_INVAL /\ (n = 0 \/ 256 < n) \/
       e = - KERR_NOSPC /\ forall f, 0 <= f -> f + n <= 256 -> ~ free_run (irq_used s) f n)
  end.

Lemma irq_alloc_range_wp s n Q :
  irqs_ok s -> 0 <= n -> (forall r s', irq_alloc_spec s n r s' -> Q r s') ->
  wp (irq_alloc_range n true) Q s.
Proof.
  intros Hok Hn HQ. pose proof (irqs_ok_capacity s Hok) as Hcap.
  unfold irq_alloc_range. rewrite orb_false_r. change IRQ_MAX with 256.
  destruct (Z.eqb_spec n 0) as [->|Hn0]; [apply wp_ret, HQ; split; auto|].
  destruct (Z.ltb_spec 256 n); [apply wp_ret, HQ; split; auto|]. wp_step.
  apply (wp_for_lt (fun i c t => t = s /\ scan_inv (irq_used s) 0 n i c)).
  - split; [done|]. apply scan_init. lia.
  - intros i c t Hi [-> Hinv]. wp_step. wp_step.
    apply bitmap_test_wp; [apply Hok | lia |]. rewrite set_allocated_id. fold (irq_used s i).
    destruct (irq_used s i) eqn:E.
    + apply wp_ret. split; [done|]. eapply scan_used; [lia | done..].
    + destruct (Hinv) as ((Hc & Hcn) & Hci & _). unwrap32. cbn zeta.
      destruct (Z.eqb_spec (c + 1) n) as [Heq|Hne].
      2: { wp_step. split; [done|]. by apply scan_free. }
      pose proof (scan_found _ _ _ _ _ Hinv E Heq) as Hfirst.
      rewrite (u32_id (i - n + 1)) by (unfold is_u32; lia). wp_step.
      eapply (upd_bits_wp irq_allocated set_allocated _ _ _ s _ 0 n (i - n + 1));
        [apply Hok | intros j Hj; rewrite u32_id; unfold is_u32; lia | lia
        | exact bitmap_set_wp | lia |].
      rewrite Z.sub_0_r. intros b' Hb'. wp_steps. apply HQ.
      split; [lia|]. split; [lia|]. split; [done|]. by apply irq_upd_intro.
  - intros c t [-> (_ & _ & _ & _ & Hnone)]. apply wp_ret, HQ. split; [done|]. right.
    split; [done|]. intros f Hf Hle. apply Hnone; lia.
  Unshelve. all: auto using set_allocated_id.
Qed.

(** What [irq_free_range] promises. *)
Definition irq_free_spec (s : irqs) (first n r : Z) (s' : irqs) : Prop :=
  if decide (1 <= n /\ first + n <= 256) then
    r = KERR_OK /\ (forall j, first <= j < first + n -> irq_used s j = true) /\
      irq_upd s s' first n false \/
    r = - KERR_NOENT /\ s' = s /\ exists j, first <= j < first + n /\ irq_used s j = false
  else r = - KERR_INVAL /\ s' = s.

Lemma irq_free_range_wp s first n Q :
  irqs_ok s -> is_u32 first -> is_u32 n -> (forall r s', irq_free_spec s first n r s' -> Q r s') ->
  wp (irq_free_range first n) Q s.
Proof.
  intros Hok Hf Hn HQ. pose proof (irqs_ok_capacity s Hok) as Hcap. unfold is_u32 in *.
  unfold irq_free_range. change IRQ_MAX with 256.
  assert (forall s', s' = s -> ~ (1 <= n /\ first + n <= 256) -> Q (- KERR_INVAL) s') as HQi.
  { intros s' -> Hb. apply HQ. unfold irq_free_spec. by rewrite decide_False. }
  destruct (Z.eqb_spec n 0) as [->|]; [apply wp_ret, HQi; [done | lia]|].
  destruct (Z.leb_spec 256 first); [apply wp_ret, HQi; [done | lia]|].
  rewrite (u32_id (256 - first)) by (unfold is_u32; lia). simpl.
  destruct (Z.ltb_spec (256 - first) n); [apply wp_ret, HQi; [done | lia]|]. clear HQi.
  assert (forall r s', _ -> Q r s') as HQ'
    by (intros r s' Hr; apply HQ; unfold irq_free_spec; rewrite decide_True by lia; exact Hr).
  clear HQ. rename HQ' into HQ. wp_step.
  eapply (check_bits_wp irq_allocated set_allocated _ s _ 0 n first);
    [apply Hok | intros i Hi; rewrite u32_id; unfold is_u32; lia | lia | lia | |];
    rewrite Z.sub_0_r.
  - intros Hall. wp_step. rewrite u32_id by (unfold is_u32; lia).
    eapply (upd_bits_wp irq_allocated set_allocated _ _ _ s (fun i => i) first (first + n) first);
      [apply Hok | lia | lia | exact bitmap_clear_wp | lia |].
    replace (first + (first + n - first)) with (first + n) by lia.
    intros b' Hb'. wp_steps. apply HQ. left. split; [done|]. split.
    + intros j Hj. specialize (Hall j Hj). by apply negb_false_iff.
    + by apply irq_upd_intro.
  - intros (j & Hj & Hb). wp_steps. apply HQ. right. split; [done|]. split; [done|].
    exists j. split; [done|]. by apply negb_true_iff.
  Unshelve. all: auto using set_allocated_id.
Qed.

Lemma irq_is_allocated_wp s irq Q :
  irqs_ok s -> 0 <= irq -> Q ((irq <? 256) && irq_used s irq) s -> wp (irq_is_allocated irq) Q s.
Proof.
  intros Hok Hi HQ. pose proof (irqs_ok_capacity s Hok). unfold irq_is_allocated.
  change IRQ_MAX with 256. destruct (Z.leb_spec 256 irq) as [H1|H1]; destruct (Z.ltb_spec irq 256) as [H2|H2]; try lia.
  - by apply wp_ret.
  - apply wp_zoom, bitmap_test_wp; [apply Hok | lia |]. by rewrite set_allocated_id.
Qed.

Lemma read_desc_wp s i d Q :
  irq_descs s !! Z.to_nat i = Some d -> Q d s -> wp (read_desc i) Q s.
Proof. intros Hd HQ. unfold wp, read_desc. by rewrite Hd. Qed.

Lemma write_desc_wp s i d d' Q :
  irq_descs s !! Z.to_nat i = Some d -> Q tt (set_descs (<[Z.to_nat i := d']> (irq_descs s)) s) ->
  wp (write_desc i d') Q s.
Proof. intros Hd HQ. unfold wp, write_desc. by rewrite Hd. Qed.

Lemma read_map_wp s p m Q : irq_maps s !! p = Some m -> Q m s -> wp (read_map p) Q s.
Proof. intros Hm HQ. unfold wp, read_map. by rewrite Hm. Qed.

Lemma write_map_wp s p m m' Q : irq_maps s !! p = Some m ->
  Q tt (set_maps (<[p := m']> (irq_maps s)) s) -> wp (write_map p m') Q s.
Proof. intros Hm HQ. unfold wp, write_map. by rewrite Hm. Qed.

Lemma desc_exists s i : irqs_ok s -> 0 <= i < 256 -> exists d, irq_descs s !! Z.to_nat i = Some d.
Proof. intros (_ & _ & Hl) Hi. apply lookup_lt_is_Some_2. lia. Qed.

Lemma wp_on_irqs {D A} (c : M irqs A) Q i (d : D) :
  wp c (fun a i' => Q a (i', d)) i -> wp (on_irqs c) Q (i, d).
Proof. intros Hc. unfold on_irqs. by apply wp_zoom. Qed.

Lemma wp_on_dev {D A} (c : M D A) Q i (d : D) :
  wp c (fun a d' => Q a (i, d')) d -> wp (on_dev c) Q (i, d).
Proof. intros Hc. unfold on_dev. by apply wp_zoom. Qed.

(** ** Properties *)

(** [irq_alloc_range] hands out the lowest run of [n] free interrupt
    numbers and fails only when [n] is out of range or no run exists;
    [irq_free_range] releases exactly the allocated ranges inside the table
    and changes nothing otherwise. *)
Theorem irq_ranges_correct s first n :
  irqs_ok s -> is_u32 first -> is_u32 n ->
  wp (irq_alloc_range n true) (irq_alloc_spec s n) s /\
  wp (irq_free_range first n) (irq_free_spec s first n) s.
Proof.
  intros Hok Hf Hn. split.
  - apply irq_alloc_range_wp; [done | unfold is_u32 in Hn; lia | done].
  - by apply irq_free_range_wp.
Qed.

(** The state after [irq_init], with a zeroed descriptor table and one zeroed
    map object at address 4096. *)
Definition irqs_boot : irqs :=
  mk_irqs (BITMAP_INIT (replicate 8 0) 256) (replicate 256 inhabitant) {[4096 := mk_irq_map 0 0 0 0]}.

Lemma irqs_boot_ok : irqs_ok irqs_boot.
Proof.
  split; [|done]. split; [repeat constructor; done|]. split; [split; discriminate | discriminate].
Qed.

Lemma irq_ranges_correct_witness :
  wp (irq_alloc_range 16 true) (irq_alloc_spec irqs_boot 16) irqs_boot /\
  wp (irq_free_range 0 16) (irq_free_spec irqs_boot 0 16) irqs_boot.
Proof. apply (irq_ranges_correct irqs_boot 0 16 irqs_boot_ok); done. Defined.
