(* ===== verification/Hal.v ===== *)
(** * Ports and processor flags

    Models [kernel/arch/x86/io.c], [kernel/arch/x86/hal/port.c],
    [kernel/arch/x86/cpu/flags.c] and [kernel/arch/x86/hal/interrupt.c].

    The machine is a state of an arbitrary type [D].  The instructions [in],
    [out], [pushf]/[popf], [cli], [sti], [cld] and [std] are operations of classes;
    the laws of the processor flags are those of the IA-32 manual, the laws of
    a device behind a port belong to the driver that uses it. *)

From S2P Require Import Prelude Base.

(** The port instructions for operands of [w] bits. *)
Class PortIO (D : Type) := {
  port_in : Z -> Z -> M D Z;
  port_out : Z -> Z -> Z -> M D unit
}.

Section Ports.
Context `{PortIO D}.

Definition x86_inb (port : Z) : M D Z := v <-- port_in 8 port ;; ret (u8 v).
Definition x86_inw (port : Z) : M D Z := v <-- port_in 16 port ;; ret (u16 v).
Definition x86_inl (port : Z) : M D Z := v <-- port_in 32 port ;; ret (u32 v).
Definition x86_outb (port value : Z) : M D unit := port_out 8 port value.
Definition x86_outw (port value : Z) : M D unit := port_out 16 port value.
Definition x86_outl (port value : Z) : M D unit := port_out 32 port value.

Definition hal_port_read8 (port : Z) : M D Z := x86_inb (u16 port).
Definition hal_port_read16 (port : Z) : M D Z := x86_inw (u16 port).
Definition hal_port_read32 (port : Z) : M D Z := x86_inl (u16 port).
Definition hal_port_write8 (port value : Z) : M D unit := x86_outb (u16 port) (u8 value).
Definition hal_port_write16 (port value : Z) : M D unit := x86_outw (u16 port) (u16 value).
Definition hal_port_write32 (port value : Z) : M D unit := x86_outl (u16 port) (u32 value).
End Ports.

(** EFLAGS: [pushf] reads it, [popf], [cli] and [sti] change it. *)
Class Cpu (D : Type) := {
  eflags : D -> Z;
  popf : Z -> M D unit;
  cli : M D unit;
  sti : M D unit
}.

Definition X86_FLAGS_RESERVED_MASK : Z := BIT 1.
Definition X86_FLAGS_TF_MASK : Z := BIT 8.
Definition X86_FLAGS_IF_MASK : Z := BIT 9.
Definition X86_FLAGS_DF_MASK : Z := BIT 10.
Definition X86_FLAGS_ID_MASK : Z := BIT 21.

(** The direction flag: [cld] and [std]. *)
Class CpuDirection (D : Type) := { cld : M D unit; std : M D unit }.

Definition x86_cld `{CpuDirection D} : M D unit := cld.
Definition x86_std `{CpuDirection D} : M D unit := std.

Section Flags.
Context `{Cpu D}.

Definition x86_eflags_read : M D Z := gets eflags.
Definition x86_eflags_write (v : Z) : M D unit := popf v.
Definition x86_cli : M D unit := cli.
Definition x86_sti : M D unit := sti.

Definition x86_interrupts_enabled : M D bool :=
  flags <-- x86_eflags_read ;; ret (MASK_TEST flags X86_FLAGS_IF_MASK).

Definition x86_interrupt_save_disable : M D bool :=
  enabled <-- x86_interrupts_enabled ;; x86_cli ;;; ret enabled.

Definition x86_interrupt_restore (state : bool) : M D unit :=
  if state then x86_sti else ret tt.

Definition x86_direction_enabled : M D bool :=
  flags <-- x86_eflags_read ;; ret (MASK_TEST flags X86_FLAGS_DF_MASK).

Definition x86_trap_enable : M D unit :=
  flags <-- x86_eflags_read ;; x86_eflags_write (MASK_SET flags X86_FLAGS_TF_MASK).

Definition x86_trap_disable : M D unit :=
  flags <-- x86_eflags_read ;; x86_eflags_write (MASK_CLEAR flags X86_FLAGS_TF_MASK).

Definition x86_trap_enabled : M D bool :=
  flags <-- x86_eflags_read ;; ret (MASK_TEST flags X86_FLAGS_TF_MASK).

Definition hal_interrupt_enable : M D unit := x86_sti.
Definition hal_interrupt_disable : M D unit := x86_cli.
Definition hal_interrupt_enabled : M D bool := x86_interrupts_enabled.
Definition hal_interrupt_save_disable : M D bool := x86_interrupt_save_disable.
Definition hal_interrupt_restore (state : bool) : M D unit := x86_interrupt_restore state.
End Flags.

(** IA-32: [cli] and [sti] change the interrupt flag and nothing else.  [rest]
    is the state of the machine apart from that flag. *)
Class CpuLaws (D R : Type) `{Cpu D} := {
  rest : D -> R;
  cli_law : forall d Q,
    (forall d', Z.testbit (eflags d') 9 = false -> rest d' = rest d -> Q tt d') -> wp cli Q d;
  sti_law : forall d Q,
    (forall d', Z.testbit (eflags d') 9 = true -> rest d' = rest d -> Q tt d') -> wp sti Q d
}.

(** Interrupts are enabled. *)
Definition if_set `{Cpu D} (d : D) : bool := Z.testbit (eflags d) 9.

Section FlagLaws.
Context {D R : Type} `{CpuLaws D R}.

Lemma hal_interrupt_save_disable_wp d (Q : bool -> D -> Prop) :
  (forall d', if_set d' = false -> rest d' = rest d -> Q (if_set d) d') ->
  wp hal_interrupt_save_disable Q d.
Proof.
  intros HQ. unfold hal_interrupt_save_disable, x86_interrupt_save_disable, x86_interrupts_enabled.
  unfold x86_eflags_read. wp_steps. unfold X86_FLAGS_IF_MASK.
  rewrite MASK_TEST_bit by lia. unfold x86_cli. apply cli_law. intros d' H1 H2. wp_step. by apply HQ.
Qed.

Lemma hal_interrupt_restore_wp d b (Q : unit -> D -> Prop) :
  if_set d = false ->
  (forall d', if_set d' = b -> rest d' = rest d -> Q tt d') ->
  wp (hal_interrupt_restore b) Q d.
Proof.
  intros Hd HQ. unfold hal_interrupt_restore, x86_interrupt_restore. destruct b.
  - apply sti_law. intros d' H1 H2. by apply HQ.
  - apply wp_ret. by apply HQ.
Qed.
End FlagLaws.
