(* ===== verification/I8259.v ===== *)
(** * Intel 8259 interrupt controller driver

    Models [kernel/drivers/irqchip/i8259.c], [kernel/arch/x86/interrupt/irq.c]
    and [kernel/arch/x86/interrupt/irqchip.c] on top of the port instructions
    ([Hal]) and the interrupt subsystem ([Irq]).  The controllers themselves
    are described by the class [I8259Hw], which states what the Intel 8259A
    data sheet says of the commands the driver uses. *)

From S2P Require Import Prelude Base Bitmap Runs Hal Irq.

Definition I8259_PIC1_COMMAND_PORT : Z := 32. (* 0x20 *)
Definition I8259_PIC1_DATA_PORT : Z := 33. (* 0x21 *)
Definition I8259_PIC2_COMMAND_PORT : Z := 160. (* 0xA0 *)
Definition I8259_PIC2_DATA_PORT : Z := 161. (* 0xA1 *)

Definition I8259_ICW1_IC4_MASK : Z := BIT 0.
Definition I8259_ICW1_INIT_MASK : Z := BIT 4.
Definition I8259_ICW2_MASTER_VECTOR_OFFSET : Z := 32. (* 0x20 *)
Definition I8259_ICW2_SLAVE_VECTOR_OFFSET : Z := 40. (* 0x28 *)
Definition I8259_ICW3_MASTER : Z := BIT 2.
Definition I8259_ICW3_SLAVE : Z := 2.
Definition I8259_ICW4_8086_MASK : Z := BIT 0.
Definition I8259_OCW2_EOI_MASK : Z := BIT 5.
Definition I8259_OCW3_READ_ISR_MASK : Z := Z.lor (Z.lor (BIT 3) (BIT 1)) (BIT 0).
Definition I8259_OCW3_READ_IRR_MASK : Z := Z.lor (BIT 3) (BIT 1).

(** Addresses of the driver's static objects [i8259_chip], [i8259_map] and of
    the map's name. *)
Class I8259Objects := {
  i8259_chip_addr : Z;
  i8259_map_addr : Z;
  i8259_map_name : Z
}.

Section Driver.
Context `{PortIO D} `{I8259Objects}.

Definition i8259_io_wait : M D unit := hal_port_write8 128 0.

Definition i8259_remap (master_offset slave_offset : Z) : M D unit :=
  mask1 <-- hal_port_read8 I8259_PIC1_DATA_PORT ;;
  mask2 <-- hal_port_read8 I8259_PIC2_DATA_PORT ;;
  (* ICW1 *)
  hal_port_write8 I8259_PIC1_COMMAND_PORT (Z.lor I8259_ICW1_IC4_MASK I8259_ICW1_INIT_MASK) ;;;
  i8259_io_wait ;;;
  hal_port_write8 I8259_PIC2_COMMAND_PORT (Z.lor I8259_ICW1_IC4_MASK I8259_ICW1_INIT_MASK) ;;;
  i8259_io_wait ;;;
  (* ICW2 *)
  hal_port_write8 I8259_PIC1_DATA_PORT master_offset ;;;
  i8259_io_wait ;;;
  hal_port_write8 I8259_PIC2_DATA_PORT slave_offset ;;;
  i8259_io_wait ;;;
  (* ICW3 *)
  hal_port_write8 I8259_PIC1_DATA_PORT I8259_ICW3_MASTER ;;;
  i8259_io_wait ;;;
  hal_port_write8 I8259_PIC2_DATA_PORT I8259_ICW3_SLAVE ;;;
  i8259_io_wait ;;;
  (* ICW4 *)
  hal_port_write8 I8259_PIC1_DATA_PORT I8259_ICW4_8086_MASK ;;;
  i8259_io_wait ;;;
  hal_port_write8 I8259_PIC2_DATA_PORT I8259_ICW4_8086_MASK ;;;
  i8259_io_wait ;;;
  hal_port_write8 I8259_PIC1_DATA_PORT mask1 ;;;
  i8259_io_wait ;;;
  hal_port_write8 I8259_PIC2_DATA_PORT mask2.

(** [BIT(n)] as an operand: a shift by 32 or more is undefined. *)
Definition bit_operand (n : Z) : M D Z := if n <? 32 then ret (BIT n) else undefined.

(** [desc->hwirq], then the accesses to the controllers. *)
Definition with_hwirq (desc : Z) (k : Z -> M D unit) : M (irqs * D) unit :=
  d <-- on_irqs (read_desc desc) ;; on_dev (k (desc_hwirq d)).

Definition mask_line (hwirq : Z) : M D unit :=
  if 8 <=? hwirq then
    mask <-- hal_port_read8 I8259_PIC2_DATA_PORT ;;
    b <-- bit_operand (hwirq - 8) ;;
    let mask := u8 (MASK_SET mask b) in
    hal_port_write8 I8259_PIC2_DATA_PORT mask ;;;
    if mask =? 255 then
      master_mask <-- hal_port_read8 I8259_PIC1_DATA_PORT ;;
      let master_mask := u8 (MASK_SET master_mask (BIT 2)) in
      hal_port_write8 I8259_PIC1_DATA_PORT master_mask
    else ret tt
  else
    mask <-- hal_port_read8 I8259_PIC1_DATA_PORT ;;
    b <-- bit_operand hwirq ;;
    let mask := u8 (MASK_SET mask b) in
    hal_port_write8 I8259_PIC1_DATA_PORT mask.

Definition i8259_mask_irq (desc : Z) : M (irqs * D) unit := with_hwirq desc mask_line.

Definition i8259_mask_all : M D unit :=
  hal_port_write8 I8259_PIC1_DATA_PORT 255 ;;;
  hal_port_write8 I8259_PIC2_DATA_PORT 255.

Definition unmask_line (hwirq : Z) : M D unit :=
  if 8 <=? hwirq then
    master_mask <-- hal_port_read8 I8259_PIC1_DATA_PORT ;;
    let master_mask := u8 (MASK_CLEAR master_mask (BIT 2)) in
    hal_port_write8 I8259_PIC1_DATA_PORT master_mask ;;;
    slave_mask <-- hal_port_read8 I8259_PIC2_DATA_PORT ;;
    b <-- bit_operand (hwirq - 8) ;;
    let slave_mask := u8 (MASK_CLEAR slave_mask b) in
    hal_port_write8 I8259_PIC2_DATA_PORT slave_mask
  else
    mask <-- hal_port_read8 I8259_PIC1_DATA_PORT ;;
    b <-- bit_operand hwirq ;;
    let mask := u8 (MASK_CLEAR mask b) in
    hal_port_write8 I8259_PIC1_DATA_PORT mask.

Definition i8259_unmask_irq (desc : Z) : M (irqs * D) unit := with_hwirq desc unmask_line.

Definition send_eoi (hwirq : Z) : M D unit :=
  (if 8 <=? hwirq then hal_port_write8 I8259_PIC2_COMMAND_PORT I8259_OCW2_EOI_MASK else ret tt) ;;;
  hal_port_write8 I8259_PIC1_COMMAND_PORT I8259_OCW2_EOI_MASK.

Definition i8259_send_eoi (desc : Z) : M (irqs * D) unit := with_hwirq desc send_eoi.

Definition i8259_read_isr : M D Z :=
  hal_port_write8 I8259_PIC1_COMMAND_PORT I8259_OCW3_READ_ISR_MASK ;;;
  value <-- hal_port_read8 I8259_PIC1_COMMAND_PORT ;;
  hal_port_write8 I8259_PIC2_COMMAND_PORT I8259_OCW3_READ_ISR_MASK ;;;
  hi <-- hal_port_read8 I8259_PIC2_COMMAND_PORT ;;
  ret (u16 (Z.lor value (Z.shiftl hi 8))).

Definition i8259_read_irr : M D Z :=
  hal_port_write8 I8259_PIC1_COMMAND_PORT I8259_OCW3_READ_IRR_MASK ;;;
  value <-- hal_port_read8 I8259_PIC1_COMMAND_PORT ;;
  hal_port_write8 I8259_PIC2_COMMAND_PORT I8259_OCW3_READ_IRR_MASK ;;;
  hi <-- hal_port_read8 I8259_PIC2_COMMAND_PORT ;;
  ret (u16 (Z.lor value (Z.shiftl hi 8))).

Definition i8259_is_spurious (hwirq : Z) : M D bool :=
  if negb (hwirq =? 7) && negb (hwirq =? 15) then ret false
  else
    isr <-- i8259_read_isr ;;
    if negb (Z.land isr (BIT hwirq) =? 0) then ret false else ret true.

(** The code and [*hwirq] ([out]: the pointer is not [NULL]). *)
Definition i8259_handle_vector (out : bool) (vector : Z) : M D (Z * Z) :=
  if negb out then ret (- KERR_INVAL, 0)
  else
    let line :=
      if (I8259_ICW2_MASTER_VECTOR_OFFSET <=? vector) &&
         (vector <? I8259_ICW2_MASTER_VECTOR_OFFSET + 8)
      then Some (vector - I8259_ICW2_MASTER_VECTOR_OFFSET)
      else if (I8259_ICW2_SLAVE_VECTOR_OFFSET <=? vector) &&
              (vector <? I8259_ICW2_SLAVE_VECTOR_OFFSET + 8)
      then Some (8 + (vector - I8259_ICW2_SLAVE_VECTOR_OFFSET))
      else None in
    match line with
    | None => ret (- KERR_NOENT, 0)
    | Some hwirq =>
        spurious <-- i8259_is_spurious hwirq ;;
        if spurious then
          (if hwirq =? 15 then hal_port_write8 I8259_PIC1_COMMAND_PORT I8259_OCW2_EOI_MASK
           else ret tt) ;;;
          ret (- KERR_NOENT, hwirq)
        else ret (KERR_OK, hwirq)
    end.

Definition i8259_chip : irq_chip D := {|
  handle_vector := fun v => on_dev (i8259_handle_vector true v);
  chip_disable := i8259_mask_irq;
  chip_enable := i8259_unmask_irq;
  chip_eoi := i8259_send_eoi
|}.

Definition i8259_get_chip : Z := i8259_chip_addr.
Definition i8259_get_map : Z := i8259_map_addr.

(** The only chip of the system. *)
Definition i8259_chips (p : Z) : option (irq_chip D) :=
  if p =? i8259_chip_addr then Some i8259_chip else None.

(** The loop of [i8259_init] over the lines; [fuel] bounds [hwirq < count]. *)
Fixpoint configure_lines (fuel : nat) (hwirq : Z) : M (irqs * D) Z :=
  match fuel with
  | O => undefined
  | S fuel =>
      m <-- on_irqs (read_map i8259_map_addr) ;;
      if hwirq <? map_count m then
        irq <-- on_irqs (irq_map_hwirq_to_irq i8259_map_addr hwirq) ;;
        TRY on_irqs (irq_desc_configure irq hwirq i8259_map_addr i8259_chip_addr) ;;;
        configure_lines fuel (u32 (hwirq + 1))
      else ret KERR_OK
  end.

Definition i8259_init : M (irqs * D) Z :=
  on_dev (i8259_remap I8259_ICW2_MASTER_VECTOR_OFFSET I8259_ICW2_SLAVE_VECTOR_OFFSET) ;;;
  on_dev i8259_mask_all ;;;
  TRY on_irqs (irq_map_init i8259_map_addr i8259_map_name 0 16) ;;;
  configure_lines 17 0.

Definition arch_irqchip_init : M (irqs * D) Z :=
  TRY i8259_init ;;; ret KERR_OK.

Context (call_handler : Z -> Z -> M (irqs * D) unit).

Definition x86_irq_handler (int_no : Z) : M (irqs * D) unit :=
  irq_dispatch i8259_chips call_handler i8259_get_chip i8259_get_map int_no ;;; ret tt.
End Driver.

(** ** The controllers

    The registers of one 8259A as far as the data sheet fixes them for the
    commands used here.  The request register changes by itself and is not
    part of the description; ICW1 says nothing of the in-service register. *)

Inductive pic_phase := PIC_READY | PIC_ICW2 | PIC_ICW3 | PIC_ICW4.

Record pic := mk_pic {
  pic_state : pic_phase;
  pic_ic4 : bool;
  pic_sngl : bool;
  pic_offset : Z;
  pic_cascade : Z;
  pic_mode : Z;
  pic_imr : Z;
  pic_isr : Z;
  pic_reads_isr : bool
}.

Definition set_pic_imr (v : Z) (p : pic) : pic :=
  mk_pic (pic_state p) (pic_ic4 p) (pic_sngl p) (pic_offset p) (pic_cascade p) (pic_mode p) v
    (pic_isr p) (pic_reads_isr p).
Definition set_pic_isr (v : Z) (p : pic) : pic :=
  mk_pic (pic_state p) (pic_ic4 p) (pic_sngl p) (pic_offset p) (pic_cascade p) (pic_mode p)
    (pic_imr p) v (pic_reads_isr p).
Definition set_reads_isr (v : bool) (p : pic) : pic :=
  mk_pic (pic_state p) (pic_ic4 p) (pic_sngl p) (pic_offset p) (pic_cascade p) (pic_mode p)
    (pic_imr p) (pic_isr p) v.

(** A non-specific EOI clears the in-service bit of highest priority, the
    lowest one set. *)
Definition clear_lowest (v : Z) : Z := Z.land v (v - 1).

(** A byte written to the command port: [p] becomes [p']. *)
Definition pic_command (v : Z) (p p' : pic) : Prop :=
  if Z.testbit v 4 then
    p' = mk_pic PIC_ICW2 (Z.testbit v 0) (Z.testbit v 1) (pic_offset p) (pic_cascade p)
           (pic_mode p) 0 (pic_isr p') false
  else if Z.testbit v 3 then
    (Z.land v 3 = 3 -> p' = set_reads_isr true p) /\ (Z.land v 3 = 2 -> p' = set_reads_isr false p)
  else Z.land v 224 = 32 -> p' = set_pic_isr (clear_lowest (pic_isr p)) p.

(** A byte written to the data port. *)
Definition pic_data (v : Z) (p : pic) : pic :=
  let after_icw3 := if pic_ic4 p then PIC_ICW4 else PIC_READY in
  match pic_state p with
  | PIC_READY => set_pic_imr v p
  | PIC_ICW2 =>
      mk_pic (if pic_sngl p then after_icw3 else PIC_ICW3) (pic_ic4 p) (pic_sngl p)
        (Z.land v 248) (pic_cascade p) (pic_mode p) (pic_imr p) (pic_isr p) (pic_reads_isr p)
  | PIC_ICW3 =>
      mk_pic after_icw3 (pic_ic4 p) (pic_sngl p) (pic_offset p) v (pic_mode p) (pic_imr p)
        (pic_isr p) (pic_reads_isr p)
  | PIC_ICW4 =>
      mk_pic PIC_READY (pic_ic4 p) (pic_sngl p) (pic_offset p) (pic_cascade p) v (pic_imr p)
        (pic_isr p) (pic_reads_isr p)
  end.

(** Two controllers answer at the PC's ports: the master at 0x20/0x21, the
    slave at 0xA0/0xA1; port 0x80 reaches neither. *)
Class I8259Hw (D : Type) `{PortIO D} := {
  pic1 : D -> pic;
  pic2 : D -> pic;
  imr_u8 : forall d, is_u8 (pic_imr (pic1 d)) /\ is_u8 (pic_imr (pic2 d));
  isr_u8 : forall d, is_u8 (pic_isr (pic1 d)) /\ is_u8 (pic_isr (pic2 d));
  read_data1 : forall d Q,
    (forall d', pic1 d' = pic1 d -> pic2 d' = pic2 d -> Q (pic_imr (pic1 d)) d') ->
    wp (port_in 8 33) Q d;
  read_data2 : forall d Q,
    (forall d', pic1 d' = pic1 d -> pic2 d' = pic2 d -> Q (pic_imr (pic2 d)) d') ->
    wp (port_in 8 161) Q d;
  read_command1 : forall d Q,
    (forall v d', (pic_reads_isr (pic1 d) = true -> v = pic_isr (pic1 d)) ->
       pic1 d' = pic1 d -> pic2 d' = pic2 d -> Q v d') ->
    wp (port_in 8 32) Q d;
  read_command2 : forall d Q,
    (forall v d', (pic_reads_isr (pic2 d) = true -> v = pic_isr (pic2 d)) ->
       pic1 d' = pic1 d -> pic2 d' = pic2 d -> Q v d') ->
    wp (port_in 8 160) Q d;
  write_data1 : forall d v Q, is_u8 v ->
    (forall d', pic1 d' = pic_data v (pic1 d) -> pic2 d' = pic2 d -> Q tt d') ->
    wp (port_out 8 33 v) Q d;
  write_data2 : forall d v Q, is_u8 v ->
    (forall d', pic1 d' = pic1 d -> pic2 d' = pic_data v (pic2 d) -> Q tt d') ->
    wp (port_out 8 161 v) Q d;
  write_command1 : forall d v Q, is_u8 v ->
    (forall d', pic_command v (pic1 d) (pic1 d') -> pic2 d' = pic2 d -> Q tt d') ->
    wp (port_out 8 32 v) Q d;
  write_command2 : forall d v Q, is_u8 v ->
    (forall d', pic1 d' = pic1 d -> pic_command v (pic2 d) (pic2 d') -> Q tt d') ->
    wp (port_out 8 160 v) Q d;
  write_post : forall d v Q,
    (forall d', pic1 d' = pic1 d -> pic2 d' = pic2 d -> Q tt d') ->
    wp (port_out 8 128 v) Q d
}.

Section Hardware.
Context `{I8259Hw D} `{I8259Objects}.

(** The registers of the two controllers. *)
Definition pics (d : D) (p q : pic) : Prop := pic1 d = p /\ pic2 d = q.

Section Accesses.
Context (d : D) (p q : pic).
Hypothesis Hpq : pics d p q.

Lemma read_imr1_wp (Q : Z -> D -> Prop) :
  (forall d', pics d' p q -> is_u8 (pic_imr p) -> Q (pic_imr p) d') ->
  wp (hal_port_read8 I8259_PIC1_DATA_PORT) Q d.
Proof.
  destruct Hpq as [<- <-]. intros HQ. unfold hal_port_read8, x86_inb. wp_step.
  apply read_data1. intros d' E1 E2. wp_step. rewrite u8_id by apply imr_u8.
  apply HQ; [by split | apply imr_u8].
Qed.

Lemma read_imr2_wp (Q : Z -> D -> Prop) :
  (forall d', pics d' p q -> is_u8 (pic_imr q) -> Q (pic_imr q) d') ->
  wp (hal_port_read8 I8259_PIC2_DATA_PORT) Q d.
Proof.
  destruct Hpq as [<- <-]. intros HQ. unfold hal_port_read8, x86_inb. wp_step.
  apply read_data2. intros d' E1 E2. wp_step. rewrite u8_id by apply imr_u8.
  apply HQ; [by split | apply imr_u8].
Qed.

Lemma read_isr1_wp (Q : Z -> D -> Prop) :
  pic_reads_isr p = true ->
  (forall d', pics d' p q -> is_u8 (pic_isr p) -> Q (pic_isr p) d') ->
  wp (hal_port_read8 I8259_PIC1_COMMAND_PORT) Q d.
Proof.
  destruct Hpq as [<- <-]. intros Hr HQ. unfold hal_port_read8, x86_inb. wp_step.
  apply read_command1. intros v d' Ev E1 E2. wp_step. rewrite Ev, u8_id by (done || apply isr_u8).
  apply HQ; [by split | apply isr_u8].
Qed.

Lemma read_isr2_wp (Q : Z -> D -> Prop) :
  pic_reads_isr q = true ->
  (forall d', pics d' p q -> is_u8 (pic_isr q) -> Q (pic_isr q) d') ->
  wp (hal_port_read8 I8259_PIC2_COMMAND_PORT) Q d.
Proof.
  destruct Hpq as [<- <-]. intros Hr HQ. unfold hal_port_read8, x86_inb. wp_step.
  apply read_command2. intros v d' Ev E1 E2. wp_step. rewrite Ev, u8_id by (done || apply isr_u8).
  apply HQ; [by split | apply isr_u8].
Qed.

Lemma out_data1_wp v (Q : unit -> D -> Prop) :
  (forall d', pics d' (pic_data (u8 v) p) q -> Q tt d') ->
  wp (hal_port_write8 I8259_PIC1_DATA_PORT v) Q d.
Proof.
  destruct Hpq as [<- <-]. intros HQ. apply write_data1; [apply u8_range|].
  intros d' E1 E2. apply HQ. by split.
Qed.

Lemma out_data2_wp v (Q : unit -> D -> Prop) :
  (forall d', pics d' p (pic_data (u8 v) q) -> Q tt d') ->
  wp (hal_port_write8 I8259_PIC2_DATA_PORT v) Q d.
Proof.
  destruct Hpq as [<- <-]. intros HQ. apply write_data2; [apply u8_range|].
  intros d' E1 E2. apply HQ. by split.
Qed.

Lemma out_cmd1_wp v (Q : unit -> D -> Prop) :
  (forall d' p', pic_command (u8 v) p p' -> pics d' p' q -> Q tt d') ->
  wp (hal_port_write8 I8259_PIC1_COMMAND_PORT v) Q d.
Proof.
  destruct Hpq as [<- <-]. intros HQ. apply write_command1; [apply u8_range|].
  intros d' E1 E2. by apply (HQ d' (pic1 d')).
Qed.

Lemma out_cmd2_wp v (Q : unit -> D -> Prop) :
  (forall d' q', pic_command (u8 v) q q' -> pics d' p q' -> Q tt d') ->
  wp (hal_port_write8 I8259_PIC2_COMMAND_PORT v) Q d.
Proof.
  destruct Hpq as [<- <-]. intros HQ. apply write_command2; [apply u8_range|].
  intros d' E1 E2. by apply (HQ d' (pic2 d')).
Qed.

Lemma io_wait_wp (Q : unit -> D -> Prop) :
  (forall d', pics d' p q -> Q tt d') -> wp i8259_io_wait Q d.
Proof.
  destruct Hpq as [<- <-]. intros HQ. apply write_post. intros d' E1 E2. apply HQ. by split.
Qed.
End Accesses.

(** ** Initialisation *)

(** The registers after the four initialisation words. *)
Definition programmed (off cascade imr isr : Z) : pic :=
  mk_pic PIC_READY true false off cascade 1 imr isr false.

Lemma icw1_command p p' :
  pic_command (u8 (Z.lor I8259_ICW1_IC4_MASK I8259_ICW1_INIT_MASK)) p p' ->
  p' = mk_pic PIC_ICW2 true false (pic_offset p) (pic_cascade p) (pic_mode p) 0 (pic_isr p') false.
Proof. done. Qed.

Lemma i8259_remap_wp d p q o1 o2 (Q : unit -> D -> Prop) :
  pics d p q ->
  (forall d' i1 i2,
     pics d' (programmed (Z.land (u8 o1) 248) 4 (pic_imr p) i1)
             (programmed (Z.land (u8 o2) 248) 2 (pic_imr q) i2) -> Q tt d') ->
  wp (i8259_remap o1 o2) Q d.
Proof.
  intros Hd HQ. unfold i8259_remap.
  wp_step. eapply read_imr1_wp; [exact Hd|]. clear d Hd. intros d Hd Hm1.
  wp_step. eapply read_imr2_wp; [exact Hd|]. clear d Hd. intros d Hd Hm2.
  wp_step. eapply out_cmd1_wp; [exact Hd|]. clear d Hd. intros d p' Hp Hd.
  apply icw1_command in Hp. rewrite Hp in Hd. clear Hp. set (i1 := pic_isr p') in Hd.
  wp_step. eapply io_wait_wp; [exact Hd|]. clear d Hd. intros d Hd.
  wp_step. eapply out_cmd2_wp; [exact Hd|]. clear d Hd. intros d q' Hp Hd.
  apply icw1_command in Hp. rewrite Hp in Hd. clear Hp. set (i2 := pic_isr q') in Hd.
  do 15 (wp_step;
    (eapply io_wait_wp || eapply out_data1_wp || eapply out_data2_wp);
    [exact Hd|]; clear d Hd; intros d Hd; cbn in Hd).
  eapply out_data2_wp; [exact Hd|]. clear d Hd. intros d Hd. cbn in Hd.
  rewrite (u8_id (pic_imr p)), (u8_id (pic_imr q)) in Hd by done. by apply (HQ d i1 i2).
Qed.

(** The static objects of the driver are not at address 0. *)
Definition objects_ok : Prop :=
  i8259_chip_addr <> 0 /\ i8259_map_addr <> 0 /\ i8259_map_name <> 0.

(** The map of the driver: lines 0 to 15 are the numbers from [f] on. *)
Definition pic_map (f : Z) : irq_map := mk_irq_map i8259_map_name 0 f 16.

Definition pic_desc (line : Z) (d : irq_desc) : irq_desc :=
  mk_irq_desc line i8259_map_addr i8259_chip_addr (desc_handler d) (desc_dev_id d).

(** [l'] is [l] with the descriptors of lines [h, 16) configured. *)
Definition lines_configured (f h : Z) (l l' : list irq_desc) : Prop :=
  length l' = length l /\
  forall j, 0 <= j < 256 -> l' !!! Z.to_nat j =
    (if (f + h <=? j) && (j <? f + 16) then pic_desc (j - f) (l !!! Z.to_nat j) else l !!! Z.to_nat j).

Lemma outside_pic_map f k : 0 <= k < 16 -> outside_map (pic_map f) k = false.
Proof.
  intros Hk. unfold outside_map, pic_map; cbn [map_first_hwirq map_count].
  change (u32 (0 + 16)) with 16. apply orb_false_iff. split; [apply Z.ltb_ge | apply Z.leb_gt]; lia.
Qed.

Lemma pic_map_irq_wp (i : irqs) f k (Q : Z -> irqs -> Prop) :
  objects_ok -> irq_maps i !! i8259_map_addr = Some (pic_map f) -> 0 <= f -> f + 16 <= 256 ->
  0 <= k < 16 -> Q (f + k) i -> wp (irq_map_hwirq_to_irq i8259_map_addr k) Q i.
Proof.
  intros (_ & Hm & _) Hmap Hf Hf' Hk HQ. unfold irq_map_hwirq_to_irq.
  rewrite (proj2 (Z.eqb_neq _ _) Hm). wp_step. eapply read_map_wp; [done|].
  rewrite outside_pic_map by done. wp_step. unfold pic_map; cbn [map_first_irq map_first_hwirq].
  rewrite Z.sub_0_r, !u32_id by (unfold is_u32; rewrite ?u32_id; unfold is_u32; lia). done.
Qed.

(** One descriptor. *)
Lemma configure_line_wp (i : irqs) f k dd (Q : Z -> irqs -> Prop) :
  objects_ok -> irqs_ok i -> irq_maps i !! i8259_map_addr = Some (pic_map f) ->
  0 <= f -> f + 16 <= 256 -> 0 <= k < 16 -> irq_used i (f + k) = true ->
  irq_descs i !! Z.to_nat (f + k) = Some dd -> desc_map dd = 0 ->
  Q 0 (set_descs (<[Z.to_nat (f + k) := pic_desc k dd]> (irq_descs i)) i) ->
  wp (irq_desc_configure (f + k) k i8259_map_addr i8259_chip_addr) Q i.
Proof.
  intros (Hc & Hm & _) Hok Hmap Hf Hf' Hk Hu Hdd Hz HQ. unfold irq_desc_configure.
  change IRQ_MAX with 256.
  rewrite (proj2 (Z.leb_gt 256 (f + k))), (proj2 (Z.eqb_neq _ _) Hm), (proj2 (Z.eqb_neq _ _) Hc) by lia.
  cbn [orb]. wp_step. apply irq_is_allocated_wp; [done | lia |].
  rewrite Hu, (proj2 (Z.ltb_lt (f + k) 256)) by lia. cbn [andb negb]. wp_step.
  eapply read_desc_wp; [done|]. rewrite Hz. cbn [negb Z.eqb]. wp_step.
  eapply read_map_wp; [done|]. rewrite outside_pic_map by done. wp_step.
  eapply write_desc_wp; [done|]. by wp_step.
Qed.

Lemma lines_configured_step f h l : 0 <= f -> f + 16 <= 256 -> 0 <= h < 16 -> length l = 256%nat ->
  forall l', lines_configured f (h + 1) (<[Z.to_nat (f + h) := pic_desc h (l !!! Z.to_nat (f + h))]> l) l' ->
  lines_configured f h l l'.
Proof.
  intros Hf Hf' Hh Hl l' [Hlen Hl']. split; [by rewrite Hlen, length_insert|].
  intros j Hj. rewrite Hl' by done. destruct (Z.eq_dec j (f + h)) as [->|Hne].
  - rewrite list_lookup_total_insert_eq by lia.
    rewrite (proj2 (Z.leb_gt (f + (h + 1)) (f + h))), (proj2 (Z.leb_le (f + h) (f + h))),
      (proj2 (Z.ltb_lt (f + h) (f + 16))) by lia. cbn [andb].
    by replace (f + h - f) with h by lia.
  - rewrite list_lookup_total_insert_ne by lia.
    destruct (Z.leb_spec (f + (h + 1)) j); destruct (Z.leb_spec (f + h) j); done || lia.
Qed.

Lemma lines_configured_end f l : lines_configured f 16 l l.
Proof.
  split; [done|]. intros j Hj. destruct (Z.leb_spec (f + 16) j); [|done].
  by rewrite (proj2 (Z.ltb_ge j (f + 16))).
Qed.

Lemma configure_lines_wp f (d : D) (Q : Z -> irqs * D -> Prop) :
  objects_ok -> 0 <= f -> f + 16 <= 256 -> forall fuel h (i : irqs),
  0 <= h <= 16 -> h + Z.of_nat fuel = 17 -> irqs_ok i ->
  irq_maps i !! i8259_map_addr = Some (pic_map f) ->
  (forall j, f <= j < f + 16 -> irq_used i j = true) ->
  (forall j, f + h <= j < f + 16 -> desc_map (irq_descs i !!! Z.to_nat j) = 0) ->
  (forall l', lines_configured f h (irq_descs i) l' -> Q 0 (set_descs l' i, d)) ->
  wp (configure_lines fuel h) Q (i, d).
Proof.
  intros Hobj Hf Hf'. induction fuel as [|fuel IH]; intros h i Hh Hfu Hok Hmap Hu Hz HQ.
  { lia. }
  cbn [configure_lines]. wp_step. apply wp_on_irqs. eapply read_map_wp; [exact Hmap|].
  unfold pic_map at 1; cbn [map_count]. destruct (Z.ltb_spec h 16) as [Hlt|Hge].
  - wp_step. apply wp_on_irqs. eapply pic_map_irq_wp; [done | exact Hmap | lia..|].
    wp_step. apply wp_on_irqs.
    destruct (desc_exists i (f + h) Hok ltac:(lia)) as [dd Hdd].
    pose proof (list_lookup_total_correct _ _ _ Hdd) as Hdd'.
    eapply configure_line_wp; [done | done | exact Hmap | lia.. | apply Hu; lia | exact Hdd | |].
    { rewrite <- Hdd'. apply Hz. lia. }
    change (0 <? 0) with false. cbn iota.
    rewrite (u32_id (h + 1)) by (unfold is_u32; lia). apply IH; [lia | lia | | done | done | |].
    + destruct Hok as (Ha & Hb & Hc). split; [done|]. split; [done|]. cbn. by rewrite length_insert.
    + intros j Hj. cbn. rewrite list_lookup_total_insert_ne by lia. apply Hz. lia.
    + intros l' Hl'. cbn in Hl'. apply (HQ l'). rewrite <- Hdd' in Hl'.
      eapply lines_configured_step; [lia | lia | lia | apply Hok | exact Hl'].
  - wp_step. assert (h = 16) as -> by lia. specialize (HQ _ (lines_configured_end f _)).
    by destruct i.
Qed.

(** ** Lines *)

Definition pics_ready (d : D) : Prop :=
  pic_state (pic1 d) = PIC_READY /\ pic_state (pic2 d) = PIC_READY.

(** The cascade line is masked exactly when all lines of the slave are. *)
Definition cascade_ok (d : D) : Prop :=
  Z.testbit (pic_imr (pic1 d)) 2 = (pic_imr (pic2 d) =? 255).

(** A request on line [j] reaches the processor. *)
Definition line_on (d : D) (j : Z) : bool :=
  if j <? 8 then negb (Z.testbit (pic_imr (pic1 d)) j)
  else negb (Z.testbit (pic_imr (pic2 d)) (j - 8)) && negb (Z.testbit (pic_imr (pic1 d)) 2).

Lemma u8_bit x i : 0 <= i < 8 -> Z.testbit (u8 x) i = Z.testbit x i.
Proof. intros Hi. unfold u8. change 256 with (2 ^ 8). apply Z.mod_pow2_bits_low. lia. Qed.

Lemma u8_set_bit m k i : 0 <= k < 32 -> 0 <= i < 8 ->
  Z.testbit (u8 (MASK_SET m (BIT k))) i = (i =? k) || Z.testbit m i.
Proof. intros Hk Hi. rewrite u8_bit by done. apply MASK_SET_bit; lia. Qed.

Lemma u8_clear_bit m k i : is_u8 m -> 0 <= k < 32 -> 0 <= i < 8 ->
  Z.testbit (u8 (MASK_CLEAR m (BIT k))) i = negb (i =? k) && Z.testbit m i.
Proof.
  intros Hm Hk Hi. rewrite u8_bit by done. apply MASK_CLEAR_bit; [|lia..].
  unfold is_u8 in Hm. unfold is_u32. lia.
Qed.

(** A byte is 255 exactly when its eight bits are set. *)
Lemma u8_full m : is_u8 m -> (m =? 255) = true <-> forall i, 0 <= i < 8 -> Z.testbit m i = true.
Proof.
  intros Hm. rewrite Z.eqb_eq. split.
  - intros -> i Hi. change 255 with (Z.ones 8). by apply Z.ones_spec_low.
  - intros Hb. apply Z.bits_inj'. intros i Hi. change 255 with (Z.ones 8).
    destruct (Z.lt_ge_cases i 8).
    + rewrite Hb, Z.ones_spec_low by lia. done.
    + rewrite Z.ones_spec_high by lia. apply (testbit_high m 8); unfold is_u8 in Hm; lia.
Qed.

Lemma mask_line_wp d p q k (Q : unit -> D -> Prop) :
  pics d p q -> pic_state p = PIC_READY -> pic_state q = PIC_READY -> 0 <= k < 16 ->
  (forall d' m1 m2, pics d' (set_pic_imr m1 p) (set_pic_imr m2 q) ->
     (forall i, 0 <= i < 8 -> Z.testbit m1 i =
        (i =? k) || (8 <=? k) && (m2 =? 255) && (i =? 2) || Z.testbit (pic_imr p) i) ->
     (forall i, 0 <= i < 8 -> Z.testbit m2 i = (i + 8 =? k) || Z.testbit (pic_imr q) i) -> Q tt d') ->
  wp (mask_line k) Q d.
Proof.
  intros Hd Hp Hq Hk HQ. unfold mask_line. destruct (Z.leb_spec 8 k) as [H8|H8].
  - wp_step. eapply read_imr2_wp; [exact Hd|]. clear d Hd. intros d Hd Hm.
    unfold bit_operand. rewrite (proj2 (Z.ltb_lt (k - 8) 32)) by lia. wp_steps.
    eapply out_data2_wp; [exact Hd|]. clear d Hd. intros d Hd.
    unfold pic_data in Hd. rewrite Hq, (u8_id (u8 _)) in Hd by apply u8_range.
    set (m := u8 _) in *.
    assert (forall i, 0 <= i < 8 -> Z.testbit m i = (i + 8 =? k) || Z.testbit (pic_imr q) i) as Hmb.
    { intros i Hi. unfold m. rewrite u8_set_bit by lia. f_equal.
      destruct (Z.eqb_spec i (k - 8)), (Z.eqb_spec (i + 8) k); lia || done. }
    assert (forall i, 0 <= i < 8 -> (i =? k) = false) as Hik by (intros i Hi; apply Z.eqb_neq; lia).
    destruct (m =? 255) eqn:E.
    + wp_step. eapply read_imr1_wp; [exact Hd|]. clear d Hd. intros d Hd Hm'.
      cbn zeta. eapply out_data1_wp; [exact Hd|]. clear d Hd. intros d Hd.
      unfold pic_data in Hd. rewrite Hp, (u8_id (u8 _)) in Hd by apply u8_range.
      eapply (HQ _ _ _ Hd); [|done]. intros i Hi. rewrite E, u8_set_bit, Hik by lia. done.
    + wp_step. apply (HQ d (pic_imr p) m); [|intros i Hi; by rewrite E, Hik by done|done].
      by destruct p.
  - wp_step. eapply read_imr1_wp; [exact Hd|]. clear d Hd. intros d Hd Hm.
    unfold bit_operand. rewrite (proj2 (Z.ltb_lt k 32)) by lia. wp_steps.
    eapply out_data1_wp; [exact Hd|]. clear d Hd. intros d Hd.
    unfold pic_data in Hd. rewrite Hp, (u8_id (u8 _)) in Hd by apply u8_range.
    eapply (HQ d _ (pic_imr q)); [destruct q; exact Hd | |].
    + intros i Hi. rewrite u8_set_bit by lia. cbn [andb]. by rewrite orb_false_r.
    + intros i Hi. by rewrite (proj2 (Z.eqb_neq (i + 8) k)) by lia.
Qed.

Lemma unmask_line_wp d p q k (Q : unit -> D -> Prop) :
  pics d p q -> pic_state p = PIC_READY -> pic_state q = PIC_READY -> 0 <= k < 16 ->
  (forall d' m1 m2, pics d' (set_pic_imr m1 p) (set_pic_imr m2 q) ->
     (forall i, 0 <= i < 8 -> Z.testbit m1 i =
        negb (i =? (if 8 <=? k then 2 else k)) && Z.testbit (pic_imr p) i) ->
     (forall i, 0 <= i < 8 -> Z.testbit m2 i = negb (i + 8 =? k) && Z.testbit (pic_imr q) i) -> Q tt d') ->
  wp (unmask_line k) Q d.
Proof.
  intros Hd Hp Hq Hk HQ. unfold unmask_line. destruct (Z.leb_spec 8 k) as [H8|H8].
  - wp_step. eapply read_imr1_wp; [exact Hd|]. clear d Hd. intros d Hd Hm. cbn zeta. wp_step.
    eapply out_data1_wp; [exact Hd|]. clear d Hd. intros d Hd.
    unfold pic_data in Hd. rewrite Hp, (u8_id (u8 _)) in Hd by apply u8_range.
    wp_step. eapply read_imr2_wp; [exact Hd|]. clear d Hd. intros d Hd Hm'.
    unfold bit_operand. rewrite (proj2 (Z.ltb_lt (k - 8) 32)) by lia. wp_steps.
    eapply out_data2_wp; [exact Hd|]. clear d Hd. intros d Hd.
    unfold pic_data in Hd. rewrite Hq, (u8_id (u8 _)) in Hd by apply u8_range.
    eapply (HQ _ _ _ Hd); intros i Hi; rewrite u8_clear_bit by (done || lia); [done|].
    f_equal. f_equal. destruct (Z.eqb_spec i (k - 8)), (Z.eqb_spec (i + 8) k); lia || done.
  - wp_step. eapply read_imr1_wp; [exact Hd|]. clear d Hd. intros d Hd Hm.
    unfold bit_operand. rewrite (proj2 (Z.ltb_lt k 32)) by lia. wp_steps.
    eapply out_data1_wp; [exact Hd|]. clear d Hd. intros d Hd.
    unfold pic_data in Hd. rewrite Hp, (u8_id (u8 _)) in Hd by apply u8_range.
    eapply (HQ d _ (pic_imr q)); [destruct q; exact Hd | |]; intros i Hi.
    + rewrite u8_clear_bit by (done || lia). done.
    + by rewrite (proj2 (Z.eqb_neq (i + 8) k)) by lia.
Qed.

(** ** Dispatch *)

Definition same_isrs (d d' : D) : Prop :=
  pic_isr (pic1 d') = pic_isr (pic1 d) /\ pic_isr (pic2 d') = pic_isr (pic2 d).

(** Line [k] was signalled without being in service. *)
Definition spurious (d : D) (k : Z) : bool :=
  (k =? 7) && negb (Z.testbit (pic_isr (pic1 d)) 7) ||
  (k =? 15) && negb (Z.testbit (pic_isr (pic2 d)) 7).

(** [b] is the lowest bit set in [v]. *)
Definition is_lowest (v b : Z) : Prop :=
  0 <= b /\ Z.testbit v b = true /\ forall j, 0 <= j < b -> Z.testbit v j = false.

(** Line [k] is the request of highest priority in service. *)
Definition serving (d : D) (k : Z) : Prop :=
  if k <? 8 then is_lowest (pic_isr (pic1 d)) k
  else is_lowest (pic_isr (pic1 d)) 2 /\ is_lowest (pic_isr (pic2 d)) (k - 8).

Lemma clear_lowest_spec v b j : 0 <= v -> is_lowest v b -> 0 <= j ->
  Z.testbit (clear_lowest v) j = negb (j =? b) && Z.testbit v j.
Proof.
  intros Hv (Hb & Hset & Hlow) Hj. unfold clear_lowest. rewrite Z.land_spec.
  assert (v = 2 ^ (b + 1) * (v / 2 ^ (b + 1)) + 2 ^ b) as E.
  { assert (v mod 2 ^ (b + 1) = 2 ^ b) as Hm.
    { apply Z.bits_inj'. intros i Hi. rewrite Z.pow2_bits_eqb by done.
      destruct (Z.lt_ge_cases i (b + 1)).
      - rewrite Z.mod_pow2_bits_low by lia. destruct (Z.eqb_spec b i) as [->|]; [done|].
        apply Hlow. lia.
      - rewrite Z.mod_pow2_bits_high by lia. symmetry. apply Z.eqb_neq. lia. }
    rewrite <- Hm. apply Z.div_mod. apply Z.pow_nonzero; lia. }
  set (h := v / 2 ^ (b + 1)) in E.
  assert (v - 1 = Z.lor (Z.shiftl h (b + 1)) (Z.ones b)) as E1.
  { assert (Z.land (Z.shiftl h (b + 1)) (Z.ones b) = 0) as Hz.
    { apply Z.bits_inj'. intros i Hi. rewrite Z.land_spec, Z.bits_0.
      destruct (Z.lt_ge_cases i b); [by rewrite Z.shiftl_spec_low by lia|].
      rewrite Z.ones_spec_high by lia. apply andb_false_r. }
    rewrite <- (Z.lxor_lor _ _ Hz), <- (Z.add_nocarry_lxor _ _ Hz).
    rewrite Z.shiftl_mul_pow2, Z.ones_equiv by lia. lia. }
  rewrite E1, Z.lor_spec. destruct (Z.eqb_spec j b) as [->|Hne].
  - rewrite Z.shiftl_spec_low, Z.ones_spec_high by lia. apply andb_false_r.
  - destruct (Z.lt_ge_cases j b) as [Hlt|Hge]; [by rewrite Hlow by lia|].
    rewrite Z.ones_spec_high, orb_false_r, Z.shiftl_spec by lia. unfold h.
    rewrite Z.div_pow2_bits by lia. replace (j - (b + 1) + (b + 1)) with j by lia.
    cbn [negb andb]. apply andb_diag.
Qed.

Lemma ocw3_read_isr p p' :
  pic_command (u8 I8259_OCW3_READ_ISR_MASK) p p' -> p' = set_reads_isr true p.
Proof.
  replace (u8 I8259_OCW3_READ_ISR_MASK) with 11 by (vm_compute; done). intros [Hc _]. by apply Hc.
Qed.

Lemma ocw2_eoi p p' :
  pic_command (u8 I8259_OCW2_EOI_MASK) p p' -> p' = set_pic_isr (clear_lowest (pic_isr p)) p.
Proof.
  replace (u8 I8259_OCW2_EOI_MASK) with 32 by (vm_compute; done). intros Hc. by apply Hc.
Qed.

(** [i8259_read_isr] reads both in-service registers. *)
Lemma i8259_read_isr_wp d (Q : Z -> D -> Prop) :
  (forall d', same_isrs d d' ->
     Q (Z.lor (pic_isr (pic1 d)) (Z.shiftl (pic_isr (pic2 d)) 8)) d') ->
  wp i8259_read_isr Q d.
Proof.
  intros HQ. unfold i8259_read_isr. assert (pics d (pic1 d) (pic2 d)) as Hd by done.
  destruct (isr_u8 d) as [Hi1 Hi2]. revert HQ Hi1 Hi2. unfold same_isrs.
  set (p := pic1 d) in *. set (q := pic2 d) in *. clearbody p q. intros HQ Hi1 Hi2.
  wp_step. eapply out_cmd1_wp; [exact Hd|]. clear d Hd. intros d p' Hp Hd.
  apply ocw3_read_isr in Hp. subst p'.
  wp_step. eapply read_isr1_wp; [exact Hd | done |]. clear d Hd. intros d Hd _.
  wp_step. eapply out_cmd2_wp; [exact Hd|]. clear d Hd. intros d q' Hq Hd.
  apply ocw3_read_isr in Hq. subst q'.
  wp_step. eapply read_isr2_wp; [exact Hd | done |]. clear d Hd. intros d Hd _.
  wp_step. cbn [set_reads_isr pic_isr]. unfold u16. rewrite Z.mod_small.
  - apply HQ. destruct Hd as [-> ->]. done.
  - unfold is_u8 in *. rewrite Z.shiftl_mul_pow2 by lia.
    pose proof (is_u32_lor (pic_isr p) (pic_isr q * 2 ^ 8)) as [H0' _]; [unfold is_u32; lia..|].
    split; [done|]. apply Z.log2_lt_cancel.
    destruct (Z.eq_dec (Z.lor (pic_isr p) (pic_isr q * 2 ^ 8)) 0) as [->|]; [done|].
    change (Z.log2 65536) with 16. rewrite Z.log2_lor by lia. apply Z.max_lub_lt.
    + apply Z.le_lt_trans with 7; [|lia]. change 7 with (Z.log2 255). apply Z.log2_le_mono. lia.
    + apply Z.le_lt_trans with 15; [|lia]. change 15 with (Z.log2 65535). apply Z.log2_le_mono. lia.
Qed.

Lemma isr_line d k : 0 <= k < 16 ->
  Z.testbit (Z.lor (pic_isr (pic1 d)) (Z.shiftl (pic_isr (pic2 d)) 8)) k =
  if k <? 8 then Z.testbit (pic_isr (pic1 d)) k else Z.testbit (pic_isr (pic2 d)) (k - 8).
Proof.
  intros Hk. destruct (isr_u8 d) as [Hi1 _]. unfold is_u8 in Hi1. rewrite Z.lor_spec.
  destruct (Z.ltb_spec k 8).
  - rewrite Z.shiftl_spec_low by lia. apply orb_false_r.
  - rewrite Z.shiftl_spec, (testbit_high _ 8) by lia. done.
Qed.

Lemma is_spurious_wp d k (Q : bool -> D -> Prop) :
  0 <= k < 16 -> (forall d', same_isrs d d' -> Q (spurious d k) d') -> wp (i8259_is_spurious k) Q d.
Proof.
  intros Hk HQ. unfold i8259_is_spurious. unfold spurious in HQ.
  destruct (Z.eqb_spec k 7) as [->|H7]; [|destruct (Z.eqb_spec k 15) as [->|H15]].
  - cbn [negb andb]. wp_step. apply i8259_read_isr_wp. intros d' Hd'.
    fold (MASK_TEST (Z.lor (pic_isr (pic1 d)) (Z.shiftl (pic_isr (pic2 d)) 8)) (BIT 7)).
    rewrite MASK_TEST_bit, isr_line by lia. specialize (HQ d' Hd').
    change (7 <? 8) with true. change (7 =? 15) with false in HQ. cbn [andb] in HQ.
    destruct (Z.testbit _ 7); apply wp_ret; exact HQ.
  - cbn [negb andb]. wp_step. apply i8259_read_isr_wp. intros d' Hd'.
    fold (MASK_TEST (Z.lor (pic_isr (pic1 d)) (Z.shiftl (pic_isr (pic2 d)) 8)) (BIT 15)).
    rewrite MASK_TEST_bit, isr_line by lia. specialize (HQ d' Hd').
    change (15 <? 8) with false. change (15 - 8) with 7. cbn [andb] in HQ.
    destruct (Z.testbit (pic_isr (pic2 d)) 7); apply wp_ret; exact HQ.
  - cbn [negb andb]. apply wp_ret. by apply HQ.
Qed.

(** The vector of line [k] is 32 + k, on both controllers. *)
Lemma handle_vector_wp d k (Q : Z * Z -> D -> Prop) :
  0 <= k < 16 ->
  (spurious d k = false -> forall d', same_isrs d d' -> Q (0, k) d') ->
  (spurious d k = true -> forall d',
     pic_isr (pic1 d') = (if k =? 15 then clear_lowest (pic_isr (pic1 d)) else pic_isr (pic1 d)) ->
     pic_isr (pic2 d') = pic_isr (pic2 d) -> Q (- KERR_NOENT, k) d') ->
  wp (i8259_handle_vector true (32 + k)) Q d.
Proof.
  intros Hk HQ HQs. unfold i8259_handle_vector. cbn [negb].
  unfold I8259_ICW2_MASTER_VECTOR_OFFSET, I8259_ICW2_SLAVE_VECTOR_OFFSET.
  match goal with |- context [match ?l with Some _ => _ | None => _ end] => assert (l = Some k) as -> end.
  { rewrite (proj2 (Z.leb_le 32 (32 + k))) by lia. cbn [andb].
    destruct (Z.ltb_spec (32 + k) (32 + 8)); [f_equal; lia|].
    rewrite (proj2 (Z.leb_le 40 (32 + k))), (proj2 (Z.ltb_lt (32 + k) (40 + 8))) by lia.
    cbn [andb]. f_equal. lia. }
  wp_step. apply is_spurious_wp; [done|]. intros d1 [E1 E2].
  destruct (spurious d k) eqn:Hs; [|wp_step; by apply HQ].
  wp_step. destruct (Z.eqb_spec k 15) as [->|].
  - eapply (out_cmd1_wp d1); [done|]. intros d' p' Hp [Hd1 Hd2]. apply ocw2_eoi in Hp. subst p'.
    wp_step. apply HQs; [done | by rewrite Hd1, <- E1 | congruence].
  - wp_step. wp_step. by apply HQs.
Qed.

Lemma send_eoi_wp d k (Q : unit -> D -> Prop) :
  (forall d', pic_isr (pic1 d') = clear_lowest (pic_isr (pic1 d)) ->
     pic_isr (pic2 d') = (if 8 <=? k then clear_lowest (pic_isr (pic2 d)) else pic_isr (pic2 d)) ->
     Q tt d') ->
  wp (send_eoi k) Q d.
Proof.
  intros HQ. unfold send_eoi. assert (pics d (pic1 d) (pic2 d)) as Hd by done.
  destruct (8 <=? k); wp_step.
  - eapply out_cmd2_wp; [exact Hd|]. clear Hd. intros d1 q' Hq Hd. apply ocw2_eoi in Hq. subst q'.
    eapply out_cmd1_wp; [exact Hd|]. clear Hd. intros d' p' Hp [Hd1 Hd2]. apply ocw2_eoi in Hp.
    apply HQ; [by rewrite Hd1, Hp | by rewrite Hd2].
  - wp_step. eapply out_cmd1_wp; [exact Hd|]. clear Hd. intros d' p' Hp [Hd1 Hd2]. apply ocw2_eoi in Hp.
    apply HQ; [by rewrite Hd1, Hp | by rewrite Hd2].
Qed.

(** After the end of interrupt, line [k] is not in service any more; the other
    lines in service stay so. *)
Definition released (d d' : D) (k : Z) : Prop :=
  (forall j, 0 <= j < 8 -> Z.testbit (pic_isr (pic1 d')) j =
     negb (j =? (if k <? 8 then k else 2)) && Z.testbit (pic_isr (pic1 d)) j) /\
  (forall j, 0 <= j < 8 -> Z.testbit (pic_isr (pic2 d')) j =
     negb (j + 8 =? k) && Z.testbit (pic_isr (pic2 d)) j).

Lemma eoi_releases d d' k : 0 <= k < 16 -> serving d k ->
  pic_isr (pic1 d') = clear_lowest (pic_isr (pic1 d)) ->
  pic_isr (pic2 d') = (if 8 <=? k then clear_lowest (pic_isr (pic2 d)) else pic_isr (pic2 d)) ->
  released d d' k.
Proof.
  intros Hk Hs E1 E2. destruct (isr_u8 d) as [Hi1 Hi2]. unfold is_u8 in *. unfold serving in Hs.
  unfold released. rewrite E1, E2. destruct (Z.ltb_spec k 8) as [H8|H8].
  - rewrite (proj2 (Z.leb_gt 8 k)) by lia. split; intros j Hj.
    + apply clear_lowest_spec; [lia | done | lia].
    + by rewrite (proj2 (Z.eqb_neq (j + 8) k)) by lia.
  - destruct Hs as [Hs1 Hs2]. rewrite (proj2 (Z.leb_le 8 k)) by lia. split; intros j Hj.
    + apply clear_lowest_spec; [lia | done | lia].
    + rewrite (clear_lowest_spec _ (k - 8)) by (done || lia). f_equal. f_equal.
      destruct (Z.eqb_spec j (k - 8)), (Z.eqb_spec (j + 8) k); lia || done.
Qed.
End Hardware.

(** The mask registers before ([a], [b]) and after ([a'], [b']) a change of
    line [k]. *)
Section Masks.
Context (a b a' b' k : Z).
Hypothesis k_range : 0 <= k < 16.
Hypothesis k_not_2 : k <> 2.
Hypothesis b_u8 : is_u8 b.
Hypothesis b'_u8 : is_u8 b'.
Hypothesis cascade : Z.testbit a 2 = (b =? 255).

Definition line_in (a b j : Z) : bool :=
  if j <? 8 then negb (Z.testbit a j) else negb (Z.testbit b (j - 8)) && negb (Z.testbit a 2).

Lemma not_full x i : is_u8 x -> 0 <= i < 8 -> Z.testbit x i = false -> (x =? 255) = false.
Proof.
  intros Hx Hi Hb. destruct (x =? 255) eqn:E; [|done].
  rewrite (proj1 (u8_full x Hx) E i Hi) in Hb. done.
Qed.

Section Unmask.
Hypothesis a'_bits : forall i, 0 <= i < 8 -> Z.testbit a' i =
  negb (i =? (if 8 <=? k then 2 else k)) && Z.testbit a i.
Hypothesis b'_bits : forall i, 0 <= i < 8 -> Z.testbit b' i = negb (i + 8 =? k) && Z.testbit b i.

Lemma same_b_unmask : k < 8 -> b' = b.
Proof.
  intros Hk. apply Z.bits_inj'. intros i Hi. destruct (Z.lt_ge_cases i 8).
  - rewrite b'_bits, (proj2 (Z.eqb_neq (i + 8) k)) by lia. done.
  - unfold is_u8 in *. rewrite !(testbit_high _ 8) by lia. done.
Qed.

Lemma cascade_after_unmask : Z.testbit a' 2 = (b' =? 255).
Proof.
  rewrite a'_bits by lia. destruct (Z.leb_spec 8 k).
  - symmetry. apply (not_full b' (k - 8)); [done | lia |]. rewrite b'_bits by lia.
    by replace (k - 8 + 8) with k by lia; rewrite Z.eqb_refl.
  - rewrite same_b_unmask, <- cascade, (proj2 (Z.eqb_neq 2 k)) by lia. done.
Qed.

Lemma line_after_unmask j : 0 <= j < 16 -> j <> 2 -> line_in a' b' j = (j =? k) || line_in a b j.
Proof.
  intros Hj Hj2. unfold line_in. destruct (Z.ltb_spec j 8).
  - rewrite a'_bits by lia. destruct (Z.leb_spec 8 k).
    + rewrite (proj2 (Z.eqb_neq j 2)), (proj2 (Z.eqb_neq j k)) by lia. done.
    + destruct (j =? k); [done|]. by destruct (Z.testbit a j).
  - rewrite cascade_after_unmask, b'_bits, cascade by lia. replace (j - 8 + 8) with j by lia.
    destruct (Z.leb_spec 8 k).
    + assert ((b' =? 255) = false) as ->.
      { apply (not_full b' (k - 8)); [done | lia |]. rewrite b'_bits by lia.
        by replace (k - 8 + 8) with k by lia; rewrite Z.eqb_refl. }
      destruct (j =? k); [done|]. cbn. destruct (Z.testbit b (j - 8)) eqn:E; [done|].
      by rewrite (not_full b (j - 8)) by (done || lia).
    + rewrite same_b_unmask, (proj2 (Z.eqb_neq j k)) by lia. done.
Qed.
End Unmask.

Section Mask.
Hypothesis a'_bits : forall i, 0 <= i < 8 -> Z.testbit a' i =
  (i =? k) || (8 <=? k) && (b' =? 255) && (i =? 2) || Z.testbit a i.
Hypothesis b'_bits : forall i, 0 <= i < 8 -> Z.testbit b' i = (i + 8 =? k) || Z.testbit b i.

Lemma same_b_mask : k < 8 -> b' = b.
Proof.
  intros Hk. apply Z.bits_inj'. intros i Hi. destruct (Z.lt_ge_cases i 8).
  - rewrite b'_bits, (proj2 (Z.eqb_neq (i + 8) k)) by lia. done.
  - unfold is_u8 in *. rewrite !(testbit_high _ 8) by lia. done.
Qed.

Lemma cascade_after_mask : Z.testbit a' 2 = (b' =? 255).
Proof.
  rewrite a'_bits, (proj2 (Z.eqb_neq 2 k)), cascade by lia. destruct (Z.leb_spec 8 k) as [H8|H8].
  - cbn. destruct (b' =? 255) eqn:E; [done|]. cbn.
    destruct (b =? 255) eqn:E'; [|done]. rewrite <- E. symmetry. apply u8_full; [done|].
    intros i Hi. rewrite b'_bits by done. rewrite (proj1 (u8_full b b_u8) E' i Hi). apply orb_true_r.
  - by rewrite same_b_mask by done.
Qed.

Lemma line_after_mask j : 0 <= j < 16 -> j <> 2 ->
  line_in a' b' j = negb (j =? k) && line_in a b j.
Proof.
  intros Hj Hj2. unfold line_in. destruct (Z.ltb_spec j 8).
  - rewrite a'_bits, (proj2 (Z.eqb_neq j 2)) by lia. rewrite andb_false_r, orb_false_r. apply negb_orb.
  - rewrite cascade_after_mask, cascade, b'_bits by lia. replace (j - 8 + 8) with j by lia.
    destruct (Z.eqb_spec j k) as [->|Hne]; [done|]. cbn. destruct (Z.testbit b (j - 8)) eqn:E; [done|].
    rewrite (not_full b (j - 8)) by (done || lia). cbn. apply negb_true_iff.
    apply (not_full b' (j - 8)); [done | lia |]. rewrite b'_bits by lia.
    replace (j - 8 + 8) with j by lia. by rewrite (proj2 (Z.eqb_neq j k)).
Qed.
End Mask.
End Masks.

(** ** Properties *)

Section Properties.
Context `{I8259Hw D} `{I8259Objects}.

(** What [i8259_init] leaves behind. *)
Definition init_post (i : irqs) (r : Z) (s' : irqs * D) : Prop :=
  (exists i1 i2, pics (snd s') (programmed 32 4 255 i1) (programmed 40 2 255 i2)) /\
  (r = KERR_OK /\ (exists f, f + 16 <= 256 /\ is_first_run (irq_used i) 0 f 16 /\
     irqs_ok (fst s') /\ irq_maps (fst s') = <[i8259_map_addr := pic_map f]> (irq_maps i) /\
     lines_configured f 0 (irq_descs i) (irq_descs (fst s')) /\
     forall j, 0 <= j -> irq_used (fst s') j = ((f <=? j) && (j <? f + 16)) || irq_used i j) \/
   r = - KERR_NOSPC /\ fst s' = i /\
     forall f, 0 <= f -> f + 16 <= 256 -> ~ free_run (irq_used i) f 16).

Lemma i8259_init_wp i d m0 :
  objects_ok -> irqs_ok i -> irq_maps i !! i8259_map_addr = Some m0 ->
  (forall j, 0 <= j < 256 -> desc_map (irq_descs i !!! Z.to_nat j) = 0) ->
  wp i8259_init (init_post i) (i, d).
Proof.
  intros Hobj Hok Hmap Hz. destruct (Hobj) as (Hc & Hm & Hn). unfold i8259_init.
  wp_step. apply wp_on_dev. eapply (i8259_remap_wp d (pic1 d) (pic2 d)); [done|].
  generalize (pic_imr (pic1 d)), (pic_imr (pic2 d)). clear d. intros p1 p2 d i1 i2 Hd.
  wp_step. apply wp_on_dev. unfold i8259_mask_all. wp_step.
  eapply out_data1_wp; [exact Hd|]. clear d Hd. intros d Hd.
  eapply out_data2_wp; [exact Hd|]. clear d Hd. intros d Hd. wp_step. apply wp_on_irqs.
  assert (exists i1 i2, pics d (programmed 32 4 255 i1) (programmed 40 2 255 i2)) as Hpics
    by (exists i1, i2; exact Hd).
  unfold irq_map_init. rewrite !(proj2 (Z.eqb_neq _ _)) by (done || lia). cbn [orb]. wp_step.
  apply irq_alloc_range_wp; [done | lia |]. intros [e|f] i' Hr; cbn in Hr.
  - destruct Hr as [-> [[_ ?]|[-> Hno]]]; [lia|]. wp_steps. change (- KERR_NOSPC <? 0) with true. cbn iota.
    wp_step. split; [done|]. right. auto.
  - destruct Hr as (_ & Hf & Hrun & Hok' & Ed & Em & Hu). wp_step.
    eapply write_map_wp; [by rewrite Em|]. wp_steps. change (KERR_OK <? 0) with false. cbn iota.
    destruct (Hrun) as [Hf0 _].
    apply (configure_lines_wp f); [done.. | lia | lia | done | by apply lookup_insert_eq | | |].
    + intros j Hj. unfold irq_used. cbn. fold (irq_used i' j). rewrite Hu by lia.
      rewrite (proj2 (Z.leb_le f j)), (proj2 (Z.ltb_lt j (f + 16))) by lia. done.
    + intros j Hj. cbn. rewrite Ed. apply Hz. lia.
    + intros l' Hl'. split; [done|]. left. split; [done|]. exists f. cbn in Hl' |- *.
      rewrite Ed in Hl'. split; [done|]. split; [done|]. split; [|split; [by rewrite Em | split; [done|]]].
      2: { intros j Hj. unfold irq_used. cbn. fold (irq_used i' j). rewrite Hu by done.
           destruct ((f <=? j) && (j <? f + 16)) eqn:E; [done|]. done. }
      destruct Hok' as (Ha & Hb & Hlen). split; [done|]. split; [done|].
      cbn. rewrite (proj1 Hl'). by rewrite <- Ed.
Qed.

(** C34. Whatever state the two controllers were in, [i8259_init] leaves them
    remapped to vectors 32 and 40, cascaded through line 2, in 8086 mode and
    with every line masked.  It takes the lowest 16 free interrupt numbers for
    the lines, marks exactly them and configures exactly their descriptors, or it reports that no
    16 consecutive numbers are free and leaves the interrupt tables alone. *)
Theorem i8259_init_correct i d m0 :
  objects_ok -> irqs_ok i -> irq_maps i !! i8259_map_addr = Some m0 ->
  (forall j, 0 <= j < 256 -> desc_map (irq_descs i !!! Z.to_nat j) = 0) ->
  wp i8259_init (init_post i) (i, d).
Proof. apply i8259_init_wp. Qed.


(** What a dispatched interrupt of line [k], with descriptor [dd], leaves. *)
Definition dispatch_post (R : irqs * D -> Prop) (i : irqs) (d : D) (k : Z) (dd : irq_desc)
    (r : Z) (s' : irqs * D) : Prop :=
  let d' := snd s' in
  if spurious d k then
    r = - KERR_NOENT /\ fst s' = i /\ pic_isr (pic2 d') = pic_isr (pic2 d) /\
    pic_isr (pic1 d') = (if k =? 15 then clear_lowest (pic_isr (pic1 d)) else pic_isr (pic1 d))
  else if desc_handler dd =? 0 then r = - KERR_NOENT /\ fst s' = i /\ same_isrs d d'
  else r = KERR_OK /\ released d d' k /\ exists d2, R (fst s', d2).

(** C36. An interrupt of line [k] (vector 32 + k) runs the handler registered
    in the descriptor of the line, once and with its private pointer, and then
    ends the interrupt: exactly line [k], and the cascade for a slave line, is
    released.  A spurious interrupt runs no handler and sends the one EOI the
    master needs for a spurious line 15; a line without a handler stays in
    service.  The handler is arbitrary, as long as it keeps the hardware line
    in its descriptor and sends no EOI itself. *)
Theorem irq_dispatch_correct (call_handler : Z -> Z -> M (irqs * D) unit)
    (R : irqs * D -> Prop) i d f k dd :
  objects_ok -> 0 <= f -> f + 16 <= 256 -> 0 <= k < 16 ->
  irq_maps i !! i8259_map_addr = Some (pic_map f) ->
  irq_descs i !! Z.to_nat (f + k) = Some dd ->
  (spurious d k = false -> serving d k) ->
  (forall d1, same_isrs d d1 -> desc_handler dd <> 0 ->
     wp (call_handler (desc_handler dd) (desc_dev_id dd)) (fun _ s2 =>
       R s2 /\ same_isrs d (snd s2) /\
       exists dd2, irq_descs (fst s2) !! Z.to_nat (f + k) = Some dd2 /\ desc_hwirq dd2 = k) (i, d1)) ->
  wp (irq_dispatch i8259_chips call_handler i8259_get_chip i8259_get_map (32 + k))
     (dispatch_post R i d k dd) (i, d).
Proof.
  intros Hobj Hf Hf' Hk Hmap Hdd Hserv Hh. destruct (Hobj) as (Hc & Hm & _).
  unfold irq_dispatch, i8259_get_chip, i8259_get_map, dispatch_post.
  rewrite (proj2 (Z.eqb_neq _ _) Hc), (proj2 (Z.eqb_neq _ _) Hm). cbn [orb].
  unfold with_chip, i8259_chips. rewrite Z.eqb_refl. cbn [handle_vector chip_eoi i8259_chip].
  wp_step. apply wp_on_dev. apply handle_vector_wp; [done | |].
  2: { intros Hs d' E1 E2. change (- KERR_NOENT <? 0) with true. cbn iota. wp_step. cbn [fst snd].
       rewrite Hs. auto. }
  intros Hs d1 Hd1. change (0 <? 0) with false. cbn iota. wp_step. apply wp_on_irqs.
  eapply pic_map_irq_wp; [done | exact Hmap | done.. |].
  rewrite (proj2 (Z.eqb_neq (f + k) IRQ_INVALID)) by (unfold IRQ_INVALID; lia).
  unfold irq_desc_get. change IRQ_MAX with 256. rewrite (proj2 (Z.leb_gt 256 (f + k))) by lia.
  wp_step. apply wp_on_irqs. eapply read_desc_wp; [exact Hdd|]. rewrite Hs.
  destruct (Z.eqb_spec (desc_handler dd) 0) as [E|Hne]; [by wp_step|].
  wp_step. eapply wp_mono; [by apply Hh|]. intros _ [i2 d2] (HR & [Es1 Es2] & dd2 & Hdd2 & Ehw).
  cbn [fst snd] in *. wp_step. unfold i8259_send_eoi, with_hwirq. wp_step. apply wp_on_irqs.
  eapply read_desc_wp; [exact Hdd2|]. apply wp_on_dev. rewrite Ehw. apply send_eoi_wp.
  rewrite Es1, Es2. intros d' E1 E2. wp_step. split; [done|]. split; [|by exists d2].
  by apply eoi_releases; [| apply Hserv | |].
Qed.
End Properties.

(** ** A machine with two controllers *)

Module PicMachine.
Definition norm (p : pic) : pic := set_pic_imr (u8 (pic_imr p)) (set_pic_isr (u8 (pic_isr p)) p).

Definition command (v : Z) (p : pic) : pic :=
  if Z.testbit v 4 then
    mk_pic PIC_ICW2 (Z.testbit v 0) (Z.testbit v 1) (pic_offset p) (pic_cascade p) (pic_mode p) 0 0 false
  else if Z.testbit v 3 then
    if Z.land v 3 =? 3 then set_reads_isr true p
    else if Z.land v 3 =? 2 then set_reads_isr false p else p
  else if Z.land v 224 =? 32 then set_pic_isr (clear_lowest (pic_isr p)) p else p.

Definition machine : Type := pic * pic.

Definition read (port : Z) (d : machine) : Z :=
  let (p, q) := d in
  if port =? 33 then pic_imr (norm p) else if port =? 161 then pic_imr (norm q)
  else if port =? 32 then (if pic_reads_isr p then pic_isr (norm p) else 0)
  else if port =? 160 then (if pic_reads_isr q then pic_isr (norm q) else 0) else 255.

Definition write (port v : Z) (d : machine) : machine :=
  let (p, q) := d in
  if port =? 33 then (pic_data v (norm p), q) else if port =? 161 then (p, pic_data v (norm q))
  else if port =? 32 then (command v (norm p), q)
  else if port =? 160 then (p, command v (norm q)) else d.

#[export] Instance machine_ports : PortIO machine := {
  port_in := fun _ port => gets (read port);
  port_out := fun _ port v => modify (write port v)
}.

Lemma clear_lowest_u8 v : is_u8 v -> is_u8 (clear_lowest v).
Proof.
  intros Hv. assert (clear_lowest v = u8 (clear_lowest v)) as ->; [|apply u8_range].
  unfold u8, clear_lowest. change 256 with (2 ^ 8). rewrite <- Z.land_ones by lia.
  rewrite <- Z.land_assoc, (Z.land_comm (v - 1)), Z.land_assoc, Z.land_ones by lia.
  change (2 ^ 8) with 256. fold (u8 v). by rewrite u8_id.
Qed.

Lemma norm_data v p : is_u8 v -> norm (pic_data v (norm p)) = pic_data v (norm p).
Proof.
  intros Hv. assert (forall x, u8 (u8 x) = u8 x) as E by (intros; apply u8_id, u8_range).
  unfold norm, pic_data, set_pic_imr, set_pic_isr; destruct p as [[] ? ? ? ? ? ? ? ?]; cbn;
    rewrite ?E, ?(u8_id v) by done; done.
Qed.

Lemma norm_command v p : norm (command v (norm p)) = command v (norm p).
Proof.
  assert (forall x, u8 (u8 x) = u8 x) as E by (intros; apply u8_id, u8_range).
  unfold command. repeat case_match; unfold norm; destruct p; cbn; rewrite ?E; try done.
  rewrite (u8_id (clear_lowest _)) by apply clear_lowest_u8, u8_range. done.
Qed.

Lemma command_law v p : pic_command v p (command v p).
Proof.
  unfold pic_command, command. destruct (Z.testbit v 4); [done|]. destruct (Z.testbit v 3).
  - split; intros ->; done.
  - intros ->. done.
Qed.

#[export] Instance machine_hw : I8259Hw machine.
Proof.
  refine {| pic1 := fun d : machine => norm (fst d); pic2 := fun d : machine => norm (snd d) |}.
  1, 2: intros d; split; apply u8_range.
  all: intros [p q]; intros.
  - apply wp_gets. auto.
  - apply wp_gets. auto.
  - apply wp_gets. cbn. apply H; [|done..]. intros E. unfold norm in E. cbn in E. by rewrite E.
  - apply wp_gets. cbn. apply H; [|done..]. intros E. unfold norm in E. cbn in E. by rewrite E.
  - apply wp_modify. apply H0; [by apply norm_data | done].
  - apply wp_modify. apply H0; [done | by apply norm_data].
  - apply wp_modify. apply H0; [|done]. cbn. rewrite norm_command. apply command_law.
  - apply wp_modify. apply H0; [done|]. cbn. rewrite norm_command. apply command_law.
  - apply wp_modify. by apply H.
Defined.

#[export] Instance machine_objects : I8259Objects := {|
  i8259_chip_addr := 8192; i8259_map_addr := 4096; i8259_map_name := 12288 |}.

Definition reset_pic : pic := mk_pic PIC_ICW3 false true 0 0 0 0 0 true.
Definition ready1 (isr : Z) : pic := programmed 32 4 255 isr.
Definition ready2 (isr : Z) : pic := programmed 40 2 255 isr.

(** The interrupt tables after the initialisation. *)
Definition irqs_ready : irqs :=
  mk_irqs (BITMAP_INIT (65535 :: replicate 7 0) 256)
    (((fun k => mk_irq_desc (Z.of_nat k) 4096 8192 (if decide (k = 9%nat) then 77 else 0) 78) <$> seq 0 16)
     ++ replicate 240 inhabitant)
    {[4096 := pic_map 0]}.
End PicMachine.

Import PicMachine.

Lemma i8259_init_correct_witness :
  wp i8259_init (init_post irqs_boot) (irqs_boot, (reset_pic, reset_pic)).
Proof.
  apply (i8259_init_correct irqs_boot (reset_pic, reset_pic) (mk_irq_map 0 0 0 0)).
  - done.
  - apply irqs_boot_ok.
  - done.
  - intros j Hj. unfold irqs_boot. cbn [irq_descs].
    rewrite lookup_total_replicate_2 by lia. done.
Defined.


(** A handler that does nothing, for line 9. *)
Lemma irq_dispatch_correct_witness :
  let d := (ready1 4, ready2 2) in
  wp (irq_dispatch i8259_chips (fun _ _ => ret tt) i8259_get_chip i8259_get_map 41)
     (dispatch_post (fun s => fst s = irqs_ready) irqs_ready d 9 (mk_irq_desc 9 4096 8192 77 78))
     (irqs_ready, d).
Proof.
  intros d.
  apply (irq_dispatch_correct (fun _ _ => ret tt) (fun s => fst s = irqs_ready) irqs_ready d 0 9); try done.
  - intros _. split; (split; [done|]; split; [done|]); intros j Hj.
    + assert (j = 0 \/ j = 1) as [-> | ->] by lia; done.
    + assert (j = 0) as -> by lia. done.
  - intros d1 Hd1 _. apply wp_ret. split; [done|]. split; [done|].
    exists (mk_irq_desc 9 4096 8192 77 78). done.
Defined.
