(* ===== verification/Console.v ===== *)
(** * Console and VGA text driver

    Models [kernel/console/console.c] and the console operations of
    [kernel/drivers/video/vga/vga_text.c].

    - The state [screens] holds the registered console, the
      [struct vga_text_priv] objects by address and the text buffers by the
      address of their first cell.  [con] is the first member of
      [struct vga_text_priv], so [container_of] is the identity on addresses.
    - An access outside of a buffer is undefined.
    - The function pointers of a console are the value [con_ops]; the driver
      fills them in with its own four operations.
    - [term] is the specification: a screen as a list of cells and a cursor. *)

From S2P Require Import Prelude Base Buffer Hal.

Definition CONSOLE_TAB_SIZE : Z := 4.

Definition VGA_COLOR_BLACK : Z := 0.
Definition VGA_COLOR_LIGHT_GREY : Z := 7.
Definition VGA_BLINK_FALSE : Z := 0.

Definition VGA_CELL (ch fg bg blink : Z) : Z :=
  Z.lor (Z.lor (Z.lor (u16 (u8 ch)) (Z.shiftl (u16 fg) 8)) (Z.shiftl (u16 bg) 12))
    (Z.shiftl (u16 blink) 15).
Definition VGA_CELL_CLEAR : Z := VGA_CELL 32 VGA_COLOR_LIGHT_GREY VGA_COLOR_BLACK VGA_BLINK_FALSE.

Definition VGA_INDEX_PORT_OFFSET : Z := 0.
Definition VGA_DATA_PORT_OFFSET : Z := 1.

(** The data members of [struct console]. *)
Record console := mk_console {
  con_name : Z;
  con_width : Z;
  con_height : Z;
  con_cursor_x : Z;
  con_cursor_y : Z
}.

Record vga_text_priv := mk_vga_text_priv {
  vp_con : console;
  vp_buffer : Z;
  vp_port_base : Z
}.

Record screens (D : Type) := mk_screens {
  active_con : Z;
  privs : gmap Z vga_text_priv;
  text_buffers : gmap Z (list Z);
  cdev : D
}.
Arguments mk_screens {D} _ _ _ _.
Arguments active_con {D} _.
Arguments privs {D} _.
Arguments text_buffers {D} _.
Arguments cdev {D} _.

Definition set_active {D} (p : Z) (s : screens D) : screens D :=
  mk_screens p (privs s) (text_buffers s) (cdev s).
Definition set_privs {D} (m : gmap Z vga_text_priv) (s : screens D) : screens D :=
  mk_screens (active_con s) m (text_buffers s) (cdev s).
Definition set_text_buffers {D} (m : gmap Z (list Z)) (s : screens D) : screens D :=
  mk_screens (active_con s) (privs s) m (cdev s).
Definition set_cdev {D} (d : D) (s : screens D) : screens D :=
  mk_screens (active_con s) (privs s) (text_buffers s) d.

Definition set_cursor (x y : Z) (c : console) : console :=
  mk_console (con_name c) (con_width c) (con_height c) x y.

Section Vga.
Context `{PortIO D}.

Abbreviation K := (M (screens D)).

(** [*dev_priv] and the members the driver changes. *)
Definition get_priv (con : Z) : K vga_text_priv := fun s =>
  match privs s !! con with Some p => Some (p, s) | None => None end.
Definition put_priv (con : Z) (p : vga_text_priv) : K unit := fun s =>
  match privs s !! con with Some _ => Some (tt, set_privs (<[con := p]> (privs s)) s) | None => None end.

Definition get_con (con : Z) : K console := p <-- get_priv con ;; ret (vp_con p).
Definition put_cursor (con x y : Z) : K unit :=
  p <-- get_priv con ;;
  put_priv con (mk_vga_text_priv (set_cursor x y (vp_con p)) (vp_buffer p) (vp_port_base p)).

(** [dev_priv->buffer[i]] *)
Definition get_cell (buffer i : Z) : K Z := fun s =>
  match text_buffers s !! buffer with
  | Some b => match buf_get i b with Some (v, _) => Some (v, s) | None => None end
  | None => None
  end.
Definition put_cell (buffer i v : Z) : K unit := fun s =>
  match text_buffers s !! buffer with
  | Some b =>
      match buf_set i (u16 v) b with
      | Some (_, b') => Some (tt, set_text_buffers (<[buffer := b']> (text_buffers s)) s)
      | None => None
      end
  | None => None
  end.

Definition outb (port v : Z) : K unit := zoom cdev set_cdev (hal_port_write8 port v).
Definition inb (port : Z) : K Z := zoom cdev set_cdev (hal_port_read8 port).

Definition vga_text_update_cursor (con : Z) : K unit :=
  p <-- get_priv con ;;
  let c := vp_con p in
  let position := u16 (u32 (u32 (con_cursor_y c * con_width c) + con_cursor_x c)) in
  outb (u32 (vp_port_base p + VGA_INDEX_PORT_OFFSET)) 15 ;;;
  outb (u32 (vp_port_base p + VGA_DATA_PORT_OFFSET)) (Z.land position 255) ;;;
  outb (u32 (vp_port_base p + VGA_INDEX_PORT_OFFSET)) 14 ;;;
  outb (u32 (vp_port_base p + VGA_DATA_PORT_OFFSET)) (Z.land (Z.shiftr position 8) 255).

(** The [switch] of [vga_text_console_write] on one byte. *)
Definition write_switch (con c : Z) : K unit :=
  p <-- get_priv con ;;
  let k := vp_con p in
  if c =? 10 then put_cursor con 0 (u32 (con_cursor_y k + 1))
  else if c =? 13 then put_cursor con 0 (con_cursor_y k)
  else if c =? 9 then
    let spaces := CONSOLE_TAB_SIZE - con_cursor_x k mod CONSOLE_TAB_SIZE in
    put_cursor con (u32 (con_cursor_x k + spaces)) (con_cursor_y k)
  else if c =? 8 then
    let clear x y :=
      put_cursor con x y ;;;
      put_cell (vp_buffer p) (u32 (u32 (y * con_width k) + x)) VGA_CELL_CLEAR in
    if 0 <? con_cursor_x k then clear (u32 (con_cursor_x k - 1)) (con_cursor_y k)
    else if 0 <? con_cursor_y k then clear (u32 (con_width k - 1)) (u32 (con_cursor_y k - 1))
    else ret tt
  else
    put_cell (vp_buffer p) (u32 (u32 (con_cursor_y k * con_width k) + con_cursor_x k))
      (VGA_CELL c VGA_COLOR_LIGHT_GREY VGA_COLOR_BLACK VGA_BLINK_FALSE) ;;;
    put_cursor con (u32 (con_cursor_x k + 1)) (con_cursor_y k).

(** [if (con->cursor_x >= con->width)]: next line *)
Definition write_wrap (con : Z) : K unit :=
  k <-- get_con con ;;
  if con_width k <=? con_cursor_x k then put_cursor con 0 (u32 (con_cursor_y k + 1)) else ret tt.

(** [if (con->cursor_y >= con->height)]: scroll *)
Definition write_scroll (con : Z) : K unit :=
  p <-- get_priv con ;;
  let k := vp_con p in
  if con_height k <=? con_cursor_y k then
    for_each 1 (con_height k) (fun y =>
      for_each 0 (con_width k) (fun x =>
        v <-- get_cell (vp_buffer p) (u32 (u32 (y * con_width k) + x)) ;;
        put_cell (vp_buffer p) (u32 (u32 (u32 (y - 1) * con_width k) + x)) v)) ;;;
    for_each 0 (con_width k) (fun x =>
      put_cell (vp_buffer p) (u32 (u32 (u32 (con_height k - 1) * con_width k) + x)) VGA_CELL_CLEAR) ;;;
    put_cursor con (con_cursor_x k) (u32 (con_height k - 1))
  else ret tt.

Definition write_char (con c : Z) : K unit :=
  write_switch con c ;;; write_wrap con ;;; write_scroll con.

(** [buf]: the bytes the pointer leads to, [None] for [NULL]. *)
Definition vga_text_console_write (con : Z) (buf : option (list Z)) (len : Z) : K Z :=
  if con =? 0 then ret (- KERR_INVAL)
  else match buf with
  | None => ret (- KERR_INVAL)
  | Some b =>
      for_each 0 len (fun i =>
        match b !! Z.to_nat i with Some c => write_char con c | None => undefined end) ;;;
      vga_text_update_cursor con ;;;
      ret KERR_OK
  end.

Definition vga_text_console_clear (con : Z) : K Z :=
  if con =? 0 then ret (- KERR_INVAL)
  else
    p <-- get_priv con ;;
    for_each 0 (80 * 25) (fun i => put_cell (vp_buffer p) i VGA_CELL_CLEAR) ;;;
    put_cursor con 0 0 ;;;
    vga_text_update_cursor con ;;;
    ret KERR_OK.

Definition vga_text_console_set_cursor_position (con x y : Z) : K Z :=
  if con =? 0 then ret (- KERR_INVAL)
  else
    k <-- get_con con ;;
    if (con_width k <=? x) || (con_height k <=? y) then ret (- KERR_RANGE)
    else
      put_cursor con x y ;;;
      vga_text_update_cursor con ;;;
      ret KERR_OK.

Definition vga_text_console_set_cursor_visible (con : Z) (visible : bool) : K Z :=
  if con =? 0 then ret (- KERR_INVAL)
  else
    p <-- get_priv con ;;
    let index := u32 (vp_port_base p + VGA_INDEX_PORT_OFFSET) in
    let data := u32 (vp_port_base p + VGA_DATA_PORT_OFFSET) in
    if visible then
      outb index 10 ;;;
      value <-- inb data ;;
      let value := u8 (Z.land value (Z.lnot 31)) in
      let value := u8 (Z.lor value 13) in
      let value := u8 (MASK_CLEAR value (BIT 5)) in
      outb data value ;;;
      outb index 11 ;;;
      outb data 15 ;;;
      ret KERR_OK
    else
      outb index 10 ;;;
      value <-- inb data ;;
      let value := u8 (Z.lor value (BIT 5)) in
      outb data value ;;;
      ret KERR_OK.

(** ** The console layer *)

(** The function pointers of a [struct console]. *)
Record con_ops := mk_con_ops {
  con_write : Z -> option (list Z) -> Z -> K Z;
  con_clear : Z -> K Z;
  con_set_cursor_position : Z -> Z -> Z -> K Z;
  con_set_cursor_visible : Z -> bool -> K Z
}.

Definition vga_ops : con_ops := {|
  con_write := vga_text_console_write;
  con_clear := vga_text_console_clear;
  con_set_cursor_position := vga_text_console_set_cursor_position;
  con_set_cursor_visible := vga_text_console_set_cursor_visible
|}.

Context (ops_of : Z -> option con_ops).

(** [active_con->op] for the active console, [-KERR_NODEV] without one. *)
Definition with_active (k : con_ops -> Z -> K Z) : K Z :=
  con <-- gets active_con ;;
  if con =? 0 then ret (- KERR_NODEV)
  else match ops_of con with Some ops => k ops con | None => undefined end.

Definition console_register (con : Z) : K Z :=
  if con =? 0 then ret (- KERR_INVAL)
  else
    a <-- gets active_con ;;
    if negb (a =? 0) then ret (- KERR_BUSY)
    else modify (set_active con) ;;; ret KERR_OK.

Definition console_write (buf : option (list Z)) (len : Z) : K Z :=
  with_active (fun ops con => con_write ops con buf len).
Definition console_clear : K Z := with_active (fun ops con => con_clear ops con).
Definition console_set_cursor_position (x y : Z) : K Z :=
  with_active (fun ops con => con_set_cursor_position ops con x y).
Definition console_set_cursor_visible (visible : bool) : K Z :=
  with_active (fun ops con => con_set_cursor_visible ops con visible).
End Vga.

(** ** Specification: a terminal of 25 rows of 80 cells *)

Record term := mk_term { t_cells : list Z; t_x : Z; t_y : Z }.

Definition blank : Z := 1824. (* 0x0720 *)
Definition glyph (c : Z) : Z := 1792 + u8 c. (* 0x0700 *)

Definition term_ok (t : term) : Prop :=
  length (t_cells t) = 2000%nat /\ Forall is_u16 (t_cells t) /\ 0 <= t_x t < 80 /\ 0 <= t_y t < 25.

Definition term_set (x y v : Z) (t : term) : list Z := <[Z.to_nat (80 * y + x) := v]> (t_cells t).

(** The effect of a byte before the cursor is brought back on the screen. *)
Definition term_move (c : Z) (t : term) : term :=
  let '(mk_term cells x y) := t in
  if c =? 10 then mk_term cells 0 (y + 1)
  else if c =? 13 then mk_term cells 0 y
  else if c =? 9 then mk_term cells (4 * (x / 4 + 1)) y
  else if c =? 8 then
    if 0 <? x then mk_term (term_set (x - 1) y blank t) (x - 1) y
    else if 0 <? y then mk_term (term_set 79 (y - 1) blank t) 79 (y - 1)
    else t
  else mk_term (term_set x y (glyph c) t) (x + 1) y.

Definition term_wrap (t : term) : term :=
  if 80 <=? t_x t then mk_term (t_cells t) 0 (t_y t + 1) else t.

Definition term_scroll (t : term) : term :=
  if 25 <=? t_y t then mk_term (drop 80 (t_cells t) ++ replicate 80 blank) (t_x t) 24 else t.

Definition term_put (t : term) (c : Z) : term := term_scroll (term_wrap (term_move c t)).

Definition term_write (t : term) (text : list Z) : term := fold_left term_put text t.

Lemma VGA_CELL_glyph c :
  u16 (VGA_CELL c VGA_COLOR_LIGHT_GREY VGA_COLOR_BLACK VGA_BLINK_FALSE) = glyph c.
Proof.
  unfold VGA_CELL, glyph, VGA_COLOR_LIGHT_GREY, VGA_COLOR_BLACK, VGA_BLINK_FALSE.
  change (Z.shiftl (u16 0) 12) with 0. change (Z.shiftl (u16 0) 15) with 0. rewrite !Z.lor_0_r.
  pose proof (u8_range c) as Hc. unfold is_u8 in Hc. rewrite (u16_id (u8 c)) by (unfold is_u16; lia).
  change (Z.shiftl (u16 7) 8) with (7 * 2 ^ 8).
  assert (Z.land (u8 c) (7 * 2 ^ 8) = 0) as Hz.
  { apply Z.bits_inj'. intros i Hi. rewrite Z.land_spec, Z.bits_0. destruct (Z.lt_ge_cases i 8).
    - rewrite Z.mul_pow2_bits_low by lia. apply andb_false_r.
    - by rewrite (testbit_high _ 8) by lia. }
  rewrite <- Z.lxor_lor, <- Z.add_nocarry_lxor by done. rewrite u16_id; unfold is_u16; lia.
Qed.

Lemma VGA_CELL_CLEAR_blank : u16 VGA_CELL_CLEAR = blank.
Proof. reflexivity. Qed.

Lemma glyph_u16 c : is_u16 (glyph c).
Proof. pose proof (u8_range c) as H. unfold is_u8, is_u16, glyph in *. lia. Qed.

(** The cursor after a byte may be one row or column off the screen. *)
Definition term_off (t : term) : Prop :=
  length (t_cells t) = 2000%nat /\ Forall is_u16 (t_cells t) /\ 0 <= t_x t <= 80 /\ 0 <= t_y t <= 25 /\
  (t_y t = 25 -> t_x t < 80).

Lemma term_move_off c t : term_ok t -> term_off (term_move c t).
Proof.
  intros (Hl & Hu & Hx & Hy). destruct t as [cells x y]. cbn in *. unfold term_off, term_set; cbn.
  assert (is_u16 blank) by (unfold is_u16, blank; lia). pose proof (glyph_u16 c).
  repeat case_match; cbn; rewrite ?length_insert;
    (split; [done|]; split; [auto using Forall_insert|]; repeat split; dlia).
Qed.

Lemma term_wrap_off t : term_off t -> term_off (term_wrap t) /\ t_x (term_wrap t) < 80.
Proof.
  intros (Hl & Hu & Hx & Hy & Hxy). unfold term_wrap. destruct (Z.leb_spec 80 (t_x t)).
  - split; [|cbn; lia]. split; [done|]. split; [done|]. cbn. lia.
  - by split.
Qed.

Lemma term_scroll_ok t : term_off t -> t_x t < 80 -> term_ok (term_scroll t).
Proof.
  intros (Hl & Hu & Hx & Hy & _) Hx'. unfold term_scroll. destruct (Z.leb_spec 25 (t_y t)).
  - unfold term_ok; cbn [t_cells t_x t_y].
    split; [rewrite length_app, length_drop, length_replicate; lia|]. split; [|lia].
    apply Forall_app. split; [by apply Forall_drop|]. apply Forall_replicate.
    unfold is_u16, blank. lia.
  - split; [done|]. split; [done|]. lia.
Qed.

Lemma term_put_ok t c : term_ok t -> term_ok (term_put t c).
Proof.
  intros Ht. destruct (term_wrap_off _ (term_move_off c t Ht)) as [H1 H2]. by apply term_scroll_ok.
Qed.

Lemma term_write_ok text : forall t, term_ok t -> term_ok (term_write t text).
Proof. induction text as [|c text IH]; intros t Ht; cbn; [done|]. by apply IH, term_put_ok. Qed.

(** ** The driver implements the terminal *)

Section Refinement.
Context `{PortIO D}.
Context (s0 : screens D) (con nm buf base : Z).

(** The state in which the screen of [con] shows [t]. *)
Definition showing (t : term) (d : D) : screens D :=
  mk_screens (active_con s0)
    (<[con := mk_vga_text_priv (mk_console nm 80 25 (t_x t) (t_y t)) buf base]> (privs s0))
    (<[buf := t_cells t]> (text_buffers s0)) d.

Lemma get_priv_wp t d (Q : vga_text_priv -> screens D -> Prop) :
  Q (mk_vga_text_priv (mk_console nm 80 25 (t_x t) (t_y t)) buf base) (showing t d) ->
  wp (get_priv con) Q (showing t d).
Proof. intros HQ. unfold wp, get_priv, showing. cbn [privs]. by rewrite lookup_insert_eq. Qed.

Lemma put_cursor_wp t d x y (Q : unit -> screens D -> Prop) :
  Q tt (showing (mk_term (t_cells t) x y) d) -> wp (put_cursor con x y) Q (showing t d).
Proof.
  intros HQ. unfold put_cursor. wp_step. apply get_priv_wp.
  unfold wp, put_priv, showing. cbn [privs]. rewrite lookup_insert_eq. unfold set_privs. cbn.
  by rewrite insert_insert_eq.
Qed.

Lemma get_cell_wp t d i (Q : Z -> screens D -> Prop) :
  0 <= i < Z.of_nat (length (t_cells t)) -> Q (t_cells t !!! Z.to_nat i) (showing t d) ->
  wp (get_cell buf i) Q (showing t d).
Proof.
  intros Hi HQ. unfold wp, get_cell. unfold showing at 1. cbn [text_buffers].
  rewrite lookup_insert_eq. unfold buf_get. by rewrite in_range_bool.
Qed.

Lemma put_cell_wp t d i v (Q : unit -> screens D -> Prop) :
  0 <= i < Z.of_nat (length (t_cells t)) ->
  Q tt (showing (mk_term (<[Z.to_nat i := u16 v]> (t_cells t)) (t_x t) (t_y t)) d) ->
  wp (put_cell buf i v) Q (showing t d).
Proof.
  intros Hi HQ. unfold wp, put_cell. unfold showing at 1. cbn [text_buffers].
  rewrite lookup_insert_eq. unfold buf_set. rewrite in_range_bool by done.
  unfold set_text_buffers, showing. cbn. by rewrite insert_insert_eq.
Qed.

(** An index computed in 32 bits for a cell on the screen. *)
Lemma cell_index y x : 0 <= y < 25 -> 0 <= x < 80 -> u32 (u32 (y * 80) + x) = 80 * y + x.
Proof. intros Hy Hx. rewrite !u32_id by (unfold is_u32; rewrite ?u32_id; unfold is_u32; lia). lia. Qed.

Lemma write_switch_wp t d c (Q : unit -> screens D -> Prop) :
  term_ok t -> Q tt (showing (term_move c t) d) -> wp (write_switch con c) Q (showing t d).
Proof.
  intros (Hl & _ & Hx & Hy) HQ. destruct t as [cells x y]. cbn in Hl, Hx, Hy.
  unfold write_switch. wp_step. apply get_priv_wp. cbn [vp_con con_cursor_x con_cursor_y con_width t_x t_y vp_buffer].
  unfold term_move, term_set in HQ; cbn [t_cells] in HQ.
  destruct (c =? 10); [apply put_cursor_wp; by rewrite u32_id by (unfold is_u32; lia)|].
  destruct (c =? 13); [by apply put_cursor_wp|].
  destruct (c =? 9).
  { cbn zeta. unfold CONSOLE_TAB_SIZE. apply put_cursor_wp.
    replace (x + (4 - x mod 4)) with (4 * (x / 4 + 1)) by dlia.
    by rewrite u32_id by (unfold is_u32; dlia). }
  destruct (c =? 8).
  - cbn zeta. destruct (Z.ltb_spec 0 x).
    { rewrite (u32_id (x - 1)) by (unfold is_u32; lia). wp_step. apply put_cursor_wp.
      rewrite cell_index by lia. apply put_cell_wp; [cbn [t_cells]; lia|].
      by rewrite VGA_CELL_CLEAR_blank. }
    destruct (Z.ltb_spec 0 y); [|by apply wp_ret].
    change (u32 (80 - 1)) with 79. rewrite (u32_id (y - 1)) by (unfold is_u32; lia).
    wp_step. apply put_cursor_wp. rewrite cell_index by lia.
    apply put_cell_wp; [cbn [t_cells]; lia|]. by rewrite VGA_CELL_CLEAR_blank.
  - wp_step. rewrite cell_index by lia. apply put_cell_wp; [cbn [t_cells]; lia|].
    rewrite VGA_CELL_glyph. cbn [t_cells t_x t_y]. apply put_cursor_wp.
    by rewrite u32_id by (unfold is_u32; lia).
Qed.

Lemma write_wrap_wp t d (Q : unit -> screens D -> Prop) :
  term_off t -> Q tt (showing (term_wrap t) d) -> wp (write_wrap con) Q (showing t d).
Proof.
  intros (_ & _ & Hx & Hy & _) HQ. unfold write_wrap, get_con. wp_step. wp_step. apply get_priv_wp. wp_step.
  cbn [vp_con con_cursor_x con_cursor_y con_width]. unfold term_wrap in HQ. destruct (80 <=? t_x t).
  - apply put_cursor_wp. by rewrite u32_id by (unfold is_u32; lia).
  - by apply wp_ret.
Qed.

(** The copy loop has moved the first [k] cells up by a row. *)
Definition moved (c0 c : list Z) (k : Z) : Prop :=
  length c = 2000%nat /\ Forall is_u16 c /\ forall j, 0 <= j < 2000 ->
    c !!! Z.to_nat j = (if j <? k then c0 !!! Z.to_nat (j + 80) else c0 !!! Z.to_nat j).

Lemma cell_u16 c k : Forall is_u16 c -> 0 <= k < Z.of_nat (length c) -> is_u16 (c !!! Z.to_nat k).
Proof.
  intros Hu Hk. destruct (lookup_lt_is_Some_2 c (Z.to_nat k)) as [v Hv]; [lia|].
  rewrite (list_lookup_total_correct _ _ _ Hv). by eapply Forall_lookup_1.
Qed.

Lemma moved_step c0 c k : moved c0 c k -> 0 <= k < 1920 ->
  moved c0 (<[Z.to_nat k := u16 (c !!! Z.to_nat (80 + k))]> c) (k + 1).
Proof.
  intros (Hl & Hu & Hc) Hk. pose proof (cell_u16 c (80 + k) Hu ltac:(lia)) as Hv.
  rewrite u16_id by done. split; [by rewrite length_insert|]. split; [by apply Forall_insert|].
  intros j Hj. rewrite lookup_total_set by lia. rewrite !Hc by lia.
  rewrite (proj2 (Z.ltb_ge (80 + k) k)) by lia.
  destruct (Z.eqb_spec j k) as [E|E]; destruct (Z.ltb_spec j (k + 1)), (Z.ltb_spec j k); try lia; try done.
  subst j. f_equal. lia.
Qed.

Lemma copy_rows_wp t d (Q : unit -> screens D -> Prop) :
  length (t_cells t) = 2000%nat -> Forall is_u16 (t_cells t) ->
  (forall c, moved (t_cells t) c 1920 -> Q tt (showing (mk_term c (t_x t) (t_y t)) d)) ->
  wp (for_each 1 25 (fun y =>
        for_each 0 80 (fun x =>
          v <-- get_cell buf (u32 (u32 (y * 80) + x)) ;;
          put_cell buf (u32 (u32 (u32 (y - 1) * 80) + x)) v))) Q (showing t d).
Proof.
  intros Hl Hu HQ.
  apply (wp_for_each (fun y s => exists c, moved (t_cells t) c (80 * (y - 1)) /\
           s = showing (mk_term c (t_x t) (t_y t)) d)).
  - exists (t_cells t). split; [|by destruct t]. split; [done|]. split; [done|]. intros j Hj.
    by rewrite (proj2 (Z.ltb_ge j _)) by lia.
  - intros y s Hy (c & Hc & ->).
    apply (wp_for_each (fun x s => exists c, moved (t_cells t) c (80 * (y - 1) + x) /\
             s = showing (mk_term c (t_x t) (t_y t)) d)).
    + exists c. by rewrite Z.add_0_r.
    + intros x s Hx (c' & Hc' & ->). wp_step. rewrite (u32_id (y - 1)) by (unfold is_u32; lia).
      rewrite !cell_index by lia. pose proof (proj1 Hc') as Hlc.
      apply get_cell_wp; [cbn; lia|]. apply put_cell_wp; [cbn; lia|]. cbn [t_cells t_x t_y].
      eexists. split; [|reflexivity]. replace (80 * (y - 1) + (x + 1)) with (80 * (y - 1) + x + 1) by lia.
      replace (80 * y + x) with (80 + (80 * (y - 1) + x)) by lia. apply moved_step; [done | lia].
    + intros s (c' & Hc' & ->). exists c'. split; [|done].
      by replace (80 * (y + 1 - 1)) with (80 * (y - 1) + Z.max 0 80) by lia.
  - intros s (c & Hc & ->). by apply HQ.
Qed.

Lemma clear_row_wp t d c0 (Q : unit -> screens D -> Prop) :
  length c0 = 2000%nat -> moved c0 (t_cells t) 1920 ->
  Q tt (showing (mk_term (drop 80 c0 ++ replicate 80 blank) (t_x t) (t_y t)) d) ->
  wp (for_each 0 80 (fun x =>
        put_cell buf (u32 (u32 (u32 (25 - 1) * 80) + x)) VGA_CELL_CLEAR)) Q (showing t d).
Proof.
  intros Hl0 (Hl & Hu & Hc) HQ.
  apply (wp_for_each (fun x s => exists c, length c = 2000%nat /\
           (forall j, 0 <= j < 2000 -> c !!! Z.to_nat j =
              if (1920 <=? j) && (j <? 1920 + x) then blank else t_cells t !!! Z.to_nat j) /\
           s = showing (mk_term c (t_x t) (t_y t)) d)).
  - exists (t_cells t). split; [done|]. split; [|by destruct t]. intros j Hj.
    destruct (Z.leb_spec 1920 j), (Z.ltb_spec j (1920 + 0)); lia || done.
  - intros x s Hx (c & Hlc & Hcj & ->). change (u32 (25 - 1)) with 24. rewrite cell_index by lia.
    apply put_cell_wp; [cbn; lia|]. cbn [t_cells t_x t_y]. rewrite VGA_CELL_CLEAR_blank.
    eexists. split; [|split; [|reflexivity]]; [by rewrite length_insert|].
    intros j Hj. rewrite lookup_total_set by lia. rewrite Hcj by lia.
    destruct (Z.eqb_spec j (80 * 24 + x)), (Z.leb_spec 1920 j), (Z.ltb_spec j (1920 + x)),
      (Z.ltb_spec j (1920 + (x + 1))); lia || done.
  - intros s (c & Hlc & Hcj & ->).
    assert (c = drop 80 c0 ++ replicate 80 blank) as ->; [|exact HQ].
    apply (list_eq_same_length _ _ 2000);
      [rewrite length_app, length_drop, length_replicate; lia | done |].
    intros i x y Hi Hx Hy. apply list_lookup_total_correct in Hx, Hy. subst x y.
    specialize (Hcj (Z.of_nat i) ltac:(lia)). rewrite Nat2Z.id in Hcj. rewrite Hcj.
    specialize (Hc (Z.of_nat i) ltac:(lia)). rewrite Nat2Z.id in Hc.
    destruct (Z.leb_spec 1920 (Z.of_nat i)) as [Hge|Hlt].
    + rewrite (proj2 (Z.ltb_lt (Z.of_nat i) _)) by lia. cbn [andb].
      rewrite lookup_total_app_r by (rewrite length_drop; lia).
      by rewrite lookup_total_replicate_2 by (rewrite length_drop; lia).
    + cbn [andb]. rewrite Hc, (proj2 (Z.ltb_lt (Z.of_nat i) 1920)) by lia.
      rewrite lookup_total_app_l by (rewrite length_drop; lia).
      rewrite lookup_total_drop. f_equal. lia.
Qed.

Lemma write_scroll_wp t d (Q : unit -> screens D -> Prop) :
  term_off t -> Q tt (showing (term_scroll t) d) -> wp (write_scroll con) Q (showing t d).
Proof.
  intros (Hl & Hu & _) HQ. unfold write_scroll. wp_step. apply get_priv_wp.
  cbn [vp_con con_cursor_x con_cursor_y con_width con_height vp_buffer].
  unfold term_scroll in HQ. destruct (25 <=? t_y t); [|by apply wp_ret].
  wp_step. apply copy_rows_wp; [done | done |]. intros c Hc. wp_step.
  eapply (clear_row_wp _ _ (t_cells t)); [done | exact Hc |]. by apply put_cursor_wp.
Qed.

Lemma write_char_wp t d c (Q : unit -> screens D -> Prop) :
  term_ok t -> Q tt (showing (term_put t c) d) -> wp (write_char con c) Q (showing t d).
Proof.
  intros Ht HQ. unfold write_char. wp_step. apply write_switch_wp; [done|].
  pose proof (term_move_off c t Ht) as Hm. wp_step. apply write_wrap_wp; [done|].
  apply write_scroll_wp; [by apply term_wrap_off | done].
Qed.

Lemma write_chars_wp t d b len (Q : unit -> screens D -> Prop) :
  term_ok t -> 0 <= len <= Z.of_nat (length b) ->
  Q tt (showing (term_write t (take (Z.to_nat len) b)) d) ->
  wp (for_each 0 len (fun i =>
        match b !! Z.to_nat i with Some c => write_char con c | None => undefined end)) Q (showing t d).
Proof.
  intros Ht Hlen HQ.
  apply (wp_for_each (fun i s => s = showing (term_write t (take (Z.to_nat i) b)) d)).
  - done.
  - intros i s Hi ->. destruct (lookup_lt_is_Some_2 b (Z.to_nat i)) as [c Hc]; [lia|]. rewrite Hc.
    apply write_char_wp; [by apply term_write_ok|].
    replace (Z.to_nat (i + 1)) with (S (Z.to_nat i)) by lia.
    rewrite (take_S_r _ _ _ Hc). unfold term_write. by rewrite fold_left_app.
  - intros s ->. by rewrite Z.max_r by lia.
Qed.
End Refinement.

(** ** The cursor of the display controller

    A CRT controller answers at [base]: the byte written there selects the
    register that [base + 1] reads and writes. *)

Class CrtcHw (D : Type) `{PortIO D} (base : Z) := {
  crtc_index : D -> Z;
  crtc_reg : D -> Z -> Z;
  crtc_select : forall d v Q, is_u8 v ->
    (forall d', crtc_index d' = v -> (forall r, crtc_reg d' r = crtc_reg d r) -> Q tt d') ->
    wp (port_out 8 base v) Q d;
  crtc_store : forall d v Q, is_u8 v ->
    (forall d', crtc_index d' = crtc_index d ->
       (forall r, crtc_reg d' r = if r =? crtc_index d then v else crtc_reg d r) -> Q tt d') ->
    wp (port_out 8 (base + 1) v) Q d
}.

Section Cursor.
Context `{CrtcHw D base}.
Context (s0 : screens D) (con nm buf : Z).
Hypothesis base_range : 0 <= base < 65535.

(** Registers 14 and 15 hold the position of the cursor, the others are kept. *)
Definition cursor_at (d d' : D) (t : term) : Prop :=
  crtc_reg d' 14 * 256 + crtc_reg d' 15 = 80 * t_y t + t_x t /\
  forall r, r <> 14 -> r <> 15 -> crtc_reg d' r = crtc_reg d r.

Lemma outb_index_wp t d v (Q : unit -> screens D -> Prop) :
  is_u8 v ->
  (forall d', crtc_index d' = v -> (forall r, crtc_reg d' r = crtc_reg d r) ->
     Q tt (showing s0 con nm buf base t d')) ->
  wp (outb (u32 (base + VGA_INDEX_PORT_OFFSET)) v) Q (showing s0 con nm buf base t d).
Proof.
  intros Hv HQ. unfold outb. apply wp_zoom. unfold hal_port_write8, x86_outb, VGA_INDEX_PORT_OFFSET.
  rewrite Z.add_0_r, (u8_id v), u32_id, u16_id by (done || unfold is_u16, is_u32; lia).
  apply crtc_select; [done|]. intros d' H1 H2. by apply HQ.
Qed.

Lemma outb_data_wp t d v (Q : unit -> screens D -> Prop) :
  is_u8 v ->
  (forall d', crtc_index d' = crtc_index d ->
     (forall r, crtc_reg d' r = if r =? crtc_index d then v else crtc_reg d r) ->
     Q tt (showing s0 con nm buf base t d')) ->
  wp (outb (u32 (base + VGA_DATA_PORT_OFFSET)) v) Q (showing s0 con nm buf base t d).
Proof.
  intros Hv HQ. unfold outb. apply wp_zoom. unfold hal_port_write8, x86_outb, VGA_DATA_PORT_OFFSET.
  rewrite (u8_id v), u32_id, u16_id by (done || unfold is_u16, is_u32; lia).
  apply crtc_store; [done|]. intros d' H1 H2. by apply HQ.
Qed.

Lemma update_cursor_wp t d (Q : unit -> screens D -> Prop) :
  term_ok t -> (forall d', cursor_at d d' t -> Q tt (showing s0 con nm buf base t d')) ->
  wp (vga_text_update_cursor con) Q (showing s0 con nm buf base t d).
Proof.
  intros (_ & _ & Hx & Hy) HQ. unfold vga_text_update_cursor. wp_step. apply get_priv_wp.
  cbn [vp_con con_cursor_x con_cursor_y con_width vp_port_base]. rewrite cell_index by lia.
  rewrite (u16_id (80 * t_y t + t_x t)) by (unfold is_u16; lia).
  set (pos := 80 * t_y t + t_x t). assert (0 <= pos < 2000) as Hpos by lia.
  assert (Z.land pos 255 = pos mod 256) as -> by (apply (Z.land_ones pos 8); lia).
  assert (Z.land (Z.shiftr pos 8) 255 = pos / 256) as ->.
  { change 255 with (Z.ones 8). rewrite Z.land_ones, Z.shiftr_div_pow2 by lia.
    change (2 ^ 8) with 256. dlia. }
  wp_step. apply outb_index_wp; [done|]. intros d1 I1 R1.
  wp_step. apply outb_data_wp; [unfold is_u8; dlia|]. intros d2 I2 R2.
  wp_step. apply outb_index_wp; [done|]. intros d3 I3 R3.
  apply outb_data_wp; [unfold is_u8; dlia|]. intros d4 I4 R4.
  apply HQ. unfold cursor_at. fold pos. rewrite I1 in R2. rewrite I3 in R4. split.
  - rewrite (R4 14), (R4 15), (R3 15), (R2 15). cbn. dlia.
  - intros r H14 H15.
    rewrite R4, (proj2 (Z.eqb_neq r 14)), R3, R2, (proj2 (Z.eqb_neq r 15)), R1 by done. done.
Qed.

Lemma clear_cells_wp t d (Q : unit -> screens D -> Prop) :
  length (t_cells t) = 2000%nat ->
  Q tt (showing s0 con nm buf base (mk_term (replicate 2000 blank) (t_x t) (t_y t)) d) ->
  wp (for_each 0 (80 * 25) (fun i => put_cell buf i VGA_CELL_CLEAR)) Q (showing s0 con nm buf base t d).
Proof.
  intros Hl HQ.
  apply (wp_for_each (fun i s => s = showing s0 con nm buf base
           (mk_term (replicate (Z.to_nat i) blank ++ drop (Z.to_nat i) (t_cells t)) (t_x t) (t_y t)) d)).
  - cbn. by destruct t.
  - intros i s Hi ->.
    apply put_cell_wp; [cbn [t_cells]; rewrite length_app, length_replicate, length_drop; lia|].
    cbn [t_cells t_x t_y]. rewrite VGA_CELL_CLEAR_blank.
    rewrite set_snoc by (rewrite ?length_replicate; lia).
    replace (Z.to_nat (i + 1)) with (S (Z.to_nat i)) by lia. by rewrite replicate_S_end.
  - intros s ->. replace (Z.to_nat (Z.max 0 (80 * 25))) with 2000%nat by lia.
    rewrite drop_ge by lia. by rewrite app_nil_r.
Qed.
End Cursor.

(** A [port_out] of the machine. *)
Definition port_step `{PortIO D} (d d' : D) : Prop := exists w port v, port_out w port v d = Some (tt, d').

Lemma outb_step `{PortIO D} port v (s s' : screens D) r :
  outb port v s = Some (r, s') -> port_step (cdev s) (cdev s').
Proof.
  unfold outb, zoom, hal_port_write8, x86_outb. destruct (port_out _ _ _ _) as [[[] d']|] eqn:E; [|done].
  intros [= _ <-]. cbn. by eexists _, _, _.
Qed.

(** The cursor is moved by port instructions only. *)
Lemma update_cursor_ports `{PortIO D} con (s s' : screens D) r :
  vga_text_update_cursor con s = Some (r, s') -> rtc port_step (cdev s) (cdev s').
Proof.
  unfold vga_text_update_cursor, bind, get_priv. destruct (privs s !! con) as [p|]; [|done].
  destruct (outb _ _ s) as [[[] s1]|] eqn:E1; [|done]. destruct (outb _ _ s1) as [[[] s2]|] eqn:E2; [|done].
  destruct (outb _ _ s2) as [[[] s3]|] eqn:E3; [|done]. intros E4.
  apply outb_step in E1, E2, E3, E4.
  eapply rtc_l; [exact E1|]. eapply rtc_l; [exact E2|]. eapply rtc_l; [exact E3|]. by apply rtc_once.
Qed.

Lemma update_cursor_steps_wp `{CrtcHw D base} s0 con nm buf t d (Q : unit -> screens D -> Prop) :
  0 <= base < 65535 -> term_ok t ->
  (forall d', cursor_at d d' t -> rtc port_step d d' -> Q tt (showing s0 con nm buf base t d')) ->
  wp (vga_text_update_cursor con) Q (showing s0 con nm buf base t d).
Proof.
  intros Hb Ht HQ.
  destruct (proj1 (wp_run _ _ _) (update_cursor_wp s0 con nm buf Hb t d
    (fun _ s => exists d', cursor_at d d' t /\ s = showing s0 con nm buf base t d') Ht
    (fun d' Hd' => ex_intro _ d' (conj Hd' eq_refl)))) as ([] & s' & Hrun & d' & Hd' & ->).
  unfold wp. rewrite Hrun. apply HQ; [done|]. by apply update_cursor_ports in Hrun.
Qed.

(** Writing to the active console, when it is a VGA console. *)
Lemma console_write_wp `{CrtcHw D base} ops s0 con nm buf t d text len (Q : Z -> screens D -> Prop) :
  0 <= base < 65535 -> con <> 0 -> active_con s0 = con -> ops con = Some vga_ops ->
  term_ok t -> 0 <= len <= Z.of_nat (length text) ->
  (forall d', let t' := term_write t (take (Z.to_nat len) text) in
     term_ok t' -> cursor_at d d' t' -> rtc port_step d d' -> Q KERR_OK (showing s0 con nm buf base t' d')) ->
  wp (console_write ops (Some text) len) Q (showing s0 con nm buf base t d).
Proof.
  intros Hb Hc Ha Hops Ht Hlen HQ. unfold console_write, with_active. do 2 wp_step.
  replace (active_con (showing s0 con nm buf base t d)) with con by (cbn; done).
  rewrite (proj2 (Z.eqb_neq _ _) Hc), Hops. cbn [con_write vga_ops].
  unfold vga_text_console_write. rewrite (proj2 (Z.eqb_neq _ _) Hc). wp_step.
  apply write_chars_wp; [done | done |]. pose proof (term_write_ok (take (Z.to_nat len) text) t Ht) as Ht'.
  set (t' := term_write t (take (Z.to_nat len) text)) in *. wp_step.
  apply update_cursor_steps_wp; [done | done |]. intros d' Hd' Hsteps. wp_step. by apply HQ.
Qed.

Lemma blank_ok : term_ok (mk_term (replicate 2000 blank) 0 0).
Proof.
  split; [by apply length_replicate|]. split; [|cbn [t_x t_y]; lia]. apply Forall_replicate. unfold is_u16, blank. lia.
Qed.

(** Clearing it. *)
Lemma console_clear_wp `{CrtcHw D base} ops s0 con nm buf t d (Q : Z -> screens D -> Prop) :
  0 <= base < 65535 -> con <> 0 -> active_con s0 = con -> ops con = Some vga_ops ->
  length (t_cells t) = 2000%nat ->
  (forall d', let t' := mk_term (replicate 2000 blank) 0 0 in
     cursor_at d d' t' -> rtc port_step d d' -> Q KERR_OK (showing s0 con nm buf base t' d')) ->
  wp (console_clear ops) Q (showing s0 con nm buf base t d).
Proof.
  intros Hb Hc Ha Hops Ht HQ. unfold console_clear, with_active. do 2 wp_step.
  replace (active_con (showing s0 con nm buf base t d)) with con by (cbn; done).
  rewrite (proj2 (Z.eqb_neq _ _) Hc), Hops. cbn [con_clear vga_ops].
  unfold vga_text_console_clear. rewrite (proj2 (Z.eqb_neq _ _) Hc). wp_step. apply get_priv_wp.
  wp_step. cbn [vp_buffer]. apply clear_cells_wp; [done|]. wp_step. apply put_cursor_wp.
  wp_step. apply update_cursor_steps_wp; [done | apply blank_ok |]. intros d' Hd' Hsteps. wp_step. by apply HQ.
Qed.

(** ** Properties *)

Section Properties.
Context `{CrtcHw D base}.

(** C37. The console implements a terminal of 25 rows of 80 cells: writing
    bytes moves its screen and cursor as the terminal does, with line breaks,
    tabs, backspace, wrapping and scrolling; clearing blanks it; setting the
    cursor moves it or, outside of the screen, fails without an effect.  No
    access leaves the text buffer, and the position registers of the display
    controller follow the cursor. *)
Theorem console_is_terminal ops s0 con nm buf t d text len x y :
  0 <= base < 65535 -> con <> 0 -> active_con s0 = con -> ops con = Some vga_ops ->
  term_ok t -> 0 <= len <= Z.of_nat (length text) -> is_u32 x -> is_u32 y ->
  let at_ t' r s' := exists d', r = KERR_OK /\ s' = showing s0 con nm buf base t' d' /\
                                term_ok t' /\ cursor_at d d' t' in
  wp (console_write ops (Some text) len) (at_ (term_write t (take (Z.to_nat len) text)))
     (showing s0 con nm buf base t d) /\
  wp (console_clear ops) (at_ (mk_term (replicate 2000 blank) 0 0)) (showing s0 con nm buf base t d) /\
  wp (console_set_cursor_position ops x y) (fun r s' =>
        if (x <? 80) && (y <? 25) then at_ (mk_term (t_cells t) x y) r s'
        else r = - KERR_RANGE /\ s' = showing s0 con nm buf base t d)
     (showing s0 con nm buf base t d).
Proof.
  intros Hb Hc Ha Hops Ht Hlen Hx Hy at_. unfold is_u32 in *. split.
  { apply console_write_wp; [done..|]. intros d' t' Ht' Hd' _. exists d'. auto. }
  split.
  { apply console_clear_wp; [done..| apply Ht |]. intros d' t' Hd' _. exists d'. auto using blank_ok. }
  unfold console_set_cursor_position, with_active. do 2 wp_step.
  replace (active_con (showing s0 con nm buf base t d)) with con by (cbn; done).
  rewrite (proj2 (Z.eqb_neq _ _) Hc), Hops. cbn [con_set_cursor_position vga_ops].
  unfold vga_text_console_set_cursor_position. rewrite (proj2 (Z.eqb_neq _ _) Hc).
  unfold get_con. wp_step. wp_step. apply get_priv_wp. wp_step. cbn [vp_con con_width con_height].
  destruct (Z.leb_spec 80 x), (Z.ltb_spec x 80); try lia; [cbn [orb andb]; by apply wp_ret|].
  destruct (Z.leb_spec 25 y), (Z.ltb_spec y 25); try lia; [cbn [orb andb]; by apply wp_ret|]. cbn [orb andb].
  wp_step. apply put_cursor_wp. destruct Ht as (Hl & Hu & _).
  assert (term_ok (mk_term (t_cells t) x y)) by (split; [done|]; split; [done|]; cbn; lia).
  wp_step. apply update_cursor_wp; [done | done |]. intros d' Hd'. wp_step. exists d'. auto.
Qed.
End Properties.

(** A display controller at port 0x3D4: index and registers. *)
Module CrtcMachine.
Definition machine : Type := Z * (Z -> Z).

#[export] Instance crtc_ports : PortIO machine := {
  port_in := fun _ port => gets (fun d => snd d (fst d));
  port_out := fun _ port v => modify (fun d =>
    if port =? 980 then (v, snd d)
    else if port =? 981 then (fst d, fun r => if r =? fst d then v else snd d r) else d)
}.

#[export] Instance crtc_hw : CrtcHw machine 980.
Proof.
  refine {| crtc_index := fst : machine -> Z; crtc_reg := snd : machine -> Z -> Z |}.
  - intros d v Q _ HQ. apply wp_modify. by apply HQ.
  - intros d v Q _ HQ. apply wp_modify. by apply HQ.
Defined.

Definition screen0 : term := mk_term (replicate 2000 blank) 78 24.
Definition s0 : screens machine := mk_screens 4096 ∅ ∅ (0, fun _ => 0).
End CrtcMachine.

Import CrtcMachine.

(** "ab" and a newline at the end of the last row. *)
Lemma console_is_terminal_witness :
  let d : machine := (0, fun _ => 0) in
  let st t d := showing s0 4096 0 753664 980 t d in
  let at_ t' r s' := exists d', r = KERR_OK /\ s' = st t' d' /\ term_ok t' /\ cursor_at d d' t' in
  wp (console_write (fun _ => Some vga_ops) (Some [97; 98; 10]) 3)
     (at_ (term_write screen0 [97; 98; 10])) (st screen0 d) /\
  wp (console_clear (fun _ => Some vga_ops)) (at_ (mk_term (replicate 2000 blank) 0 0)) (st screen0 d) /\
  wp (console_set_cursor_position (fun _ => Some vga_ops) 80 3) (fun r s' =>
        if (80 <? 80) && (3 <? 25) then at_ (mk_term (t_cells screen0) 80 3) r s'
        else r = - KERR_RANGE /\ s' = st screen0 d) (st screen0 d).
Proof.
  intros d st at_.
  apply (console_is_terminal (fun _ => Some vga_ops) s0 4096 0 753664 screen0 d [97; 98; 10] 3 80 3); try done.
  split; [by apply length_replicate|]. split; [apply Forall_replicate; done | done].
Defined.
