(* ===== verification/I8254.v ===== *)
(** * Timer devices and the Intel 8254 driver

    Models [kernel/time/timer_device.c] and the timer operations of
    [kernel/drivers/timer/i8254.c], over the ports and processor flags of
    [Hal] and the interrupt subsystem [Irq].

    The driver's objects live in a part [timers] of the device state, reached
    through the class [HasTimers]: the [struct i8254_priv] objects by address
    ([timer] is their first member, so [container_of] is the identity on
    addresses), the list of registered timers as the sequence of its elements
    and the selected timer.  [struct timer_device]'s function pointers are the
    three operations below; [event] is a pointer whose code is a parameter. *)

From S2P Require Import Prelude Base Bitmap Irq Hal.

Inductive timer_device_mode :=
  | TIMER_DEVICE_MODE_DISABLED
  | TIMER_DEVICE_MODE_PERIODIC
  | TIMER_DEVICE_MODE_ONESHOT.

#[export] Instance timer_device_mode_eq_dec : EqDecision timer_device_mode.
Proof. solve_decision. Defined.

Record timer_device := mk_timer_device {
  tm_name : Z;
  tm_mode : timer_device_mode;
  tm_min_delta_ns : Z;
  tm_max_delta_ns : Z;
  tm_event : Z
}.

Record i8254_priv := mk_i8254_priv {
  ip_timer : timer_device;
  ip_port_base : Z;
  ip_irq : Z
}.

Record timers := mk_timers {
  i8254_privs : gmap Z i8254_priv;
  timer_devices : list Z;
  selected : Z
}.

Definition set_mode (m : timer_device_mode) (p : i8254_priv) : i8254_priv :=
  mk_i8254_priv (mk_timer_device (tm_name (ip_timer p)) m (tm_min_delta_ns (ip_timer p))
    (tm_max_delta_ns (ip_timer p)) (tm_event (ip_timer p))) (ip_port_base p) (ip_irq p).

Definition I8254_CH0_OFFSET : Z := 0.
Definition I8254_CMD_OFFSET : Z := 3.
Definition I8254_BASE_FREQ : Z := 1193182.
Definition NS_PER_SEC : Z := 1000000000.
Definition I8254_MIN_DELTA_NS : Z := u64 (NS_PER_SEC * 20) / I8254_BASE_FREQ.
Definition I8254_MAX_DELTA_NS : Z := u64 (NS_PER_SEC * UINT16_MAX) / I8254_BASE_FREQ.

(** The part of the device state that holds the timers. *)
Class HasTimers (D : Type) := {
  get_timers : D -> timers;
  set_timers : timers -> D -> D
}.

Section Timers.
Context `{PortIO D} `{Cpu D} `{HasTimers D}.
Context (chip_ops : Z -> option (irq_chip D)).
Context (call_event : Z -> Z -> M (irqs * D) unit).

Abbreviation K := (M (irqs * D)).

Definition read_timer (timer : Z) : K i8254_priv := fun s =>
  match i8254_privs (get_timers (snd s)) !! timer with Some p => Some (p, s) | None => None end.
Definition write_mode (timer : Z) (m : timer_device_mode) : K unit := fun s =>
  let t := get_timers (snd s) in
  match i8254_privs t !! timer with
  | Some p => Some (tt, (fst s, set_timers
      (mk_timers (<[timer := set_mode m p]> (i8254_privs t)) (timer_devices t) (selected t)) (snd s)))
  | None => None
  end.

(** ** [timer_device.c] *)

Definition timer_device_register (timer : Z) : K Z :=
  if timer =? 0 then ret (- KERR_INVAL)
  else
    on_dev (modify (fun d =>
      let t := get_timers d in
      set_timers (mk_timers (i8254_privs t) (timer_devices t ++ [timer]) timer) d)) ;;;
    ret KERR_OK.

Definition timer_device_get_selected : K Z := on_dev (gets (fun d => selected (get_timers d))).

(** ** [i8254.c] *)

Definition i8254_timer_start_periodic (timer period_ns : Z) : K Z :=
  if timer =? 0 then ret (- KERR_INVAL)
  else
    priv <-- read_timer timer ;;
    if (period_ns <? tm_min_delta_ns (ip_timer priv)) || (tm_max_delta_ns (ip_timer priv) <? period_ns)
    then ret (- KERR_RANGE)
    else
      let pit_counter := u64 (period_ns * I8254_BASE_FREQ) / NS_PER_SEC in
      interrupt_state <-- on_dev hal_interrupt_save_disable ;;
      on_dev (hal_port_write8 (u32 (ip_port_base priv + I8254_CMD_OFFSET)) 54) ;;;
      on_dev (hal_port_write8 (u32 (ip_port_base priv + I8254_CH0_OFFSET)) (Z.land pit_counter 255)) ;;;
      on_dev (hal_port_write8 (u32 (ip_port_base priv + I8254_CH0_OFFSET))
                (Z.land (Z.shiftr pit_counter 8) 255)) ;;;
      TRY irq_enable chip_ops (ip_irq priv) ;;;
      write_mode timer TIMER_DEVICE_MODE_PERIODIC ;;;
      on_dev (hal_interrupt_restore interrupt_state) ;;;
      ret KERR_OK.

Definition i8254_timer_start_oneshot (timer delta_ns : Z) : K Z :=
  if timer =? 0 then ret (- KERR_INVAL)
  else
    priv <-- read_timer timer ;;
    if (delta_ns <? tm_min_delta_ns (ip_timer priv)) || (tm_max_delta_ns (ip_timer priv) <? delta_ns)
    then ret (- KERR_RANGE)
    else
      let pit_counter := u64 (delta_ns * I8254_BASE_FREQ) / NS_PER_SEC in
      interrupt_state <-- on_dev hal_interrupt_save_disable ;;
      on_dev (hal_port_write8 (u32 (ip_port_base priv + I8254_CMD_OFFSET)) 48) ;;;
      on_dev (hal_port_write8 (u32 (ip_port_base priv + I8254_CH0_OFFSET)) (Z.land pit_counter 255)) ;;;
      on_dev (hal_port_write8 (u32 (ip_port_base priv + I8254_CH0_OFFSET))
                (Z.land (Z.shiftr pit_counter 8) 255)) ;;;
      TRY irq_enable chip_ops (ip_irq priv) ;;;
      write_mode timer TIMER_DEVICE_MODE_ONESHOT ;;;
      on_dev (hal_interrupt_restore interrupt_state) ;;;
      ret KERR_OK.

Definition i8254_timer_stop (timer : Z) : K Z :=
  if timer =? 0 then ret (- KERR_INVAL)
  else
    priv <-- read_timer timer ;;
    interrupt_state <-- on_dev hal_interrupt_save_disable ;;
    write_mode timer TIMER_DEVICE_MODE_DISABLED ;;;
    TRY irq_disable chip_ops (ip_irq priv) ;;;
    on_dev (hal_interrupt_restore interrupt_state) ;;;
    ret KERR_OK.

Definition i8254_irq_handler (dev_id : Z) : K unit :=
  if dev_id =? 0 then ret tt
  else
    priv <-- read_timer dev_id ;;
    (if negb (bool_decide (tm_mode (ip_timer priv) = TIMER_DEVICE_MODE_DISABLED)) &&
        negb (tm_event (ip_timer priv) =? 0)
     then call_event (tm_event (ip_timer priv)) dev_id else ret tt) ;;;
    priv <-- read_timer dev_id ;;
    if bool_decide (tm_mode (ip_timer priv) = TIMER_DEVICE_MODE_ONESHOT) then
      interrupt_state <-- on_dev hal_interrupt_save_disable ;;
      irq_disable chip_ops (ip_irq priv) ;;;
      write_mode dev_id TIMER_DEVICE_MODE_DISABLED ;;;
      on_dev (hal_interrupt_restore interrupt_state)
    else ret tt.
End Timers.

(** ** The hardware

    Channel 0 of the 8254: its operating mode, the low byte received while the
    high byte is outstanding, and the count it reloads. *)

Record pit_channel := mk_pit { pit_mode : Z; pit_low : option Z; pit_count : Z }.

Definition pit_load (v : Z) (p : pit_channel) : pit_channel :=
  match pit_low p with
  | None => mk_pit (pit_mode p) (Some v) (pit_count p)
  | Some lo => mk_pit (pit_mode p) None (lo + 256 * v)
  end.

(** A machine with an 8254 at [base]: port writes reach the timer alone, [cli]
    and [sti] the interrupt flag alone, and the driver's own objects are
    neither. *)
Class I8254Hw (D : Type) `{PortIO D} `{Cpu D} `{HasTimers D} (base : Z) := {
  pit : D -> pit_channel;
  pit_cpu :: CpuLaws D (pit_channel * timers);
  pit_rest : forall d, rest d = (pit d, get_timers d);
  pit_control : forall d v Q, is_u8 v -> Z.land v 240 = 48 ->
    (forall d', pit d' = mk_pit (Z.land (Z.shiftr v 1) 7) None (pit_count (pit d)) ->
       get_timers d' = get_timers d -> if_set d' = if_set d -> Q tt d') ->
    wp (port_out 8 (base + 3) v) Q d;
  pit_write : forall d v Q, is_u8 v ->
    (forall d', pit d' = pit_load v (pit d) ->
       get_timers d' = get_timers d -> if_set d' = if_set d -> Q tt d') ->
    wp (port_out 8 base v) Q d;
  timers_set : forall t d,
    get_timers (set_timers t d) = t /\ pit (set_timers t d) = pit d /\ if_set (set_timers t d) = if_set d
}.

Section Programming.
Context `{I8254Hw D base}.
Context (chip_ops : Z -> option (irq_chip D)).
Hypothesis base_range : 0 <= base < 65532.

(** Nothing of the timer changes. *)
Definition timer_same (d d' : D) : Prop :=
  pit d' = pit d /\ get_timers d' = get_timers d /\ if_set d' = if_set d.

(** The interrupt controllers leave the timer alone. *)
Definition chips_frame : Prop := forall c ops desc i d, chip_ops c = Some ops ->
  wp (chip_enable ops desc) (fun _ s' => fst s' = i /\ timer_same d (snd s')) (i, d) /\
  wp (chip_disable ops desc) (fun _ s' => fst s' = i /\ timer_same d (snd s')) (i, d).

(** The descriptors are those of a full table whose chips exist. *)
Definition descs_ok (i : irqs) : Prop :=
  length (irq_descs i) = 256%nat /\
  forall dd, dd ∈ irq_descs i -> desc_chip dd = 0 \/ exists ops, chip_ops (desc_chip dd) = Some ops.

(** What [irq_enable] and [irq_disable] return. *)
Definition line_code (i : irqs) (irq : Z) : Z :=
  if 256 <=? irq then - KERR_INVAL
  else if desc_chip (irq_descs i !!! Z.to_nat irq) =? 0 then - KERR_NOENT else KERR_OK.

Lemma irq_line_wp i d irq (Q : Z -> irqs * D -> Prop) :
  chips_frame -> descs_ok i -> 0 <= irq ->
  (forall d', timer_same d d' -> Q (line_code i irq) (i, d')) ->
  wp (irq_enable chip_ops irq) Q (i, d) /\ wp (irq_disable chip_ops irq) Q (i, d).
Proof.
  intros Hfr [Hl Hc] Hi HQ. unfold irq_enable, irq_disable, irq_desc_get. unfold line_code in HQ.
  change IRQ_MAX with 256. assert (timer_same d d) as Hd by done.
  destruct (Z.leb_spec 256 irq); [by split; apply wp_ret, HQ|].
  destruct (lookup_lt_is_Some_2 (irq_descs i) (Z.to_nat irq)) as [dd Hdd]; [lia|].
  rewrite (list_lookup_total_correct _ _ _ Hdd) in HQ.
  split; wp_step; apply wp_on_irqs; (eapply read_desc_wp; [exact Hdd|]);
    destruct (Z.eqb_spec (desc_chip dd) 0); [by apply wp_ret, HQ | | by apply wp_ret, HQ |];
    (destruct (Hc dd) as [|[ops Hops]]; [by eapply list_elem_of_lookup_2 | done |]);
    unfold with_chip; rewrite Hops; wp_step;
    (eapply wp_mono; [eapply (Hfr _ ops irq i d Hops)|]); intros _ [i' d'] [E Hs]; cbn in E, Hs; subst i';
    apply wp_ret; by apply HQ.
Qed.

(** The common body of the two start functions. *)
Definition start_with (ctl : Z) (m : timer_device_mode) (timer ns : Z) : M (irqs * D) Z :=
  if timer =? 0 then ret (- KERR_INVAL)
  else
    priv <-- read_timer timer ;;
    if (ns <? tm_min_delta_ns (ip_timer priv)) || (tm_max_delta_ns (ip_timer priv) <? ns)
    then ret (- KERR_RANGE)
    else
      let pit_counter := u64 (ns * I8254_BASE_FREQ) / NS_PER_SEC in
      interrupt_state <-- on_dev hal_interrupt_save_disable ;;
      on_dev (hal_port_write8 (u32 (ip_port_base priv + I8254_CMD_OFFSET)) ctl) ;;;
      on_dev (hal_port_write8 (u32 (ip_port_base priv + I8254_CH0_OFFSET)) (Z.land pit_counter 255)) ;;;
      on_dev (hal_port_write8 (u32 (ip_port_base priv + I8254_CH0_OFFSET))
                (Z.land (Z.shiftr pit_counter 8) 255)) ;;;
      TRY irq_enable chip_ops (ip_irq priv) ;;;
      write_mode timer m ;;;
      on_dev (hal_interrupt_restore interrupt_state) ;;;
      ret KERR_OK.

(** A driver object as [i8254_probe] sets it up. *)
Definition probed (p : i8254_priv) : Prop :=
  tm_min_delta_ns (ip_timer p) = I8254_MIN_DELTA_NS /\
  tm_max_delta_ns (ip_timer p) = I8254_MAX_DELTA_NS /\ ip_port_base p = base /\ 0 <= ip_irq p.

Definition with_mode (timer : Z) (m : timer_device_mode) (p : i8254_priv) (t : timers) : timers :=
  mk_timers (<[timer := set_mode m p]> (i8254_privs t)) (timer_devices t) (selected t).

(** What starting the timer in mode [m] leaves. *)
Definition start_post (mode : Z) (m : timer_device_mode) (timer ns : Z) (p : i8254_priv)
    (i : irqs) (d : D) (r : Z) (s' : irqs * D) : Prop :=
  if (ns <? 16761) || (54924563 <? ns) then r = - KERR_RANGE /\ s' = (i, d)
  else
    let count := ns * 1193182 / 1000000000 in
    19 <= count <= 65535 /\ pit (snd s') = mk_pit mode None count /\
    fst s' = i /\ r = line_code i (ip_irq p) /\
    (r = KERR_OK -> get_timers (snd s') = with_mode timer m p (get_timers d) /\
                    if_set (snd s') = if_set d) /\
    (r <> KERR_OK -> get_timers (snd s') = get_timers d /\ if_set (snd s') = false).

Lemma write_mode_wp timer m p i d (Q : unit -> irqs * D -> Prop) :
  i8254_privs (get_timers d) !! timer = Some p ->
  (forall d', get_timers d' = with_mode timer m p (get_timers d) -> pit d' = pit d ->
     if_set d' = if_set d -> Q tt (i, d')) ->
  wp (write_mode timer m) Q (i, d).
Proof.
  intros Hp HQ. unfold wp, write_mode. cbn [fst snd]. rewrite Hp.
  destruct (timers_set (with_mode timer m p (get_timers d)) d) as (E1 & E2 & E3). by apply HQ.
Qed.

Lemma line_code_cases i irq : line_code i irq = KERR_OK \/ line_code i irq < 0.
Proof. unfold line_code. repeat case_match; unfold KERR_OK, KERR_INVAL, KERR_NOENT; lia. Qed.

(** The two bytes of a 16-bit count. *)
Lemma count_bytes c : 0 <= c < 65536 ->
  is_u8 (Z.land c 255) /\ is_u8 (Z.land (Z.shiftr c 8) 255) /\
  Z.land c 255 + 256 * Z.land (Z.shiftr c 8) 255 = c.
Proof.
  intros Hc. change 255 with (Z.ones 8). rewrite !Z.land_ones, Z.shiftr_div_pow2 by lia.
  change (2 ^ 8) with 256. unfold is_u8. repeat split; dlia.
Qed.

Lemma start_with_wp ctl m timer ns p i d :
  chips_frame -> descs_ok i -> timer <> 0 -> is_u64 ns -> is_u8 ctl -> Z.land ctl 240 = 48 ->
  i8254_privs (get_timers d) !! timer = Some p -> probed p ->
  wp (start_with ctl m timer ns) (start_post (Z.land (Z.shiftr ctl 1) 7) m timer ns p i d) (i, d).
Proof.
  intros Hfr Hdesc Ht Hns Hctl Hctl' Hp (Hmin & Hmax & Hb & Hirq). unfold start_with, start_post.
  rewrite (proj2 (Z.eqb_neq _ _) Ht). wp_step. unfold wp at 1, read_timer at 1. cbn [snd]. rewrite Hp.
  rewrite Hmin, Hmax. change I8254_MIN_DELTA_NS with 16761. change I8254_MAX_DELTA_NS with 54924563.
  destruct (Z.ltb_spec ns 16761); [by apply wp_ret|]. destruct (Z.ltb_spec 54924563 ns); [by apply wp_ret|].
  cbn [orb]. cbn zeta. unfold I8254_BASE_FREQ, NS_PER_SEC. rewrite u64_id by (unfold is_u64; lia).
  set (c := ns * 1193182 / 1000000000). assert (19 <= c <= 65535) as Hc by (unfold c; dlia).
  destruct (count_bytes c ltac:(lia)) as (Hlo & Hhi & Hsum).
  rewrite Hb. unfold I8254_CMD_OFFSET, I8254_CH0_OFFSET, hal_port_write8, x86_outb. rewrite Z.add_0_r.
  rewrite (u32_id (base + 3)), (u32_id base) by (unfold is_u32; lia).
  rewrite (u16_id (base + 3)), (u16_id base) by (unfold is_u16; lia).
  rewrite (u8_id ctl), !(u8_id (Z.land _ 255)) by done.
  wp_step. apply wp_on_dev. apply hal_interrupt_save_disable_wp. intros d1 Hif1 Hr1.
  rewrite !pit_rest in Hr1. simplify_eq Hr1. intros E1 E1'.
  wp_step. apply wp_on_dev. apply pit_control; [done | done |]. intros d2 E2 E2' E2''.
  wp_step. apply wp_on_dev. apply pit_write; [done|]. intros d3 E3 E3' E3''.
  wp_step. apply wp_on_dev. apply pit_write; [done|]. intros d4 E4 E4' E4''.
  rewrite E2 in E3. unfold pit_load in E3; cbn in E3. rewrite E3 in E4. unfold pit_load in E4; cbn in E4.
  rewrite Hsum in E4. wp_step. apply irq_line_wp; [done | done | done |]. intros d5 (E5 & E5' & E5'').
  assert (get_timers d5 = get_timers d) as Et by congruence.
  assert (if_set d5 = false) as Ef by congruence.
  destruct (line_code_cases i (ip_irq p)) as [El|El].
  - rewrite El. change (KERR_OK <? 0) with false. cbn iota. wp_step.
    apply (write_mode_wp timer m p); [by rewrite Et|]. intros d6 E6 E6' E6''. wp_step. apply wp_on_dev.
    apply hal_interrupt_restore_wp; [congruence|]. intros d7 E7 E7'. rewrite !pit_rest in E7'.
    simplify_eq E7'. intros E8 E8'. wp_step. cbn [fst snd]. split; [done|]. split; [congruence|].
    split; [done|]. split; [done|]. split; [|done]. intros _. split; [congruence | done].
  - rewrite (proj2 (Z.ltb_lt _ _) El). wp_step. cbn [fst snd]. split; [done|]. split; [congruence|].
    split; [done|]. split; [done|]. split; [|done]. intros E. rewrite E in El. done.
Qed.
End Programming.

(** ** Properties *)

(** C38. Starting the timer with an interval from 16761 ns to 54924563 ns loads
    channel 0 with the interval in ticks of 1193182 Hz, rounded down and never
    truncated (19 to 65535), in mode 3 for a periodic and in mode 0 for a
    one-shot timer.  If the interrupt line can be enabled, the timer is in its
    new mode and the interrupt flag is as before; if not, the error is returned
    with interrupts left disabled.  Other intervals are refused without an
    effect. *)
Theorem i8254_start_correct `{I8254Hw D base} chip_ops timer ns p i d :
  0 <= base < 65532 -> chips_frame chip_ops -> descs_ok chip_ops i -> timer <> 0 -> is_u64 ns ->
  i8254_privs (get_timers d) !! timer = Some p -> probed (base := base) p ->
  wp (i8254_timer_start_periodic chip_ops timer ns)
     (start_post 3 TIMER_DEVICE_MODE_PERIODIC timer ns p i d) (i, d) /\
  wp (i8254_timer_start_oneshot chip_ops timer ns)
     (start_post 0 TIMER_DEVICE_MODE_ONESHOT timer ns p i d) (i, d).
Proof.
  intros Hb Hfr Hdesc Ht Hns Hp Hpr. split.
  - by apply (start_with_wp chip_ops Hb 54).
  - by apply (start_with_wp chip_ops Hb 48).
Qed.

Module PitMachine.
Record machine := mk_machine { m_pit : pit_channel; m_flags : Z; m_timers : timers }.

#[export] Instance machine_timers : HasTimers machine := {
  get_timers := m_timers;
  set_timers := fun t d => mk_machine (m_pit d) (m_flags d) t
}.

#[export] Instance machine_ports : PortIO machine := {
  port_in := fun _ _ => ret 255;
  port_out := fun _ port v => modify (fun d =>
    if port =? 67 then mk_machine (mk_pit (Z.land (Z.shiftr v 1) 7) None (pit_count (m_pit d))) (m_flags d) (m_timers d)
    else if port =? 64 then mk_machine (pit_load v (m_pit d)) (m_flags d) (m_timers d) else d)
}.

#[export] Instance machine_cpu : Cpu machine := {
  eflags := m_flags;
  popf := fun v => modify (fun d => mk_machine (m_pit d) v (m_timers d));
  cli := modify (fun d => mk_machine (m_pit d) (Z.clearbit (m_flags d) 9) (m_timers d));
  sti := modify (fun d => mk_machine (m_pit d) (Z.setbit (m_flags d) 9) (m_timers d))
}.

#[export] Instance machine_cpu_laws : CpuLaws machine (pit_channel * timers).
Proof.
  refine {| rest := fun d : machine => (m_pit d, m_timers d) |}; intros d Q HQ; apply wp_modify, HQ; try done;
    cbn [eflags machine_cpu m_flags].
  - by apply Z.clearbit_eq.
  - by apply Z.setbit_eq.
Defined.

#[export] Instance machine_hw : I8254Hw machine 64.
Proof.
  refine {| pit := m_pit; pit_cpu := machine_cpu_laws |}; try done.
  - intros d v Q _ _ HQ. apply wp_modify. by apply HQ.
  - intros d v Q _ HQ. apply wp_modify. by apply HQ.
Defined.

Definition priv0 : i8254_priv :=
  mk_i8254_priv (mk_timer_device 0 TIMER_DEVICE_MODE_DISABLED I8254_MIN_DELTA_NS I8254_MAX_DELTA_NS 0) 64 0.
Definition d0 : machine := mk_machine (mk_pit 0 None 0) 512 (mk_timers {[4096 := priv0]} [4096] 4096).
(** Line 0 has a chip whose operations do nothing. *)
Definition chip0 : irq_chip machine := {|
  handle_vector := fun v => ret (0, v); chip_enable := fun _ => ret tt;
  chip_disable := fun _ => ret tt; chip_eoi := fun _ => ret tt |}.
Definition chips0 (c : Z) : option (irq_chip machine) := if c =? 8192 then Some chip0 else None.
Definition irqs0 : irqs :=
  mk_irqs (BITMAP_INIT (1 :: replicate 7 0) 256)
    (mk_irq_desc 0 12288 8192 0 0 :: replicate 255 inhabitant) ∅.
End PitMachine.

Import PitMachine.

(** A period of 10 ms. *)
Lemma i8254_start_correct_witness :
  wp (i8254_timer_start_periodic chips0 4096 10000000)
     (start_post 3 TIMER_DEVICE_MODE_PERIODIC 4096 10000000 priv0 irqs0 d0) (irqs0, d0) /\
  wp (i8254_timer_start_oneshot chips0 4096 10000000)
     (start_post 0 TIMER_DEVICE_MODE_ONESHOT 4096 10000000 priv0 irqs0 d0) (irqs0, d0).
Proof.
  apply (i8254_start_correct (base := 64) chips0 4096 10000000 priv0 irqs0 d0); try done.
  - intros c ops desc i d Hops. unfold chips0 in Hops. case_match; simplify_eq. split; by apply wp_ret.
  - split; [cbn [irq_descs irqs0 length]; by rewrite length_replicate|].
    intros dd Hdd. apply elem_of_cons in Hdd as [->|Hdd]; [right; by exists chip0|].
    apply elem_of_replicate_inv in Hdd. subst dd. by left.
Defined.
