(* ===== verification/Iwbf.v ===== *)
(** * Little-endian integers and the IWBF executable format

    Models [kernel/include/klib/endian.h] and [kernel/format/iwbf.c].  A
    [const uint8_t *] is the list of bytes from the pointer on; reading past
    the end is undefined. *)

From S2P Require Import Prelude Base Buffer.

(** ** [endian.h] *)

Definition read_le16 (buf : list Z) : option Z :=
  match buf with
  | b0 :: b1 :: _ => Some (u16 (Z.lor b0 (Z.shiftl b1 8)))
  | _ => None
  end.

Definition read_le32 (buf : list Z) : option Z :=
  match buf with
  | b0 :: b1 :: b2 :: b3 :: _ =>
      Some (Z.lor (Z.lor (Z.lor b0 (Z.shiftl b1 8)) (Z.shiftl b2 16)) (u32 (Z.shiftl b3 24)))
  | _ => None
  end.

Definition read_le64 (buf : list Z) : option Z :=
  match buf with
  | b0 :: b1 :: b2 :: b3 :: b4 :: b5 :: b6 :: b7 :: _ =>
      Some (Z.lor (Z.lor (Z.lor (Z.lor (Z.lor (Z.lor (Z.lor b0 (Z.shiftl b1 8)) (Z.shiftl b2 16))
        (Z.shiftl b3 24)) (Z.shiftl b4 32)) (Z.shiftl b5 40)) (Z.shiftl b6 48))
        (u64 (Z.shiftl b7 56)))
  | _ => None
  end.

Definition write_le16 (value : Z) : M (list Z) unit :=
  buf_set 0 (u8 value) ;;; buf_set 1 (u8 (Z.shiftr value 8)).

Definition write_le32 (value : Z) : M (list Z) unit :=
  buf_set 0 (u8 value) ;;; buf_set 1 (u8 (Z.shiftr value 8)) ;;;
  buf_set 2 (u8 (Z.shiftr value 16)) ;;; buf_set 3 (u8 (Z.shiftr value 24)).

Definition write_le64 (value : Z) : M (list Z) unit :=
  buf_set 0 (u8 value) ;;; buf_set 1 (u8 (Z.shiftr value 8)) ;;;
  buf_set 2 (u8 (Z.shiftr value 16)) ;;; buf_set 3 (u8 (Z.shiftr value 24)) ;;;
  buf_set 4 (u8 (Z.shiftr value 32)) ;;; buf_set 5 (u8 (Z.shiftr value 40)) ;;;
  buf_set 6 (u8 (Z.shiftr value 48)) ;;; buf_set 7 (u8 (Z.shiftr value 56)).

(** ** [iwbf.h] *)

Definition IWBF_HDR_MAGIC : Z := 1178752841. (* 0x46425749 *)
Definition IWBF_HDR_TYPE_EXEC : Z := 1.
Definition IWBF_HDR_ARCH_I386 : Z := 1.
Definition IWBF_SEG_FLAG_READ : Z := u32 (Z.shiftl 1 0).
Definition IWBF_SEG_FLAG_WRITE : Z := u32 (Z.shiftl 1 1).
Definition IWBF_SEG_FLAG_EXEC : Z := u32 (Z.shiftl 1 2).
Definition IWBF32_HDR_SIZE : Z := 16.
Definition IWBF32_SEGMENT_HDR_SIZE : Z := 20.

Record iwbf32_hdr := mk_hdr {
  hdr_magic : Z;
  hdr_type : Z;
  hdr_arch : Z;
  hdr_entry : Z;
  hdr_segment_count : Z
}.

Record iwbf32_segment_hdr := mk_seg {
  seg_vaddr : Z;
  seg_file_off : Z;
  seg_file_size : Z;
  seg_mem_size : Z;
  seg_flags : Z
}.

(** ** [iwbf.c]

    The result code and, once [*out] has been written, its value.  [buf] is
    [None] for [NULL], [out] tells whether the other pointer is not [NULL]. *)

Definition iwbf_parse_hdr (buf : option (list Z)) (size : Z) (out : bool) :
    option (Z * option iwbf32_hdr) :=
  match buf with
  | None => Some (- KERR_INVAL, None)
  | Some p =>
      if negb out then Some (- KERR_INVAL, None)
      else if size <? IWBF32_HDR_SIZE then Some (- KERR_INVAL, None)
      else
        magic ← read_le32 p; let p := drop 4 p in
        type ← read_le16 p; let p := drop 2 p in
        arch ← read_le16 p; let p := drop 2 p in
        entry ← read_le32 p; let p := drop 4 p in
        segment_count ← read_le16 p;
        let h := mk_hdr magic type arch entry segment_count in
        if negb (magic =? IWBF_HDR_MAGIC) then Some (- KERR_INVAL, Some h)
        else if negb (type =? IWBF_HDR_TYPE_EXEC) then Some (- KERR_INVAL, Some h)
        else if negb (arch =? IWBF_HDR_ARCH_I386) then Some (- KERR_INVAL, Some h)
        else if segment_count =? 0 then Some (- KERR_INVAL, Some h)
        else Some (KERR_OK, Some h)
  end.

Definition iwbf_parse_segment_hdr (buf : option (list Z)) (size : Z) (out : bool) :
    option (Z * option iwbf32_segment_hdr) :=
  match buf with
  | None => Some (- KERR_INVAL, None)
  | Some p =>
      if negb out then Some (- KERR_INVAL, None)
      else if size <? IWBF32_SEGMENT_HDR_SIZE then Some (- KERR_INVAL, None)
      else
        vaddr ← read_le32 p; let p := drop 4 p in
        file_off ← read_le32 p; let p := drop 4 p in
        file_size ← read_le32 p; let p := drop 4 p in
        mem_size ← read_le32 p; let p := drop 4 p in
        flags ← read_le32 p;
        let s := mk_seg vaddr file_off file_size mem_size flags in
        let all := Z.lor (Z.lor IWBF_SEG_FLAG_READ IWBF_SEG_FLAG_WRITE) IWBF_SEG_FLAG_EXEC in
        if mem_size <? file_size then Some (- KERR_INVAL, Some s)
        else if Z.land flags all =? 0 then Some (- KERR_INVAL, Some s)
        else if negb (Z.land flags (u32 (Z.lnot all)) =? 0) then Some (- KERR_INVAL, Some s)
        else Some (KERR_OK, Some s)
  end.

(** ** Little-endian encodings *)

Definition le16 (v : Z) : list Z := [v mod 256; v / 256 mod 256].
Definition le32 (v : Z) : list Z := [v mod 256; v / 256 mod 256; v / 65536 mod 256; v / 16777216 mod 256].

Lemma lor_shiftl a b k : 0 <= k -> 0 <= a < 2 ^ k -> Z.lor a (Z.shiftl b k) = a + b * 2 ^ k.
Proof.
  intros Hk Ha. rewrite <- Z.shiftl_mul_pow2 by done.
  assert (Z.land a (Z.shiftl b k) = 0) as Hz.
  { apply Z.bits_inj'. intros i Hi. rewrite Z.land_spec, Z.bits_0. destruct (Z.lt_ge_cases i k).
    - rewrite Z.shiftl_spec_low by done. apply andb_false_r.
    - by rewrite (testbit_high a k) by lia. }
  by rewrite <- Z.lxor_lor, <- Z.add_nocarry_lxor by done.
Qed.

Lemma read_le16_bytes b0 b1 l : is_u8 b0 -> is_u8 b1 -> read_le16 (b0 :: b1 :: l) = Some (b0 + 256 * b1).
Proof.
  unfold is_u8. intros H0 H1. cbn [read_le16]. rewrite lor_shiftl by lia.
  rewrite u16_id by (unfold is_u16; lia). f_equal. lia.
Qed.

Lemma read_le32_bytes b0 b1 b2 b3 l : is_u8 b0 -> is_u8 b1 -> is_u8 b2 -> is_u8 b3 ->
  read_le32 (b0 :: b1 :: b2 :: b3 :: l) = Some (b0 + 256 * b1 + 65536 * b2 + 16777216 * b3).
Proof.
  unfold is_u8. intros H0 H1 H2 H3. cbn [read_le32].
  rewrite (u32_id (Z.shiftl b3 24)) by (rewrite Z.shiftl_mul_pow2 by lia; unfold is_u32; lia).
  rewrite (lor_shiftl b0 b1 8), (lor_shiftl _ b2 16), (lor_shiftl _ b3 24) by lia. f_equal. lia.
Qed.

(** Reading a field: the value and the bytes determine each other. *)
Lemma read_le16_spec l : Forall is_u8 l -> (2 <= length l)%nat ->
  exists v, read_le16 l = Some v /\ is_u16 v /\ forall w, is_u16 w -> v = w <-> take 2 l = le16 w.
Proof.
  intros Hl Hlen. destruct l as [|b0 [|b1 l]]; cbn in Hlen; try lia.
  inversion Hl as [|? ? H0 Hl']; subst. inversion Hl' as [|? ? H1 _]; subst.
  exists (b0 + 256 * b1). split; [by apply read_le16_bytes|]. unfold is_u8, is_u16 in *. split; [lia|].
  intros w Hw. cbn [take le16]. unfold le16. split.
  - intros <-. f_equal; [|f_equal]; dlia.
  - intros E. injection E as E0 E1. dlia.
Qed.

Lemma read_le32_spec l : Forall is_u8 l -> (4 <= length l)%nat ->
  exists v, read_le32 l = Some v /\ is_u32 v /\ forall w, is_u32 w -> v = w <-> take 4 l = le32 w.
Proof.
  intros Hl Hlen. destruct l as [|b0 [|b1 [|b2 [|b3 l]]]]; cbn in Hlen; try lia.
  do 4 (let H := fresh "Hb" in inversion Hl as [|? ? H Hl']; subst; clear Hl; rename Hl' into Hl).
  exists (b0 + 256 * b1 + 65536 * b2 + 16777216 * b3). split; [by apply read_le32_bytes|].
  unfold is_u8, is_u32 in *. split; [lia|]. intros w Hw. cbn [take]. unfold le32. split.
  - intros <-. f_equal; [|f_equal; [|f_equal; [|f_equal]]]; dlia.
  - intros E. injection E as E0 E1 E2 E3. dlia.
Qed.

(** ** The format *)

Definition hdr_valid (h : iwbf32_hdr) : Prop :=
  hdr_magic h = IWBF_HDR_MAGIC /\ hdr_type h = 1 /\ hdr_arch h = 1 /\ is_u32 (hdr_entry h) /\
  0 < hdr_segment_count h < 65536.

Definition seg_valid (s : iwbf32_segment_hdr) : Prop :=
  is_u32 (seg_vaddr s) /\ is_u32 (seg_file_off s) /\ is_u32 (seg_file_size s) /\
  is_u32 (seg_mem_size s) /\ seg_file_size s <= seg_mem_size s /\ 1 <= seg_flags s <= 7.

(** The bytes of a header that the parser looks at, and of a segment. *)
Definition encode_hdr (h : iwbf32_hdr) : list Z :=
  le32 (hdr_magic h) ++ le16 (hdr_type h) ++ le16 (hdr_arch h) ++ le32 (hdr_entry h) ++
  le16 (hdr_segment_count h).
Definition encode_segment (s : iwbf32_segment_hdr) : list Z :=
  le32 (seg_vaddr s) ++ le32 (seg_file_off s) ++ le32 (seg_file_size s) ++ le32 (seg_mem_size s) ++
  le32 (seg_flags s).

Lemma take_app_split {A} n m (l k1 k2 : list A) : length k1 = n -> length k2 = m ->
  take (n + m) l = k1 ++ k2 <-> take n l = k1 /\ take m (drop n l) = k2.
Proof.
  intros H1 H2. rewrite <- (take_take_drop l n m). split.
  - intros E. apply app_inj_1 in E; [done|]. apply (f_equal length) in E.
    rewrite !length_app, !length_take, length_drop in *. lia.
  - intros [-> ->]. done.
Qed.

(** The two tests on the flags accept exactly the values 1 to 7. *)
Lemma flags_check f : is_u32 f ->
  negb (Z.land f 7 =? 0) && (Z.land f (u32 (Z.lnot 7)) =? 0) = true <-> 1 <= f <= 7.
Proof.
  intros Hf. rewrite land_u32_r by done. assert (Z.land f 7 = f mod 8) as -> by (apply (Z.land_ones f 3); lia).
  change 7 with (2 ^ 3 - 1) at 1. rewrite lnot_ones_land by lia. change (2 ^ 3) with 8.
  unfold is_u32 in Hf. rewrite andb_true_iff, negb_true_iff, Z.eqb_neq, Z.eqb_eq. split; intros; dlia.
Qed.

(** Split off the first [n] bytes of an encoding. *)
Ltac split_field n m :=
  match goal with |- context [take ?k ?l = _ ++ _] => change (take k l) with (take (n + m) l) end;
  rewrite (take_app_split n m) by done; rewrite ?drop_drop; cbn [Nat.add].

(** The fields of a header as the parser reads them. *)
Lemma hdr_fields b : Forall is_u8 b -> (16 <= length b)%nat ->
  exists m t a e n,
    read_le32 b = Some m /\ read_le16 (drop 4 b) = Some t /\ read_le16 (drop 6 b) = Some a /\
    read_le32 (drop 8 b) = Some e /\ read_le16 (drop 12 b) = Some n /\
    is_u32 m /\ is_u16 t /\ is_u16 a /\ is_u32 e /\ is_u16 n /\
    forall h, is_u32 (hdr_magic h) -> is_u16 (hdr_type h) -> is_u16 (hdr_arch h) ->
      is_u32 (hdr_entry h) -> is_u16 (hdr_segment_count h) ->
      mk_hdr m t a e n = h <-> take 14 b = encode_hdr h.
Proof.
  intros Hb Hl.
  destruct (read_le32_spec b) as (m & E1 & U1 & S1); [done | lia |].
  destruct (read_le16_spec (drop 4 b)) as (t & E2 & U2 & S2);
    [by apply Forall_drop | rewrite length_drop; lia |].
  destruct (read_le16_spec (drop 6 b)) as (a & E3 & U3 & S3);
    [by apply Forall_drop | rewrite length_drop; lia |].
  destruct (read_le32_spec (drop 8 b)) as (e & E4 & U4 & S4);
    [by apply Forall_drop | rewrite length_drop; lia |].
  destruct (read_le16_spec (drop 12 b)) as (n & E5 & U5 & S5);
    [by apply Forall_drop | rewrite length_drop; lia |].
  exists m, t, a, e, n. do 10 (split; [done|]). intros [m' t' a' e' n']; cbn [hdr_magic hdr_type hdr_arch hdr_entry hdr_segment_count]. intros V1 V2 V3 V4 V5.
  unfold encode_hdr. cbn [hdr_magic hdr_type hdr_arch hdr_entry hdr_segment_count].
  split_field 4%nat 10%nat. split_field 2%nat 8%nat. split_field 2%nat 6%nat. split_field 4%nat 2%nat.
  rewrite <- S1, <- S2, <- S3, <- S4, <- S5 by done. split; [|by intros (-> & -> & -> & -> & ->)].
  intros E. by injection E as -> -> -> -> ->.
Qed.

Lemma seg_fields b : Forall is_u8 b -> (20 <= length b)%nat ->
  exists v o fs ms f,
    read_le32 b = Some v /\ read_le32 (drop 4 b) = Some o /\ read_le32 (drop 8 b) = Some fs /\
    read_le32 (drop 12 b) = Some ms /\ read_le32 (drop 16 b) = Some f /\
    is_u32 v /\ is_u32 o /\ is_u32 fs /\ is_u32 ms /\ is_u32 f /\
    forall s, is_u32 (seg_vaddr s) -> is_u32 (seg_file_off s) -> is_u32 (seg_file_size s) ->
      is_u32 (seg_mem_size s) -> is_u32 (seg_flags s) ->
      mk_seg v o fs ms f = s <-> take 20 b = encode_segment s.
Proof.
  intros Hb Hl.
  destruct (read_le32_spec b) as (v & E1 & U1 & S1); [done | lia |].
  destruct (read_le32_spec (drop 4 b)) as (o & E2 & U2 & S2);
    [by apply Forall_drop | rewrite length_drop; lia |].
  destruct (read_le32_spec (drop 8 b)) as (fs & E3 & U3 & S3);
    [by apply Forall_drop | rewrite length_drop; lia |].
  destruct (read_le32_spec (drop 12 b)) as (ms & E4 & U4 & S4);
    [by apply Forall_drop | rewrite length_drop; lia |].
  destruct (read_le32_spec (drop 16 b)) as (f & E5 & U5 & S5);
    [by apply Forall_drop | rewrite length_drop; lia |].
  exists v, o, fs, ms, f. do 10 (split; [done|]). intros [v' o' fs' ms' f']; cbn [seg_vaddr seg_file_off seg_file_size seg_mem_size seg_flags]. intros V1 V2 V3 V4 V5.
  unfold encode_segment. cbn [seg_vaddr seg_file_off seg_file_size seg_mem_size seg_flags].
  split_field 4%nat 16%nat. split_field 4%nat 12%nat. split_field 4%nat 8%nat. split_field 4%nat 4%nat.
  rewrite <- S1, <- S2, <- S3, <- S4, <- S5 by done. split; [|by intros (-> & -> & -> & -> & ->)].
  intros E. by injection E as -> -> -> -> ->.
Qed.

Lemma parse_hdr_exact b size : Forall is_u8 b -> 0 <= size <= Z.of_nat (length b) ->
  is_Some (iwbf_parse_hdr (Some b) size true) /\
  forall h, iwbf_parse_hdr (Some b) size true = Some (KERR_OK, Some h) <->
    16 <= size /\ hdr_valid h /\ take 14 b = encode_hdr h.
Proof.
  intros Hb Hs. unfold iwbf_parse_hdr. cbn [negb]. unfold IWBF32_HDR_SIZE. destruct (Z.ltb_spec size 16).
  { split; [by eexists|]. intros h. split; [done | lia]. }
  destruct (hdr_fields b Hb ltac:(lia)) as (m & t & a & e & n & E1 & E2 & E3 & E4 & E5 & U1 & U2 & U3 & U4 & U5 & Hspec).
  rewrite !drop_drop. cbn [Nat.add]. rewrite E1, E2, E3, E4, E5. cbn [mbind option_bind].
  unfold IWBF_HDR_TYPE_EXEC, IWBF_HDR_ARCH_I386, is_u16 in *. split.
  - repeat case_match; by eexists.
  - intros h. unfold hdr_valid. split.
    + repeat case_match; try done. rewrite !negb_false_iff, !Z.eqb_eq, ?Z.eqb_neq in *. intros E.
      injection E as <-. split; [done|].
      cbn [hdr_magic hdr_type hdr_arch hdr_entry hdr_segment_count]. split; [do 4 (split; [done|]); lia|].
      by apply Hspec.
    + intros (_ & (V1 & V2 & V3 & V4 & V5) & Ht).
      assert (mk_hdr m t a e n = h) as <-.
      { apply Hspec; rewrite ?V1, ?V2, ?V3; unfold is_u16; try done; lia. }
      cbn in V1, V2, V3, V5. rewrite V1, V2, V3. cbn [negb Z.eqb Pos.eqb].
      by rewrite (proj2 (Z.eqb_neq n 0)) by lia.
Qed.

Lemma parse_segment_exact b size : Forall is_u8 b -> 0 <= size <= Z.of_nat (length b) ->
  is_Some (iwbf_parse_segment_hdr (Some b) size true) /\
  forall s, iwbf_parse_segment_hdr (Some b) size true = Some (KERR_OK, Some s) <->
    20 <= size /\ seg_valid s /\ take 20 b = encode_segment s.
Proof.
  intros Hb Hs. unfold iwbf_parse_segment_hdr. cbn [negb]. unfold IWBF32_SEGMENT_HDR_SIZE. destruct (Z.ltb_spec size 20).
  { split; [by eexists|]. intros s. split; [done | lia]. }
  destruct (seg_fields b Hb ltac:(lia)) as (v & o & fs & ms & f & E1 & E2 & E3 & E4 & E5 & U1 & U2 & U3 & U4 & U5 & Hspec).
  rewrite !drop_drop. cbn [Nat.add]. rewrite E1, E2, E3, E4, E5. cbn [mbind option_bind].
  change (Z.lor (Z.lor IWBF_SEG_FLAG_READ IWBF_SEG_FLAG_WRITE) IWBF_SEG_FLAG_EXEC) with 7. split.
  - repeat case_match; by eexists.
  - pose proof (flags_check f U5) as Hfl. intros s. unfold seg_valid. split.
    + destruct (Z.ltb_spec ms fs); [done|]. destruct (Z.land f 7 =? 0); [done|].
      destruct (Z.land f (u32 (Z.lnot 7)) =? 0); [|done]. cbn [negb]. intros E. injection E as <-.
      split; [done|]. cbn [seg_vaddr seg_file_off seg_file_size seg_mem_size seg_flags].
      split; [|by apply Hspec].
      do 5 (split; [done|]). by apply Hfl.
    + intros (_ & (V1 & V2 & V3 & V4 & V5 & V6) & Ht).
      assert (mk_seg v o fs ms f = s) as <-.
      { apply Hspec; try done. unfold is_u32. lia. }
      cbn in V5, V6. rewrite (proj2 (Z.ltb_ge ms fs)) by done. apply Hfl in V6.
      apply andb_true_iff in V6 as [W1 W2]. apply negb_true_iff in W1. by rewrite W1, W2.
Qed.

(** ** Properties *)

(** C39. On every buffer of at least the stated size the two IWBF parsers read
    no byte outside of it, and they succeed with a header exactly when the
    buffer starts with the encoding of that header and the header is valid:
    the magic, type and architecture of an executable and 1 to 65535 segments;
    for a segment, no more file bytes than memory and flags from 1 to 7. *)
Theorem iwbf_parse_exact b size :
  Forall is_u8 b -> 0 <= size <= Z.of_nat (length b) ->
  is_Some (iwbf_parse_hdr (Some b) size true) /\
  is_Some (iwbf_parse_segment_hdr (Some b) size true) /\
  (forall h, iwbf_parse_hdr (Some b) size true = Some (KERR_OK, Some h) <->
     16 <= size /\ hdr_valid h /\ take 14 b = encode_hdr h) /\
  (forall s, iwbf_parse_segment_hdr (Some b) size true = Some (KERR_OK, Some s) <->
     20 <= size /\ seg_valid s /\ take 20 b = encode_segment s).
Proof.
  intros Hb Hs. destruct (parse_hdr_exact b size Hb Hs). destruct (parse_segment_exact b size Hb Hs). auto.
Qed.

(** The header and the segment of [user/system/system.asm]. *)
Definition system_image : list Z :=
  encode_hdr (mk_hdr IWBF_HDR_MAGIC 1 1 4194304 1) ++ [0; 0] ++
  encode_segment (mk_seg 4194304 36 2 4096 5) ++ [235; 254].

Lemma iwbf_parse_exact_witness :
  is_Some (iwbf_parse_hdr (Some system_image) 38 true) /\
  is_Some (iwbf_parse_segment_hdr (Some system_image) 38 true) /\
  (forall h, iwbf_parse_hdr (Some system_image) 38 true = Some (KERR_OK, Some h) <->
     16 <= 38 /\ hdr_valid h /\ take 14 system_image = encode_hdr h) /\
  (forall s, iwbf_parse_segment_hdr (Some system_image) 38 true = Some (KERR_OK, Some s) <->
     20 <= 38 /\ seg_valid s /\ take 20 system_image = encode_segment s).
Proof.
  apply (iwbf_parse_exact system_image 38).
  - repeat constructor; done.
  - done.
Defined.
