(* ===== verification/Descriptors.v ===== *)
(** * Segment and interrupt descriptors

    Models [kernel/arch/x86/cpu/gdt.c], [cpu/tss.c], [interrupt/idt.c],
    [interrupt/isr.c] and [interrupt/exception.c].  The tables are lists of raw
    entries; an index outside of a table is undefined.  The addresses of the
    static objects and of the assembly stubs are parameters.  [segment_of] and
    [gate_of] read an entry the way the processor does (IA-32 manual, volume 3,
    3.4.5 and 6.11). *)

From S2P Require Import Prelude Base.

(** ** Global descriptor table ([gdt.c]) *)

Record x86_gdt_raw_entry := mk_gdt_raw {
  gr_limit_low : Z;
  gr_base_low : Z;
  gr_base_mid : Z;
  gr_access_byte : Z;
  gr_limit_high_flags : Z;
  gr_base_high : Z
}.

Record x86_gdt_entry := mk_gdt_entry {
  ge_limit : Z;
  ge_base : Z;
  ge_access : Z;
  ge_flags : Z
}.

Definition X86_GDT_FLAG_G_MASK : Z := BIT 3.
Definition X86_GDT_FLAG_DB_MASK : Z := BIT 2.
Definition X86_GDT_ACCESS_BYTE_P_MASK : Z := BIT 7.
Definition X86_GDT_ACCESS_BYTE_S_MASK : Z := BIT 4.
Definition X86_GDT_ACCESS_BYTE_E_MASK : Z := BIT 3.
Definition X86_GDT_ACCESS_BYTE_RW_MASK : Z := BIT 1.
Definition X86_GDT_ACCESS_BYTE_A_MASK : Z := BIT 0.
Definition X86_GDT_ENTRIES : Z := 6.

Definition X86_GDT_SELECTOR_KERN_CODE : Z := 8.
Definition X86_GDT_SELECTOR_KERN_DATA : Z := 16.
Definition X86_GDT_SELECTOR_USER_CODE : Z := Z.lor 24 3.
Definition X86_GDT_SELECTOR_USER_DATA : Z := Z.lor 32 3.
Definition X86_GDT_SELECTOR_TSS : Z := 40.

Record x86_gdt_descriptor := mk_gdt_descriptor { gdtr_size : Z; gdtr_offset : Z }.

(** [gdt], [gdt_descriptor] and the table the processor uses. *)
Record gdt_state := mk_gdt_state {
  gdt : list x86_gdt_raw_entry;
  gdt_descriptor : x86_gdt_descriptor;
  gdtr : option x86_gdt_descriptor
}.

Definition gdt_raw_zero : x86_gdt_raw_entry := mk_gdt_raw 0 0 0 0 0 0.
Definition gdt_entry_zero : x86_gdt_entry := mk_gdt_entry 0 0 0 0.

Definition x86_gdt_set_entry (index : Z) (e : x86_gdt_entry) : M gdt_state unit := fun s =>
  if (0 <=? index) && (index <? Z.of_nat (length (gdt s))) then
    let base_low := u16 (Z.land (ge_base e) 65535) in
    let base_mid := u8 (Z.land (Z.shiftr (ge_base e) 16) 255) in
    let base_high := u8 (Z.land (Z.shiftr (ge_base e) 24) 255) in
    let limit_low := u16 (Z.land (ge_limit e) 65535) in
    let limit_high_flags := u8 (Z.land (Z.shiftr (ge_limit e) 16) 15) in
    let limit_high_flags := u8 (Z.lor limit_high_flags (u8 (Z.land (Z.shiftl (ge_flags e) 4) 240))) in
    Some (tt, mk_gdt_state
      (<[Z.to_nat index := mk_gdt_raw limit_low base_low base_mid (ge_access e) limit_high_flags base_high]>
         (gdt s)) (gdt_descriptor s) (gdtr s))
  else None.

(** The assembly routine [x86_gdt_flush]: [lgdt]. *)
Definition x86_gdt_flush : M gdt_state unit :=
  modify (fun s => mk_gdt_state (gdt s) (gdt_descriptor s) (Some (gdt_descriptor s))).

(** The packed members of [struct x86_tss] by their size in bytes: [prev_task],
    the three stacks of the inner rings, [cr3] to [edi], the segment registers
    with their padding, [ldt], [trap] and [iomap_base]. *)
Definition x86_tss_layout : list Z :=
  [2; 2] ++ [4; 2; 2] ++ [4; 2; 2] ++ [4; 2; 2] ++ [4; 4; 4] ++ replicate 8 4 ++
  replicate 12 2 ++ [2; 2] ++ [2; 2].
Definition sizeof_x86_tss : Z := fold_right Z.add 0 x86_tss_layout.

Section Gdt.
Context (gdt_addr tss_addr : Z).

Definition x86_gdt_init : M gdt_state unit :=
  modify (fun s => mk_gdt_state (gdt s) (mk_gdt_descriptor (u16 (X86_GDT_ENTRIES * 8 - 1)) gdt_addr) (gdtr s)) ;;;
  modify (fun s => mk_gdt_state (replicate 6 gdt_raw_zero) (gdt_descriptor s) (gdtr s)) ;;;
  (* Null descriptor *)
  x86_gdt_set_entry 0 gdt_entry_zero ;;;
  (* Kernel code descriptor *)
  let kern_code_access :=
    u8 (Z.lor (Z.lor (Z.lor (Z.lor X86_GDT_ACCESS_BYTE_P_MASK X86_GDT_ACCESS_BYTE_S_MASK)
      X86_GDT_ACCESS_BYTE_E_MASK) X86_GDT_ACCESS_BYTE_RW_MASK) X86_GDT_ACCESS_BYTE_A_MASK) in
  let flags := u8 (Z.lor X86_GDT_FLAG_G_MASK X86_GDT_FLAG_DB_MASK) in
  x86_gdt_set_entry 1 (mk_gdt_entry 1048575 0 kern_code_access flags) ;;;
  (* Kernel data descriptor *)
  let kern_data_access :=
    u8 (Z.lor (Z.lor (Z.lor X86_GDT_ACCESS_BYTE_P_MASK X86_GDT_ACCESS_BYTE_S_MASK)
      X86_GDT_ACCESS_BYTE_RW_MASK) X86_GDT_ACCESS_BYTE_A_MASK) in
  x86_gdt_set_entry 2 (mk_gdt_entry 1048575 0 kern_data_access flags) ;;;
  (* User code descriptor *)
  let user_code_access := u8 (Z.lor kern_code_access 96) in
  x86_gdt_set_entry 3 (mk_gdt_entry 1048575 0 user_code_access flags) ;;;
  (* User data descriptor *)
  let user_data_access := u8 (Z.lor kern_data_access 96) in
  x86_gdt_set_entry 4 (mk_gdt_entry 1048575 0 user_data_access flags) ;;;
  (* TSS segment *)
  let tss_access := u8 (Z.lor (u8 (Z.lor 0 X86_GDT_ACCESS_BYTE_P_MASK)) 9) in
  x86_gdt_set_entry 5 (mk_gdt_entry (sizeof_x86_tss - 1) tss_addr tss_access 0) ;;;
  x86_gdt_flush.
End Gdt.

(** ** Task state segment ([tss.c]) *)

(** The members of the static [tss] that are ever written; [memset] zeroes the
    rest. *)
Record x86_tss := mk_tss { tss_esp0 : Z; tss_ss0 : Z; tss_iomap_base : Z }.

Definition x86_tss_init : M x86_tss unit :=
  modify (fun _ => mk_tss 0 0 0) ;;;
  modify (fun t => mk_tss (tss_esp0 t) X86_GDT_SELECTOR_KERN_DATA (tss_iomap_base t)) ;;;
  modify (fun t => mk_tss (tss_esp0 t) (tss_ss0 t) (u16 sizeof_x86_tss)).

Definition x86_tss_set_kernel_stack (esp0 : Z) : M x86_tss unit :=
  modify (fun t => mk_tss esp0 (tss_ss0 t) (tss_iomap_base t)).

(** ** Interrupt descriptor table ([idt.c]) *)

Definition X86_IDT_ENTRIES : Z := 256.

Record x86_idt_gate := mk_idt_gate {
  ig_handler : Z;
  ig_selector : Z;
  ig_flags : Z
}.

Record x86_idt_raw_entry := mk_idt_raw {
  ir_offset_low : Z;
  ir_segment_selector : Z;
  ir_reserved : Z;
  ir_flags : Z;
  ir_offset_high : Z
}.

Record x86_idt_descriptor := mk_idt_descriptor { idtr_size : Z; idtr_offset : Z }.

Record idt_state := mk_idt_state {
  idt : list x86_idt_raw_entry;
  idt_desc : x86_idt_descriptor;
  idtr : option x86_idt_descriptor
}.

Definition FIELD_SET (v mask shift field : Z) : Z :=
  Z.lor (Z.land v (u32 (Z.lnot mask))) (Z.land (u32 (Z.shiftl field shift)) mask).

Definition X86_IDT_FLAG_PRESENT_MASK : Z := BIT 7.
Definition X86_IDT_FLAG_DPL_SHIFT : Z := 5.
Definition X86_IDT_FLAG_DPL_MASK : Z := Z.lor (BIT 5) (BIT 6).
Definition X86_IDT_FLAG_TYPE_MASK : Z := 15.
Definition X86_IDT_FLAG_TYPE_SHIFT : Z := 0.
Definition X86_IDT_GATE_INT_32 : Z := 14.
Definition X86_IDT_GATE_TRAP_32 : Z := 15.
Definition X86_IDT_DPL_RING0 : Z := 0.
Definition X86_IDT_DPL_RING3 : Z := 3.

Definition X86_IDT_FLAG_BUILD (dpl type : Z) : Z :=
  Z.lor (Z.lor X86_IDT_FLAG_PRESENT_MASK
    (FIELD_SET 0 X86_IDT_FLAG_DPL_MASK X86_IDT_FLAG_DPL_SHIFT dpl))
    (FIELD_SET 0 X86_IDT_FLAG_TYPE_MASK X86_IDT_FLAG_TYPE_SHIFT type).

Definition x86_idt_set_gate (vector : Z) (g : x86_idt_gate) : M idt_state unit := fun s =>
  if (0 <=? vector) && (vector <? Z.of_nat (length (idt s))) then
    Some (tt, mk_idt_state
      (<[Z.to_nat vector := mk_idt_raw (u16 (Z.land (ig_handler g) 65535)) (ig_selector g) 0
           (ig_flags g) (u16 (Z.land (Z.shiftr (ig_handler g) 16) 65535))]> (idt s))
      (idt_desc s) (idtr s))
  else None.

Section Idt.
Context (idt_addr : Z).

Definition x86_idt_desc_init : M idt_state unit :=
  modify (fun s => mk_idt_state (idt s) (mk_idt_descriptor (u16 (X86_IDT_ENTRIES * 8 - 1)) idt_addr) (idtr s)).

Definition x86_idt_init : M idt_state unit :=
  modify (fun s => mk_idt_state (replicate 256 (mk_idt_raw 0 0 0 0 0)) (idt_desc s) (idtr s)) ;;;
  x86_idt_desc_init.
End Idt.

Definition x86_idt_load : M idt_state unit :=
  modify (fun s => mk_idt_state (idt s) (idt_desc s) (Some (idt_desc s))).

(** ** Interrupt service routines ([isr.c]) *)

Section Isr.
Context (x86_isr_stub_table : Z -> Z).

(** The flags of gate [i]. *)
Definition isr_flags (i : Z) : Z :=
  if i <? 32 then
    let type := if (i =? 1) || (i =? 3) || (i =? 4) then X86_IDT_GATE_TRAP_32 else X86_IDT_GATE_INT_32 in
    u8 (X86_IDT_FLAG_BUILD X86_IDT_DPL_RING0 type)
  else if i =? 128 then u8 (X86_IDT_FLAG_BUILD X86_IDT_DPL_RING3 X86_IDT_GATE_TRAP_32)
  else u8 (X86_IDT_FLAG_BUILD X86_IDT_DPL_RING0 X86_IDT_GATE_INT_32).

Definition x86_isr_init : M idt_state unit :=
  for_each 0 X86_IDT_ENTRIES (fun i =>
    x86_idt_set_gate (u8 i) (mk_idt_gate (x86_isr_stub_table i) X86_GDT_SELECTOR_KERN_CODE (isr_flags i))).
End Isr.

Section IsrHandler.
Context {S A : Type}.
Context (x86_nmi_handler x86_exception_handler x86_irq_handler : M S A).

(** The common dispatcher, on the number pushed by the stub; [A] says how a
    handler ends. *)
Definition x86_isr_handler (int_no : Z) : M S A :=
  let vector := u8 int_no in
  if vector =? 2 then x86_nmi_handler
  else if vector <? 32 then x86_exception_handler
  else x86_irq_handler.
End IsrHandler.

(** ** Exceptions ([exception.c]) *)

Inductive exception_type := EXCEPTION_ARITHMETIC | EXCEPTION_UNKNOWN.

Record exception_info := mk_exception_info { ei_type : exception_type; ei_ip : Z; ei_user_mode : bool }.

Definition x86_exception_translate (vector : Z) : exception_type :=
  if vector =? 0 then EXCEPTION_ARITHMETIC else EXCEPTION_UNKNOWN.

(** The description handed to [exception_dispatch]. *)
Definition x86_exception_info (int_no eip cs : Z) : exception_info :=
  mk_exception_info (x86_exception_translate int_no) eip (Z.land cs 3 =? 3).

(** ** How the processor reads the tables *)

Definition segment_of (r : x86_gdt_raw_entry) : x86_gdt_entry :=
  mk_gdt_entry (gr_limit_low r + 65536 * (gr_limit_high_flags r mod 16))
    (gr_base_low r + 65536 * gr_base_mid r + 16777216 * gr_base_high r)
    (gr_access_byte r) (gr_limit_high_flags r / 16).

Definition seg_present (e : x86_gdt_entry) : bool := Z.testbit (ge_access e) 7.
Definition seg_dpl (e : x86_gdt_entry) : Z := ge_access e / 32 mod 4.
Definition seg_code_or_data (e : x86_gdt_entry) : bool := Z.testbit (ge_access e) 4.
Definition seg_type (e : x86_gdt_entry) : Z := ge_access e mod 16.
(** The last byte of the segment. *)
Definition seg_last (e : x86_gdt_entry) : Z :=
  if Z.testbit (ge_flags e) 3 then ge_limit e * 4096 + 4095 else ge_limit e.

(** The entry a selector refers to. *)
Definition selected_segment (s : gdt_state) (selector : Z) : x86_gdt_entry :=
  segment_of (nth (Z.to_nat (selector / 8)) (gdt s) gdt_raw_zero).

Record gate := mk_gate {
  gate_offset : Z; gate_selector : Z; gate_present : bool; gate_dpl : Z; gate_type : Z
}.

Definition gate_of (r : x86_idt_raw_entry) : gate :=
  mk_gate (ir_offset_low r + 65536 * ir_offset_high r) (ir_segment_selector r)
    (Z.testbit (ir_flags r) 7) (ir_flags r / 32 mod 4) (ir_flags r mod 16).

Lemma land_255 x : Z.land x 255 = x mod 256.
Proof. apply (Z.land_ones x 8). lia. Qed.
Lemma land_65535 x : Z.land x 65535 = x mod 65536.
Proof. apply (Z.land_ones x 16). lia. Qed.
Lemma land_15 x : Z.land x 15 = x mod 16.
Proof. apply (Z.land_ones x 4). lia. Qed.

(** The high nibble of a flag byte. *)
Lemma flags_nibble f : 0 <= f < 16 -> Z.land (Z.shiftl f 4) 240 = 16 * f.
Proof.
  intros Hf. rewrite Z.shiftl_mul_pow2 by lia. change 240 with (15 * 2 ^ 4).
  rewrite <- !Z.shiftl_mul_pow2, <- Z.shiftl_land by lia. rewrite land_15, Z.mod_small by lia.
  rewrite Z.shiftl_mul_pow2 by lia. lia.
Qed.

Lemma nibbles a f : 0 <= a < 16 -> 0 <= f < 16 -> Z.lor a (16 * f) = a + 16 * f.
Proof.
  intros Ha Hf. replace (16 * f) with (Z.shiftl f 4) by (rewrite Z.shiftl_mul_pow2; lia).
  assert (Z.land a (Z.shiftl f 4) = 0) as Hz.
  { apply Z.bits_inj'. intros i Hi. rewrite Z.land_spec, Z.bits_0. destruct (Z.lt_ge_cases i 4).
    - rewrite Z.shiftl_spec_low by done. apply andb_false_r.
    - by rewrite (testbit_high a 4) by lia. }
  by rewrite <- Z.lxor_lor, <- Z.add_nocarry_lxor by done.
Qed.

Definition entry_ok (e : x86_gdt_entry) : Prop :=
  0 <= ge_limit e < 1048576 /\ is_u32 (ge_base e) /\ is_u8 (ge_access e) /\ 0 <= ge_flags e < 16.

(** Storing an entry and reading it back. *)
Lemma set_entry_wp index e s (Q : unit -> gdt_state -> Prop) :
  entry_ok e -> 0 <= index < Z.of_nat (length (gdt s)) ->
  (forall r, segment_of r = e ->
     Q tt (mk_gdt_state (<[Z.to_nat index := r]> (gdt s)) (gdt_descriptor s) (gdtr s))) ->
  wp (x86_gdt_set_entry index e) Q s.
Proof.
  intros (Hl & Hb & Ha & Hf) Hi HQ. unfold wp, x86_gdt_set_entry.
  rewrite (proj2 (Z.leb_le 0 index)), (proj2 (Z.ltb_lt index _)) by lia. cbn [andb]. apply HQ.
  destruct e as [limit bs access flags]. cbn in *. unfold is_u32 in Hb. unfold segment_of; cbn.
  rewrite !land_65535, !land_255, !land_15, flags_nibble, !Z.shiftr_div_pow2 by lia.
  change (2 ^ 16) with 65536. change (2 ^ 24) with 16777216.
  rewrite (u8_id (16 * flags)) by (unfold is_u8; lia).
  rewrite (u8_id (limit / 65536 mod 16)), nibbles by (unfold is_u8 || idtac; dlia).
  rewrite (u8_id (limit / 65536 mod 16 + 16 * flags)) by (unfold is_u8; dlia).
  rewrite !u8_id, !u16_id by (unfold is_u8, is_u16; dlia). f_equal; dlia.
Qed.

(** One [x86_gdt_set_entry] of a constant descriptor. *)
Ltac store Ht r Hr :=
  wp_step; apply set_entry_wp;
  [ unfold entry_ok; repeat split; apply Ht || done
  | cbn [gdt]; rewrite ?length_insert, length_replicate; lia
  | intros r Hr; cbn [gdt gdt_descriptor gdtr] ].

(** The processor uses the kernel's table of segments. *)
Definition gdt_ready (gdt_addr tss_addr : Z) (s' : gdt_state) : Prop :=
  gdtr s' = Some (mk_gdt_descriptor 47 gdt_addr) /\ length (gdt s') = 6%nat /\
  seg_present (selected_segment s' 0) = false /\
  let flat sel dpl type :=
    let e := selected_segment s' sel in
    seg_present e = true /\ ge_base e = 0 /\ seg_last e = 4294967295 /\ seg_dpl e = dpl /\
    seg_code_or_data e = true /\ seg_type e = type in
  flat X86_GDT_SELECTOR_KERN_CODE 0 11 /\ flat X86_GDT_SELECTOR_KERN_DATA 0 3 /\
  flat X86_GDT_SELECTOR_USER_CODE 3 11 /\ flat X86_GDT_SELECTOR_USER_DATA 3 3 /\
  selected_segment s' X86_GDT_SELECTOR_TSS = mk_gdt_entry 103 tss_addr 137 0.

Lemma gdt_init_wp gdt_addr tss_addr s :
  is_u32 tss_addr -> wp (x86_gdt_init gdt_addr tss_addr) (fun _ s' => gdt_ready gdt_addr tss_addr s') s.
Proof.
  intros Ht. unfold gdt_ready. unfold x86_gdt_init. cbn zeta. wp_step. wp_step. wp_step. wp_step. cbn [gdt gdt_descriptor gdtr].
  store Ht r0 Hr0. store Ht r1 Hr1. store Ht r2 Hr2. store Ht r3 Hr3. store Ht r4 Hr4. store Ht r5 Hr5.
  unfold x86_gdt_flush. wp_step. cbn [gdt gdt_descriptor gdtr].
  unfold selected_segment; cbn [gdt]. split; [done|]. split; [done|].
  match goal with |- context [nth _ ?l _] => change l with [r0; r1; r2; r3; r4; r5] end.
  change (Z.to_nat (0 / 8)) with 0%nat. change (Z.to_nat (X86_GDT_SELECTOR_KERN_CODE / 8)) with 1%nat.
  change (Z.to_nat (X86_GDT_SELECTOR_KERN_DATA / 8)) with 2%nat.
  change (Z.to_nat (X86_GDT_SELECTOR_USER_CODE / 8)) with 3%nat.
  change (Z.to_nat (X86_GDT_SELECTOR_USER_DATA / 8)) with 4%nat.
  change (Z.to_nat (X86_GDT_SELECTOR_TSS / 8)) with 5%nat. cbn [nth].
  rewrite Hr0, Hr1, Hr2, Hr3, Hr4, Hr5. done.
Qed.

(** ** Properties *)



(** The kind of gate each vector gets. *)
Definition vector_dpl (v : Z) : Z := if v =? 128 then 3 else 0.
Definition vector_type (v : Z) : Z :=
  if (v =? 1) || (v =? 3) || (v =? 4) || (v =? 128) then X86_IDT_GATE_TRAP_32 else X86_IDT_GATE_INT_32.

Lemma isr_flags_spec v : 0 <= v < 256 ->
  Z.testbit (isr_flags v) 7 = true /\ isr_flags v / 32 mod 4 = vector_dpl v /\
  isr_flags v mod 16 = vector_type v.
Proof.
  intros Hv. unfold isr_flags, vector_dpl, vector_type.
  destruct (Z.ltb_spec v 32).
  - rewrite (proj2 (Z.eqb_neq v 128)) by lia. rewrite orb_false_r.
    destruct ((v =? 1) || (v =? 3) || (v =? 4)); done.
  - rewrite (proj2 (Z.eqb_neq v 1)), (proj2 (Z.eqb_neq v 3)), (proj2 (Z.eqb_neq v 4)) by lia.
    cbn [orb]. destruct (v =? 128); done.
Qed.

Lemma gate_of_handler h sel fl : is_u32 h ->
  gate_of (mk_idt_raw (u16 (Z.land h 65535)) sel 0 fl (u16 (Z.land (Z.shiftr h 16) 65535))) =
  mk_gate h sel (Z.testbit fl 7) (fl / 32 mod 4) (fl mod 16).
Proof.
  intros Hh. unfold is_u32 in Hh. unfold gate_of; cbn. rewrite !land_65535, Z.shiftr_div_pow2 by lia.
  change (2 ^ 16) with 65536. rewrite !u16_id by (unfold is_u16; dlia). f_equal. dlia.
Qed.

(** The processor uses a full table of gates. *)
Definition idt_ready (idt_addr : Z) (stubs : Z -> Z) (s' : idt_state) : Prop :=
  idtr s' = Some (mk_idt_descriptor 2047 idt_addr) /\ length (idt s') = 256%nat /\
  forall v, 0 <= v < 256 -> gate_of <$> idt s' !! Z.to_nat v =
    Some (mk_gate (stubs v) X86_GDT_SELECTOR_KERN_CODE true (vector_dpl v) (vector_type v)).

Lemma isr_init_wp idt_addr (stubs : Z -> Z) s :
  (forall v, is_u32 (stubs v)) ->
  wp (x86_idt_init idt_addr ;;; x86_isr_init stubs ;;; x86_idt_load) (fun _ s' => idt_ready idt_addr stubs s') s.
Proof.
  intros Hst. unfold x86_idt_init, x86_idt_desc_init. wp_steps. cbn [idt idt_desc idtr]. unfold x86_isr_init.
  apply (wp_for_each (fun i t => idt_desc t = mk_idt_descriptor 2047 idt_addr /\ length (idt t) = 256%nat /\
    forall v, 0 <= v < i -> gate_of <$> idt t !! Z.to_nat v =
      Some (mk_gate (stubs v) X86_GDT_SELECTOR_KERN_CODE true (vector_dpl v) (vector_type v)))).
  - split; [done|]. split; [by apply length_replicate|]. lia.
  - intros i t Hi (Hd & Hl & Hv). change X86_IDT_ENTRIES with 256 in Hi.
    rewrite (u8_id i) by (unfold is_u8; lia). unfold wp, x86_idt_set_gate. rewrite Hl.
    rewrite (proj2 (Z.leb_le 0 i)), (proj2 (Z.ltb_lt i (Z.of_nat 256))) by lia. cbn [andb idt idt_desc].
    split; [done|]. split; [by rewrite length_insert|]. intros v Hv'.
    destruct (Z.eq_dec v i) as [->|Hne].
    + rewrite list_lookup_insert_eq by lia. cbn [fmap option_fmap option_map ig_handler ig_selector ig_flags].
      rewrite gate_of_handler by done. destruct (isr_flags_spec i Hi) as (-> & -> & ->). done.
    + rewrite list_lookup_insert_ne by lia. apply Hv. lia.
  - intros t (Hd & Hl & Hv). unfold x86_idt_load. wp_step. unfold idt_ready. cbn [idtr idt]. rewrite Hd. auto.
Qed.

(** After [x86_idt_init] and [x86_isr_init] every one of the 256 vectors
    has a present gate in the kernel code segment that leads to its own stub;
    only vector 128, the system call, may be raised from ring 3; the gates of
    1, 3, 4 and 128 are trap gates, all others interrupt gates. *)
Theorem isr_init_correct idt_addr (stubs : Z -> Z) s :
  (forall v, is_u32 (stubs v)) ->
  wp (x86_idt_init idt_addr ;;; x86_isr_init stubs ;;; x86_idt_load) (fun _ s' =>
    idtr s' = Some (mk_idt_descriptor 2047 idt_addr) /\ length (idt s') = 256%nat /\
    forall v, 0 <= v < 256 -> gate_of <$> idt s' !! Z.to_nat v =
      Some (mk_gate (stubs v) X86_GDT_SELECTOR_KERN_CODE true (vector_dpl v) (vector_type v))) s.
Proof.
  intros Hst. by apply isr_init_wp.
Qed.

Lemma isr_init_correct_witness :
  let s := mk_idt_state [] (mk_idt_descriptor 0 0) None in
  let stubs v := 3222274048 + 16 * (v mod 256) in
  wp (x86_idt_init 4096 ;;; x86_isr_init stubs ;;; x86_idt_load) (fun _ s' =>
    idtr s' = Some (mk_idt_descriptor 2047 4096) /\ length (idt s') = 256%nat /\
    forall v, 0 <= v < 256 -> gate_of <$> idt s' !! Z.to_nat v =
      Some (mk_gate (stubs v) X86_GDT_SELECTOR_KERN_CODE true (vector_dpl v) (vector_type v))) s.
Proof.
  intros s stubs. apply (isr_init_correct 4096 stubs s). intros v. unfold stubs, is_u32. dlia.
Defined.
