(* ===== verification/Log.v ===== *)
(** * Kernel log, panic and the handlers that end in it

    Models [kernel/log/printk.c], [kernel/log/panic.c],
    [kernel/core/exception.c], [kernel/arch/x86/interrupt/nmi.c] and the handler
    of [kernel/arch/x86/interrupt/exception.c].

    - The state [klog] holds the system log ([Ringbuf]), the consoles
      ([Console]) and the flag [panicking]; the machine behind the ports is part
      of the consoles' state.
    - A function that does not return ends with [Halted]: the state is the one in
      which the processor enters the endless [hlt] loop, which changes nothing.
    - A variadic call is a format and the list of its arguments; a string literal
      is its bytes with the terminating zero. *)

From stdpp Require Import strings.
From S2P Require Import Prelude Base Buffer Hal Printf Ringbuf Console Descriptors.

(** The bytes of a literal. *)
Definition chars (s : String.string) : list Z :=
  map (fun c => Z.of_N (Ascii.N_of_ascii c)) (String.list_ascii_of_string s).

Lemma chars_nonzero (l : list Z) : forallb (fun c => negb (c =? 0)) l = true -> Forall (fun c => c <> 0) l.
Proof. rewrite forallb_forall, Forall_forall. intros Hl x Hx%list_elem_of_In%Hl. by destruct (Z.eqb_spec x 0). Qed.

Inductive outcome := Returned | Halted.

Record klog (D : Type) := mk_klog {
  kl_syslog : syslog;
  kl_screens : screens D;
  kl_panicking : bool
}.
Arguments mk_klog {D} _ _ _.
Arguments kl_syslog {D} _.
Arguments kl_screens {D} _.
Arguments kl_panicking {D} _.

Definition set_kl_syslog {D} (l : syslog) (s : klog D) : klog D := mk_klog l (kl_screens s) (kl_panicking s).
Definition set_kl_screens {D} (c : screens D) (s : klog D) : klog D := mk_klog (kl_syslog s) c (kl_panicking s).
Definition set_panicking {D} (b : bool) (s : klog D) : klog D := mk_klog (kl_syslog s) (kl_screens s) b.

(** ** [printk.h] *)

Definition PRINTK_FATAL : list Z := chars "[FATAL] ".
Definition PRINTK_ERR : list Z := chars "[ERR]   ".
Definition PRINTK_WARN : list Z := chars "[WARN]  ".
Definition PRINTK_INFO : list Z := chars "[INFO]  ".
Definition PRINTK_DEBUG : list Z := chars "[DEBUG] ".

Record x86_interrupt_frame := mk_frame {
  if_gs : Z; if_fs : Z; if_es : Z; if_ds : Z;
  if_edi : Z; if_esi : Z; if_ebp : Z; if_esp_dummy : Z;
  if_ebx : Z; if_edx : Z; if_ecx : Z; if_eax : Z;
  if_int_no : Z; if_err_code : Z;
  if_eip : Z; if_cs : Z; if_eflags : Z;
  if_user_esp : Z; if_user_ss : Z
}.

Section Log.
Context `{PortIO D} `{Cpu D}.
Context (ops_of : Z -> option (con_ops (D := D))).

Abbreviation K := (M (klog D)).

Definition vprintk (fmt : list Z) (args : list vararg) : K Z :=
  ' (total_len, buffer) <-- on_local (replicate 1024 0) (vsnprintf 1024 fmt args) ;;
  zoom kl_syslog set_kl_syslog (syslog_write buffer) ;;;
  zoom kl_screens set_kl_screens (console_write ops_of (Some buffer) (u32 total_len)) ;;;
  ret total_len.

Definition printk (fmt : list Z) (args : list vararg) : K Z := vprintk fmt args.

Definition pr_fatal (fmt : list Z) (args : list vararg) : K Z := printk (PRINTK_FATAL ++ fmt) args.
Definition pr_err (fmt : list Z) (args : list vararg) : K Z := printk (PRINTK_ERR ++ fmt) args.
Definition pr_warn (fmt : list Z) (args : list vararg) : K Z := printk (PRINTK_WARN ++ fmt) args.
Definition pr_info (fmt : list Z) (args : list vararg) : K Z := printk (PRINTK_INFO ++ fmt) args.
Definition pr_debug (fmt : list Z) (args : list vararg) : K Z := printk (PRINTK_DEBUG ++ fmt) args.

(** ** [panic.c] *)

Definition log_cli : K unit := zoom kl_screens set_kl_screens (zoom cdev set_cdev cli).

Definition vpanic (fmt : list Z) (args : list vararg) : K outcome :=
  log_cli ;;;
  panicking <-- gets kl_panicking ;;
  (if panicking then ret tt
   else
     modify (set_panicking true) ;;;
     pr_fatal ([10; 10] ++ chars "--- KERNEL PANIC ---" ++ [10; 0]) [] ;;;
     vprintk fmt args ;;;
     printk [10; 0] [] ;;;
     ret tt) ;;;
  pr_fatal ([10] ++ chars "--- System Halted ---" ++ [10; 0]) [] ;;;
  ret Halted.

Definition panic (fmt : list Z) (args : list vararg) : K outcome := vpanic fmt args.

(** ** Exceptions and the non-maskable interrupt *)

Definition exception_code (t : exception_type) : Z :=
  match t with EXCEPTION_ARITHMETIC => 0 | EXCEPTION_UNKNOWN => 1 end.

Definition exception_dispatch (info : exception_info) : K outcome :=
  panic (chars "Exception %d at %p" ++ [0]) [VWord (exception_code (ei_type info)); VWord (ei_ip info)].

Definition x86_exception_handler (frame : x86_interrupt_frame) : K outcome :=
  exception_dispatch (x86_exception_info (if_int_no frame) (if_eip frame) (if_cs frame)).

Definition x86_nmi_handler (frame : x86_interrupt_frame) : K outcome :=
  panic (chars "NMI received" ++ [0]) [].

(** The dispatcher of [isr.c] with the handlers above. *)
Definition isr_entry (x86_irq_handler : x86_interrupt_frame -> K outcome) (frame : x86_interrupt_frame) : K outcome :=
  x86_isr_handler (x86_nmi_handler frame) (x86_exception_handler frame) (x86_irq_handler frame) (if_int_no frame).
End Log.

(** ** What reaches the log and the screen *)

(** The machine: [cli] clears the interrupt flag and leaves the display
    controller alone; a port instruction leaves the interrupt flag alone. *)
Class LogHw (D : Type) `{CrtcHw D base} `{Cpu D} := {
  cli_display : forall d Q,
    (forall d', if_set d' = false -> (forall r, crtc_reg d' r = crtc_reg d r) -> Q tt d') -> wp cli Q d;
  out_flag : forall w port v d r d', port_out w port v d = Some (r, d') -> if_set d' = if_set d
}.

Lemma uint_text_ok base0 upper n : 2 <= base0 <= 16 ->
  Forall (fun c => c <> 0) (uint_text base0 upper n) /\ (length (uint_text base0 upper n) <= 33)%nat.
Proof.
  intros Hb. unfold uint_text. destruct (n =? 0); [split; [by repeat constructor | cbn; lia]|].
  unfold digits. split.
  - apply Forall_map, Forall_rev, Forall_forall. intros x Hx. apply rev_digits_range in Hx; [|lia].
    unfold compose, digit_char. repeat case_match; lia.
  - rewrite length_map, length_rev. pose proof (rev_digits_length base0 32 n). lia.
Qed.

Section Output.
Context `{LogHw D base}.
Context (ops : Z -> option (con_ops (D := D))).
Context (s0 : screens D) (con nm buf : Z).
Hypothesis base_range : 0 <= base < 65535.

(** Either no console is registered or it is a VGA console showing [t]. *)
Definition console_ok (o : option term) : Prop :=
  match o with
  | None => active_con s0 = 0
  | Some t => active_con s0 = con /\ con <> 0 /\ ops con = Some vga_ops /\ term_ok t
  end.

Definition display (o : option term) (d : D) : screens D :=
  match o with
  | None => set_cdev d s0
  | Some t => showing s0 con nm buf base t d
  end.

(** The display controller after an output: the cursor follows, if there is one. *)
Definition device_after (o : option term) (d d' : D) : Prop :=
  match o with
  | None => forall r, crtc_reg d' r = crtc_reg d r
  | Some t => cursor_at d d' t
  end.

(** The log got the bytes [L], the screen shows [o]. *)
Record logged (L : list Z) (o : option term) (d : D) (p : bool) (s : klog D) : Prop := {
  lo_log : log_ok (kl_syslog s) L;
  lo_screens : kl_screens s = display o d;
  lo_console : console_ok o;
  lo_panicking : kl_panicking s = p
}.

Lemma device_after_trans (o : option term) f g d d' d'' :
  device_after (option_map f o) d d' -> device_after (option_map g o) d' d'' -> device_after (option_map g o) d d''.
Proof.
  destruct o as [t|]; cbn; [|intros K1 K2 r; by rewrite K2, K1].
  intros [_ K1] [C2 K2]. split; [done|]. intros r H14 H15. by rewrite K2, K1.
Qed.

Lemma device_after_same o d d' d'' :
  (forall r, crtc_reg d' r = crtc_reg d r) -> device_after o d' d'' -> device_after o d d''.
Proof.
  intros K1. destruct o as [t|]; cbn; [|intros K2 r; by rewrite K2, K1].
  intros [C2 K2]. split; [done|]. intros r H14 H15. by rewrite K2, K1.
Qed.

Lemma flag_kept d d' : rtc port_step d d' -> if_set d' = if_set d.
Proof.
  induction 1 as [|x y z (w & p & v & Hs) _ IH]; [done|]. rewrite IH. by apply out_flag in Hs.
Qed.

Lemma log_cli_wp L o d p s (Q : unit -> klog D -> Prop) :
  logged L o d p s ->
  (forall d' s', logged L o d' p s' -> if_set d' = false -> (forall r, crtc_reg d' r = crtc_reg d r) -> Q tt s') ->
  wp log_cli Q s.
Proof.
  intros [Hl Hs Hc Hp] HQ. unfold log_cli. do 2 wp_step. rewrite Hs.
  replace (cdev (display o d)) with d by (by destruct o). apply cli_display. intros d' Hf Hr.
  apply (HQ d'); [|done | done]. split; [done | | done | done]. by destruct o.
Qed.

(** The bytes the format yields fit in the buffer and contain no zero. *)
Definition message (fmt : list Z) (args : list vararg) (out : list Z) : Prop :=
  Forall arg_ok args /\ render fmt args = Some out /\ (length out < 1024)%nat /\ Forall (fun c => c <> 0) out.

Lemma vprintk_wp L o d p s fmt args out (Q : Z -> klog D -> Prop) :
  logged L o d p s -> message fmt args out ->
  (forall d' s', let o' := option_map (fun t => term_write t out) o in
     logged (L ++ map u8 out) o' d' p s' -> device_after o' d d' -> rtc port_step d d' ->
     Q (Z.of_nat (length out)) s') ->
  wp (vprintk ops fmt args) Q s.
Proof.
  intros [Hl Hs Hc Hp] (Ha & Hr & Hlen & Hz) HQ. unfold vprintk. wp_step. apply on_local_wp.
  wp_use vsnprintf_wp; [rewrite length_replicate; lia | lia | exact Ha | exact Hr | lia |].
  intros r b [-> ->]. unfold printed. rewrite Nat.min_l by lia. rewrite firstn_all. cbn [Z.ltb Z.compare].
  set (tail := drop _ _). assert (length tail = 1023 - length out)%nat as Htl
    by (unfold tail; rewrite length_drop, length_replicate; lia).
  do 2 wp_step. wp_use syslog_write_wp; [exact Hz | exact Hl |]. intros [] l' Hl'.
  do 2 wp_step. cbn [kl_screens set_kl_syslog]. rewrite Hs, u32_id by (unfold is_u32; lia).
  destruct o as [t|]; cbn [display console_ok] in *.
  - destruct Hc as (Hact & Hcon & Hops & Ht).
    apply console_write_wp; [done..| rewrite length_app; cbn; lia |].
    intros d'. cbv zeta. rewrite Nat2Z.id, take_app_length. intros Ht' Hd' Hsteps. wp_step.
    apply (HQ d'); [split; cbn; done | exact Hd' | done].
  - unfold console_write, with_active. do 2 wp_step. cbn [active_con set_cdev]. rewrite Hc. cbn [Z.eqb]. do 2 wp_step.
    by apply (HQ d); [split; cbn | |].
Qed.
(** ** Panic *)

Definition panic_banner : list Z := chars "[FATAL] " ++ [10; 10] ++ chars "--- KERNEL PANIC ---" ++ [10].
Definition halt_banner : list Z := chars "[FATAL] " ++ [10] ++ chars "--- System Halted ---" ++ [10].

(** The text of a panic with the message [out]; a panic during a panic prints the
    last line only. *)
Definition panic_text (panicking : bool) (out : list Z) : list Z :=
  (if panicking then [] else panic_banner ++ out ++ [10]) ++ halt_banner.

Lemma banner_message :
  message (PRINTK_FATAL ++ [10; 10] ++ chars "--- KERNEL PANIC ---" ++ [10; 0]) [] panic_banner /\
  message [10; 0] [] [10] /\
  message (PRINTK_FATAL ++ [10] ++ chars "--- System Halted ---" ++ [10; 0]) [] halt_banner.
Proof.
  repeat split; try constructor; try reflexivity; try (vm_compute; lia); by apply chars_nonzero.
Qed.

Lemma option_term_write (o : option term) a b :
  option_map (fun t => term_write t b) (option_map (fun t => term_write t a) o) =
  option_map (fun t => term_write t (a ++ b)) o.
Proof. destruct o as [t|]; [|done]. cbn. f_equal. unfold term_write. by rewrite fold_left_app. Qed.

(** Output of [out2] after [out1]. *)
Lemma vprintk_next L o d0 d p s fmt args out1 out2 (Q : Z -> klog D -> Prop) :
  logged (L ++ map u8 out1) (option_map (fun t => term_write t out1) o) d p s ->
  device_after (option_map (fun t => term_write t out1) o) d0 d ->
  message fmt args out2 ->
  (forall d' s', let o' := option_map (fun t => term_write t (out1 ++ out2)) o in
     logged (L ++ map u8 (out1 ++ out2)) o' d' p s' -> device_after o' d0 d' -> rtc port_step d d' ->
     Q (Z.of_nat (length out2)) s') ->
  wp (vprintk ops fmt args) Q s.
Proof.
  intros Hs Hd Hm HQ. eapply vprintk_wp; [exact Hs | exact Hm |]. cbv zeta.
  rewrite option_term_write, <- app_assoc, <- map_app. intros d' s' Hs' Hd' Hf.
  apply (HQ d'); [done | | done]. by eapply device_after_trans.
Qed.

Lemma vpanic_wp L o d p s fmt args out :
  logged L o d p s -> message fmt args out ->
  wp (vpanic ops fmt args) (fun r s' => r = Halted /\ exists d',
    let o' := option_map (fun t => term_write t (panic_text p out)) o in
    logged (L ++ map u8 (panic_text p out)) o' d' true s' /\ device_after o' d d' /\ if_set d' = false) s.
Proof.
  intros Hs Hm. destruct banner_message as (M1 & M2 & M3). unfold vpanic. wp_step.
  eapply log_cli_wp; [exact Hs|]. clear s Hs. intros d1 s Hs Hf Hr. do 2 wp_step. rewrite (lo_panicking _ _ _ _ _ Hs).
  wp_step. destruct p.
  - wp_step. wp_step. unfold pr_fatal, printk. eapply vprintk_wp; [exact Hs | exact M3 |]. cbv zeta. intros d2 s2 Hs2 Hd2 Hf2%flag_kept.
    wp_step. split; [done|]. exists d2. cbn [panic_text app]. split; [done|]. split; [|congruence].
    by eapply device_after_same.
  - do 2 wp_step. wp_step. unfold pr_fatal, printk.
    eapply (vprintk_wp L o d1 true); [destruct Hs; by split | exact M1 |]. cbv zeta. intros d2 s2 Hs2 Hd2 Hf2%flag_kept.
    wp_step. eapply (vprintk_next L o d1); [exact Hs2 | exact Hd2 | exact Hm |]. cbv zeta. intros d3 s3 Hs3 Hd3 Hf3%flag_kept.
    wp_step. eapply (vprintk_next L o d1); [exact Hs3 | exact Hd3 | exact M2 |]. cbv zeta. intros d4 s4 Hs4 Hd4 Hf4%flag_kept.
    do 2 wp_step. eapply (vprintk_next L o d1); [exact Hs4 | exact Hd4 | exact M3 |]. cbv zeta. intros d5 s5 Hs5 Hd5 Hf5%flag_kept.
    wp_step. split; [done|]. exists d5.
    replace (panic_text false out) with (((panic_banner ++ out) ++ [10]) ++ halt_banner)
      by (unfold panic_text; by rewrite <- !app_assoc).
    split; [done|]. split; [|congruence]. by eapply device_after_same.
Qed.

(** ** The message of an exception *)

(** What the handler of [frame] says. *)
Definition exception_text (frame : x86_interrupt_frame) : list Z :=
  if if_int_no frame =? 2 then chars "NMI received"
  else chars "Exception " ++ [if if_int_no frame =? 0 then 48 else 49] ++ chars " at 0x" ++
       uint_text 16 false (if_eip frame).

Lemma exception_message type ip : is_u32 ip ->
  message (chars "Exception %d at %p" ++ [0]) [VWord (exception_code type); VWord ip]
    (chars "Exception " ++ [if type is EXCEPTION_ARITHMETIC then 48 else 49] ++ chars " at 0x" ++ uint_text 16 false ip).
Proof.
  intros Hip. destruct (uint_text_ok 16 false ip) as [Hz Hl]; [lia|]. split; [|split; [|split]].
  - apply Forall_cons; split; [destruct type; unfold arg_ok, is_u32; cbn; lia | by apply Forall_singleton].
  - destruct type; vm_compute chars; cbn [app exception_code]; cbn -[uint_text]; by rewrite ?app_nil_r.
  - rewrite !length_app. cbn [length]. change (length (chars "Exception ")) with 10%nat.
    change (length (chars " at 0x")) with 6%nat. lia.
  - repeat (apply Forall_app; split); try done; apply chars_nonzero; by destruct type.
Qed.
End Output.

Abbreviation hex := (uint_text 16 false).
Abbreviation dec := (uint_text 10 false).

(** A text made of literals and numbers. *)
Ltac text_ok :=
  repeat match goal with
  | |- Forall _ (_ ++ _) => apply Forall_app; split
  | |- Forall _ (uint_text _ _ _) => apply uint_text_ok; lia
  | |- Forall _ _ => first [done | by apply chars_nonzero]
  end.
Ltac text_short :=
  repeat match goal with
  | |- context [length (uint_text ?b ?u ?n)] =>
      let k := fresh "k" in let Hk := fresh "Hk" in
      pose proof (proj2 (uint_text_ok b u n ltac:(lia))) as Hk;
      set (k := length (uint_text b u n)) in *; clearbody k
  | |- context [length (chars ?s)] =>
      let n := eval vm_compute in (length (chars s)) in change (length (chars s)) with n
  end; cbn [length]; lia.
Ltac arguments_ok := repeat (apply Forall_cons; split); [done..| constructor].

(** ** Properties *)

Section Properties.
Context `{LogHw D base}.

(** C15. A kernel message reaches the log and the screen: for a format that yields
    at most 1023 bytes, none of them zero, [printk] returns their number, appends
    them to the system log and, when a console is registered, writes them to its
    terminal with the cursor following; without a console the screen and the
    display controller are left alone.  The interrupt flag is kept. *)
Theorem printk_correct ops s0 con nm buf L o d p s fmt args out :
  0 <= base < 65535 -> logged (base := base) ops s0 con nm buf L o d p s -> message fmt args out ->
  wp (printk ops fmt args) (fun r s' => r = Z.of_nat (length out) /\ exists d',
    let o' := option_map (fun t => term_write t out) o in
    logged (base := base) ops s0 con nm buf (L ++ map u8 out) o' d' p s' /\ device_after o' d d' /\ if_set d' = if_set d) s.
Proof.
  intros Hb Hs Hm. eapply vprintk_wp; [exact Hb | exact Hs | exact Hm |]. cbv zeta. intros d' s' Hs' Hd' Hf%flag_kept.
  split; [done|]. by exists d'.
Qed.

(** C11. A processor exception stops the kernel with a report: the dispatcher, entered
    with a vector below 32, ends halted with interrupts disabled, and the log and the
    terminal show the panic banner, the kind of the exception and the address of
    the faulting instruction in hexadecimal (or the NMI) and the final line; an exception during a
    panic shows the final line only and so cannot loop. *)
Theorem exception_halts ops s0 con nm buf L o d p s irq frame :
  0 <= base < 65535 -> logged (base := base) ops s0 con nm buf L o d p s -> 0 <= if_int_no frame < 32 -> is_u32 (if_eip frame) ->
  wp (isr_entry ops irq frame) (fun r s' => r = Halted /\ exists d',
    let text := panic_text p (exception_text frame) in
    let o' := option_map (fun t => term_write t text) o in
    logged (base := base) ops s0 con nm buf (L ++ map u8 text) o' d' true s' /\ device_after o' d d' /\ if_set d' = false) s.
Proof.
  intros Hb Hs Hv Hip. unfold isr_entry, x86_isr_handler, exception_text. rewrite u8_id by (unfold is_u8; lia).
  destruct (Z.eqb_spec (if_int_no frame) 2) as [E|E].
  - apply vpanic_wp; [done | done |]. repeat split; [constructor | vm_compute; lia | by apply chars_nonzero].
  - destruct (Z.ltb_spec (if_int_no frame) 32); [|lia].
    unfold x86_exception_handler, exception_dispatch, x86_exception_info, x86_exception_translate. cbn [ei_type ei_ip].
    eapply vpanic_wp; [done | done |]. destruct (if_int_no frame =? 0);
      [by apply (exception_message EXCEPTION_ARITHMETIC) | by apply (exception_message EXCEPTION_UNKNOWN)].
Qed.
End Properties.

(** ** A message longer than the buffer *)

Lemma for_n_none {S A R} n : forall i (acc : A) (body : Z -> A -> M S (A + R)) k acc' s s',
  (k < n)%nat -> for_n k i acc body s = Some (inl acc', s') -> body (i + Z.of_nat k) acc' s' = None ->
  for_n n i acc body s = None.
Proof.
  induction n as [|n IH]; intros i acc body k acc' s s' Hk Hrun Hnone; [lia|]. cbn [for_n]. unfold bind.
  destruct k as [|k]; cbn [for_n] in Hrun.
  - injection Hrun as <- <-. rewrite Z.add_0_r in Hnone. by rewrite Hnone.
  - unfold bind in Hrun. destruct (body i acc s) as [[[a|r] t]|]; [|done..].
    apply (IH _ _ _ k acc' _ s'); [lia | done |]. by replace (i + 1 + Z.of_nat k) with (i + Z.of_nat (Datatypes.S k)) by lia.
Qed.

Lemma for_each_none {S} (body : Z -> M S unit) k n s s' :
  0 <= k < n -> for_each 0 k body s = Some (tt, s') -> body k s' = None -> for_each 0 n body s = None.
Proof.
  intros Hk Hrun Hnone. unfold for_each, for_lt, bind in *. rewrite !Z.sub_0_r in *.
  destruct (for_n _ _ _ _ s) as [[[[]|[]] t]|] eqn:E in Hrun; [|done]. injection Hrun as ->.
  erewrite (for_n_none (Z.to_nat n)); [done | | exact E |]; [lia|]. cbn beta.
  rewrite Z2Nat.id by lia. rewrite Z.add_0_l. by rewrite Hnone.
Qed.

(** [vprintk] hands the console the length of the whole text, not of what its
    buffer holds: with a console registered, a message of more than 1024 bytes
    makes the console read past the end of the buffer. *)
Theorem printk_long_undefined `{LogHw D base} ops s0 con nm buf L t d p s fmt args out :
  logged (base := base) ops s0 con nm buf L (Some t) d p s -> Forall arg_ok args -> render fmt args = Some out ->
  1024 < Z.of_nat (length out) < 2147483648 -> Forall (fun c => c <> 0) out ->
  printk ops fmt args s = None.
Proof.
  intros [Hl Hs (Hact & Hcon & Hops & Ht) Hp] Ha Hr Hlen Hz. unfold printk, vprintk, bind, on_local.
  destruct (proj1 (wp_run _ _ _) (vsnprintf_wp (replicate 1024 0) fmt out 1024 args
    ltac:(by rewrite length_replicate) ltac:(lia) Ha Hr ltac:(lia))) as (r & b & -> & -> & ->).
  set (text := printed 1024 out (replicate 1024 0)).
  assert (text = take 1023 out ++ [0]) as Et.
  { unfold text, printed. rewrite Nat.min_r by lia. reflexivity. }
  assert (length text = 1024%nat) as Hlt by (rewrite Et, length_app, length_take; cbn [length]; lia).
  unfold zoom at 1. rewrite Et.
  destruct (proj1 (wp_run _ _ _) (syslog_write_wp (take 1023 out) [] (Forall_take _ _ _ Hz) _ _ Hl)) as ([] & l' & -> & Hl').
  rewrite <- Et. unfold zoom. cbn [kl_screens set_kl_syslog]. rewrite Hs, u32_id by (unfold is_u32; lia). cbn [display].
  unfold console_write, with_active, bind, gets. cbn [active_con showing]. rewrite Hact, (proj2 (Z.eqb_neq _ _) Hcon), Hops.
  cbn [con_write vga_ops]. unfold vga_text_console_write. rewrite (proj2 (Z.eqb_neq _ _) Hcon). unfold bind.
  destruct (proj1 (wp_run _ _ _) (write_chars_wp s0 con nm buf base t d text 1024 (fun _ _ => True) Ht
    ltac:(lia) I)) as ([] & s' & Hrun & _).
  rewrite (for_each_none _ 1024 _ _ s'); [done | lia | exact Hrun |].
  by rewrite lookup_ge_None_2 by (rewrite Hlt; lia).
Qed.

(** ** A machine with a display controller and flags *)

Module LogMachine.
Definition machine : Type := CrtcMachine.machine * Z.

#[export] Instance machine_ports : PortIO machine := {
  port_in := fun w port d => match port_in (PortIO := CrtcMachine.crtc_ports) w port (fst d) with Some (v, c) => Some (v, (c, snd d)) | None => None end;
  port_out := fun w port v d => match port_out (PortIO := CrtcMachine.crtc_ports) w port v (fst d) with Some (u, c) => Some (u, (c, snd d)) | None => None end
}.

#[export] Instance machine_crtc : CrtcHw machine 980.
Proof.
  refine {| crtc_index := fun d : machine => fst (fst d); crtc_reg := fun d : machine => snd (fst d) |}.
  - intros d v Q _ HQ. by apply HQ.
  - intros d v Q _ HQ. by apply HQ.
Defined.

#[export] Instance machine_cpu : Cpu machine := {
  eflags := snd;
  popf := fun v => modify (fun d => (fst d, v));
  cli := modify (fun d => (fst d, Z.clearbit (snd d) 9));
  sti := modify (fun d => (fst d, Z.setbit (snd d) 9))
}.

#[export] Instance machine_log : LogHw machine.
Proof.
  split.
  - intros d Q HQ. apply wp_modify, HQ; [|done]. apply Z.clearbit_eq.
  - intros w port v [c f] r d'. cbn. by intros [= _ <-].
Qed.

Definition d0 : machine := ((0, fun _ => 0), 512).
Definition screens0 : screens machine := mk_screens 4096 ∅ ∅ d0.
Definition ops0 (con : Z) : option con_ops := if con =? 4096 then Some vga_ops else None.
Definition klog0 : klog machine :=
  mk_klog syslog_sample (showing screens0 4096 0 753664 980 CrtcMachine.screen0 d0) false.
Definition divide_error : x86_interrupt_frame := mk_frame 0 0 0 0 0 0 0 0 0 0 0 0 0 0 4096 8 512 0 0.

Lemma klog0_ok : logged (base := 980) ops0 screens0 4096 0 753664 [] (Some CrtcMachine.screen0) d0 false klog0.
Proof.
  split; [exact syslog_sample_ok | done | | done]. split; [done|]. split; [done|]. split; [done|].
  split; [by apply length_replicate|]. split; [apply Forall_replicate; done | done].
Qed.
End LogMachine.

Import LogMachine.

(** "Hi %u" with 7. *)
Lemma printk_correct_witness :
  let out := chars "Hi 7" in
  wp (printk ops0 (chars "Hi %u" ++ [0]) [VWord 7]) (fun r s' => r = Z.of_nat (length out) /\ exists d',
    let t' := option_map (fun t => term_write t out) (Some CrtcMachine.screen0) in
    logged (base := 980) ops0 screens0 4096 0 753664 ([] ++ map u8 out) t' d' false s' /\
    device_after t' d0 d' /\ if_set d' = if_set d0) klog0.
Proof.
  intros out.
  apply (printk_correct ops0 screens0 4096 0 753664 [] (Some CrtcMachine.screen0) d0 false klog0
    (chars "Hi %u" ++ [0]) [VWord 7] out); [done | apply klog0_ok |].
  split; [by apply Forall_singleton|]. split; [reflexivity|]. split; [vm_compute; lia | by apply chars_nonzero].
Defined.

(** A division error at 0x1000. *)
Lemma exception_halts_witness :
  exception_text divide_error = chars "Exception 0 at 0x1000" /\
  wp (isr_entry ops0 (fun _ => ret Returned) divide_error) (fun r s' => r = Halted /\ exists d',
    let text := panic_text false (exception_text divide_error) in
    let t' := option_map (fun t => term_write t text) (Some CrtcMachine.screen0) in
    logged (base := 980) ops0 screens0 4096 0 753664 ([] ++ map u8 text) t' d' true s' /\
    device_after t' d0 d' /\ if_set d' = false) klog0.
Proof.
  split; [reflexivity|].
  apply (exception_halts ops0 screens0 4096 0 753664 [] (Some CrtcMachine.screen0) d0 false klog0
    (fun _ => ret Returned) divide_error); [done | apply klog0_ok | done | done].
Defined.

(** 1025 letters. *)
Lemma printk_long_undefined_witness : printk ops0 (replicate 1025 97 ++ [0]) [] klog0 = None.
Proof.
  apply (printk_long_undefined ops0 screens0 4096 0 753664 [] CrtcMachine.screen0 d0 false klog0
    (replicate 1025 97 ++ [0]) [] (replicate 1025 97)).
  - apply klog0_ok.
  - constructor.
  - vm_compute. reflexivity.
  - rewrite length_replicate. lia.
  - by apply Forall_replicate.
Defined.
