(* ===== verification/Cpuid.v ===== *)
(** * Processor identification

    Models [kernel/arch/x86/cpu/cpuid.c].  The state is the object
    [x86_cpu_info] beside the kernel log ([Log.klog]), whose machine also
    carries EFLAGS.  The [cpuid] instruction is an operation of a class; whether
    the processor has it shows, as in the IA-32 manual, in whether [popf] can
    change the ID flag. *)

From stdpp Require Import strings.
From S2P Require Import Prelude Base Buffer Hal Printf Ringbuf Console Log.

Record x86_cpuid_regs := mk_regs { r_eax : Z; r_ebx : Z; r_ecx : Z; r_edx : Z }.

Record x86_cpuid_leaf_1 := mk_leaf_1 {
  l1_valid : bool;
  l1_stepping : Z; l1_model : Z; l1_family : Z; l1_type : Z;
  l1_extended_model : Z; l1_extended_family : Z;
  l1_clflush_size : Z; l1_logical_processors : Z; l1_initial_apic_id : Z;
  l1_features_ecx : Z; l1_features_edx : Z
}.

Record x86_cpu_info := mk_cpu_info {
  ci_vendor : list Z;
  ci_max_basic_leaf : Z;
  ci_max_extended_leaf : Z;
  ci_leaf1 : x86_cpuid_leaf_1
}.

Definition leaf_1_zero : x86_cpuid_leaf_1 := mk_leaf_1 false 0 0 0 0 0 0 0 0 0 0 0.
(** After the [memset]. *)
Definition cpu_info_zero : x86_cpu_info := mk_cpu_info (replicate 13 0) 0 0 leaf_1_zero.

Definition set_vendor (v : list Z) (i : x86_cpu_info) : x86_cpu_info :=
  mk_cpu_info v (ci_max_basic_leaf i) (ci_max_extended_leaf i) (ci_leaf1 i).
Definition set_max_basic_leaf (v : Z) (i : x86_cpu_info) : x86_cpu_info :=
  mk_cpu_info (ci_vendor i) v (ci_max_extended_leaf i) (ci_leaf1 i).
Definition set_max_extended_leaf (v : Z) (i : x86_cpu_info) : x86_cpu_info :=
  mk_cpu_info (ci_vendor i) (ci_max_basic_leaf i) v (ci_leaf1 i).
Definition set_leaf1 (l : x86_cpuid_leaf_1) (i : x86_cpu_info) : x86_cpu_info :=
  mk_cpu_info (ci_vendor i) (ci_max_basic_leaf i) (ci_max_extended_leaf i) l.

Record cpu_state (D : Type) := mk_cpu_state { cs_info : x86_cpu_info; cs_klog : klog D }.
Arguments mk_cpu_state {D} _ _.
Arguments cs_info {D} _.
Arguments cs_klog {D} _.
Definition set_cs_info {D} (i : x86_cpu_info) (s : cpu_state D) : cpu_state D := mk_cpu_state i (cs_klog s).
Definition set_cs_klog {D} (l : klog D) (s : cpu_state D) : cpu_state D := mk_cpu_state (cs_info s) l.

(** The [cpuid] instruction on a leaf and a subleaf. *)
Class CpuId (D : Type) := { cpuid : D -> Z -> Z -> x86_cpuid_regs }.

(** The bytes of a register in memory. *)
Definition reg_bytes (r : Z) : list Z := [u8 r; u8 (r / 256); u8 (r / 65536); u8 (r / 16777216)].

Definition CPUINFO_LOG : list Z := chars "CPUINFO: ".

(** The whole structure after the decoding of leaf 1. *)
Definition x86_cpuid_leaf_1_decode (regs : x86_cpuid_regs) (leaf : x86_cpuid_leaf_1) : x86_cpuid_leaf_1 :=
  let eax := r_eax regs in
  let ebx := r_ebx regs in
  {| l1_stepping := u8 (Z.land eax 15);
     l1_model := u8 (Z.land (Z.shiftr eax 4) 15);
     l1_family := u8 (Z.land (Z.shiftr eax 8) 15);
     l1_type := u8 (Z.land (Z.shiftr eax 12) 3);
     l1_extended_model := u8 (Z.land (Z.shiftr eax 16) 15);
     l1_extended_family := u8 (Z.land (Z.shiftr eax 20) 255);
     l1_clflush_size := u8 (u32 (Z.land (Z.shiftr ebx 8) 255 * 8));
     l1_logical_processors := u8 (Z.land (Z.shiftr ebx 16) 255);
     l1_initial_apic_id := u8 (Z.land (Z.shiftr ebx 24) 255);
     l1_features_ecx := r_ecx regs;
     l1_features_edx := r_edx regs;
     l1_valid := true |}.

Section Cpuid.
Context `{PortIO D} `{Cpu D} `{CpuId D}.
Context (ops_of : Z -> option (con_ops (D := D))).

Abbreviation K := (M (cpu_state D)).

Definition on_cpu {A} (c : M D A) : K A :=
  zoom cs_klog set_cs_klog (zoom kl_screens set_kl_screens (zoom cdev set_cdev c)).
Definition cpu_debug (fmt : list Z) (args : list vararg) : K unit :=
  zoom cs_klog set_cs_klog (pr_debug ops_of (CPUINFO_LOG ++ fmt) args) ;;; ret tt.

Definition x86_cpuid_supported : K bool :=
  on_cpu (
    old <-- x86_eflags_read ;;
    let test := Z.lxor old X86_FLAGS_ID_MASK in
    x86_eflags_write test ;;;
    now <-- x86_eflags_read ;;
    x86_eflags_write old ;;;
    ret (MASK_TEST (Z.lxor old now) X86_FLAGS_ID_MASK)).

Definition x86_cpuid (leaf subleaf : Z) : K x86_cpuid_regs := on_cpu (gets (fun d => cpuid d leaf subleaf)).

Definition detect_leaf_1 : K unit :=
  regs <-- x86_cpuid 1 0 ;;
  modify (fun s => set_cs_info (set_leaf1 (x86_cpuid_leaf_1_decode regs (ci_leaf1 (cs_info s))) (cs_info s)) s) ;;;
  l <-- gets (fun s => ci_leaf1 (cs_info s)) ;;
  cpu_debug (chars "Family (0x%x), Model (0x%x), Stepping (0x%x)" ++ [10; 0])
    [VWord (l1_family l); VWord (l1_model l); VWord (l1_stepping l)] ;;;
  cpu_debug (chars "Logical processors (%u), Initial APIC ID (%u)" ++ [10; 0])
    [VWord (l1_logical_processors l); VWord (l1_initial_apic_id l)] ;;;
  cpu_debug (chars "CLFLUSH line size (%uB)" ++ [10; 0]) [VWord (l1_clflush_size l)] ;;;
  cpu_debug (chars "CPUID.01H.ECX (0x%x), CPUID.01H.EDX (0x%x)" ++ [10; 0])
    [VWord (l1_features_ecx l); VWord (l1_features_edx l)].

Definition x86_cpu_detect : K bool :=
  modify (set_cs_info cpu_info_zero) ;;;
  supported <-- x86_cpuid_supported ;;
  if negb supported then ret false
  else
    regs <-- x86_cpuid 0 0 ;;
    modify (fun s => set_cs_info (set_max_basic_leaf (r_eax regs) (cs_info s)) s) ;;;
    modify (fun s => set_cs_info (set_vendor
      (reg_bytes (r_ebx regs) ++ reg_bytes (r_edx regs) ++ reg_bytes (r_ecx regs) ++ [0]) (cs_info s)) s) ;;;
    regs <-- x86_cpuid 2147483648 0 ;;
    modify (fun s => set_cs_info (set_max_extended_leaf (r_eax regs) (cs_info s)) s) ;;;
    i <-- gets cs_info ;;
    cpu_debug (chars "Vendor (%s), Max basic leaf (0x%x), Max extended leaf (0x%x)" ++ [10; 0])
      [VStr (Some (ci_vendor i)); VWord (ci_max_basic_leaf i); VWord (ci_max_extended_leaf i)] ;;;
    (if 1 <=? ci_max_basic_leaf i then detect_leaf_1 else ret tt) ;;;
    ret true.
End Cpuid.

(** ** Specification *)

(** IA-32: a processor either lets [popf] set the ID flag or keeps it as it is;
    [popf] sets the interrupt flag and touches neither the display nor what
    [cpuid] answers, nor do the ports and [cli]. *)
Class CpuIdLaws (D : Type) `{CrtcHw D base} `{Cpu D} `{CpuId D} := {
  id_writable : D -> bool;
  popf_law : forall v d Q,
    (forall d', Z.testbit (eflags d') 21 = (if id_writable d then Z.testbit v 21 else Z.testbit (eflags d) 21) ->
       Z.testbit (eflags d') 9 = Z.testbit v 9 -> id_writable d' = id_writable d ->
       (forall r, crtc_reg d' r = crtc_reg d r) -> (forall l k, cpuid d' l k = cpuid d l k) -> Q tt d') ->
    wp (popf v) Q d;
  ports_cpuid : forall w port v d r d', port_out w port v d = Some (r, d') ->
    (forall l k, cpuid d' l k = cpuid d l k) /\ Z.testbit (eflags d') 21 = Z.testbit (eflags d) 21;
  cpuid_u32 : forall d l k, let r := cpuid d l k in
    is_u32 (r_eax r) /\ is_u32 (r_ebx r) /\ is_u32 (r_ecx r) /\ is_u32 (r_edx r)
}.

(** Bits [lo, lo + n) of a register. *)
Definition field (lo n r : Z) : Z := r / 2 ^ lo mod 2 ^ n.

Definition leaf_1_of (r : x86_cpuid_regs) : x86_cpuid_leaf_1 :=
  mk_leaf_1 true (field 0 4 (r_eax r)) (field 4 4 (r_eax r)) (field 8 4 (r_eax r)) (field 12 2 (r_eax r))
    (field 16 4 (r_eax r)) (field 20 8 (r_eax r))
    (8 * field 8 8 (r_ebx r) mod 256) (field 16 8 (r_ebx r)) (field 24 8 (r_ebx r)) (r_ecx r) (r_edx r).

(** What a processor that answers [f] is recorded as. *)
Definition cpu_info_of (f : Z -> Z -> x86_cpuid_regs) : x86_cpu_info :=
  let r := f 0 0 in
  mk_cpu_info (reg_bytes (r_ebx r) ++ reg_bytes (r_edx r) ++ reg_bytes (r_ecx r) ++ [0]) (r_eax r)
    (r_eax (f 2147483648 0)) (if 1 <=? r_eax r then leaf_1_of (f 1 0) else leaf_1_zero).

Lemma land_field eax lo n : 0 <= lo -> 0 <= n -> Z.land (Z.shiftr eax lo) (Z.ones n) = field lo n eax.
Proof. intros Hlo Hn. rewrite Z.land_ones, Z.shiftr_div_pow2 by done. reflexivity. Qed.

Lemma field_range lo n r : 0 <= n -> 0 <= field lo n r < 2 ^ n.
Proof. intros Hn. unfold field. apply Z.mod_pos_bound. apply Z.pow_pos_nonneg; lia. Qed.

Lemma leaf_1_decode_spec regs leaf : x86_cpuid_leaf_1_decode regs leaf = leaf_1_of regs.
Proof.
  unfold x86_cpuid_leaf_1_decode, leaf_1_of.
  rewrite <- (Z.shiftr_0_r (r_eax regs)) at 1.
  change 15 with (Z.ones 4). change 255 with (Z.ones 8). change 3 with (Z.ones 2). rewrite !land_field by lia.
  repeat match goal with |- context [field ?lo ?n ?r] =>
    lazymatch goal with H : 0 <= field lo n r < _ |- _ => fail | _ => pose proof (field_range lo n r ltac:(lia)) end end.
  rewrite (u32_id (field 8 8 (r_ebx regs) * 8)) by (unfold is_u32; lia).
  f_equal; try (apply u8_id; unfold is_u8; lia). unfold u8. f_equal. lia.
Qed.

(** The string in [vendor]. *)
Definition vendor_text (i : x86_cpu_info) : list Z := default [] (cstr (ci_vendor i)).

Definition vendor_line (i : x86_cpu_info) : list Z :=
  chars "[DEBUG] CPUINFO: Vendor (" ++ vendor_text i ++ chars "), Max basic leaf (0x" ++ hex (ci_max_basic_leaf i) ++
  chars "), Max extended leaf (0x" ++ hex (ci_max_extended_leaf i) ++ chars ")" ++ [10].
Definition model_line (l : x86_cpuid_leaf_1) : list Z :=
  chars "[DEBUG] CPUINFO: Family (0x" ++ hex (l1_family l) ++ chars "), Model (0x" ++ hex (l1_model l) ++
  chars "), Stepping (0x" ++ hex (l1_stepping l) ++ chars ")" ++ [10].
Definition apic_line (l : x86_cpuid_leaf_1) : list Z :=
  chars "[DEBUG] CPUINFO: Logical processors (" ++ dec (l1_logical_processors l) ++ chars "), Initial APIC ID (" ++
  dec (l1_initial_apic_id l) ++ chars ")" ++ [10].
Definition clflush_line (l : x86_cpuid_leaf_1) : list Z :=
  chars "[DEBUG] CPUINFO: CLFLUSH line size (" ++ dec (l1_clflush_size l) ++ chars "B)" ++ [10].
Definition features_line (l : x86_cpuid_leaf_1) : list Z :=
  chars "[DEBUG] CPUINFO: CPUID.01H.ECX (0x" ++ hex (l1_features_ecx l) ++ chars "), CPUID.01H.EDX (0x" ++
  hex (l1_features_edx l) ++ chars ")" ++ [10].

(** What is logged about a processor. *)
Definition cpu_report (i : x86_cpu_info) : list Z :=
  vendor_line i ++
  (if 1 <=? ci_max_basic_leaf i then
     model_line (ci_leaf1 i) ++ apic_line (ci_leaf1 i) ++ clflush_line (ci_leaf1 i) ++ features_line (ci_leaf1 i)
   else []).

Lemma cstr_short l : exists v, cstr (l ++ [0]) = Some v /\ Forall (fun c => c <> 0) v /\ (length v <= length l)%nat.
Proof.
  induction l as [|c l (v & Hv & Hz & Hl)]; [by exists []|]. cbn [app cstr]. destruct (Z.eqb_spec c 0); [|rewrite Hv].
  - exists []. split; [done|]. split; [constructor | cbn; lia].
  - exists (c :: v). split; [done|]. split; [by constructor | cbn; lia].
Qed.

Section Messages.
Context (l : x86_cpuid_leaf_1).
Abbreviation fmt s := (PRINTK_DEBUG ++ CPUINFO_LOG ++ chars s ++ [10; 0]).

Lemma vendor_message i b : ci_vendor i = b ++ [0] -> (length b <= 12)%nat ->
  is_u32 (ci_max_basic_leaf i) -> is_u32 (ci_max_extended_leaf i) ->
  message (fmt "Vendor (%s), Max basic leaf (0x%x), Max extended leaf (0x%x)")
    [VStr (Some (ci_vendor i)); VWord (ci_max_basic_leaf i); VWord (ci_max_extended_leaf i)] (vendor_line i).
Proof.
  intros Hb Hlen H1 H2. destruct (cstr_short b) as (v & Hv & Hz & Hl). rewrite <- Hb in Hv.
  unfold vendor_line, vendor_text. rewrite Hv. cbn [default id]. split; [by arguments_ok|]. split; [|split].
  - revert Hv. generalize (ci_vendor i). intros c Hv. cbv -[uint_text cstr]. rewrite Hv. by cbv -[uint_text].
  - rewrite !length_app. text_short.
  - text_ok.
Qed.

Lemma model_message : is_u32 (l1_family l) -> is_u32 (l1_model l) -> is_u32 (l1_stepping l) ->
  message (fmt "Family (0x%x), Model (0x%x), Stepping (0x%x)")
    [VWord (l1_family l); VWord (l1_model l); VWord (l1_stepping l)] (model_line l).
Proof.
  intros H1 H2 H3. unfold model_line. split; [by arguments_ok|]. split; [|split].
  - by cbv -[uint_text].
  - rewrite !length_app. text_short.
  - text_ok.
Qed.

Lemma apic_message : is_u32 (l1_logical_processors l) -> is_u32 (l1_initial_apic_id l) ->
  message (fmt "Logical processors (%u), Initial APIC ID (%u)")
    [VWord (l1_logical_processors l); VWord (l1_initial_apic_id l)] (apic_line l).
Proof.
  intros H1 H2. unfold apic_line. split; [by arguments_ok|]. split; [|split].
  - by cbv -[uint_text].
  - rewrite !length_app. text_short.
  - text_ok.
Qed.

Lemma clflush_message : is_u32 (l1_clflush_size l) ->
  message (fmt "CLFLUSH line size (%uB)") [VWord (l1_clflush_size l)] (clflush_line l).
Proof.
  intros H1. unfold clflush_line. split; [by arguments_ok|]. split; [|split].
  - by cbv -[uint_text].
  - rewrite !length_app. text_short.
  - text_ok.
Qed.

Lemma features_message : is_u32 (l1_features_ecx l) -> is_u32 (l1_features_edx l) ->
  message (fmt "CPUID.01H.ECX (0x%x), CPUID.01H.EDX (0x%x)")
    [VWord (l1_features_ecx l); VWord (l1_features_edx l)] (features_line l).
Proof.
  intros H1 H2. unfold features_line. split; [by arguments_ok|]. split; [|split].
  - by cbv -[uint_text].
  - rewrite !length_app. text_short.
  - text_ok.
Qed.
End Messages.

(** ** The detection *)

Section Detect.
Context `{HL : LogHw D base} `{CD : CpuId D} `{HC : !CpuIdLaws D}.
Context (ops : Z -> option (con_ops (D := D))).
Context (s0 : screens D) (con nm buf : Z).
Hypothesis base_range : 0 <= base < 65535.

Abbreviation logged_at := (logged (base := base) ops s0 con nm buf).

Lemma cpuid_kept d d' : rtc port_step d d' ->
  (forall l k, cpuid d' l k = cpuid d l k) /\ Z.testbit (eflags d') 21 = Z.testbit (eflags d) 21.
Proof.
  induction 1 as [|x y z (w & p & v & Hs) _ [IH1 IH2]]; [done|]. apply ports_cpuid in Hs as [E1 E2].
  split; [intros l k; by rewrite IH1 | by rewrite IH2].
Qed.

Lemma on_cpu_wp {A} (c : M D A) L o d p i s (Q : A -> cpu_state D -> Prop) :
  logged_at L o d p s ->
  wp c (fun a d' => forall s', logged_at L o d' p s' -> Q a (mk_cpu_state i s')) d ->
  wp (on_cpu c) Q (mk_cpu_state i s).
Proof.
  intros [Hl Hs Hc Hp] Hw. unfold on_cpu. do 3 wp_step. cbn [cs_klog]. rewrite Hs.
  replace (cdev (display (base := base) s0 con nm buf o d)) with d by (by destruct o).
  wp_use Hw. intros a d' HQ. apply HQ. split; [done | by destruct o | done | done].
Qed.

(** The ID flag is left as it was found. *)
Lemma x86_cpuid_supported_wp L o d p i s (Q : bool -> cpu_state D -> Prop) :
  logged_at L o d p s ->
  (forall d' s', logged_at L o d' p s' -> Z.testbit (eflags d') 21 = Z.testbit (eflags d) 21 -> if_set d' = if_set d ->
     (forall r, crtc_reg d' r = crtc_reg d r) -> (forall l k, cpuid d' l k = cpuid d l k) ->
     Q (id_writable d) (mk_cpu_state i s')) ->
  wp x86_cpuid_supported Q (mk_cpu_state i s).
Proof.
  intros Hs HQ. unfold x86_cpuid_supported. eapply on_cpu_wp; [exact Hs|].
  unfold x86_eflags_read, x86_eflags_write. do 2 wp_step. wp_step. apply popf_law. intros d1 F1 I1 W1 C1 U1.
  do 3 wp_step. apply popf_law. intros d2 F2 I2 W2 C2 U2. wp_step. intros s' Hs'.
  unfold X86_FLAGS_ID_MASK. rewrite MASK_TEST_bit, Z.lxor_spec, F1 by lia.
  rewrite Z.lxor_spec. change (Z.testbit (BIT 21) 21) with true.
  replace (xorb _ _) with (id_writable d) by (by destruct (id_writable d), (Z.testbit (eflags d) 21)).
  apply (HQ d2); [done | | exact I2 | intros r; by rewrite C2 | intros l k; by rewrite U2].
  rewrite F2, W1, F1. by destruct (id_writable d).
Qed.

Lemma x86_cpuid_wp leaf sub L o d p i s (Q : x86_cpuid_regs -> cpu_state D -> Prop) :
  logged_at L o d p s ->
  (forall s', logged_at L o d p s' -> Q (cpuid d leaf sub) (mk_cpu_state i s')) ->
  wp (x86_cpuid leaf sub) Q (mk_cpu_state i s).
Proof. intros Hs HQ. unfold x86_cpuid. eapply on_cpu_wp; [exact Hs|]. apply wp_gets. by apply HQ. Qed.

(** A message after [out1]. *)
Lemma cpu_debug_wp fmt args out1 out2 L o d0 d p i s (Q : unit -> cpu_state D -> Prop) :
  logged_at (L ++ map u8 out1) (option_map (fun t => term_write t out1) o) d p s ->
  device_after (option_map (fun t => term_write t out1) o) d0 d ->
  message (PRINTK_DEBUG ++ CPUINFO_LOG ++ fmt) args out2 ->
  (forall d' s', let o' := option_map (fun t => term_write t (out1 ++ out2)) o in
     logged_at (L ++ map u8 (out1 ++ out2)) o' d' p s' -> device_after o' d0 d' -> rtc port_step d d' ->
     Q tt (mk_cpu_state i s')) ->
  wp (cpu_debug ops fmt args) Q (mk_cpu_state i s).
Proof.
  intros Hs Hd Hm HQ. unfold cpu_debug. do 2 wp_step. cbn [cs_klog]. unfold pr_debug, printk.
  eapply vprintk_next; [done | exact Hs | exact Hd | exact Hm |]. cbv zeta. intros d' s' Hs' Hd' Hr. wp_step.
  by apply (HQ d').
Qed.

Lemma cpu_debug_first fmt args out L o d p i s (Q : unit -> cpu_state D -> Prop) :
  logged_at L o d p s -> message (PRINTK_DEBUG ++ CPUINFO_LOG ++ fmt) args out ->
  (forall d' s', let o' := option_map (fun t => term_write t out) o in
     logged_at (L ++ map u8 out) o' d' p s' -> device_after o' d d' -> rtc port_step d d' ->
     Q tt (mk_cpu_state i s')) ->
  wp (cpu_debug ops fmt args) Q (mk_cpu_state i s).
Proof.
  intros Hs Hm HQ. unfold cpu_debug. do 2 wp_step. cbn [cs_klog]. unfold pr_debug, printk.
  eapply vprintk_wp; [done | exact Hs | exact Hm |]. cbv zeta. intros d' s' Hs' Hd' Hr. wp_step. by apply (HQ d').
Qed.

Lemma leaf_1_of_u32 r : is_u32 (r_ecx r) -> is_u32 (r_edx r) ->
  let l := leaf_1_of r in
  is_u32 (l1_family l) /\ is_u32 (l1_model l) /\ is_u32 (l1_stepping l) /\ is_u32 (l1_logical_processors l) /\
  is_u32 (l1_initial_apic_id l) /\ is_u32 (l1_clflush_size l) /\ is_u32 (l1_features_ecx l) /\ is_u32 (l1_features_edx l).
Proof.
  intros Hc Hd. unfold is_u32 in *. cbn. repeat split; try lia;
    repeat match goal with |- context [field ?lo ?n ?x] =>
      pose proof (field_range lo n x ltac:(lia)); generalize dependent (field lo n x); intros end; dlia.
Qed.

Lemma detect_leaf_1_wp out1 L o d0 d p i s (Q : unit -> cpu_state D -> Prop) :
  logged_at (L ++ map u8 out1) (option_map (fun t => term_write t out1) o) d p s ->
  device_after (option_map (fun t => term_write t out1) o) d0 d ->
  (forall d' s', let l := leaf_1_of (cpuid d 1 0) in
     let out := out1 ++ model_line l ++ apic_line l ++ clflush_line l ++ features_line l in
     let o' := option_map (fun t => term_write t out) o in
     logged_at (L ++ map u8 out) o' d' p s' -> device_after o' d0 d' -> rtc port_step d d' ->
     Q tt (mk_cpu_state (set_leaf1 l i) s')) ->
  wp (detect_leaf_1 ops) Q (mk_cpu_state i s).
Proof.
  intros Hs Hd HQ. destruct (cpuid_u32 d 1 0) as (_ & _ & Hc & Hx).
  destruct (leaf_1_of_u32 _ Hc Hx) as (U1 & U2 & U3 & U4 & U5 & U6 & U7 & U8).
  unfold detect_leaf_1. wp_step. eapply x86_cpuid_wp; [exact Hs|]. clear s Hs. intros s Hs.
  do 4 wp_step. cbn [set_cs_info cs_info cs_klog set_leaf1 ci_leaf1]. rewrite leaf_1_decode_spec.
  set (l := leaf_1_of (cpuid d 1 0)) in *.
  wp_step. eapply cpu_debug_wp; [exact Hs | exact Hd | by apply model_message |]. cbv zeta. intros d1 s1 Hs1 Hd1 Hr1.
  wp_step. eapply cpu_debug_wp; [exact Hs1 | exact Hd1 | by apply apic_message |]. cbv zeta. intros d2 s2 Hs2 Hd2 Hr2.
  wp_step. eapply cpu_debug_wp; [exact Hs2 | exact Hd2 | by apply clflush_message |]. cbv zeta. intros d3 s3 Hs3 Hd3 Hr3.
  eapply cpu_debug_wp; [exact Hs3 | exact Hd3 | by apply features_message |]. cbv zeta. intros d4 s4 Hs4 Hd4 Hr4.
  rewrite <- !app_assoc in Hs4, Hd4. apply (HQ d4); [exact Hs4 | exact Hd4 |].
  etrans; [exact Hr1|]. etrans; [exact Hr2|]. by etrans.
Qed.
End Detect.

Ltac reduce :=
  cbn [set_cs_info cs_klog cs_info set_max_basic_leaf set_vendor set_max_extended_leaf cpu_info_zero
       ci_vendor ci_max_basic_leaf ci_max_extended_leaf ci_leaf1].

Lemma cpu_detect_wp `{HL : LogHw D base} `{CD : CpuId D} `{HC : !CpuIdLaws D}
    ops s0 con nm buf L o d p i s :
  0 <= base < 65535 -> logged (base := base) ops s0 con nm buf L o d p s ->
  wp (x86_cpu_detect ops) (fun r st => r = id_writable d /\ exists d',
    let info := cpu_info_of (cpuid d) in
    let out := cpu_report info in
    let o' := option_map (fun t => term_write t out) o in
    if_set d' = if_set d /\ Z.testbit (eflags d') 21 = Z.testbit (eflags d) 21 /\
    if r then
      cs_info st = info /\ logged (base := base) ops s0 con nm buf (L ++ map u8 out) o' d' p (cs_klog st) /\
      device_after o' d d'
    else
      cs_info st = cpu_info_zero /\ logged (base := base) ops s0 con nm buf L o d' p (cs_klog st) /\
      forall r, crtc_reg d' r = crtc_reg d r) (mk_cpu_state i s).
Proof.
  intros Hb Hs. unfold x86_cpu_detect. do 2 wp_step. cbn [set_cs_info cs_klog].
  wp_step. eapply x86_cpuid_supported_wp; [exact Hs|]. clear s Hs. intros d1 s Hs F1 I1 C1 U1.
  destruct (id_writable d); cbn [negb].
  2: { wp_step. split; [done|]. exists d1. auto. }
  wp_step. eapply x86_cpuid_wp; [exact Hs|]. clear s Hs. intros s Hs. do 4 wp_step. reduce.
  wp_step. eapply x86_cpuid_wp; [exact Hs|]. clear s Hs. intros s Hs. do 4 wp_step. rewrite !U1. reduce.
  destruct (cpuid_u32 d 0 0) as (Ha & _). destruct (cpuid_u32 d 2147483648 0) as (Hx & _).
  set (r0 := cpuid d 0 0) in *. set (rx := r_eax (cpuid d 2147483648 0)) in *.
  set (vendor := reg_bytes (r_ebx r0) ++ _). set (i1 := mk_cpu_info vendor (r_eax r0) rx leaf_1_zero).
  wp_step. eapply (cpu_debug_first ops s0 con nm buf Hb); [exact Hs | |].
  { by apply (vendor_message i1 (reg_bytes (r_ebx r0) ++ reg_bytes (r_edx r0) ++ reg_bytes (r_ecx r0))). }
  cbv zeta. clear s Hs. intros d2 s Hs Hd2 Hr2. pose proof (flag_kept _ _ Hr2) as I2. destruct (cpuid_kept _ _ Hr2) as [U2 F2].
  unfold cpu_info_of, cpu_report. cbn [ci_max_basic_leaf ci_leaf1]. fold r0 rx vendor.
  wp_step. destruct (1 <=? r_eax r0).
  - eapply (detect_leaf_1_wp ops s0 con nm buf Hb); [exact Hs | exact Hd2 |]. cbv zeta. rewrite U2, U1.
    intros d3 s3 Hs3 Hd3 Hr3. pose proof (flag_kept _ _ Hr3) as I3. destruct (cpuid_kept _ _ Hr3) as [_ F3].
    wp_step. split; [done|]. exists d3. split; [congruence|]. split; [congruence|]. split; [done|]. split; [exact Hs3|].
    by eapply device_after_same.
  - do 2 wp_step. split; [done|]. exists d2. split; [congruence|]. split; [congruence|]. split; [done|].
    rewrite app_nil_r. split; [exact Hs|]. by eapply device_after_same.
Qed.

(** ** Properties *)

(** [x86_cpu_detect] reports exactly what the processor answers.  It returns
    whether the ID flag of EFLAGS can be changed and leaves that flag and the interrupt
    flag as they were.  Without [cpuid] the record is all zero and nothing is
    logged; with it the record holds the vendor's twelve bytes and a zero, the
    highest leaves and, if leaf 1 exists, its fields bit by bit (the size of a CLFLUSH
    line modulo 256), and the log and the screen get the lines that describe it. *)
Theorem cpu_detect_correct `{HL : LogHw D base} `{CD : CpuId D} `{HC : !CpuIdLaws D}
    ops s0 con nm buf L o d p i s :
  0 <= base < 65535 -> logged (base := base) ops s0 con nm buf L o d p s ->
  wp (x86_cpu_detect ops) (fun r st => r = id_writable d /\ exists d',
    let info := cpu_info_of (cpuid d) in
    let out := cpu_report info in
    let o' := option_map (fun t => term_write t out) o in
    if_set d' = if_set d /\ Z.testbit (eflags d') 21 = Z.testbit (eflags d) 21 /\
    if r then
      cs_info st = info /\ logged (base := base) ops s0 con nm buf (L ++ map u8 out) o' d' p (cs_klog st) /\
      device_after o' d d'
    else
      cs_info st = cpu_info_zero /\ logged (base := base) ops s0 con nm buf L o d' p (cs_klog st) /\
      forall r, crtc_reg d' r = crtc_reg d r) (mk_cpu_state i s).
Proof. apply cpu_detect_wp. Qed.

(** ** A processor *)

Module CpuMachine.
Import LogMachine.

(** "GenuineIntel", family 6, a CLFLUSH line of 64 bytes. *)
Definition answers (leaf : Z) : x86_cpuid_regs :=
  if leaf =? 0 then mk_regs 1 1970169159 1818588270 1231384169
  else if leaf =? 1 then mk_regs 198313 2048 4 8
  else mk_regs 2147483656 0 0 0.

#[export] Instance machine_cpuid : CpuId machine := { cpuid := fun _ leaf _ => answers leaf }.

#[export] Instance machine_cpuid_laws : CpuIdLaws machine.
Proof.
  refine {| id_writable := fun _ : machine => true |}.
  - intros v d Q HQ. apply wp_modify. by apply HQ.
  - intros w port v [c f] r d'. cbn. by intros [= _ <-].
  - intros d l k r. unfold r, cpuid, machine_cpuid, answers, is_u32. repeat case_match; cbn; lia.
Defined.
End CpuMachine.

Import LogMachine CpuMachine.

Lemma cpu_detect_correct_witness :
  vendor_text (cpu_info_of (cpuid d0)) = chars "GenuineIntel" /\
  l1_clflush_size (ci_leaf1 (cpu_info_of (cpuid d0))) = 64 /\
  wp (x86_cpu_detect ops0) (fun r st => r = true /\ cs_info st = cpu_info_of (cpuid d0)) (mk_cpu_state cpu_info_zero klog0).
Proof.
  split; [reflexivity|]. split; [reflexivity|].
  eapply wp_mono; [apply (cpu_detect_correct ops0 screens0 4096 0 753664 [] (Some CrtcMachine.screen0) d0 false
    cpu_info_zero klog0); [done | apply klog0_ok]|].
  intros r st (Hr & d' & _ & _ & Hst). cbn [id_writable machine_cpuid_laws] in Hr. rewrite Hr in Hst. by destruct Hst.
Defined.

(** The size of a CLFLUSH line is kept in a byte: a line of 256 bytes is recorded
    as 0. *)
Theorem clflush_size_truncated :
  exists regs, is_u32 (r_ebx regs) /\ field 8 8 (r_ebx regs) * 8 = 256 /\
    l1_clflush_size (x86_cpuid_leaf_1_decode regs leaf_1_zero) = 0.
Proof. exists (mk_regs 0 8192 0 0). by vm_compute. Qed.
