(* ===== verification/Device.v ===== *)
(** * Device model

    Models [kernel/device/bus.c], [device.c], [driver.c], [platform.c] and
    [resource.c].

    - Buses, devices and drivers are objects by address.  The first member of a
      platform device (driver) is its device (driver), so [container_of] is the
      identity on addresses.  The intrusive lists of a bus are the sequences of
      their elements ([KList] relates the two); the loops run over the list as
      it is when they start.
    - Names are C strings: [None] is [NULL], otherwise the bytes.  [strcmp]
      returns 0 exactly on equal strings ([KMem.strcmp_correct]).
    - [match] and [probe] of a bus and [probe] of a platform driver are function
      pointers; their code is a parameter and may change the device state [D]. *)

From S2P Require Import Prelude Base.

Record device := mk_device {
  dev_name : option (list Z);
  dev_id : Z;
  dev_bus : Z;
  dev_driver : Z;
  dev_driver_data : Z
}.

(** [struct driver] with the [probe] member of [struct platform_driver]. *)
Record driver := mk_driver {
  drv_name : option (list Z);
  drv_bus : Z;
  drv_probe : Z
}.

Record bus := mk_bus {
  bus_name : option (list Z);
  bus_match : Z;
  bus_probe : Z;
  bus_drivers : list Z;
  bus_devices : list Z
}.

Record devices := mk_devices {
  buses : list Z;
  bus_objs : gmap Z bus;
  device_objs : gmap Z device;
  driver_objs : gmap Z driver
}.

Definition set_bus_objs (m : gmap Z bus) (s : devices) : devices :=
  mk_devices (buses s) m (device_objs s) (driver_objs s).
Definition set_device_objs (m : gmap Z device) (s : devices) : devices :=
  mk_devices (buses s) (bus_objs s) m (driver_objs s).
Definition set_driver_objs (m : gmap Z driver) (s : devices) : devices :=
  mk_devices (buses s) (bus_objs s) (device_objs s) m.
Definition set_buses (l : list Z) (s : devices) : devices :=
  mk_devices l (bus_objs s) (device_objs s) (driver_objs s).

Definition set_dev_driver (drv : Z) (d : device) : device :=
  mk_device (dev_name d) (dev_id d) (dev_bus d) drv (dev_driver_data d).
Definition set_dev_bus (b : Z) (d : device) : device :=
  mk_device (dev_name d) (dev_id d) b (dev_driver d) (dev_driver_data d).
Definition set_drv_bus (b : Z) (d : driver) : driver := mk_driver (drv_name d) b (drv_probe d).

Section Devices.
Context {D : Type}.
Abbreviation K := (M (devices * D)).

(** Dereferencing an object and assigning to it. *)
Definition deref {A} (get : devices -> gmap Z A) (p : Z) : K A := fun s =>
  match get (fst s) !! p with Some a => Some (a, s) | None => None end.
Definition assign {A} (get : devices -> gmap Z A) (set : gmap Z A -> devices -> devices)
    (p : Z) (f : A -> A) : K unit := fun s =>
  match get (fst s) !! p with
  | Some a => Some (tt, (set (<[p := f a]> (get (fst s))) (fst s), snd s))
  | None => None
  end.

Abbreviation get_bus := (deref bus_objs).
Abbreviation get_dev := (deref device_objs).
Abbreviation get_drv := (deref driver_objs).
Abbreviation upd_bus := (assign bus_objs set_bus_objs).
Abbreviation upd_dev := (assign device_objs set_device_objs).
Abbreviation upd_drv := (assign driver_objs set_driver_objs).

(** The code behind [bus->match] and [bus->probe] pointers. *)
Context (call_match : Z -> Z -> Z -> K bool).
Context (call_probe : Z -> Z -> Z -> K Z).

(** ** [bus.h], [bus.c] *)

Definition bus_init (b : Z) : K unit :=
  upd_bus b (fun o => mk_bus (bus_name o) (bus_match o) (bus_probe o) (bus_drivers o) []) ;;;
  upd_bus b (fun o => mk_bus (bus_name o) (bus_match o) (bus_probe o) [] (bus_devices o)).

Definition bus_register (b : Z) : K Z :=
  if b =? 0 then ret (- KERR_INVAL)
  else
    o <-- get_bus b ;;
    if (bus_match o =? 0) || (bus_probe o =? 0) then ret (- KERR_INVAL)
    else
      modify (fun s => (set_buses (buses (fst s) ++ [b]) (fst s), snd s)) ;;;
      ret KERR_OK.

(** The loop of [bus_add_device] over the drivers of the bus. *)
Fixpoint try_drivers (o : bus) (dev : Z) (drivers : list Z) : K Z :=
  match drivers with
  | [] => ret KERR_OK
  | drv :: rest =>
      m <-- call_match (bus_match o) dev drv ;;
      if negb m then try_drivers o dev rest
      else
        r <-- call_probe (bus_probe o) dev drv ;;
        if r =? KERR_OK then upd_dev dev (set_dev_driver drv) ;;; ret KERR_OK
        else try_drivers o dev rest
  end.

Definition bus_add_device (b dev : Z) : K Z :=
  if (b =? 0) || (dev =? 0) then ret (- KERR_INVAL)
  else
    upd_bus b (fun o => mk_bus (bus_name o) (bus_match o) (bus_probe o) (bus_drivers o) (bus_devices o ++ [dev])) ;;;
    o <-- get_bus b ;;
    try_drivers o dev (bus_drivers o).

(** The loop of [bus_add_driver] over the devices of the bus. *)
Fixpoint try_devices (o : bus) (drv : Z) (devs : list Z) : K Z :=
  match devs with
  | [] => ret KERR_OK
  | dev :: rest =>
      d <-- get_dev dev ;;
      if negb (dev_driver d =? 0) then try_devices o drv rest
      else
        m <-- call_match (bus_match o) dev drv ;;
        if negb m then try_devices o drv rest
        else
          r <-- call_probe (bus_probe o) dev drv ;;
          if r =? KERR_OK then upd_dev dev (set_dev_driver drv) ;;; ret KERR_OK
          else try_devices o drv rest
  end.

Definition bus_add_driver (b drv : Z) : K Z :=
  if (b =? 0) || (drv =? 0) then ret (- KERR_INVAL)
  else
    upd_bus b (fun o => mk_bus (bus_name o) (bus_match o) (bus_probe o) (bus_drivers o ++ [drv]) (bus_devices o)) ;;;
    o <-- get_bus b ;;
    try_devices o drv (bus_devices o).

(** ** [device.c], [driver.c] *)

Definition device_register (dev : Z) : K Z :=
  if dev =? 0 then ret (- KERR_INVAL)
  else
    d <-- get_dev dev ;;
    if dev_bus d =? 0 then ret (- KERR_INVAL) else bus_add_device (dev_bus d) dev.

Definition driver_register (drv : Z) : K Z :=
  if drv =? 0 then ret (- KERR_INVAL)
  else
    d <-- get_drv drv ;;
    if drv_bus d =? 0 then ret (- KERR_INVAL) else bus_add_driver (drv_bus d) drv.

(** ** [platform.c] *)

Definition platform_match (dev drv : Z) : K bool :=
  if (dev =? 0) || (drv =? 0) then ret false
  else
    d <-- get_dev dev ;;
    r <-- get_drv drv ;;
    match dev_name d, drv_name r with
    | Some n, Some n' => ret (bool_decide (n = n'))
    | _, _ => ret false
    end.

(** The code behind [pdrv->probe]. *)
Context (call_driver_probe : Z -> Z -> K Z).

Definition platform_probe (dev drv : Z) : K Z :=
  r <-- get_drv drv ;;
  if drv_probe r =? 0 then ret (- KERR_INVAL) else call_driver_probe (drv_probe r) dev.

Context (platform_bus : Z).

Definition platform_init : K Z := bus_init platform_bus ;;; bus_register platform_bus.

Definition platform_driver_register (pdrv : Z) : K Z :=
  if pdrv =? 0 then ret (- KERR_INVAL)
  else upd_drv pdrv (set_drv_bus platform_bus) ;;; driver_register pdrv.

Definition platform_device_register (pdev : Z) : K Z :=
  if pdev =? 0 then ret (- KERR_INVAL)
  else upd_dev pdev (set_dev_bus platform_bus) ;;; device_register pdev.
End Devices.

(** ** [resource.c] *)

Inductive resource_type := RESOURCE_TYPE_PORT | RESOURCE_TYPE_IRQ | RESOURCE_TYPE_MMIO.

#[export] Instance resource_type_eq_dec : EqDecision resource_type.
Proof. solve_decision. Defined.

(** [struct resource]: the type is the tag of the union. *)
Inductive resource :=
  | Res_port (start end_ : Z)
  | Res_irq (map hwirq : Z)
  | Res_mmio (start end_ : Z).

Definition res_type (r : resource) : resource_type :=
  match r with
  | Res_port _ _ => RESOURCE_TYPE_PORT
  | Res_irq _ _ => RESOURCE_TYPE_IRQ
  | Res_mmio _ _ => RESOURCE_TYPE_MMIO
  end.

Definition RESOURCE_RANGE_SIZE (wrap : Z -> Z) (s e : Z) : Z := if s <=? e then wrap (wrap (e - s) + 1) else 0.

(** [inl e]: the encoded error [e]; [inr i]: the address of element [i]. *)
Definition resource_get (resources : option (list resource)) (count : Z) (type : resource_type) (index : Z) :
    option (Z + Z) :=
  match resources with
  | None => Some (inl (- KERR_INVAL))
  | Some l =>
      match for_lt (S := unit) (A := Z) (R := Z) 0 count 0 (fun i current_type_idx _ =>
              match l !! Z.to_nat i with
              | None => None
              | Some res =>
                  if negb (bool_decide (res_type res = type)) then Some (inl current_type_idx, tt)
                  else if current_type_idx =? index then Some (inr i, tt)
                  else Some (inl (u32 (current_type_idx + 1)), tt)
              end) tt with
      | Some (inr i, _) => Some (inr i)
      | Some (inl _, _) => Some (inl (- KERR_NOENT))
      | None => None
      end
  end.

(** ** Specification of binding *)

(** A device without the data its driver keeps in it. *)
Definition no_data (d : device) : device :=
  mk_device (dev_name d) (dev_id d) (dev_bus d) (dev_driver d) 0.

(** Equal up to driver data, which a driver's [probe] may set. *)
Definition same_view (s s' : devices) : Prop :=
  buses s' = buses s /\ bus_objs s' = bus_objs s /\ driver_objs s' = driver_objs s /\
  no_data <$> device_objs s' = no_data <$> device_objs s.

Lemma same_view_trans s s1 s2 : same_view s s1 -> same_view s1 s2 -> same_view s s2.
Proof. unfold same_view. intros (? & ? & ? & ?) (? & ? & ? & ?). repeat split; congruence. Qed.

Lemma view_device s s' p d : same_view s s' -> device_objs s !! p = Some d ->
  exists d', device_objs s' !! p = Some d' /\ no_data d' = no_data d.
Proof.
  intros (_ & _ & _ & E) Hd. apply (f_equal (.!! p)) in E. rewrite !lookup_fmap, Hd in E.
  destruct (device_objs s' !! p) as [d'|]; [|done]. exists d'. split; [done|]. cbn in E. by apply (inj Some) in E.
Qed.

Section Binding.
Context {D : Type}.
Context (call_driver_probe : Z -> Z -> M (devices * D) Z).
Context (accepts : Z -> Z -> bool).

(** The probes of the drivers: [accepts p dev] tells whether the probe at [p]
    takes the device; a probe changes nothing of the device model but the
    driver data of devices. *)
Definition probes_ok : Prop := forall p dev s d,
  wp (call_driver_probe p dev)
     (fun r s' => same_view s (fst s') /\ (r = KERR_OK <-> accepts p dev = true)) (s, d).

(** The driver matches the device by name and takes it. *)
Definition compatible (s : devices) (dev drv : Z) : bool :=
  match device_objs s !! dev, driver_objs s !! drv with
  | Some d, Some r =>
      match dev_name d, drv_name r with
      | Some n, Some n' => bool_decide (n = n') && negb (drv_probe r =? 0) && accepts (drv_probe r) dev
      | _, _ => false
      end
  | _, _ => false
  end.

Definition unbound (s : devices) (dev : Z) : bool :=
  match device_objs s !! dev with Some d => dev_driver d =? 0 | None => false end.

(** [s] with [dev] bound to [drv]. *)
Definition bind_driver (dev drv : Z) (s : devices) : devices :=
  set_device_objs (alter (set_dev_driver drv) dev (device_objs s)) s.

Lemma view_compatible s s' dev drv : same_view s s' -> compatible s' dev drv = compatible s dev drv.
Proof.
  intros Hv. pose proof Hv as (_ & _ & Ed & E). unfold compatible. rewrite Ed.
  apply (f_equal (.!! dev)) in E. rewrite !lookup_fmap in E.
  destruct (device_objs s !! dev) as [d|], (device_objs s' !! dev) as [d'|]; try done.
  cbn in E. injection E as E1 E2 E3 E4. by rewrite E1.
Qed.

Lemma view_unbound s s' dev : same_view s s' -> unbound s' dev = unbound s dev.
Proof.
  intros (_ & _ & _ & E). unfold unbound. apply (f_equal (.!! dev)) in E. rewrite !lookup_fmap in E.
  destruct (device_objs s !! dev) as [d|], (device_objs s' !! dev) as [d'|]; try done.
  cbn in E. injection E as E1 E2 E3 E4. by rewrite E4.
Qed.

Abbreviation the_match := (fun _ : Z => platform_match (D := D)).
Abbreviation the_probe := (fun _ : Z => platform_probe call_driver_probe).

(** One attempt: match, probe and bind, or go on. *)
Lemma attempt_wp o dev drv s d (next : M (devices * D) Z) Q :
  probes_ok -> dev <> 0 -> drv <> 0 -> is_Some (device_objs s !! dev) -> is_Some (driver_objs s !! drv) ->
  (forall s1 d1, same_view s s1 -> compatible s dev drv = true ->
     Q KERR_OK (bind_driver dev drv s1, d1)) ->
  (forall s1 d1, same_view s s1 -> compatible s dev drv = false -> wp next Q (s1, d1)) ->
  wp (m <-- the_match (bus_match o) dev drv ;;
      if negb m then next
      else
        r <-- the_probe (bus_probe o) dev drv ;;
        if r =? KERR_OK then assign device_objs set_device_objs dev (set_dev_driver drv) ;;; ret KERR_OK
        else next) Q (s, d).
Proof.
  intros Hpr Hdev Hdrv [dd Hdd] [rr Hrr] Hyes Hno. assert (same_view s s) as Hv by done.
  unfold platform_match. rewrite (proj2 (Z.eqb_neq _ _) Hdev), (proj2 (Z.eqb_neq _ _) Hdrv). cbn [orb].
  unfold compatible in Hyes, Hno. rewrite Hdd, Hrr in Hyes, Hno.
  wp_step. wp_step. unfold wp at 1, deref at 1. cbn [fst]. rewrite Hdd. wp_step.
  unfold wp at 1, deref at 1. cbn [fst]. rewrite Hrr.
  destruct (dev_name dd) as [n|]; [|wp_step; by apply Hno].
  destruct (drv_name rr) as [n'|]; [|wp_step; by apply Hno].
  wp_step. destruct (bool_decide (n = n')); cbn [negb andb] in *; [|by apply Hno].
  wp_step. unfold platform_probe. wp_step. unfold wp at 1, deref at 1. cbn [fst]. rewrite Hrr.
  destruct (drv_probe rr =? 0); cbn [negb andb] in *.
  { wp_step. change (- KERR_INVAL =? KERR_OK) with false. cbn iota. by apply Hno. }
  eapply wp_mono; [apply Hpr|]. intros r [s1 d1] [Hv1 Hr]. cbn [fst] in Hv1.
  destruct (Z.eqb_spec r KERR_OK) as [->|Hne].
  - wp_step. destruct (view_device _ _ _ _ Hv1 Hdd) as (d' & Hd' & _).
    unfold wp at 1, assign. cbn [fst snd]. rewrite Hd'. wp_step.
    specialize (Hyes s1 d1 Hv1 (proj1 Hr eq_refl)). unfold bind_driver in Hyes.
    assert (<[dev := set_dev_driver drv d']> (device_objs s1) =
            alter (set_dev_driver drv) dev (device_objs s1)) as ->; [|done].
    apply map_eq. intros p. destruct (decide (p = dev)) as [->|Hp].
    + by rewrite lookup_insert_eq, lookup_alter_eq, Hd'.
    + by rewrite lookup_insert_ne, lookup_alter_ne by done.
  - apply Hno; [done|]. destruct (accepts _ _); [|done]. exfalso. apply Hne. by apply Hr.
Qed.

(** The result of a search: [dev] is bound to [drv], up to driver data. *)
Definition bound_post (s : devices) (choice : option (Z * Z)) (r : Z) (s' : devices * D) : Prop :=
  r = KERR_OK /\ exists s1, same_view s s1 /\
    fst s' = match choice with Some (dev, drv) => bind_driver dev drv s1 | None => s1 end.

Lemma view_is_some s s' p : same_view s s' -> is_Some (device_objs s !! p) -> is_Some (device_objs s' !! p).
Proof. intros Hv [d Hd]. destruct (view_device _ _ _ _ Hv Hd) as (d' & -> & _). done. Qed.

Lemma try_drivers_wp o dev drivers : probes_ok -> dev <> 0 -> forall s s0 d, same_view s0 s ->
  is_Some (device_objs s0 !! dev) ->
  (forall drv, drv ∈ drivers -> drv <> 0 /\ is_Some (driver_objs s0 !! drv)) ->
  wp (try_drivers the_match the_probe o dev drivers)
     (bound_post s0 ((dev,.) <$> List.find (compatible s0 dev) drivers)) (s, d).
Proof.
  intros Hpr Hdev. induction drivers as [|drv drivers IH]; intros s s0 d Hv Hd Hall; cbn [try_drivers List.find].
  { wp_step. split; [done|]. by exists s. }
  destruct (Hall drv) as [Hz Hr]; [by apply list_elem_of_here|].
  assert (driver_objs s = driver_objs s0) as Edr by apply Hv.
  apply (attempt_wp o); [done | done | done | by eapply view_is_some | by rewrite Edr | |].
  - intros s1 d1 Hv1 Hc. rewrite (view_compatible _ _ _ _ Hv) in Hc. rewrite Hc. split; [done|].
    exists s1. split; [by eapply same_view_trans | done].
  - intros s1 d1 Hv1 Hc. rewrite (view_compatible _ _ _ _ Hv) in Hc. rewrite Hc.
    apply IH; [by eapply same_view_trans | done |]. intros x Hx. apply Hall. by apply list_elem_of_further.
Qed.

Lemma try_devices_wp o drv devs : probes_ok -> drv <> 0 -> forall s s0 d, same_view s0 s ->
  is_Some (driver_objs s0 !! drv) ->
  (forall dev, dev ∈ devs -> dev <> 0 /\ is_Some (device_objs s0 !! dev)) ->
  wp (try_devices the_match the_probe o drv devs)
     (bound_post s0 ((., drv) <$> List.find (fun dev => unbound s0 dev && compatible s0 dev drv) devs)) (s, d).
Proof.
  intros Hpr Hdrv. induction devs as [|dev devs IH]; intros s s0 d Hv Hr Hall; cbn [try_devices List.find].
  { wp_step. split; [done|]. by exists s. }
  destruct (Hall dev) as [Hz Hd]; [by apply list_elem_of_here|].
  assert (driver_objs s = driver_objs s0) as Edr by apply Hv.
  assert (forall x, x ∈ devs -> x <> 0 /\ is_Some (device_objs s0 !! x)) as Hall'
    by (intros x Hx; apply Hall; by apply list_elem_of_further).
  wp_step. pose proof (view_is_some _ _ _ Hv Hd) as [dd Hdd].
  unfold wp at 1, deref at 1. cbn [fst]. rewrite Hdd.
  assert (unbound s0 dev = (dev_driver dd =? 0)) as Eu
    by (rewrite <- (view_unbound _ _ _ Hv); unfold unbound; by rewrite Hdd).
  rewrite Eu. destruct (dev_driver dd =? 0); cbn [negb andb]; [|by apply IH].
  apply (attempt_wp o); [done | done | done | by eexists | by rewrite Edr | |].
  - intros s1 d1 Hv1 Hc. rewrite (view_compatible _ _ _ _ Hv) in Hc. rewrite Hc. split; [done|].
    exists s1. split; [by eapply same_view_trans | done].
  - intros s1 d1 Hv1 Hc. rewrite (view_compatible _ _ _ _ Hv) in Hc. rewrite Hc.
    apply IH; [by eapply same_view_trans | done | done].
Qed.
End Binding.

(** ** Properties *)

Section Properties.
Context {D : Type} (call_driver_probe : Z -> Z -> M (devices * D) Z) (accepts : Z -> Z -> bool).
Context (pb : Z).

(** A well-formed platform bus: what its lists name exists. *)
Definition platform_ok (s : devices) (o : bus) : Prop :=
  pb <> 0 /\ bus_objs s !! pb = Some o /\
  (forall drv, drv ∈ bus_drivers o -> drv <> 0 /\ is_Some (driver_objs s !! drv)) /\
  (forall dev, dev ∈ bus_devices o -> dev <> 0 /\ is_Some (device_objs s !! dev)).

(** The state once the device, or the driver, is on the bus. *)
Definition with_device (dev : Z) (o : bus) (s : devices) : devices :=
  mk_devices (buses s)
    (<[pb := mk_bus (bus_name o) (bus_match o) (bus_probe o) (bus_drivers o) (bus_devices o ++ [dev])]> (bus_objs s))
    (alter (set_dev_bus pb) dev (device_objs s)) (driver_objs s).
Definition with_driver (drv : Z) (o : bus) (s : devices) : devices :=
  mk_devices (buses s)
    (<[pb := mk_bus (bus_name o) (bus_match o) (bus_probe o) (bus_drivers o ++ [drv]) (bus_devices o)]> (bus_objs s))
    (device_objs s) (alter (set_drv_bus pb) drv (driver_objs s)).

Lemma insert_is_alter {A} (m : gmap Z A) p f a : m !! p = Some a -> <[p := f a]> m = alter f p m.
Proof.
  intros Hp. apply map_eq. intros q. destruct (decide (q = p)) as [->|Hq].
  - by rewrite lookup_insert_eq, lookup_alter_eq, Hp.
  - by rewrite lookup_insert_ne, lookup_alter_ne by done.
Qed.

(** Registering a platform device appends it to the bus and binds it to
    the first driver of the bus that has its name and whose probe succeeds.
    Registering a platform driver appends it and binds the first unbound device
    with its name whose probe succeeds, and only that one.  No other binding
    changes: a bound device is never probed again. *)
Theorem platform_binding s d o pdev pdrv dv dr :
  probes_ok call_driver_probe accepts -> platform_ok s o ->
  pdev <> 0 -> device_objs s !! pdev = Some dv ->
  pdrv <> 0 -> driver_objs s !! pdrv = Some dr ->
  wp (platform_device_register (fun _ => platform_match) (fun _ => platform_probe call_driver_probe) pb pdev)
     (let s1 := with_device pdev o s in
      bound_post s1 ((pdev,.) <$> List.find (compatible accepts s1 pdev) (bus_drivers o))) (s, d) /\
  wp (platform_driver_register (fun _ => platform_match) (fun _ => platform_probe call_driver_probe) pb pdrv)
     (let s1 := with_driver pdrv o s in
      bound_post s1 ((., pdrv) <$>
        List.find (fun dev => unbound s1 dev && compatible accepts s1 dev pdrv) (bus_devices o))) (s, d).
Proof.
  intros Hpr (Hpb & Ho & Hdrvs & Hdevs) Hdev Hdv Hdrv Hdr.
  unfold platform_device_register, platform_driver_register.
  rewrite (proj2 (Z.eqb_neq _ _) Hdev), (proj2 (Z.eqb_neq _ _) Hdrv). split; wp_step.
  - unfold wp at 1, assign at 1. cbn [fst snd]. rewrite Hdv. unfold device_register.
    rewrite (proj2 (Z.eqb_neq _ _) Hdev). wp_step. unfold wp at 1, deref at 1. cbn [fst].
    unfold set_device_objs; cbn [device_objs]. rewrite lookup_insert_eq. cbn [set_dev_bus dev_bus].
    unfold bus_add_device. rewrite (proj2 (Z.eqb_neq _ _) Hpb), (proj2 (Z.eqb_neq _ _) Hdev). cbn [orb].
    wp_step. unfold wp at 1, assign at 1. cbn [fst snd bus_objs]. rewrite Ho. wp_step.
    unfold wp at 1, deref at 1, set_bus_objs; cbn [fst bus_objs buses device_objs driver_objs].
    rewrite lookup_insert_eq. cbn [bus_drivers]. fold (set_dev_bus pb dv).
    rewrite (insert_is_alter _ _ (set_dev_bus pb) _ Hdv). fold (with_device pdev o s).
    apply try_drivers_wp; [done | done | done | |].
    + cbn. rewrite lookup_alter_eq, Hdv. by eexists.
    + intros drv Hin. cbn. by apply Hdrvs.
  - unfold wp at 1, assign at 1. cbn [fst snd]. rewrite Hdr. unfold driver_register.
    rewrite (proj2 (Z.eqb_neq _ _) Hdrv). wp_step. unfold wp at 1, deref at 1. cbn [fst].
    unfold set_driver_objs; cbn [driver_objs]. rewrite lookup_insert_eq. cbn [set_drv_bus drv_bus].
    unfold bus_add_driver. rewrite (proj2 (Z.eqb_neq _ _) Hpb), (proj2 (Z.eqb_neq _ _) Hdrv). cbn [orb].
    wp_step. unfold wp at 1, assign at 1. cbn [fst snd bus_objs]. rewrite Ho. wp_step.
    unfold wp at 1, deref at 1, set_bus_objs; cbn [fst bus_objs buses device_objs driver_objs].
    rewrite lookup_insert_eq. cbn [bus_devices]. fold (set_drv_bus pb dr).
    rewrite (insert_is_alter _ _ (set_drv_bus pb) _ Hdr). fold (with_driver pdrv o s).
    apply try_devices_wp; [done | done | done | |].
    + cbn. rewrite lookup_alter_eq, Hdr. by eexists.
    + intros dev Hin. cbn. by apply Hdevs.
Qed.
End Properties.

(** Two devices with the name of the driver: the first is bound. *)
Definition devices0 : devices :=
  mk_devices [1] {[1 := mk_bus None 5 6 [20] [10; 11]]}
    (<[10 := mk_device (Some [118; 103; 97]) 0 1 0 0]> (<[11 := mk_device (Some [118; 103; 97]) 1 1 0 0]>
       {[12 := mk_device (Some [105]) 0 0 0 0]}))
    (<[20 := mk_driver (Some [105]) 1 7]> {[21 := mk_driver (Some [118; 103; 97]) 0 8]}).

Lemma platform_binding_witness :
  let o := mk_bus None 5 6 [20] [10; 11] in
  let probe (_ _ : Z) : M (devices * unit) Z := ret KERR_OK in
  let accepts (_ _ : Z) := true in
  wp (platform_device_register (fun _ => platform_match) (fun _ => platform_probe probe) 1 12)
     (let s1 := with_device 1 12 o devices0 in
      bound_post s1 ((12,.) <$> List.find (compatible accepts s1 12) (bus_drivers o))) (devices0, tt) /\
  wp (platform_driver_register (fun _ => platform_match) (fun _ => platform_probe probe) 1 21)
     (let s1 := with_driver 1 21 o devices0 in
      bound_post s1 ((., 21) <$>
        List.find (fun dev => unbound s1 dev && compatible accepts s1 dev 21) (bus_devices o))) (devices0, tt).
Proof.
  intros o probe accepts.
  apply (platform_binding probe accepts 1 devices0 tt o 12 21
           (mk_device (Some [105]) 0 0 0 0) (mk_driver (Some [118; 103; 97]) 0 8)); try done.
  split; [done|]. split; [done|]. split.
  - intros drv Hd. apply elem_of_cons in Hd as [->|Hd]; [|set_solver]. split; [done|]. by eexists.
  - intros dev Hd. apply elem_of_cons in Hd as [->|Hd]; [|apply elem_of_cons in Hd as [->|Hd]; [|set_solver]];
      (split; [done|]; by eexists).
Defined.
