(* ===== verification/Drivers.v ===== *)
(** * The drivers' probes and the platform devices

    Models [vga_text_probe] and [vga_text_driver_init] of
    [kernel/drivers/video/vga/vga_text.c], [i8254_probe] and [i8254_driver_init]
    of [kernel/drivers/timer/i8254.c], and the platform devices of
    [kernel/arch/x86/platform/vga.c] and [i8254.c].

    - The state is the device model ([Device]) beside [drv_state]: the kernel
      heap, the interrupt subsystem, the kernel log with its consoles and the
      resources of the platform devices.
    - A driver's private object is allocated on the kernel heap ([Kheap]); its
      contents are the record [Console] ([I8254]) keeps under its address.
    - The only code that fills in the function pointers of a [struct console] is
      [vga_text_probe]: [con_vga] maps every console to the driver's
      operations.  [name_of] gives the address of a device's name. *)

From stdpp Require Import strings.
From S2P Require Import Prelude Base Memory Bitmap Pmm KList Frames Kheap KheapClient HeapLive Paging Words Buffer Printf Ringbuf Irq Hal Console I8254 Device Log.

Record drv_state (D : Type) := mk_drv_state {
  ds_heap : kheap;
  ds_irqs : irqs;
  ds_klog : klog D;
  ds_res : gmap Z (option (list resource) * Z)
}.
Arguments mk_drv_state {D} _ _ _ _.
Arguments ds_heap {D} _.
Arguments ds_irqs {D} _.
Arguments ds_klog {D} _.
Arguments ds_res {D} _.

Definition set_ds_heap {D} (h : kheap) (s : drv_state D) : drv_state D := mk_drv_state h (ds_irqs s) (ds_klog s) (ds_res s).
Definition set_ds_klog {D} (l : klog D) (s : drv_state D) : drv_state D := mk_drv_state (ds_heap s) (ds_irqs s) l (ds_res s).
Definition set_ds_res {D} (m : gmap Z (option (list resource) * Z)) (s : drv_state D) : drv_state D :=
  mk_drv_state (ds_heap s) (ds_irqs s) (ds_klog s) m.
Definition ds_screens {D} (s : drv_state D) : screens D := kl_screens (ds_klog s).
Definition set_ds_screens {D} (c : screens D) (s : drv_state D) : drv_state D := set_ds_klog (set_kl_screens c (ds_klog s)) s.
(** The interrupt subsystem with the machine it drives. *)
Definition ds_machine {D} (s : drv_state D) : irqs * D := (ds_irqs s, cdev (ds_screens s)).
Definition set_ds_machine {D} (m : irqs * D) (s : drv_state D) : drv_state D :=
  let s' := set_ds_screens (set_cdev (snd m) (ds_screens s)) s in
  mk_drv_state (ds_heap s') (fst m) (ds_klog s') (ds_res s').

Definition set_driver_data (p : Z) (d : device) : device :=
  mk_device (dev_name d) (dev_id d) (dev_bus d) (dev_driver d) p.
Definition set_dev_name (n : option (list Z)) (d : device) : device :=
  mk_device n (dev_id d) (dev_bus d) (dev_driver d) (dev_driver_data d).
Definition set_dev_id (i : Z) (d : device) : device :=
  mk_device (dev_name d) i (dev_bus d) (dev_driver d) (dev_driver_data d).

Definition VGA_TEXT_80X25_SIZE : Z := 80 * 25 * 2.
Definition RESOURCE_MMIO_SIZE (start end_ : Z) : Z := RESOURCE_RANGE_SIZE u64 start end_.
(** [sizeof(struct vga_text_priv)], [sizeof(struct i8254_priv)] on IA-32 *)
Definition sizeof_vga_text_priv : Z := 44.
Definition sizeof_i8254_priv : Z := 56.

Section Drivers.
Context `{PortIO D} `{HasTimers D}.
Context (kheap_free_list : Z) (name_of : Z -> Z).
(** The address of [i8254_irq_handler]. *)
Context (i8254_irq_handler_addr : Z).

Abbreviation K := (M (devices * drv_state D)).

Definition on_drv {A} (c : M (drv_state D) A) : K A := zoom snd (fun t s => (fst s, t)) c.
Definition drv_kmalloc (size : Z) : K Z := on_drv (zoom ds_heap set_ds_heap (kmalloc kheap_free_list size)).
Definition drv_kfree (p : Z) : K unit := on_drv (zoom ds_heap set_ds_heap (kfree kheap_free_list p)) ;;; ret tt.
Definition on_screens {A} (c : M (screens D) A) : K A := on_drv (zoom ds_screens set_ds_screens c).
Definition on_machine {A} (c : M (irqs * D) A) : K A := on_drv (zoom ds_machine set_ds_machine c).

Definition con_vga (con : Z) : option (con_ops (D := D)) := Some vga_ops.

(** [pdev->resources], [pdev->resource_count] *)
Definition get_resources (pdev : Z) : K (option (list resource) * Z) := fun s =>
  match ds_res (snd s) !! pdev with Some r => Some (r, s) | None => None end.
Definition put_resources (pdev : Z) (r : option (list resource) * Z) : K unit :=
  on_drv (modify (fun s => set_ds_res (<[pdev := r]> (ds_res s)) s)).

(** [resource_get] and the resource the result points to. *)
Definition find_resource (r : option (list resource) * Z) (type : resource_type) (index : Z) : K (option resource) := fun s =>
  match resource_get (fst r) (snd r) type index with
  | Some (inr i) =>
      match default [] (fst r) !! Z.to_nat i with Some res => Some (Some res, s) | None => None end
  | Some (inl _) => Some (None, s)
  | None => None
  end.

(** The object at [p] comes into being, and goes. *)
Definition new_vga_priv (p : Z) (v : vga_text_priv) : K unit :=
  on_screens (modify (fun s => set_privs (<[p := v]> (privs s)) s)).
Definition free_vga_priv (p : Z) : K unit :=
  on_screens (modify (fun s => set_privs (delete p (privs s)) s)) ;;; drv_kfree p.
Definition upd_timers (f : gmap Z i8254_priv -> gmap Z i8254_priv) : K unit :=
  on_machine (on_dev (modify (fun d =>
    let t := get_timers d in set_timers (mk_timers (f (i8254_privs t)) (timer_devices t) (selected t)) d))).
Definition free_i8254_priv (p : Z) : K unit := upd_timers (delete p) ;;; drv_kfree p.

(** ** [vga_text.c] *)

Definition vga_text_probe (pdev : Z) : K Z :=
  res <-- get_resources pdev ;;
  mmio_res <-- find_resource res RESOURCE_TYPE_MMIO 0 ;;
  port_res <-- find_resource res RESOURCE_TYPE_PORT 0 ;;
  match mmio_res, port_res with
  | Some (Res_mmio start end_), Some (Res_port port_start _) =>
      if negb (RESOURCE_MMIO_SIZE start end_ =? VGA_TEXT_80X25_SIZE) then ret (- KERR_NOSUP)
      else
        dev_priv <-- drv_kmalloc sizeof_vga_text_priv ;;
        if KERR_PTR_IS_ERR dev_priv then ret (KERR_PTR_ERR dev_priv)
        else
          new_vga_priv dev_priv
            (mk_vga_text_priv (mk_console (name_of pdev) 80 25 0 0) (PHYS_TO_VIRT start) port_start) ;;;
          assign device_objs set_device_objs pdev (set_driver_data dev_priv) ;;;
          r <-- on_screens (console_register dev_priv) ;;
          if r <? 0 then free_vga_priv dev_priv ;;; ret r
          else
            on_screens (console_clear con_vga) ;;;
            on_screens (console_set_cursor_visible con_vga false) ;;;
            ret KERR_OK
  | Some _, Some _ => undefined
  | _, _ => ret (- KERR_INVAL)
  end.

(** ** [i8254.c] *)

Definition i8254_probe (pdev : Z) : K Z :=
  dev_priv <-- drv_kmalloc sizeof_i8254_priv ;;
  if KERR_PTR_IS_ERR dev_priv then ret (KERR_PTR_ERR dev_priv)
  else
    let timer := mk_timer_device (name_of pdev) TIMER_DEVICE_MODE_DISABLED I8254_MIN_DELTA_NS I8254_MAX_DELTA_NS 0 in
    upd_timers (insert dev_priv (mk_i8254_priv timer 0 0)) ;;;
    res <-- get_resources pdev ;;
    port_res <-- find_resource res RESOURCE_TYPE_PORT 0 ;;
    irq_res <-- find_resource res RESOURCE_TYPE_IRQ 0 ;;
    match port_res, irq_res with
    | Some (Res_port port_start _), Some (Res_irq map hwirq) =>
        upd_timers (insert dev_priv (mk_i8254_priv timer port_start 0)) ;;;
        irq <-- on_machine (on_irqs (irq_map_hwirq_to_irq map hwirq)) ;;
        if irq =? IRQ_INVALID then free_i8254_priv dev_priv ;;; ret (- KERR_NOENT)
        else
          upd_timers (insert dev_priv (mk_i8254_priv timer port_start irq)) ;;;
          r <-- on_machine (on_irqs (irq_request irq i8254_irq_handler_addr dev_priv)) ;;
          if r <? 0 then free_i8254_priv dev_priv ;;; ret r
          else
            assign device_objs set_device_objs pdev (set_driver_data dev_priv) ;;;
            r <-- on_machine (timer_device_register dev_priv) ;;
            if r <? 0 then
              on_machine (on_irqs (irq_free irq)) ;;;
              free_i8254_priv dev_priv ;;;
              assign device_objs set_device_objs pdev (set_driver_data 0) ;;;
              ret r
            else ret KERR_OK
    | Some _, Some _ => undefined
    | _, _ => free_i8254_priv dev_priv ;;; ret (- KERR_INVAL)
    end.

(** ** The platform devices and the registrations

    The arguments are the addresses of the static objects. *)

Context (vga_probe_addr i8254_probe_addr platform_bus : Z).

(** The code behind [pdrv->probe]. *)
Definition probe_code (p pdev : Z) : K Z :=
  if p =? vga_probe_addr then vga_text_probe pdev
  else if p =? i8254_probe_addr then i8254_probe pdev
  else undefined.

Abbreviation the_match := (fun _ : Z => platform_match (D := drv_state D)).
Abbreviation the_probe := (fun _ : Z => platform_probe probe_code).
Definition register_device (pdev : Z) : K Z := platform_device_register the_match the_probe platform_bus pdev.
Definition register_driver (pdrv : Z) : K Z := platform_driver_register the_match the_probe platform_bus pdrv.

Definition vga_text_resources : list resource := [Res_mmio 753664 757663; Res_port 980 981].
(** With the [map] member [i8254_device_init] fills in. *)
Definition i8254_0_resources (map : Z) : list resource := [Res_port 64 67; Res_irq map 0].

Definition BOOT_VIDEO_TYPE_TEXT : Z := 1.

(** [boot_get_state()->video.type] is the first argument. *)
Definition vga_device_init (video_type vga_device : Z) : K Z :=
  assign device_objs set_device_objs vga_device (set_dev_id 0) ;;;
  if video_type =? BOOT_VIDEO_TYPE_TEXT then
    assign device_objs set_device_objs vga_device (set_dev_name (Some (chars "vga-text"))) ;;;
    put_resources vga_device (Some vga_text_resources, 2) ;;;
    register_device vga_device
  else ret (- KERR_NOSUP).

Definition i8254_device_init (i8259_map i8254_0_device : Z) : K Z :=
  put_resources i8254_0_device (Some (i8254_0_resources i8259_map), 2) ;;;
  register_device i8254_0_device.

Definition vga_text_driver_init (vga_text_driver : Z) : K Z := register_driver vga_text_driver.
Definition i8254_driver_init (i8254_driver : Z) : K Z := register_driver i8254_driver.
End Drivers.

(** ** The machine *)

(** Reading the data port of the display controller returns the selected
    register, an 8-bit value. *)
Class CrtcRead (D : Type) `{CrtcHw D base} : Prop := {
  crtc_fetch : forall d (Q : Z -> D -> Prop), Q (crtc_reg d (crtc_index d)) d -> wp (port_in 8 (base + 1)) Q d;
  crtc_reg_u8 : forall d r, is_u8 (crtc_reg d r)
}.

(** The cursor is hidden and every other register kept. *)
Definition cursor_hidden `{CrtcHw D base} (d d' : D) : Prop :=
  Z.testbit (crtc_reg d' 10) 5 = true /\ forall r, r <> 10 -> crtc_reg d' r = crtc_reg d r.

Section HideCursor.
Context `{CR : CrtcRead D base}.

Lemma inb_data_wp s0 con nm buf t d (Q : Z -> screens D -> Prop) :
  0 <= base < 65535 -> Q (crtc_reg d (crtc_index d)) (showing s0 con nm buf base t d) ->
  wp (inb (u32 (base + VGA_DATA_PORT_OFFSET))) Q (showing s0 con nm buf base t d).
Proof.
  intros Hb HQ. unfold inb, hal_port_read8, x86_inb, VGA_DATA_PORT_OFFSET. wp_step. wp_step.
  rewrite u32_id, u16_id by (unfold is_u16, is_u32; lia). apply crtc_fetch. wp_step.
  rewrite u8_id by apply crtc_reg_u8. exact HQ.
Qed.

(** A port write is a step of the machine. *)
Lemma outb_step_wp port v s (Q : unit -> screens D -> Prop) :
  wp (outb port v) (fun _ s' => port_step (cdev s) (cdev s') -> Q tt s') s -> wp (outb port v) Q s.
Proof.
  unfold wp. destruct (outb port v s) as [[[] s']|] eqn:E; [|done]. intros HQ. apply HQ. by apply outb_step in E.
Qed.

Lemma hide_cursor_wp ops s0 con nm buf t d (Q : Z -> screens D -> Prop) :
  0 <= base < 65535 -> con <> 0 -> active_con s0 = con -> ops con = Some vga_ops ->
  (forall d', cursor_hidden d d' -> rtc port_step d d' -> Q KERR_OK (showing s0 con nm buf base t d')) ->
  wp (console_set_cursor_visible ops false) Q (showing s0 con nm buf base t d).
Proof.
  intros Hb Hc Ha Hops HQ. unfold console_set_cursor_visible, with_active. do 2 wp_step.
  replace (active_con (showing s0 con nm buf base t d)) with con by (cbn; done).
  rewrite (proj2 (Z.eqb_neq _ _) Hc), Hops. cbn [con_set_cursor_visible vga_ops].
  unfold vga_text_console_set_cursor_visible. rewrite (proj2 (Z.eqb_neq _ _) Hc). wp_step. apply get_priv_wp.
  cbn [vp_port_base]. wp_step. apply outb_step_wp, outb_index_wp; [done | done |]. intros d1 I1 R1 S1.
  wp_step. apply inb_data_wp; [done|]. rewrite I1. wp_step.
  assert (u8 (Z.lor (crtc_reg d1 10) (BIT 5)) = Z.lor (crtc_reg d1 10) (BIT 5)) as Hu.
  { pose proof (crtc_reg_u8 d1 10) as Hr. unfold is_u8 in Hr. change (BIT 5) with 32. apply u8_id. unfold is_u8.
    split; [apply Z.lor_nonneg; lia|]. change 256 with (2 ^ 8).
    assert (0 < Z.lor (crtc_reg d1 10) 32) as Hp.
    { assert (0 <= Z.lor (crtc_reg d1 10) 32) by (apply Z.lor_nonneg; lia).
      assert (Z.lor (crtc_reg d1 10) 32 <> 0) by (intros [_ E]%Z.lor_eq_0_iff; done). lia. }
    apply Z.log2_lt_pow2; [done|]. rewrite Z.log2_lor by lia. apply Z.max_lub_lt; [|done].
    destruct (Z.eq_dec (crtc_reg d1 10) 0) as [->|]; [done|]. apply Z.log2_lt_pow2; lia. }
  apply outb_step_wp, outb_data_wp; [done | apply u8_range |]. intros d2 I2 R2 S2. wp_step.
  apply HQ; [|eapply rtc_l; [exact S1 | by apply rtc_once]]. rewrite I1, Hu in R2. split.
  - rewrite R2. cbn [Z.eqb Pos.eqb]. rewrite Z.lor_spec, BIT_testbit by lia. apply orb_true_r.
  - intros r Hr. rewrite R2, (proj2 (Z.eqb_neq r 10)) by done. apply R1.
Qed.
End HideCursor.

(** ** The probe of the VGA driver *)

Lemma find_resource_wp {D} r type index i res s (Q : option resource -> devices * drv_state D -> Prop) :
  resource_get (fst r) (snd r) type index = Some (inr i) -> default [] (fst r) !! Z.to_nat i = Some res ->
  Q (Some res) s -> wp (find_resource r type index) Q s.
Proof. intros Hr Hi HQ. unfold wp, find_resource. by rewrite Hr, Hi. Qed.

Lemma get_resources_wp {D} pdev r dv (s : drv_state D) (Q : _ -> devices * drv_state D -> Prop) :
  ds_res s !! pdev = Some r -> Q r (dv, s) -> wp (get_resources pdev) Q (dv, s).
Proof. intros Hr HQ. unfold wp, get_resources. cbn [snd]. by rewrite Hr. Qed.

(** [resources] has [res] as its first entry of the type. *)
Definition first_resource (r : option (list resource) * Z) (type : resource_type) (res : resource) : Prop :=
  exists i, resource_get (fst r) (snd r) type 0 = Some (inr i) /\ default [] (fst r) !! Z.to_nat i = Some res.

(** A heap in the place of [h0], in a memory of words that agrees with that of
    [h0] outside of the heap and the head of its free list. *)
Record heap_kept (kheap_free_list : Z) (h0 h : kheap) : Prop := {
  hk_bounds : kheap_start h = kheap_start h0 /\ kheap_end h = kheap_end h0;
  hk_words : heap_words h;
  hk_outside : forall a, live_addr kheap_free_list h0 [] a -> rd (kh_mem h) a = rd (kh_mem h0) a
}.

(** Such a heap with the live objects [L] and, if [n >= 24], a free block of at
    least [n] bytes. *)
Definition heap_room (kheap_free_list : Z) (h0 h : kheap) (L : list (Z * Z)) (n : Z) : Prop :=
  heap_kept kheap_free_list h0 h /\
  exists bs ns us, heap_inv kheap_free_list h bs ns /\ us ≡ₚ used_blocks bs /\ Forall2 owns L us /\
    (n < 24 \/ exists b, b ∈ bs /\ b_used b = false /\ n <= b_size b).

Section Heap.
Context (kheap_free_list : Z) {D : Type} (h0 : kheap).
Abbreviation room := (heap_room kheap_free_list h0).

(** Memory written for the heap's own purposes. *)
Lemma heap_kept_step h m' L : heap_kept kheap_free_list h0 h -> heap_words (set_kh_mem m' h) ->
  (forall a, live_addr kheap_free_list h L a -> rd m' a = rd (kh_mem h) a) -> heap_kept kheap_free_list h0 (set_kh_mem m' h).
Proof.
  intros [[Hs He] Hw Ho] Hw' Hm. split; [done | done |]. intros a Ha. cbn. rewrite Hm; [by apply Ho|].
  left. rewrite Hs, He. destruct Ha as [Ha|(p & sz & Hin & _)]; [done | set_solver].
Qed.

Lemma heap_list_word h bs ns : heap_inv kheap_free_list h bs ns -> is_u32 kheap_free_list.
Proof.
  intros [_ _ _ Hd _]. destruct (dll_node_ok _ _ _ _ Hd (list_elem_of_here _ _)) as [(_ & H1 & H2) _].
  unfold is_u32, KERNEL_VIRT_OFFSET in *. lia.
Qed.

Lemma room_client h L n : room h L n -> client_inv kheap_free_list (h, L).
Proof. intros (_ & bs & ns & us & H & Hus & HL & _). by exists bs, ns, us. Qed.

Lemma client_room h L : heap_kept kheap_free_list h0 h -> client_inv kheap_free_list (h, L) -> room h L 0.
Proof. intros Hk (bs & ns & us & H & Hus & HL). split; [done|]. exists bs, ns, us. do 3 (split; [done|]). by left. Qed.

Lemma room_le h L n n' : room h L n -> n' <= n -> room h L n'.
Proof.
  intros (Hk & bs & ns & us & H & Hus & HL & Hn) Hle. split; [done|]. exists bs, ns, us. do 3 (split; [done|]).
  destruct Hn as [Hn|(b & Hb & Hu & Hn)]; [left; lia|]. right. exists b. split; [done|]. split; [done | lia].
Qed.

Lemma room_nonzero h p size L n : room h ((p, size) :: L) n -> p <> 0 /\ is_u32 p.
Proof.
  intros Hr. pose proof (room_client _ _ _ Hr) as Hh.
  destruct (heap_ok_bounds _ _ _ Hh) as (H1 & H2 & _). destruct (heap_ok_disjoint _ _ _ Hh) as [_ Hb].
  apply Forall_cons in Hb as [(H3 & H4 & _) _]. cbn in *.
  destruct Hr as (_ & bs & ns & us & _ & _ & HL & _). apply Forall2_cons_inv_l in HL as (b & us' & (_ & Hp & _) & _).
  cbn in Hp. unfold KERNEL_VIRT_OFFSET, is_u32 in *. lia.
Qed.

Lemma kmalloc_room_wp size h L n (Q : Z -> kheap -> Prop) :
  room h L n -> 0 < size <= 4294967272 ->
  (n < Z.max 24 (block_need size) -> Q (KERR_PTR (- KERR_NOMEM)) h) ->
  (forall p h', KERR_PTR_IS_ERR p = false -> p <> 0 -> is_u32 p ->
     room h' ((p, size) :: L) (n - block_need size) -> Q p h') ->
  wp (kmalloc kheap_free_list size) Q h.
Proof.
  intros Hroom Hs Hno Hyes. destruct (Hroom) as (Hk & bs & ns & us & H & Hus & HL & Hn).
  destruct (proj1 (wp_run _ _ _) (kmalloc_wp kheap_free_list h bs ns size H ltac:(lia))) as (p & h' & Hrun & Hpost).
  destruct (typed_kmalloc kheap_free_list size h p h' (hk_words _ _ _ Hk) Hrun) as [Hw' _].
  unfold wp. rewrite Hrun.
  destruct Hpost as [(? & _)|[(_ & -> & -> & Hall)|(Hpos & bs1 & b & bs2 & pre & post & m' & -> & -> & Hu & Hneed & _ & -> & -> & Hinv & Hmem)]].
  - lia.
  - apply Hno. destruct Hn as [Hn|(b & Hb & Hu & Hn)]; [lia|]. specialize (Hall b Hb Hu). lia.
  - pose proof (block_ptr_not_err kheap_free_list h _ _ b H ltac:(set_solver)) as He.
    set (b' := mk_blk (b_addr b) (if 24 <=? b_size b - block_need size then block_need size else b_size b) true).
    assert (room (set_kh_mem m' h) ((b_addr b + 16, size) :: L) (n - block_need size)) as Hr'.
    2: { destruct (room_nonzero _ _ _ _ _ Hr'). by apply Hyes. }
    split; [apply (heap_kept_step h m' []); [done | done |]; intros a [Ha|(q & sz & Hin & _)]; [apply Hmem; by left | set_solver]|].
    eexists _, _, (b' :: us). split; [exact Hinv|]. split; [|split].
    + rewrite Hus, !used_blocks_app. unfold alloc_blocks, used_blocks. cbn [List.filter]. rewrite Hu.
      subst b'. destruct (24 <=? _); cbn [List.filter b_used app]; by rewrite Permutation_middle.
    + constructor; [|done]. unfold owns. subst b'. cbn [fst snd b_addr b_size].
      split; [done|]. split; [done|]. unfold block_need in *. case_match; dlia.
    + destruct (Z.lt_ge_cases (n - block_need size) 24) as [|Hge]; [by left|]. right.
      assert (0 < block_need size) by (unfold block_need; dlia).
      destruct Hn as [Hn|(c & Hc & Hcu & Hcn)]; [lia|].
      apply elem_of_app in Hc as [Hc|[->|Hc]%elem_of_cons].
      * exists c. split; [set_solver|]. split; [done | lia].
      * unfold alloc_blocks. rewrite (proj2 (Z.leb_le _ _)) by lia. eexists. split; [|split; [|]].
        -- apply elem_of_app. right. apply elem_of_app. left. apply list_elem_of_further, list_elem_of_here.
        -- done.
        -- cbn. lia.
      * exists c. split; [set_solver|]. split; [done | lia].
Qed.

Lemma drv_kmalloc_wp size dv (s : drv_state D) L n (Q : Z -> devices * drv_state D -> Prop) :
  room (ds_heap s) L n -> 0 < size <= 4294967272 ->
  (n < Z.max 24 (block_need size) -> Q (KERR_PTR (- KERR_NOMEM)) (dv, s)) ->
  (forall p h', KERR_PTR_IS_ERR p = false -> p <> 0 -> is_u32 p ->
     room h' ((p, size) :: L) (n - block_need size) -> Q p (dv, set_ds_heap h' s)) ->
  wp (drv_kmalloc kheap_free_list size) Q (dv, s).
Proof.
  intros Hh Hs Hno Hyes. unfold drv_kmalloc, on_drv. do 2 wp_step. cbn [fst snd].
  eapply kmalloc_room_wp; [exact Hh | done | |].
  - intros Hn. replace (set_ds_heap (ds_heap s) s) with s by (by destruct s). by apply Hno.
  - intros p h' He Hp Hu Hr. by apply Hyes.
Qed.

(** [kfree] refuses an object at the very end of the heap, which then stays. *)
Lemma drv_kfree_wp p size dv (s : drv_state D) L n (Q : unit -> devices * drv_state D -> Prop) :
  room (ds_heap s) ((p, size) :: L) n ->
  (forall h' L', room h' L' 0 -> L' = L \/ L' = (p, size) :: L -> Q tt (dv, set_ds_heap h' s)) ->
  wp (drv_kfree kheap_free_list p) Q (dv, s).
Proof.
  intros Hh HQ. unfold drv_kfree, on_drv. do 3 wp_step. cbn [fst snd]. pose proof Hh as (Hk & bs & ns & us & Hi & _). apply room_client in Hh.
  eapply wp_mono; [apply (wp_typed heap_words); [by apply (kfree_live_wp kheap_free_list _ L p size) |
    apply typed_kfree, (heap_list_word _ _ _ Hi) | apply Hk]|].
  intros r h' (Hpost & Hw' & _). wp_step.
  destruct Hpost as [(_ & ->)|(_ & m' & -> & Hh' & Hm)].
  - apply (HQ _ ((p, size) :: L)); [by apply client_room | by right].
  - apply (HQ _ L); [|by left]. apply client_room; [|done]. by apply (heap_kept_step _ m' L).
Qed.
End Heap.

Definition with_data (pdev p : Z) (dv : devices) : devices :=
  set_device_objs (alter (set_driver_data p) pdev (device_objs dv)) dv.

Lemma assign_data_wp {D} pdev p dv dev (s : drv_state D) (Q : unit -> devices * drv_state D -> Prop) :
  device_objs dv !! pdev = Some dev -> Q tt (with_data pdev p dv, s) ->
  wp (assign device_objs set_device_objs pdev (set_driver_data p)) Q (dv, s).
Proof.
  intros Hd HQ. unfold wp, assign. cbn [fst snd]. rewrite Hd. rewrite (insert_is_alter _ _ _ _ Hd). exact HQ.
Qed.

Definition blank_term : term := mk_term (replicate 2000 blank) 0 0.

Section VgaProbe.
Context `{CR : CrtcRead D base} `{HT : HasTimers D}.
Context (kheap_free_list : Z) (name_of : Z -> Z).
Context (h0 : kheap).
Abbreviation room := (heap_room kheap_free_list h0).

(** The device: a text buffer of 2000 cells at [start] and the display controller
    at port [base]. *)
Record vga_device_ok (pdev start : Z) (dv : devices) (s : drv_state D) : Prop := {
  vd_device : is_Some (device_objs dv !! pdev);
  vd_resources : exists r end_ port_end, ds_res s !! pdev = Some r /\
    first_resource r RESOURCE_TYPE_MMIO (Res_mmio start end_) /\ RESOURCE_MMIO_SIZE start end_ = VGA_TEXT_80X25_SIZE /\
    first_resource r RESOURCE_TYPE_PORT (Res_port base port_end);
  vd_buffer : exists cells, text_buffers (ds_screens s) !! PHYS_TO_VIRT start = Some cells /\ length cells = 2000%nat;
  vd_base : 0 <= base < 65535
}.

(** The three ways the probe ends: no memory; a console is there already; the
    console is registered, blank and without a visible cursor. *)
Definition vga_probe_post (pdev start : Z) (L : list (Z * Z)) (n : Z) (dv : devices) (s : drv_state D)
    (r : Z) (st : devices * drv_state D) : Prop :=
  let scr := ds_screens s in
  (r = - KERR_NOMEM /\ n < block_need sizeof_vga_text_priv /\ st = (dv, s)) \/
  exists p h', p <> 0 /\ fst st = with_data pdev p dv /\
    if active_con scr =? 0 then
      r = KERR_OK /\ room h' ((p, sizeof_vga_text_priv) :: L) (n - block_need sizeof_vga_text_priv) /\
      exists d1 d', cursor_at (cdev scr) d1 blank_term /\ cursor_hidden d1 d' /\ rtc port_step (cdev scr) d' /\
        snd st = set_ds_screens (showing (set_active p scr) p (name_of pdev) (PHYS_TO_VIRT start) base blank_term d')
                   (set_ds_heap h' s)
    else
      r = - KERR_BUSY /\ (exists L', room h' L' 0 /\ (L' = L \/ L' = (p, sizeof_vga_text_priv) :: L)) /\
      snd st = set_ds_screens (set_privs (delete p (privs scr)) scr) (set_ds_heap h' s).

Lemma on_screens_wp {A} (c : M (screens D) A) dv s (Q : A -> devices * drv_state D -> Prop) :
  wp c (fun a scr => Q a (dv, set_ds_screens scr s)) (ds_screens s) -> wp (on_screens c) Q (dv, s).
Proof. intros Hc. unfold on_screens, on_drv. do 2 wp_step. exact Hc. Qed.

Lemma ds_screens_set (scr : screens D) s : ds_screens (set_ds_screens scr s) = scr.
Proof. done. Qed.

(** A console that has just been registered. *)
Lemma register_showing p nm buf cells (scr : screens D) :
  text_buffers scr !! buf = Some cells ->
  set_active p (set_privs (<[p := mk_vga_text_priv (mk_console nm 80 25 0 0) buf base]> (privs scr)) scr) =
  showing (set_active p scr) p nm buf base (mk_term cells 0 0) (cdev scr).
Proof. intros Hb. unfold showing, set_active, set_privs. cbn. by rewrite (insert_id _ _ _ Hb). Qed.

Lemma vga_text_probe_wp pdev start L n dv s :
  vga_device_ok pdev start dv s -> room (ds_heap s) L n ->
  wp (vga_text_probe kheap_free_list name_of pdev) (vga_probe_post pdev start L n dv s) (dv, s).
Proof.
  intros [[dev Hdev] (r & end_ & pe & Hr & (i & Hi & Hi') & Hsz & (j & Hj & Hj')) (cells & Hbuf & Hcells) Hb] Hh.
  unfold vga_text_probe. wp_step. eapply get_resources_wp; [exact Hr|]. wp_step. eapply find_resource_wp; [exact Hi | exact Hi' |].
  wp_step. eapply find_resource_wp; [exact Hj | exact Hj' |]. rewrite Hsz. cbn [Z.eqb negb].
  rewrite Z.eqb_refl. cbn [negb]. wp_step. eapply drv_kmalloc_wp; [exact Hh | done | |].
  { intros Hn. change (KERR_PTR_IS_ERR _) with true. cbn iota. wp_step. left. split; [done|]. by split. }
  intros p h' He Hp Hu Hh'. rewrite He. cbn iota. wp_step. apply on_screens_wp. wp_step.
  wp_step. eapply assign_data_wp; [exact Hdev|]. wp_step. apply on_screens_wp. rewrite ds_screens_set.
  unfold console_register. rewrite (proj2 (Z.eqb_neq _ _) Hp). do 2 wp_step. cbn [active_con set_privs].
  unfold vga_probe_post. change (ds_screens (set_ds_heap h' s)) with (ds_screens s).
  destruct (Z.eqb_spec (active_con (ds_screens s)) 0) as [Ha|Ha]; cbn [negb].
  - do 2 wp_step. wp_step. cbn [Z.ltb Z.compare KERR_OK]. wp_step. apply on_screens_wp. rewrite ds_screens_set.
    rewrite (register_showing p (name_of pdev) _ cells) by done.
    apply console_clear_wp; [done | done | done | done | done |]. intros d1 t' Hd1 S1.
    wp_step. apply on_screens_wp. rewrite ds_screens_set. apply hide_cursor_wp; [done | done | done | done |].
    intros d' Hd' S2. wp_step. right. exists p, h'. split; [done|]. split; [done|]. split; [done|]. split; [done|].
    exists d1, d'. split; [done|]. split; [done|]. split; [by etrans | done].
  - wp_step. change (- KERR_BUSY <? 0) with true. cbn iota. wp_step. unfold free_vga_priv. wp_step. apply on_screens_wp.
    wp_step. eapply drv_kfree_wp; [exact Hh'|]. intros h2 L' Hh2 HL'. wp_step. right. exists p, h2.
    split; [done|]. split; [done|]. split; [done|]. split; [by exists L'|]. cbn [snd].
    unfold set_ds_screens, set_ds_heap, ds_screens, set_ds_klog, set_kl_screens, set_privs. cbn.
    by rewrite delete_insert_eq.
Qed.
End VgaProbe.

(** ** The probe of the timer driver *)

(** The driver's objects are a part of the machine's state of their own. *)
Class TimerStore (D : Type) `{HasTimers D} : Prop := {
  timers_get_set : forall t (d : D), get_timers (set_timers t d) = t;
  timers_set_set : forall t t' (d : D), set_timers t (set_timers t' d) = set_timers t d
}.

(** The interrupt number of line [hwirq] of [map]. *)
Definition mapped_irq (m : irq_map) (hwirq : Z) : Z :=
  if outside_map m hwirq then IRQ_INVALID else u32 (map_first_irq m + u32 (hwirq - map_first_hwirq m)).

(** What a request for an interrupt with a handler returns. *)
Definition request_code (i : irqs) (irq : Z) : Z :=
  if 256 <=? irq then - KERR_INVAL
  else if negb (irq_used i irq) then - KERR_NOENT
  else
    let d := irq_descs i !!! Z.to_nat irq in
    if (desc_map d =? 0) || (desc_chip d =? 0) then - KERR_NOENT
    else if negb (desc_handler d =? 0) then - KERR_BUSY else KERR_OK.

Definition with_handler (irq handler dev_id : Z) (i : irqs) : irqs :=
  let d := irq_descs i !!! Z.to_nat irq in
  set_descs (<[Z.to_nat irq := mk_irq_desc (desc_hwirq d) (desc_map d) (desc_chip d) handler dev_id]> (irq_descs i)) i.

Lemma irq_request_wp i irq handler dev_id (Q : Z -> irqs -> Prop) :
  irqs_ok i -> 0 <= irq -> handler <> 0 ->
  (let c := request_code i irq in Q c (if c =? KERR_OK then with_handler irq handler dev_id i else i)) ->
  wp (irq_request irq handler dev_id) Q i.
Proof.
  intros Hok Hi Hh HQ. unfold irq_request, request_code in *. rewrite (proj2 (Z.eqb_neq _ _) Hh). cbn [orb].
  change IRQ_MAX with 256. destruct (Z.leb_spec 256 irq); [by apply wp_ret|]. wp_step.
  apply irq_is_allocated_wp; [done | done |]. rewrite (proj2 (Z.ltb_lt irq 256)) by lia. cbn [andb].
  destruct (irq_used i irq); cbn [negb] in *; [|by apply wp_ret].
  unfold irq_desc_get. change IRQ_MAX with 256. destruct (Z.leb_spec 256 irq); [lia|].
  destruct (desc_exists i irq Hok ltac:(lia)) as [d Hd]. wp_step. eapply read_desc_wp; [exact Hd|].
  cbv zeta in HQ. rewrite (list_lookup_total_correct _ _ _ Hd) in HQ.
  destruct ((desc_map d =? 0) || (desc_chip d =? 0)); [by apply wp_ret|].
  destruct (negb (desc_handler d =? 0)); [by apply wp_ret|]. wp_step. eapply write_desc_wp; [exact Hd|]. wp_step.
  change (KERR_OK =? KERR_OK) with true in HQ. unfold with_handler in HQ.
  by rewrite (list_lookup_total_correct _ _ _ Hd) in HQ.
Qed.

Lemma request_code_sign i irq : request_code i irq = KERR_OK \/ request_code i irq < 0.
Proof. unfold request_code. repeat case_match; (by left) || (right; unfold KERR_INVAL, KERR_NOENT, KERR_BUSY; lia). Qed.

Section TimerProbe.
Context `{PortIO D} `{TS : TimerStore D}.
Context (kheap_free_list : Z) (name_of : Z -> Z) (handler : Z).
Hypothesis handler_nonzero : handler <> 0.
Context (h0 : kheap).
Abbreviation room := (heap_room kheap_free_list h0).

Record timer_device_ok (pdev base map hwirq : Z) (m : irq_map) (dv : devices) (s : drv_state D) : Prop := {
  td_device : is_Some (device_objs dv !! pdev);
  td_resources : exists r port_end, ds_res s !! pdev = Some r /\
    first_resource r RESOURCE_TYPE_PORT (Res_port base port_end) /\
    first_resource r RESOURCE_TYPE_IRQ (Res_irq map hwirq);
  td_map : map <> 0 /\ irq_maps (ds_irqs s) !! map = Some m;
  td_irqs : irqs_ok (ds_irqs s)
}.

Definition put_machine (i : irqs) (T : timers) (h : kheap) (s : drv_state D) : drv_state D :=
  set_ds_machine (i, set_timers T (cdev (ds_screens s))) (set_ds_heap h s).

Definition probed_priv (pdev base irq : Z) : i8254_priv :=
  mk_i8254_priv (mk_timer_device (name_of pdev) TIMER_DEVICE_MODE_DISABLED I8254_MIN_DELTA_NS I8254_MAX_DELTA_NS 0) base irq.

(** The ways the probe ends: no memory; the line has no interrupt, or its request
    fails, and the object is released; the handler is installed and the stopped
    timer registered and selected. *)
Definition timer_probe_post (pdev base map hwirq : Z) (m : irq_map) (L : list (Z * Z)) (n : Z) (dv : devices)
    (s : drv_state D) (r : Z) (st : devices * drv_state D) : Prop :=
  let T := get_timers (cdev (ds_screens s)) in
  let irq := mapped_irq m hwirq in
  (r = - KERR_NOMEM /\ n < block_need sizeof_i8254_priv /\ st = (dv, s)) \/
  exists p h', p <> 0 /\
    if negb (irq =? IRQ_INVALID) && (request_code (ds_irqs s) irq =? KERR_OK) then
      r = KERR_OK /\ room h' ((p, sizeof_i8254_priv) :: L) (n - block_need sizeof_i8254_priv) /\
      st = (with_data pdev p dv,
            put_machine (with_handler irq handler p (ds_irqs s))
              (mk_timers (<[p := probed_priv pdev base irq]> (i8254_privs T)) (timer_devices T ++ [p]) p) h' s)
    else
      r = (if irq =? IRQ_INVALID then - KERR_NOENT else request_code (ds_irqs s) irq) /\
      (exists L', room h' L' 0 /\ (L' = L \/ L' = (p, sizeof_i8254_priv) :: L)) /\
      st = (dv, put_machine (ds_irqs s) (mk_timers (delete p (i8254_privs T)) (timer_devices T) (selected T)) h' s).

Lemma on_machine_wp {A} (c : M (irqs * D) A) dv s (Q : A -> devices * drv_state D -> Prop) :
  wp c (fun a m => Q a (dv, set_ds_machine m s)) (ds_machine s) -> wp (on_machine c) Q (dv, s).
Proof. intros Hc. unfold on_machine, on_drv. do 2 wp_step. exact Hc. Qed.

Lemma upd_timers_wp f dv i T h s (Q : unit -> devices * drv_state D -> Prop) :
  Q tt (dv, put_machine i (mk_timers (f (i8254_privs T)) (timer_devices T) (selected T)) h s) ->
  wp (upd_timers f) Q (dv, put_machine i T h s).
Proof.
  intros HQ. unfold upd_timers. apply on_machine_wp. apply wp_on_dev, wp_modify. cbn.
  rewrite timers_get_set, timers_set_set. exact HQ.
Qed.

Lemma upd_timers_first f dv h s (Q : unit -> devices * drv_state D -> Prop) :
  (let T := get_timers (cdev (ds_screens s)) in
   Q tt (dv, put_machine (ds_irqs s) (mk_timers (f (i8254_privs T)) (timer_devices T) (selected T)) h s)) ->
  wp (upd_timers f) Q (dv, set_ds_heap h s).
Proof. intros HQ. unfold upd_timers. apply on_machine_wp. apply wp_on_dev, wp_modify. exact HQ. Qed.

Lemma free_timer_wp p size dv i T h s L n (Q : unit -> devices * drv_state D -> Prop) :
  room h ((p, size) :: L) n ->
  (forall h' L', room h' L' 0 -> L' = L \/ L' = (p, size) :: L ->
     Q tt (dv, put_machine i (mk_timers (delete p (i8254_privs T)) (timer_devices T) (selected T)) h' s)) ->
  wp (free_i8254_priv kheap_free_list p) Q (dv, put_machine i T h s).
Proof.
  intros Hh HQ. unfold free_i8254_priv. wp_step. apply upd_timers_wp. eapply drv_kfree_wp; [exact Hh|].
  intros h' L' Hh' HL'. by apply (HQ h' L').
Qed.

Lemma on_irqs_machine_wp {A} (c : M irqs A) dv i T h s (Q : A -> devices * drv_state D -> Prop) :
  wp c (fun a i' => Q a (dv, put_machine i' T h s)) i -> wp (on_machine (on_irqs c)) Q (dv, put_machine i T h s).
Proof. intros Hc. apply on_machine_wp. by apply wp_on_irqs. Qed.

Lemma timer_register_wp p dv i T h s (Q : Z -> devices * drv_state D -> Prop) :
  p <> 0 -> Q KERR_OK (dv, put_machine i (mk_timers (i8254_privs T) (timer_devices T ++ [p]) p) h s) ->
  wp (on_machine (timer_device_register p)) Q (dv, put_machine i T h s).
Proof.
  intros Hp HQ. apply on_machine_wp. unfold timer_device_register. rewrite (proj2 (Z.eqb_neq _ _) Hp).
  wp_step. apply wp_on_dev, wp_modify. wp_step. cbn. rewrite timers_get_set, timers_set_set. exact HQ.
Qed.

Lemma irq_of_line_wp map hwirq m i (Q : Z -> irqs -> Prop) :
  map <> 0 -> irq_maps i !! map = Some m -> Q (mapped_irq m hwirq) i -> wp (irq_map_hwirq_to_irq map hwirq) Q i.
Proof.
  intros Hmap Hm HQ. unfold irq_map_hwirq_to_irq. rewrite (proj2 (Z.eqb_neq _ _) Hmap). wp_step.
  eapply read_map_wp; [exact Hm|]. unfold mapped_irq in HQ. by destruct (outside_map m hwirq).
Qed.

Lemma i8254_probe_wp pdev base map hwirq m L n dv s :
  timer_device_ok pdev base map hwirq m dv s -> room (ds_heap s) L n ->
  wp (i8254_probe kheap_free_list name_of handler pdev) (timer_probe_post pdev base map hwirq m L n dv s) (dv, s).
Proof.
  intros [[dev Hdev] (r & pe & Hr & (i & Hi & Hi') & (j & Hj & Hj')) [Hmap Hm] Hirqs] Hh.
  unfold i8254_probe. wp_step. eapply drv_kmalloc_wp; [exact Hh | done | |].
  { intros Hn. change (KERR_PTR_IS_ERR _) with true. cbn iota. wp_step. left. split; [done|]. by split. }
  intros p h' He Hp Hu Hh'. rewrite He. cbn iota.
  set (T := get_timers (cdev (ds_screens s))). set (irq := mapped_irq m hwirq).
  wp_step. apply upd_timers_first. cbv zeta. fold T. wp_step. eapply get_resources_wp; [exact Hr|].
  wp_step. eapply find_resource_wp; [exact Hi | exact Hi' |]. wp_step. eapply find_resource_wp; [exact Hj | exact Hj' |].
  cbn beta iota. wp_step. apply upd_timers_wp. cbn [i8254_privs timer_devices selected]. rewrite insert_insert_eq.
  wp_step. apply on_irqs_machine_wp. eapply irq_of_line_wp; [done | exact Hm|]. fold irq.
  assert (Hpost : forall r T' h2 L', T' = mk_timers (delete p (i8254_privs T)) (timer_devices T) (selected T) ->
    room h2 L' 0 -> L' = L \/ L' = (p, sizeof_i8254_priv) :: L ->
    negb (irq =? IRQ_INVALID) && (request_code (ds_irqs s) irq =? KERR_OK) = false ->
    r = (if irq =? IRQ_INVALID then - KERR_NOENT else request_code (ds_irqs s) irq) ->
    timer_probe_post pdev base map hwirq m L n dv s r (dv, put_machine (ds_irqs s) T' h2 s)).
  { intros r' T' h2 L' -> Hh2 HL' Hc ->. right. exists p, h2. split; [done|]. fold irq T. rewrite Hc. eauto. }
  destruct (Z.eqb_spec irq IRQ_INVALID) as [Hinv|Hinv].
  { wp_step. eapply free_timer_wp; [exact Hh'|]. intros h2 L' Hh2 HL'. wp_step.
    cbn [i8254_privs timer_devices selected]. rewrite delete_insert_eq. by eapply Hpost. }
  wp_step. apply upd_timers_wp. cbn [i8254_privs timer_devices selected]. rewrite insert_insert_eq.
  wp_step. apply on_irqs_machine_wp.
  assert (0 <= irq) as Hirq by (unfold irq, mapped_irq; case_match; [done | apply u32_range]).
  apply irq_request_wp; [done | done | done |]. cbv zeta.
  destruct (request_code_sign (ds_irqs s) irq) as [Hc|Hc].
  - rewrite Hc. change (KERR_OK =? KERR_OK) with true. change (KERR_OK <? 0) with false. cbn iota.
    wp_step. eapply assign_data_wp; [exact Hdev|]. wp_step. apply timer_register_wp; [done|].
    change (KERR_OK <? 0) with false. cbn iota. wp_step.
    right. exists p, h'. split; [done|]. fold irq T. rewrite Hc, (proj2 (Z.eqb_neq _ _) Hinv). cbn. auto.
  - rewrite (proj2 (Z.ltb_lt _ _) Hc). assert ((request_code (ds_irqs s) irq =? KERR_OK) = false) as E
      by (apply Z.eqb_neq; unfold KERR_OK; lia).
    rewrite E. wp_step. eapply free_timer_wp; [exact Hh'|]. intros h2 L' Hh2 HL'. wp_step.
    cbn [i8254_privs timer_devices selected]. rewrite delete_insert_eq. by eapply Hpost.
Qed.
End TimerProbe.

(** ** Properties *)



(** ** A machine with a display controller, flags and timers *)

Module PlatformMachine.
Record machine := mk_machine { pm_index : Z; pm_regs : Z -> Z; pm_flags : Z; pm_timers : timers }.

#[export] Instance machine_ports : PortIO machine := {
  port_in := fun _ port => gets (fun d => u8 (pm_regs d (pm_index d)));
  port_out := fun _ port v => modify (fun d =>
    if port =? 980 then mk_machine v (pm_regs d) (pm_flags d) (pm_timers d)
    else if port =? 981 then
      mk_machine (pm_index d) (fun r => if r =? pm_index d then v else pm_regs d r) (pm_flags d) (pm_timers d)
    else d)
}.

#[export] Instance machine_crtc : CrtcHw machine 980.
Proof.
  refine {| crtc_index := pm_index; crtc_reg := fun d r => u8 (pm_regs d r) |}.
  - intros d v Q _ HQ. apply wp_modify. by apply HQ.
  - intros d v Q Hv HQ. apply wp_modify. apply HQ; [done|]. intros r.
    change (980 + 1 =? 980) with false. change (980 + 1 =? 981) with true. cbn. destruct (r =? pm_index d); [by apply u8_id | done].
Defined.

#[export] Instance machine_read : CrtcRead machine.
Proof. split; [intros d Q HQ; by apply wp_gets | intros d r; apply u8_range]. Qed.

#[export] Instance machine_timers : HasTimers machine := {
  get_timers := pm_timers;
  set_timers := fun t d => mk_machine (pm_index d) (pm_regs d) (pm_flags d) t
}.

#[export] Instance machine_store : TimerStore machine.
Proof. by split. Qed.

#[export] Instance machine_cpu : Cpu machine := {
  eflags := pm_flags;
  popf := fun v => modify (fun d => mk_machine (pm_index d) (pm_regs d) v (pm_timers d));
  cli := modify (fun d => mk_machine (pm_index d) (pm_regs d) (Z.clearbit (pm_flags d) 9) (pm_timers d));
  sti := modify (fun d => mk_machine (pm_index d) (pm_regs d) (Z.setbit (pm_flags d) 9) (pm_timers d))
}.

#[export] Instance machine_log : LogHw machine.
Proof.
  split.
  - intros d Q HQ. apply wp_modify, HQ; [|done]. apply Z.clearbit_eq.
  - intros w port v d r d'. unfold port_out, machine_ports, modify. intros [= _ <-]. by repeat case_match.
Qed.

(** A heap of 256 bytes with one free block. *)
Definition heap_256 : kheap :=
  match (list_init sentinel ;;; list_insert_front sentinel 3221233672 ;;;
         store32 3221233664 256 ;;; store32 3221233668 0 ;;; store32 3221233916 256) ∅ with
  | Some (_, m) => mk_kheap m 3221233664 3221233920
  | None => mk_kheap ∅ 0 0
  end.

Lemma heap_256_inv : heap_inv sentinel heap_256 [mk_blk 3221233664 256 false] [3221233672].
Proof.
  split.
  - split.
    + vm_compute. repeat split; congruence.
    + vm_compute. repeat split; (congruence || (left; congruence)).
    + vm_compute. done.
    + by repeat constructor.
  - repeat constructor; by vm_compute.
  - done.
  - split; [|split].
    + vm_compute. done.
    + apply nodes_apart_cons. split; [|constructor; constructor].
      intros y ->%list_elem_of_singleton. unfold apart, sentinel. lia.
    + rewrite !Forall_cons, Forall_nil. unfold node_ok, valid, KERNEL_VIRT_OFFSET, sentinel. dlia.
  - done.
Qed.

Lemma heap_256_room : heap_room sentinel heap_256 heap_256 [] 256.
Proof.
  split; [split; [done | apply mem_ok_dec; vm_compute; reflexivity | done]|].
  exists [mk_blk 3221233664 256 false], [3221233672], []. split; [apply heap_256_inv|]. split; [done|].
  split; [constructor|]. right. exists (mk_blk 3221233664 256 false). split; [apply list_elem_of_here | done].
Qed.

Definition d0 : machine := mk_machine 0 (fun _ => 0) 512 (mk_timers ∅ [] 0).
Definition screens0 : screens machine := mk_screens 0 ∅ {[PHYS_TO_VIRT 753664 := replicate 2000 0]} d0.
(** Line 0 of the map at 16384 is interrupt 0, which has a chip and no handler. *)
Definition irqs0 : irqs :=
  mk_irqs (BITMAP_INIT (65535 :: replicate 7 0) 256)
    (mk_irq_desc 0 16384 20480 0 0 :: replicate 255 inhabitant) {[16384 := mk_irq_map 1 0 0 16]}.
Lemma irqs0_ok : irqs_ok irqs0.
Proof.
  split; [|done]. split; [repeat constructor; done|]. split; [split; discriminate | discriminate].
Qed.

Definition state0 : drv_state machine :=
  mk_drv_state heap_256 irqs0 (mk_klog syslog_sample screens0 false)
    {[4096 := (Some vga_text_resources, 2); 8192 := (Some (i8254_0_resources 16384), 2)]}.
Definition devices0 : devices :=
  mk_devices [] ∅ {[4096 := mk_device (Some (chars "vga-text")) 0 0 0 0;
                    8192 := mk_device (Some (chars "i8254")) 0 0 0 0]} ∅.
End PlatformMachine.

Import PlatformMachine.


