(* ===== verification/Devdrv.v ===== *)
(** * Initcalls and the start of the drivers

    Models [kernel/core/initcall.c]: the calls the linker has gathered in the
    section [.initcall.devdrv], in the order in which they are linked, and the four
    calls the kernel registers there (the platform devices and drivers of
    [Drivers]).  The theorem is about every link order. *)

From stdpp Require Import strings.
From S2P Require Import Prelude Base Memory Bitmap Pmm KList Frames Kheap KheapClient HeapLive Buffer Printf Ringbuf Irq Hal Console I8254 Device Log Drivers.

(** [struct initcall]; the name with its terminating zero. *)
Record initcall (S : Type) := mk_initcall { ic_name : list Z; ic_fn : M S Z }.
Arguments mk_initcall {S} _ _.
Arguments ic_name {S} _.
Arguments ic_fn {S} _.

Section Initcalls.
Context `{PortIO D}.
Abbreviation K := (M (devices * drv_state D)).

Definition on_klog {A} (c : M (klog D) A) : K A := on_drv (zoom ds_klog set_ds_klog c).

Fixpoint initcalls_invoke_range (ics : list (initcall (devices * drv_state D))) : K Z :=
  match ics with
  | [] => ret KERR_OK
  | ic :: rest =>
      r <-- ic_fn ic ;;
      if r <? 0 then
        on_klog (pr_err con_vga (chars "initcall: %s failed" ++ [10; 0]) [VStr (Some (ic_name ic))]) ;;;
        ret r
      else
        on_klog (pr_debug con_vga (chars "initcall: %s succeed" ++ [10; 0]) [VStr (Some (ic_name ic))]) ;;;
        initcalls_invoke_range rest
  end.

(** The argument is the contents of the section. *)
Definition initcalls_invoke_devdrv (section : list (initcall (devices * drv_state D))) : K Z :=
  initcalls_invoke_range section.
End Initcalls.

(** ** Matching and binding, one driver per device *)

Section Binding.
Context {D : Type}.
Context (probe : Z -> Z -> M (devices * D) Z).
Abbreviation the_match := (fun _ : Z => platform_match (D := D)).
Abbreviation the_probe := (fun _ : Z => platform_probe probe).

(** The names agree. *)
Definition name_match (dv : devices) (dev drv : Z) : bool :=
  match device_objs dv !! dev, driver_objs dv !! drv with
  | Some d, Some r =>
      match dev_name d, drv_name r with Some n, Some n' => bool_decide (n = n') | _, _ => false end
  | _, _ => false
  end.

Lemma platform_match_wp dev drv dv s (Q : bool -> devices * D -> Prop) :
  dev <> 0 -> drv <> 0 -> is_Some (device_objs dv !! dev) -> is_Some (driver_objs dv !! drv) ->
  Q (name_match dv dev drv) (dv, s) -> wp (platform_match dev drv) Q (dv, s).
Proof.
  intros Hdev Hdrv [d Hd] [r Hr] HQ. unfold platform_match, name_match in *. rewrite Hd, Hr in HQ.
  rewrite (proj2 (Z.eqb_neq _ _) Hdev), (proj2 (Z.eqb_neq _ _) Hdrv). cbn [orb].
  wp_step. unfold wp at 1, deref at 1. cbn [fst]. rewrite Hd. wp_step. unfold wp at 1, deref at 1. cbn [fst]. rewrite Hr.
  by destruct (dev_name d), (drv_name r).
Qed.

(** A device and its driver: every other driver has another name. *)
Lemma try_one_driver_wp o dev own drivers dv s (Q : Z -> devices * D -> Prop) :
  dev <> 0 -> is_Some (device_objs dv !! dev) ->
  Forall (fun x => x <> 0 /\ is_Some (driver_objs dv !! x) /\ name_match dv dev x = bool_decide (x = own)) drivers ->
  (own ∉ drivers -> Q KERR_OK (dv, s)) ->
  (own ∈ drivers -> wp (the_probe (bus_probe o) dev own) (fun r st => r = KERR_OK /\
     wp (assign device_objs set_device_objs dev (set_dev_driver own) ;;; ret KERR_OK) Q st) (dv, s)) ->
  wp (try_drivers the_match the_probe o dev drivers) Q (dv, s).
Proof.
  intros Hdev Hd. induction drivers as [|x drivers IH]; intros Hall Hno Hyes; cbn [try_drivers].
  { apply wp_ret, Hno. apply not_elem_of_nil. }
  apply Forall_cons in Hall as [(Hx & Hx' & Hm) Hall]. wp_step. apply platform_match_wp; [done..|]. rewrite Hm.
  destruct (bool_decide_reflect (x = own)) as [->|Hne]; cbn [negb].
  - wp_step. wp_use Hyes; [apply list_elem_of_here|]. intros r st [-> Hst]. by rewrite Z.eqb_refl.
  - apply IH; [done | |]; [intros Hn; apply Hno | intros Hin; apply Hyes]; set_solver.
Qed.

(** A driver and its device: every other device has a driver or another name. *)
Lemma try_one_device_wp o drv own devs dv s (Q : Z -> devices * D -> Prop) :
  drv <> 0 -> is_Some (driver_objs dv !! drv) ->
  Forall (fun x => x <> 0 /\ exists dx, device_objs dv !! x = Some dx /\
            if bool_decide (x = own) then dev_driver dx = 0 /\ name_match dv x drv = true
            else dev_driver dx <> 0 \/ name_match dv x drv = false) devs ->
  (own ∉ devs -> Q KERR_OK (dv, s)) ->
  (own ∈ devs -> wp (the_probe (bus_probe o) own drv) (fun r st => r = KERR_OK /\
     wp (assign device_objs set_device_objs own (set_dev_driver drv) ;;; ret KERR_OK) Q st) (dv, s)) ->
  wp (try_devices the_match the_probe o drv devs) Q (dv, s).
Proof.
  intros Hdrv Hd. induction devs as [|x devs IH]; intros Hall Hno Hyes; cbn [try_devices].
  { apply wp_ret, Hno. apply not_elem_of_nil. }
  apply Forall_cons in Hall as [(Hx & dx & Hdx & Hm) Hall].
  wp_step. unfold wp at 1, deref at 1. cbn [fst]. rewrite Hdx.
  destruct (bool_decide_reflect (x = own)) as [->|Hne].
  - destruct Hm as [-> Hm]. cbn [Z.eqb negb]. wp_step. apply platform_match_wp; [done | done | by eexists | done |].
    rewrite Hm. cbn [negb]. wp_step. wp_use Hyes; [apply list_elem_of_here|]. intros r st [-> Hst]. by rewrite Z.eqb_refl.
  - assert (wp (try_devices the_match the_probe o drv devs) Q (dv, s)) as Hrest.
    { apply IH; [done | |]; [intros Hn; apply Hno | intros Hin; apply Hyes]; set_solver. }
    destruct (Z.eqb_spec (dev_driver dx) 0) as [E|E]; cbn [negb]; [|done].
    destruct Hm as [Hm|Hm]; [done|]. wp_step. apply platform_match_wp; [done | done | by eexists | done |].
    by rewrite Hm.
Qed.
End Binding.

(** ** The four initcalls of the kernel *)

Inductive call := VgaDevice | VgaDriver | TimerDevice | TimerDriver.

#[export] Instance call_eq_dec : EqDecision call.
Proof. solve_decision. Defined.

(** The hardware of the platform: the display controller, readable, at 0x3D4,
    and port instructions that leave the drivers' objects alone. *)
Class PlatformHw (D : Type) `{LogHw D 980} `{HasTimers D} : Prop := {
  ph_read :: CrtcRead D;
  ph_store :: TimerStore D;
  ph_ports : forall w port v (d : D) r d', port_out w port v d = Some (r, d') -> get_timers d' = get_timers d
}.

(** The addresses of the static objects and functions. *)
Record statics := mk_statics {
  a_bus : Z; a_vga : Z; a_timer : Z; a_vga_driver : Z; a_timer_driver : Z;
  a_vga_probe : Z; a_timer_probe : Z; a_handler : Z; a_map : Z; a_free_list : Z
}.

Record statics_ok (a : statics) : Prop := {
  so_bus : a_bus a <> 0; so_vga : a_vga a <> 0; so_timer : a_timer a <> 0; so_devices : a_vga a <> a_timer a;
  so_vga_driver : a_vga_driver a <> 0; so_timer_driver : a_timer_driver a <> 0;
  so_drivers : a_vga_driver a <> a_timer_driver a;
  so_vga_probe : a_vga_probe a <> 0; so_timer_probe : a_timer_probe a <> 0; so_probes : a_vga_probe a <> a_timer_probe a;
  so_handler : a_handler a <> 0; so_map : a_map a <> 0
}.

Definition call_name (c : call) : list Z :=
  match c with
  | VgaDevice => chars "vga_device_init" | VgaDriver => chars "vga_text_driver_init"
  | TimerDevice => chars "i8254_device_init" | TimerDriver => chars "i8254_driver_init"
  end.

(** The line a successful call leaves in the log. *)
Definition call_line (c : call) : list Z := chars "[DEBUG] initcall: " ++ call_name c ++ chars " succeed" ++ [10].

Section Calls.
Context `{PortIO D} `{HasTimers D}.
Context (a : statics) (name_of : Z -> Z).

Abbreviation dev_init f := (f (a_free_list a) name_of (a_handler a) (a_vga_probe a) (a_timer_probe a) (a_bus a)).

Definition call_fn (c : call) : M (devices * drv_state D) Z :=
  match c with
  | VgaDevice => dev_init vga_device_init BOOT_VIDEO_TYPE_TEXT (a_vga a)
  | VgaDriver => dev_init vga_text_driver_init (a_vga_driver a)
  | TimerDevice => dev_init i8254_device_init (a_map a) (a_timer a)
  | TimerDriver => dev_init i8254_driver_init (a_timer_driver a)
  end.

(** The section as linked in the order [l]. *)
Definition linked (l : list call) : list (initcall (devices * drv_state D)) :=
  map (fun c => mk_initcall (call_name c ++ [0]) (call_fn c)) l.
End Calls.

(** Devices and drivers on the bus after the calls [l]. *)
Definition devs_of (a : statics) (l : list call) : list Z :=
  omap (fun c => match c with VgaDevice => Some (a_vga a) | TimerDevice => Some (a_timer a) | _ => None end) l.
Definition drvs_of (a : statics) (l : list call) : list Z :=
  omap (fun c => match c with VgaDriver => Some (a_vga_driver a) | TimerDriver => Some (a_timer_driver a) | _ => None end) l.

Section Platform.
Context `{PH : PlatformHw D}.
Context (a : statics) (name_of : Z -> Z).
(** The machine before: the heap with its objects, the screens, the interrupts and the
    timers. *)
Context (h0 : kheap) (L0 : list (Z * Z)) (s0 : screens D) (i0 : irqs) (t0 : timers) (m : irq_map).
Hypothesis Ha : statics_ok a.
Hypothesis no_console : active_con s0 = 0.
Hypothesis text_buffer : exists cells, text_buffers s0 !! PHYS_TO_VIRT 753664 = Some cells /\ length cells = 2000%nat.
Hypothesis irqs_start : irqs_ok i0 /\ irq_maps i0 !! a_map a = Some m /\
  mapped_irq m 0 <> IRQ_INVALID /\ request_code i0 (mapped_irq m 0) = KERR_OK.

Abbreviation vname := (Some (chars "vga-text")).
Abbreviation tname := (Some (chars "i8254")).
Abbreviation buf := (PHYS_TO_VIRT 753664).

(** The log [Lg], and the console [vp] (if any) showing [text]. *)
Definition log_part (vp : option Z) (Lg text : list Z) (d : D) (l : klog D) : Prop :=
  match vp with
  | None => text = [] /\ logged (base := 980) con_vga s0 0 0 buf Lg None d false l
  | Some p => logged (base := 980) con_vga (set_active p s0) p (name_of (a_vga a)) buf Lg
                (Some (term_write blank_term text)) d false l
  end.

(** The interrupts and the timer [tp] (if any). *)
Definition irq_part (tp : option Z) (d : D) (i : irqs) : Prop :=
  match tp with
  | None => i = i0 /\ get_timers d = t0
  | Some p =>
      let irq := mapped_irq m 0 in
      i = with_handler irq (a_handler a) p i0 /\
      get_timers d = mk_timers (<[p := probed_priv name_of (a_timer a) 64 irq]> (i8254_privs t0)) (timer_devices t0 ++ [p]) p
  end.

Definition object_of (o : option Z) (size : Z) : list (Z * Z) := if o is Some p then [(p, size)] else [].
Definition used_by (o : option Z) (size : Z) : Z := if o is Some _ then block_need size else 0.

(** The state after the calls [l]: [vp] and [tp] are the objects of the probed
    devices, [av] and [at_] the drivers they are bound to. *)
Record plat (l : list call) (vp tp : option Z) (av at_ : Z) (Lg text : list Z) (dv : devices) (s : drv_state D) : Prop := {
  pl_bus : exists b, bus_objs dv !! a_bus a = Some b /\ bus_devices b = devs_of a l /\ bus_drivers b = drvs_of a l;
  pl_vga : exists d, device_objs dv !! a_vga a = Some d /\ dev_driver d = av /\
    (VgaDevice ∈ l -> dev_name d = vname) /\ forall p, vp = Some p -> dev_driver_data d = p;
  pl_timer : exists d, device_objs dv !! a_timer a = Some d /\ dev_driver d = at_ /\
    dev_name d = tname /\ forall p, tp = Some p -> dev_driver_data d = p;
  pl_vga_driver : exists r, driver_objs dv !! a_vga_driver a = Some r /\ drv_name r = vname /\ drv_probe r = a_vga_probe a;
  pl_timer_driver : exists r, driver_objs dv !! a_timer_driver a = Some r /\ drv_name r = tname /\ drv_probe r = a_timer_probe a;
  pl_vga_res : VgaDevice ∈ l -> ds_res s !! a_vga a = Some (Some vga_text_resources, 2);
  pl_timer_res : TimerDevice ∈ l -> ds_res s !! a_timer a = Some (Some (i8254_0_resources (a_map a)), 2);
  pl_heap : exists L, L ≡ₚ object_of vp sizeof_vga_text_priv ++ object_of tp sizeof_i8254_priv ++ L0 /\ heap_room (a_free_list a) h0 (ds_heap s) L
    (164 - used_by vp sizeof_vga_text_priv - used_by tp sizeof_i8254_priv);
  pl_machine : exists d, log_part vp Lg text d (ds_klog s) /\ irq_part tp d (ds_irqs s)
}.

Abbreviation the_probe_code := (probe_code (a_free_list a) name_of (a_handler a) (a_vga_probe a) (a_timer_probe a)).

Lemma ports_timers d d' : rtc port_step d d' -> get_timers d' = get_timers d.
Proof.
  induction 1 as [|x y z (w & p & v & Hs) _ IH]; [done|]. rewrite IH. by apply ph_ports in Hs.
Qed.

Lemma log_screens vp Lg text d l : log_part vp Lg text d l ->
  cdev (kl_screens l) = d /\ (vp = None -> kl_screens l = set_cdev d s0).
Proof. destruct vp as [p|]; [|intros [_ [_ -> _ _]]; done]. intros [_ -> _ _]. done. Qed.

(** [probe] of the VGA driver. *)
Lemma probe_vga_wp l tp at_ Lg text dv s : plat l None tp 0 at_ Lg text dv s -> VgaDevice ∈ l ->
  wp (platform_probe the_probe_code (a_vga a) (a_vga_driver a))
     (fun r st => r = KERR_OK /\ exists p, plat l (Some p) tp 0 at_ Lg [] (fst st) (snd st)) (dv, s).
Proof.
  intros [Hbus (dev & Hdev & Hdd & Hdn & Hdp) Htim (r & Hr & Hrn & Hrp) Htd Hvr Htr (L & HL & Hroom) (d & Hlog & Hirq)] Hin.
  unfold platform_probe. wp_step. unfold wp at 1, deref. cbn [fst]. rewrite Hr, Hrp.
  rewrite (proj2 (Z.eqb_neq _ _) (so_vga_probe _ Ha)). unfold probe_code. rewrite Z.eqb_refl.
  destruct (log_screens _ _ _ _ _ Hlog) as [Hd Hscr]. specialize (Hscr eq_refl).
  wp_use (vga_text_probe_wp (base := 980) (a_free_list a) name_of h0 (a_vga a) 753664 L); [|exact Hroom|].
  { split; [by eexists | | |done].
    - exists (Some vga_text_resources, 2), 757663, 981. split; [auto|]. split; [by exists 0|]. split; [done|]. by exists 1.
    - unfold ds_screens. rewrite Hscr. exact text_buffer. }
  intros r1 [dv1 s1] [(_ & Hn & _)|(p & h' & Hp & Hdv1 & Hpost)].
  { exfalso. destruct tp; vm_compute in Hn; done. }
  unfold ds_screens in Hpost. rewrite Hscr in Hpost. cbn [active_con set_cdev] in Hpost. rewrite no_console in Hpost.
  cbn [Z.eqb] in Hpost. destruct Hpost as (-> & Hh' & d1 & d' & Hc1 & Hc2 & Hsteps & Hs1). split; [done|]. exists p.
  cbn [fst snd] in *. subst dv1 s1. destruct Hlog as [-> [Hl1 Hl2 Hl3 Hl4]].
  split; cbn [fst snd with_data set_device_objs bus_objs device_objs driver_objs ds_res set_ds_screens set_ds_klog set_ds_heap].
  - done.
  - rewrite lookup_alter_eq, Hdev. eexists. split; [done|]. cbn. split; [done|]. split; [done|]. by intros p' [= ->].
  - rewrite lookup_alter_ne by apply Ha. done.
  - by exists r.
  - done.
  - done.
  - done.
  - eexists. split; [|cbn [ds_heap]; eapply room_le; [exact Hh'|]; cbn [used_by]; lia]. by rewrite HL.
  - exists d'. split.
    + cbn [log_part]. split; [done | done | | done]. cbn [console_ok]. split; [done|]. split; [done|]. split; [done|]. apply blank_ok.
    + cbn [ds_irqs]. cbn [cdev set_cdev] in Hsteps. apply ports_timers in Hsteps. by destruct tp; cbn in *; rewrite Hsteps.
Qed.

(** [probe] of the timer driver. *)
Lemma probe_timer_wp l vp av Lg text dv s : plat l vp None av 0 Lg text dv s -> TimerDevice ∈ l ->
  wp (platform_probe the_probe_code (a_timer a) (a_timer_driver a))
     (fun r st => r = KERR_OK /\ exists p, plat l vp (Some p) av 0 Lg text (fst st) (snd st)) (dv, s).
Proof.
  intros [Hbus Hvga (dev & Hdev & Hdd & Hdn & Hdp) Hvd (r & Hr & Hrn & Hrp) Hvr Htr (L & HL & Hroom) (d & Hlog & Hirq)] Hin.
  unfold platform_probe. wp_step. unfold wp at 1, deref. cbn [fst]. rewrite Hr, Hrp.
  rewrite (proj2 (Z.eqb_neq _ _) (so_timer_probe _ Ha)). unfold probe_code.
  rewrite (proj2 (Z.eqb_neq _ _) (not_eq_sym (so_probes _ Ha))), Z.eqb_refl.
  destruct (log_screens _ _ _ _ _ Hlog) as [Hd _]. destruct Hirq as [Hi Ht]. destruct irqs_start as (Hok & Hm & Hmi & Hrc).
  wp_use (i8254_probe_wp (a_free_list a) name_of (a_handler a) (so_handler _ Ha) h0 (a_timer a) 64 (a_map a) 0 m L); [|exact Hroom|].
  { split; [by eexists | | |by rewrite Hi].
    - exists (Some (i8254_0_resources (a_map a)), 2), 67. split; [auto|]. split; [by exists 0 | by exists 1].
    - rewrite Hi. split; [apply Ha | done]. }
  intros r1 [dv1 s1] [(_ & Hn & _)|(p & h' & Hp & Hpost)].
  { exfalso. destruct vp; vm_compute in Hn; done. }
  rewrite Hi, Hrc, (proj2 (Z.eqb_neq _ _) Hmi) in Hpost. cbn [negb andb] in Hpost.
  change (KERR_OK =? KERR_OK) with true in Hpost. cbn iota in Hpost.
  destruct Hpost as (-> & Hh' & [= -> ->]). split; [done|]. exists p. unfold ds_screens in *. rewrite Hd, Ht.
  split; cbn [fst snd with_data set_device_objs bus_objs device_objs driver_objs put_machine set_ds_machine ds_res set_ds_screens set_ds_klog set_ds_heap].
  - done.
  - rewrite lookup_alter_ne by (apply not_eq_sym, Ha). done.
  - rewrite lookup_alter_eq, Hdev. eexists. split; [done|]. cbn. split; [done|]. split; [done|]. by intros p' [= ->].
  - done.
  - by exists r.
  - done.
  - done.
  - eexists. split; [|cbn [ds_heap]; eapply room_le; [exact Hh'|]; cbn [used_by]; lia].
    rewrite HL. cbn [object_of app]. apply Permutation_middle.
  - set (T := mk_timers _ _ _). exists (set_timers T d). split.
    + cbn [ds_klog]. unfold ds_screens. cbn [ds_klog set_ds_heap snd].
      destruct vp as [q|]; cbn [log_part] in *.
      * destruct Hlog as [G1 G2 G3 G4]. split; [done | | done | done]. cbn. unfold ds_screens. cbn [ds_klog set_ds_heap]. by rewrite G2.
      * destruct Hlog as [-> [G1 G2 G3 G4]]. split; [done|]. split; [done | | done | done]. cbn. unfold ds_screens. cbn [ds_klog set_ds_heap]. by rewrite G2.
    + cbn [ds_irqs irq_part]. split; [done|]. apply timers_get_set.
Qed.

(** Binding a probed device. *)
Lemma attach_vga_wp l p tp at_ Lg text dv s : plat l (Some p) tp 0 at_ Lg text dv s ->
  wp (assign device_objs set_device_objs (a_vga a) (set_dev_driver (a_vga_driver a)) ;;; ret KERR_OK)
     (fun r st => r = KERR_OK /\ plat l (Some p) tp (a_vga_driver a) at_ Lg text (fst st) (snd st)) (dv, s).
Proof.
  intros [Hbus (dev & Hdev & Hdd & Hdn & Hdp) (tdev & Htdev & Htd) Hvd Htdr Hvr Htr Hroom Hmach].
  wp_step. unfold wp at 1, assign. cbn [fst snd]. rewrite Hdev. wp_step. split; [done|].
  split; cbn [fst snd set_device_objs bus_objs device_objs driver_objs]; try done.
  - rewrite lookup_insert_eq. eexists. split; [done|]. done.
  - rewrite lookup_insert_ne by apply Ha. by exists tdev.
Qed.

Lemma attach_timer_wp l vp p av Lg text dv s : plat l vp (Some p) av 0 Lg text dv s ->
  wp (assign device_objs set_device_objs (a_timer a) (set_dev_driver (a_timer_driver a)) ;;; ret KERR_OK)
     (fun r st => r = KERR_OK /\ plat l vp (Some p) av (a_timer_driver a) Lg text (fst st) (snd st)) (dv, s).
Proof.
  intros [Hbus (vdev & Hvdev & Hvdd) (dev & Hdev & Hdd & Hdn & Hdp) Hvd Htdr Hvr Htr Hroom Hmach].
  wp_step. unfold wp at 1, assign. cbn [fst snd]. rewrite Hdev. wp_step. split; [done|].
  split; cbn [fst snd set_device_objs bus_objs device_objs driver_objs]; try done.
  - rewrite lookup_insert_ne by (apply not_eq_sym, Ha). by exists vdev.
  - rewrite lookup_insert_eq. eexists. split; [done|]. done.
Qed.

Definition driver_of (o : option Z) (drv : Z) : Z := if o is Some _ then drv else 0.

(** After the calls [l]: a device is probed and bound as soon as both its device and
    its driver are registered. *)
Definition platform_ok (l : list call) (Lg text : list Z) (dv : devices) (s : drv_state D) : Prop :=
  exists vp tp, plat l vp tp (driver_of vp (a_vga_driver a)) (driver_of tp (a_timer_driver a)) Lg text dv s /\
    (is_Some vp <-> VgaDevice ∈ l /\ VgaDriver ∈ l) /\ (is_Some tp <-> TimerDevice ∈ l /\ TimerDriver ∈ l).

Lemma devs_in l : (a_vga a ∈ devs_of a l <-> VgaDevice ∈ l) /\ (a_timer a ∈ devs_of a l <-> TimerDevice ∈ l).
Proof.
  pose proof (so_devices _ Ha). unfold devs_of. rewrite !list_elem_of_omap.
  split; split; [intros ([] & Hc & E) | intros Hc; by exists VgaDevice | intros ([] & Hc & E) | intros Hc; by exists TimerDevice];
    simplify_eq; done.
Qed.

Lemma drvs_in l : (a_vga_driver a ∈ drvs_of a l <-> VgaDriver ∈ l) /\ (a_timer_driver a ∈ drvs_of a l <-> TimerDriver ∈ l).
Proof.
  pose proof (so_drivers _ Ha). unfold drvs_of. rewrite !list_elem_of_omap.
  split; split; [intros ([] & Hc & E) | intros Hc; by exists VgaDriver | intros ([] & Hc & E) | intros Hc; by exists TimerDriver];
    simplify_eq; done.
Qed.

Lemma devs_only l x : x ∈ devs_of a l -> x = a_vga a \/ x = a_timer a.
Proof. unfold devs_of. rewrite list_elem_of_omap. intros ([] & _ & E); simplify_eq; auto. Qed.
Lemma drvs_only l x : x ∈ drvs_of a l -> x = a_vga_driver a \/ x = a_timer_driver a.
Proof. unfold drvs_of. rewrite list_elem_of_omap. intros ([] & _ & E); simplify_eq; auto. Qed.

Lemma plat_names l vp tp av at_ Lg text dv s : plat l vp tp av at_ Lg text dv s ->
  (VgaDevice ∈ l -> name_match dv (a_vga a) (a_vga_driver a) = true /\ name_match dv (a_vga a) (a_timer_driver a) = false) /\
  name_match dv (a_timer a) (a_timer_driver a) = true /\ name_match dv (a_timer a) (a_vga_driver a) = false.
Proof.
  intros [_ (d & Hd & _ & Hn & _) (d' & Hd' & _ & Hn' & _) (r & Hr & Hrn & _) (r' & Hr' & Hrn' & _) _ _ _ _].
  unfold name_match. rewrite Hd, Hd', Hr, Hr', Hrn, Hrn', Hn'. split; [|done]. intros Hin. by rewrite Hn.
Qed.

(** The drivers tried for a device. *)
Lemma drivers_tried l vp tp av at_ Lg text dv s : plat l vp tp av at_ Lg text dv s ->
  (VgaDevice ∈ l -> Forall (fun x => x <> 0 /\ is_Some (driver_objs dv !! x) /\
     name_match dv (a_vga a) x = bool_decide (x = a_vga_driver a)) (drvs_of a l)) /\
  Forall (fun x => x <> 0 /\ is_Some (driver_objs dv !! x) /\
     name_match dv (a_timer a) x = bool_decide (x = a_timer_driver a)) (drvs_of a l).
Proof.
  intros Hp. destruct (plat_names _ _ _ _ _ _ _ _ _ Hp) as (N1 & N2 & N3).
  destruct Hp as [_ _ _ (r & Hr & _) (r' & Hr' & _) _ _ _ _]. pose proof (so_drivers _ Ha).
  split; [intros Hin; destruct (N1 Hin) as [N4 N5]|]; apply Forall_forall; intros x [-> | ->]%drvs_only;
    (split; [apply Ha|]; split; [by eexists|]); rewrite ?N2, ?N3, ?N4, ?N5;
    first [by rewrite bool_decide_true | by rewrite bool_decide_false by congruence].
Qed.

(** The devices tried for a driver. *)
Lemma devices_tried_vga l tp at_ Lg text dv s : plat l None tp 0 at_ Lg text dv s ->
  Forall (fun x => x <> 0 /\ exists dx, device_objs dv !! x = Some dx /\
    if bool_decide (x = a_vga a) then dev_driver dx = 0 /\ name_match dv x (a_vga_driver a) = true
    else dev_driver dx <> 0 \/ name_match dv x (a_vga_driver a) = false) (devs_of a l).
Proof.
  intros Hp. destruct (plat_names _ _ _ _ _ _ _ _ _ Hp) as (N1 & N2 & N3).
  destruct Hp as [_ (d & Hd & Hdd & _) (d' & Hd' & _) _ _ _ _ _ _]. pose proof (so_devices _ Ha).
  apply Forall_forall. intros x Hx. destruct (devs_only _ _ Hx) as [-> | ->]; (split; [apply Ha|]).
  - exists d. rewrite bool_decide_true by done. split; [done|]. split; [done|]. apply N1. by apply devs_in.
  - exists d'. rewrite bool_decide_false by congruence. split; [done|]. by right.
Qed.

Lemma devices_tried_timer l vp av Lg text dv s : plat l vp None av 0 Lg text dv s ->
  Forall (fun x => x <> 0 /\ exists dx, device_objs dv !! x = Some dx /\
    if bool_decide (x = a_timer a) then dev_driver dx = 0 /\ name_match dv x (a_timer_driver a) = true
    else dev_driver dx <> 0 \/ name_match dv x (a_timer_driver a) = false) (devs_of a l).
Proof.
  intros Hp. destruct (plat_names _ _ _ _ _ _ _ _ _ Hp) as (N1 & N2 & N3).
  destruct Hp as [_ (d & Hd & _) (d' & Hd' & Hdd & _) _ _ _ _ _ _]. pose proof (so_devices _ Ha).
  apply Forall_forall. intros x Hx. destruct (devs_only _ _ Hx) as [-> | ->]; (split; [apply Ha|]).
  - exists d. rewrite bool_decide_false by congruence. split; [done|]. right. apply N1. by apply devs_in.
  - exists d'. rewrite bool_decide_true by done. done.
Qed.

(** *** Registration *)

Abbreviation tm := (fun _ : Z => platform_match (D := drv_state D)).
Abbreviation tp_code := (fun _ : Z => platform_probe the_probe_code).

(** A device or driver joins the bus. *)
Lemma join_device_wp dev d dv b s (Q : Z -> devices * drv_state D -> Prop) :
  dev <> 0 -> device_objs dv !! dev = Some d -> bus_objs dv !! a_bus a = Some b ->
  (let b' := mk_bus (bus_name b) (bus_match b) (bus_probe b) (bus_drivers b) (bus_devices b ++ [dev]) in
   wp (try_drivers tm tp_code b' dev (bus_drivers b)) Q
     (set_bus_objs (<[a_bus a := b']> (bus_objs dv))
        (set_device_objs (<[dev := set_dev_bus (a_bus a) d]> (device_objs dv)) dv), s)) ->
  wp (register_device (a_free_list a) name_of (a_handler a) (a_vga_probe a) (a_timer_probe a) (a_bus a) dev) Q (dv, s).
Proof.
  intros Hdev Hd Hb HQ. unfold register_device, platform_device_register, device_register, bus_add_device.
  rewrite (proj2 (Z.eqb_neq _ _) Hdev). wp_step. unfold wp at 1, assign. cbn [fst snd]. rewrite Hd.
  wp_step. unfold wp at 1, deref. cbn [fst set_device_objs device_objs]. rewrite lookup_insert_eq. cbn [dev_bus set_dev_bus].
  rewrite (proj2 (Z.eqb_neq _ _) (so_bus _ Ha)). cbn [orb]. wp_step. unfold wp at 1, assign. cbn [fst snd set_device_objs bus_objs].
  rewrite Hb. wp_step. unfold wp at 1, deref. cbn [fst set_bus_objs bus_objs]. rewrite lookup_insert_eq. exact HQ.
Qed.

Lemma join_driver_wp drv r dv b s (Q : Z -> devices * drv_state D -> Prop) :
  drv <> 0 -> driver_objs dv !! drv = Some r -> bus_objs dv !! a_bus a = Some b ->
  (let b' := mk_bus (bus_name b) (bus_match b) (bus_probe b) (bus_drivers b ++ [drv]) (bus_devices b) in
   wp (try_devices tm tp_code b' drv (bus_devices b)) Q
     (set_bus_objs (<[a_bus a := b']> (bus_objs dv))
        (set_driver_objs (<[drv := set_drv_bus (a_bus a) r]> (driver_objs dv)) dv), s)) ->
  wp (register_driver (a_free_list a) name_of (a_handler a) (a_vga_probe a) (a_timer_probe a) (a_bus a) drv) Q (dv, s).
Proof.
  intros Hdrv Hr Hb HQ. unfold register_driver, platform_driver_register, driver_register, bus_add_driver.
  rewrite (proj2 (Z.eqb_neq _ _) Hdrv). wp_step. unfold wp at 1, assign. cbn [fst snd]. rewrite Hr.
  wp_step. unfold wp at 1, deref. cbn [fst set_driver_objs driver_objs]. rewrite lookup_insert_eq. cbn [drv_bus set_drv_bus].
  rewrite (proj2 (Z.eqb_neq _ _) (so_bus _ Ha)). cbn [orb]. wp_step. unfold wp at 1, assign. cbn [fst snd set_driver_objs bus_objs].
  rewrite Hb. wp_step. unfold wp at 1, deref. cbn [fst set_bus_objs bus_objs]. rewrite lookup_insert_eq. exact HQ.
Qed.

Lemma devs_snoc l c : devs_of a (l ++ [c]) =
  devs_of a l ++ match c with VgaDevice => [a_vga a] | TimerDevice => [a_timer a] | _ => [] end.
Proof. unfold devs_of. rewrite omap_app. by destruct c. Qed.
Lemma drvs_snoc l c : drvs_of a (l ++ [c]) =
  drvs_of a l ++ match c with VgaDriver => [a_vga_driver a] | TimerDriver => [a_timer_driver a] | _ => [] end.
Proof. unfold drvs_of. rewrite omap_app. by destruct c. Qed.

(** Nothing is probed before both parts are there. *)
Lemma not_probed (o : option Z) (P R : Prop) : (is_Some o <-> P /\ R) -> ~ P \/ ~ R -> o = None.
Proof. intros Ho HPR. destruct o; [|done]. destruct (proj1 Ho ltac:(done)). tauto. Qed.

Lemma in_snoc (l : list call) c x : x ∈ l ++ [c] <-> x ∈ l \/ x = c.
Proof. rewrite elem_of_app, list_elem_of_singleton. done. Qed.

Ltac still_ok :=
  first [ done
        | intros Hin; apply in_snoc in Hin as [Hin|Hin]; [by auto | by simplify_eq]
        | (rewrite !in_snoc; naive_solver) ].

Lemma call_vga_device_wp l Lg text dv s : VgaDevice ∉ l -> platform_ok l Lg text dv s ->
  wp (call_fn a name_of VgaDevice) (fun r st => r = KERR_OK /\ platform_ok (l ++ [VgaDevice]) Lg text (fst st) (snd st)) (dv, s).
Proof.
  intros Hc (vp & tp & Hp & Hv & Ht). assert (vp = None) as -> by (eapply not_probed; [exact Hv | by left]).
  destruct Hp as [(b & Hb & Hbd & Hbr) (d & Hd & Hdd & Hdn & Hdp) Htim Hvd Htd Hvr Htr Hroom Hmach].
  cbn [call_fn]. unfold vga_device_init. wp_step. unfold wp at 1, assign. cbn [fst snd]. rewrite Hd.
  rewrite Z.eqb_refl. wp_step. unfold wp at 1, assign. cbn [fst snd set_device_objs device_objs]. rewrite lookup_insert_eq, insert_insert_eq.
  wp_step. unfold put_resources, on_drv. do 2 wp_step. cbn [fst snd].
  eapply join_device_wp; [apply Ha | cbn; apply lookup_insert_eq | exact Hb |]. cbv zeta.
  cbn [set_device_objs device_objs bus_objs]. rewrite insert_insert_eq.
  set (b' := mk_bus _ _ _ _ _). set (dv' := set_bus_objs _ _). set (s' := set_ds_res _ _).
  assert (plat (l ++ [VgaDevice]) None tp 0 (driver_of tp (a_timer_driver a)) Lg text dv' s') as Hp'.
  { split; subst dv' s'; cbn [set_bus_objs set_device_objs bus_objs device_objs driver_objs ds_res set_ds_res ds_heap ds_klog ds_irqs]; try done.
    - exists b'. rewrite lookup_insert_eq. split; [done|]. rewrite devs_snoc, drvs_snoc, app_nil_r. cbn. by rewrite Hbd.
    - rewrite lookup_insert_eq. eexists. split; [done|]. done.
    - rewrite lookup_insert_ne by apply Ha. done.
    - intros _. by rewrite lookup_insert_eq.
    - rewrite lookup_insert_ne by apply Ha. still_ok. }
  assert (VgaDevice ∈ l ++ [VgaDevice]) as Hin by (apply in_snoc; by right).
  pose proof (proj1 (drivers_tried _ _ _ _ _ _ _ _ _ Hp') Hin) as Hall.
  rewrite drvs_snoc, app_nil_r, <- Hbr in Hall. apply (try_one_driver_wp _ _ _ (a_vga_driver a)); [apply Ha | | exact Hall | |].
  - destruct Hp' as [_ (d' & Hd' & _) _ _ _ _ _ _ _]. by exists d'.
  - intros Hno. rewrite Hbr in Hno. split; [done|]. exists None, tp. split; [exact Hp'|].
    rewrite (proj1 (drvs_in l)) in Hno. split; [|still_ok]. rewrite !in_snoc. split; [by intros []|]. intros [_ [?|?]]; done.
  - intros Hyes. rewrite Hbr in Hyes. apply (proj1 (drvs_in l)) in Hyes. wp_use probe_vga_wp; [exact Hp' | exact Hin |].
    intros r [dv1 s1] [-> (p & Hp1)]. split; [done|]. destruct Hmach as (d0 & Hlog & _). cbn [log_part] in Hlog. destruct Hlog as [-> _].
    wp_use attach_vga_wp; [exact Hp1|]. intros r [dv2 s2] [-> Hp2]. split; [done|]. exists (Some p), tp.
    split; [exact Hp2|]. split; [|still_ok]. split; [by rewrite !in_snoc; auto | by eexists].
Qed.

Lemma call_timer_device_wp l Lg text dv s : TimerDevice ∉ l -> platform_ok l Lg text dv s ->
  wp (call_fn a name_of TimerDevice) (fun r st => r = KERR_OK /\ platform_ok (l ++ [TimerDevice]) Lg text (fst st) (snd st)) (dv, s).
Proof.
  intros Hc (vp & tp & Hp & Hv & Ht). assert (tp = None) as -> by (eapply not_probed; [exact Ht | by left]).
  destruct Hp as [(b & Hb & Hbd & Hbr) Hvga (d & Hd & Hdd & Hdn & Hdp) Hvd Htd Hvr Htr Hroom Hmach].
  cbn [call_fn]. unfold i8254_device_init. wp_step. unfold put_resources, on_drv. do 2 wp_step. cbn [fst snd].
  eapply join_device_wp; [apply Ha | exact Hd | exact Hb |]. cbv zeta.
  set (b' := mk_bus _ _ _ _ _). set (dv' := set_bus_objs _ _). set (s' := set_ds_res _ _).
  assert (plat (l ++ [TimerDevice]) vp None (driver_of vp (a_vga_driver a)) 0 Lg text dv' s') as Hp'.
  { split; subst dv' s'; cbn [set_bus_objs set_device_objs bus_objs device_objs driver_objs ds_res set_ds_res ds_heap ds_klog ds_irqs]; try done.
    - exists b'. rewrite lookup_insert_eq. split; [done|]. rewrite devs_snoc, drvs_snoc, app_nil_r. cbn. by rewrite Hbd.
    - rewrite lookup_insert_ne by (apply not_eq_sym, Ha). destruct Hvga as (d' & Hd' & Hv1 & Hv2 & Hv3).
      exists d'. split; [done|]. split; [done|]. split; [still_ok | done].
    - rewrite lookup_insert_eq. eexists. split; [done|]. done.
    - rewrite lookup_insert_ne by (apply not_eq_sym, Ha). still_ok.
    - intros _. by rewrite lookup_insert_eq. }
  assert (TimerDevice ∈ l ++ [TimerDevice]) as Hin by (apply in_snoc; by right).
  pose proof (proj2 (drivers_tried _ _ _ _ _ _ _ _ _ Hp')) as Hall.
  rewrite drvs_snoc, app_nil_r, <- Hbr in Hall. apply (try_one_driver_wp _ _ _ (a_timer_driver a)); [apply Ha | | exact Hall | |].
  - destruct Hp' as [_ _ (d' & Hd' & _) _ _ _ _ _ _]. by exists d'.
  - intros Hno. rewrite Hbr in Hno. split; [done|]. exists vp, None. split; [exact Hp'|].
    rewrite (proj2 (drvs_in l)) in Hno. split; [still_ok|]. rewrite !in_snoc. split; [by intros []|]. intros [_ [?|?]]; done.
  - intros Hyes. rewrite Hbr in Hyes. apply (proj2 (drvs_in l)) in Hyes. wp_use probe_timer_wp; [exact Hp' | exact Hin |].
    intros r [dv1 s1] [-> (p & Hp1)]. split; [done|].
    wp_use attach_timer_wp; [exact Hp1|]. intros r [dv2 s2] [-> Hp2]. split; [done|]. exists vp, (Some p).
    split; [exact Hp2|]. split; [still_ok|]. split; [by rewrite !in_snoc; auto | by eexists].
Qed.

(** A driver joins; the part of the state that the probes use is kept. *)
Lemma join_keeps l c b b' r r' drv vp tp av at_ Lg text dv s :
  plat l vp tp av at_ Lg text dv s -> bus_objs dv !! a_bus a = Some b ->
  (c = VgaDriver /\ drv = a_vga_driver a \/ c = TimerDriver /\ drv = a_timer_driver a) ->
  driver_objs dv !! drv = Some r -> drv_name r' = drv_name r -> drv_probe r' = drv_probe r ->
  bus_devices b' = bus_devices b -> bus_drivers b' = bus_drivers b ++ [drv] ->
  plat (l ++ [c]) vp tp av at_ Lg text
    (set_bus_objs (<[a_bus a := b']> (bus_objs dv)) (set_driver_objs (<[drv := r']> (driver_objs dv)) dv)) s.
Proof.
  intros [(b0 & Hb & Hbd & Hbr) Hvga Htim (rv & Hrv & Hrv') (rt & Hrt & Hrt') Hvr Htr Hroom Hmach] Hb' Hc Hr Hn Hpr Ed Er.
  rewrite Hb' in Hb. injection Hb as <-. pose proof (so_drivers _ Ha) as Hne.
  split; cbn [set_bus_objs set_driver_objs bus_objs device_objs driver_objs]; try done.
  - exists b'. rewrite lookup_insert_eq. split; [done|]. rewrite devs_snoc, drvs_snoc, Ed, Er, Hbd, Hbr.
    destruct Hc as [[-> ->]|[-> ->]]; by rewrite app_nil_r.
  - destruct Hvga as (d & Hd & Hv1 & Hv2 & Hv3). exists d. do 2 (split; [done|]). split; [|done].
    intros [Hin|<-]%in_snoc; [by auto|]. destruct Hc as [[? _]|[? _]]; done.
  - destruct Hc as [[-> ->]|[-> ->]].
    + rewrite lookup_insert_eq. exists r'. split; [done|]. rewrite Hn, Hpr. simplify_eq. done.
    + rewrite lookup_insert_ne by congruence. by exists rv.
  - destruct Hc as [[-> ->]|[-> ->]].
    + rewrite lookup_insert_ne by congruence. by exists rt.
    + rewrite lookup_insert_eq. exists r'. split; [done|]. rewrite Hn, Hpr. simplify_eq. done.
  - intros [Hin|<-]%in_snoc; [by auto|]. destruct Hc as [[? _]|[? _]]; done.
  - intros [Hin|<-]%in_snoc; [by auto|]. destruct Hc as [[? _]|[? _]]; done.
Qed.

Lemma call_vga_driver_wp l Lg text dv s : VgaDriver ∉ l -> platform_ok l Lg text dv s ->
  wp (call_fn a name_of VgaDriver) (fun r st => r = KERR_OK /\ platform_ok (l ++ [VgaDriver]) Lg text (fst st) (snd st)) (dv, s).
Proof.
  intros Hc (vp & tp & Hp & Hv & Ht). assert (vp = None) as -> by (eapply not_probed; [exact Hv | by right]).
  destruct (Hp) as [(b & Hb & Hbd & Hbr) _ _ (r & Hr & _) _ _ _ _ Hmach]. cbn [call_fn]. unfold vga_text_driver_init.
  eapply join_driver_wp; [apply Ha | exact Hr | exact Hb |]. cbv zeta. set (b' := mk_bus _ _ _ _ _). set (dv' := set_bus_objs _ _).
  assert (plat (l ++ [VgaDriver]) None tp 0 (driver_of tp (a_timer_driver a)) Lg text dv' s) as Hp'.
  { eapply join_keeps; [exact Hp | exact Hb | by left | exact Hr | done..]. }
  pose proof (devices_tried_vga _ _ _ _ _ _ _ Hp') as Hall. rewrite devs_snoc, app_nil_r, <- Hbd in Hall.
  apply (try_one_device_wp _ _ _ (a_vga a)); [apply Ha | | exact Hall | |].
  - destruct Hp' as [_ _ _ (r' & Hr' & _) _ _ _ _ _]. by exists r'.
  - intros Hno. rewrite Hbd in Hno. split; [done|]. exists None, tp. split; [exact Hp'|].
    rewrite (proj1 (devs_in l)) in Hno. split; [|still_ok]. rewrite !in_snoc. split; [by intros []|]. intros [[?|?] _]; done.
  - intros Hyes. rewrite Hbd in Hyes. apply (proj1 (devs_in l)) in Hyes.
    wp_use probe_vga_wp; [exact Hp' | by apply in_snoc; left |].
    intros r1 [dv1 s1] [-> (p & Hp1)]. split; [done|]. destruct Hmach as (d0 & [-> _] & _).
    wp_use attach_vga_wp; [exact Hp1|]. intros r2 [dv2 s2] [-> Hp2]. split; [done|]. exists (Some p), tp.
    split; [exact Hp2|]. split; [|still_ok]. split; [by rewrite !in_snoc; auto | by eexists].
Qed.

Lemma call_timer_driver_wp l Lg text dv s : TimerDriver ∉ l -> platform_ok l Lg text dv s ->
  wp (call_fn a name_of TimerDriver) (fun r st => r = KERR_OK /\ platform_ok (l ++ [TimerDriver]) Lg text (fst st) (snd st)) (dv, s).
Proof.
  intros Hc (vp & tp & Hp & Hv & Ht). assert (tp = None) as -> by (eapply not_probed; [exact Ht | by right]).
  destruct (Hp) as [(b & Hb & Hbd & Hbr) _ _ _ (r & Hr & _) _ _ _ _]. cbn [call_fn]. unfold i8254_driver_init.
  eapply join_driver_wp; [apply Ha | exact Hr | exact Hb |]. cbv zeta. set (b' := mk_bus _ _ _ _ _). set (dv' := set_bus_objs _ _).
  assert (plat (l ++ [TimerDriver]) vp None (driver_of vp (a_vga_driver a)) 0 Lg text dv' s) as Hp'.
  { eapply join_keeps; [exact Hp | exact Hb | by right | exact Hr | done..]. }
  pose proof (devices_tried_timer _ _ _ _ _ _ _ Hp') as Hall. rewrite devs_snoc, app_nil_r, <- Hbd in Hall.
  apply (try_one_device_wp _ _ _ (a_timer a)); [apply Ha | | exact Hall | |].
  - destruct Hp' as [_ _ _ _ (r' & Hr' & _) _ _ _ _]. by exists r'.
  - intros Hno. rewrite Hbd in Hno. split; [done|]. exists vp, None. split; [exact Hp'|].
    rewrite (proj2 (devs_in l)) in Hno. split; [still_ok|]. rewrite !in_snoc. split; [by intros []|]. intros [[?|?] _]; done.
  - intros Hyes. rewrite Hbd in Hyes. apply (proj2 (devs_in l)) in Hyes.
    wp_use probe_timer_wp; [exact Hp' | by apply in_snoc; left |].
    intros r1 [dv1 s1] [-> (p & Hp1)]. split; [done|].
    wp_use attach_timer_wp; [exact Hp1|]. intros r2 [dv2 s2] [-> Hp2]. split; [done|]. exists vp, (Some p).
    split; [exact Hp2|]. split; [still_ok|]. split; [by rewrite !in_snoc; auto | by eexists].
Qed.

Lemma call_wp c l Lg text dv s : c ∉ l -> platform_ok l Lg text dv s ->
  wp (call_fn a name_of c) (fun r st => r = KERR_OK /\ platform_ok (l ++ [c]) Lg text (fst st) (snd st)) (dv, s).
Proof.
  destruct c; [apply call_vga_device_wp | apply call_vga_driver_wp | apply call_timer_device_wp | apply call_timer_driver_wp].
Qed.

(** *** The log *)

Lemma call_message c : message (PRINTK_DEBUG ++ chars "initcall: %s succeed" ++ [10; 0]) [VStr (Some (call_name c ++ [0]))] (call_line c).
Proof.
  split; [by apply Forall_singleton|]. split; [by destruct c|].
  split; [destruct c; vm_compute; lia | apply chars_nonzero; by destruct c].
Qed.

(** A line reaches the screen when the console is there. *)
Lemma log_line_wp l vp tp av at_ Lg text fmt args line dv s (Q : Z -> devices * drv_state D -> Prop) :
  plat l vp tp av at_ Lg text dv s -> message (PRINTK_DEBUG ++ fmt) args line ->
  (forall r s', plat l vp tp av at_ (Lg ++ map u8 line) (text ++ if vp is Some _ then line else []) dv s' -> Q r (dv, s')) ->
  wp (on_klog (pr_debug con_vga fmt args)) Q (dv, s).
Proof.
  intros [Hbus Hvga Htim Hvd Htd Hvr Htr Hroom (d & Hlog & Hirq)] Hm HQ. unfold on_klog, on_drv, pr_debug, printk. do 2 wp_step. cbn [snd fst].
  assert (forall d', rtc port_step d d' -> irq_part tp d' (ds_irqs s)) as Hkeep.
  { intros d' Hr%ports_timers. by destruct tp; cbn in *; rewrite Hr. }
  destruct vp as [p|]; cbn [log_part] in Hlog.
  - eapply vprintk_wp; [done | exact Hlog | exact Hm |]. cbn [option_map]. intros d' l' Hl' _ Hr. apply HQ.
    split; try done. exists d'. split; [|by apply Hkeep]. cbn [log_part ds_klog set_ds_klog].
    unfold term_write in *. by rewrite fold_left_app.
  - destruct Hlog as [-> Hlog]. eapply vprintk_wp; [done | exact Hlog | exact Hm |]. cbn [option_map]. intros d' l' Hl' _ Hr.
    apply HQ. split; try done. exists d'. split; [|by apply Hkeep]. by split.
Qed.

(** What the screen shows of the calls [l] after the calls [done]. *)
Fixpoint shown (done l : list call) : list Z :=
  match l with
  | [] => []
  | c :: l' =>
      (if bool_decide (VgaDevice ∈ done ++ [c] /\ VgaDriver ∈ done ++ [c]) then call_line c else []) ++ shown (done ++ [c]) l'
  end.

Lemma initcalls_wp l : forall done Lg text dv s, NoDup (done ++ l) -> platform_ok done Lg text dv s ->
  wp (initcalls_invoke_range (linked a name_of l)) (fun r st => r = KERR_OK /\
    platform_ok (done ++ l) (Lg ++ map u8 (concat (map call_line l))) (text ++ shown done l) (fst st) (snd st)) (dv, s).
Proof.
  induction l as [|c l IH]; intros done Lg text dv s Hnd Hp; cbn [linked map initcalls_invoke_range concat shown].
  { wp_step. by rewrite !app_nil_r. }
  wp_step. cbn [ic_fn]. wp_use call_wp; [| exact Hp |].
  { intros Hin. apply NoDup_app in Hnd as (_ & Hnd & _). apply (Hnd c Hin), list_elem_of_here. }
  intros r [dv1 s1] [-> (vp & tp & Hp1 & Hv & Ht)]. cbn [fst snd] in *. change (KERR_OK <? 0) with false. cbn iota.
  wp_step. eapply log_line_wp; [exact Hp1 | apply call_message |]. intros r2 s2 Hp2.
  rewrite cons_middle, app_assoc in Hnd |- *.
  wp_use (IH (done ++ [c])); [exact Hnd | |].
  { exists vp, tp. split; [exact Hp2|]. by split. }
  intros r3 st [-> Hst]. split; [done|].
  replace (if vp is Some _ then call_line c else []) with
    (if bool_decide (VgaDevice ∈ done ++ [c] /\ VgaDriver ∈ done ++ [c]) then call_line c else []) in Hst.
  - rewrite map_app. rewrite <- (app_assoc Lg), <- (app_assoc text) in Hst. exact Hst.
  - destruct vp as [p|].
    + rewrite bool_decide_true; [done|]. apply Hv. by eexists.
    + rewrite bool_decide_false; [done|]. intros Hb. by destruct (proj2 Hv Hb).
Qed.
End Platform.

(** ** Properties *)

Section Properties.
Context `{PH : PlatformHw D}.

Lemma devdrv_wp (a : statics) name_of h0 L0 s0 i0 t0 m l Lg dv s :
  statics_ok a -> active_con s0 = 0 ->
  (exists cells, text_buffers s0 !! PHYS_TO_VIRT 753664 = Some cells /\ length cells = 2000%nat) ->
  (irqs_ok i0 /\ irq_maps i0 !! a_map a = Some m /\
   mapped_irq m 0 <> IRQ_INVALID /\ request_code i0 (mapped_irq m 0) = KERR_OK) ->
  plat a name_of h0 L0 s0 i0 t0 m [] None None 0 0 Lg [] dv s ->
  l ≡ₚ [VgaDevice; VgaDriver; TimerDevice; TimerDriver] ->
  wp (initcalls_invoke_devdrv (linked a name_of l)) (fun r st => r = KERR_OK /\ exists p q,
    plat a name_of h0 L0 s0 i0 t0 m l (Some p) (Some q) (a_vga_driver a) (a_timer_driver a)
      (Lg ++ map u8 (concat (map call_line l))) (shown [] l) (fst st) (snd st)) (dv, s).
Proof.
  intros Ha Hcon Hbuf Hirq Hp Hl.
  assert (NoDup l) as Hnd by (rewrite Hl; repeat (apply NoDup_cons; split; [set_solver|]); apply NoDup_nil_2).
  assert (forall c, c ∈ l) as Hall by (intros c; rewrite Hl; destruct c; set_solver).
  wp_use (initcalls_wp a name_of h0 L0 s0 i0 t0 m Ha Hcon Hbuf Hirq l []); [exact Hnd | |].
  - exists None, None. split; [exact Hp|]. split; (split; [by intros []|]); by intros [?%elem_of_nil _].
  - intros r [dv' s'] [-> (vp & tp & Hp' & Hv & Ht)]. split; [done|].
    destruct (proj2 Hv (conj (Hall _) (Hall _))) as [p ->]. destruct (proj2 Ht (conj (Hall _) (Hall _))) as [q ->].
    exists p, q. exact Hp'.
Qed.

End Properties.

(** ** The machine of [Drivers] after [platform_init] *)

Module Boot0.
Import PlatformMachine.

#[export] Instance machine_platform : PlatformHw machine.
Proof.
  split; [apply _ | apply _ |]. intros w port v d r d'. unfold port_out, machine_ports, modify.
  intros [= _ <-]. by repeat case_match.
Qed.

Definition addrs : statics := mk_statics 256 4096 8192 512 768 1024 1280 12288 16384 sentinel.

Lemma addrs_ok : statics_ok addrs.
Proof. by split. Qed.

Definition drivers0 : gmap Z driver :=
  {[512 := mk_driver (Some (chars "vga-text")) 0 1024; 768 := mk_driver (Some (chars "i8254")) 0 1280]}.
Definition boot_devices : devices :=
  mk_devices [256] {[256 := mk_bus None 1 2 [] []]}
    {[4096 := mk_device None 0 0 0 0; 8192 := mk_device (Some (chars "i8254")) 0 0 0 0]} drivers0.

Lemma boot_plat :
  plat addrs (fun _ => 0) heap_256 [] screens0 irqs0 (mk_timers ∅ [] 0) (mk_irq_map 1 0 0 16) [] None None 0 0 [] [] boot_devices state0.
Proof.
  split.
  - eexists. split; [vm_compute; reflexivity | done].
  - eexists. split; [vm_compute; reflexivity|]. split; [done|]. split; [by intros ?%elem_of_nil | done].
  - eexists. split; [vm_compute; reflexivity|]. done.
  - eexists. split; [vm_compute; reflexivity|]. done.
  - eexists. split; [vm_compute; reflexivity|]. done.
  - by intros ?%elem_of_nil.
  - by intros ?%elem_of_nil.
  - exists []. split; [done|]. eapply room_le; [apply heap_256_room|]. cbn. lia.
  - exists d0. split; [|done]. split; [done|]. split; [exact syslog_sample_ok | done | done | done].
Qed.
End Boot0.

Import PlatformMachine Boot0.

