(* ===== verification/Boot.v ===== *)
(** * Boot information

    Models [kernel/core/boot.c]: what the kernel keeps of the structure the boot
    loader hands over.

    - [stage2] is the memory the loader left its memory map in: the entries by
      the (virtual) address of their first byte.  Reading where there is none is
      undefined.
    - The static array [kernel_boot_mmap_entries] has [BOOT_MEMORY_MAP_MAX]
      elements; a copy past its end is undefined. *)

From stdpp Require Import strings.
From S2P Require Import Prelude Base Buffer Bitmap Pmm Hal Printf Ringbuf Console Log Drivers.

Definition BOOT_MAGIC : Z := 1413633865. (* 0x54425749 *)
Definition BOOT_MEMORY_MAP_MAX : Z := 64.
Definition sizeof_boot_mem_map_entry : Z := 24.

Record boot_video := mk_boot_video {
  bv_type : Z; bv_mode : Z; bv_page : Z; bv_cols : Z; bv_rows : Z; bv_buffer : Z
}.

Record boot_info := mk_boot_info {
  bi_memory_map_count : Z; bi_memory_map_phys : Z; bi_video : boot_video;
  bi_system_image : Z; bi_system_image_size : Z
}.

(** [struct boot_state]; its [memory_map] points to the static array or is NULL. *)
Record boot_state := mk_boot_state {
  bs_memory_map_count : Z; bs_memory_map : bool; bs_video : boot_video;
  bs_system_image : Z; bs_system_image_size : Z
}.

Record boot_world (D : Type) := mk_boot_world {
  kernel_boot_state : boot_state;
  kernel_boot_mmap_entries : list boot_mem_map_entry;
  bw_klog : klog D
}.
Arguments mk_boot_world {D} _ _ _.
Arguments kernel_boot_state {D} _.
Arguments kernel_boot_mmap_entries {D} _.
Arguments bw_klog {D} _.

Definition set_boot_state {D} (b : boot_state) (w : boot_world D) : boot_world D :=
  mk_boot_world b (kernel_boot_mmap_entries w) (bw_klog w).
Definition set_boot_entries {D} (l : list boot_mem_map_entry) (w : boot_world D) : boot_world D :=
  mk_boot_world (kernel_boot_state w) l (bw_klog w).
Definition set_bw_klog {D} (l : klog D) (w : boot_world D) : boot_world D :=
  mk_boot_world (kernel_boot_state w) (kernel_boot_mmap_entries w) l.

Definition BOOT_LOG : list Z := chars "Boot: ".

Section Boot.
Context `{PortIO D}.
Context (ops_of : Z -> option (con_ops (D := D))).
Context (stage2 : gmap Z boot_mem_map_entry).

Abbreviation K := (M (boot_world D)).

Definition boot_debug (fmt : list Z) (args : list vararg) : K unit :=
  zoom bw_klog set_bw_klog (pr_debug ops_of fmt args) ;;; ret tt.

(** [memcpy] of entry [i] of the loader's map. *)
Definition copy_entry (src i : Z) : K unit := fun w =>
  match stage2 !! u32 (src + sizeof_boot_mem_map_entry * i) with
  | Some e =>
      if (0 <=? i) && (i <? Z.of_nat (length (kernel_boot_mmap_entries w)))
      then Some (tt, set_boot_entries (<[Z.to_nat i := e]> (kernel_boot_mmap_entries w)) w)
      else None
  | None => None
  end.

(** [kernel_boot_state.memory_map[i]] *)
Definition boot_entry (i : Z) : K boot_mem_map_entry := fun w =>
  match kernel_boot_mmap_entries w !! Z.to_nat i with Some e => Some (e, w) | None => None end.

Definition boot_init (info : boot_info) : K unit :=
  let src := PHYS_TO_VIRT (bi_memory_map_phys info) in
  for_each 0 (bi_memory_map_count info) (copy_entry src) ;;;
  modify (set_boot_state (mk_boot_state (bi_memory_map_count info) true (bi_video info)
    (PHYS_TO_VIRT (bi_system_image info)) (bi_system_image_size info))) ;;;
  boot_debug (BOOT_LOG ++ chars "Physical Memory Map:" ++ [10; 0]) [] ;;;
  b <-- gets kernel_boot_state ;;
  for_each 0 (bs_memory_map_count b) (fun i =>
    e <-- boot_entry i ;;
    boot_debug (BOOT_LOG ++ chars "[%d] base=%x len=%x type=%x attr=%x" ++ [10; 0])
      [VWord i; VWord (u32 (me_base e)); VWord (u32 (me_length e)); VWord (me_type e); VWord (me_attr e)]) ;;;
  let v := bs_video b in
  (if bv_type v =? BOOT_VIDEO_TYPE_TEXT then
     boot_debug (BOOT_LOG ++ chars "Video: type=TEXT mode=0x%x buf=%p rows=%d cols=%d page=%u" ++ [10; 0])
       [VWord (bv_mode v); VWord (u32 (bv_buffer v)); VWord (bv_rows v); VWord (bv_cols v); VWord (bv_page v)]
   else ret tt) ;;;
  boot_debug (chars "System image: addr=%p size=0x%x" ++ [10; 0]) [VWord (bs_system_image b); VWord (bs_system_image_size b)].

Definition boot_get_state : K boot_state := gets kernel_boot_state.
End Boot.

(** ** Specification *)

Definition map_line (i : Z) (e : boot_mem_map_entry) : list Z :=
  chars "[DEBUG] Boot: [" ++ dec i ++ chars "] base=" ++ hex (u32 (me_base e)) ++ chars " len=" ++ hex (u32 (me_length e)) ++
  chars " type=" ++ hex (me_type e) ++ chars " attr=" ++ hex (me_attr e) ++ [10].
Definition video_line (v : boot_video) : list Z :=
  chars "[DEBUG] Boot: Video: type=TEXT mode=0x" ++ hex (bv_mode v) ++ chars " buf=0x" ++ hex (u32 (bv_buffer v)) ++
  chars " rows=" ++ dec (bv_rows v) ++ chars " cols=" ++ dec (bv_cols v) ++ chars " page=" ++ dec (bv_page v) ++ [10].
Definition image_line (addr size : Z) : list Z :=
  chars "[DEBUG] System image: addr=0x" ++ hex addr ++ chars " size=0x" ++ hex size ++ [10].
Definition map_title : list Z := chars "[DEBUG] Boot: Physical Memory Map:" ++ [10].

(** The lines of the map. *)
Definition map_lines (l : list boot_mem_map_entry) : list Z := concat (imap (fun i e => map_line (Z.of_nat i) e) l).

Definition boot_report (info : boot_info) (l : list boot_mem_map_entry) : list Z :=
  map_title ++ map_lines l ++
  (if bv_type (bi_video info) =? BOOT_VIDEO_TYPE_TEXT then video_line (bi_video info) else []) ++
  image_line (PHYS_TO_VIRT (bi_system_image info)) (bi_system_image_size info).

Definition entry_u32 (e : boot_mem_map_entry) : Prop := is_u32 (me_type e) /\ is_u32 (me_attr e).

Record boot_info_ok (info : boot_info) : Prop := {
  bo_count : 0 <= bi_memory_map_count info <= BOOT_MEMORY_MAP_MAX;
  bo_size : is_u32 (bi_system_image_size info);
  bo_video : Forall is_u8 [bv_mode (bi_video info); bv_page (bi_video info); bv_cols (bi_video info); bv_rows (bi_video info)]
}.

(** A small number prints the same with and without a sign. *)
Lemma int_text_small n : 0 <= n < 2147483648 -> int_text (s32 n) = dec n.
Proof.
  intros Hn. unfold int_text, s32. rewrite u32_id by (unfold is_u32; lia). rewrite (proj2 (Z.ltb_lt n 2147483648)) by lia.
  by rewrite (proj2 (Z.ltb_ge n 0)) by lia.
Qed.

Section Lines.
Abbreviation fmt s := (PRINTK_DEBUG ++ BOOT_LOG ++ chars s ++ [10; 0]).

Lemma map_message i e : 0 <= i < 65536 -> entry_u32 e ->
  message (fmt "[%d] base=%x len=%x type=%x attr=%x")
    [VWord i; VWord (u32 (me_base e)); VWord (u32 (me_length e)); VWord (me_type e); VWord (me_attr e)] (map_line i e).
Proof.
  intros Hi [Ht Ha]. unfold map_line. pose proof (int_text_small i ltac:(lia)) as Ei.
  split; [|split; [|split]].
  - repeat (apply Forall_cons; split); try apply u32_range; try done. unfold arg_ok, is_u32. lia.
  - generalize (u32 (me_base e)), (u32 (me_length e)). intros x y. cbv -[uint_text int_text s32]. rewrite Ei. reflexivity.
  - rewrite !length_app. text_short.
  - text_ok.
Qed.

Lemma video_message v : Forall is_u8 [bv_mode v; bv_page v; bv_cols v; bv_rows v] ->
  message (fmt "Video: type=TEXT mode=0x%x buf=%p rows=%d cols=%d page=%u")
    [VWord (bv_mode v); VWord (u32 (bv_buffer v)); VWord (bv_rows v); VWord (bv_cols v); VWord (bv_page v)] (video_line v).
Proof.
  rewrite !Forall_cons. intros (Hm & Hp & Hc & Hr & _). unfold is_u8 in *. unfold video_line.
  pose proof (int_text_small (bv_rows v) ltac:(lia)) as Er. pose proof (int_text_small (bv_cols v) ltac:(lia)) as Ec.
  split; [|split; [|split]].
  - repeat (apply Forall_cons; split); try apply u32_range; try done; unfold arg_ok, is_u32; lia.
  - generalize (u32 (bv_buffer v)). intros x. cbv -[uint_text int_text s32 bv_mode bv_page bv_cols bv_rows]. rewrite Er, Ec. reflexivity.
  - rewrite !length_app. text_short.
  - text_ok.
Qed.

Lemma image_message addr size : is_u32 addr -> is_u32 size ->
  message (PRINTK_DEBUG ++ chars "System image: addr=%p size=0x%x" ++ [10; 0]) [VWord addr; VWord size] (image_line addr size).
Proof.
  intros Ha Hs. unfold image_line. split; [by arguments_ok|]. split; [|split].
  - by cbv -[uint_text].
  - rewrite !length_app. text_short.
  - text_ok.
Qed.

Lemma title_message : message (fmt "Physical Memory Map:") [] map_title.
Proof. repeat split; [constructor | vm_compute; lia | by apply chars_nonzero]. Qed.
End Lines.

Section BootInit.
Context `{LogHw D base}.
Context (ops : Z -> option (con_ops (D := D))) (stage2 : gmap Z boot_mem_map_entry).
Context (s0 : screens D) (con nm buf : Z).
Hypothesis base_range : 0 <= base < 65535.
Abbreviation logged_at := (logged (base := base) ops s0 con nm buf).

(** The loader's map is [l]. *)
Definition map_at (src : Z) (l : list boot_mem_map_entry) : Prop :=
  Forall entry_u32 l /\ forall i e, l !! i = Some e -> stage2 !! u32 (src + sizeof_boot_mem_map_entry * Z.of_nat i) = Some e.

Lemma copy_map_wp src l w (Q : unit -> boot_world D -> Prop) :
  map_at src l -> (length l <= length (kernel_boot_mmap_entries w))%nat ->
  Q tt (set_boot_entries (l ++ drop (length l) (kernel_boot_mmap_entries w)) w) ->
  wp (for_each 0 (Z.of_nat (length l)) (copy_entry stage2 src)) Q w.
Proof.
  intros [_ Hm] Hl HQ. set (es := kernel_boot_mmap_entries w) in *.
  apply (wp_for_each (fun i w' => w' = set_boot_entries (take (Z.to_nat i) l ++ drop (Z.to_nat i) es) w)).
  - by destruct w.
  - intros i w' Hi ->. destruct (lookup_lt_is_Some_2 l (Z.to_nat i)) as [e He]; [lia|].
    unfold wp, copy_entry. specialize (Hm _ _ He). rewrite Z2Nat.id in Hm by lia. rewrite Hm.
    cbn [kernel_boot_mmap_entries set_boot_entries].
    assert (length (take (Z.to_nat i) l) = Z.to_nat i) as Ht by (rewrite length_take; lia).
    rewrite (proj2 (Z.leb_le 0 i)), (proj2 (Z.ltb_lt i _)) by (rewrite ?length_app, ?length_drop; lia). cbn [andb].
    unfold set_boot_entries. cbn. f_equal. replace (Z.to_nat (i + 1)) with (S (Z.to_nat i)) by lia.
    rewrite (take_S_r _ _ e) by done. rewrite <- app_assoc.
    destruct (lookup_lt_is_Some_2 es (Z.to_nat i)) as [e' He']; [lia|]. rewrite (drop_S es e' _ He').
    rewrite insert_app_r_alt by lia. by rewrite Ht, Nat.sub_diag.
  - intros w' ->. rewrite Z.max_r, Nat2Z.id, firstn_all by lia. exact HQ.
Qed.

(** A line after [out1]. *)
Lemma boot_debug_wp fmt args out1 out2 L o d0 d p w (Q : unit -> boot_world D -> Prop) :
  logged_at (L ++ map u8 out1) (option_map (fun t => term_write t out1) o) d p (bw_klog w) ->
  device_after (option_map (fun t => term_write t out1) o) d0 d ->
  message (PRINTK_DEBUG ++ fmt) args out2 ->
  (forall d' l', let o' := option_map (fun t => term_write t (out1 ++ out2)) o in
     logged_at (L ++ map u8 (out1 ++ out2)) o' d' p l' -> device_after o' d0 d' -> rtc port_step d d' ->
     Q tt (set_bw_klog l' w)) ->
  wp (boot_debug ops fmt args) Q w.
Proof.
  intros Hs Hd Hm HQ. unfold boot_debug. do 2 wp_step. unfold pr_debug, printk.
  eapply vprintk_next; [done | exact Hs | exact Hd | exact Hm |]. cbv zeta. intros d' s' Hs' Hd' Hr. wp_step. by apply (HQ d').
Qed.

Lemma map_lines_snoc l e : map_lines (l ++ [e]) = map_lines l ++ map_line (Z.of_nat (length l)) e.
Proof. unfold map_lines. rewrite imap_app, concat_app. cbn. by rewrite Nat.add_0_r, app_nil_r. Qed.

(** The log after [out]; the flag and the rest of the world are kept. *)
Definition said (L out : list Z) (o : option term) (d0 : D) (p : bool) (w w' : boot_world D) : Prop :=
  exists l' d', w' = set_bw_klog l' w /\ let o' := option_map (fun t => term_write t out) o in
    logged_at (L ++ map u8 out) o' d' p l' /\ device_after o' d0 d' /\ if_set d' = if_set d0.

Lemma say_wp fmt args out1 out2 L o d0 p w w1 (Q : unit -> boot_world D -> Prop) :
  said L out1 o d0 p w w1 -> message (PRINTK_DEBUG ++ fmt) args out2 ->
  (forall w2, said L (out1 ++ out2) o d0 p w w2 -> Q tt w2) -> wp (boot_debug ops fmt args) Q w1.
Proof.
  intros (l1 & d1 & -> & Hl1 & Hd1 & Hf1) Hm HQ. eapply boot_debug_wp; [exact Hl1 | exact Hd1 | exact Hm |].
  cbv zeta. intros d' l' Hl' Hd' Hr%flag_kept. apply HQ. exists l', d'. split; [done|]. split; [done|]. split; [done | congruence].
Qed.

Lemma map_report_wp l src L o d0 p w (out1 : list Z) (Q : unit -> boot_world D -> Prop) w1 :
  map_at src l -> (length l <= 64)%nat -> take (length l) (kernel_boot_mmap_entries w) = l ->
  said L out1 o d0 p w w1 ->
  (forall w2, said L (out1 ++ map_lines l) o d0 p w w2 -> Q tt w2) ->
  wp (for_each 0 (Z.of_nat (length l)) (fun i =>
    e <-- boot_entry i ;;
    boot_debug ops (BOOT_LOG ++ chars "[%d] base=%x len=%x type=%x attr=%x" ++ [10; 0])
      [VWord i; VWord (u32 (me_base e)); VWord (u32 (me_length e)); VWord (me_type e); VWord (me_attr e)])) Q w1.
Proof.
  intros [Hu _] Hlen Hes Hs HQ.
  apply (wp_for_each (fun i w' => said L (out1 ++ map_lines (take (Z.to_nat i) l)) o d0 p w w')).
  - cbn [Z.to_nat take]. by rewrite app_nil_r.
  - intros i w' Hi Hw'. destruct (lookup_lt_is_Some_2 l (Z.to_nat i)) as [e He]; [lia|].
    wp_step. unfold wp at 1, boot_entry. destruct (Hw') as (l1 & d1 & -> & _). cbn [kernel_boot_mmap_entries set_bw_klog].
    assert (kernel_boot_mmap_entries w !! Z.to_nat i = Some e) as ->.
    { rewrite <- He, <- Hes at 1. rewrite lookup_take_lt by lia. done. }
    eapply say_wp; [exact Hw' | apply map_message; [lia | by eapply Forall_lookup_1] |]. intros w2 Hw2.
    replace (Z.to_nat (i + 1)) with (S (Z.to_nat i)) by lia. rewrite (take_S_r _ _ e) by done.
    rewrite map_lines_snoc, length_take, Nat.min_l, Z2Nat.id, app_assoc by lia. exact Hw2.
  - intros w' Hw'. rewrite Z.max_r, Nat2Z.id, firstn_all in Hw' by lia. by apply HQ.
Qed.
End BootInit.

Lemma boot_init_wp `{LogHw D base} ops stage2 s0 con nm buf (Hb : 0 <= base < 65535) info l L o d p w :
  boot_info_ok info -> length (kernel_boot_mmap_entries w) = 64%nat ->
  map_at stage2 (PHYS_TO_VIRT (bi_memory_map_phys info)) l -> Z.of_nat (length l) = bi_memory_map_count info ->
  logged (base := base) ops s0 con nm buf L o d p (bw_klog w) ->
  wp (boot_init ops stage2 info) (fun _ w' =>
    kernel_boot_state w' = mk_boot_state (bi_memory_map_count info) true (bi_video info)
      (PHYS_TO_VIRT (bi_system_image info)) (bi_system_image_size info) /\
    kernel_boot_mmap_entries w' = l ++ drop (length l) (kernel_boot_mmap_entries w) /\
    exists d', let out := boot_report info l in let o' := option_map (fun t => term_write t out) o in
      logged (base := base) ops s0 con nm buf (L ++ map u8 out) o' d' p (bw_klog w') /\
      device_after o' d d' /\ if_set d' = if_set d) w.
Proof.
  intros [Hcnt Hsz Hvid] Hes Hmap Hlen Hlog. unfold BOOT_MEMORY_MAP_MAX in *. unfold boot_init. wp_step. rewrite <- Hlen.
  apply copy_map_wp; [done | lia |]. do 2 wp_step. set (w1 := set_boot_state _ _). wp_step.
  unfold boot_debug at 1. do 2 wp_step. unfold pr_debug, printk.
  eapply vprintk_wp; [done | exact Hlog | apply title_message |]. cbv zeta. intros d1 l1 Hl1 Hd1 Hf1%flag_kept. wp_step.
  assert (said ops s0 con nm buf L map_title o d p w1 (set_bw_klog l1 w1)) as S1 by (by exists l1, d1).
  do 3 wp_step. cbn [kernel_boot_state set_bw_klog w1 set_boot_state bs_memory_map_count bs_video bs_system_image bs_system_image_size].
  eapply (map_report_wp ops stage2 s0 con nm buf Hb l); [exact Hmap | lia | | exact S1 |].
  { cbn. by rewrite take_app_length. }
  intros w2 S2. wp_step.
  assert (forall (Q : unit -> boot_world D -> Prop), (forall w3, said ops s0 con nm buf L ((map_title ++ map_lines l) ++
    if bv_type (bi_video info) =? BOOT_VIDEO_TYPE_TEXT then video_line (bi_video info) else []) o d p w1 w3 -> Q tt w3) ->
    wp (if bv_type (bi_video info) =? BOOT_VIDEO_TYPE_TEXT then
     boot_debug ops (BOOT_LOG ++ chars "Video: type=TEXT mode=0x%x buf=%p rows=%d cols=%d page=%u" ++ [10; 0])
       [VWord (bv_mode (bi_video info)); VWord (u32 (bv_buffer (bi_video info))); VWord (bv_rows (bi_video info));
        VWord (bv_cols (bi_video info)); VWord (bv_page (bi_video info))]
    else ret tt) Q w2) as Hv.
  { intros Q HQ. destruct (bv_type (bi_video info) =? BOOT_VIDEO_TYPE_TEXT).
    - eapply (say_wp ops s0 con nm buf Hb); [exact S2 | by apply video_message | exact HQ].
    - wp_step. apply HQ. by rewrite app_nil_r. }
  apply Hv. clear Hv. intros w3 S3.
  eapply (say_wp ops s0 con nm buf Hb); [exact S3 | apply image_message; [apply u32_range | done] |].
  intros w4 (l4 & d4 & -> & Hl4 & Hd4 & Hf4). split; [done|]. split; [done|]. exists d4. cbv zeta.
  unfold boot_report. rewrite <- !app_assoc in Hl4, Hd4. done.
Qed.

(** ** Properties *)

(** [boot_init] takes over the loader's information: for a map of at most 64 entries
    it copies every entry to the start of the kernel's own array and leaves the rest
    of it, records the count, the video mode, and the image's size and direct-map
    address, and describes all of it on the log and, if there is one, the console. *)
Theorem boot_init_correct `{LogHw D base} ops stage2 s0 con nm buf info l L o d p w :
  0 <= base < 65535 -> boot_info_ok info -> length (kernel_boot_mmap_entries w) = 64%nat ->
  map_at stage2 (PHYS_TO_VIRT (bi_memory_map_phys info)) l -> Z.of_nat (length l) = bi_memory_map_count info ->
  logged (base := base) ops s0 con nm buf L o d p (bw_klog w) ->
  wp (boot_init ops stage2 info) (fun _ w' =>
    kernel_boot_state w' = mk_boot_state (bi_memory_map_count info) true (bi_video info)
      (PHYS_TO_VIRT (bi_system_image info)) (bi_system_image_size info) /\
    kernel_boot_mmap_entries w' = l ++ drop (length l) (kernel_boot_mmap_entries w) /\
    exists d', let out := boot_report info l in let o' := option_map (fun t => term_write t out) o in
      logged (base := base) ops s0 con nm buf (L ++ map u8 out) o' d' p (bw_klog w') /\
      device_after o' d d' /\ if_set d' = if_set d) w.
Proof. intros Hb. by apply boot_init_wp. Qed.

(** [boot_init] does not check the number of entries: a map of more than 64 entries
    is copied past the end of the kernel's array. *)
Theorem boot_map_overflow `{PortIO D} ops stage2 info l (w : boot_world D) :
  length (kernel_boot_mmap_entries w) = 64%nat -> map_at stage2 (PHYS_TO_VIRT (bi_memory_map_phys info)) l ->
  Z.of_nat (length l) = bi_memory_map_count info -> BOOT_MEMORY_MAP_MAX < bi_memory_map_count info ->
  boot_init ops stage2 info w = None.
Proof.
  intros Hes [Hu Hm] Hlen Hbig. unfold BOOT_MEMORY_MAP_MAX in *. unfold boot_init, bind at 1.
  assert (map_at stage2 (PHYS_TO_VIRT (bi_memory_map_phys info)) (take 64 l)) as Hm'.
  { split; [by apply Forall_take|]. intros i e [He _]%lookup_take_Some. by apply Hm. }
  assert (length (take 64 l) = 64%nat) as Ht by (rewrite length_take; lia).
  destruct (proj1 (wp_run _ _ _) (copy_map_wp stage2 _ _ w (fun _ w' => length (kernel_boot_mmap_entries w') = 64%nat) Hm'
    ltac:(lia) ltac:(cbn; rewrite length_app, length_drop; lia))) as ([] & w1 & Hrun & Hw1).
  rewrite Ht in Hrun. erewrite for_each_none; [done | | exact Hrun |]; [lia|].
  unfold copy_entry. destruct (stage2 !! _); [|done]. by rewrite Hw1.
Qed.

(** ** A loader's map of two entries *)

Definition loader_map : gmap Z boot_mem_map_entry :=
  {[3221258240 := mk_entry 0 654336 1 1; 3221258264 := mk_entry 1048576 133038080 1 1]}.
Definition loader_info : boot_info := mk_boot_info 2 32768 (mk_boot_video 1 3 0 80 25 753664) 1048576 4096.

Import LogMachine.

Definition boot_world0 : boot_world machine :=
  mk_boot_world (mk_boot_state 0 false (mk_boot_video 0 0 0 0 0 0) 0 0) (replicate 64 (mk_entry 0 0 0 0)) klog0.

Lemma boot_init_correct_witness :
  let l := [mk_entry 0 654336 1 1; mk_entry 1048576 133038080 1 1] in
  wp (boot_init ops0 loader_map loader_info) (fun _ w' =>
    kernel_boot_state w' = mk_boot_state 2 true (mk_boot_video 1 3 0 80 25 753664) 3222274048 4096 /\
    kernel_boot_mmap_entries w' = l ++ replicate 62 (mk_entry 0 0 0 0)) boot_world0.
Proof.
  intros l. eapply wp_mono.
  - apply (boot_init_correct ops0 loader_map screens0 4096 0 753664 loader_info l [] (Some CrtcMachine.screen0) d0 false boot_world0).
    + lia.
    + split; [done | done |]. by repeat constructor.
    + by apply length_replicate.
    + split; [by repeat constructor|]. intros [|[|i]] e He; [injection He as <-; vm_compute; reflexivity..|done].
    + reflexivity.
    + apply klog0_ok.
  - intros _ w' (H1 & H2 & _). split; [exact H1 | exact H2].
Defined.

(** The same entry 65 times. *)
Definition big_map : gmap Z boot_mem_map_entry :=
  list_to_map (map (fun i => (3221258240 + 24 * Z.of_nat i, mk_entry 0 4096 2 1)) (seq 0 65)).

Lemma boot_map_overflow_witness :
  boot_init ops0 big_map (mk_boot_info 65 32768 (mk_boot_video 1 3 0 80 25 753664) 1048576 4096) boot_world0 = None.
Proof.
  apply (boot_map_overflow ops0 big_map _ (replicate 65 (mk_entry 0 4096 2 1))).
  - by apply length_replicate.
  - split; [by apply Forall_replicate|]. intros i e [-> Hi]%lookup_replicate.
    do 65 (destruct i as [|i]; [vm_compute; reflexivity|]). lia.
  - reflexivity.
  - reflexivity.
Defined.
