(* ===== verification/Process.v ===== *)
(** * Processes

    Models [kernel/process/pid.c], [kernel/process/process.c] and
    [kernel/arch/x86/proc.c].

    - A [struct process] is an object of the kernel heap; its members are words of
      the kernel's memory at their IA-32 offsets, so [memset] clears them and the
      list head of [vm.vmas] is part of the object.  A call that takes a pointer to
      an embedded structure reads it, runs the callee on the value and writes the
      result back.
    - The state adds to the memory manager the static objects [pid_bm],
      [process_table] and the TSS.
    - A kernel stack lies in the stack window.  A word of it can be accessed when its
      page is mapped in the kernel's half; the frames behind the window have no
      other user, so the words are those of the window's own addresses.
    - [iret] leaves the kernel: the result of [arch_process_start] is the context the
      processor pops. *)

From S2P Require Import Prelude Base Memory KList KMem Bitmap Pmm Frames Kheap Paging KernelVm Vmm Iwbf Hal Descriptors.

(** ** PIDs ([pid.h], [pid.c]) *)

Definition PID_MAX : Z := 64.
Definition PID_FIRST : Z := 1.

Definition pid_alloc : M bitmap Z :=
  r <-- bitmap_find_zero ;;
  match r with
  | None => ret (- KERR_NOSPC)
  | Some pos => bitmap_set pos ;;; ret (s32 pos)
  end.

Definition pid_free (pid : Z) : M bitmap Z :=
  if (pid <? PID_FIRST) || (PID_MAX <=? pid) then ret (- KERR_INVAL)
  else
    t <-- bitmap_test pid ;;
    if negb t then ret (- KERR_NOENT)
    else bitmap_clear pid ;;; ret KERR_OK.

Definition pid_init : M bitmap Z := bitmap_set 0 ;;; ret KERR_OK.

(** ** [struct process] ([process.h]) *)

Definition PROCESS_MAX : Z := PID_MAX.
Definition USER_STACK_TOP : Z := 3221217280. (* 0xBFFFE000 *)
Definition USER_STACK_SIZE : Z := 4 * 4096.

Definition PROCESS_CREATED : Z := 0.
Definition PROCESS_RUNNING : Z := 2.

(** A 64-bit member is two words. *)
Definition load64 (a : Z) : M mem Z :=
  lo <-- load32 a ;; hi <-- load32 (u32 (a + 4)) ;; ret (lo + 4294967296 * hi).
Definition store64 (a v : Z) : M mem unit :=
  store32 a (u32 v) ;;; store32 (u32 (a + 4)) (u32 (Z.shiftr v 32)).

Definition sizeof_process : Z := 52.
Definition set_process_name (proc v : Z) : M mem unit := store32 proc v.
Definition set_process_pid (proc v : Z) : M mem unit := store32 (u32 (proc + 4)) (u32 v).
Definition process_state (proc : Z) : M mem Z := load32 (u32 (proc + 8)).
Definition set_process_state (proc v : Z) : M mem unit := store32 (u32 (proc + 8)) v.
Definition process_vm (proc : Z) : M mem vm_space :=
  pd <-- load64 (u32 (proc + 20)) ;; ret (mk_vm_space (u32 (proc + 12)) (mk_space pd)).
Definition set_process_vm (proc : Z) (vm : vm_space) : M mem unit :=
  store64 (u32 (proc + 20)) (pd_phys (vm_arch vm)).
Definition process_kstack (proc : Z) : M mem kernel_stack :=
  base <-- load32 (u32 (proc + 28)) ;;
  sp <-- load32 (u32 (proc + 32)) ;;
  size <-- load32 (u32 (proc + 36)) ;;
  ret (mk_kstack base sp size).
Definition set_process_kstack (proc : Z) (k : kernel_stack) : M mem unit :=
  store32 (u32 (proc + 28)) (ks_base k) ;;;
  store32 (u32 (proc + 32)) (ks_stack_pointer k) ;;;
  store32 (u32 (proc + 36)) (ks_size k).
Definition process_entry (proc : Z) : M mem Z := load32 (u32 (proc + 40)).
Definition set_process_entry (proc v : Z) : M mem unit := store32 (u32 (proc + 40)) v.

(** [n] bytes from [a] on. *)
Fixpoint load_bytes (n : nat) (a : Z) : M mem (list Z) :=
  match n with
  | O => ret []
  | S k => b <-- load8 a ;; r <-- load_bytes k (u32 (a + 1)) ;; ret (b :: r)
  end.

(** ** State *)

Record procs (A : Type) := mk_procs {
  pr_vmm : vmm A;
  pid_bm : bitmap;
  process_table : list Z;
  pr_tss : x86_tss
}.
Arguments mk_procs {A}.
Arguments pr_vmm {A}.
Arguments pid_bm {A}.
Arguments process_table {A}.
Arguments pr_tss {A}.

(** What [iret] pops when it returns to ring 3. *)
Record iret_frame := mk_iret { if_eip : Z; if_cs : Z; if_eflags : Z; if_esp : Z; if_ss : Z }.

Section Process.
(** The address of the static object [kheap_free_list]. *)
Variable kheap_free_list : Z.
Context {A : Type} `{FrameAllocator A}.

Definition set_pr_vmm (v : vmm A) (s : procs A) : procs A := mk_procs v (pid_bm s) (process_table s) (pr_tss s).
Definition set_pid_bm (b : bitmap) (s : procs A) : procs A := mk_procs (pr_vmm s) b (process_table s) (pr_tss s).
Definition set_process_table (t : list Z) (s : procs A) : procs A := mk_procs (pr_vmm s) (pid_bm s) t (pr_tss s).
Definition set_pr_tss (t : x86_tss) (s : procs A) : procs A := mk_procs (pr_vmm s) (pid_bm s) (process_table s) t.

Abbreviation in_vmm := (zoom pr_vmm set_pr_vmm).
Abbreviation in_pids := (zoom pid_bm set_pid_bm).
Abbreviation vm_heap := (zoom vmm_heap set_vmm_heap).
Abbreviation vm_mem c := (zoom vmm_heap set_vmm_heap (zoom kh_mem set_kh_mem c)).
Abbreviation in_kheap c := (zoom pr_vmm set_pr_vmm (vm_heap c)).
Abbreviation in_kmem c := (zoom pr_vmm set_pr_vmm (vm_mem c)).

(** A call [f(&proc->vm)] or [f(&proc->kstack)] that may update the structure. *)
Definition with_vm (proc : Z) (f : option vm_space -> M (vmm A) (Z * option vm_space)) : M (vmm A) Z :=
  v <-- vm_mem (process_vm proc) ;;
  ' (e, v') <-- f (Some v) ;;
  vm_mem (set_process_vm proc (default v v')) ;;;
  ret e.

Definition with_kstack (proc : Z) (f : option kernel_stack -> M (kvm A) (Z * option kernel_stack)) : M (vmm A) Z :=
  k <-- vm_mem (process_kstack proc) ;;
  ' (e, k') <-- zoom vmm_kvm set_vmm_kvm (f (Some k)) ;;
  vm_mem (set_process_kstack proc (default k k')) ;;;
  ret e.

(** [process_table[i]] *)
Definition read_table (i : Z) : M (procs A) Z := fun s =>
  if 0 <=? i then match process_table s !! Z.to_nat i with Some p => Some (p, s) | None => None end else None.
Definition write_table (i p : Z) : M (procs A) unit := fun s =>
  if (0 <=? i) && (i <? Z.of_nat (length (process_table s)))
  then Some (tt, set_process_table (<[Z.to_nat i := p]> (process_table s)) s) else None.

(** ** [process.c] *)

Definition process_get (pid : Z) : M (procs A) Z :=
  if (pid <? PID_FIRST) || (PID_MAX <=? pid) then ret NULL else read_table pid.

Definition process_create (name : Z) : M (procs A) Z :=
  if name =? NULL then ret (KERR_PTR (- KERR_INVAL))
  else
    pid <-- in_pids pid_alloc ;;
    if KERR_IS_ERR pid then ret (KERR_PTR pid)
    else
      proc <-- in_kheap (kmalloc kheap_free_list sizeof_process) ;;
      if KERR_PTR_IS_ERR proc then in_pids (pid_free pid) ;;; ret proc
      else
        in_kmem (memset proc 0 sizeof_process) ;;;
        in_kmem (set_process_pid proc pid ;;;
                 set_process_state proc PROCESS_CREATED ;;;
                 set_process_name proc name) ;;;
        err <-- in_vmm (with_vm proc vm_space_init) ;;
        if KERR_IS_ERR err then
          in_pids (pid_free pid) ;;;
          in_kheap (kfree kheap_free_list proc) ;;;
          ret (KERR_PTR err)
        else
          err <-- in_vmm (with_kstack proc kstack_alloc) ;;
          if KERR_IS_ERR err then
            in_vmm (with_vm proc (vm_space_destroy kheap_free_list)) ;;;
            in_pids (pid_free pid) ;;;
            in_kheap (kfree kheap_free_list proc) ;;;
            ret (KERR_PTR err)
          else
            write_table pid proc ;;;
            ret proc.

(** The conversion of segment permissions. *)
Definition seg_vm_flags (flags : Z) : Z :=
  let f := VM_USER in
  let f := if negb (Z.land flags IWBF_SEG_FLAG_READ =? 0) then Z.lor f VM_READ else f in
  let f := if negb (Z.land flags IWBF_SEG_FLAG_WRITE =? 0) then Z.lor f VM_WRITE else f in
  if negb (Z.land flags IWBF_SEG_FLAG_EXEC =? 0) then Z.lor f VM_EXEC else f.

(** The parsers read the bytes of the structure they parse once they have checked
    its size. *)
Definition parse_hdr (image size : Z) : M mem (iwbf32_hdr + Z) :=
  b <-- (if size <? IWBF32_HDR_SIZE then ret [] else load_bytes 14 image) ;;
  match iwbf_parse_hdr (Some b) size true with
  | Some (e, h) => if e <? 0 then ret (inr e) else match h with Some h => ret (inl h) | None => undefined end
  | None => undefined
  end.

Definition parse_segment_hdr (p size : Z) : M mem (iwbf32_segment_hdr + Z) :=
  b <-- (if size <? IWBF32_SEGMENT_HDR_SIZE then ret [] else load_bytes 20 p) ;;
  match iwbf_parse_segment_hdr (Some b) size true with
  | Some (e, h) => if e <? 0 then ret (inr e) else match h with Some h => ret (inl h) | None => undefined end
  | None => undefined
  end.

Definition pr_alloc_lowmem (n : Z) : M (vmm A) (Z + Z) :=
  zoom vmm_kvm set_vmm_kvm (zoom kv_vm set_kv_vm (zoom vs_frames set_vs_frames (fa_alloc_lowmem n))).
Definition pr_free (addr n : Z) : M (vmm A) Z :=
  zoom vmm_kvm set_vmm_kvm (zoom kv_vm set_kv_vm (zoom vs_frames set_vs_frames (fa_free addr n))).

(** Body of the segment loop of [process_load]; [inr e] leaves the function. *)
Definition load_segment (proc image size i : Z) : M (vmm A) (unit + Z) :=
  let page_size := arch_vm_page_size in
  let seg_off := u32 (IWBF32_HDR_SIZE + IWBF32_SEGMENT_HDR_SIZE * i) in
  r <-- vm_mem (parse_segment_hdr (u32 (image + seg_off)) (u32 (size - seg_off))) ;;
  match r with
  | inr e => ret (inr e)
  | inl seg =>
      if seg_mem_size seg <? seg_file_size seg then ret (inr (- KERR_INVAL))
      else if size <? seg_file_off seg then ret (inr (- KERR_INVAL))
      else if size - seg_file_off seg <? seg_file_size seg then ret (inr (- KERR_INVAL))
      else
        let vm_flags := seg_vm_flags (seg_flags seg) in
        r <-- pr_alloc_lowmem (seg_mem_size seg / page_size) ;;
        match r with
        | inl e => ret (inr e)
        | inr phys =>
            vm <-- vm_mem (process_vm proc) ;;
            err <-- vm_map kheap_free_list (Some vm) (seg_vaddr seg) phys (seg_mem_size seg) vm_flags ;;
            if KERR_IS_ERR err then
              pr_free phys (seg_mem_size seg / page_size) ;;;
              ret (inr err)
            else
              (if negb (seg_file_size seg =? 0) then
                 vm_mem (memcpy (PHYS_TO_VIRT phys) (u32 (image + seg_file_off seg)) (seg_file_size seg)) ;;; ret tt
               else ret tt) ;;;
              (if seg_file_size seg <? seg_mem_size seg then
                 vm_mem (memset (u32 (PHYS_TO_VIRT phys + seg_file_size seg)) 0 (seg_mem_size seg - seg_file_size seg)) ;;;
                 ret tt
               else ret tt) ;;;
              ret (inl tt)
        end
  end.

Definition process_load (proc image size : Z) : M (vmm A) Z :=
  if (proc =? NULL) || (image =? NULL) || (size =? 0) then ret (- KERR_INVAL)
  else
    st <-- vm_mem (process_state proc) ;;
    if negb (st =? PROCESS_CREATED) then ret (- KERR_INVAL)
    else
      h <-- vm_mem (parse_hdr image size) ;;
      match h with
      | inr e => ret e
      | inl hdr =>
          l <-- for_lt 0 (hdr_segment_count hdr) tt (fun i _ => load_segment proc image size i) ;;
          match l with
          | inr e => ret e
          | inl _ => vm_mem (set_process_entry proc (hdr_entry hdr)) ;;; ret KERR_OK
          end
      end.

(** ** [arch/x86/proc.c] *)

(** An access to the word at [va] of the stack window. *)
Definition stack_word (va : Z) (s : vmm A) : option Z :=
  walk (vs_mem (kv_vm (vmm_kvm s))) (pd_phys (kernel_vm (vmm_kvm s))) (va / 4096).
Definition stack_store (va v : Z) : M (vmm A) unit :=
  w <-- gets (stack_word va) ;;
  match w with
  | Some pte => if Z.testbit pte 1 then vm_mem (store32 va v) else undefined
  | None => undefined
  end.
Definition stack_load (va : Z) : M (vmm A) Z :=
  w <-- gets (stack_word va) ;;
  match w with Some _ => vm_mem (load32 va) | None => undefined end.

(** [*--sp = v] *)
Definition push (sp v : Z) : M (vmm A) Z :=
  let sp := u32 (sp - 4) in stack_store sp v ;;; ret sp.

Definition arch_process_stack_prepare (proc : Z) : M (vmm A) Z :=
  if proc =? NULL then ret (- KERR_INVAL)
  else
    k <-- vm_mem (process_kstack proc) ;;
    let top := u32 (ks_base k + ks_size k) in
    sp <-- push top X86_GDT_SELECTOR_USER_DATA ;;
    sp <-- push sp USER_STACK_TOP ;;
    sp <-- push sp (Z.lor X86_FLAGS_IF_MASK X86_FLAGS_RESERVED_MASK) ;;
    sp <-- push sp X86_GDT_SELECTOR_USER_CODE ;;
    entry <-- vm_mem (process_entry proc) ;;
    sp <-- push sp entry ;;
    vm_mem (store32 (u32 (proc + 32)) sp) ;;;
    ret KERR_OK.

Definition process_prepare (proc : Z) : M (vmm A) Z :=
  if proc =? NULL then ret (- KERR_INVAL)
  else
    let page_size := arch_vm_page_size in
    st <-- vm_mem (process_state proc) ;;
    if negb (st =? PROCESS_CREATED) then ret (- KERR_INVAL)
    else
      r <-- pr_alloc_lowmem (USER_STACK_SIZE / page_size) ;;
      match r with
      | inl e => ret e
      | inr stack_phys =>
          vm <-- vm_mem (process_vm proc) ;;
          TRY vm_map kheap_free_list (Some vm) (USER_STACK_TOP - USER_STACK_SIZE) stack_phys USER_STACK_SIZE
            (Z.lor (Z.lor (Z.lor VM_USER VM_READ) VM_WRITE) VM_GROWSDOWN) ;;;
          TRY arch_process_stack_prepare proc ;;;
          ret KERR_OK
      end.

(** [movl stack_pointer, %esp; iret] *)
Definition iret_from (sp : Z) : M (vmm A) iret_frame :=
  eip <-- stack_load sp ;;
  cs <-- stack_load (u32 (sp + 4)) ;;
  eflags <-- stack_load (u32 (sp + 8)) ;;
  esp <-- stack_load (u32 (sp + 12)) ;;
  ss <-- stack_load (u32 (sp + 16)) ;;
  ret (mk_iret eip cs eflags esp ss).

Definition arch_process_start (proc : Z) : M (procs A) iret_frame :=
  k <-- in_kmem (process_kstack proc) ;;
  zoom pr_tss set_pr_tss (x86_tss_set_kernel_stack (u32 (ks_base k + ks_size k))) ;;;
  in_vmm (iret_from (ks_stack_pointer k)).

Definition process_start (proc : Z) : M (procs A) (Z + iret_frame) :=
  if proc =? NULL then ret (inl (- KERR_INVAL))
  else f <-- arch_process_start proc ;; ret (inr f).

End Process.
