(* ===== verification/ProcessProps.v ===== *)
(** * Properties of processes

    The theorems on [kernel/process/process.c]: creation on top of the heap, the page
    tables and the kernel stacks, and the way from a prepared process to user mode. *)

From S2P Require Import Prelude Base Memory KList KMem Bitmap Pmm Frames Kheap KheapClient HeapLive Paging PagingProps KernelVm Vmm Words VmaList Mm VmSpace Iwbf Hal Descriptors Process.

(** ** PIDs *)

Definition pids_ok (b : bitmap) : Prop := bitmap_ok b /\ bm_nbits b = PID_MAX.

Lemma pids_upd b b' lo hi v : pids_ok b -> bits_upd b b' lo hi v -> pids_ok b'.
Proof. intros [Hb Hn] [(Hb' & Hn' & _) _]. split; [done|]. by rewrite Hn'. Qed.

Lemma pid_capacity b : pids_ok b -> 64 <= capacity b.
Proof. intros [(_ & Hc & _) Hn]. unfold PID_MAX in Hn. lia. Qed.

Lemma pid_alloc_wp b : pids_ok b ->
  wp pid_alloc (fun r b' =>
    ((forall j, 0 <= j < PID_MAX -> bit b j = true) /\ r = - KERR_NOSPC /\ b' = b) \/
    (is_first_clear b (Some r) /\ 0 <= r < PID_MAX /\ bits_upd b b' r (r + 1) true)) b.
Proof.
  intros Hok. pose proof (pid_capacity b Hok) as Hc. destruct (Hok) as [Hb Hn]. unfold pid_alloc. wp_step.
  apply bitmap_find_zero_wp; [done|]. intros [pos|] Hpos.
  - assert (0 <= pos < 64) as Hp by (destruct Hpos as [Hp _]; by rewrite Hn in Hp). wp_step.
    apply bitmap_set_wp; [done | lia|]. intros b' Hb'. wp_step.
    assert (s32 pos = pos) as -> by (unfold s32; rewrite u32_id by (unfold is_u32; lia); zcases; lia). by right.
  - wp_step. left. split; [|done]. unfold is_first_clear in Hpos. by rewrite Hn in Hpos.
Qed.

Lemma pid_free_wp b pid : pids_ok b -> 1 <= pid < PID_MAX -> bit b pid = true ->
  wp (pid_free pid) (fun r b' => r = KERR_OK /\ bits_upd b b' pid (pid + 1) false) b.
Proof.
  intros Hok Hp Hbit. pose proof (pid_capacity b Hok) as Hc. destruct (Hok) as [Hb Hn]. unfold pid_free, PID_FIRST, PID_MAX in *.
  replace ((pid <? 1) || (64 <=? pid)) with false by lia. wp_step. apply bitmap_test_wp; [done | lia|].
  rewrite Hbit. cbn [negb]. wp_step. apply bitmap_clear_wp; [done | lia|]. intros b' Hb'. by wp_step.
Qed.

(** ** The object *)

(** [p] is a word address such that the whole structure is in the heap's memory. *)
Definition obj_at (p : Z) : Prop := p mod 4 = 0 /\ KERNEL_VIRT_OFFSET <= p /\ p + 52 <= 4026531840.

Lemma obj_word p k : obj_at p -> 0 <= k < 52 -> k mod 4 = 0 -> u32 (p + k) = p + k /\ valid (p + k).
Proof.
  unfold obj_at, valid, KERNEL_VIRT_OFFSET. intros Hp Hk Hal. rewrite u32_id by (unfold is_u32; lia). repeat split; dlia.
Qed.

(** Accesses to the words of the object. *)
Lemma obj_load_wp m p k (Q : Z -> mem -> Prop) : obj_at p -> 0 <= k < 52 -> k mod 4 = 0 ->
  Q (rd m (p + k)) m -> wp (load32 (u32 (p + k))) Q m.
Proof. intros Hp Hk Hal HQ. destruct (obj_word p k Hp Hk Hal) as [-> Hv]. by apply load32_wp. Qed.
Lemma obj_store_wp m p k v (Q : unit -> mem -> Prop) : obj_at p -> 0 <= k < 52 -> k mod 4 = 0 ->
  Q tt (wr m (p + k) v) -> wp (store32 (u32 (p + k)) v) Q m.
Proof. intros Hp Hk Hal HQ. destruct (obj_word p k Hp Hk Hal) as [-> Hv]. by apply store32_wp. Qed.

Ltac obj_step := first [apply obj_load_wp; [done | lia | done|] | apply obj_store_wp; [done | lia | done|]].

Lemma process_state_wp m p (Q : Z -> mem -> Prop) : obj_at p -> Q (rd m (p + 8)) m -> wp (process_state p) Q m.
Proof. intros. unfold process_state. by obj_step. Qed.
Lemma process_entry_wp m p (Q : Z -> mem -> Prop) : obj_at p -> Q (rd m (p + 40)) m -> wp (process_entry p) Q m.
Proof. intros. unfold process_entry. by obj_step. Qed.

Definition vm_of (m : mem) (p : Z) : vm_space :=
  mk_vm_space (p + 12) (mk_space (rd m (p + 20) + 4294967296 * rd m (p + 24))).
Definition kstack_of (m : mem) (p : Z) : kernel_stack := mk_kstack (rd m (p + 28)) (rd m (p + 32)) (rd m (p + 36)).

Lemma process_vm_wp m p (Q : vm_space -> mem -> Prop) : obj_at p -> Q (vm_of m p) m -> wp (process_vm p) Q m.
Proof.
  intros Hp HQ. unfold process_vm, load64. do 2 wp_step. obj_step. wp_step. destruct (obj_word p 20 Hp) as [-> _]; [lia | done|].
  replace (p + 20 + 4) with (p + 24) by lia. obj_step. wp_step. wp_step.
  destruct (obj_word p 12 Hp) as [-> _]; [lia | done | exact HQ].
Qed.

Lemma set_process_vm_wp m p v (Q : unit -> mem -> Prop) : obj_at p -> is_u32 (pd_phys (vm_arch v)) ->
  Q tt (wr (wr m (p + 20) (pd_phys (vm_arch v))) (p + 24) 0) -> wp (set_process_vm p v) Q m.
Proof.
  intros Hp Hv HQ. unfold set_process_vm, store64. wp_step. obj_step. destruct (obj_word p 20 Hp) as [-> _]; [lia | done|].
  replace (p + 20 + 4) with (p + 24) by lia. obj_step. rewrite (u32_id (pd_phys _)) by done.
  rewrite Z.shiftr_div_pow2, Z.div_small by (unfold is_u32 in Hv; lia). exact HQ.
Qed.

Lemma process_kstack_wp m p (Q : kernel_stack -> mem -> Prop) : obj_at p -> Q (kstack_of m p) m -> wp (process_kstack p) Q m.
Proof. intros Hp HQ. unfold process_kstack. do 3 (wp_step; obj_step). by wp_step. Qed.

Lemma set_process_kstack_wp m p k (Q : unit -> mem -> Prop) : obj_at p ->
  Q tt (wr (wr (wr m (p + 28) (ks_base k)) (p + 32) (ks_stack_pointer k)) (p + 36) (ks_size k)) ->
  wp (set_process_kstack p k) Q m.
Proof. intros Hp HQ. unfold set_process_kstack. do 2 (wp_step; obj_step). by obj_step. Qed.

(** The words [memset] and the assignments of [process_create] leave. *)
Definition new_proc (m : mem) (p name pid : Z) : Prop :=
  rd m p = name /\ rd m (p + 4) = pid /\ rd m (p + 8) = PROCESS_CREATED /\
  forall k, 12 <= k < 52 -> k mod 4 = 0 -> rd m (p + k) = 0.

Ltac procs_simpl :=
  unfold set_pr_vmm, set_pid_bm, set_process_table, set_pr_tss; cbn [pr_vmm pid_bm process_table pr_tss].

Section Spec.
Variable kheap_free_list : Z.

Abbreviation mm_inv := (mm_inv kheap_free_list).
Abbreviation mm_ok := (mm_ok kheap_free_list).
Abbreviation heap_area := (heap_area kheap_free_list).
Abbreviation live_addr := (live_addr kheap_free_list).
Abbreviation kept_word := (kept_word kheap_free_list).
Abbreviation words_kept := (words_kept kheap_free_list).

(** The words that are neither of the heap nor of a page table are kept while the set
    of spaces goes from [R] to [R']. *)
Definition words_kept_to (R R' : list Z) (s s' : mm) : Prop :=
  forall a, kept_word R s a -> rd (mm_mem s') a = rd (mm_mem s) a /\ kept_word R' s' a.

Lemma words_kept_to_trans R1 R2 R3 s1 s2 s3 :
  words_kept_to R1 R2 s1 s2 -> words_kept_to R2 R3 s2 s3 -> words_kept_to R1 R3 s1 s3.
Proof. intros K1 K2 a Ha. destruct (K1 a Ha) as [E1 Ha2]. destruct (K2 a Ha2) as [E2 Ha3]. split; [congruence | done]. Qed.

Lemma kept_used R s a : kept_word R s a <-> used_word R s a /\ ~ heap_area s a.
Proof. unfold kept_word, used_word. naive_solver. Qed.

(** Steps that keep used words and the bounds of the heap keep these words. *)
Lemma used_kept_to R R' s s' :
  vmm_heap_start s' = vmm_heap_start s -> vmm_heap_end s' = vmm_heap_end s ->
  (forall a, used_word R s a -> ~ heap_area s a -> rd (mm_mem s') a = rd (mm_mem s) a) ->
  (forall a, used_word R s a -> used_word R' s' a) -> words_kept_to R R' s s'.
Proof.
  intros E1 E2 Hrd Hu a [Ha Hn]%kept_used. split; [by apply Hrd|]. apply kept_used. split; [by apply Hu|].
  unfold heap_area in *. by rewrite E1, E2.
Qed.

Lemma keep_kept_to R K s s' : mm_keep s s' R K -> (forall a, ~ heap_area s a -> K a) -> words_kept_to R R s s'.
Proof.
  intros [(_ & _ & E1 & E2) B C D E] HK. apply used_kept_to; [done | done | auto|]. intros a. by apply used_word_same.
Qed.
Abbreviation vm_mem c := (zoom vmm_heap set_vmm_heap (zoom kh_mem set_kh_mem c)).

Lemma proc_obj s R L p : mm_inv s R L -> (p, sizeof_process) ∈ L ->
  obj_at p /\ vmm_heap_start s <= p /\ p + 52 <= vmm_heap_end s.
Proof.
  intros Hmi Hin. destruct (obj_bounds _ _ _ _ _ _ Hmi Hin) as (? & ? & ? & ? & ?). unfold sizeof_process in *.
  unfold obj_at. lia.
Qed.

Lemma zero_proc_wp s R L p :
  mm_inv s R L -> (p, sizeof_process) ∈ L ->
  wp (vm_mem (memset p 0 sizeof_process)) (fun _ s' =>
    mm_inv s' R L /\ mm_keep s s' R (fun a => ~ (p <= a < p + sizeof_process)) /\
    forall k, 0 <= k < 52 -> k mod 4 = 0 -> rd (mm_mem s') (p + k) = 0) s.
Proof.
  intros Hmi Hin. destruct (proc_obj _ _ _ _ Hmi Hin) as (Hp & _). destruct (Hp) as (Hal & Hlo & Hhi).
  apply (obj_write_wp kheap_free_list s R L p sizeof_process (memset p 0 sizeof_process)
    (fun _ m' => forall k, 0 <= k < 52 -> k mod 4 = 0 -> rd m' (p + k) = 0)); [done | done |].
  wp_use memset_words_wp; [exact (v_mem _ _ (mi_vm _ _ _ _ Hmi)) | done | done
    | unfold range_valid, sizeof_process, KERNEL_VIRT_OFFSET in *; lia|].
  intros _ m' (H1 & H2 & H3). split; [done|]. split; [intros a Ha; apply H3; lia|].
  intros k Hk Hka. apply H2; unfold sizeof_process; dlia.
Qed.

Lemma fields_proc_wp s R L p name pid :
  mm_inv s R L -> (p, sizeof_process) ∈ L -> is_u32 name -> is_u32 pid ->
  (forall k, 0 <= k < 52 -> k mod 4 = 0 -> rd (mm_mem s) (p + k) = 0) ->
  wp (vm_mem (set_process_pid p pid ;;; set_process_state p PROCESS_CREATED ;;; set_process_name p name)) (fun _ s' =>
    mm_inv s' R L /\ mm_keep s s' R (fun a => ~ (p <= a < p + sizeof_process)) /\ new_proc (mm_mem s') p name pid) s.
Proof.
  intros Hmi Hin Hn Hpid Hz. destruct (proc_obj _ _ _ _ Hmi Hin) as (Hp & _). destruct (Hp) as (Hal & Hlo & Hhi).
  pose proof (v_mem _ _ (mi_vm _ _ _ _ Hmi)) as Hm.
  apply (obj_write_wp (B := unit) kheap_free_list s R L p sizeof_process _ (fun _ m' => new_proc m' p name pid)); [done | done |].
  unfold set_process_pid, set_process_state, set_process_name. rewrite (u32_id pid) by done.
  wp_step. obj_step. wp_step. obj_step. apply store32_wp; [destruct (obj_word p 0 Hp) as [_ Hv]; [lia | done | by rewrite Z.add_0_r in Hv]|].
  split; [|split].
  - by repeat apply mem_ok_wr.
  - intros a Ha. unfold sizeof_process in Ha. rewrite !rd_wr_ne by lia. done.
  - unfold new_proc. rewrite !rd_wr_eq. split; [done|]. rewrite rd_wr_ne, rd_wr_ne, rd_wr_eq by lia. split; [done|].
    rewrite rd_wr_ne, rd_wr_eq by lia. split; [done|]. intros k Hk Hka. rewrite !rd_wr_ne by lia. apply Hz; [lia | done].
Qed.

(** *** The address space *)

(** The pages of a fresh space: the kernel's half is shared, the user's half empty. *)
Definition fresh_space (s s' : mm) (t : Z) : Prop :=
  fa_used (mm_frames s) (t / 4096) = false /\
  (forall j, 0 <= j -> fa_used (mm_frames s') j = (j =? t / 4096) || fa_used (mm_frames s) j) /\
  (forall q, 0 <= q < 1048576 ->
     walk (mm_mem s') t q = if 786432 <=? q then walk (mm_mem s) (pd_phys (kernel_vm (vmm_kvm s))) q else None) /\
  (forall i, 0 <= i < 1024 ->
     tbl (mm_mem s') t i = if 768 <=? i then tbl (mm_mem s) (pd_phys (kernel_vm (vmm_kvm s))) i else None).

Definition vm_stage_post (s : mm) (R : list Z) (L : list (Z * Z)) (p e : Z) (s' : mm) : Prop :=
  same_kernel s s' /\
  (forall r q, r ∈ R -> 0 <= q < 1048576 -> walk (mm_mem s') r q = walk (mm_mem s) r q) /\
  (forall r i, r ∈ R -> 0 <= i < 1024 -> tbl (mm_mem s') r i = tbl (mm_mem s) r i) /\
  (forall a, used_word R s a -> ~ (p + 12 <= a < p + 28) -> rd (mm_mem s') a = rd (mm_mem s) a) /\
  ((- KERR_MAX_ERRNO <= e < 0 /\ mm_inv s' R L /\ mm_frames s' = mm_frames s) \/
   (e = KERR_OK /\ exists t, (t ∉ R) /\ mm_inv s' (t :: R) L /\ fresh_space s s' t /\
      rd (mm_mem s') (p + 12) = p + 12 /\ rd (mm_mem s') (p + 16) = p + 12 /\
      rd (mm_mem s') (p + 20) = t /\ rd (mm_mem s') (p + 24) = 0)).

(** Storing the directory's address. *)
Lemma store_pd_wp s R L p v :
  mm_inv s R L -> (p, sizeof_process) ∈ L -> is_u32 (pd_phys (vm_arch v)) ->
  wp (vm_mem (set_process_vm p v)) (fun _ s' => mm_inv s' R L /\
    mm_keep s s' R (fun a => a <> p + 20 /\ a <> p + 24) /\
    rd (mm_mem s') (p + 20) = pd_phys (vm_arch v) /\ rd (mm_mem s') (p + 24) = 0) s.
Proof.
  intros Hmi Hin Hu. destruct (proc_obj _ _ _ _ Hmi Hin) as (Hp & Hb1 & Hb2).
  wp_use (obj_write_wp kheap_free_list s R L p sizeof_process (set_process_vm p v)
    (fun _ m' => m' = wr (wr (mm_mem s) (p + 20) (pd_phys (vm_arch v))) (p + 24) 0)); [done | done | |].
  - apply set_process_vm_wp; [done | done|]. split; [|split; [|done]].
    + apply mem_ok_wr; [|by unfold is_u32]. apply mem_ok_wr; [apply (v_mem _ _ (mi_vm _ _ _ _ Hmi)) | done].
    + intros a Ha. unfold sizeof_process in Ha. by rewrite !rd_wr_ne by lia.
  - intros [] s' (Hmi' & [K1 K2 K3 K4 _] & Em). split; [done|]. split; [|rewrite Em, rd_wr_eq, rd_wr_ne, rd_wr_eq by lia; done].
    split; [done..|]. intros a [H1 H2]. rewrite Em. by rewrite !rd_wr_ne by lia.
Qed.

Lemma vm_stage_wp s R L p name pid :
  mm_inv s R L -> (p, sizeof_process) ∈ L -> pd_phys (kernel_vm (vmm_kvm s)) ∈ R -> new_proc (mm_mem s) p name pid ->
  wp (with_vm p vm_space_init) (vm_stage_post s R L p) s.
Proof.
  intros Hmi Hin Hk (_ & _ & _ & Hz). destruct (proc_obj _ _ _ _ Hmi Hin) as (Hp & Hb1 & Hb2). unfold with_vm.
  do 3 wp_step. apply process_vm_wp; [done|]. change (kh_mem (vmm_heap s)) with (mm_mem s).
  change (set_vmm_heap (set_kh_mem (mm_mem s) (vmm_heap s)) s) with (set_vmm_heap (vmm_heap s) s). rewrite set_vmm_heap_id.
  assert (vm_of (mm_mem s) p = mk_vm_space (p + 12) (mk_space 0)) as ->.
  { unfold vm_of. rewrite !Hz by (lia || done). done. }
  set (v := mk_vm_space (p + 12) (mk_space 0)).
  assert (head_in s L (vmas v)) as Hh.
  { split; [cbn; destruct Hp; dlia|]. exists p, sizeof_process. split; [done|]. cbn. unfold sizeof_process. lia. }
  wp_step. wp_use vm_space_init_wp; [exact Hmi | exact Hh | exact Hk|].
  intros [e o] s1 (Hk1 & Hfr1 & Hw1 & Ht1 & [(e' & E & He & Hmi1 & Hf1)|(t & E & HtR & Hok1 & Hfree & Hu & Hwt & Htt)]);
    injection E as -> ->; cbn [default]; unfold id; wp_step.
  - wp_use store_pd_wp; [exact Hmi1 | exact Hin | by unfold is_u32|].
    intros [] s2 (Hmi2 & [K1 K2 K3 K4 K5] & _ & _). wp_step. unfold vm_stage_post.
    split; [destruct Hk1 as (?&?&?&?), K1 as (?&?&?&?); repeat split; congruence|].
    split; [intros r q Hr Hq; by rewrite K4, Hw1|]. split; [intros r i Hr Hi; by rewrite K3, Ht1|].
    split; [intros a Ha Hn; rewrite K5 by lia; apply Hfr1; [done | cbn; lia..]|].
    left. split; [done|]. split; [done | congruence].
  - pose proof (mm_ok_inv _ _ _ _ _ _ _ Hok1) as Hmi1. cbn [map app] in Hmi1.
    destruct (t_root _ _ _ (v_tables _ _ (mi_vm _ _ _ _ Hmi1)) t (list_elem_of_here _ _)) as (_ & Hlow & _).
    wp_use store_pd_wp; [exact Hmi1 | exact Hin | cbn; unfold is_u32, KERNEL_LOWMEM_LIMIT in *; lia|].
    intros [] s2 (Hmi2 & [K1 K2 K3 K4 K5] & W1 & W2). wp_step. unfold vm_stage_post.
    split; [destruct Hk1 as (?&?&?&?), K1 as (?&?&?&?); repeat split; congruence|].
    split; [intros r q Hr Hq; rewrite K4 by (done || by apply list_elem_of_further); by rewrite Hw1|].
    split; [intros r i Hr Hi; rewrite K3 by (done || by apply list_elem_of_further); by rewrite Ht1|].
    split; [intros a Ha Hn; rewrite K5 by lia; apply Hfr1; [done | cbn; lia..]|].
    right. split; [done|]. exists t. split; [done|]. split; [done|]. split; [|split; [|split]].
    + split; [done|]. split; [intros j Hj; rewrite K2; by apply Hu|].
      split; [intros q Hq; rewrite K4 by (done || apply list_elem_of_here); by apply Hwt
        | intros i Hi; rewrite K3 by (done || apply list_elem_of_here); by apply Htt].
    + rewrite K5 by lia. destruct (dll_ends _ _ _ (so_list _ _ _ _ _ _ (mm_space _ _ _ _ _ _ _ Hok1))) as [E _]. exact E.
    + rewrite K5 by lia. destruct (dll_ends _ _ _ (so_list _ _ _ _ _ _ (mm_space _ _ _ _ _ _ _ Hok1))) as [_ E].
      replace (p + 16) with (vmas v + 4) by (cbn; lia). exact E.
    + done.
Qed.

(** *** The kernel stack *)

(** A step of the kernel's address space keeps the heap. *)
Lemma mm_inv_kvm s R L k' :
  mm_inv s R L -> kvm_step R (vmm_kvm s) k' ->
  (forall j, 0 <= j -> fa_used (mm_frames s) j = true -> fa_used (vs_frames (kv_vm k')) j = true) ->
  mm_inv (set_vmm_kvm k' s) R L /\ (forall a, used_word R s a -> rd (vs_mem (kv_vm k')) a = rd (mm_mem s) a).
Proof.
  intros Hmi Hst Hu. assert (Hsame : forall a, used_word R s a -> rd (vs_mem (kv_vm k')) a = rd (mm_mem s) a).
  { intros a (_ & _ & Ha). by apply (ks_mem _ _ _ Hst). }
  split; [|done]. split.
  - apply (kv_ok _ _ (ks_ok _ _ _ Hst)).
  - apply (heap_area_frame kheap_free_list s L _ (mi_heap _ _ _ _ Hmi)). intros a Ha. by eapply Hsame, heap_area_used.
  - intros a Ha. change (heap_area s a) in Ha. destruct (mi_sep _ _ _ _ Hmi a Ha) as [Hn Hused]. split.
    + intros Ht. by apply Hn, (table_word_tbl _ _ _ _ (ks_tbl _ _ _ Hst)).
    + pose proof (heap_area_low _ _ _ _ _ Hmi Ha). apply Hu; [dlia | done].
Qed.

(** Storing the stack's description. *)
Lemma store_kstack_wp s R L p k :
  mm_inv s R L -> (p, sizeof_process) ∈ L -> is_u32 (ks_base k) -> is_u32 (ks_stack_pointer k) -> is_u32 (ks_size k) ->
  wp (vm_mem (set_process_kstack p k)) (fun _ s' => mm_inv s' R L /\
    mm_keep s s' R (fun a => ~ (p + 28 <= a < p + 40)) /\ kstack_of (mm_mem s') p = k) s.
Proof.
  intros Hmi Hin H1 H2 H3. destruct (proc_obj _ _ _ _ Hmi Hin) as (Hp & Hb1 & Hb2).
  wp_use (obj_write_wp kheap_free_list s R L p sizeof_process (set_process_kstack p k)
    (fun _ m' => m' = wr (wr (wr (mm_mem s) (p + 28) (ks_base k)) (p + 32) (ks_stack_pointer k)) (p + 36) (ks_size k)));
    [done | done | |].
  - apply set_process_kstack_wp; [done|]. split; [|split; [|done]].
    + repeat apply mem_ok_wr; try done. apply (v_mem _ _ (mi_vm _ _ _ _ Hmi)).
    + intros a Ha. unfold sizeof_process in Ha. by rewrite !rd_wr_ne by lia.
  - intros [] s' (Hmi' & [K1 K2 K3 K4 _] & Em). split; [done|]. split.
    + split; [done..|]. intros a Ha. rewrite Em. by rewrite !rd_wr_ne by lia.
    + unfold kstack_of. rewrite Em. rewrite rd_wr_eq, !(rd_wr_ne _ (p + 36)), rd_wr_eq, (rd_wr_ne _ (p + 32)), rd_wr_eq by lia.
      by destruct k.
Qed.

Definition kstack_stage_post (s : mm) (R : list Z) (L : list (Z * Z)) (p e : Z) (s' : mm) : Prop :=
  mm_inv s' R L /\ kvm_ok (vmm_kvm s') R /\ prepared (vmm_kvm s') /\
  kernel_vm (vmm_kvm s') = kernel_vm (vmm_kvm s) /\
  vmm_heap_start s' = vmm_heap_start s /\ vmm_heap_end s' = vmm_heap_end s /\
  (forall r i, r ∈ R -> 0 <= i < 1024 -> tbl (mm_mem s') r i = tbl (mm_mem s) r i) /\
  (forall r q, r ∈ R -> 0 <= q < 983040 -> walk (mm_mem s') r q = walk (mm_mem s) r q) /\
  (forall j, 0 <= j -> fa_used (mm_frames s) j = true -> fa_used (mm_frames s') j = true) /\
  (forall a, used_word R s a -> ~ (p + 28 <= a < p + 40) -> rd (mm_mem s') a = rd (mm_mem s) a) /\
  ((- KERR_MAX_ERRNO <= e < 0 /\ kernel_stack_bm (vmm_kvm s') = kernel_stack_bm (vmm_kvm s)) \/
   (e = KERR_OK /\ exists pos, 0 <= pos < 64 /\ is_first_clear (kernel_stack_bm (vmm_kvm s)) (Some pos) /\
      bits_upd (kernel_stack_bm (vmm_kvm s)) (kernel_stack_bm (vmm_kvm s')) pos (pos + 1) true /\
      kstack_of (mm_mem s') p = stack_at pos 0 /\
      exists fs, length fs = 4%nat /\ NoDup fs /\ (forall f, f ∈ fs -> 0 <= f /\ fa_used (mm_frames s) f = false) /\
        forall i, 0 <= i < 4 -> walk (mm_mem s') (pd_phys (kernel_vm (vmm_kvm s))) (stack_page pos + i) =
          Some (pte_of (fs !!! Z.to_nat i * 4096) stack_flags))).

Lemma kstack_stage_wp s R L p :
  mm_inv s R L -> (p, sizeof_process) ∈ L -> kvm_ok (vmm_kvm s) R -> prepared (vmm_kvm s) ->
  kstack_of (mm_mem s) p = mk_kstack 0 0 0 ->
  wp (with_kstack p kstack_alloc) (kstack_stage_post s R L p) s.
Proof.
  intros Hmi Hin Hok Hprep Hz. destruct (proc_obj _ _ _ _ Hmi Hin) as (Hp & Hb1 & Hb2). unfold with_kstack.
  do 3 wp_step. apply process_kstack_wp; [done|]. change (kh_mem (vmm_heap s)) with (mm_mem s).
  change (set_vmm_heap (set_kh_mem (mm_mem s) (vmm_heap s)) s) with (set_vmm_heap (vmm_heap s) s).
  rewrite set_vmm_heap_id, Hz. wp_step. wp_step.
  wp_use (kstack_alloc_wp R (vmm_kvm s) (mk_kstack 0 0 0)); [done | done | done | done|].
  assert (Hfin : forall e k k',
    kvm_step R (vmm_kvm s) k' ->
    (forall j, 0 <= j -> fa_used (mm_frames s) j = true -> fa_used (vs_frames (kv_vm k')) j = true) ->
    is_u32 (ks_base k) -> is_u32 (ks_stack_pointer k) -> is_u32 (ks_size k) ->
    (forall s', mm_keep (set_vmm_kvm k' s) s' R (fun a => ~ (p + 28 <= a < p + 40)) -> kstack_of (mm_mem s') p = k ->
       (- KERR_MAX_ERRNO <= e < 0 /\ kernel_stack_bm k' = kernel_stack_bm (vmm_kvm s)) \/
       (e = KERR_OK /\ exists pos, 0 <= pos < 64 /\ is_first_clear (kernel_stack_bm (vmm_kvm s)) (Some pos) /\
         bits_upd (kernel_stack_bm (vmm_kvm s)) (kernel_stack_bm k') pos (pos + 1) true /\
         kstack_of (mm_mem s') p = stack_at pos 0 /\
         exists fs, length fs = 4%nat /\ NoDup fs /\ (forall f, f ∈ fs -> 0 <= f /\ fa_used (mm_frames s) f = false) /\
           forall i, 0 <= i < 4 -> walk (mm_mem s') (pd_phys (kernel_vm (vmm_kvm s))) (stack_page pos + i) =
             Some (pte_of (fs !!! Z.to_nat i * 4096) stack_flags))) ->
    wp (vm_mem (set_process_kstack p k) ;;; ret e) (kstack_stage_post s R L p) (set_vmm_kvm k' s)).
  { intros e k k' Hst Hu U1 U2 U3 Hend. destruct (mm_inv_kvm s R L k' Hmi Hst Hu) as [Hmi1 Hsame].
    wp_step. wp_use store_kstack_wp; [exact Hmi1 | exact Hin | done..|]. intros [] s' (Hmi' & Hkeep & Hk). wp_step.
    specialize (Hend s' Hkeep Hk). destruct (Hkeep) as [(A1 & A2 & A3 & A4) B C D E]. cbn in A1, A2, A3, A4, B, C, D, E.
    destruct (ks_ok _ _ _ Hst) as [_ Hr' Hbm'].
    split; [done|]. split; [split; [apply (mi_vm _ _ _ _ Hmi') | by rewrite A1 | by rewrite A2]|].
    split; [unfold prepared; rewrite A1, C by (done || lia); apply (ks_prep _ _ _ Hst)|].
    split; [rewrite A1; apply (ks_vm _ _ _ Hst)|]. split; [done|]. split; [done|].
    split; [intros r i Hr Hi; rewrite C by done; by apply (ks_tbl _ _ _ Hst)|].
    split; [intros r q Hr Hq; rewrite D by (done || lia); by apply (ks_low _ _ _ Hst)|].
    split; [rewrite B; exact Hu|]. split; [intros a Ha Hn; rewrite E by done; by apply Hsame|]. rewrite A2. exact Hend. }
  intros [e o] k' [(_ & E & ->)|[(e' & He & E & Hst & Hbm & [_ Hlk] & Hmax)|(pos & fs & s1 & b' & Hpos & Hlen & Hg & Hb' & -> & E)]];
    injection E as -> ->; cbn [default]; unfold id.
  - apply Hfin; [by apply kvm_step_refl | done | by unfold is_u32.. |]. intros s' _ _. by left.
  - apply Hfin; [done | done | by unfold is_u32.. |]. intros s' _ _. by left.
  - assert (0 <= pos < 64) as Hpp by (destruct Hpos as [Hpos _]; by rewrite (proj2 (kv_bm _ _ Hok)) in Hpos).
    destruct (stack_page_bounds pos Hpp) as [Hsp1 Hsp2].
    assert (kvm_step R (vmm_kvm s) (set_kernel_stack_bm b' s1)) as Hst.
    { destruct (sg_step _ _ _ _ _ Hg) as [S1 S2 S3 S4 S5 S6 S7]. split; try done.
      apply (kvm_ok_bm R s1 b' pos (pos + 1) true); [done|]. by rewrite (sg_bm _ _ _ _ _ Hg). }
    apply Hfin; [exact Hst | | unfold stack_at, KERNEL_STACK_BASE; cbn; unfold is_u32; lia | by unfold is_u32 | by unfold is_u32|].
    + intros j Hj Huj. cbn. rewrite (sg_used _ _ _ _ _ Hg) by done. by rewrite Huj, orb_true_r.
    + intros s' Hkeep Hk. right. split; [done|]. exists pos. split; [done|]. split; [done|]. split; [done|]. split; [exact Hk|].
      exists fs. split; [done|]. split; [apply (sg_nodup _ _ _ _ _ Hg)|].
      split; [intros f Hf; destruct (sg_fresh _ _ _ _ _ Hg f Hf) as [[? _] ?]; done|].
      intros i Hi. rewrite (mk_walk _ _ _ _ Hkeep) by (lia || apply (kv_root _ _ Hok)). cbn.
      pose proof (sg_walk _ _ _ _ _ Hg (stack_page pos + i) ltac:(lia)) as Hw. rewrite (ks_vm _ _ _ (sg_step _ _ _ _ _ Hg)) in Hw.
      rewrite Hw, Hlen. replace ((stack_page pos <=? stack_page pos + i) && (stack_page pos + i <? stack_page pos + Z.of_nat 4)) with true
        by (symmetry; apply andb_true_iff; rewrite Z.leb_le, Z.ltb_lt; lia).
      by replace (stack_page pos + i - stack_page pos) with i by lia.
Qed.

(** *** Giving the address space back *)

Lemma destroy_stage_wp s R L p t :
  mm_inv s (t :: R) L -> (t ∉ R) -> (p, sizeof_process) ∈ L -> vm_of (mm_mem s) p = mk_vm_space (p + 12) (mk_space t) ->
  rd (mm_mem s) (p + 12) = p + 12 -> rd (mm_mem s) (p + 16) = p + 12 -> (forall i, 0 <= i < 768 -> tbl (mm_mem s) t i = None) ->
  wp (with_vm p (vm_space_destroy kheap_free_list)) (fun _ s' =>
    mm_inv s' R L /\ same_kernel s s' /\
    (forall r q, r ∈ R -> 0 <= q < 1048576 -> walk (mm_mem s') r q = walk (mm_mem s) r q) /\
    (forall r i, r ∈ R -> 0 <= i < 1024 -> tbl (mm_mem s') r i = tbl (mm_mem s) r i) /\
    (forall j, 0 <= j -> fa_used (mm_frames s') j = negb (j =? t / 4096) && fa_used (mm_frames s) j) /\
    (forall a, a <> p + 20 -> a <> p + 24 -> rd (mm_mem s') a = rd (mm_mem s) a)) s.
Proof.
  intros Hmi HtR Hin Hvm Hhead Hhead' Htt. destruct (proc_obj _ _ _ _ Hmi Hin) as (Hp & Hb1 & Hb2). unfold with_vm.
  assert (Hid : set_vmm_heap (set_kh_mem (mm_mem s) (vmm_heap s)) s = s) by exact (set_vmm_heap_id s).
  assert (Hv12 : valid (p + 12)) by (apply obj_word; [done | lia | done]).
  do 3 wp_step. apply process_vm_wp; [done|]. change (kh_mem (vmm_heap s)) with (mm_mem s).
  rewrite Hid, Hvm. wp_step. unfold vm_space_destroy. cbn [vmas vm_arch]. do 5 wp_step. unfold get_next.
  apply load32_wp; [done|]. change (kh_mem (vmm_heap s)) with (mm_mem s). rewrite Hid, Hhead. do 3 wp_step.
  apply load32_wp; [done|]. change (kh_mem (vmm_heap s)) with (mm_mem s). rewrite Hid, Hhead. do 2 wp_step.
  unfold kheap_fuel. cbn [free_vmas]. rewrite Z.eqb_refl. wp_step. rewrite set_vmm_heap_id. wp_step.
  assert (mm_ok s (t :: R) (mk_vm_space (p + 12) (mk_space t)) [] [] L) as Hmm.
  { apply empty_space; [done | | apply list_elem_of_here | done | by replace (vmas _ + 4) with (p + 16) by (cbn; lia)].
    split; [cbn; destruct Hp; dlia|]. exists p, sizeof_process. split; [done|]. cbn. unfold sizeof_process. lia. }
  wp_use (arch_destroy_wp kheap_free_list s R (mk_vm_space (p + 12) (mk_space t)) L); [exact Hmm | exact HtR|].
  intros [e o] s1 (E & Hmi1 & Hk1 & Em & Hfree & Hkept). injection E as -> ->. cbn [default pd_phys vm_arch] in *. unfold id. wp_step.
  assert (Hown : forall j, owned (mm_mem s) t j <-> j = t / 4096).
  { intros j. unfold owned. split; [|by left]. intros [->|(i & Hi & Ht)]; [done|]. rewrite Htt in Ht by done. discriminate Ht. }
  assert (Hu : forall j, 0 <= j -> fa_used (mm_frames s1) j = negb (j =? t / 4096) && fa_used (mm_frames s) j).
  { intros j Hj. destruct (Z.eqb_spec j (t / 4096)) as [->|Hne]; [apply Hfree; [done | by apply Hown]|].
    apply Hkept; [done|]. intros Ho%Hown. done. }
  wp_step. wp_use store_pd_wp; [exact Hmi1 | exact Hin | by unfold is_u32|].
  intros [] s2 (Hmi2 & [K1 K2 K3 K4 K5] & _ & _). wp_step. rewrite Em in *.
  split; [done|]. split; [by eapply same_kernel_trans|]. split; [done|]. split; [done|]. split; [rewrite K2; exact Hu | auto].
Qed.

(** ** Creation *)

(** The kernel with the spaces [R] and the live objects [L]. *)
Record procs_ok (s : procs pmm) (R : list Z) (L : list (Z * Z)) : Prop := {
  po_mm : mm_inv (pr_vmm s) R L;
  po_kvm : kvm_ok (vmm_kvm (pr_vmm s)) R;
  po_prep : prepared (vmm_kvm (pr_vmm s));
  po_pids : pids_ok (pid_bm s) /\ bit (pid_bm s) 0 = true;
  po_table : length (process_table s) = 64%nat
}.

Abbreviation pm s := (pr_vmm s).

(** The created process: its words, its space, its stack. *)
Record created (s : procs pmm) (R : list Z) (L : list (Z * Z)) (name proc : Z) (s' : procs pmm) (pid t pos : Z) : Prop := {
  cr_pid : is_first_clear (pid_bm s) (Some pid) /\ 1 <= pid < PID_MAX;
  cr_pids : bits_upd (pid_bm s) (pid_bm s') pid (pid + 1) true;
  cr_table : process_table s' = <[Z.to_nat pid := proc]> (process_table s);
  cr_root : t ∉ R;
  cr_ok : procs_ok s' (t :: R) ((proc, sizeof_process) :: L);
  cr_space : mm_ok (pm s') (t :: R) (mk_vm_space (proc + 12) (mk_space t)) [] [] ((proc, sizeof_process) :: L);
  cr_words : rd (mm_mem (pm s')) proc = name /\ rd (mm_mem (pm s')) (proc + 4) = pid /\
    rd (mm_mem (pm s')) (proc + 8) = PROCESS_CREATED /\ vm_of (mm_mem (pm s')) proc = mk_vm_space (proc + 12) (mk_space t) /\
    kstack_of (mm_mem (pm s')) proc = stack_at pos 0 /\ rd (mm_mem (pm s')) (proc + 40) = 0;
  cr_user : forall q, 0 <= q < 786432 -> walk (mm_mem (pm s')) t q = None;
  cr_kernel : forall q, 786432 <= q < 1048576 ->
    walk (mm_mem (pm s')) t q = walk (mm_mem (pm s')) (pd_phys (kernel_vm (vmm_kvm (pm s')))) q;
  cr_others : forall r q, r ∈ R -> 0 <= q < 983040 -> walk (mm_mem (pm s')) r q = walk (mm_mem (pm s)) r q;
  cr_objs : forall q sz a, (q, sz) ∈ L -> q <= a < q + sz -> rd (mm_mem (pm s')) a = rd (mm_mem (pm s)) a;
  cr_heap : vmm_heap_start (pm s') = vmm_heap_start (pm s) /\ vmm_heap_end (pm s') = vmm_heap_end (pm s);
  cr_kept : words_kept_to R (t :: R) (pm s) (pm s');
  cr_slot : 0 <= pos < 64 /\ is_first_clear (kernel_stack_bm (vmm_kvm (pm s))) (Some pos);
  cr_stack : forall i, 0 <= i < 4 -> exists f, fa_used (mm_frames (pm s)) f = false /\
    walk (mm_mem (pm s')) t (stack_page pos + i) = Some (pte_of (f * 4096) stack_flags)
}.

(** What a failed creation keeps. *)
Record refused (s : procs pmm) (R : list Z) (L : list (Z * Z)) (s' : procs pmm) : Prop := {
  rf_pids : forall j, 0 <= j -> bit (pid_bm s') j = bit (pid_bm s) j;
  rf_table : process_table s' = process_table s;
  rf_ok : procs_ok s' R L;
  rf_used : forall j, 0 <= j -> fa_used (mm_frames (pm s)) j = true -> fa_used (mm_frames (pm s')) j = true;
  rf_walk : forall r q, r ∈ R -> 0 <= q < 983040 -> walk (mm_mem (pm s')) r q = walk (mm_mem (pm s)) r q;
  rf_objs : forall q sz a, (q, sz) ∈ L -> q <= a < q + sz -> rd (mm_mem (pm s')) a = rd (mm_mem (pm s)) a
}.

(** What the memory manager keeps from one state to a later one: spaces [R], objects [L]. *)
Record later (R : list Z) (L : list (Z * Z)) (v v' : mm) : Prop := {
  lt_kernel : kernel_vm (vmm_kvm v') = kernel_vm (vmm_kvm v);
  lt_heap : vmm_heap_start v' = vmm_heap_start v /\ vmm_heap_end v' = vmm_heap_end v;
  lt_tbl : forall r i, r ∈ R -> 0 <= i < 1024 -> tbl (mm_mem v') r i = tbl (mm_mem v) r i;
  lt_walk : forall r q, r ∈ R -> 0 <= q < 983040 -> walk (mm_mem v') r q = walk (mm_mem v) r q;
  lt_objs : forall q sz a, (q, sz) ∈ L -> q <= a < q + sz -> rd (mm_mem v') a = rd (mm_mem v) a
}.

Lemma later_trans R L v1 v2 v3 : later R L v1 v2 -> later R L v2 v3 -> later R L v1 v3.
Proof.
  intros [A [B B'] C D E] [A2 [B2 B2'] C2 D2 E2]. split; [congruence | split; congruence | | |].
  - intros r i Hr Hi. by rewrite C2, C.
  - intros r q Hr Hq. by rewrite D2, D.
  - intros q sz a Hin Ha. by rewrite (E2 q sz), (E q sz).
Qed.

Lemma later_refl R L v : later R L v v.
Proof. by split. Qed.

Lemma later_keep R L K v v' : mm_keep v v' R K -> (forall q sz a, (q, sz) ∈ L -> q <= a < q + sz -> K a) -> later R L v v'.
Proof.
  intros [(A1 & A2 & A3 & A4) B C D E] HK. split; [done | done | done | |].
  - intros r q Hr Hq. apply D; [done | lia].
  - intros q sz a Hin Ha. apply E. by apply (HK q sz).
Qed.

Lemma later_weaken R R' L v v' : (forall r, r ∈ R -> r ∈ R') -> later R' L v v' -> later R L v v'.
Proof. intros Hs [A B C D E]. split; auto. Qed.

Lemma later_kvm R L L' v v' bm : mm_inv v' R L -> later R L' v v' -> kvm_ok (vmm_kvm v) R -> prepared (vmm_kvm v) ->
  kernel_stack_bm (vmm_kvm v') = bm -> bitmap_ok bm /\ bm_nbits bm = KERNEL_STACK_MAX ->
  kvm_ok (vmm_kvm v') R /\ prepared (vmm_kvm v').
Proof.
  intros Hmi [A _ C _ _] [_ Hr _] Hp Ebm Hbm. split.
  - split; [apply (mi_vm _ _ _ _ Hmi) | by rewrite A | by rewrite Ebm].
  - unfold prepared in *. rewrite A, C; [done | done | lia].
Qed.

(** The other objects do not meet the new one. *)
Lemma other_obj v R L p q sz a : mm_inv v R ((p, sizeof_process) :: L) -> (q, sz) ∈ L -> q <= a < q + sz ->
  ~ (p <= a < p + sizeof_process) /\ heap_area v a.
Proof.
  intros Hmi Hin Ha. destruct (heap_ok_disjoint _ _ _ (mi_heap _ _ _ _ Hmi)) as [Hd _]. inversion Hd as [|? ? Hdp _]; subst.
  rewrite Forall_forall in Hdp. specialize (Hdp _ Hin). unfold disjoint, sizeof_process in *. cbn in Hdp.
  destruct (obj_bounds _ _ _ _ _ _ Hmi (list_elem_of_further _ _ _ Hin)) as (_ & ? & ? & _). split; [lia|]. left. lia.
Qed.

(** Leaving [process_create] with an error after the PID was taken. *)
Lemma give_back_pid_wp b b1 pid :
  pids_ok b -> 1 <= pid < PID_MAX -> bit b pid = false -> bits_upd b b1 pid (pid + 1) true ->
  wp (pid_free pid) (fun _ b' => pids_ok b' /\ forall j, 0 <= j -> bit b' j = bit b j) b1.
Proof.
  intros Hp Hpid Hc Hb.
  wp_use pid_free_wp; [by eapply pids_upd | done | rewrite (proj2 Hb) by lia; by replace ((pid <=? pid) && (pid <? pid + 1)) with true by lia|].
  intros r b' [_ Hb']. split; [eapply pids_upd; [by eapply pids_upd | done]|].
  intros j Hj. rewrite (proj2 Hb'), (proj2 Hb) by done. destruct ((pid <=? j) && (j <? pid + 1)) eqn:E; [|done].
  by replace j with pid by lia.
Qed.

Lemma refused_intro s R L v' b' :
  procs_ok s R L -> pids_ok b' -> (forall j, 0 <= j -> bit b' j = bit (pid_bm s) j) ->
  mm_inv v' R L -> later R L (pm s) v' ->
  (forall j, 0 <= j -> fa_used (mm_frames (pm s)) j = true -> fa_used (mm_frames v') j = true) -> kernel_stack_bm (vmm_kvm v') = kernel_stack_bm (vmm_kvm (pm s)) ->
  refused s R L (mk_procs v' b' (process_table s) (pr_tss s)).
Proof.
  intros [Hmm Hkvm Hprep [Hp H0] Ht] Hb' Hsame Hmi Hl Hu Hbm.
  destruct (later_kvm R L L (pm s) v' _ Hmi Hl Hkvm Hprep Hbm (kv_bm _ _ Hkvm)) as [Hkvm' Hprep'].
  split; cbn; [done | done | | done | apply (lt_walk _ _ _ _ Hl) | apply (lt_objs _ _ _ _ Hl)].
  split; cbn; [done | done | done | | done]. split; [done | by rewrite Hsame].
Qed.

(** Releasing the object on an error path. *)
Lemma free_proc_wp v R L p :
  mm_inv v R ((p, sizeof_process) :: L) ->
  wp (zoom vmm_heap set_vmm_heap (kfree kheap_free_list p)) (fun _ v' => mm_inv v' R L /\ later R L v v' /\
    mm_frames v' = mm_frames v /\ kernel_stack_bm (vmm_kvm v') = kernel_stack_bm (vmm_kvm v)) v.
Proof.
  intros Hmi. wp_use kfree_mm_wp; [exact Hmi|]. intros _ v' [[Hend _]|[Hmi' Hk]].
  - destruct (obj_bounds _ _ _ _ _ _ Hmi (list_elem_of_here _ _)) as (_ & _ & ? & _). unfold sizeof_process in *. lia.
  - split; [done|]. split; [|split; [apply (mk_frames _ _ _ _ Hk) | apply (mk_kernel _ _ _ _ Hk)]].
    apply (later_keep _ _ _ _ _ Hk). intros q sz a Hin Ha. right. by exists q, sz.
Qed.

Lemma KERR_PTR_err e : - KERR_MAX_ERRNO <= e < 0 -> KERR_PTR_IS_ERR (KERR_PTR e) = true.
Proof. intros He. apply KERR_PTR_IS_ERR_code. exact He. Qed.

(** A space that shares the kernel's tables translates the kernel's half alike. *)
Lemma shared_walk m t k q : tbl m t (q / 1024) = tbl m k (q / 1024) -> walk m t q = walk m k q.
Proof. intros E. unfold walk. by rewrite E. Qed.

(** The process between the initialisation of its space and the allocation of its stack. *)
Record fresh (s : procs pmm) (R : list Z) (L : list (Z * Z)) (name pid p t : Z) (v : mm) : Prop := {
  fr_inv : mm_inv v (t :: R) ((p, sizeof_process) :: L);
  fr_root : t ∉ R;
  fr_later : later R L (pm s) v;
  fr_bm : kernel_stack_bm (vmm_kvm v) = kernel_stack_bm (vmm_kvm (pm s));
  fr_free : fa_used (mm_frames (pm s)) (t / 4096) = false;
  fr_used : forall j, 0 <= j -> fa_used (mm_frames v) j = (j =? t / 4096) || fa_used (mm_frames (pm s)) j;
  fr_tbl : forall i, 0 <= i < 1024 -> tbl (mm_mem v) t i =
    if 768 <=? i then tbl (mm_mem v) (pd_phys (kernel_vm (vmm_kvm v))) i else None;
  fr_words : rd (mm_mem v) p = name /\ rd (mm_mem v) (p + 4) = pid /\ rd (mm_mem v) (p + 8) = PROCESS_CREATED;
  fr_head : rd (mm_mem v) (p + 12) = p + 12 /\ rd (mm_mem v) (p + 16) = p + 12;
  fr_vm : vm_of (mm_mem v) p = mk_vm_space (p + 12) (mk_space t);
  fr_kstack : kstack_of (mm_mem v) p = mk_kstack 0 0 0;
  fr_entry : rd (mm_mem v) (p + 40) = 0;
  fr_kept : words_kept_to R (t :: R) (pm s) v
}.

(** The words of the object are in the heap. *)
Lemma own_area v R L p k : mm_inv v R ((p, sizeof_process) :: L) -> 0 <= k < 52 -> heap_area v (p + k).
Proof.
  intros Hmi Hk. destruct (obj_bounds _ _ _ _ _ _ Hmi (list_elem_of_here _ _)) as (_ & ? & ? & _).
  unfold sizeof_process in *. left. lia.
Qed.

(** The object, before it gets its space. *)
Record object (s : procs pmm) (R : list Z) (L : list (Z * Z)) (name pid p : Z) (v : mm) : Prop := {
  ob_inv : mm_inv v R ((p, sizeof_process) :: L);
  ob_later : later R L (pm s) v;
  ob_frames : mm_frames v = mm_frames (pm s);
  ob_bm : kernel_stack_bm (vmm_kvm v) = kernel_stack_bm (vmm_kvm (pm s));
  ob_kept : words_kept_to R R (pm s) v;
  ob_new : new_proc (mm_mem v) p name pid
}.

Lemma object_space s R L name pid p v e v' :
  pd_phys (kernel_vm (vmm_kvm (pm s))) ∈ R -> object s R L name pid p v ->
  vm_stage_post v R ((p, sizeof_process) :: L) p e v' ->
  (- KERR_MAX_ERRNO <= e < 0 /\ mm_inv v' R ((p, sizeof_process) :: L) /\ later R L (pm s) v' /\
     mm_frames v' = mm_frames (pm s) /\ kernel_stack_bm (vmm_kvm v') = kernel_stack_bm (vmm_kvm (pm s))) \/
  (e = KERR_OK /\ exists t, fresh s R L name pid p t v').
Proof.
  intros Hkr [Hmi Hl Hf Hbm Hkp (N1 & N2 & N3 & N4)] ((K1 & K2 & K3 & K4) & Hw & Ht & Hm & Hpost).
  assert (later R L (pm s) v') as Hl'.
  { eapply later_trans; [exact Hl|]. split; [done | done | done | intros r q Hr Hq; apply Hw; [done | lia] |].
    intros q sz a Hin Ha. destruct (other_obj _ _ _ _ _ _ _ Hmi Hin Ha) as [Hn Har]. apply Hm; [by eapply heap_area_used|].
    unfold sizeof_process in Hn. lia. }
  destruct Hpost as [(He & Hmi' & Hf')|(-> & t & HtR & Hmi' & (Hfree & Hu & _ & Htt) & W1 & W2 & W3 & W4)].
  - left. split; [done|]. split; [done|]. split; [done|]. split; congruence.
  - right. split; [done|]. exists t.
    assert (Hw0 : forall k, 0 <= k < 52 -> ~ (12 <= k < 28) -> rd (mm_mem v') (p + k) = rd (mm_mem v) (p + k)).
    { intros k Hk Hn. apply Hm; [eapply heap_area_used; [exact Hmi | by eapply own_area] | lia]. }
    split; try done.
    + congruence.
    + by rewrite <- Hf.
    + intros j Hj. by rewrite Hu, Hf.
    + intros i Hi. rewrite Htt by done. rewrite K1, Ht; [done | | done]. by rewrite (lt_kernel _ _ _ _ Hl).
    + pose proof (Hw0 0) as H0. rewrite Z.add_0_r in H0. rewrite H0, !Hw0 by lia. done.
    + unfold vm_of. rewrite W3, W4. do 2 f_equal. lia.
    + unfold kstack_of. rewrite !Hw0, !N4 by (lia || done). done.
    + rewrite Hw0, N4 by (lia || done). done.
    + eapply words_kept_to_trans; [exact Hkp|]. apply used_kept_to; [done | done | |].
      * intros a Ha Hn. apply Hm; [done|]. intros Hin. apply Hn. replace a with (p + (a - p)) by lia. eapply own_area; [exact Hmi | lia].
      * destruct (t_root _ _ _ (v_tables _ _ (mi_vm _ _ _ _ Hmi')) t (list_elem_of_here _ _)) as (Hal & _).
        intros a Ha. apply (used_word_space v v' R (pd_phys (kernel_vm (vmm_kvm v)))); try done.
        by rewrite (lt_kernel _ _ _ _ Hl).
Qed.

(** The stack stage writes the stack's words of the object only. *)
Lemma stack_stage_later s R L name pid p t v e v' :
  fresh s R L name pid p t v -> kstack_stage_post v (t :: R) ((p, sizeof_process) :: L) p e v' ->
  later R L (pm s) v' /\
  (forall k, 0 <= k < 52 -> ~ (28 <= k < 40) -> rd (mm_mem v') (p + k) = rd (mm_mem v) (p + k)) /\
  vm_of (mm_mem v') p = mk_vm_space (p + 12) (mk_space t) /\
  (forall i, 0 <= i < 1024 -> tbl (mm_mem v') t i = tbl (mm_mem v) t i) /\ words_kept_to R (t :: R) (pm s) v'.
Proof.
  intros Hf (Hmi' & _ & _ & Hkv & Hs1 & Hs2 & Ht & Hw & Hu & Hm & _). pose proof (fr_inv _ _ _ _ _ _ _ _ Hf) as Hmi.
  assert (Hw0 : forall k, 0 <= k < 52 -> ~ (28 <= k < 40) -> rd (mm_mem v') (p + k) = rd (mm_mem v) (p + k)).
  { intros k Hk Hn. apply Hm; [eapply heap_area_used; [exact Hmi | by eapply own_area] | lia]. }
  split; [|split; [exact Hw0 | split; [|split]]].
  - eapply later_trans; [apply (fr_later _ _ _ _ _ _ _ _ Hf)|]. split; [done | done | | |].
    + intros r i Hr Hi. apply Ht; [by apply list_elem_of_further | done].
    + intros r q Hr Hq. apply Hw; [by apply list_elem_of_further | done].
    + intros q sz a Hin Ha. destruct (other_obj _ _ _ _ _ _ _ Hmi Hin Ha) as [Hn Har]. apply Hm; [by eapply heap_area_used|].
      unfold sizeof_process in Hn. lia.
  - pose proof (fr_vm _ _ _ _ _ _ _ _ Hf) as Hvm. unfold vm_of in *. by rewrite !Hw0 by lia.
  - intros i Hi. apply Ht; [apply list_elem_of_here | done].
  - eapply words_kept_to_trans; [apply (fr_kept _ _ _ _ _ _ _ _ Hf)|]. apply used_kept_to; [done | done | |].
    + intros a Ha Hn. apply Hm; [done|]. intros Hin. apply Hn. replace a with (p + (a - p)) by lia. eapply own_area; [exact Hmi | lia].
    + intros a (H1 & H2 & H3). split; [done|]. split; [apply Hu; [clear -H1; dlia | done]|].
      intros Htw. by apply H3, (table_word_tbl _ _ _ _ Ht).
Qed.

Lemma created_intro s R L name pid p t v v' b' :
  procs_ok s R L -> fresh s R L name pid p t v -> is_first_clear (pid_bm s) (Some pid) -> 1 <= pid < PID_MAX ->
  bits_upd (pid_bm s) b' pid (pid + 1) true ->
  kstack_stage_post v (t :: R) ((p, sizeof_process) :: L) p KERR_OK v' ->
  exists pos, created s R L name p
    (mk_procs v' b' (<[Z.to_nat pid := p]> (process_table s)) (pr_tss s)) pid t pos.
Proof.
  intros Hok Hf Hclear Hpid Hb' Hst. destruct (stack_stage_later _ _ _ _ _ _ _ _ _ _ Hf Hst) as (Hl & Hw0 & Hvm & Htt & Hkp).
  destruct Hst as (Hmi' & Hkvm & Hprep & Hkv & _ & _ & Ht & Hw & Hu & _ & [[[_ He] _]|(_ & pos & Hpos & Hpc & Hbm & Hks & fs & Hlen & _ & Hfs & Hwk)]);
    [discriminate He|].
  destruct Hok as [Hmm Hkvm0 Hprep0 [Hp0 H0] Htab]. destruct (Hf) as [Hmi HtR Hlv Hbmv Hfree Huv Htv (N1 & N2 & N3) [D1 D2] _ _ N4 _].
  destruct (stack_page_bounds pos Hpos) as [Hsp1 Hsp2].
  assert (Hsh : forall i, 768 <= i < 1024 -> tbl (mm_mem v') t i = tbl (mm_mem v') (pd_phys (kernel_vm (vmm_kvm v'))) i).
  { intros i Hi. rewrite Htt, Htv by lia. replace (768 <=? i) with true by lia. rewrite Hkv, Ht; [done | | lia].
    apply list_elem_of_further. rewrite (lt_kernel _ _ _ _ Hlv). apply (kv_root _ _ Hkvm0). }
  assert (Hpids : pids_ok b' /\ bit b' 0 = true).
  { split; [by eapply pids_upd|]. rewrite (proj2 Hb') by lia. by replace ((pid <=? 0) && (0 <? pid + 1)) with false by lia. }
  assert (procs_ok (mk_procs v' b' (<[Z.to_nat pid := p]> (process_table s)) (pr_tss s)) (t :: R) ((p, sizeof_process) :: L)) as Hok'.
  { split; cbn; [done | done | done | done | by rewrite length_insert]. }
  exists pos. split; cbn [pr_vmm pid_bm process_table]; try done.
  - destruct (proc_obj _ _ _ _ Hmi' (list_elem_of_here _ _)) as (Hobj & Hb1 & Hb2).
    apply empty_space; [done | | apply list_elem_of_here | cbn [vmas]; by rewrite Hw0 by lia
      | cbn [vmas]; replace (p + 12 + 4) with (p + 16) by lia; by rewrite Hw0 by lia].
    cbn [vmas]. split; [destruct Hobj; dlia|]. exists p, sizeof_process. split; [apply list_elem_of_here|]. unfold sizeof_process. lia.
  - pose proof (Hw0 0) as Hw00. rewrite Z.add_0_r in Hw00. rewrite Hw00, !Hw0 by lia. by rewrite Hks, Hvm.
  - intros q Hq. unfold walk. rewrite Htt, Htv by dlia. by replace (768 <=? q / 1024) with false by dlia.
  - intros q Hq. apply shared_walk, Hsh. dlia.
  - apply (lt_walk _ _ _ _ Hl).
  - apply (lt_objs _ _ _ _ Hl).
  - apply (lt_heap _ _ _ _ Hl).
  - by rewrite <- Hbmv.
  - intros i Hi. exists (fs !!! Z.to_nat i). split.
    + destruct (Hfs (fs !!! Z.to_nat i)) as [Hf0 Hfi].
      { apply list_elem_of_lookup. exists (Z.to_nat i). apply list_lookup_lookup_total_lt. lia. }
      rewrite Huv in Hfi by done. by apply orb_false_iff in Hfi as [_ ?].
    + rewrite (shared_walk _ _ (pd_phys (kernel_vm (vmm_kvm v')))) by (apply Hsh; dlia). rewrite Hkv. by apply Hwk.
Qed.

(** Leaving [process_create] when there is no space. *)
Lemma no_space_wp s R L pid p v b1 e :
  procs_ok s R L -> 1 <= pid < PID_MAX -> bit (pid_bm s) pid = false ->
  bits_upd (pid_bm s) b1 pid (pid + 1) true -> - KERR_MAX_ERRNO <= e < 0 ->
  mm_inv v R ((p, sizeof_process) :: L) -> later R L (pm s) v ->
  (forall j, 0 <= j -> fa_used (mm_frames (pm s)) j = true -> fa_used (mm_frames v) j = true) ->
  kernel_stack_bm (vmm_kvm v) = kernel_stack_bm (vmm_kvm (pm s)) ->
  wp (zoom pid_bm set_pid_bm (pid_free pid) ;;;
      zoom pr_vmm set_pr_vmm (zoom vmm_heap set_vmm_heap (kfree kheap_free_list p)) ;;;
      ret (KERR_PTR e)) (fun r s' => KERR_PTR_IS_ERR r = true /\ refused s R L s')
    (mk_procs v b1 (process_table s) (pr_tss s)).
Proof.
  intros Hok Hpid Hbit Hb1 He Hmi Hl Hf Hbm. do 2 wp_step. cbn [pid_bm].
  wp_use give_back_pid_wp; [apply (po_pids _ _ _ Hok) | exact Hpid | exact Hbit | exact Hb1|].
  intros _ b2 [Hb2 Hsame]. procs_simpl. do 2 wp_step. cbn [pr_vmm].
  wp_use free_proc_wp; [exact Hmi|]. intros _ v3 (Hmi3 & Hl3 & Hf3 & Hbm3). wp_step. procs_simpl.
  split; [by apply KERR_PTR_err|]. apply refused_intro; try done.
  - by eapply later_trans.
  - intros j Hj Huj. rewrite Hf3. by apply Hf.
  - congruence.
Qed.
(** Leaving [process_create] when there is no stack. *)
Lemma no_stack_wp s R L name pid p t v b1 e v' :
  procs_ok s R L -> fresh s R L name pid p t v -> 1 <= pid < PID_MAX -> bit (pid_bm s) pid = false ->
  bits_upd (pid_bm s) b1 pid (pid + 1) true -> - KERR_MAX_ERRNO <= e < 0 ->
  kstack_stage_post v (t :: R) ((p, sizeof_process) :: L) p e v' ->
  wp (zoom pr_vmm set_pr_vmm (with_vm p (vm_space_destroy kheap_free_list)) ;;;
      zoom pid_bm set_pid_bm (pid_free pid) ;;;
      zoom pr_vmm set_pr_vmm (zoom vmm_heap set_vmm_heap (kfree kheap_free_list p)) ;;;
      ret (KERR_PTR e)) (fun r s' => KERR_PTR_IS_ERR r = true /\ refused s R L s')
    (mk_procs v' b1 (process_table s) (pr_tss s)).
Proof.
  intros Hok Hf Hpid Hbit Hb1 He Hst. destruct (stack_stage_later _ _ _ _ _ _ _ _ _ _ Hf Hst) as (Hl & Hw0 & Hvm & Htt & Hkp).
  destruct Hst as (Hmi' & _ & _ & Hkv & _ & _ & _ & _ & Hu & _ & [[_ Hbm]|[-> _]]); [|destruct He as [_ He]; discriminate He].
  destruct (Hf) as [_ HtR Hlv Hbmv Hfree Huv Htv _ [D1 D2] _ _ _ _].
  do 2 wp_step. cbn [pr_vmm].
  wp_use destroy_stage_wp; [exact Hmi' | exact HtR | apply list_elem_of_here | exact Hvm | by rewrite Hw0 by lia | by rewrite Hw0 by lia
    | intros i Hi; rewrite Htt, Htv by lia; by replace (768 <=? i) with false by lia|].
  intros _ v2 (Hmi2 & (K1 & K2 & K3 & K4) & Hw2 & Ht2 & Hu2 & Hm2).
  assert (later R L (pm s) v2) as Hl2.
  { eapply later_trans; [exact Hl|]. split; [done | done | done | intros r q Hr Hq; apply Hw2; [done | lia]|].
    intros q sz a Hin Ha. destruct (other_obj _ _ _ _ _ _ _ Hmi' Hin Ha) as [Hn _]. unfold sizeof_process in Hn. apply Hm2; lia. }
  procs_simpl.
  apply (no_space_wp s R L pid p v2 b1 e); try done; [|congruence].
  intros j Hj Huj. rewrite Hu2 by done. assert ((j =? t / 4096) = false) as -> by (apply Z.eqb_neq; intros ->; congruence).
  apply Hu; [done|]. by rewrite Huv, Huj, orb_true_r.
Qed.

Lemma fresh_kvm s R L name pid p t v : procs_ok s R L -> fresh s R L name pid p t v ->
  kvm_ok (vmm_kvm v) (t :: R) /\ prepared (vmm_kvm v).
Proof.
  intros [_ [_ Hr Hbm] Hprep _ _] [Hmi _ [A _ C _ _] Ebm _ _ _ _ _ _ _ _ _]. split.
  - split; [apply (mi_vm _ _ _ _ Hmi) | rewrite A; by apply list_elem_of_further | by rewrite Ebm].
  - unfold prepared in *. rewrite A, C; [done | done | lia].
Qed.

Lemma err_code e : - KERR_MAX_ERRNO <= e < 0 -> KERR_IS_ERR e = true.
Proof. intros He. unfold KERR_IS_ERR. lia. Qed.

(** The object after it was allocated, cleared and filled. *)
Lemma object_intro s R L name pid p v1 v2 v3 :
  mm_inv v1 R ((p, sizeof_process) :: L) -> mm_inv v2 R ((p, sizeof_process) :: L) -> mm_inv v3 R ((p, sizeof_process) :: L) ->
  mm_keep (pm s) v1 R (live_addr (vmm_heap (pm s)) L) ->
  mm_keep v1 v2 R (fun a => ~ (p <= a < p + sizeof_process)) ->
  mm_keep v2 v3 R (fun a => ~ (p <= a < p + sizeof_process)) ->
  new_proc (mm_mem v3) p name pid -> object s R L name pid p v3.
Proof.
  intros Hmi1 Hmi2 Hmi3 Hk1 Hk2 Hk3 Hnew. split; [done | | | | | done].
  - eapply later_trans; [apply (later_keep _ _ _ _ _ Hk1); intros q sz a Hin Ha; right; by exists q, sz|].
    eapply later_trans; [apply (later_keep _ _ _ _ _ Hk2) | apply (later_keep _ _ _ _ _ Hk3)];
      intros q sz a Hin Ha; by apply (other_obj _ _ _ _ _ _ _ Hmi1 Hin).
  - by rewrite (mk_frames _ _ _ _ Hk3), (mk_frames _ _ _ _ Hk2), (mk_frames _ _ _ _ Hk1).
  - destruct (mk_kernel _ _ _ _ Hk1) as (_ & E1 & _), (mk_kernel _ _ _ _ Hk2) as (_ & E2 & _), (mk_kernel _ _ _ _ Hk3) as (_ & E3 & _).
    congruence.
  - eapply words_kept_to_trans; [apply (keep_kept_to _ _ _ _ Hk1); intros a Ha; left; unfold heap_area in Ha; cbn; lia|].
    eapply words_kept_to_trans; [apply (keep_kept_to _ _ _ _ Hk2) | apply (keep_kept_to _ _ _ _ Hk3)]; intros a Ha Hin; apply Ha;
      replace a with (p + (a - p)) by lia; (eapply own_area; [done | unfold sizeof_process in Hin; lia]).
Qed.

Lemma process_create_wp s R L name :
  procs_ok s R L -> is_u32 name -> name <> 0 ->
  wp (process_create kheap_free_list name) (fun p s' =>
    (KERR_PTR_IS_ERR p = true /\ refused s R L s') \/
    (KERR_PTR_IS_ERR p = false /\ exists pid t pos, created s R L name p s' pid t pos)) s.
Proof.
  intros Hok Hu Hn. destruct (Hok) as [Hmm Hkvm Hprep [Hpids H0] Htab]. unfold process_create, NULL.
  replace (name =? 0) with false by lia. do 2 wp_step. wp_use pid_alloc_wp; [exact Hpids|].
  intros pid b1 [(_ & -> & ->)|(Hclear & Hpid & Hb1)].
  { change (KERR_IS_ERR (- KERR_NOSPC)) with true. wp_steps. left. split; [reflexivity|].
    procs_simpl. by apply refused_intro. }
  assert (1 <= pid < PID_MAX) as Hp1.
  { destruct Hclear as (_ & Hc & _). assert (pid <> 0) by (intros ->; congruence). lia. }
  assert (bit (pid_bm s) pid = false) as Hbit by apply Hclear.
  unfold KERR_IS_ERR at 1. replace (pid <? 0) with false by lia. procs_simpl. do 2 wp_step. cbn [pr_vmm].
  wp_use kmalloc_mm_wp; [exact Hmm | by unfold sizeof_process|].
  intros p v1 [(Hp & -> & _)|(Hp & Hmi1 & Hk1)]; rewrite Hp; procs_simpl.
  { do 2 wp_step. cbn [pid_bm]. wp_use give_back_pid_wp; [exact Hpids | exact Hp1 | exact Hbit | exact Hb1|].
    intros _ b2 [Hb2 Hsame]. procs_simpl. wp_step. left. split; [done|]. by apply refused_intro. }
  do 2 wp_step. cbn [pr_vmm]. wp_use zero_proc_wp; [exact Hmi1 | apply list_elem_of_here|]. intros _ v2 (Hmi2 & Hk2 & Hz).
  procs_simpl. do 2 wp_step. cbn [pr_vmm].
  wp_use (fields_proc_wp v2 R ((p, sizeof_process) :: L) p name pid);
    [exact Hmi2 | apply list_elem_of_here | done | unfold is_u32, PID_MAX in *; lia | exact Hz|].
  intros _ v3 (Hmi3 & Hk3 & Hnew).
  pose proof (object_intro _ _ _ _ _ _ _ _ _ Hmi1 Hmi2 Hmi3 Hk1 Hk2 Hk3 Hnew) as Hob.
  procs_simpl. do 2 wp_step. cbn [pr_vmm].
  wp_use vm_stage_wp; [exact Hmi3 | apply list_elem_of_here | | exact Hnew|].
  { rewrite (lt_kernel _ _ _ _ (ob_later _ _ _ _ _ _ _ Hob)). apply (kv_root _ _ Hkvm). }
  intros e v4 Hst4. destruct (object_space _ _ _ _ _ _ _ _ _ (kv_root _ _ Hkvm) Hob Hst4) as [(He & Hmi4 & Hl4 & Hf4 & Hbm4)|(-> & t & Hfresh)].
  { rewrite err_code by done. procs_simpl. wp_use no_space_wp; try done; [intros j Hj; by rewrite Hf4|]. auto. }
  change (KERR_IS_ERR KERR_OK) with false. procs_simpl. do 2 wp_step. cbn [pr_vmm].
  destruct (fresh_kvm _ _ _ _ _ _ _ _ Hok Hfresh) as [Hkvm4 Hprep4].
  wp_use kstack_stage_wp; [apply (fr_inv _ _ _ _ _ _ _ _ Hfresh) | apply list_elem_of_here | exact Hkvm4 | exact Hprep4
    | apply (fr_kstack _ _ _ _ _ _ _ _ Hfresh)|].
  intros e v5 Hst5. procs_simpl.
  destruct (Hst5) as (_ & _ & _ & _ & _ & _ & _ & _ & _ & _ & [[He _]|[-> _]]).
  { rewrite err_code by done. wp_use no_stack_wp; try done. auto. }
  change (KERR_IS_ERR KERR_OK) with false. cbn iota. wp_step. unfold write_table, wp. cbn [process_table]. rewrite Htab.
  change (Z.of_nat 64) with PID_MAX. replace ((0 <=? pid) && (pid <? PID_MAX)) with true by lia. procs_simpl.
  right. split; [done|]. exists pid, t. by eapply created_intro.
Qed.
End Spec.

(** ** A machine with a prepared kernel *)

(** A page-table step keeps the heap. *)
Lemma mm_inv_pt fl s R L r vm' : mm_inv fl s R L -> r ∈ R -> pt_step R r (mm_vs s) vm' ->
  mm_inv fl (set_vmm_kvm (set_kv_vm vm' (vmm_kvm s)) s) R L.
Proof.
  intros Hmi Hr Hst. destruct (Hmi) as [Hvm Hh Hsep].
  assert (Hsep' : forall a, heap_area fl s a -> ~ table_word (vs_mem vm') R a).
  { intros a Ha Htw. destruct (Hsep a Ha) as [Hn Hu].
    destruct (table_word_step _ _ _ _ _ Hvm Hr Hst Htw) as [?|Hf]; [done|]. rewrite Hu in Hf. done. }
  split; [apply (ps_ok _ _ _ _ Hst) | |].
  - apply (heap_area_frame fl s L (vs_mem vm') Hh). intros a Ha. apply (ps_frame _ _ _ _ Hst). by apply Hsep'.
  - intros a Ha. change (heap_area fl s a) in Ha. split; [by apply Hsep'|]. pose proof (heap_area_low _ _ _ _ _ Hmi Ha).
    apply (ps_grow _ _ _ _ Hst); [dlia|]. by apply Hsep.
Qed.

(** The empty heap of [heap_sample], and a page past the stack window mapped, so that
    the window has its table. *)
Definition kernel_map (s : mm) : machine := run_state (arch_vm_map (Some (mk_space 131072)) 4027580416 0 4096 3) (mm_vs s).
Definition mm_kernel : mm := set_vmm_kvm (set_kv_vm (kernel_map (mm_base heap_sample)) (vmm_kvm (mm_base heap_sample))) (mm_base heap_sample).
Definition procs_sample : procs pmm := mk_procs mm_kernel (mk_bitmap [1; 0] 64 2) (replicate 64 0) (mk_tss 0 0 0).

Lemma kernel_map_inv s L : mm_inv sentinel s [131072] L ->
  mm_inv sentinel (set_vmm_kvm (set_kv_vm (kernel_map s) (vmm_kvm s)) s) [131072] L.
Proof.
  intros Hmi. apply (mm_inv_pt _ _ _ _ 131072); [done | apply list_elem_of_here|].
  pose proof (arch_vm_map_wp (mm_vs s) [131072] (mk_space 131072) 4027580416 0 4096 3 (mi_vm _ _ _ _ Hmi)
    (list_elem_of_here _ _) ltac:(lia) ltac:(lia) ltac:(lia) ltac:(lia) ltac:(lia)) as Hwp.
  destruct (proj1 (wp_run _ _ _) Hwp) as (res & s' & Hrun & Hpost). clear Hwp. unfold kernel_map. rewrite (run_state_eq _ _ _ _ Hrun).
  destruct Hpost as [(Hbad & _)|(_ & o & _ & kk & _ & Hst & _)]; [|exact Hst].
  exfalso. apply Hbad. by vm_compute.
Qed.

Lemma procs_sample_ok : procs_ok sentinel procs_sample [131072] [].
Proof.
  assert (mm_inv sentinel mm_kernel [131072] []) as Hmi.
  { apply kernel_map_inv, mm_base_inv; [exact heap_sample_client | apply mem_ok_dec; vm_compute; reflexivity
      | vm_compute; discriminate | vm_compute; reflexivity]. }
  split; [exact Hmi | | vm_compute; discriminate | | reflexivity].
  - split; [apply (mi_vm _ _ _ _ Hmi) | apply list_elem_of_here|]. split; [|reflexivity].
    split; [repeat constructor; unfold is_u32; lia|]. unfold capacity. cbn. lia.
  - split; [|reflexivity]. split; [|reflexivity]. split; [repeat constructor; unfold is_u32; lia|]. unfold capacity. cbn. lia.
Qed.

(** ** Properties *)


