(* ===== verification/ProcessStart.v ===== *)
(** * From a created process to user mode

    The theorems on [process_prepare] ([kernel/process/process.c]) and on
    [arch_process_stack_prepare] and [arch_process_start] ([kernel/arch/x86/proc.c]):
    the user stack is mapped, and the kernel stack holds the frame that [iret] pops. *)

From S2P Require Import Prelude Base Memory KList KMem Bitmap Pmm Frames Kheap KheapClient HeapLive Paging PagingProps KernelVm Vmm Words VmaList Mm VmSpace Iwbf Hal Descriptors Process ProcessProps.

Section Spec.
Variable kheap_free_list : Z.

Abbreviation mm_ok := (mm_ok kheap_free_list).
Abbreviation live_addr := (live_addr kheap_free_list).
Abbreviation vm_mem c := (zoom vmm_heap set_vmm_heap (zoom kh_mem set_kh_mem c)).

(** ** Writes of the clients *)

(** A word the kernel's data structures do not use: it is no word of the heap's own, of
    the list of [vm], or of a page table. *)
Definition client_word (s : mm) (R : list Z) (vm : vm_space) (Lo : list (Z * Z)) (a : Z) : Prop :=
  live_addr (vmm_heap s) Lo a /\ a <> vmas vm /\ a <> vmas vm + 4 /\ ~ table_word (mm_mem s) R a.

Definition with_mem (m : mem) (s : mm) : mm := set_vmm_heap (set_kh_mem m (vmm_heap s)) s.

Lemma mm_client_write s R vm ps vs Lo m' :
  mm_ok s R vm ps vs Lo -> mem_ok m' ->
  (forall a, rd m' a = rd (mm_mem s) a \/ client_word s R vm Lo a) ->
  mm_ok (with_mem m' s) R vm ps vs Lo /\
  (forall r i, r ∈ R -> 0 <= i < 1024 -> tbl m' r i = tbl (mm_mem s) r i) /\
  (forall r q, r ∈ R -> 0 <= q < 1048576 -> walk m' r q = walk (mm_mem s) r q).
Proof.
  intros [Hvm Hsp Hh Hr Hsep] Hm Hw.
  destruct (tables_frame (mm_vs s) R m' Hvm Hm) as (Hvm' & Htb & Hwk).
  { intros a Ha. destruct (Hw a) as [?|(_ & _ & _ & ?)]; done. }
  destruct (heap_ok_disjoint _ _ _ (so_heap _ _ _ _ _ _ Hsp)) as [Hdis Hall].
  assert (Hps : forall p a, p ∈ ps -> p <= a < p + 20 -> rd m' a = rd (mm_mem s) a).
  { intros p a Hp Ha. destruct (Hw a) as [?|(Hl & _)]; [done|].
    assert ((p, sizeof_vma) ∈ map (fun p => (p, sizeof_vma)) ps) as Hpo by by apply (list_elem_of_fmap_2 (fun p => (p, sizeof_vma))).
    exfalso. destruct Hl as [[Ho _]|(q & sz & Hq & Hqa)].
    - rewrite Forall_forall in Hall. destruct (Hall (p, sizeof_vma)) as (H1 & H2 & _); [apply elem_of_app; by left|].
      cbn in H1, H2, Ho. unfold sizeof_vma in *. lia.
    - pose proof (fop_app _ _ _ Hdis (p, sizeof_vma) (q, sz) Hpo Hq) as Hd. unfold disjoint, sizeof_vma in Hd. cbn in Hd. lia. }
  split; [|done]. split; [done | | done | done|].
  - split; [| | | exact (so_head _ _ _ _ _ _ Hsp) | exact (so_ok _ _ _ _ _ _ Hsp)].
    + apply (heap_ok_frame kheap_free_list (vmm_heap s)); [exact (so_heap _ _ _ _ _ _ Hsp)|]. intros a Ha.
      destruct (Hw a) as [?|(Hl & _)]; [done|]. exfalso. apply Ha.
      destruct Hl as [?|(q & sz & Hq & Hqa)]; [by left|]. right. exists q, sz. split; [|done]. apply elem_of_app. by right.
    + apply (dll_ext (mm_mem s)); [|exact (so_list _ _ _ _ _ _ Hsp)]. intros a (x & [->|Hx]%elem_of_cons & Ha).
      * destruct (Hw a) as [?|(_ & H1 & H2 & _)]; [done | lia].
      * apply list_elem_of_fmap_1 in Hx as (p & -> & Hp). apply (Hps p); [done | lia].
    + apply (forall2_mono_in (vma_at (mm_mem s))); [|exact (so_vmas _ _ _ _ _ _ Hsp)]. intros p v Hp.
      apply vma_at_ext. intros a Ha. by apply (Hps p).
  - intros a Ha. destruct (Hsep a Ha) as [Hn Hu]. split; [|done]. intros (t & Ht & Hta). apply Hn. exists t. split; [|done].
    destruct Ht as [Ht|(r & i & Hrr & Hi & Ht)]; [by left|]. right. exists r, i. rewrite <- Htb by done. done.
Qed.

Lemma with_mem_mem m s : mm_mem (with_mem m s) = m.
Proof. done. Qed.
Lemma with_mem_with m m' s : with_mem m (with_mem m' s) = with_mem m s.
Proof. done. Qed.
Lemma with_mem_id s : with_mem (mm_mem s) s = s.
Proof. exact (set_vmm_heap_id s). Qed.

Lemma vm_mem_wp {B} (c : M mem B) (Q : B -> mm -> Prop) s :
  wp c (fun b m => Q b (with_mem m s)) (mm_mem s) -> wp (vm_mem c) Q s.
Proof. intros H. do 2 wp_step. exact H. Qed.

(** ** The kernel stack *)

Section Stack.
Context (s0 : mm) (R : list Z) (vm : vm_space) (ps : list Z) (vs : list vma) (Lo : list (Z * Z)).
(** The static object lies below the window of the stacks. *)
Hypothesis H_list : kheap_free_list + 8 <= KERNEL_STACK_BASE.
Hypothesis H_mm : mm_ok s0 R vm ps vs Lo.

(** The words of the window are used by nothing else. *)
Lemma window_word s a : mm_ok s R vm ps vs Lo -> KERNEL_STACK_BASE <= a -> client_word s R vm Lo a.
Proof.
  intros [Hvm Hsp Hh Hr Hsep] Ha. destruct (heap_ok_bounds _ _ _ (so_heap _ _ _ _ _ _ Hsp)) as (_ & He & _).
  unfold KERNEL_STACK_BASE in *. cbn in He. split; [left; cbn; lia|]. split; [lia|]. split; [lia|].
  intros (t & Ht & Hta). assert (t < KERNEL_LOWMEM_LIMIT) as Hlt.
  { destruct Ht as [Ht|(r & i & Hrr & Hi & Ht)].
    - destruct (t_root _ _ _ (v_tables _ _ Hvm) t Ht) as (_ & ? & _). lia.
    - destruct (t_table _ _ _ (v_tables _ _ Hvm) r i t Hrr Hi Ht) as [(_ & ? & _) _]. lia. }
  assert (t mod 4096 = 0) as Hal.
  { destruct Ht as [Ht|(r & i & Hrr & Hi & Ht)].
    - by destruct (t_root _ _ _ (v_tables _ _ Hvm) t Ht) as (? & _).
    - by destruct (t_table _ _ _ (v_tables _ _ Hvm) r i t Hrr Hi Ht) as [(? & _) _]. }
  unfold KERNEL_LOWMEM_LIMIT, KERNEL_VIRT_OFFSET in *. dlia.
Qed.

(** [s] is [s0] with the memory [m], which differs in words of the clients. *)
Definition rewritten (s : mm) (m : mem) : Prop :=
  s = with_mem m s0 /\ mm_ok s R vm ps vs Lo /\
  forall r q, r ∈ R -> 0 <= q < 1048576 -> walk m r q = walk (mm_mem s0) r q.

Lemma rewritten_refl : rewritten s0 (mm_mem s0).
Proof. split; [by rewrite with_mem_id | done]. Qed.

Lemma rewritten_wr s m a v : rewritten s m -> client_word s R vm Lo a -> is_u32 v -> rewritten (with_mem (wr m a v) s) (wr m a v).
Proof.
  intros (-> & Hmm & Hw) Hc Hv. destruct (mm_client_write (with_mem m s0) R vm ps vs Lo (wr m a v)) as (Hmm' & _ & Hw').
  - exact Hmm.
  - apply mem_ok_wr; [apply (v_mem _ _ (mm_vm _ _ _ _ _ _ _ Hmm)) | done].
  - intros x. destruct (Z.eq_dec x a) as [->|Hne]; [by right|]. left. by rewrite rd_wr_ne by done.
  - split; [by rewrite with_mem_with|]. split; [exact Hmm'|]. intros r q Hr Hq. rewrite Hw' by done. by apply Hw.
Qed.

Hypothesis H_root : pd_phys (kernel_vm (vmm_kvm s0)) ∈ R.

Lemma push_wp s m sp v pte :
  rewritten s m -> KERNEL_STACK_BASE + 4 <= sp < 4294967296 -> sp mod 4 = 0 -> is_u32 v ->
  walk (mm_mem s0) (pd_phys (kernel_vm (vmm_kvm s0))) ((sp - 4) / 4096) = Some pte -> Z.testbit pte 1 = true ->
  wp (push sp v) (fun r s' => r = sp - 4 /\ rewritten s' (wr m (sp - 4) v)) s.
Proof.
  intros Hrw Hsp Hal Hv Hwalk Hbit. unfold push, stack_store.
  assert (u32 (sp - 4) = sp - 4) as -> by (apply u32_id; unfold is_u32, KERNEL_STACK_BASE in *; lia).
  destruct (Hrw) as (E & Hmm & Hw). do 3 wp_step. unfold stack_word.
  assert (walk (vs_mem (kv_vm (vmm_kvm s))) (pd_phys (kernel_vm (vmm_kvm s))) ((sp - 4) / 4096) = Some pte) as ->.
  { subst s. rewrite <- Hwalk. apply Hw; [done|]. unfold KERNEL_STACK_BASE in *. dlia. }
  rewrite Hbit. apply vm_mem_wp, store32_wp; [unfold valid, KERNEL_VIRT_OFFSET, KERNEL_STACK_BASE in *; split; [dlia | lia]|].
  wp_step. split; [done|]. assert (mm_mem s = m) as -> by (by subst s).
  apply rewritten_wr; [done | apply window_word; [done | lia] | done].
Qed.

(** The process at [proc], whose kernel stack is the slot [pos]. *)
Context (proc pos sp0 pte : Z).
Hypothesis H_proc : (proc, sizeof_process) ∈ Lo.
Hypothesis H_vm : vmas vm = proc + 12.
Hypothesis H_kstack : kstack_of (mm_mem s0) proc = stack_at pos sp0.
Hypothesis H_pos : 0 <= pos < 64.
Hypothesis H_top : walk (mm_mem s0) (pd_phys (kernel_vm (vmm_kvm s0))) (stack_page pos + 3) = Some pte.
Hypothesis H_write : Z.testbit pte 1 = true.

Definition stack_top : Z := KERNEL_STACK_BASE + 16384 * (pos + 1).

(** The frame below the top of the stack. *)
Definition frame_words (m : mem) (entry : Z) : Prop :=
  rd m (stack_top - 4) = X86_GDT_SELECTOR_USER_DATA /\ rd m (stack_top - 8) = USER_STACK_TOP /\
  rd m (stack_top - 12) = Z.lor X86_FLAGS_IF_MASK X86_FLAGS_RESERVED_MASK /\
  rd m (stack_top - 16) = X86_GDT_SELECTOR_USER_CODE /\ rd m (stack_top - 20) = entry.

Lemma proc_at : obj_at proc /\ proc + 52 <= KERNEL_STACK_BASE.
Proof.
  pose proof (mm_ok_inv _ _ _ _ _ _ _ H_mm) as Hmi.
  destruct (proc_obj _ _ _ _ _ Hmi (proj2 (elem_of_app _ _ _) (or_intror H_proc))) as (Hp & _). split; [done|].
  destruct Hp as (_ & _ & ?). unfold KERNEL_STACK_BASE. lia.
Qed.

Lemma proc_word s k : mm_ok s R vm ps vs Lo -> 0 <= k < 52 -> k <> 12 -> k <> 16 -> client_word s R vm Lo (proc + k).
Proof.
  intros Hmm Hk N1 N2. split; [right; exists proc, sizeof_process; split; [done | unfold sizeof_process; lia]|].
  split; [lia|]. split; [lia|]. apply (mm_sep _ _ _ _ _ _ _ Hmm).
  apply (obj_area _ _ _ _ _ _ _ proc sizeof_process _ Hmm H_proc). unfold sizeof_process. lia.
Qed.

Lemma stack_prepare_wp :
  wp (arch_process_stack_prepare proc) (fun e s => e = KERR_OK /\ exists m, rewritten s m /\
    frame_words m (rd (mm_mem s0) (proc + 40)) /\ rd m (proc + 32) = stack_top - 20 /\
    forall a, a <> proc + 32 -> ~ (stack_top - 20 <= a < stack_top) -> rd m a = rd (mm_mem s0) a) s0.
Proof.
  destruct proc_at as [Hp Hpe]. unfold arch_process_stack_prepare, NULL.
  destruct (Hp) as (_ & Hlo & _). unfold KERNEL_VIRT_OFFSET in Hlo. replace (proc =? 0) with false by lia.
  wp_step. apply vm_mem_wp, process_kstack_wp; [done|]. rewrite with_mem_id, H_kstack. cbn [ks_base ks_size stack_at].
  assert (u32 (KERNEL_STACK_BASE + 16384 * pos + 16384) = stack_top) as ->.
  { unfold stack_top. rewrite u32_id; [lia|]. unfold is_u32, KERNEL_STACK_BASE. lia. }
  assert (Hpage : forall k, 1 <= k <= 20 -> walk (mm_mem s0) (pd_phys (kernel_vm (vmm_kvm s0))) ((stack_top - k) / 4096) = Some pte).
  { intros k Hk. rewrite <- H_top. f_equal. unfold stack_top, stack_page, KERNEL_STACK_BASE, KERNEL_STACK_PAGES. dlia. }
  assert (Htop : KERNEL_STACK_BASE + 16384 <= stack_top < 4294967296 /\ stack_top mod 4 = 0).
  { unfold stack_top, KERNEL_STACK_BASE. split; [lia | dlia]. }
  destruct Htop as [Htop Hta]. pose proof (v_mem _ _ (mm_vm _ _ _ _ _ _ _ H_mm)) as Hm0.
  assert (Hpush : forall k v s m (Q : Z -> mm -> Prop), 0 <= k <= 16 -> k mod 4 = 0 -> is_u32 v -> rewritten s m ->
    (forall s', rewritten s' (wr m (stack_top - (k + 4)) v) -> Q (stack_top - (k + 4)) s') -> wp (push (stack_top - k) v) Q s).
  { intros k v s m Q Hk Hka Hv Hrw HQ. wp_use push_wp; [exact Hrw | lia | dlia | exact Hv | | exact H_write|].
    - replace (stack_top - k - 4) with (stack_top - (k + 4)) by lia. apply Hpage. lia.
    - intros r s' [-> Hrw']. replace (stack_top - k - 4) with (stack_top - (k + 4)) in * by lia. auto. }
  wp_step. rewrite <- (Z.sub_0_r stack_top) at 1. apply (Hpush 0 _ _ (mm_mem s0)); [lia | done | done | apply rewritten_refl|].
  intros s1 H1. wp_step. eapply (Hpush 4); [lia | done | done | exact H1|]. intros s2 H2. wp_step.
  eapply (Hpush 8); [lia | done | done | exact H2|]. intros s3 H3. wp_step.
  eapply (Hpush 12); [lia | done | done | exact H3|]. intros s4 H4. wp_step.
  apply vm_mem_wp, process_entry_wp; [done|]. rewrite with_mem_id. cbn [Z.add] in H4. destruct (H4) as (E4 & _).
  assert (rd (mm_mem s4) (proc + 40) = rd (mm_mem s0) (proc + 40)) as ->.
  { rewrite E4. rewrite with_mem_mem. rewrite !rd_wr_ne by lia. done. }
  wp_step. eapply (Hpush 16); [lia | done | apply Hm0 | exact H4|]. intros s5 H5. cbn [Z.add] in H5. destruct (H5) as (E5 & Hmm5 & _).
  wp_step. apply vm_mem_wp, obj_store_wp; [done | lia | done|]. wp_step. split; [done|].
  change (16 + 4) with 20. assert (mm_mem s5 = _) as -> by (rewrite E5; apply with_mem_mem).
  eexists. split; [apply rewritten_wr; [exact H5 | by apply proc_word | unfold is_u32; lia]|].
  unfold frame_words. rewrite rd_wr_eq. split; [|split; [done|]].
  - repeat (first [rewrite rd_wr_eq | rewrite rd_wr_ne by lia]). done.
  - intros a Ha Hs. rewrite !rd_wr_ne by lia. done.
Qed.

(** [iret] pops that frame, and the processor will enter the kernel at the stack's top. *)
Lemma process_start_wp (s : procs pmm) m entry :
  rewritten (pr_vmm s) m -> frame_words m entry -> rd m (proc + 32) = stack_top - 20 ->
  rd m (proc + 28) = KERNEL_STACK_BASE + 16384 * pos -> rd m (proc + 36) = 16384 ->
  wp (process_start proc) (fun r s' =>
    r = inr (mk_iret entry X86_GDT_SELECTOR_USER_CODE (Z.lor X86_FLAGS_IF_MASK X86_FLAGS_RESERVED_MASK)
      USER_STACK_TOP X86_GDT_SELECTOR_USER_DATA) /\
    s' = set_pr_tss (mk_tss stack_top (tss_ss0 (pr_tss s)) (tss_iomap_base (pr_tss s))) s) s.
Proof.
  intros (E & Hmm & Hw) (F1 & F2 & F3 & F4 & F5) Hsp Hb Hsz. destruct proc_at as [Hp Hpe]. destruct (Hp) as (_ & Hlo & _).
  assert (Em : mm_mem (pr_vmm s) = m) by (by rewrite E).
  assert (Hload : forall k v (Q : Z -> mm -> Prop), 4 <= k <= 20 -> k mod 4 = 0 -> rd m (stack_top - k) = v ->
    Q v (pr_vmm s) -> wp (stack_load (stack_top - k)) Q (pr_vmm s)).
  { intros k v Q Hk Hka Hv HQ. unfold stack_load. do 2 wp_step. unfold stack_word.
    assert (walk (vs_mem (kv_vm (vmm_kvm (pr_vmm s)))) (pd_phys (kernel_vm (vmm_kvm (pr_vmm s)))) ((stack_top - k) / 4096) = Some pte) as ->.
    { rewrite E. cbn. rewrite Hw; [|done | unfold stack_top, KERNEL_STACK_BASE; dlia]. rewrite <- H_top. f_equal.
      unfold stack_top, stack_page, KERNEL_STACK_BASE, KERNEL_STACK_PAGES. dlia. }
    apply vm_mem_wp, load32_wp; [unfold valid, stack_top, KERNEL_VIRT_OFFSET, KERNEL_STACK_BASE; split; [dlia | lia]|].
    rewrite with_mem_id, Em, Hv. exact HQ. }
  unfold process_start, arch_process_start, NULL. unfold KERNEL_VIRT_OFFSET in Hlo. replace (proc =? 0) with false by lia.
  wp_step. wp_step. wp_step. apply vm_mem_wp, process_kstack_wp; [done|]. rewrite with_mem_id, Em. unfold kstack_of. rewrite Hsp, Hb, Hsz.
  cbn [ks_base ks_size ks_stack_pointer].
  assert (u32 (KERNEL_STACK_BASE + 16384 * pos + 16384) = stack_top) as ->.
  { unfold stack_top. rewrite u32_id; [lia|]. unfold is_u32, KERNEL_STACK_BASE. lia. }
  assert (Hoff : forall k, 0 <= k <= 16 -> u32 (stack_top - 20 + k) = stack_top - (20 - k)).
  { intros k Hk. rewrite u32_id; [lia|]. unfold is_u32, stack_top, KERNEL_STACK_BASE. lia. }
  wp_step. wp_step. unfold x86_tss_set_kernel_stack. wp_step. wp_step. unfold iret_from. rewrite !Hoff by lia. procs_simpl.
  wp_step. eapply Hload; [lia | done | exact F5|]. wp_step. eapply Hload; [lia | done | exact F4|].
  wp_step. eapply Hload; [lia | done | exact F3|]. wp_step. eapply Hload; [lia | done | exact F2|].
  wp_step. eapply Hload; [lia | done | exact F1|]. wp_step. wp_step. split; [done|]. by destruct s.
Qed.
End Stack.

(** ** [process_prepare] *)

Definition with_frames (a : pmm) (s : mm) : mm :=
  set_vmm_kvm (set_kv_vm (set_vs_frames a (mm_vs s)) (vmm_kvm s)) s.

Lemma with_frames_id s : with_frames (mm_frames s) s = s.
Proof. by destruct s as [[[] ? ?] ? ?]. Qed.

Lemma mm_ok_grow s R vm ps vs Lo a : mm_ok s R vm ps vs Lo -> frames_grow (mm_frames s) a -> fa_ok a ->
  mm_ok (with_frames a s) R vm ps vs Lo.
Proof.
  intros Hmm Hg Ha. destruct (Hmm) as [[Hm _ [T1 T2 T3 T4]] Hsp Hh Hr Hsep]. split; [| exact Hsp | done | done|].
  - split; [done | done|]. split; cbn; [| done | | done].
    + intros r Hrr. by eapply page_frame_grow, T1.
    + intros r i t Hrr Hi Ht. destruct (T3 r i t Hrr Hi Ht). split; [by eapply page_frame_grow | done].
  - intros x Hx. change (heap_area kheap_free_list s x) in Hx. destruct (Hsep x Hx) as [Hn Hu]. split; [done|].
    apply Hg; [|done]. pose proof (heap_area_low _ _ _ _ _ (mm_ok_inv _ _ _ _ _ _ _ Hmm) Hx). dlia.
Qed.

Definition user_stack_flags : Z := Z.lor (Z.lor (Z.lor VM_USER VM_READ) VM_WRITE) VM_GROWSDOWN.
Definition user_stack_page : Z := (USER_STACK_TOP - USER_STACK_SIZE) / 4096.
Definition user_stack_vma : vma := mk_vma (USER_STACK_TOP - USER_STACK_SIZE) USER_STACK_TOP user_stack_flags.

(** A process that can be prepared: its object, its space [vm] and its kernel stack. *)
Record can_prepare (s : mm) (R : list Z) (vm : vm_space) (ps : list Z) (vs : list vma) (Lo : list (Z * Z)) (proc pos sp : Z) : Prop := {
  cp_mm : mm_ok s R vm ps vs Lo;
  cp_root : pd_phys (kernel_vm (vmm_kvm s)) ∈ R;
  cp_proc : (proc, sizeof_process) ∈ Lo;
  cp_vm : vm_of (mm_mem s) proc = vm;
  cp_state : rd (mm_mem s) (proc + 8) = PROCESS_CREATED;
  cp_kstack : kstack_of (mm_mem s) proc = stack_at pos sp;
  cp_pos : 0 <= pos < 64;
  cp_top : exists pte, walk (mm_mem s) (pd_phys (kernel_vm (vmm_kvm s))) (stack_page pos + 3) = Some pte /\ Z.testbit pte 1 = true
}.

(** The user stack is mapped to the frames from [f] on, all of them free before, and
    the kernel stack holds the first frame. *)
Record ready (s : mm) (R : list Z) (vm : vm_space) (vs : list vma) (Lo : list (Z * Z)) (proc pos f : Z) (s' : mm) : Prop := {
  rd_kernel : kernel_vm (vmm_kvm s') = kernel_vm (vmm_kvm s);
  rd_mm : exists ps', mm_ok s' R vm ps' (insert_vma user_stack_vma vs) Lo;
  rd_fresh : 0 <= f /\ forall j, f <= j < f + 4 -> fa_used (mm_frames s) j = false /\ fa_used (mm_frames s') j = true;
  rd_pages : forall r q, r ∈ R -> 0 <= q < 1048576 -> walk (mm_mem s') r q =
    if (r =? pd_phys (vm_arch vm)) && ((user_stack_page <=? q) && (q <? user_stack_page + 4))
    then Some (pte_of (4096 * (f + (q - user_stack_page))) user_stack_flags) else walk (mm_mem s) r q;
  rd_frame : frame_words pos (mm_mem s') (rd (mm_mem s) (proc + 40));
  rd_sp : kstack_of (mm_mem s') proc = stack_at pos (stack_top pos - 20);
  rd_words : forall k, 0 <= k < 52 -> k <> 12 -> k <> 16 -> k <> 32 -> rd (mm_mem s') (proc + k) = rd (mm_mem s) (proc + k);
  rd_unmapped : forall q, user_stack_page <= q < user_stack_page + 4 -> walk (mm_mem s) (pd_phys (vm_arch vm)) q = None;
  rd_kept : forall a, kept_word kheap_free_list R s a -> a < KERNEL_STACK_BASE -> rd (mm_mem s') a = rd (mm_mem s) a
}.

Lemma process_prepare_wp s R vm ps vs Lo proc pos sp :
  kheap_free_list + 8 <= KERNEL_STACK_BASE -> can_prepare s R vm ps vs Lo proc pos sp ->
  wp (process_prepare kheap_free_list proc) (fun e s' =>
    (e < 0 /\ exists ps' Lo', mm_ok s' R vm ps' vs Lo') \/
    (e = KERR_OK /\ exists f, ready s R vm vs Lo proc pos f s')) s.
Proof.
  intros Hlist [Hmm Hkr Hin Hvm Hst Hks Hpos (pte & Htop & Hbit)].
  destruct (proc_at s R vm ps vs Lo Hmm proc Hin) as [Hp Hpe]. destruct (Hp) as (_ & Hlo & _).
  unfold process_prepare, NULL. unfold KERNEL_VIRT_OFFSET in Hlo. replace (proc =? 0) with false by lia.
  wp_step. apply vm_mem_wp, process_state_wp; [done|]. rewrite with_mem_id, Hst, Z.eqb_refl. cbn [negb].
  wp_step. unfold pr_alloc_lowmem. do 3 wp_step. change (USER_STACK_SIZE / arch_vm_page_size) with 4.
  wp_use (fa_alloc_lowmem_wp (mm_frames s) 4); [apply (v_frames _ _ (mm_vm _ _ _ _ _ _ _ Hmm)) | done|].
  intros [e|addr] a'.
  { intros [-> [_ He]]. wp_step. left. split; [lia|]. exists ps, Lo.
    change (mm_ok (with_frames (mm_frames s) s) R vm ps vs Lo). by rewrite with_frames_id. }
  intros (f & -> & _ & Hf0 & Hfe & Hfree & Ha' & Htot & Hu).
  change (set_vmm_kvm _ s) with (with_frames a' s).
  assert (mm_ok (with_frames a' s) R vm ps vs Lo) as Hmm1.
  { apply mm_ok_grow; [done | split; [done|] | done]. intros j Hj Huj. by rewrite Hu, Huj, orb_true_r. }
  assert (Hkp1 : forall a, kept_word kheap_free_list R s a -> kept_word kheap_free_list R (with_frames a' s) a).
  { intros a (H1 & H2 & H3 & H4). split; [done|]. split; [|done]. change (fa_used a' ((a - KERNEL_VIRT_OFFSET) / 4096) = true). rewrite Hu, H2 by (clear -H1; dlia). apply orb_true_r. }
  set (s1 := with_frames a' s) in *. assert (Em1 : mm_mem s1 = mm_mem s) by done.
  assert (Ef1 : mm_frames s1 = a') by done. assert (Ek1 : kernel_vm (vmm_kvm s1) = kernel_vm (vmm_kvm s)) by done. clearbody s1.
  wp_step. apply vm_mem_wp, process_vm_wp; [done|]. rewrite with_mem_id, Em1, Hvm. wp_step.
  assert (f * 4096 < 4294967296) as Hf4 by (unfold LOWMEM_FRAMES in Hfe; lia).
  wp_use (vm_map_wp kheap_free_list s1 R vm ps vs Lo); [exact Hmm1 | done | done | unfold is_u64; lia | done | done |].
  intros e s2 [(Hbad & _)|(_ & [(-> & -> & _)|(Hov & [(-> & -> & _)|[(-> & (Hk2 & [Hobj2 Hkp2] & Hgr2) & Hun & (ps' & Hmm2) & Hset)|(He & _ & k & _ & _ & Hmm2 & _)]])])].
  { exfalso. apply Hbad. split; [by unfold add_args_ok|]. unfold is_u64 in *. split; [dlia | unfold USER_STACK_SIZE; lia]. }
  { change (- KERR_EXISTS <? 0) with true. wp_steps. left. split; [done|]. by exists ps, Lo. }
  { change (- KERR_NOMEM <? 0) with true. wp_steps. left. split; [done|]. by exists ps, Lo. }
  2: { destruct (Z.ltb_spec e 0); [|lia]. wp_steps. by left. }
  change (KERR_OK <? 0) with false. cbn iota.
  assert (Hw2 : forall k, 0 <= k < 52 -> k <> 12 -> k <> 16 -> rd (mm_mem s2) (proc + k) = rd (mm_mem s) (proc + k)).
  { intros k Hk N1 N2. rewrite <- Em1. apply (Hobj2 proc sizeof_process); [done | unfold sizeof_process; lia | | ]; rewrite <- Hvm; cbn; lia. }
  destruct Hk2 as (Kk & _). rewrite Ek1 in Kk. destruct (stack_page_bounds pos Hpos) as [Hsp1 Hsp2].
  assert (Hwalk : walk (mm_mem s2) (pd_phys (kernel_vm (vmm_kvm s2))) (stack_page pos + 3) = Some pte).
  { rewrite Kk, Hset by (done || lia). rewrite Em1, Htop. replace (stack_page pos + 3 <? _) with false; [by rewrite !andb_false_r|].
    symmetry. apply Z.ltb_ge. change ((USER_STACK_TOP - USER_STACK_SIZE) / 4096 + USER_STACK_SIZE / 4096) with 786430. lia. }
  wp_step. wp_use (stack_prepare_wp s2 R vm ps' (insert_vma user_stack_vma vs) Lo Hlist Hmm2).
  - by rewrite Kk.
  - exact Hin.
  - by rewrite <- Hvm.
  - unfold kstack_of. rewrite !Hw2 by lia. exact Hks.
  - exact Hpos.
  - exact Hwalk.
  - exact Hbit.
  - intros e s3 (-> & m & (E3 & Hmm3 & Hw3) & Hfw & Hsp & Hsame). change (KERR_OK <? 0) with false. cbn iota. wp_step.
    right. split; [done|]. exists f. assert (mm_mem s3 = m) as Em3 by (by rewrite E3). assert (mm_frames s3 = mm_frames s2) as Ef3 by (by rewrite E3).
    assert (Hw3' : forall k, 0 <= k < 52 -> k <> 12 -> k <> 16 -> k <> 32 -> rd (mm_mem s3) (proc + k) = rd (mm_mem s) (proc + k)).
    { intros k Hk N1 N2 N3. rewrite Em3, Hsame, Hw2; [done | done.. | lia | unfold stack_top, KERNEL_STACK_BASE in *; lia]. }
    split.
    + by rewrite E3.
    + by exists ps'.
    + split; [done|]. intros j Hj. split; [by apply Hfree|]. rewrite Ef3. apply (proj2 Hgr2); [lia|]. rewrite Ef1, Hu by lia.
      by replace ((f <=? j) && (j <? f + 4)) with true by lia.
    + intros r q Hr Hq. rewrite Em3, Hw3, Hset by done. rewrite Em1. unfold user_stack_page.
      change (USER_STACK_SIZE / 4096) with 4. by replace (4096 * (f + (q - (USER_STACK_TOP - USER_STACK_SIZE) / 4096)))
        with (f * 4096 + 4096 * (q - (USER_STACK_TOP - USER_STACK_SIZE) / 4096)) by lia.
    + rewrite Em3. by rewrite Hw2 in Hfw by lia.
    + unfold kstack_of. rewrite (Hw3' 28), (Hw3' 36) by lia. rewrite Em3, Hsp. unfold kstack_of in Hks. injection Hks as E1 E2 E4.
      by rewrite E1, E4.
    + exact Hw3'.
    + intros q Hq. change 4 with (USER_STACK_SIZE / 4096) in Hq. rewrite <- Em1, <- (Hun (q - user_stack_page)) by lia.
      f_equal. unfold user_stack_page. lia.
    + intros a Ha Hlow. destruct (Hkp2 a (Hkp1 a Ha)) as [Ea _]. rewrite Em3, Hsame; [congruence | |].
      * intros ->. destruct Ha as (_ & _ & Hn & _). apply Hn, (obj_area _ _ _ _ _ _ _ proc sizeof_process _ Hmm Hin). unfold sizeof_process. lia.
      * unfold stack_top, KERNEL_STACK_BASE in *. lia.
Qed.

(** The top of the kernel stack stays mapped. *)
Lemma ready_top s R vm ps vs Lo proc pos sp f v' :
  can_prepare s R vm ps vs Lo proc pos sp -> ready s R vm vs Lo proc pos f v' ->
  exists pte, walk (mm_mem v') (pd_phys (kernel_vm (vmm_kvm v'))) (stack_page pos + 3) = Some pte /\
    pd_phys (kernel_vm (vmm_kvm v')) ∈ R.
Proof.
  intros [_ Hr _ _ _ _ Hpos (pte & Htop & _)] [Ek _ _ Hpg _ _ _ _ _]. destruct (stack_page_bounds pos Hpos) as [Hb1 Hb2].
  exists pte. rewrite Ek, Hpg by (done || lia). split; [|done]. rewrite Htop. change user_stack_page with 786426.
  replace (stack_page pos + 3 <? 786426 + 4) with false by lia. by rewrite !andb_false_r.
Qed.
End Spec.

(** A process that was just created can be prepared. *)
Lemma created_can_prepare fl s R L name proc s' pid t pos :
  created fl s R L name proc s' pid t pos ->
  can_prepare fl (pr_vmm s') (t :: R) (mk_vm_space (proc + 12) (mk_space t)) [] [] ((proc, sizeof_process) :: L) proc pos 0.
Proof.
  intros [_ _ _ _ Hok Hsp (_ & _ & Hst & Hvm & Hks & _) _ Hk _ _ _ _ [Hpos _] Hstk].
  destruct (stack_page_bounds pos Hpos) as [Hb1 Hb2].
  split; try done; [apply (kv_root _ _ (po_kvm _ _ _ _ Hok)) | apply list_elem_of_here|].
  destruct (Hstk 3) as (f & _ & Hw); [lia|]. exists (pte_of (f * 4096) stack_flags). split; [rewrite <- Hk by lia; exact Hw|].
  unfold pte_of. rewrite Z.lor_spec. change (Z.testbit (x86_vm_flags_to_pte stack_flags) 1) with true. apply orb_true_r.
Qed.

(** ** Properties *)

(** C4. Preparing and starting a process ends in user mode at its entry.  For a
    process whose object, address space and kernel stack are well formed,
    [process_prepare] either fails and leaves the space's VMAs as they were, or maps
    the four pages below [USER_STACK_TOP] of this space, and of no other, to frames
    that were free, as user pages, records the VMA, and builds a frame at the top of
    the kernel stack.  [process_start] then sets the TSS's ring-0 stack to that top,
    and [iret] pops the process's entry, the user code selector, EFLAGS with interrupts
    enabled, [USER_STACK_TOP] and the user data selector. *)
Theorem process_prepare_start (free_list : Z) (s : procs pmm) R vm ps vs Lo proc pos sp :
  free_list + 8 <= KERNEL_STACK_BASE -> can_prepare free_list (pr_vmm s) R vm ps vs Lo proc pos sp ->
  exists e v', process_prepare free_list proc (pr_vmm s) = Some (e, v') /\
    ((e < 0 /\ exists ps' Lo', mm_ok free_list v' R vm ps' vs Lo') \/
     (e = KERR_OK /\ exists f, ready free_list (pr_vmm s) R vm vs Lo proc pos f v' /\
      process_start proc (set_pr_vmm v' s) =
        Some (inr (mk_iret (rd (mm_mem (pr_vmm s)) (proc + 40)) X86_GDT_SELECTOR_USER_CODE
                     (Z.lor X86_FLAGS_IF_MASK X86_FLAGS_RESERVED_MASK) USER_STACK_TOP X86_GDT_SELECTOR_USER_DATA),
              set_pr_tss (mk_tss (stack_top pos) (tss_ss0 (pr_tss s)) (tss_iomap_base (pr_tss s))) (set_pr_vmm v' s)))).
Proof.
  intros Hl Hc. destruct (proj1 (wp_run _ _ _) (process_prepare_wp _ _ _ _ _ _ _ _ _ _ Hl Hc)) as (e & v' & Hrun & Hpost).
  exists e, v'. split; [done|]. destruct Hpost as [Herr|(-> & f & Hrd)]; [by left|]. right. split; [done|]. exists f. split; [done|].
  destruct (ready_top _ _ _ _ _ _ _ _ _ _ _ _ Hc Hrd) as (pte & Htop & Hr).
  destruct (Hrd) as [_ (ps' & Hmm) _ _ Hfw Hks _ _ _]. unfold kstack_of in Hks. injection Hks as K1 K2 K3.
  pose proof (process_start_wp free_list v' R vm ps' _ Lo Hmm Hr proc pos pte (cp_proc _ _ _ _ _ _ _ _ _ _ Hc) (cp_pos _ _ _ _ _ _ _ _ _ _ Hc)
    Htop (set_pr_vmm v' s) (mm_mem v') (rd (mm_mem (pr_vmm s)) (proc + 40))) as Hstart.
  apply wp_run in Hstart as (r & s' & Hs & -> & ->); [exact Hs | by apply rewritten_refl | done..].
Qed.

(** The sample's process, with entry 0. *)
Lemma process_prepare_start_witness :
  exists proc s v', process_create sentinel 3221225600 procs_sample = Some (proc, s) /\
    process_prepare sentinel proc (pr_vmm s) = Some (KERR_OK, v') /\
    option_map fst (process_start proc (set_pr_vmm v' s)) = Some (inr (mk_iret 0 27 514 3221217280 35)).
Proof.
  assert (option_map (fun r => KERR_PTR_IS_ERR (fst r)) (process_create sentinel 3221225600 procs_sample) = Some false) as E
    by (vm_compute; reflexivity).
  assert (option_map fst (bind (process_create sentinel 3221225600) (fun p => zoom pr_vmm set_pr_vmm (process_prepare sentinel p)) procs_sample) =
    Some KERR_OK) as E2 by (vm_compute; reflexivity).
  pose proof (process_create_wp sentinel procs_sample [131072] [] 3221225600 procs_sample_ok
    ltac:(unfold is_u32; lia) ltac:(lia)) as Hc.
  revert E E2 Hc. generalize procs_sample as s0. intros s0 E E2 Hc.
  apply wp_run in Hc as (proc & s & Hrun & Hpost). unfold bind in E2. rewrite Hrun in E, E2. injection E as E.
  destruct Hpost as [[E' _]|(_ & pid & t & pos & Hcr)]; [rewrite E in E'; discriminate E'|].
  pose proof (created_can_prepare _ _ _ _ _ _ _ _ _ _ Hcr) as Hp.
  destruct (process_prepare_start sentinel s _ _ _ _ _ proc pos 0 ltac:(vm_compute; discriminate) Hp) as (e & v' & Hrun2 & Hpost2).
  unfold zoom in E2. rewrite Hrun2 in E2. injection E2 as ->.
  destruct Hpost2 as [[Hlt _]|(_ & f & Hrd & Hst)]; [discriminate Hlt|]. exists proc, s, v'. split; [exact Hrun|].
  split; [exact Hrun2|]. rewrite Hst. cbn [option_map fst].
  destruct (cr_words _ _ _ _ _ _ _ _ _ _ Hcr) as (_ & _ & _ & _ & _ & ->). reflexivity.
Defined.
