(* ===== verification/ProcessLoad.v ===== *)
(** * Loading an executable

    The theorem on [process_load] ([kernel/process/process.c]): the segments of an
    IWBF image are mapped into the process's address space, with the bytes of the file
    followed by zeros in frames that were free. *)

From S2P Require Import Prelude Base Memory KList KMem Bitmap Pmm Frames Kheap KheapClient HeapLive Paging PagingProps KernelVm Vmm Words VmaList Mm VmSpace Iwbf Hal Descriptors Process ProcessProps ProcessStart.

(** ** Bytes *)

(** The word of a byte. *)
Definition wd (a : Z) : Z := a - a mod 4.

(** The bytes of memory from [a] on. *)
Definition bytes (m : mem) (a : Z) (n : nat) : list Z := map (fun i => rd8 m (a + Z.of_nat i)) (seq 0 n).

Lemma bytes_S m a n : bytes m a (S n) = rd8 m a :: bytes m (a + 1) n.
Proof.
  unfold bytes. cbn [seq map]. rewrite Z.add_0_r. f_equal. rewrite <- seq_shift, map_map. apply map_ext. intros i. f_equal. lia.
Qed.

Lemma bytes_u8 m a n : Forall is_u8 (bytes m a n).
Proof. apply Forall_forall. intros x (i & -> & _)%list_elem_of_fmap. apply rd8_range. Qed.

Lemma length_bytes m a n : length (bytes m a n) = n.
Proof. unfold bytes. by rewrite length_map, length_seq. Qed.

Lemma bytes_ext m m' a n : (forall i, 0 <= i < Z.of_nat n -> rd8 m' (a + i) = rd8 m (a + i)) -> bytes m' a n = bytes m a n.
Proof.
  intros H. unfold bytes. apply map_ext_in. intros i Hi%in_seq. apply H. lia.
Qed.

Lemma rd8_word m m' a : rd m' (wd a) = rd m (wd a) -> rd8 m' a = rd8 m a.
Proof. unfold rd8, wd. by intros ->. Qed.

Lemma load_bytes_wp n : forall m a, range_valid a (Z.of_nat n) ->
  wp (load_bytes n a) (fun bs m' => m' = m /\ bs = bytes m a n) m.
Proof.
  induction n as [|n IH]; intros m a Hr; cbn [load_bytes]; [by wp_step|].
  destruct (range_valid8 a (Z.of_nat (S n)) 0 Hr ltac:(lia)) as [Hv _]. rewrite Z.add_0_r in Hv.
  wp_step. apply load8_wp; [done|]. wp_step. rewrite bytes_S. destruct n as [|n].
  - cbn [load_bytes]. by do 2 wp_step.
  - destruct (range_valid8 a (Z.of_nat (S (S n))) 1 Hr ltac:(lia)) as [_ ->].
    wp_use IH; [unfold range_valid in *; lia|]. intros bs m' [-> ->]. by wp_step.
Qed.

(** Writes of words outside [P]. *)
Definition only (P : Z -> Prop) (m0 m : mem) : Prop := forall x, ~ P x -> rd m x = rd m0 x.

Lemma only_store8 (P : Z -> Prop) m0 a v : P (wd a) -> typed (only P m0) (store8 a v) any.
Proof.
  intros Ha m u m' Hm. unfold store8. destruct (validb _); [|done]. intros [= <- <-]. split; [|done].
  intros x Hx. unfold wr8. fold (wd a). rewrite rd_wr_ne by (intros <-; done). by apply Hm.
Qed.

Lemma only_memset (P : Z -> Prop) m0 d v n : (forall i, 0 <= i < n -> P (wd (u32 (d + i)))) -> typed (only P m0) (memset d v n) any.
Proof.
  intros HP. unfold memset. eapply typed_bind; [|intros; by apply typed_ret].
  apply typed_for_each. intros i Hi. by apply only_store8, HP.
Qed.

Lemma only_memcpy (P : Z -> Prop) m0 d src n : (forall i, 0 <= i < n -> P (wd (u32 (d + i)))) -> typed (only P m0) (memcpy d src n) any.
Proof.
  intros HP. unfold memcpy. eapply typed_bind; [|intros; by apply typed_ret].
  apply typed_for_each. intros i Hi. eapply (typed_bind _ _ _ any); [|intros b _; by apply only_store8, HP].
  intros m b m' Hm. unfold load8. destruct (validb _); [|done]. by intros [= <- <-].
Qed.

(** ** The parsers *)

(** Only the bytes of the structure are read, so the size is a matter of the check. *)
Lemma parse_hdr_size b size : length b = 14%nat -> 16 <= size ->
  iwbf_parse_hdr (Some b) size true = iwbf_parse_hdr (Some (b ++ [0; 0])) 16 true.
Proof.
  intros Hl Hs. do 14 (destruct b as [|? b]; [discriminate Hl|]). destruct b; [|discriminate Hl].
  unfold iwbf_parse_hdr, IWBF32_HDR_SIZE. cbn [negb]. by replace (size <? 16) with false by lia.
Qed.

Lemma parse_segment_size b size : length b = 20%nat -> 20 <= size ->
  iwbf_parse_segment_hdr (Some b) size true = iwbf_parse_segment_hdr (Some b) 20 true.
Proof.
  intros Hl Hs. unfold iwbf_parse_segment_hdr, IWBF32_SEGMENT_HDR_SIZE. cbn [negb].
  by replace (size <? 20) with false by lia.
Qed.

Ltac parse_codes :=
  unfold mbind, option_bind; cbn [negb]; intros E; repeat (case_match; try discriminate E); injection E as <-;
  first [left; vm_compute; reflexivity | right; split; [done | by eexists]].

Lemma parse_hdr_codes b size r : iwbf_parse_hdr (Some b) size true = Some r -> (r.1 < 0) \/ (r.1 = KERR_OK /\ is_Some r.2).
Proof. unfold iwbf_parse_hdr. parse_codes. Qed.

Lemma parse_segment_codes b size r : iwbf_parse_segment_hdr (Some b) size true = Some r ->
  (r.1 < 0) \/ (r.1 = KERR_OK /\ is_Some r.2).
Proof. unfold iwbf_parse_segment_hdr. parse_codes. Qed.

Lemma parse_hdr_wp m image size : range_valid image size ->
  wp (parse_hdr image size) (fun r m' => m' = m /\
    match r with
    | inl h => 16 <= size /\ hdr_valid h /\ bytes m image 14 = encode_hdr h
    | inr e => e < 0 /\ forall h, 16 <= size -> hdr_valid h -> bytes m image 14 <> encode_hdr h
    end) m.
Proof.
  intros Hr. unfold parse_hdr, IWBF32_HDR_SIZE. destruct (Z.ltb_spec size 16).
  - wp_steps. unfold iwbf_parse_hdr, IWBF32_HDR_SIZE. cbn [negb]. replace (size <? 16) with true by lia.
    change (- KERR_INVAL <? 0) with true. wp_steps. split; [done|]. split; [done | lia].
  - wp_step. wp_use load_bytes_wp; [unfold range_valid in *; lia|]. intros b m' [-> ->].
    pose proof (length_bytes m image 14) as Hl. rewrite parse_hdr_size by done.
    destruct (parse_hdr_exact (bytes m image 14 ++ [0; 0]) 16) as [[r Hr2] Hex].
    { apply Forall_app. split; [apply bytes_u8 | repeat (constructor; [by unfold is_u8|]); constructor]. }
    { rewrite length_app, Hl. cbn. lia. }
    rewrite Hr2 in Hex |- *. destruct r as [e o]. destruct (parse_hdr_codes _ _ _ Hr2) as [He|[He [h Ho]]]; cbn in He.
    + replace (e <? 0) with true by lia. wp_steps. split; [done|]. split; [done|]. intros h _ Hv Hb.
      assert (Some (e, o) = Some (KERR_OK, Some h)) as [= -> _]; [|done]. apply Hex. split; [lia|]. split; [done|]. by rewrite take_app_le, take_ge by lia.
    + cbn in Ho. subst e o. change (KERR_OK <? 0) with false. wp_steps. split; [done|].
      destruct (proj1 (Hex h) eq_refl) as (_ & Hv & Hb). split; [done|]. split; [done|].
      rewrite <- Hb, take_app_le, take_ge by lia. done.
Qed.

Lemma parse_segment_wp m p size : (20 <= size -> range_valid p 20) ->
  wp (parse_segment_hdr p size) (fun r m' => m' = m /\
    match r with
    | inl h => 20 <= size /\ seg_valid h /\ bytes m p 20 = encode_segment h
    | inr e => e < 0 /\ forall h, 20 <= size -> seg_valid h -> bytes m p 20 <> encode_segment h
    end) m.
Proof.
  intros Hr. unfold parse_segment_hdr, IWBF32_SEGMENT_HDR_SIZE. destruct (Z.ltb_spec size 20).
  - wp_steps. unfold iwbf_parse_segment_hdr, IWBF32_SEGMENT_HDR_SIZE. cbn [negb]. replace (size <? 20) with true by lia.
    change (- KERR_INVAL <? 0) with true. wp_steps. split; [done|]. split; [done | lia].
  - wp_step. wp_use load_bytes_wp; [by apply Hr|]. intros b m' [-> ->].
    pose proof (length_bytes m p 20) as Hl. rewrite parse_segment_size by done.
    destruct (parse_segment_exact (bytes m p 20) 20) as [[r Hr2] Hex]; [apply bytes_u8 | rewrite Hl; lia|].
    rewrite Hr2 in Hex |- *. destruct r as [e o]. destruct (parse_segment_codes _ _ _ Hr2) as [He|[He [h Ho]]]; cbn in He.
    + replace (e <? 0) with true by lia. wp_steps. split; [done|]. split; [done|]. intros h _ Hv Hb.
      assert (Some (e, o) = Some (KERR_OK, Some h)) as [= -> _]; [|done]. apply Hex. split; [lia|]. split; [done|]. by rewrite take_ge by lia.
    + cbn in Ho. subst e o. change (KERR_OK <? 0) with false. wp_steps. split; [done|].
      destruct (proj1 (Hex h) eq_refl) as (_ & Hv & Hb). split; [done|]. split; [done|].
      rewrite <- Hb, take_ge by lia. done.
Qed.

Section Spec.
Variable kheap_free_list : Z.

Abbreviation mm_ok := (mm_ok kheap_free_list).
Abbreviation kept_word := (kept_word kheap_free_list).
Abbreviation words_kept := (words_kept kheap_free_list).

(** ** Words of the loader's frames *)

Lemma kept_client s R vm ps vs Lo a : mm_ok s R vm ps vs Lo -> kept_word R s a -> client_word kheap_free_list s R vm Lo a.
Proof.
  intros Hmm (H1 & H2 & H3 & H4). destruct (mm_head _ _ _ _ _ _ _ Hmm) as [Hh1 Hh2]. unfold heap_area in H3.
  split; [left; cbn; lia|]. split; [lia|]. by split; [lia|].
Qed.

Lemma table_word_frame s R vm ps vs Lo a : mm_ok s R vm ps vs Lo -> table_word (mm_mem s) R a ->
  fa_used (mm_frames s) ((a - KERNEL_VIRT_OFFSET) / 4096) = true.
Proof.
  intros Hmm (t & Ht & Ha). pose proof (v_tables _ _ (mm_vm _ _ _ _ _ _ _ Hmm)) as Htab.
  assert (page_frame (mm_frames s) t) as (Hal & _ & Hu & _).
  { destruct Ht as [Ht|(r & i & Hr & Hi & Ht)]; [by apply (t_root _ _ _ Htab) | by apply (t_table _ _ _ Htab r i)]. }
  by replace ((a - KERNEL_VIRT_OFFSET) / 4096) with (t / 4096) by dlia.
Qed.

(** Taking frames keeps the words in use, and gives words that nobody uses. *)
Lemma grow_words s R vm ps vs Lo a : mm_ok s R vm ps vs Lo -> frames_grow (mm_frames s) a -> words_kept R s (with_frames a s).
Proof.
  intros Hmm [_ Hg] x (H1 & H2 & H3 & H4). split; [done|]. split; [done|]. split; [|done]. apply Hg; [|done]. clear -H1. dlia.
Qed.

Lemma fresh_word s R vm ps vs Lo a x : mm_ok s R vm ps vs Lo -> KERNEL_VIRT_OFFSET <= x ->
  fa_used (mm_frames s) ((x - KERNEL_VIRT_OFFSET) / 4096) = false -> fa_used a ((x - KERNEL_VIRT_OFFSET) / 4096) = true ->
  kept_word R (with_frames a s) x.
Proof.
  intros Hmm Hx Hf Hu. split; [done|]. split; [done|]. split.
  - intros Ha. change (heap_area kheap_free_list s x) in Ha. destruct (mm_sep _ _ _ _ _ _ _ Hmm x Ha) as [_ Hu']. congruence.
  - intros Ht. pose proof (table_word_frame _ _ _ _ _ _ _ Hmm Ht) as Hu'. congruence.
Qed.

(** Giving frames back that hold no table and no part of the heap. *)
Lemma mm_ok_shrink s R vm ps vs Lo a :
  mm_ok s R vm ps vs Lo -> fa_ok a -> fa_total a = fa_total (mm_frames s) ->
  (forall x, KERNEL_VIRT_OFFSET <= x -> heap_area kheap_free_list s x \/ table_word (mm_mem s) R x ->
     fa_used a ((x - KERNEL_VIRT_OFFSET) / 4096) = fa_used (mm_frames s) ((x - KERNEL_VIRT_OFFSET) / 4096)) ->
  mm_ok (with_frames a s) R vm ps vs Lo.
Proof.
  intros Hmm Ha Htot Hsame. destruct (Hmm) as [[Hm _ [T1 T2 T3 T4]] Hsp Hh Hr Hsep].
  assert (Hpf : forall t, table_page (mm_mem s) R t -> page_frame (mm_frames s) t -> page_frame a t).
  { intros t Ht (P1 & P2 & P3 & P4). split; [done|]. split; [done|]. rewrite Htot. split; [|done].
    specialize (Hsame (t + KERNEL_VIRT_OFFSET)). replace (t + KERNEL_VIRT_OFFSET - KERNEL_VIRT_OFFSET) with t in Hsame by lia.
    rewrite Hsame; [done | unfold KERNEL_LOWMEM_LIMIT in *; lia|]. right. exists t. split; [done | lia]. }
  split; [| exact Hsp | done | done|].
  - split; [done | done|]. split; cbn; [| done | | done].
    + intros r Hrr. apply Hpf; [by left | by apply T1].
    + intros r i t Hrr Hi Ht. destruct (T3 r i t Hrr Hi Ht). split; [|done]. apply Hpf; [right; by exists r, i | done].
  - intros x Hx. change (heap_area kheap_free_list s x) in Hx. destruct (Hsep x Hx) as [Hn Hu]. split; [done|]. cbn.
    rewrite Hsame; [done | | by left]. by apply (heap_area_low _ _ _ _ _ (mm_ok_inv _ _ _ _ _ _ _ Hmm)).
Qed.

(** ** The contents of a segment *)

Abbreviation vm_mem c := (zoom vmm_heap set_vmm_heap (zoom kh_mem set_kh_mem c)).

(** The bytes of a segment: those of the file, then zeros. *)
Definition seg_byte (m : mem) (image : Z) (seg : iwbf32_segment_hdr) (k : Z) : Z :=
  if k <? seg_file_size seg then rd8 m (image + seg_file_off seg + k) else 0.

(** Writing a part of the frames at [d]. *)
Lemma copy_part_wp m d n src k :
  mem_ok m -> d mod 4 = 0 -> n mod 4 = 0 -> range_valid d n -> 0 <= k <= n -> range_valid src k -> d + k <= src \/ src + k <= d ->
  wp (memcpy d src k) (fun _ m' => mem_ok m' /\ only (fun x => d <= x < d + n) m m' /\
    bytes_upd m m' d k (fun i => rd8 m (src + i))) m.
Proof.
  intros Hm Hd Hn Hr Hk Hs Hov. assert (range_valid d k) as Hrk by (unfold range_valid in *; lia).
  pose proof (memcpy_wp m d src k Hrk Hs ltac:(lia)) as Hwp.
  pose proof (wp_typed mem_ok _ _ _ _ Hwp (typed_memcpy d src k) Hm) as Hwp2.
  assert (typed (only (fun x => d <= x < d + n) m) (memcpy d src k) any) as Hty.
  { apply only_memcpy. intros i Hi. destruct (range_valid8 d k i Hrk Hi) as [_ ->]. unfold wd. dlia. }
  wp_use (wp_typed _ _ _ _ _ Hwp2 Hty); [done|]. intros r m' (((_ & H1) & H2 & _) & H3 & _). done.
Qed.

Lemma clear_part_wp m d n k :
  mem_ok m -> d mod 4 = 0 -> n mod 4 = 0 -> range_valid d n -> 0 <= k <= n ->
  wp (memset (d + k) 0 (n - k)) (fun _ m' => mem_ok m' /\ only (fun x => d <= x < d + n) m m' /\
    bytes_upd m m' (d + k) (n - k) (fun _ => 0)) m.
Proof.
  intros Hm Hd Hn Hr Hk. assert (range_valid (d + k) (n - k)) as Hrk by (unfold range_valid in *; lia).
  pose proof (memset_wp m (d + k) 0 (n - k) Hrk) as Hwp.
  pose proof (wp_typed mem_ok _ _ _ _ Hwp (typed_memset (d + k) 0 (n - k)) Hm) as Hwp2.
  assert (typed (only (fun x => d <= x < d + n) m) (memset (d + k) 0 (n - k)) any) as Hty.
  { apply only_memset. intros i Hi. destruct (range_valid8 (d + k) (n - k) i Hrk Hi) as [_ ->]. unfold wd. dlia. }
  wp_use (wp_typed _ _ _ _ _ Hwp2 Hty); [done|]. intros r m' (((_ & H1) & H2 & _) & H3 & _). done.
Qed.

Lemma only_trans (P : Z -> Prop) m1 m2 m3 : only P m1 m2 -> only P m2 m3 -> only P m1 m3.
Proof. intros H1 H2 x Hx. by rewrite H2, H1. Qed.

Lemma fill_wp (s : mm) image seg d {B} (b : B) :
  mem_ok (mm_mem s) -> seg_valid seg -> seg_mem_size seg mod 4 = 0 -> d mod 4 = 0 -> range_valid d (seg_mem_size seg) ->
  range_valid (image + seg_file_off seg) (seg_file_size seg) ->
  (forall a, image + seg_file_off seg <= a < image + seg_file_off seg + seg_file_size seg -> ~ (d <= a < d + seg_mem_size seg)) ->
  wp ((if negb (seg_file_size seg =? 0) then
         vm_mem (memcpy d (u32 (image + seg_file_off seg)) (seg_file_size seg)) ;;; ret tt
       else ret tt) ;;;
      (if seg_file_size seg <? seg_mem_size seg then
         vm_mem (memset (u32 (d + seg_file_size seg)) 0 (seg_mem_size seg - seg_file_size seg)) ;;; ret tt
       else ret tt) ;;;
      ret b)
    (fun r s' => r = b /\ exists m, s' = with_mem m s /\ mem_ok m /\ only (fun x => d <= x < d + seg_mem_size seg) (mm_mem s) m /\
       forall k, 0 <= k < seg_mem_size seg -> rd8 m (d + k) = seg_byte (mm_mem s) image seg k) s.
Proof.
  intros Hm (_ & _ & Hfs & Hms & Hle & _) Hma Hd Hr Hsrc Hdis. set (fs := seg_file_size seg) in *. set (ms := seg_mem_size seg) in *.
  set (src := image + seg_file_off seg) in *. unfold is_u32 in *.
  assert (Hov : d + fs <= src \/ src + fs <= d \/ fs = 0).
  { destruct (Z.eq_dec fs 0) as [?|Hne]; [by right; right|]. destruct (Z.le_gt_cases (d + ms) src); [left; lia|].
    destruct (Z.le_gt_cases (src + fs) d); [right; by left|]. exfalso. apply (Hdis (Z.max d src)); lia. }
  wp_step. eapply wp_mono with (Q := fun _ s1 => exists m1, s1 = with_mem m1 s /\ mem_ok m1 /\
    only (fun x => d <= x < d + ms) (mm_mem s) m1 /\ bytes_upd (mm_mem s) m1 d fs (fun i => rd8 (mm_mem s) (src + i))).
  { destruct (Z.eqb_spec fs 0) as [E|Hne]; cbn [negb].
    - wp_step. exists (mm_mem s). split; [by rewrite with_mem_id|]. split; [done|]. split; [done|]. rewrite E. split; [lia | done].
    - rewrite (u32_id src) by (unfold is_u32, range_valid, KERNEL_VIRT_OFFSET in *; lia). wp_step. apply vm_mem_wp.
      wp_use (copy_part_wp (mm_mem s) d ms src fs); [done | done | done | done | lia | done | lia|].
      intros _ m1 (H1 & H2 & H3). wp_step. by exists m1. }
  intros _ s1 (m1 & -> & Hm1 & Ho1 & [Hb1 _]). wp_step.
  destruct (Z.ltb_spec fs ms) as [Hlt|Hge].
  - rewrite (u32_id (d + fs)) by (unfold is_u32, range_valid, KERNEL_VIRT_OFFSET in *; lia). wp_step. apply vm_mem_wp.
    rewrite with_mem_mem. wp_use (clear_part_wp m1 d ms fs); [done | done | done | done | lia|].
    intros _ m2 (H1 & H2 & [H3 H4]). do 2 wp_step. split; [done|]. exists m2. split; [by rewrite with_mem_with|]. split; [done|].
    split; [by eapply only_trans|]. intros k Hk. unfold seg_byte. fold fs src. destruct (Z.ltb_spec k fs).
    + rewrite H4 by lia. apply Hb1. lia.
    + replace (d + k) with (d + fs + (k - fs)) by lia. apply H3. lia.
  - do 2 wp_step. split; [done|]. exists m1. split; [done|]. split; [done|]. split; [done|].
    intros k Hk. unfold seg_byte. fold fs src. replace (k <? fs) with true by lia. apply Hb1. lia.
Qed.

(** ** One segment *)

Section Load.
Context (R : list Z) (vm : vm_space) (Lo : list (Z * Z)) (proc image size : Z).
Hypothesis H_proc : (proc, sizeof_process) ∈ Lo.
Hypothesis H_vm : vmas vm = proc + 12.
Hypothesis H_img : range_valid image size.

(** The image lies in frames in use, outside the heap and the page tables. *)
Definition image_in (s : mm) : Prop := forall a, image <= a < image + size -> kept_word R s (wd a).

Abbreviation root := (pd_phys (vm_arch vm)).
Abbreviation pages seg := (seg_mem_size seg / 4096).

(** [seg] is loaded at the frames from [phys] on, which were free in [s0]. *)
Record segment_at (s0 s : mm) (seg : iwbf32_segment_hdr) (phys : Z) : Prop := {
  sg_valid : seg_valid seg;
  sg_file : seg_file_off seg + seg_file_size seg <= size;
  sg_range : add_args_ok (seg_vaddr seg) (seg_mem_size seg);
  sg_phys : phys mod 4096 = 0 /\ 0 <= phys /\ phys + seg_mem_size seg <= KERNEL_LOWMEM_LIMIT;
  sg_fresh : forall x, phys <= x < phys + seg_mem_size seg -> fa_used (mm_frames s0) (x / 4096) = false;
  sg_words : forall x, phys + KERNEL_VIRT_OFFSET <= x < phys + KERNEL_VIRT_OFFSET + seg_mem_size seg -> kept_word R s x;
  sg_pages : forall j, 0 <= j < pages seg -> walk (mm_mem s) root (seg_vaddr seg / 4096 + j) =
    Some (pte_of (phys + 4096 * j) (seg_vm_flags (seg_flags seg)));
  sg_bytes : forall k, 0 <= k < seg_mem_size seg ->
    rd8 (mm_mem s) (phys + KERNEL_VIRT_OFFSET + k) = seg_byte (mm_mem s0) image seg k
}.

(** What loading [seg] keeps. *)
Record seg_step (s : mm) (seg : iwbf32_segment_hdr) (s' : mm) : Prop := {
  st_kernel : same_kernel s s';
  st_objs : objs_kept vm Lo s s';
  st_words : words_kept R s s';
  st_grow : frames_grow (mm_frames s) (mm_frames s');
  st_free : forall j, 0 <= j < pages seg -> walk (mm_mem s) root (seg_vaddr seg / 4096 + j) = None;
  st_pages : forall r q, r ∈ R -> 0 <= q < 1048576 ->
    ~ (r = root /\ seg_vaddr seg / 4096 <= q < seg_vaddr seg / 4096 + pages seg) -> walk (mm_mem s') r q = walk (mm_mem s) r q
}.

Definition seg_vma (seg : iwbf32_segment_hdr) : vma :=
  mk_vma (seg_vaddr seg) (seg_vaddr seg + seg_mem_size seg) (seg_vm_flags (seg_flags seg)).
Definition seg_hdr_at (i : Z) : Z := image + (16 + 20 * i).

Lemma seg_flags_u32 f : is_u32 (seg_vm_flags f).
Proof.
  unfold seg_vm_flags. destruct (negb (Z.land f IWBF_SEG_FLAG_READ =? 0)), (negb (Z.land f IWBF_SEG_FLAG_WRITE =? 0)),
    (negb (Z.land f IWBF_SEG_FLAG_EXEC =? 0)); by vm_compute.
Qed.

(** Giving the frames back after a failed mapping. *)
Lemma give_back_wp s f n ps vs Lo' :
  mm_ok s R vm ps vs Lo' -> 0 <= f < 4294967296 -> is_u32 n ->
  (forall x, (f * 4096) + KERNEL_VIRT_OFFSET <= x < (f + n) * 4096 + KERNEL_VIRT_OFFSET -> kept_word R s x) ->
  wp (pr_free (f * 4096) n) (fun _ s' => mm_ok s' R vm ps vs Lo') s.
Proof.
  intros Hmm Hf Hn Hk. unfold pr_free. do 3 wp_step.
  wp_use (fa_free_wp (mm_frames s) f n); [apply (v_frames _ _ (mm_vm _ _ _ _ _ _ _ Hmm)) | done | done|].
  intros r a' [(_ & H0 & Hle & _ & Ha & Htot & Hu)|(_ & -> & _)].
  - change (mm_ok (with_frames a' s) R vm ps vs Lo'). apply mm_ok_shrink; [done | done | done|].
    intros x Hx Huse. rewrite Hu by (clear -Hx; dlia).
    assert (~ (f <= (x - KERNEL_VIRT_OFFSET) / 4096 < f + n)) as Hout.
    { intros Hin. assert (kept_word R s x) as (_ & _ & H3 & H4) by (apply Hk; clear -Hin; dlia). by destruct Huse. }
    by replace ((f <=? (x - KERNEL_VIRT_OFFSET) / 4096) && ((x - KERNEL_VIRT_OFFSET) / 4096 <? f + n)) with false by lia.
  - change (mm_ok (with_frames (mm_frames s) s) R vm ps vs Lo'). by rewrite with_frames_id.
Qed.

(** Filling the frames at [phys], once they are mapped. *)
Lemma fill_step s2 seg phys ps vs m :
  mm_ok s2 R vm ps vs Lo -> mem_ok m ->
  (forall x, phys + KERNEL_VIRT_OFFSET <= x < phys + KERNEL_VIRT_OFFSET + seg_mem_size seg -> kept_word R s2 x) ->
  only (fun x => phys + KERNEL_VIRT_OFFSET <= x < phys + KERNEL_VIRT_OFFSET + seg_mem_size seg) (mm_mem s2) m ->
  mm_ok (with_mem m s2) R vm ps vs Lo /\
  (forall r q, r ∈ R -> 0 <= q < 1048576 -> walk m r q = walk (mm_mem s2) r q) /\
  (forall x, kept_word R s2 x -> kept_word R (with_mem m s2) x).
Proof.
  intros Hmm Hm Hk Ho. destruct (mm_client_write kheap_free_list s2 R vm ps vs Lo m Hmm Hm) as (Hmm3 & Htb & Hw).
  { intros a. destruct (decide (phys + KERNEL_VIRT_OFFSET <= a < phys + KERNEL_VIRT_OFFSET + seg_mem_size seg)) as [Hin|Hout].
    - right. by eapply kept_client, Hk.
    - left. by apply Ho. }
  split; [done|]. split; [done|]. intros x (H1 & H2 & H3 & H4). split; [done|]. split; [done|]. split; [done|].
  intros Ht. by apply H4, (table_word_tbl _ _ _ _ Htb).
Qed.

(** The frames of the segment, as addresses of the kernel. *)
Definition in_frames (f n x : Z) : Prop := f * 4096 + KERNEL_VIRT_OFFSET <= x < (f + n) * 4096 + KERNEL_VIRT_OFFSET.

(** Mapping and filling the frames from [f] on, which nobody uses in [s]. *)
Record seg_mapped (s : mm) (seg : iwbf32_segment_hdr) (f : Z) (vs : list vma) (s' : mm) : Prop := {
  sm_range : add_args_ok (seg_vaddr seg) (seg_mem_size seg);
  sm_mm : exists ps', mm_ok s' R vm ps' (insert_vma (seg_vma seg) vs) Lo;
  sm_kernel : same_kernel s s';
  sm_objs : objs_kept vm Lo s s';
  sm_words : forall x, kept_word R s x -> kept_word R s' x /\ (~ in_frames f (pages seg) x -> rd (mm_mem s') x = rd (mm_mem s) x);
  sm_grow : frames_grow (mm_frames s) (mm_frames s');
  sm_free : forall j, 0 <= j < pages seg -> walk (mm_mem s) root (seg_vaddr seg / 4096 + j) = None;
  sm_pages : forall r q, r ∈ R -> 0 <= q < 1048576 -> walk (mm_mem s') r q =
    if (r =? root) && ((seg_vaddr seg / 4096 <=? q) && (q <? seg_vaddr seg / 4096 + pages seg))
    then Some (pte_of (f * 4096 + 4096 * (q - seg_vaddr seg / 4096)) (seg_vm_flags (seg_flags seg))) else walk (mm_mem s) r q;
  sm_bytes : forall k, 0 <= k < seg_mem_size seg ->
    rd8 (mm_mem s') (f * 4096 + KERNEL_VIRT_OFFSET + k) = seg_byte (mm_mem s) image seg k
}.

Definition failed (e : Z) (s' : mm) : Prop := e < 0 /\ exists ps' vs' Lo', mm_ok s' R vm ps' vs' Lo'.

Lemma map_segment_wp s seg f ps vs :
  mm_ok s R vm ps vs Lo -> vm_of (mm_mem s) proc = vm -> image_in s -> seg_valid seg -> is_u32 size ->
  seg_file_off seg + seg_file_size seg <= size -> seg_vaddr seg + seg_mem_size seg <> 4294967296 ->
  0 <= f -> f + pages seg <= LOWMEM_FRAMES -> 
  (forall x, in_frames f (pages seg) x -> kept_word R s x) ->
  (forall a, image <= a < image + size -> ~ in_frames f (pages seg) a) ->
  wp (vm <-- vm_mem (process_vm proc) ;;
      err <-- vm_map kheap_free_list (Some vm) (seg_vaddr seg) (f * 4096) (seg_mem_size seg) (seg_vm_flags (seg_flags seg)) ;;
      if KERR_IS_ERR err then pr_free (f * 4096) (pages seg) ;;; ret (inr err)
      else
        (if negb (seg_file_size seg =? 0) then
           vm_mem (memcpy (PHYS_TO_VIRT (f * 4096)) (u32 (image + seg_file_off seg)) (seg_file_size seg)) ;;; ret tt
         else ret tt) ;;;
        (if seg_file_size seg <? seg_mem_size seg then
           vm_mem (memset (u32 (PHYS_TO_VIRT (f * 4096) + seg_file_size seg)) 0 (seg_mem_size seg - seg_file_size seg)) ;;; ret tt
         else ret tt) ;;;
        ret (inl tt))
    (fun r s' => match r with inl _ => seg_mapped s seg f vs s' | inr e => failed e s' end) s.
Proof.
  intros Hmm Hvm Himg Hvalid Hsz Hfile Hne Hf0 Hfe Hk Hdis.
  destruct (proc_at kheap_free_list s R vm ps vs Lo Hmm proc H_proc) as [Hp _].
  destruct (Hvalid) as (Hva & Hfo & Hfs & Hms & Hle & Hfl).
  assert (0 <= pages seg) as Hn0 by (unfold is_u32 in Hms; dlia). unfold LOWMEM_FRAMES in Hfe.
  wp_step. apply vm_mem_wp, process_vm_wp; [done|]. rewrite with_mem_id, Hvm. wp_step.
  wp_use (vm_map_wp kheap_free_list s R vm ps vs Lo); [exact Hmm | done | done | unfold is_u64; lia | apply seg_flags_u32 | done|].
  assert (Hfail : forall e s1 ps1 Lo1, mm_ok s1 R vm ps1 vs Lo1 -> (forall x, in_frames f (pages seg) x -> kept_word R s1 x) ->
    e < 0 -> wp (A := unit + Z) (pr_free (f * 4096) (pages seg) ;;; ret (inr e))
      (fun r s' => match r with inl _ => seg_mapped s seg f vs s' | inr e => failed e s' end) s1).
  { intros e s1 ps1 Lo1 Hmm1 Hk1 He. wp_step.
    wp_use give_back_wp; [exact Hmm1 | lia | unfold is_u32; lia | done|]. intros _ s2 Hmm2. wp_step.
    split; [done | by exists ps1, vs, Lo1]. }
  intros e s2 [(Hbad & -> & ->)|((Hargs & _) & [(-> & -> & _)|(Hov & [(-> & -> & _)|[(-> & (Hk2 & [Hobj2 Hwk2] & Hgr2) & Hun & (ps2 & Hmm2) & Hset)|(He & (_ & [_ Hwk2] & _) & k & _ & _ & (ps2 & Lo2 & Hmm2) & _)]])])].
  { change (KERR_IS_ERR (- KERR_INVAL)) with true. by apply (Hfail _ _ ps Lo). }
  { change (KERR_IS_ERR (- KERR_EXISTS)) with true. by apply (Hfail _ _ ps Lo). }
  { change (KERR_IS_ERR (- KERR_NOMEM)) with true. by apply (Hfail _ _ ps Lo). }
  2: { unfold KERR_IS_ERR. replace (e <? 0) with true by lia. apply (Hfail _ _ ps2 Lo2); [done | | done]. intros x Hx. by apply Hwk2, Hk. }
  change (KERR_IS_ERR KERR_OK) with false. cbn iota. clear Hfail.
  destruct (Hargs) as (Hs0 & Hva4 & Hms4 & Hend).
  assert (seg_mem_size seg = 4096 * pages seg) as Emem by (clear -Hms4; dlia).
  assert (1 <= pages seg) as Hn1 by (clear -Hs0 Hms4; dlia).
  rewrite (PHYS_TO_VIRT_lowmem (f * 4096)) by (change KERNEL_LOWMEM_LIMIT with 805306368; clear -Hn1 Hf0 Hfe; lia).
  set (d := f * 4096 + KERNEL_VIRT_OFFSET) in *. change KERNEL_VIRT_OFFSET with 3221225472 in d.
  assert (Hin : forall x, in_frames f (pages seg) x <-> d <= x < d + seg_mem_size seg).
  { intros x. unfold in_frames. change KERNEL_VIRT_OFFSET with 3221225472. unfold d. clear -Emem. lia. }
  pose proof (v_mem _ _ (mm_vm _ _ _ _ _ _ _ Hmm2)) as Hm2.
  wp_use (fill_wp s2 image seg d (inl tt : unit + Z)); [exact Hm2 | done | clear -Hms4; dlia | unfold d; clear; dlia
    | unfold range_valid, KERNEL_VIRT_OFFSET, d; lia
    | unfold range_valid, is_u32, KERNEL_VIRT_OFFSET in *; lia
    | intros a Ha; rewrite <- Hin; apply Hdis; unfold range_valid, is_u32 in *; lia|].
  intros r s3 (-> & m & -> & Hm & Ho & Hb).
  destruct (fill_step s2 seg (f * 4096) ps2 _ m Hmm2 Hm) as (Hmm3 & Hw3 & Hkw3).
  { intros x Hx. apply Hwk2, Hk, Hin. exact Hx. }
  { exact Ho. }
  split.
  - done.
  - by exists ps2.
  - exact Hk2.
  - intros q sz a Hq Ha N1 N2. rewrite with_mem_mem, Ho; [by apply (Hobj2 q sz)|]. rewrite <- Hin. intros Hx.
    destruct (Hk a Hx) as (_ & _ & Hna & _). apply Hna. by apply (obj_area _ _ _ _ _ _ _ q sz a Hmm).
  - intros x Hx. destruct (Hwk2 x Hx) as [E Hx2]. split; [by apply Hkw3|]. intros Hout. rewrite <- E. rewrite with_mem_mem.
    apply Ho. by rewrite <- Hin.
  - exact Hgr2.
  - exact Hun.
  - intros r q Hr Hq. rewrite with_mem_mem, Hw3 by done. by apply Hset.
  - intros k Hk3. rewrite with_mem_mem. rewrite Hb by done. unfold seg_byte. destruct (Z.ltb_spec k (seg_file_size seg)); [|done].
    apply rd8_word, Hwk2, Himg. unfold is_u32 in *. lia.
Qed.

Definition seg_post (s : mm) (vs : list vma) (i : Z) (r : unit + Z) (s' : mm) : Prop :=
  match r with
  | inl _ => exists seg phys, bytes (mm_mem s) (seg_hdr_at i) 20 = encode_segment seg /\ segment_at s s' seg phys /\ seg_step s seg s' /\
      exists ps', mm_ok s' R vm ps' (insert_vma (seg_vma seg) vs) Lo
  | inr e => failed e s'
  end.

(** The frames taken for the segment. *)
Lemma mapped_post s a' seg f vs i s' :
  is_u32 size -> seg_valid seg -> seg_file_off seg + seg_file_size seg <= size -> bytes (mm_mem s) (seg_hdr_at i) 20 = encode_segment seg ->
  0 <= f -> f + pages seg <= LOWMEM_FRAMES -> (forall j, f <= j < f + pages seg -> fa_used (mm_frames s) j = false) ->
  words_kept R s (with_frames a' s) -> frames_grow (mm_frames s) a' ->
  (forall x, in_frames f (pages seg) x -> kept_word R (with_frames a' s) x) ->
  seg_mapped (with_frames a' s) seg f vs s' -> seg_post s vs i (inl tt) s'.
Proof.
  intros Hsz Hvalid Hfile Hbytes Hf0 Hfe Hfree Hw1 Hg1 Hk [Hargs Hmm Hk3 Hobj Hwords Hgr Hun Hpg Hby].
  destruct (Hargs) as (Hs0 & Hva4 & Hms4 & Hend). unfold LOWMEM_FRAMES in Hfe.
  assert (seg_mem_size seg = 4096 * pages seg) as Emem by (clear -Hms4; dlia).
  assert (Hin : forall x, in_frames f (pages seg) x <-> f * 4096 + KERNEL_VIRT_OFFSET <= x < f * 4096 + KERNEL_VIRT_OFFSET + seg_mem_size seg).
  { intros x. unfold in_frames. clear -Emem. lia. }
  exists seg, (f * 4096). split; [done|]. split; [|split; [|done]].
  - split; try done.
    + change KERNEL_LOWMEM_LIMIT with 805306368. clear -Emem Hf0 Hfe. split; [dlia|]. lia.
    + intros x Hx. apply Hfree. clear -Hx Emem Hf0. dlia.
    + intros x Hx. apply Hwords, Hk, Hin. done.
    + intros j Hj. rewrite Hpg.
      * rewrite Z.eqb_refl. replace ((seg_vaddr seg / 4096 <=? seg_vaddr seg / 4096 + j) && _) with true by lia. cbn [andb].
        by replace (seg_vaddr seg / 4096 + j - seg_vaddr seg / 4096) with j by lia.
      * destruct Hmm as [ps' Hmm]. apply (mm_root _ _ _ _ _ _ _ Hmm).
      * change VM_USER_END with 3221225472 in Hend. destruct Hvalid as (Hv & _). unfold is_u32 in Hv. clear -Hend Hj Hva4 Emem Hv. dlia.
  - split; try done.
    + intros x Hx. destruct (Hw1 x Hx) as [E Hx1]. destruct (Hwords x Hx1) as [Hx2 Hsame]. split; [|done]. rewrite Hsame; [done|].
      unfold in_frames. intros Hf. destruct Hx as (_ & Hu & _). rewrite Hfree in Hu; [done|]. clear -Hf. dlia.
    + destruct Hg1 as [G1 G2], Hgr as [G3 G4]. split; [by rewrite G3|]. intros j Hj Hu. apply G4; [done|]. by apply G2.
    + intros r q Hr Hq Hout. rewrite Hpg by done. destruct (Z.eqb_spec r root) as [->|]; [|done]. cbn [andb].
      replace ((_ <=? q) && _) with false; [done|]. symmetry. apply andb_false_iff. rewrite Z.leb_gt, Z.ltb_ge. clear -Hout. lia.
Qed.

Lemma load_segment_wp s ps vs i :
  mm_ok s R vm ps vs Lo -> vm_of (mm_mem s) proc = vm -> image_in s -> is_u32 size -> 0 <= i < 65536 -> 16 + 20 * (i + 1) <= size ->
  (forall seg, bytes (mm_mem s) (seg_hdr_at i) 20 = encode_segment seg -> seg_valid seg ->
     seg_vaddr seg + seg_mem_size seg <> 4294967296) ->
  wp (load_segment kheap_free_list proc image size i) (seg_post s vs i) s.
Proof.
  intros Hmm Hvm Himg Hsz Hi Hlen Hne. unfold load_segment. cbv zeta.
  change (IWBF32_HDR_SIZE) with 16. change (IWBF32_SEGMENT_HDR_SIZE) with 20.
  rewrite (u32_id (16 + 20 * i)) by (unfold is_u32; lia). unfold range_valid, KERNEL_VIRT_OFFSET in H_img. unfold is_u32 in Hsz.
  rewrite (u32_id (image + (16 + 20 * i))) by (unfold is_u32; lia). rewrite (u32_id (size - _)) by (unfold is_u32; lia).
  fold (seg_hdr_at i). wp_step. apply vm_mem_wp.
  wp_use parse_segment_wp; [unfold range_valid, seg_hdr_at, KERNEL_VIRT_OFFSET; lia|].
  intros [seg|e] m (-> & Hres); rewrite with_mem_id; [|wp_step; split; [apply Hres | by exists ps, vs, Lo]].
  destruct Hres as (_ & Hvalid & Hbytes). specialize (Hne seg Hbytes Hvalid).
  assert (Herr : forall e, e < 0 -> wp (ret (inr e)) (seg_post s vs i) s).
  { intros e He. wp_step. split; [done | by exists ps, vs, Lo]. }
  destruct (Z.ltb_spec (seg_mem_size seg) (seg_file_size seg)); [by apply Herr|].
  destruct (Z.ltb_spec size (seg_file_off seg)); [by apply Herr|].
  destruct (Z.ltb_spec (size - seg_file_off seg) (seg_file_size seg)); [by apply Herr|]. clear Herr.
  change arch_vm_page_size with 4096. wp_step. unfold pr_alloc_lowmem. do 3 wp_step.
  assert (is_u32 (pages seg)) as Hnu by (destruct Hvalid as (_ & _ & _ & Hms & _); unfold is_u32 in *; clear -Hms; dlia).
  wp_use (fa_alloc_lowmem_wp (mm_frames s) (pages seg)); [apply (v_frames _ _ (mm_vm _ _ _ _ _ _ _ Hmm)) | done|].
  intros [e|addr] a'.
  { intros [-> [_ He]]. wp_step. split; [done|]. exists ps, vs, Lo.
    change (mm_ok (with_frames (mm_frames s) s) R vm ps vs Lo). by rewrite with_frames_id. }
  intros (f & -> & Hn0 & Hf0 & Hfe & Hfree & Ha' & Htot & Hu).
  change (set_vmm_kvm _ s) with (with_frames a' s).
  assert (f + pages seg <= LOWMEM_FRAMES) as Hfe' by (clear -Hfe; lia).
  assert (frames_grow (mm_frames s) a') as Hg1.
  { split; [done|]. intros j Hj Huj. by rewrite Hu, Huj, orb_true_r. }
  pose proof (mm_ok_grow kheap_free_list s R vm ps vs Lo a' Hmm Hg1 Ha') as Hmm1.
  pose proof (grow_words s R vm ps vs Lo a' Hmm Hg1) as Hw1.
  assert (Hk : forall x, in_frames f (pages seg) x -> kept_word R (with_frames a' s) x).
  { intros x Hx. assert (f <= (x - KERNEL_VIRT_OFFSET) / 4096 < f + pages seg) as Hfr by (unfold in_frames in Hx; clear -Hx; dlia).
    apply (fresh_word s R vm ps vs Lo); [done | unfold in_frames in Hx; lia | by apply Hfree|].
    rewrite Hu by lia. by replace ((f <=? (x - KERNEL_VIRT_OFFSET) / 4096) && ((x - KERNEL_VIRT_OFFSET) / 4096 <? f + pages seg)) with true by lia. }
  assert (Hdis : forall a, image <= a < image + size -> ~ in_frames f (pages seg) a).
  { intros a Ha Hf. destruct (Himg a Ha) as (_ & Hua & _). rewrite Hfree in Hua; [done|].
    unfold in_frames, wd, KERNEL_VIRT_OFFSET in *. clear -Hf. dlia. }
  wp_use (map_segment_wp (with_frames a' s) seg f ps vs); try done; [intros a Ha; apply Hw1, Himg, Ha | lia|].
  intros [[]|e] s' Hpost; [|exact Hpost]. eapply mapped_post; try done. lia.
Qed.

(** ** All segments *)

Definition add_segs (segs : list (iwbf32_segment_hdr * Z)) (vs : list vma) : list vma :=
  foldl (fun vs p => insert_vma (seg_vma p.1) vs) vs segs.

Definition in_pages (seg : iwbf32_segment_hdr) (q : Z) : Prop :=
  seg_vaddr seg / 4096 <= q < seg_vaddr seg / 4096 + pages seg.

(** [s] is [s0] with the first segments of the image loaded. *)
Record loaded (s0 : mm) (vs : list vma) (segs : list (iwbf32_segment_hdr * Z)) (s : mm) : Prop := {
  ld_mm : exists ps, mm_ok s R vm ps (add_segs segs vs) Lo;
  ld_kernel : same_kernel s0 s;
  ld_objs : forall q sz a, (q, sz) ∈ Lo -> q <= a < q + sz -> a <> vmas vm -> a <> vmas vm + 4 -> a <> proc + 40 ->
    rd (mm_mem s) a = rd (mm_mem s0) a;
  ld_words : words_kept R s0 s;
  ld_grow : frames_grow (mm_frames s0) (mm_frames s);
  ld_segs : forall k seg phys, segs !! k = Some (seg, phys) ->
    bytes (mm_mem s0) (seg_hdr_at (Z.of_nat k)) 20 = encode_segment seg /\ segment_at s0 s seg phys;
  ld_apart : forall k k' seg phys seg' phys', segs !! k = Some (seg, phys) -> segs !! k' = Some (seg', phys') -> k <> k' ->
    phys + seg_mem_size seg <= phys' \/ phys' + seg_mem_size seg' <= phys;
  ld_pages : forall r q, r ∈ R -> 0 <= q < 1048576 -> (r = root -> forall seg phys, (seg, phys) ∈ segs -> ~ in_pages seg q) ->
    walk (mm_mem s) r q = walk (mm_mem s0) r q
}.

(** A loaded segment stays loaded while others are. *)
Lemma segment_keep s0 s s' seg phys seg' : root ∈ R -> segment_at s0 s seg phys -> seg_step s seg' s' -> segment_at s0 s' seg phys.
Proof.
  intros Hr [S1 S2 S3 S4 S5 S6 S7 S8] [K1 K2 K3 K4 K5 K6]. destruct (S3) as (Hs0 & Hva4 & Hms4 & Hend). split; try done.
  - intros x Hx. by apply K3, S6.
  - intros j Hj. rewrite K6; [by apply S7 | done | |].
    + change VM_USER_END with 3221225472 in Hend. destruct S1 as (Hv & _). unfold is_u32 in Hv. clear -Hend Hj Hva4 Hms4 Hv. dlia.
    + intros [_ Hin]. specialize (K5 (seg_vaddr seg / 4096 + j - seg_vaddr seg' / 4096) ltac:(lia)).
      replace (seg_vaddr seg' / 4096 + (seg_vaddr seg / 4096 + j - seg_vaddr seg' / 4096)) with (seg_vaddr seg / 4096 + j) in K5 by lia.
      rewrite S7 in K5 by done. discriminate K5.
  - intros k Hk. rewrite <- S8 by done. apply rd8_word, K3, S6. destruct S4 as (Hp4 & _). unfold wd, KERNEL_VIRT_OFFSET. dlia.
Qed.

Lemma segment_same s0 s s' seg phys : root ∈ R -> segment_at s0 s seg phys -> words_kept R s s' ->
  (forall r q, r ∈ R -> 0 <= q < 1048576 -> walk (mm_mem s') r q = walk (mm_mem s) r q) -> segment_at s0 s' seg phys.
Proof.
  intros Hr [S1 S2 S3 S4 S5 S6 S7 S8] Hk Hw. destruct (S3) as (Hs0 & Hva4 & Hms4 & Hend). split; try done.
  - intros x Hx. by apply Hk, S6.
  - intros j Hj. rewrite Hw; [by apply S7 | done |].
    change VM_USER_END with 3221225472 in Hend. destruct S1 as (Hv & _). unfold is_u32 in Hv. clear -Hend Hj Hva4 Hms4 Hv. dlia.
  - intros k Hkk. rewrite <- S8 by done. apply rd8_word, Hk, S6. destruct S4 as (Hp4 & _). unfold wd, KERNEL_VIRT_OFFSET. dlia.
Qed.

(** Seen from the start. *)
Lemma segment_weaken s0 s s' seg phys : is_u32 size -> image_in s0 -> words_kept R s0 s -> frames_grow (mm_frames s0) (mm_frames s) ->
  segment_at s s' seg phys -> segment_at s0 s' seg phys.
Proof.
  intros Hsz Himg Hw [_ Hg] [S1 S2 S3 S4 S5 S6 S7 S8]. split; try done.
  - intros x Hx. specialize (S5 x Hx). destruct (fa_used (mm_frames s0) (x / 4096)) eqn:E; [|done].
    rewrite Hg in S5; [done | | done]. destruct S4 as (_ & Hp0 & _). clear -Hp0 Hx. dlia.
  - intros k Hk. rewrite S8 by done. unfold seg_byte. destruct (Z.ltb_spec k (seg_file_size seg)); [|done].
    apply rd8_word, Hw, Himg. destruct S1 as (_ & Hfo & _). unfold is_u32 in *. lia.
Qed.

(** The frames of a new segment are not those of a loaded one. *)
Lemma segment_apart s0 s s' seg phys seg' phys' : segment_at s0 s seg phys -> segment_at s s' seg' phys' ->
  phys + seg_mem_size seg <= phys' \/ phys' + seg_mem_size seg' <= phys.
Proof.
  intros [S1 S2 S3 S4 S5 S6 S7 S8] [T1 T2 T3 T4 T5 T6 T7 T8].
  destruct (Z.le_gt_cases (phys + seg_mem_size seg) phys') as [?|H1]; [by left|].
  destruct (Z.le_gt_cases (phys' + seg_mem_size seg') phys) as [?|H2]; [by right|]. exfalso.
  destruct S3 as (Hs0 & _), T3 as (Ht0 & _). set (x := Z.max phys phys').
  assert (phys <= x < phys + seg_mem_size seg /\ phys' <= x < phys' + seg_mem_size seg') as [Hx1 Hx2] by (unfold x; lia).
  destruct (S6 (x + KERNEL_VIRT_OFFSET)) as (_ & Hu & _); [lia|]. replace (x + KERNEL_VIRT_OFFSET - KERNEL_VIRT_OFFSET) with x in Hu by lia.
  rewrite T5 in Hu by done. discriminate Hu.
Qed.

Lemma loaded_nil s vs ps : mm_ok s R vm ps vs Lo -> loaded s vs [] s.
Proof.
  intros Hmm. split; try done; [by exists ps | by intros k ? ? ?%lookup_nil_Some..].
Qed.

Lemma loaded_snoc s0 vs segs s seg phys s' :
  is_u32 size -> root ∈ R -> image_in s0 -> loaded s0 vs segs s ->
  bytes (mm_mem s0) (seg_hdr_at (Z.of_nat (length segs))) 20 = encode_segment seg ->
  segment_at s s' seg phys -> seg_step s seg s' -> (exists ps', mm_ok s' R vm ps' (insert_vma (seg_vma seg) (add_segs segs vs)) Lo) ->
  loaded s0 vs (segs ++ [(seg, phys)]) s'.
Proof.
  intros Hsz Hr Himg [L1 L2 L3 L4 L5 L6 L7 L8] Hby Hseg Hst Hmm. destruct (Hst) as [K1 K2 K3 K4 K5 K6].
  assert (Hget : forall k p, (segs ++ [(seg, phys)]) !! k = Some p -> segs !! k = Some p \/ (k = length segs /\ p = (seg, phys))).
  { intros k p [?|[Hge E]]%lookup_app_Some; [by left|]. right. apply list_lookup_singleton_Some in E as [E <-]. split; [lia | done]. }
  split.
  - unfold add_segs. rewrite foldl_app. exact Hmm.
  - by eapply same_kernel_trans.
  - intros q sz a Hq Ha N1 N2 N3. rewrite (K2 q sz) by done. by apply (L3 q sz).
  - by eapply words_kept_trans.
  - destruct L5 as [G1 G2], K4 as [G3 G4]. split; [congruence|]. intros j Hj Hu. apply G4; [done|]. by apply G2.
  - intros k sg ph [Hk|[-> [= -> ->]]]%Hget.
    + destruct (L6 k sg ph Hk). split; [done|]. by eapply segment_keep.
    + split; [done|]. by eapply segment_weaken.
  - intros k k' sg ph sg' ph' [Hk|[-> [= -> ->]]]%Hget [Hk'|[-> [= -> ->]]]%Hget Hne.
    + by apply (L7 k k').
    + eapply segment_apart; [apply (L6 k _ _ Hk) | done].
    + destruct (segment_apart s0 s s' sg' ph' seg phys) as [?|?]; [apply (L6 k' _ _ Hk') | done | by right | by left].
    + done.
  - intros r q Hrr Hq Hout. rewrite K6; [apply L8; [done | done|] | done | done|].
    + intros -> sg ph Hin. apply (Hout eq_refl sg ph), elem_of_app. by left.
    + intros [-> Hin]. apply (Hout eq_refl seg phys); [apply elem_of_app; right; apply list_elem_of_here | exact Hin].
Qed.

(** ** [process_load] *)

(** A process in the state CREATED, and an image whose segment table is complete and in
    which no segment ends at 2^32. *)
Record can_load (s : mm) (ps : list Z) (vs : list vma) : Prop := {
  cl_mm : mm_ok s R vm ps vs Lo;
  cl_vm : vm_of (mm_mem s) proc = vm;
  cl_state : rd (mm_mem s) (proc + 8) = PROCESS_CREATED;
  cl_size : is_u32 size;
  cl_image : image_in s;
  cl_table : 16 <= size -> forall h, bytes (mm_mem s) image 14 = encode_hdr h -> hdr_valid h -> 16 + 20 * hdr_segment_count h <= size;
  cl_ends : 16 <= size -> forall h i seg, bytes (mm_mem s) image 14 = encode_hdr h -> hdr_valid h -> 0 <= i < hdr_segment_count h ->
    bytes (mm_mem s) (seg_hdr_at i) 20 = encode_segment seg -> seg_valid seg -> seg_vaddr seg + seg_mem_size seg <> 4294967296
}.

Definition process_load_post (s : mm) (vs : list vma) (res : Z) (s' : mm) : Prop :=
  failed res s' \/
  (res = KERR_OK /\ exists h segs, bytes (mm_mem s) image 14 = encode_hdr h /\ hdr_valid h /\
     16 + 20 * hdr_segment_count h <= size /\ Z.of_nat (length segs) = hdr_segment_count h /\ loaded s vs segs s' /\ rd (mm_mem s') (proc + 40) = hdr_entry h).

(** Storing the entry. *)
Lemma set_entry_step s0 vs segs s entry :
  loaded s0 vs segs s -> is_u32 entry ->
  wp (vm_mem (set_process_entry proc entry)) (fun _ s' => loaded s0 vs segs s' /\ rd (mm_mem s') (proc + 40) = entry) s.
Proof.
  intros [(ps & Hmm) L2 L3 L4 L5 L6 L7 L8] He.
  destruct (proc_at kheap_free_list s R vm ps _ Lo Hmm proc H_proc) as [Hp _]. apply vm_mem_wp. unfold set_process_entry.
  apply obj_store_wp; [done | lia | done|]. set (m' := wr (mm_mem s) (proc + 40) entry).
  pose proof (proc_word kheap_free_list R vm ps _ Lo proc H_proc H_vm s 40 Hmm ltac:(lia) ltac:(lia) ltac:(lia)) as Hc.
  destruct (mm_client_write kheap_free_list s R vm ps _ Lo m' Hmm) as (Hmm' & Htb & Hw).
  { apply mem_ok_wr; [apply (v_mem _ _ (mm_vm _ _ _ _ _ _ _ Hmm)) | done]. }
  { intros a. destruct (Z.eq_dec a (proc + 40)) as [->|Hne]; [by right|]. left. by apply rd_wr_ne. }
  assert (words_kept R s (with_mem m' s)) as Hwk.
  { intros x (H1 & H2 & H3 & H4). split.
    - apply rd_wr_ne. intros <-. apply H3, (obj_area _ _ _ _ _ _ _ proc sizeof_process _ Hmm H_proc). unfold sizeof_process. lia.
    - split; [done|]. split; [done|]. split; [done|]. intros Ht. by apply H4, (table_word_tbl _ _ _ _ Htb). }
  split; [|apply rd_wr_eq]. split; try done.
  - by exists ps.
  - intros q sz a Hq Ha N1 N2 N3. rewrite <- (L3 q sz a) by done. by apply rd_wr_ne.
  - by eapply words_kept_trans.
  - intros k sg ph Hk. destruct (L6 k sg ph Hk) as [Hb Hsg]. split; [done|]. apply (segment_same s0 s); [apply (mm_root _ _ _ _ _ _ _ Hmm) | done..].
  - intros r q Hr Hq Hout. rewrite <- (L8 r q) by done. by apply Hw.
Qed.

(** The next segment of the table. *)
Lemma next_segment_wp s ps vs h segs s1 i :
  can_load s ps vs -> 16 <= size -> bytes (mm_mem s) image 14 = encode_hdr h -> hdr_valid h ->
  Z.of_nat (length segs) = i -> i < hdr_segment_count h -> loaded s vs segs s1 ->
  vm_of (mm_mem s1) proc = vm /\ bytes (mm_mem s1) (seg_hdr_at i) 20 = bytes (mm_mem s) (seg_hdr_at i) 20 /\
  wp (load_segment kheap_free_list proc image size i) (fun r s2 =>
    match r with
    | inl _ => exists seg phys, bytes (mm_mem s) (seg_hdr_at i) 20 = encode_segment seg /\ seg_valid seg /\ loaded s vs (segs ++ [(seg, phys)]) s2
    | inr e => failed e s2
    end) s1.
Proof.
  intros [Hmm Hvm Hst Hsz Himg Htab Hends] H16 Hhb Hhv Hlen Hi Hld. specialize (Htab H16 h Hhb Hhv).
  destruct (Hhv) as (_ & _ & _ & _ & Hcnt). pose proof (mm_root _ _ _ _ _ _ _ Hmm) as Hr. destruct (ld_mm _ _ _ _ Hld) as [ps1 Hmm1].
  assert (Hseg : bytes (mm_mem s1) (seg_hdr_at i) 20 = bytes (mm_mem s) (seg_hdr_at i) 20).
  { apply bytes_ext. intros j Hj. apply rd8_word, (ld_words _ _ _ _ Hld), Himg. unfold seg_hdr_at. lia. }
  assert (vm_of (mm_mem s1) proc = vm) as Hvm1.
  { etrans; [|exact Hvm]. unfold vm_of. rewrite !(ld_objs _ _ _ _ Hld proc sizeof_process) by (done || unfold sizeof_process; lia). done. }
  split; [done|]. split; [done|]. unfold is_u16 in Hcnt.
  wp_use (load_segment_wp s1 ps1 (add_segs segs vs) i); [exact Hmm1 | done | | done | lia | lia | |].
  + intros a Ha. by apply (ld_words _ _ _ _ Hld), Himg.
  + intros seg Hb Hsv. apply (Hends H16 h i seg); [done | done | lia | by rewrite <- Hseg | done].
  + intros [[]|e] s2; [|done]. intros (seg & phys & Hb & Hat & Hstep & Hmm2). exists seg, phys. rewrite <- Hseg.
    split; [done|]. split; [apply (sg_valid _ _ _ _ Hat)|]. eapply loaded_snoc; try done. by rewrite Hlen, <- Hseg.
Qed.

Lemma process_load_wp s ps vs : can_load s ps vs -> wp (process_load kheap_free_list proc image size) (process_load_post s vs) s.
Proof.
  intros Hcl. destruct (Hcl) as [Hmm Hvm Hst Hsz Himg Htab Hends].
  destruct (proc_at kheap_free_list s R vm ps vs Lo Hmm proc H_proc) as [Hp _]. destruct (Hp) as (_ & Hlo & _).
  unfold process_load, NULL. destruct (H_img) as (Hi1 & Hi2 & Hi3). unfold KERNEL_VIRT_OFFSET in Hlo, Hi1.
  replace (proc =? 0) with false by lia. replace (image =? 0) with false by lia. cbn [orb].
  assert (Hfail : forall e, e < 0 -> process_load_post s vs e s) by (intros e He; left; split; [done | by exists ps, vs, Lo]).
  destruct (Z.eqb_spec size 0) as [|Hs0]; [wp_step; by apply Hfail|].
  wp_step. apply vm_mem_wp, process_state_wp; [done|]. rewrite with_mem_id, Hst, Z.eqb_refl. cbn [negb].
  wp_step. apply vm_mem_wp. wp_use parse_hdr_wp; [done|]. intros [h|e] m (-> & Hh); rewrite with_mem_id; [|wp_step; apply Hfail, Hh].
  destruct Hh as (H16 & Hhv & Hhb). specialize (Htab H16 h Hhb Hhv). destruct (Hhv) as (_ & _ & _ & Hent & Hcnt). wp_step.
  apply (wp_for_lt (fun i _ s1 => exists segs, Z.of_nat (length segs) = i /\ loaded s vs segs s1)).
  - exists []. split; [done|]. by eapply loaded_nil.
  - intros i [] s1 Hi (segs & Hlen & Hld).
    destruct (next_segment_wp s ps vs h segs s1 i Hcl H16 Hhb Hhv Hlen ltac:(lia) Hld) as (_ & _ & Hnext).
    eapply wp_mono; [exact Hnext|]. intros [[]|e] s2; [|intros He; left; exact He].
    intros (seg & phys & _ & _ & Hld2). exists (segs ++ [(seg, phys)]). split; [rewrite length_app; cbn [length]; lia | done].
  - intros [] s1 (segs & Hlen & Hld). wp_step. wp_use set_entry_step; [exact Hld | done|]. intros _ s2 (Hld2 & He). wp_step.
    right. split; [done|]. exists h, segs. split; [done|]. split; [done|]. split; [done|]. split; [lia | done].
Qed.
End Load.
End Spec.

(** ** The system image in the memory of the sample *)

Definition image_sample : Z := 3221241856.
Definition image_words : list Z := [1178752841; 65537; 4194304; 1; 4194304; 36; 2; 4096; 5; 65259].
Definition with_image (m : mem) : mem :=
  foldl (fun m (p : Z * Z) => wr m (image_sample + p.1) p.2) m (zip (map (fun i => 4 * Z.of_nat i) (seq 0 10)) image_words).

(** No page table of [R] meets the addresses from [lo] to [hi]. *)
Definition away (lo hi t : Z) : bool := (t + KERNEL_VIRT_OFFSET + 4096 <=? lo) || (hi <=? t + KERNEL_VIRT_OFFSET).
Definition tables_away (m : mem) (R : list Z) (lo hi : Z) : bool :=
  forallb (fun r => away lo hi r &&
    forallb (fun i => match tbl m r (Z.of_nat i) with Some t => away lo hi t | None => true end) (seq 0 1024)) R.

Lemma tables_away_ok m R lo hi a : tables_away m R lo hi = true -> lo <= a < hi -> ~ table_word m R a.
Proof.
  intros Hall Ha (t & Ht & Hta). unfold tables_away in Hall. rewrite forallb_forall in Hall.
  assert (away lo hi t = true) as Haw.
  { destruct Ht as [Ht|(r & i & Hr & Hi & Ht)].
    - apply list_elem_of_In, Hall, andb_true_iff in Ht. tauto.
    - apply list_elem_of_In, Hall, andb_true_iff in Hr as [_ Hr]. rewrite forallb_forall in Hr.
      specialize (Hr (Z.to_nat i)). rewrite Z2Nat.id, Ht in Hr by lia. apply Hr, in_seq. lia. }
  unfold away in Haw. apply orb_true_iff in Haw as [Haw%Z.leb_le|Haw%Z.leb_le]; lia.
Qed.

Lemma with_image_ne m a : ~ (image_sample <= a < image_sample + 40) -> rd (with_image m) a = rd m a.
Proof.
  intros Ha. unfold with_image, image_words. cbn [seq map zip zip_with foldl fst snd]. unfold image_sample in *.
  rewrite !rd_wr_ne by lia. done.
Qed.

Lemma with_image_ok m : mem_ok m -> mem_ok (with_image m).
Proof.
  intros Hm. unfold with_image, image_words. cbn [seq map zip zip_with foldl fst snd].
  repeat (apply mem_ok_wr; [|unfold is_u32; lia]). exact Hm.
Qed.

Lemma with_image_bytes m n k : (n + k <= 40)%nat ->
  bytes (with_image m) (image_sample + Z.of_nat n) k = bytes (with_image ∅) (image_sample + Z.of_nat n) k.
Proof.
  intros Hn. apply bytes_ext. intros i Hi. apply rd8_word. unfold wd, with_image, image_words.
  cbn [seq map zip zip_with foldl fst snd].
  repeat match goal with |- rd (wr ?m1 ?a ?v) ?x = rd (wr ?m2 ?a ?v) ?x => destruct (Z.eq_dec a x) as [<-|?];
    [by rewrite !rd_wr_eq | rewrite !(rd_wr_ne _ a x) by done] end.
  exfalso. unfold image_sample in *. cbn [Z.of_nat Pos.of_succ_nat Pos.succ Z.mul Z.add] in *. dlia.
Qed.

(** The header and the segment the parsers find in it. *)
Lemma sample_hdr m h : bytes (with_image m) image_sample 14 = encode_hdr h -> hdr_valid h -> h = mk_hdr IWBF_HDR_MAGIC 1 1 4194304 1.
Proof.
  rewrite <- (Z.add_0_r image_sample). change 0 with (Z.of_nat 0). rewrite with_image_bytes by lia. intros Hb Hv.
  set (b := bytes (with_image ∅) (image_sample + Z.of_nat 0) 14) in *.
  destruct (parse_hdr_exact (b ++ [0; 0]) 16) as [_ Hex].
  { apply Forall_app. split; [apply bytes_u8 | repeat (constructor; [by unfold is_u8|]); constructor]. }
  { split; [done|]. by vm_compute. }
  assert (take 14 (b ++ [0; 0]) = encode_hdr h) as Ht by (rewrite <- Hb; reflexivity).
  pose proof (proj2 (Hex h) (conj (Z.le_refl 16) (conj Hv Ht))) as E.
  assert (iwbf_parse_hdr (Some (b ++ [0; 0])) 16 true = Some (KERR_OK, Some (mk_hdr IWBF_HDR_MAGIC 1 1 4194304 1))) as E2
    by (vm_compute; reflexivity).
  rewrite E2 in E. by injection E.
Qed.

Lemma sample_seg m seg : bytes (with_image m) (seg_hdr_at image_sample 0) 20 = encode_segment seg -> seg_valid seg ->
  seg = mk_seg 4194304 36 2 4096 5.
Proof.
  unfold seg_hdr_at. change (16 + 20 * 0) with (Z.of_nat 16). rewrite with_image_bytes by lia. intros Hb Hv.
  set (b := bytes (with_image ∅) (image_sample + Z.of_nat 16) 20) in *.
  destruct (parse_segment_exact b 20) as [_ Hex]; [apply bytes_u8 | split; [done | by vm_compute]|].
  assert (take 20 b = encode_segment seg) as Ht by (rewrite <- Hb; reflexivity).
  pose proof (proj2 (Hex seg) (conj (Z.le_refl 20) (conj Hv Ht))) as E.
  assert (iwbf_parse_segment_hdr (Some b) 20 true = Some (KERR_OK, Some (mk_seg 4194304 36 2 4096 5))) as E2
    by (vm_compute; reflexivity).
  rewrite E2 in E. by injection E.
Qed.

(** The image can be loaded into a process that is as [created] says. *)
Lemma image_sample_ok s R vm vs ps Lo proc :
  mm_ok sentinel s R vm ps vs Lo -> (proc, sizeof_process) ∈ Lo -> vm_of (mm_mem s) proc = vm ->
  rd (mm_mem s) (proc + 8) = PROCESS_CREATED -> vmm_heap_end s <= image_sample -> fa_used (mm_frames s) 4 = true ->
  tables_away (mm_mem s) R image_sample (image_sample + 40) = true ->
  can_load sentinel R vm Lo proc image_sample 38 (with_mem (with_image (mm_mem s)) s) ps vs.
Proof.
  intros Hmm Hin Hvm Hst Hend Hu Haway.
  assert (Hkept : forall a, image_sample <= a < image_sample + 40 -> kept_word sentinel R s a).
  { intros a Ha. split; [unfold image_sample, KERNEL_VIRT_OFFSET in *; lia|].
    split; [replace ((a - KERNEL_VIRT_OFFSET) / 4096) with 4 by (unfold image_sample, KERNEL_VIRT_OFFSET in *; dlia); done|].
    split; [unfold heap_area, sentinel, image_sample in *; lia | by eapply tables_away_ok]. }
  destruct (mm_client_write sentinel s R vm ps vs Lo (with_image (mm_mem s)) Hmm) as (Hmm' & Htb & _).
  { apply with_image_ok, (v_mem _ _ (mm_vm _ _ _ _ _ _ _ Hmm)). }
  { intros a. destruct (decide (image_sample <= a < image_sample + 40)) as [Ha|Ha]; [right; by eapply kept_client, Hkept|].
    left. by apply with_image_ne. }
  assert (Hobj : forall k, 0 <= k < 52 -> rd (with_image (mm_mem s)) (proc + k) = rd (mm_mem s) (proc + k)).
  { intros k Hk. apply with_image_ne. intros Ha. destruct (Hkept _ Ha) as (_ & _ & Hn & _). apply Hn.
    apply (obj_area _ _ _ _ _ _ _ proc sizeof_process _ Hmm Hin). unfold sizeof_process. lia. }
  split.
  - exact Hmm'.
  - rewrite with_mem_mem. rewrite <- Hvm. unfold vm_of. by rewrite !Hobj by lia.
  - rewrite with_mem_mem, Hobj by lia. exact Hst.
  - by unfold is_u32.
  - intros a Ha. destruct (Hkept (wd a)) as (H1 & H2 & H3 & H4); [unfold wd, image_sample in *; dlia|].
    split; [done|]. split; [done|]. split; [done|]. intros Ht. by apply H4, (table_word_tbl _ _ _ _ Htb).
  - intros _ h Hh Hv. rewrite with_mem_mem in Hh. rewrite (sample_hdr _ _ Hh Hv). cbn. lia.
  - intros _ h i seg Hh Hv Hi Hb Hsv. rewrite with_mem_mem in Hh, Hb. rewrite (sample_hdr _ _ Hh Hv) in Hi. cbn in Hi.
    replace i with 0 in Hb by lia. rewrite (sample_seg _ _ Hb Hsv). cbn. lia.
Qed.

(** What a run tells of the created process of the sample. *)
Definition load_run (v : mm) : option Z := option_map fst (process_load sentinel 3221233680 image_sample 38 (with_mem (with_image (mm_mem v)) v)).
Definition loadable (v : mm) : bool :=
  (vmm_heap_end v <=? image_sample) && fa_used (mm_frames v) 4 &&
  (rd (mm_mem v) (3221233680 + 20) + 4294967296 * rd (mm_mem v) (3221233680 + 24) =? 139264) &&
  tables_away (mm_mem v) [139264; 131072] image_sample (image_sample + 40) &&
  match load_run v with Some e => e =? KERR_OK | None => false end.

Lemma loadable_spec v : loadable v = true ->
  vmm_heap_end v <= image_sample /\ fa_used (mm_frames v) 4 = true /\
  rd (mm_mem v) (3221233680 + 20) + 4294967296 * rd (mm_mem v) (3221233680 + 24) = 139264 /\
  tables_away (mm_mem v) [139264; 131072] image_sample (image_sample + 40) = true /\ load_run v = Some KERR_OK.
Proof.
  unfold loadable. rewrite !andb_true_iff, Z.leb_le, Z.eqb_eq. intros ((((H1 & H2) & H3) & H4) & H5).
  split; [done|]. split; [done|]. split; [done|]. split; [done|]. destruct (load_run v) as [e|]; [|done].
  by apply Z.eqb_eq in H5 as ->.
Qed.

Lemma created_sample : exists s pid t pos, created sentinel procs_sample [131072] [] 3221225600 3221233680 s pid t pos /\
  loadable (pr_vmm s) = true.
Proof.
  assert (option_map fst (process_create sentinel 3221225600 procs_sample) = Some 3221233680) as E by (vm_compute; reflexivity).
  assert (option_map (fun r => loadable (pr_vmm (snd r))) (process_create sentinel 3221225600 procs_sample) = Some true) as E2
    by (vm_compute; reflexivity).
  pose proof (process_create_wp sentinel procs_sample [131072] [] 3221225600 procs_sample_ok
    ltac:(unfold is_u32; lia) ltac:(lia)) as Hc.
  revert E E2 Hc. generalize procs_sample as s0. intros s0 E E2 Hc.
  apply wp_run in Hc as (proc & s & Hrun & Hpost). rewrite Hrun in E, E2. injection E as ->.
  destruct Hpost as [[E' _]|(_ & pid & t & pos & Hcr)]; [discriminate E'|].
  exists s, pid, t, pos. split; [exact Hcr|]. apply (inj Some) in E2. exact E2.
Qed.

(** ** Properties *)


