(* ===== verification/Progress.v ===== *)
(** * Enough memory for a process

    The theorems on the start of a process say what holds when a call succeeds and what
    it keeps when it fails.  Here: with enough free frames in LowMem, room on the heap and
    a free stack slot it does not fail.  First fit spends frames from one run, so the
    frames a call takes add up ([has_room]); the heap needs no tracking, the objects on it
    say whether a request fits ([heap_fits]). *)

From S2P Require Import Prelude Base Memory KList KMem Bitmap Pmm Frames Kheap KheapClient HeapLive Paging PagingProps KernelVm Vmm Words VmaList Mm MmInit VmSpace Iwbf Hal Descriptors Process ProcessProps ProcessStart ProcessLoad.

Lemma ends_bind_wp {S A B} (c : M S A) (k : A -> M S B) P Q s :
  wp c P s -> ends c (fun a s' => P a s' -> ends (k a) Q s') s -> ends (bind c k) Q s.
Proof. intros Hp Hc. apply ends_bind. intros a s' E. apply (Hc a s' E). by apply (ends_wp _ _ _ Hp). Qed.

Lemma ends_mono {S A} (c : M S A) (P Q : A -> S -> Prop) s : ends c P s -> (forall a s', P a s' -> Q a s') -> ends c Q s.
Proof. intros H HQ a s' E. by apply HQ, H. Qed.

Lemma ends_typed {S A} (I : S -> Prop) (c : M S A) P s : typed I c P -> I s -> ends c (fun a s' => I s' /\ P a) s.
Proof. intros Hc Hs a s' E. by apply (Hc s a s'). Qed.

(** ** Pages *)

Section Pages.
Context {A : Type} `{FrameAllocatorLaws A}.

(** Accesses to memory keep the frames. *)
Lemma frames_mem (f : A) {B} (c : M mem B) : typed (fun s => vs_frames s = f) (zoom vs_mem set_vs_mem c) any.
Proof. intros s x s' Hs. unfold zoom. destruct (c (vs_mem s)) as [[y m]|]; [|done]. by intros [= <- <-]. Qed.

Lemma has_room_le k n (s : vmstate A) : 0 <= n -> has_room (k + n) s -> has_room k s.
Proof. intros Hn [Hok Hr]. split; [done | by eapply lowmem_room_le]. Qed.

(** One page takes one frame at most, for its table. *)
Lemma map_page_room (s : vmstate A) R r virt phys flags off k :
  vm_ok s R -> r ∈ R -> is_u64 (phys + off) -> (phys + off) mod 4096 = 0 -> 0 <= k -> has_room (1 + k) s ->
  walk (vs_mem s) r (u32 (virt + off) / 4096) = None ->
  ends (map_page (PHYS_TO_VIRT r) virt phys flags off) (fun res s' => res = inl tt /\ has_room k s') s.
Proof.
  intros Hok Hr Hpa Hal Hk Hroom Hw. set (va := u32 (virt + off)) in *. set (i := va / 4096 / 1024).
  assert (ends (map_page (PHYS_TO_VIRT r) virt phys flags off) (fun _ s' => tbl (vs_mem s) r i = None ->
    has_room k s' /\ vs_frames s' <> vs_frames s) s) as Halloc.
  { unfold map_page. fold va. destruct (va_indices va (u32_range _)) as (E1 & E2 & Hi & _). rewrite E1, E2. fold i.
    destruct (entry_addr _ r i (t_root _ _ _ (v_tables _ _ Hok) r Hr) Hi) as [Ea Hv]. rewrite Ea.
    apply ends_bind, ends_zoom, ends_wp, load32_wp; [done|]. rewrite set_vs_mem_id. fold (pde_at (vs_mem s) r i).
    unfold X86_PDE_PRESENT. rewrite land_bit_zero by lia.
    destruct (Z.testbit (pde_at (vs_mem s) r i) 0) eqn:Eb; cbn [negb].
    { intros a s' _ Ht. exfalso. unfold tbl in Ht. rewrite Eb, (t_present _ _ _ (v_tables _ _ Hok) r i Hr Hi Eb) in Ht. done. }
    apply ends_bind, ends_bind, ends_zoom, ends_wp. destruct Hroom as [Hf Hroom].
    wp_use alloc_lowmem_room; [exact Hf | lia | unfold is_u32; lia | exact Hk | exact Hroom |].
    intros x a' ([t ->] & (f & _ & _ & Hf0 & _ & Hfree & Hok' & _ & Hu) & Hr').
    assert (a' <> vs_frames s) as Hne.
    { intros E. specialize (Hu f Hf0). rewrite E, Hfree in Hu by lia. replace ((f <=? f) && (f <? f + 1)) with true in Hu by lia. done. }
    do 3 (apply ends_bind, ends_zoom, ends_any; intros ? ?). apply ends_ret.
    apply ends_bind, ends_zoom, ends_any. intros pte m. destruct (negb _); [by apply ends_ret|].
    apply ends_bind, ends_zoom, ends_any. intros [] m'. apply ends_bind. unfold x86_invlpg. intros ? ? [= _ <-]. by apply ends_ret. }
  intros res s' E. specialize (Halloc res s' E).
  pose proof (ends_wp _ _ _ (map_page_wp s R r virt phys flags off Hok Hr Hpa Hal) res s' E) as Hpost. fold va in Hpost.
  destruct res as [[]|e]; cbn [map_page_post] in Hpost; fold i in Hpost.
  - destruct Hpost as (_ & _ & _ & _ & Hfr). split; [done|]. destruct (tbl (vs_mem s) r i) eqn:Et.
    + replace (1 + k) with (k + 1) in Hroom by lia. destruct (has_room_le k 1 s ltac:(lia) Hroom) as [R1 R2]. by split; rewrite Hfr.
    + by apply Halloc.
  - exfalso. destruct Hpost as (-> & _ & [[Hne _]|[_ Hnone]]); [done|]. by destruct (Halloc Hnone).
Qed.

(** A range takes as many as it has pages. *)
Lemma arch_vm_map_room (s : vmstate A) R v virt phys size flags k :
  vm_ok s R -> pd_phys v ∈ R -> map_args_ok virt phys size -> 0 <= virt -> virt + size <= 4294967296 ->
  0 <= phys -> phys + size <= 18446744073709551616 -> 0 <= k -> has_room (size / 4096 + k) s ->
  (forall i, 0 <= i < size / 4096 -> walk (vs_mem s) (pd_phys v) (virt / 4096 + i) = None) ->
  ends (arch_vm_map (Some v) virt phys size flags) (fun res s' => res = KERR_OK /\ has_room k s') s.
Proof.
  intros Hok Hr (Hs & A1 & A2 & A3) Hv0 Hv1 Hp0 Hp1 Hk Hroom Hun. unfold arch_vm_map.
  replace (size =? 0) with false by lia. rewrite align_tests, bool_decide_true by done. cbn [negb].
  apply ends_bind. unfold X86_PAGE_SIZE.
  apply (ends_for_lt (fun i _ s' => vm_ok s' R /\ has_room (size / 4096 - i + k) s' /\
    forall j, i <= j < size / 4096 -> walk (vs_mem s') (pd_phys v) (virt / 4096 + j) = None)).
  - dlia.
  - split; [done|]. by rewrite Z.sub_0_r.
  - intros i [] s1 Hi (Hok1 & Hroom1 & Hun1).
    assert (u32 (virt + i * 4096) = virt + i * 4096) as Eva by (apply u32_id; unfold is_u32; dlia).
    assert ((virt + i * 4096) / 4096 = virt / 4096 + i) as Ep by dlia.
    intros res s2 E.
    pose proof (ends_wp _ _ _ (map_page_wp s1 R (pd_phys v) virt phys flags (i * 4096) Hok1 Hr ltac:(unfold is_u64; dlia) ltac:(dlia)) res s2 E) as Hpost.
    destruct (map_page_room s1 R (pd_phys v) virt phys flags (i * 4096) (size / 4096 - (i + 1) + k) Hok1 Hr
      ltac:(unfold is_u64; dlia) ltac:(dlia) ltac:(lia) ltac:(by replace (1 + (size / 4096 - (i + 1) + k)) with (size / 4096 - i + k) by lia)
      ltac:(rewrite Eva, Ep; apply Hun1; lia) res s2 E) as [-> Hroom2].
    cbn [map_page_post] in Hpost. destruct Hpost as (_ & Hst & Hset & _). split; [apply (ps_ok _ _ _ _ Hst)|]. split; [done|].
    intros j Hj. rewrite Hset by (done || dlia). rewrite Eva, Ep. replace (virt / 4096 + j =? virt / 4096 + i) with false by lia.
    apply Hun1. lia.
  - intros [] s1 (_ & Hroom1 & _). apply ends_ret. split; [done|]. by replace (size / 4096 - size / 4096 + k) with k in Hroom1 by lia.
Qed.
End Pages.

(** ** Address spaces *)

Section Spaces.
Variable kheap_free_list : Z.
Abbreviation mm_ok := (mm_ok kheap_free_list).
Abbreviation mm_inv := (mm_inv kheap_free_list).

(** Mapping a range takes a frame for each page at most, and a VMA. *)
Lemma vm_map_room s R vm ps vs Lo virt phys size flags k :
  mm_ok s R vm ps vs Lo -> is_u32 virt -> is_u32 size -> is_u64 phys -> is_u32 flags -> virt + size <> 4294967296 ->
  map_ok virt phys size -> (forall v, v ∈ vs -> overlaps virt (virt + size) v = false) -> vma_fits (vmm_heap s) vs Lo ->
  (forall i, 0 <= i < size / 4096 -> walk (mm_mem s) (pd_phys (vm_arch vm)) (virt / 4096 + i) = None) ->
  0 <= k -> has_room (size / 4096 + k) (mm_vs s) ->
  ends (vm_map kheap_free_list (Some vm) virt phys size flags) (fun res s' => res = KERR_OK /\ has_room k (mm_vs s')) s.
Proof.
  intros Hmm Hv Hs Hp Hf Hne Hok Hno Hfit Hun Hk Hroom. unfold vm_map.
  pose proof (map_ok_check virt phys size Hv Hs Hp Hne) as Hc. inversion Hc as [_ Eb|Hbad]; [|done].
  symmetry in Eb. rewrite !andb_true_iff, !negb_true_iff in Eb. destruct Eb as [[[-> ->] ->] ->]. cbn [negb].
  destruct (Hok) as ((Hs0 & Hva & Hsa & Hve) & Hpa & Hpe). change VM_USER_END with 3221225472 in Hve.
  eapply ends_bind_wp; [eapply add_vma_mm_wp; [exact Hmm | done..|]; by destruct Hok|].
  apply ends_zoom, ends_any. intros res h [(_ & _ & v & Hin & Hov)|(_ & [(_ & _ & Hfull)|(-> & _ & Hf1 & (ps1 & Hmm1) & _ & Hw1)])].
  { rewrite Hno in Hov by done. done. }
  { done. }
  change (KERR_OK <? 0) with false. cbn iota.
  apply ends_bind, ends_zoom, ends_zoom. eapply ends_mono.
  - apply (arch_vm_map_room _ R (vm_arch vm) virt phys size flags k); [apply (mm_vm _ _ _ _ _ _ _ Hmm1) | apply (mm_root _ _ _ _ _ _ _ Hmm)
      | unfold map_args_ok; tauto | unfold is_u32, is_u64 in *; lia.. | done | |].
    + destruct Hroom as [_ Hroom]. split; [apply (v_frames _ _ (mm_vm _ _ _ _ _ _ _ Hmm1)) | by rewrite Hf1].
    + intros i Hi. rewrite Hw1; [by apply Hun | apply (mm_root _ _ _ _ _ _ _ Hmm) | unfold is_u32 in *; dlia].
  - intros res s' [-> Hr']. change (KERR_OK <? 0) with false. by apply ends_ret.
Qed.

(** A new address space takes a frame. *)
Lemma vm_space_init_room (s : mm) v k : 0 <= k -> has_room (1 + k) (mm_vs s) ->
  ends (vm_space_init (Some v)) (fun r s' => fst r = KERR_OK /\ has_room k (mm_vs s')) s.
Proof.
  intros Hk Hroom. apply ends_bind, ends_zoom, ends_zoom, ends_any. intros [] m.
  apply ends_bind, ends_zoom, ends_zoom. eapply ends_mono; [apply (space_init_room _ _ k); [done | exact Hroom]|].
  intros [e a] vs' [E Hr]. cbn [fst] in E. subst e. change (KERR_OK <? 0) with false. cbn iota zeta.
  apply ends_bind, ends_zoom. unfold vm_kern_attach. apply ends_bind. intros ? ? [= <- <-]. apply ends_zoom, ends_bind.
  eapply ends_mono; [apply (ends_typed (fun s => vs_frames s = vs_frames vs') _ any); [|done]|].
  - apply typed_for_each. intros i _. eapply typed_bind; [apply frames_mem|]. intros w _. apply frames_mem.
  - intros [] s' [E _]. apply ends_ret. change (KERR_OK <? 0) with false. apply ends_ret. split; [done|].
    destruct Hr as [R1 R2]. unfold has_room. cbn. by rewrite E.
Qed.

(** *** Kernel stacks *)

Abbreviation kwalk s p := (walk (vs_mem (kv_vm s)) (pd_phys (kernel_vm s)) p).

(** The window's table is there: a page of the stack takes its frame only. *)
Lemma kstack_page_room R (s0 s : kvm pmm) p0 fs k :
  stack_grown R s0 s p0 fs -> 983040 <= p0 -> p0 + Z.of_nat (length fs) < 984064 ->
  kwalk s0 (p0 + Z.of_nat (length fs)) = None -> 0 <= k -> has_room (1 + k) (kv_vm s) ->
  ends (kstack_page (4096 * (p0 + Z.of_nat (length fs)))) (fun res s' => res = inl tt /\ has_room k (kv_vm s')) s.
Proof.
  intros [Hst Hbm Hnd Hfresh Hused Hfree Hwalk] Hp0 Hp1. remember (Z.of_nat (length fs)) as n eqn:En. intros Hn Hk [Hf Hroom].
  destruct (Hst) as [Hok Hprep Hkv Htot _ _ _]. unfold kstack_page, kv_alloc_any.
  apply ends_bind, ends_zoom, ends_zoom, ends_wp.
  wp_use alloc_any_room; [exact Hf | lia | unfold is_u32; lia | exact Hk | exact Hroom |].
  intros r a' ([addr ->] & (f & -> & _ & Hf0 & Hf1 & Hf2 & Ha' & Ht' & Hu') & Hr').
  assert (kvm_step R s (set_kv_vm (set_vs_frames a' (kv_vm s)) s)) as Hs1.
  { apply kvm_step_frames; [done | done | done | done|]. intros g Hg Htg. rewrite Hu' by done.
    destruct (Z.eq_dec g f) as [->|]; [by destruct (free_not_table s R f Hok); [apply Hf2; lia|]|].
    by replace ((f <=? g) && (g <? f + 1)) with false by lia. }
  set (s1 := set_kv_vm _ s) in *. pose proof (fa_total_bound _ Ha') as Hb. change arch_vm_page_size with 4096.
  apply ends_bind, ends_wp.
  wp_use (vm_kern_map_page_wp s1 R); [apply Hs1 | apply Hs1 | unfold KERNEL_STACK_BASE; lia | lia | dlia | lia | lia | dlia|].
  replace (4096 * (p0 + n) / 4096) with (p0 + n) by dlia.
  intros e s2 (_ & _ & Hfr2 & [(-> & _)|(_ & Hw & _)]).
  - change (KERR_OK <? 0) with false. apply ends_ret. split; [done|]. split; by rewrite Hfr2.
  - exfalso. apply Hw. change (kwalk s1 (p0 + n)) with (kwalk s (p0 + n)). rewrite Hwalk by lia.
    by replace ((p0 <=? p0 + n) && (p0 + n <? p0 + n)) with false by lia.
Qed.

(** A stack slot is free, and no page of a free slot is mapped. *)
Definition stack_slots (s : kvm pmm) : Prop :=
  (exists pos, 0 <= pos < KERNEL_STACK_MAX /\ bit (kernel_stack_bm s) pos = false) /\
  forall pos i, 0 <= pos < KERNEL_STACK_MAX -> bit (kernel_stack_bm s) pos = false -> 0 <= i < 4 -> kwalk s (stack_page pos + i) = None.

Lemma kstack_alloc_room R (s : kvm pmm) st k :
  kvm_ok s R -> prepared s -> ks_base st = 0 -> ks_size st = 0 -> stack_slots s -> 0 <= k -> has_room (4 + k) (kv_vm s) ->
  ends (kstack_alloc (Some st)) (fun r s' => fst r = KERR_OK /\ has_room k (kv_vm s')) s.
Proof.
  intros Hok Hprep Hb Hs [(pos0 & Hpos0 & Hbit0) Hun] Hk Hroom. destruct (Hok) as [_ _ [Hbm Hnb]].
  unfold kstack_alloc. rewrite Hb, Hs. cbn [Z.eqb negb orb].
  apply ends_bind, ends_zoom, ends_wp, bitmap_find_zero_wp; [done|]. intros [pos|] Hpos.
  2: { unfold is_first_clear in Hpos. rewrite Hnb in Hpos. by rewrite Hpos in Hbit0. }
  assert (0 <= pos < 64 /\ bit (kernel_stack_bm s) pos = false) as [Hp Hbit].
  { destruct Hpos as (Hpos & Hbit & _). by rewrite Hnb in Hpos. }
  assert (set_kernel_stack_bm (kernel_stack_bm s) s = s) as -> by (by destruct s).
  destruct (stack_page_bounds pos Hp) as [Hb1 Hb2]. apply ends_bind.
  apply (ends_for_lt (fun i _ s1 => has_room (4 - i + k) (kv_vm s1) /\ exists fs, Z.of_nat (length fs) = i /\ stack_grown R s s1 (stack_page pos) fs)).
  - done.
  - split; [done|]. exists []. split; [done|]. by apply stack_grown_nil.
  - intros i [] s1 Hi (Hr1 & fs & Hlen & Hg). destruct (stack_va pos i Hp Hi) as [-> _]. rewrite <- Hlen.
    unfold KERNEL_STACK_PAGES in Hi. intros res s2 E.
    destruct (kstack_page_room R s s1 (stack_page pos) fs (4 - (i + 1) + k) Hg ltac:(lia) ltac:(lia)
      ltac:(apply Hun; [done | done | lia]) ltac:(lia) ltac:(by replace (1 + (4 - (i + 1) + k)) with (4 - i + k) by lia) res s2 E) as [-> Hr2].
    destruct (ends_wp _ _ _ (kstack_page_wp R s s1 (stack_page pos) fs Hg ltac:(lia) ltac:(lia)) _ _ E) as [f Hg2].
    rewrite Hlen. split; [done|]. exists (fs ++ [f]). split; [rewrite length_app; cbn [length]; lia | done].
  - intros [] s1 (Hr1 & _). apply ends_bind, ends_zoom, ends_any. intros [] b'. apply ends_ret. done.
Qed.
End Spaces.

(** ** Processes *)

Section Processes.
Variable kheap_free_list : Z.
Abbreviation mm_ok := (mm_ok kheap_free_list).
Abbreviation mm_inv := (mm_inv kheap_free_list).
Abbreviation vm_mem c := (zoom vmm_heap set_vmm_heap (zoom kh_mem set_kh_mem c)).

Lemma has_room_frames k (s s' : mm) : mm_frames s' = mm_frames s -> has_room k (mm_vs s) -> has_room k (mm_vs s').
Proof. intros E [R1 R2]. split; by rewrite E. Qed.

Lemma stack_slots_same (s s' : mm) : same_kernel s s' ->
  (forall q, 0 <= q < 1048576 -> walk (mm_mem s') (pd_phys (kernel_vm (vmm_kvm s))) q = walk (mm_mem s) (pd_phys (kernel_vm (vmm_kvm s))) q) ->
  stack_slots (vmm_kvm s) -> stack_slots (vmm_kvm s').
Proof.
  intros (E1 & E2 & _) Hw [Hfree Hun]. unfold stack_slots. rewrite E1, E2. split; [done|]. intros pos i Hp Hb Hi.
  rewrite Hw by (pose proof (stack_page_bounds pos Hp); lia). by apply Hun.
Qed.

Lemma vm_stage_room (s : mm) p k : 0 <= k -> has_room (1 + k) (mm_vs s) ->
  ends (with_vm p vm_space_init) (fun e s' => e = KERR_OK /\ has_room k (mm_vs s')) s.
Proof.
  intros Hk Hroom. apply ends_bind, ends_zoom, ends_zoom, ends_any. intros v m. apply ends_bind.
  eapply ends_mono; [by apply (vm_space_init_room _ v k)|]. intros [e v'] s' [He Hr]. cbn [fst] in He. subst e.
  apply ends_bind, ends_zoom, ends_zoom, ends_any. intros [] m'. by apply ends_ret.
Qed.

Lemma kstack_stage_room (s : mm) R L p k :
  mm_inv s R L -> (p, sizeof_process) ∈ L -> kvm_ok (vmm_kvm s) R -> prepared (vmm_kvm s) ->
  kstack_of (mm_mem s) p = mk_kstack 0 0 0 -> stack_slots (vmm_kvm s) -> 0 <= k -> has_room (4 + k) (mm_vs s) ->
  ends (with_kstack p kstack_alloc) (fun e s' => e = KERR_OK /\ has_room k (mm_vs s')) s.
Proof.
  intros Hmi Hin Hok Hprep Hz Hslots Hk Hroom. destruct (proc_obj _ _ _ _ _ Hmi Hin) as (Hp & _).
  apply ends_bind, ends_zoom, ends_zoom, ends_wp, process_kstack_wp; [done|]. change (kh_mem (vmm_heap s)) with (mm_mem s).
  change (set_vmm_heap (set_kh_mem (mm_mem s) (vmm_heap s)) s) with (set_vmm_heap (vmm_heap s) s). rewrite set_vmm_heap_id, Hz.
  apply ends_bind, ends_zoom. eapply ends_mono; [by apply (kstack_alloc_room R _ (mk_kstack 0 0 0) k)|].
  intros [e st] k' [He Hr]. cbn [fst] in He. subst e. apply ends_bind, ends_zoom, ends_zoom, ends_any. intros [] m'. by apply ends_ret.
Qed.

(** What [process_create] needs: a PID, room on the heap for the structure, a frame for
    the directory, a stack slot and four frames for the stack. *)
Record create_room (s : procs pmm) (L : list (Z * Z)) (k : Z) : Prop := {
  cn_pid : exists pid, 0 <= pid < PID_MAX /\ bit (pid_bm s) pid = false;
  cn_heap : heap_fits (vmm_heap (pr_vmm s)) L sizeof_process;
  cn_slots : stack_slots (vmm_kvm (pr_vmm s));
  cn_frames : 0 <= k /\ has_room (5 + k) (mm_vs (pr_vmm s))
}.

Lemma process_create_room s R L name k :
  procs_ok kheap_free_list s R L -> is_u32 name -> name <> 0 -> create_room s L k ->
  ends (process_create kheap_free_list name) (fun p s' => KERR_PTR_IS_ERR p = false /\ has_room k (mm_vs (pr_vmm s'))) s.
Proof.
  intros Hok Hu Hn [(pid0 & Hpid0 & Hbit0) Hheap Hslots [Hk Hroom]].
  destruct (Hok) as [Hmm Hkvm Hprep [Hpids H0] Htab]. unfold process_create, NULL.
  replace (name =? 0) with false by lia. apply ends_bind, ends_zoom, ends_wp. wp_use pid_alloc_wp; [exact Hpids|].
  intros pid b1 [(Hfull & _)|(_ & Hpid & _)]; [by rewrite Hfull in Hbit0|].
  unfold KERR_IS_ERR at 1. replace (pid <? 0) with false by lia. procs_simpl.
  apply ends_bind, ends_zoom, ends_wp. cbn [pr_vmm]. wp_use kmalloc_mm_wp; [exact Hmm | by unfold sizeof_process|].
  intros p v1 [(_ & _ & Hfull)|(Hp & Hmi1 & Hk1)]; [done|]. rewrite Hp. procs_simpl.
  apply ends_bind, ends_zoom, ends_wp. cbn [pr_vmm]. wp_use zero_proc_wp; [exact Hmi1 | apply list_elem_of_here|].
  intros _ v2 (Hmi2 & Hk2 & Hz). procs_simpl. apply ends_bind, ends_zoom, ends_wp. cbn [pr_vmm].
  wp_use (fields_proc_wp kheap_free_list v2 R ((p, sizeof_process) :: L) p name pid);
    [exact Hmi2 | apply list_elem_of_here | done | unfold is_u32, PID_MAX in *; lia | exact Hz|].
  intros _ v3 (Hmi3 & Hk3 & Hnew). procs_simpl.
  pose proof (object_intro _ _ _ _ _ _ _ _ _ _ Hmi1 Hmi2 Hmi3 Hk1 Hk2 Hk3 Hnew) as Hob. pose proof (kv_root _ _ Hkvm) as Hr.
  assert (has_room (1 + (4 + k)) (mm_vs v3)) as Hr3.
  { replace (1 + (4 + k)) with (5 + k) by lia. apply (has_room_frames _ (pr_vmm s)); [apply (ob_frames _ _ _ _ _ _ _ _ Hob) | done]. }
  pose proof (vm_stage_wp kheap_free_list v3 R _ p name pid Hmi3 (list_elem_of_here _ _)
    ltac:(by rewrite (lt_kernel _ _ _ _ (ob_later _ _ _ _ _ _ _ _ Hob))) Hnew) as Hwp.
  apply ends_bind, ends_zoom. cbn [pr_vmm]. intros e v4 E. pose proof (ends_wp _ _ _ Hwp e v4 E) as Hst.
  destruct (vm_stage_room v3 p (4 + k) ltac:(lia) Hr3 e v4 E) as [-> Hr4]. destruct (Hst) as (K4 & W4 & _).
  destruct (object_space _ _ _ _ _ _ _ _ _ _ Hr Hob Hst) as [(He & _)|(_ & t & Hfresh)]; [by destruct He|].
  destruct (fresh_kvm _ _ _ _ _ _ _ _ _ Hok Hfresh) as [Hkvm4 Hprep4].
  change (KERR_IS_ERR KERR_OK) with false. procs_simpl. apply ends_bind, ends_zoom. cbn [pr_vmm]. eapply ends_mono.
  - apply (kstack_stage_room v4 (t :: R) ((p, sizeof_process) :: L) p k); [apply (fr_inv _ _ _ _ _ _ _ _ _ Hfresh)
      | apply list_elem_of_here | done | done | apply (fr_kstack _ _ _ _ _ _ _ _ _ Hfresh) | | done | done].
    apply (stack_slots_same (pr_vmm s)); [| | done].
    + repeat (eapply same_kernel_trans; [eapply mk_kernel; done|]). done.
    + intros q Hq. by rewrite W4, (mk_walk _ _ _ _ Hk3), (mk_walk _ _ _ _ Hk2), (mk_walk _ _ _ _ Hk1).
  - intros e v5 [-> Hr5]. change (KERR_IS_ERR KERR_OK) with false. procs_simpl. apply ends_bind. intros [] s6 E6.
    unfold write_table in E6. destruct (_ && _); [|done]. injection E6 as <-. apply ends_ret. split; [done | exact Hr5].
Qed.

(** *** Loading *)

Lemma segment_unique m p seg seg' : seg_valid seg -> seg_valid seg' ->
  bytes m p 20 = encode_segment seg -> bytes m p 20 = encode_segment seg' -> seg' = seg.
Proof.
  intros V V' E E'. destruct (parse_segment_exact (bytes m p 20) 20) as [_ Hex]; [apply bytes_u8 | by rewrite length_bytes|].
  assert (take 20 (bytes m p 20) = bytes m p 20) as Et by (apply take_ge; by rewrite length_bytes).
  pose proof (proj2 (Hex seg) (conj (Z.le_refl 20) (conj V (eq_trans Et E)))) as H1.
  pose proof (proj2 (Hex seg') (conj (Z.le_refl 20) (conj V' (eq_trans Et E')))) as H2. congruence.
Qed.

Lemma header_unique m p h h' : hdr_valid h -> hdr_valid h' -> bytes m p 14 = encode_hdr h -> bytes m p 14 = encode_hdr h' -> h' = h.
Proof.
  intros V V' E E'. destruct (parse_hdr_exact (bytes m p 14 ++ [0; 0]) 16) as [_ Hex].
  { apply Forall_app. split; [apply bytes_u8 | by repeat constructor]. }
  { rewrite length_app, length_bytes. cbn. lia. }
  assert (take 14 (bytes m p 14 ++ [0; 0]) = bytes m p 14) as Et by (rewrite take_app_le, take_ge by (rewrite length_bytes; lia); done).
  pose proof (proj2 (Hex h) (conj (Z.le_refl 16) (conj V (eq_trans Et E)))) as H1.
  pose proof (proj2 (Hex h') (conj (Z.le_refl 16) (conj V' (eq_trans Et E')))) as H2. congruence.
Qed.

Abbreviation pages seg := (seg_mem_size seg / 4096).

(** A segment that can be loaded from an image of [size] bytes. *)
Definition seg_good (size : Z) (seg : iwbf32_segment_hdr) : Prop :=
  seg_valid seg /\ seg_file_off seg + seg_file_size seg <= size /\ add_args_ok (seg_vaddr seg) (seg_mem_size seg).

(** A segment takes its pages and as many tables, and a VMA. *)
Lemma load_segment_room R vm Lo proc image size s ps vs i seg k :
  (proc, sizeof_process) ∈ Lo -> range_valid image size -> is_u32 size ->
  mm_ok s R vm ps vs Lo -> vm_of (mm_mem s) proc = vm -> 0 <= i < 65536 -> 16 + 20 * (i + 1) <= size ->
  bytes (mm_mem s) (seg_hdr_at image i) 20 = encode_segment seg -> seg_good size seg ->
  (forall v, v ∈ vs -> overlaps (seg_vaddr seg) (seg_vaddr seg + seg_mem_size seg) v = false) -> vma_fits (vmm_heap s) vs Lo ->
  (forall q, in_pages seg q -> walk (mm_mem s) (pd_phys (vm_arch vm)) q = None) ->
  0 <= k -> has_room (2 * pages seg + k) (mm_vs s) ->
  ends (load_segment kheap_free_list proc image size i) (fun r s' => r = inl tt /\ has_room k (mm_vs s')) s.
Proof.
  intros Hin Himg Hsz Hmm Hvm Hi Hlen Hb (Hv & Hfile & Hargs) Hno Hfit Hun Hk [Hf Hroom].
  destruct (Hv) as (Hva & Hfo & Hfs & Hms & Hle & _). destruct (Hargs) as (Hs0 & Ha1 & Ha2 & Hend).
  destruct (proc_at kheap_free_list s R vm ps vs Lo Hmm proc Hin) as [Hp _]. unfold load_segment. cbv zeta.
  change (IWBF32_HDR_SIZE) with 16. change (IWBF32_SEGMENT_HDR_SIZE) with 20.
  unfold range_valid, KERNEL_VIRT_OFFSET in Himg. change VM_USER_END with 3221225472 in Hend. unfold is_u32 in Hsz, Hva, Hfo, Hfs, Hms.
  rewrite (u32_id (16 + 20 * i)), (u32_id (image + (16 + 20 * i))), (u32_id (size - _)) by (unfold is_u32; lia).
  fold (seg_hdr_at image i). apply ends_bind, ends_wp. apply vm_mem_wp.
  wp_use parse_segment_wp; [unfold range_valid, seg_hdr_at, KERNEL_VIRT_OFFSET; lia|].
  intros [seg'|e] m (-> & Hres); rewrite with_mem_id; [|exfalso; apply (proj2 Hres seg); [lia | done..]].
  destruct Hres as (_ & Hv' & Hb'). rewrite (segment_unique _ _ _ _ Hv Hv' Hb Hb'). clear seg' Hv' Hb'.
  replace (seg_mem_size seg <? seg_file_size seg) with false by lia. replace (size <? seg_file_off seg) with false by lia.
  replace (size - seg_file_off seg <? seg_file_size seg) with false by lia. change arch_vm_page_size with 4096.
  apply ends_bind. unfold pr_alloc_lowmem. apply ends_zoom, ends_zoom, ends_zoom, ends_wp.
  wp_use (alloc_lowmem_room (mm_frames s) (pages seg) (pages seg + k)); [exact Hf | dlia | unfold is_u32; dlia | dlia
    | by replace (pages seg + (pages seg + k)) with (2 * pages seg + k) by lia |].
  intros r a' ([addr ->] & (f & -> & Hn0 & Hf0 & Hfe & Hfree & Ha' & Htot & Hu) & Hr').
  change (set_vmm_kvm _ s) with (with_frames a' s).
  assert (mm_ok (with_frames a' s) R vm ps vs Lo) as Hmm1.
  { apply mm_ok_grow; [done | | done]. split; [done|]. intros j Hj Huj. by rewrite Hu, Huj, orb_true_r. }
  apply ends_bind, ends_wp, vm_mem_wp, process_vm_wp; [done|]. rewrite with_mem_id.
  change (mm_mem (with_frames a' s)) with (mm_mem s). rewrite Hvm.
  apply ends_bind. eapply ends_mono.
  - unfold LOWMEM_FRAMES in Hfe. apply (vm_map_room kheap_free_list (with_frames a' s) R vm ps vs Lo _ _ _ _ k); [done | unfold is_u32; lia | unfold is_u32; lia
      | unfold is_u64; lia | apply seg_flags_u32 | lia | | done | done | | done | done].
    + split; [done|]. split; [dlia|]. lia.
    + intros j Hj. apply Hun. unfold in_pages. lia.
  - intros e s2 [-> Hr2]. change (KERR_IS_ERR KERR_OK) with false. cbn iota.
    apply ends_bind. destruct (negb _).
    1: apply ends_bind, ends_zoom, ends_zoom, ends_any; intros ? m1; apply ends_ret.
    2: apply ends_ret.
    all: apply ends_bind; destruct (_ <? _).
    1,3: apply ends_bind, ends_zoom, ends_zoom, ends_any; intros ? m2.
    all: by apply ends_ret, ends_ret.
Qed.

(** An image whose segments lie in it, inside the user's half, apart from each other and
    from the stack. *)
Record image_good (m : mem) (image size : Z) (h : iwbf32_hdr) (sgs : list iwbf32_segment_hdr) : Prop := {
  ig_header : bytes m image 14 = encode_hdr h /\ hdr_valid h;
  ig_table : Z.of_nat (length sgs) = hdr_segment_count h /\ 16 + 20 * hdr_segment_count h <= size;
  ig_segs : forall k seg, sgs !! k = Some seg -> bytes m (seg_hdr_at image (Z.of_nat k)) 20 = encode_segment seg /\ seg_good size seg;
  ig_apart : forall k k' seg seg', sgs !! k = Some seg -> sgs !! k' = Some seg' -> k <> k' ->
    seg_vaddr seg + seg_mem_size seg <= seg_vaddr seg' \/ seg_vaddr seg' + seg_mem_size seg' <= seg_vaddr seg;
  ig_stack : forall seg, seg ∈ sgs -> seg_vaddr seg + seg_mem_size seg <= USER_STACK_TOP - USER_STACK_SIZE \/ USER_STACK_TOP <= seg_vaddr seg
}.

Definition segs_pages (sgs : list iwbf32_segment_hdr) : Z := foldr (fun seg n => pages seg + n) 0 sgs.

Lemma segs_pages_drop sgs i seg : sgs !! i = Some seg -> segs_pages (drop i sgs) = pages seg + segs_pages (drop (S i) sgs).
Proof. intros H. by rewrite (drop_S _ _ _ H). Qed.

Lemma segs_pages_nonneg sgs size : (forall seg, seg ∈ sgs -> seg_good size seg) -> 0 <= segs_pages sgs.
Proof.
  unfold segs_pages. induction sgs as [|x l IH]; intros Hl; [done|]. cbn [foldr].
  specialize (IH ltac:(intros y Hy; apply Hl; by apply list_elem_of_further)).
  destruct (Hl x (list_elem_of_here _ _)) as (_ & _ & S0 & _). dlia.
Qed.

Lemma add_segs_elem segs : forall vs v, v ∈ add_segs segs vs <-> v ∈ vs \/ exists seg phys, (seg, phys) ∈ segs /\ v = seg_vma seg.
Proof.
  induction segs as [|[seg phys] segs IH]; intros vs v; cbn [add_segs foldl].
  - split; [by left|]. intros [?|(? & ? & ?%elem_of_nil & _)]; done.
  - unfold add_segs in IH. rewrite IH. cbn [fst]. rewrite insert_vma_perm, elem_of_cons. split.
    + intros [[->|?]|(sg & ph & Hin & ->)]; [right; exists seg, phys; split; [apply list_elem_of_here | done] | by left |].
      right. exists sg, ph. split; [by apply list_elem_of_further | done].
    + intros [?|(sg & ph & [[= -> ->]|Hin]%elem_of_cons & ->)]; [left; by right | left; by left | right; by exists sg, ph].
Qed.

Lemma length_add_segs segs : forall vs, length (add_segs segs vs) = (length segs + length vs)%nat.
Proof.
  induction segs as [|p segs IH]; intros vs; [done|]. cbn [add_segs foldl length]. unfold add_segs in IH.
  rewrite IH, (Permutation_length (insert_vma_perm _ _)). cbn. lia.
Qed.

Lemma segs_elem (segs : list (iwbf32_segment_hdr * Z)) sgs i seg phys :
  map fst segs = take i sgs -> (seg, phys) ∈ segs -> exists k, (k < i)%nat /\ sgs !! k = Some seg.
Proof.
  intros E [k Hk]%list_elem_of_lookup. exists k.
  assert (take i sgs !! k = Some seg) as Ht by (rewrite <- E, list_lookup_fmap, Hk; done).
  by apply lookup_take_Some in Ht as [? ?].
Qed.

Lemma seg_apart sgs m image size h i seg k seg' q :
  image_good m image size h sgs -> sgs !! i = Some seg -> sgs !! k = Some seg' -> (k < i)%nat ->
  overlaps (seg_vaddr seg) (seg_vaddr seg + seg_mem_size seg) (seg_vma seg') = false /\ (in_pages seg q -> ~ in_pages seg' q).
Proof.
  intros Hg Hi Hk Hlt. pose proof (ig_apart _ _ _ _ _ Hg i k seg seg' Hi Hk ltac:(lia)) as Ha.
  destruct (proj2 (ig_segs _ _ _ _ _ Hg i seg Hi)) as (_ & _ & S1 & S2 & S3 & _).
  destruct (proj2 (ig_segs _ _ _ _ _ Hg k seg' Hk)) as (_ & _ & T1 & T2 & T3 & _).
  split; [unfold overlaps, seg_vma; cbn; lia|]. unfold in_pages. dlia.
Qed.

Lemma process_load_room R vm Lo proc image size s ps h sgs k :
  (proc, sizeof_process) ∈ Lo -> vmas vm = proc + 12 -> range_valid image size ->
  can_load kheap_free_list R vm Lo proc image size s ps [] -> image_good (mm_mem s) image size h sgs ->
  (forall q, 0 <= q < 786432 -> walk (mm_mem s) (pd_phys (vm_arch vm)) q = None) ->
  heap_load Lo + 106 * Z.of_nat (length sgs) + 40 * (Z.of_nat (length Lo) + 1) <= vmm_heap_end s - vmm_heap_start s ->
  0 <= k -> has_room (2 * segs_pages sgs + k) (mm_vs s) ->
  ends (process_load kheap_free_list proc image size) (fun r s' => r = KERR_OK /\ has_room k (mm_vs s')) s.
Proof.
  intros Hin Hhead Himg Hcl Hg Hempty Hheap Hk Hroom. destruct (Hcl) as [Hmm Hvm Hst Hsz _ _ _].
  destruct (ig_header _ _ _ _ _ Hg) as [Hhb Hhv], (ig_table _ _ _ _ _ Hg) as [Hcnt Htab].
  destruct (proc_at kheap_free_list s R vm ps [] Lo Hmm proc Hin) as [Hp _]. destruct (Hp) as (_ & Hlo & _).
  unfold process_load, NULL. destruct (Himg) as (Hi1 & Hi2 & Hi3). unfold KERNEL_VIRT_OFFSET in Hlo, Hi1.
  assert (16 <= size) as H16 by lia. rewrite !(proj2 (Z.eqb_neq _ 0)) by lia. cbn [orb].
  apply ends_bind, ends_wp, vm_mem_wp, process_state_wp; [done|]. rewrite with_mem_id, Hst, Z.eqb_refl. cbn [negb].
  apply ends_bind, ends_wp, vm_mem_wp. wp_use parse_hdr_wp; [done|]. intros [h'|e] m (-> & Hh); rewrite with_mem_id.
  2: { exfalso. by apply (proj2 Hh h). }
  destruct Hh as (_ & Hhv' & Hhb'). rewrite (header_unique _ _ _ _ Hhv Hhv' Hhb Hhb'). clear h' Hhv' Hhb'.
  apply ends_bind. apply (ends_for_lt (fun i _ s1 => has_room (2 * segs_pages (drop (Z.to_nat i) sgs) + k) (mm_vs s1) /\
    exists segs, Z.of_nat (length segs) = i /\ map fst segs = take (Z.to_nat i) sgs /\
      loaded kheap_free_list R vm Lo proc image size s [] segs s1)).
  - lia.
  - split; [done|]. exists []. split; [done|]. split; [done|]. by eapply loaded_nil.
  - intros i [] s1 Hi (Hr1 & segs & Hlen & Hfst & Hld). destruct (ld_mm _ _ _ _ _ _ _ _ _ _ _ Hld) as [ps1 Hmm1].
    destruct (lookup_lt_is_Some_2 sgs (Z.to_nat i)) as [seg Hseg]; [lia|].
    destruct (ig_segs _ _ _ _ _ Hg _ _ Hseg) as [Hsb Hsg]. rewrite Z2Nat.id in Hsb by lia.
    destruct (next_segment_wp kheap_free_list R vm Lo proc image size Hin Hhead Himg s ps [] h segs s1 i Hcl H16 Hhb Hhv Hlen ltac:(lia) Hld)
      as (Hvm1 & Hsb1 & Hnext).
    assert (0 <= pages seg) as Hp0 by (destruct Hsg as (_ & _ & S0 & _); dlia).
    assert (forall q, in_pages seg q -> 0 <= q < 786432) as Hlow.
    { destruct Hsg as ((V1 & _) & _ & S0 & S1 & S2 & S3). change VM_USER_END with 3221225472 in S3. unfold is_u32 in V1. unfold in_pages. intros q. dlia. }
    rewrite (segs_pages_drop _ _ _ Hseg) in Hr1. destruct (Hhv) as (_ & _ & _ & _ & Hc). unfold is_u16 in Hc.
    intros r s2 E.
    destruct (load_segment_room R vm Lo proc image size s1 ps1 (add_segs segs []) i seg (2 * segs_pages (drop (S (Z.to_nat i)) sgs) + k)) with (a := r) (s' := s2)
      as [-> Hr2]; [done | done | done | done | done | lia | lia | by rewrite Hsb1 | done | | | | | | done |].
    + intros v [?%elem_of_nil|(sg & ph & Hsgin & ->)]%add_segs_elem; [done|].
      destruct (segs_elem _ _ _ _ _ Hfst Hsgin) as (k' & Hk' & Hkk). by apply (seg_apart sgs _ _ _ _ (Z.to_nat i) seg k' sg 0 Hg Hseg Hkk).
    + destruct (ld_kernel _ _ _ _ _ _ _ _ _ _ _ Hld) as (_ & _ & E1 & E2). unfold vma_fits, vmm_heap. cbn [kheap_start kheap_end].
      rewrite E1, E2, length_add_segs. cbn [length]. lia.
    + intros q Hq. rewrite (ld_pages _ _ _ _ _ _ _ _ _ _ _ Hld).
      * by apply Hempty, Hlow.
      * apply (mm_root _ _ _ _ _ _ _ Hmm).
      * specialize (Hlow q Hq). lia.
      * intros _ sg ph Hsgin. destruct (segs_elem _ _ _ _ _ Hfst Hsgin) as (k' & Hk' & Hkk).
        by apply (seg_apart sgs _ _ _ _ (Z.to_nat i) seg k' sg q Hg Hseg Hkk Hk').
    + pose proof (segs_pages_nonneg (drop (S (Z.to_nat i)) sgs) size) as Hnn. enough (0 <= segs_pages (drop (S (Z.to_nat i)) sgs)) by lia.
      apply Hnn. intros x [j Hj]%list_elem_of_lookup. rewrite lookup_drop in Hj. apply (ig_segs _ _ _ _ _ Hg _ _ Hj).
    + by replace (2 * pages seg + (2 * segs_pages (drop (S (Z.to_nat i)) sgs) + k)) with (2 * (pages seg + segs_pages (drop (S (Z.to_nat i)) sgs)) + k) by lia.
    + replace (Z.to_nat (i + 1)) with (S (Z.to_nat i)) by lia. split; [done|].
      destruct (ends_wp _ _ _ Hnext _ _ E) as (seg' & phys & Hb' & Hv' & Hld2).
      rewrite (segment_unique _ _ _ _ (proj1 Hsg) Hv' Hsb Hb') in Hld2. exists (segs ++ [(seg, phys)]).
      split; [rewrite length_app; cbn [length]; lia|]. split; [|done]. rewrite map_app, Hfst. by rewrite (take_S_r _ _ _ Hseg).
  - intros [] s1 (Hr1 & _). rewrite drop_ge in Hr1 by lia. apply ends_bind, ends_zoom, ends_zoom, ends_any. intros [] m. by apply ends_ret.
Qed.

(** *** The user stack *)

Lemma process_prepare_room s R vm ps vs Lo proc pos sp :
  can_prepare kheap_free_list s R vm ps vs Lo proc pos sp ->
  (forall v, v ∈ vs -> overlaps (USER_STACK_TOP - USER_STACK_SIZE) USER_STACK_TOP v = false) -> vma_fits (vmm_heap s) vs Lo ->
  (forall q, user_stack_page <= q < user_stack_page + 4 -> walk (mm_mem s) (pd_phys (vm_arch vm)) q = None) ->
  has_room 8 (mm_vs s) ->
  ends (process_prepare kheap_free_list proc) (fun e _ => e = KERR_OK) s.
Proof.
  intros [Hmm _ Hin Hvm Hst _ _ _] Hno Hfit Hun [Hf Hroom].
  destruct (proc_at kheap_free_list s R vm ps vs Lo Hmm proc Hin) as [Hp _]. destruct (Hp) as (_ & Hlo & _).
  unfold process_prepare, NULL. unfold KERNEL_VIRT_OFFSET in Hlo. rewrite (proj2 (Z.eqb_neq proc 0)) by lia.
  apply ends_bind, ends_wp, vm_mem_wp, process_state_wp; [done|]. rewrite with_mem_id, Hst, Z.eqb_refl. cbn [negb].
  apply ends_bind. unfold pr_alloc_lowmem. apply ends_zoom, ends_zoom, ends_zoom, ends_wp.
  change (USER_STACK_SIZE / arch_vm_page_size) with 4.
  wp_use (alloc_lowmem_room (mm_frames s) 4 4); [exact Hf | lia | unfold is_u32; lia | lia | exact Hroom |].
  intros r a' ([addr ->] & (f & -> & Hn0 & Hf0 & Hfe & Hfree & Ha' & Htot & Hu) & Hr').
  change (set_vmm_kvm _ s) with (with_frames a' s).
  assert (mm_ok (with_frames a' s) R vm ps vs Lo) as Hmm1.
  { apply mm_ok_grow; [done | | done]. split; [done|]. intros j Hj Huj. by rewrite Hu, Huj, orb_true_r. }
  apply ends_bind, ends_wp, vm_mem_wp, process_vm_wp; [done|]. rewrite with_mem_id.
  change (mm_mem (with_frames a' s)) with (mm_mem s). rewrite Hvm. unfold LOWMEM_FRAMES in Hfe.
  apply ends_bind. eapply ends_mono.
  - apply (vm_map_room kheap_free_list (with_frames a' s) R vm ps vs Lo _ _ _ _ 0); [done | done | done | unfold is_u64; lia | done | done
      | | done | done | | done | done].
    + split; [by unfold add_args_ok|]. split; [dlia|]. unfold USER_STACK_SIZE. lia.
    + intros i Hi. apply Hun. unfold user_stack_page. change (USER_STACK_SIZE / 4096) with 4 in Hi. lia.
  - intros e s2 [-> _]. change (KERR_OK <? 0) with false. cbn iota. apply ends_bind. unfold arch_process_stack_prepare, NULL.
    rewrite (proj2 (Z.eqb_neq proc 0)) by lia. do 8 (apply ends_bind, ends_any; intros ? ?). apply ends_ret.
    change (KERR_OK <? 0) with false. by apply ends_ret.
Qed.
End Processes.
