(* ===== verification/Kmain.v ===== *)
(** * Start of the kernel

    Models [kernel/arch/x86/arch.c] and [kernel/core/kmain.c]: the order in which the
    components come up and the panics that stop it.

    - [kernel] is the state of the whole kernel.  Every component's operation runs on
      its part ([zoom]); the heap of the drivers is the heap of the memory manager,
      the machine behind the ports is the one of the console, and the task state
      segment is the one the processes use.
    - Linker symbols, the addresses of static objects, the loader's memory and the
      contents of the initcall section are the fields of [image].
    - The [hlt] loops are ends of the run: [KHalted] after a panic, [KUser f] when the
      processor leaves for user mode with the frame [f]. *)

From stdpp Require Import strings.
From S2P Require Import Prelude Base Memory Bitmap Pmm KList Frames Kheap KheapClient Paging KernelVm Vmm Mm Buffer Printf Ringbuf Irq Hal I8259 Console I8254 Descriptors Log Cpuid Device Drivers Devdrv Boot Process.

(** ** [arch.c] *)

Record arch_state (D : Type) := mk_arch_state {
  as_cpu : cpu_state D; as_gdt : gdt_state; as_tss : x86_tss; as_idt : idt_state
}.
Arguments mk_arch_state {D} _ _ _ _.
Arguments as_cpu {D} _.
Arguments as_gdt {D} _.
Arguments as_tss {D} _.
Arguments as_idt {D} _.
Definition set_as_cpu {D} (c : cpu_state D) (s : arch_state D) : arch_state D := mk_arch_state c (as_gdt s) (as_tss s) (as_idt s).
Definition set_as_gdt {D} (g : gdt_state) (s : arch_state D) : arch_state D := mk_arch_state (as_cpu s) g (as_tss s) (as_idt s).
Definition set_as_tss {D} (t : x86_tss) (s : arch_state D) : arch_state D := mk_arch_state (as_cpu s) (as_gdt s) t (as_idt s).
Definition set_as_idt {D} (i : idt_state) (s : arch_state D) : arch_state D := mk_arch_state (as_cpu s) (as_gdt s) (as_tss s) i.

Section Arch.
Context `{PortIO D} `{Cpu D} `{CpuId D} `{CpuDirection D}.
Context (ops_of : Z -> option (con_ops (D := D))).
Context (gdt_addr tss_addr idt_addr : Z) (x86_isr_stub_table : Z -> Z).

Abbreviation on_cpu_state := (zoom as_cpu set_as_cpu).

Definition arch_init : M (arch_state D) outcome :=
  on_cpu_state (on_cpu x86_cli) ;;;
  on_cpu_state (on_cpu x86_cld) ;;;
  ok <-- on_cpu_state (x86_cpu_detect ops_of) ;;
  if negb ok then
    on_cpu_state (zoom cs_klog set_cs_klog (panic ops_of (chars "CPUID is not supported" ++ [0]) []))
  else
    zoom as_tss set_as_tss x86_tss_init ;;;
    zoom as_gdt set_as_gdt (x86_gdt_init gdt_addr tss_addr) ;;;
    zoom as_idt set_as_idt (x86_idt_init idt_addr ;;; x86_isr_init x86_isr_stub_table ;;; x86_idt_load) ;;;
    ret Returned.
End Arch.

(** IA-32: [cld] changes the direction flag only. *)
Class CldLaw (D : Type) `{CrtcHw D base} `{Cpu D} `{CpuId D} `{CpuDirection D} `{!CpuIdLaws D} : Prop := {
  cld_law : forall d Q,
    (forall d', if_set d' = if_set d -> Z.testbit (eflags d') 21 = Z.testbit (eflags d) 21 ->
       id_writable d' = id_writable d -> (forall r, crtc_reg d' r = crtc_reg d r) ->
       (forall l k, cpuid d' l k = cpuid d l k) -> Q tt d') -> wp cld Q d;
  cli_cpuid : forall d Q,
    (forall d', if_set d' = false -> Z.testbit (eflags d') 21 = Z.testbit (eflags d) 21 ->
       id_writable d' = id_writable d -> (forall r, crtc_reg d' r = crtc_reg d r) ->
       (forall l k, cpuid d' l k = cpuid d l k) -> Q tt d') -> wp cli Q d
}.

Section ArchInit.
Context `{HL : LogHw D base} `{CD : CpuId D} `{CI : !CpuIdLaws D} `{CX : CpuDirection D} `{CL : !CldLaw D}.
Context (ops : Z -> option (con_ops (D := D))).
Context (s0 : screens D) (con nm buf : Z) (gdt_addr tss_addr idt_addr : Z) (stubs : Z -> Z).
Hypothesis base_range : 0 <= base < 65535.
Abbreviation logged_at := (logged (base := base) ops s0 con nm buf).

Definition no_cpuid : list Z := chars "CPUID is not supported".

Lemma no_cpuid_message : message (no_cpuid ++ [0]) [] no_cpuid.
Proof. repeat split; [constructor | vm_compute; lia | by apply chars_nonzero]. Qed.

(** The state after [arch_init]. *)
Definition arch_post (L : list Z) (o : option term) (d : D) (p : bool) (st : arch_state D) (r : outcome) (st' : arch_state D) : Prop :=
  exists d', if_set d' = false /\
    if id_writable d then
      let out := cpu_report (cpu_info_of (cpuid d)) in
      r = Returned /\ cs_info (as_cpu st') = cpu_info_of (cpuid d) /\
      logged_at (L ++ map u8 out) (option_map (fun t => term_write t out) o) d' p (cs_klog (as_cpu st')) /\
      as_tss st' = mk_tss 0 X86_GDT_SELECTOR_KERN_DATA 104 /\
      gdt_ready gdt_addr tss_addr (as_gdt st') /\ idt_ready idt_addr stubs (as_idt st')
    else
      let out := panic_text p no_cpuid in
      r = Halted /\ cs_info (as_cpu st') = cpu_info_zero /\
      logged_at (L ++ map u8 out) (option_map (fun t => term_write t out) o) d' true (cs_klog (as_cpu st')) /\
      as_gdt st' = as_gdt st /\ as_tss st' = as_tss st /\ as_idt st' = as_idt st.

Lemma arch_init_wp L o d p st :
  is_u32 tss_addr -> (forall v, is_u32 (stubs v)) -> logged_at L o d p (cs_klog (as_cpu st)) ->
  wp (arch_init ops gdt_addr tss_addr idt_addr stubs) (arch_post L o d p st) st.
Proof.
  intros Ht Hst Hs. destruct st as [[i s] g t x]. cbn [as_cpu cs_klog] in Hs. unfold arch_init.
  do 2 wp_step. cbn [as_cpu]. eapply (on_cpu_wp ops s0 con nm buf); [exact Hs|]. apply cli_cpuid. intros d1 I1 F1 W1 C1 U1 s1 Hs1.
  do 2 wp_step. cbn [as_cpu set_as_cpu]. eapply (on_cpu_wp ops s0 con nm buf); [exact Hs1|]. apply cld_law. intros d2 I2 F2 W2 C2 U2 s2 Hs2.
  do 2 wp_step. cbn [as_cpu set_as_cpu]. wp_use cpu_detect_wp; [exact base_range | exact Hs2 |].
  intros r [i' s'] (-> & d3 & I3 & F3 & Hpost). cbn [cs_info cs_klog] in Hpost. unfold arch_post. rewrite W2, W1 in Hpost |- *.
  assert (if_set d3 = false) as I by congruence.
  assert (cpu_info_of (cpuid d2) = cpu_info_of (cpuid d)) as E by (unfold cpu_info_of; by rewrite !U2, !U1).
  rewrite E in Hpost. destruct (id_writable d); cbn [negb].
  - destruct Hpost as (-> & Hs3 & _). unfold x86_tss_init. do 7 wp_step.
    do 2 wp_step. wp_use gdt_init_wp; [exact Ht|]. intros [] g' Hg. do 2 wp_step.
    wp_use isr_init_wp; [exact Hst|]. intros [] x' Hx. wp_step. exists d3. done.
  - destruct Hpost as (-> & Hs3 & _). do 2 wp_step. cbn [as_cpu set_as_cpu cs_klog].
    wp_use vpanic_wp; [exact base_range | exact Hs3 | apply no_cpuid_message |].
    intros r s4 (-> & d4 & Hs4 & _ & I4). exists d4. done.
Qed.
End ArchInit.

(** ** [kmain.c] *)

Record kernel (D : Type) := mk_kernel {
  k_procs : procs pmm;
  k_boot : boot_state;
  k_entries : list boot_mem_map_entry;
  k_klog : klog D;
  k_cpu : x86_cpu_info;
  k_gdt : gdt_state;
  k_idt : idt_state;
  k_irqs : irqs;
  k_devices : devices;
  k_res : gmap Z (option (list resource) * Z)
}.
Arguments mk_kernel {D} _ _ _ _ _ _ _ _ _ _.
Arguments k_procs {D} _.
Arguments k_boot {D} _.
Arguments k_entries {D} _.
Arguments k_klog {D} _.
Arguments k_cpu {D} _.
Arguments k_gdt {D} _.
Arguments k_idt {D} _.
Arguments k_irqs {D} _.
Arguments k_devices {D} _.
Arguments k_res {D} _.

(** What the linker and the loader fix. *)
Record image (S : Type) := mk_image {
  im_syslog_storage : list Z;
  im_stage2 : gmap Z boot_mem_map_entry;
  im_kernel_start : Z; im_kernel_end : Z; im_kernel_end_words : list Z;
  im_text_start : Z; im_text_end : Z; im_rodata_start : Z; im_rodata_end : Z;
  im_kheap_free_list : Z;
  im_gdt : Z; im_tss : Z; im_idt : Z; im_stubs : Z -> Z;
  im_platform_bus : Z;
  im_devdrv : list (initcall S);
  im_system_name : Z
}.
Arguments im_syslog_storage {S} _.
Arguments im_stage2 {S} _.
Arguments im_kernel_start {S} _.
Arguments im_kernel_end {S} _.
Arguments im_kernel_end_words {S} _.
Arguments im_text_start {S} _.
Arguments im_text_end {S} _.
Arguments im_rodata_start {S} _.
Arguments im_rodata_end {S} _.
Arguments im_kheap_free_list {S} _.
Arguments im_gdt {S} _.
Arguments im_tss {S} _.
Arguments im_idt {S} _.
Arguments im_stubs {S} _.
Arguments im_platform_bus {S} _.
Arguments im_devdrv {S} _.
Arguments im_system_name {S} _.

Inductive kmain_end := KHalted | KUser (frame : iret_frame).

Section Kmain.
Context `{PortIO D} `{Cpu D} `{CpuId D} `{CpuDirection D} `{I8259Objects}.
Context (im : image (devices * drv_state D)).

Abbreviation K := (M (kernel D)).

(** The parts of the state the components run on. *)
Definition on_k_log {A} (c : M (klog D) A) : K A := zoom k_klog (fun l s =>
  mk_kernel (k_procs s) (k_boot s) (k_entries s) l (k_cpu s) (k_gdt s) (k_idt s) (k_irqs s) (k_devices s) (k_res s)) c.
Definition on_k_procs {A} (c : M (procs pmm) A) : K A := zoom k_procs (fun p s =>
  mk_kernel p (k_boot s) (k_entries s) (k_klog s) (k_cpu s) (k_gdt s) (k_idt s) (k_irqs s) (k_devices s) (k_res s)) c.
Definition on_k_boot {A} (c : M (boot_world D) A) : K A :=
  zoom (fun s => mk_boot_world (k_boot s) (k_entries s) (k_klog s)) (fun w s =>
    mk_kernel (k_procs s) (kernel_boot_state w) (kernel_boot_mmap_entries w) (bw_klog w) (k_cpu s) (k_gdt s) (k_idt s)
      (k_irqs s) (k_devices s) (k_res s)) c.
Definition on_k_arch {A} (c : M (arch_state D) A) : K A :=
  zoom (fun s => mk_arch_state (mk_cpu_state (k_cpu s) (k_klog s)) (k_gdt s) (pr_tss (k_procs s)) (k_idt s)) (fun w s =>
    mk_kernel (set_pr_tss (as_tss w) (k_procs s)) (k_boot s) (k_entries s) (cs_klog (as_cpu w)) (cs_info (as_cpu w))
      (as_gdt w) (as_idt w) (k_irqs s) (k_devices s) (k_res s)) c.
(** The drivers use the heap of the memory manager. *)
Definition on_k_drivers {A} (c : M (devices * drv_state D) A) : K A :=
  zoom (fun s => (k_devices s, mk_drv_state (vmm_heap (pr_vmm (k_procs s))) (k_irqs s) (k_klog s) (k_res s))) (fun w s =>
    mk_kernel (set_pr_vmm (set_vmm_heap (ds_heap (snd w)) (pr_vmm (k_procs s))) (k_procs s)) (k_boot s) (k_entries s)
      (ds_klog (snd w)) (k_cpu s) (k_gdt s) (k_idt s) (ds_irqs (snd w)) (fst w) (ds_res (snd w))) c.

Definition k_panic (fmt : list Z) (args : list vararg) : K kmain_end :=
  on_k_log (panic con_vga fmt args) ;;; ret KHalted.

Abbreviation in_vmm := (zoom pr_vmm set_pr_vmm).
Abbreviation vm_mem c := (zoom vmm_heap set_vmm_heap (zoom kh_mem set_kh_mem c)).

(** From [kheap_dump] on. *)
Definition kmain_run (system_proc : Z) : K kmain_end :=
  on_k_procs (in_vmm (zoom vmm_heap set_vmm_heap (kheap_dump (im_kheap_free_list im)))) ;;;
  vm <-- on_k_procs (in_vmm (vm_mem (process_vm system_proc))) ;;
  e <-- on_k_procs (in_vmm (vm_space_load (Some vm))) ;;
  if KERR_IS_ERR e then k_panic (chars "system: vm_space_load" ++ [0]) []
  else
    on_k_procs (in_vmm (vm_mem (set_process_state system_proc PROCESS_RUNNING))) ;;;
    r <-- on_k_procs (process_start system_proc) ;;
    match r with
    | inl _ => k_panic (chars "system: process_start" ++ [0]) []
    | inr f => ret (KUser f)
    end.

(** From [process_create("system")] on. *)
Definition kmain_system : K kmain_end :=
  system_proc <-- on_k_procs (process_create (im_kheap_free_list im) (im_system_name im)) ;;
  if KERR_PTR_IS_ERR system_proc then
    k_panic (chars "Failed to create system process: %d" ++ [0]) [VWord (u32 (KERR_PTR_ERR system_proc))]
  else
    boot <-- gets k_boot ;;
    e <-- on_k_procs (in_vmm
            (process_load (im_kheap_free_list im) system_proc (bs_system_image boot) (u32 (bs_system_image_size boot)))) ;;
    if KERR_IS_ERR e then k_panic (chars "Failed to load system process" ++ [0]) []
    else
      e <-- on_k_procs (in_vmm (process_prepare (im_kheap_free_list im) system_proc)) ;;
      if KERR_IS_ERR e then k_panic (chars "Failed to prepare system process" ++ [0]) []
      else
        kmain_run system_proc.

(** From [irq_init] to the initcalls. *)
Definition kmain_devices : K kmain_end :=
  r <-- on_k_drivers (on_machine (on_irqs irq_init)) ;;
  if r <? 0 then k_panic (chars "Failed to initialize the IRQ generic subsystem" ++ [0]) []
  else
    r <-- on_k_drivers (on_machine arch_irqchip_init) ;;
    if r <? 0 then k_panic (chars "Failed to initialize the architecture-specific IRQ chip" ++ [0]) []
    else
      r <-- on_k_drivers (platform_init (im_platform_bus im)) ;;
      if r <? 0 then k_panic (chars "Failed to initialize platform bus" ++ [0]) []
      else
        on_k_drivers (initcalls_invoke_devdrv (im_devdrv im)) ;;;
        on_k_procs (zoom pid_bm set_pid_bm pid_init) ;;;
        on_k_log (printk con_vga (chars "Welcome to ItWorksOS" ++ [10; 0]) []) ;;;
        kmain_system.

Definition kmain (magic : Z) (info : boot_info) : K kmain_end :=
  on_k_log (zoom kl_syslog set_kl_syslog (syslog_init (im_syslog_storage im))) ;;;
  on_k_boot (boot_init con_vga (im_stage2 im) info) ;;;
  if negb (magic =? BOOT_MAGIC) then k_panic (chars "Invalid boot magic value" ++ [0]) []
  else
    boot <-- gets k_boot ;;
    entries <-- gets k_entries ;;
    r <-- on_k_procs (in_vmm
            (mm_init (im_kheap_free_list im) (im_kernel_start im) (im_kernel_end im) (im_kernel_end_words im)
               (im_text_start im) (im_text_end im) (im_rodata_start im) (im_rodata_end im)
               (if bs_memory_map boot then Some entries else None) (bs_memory_map_count boot))) ;;
    if r <? 0 then k_panic (chars "Failed to initialize the Memory Manager" ++ [0]) []
    else
      o <-- on_k_arch (arch_init con_vga (im_gdt im) (im_tss im) (im_idt im) (im_stubs im)) ;;
      match o with
      | Halted => ret KHalted
      | Returned => kmain_devices
      end.
End Kmain.

(** ** A start that fails *)

Lemma syslog_init_wp storage s : length storage = 4096%nat -> wp (syslog_init storage) (fun _ s' => log_ok s' []) s.
Proof.
  intros Hl. unfold syslog_init, ringbuf_init. wp_steps. split; [done|]. split; [|done].
  split; cbn; [by exists 12 | rewrite Hl; reflexivity | unfold is_u32; lia | unfold is_u32; lia | vm_compute; discriminate].
Qed.

(** The message of the panic that ends a start with this magic and map. *)
Definition start_error (magic : Z) : list Z :=
  if magic =? BOOT_MAGIC then chars "Failed to initialize the Memory Manager" else chars "Invalid boot magic value".

Lemma start_error_message magic : message (start_error magic ++ [0]) [] (start_error magic).
Proof.
  unfold start_error. destruct (magic =? BOOT_MAGIC);
    (repeat split; [constructor | vm_compute; lia | by apply chars_nonzero]).
Qed.

(** The components that have not been touched. *)
Definition untouched {D} (k k' : kernel D) : Prop :=
  k_procs k' = k_procs k /\ k_cpu k' = k_cpu k /\ k_gdt k' = k_gdt k /\ k_idt k' = k_idt k /\
  k_irqs k' = k_irqs k /\ k_devices k' = k_devices k /\ k_res k' = k_res k.

Lemma mm_init_no_map free_list ks ke kw a b c d entries (s : mm) :
  mm_init free_list ks ke kw a b c d (Some entries) 0 s = Some (- KERR_INVAL, s).
Proof. destruct s as [[vs kv bm] h1 h2]. destruct vs. reflexivity. Qed.

Lemma set_cdev_id {D} (s : screens D) : set_cdev (cdev s) s = s.
Proof. by destruct s. Qed.

Section Start.
Context `{HL : LogHw D 980} `{CpuId D} `{CpuDirection D} `{I8259Objects}.

Lemma k_panic_wp s0 L d k text :
  logged (base := 980) con_vga s0 0 0 0 L None d false (k_klog k) -> message (text ++ [0]) [] text ->
  wp (k_panic (text ++ [0]) []) (fun r k' => r = KHalted /\ exists d',
    logged (base := 980) con_vga s0 0 0 0 (L ++ map u8 (panic_text false text)) None d' true (k_klog k') /\
    if_set d' = false /\ untouched k k' /\ k_boot k' = k_boot k /\ k_entries k' = k_entries k) k.
Proof.
  intros Hl Hm. unfold k_panic, on_k_log. do 2 wp_step. wp_use vpanic_wp; [lia | exact Hl | exact Hm |].
  intros r l' (-> & d' & Hl' & _ & Hf). wp_step. split; [done|]. exists d'. done.
Qed.
End Start.

(** C13. A start that cannot go on reports why and stops: with a wrong magic value, or with
    no entry in the loader's memory map, [kmain] ends halted with interrupts disabled;
    the log holds exactly the description of the boot information and the panic with
    its reason; and nothing but the boot state and the log has changed: no memory, no
    descriptor table, no device. *)
Theorem kmain_refuses `{HL : LogHw D 980} `{CpuId D} `{CpuDirection D} `{I8259Objects}
    (im : image (devices * drv_state D)) magic info l (k : kernel D) :
  length (im_syslog_storage im) = 4096%nat -> active_con (kl_screens (k_klog k)) = 0 -> kl_panicking (k_klog k) = false ->
  boot_info_ok info -> length (k_entries k) = 64%nat ->
  map_at (im_stage2 im) (PHYS_TO_VIRT (bi_memory_map_phys info)) l -> Z.of_nat (length l) = bi_memory_map_count info ->
  magic <> BOOT_MAGIC \/ l = [] ->
  wp (kmain im magic info) (fun r k' => r = KHalted /\ untouched k k' /\ exists d',
    let s0 := kl_screens (k_klog k) in
    kl_screens (k_klog k') = set_cdev d' s0 /\ if_set d' = false /\
    log_ok (kl_syslog (k_klog k')) (map u8 (boot_report info l ++ panic_text false (start_error magic)))) k.
Proof.
  intros Hst Hcon Hpan Hinfo Hes Hmap Hlen Hbad. unfold kmain. set (s0 := kl_screens (k_klog k)).
  unfold on_k_log at 1. do 3 wp_step. wp_use syslog_init_wp; [exact Hst|]. intros [] l1 Hl1.
  unfold on_k_boot. do 2 wp_step. cbn [k_klog k_boot k_entries].
  set (w1 := mk_boot_world _ _ _).
  assert (logged (base := 980) con_vga s0 0 0 0 [] None (cdev s0) false (bw_klog w1)) as Hlog1.
  { split; [exact Hl1 | symmetry; apply set_cdev_id | done | done]. }
  wp_use (boot_init_wp (base := 980) con_vga (im_stage2 im) s0 0 0 0 ltac:(lia) info l); [done | exact Hes | exact Hmap | exact Hlen | exact Hlog1 |].
  intros [] w2 (Hb & _ & d2 & Hlog2 & _ & Hf2). cbn [option_map app] in Hlog2.
  rewrite map_app.
  assert (forall k2, untouched k k2 -> logged (base := 980) con_vga s0 0 0 0 (map u8 (boot_report info l)) None d2 false (k_klog k2) ->
    wp (k_panic (start_error magic ++ [0]) []) (fun r k' => r = KHalted /\ untouched k k' /\ exists d',
      kl_screens (k_klog k') = set_cdev d' s0 /\ if_set d' = false /\
      log_ok (kl_syslog (k_klog k')) (map u8 (boot_report info l) ++ map u8 (panic_text false (start_error magic)))) k2) as Hpanic.
  { intros k2 Hu Hl2. wp_use k_panic_wp; [exact Hl2 | apply start_error_message |].
    intros r k' (-> & d' & [Hl3 Hs3 _ _] & Hf & Hu' & _). split; [done|]. split; [|by exists d'].
    unfold untouched in *. naive_solver congruence. }
  unfold start_error in *. destruct (Z.eqb_spec magic BOOT_MAGIC) as [E|E]; cbn [negb].
  - destruct Hbad as [Hbad| ->]; [done|]. subst magic. do 4 wp_step. cbn [k_boot k_entries].
    rewrite Hb. cbn [bs_memory_map bs_memory_map_count]. rewrite <- Hlen. cbn [length Z.of_nat].
    wp_step. unfold on_k_procs. do 2 wp_step. unfold wp at 1. rewrite mm_init_no_map.
    change (- KERR_INVAL <? 0) with true. cbn iota. apply Hpanic; [|exact Hlog2].
    unfold untouched. cbn. repeat split. by destruct (k_procs k).
  - apply Hpanic; [done | exact Hlog2].
Qed.


(** ** A machine *)

Module StartMachine.
Import LogMachine CpuMachine.

#[export] Instance machine_direction : CpuDirection machine := {
  cld := modify (fun d => (fst d, Z.clearbit (snd d) 10)); std := modify (fun d => (fst d, Z.setbit (snd d) 10))
}.

#[export] Instance machine_cld : CldLaw machine.
Proof.
  split; intros d Q HQ; apply wp_modify, HQ; try done; unfold if_set; cbn [eflags machine_cpu fst snd].
  - by rewrite Z.clearbit_neq.
  - by rewrite Z.clearbit_neq.
  - apply Z.clearbit_eq.
  - by rewrite Z.clearbit_neq.
Qed.

Definition arch0 : arch_state machine :=
  mk_arch_state (mk_cpu_state cpu_info_zero klog0) (mk_gdt_state (replicate 6 gdt_raw_zero) (mk_gdt_descriptor 0 0) None)
    (mk_tss 0 0 0) (mk_idt_state [] (mk_idt_descriptor 0 0) None).

#[export] Instance objects : I8259Objects := {| i8259_chip_addr := 8192; i8259_map_addr := 4096; i8259_map_name := 12288 |}.

Definition quiet : klog machine :=
  mk_klog (mk_syslog (mk_ringbuf [] 0 0 0) false) (mk_screens 0 ∅ ∅ d0) false.
Definition image0 : image (devices * drv_state machine) :=
  mk_image _ (replicate 4096 0) loader_map 1048576 1179648 [] 0 0 0 0 sentinel 0 0 0 (fun _ => 0) 256 [] 0.
End StartMachine.

Import LogMachine CpuMachine StartMachine.


(** A wrong magic value. *)
Lemma kmain_refuses_witness :
  let procs0 := mk_procs (mm_base heap_sample) (mk_bitmap [1; 0] 64 2) (replicate 64 0) (mk_tss 0 0 0) in
  let k := mk_kernel procs0 (mk_boot_state 0 false (mk_boot_video 0 0 0 0 0 0) 0 0) (replicate 64 (mk_entry 0 0 0 0)) quiet
             cpu_info_zero (as_gdt arch0) (as_idt arch0) irqs_boot (mk_devices [] ∅ ∅ ∅) ∅ in
  wp (kmain image0 0 loader_info) (fun r k' => r = KHalted /\ k_procs k' = procs0) k.
Proof.
  intros procs0 k. eapply wp_mono.
  - apply (kmain_refuses image0 0 loader_info [mk_entry 0 654336 1 1; mk_entry 1048576 133038080 1 1] k).
    + by apply length_replicate.
    + reflexivity.
    + reflexivity.
    + split; [done | done |]. by repeat constructor.
    + by apply length_replicate.
    + split; [by repeat constructor|]. intros [|[|i]] e He; [injection He as <-; vm_compute; reflexivity..|done].
    + reflexivity.
    + by left.
  - intros r k' (Hr & (Hp & _) & _). split; [exact Hr | exact Hp].
Defined.
