(* ===== verification/KmainRun.v ===== *)
(** * The whole start

    [kernel/core/kmain.c] from the first instruction to user mode: the theorems of the
    components, one after the other on the state of the whole kernel. *)

From stdpp Require Import strings.
From S2P Require Import Prelude Base Memory Bitmap Pmm KList KMem Frames Kheap KheapClient HeapLive Paging KernelVm Vmm Words VmaList Mm MmInit Buffer Printf Ringbuf Irq Hal I8259 Console I8254 Iwbf Descriptors Log Cpuid Device Drivers Devdrv Boot Process ProcessProps ProcessStart ProcessLoad Progress Kmain.

(** ** Stopping *)

Section Panic.
Context `{HL : LogHw D 980} `{CpuId D} `{CpuDirection D} `{I8259Objects}.

(** The log holds [L]; there may be a console. *)
Definition speaks (L : list Z) (k : kernel D) : Prop :=
  exists s0 con nm buf o d, logged (base := 980) con_vga s0 con nm buf L o d false (k_klog k).

(** The kernel has stopped: interrupts are off and the log ends with the panic [text]. *)
Definition stopped (text : list Z) (k : kernel D) : Prop :=
  exists s0 con nm buf o d L,
    logged (base := 980) con_vga s0 con nm buf (L ++ map u8 (panic_text false text)) o d true (k_klog k) /\ if_set d = false.

Lemma k_panic_stops L k fmt args text :
  speaks L k -> message fmt args text ->
  wp (k_panic fmt args) (fun r k' => r = KHalted /\ stopped text k') k.
Proof.
  intros (s0 & con & nm & buf & o & d & Hl) Hm. unfold k_panic, on_k_log. do 2 wp_step.
  wp_use vpanic_wp; [lia | exact Hl | exact Hm |]. intros r l' (-> & d' & Hl' & _ & Hf). wp_step. split; [done|].
  by exists s0, con, nm, buf, (option_map (fun t => term_write t (panic_text false text)) o), d', L.
Qed.
End Panic.

Definition create_failed (e : Z) : list Z := chars "Failed to create system process: " ++ int_text e.
Definition load_failed : list Z := chars "Failed to load system process".
Definition prepare_failed : list Z := chars "Failed to prepare system process".

Lemma text_message text : (length text < 1024)%nat -> Forall (fun c => c <> 0) text -> render (text ++ [0]) [] = Some text ->
  message (text ++ [0]) [] text.
Proof. intros. repeat split; [constructor | done..]. Qed.

Lemma int_text_ok v : Forall (fun c => c <> 0) (int_text v) /\ (length (int_text v) <= 34)%nat.
Proof.
  unfold int_text. destruct (v <? 0).
  - destruct (uint_text_ok 10 false (- v) ltac:(lia)). split; [by constructor | cbn [length]; lia].
  - destruct (uint_text_ok 10 false v ltac:(lia)). split; [done | lia].
Qed.

Lemma create_message w : is_u32 w ->
  message (chars "Failed to create system process: %d" ++ [0]) [VWord w] (create_failed (s32 w)).
Proof.
  intros Hw. destruct (int_text_ok (s32 w)) as [Hz Hl]. split; [|split; [|split]].
  - constructor; [done | constructor].
  - rewrite <- (app_nil_r (create_failed _)). cbv -[int_text s32]. reflexivity.
  - unfold create_failed. rewrite length_app. text_short.
  - unfold create_failed. by text_ok.
Qed.

(** ** The system process *)

Definition with_procs {D} (p : procs pmm) (k : kernel D) : kernel D :=
  mk_kernel p (k_boot k) (k_entries k) (k_klog k) (k_cpu k) (k_gdt k) (k_idt k) (k_irqs k) (k_devices k) (k_res k).

Lemma with_procs_id {D} (k : kernel D) : with_procs (k_procs k) k = k.
Proof. by destruct k. Qed.

Lemma wp_on_k_procs {D A} (c : M (procs pmm) A) (Q : A -> kernel D -> Prop) p k :
  wp c (fun a p' => Q a (with_procs p' k)) p -> wp (on_k_procs c) Q (with_procs p k).
Proof. intros H. unfold on_k_procs. by wp_step. Qed.

Lemma wp_k_vmm {D A} (c : M mm A) (Q : A -> kernel D -> Prop) v p k :
  wp c (fun a v' => Q a (with_procs (set_pr_vmm v' p) k)) v ->
  wp (on_k_procs (zoom pr_vmm set_pr_vmm c)) Q (with_procs (set_pr_vmm v p) k).
Proof. intros H. apply wp_on_k_procs. by wp_step. Qed.

(** The conditions on the system image: it ends below 2^32, its table of segments lies
    inside, and no segment ends at 2^32. *)
Definition image_sound (m : mem) (image size : Z) : Prop :=
  range_valid image size /\ is_u32 size /\
  (16 <= size -> forall h, bytes m image 14 = encode_hdr h -> hdr_valid h ->
     16 + 20 * hdr_segment_count h <= size /\
     forall i seg, 0 <= i < hdr_segment_count h -> bytes m (seg_hdr_at image i) 20 = encode_segment seg -> seg_valid seg ->
       seg_vaddr seg + seg_mem_size seg <> 4294967296).

(** The memory keeps the words of the image. *)
Definition image_same (m m' : mem) (image size : Z) : Prop :=
  forall a, image <= a < image + size -> rd m' (wd a) = rd m (wd a).

Lemma image_bytes m m' image size a n : image_same m m' image size -> image <= a -> a + Z.of_nat n <= image + size ->
  bytes m' a n = bytes m a n.
Proof. intros Hs Ha Hn. apply bytes_ext. intros i Hi. apply rd8_word, Hs. lia. Qed.

Lemma image_same_trans m1 m2 m3 image size : image_same m1 m2 image size -> image_same m2 m3 image size -> image_same m1 m3 image size.
Proof. intros A B a Ha. by rewrite B, A. Qed.

Lemma image_sound_same m m' image size : image_same m m' image size -> image_sound m image size -> image_sound m' image size.
Proof.
  intros Hs (Hr & Hu & Hh). split; [done|]. split; [done|]. intros H16 h Hb Hv.
  rewrite (image_bytes m m' image size) in Hb by (done || lia). destruct (Hh H16 h Hb Hv) as [Ht He]. split; [done|].
  intros i seg Hi Hseg. apply (He i seg Hi). rewrite <- Hseg. symmetry. apply (image_bytes m m' image size); unfold seg_hdr_at; (done || lia).
Qed.

Lemma image_good_same m m' image size h sgs : image_same m m' image size -> image_good m image size h sgs -> image_good m' image size h sgs.
Proof.
  intros Hs [[G1 G1'] [G2 G3] G4 G5 G6]. destruct (G1') as (_ & _ & _ & _ & Hc). unfold is_u16 in Hc.
  split; [rewrite (image_bytes m m' image size) by (done || lia); done | done | | done | done].
  intros k seg Hk. pose proof (lookup_lt_Some _ _ _ Hk). destruct (G4 k seg Hk) as [Hb Hg]. split; [|done]. rewrite <- Hb.
  apply (image_bytes m m' image size); unfold seg_hdr_at; (done || lia).
Qed.

Section System.
Variable fl : Z.

(** The image after the creation of the process. *)
Lemma created_can_load s R L name proc s' pid t pos image size :
  created fl s R L name proc s' pid t pos ->
  (forall a, image <= a < image + size -> kept_word fl R (pr_vmm s) (wd a)) -> image_sound (mm_mem (pr_vmm s)) image size ->
  image_same (mm_mem (pr_vmm s)) (mm_mem (pr_vmm s')) image size /\
  can_load fl (t :: R) (mk_vm_space (proc + 12) (mk_space t)) ((proc, sizeof_process) :: L) proc image size (pr_vmm s') [] [].
Proof.
  intros Hc Hkept Hsound.
  assert (image_same (mm_mem (pr_vmm s)) (mm_mem (pr_vmm s')) image size) as Hsame.
  { intros a Ha. by apply (cr_kept _ _ _ _ _ _ _ _ _ _ Hc), Hkept. }
  split; [done|]. destruct (image_sound_same _ _ _ _ Hsame Hsound) as (_ & Hu & Hh).
  destruct (cr_words _ _ _ _ _ _ _ _ _ _ Hc) as (_ & _ & Hst & Hvm & _).
  split; [apply (cr_space _ _ _ _ _ _ _ _ _ _ Hc) | done | done | done | | |].
  - intros a Ha. by apply (cr_kept _ _ _ _ _ _ _ _ _ _ Hc), Hkept.
  - intros H16 h Hb Hv. by apply (Hh H16).
  - intros H16 h i seg Hb Hv. by apply (Hh H16).
Qed.

(** Segments lie in the user's half. *)
Lemma segment_pages R vm Lo proc image size s0 vs segs v seg phys q :
  loaded fl R vm Lo proc image size s0 vs segs v -> (seg, phys) ∈ segs -> in_pages seg q -> 0 <= q < 786432.
Proof.
  intros Hld [k Hk]%list_elem_of_lookup [Hq1 Hq2]. destruct (ld_segs _ _ _ _ _ _ _ _ _ _ _ Hld k seg phys Hk) as [_ Hat].
  destruct (sg_range _ _ _ _ _ _ _ _ _ Hat) as (H1 & H2 & H3 & H4). destruct (sg_valid _ _ _ _ _ _ _ _ _ Hat) as (H5 & _).
  change VM_USER_END with 3221225472 in H4. unfold is_u32 in H5. dlia.
Qed.

(** The process after its image was loaded. *)
Lemma loaded_can_prepare s R L name proc s' pid t pos image size segs v :
  created fl s R L name proc s' pid t pos ->
  loaded fl (t :: R) (mk_vm_space (proc + 12) (mk_space t)) ((proc, sizeof_process) :: L) proc image size (pr_vmm s') [] segs v ->
  exists ps, can_prepare fl v (t :: R) (mk_vm_space (proc + 12) (mk_space t)) ps (add_segs segs []) ((proc, sizeof_process) :: L) proc pos 0.
Proof.
  intros Hc Hld. destruct (Hld) as [(ps & Hmm) (Ek & _) Hobj _ _ _ _ Hpages]. exists ps.
  destruct (created_can_prepare _ _ _ _ _ _ _ _ _ _ Hc) as [_ Hr Hin Hvm Hst Hks Hpos (pte & Htop & Hbit)].
  assert (forall k, 0 <= k < 52 -> k <> 12 -> k <> 16 -> k <> 40 -> rd (mm_mem v) (proc + k) = rd (mm_mem (pr_vmm s')) (proc + k)) as Hw.
  { intros k Hk N1 N2 N3. apply (Hobj proc sizeof_process); [done | unfold sizeof_process; lia | cbn; lia..]. }
  split; try done; [by rewrite Ek | | by rewrite Hw by lia | | exists pte; split; [|done]].
  - rewrite <- Hvm. unfold vm_of. by rewrite !Hw by lia.
  - rewrite <- Hks. unfold kstack_of. by rewrite !Hw by lia.
  - destruct (stack_page_bounds pos Hpos). rewrite Ek, <- Htop. apply Hpages; [done | lia|].
    intros _ seg phys Hs Hq. pose proof (segment_pages _ _ _ _ _ _ _ _ _ _ _ _ _ Hld Hs Hq). lia.
Qed.

(** The user's half of the space [t]: the segments of the image in [m0], the stack, and
    nothing else; the kernel's half is shared. *)
Record user_space (m0 : mem) (image : Z) (segs : list (iwbf32_segment_hdr * Z)) (t : Z) (v : mm) : Prop := {
  us_segments : forall k seg phys, segs !! k = Some (seg, phys) ->
    bytes m0 (seg_hdr_at image (Z.of_nat k)) 20 = encode_segment seg /\
    (forall j, 0 <= j < seg_mem_size seg / 4096 ->
       walk (mm_mem v) t (seg_vaddr seg / 4096 + j) = Some (pte_of (phys + 4096 * j) (seg_vm_flags (seg_flags seg)))) /\
    (forall x, 0 <= x < seg_mem_size seg -> rd8 (mm_mem v) (phys + KERNEL_VIRT_OFFSET + x) = seg_byte m0 image seg x);
  us_stack : exists f, forall q, user_stack_page <= q < user_stack_page + 4 ->
    walk (mm_mem v) t q = Some (pte_of (4096 * (f + (q - user_stack_page))) user_stack_flags);
  us_none : forall q, 0 <= q < 786432 -> (forall seg phys, (seg, phys) ∈ segs -> ~ in_pages seg q) ->
    ~ (user_stack_page <= q < user_stack_page + 4) -> walk (mm_mem v) t q = None;
  us_kernel : forall q, 786432 <= q < 1048576 -> walk (mm_mem v) t q = walk (mm_mem v) (pd_phys (kernel_vm (vmm_kvm v))) q
}.

(** The space of the prepared process, after its state was changed. *)
Lemma ready_user m0 s R L name proc s' pid t pos image size h segs v f v' v2 :
  created fl s R L name proc s' pid t pos -> image_same m0 (mm_mem (pr_vmm s')) image size ->
  16 + 20 * hdr_segment_count h <= size -> Z.of_nat (length segs) = hdr_segment_count h ->
  loaded fl (t :: R) (mk_vm_space (proc + 12) (mk_space t)) ((proc, sizeof_process) :: L) proc image size (pr_vmm s') [] segs v ->
  ready fl v (t :: R) (mk_vm_space (proc + 12) (mk_space t)) (add_segs segs []) ((proc, sizeof_process) :: L) proc pos f v' ->
  kernel_vm (vmm_kvm v2) = kernel_vm (vmm_kvm v') ->
  (forall r q, r ∈ t :: R -> 0 <= q < 1048576 -> walk (mm_mem v2) r q = walk (mm_mem v') r q) ->
  (forall a, a <> proc + 8 -> rd (mm_mem v2) a = rd (mm_mem v') a) ->
  user_space m0 image segs t v2.
Proof.
  intros Hc Hsame Hsz Hlen Hld [Ek1 _ _ Hpg1 _ _ _ Hun Hkept1] Ek2 Hw2 Hm2. cbn [pd_phys vm_arch] in *.
  assert (kernel_vm (vmm_kvm v2) = kernel_vm (vmm_kvm v)) as Ek by congruence.
  assert (forall r q, r ∈ t :: R -> 0 <= q < 1048576 -> walk (mm_mem v2) r q =
    if (r =? t) && ((user_stack_page <=? q) && (q <? user_stack_page + 4))
    then Some (pte_of (4096 * (f + (q - user_stack_page))) user_stack_flags) else walk (mm_mem v) r q) as Hpg.
  { intros r q Hr Hq. by rewrite Hw2, Hpg1. }
  assert (forall a, kept_word fl (t :: R) v a -> a < KERNEL_STACK_BASE -> rd (mm_mem v2) a = rd (mm_mem v) a) as Hkept.
  { intros a Ha Hlow. rewrite Hm2; [by apply Hkept1|]. intros ->. destruct Ha as (_ & _ & Hn & _). apply Hn.
    destruct (ld_mm _ _ _ _ _ _ _ _ _ _ _ Hld) as [ps Hmm].
    apply (obj_area _ _ _ _ _ _ _ proc sizeof_process _ Hmm (list_elem_of_here _ _)). unfold sizeof_process. lia. }
  clear Ek1 Ek2 Hpg1 Hw2 Hm2 Hkept1.
  assert (t ∈ t :: R) as Ht by apply list_elem_of_here.
  assert (forall q, 0 <= q < 1048576 -> ~ (user_stack_page <= q < user_stack_page + 4) -> walk (mm_mem v2) t q = walk (mm_mem v) t q) as Hw.
  { intros q Hq Hn. rewrite Hpg by done. rewrite Z.eqb_refl. cbn [andb].
    replace ((user_stack_page <=? q) && (q <? user_stack_page + 4)) with false by lia. done. }
  assert (0 <= user_stack_page /\ user_stack_page + 4 <= 786432) as [Hus0 Hus] by done.
  split.
  - intros k seg phys Hk. destruct (ld_segs _ _ _ _ _ _ _ _ _ _ _ Hld k seg phys Hk) as [Hb Hat].
    pose proof (lookup_lt_Some _ _ _ Hk) as Hkl. pose proof (list_elem_of_lookup_2 _ _ _ Hk) as Hin.
    destruct Hat as [Hv Hfile Hrange (Hp1 & Hp2 & Hp3) _ Hwords Hpages Hbytes]. split; [|split].
    + rewrite <- Hb. symmetry. apply (image_bytes _ _ image size); unfold seg_hdr_at; (done || lia).
    + intros j Hj. rewrite <- Hpages by done. cbn [pd_phys vm_arch]. apply Hw.
      * pose proof (segment_pages _ _ _ _ _ _ _ _ _ _ _ _ (seg_vaddr seg / 4096 + j) Hld Hin) as Hq. unfold in_pages in Hq. lia.
      * intros Hq%Hun. pose proof (Hpages j Hj) as Hp. cbn [pd_phys vm_arch] in Hp. congruence.
    + intros x Hx. etrans; [|etrans; [apply (Hbytes x Hx)|]].
      * apply rd8_word, Hkept; [apply Hwords | ]; unfold wd, KERNEL_STACK_BASE, KERNEL_LOWMEM_LIMIT, KERNEL_VIRT_OFFSET in *; clear -Hx Hp1 Hp3; dlia.
      * unfold seg_byte. destruct (Z.ltb_spec x (seg_file_size seg)); [|done]. apply rd8_word, Hsame.
        destruct Hv as (_ & Hv & _). unfold is_u32 in Hv. lia.
  - exists f. intros q Hq. rewrite Hpg by (done || lia). rewrite Z.eqb_refl. cbn [andb].
    by replace ((user_stack_page <=? q) && (q <? user_stack_page + 4)) with true by lia.
  - intros q Hq Hns Hst. rewrite Hw, (ld_pages _ _ _ _ _ _ _ _ _ _ _ Hld) by (done || lia). by apply (cr_user _ _ _ _ _ _ _ _ _ _ Hc).
  - intros q Hq.
    assert (forall r, r ∈ t :: R -> walk (mm_mem v2) r q = walk (mm_mem (pr_vmm s')) r q) as Hr.
    { intros r Hr. rewrite Hpg by (done || lia). replace (q <? user_stack_page + 4) with false by lia. rewrite !andb_false_r.
      apply (ld_pages _ _ _ _ _ _ _ _ _ _ _ Hld); [done | lia|].
      intros _ seg phys Hs Hp. pose proof (segment_pages _ _ _ _ _ _ _ _ _ _ _ _ _ Hld Hs Hp). lia. }
    destruct (ld_kernel _ _ _ _ _ _ _ _ _ _ _ Hld) as (Ek' & _). rewrite Ek, Ek', !Hr; [by apply (cr_kernel _ _ _ _ _ _ _ _ _ _ Hc) | | done].
    apply (kv_root _ _ (po_kvm _ _ _ _ (cr_ok _ _ _ _ _ _ _ _ _ _ Hc))).
Qed.

(** With a good image the loaded segments are those of its table. *)
Lemma loaded_segments R vm Lo proc image size s0 segs v h sgs :
  image_good (mm_mem s0) image size h sgs -> loaded fl R vm Lo proc image size s0 [] segs v ->
  Z.of_nat (length segs) = hdr_segment_count h -> forall seg phys, (seg, phys) ∈ segs -> seg ∈ sgs.
Proof.
  intros Hg Hld Hlen seg phys [k Hk]%list_elem_of_lookup. pose proof (lookup_lt_Some _ _ _ Hk) as Hlt.
  destruct (ig_table _ _ _ _ _ Hg) as [Hc _]. destruct (lookup_lt_is_Some_2 sgs k) as [seg' Hk']; [lia|].
  destruct (ld_segs _ _ _ _ _ _ _ _ _ _ _ Hld k seg phys Hk) as [Hb Hat]. destruct (ig_segs _ _ _ _ _ Hg k seg' Hk') as [Hb' [Hv' _]].
  rewrite (segment_unique _ _ _ _ Hv' (sg_valid _ _ _ _ _ _ _ _ _ Hat) Hb' Hb). by eapply list_elem_of_lookup_2.
Qed.

(** *** Enough memory for the three steps *)

(** Room for the process with the segments [sgs] on the heap and in LowMem. *)
Record process_room (m0 : mem) (image size : Z) (L : list (Z * Z)) (s : procs pmm) (h : iwbf32_hdr) (sgs : list iwbf32_segment_hdr) : Prop := {
  pr_image : image_good m0 image size h sgs;
  pr_create : create_room s L (2 * segs_pages sgs + 8);
  pr_objects : heap_load L + 106 * Z.of_nat (length sgs) + 40 * Z.of_nat (length L) + 178 <= vmm_heap_end (pr_vmm s) - vmm_heap_start (pr_vmm s)
}.

Section Room.
Context (m0 : mem) (s : procs pmm) (R : list Z) (L : list (Z * Z)) (name proc : Z) (s1 : procs pmm) (pid t pos image size : Z).
Context (h : iwbf32_hdr) (sgs : list iwbf32_segment_hdr).
Hypothesis Hc : created fl s R L name proc s1 pid t pos.
Hypothesis Hroom : process_room m0 image size L s h sgs.
Hypothesis Hsame : image_same m0 (mm_mem (pr_vmm s1)) image size.
Abbreviation vm := (mk_vm_space (proc + 12) (mk_space t)).
Abbreviation Lo := ((proc, sizeof_process) :: L).

Lemma room_load : range_valid image size -> can_load fl (t :: R) vm Lo proc image size (pr_vmm s1) [] [] ->
  has_room (2 * segs_pages sgs + 8) (mm_vs (pr_vmm s1)) ->
  ends (process_load fl proc image size) (fun r v => r = KERR_OK /\ has_room 8 (mm_vs v)) (pr_vmm s1).
Proof.
  intros Hr Hcl Hfr. destruct Hroom as [Hg _ Hh]. destruct (cr_heap _ _ _ _ _ _ _ _ _ _ Hc) as [E1 E2].
  eapply (process_load_room fl (t :: R) vm Lo); [apply list_elem_of_here | done | done | exact Hcl | by eapply image_good_same | | | done | done].
  - apply (cr_user _ _ _ _ _ _ _ _ _ _ Hc).
  - rewrite E1, E2. cbn [heap_load foldr length snd]. fold (heap_load L). unfold sizeof_process. lia.
Qed.

Lemma room_prepare segs v ps : loaded fl (t :: R) vm Lo proc image size (pr_vmm s1) [] segs v ->
  Z.of_nat (length segs) = hdr_segment_count h -> can_prepare fl v (t :: R) vm ps (add_segs segs []) Lo proc pos 0 ->
  has_room 8 (mm_vs v) -> ends (process_prepare fl proc) (fun e _ => e = KERR_OK) v.
Proof.
  intros Hld Hlen Hcp Hfr. destruct Hroom as [Hg _ Hh]. pose proof (image_good_same _ _ _ _ _ _ Hsame Hg) as Hg1.
  pose proof (loaded_segments _ _ _ _ _ _ _ _ _ _ _ Hg1 Hld Hlen) as Hsegs.
  eapply (process_prepare_room fl v (t :: R) vm ps); [exact Hcp | | | | exact Hfr].
  - intros v' [?%elem_of_nil|(seg & phys & Hin & ->)]%add_segs_elem; [done|].
    pose proof (ig_stack _ _ _ _ _ Hg _ (Hsegs _ _ Hin)). unfold overlaps, seg_vma. cbn. lia.
  - destruct (cr_heap _ _ _ _ _ _ _ _ _ _ Hc) as [E1 E2], (ld_kernel _ _ _ _ _ _ _ _ _ _ _ Hld) as (_ & _ & E3 & E4).
    destruct (ig_table _ _ _ _ _ Hg) as [Hcnt _]. unfold vma_fits, vmm_heap. cbn [kheap_start kheap_end].
    rewrite E3, E4, E1, E2, length_add_segs. cbn [heap_load foldr length snd]. fold (heap_load L). unfold sizeof_process. lia.
  - intros q Hq. assert (0 <= user_stack_page /\ user_stack_page + 4 <= 786432) as [? ?] by done.
    rewrite (ld_pages _ _ _ _ _ _ _ _ _ _ _ Hld); [apply (cr_user _ _ _ _ _ _ _ _ _ _ Hc); lia | apply list_elem_of_here | lia |].
    intros _ seg phys Hin Hp. apply Hsegs in Hin. pose proof (ig_stack _ _ _ _ _ Hg _ Hin) as Hst.
    apply list_elem_of_lookup in Hin as [k Hk]. destruct (ig_segs _ _ _ _ _ Hg k seg Hk) as [_ (_ & _ & S0 & S1 & S2 & _)].
    unfold in_pages, user_stack_page, USER_STACK_TOP, USER_STACK_SIZE in *. clear -Hst Hp Hq S0 S1 S2. dlia.
Qed.
End Room.

(** *** Into user mode *)

Definition with_cr3 (t : Z) (v : mm) : mm := set_vmm_kvm (set_kv_vm (set_vs_cr3 t (mm_vs v)) (vmm_kvm v)) v.

Lemma mm_ok_cr3 t v R vm ps vs Lo : mm_ok fl v R vm ps vs Lo -> mm_ok fl (with_cr3 t v) R vm ps vs Lo.
Proof. intros [[H1 H2 H3] H4 H5 H6 H7]. by split. Qed.

Lemma space_load_wp v a t (Q : Z -> mm -> Prop) : is_u32 t -> Q KERR_OK (with_cr3 t v) ->
  wp (vm_space_load (Some (mk_vm_space a (mk_space t)))) Q v.
Proof. intros Ht HQ. unfold vm_space_load, arch_vm_space_load. cbn [vm_arch pd_phys]. rewrite u32_id by done. by wp_steps. Qed.

Lemma dump_wp v R vm ps vs Lo (Q : heap_dump -> mm -> Prop) : mm_ok fl v R vm ps vs Lo -> (forall d, Q d v) ->
  wp (zoom vmm_heap set_vmm_heap (kheap_dump fl)) Q v.
Proof.
  intros Hmm HQ. destruct (so_heap _ _ _ _ _ _ (mm_space _ _ _ _ _ _ _ Hmm)) as (bs & ns & us & Hinv & _). wp_step.
  wp_use kheap_dump_wp; [exact Hinv|]. intros d h' (-> & _). by rewrite set_vmm_heap_id.
Qed.
End System.

(** What can go wrong with the system process. *)
Definition system_error (text : list Z) : Prop :=
  (exists e, text = create_failed e) \/ text = load_failed \/ text = prepare_failed.

(** The state in which the processor leaves for user mode with the frame [f]: the image
    at [image] in the memory [m0] has the header [h], the process [proc] runs in the space
    [t], which is loaded, and enters the kernel at the top of its stack [pos]. *)
Record in_user {D} (m0 : mem) (image : Z) (f : iret_frame) (k : kernel D) (h : iwbf32_hdr) (segs : list (iwbf32_segment_hdr * Z))
    (proc t pid pos : Z) : Prop := {
  iu_header : bytes m0 image 14 = encode_hdr h /\ hdr_valid h /\ Z.of_nat (length segs) = hdr_segment_count h;
  iu_frame : f = mk_iret (hdr_entry h) X86_GDT_SELECTOR_USER_CODE (Z.lor X86_FLAGS_IF_MASK X86_FLAGS_RESERVED_MASK)
    USER_STACK_TOP X86_GDT_SELECTOR_USER_DATA;
  iu_space : user_space m0 image segs t (pr_vmm (k_procs k));
  iu_cr3 : vs_cr3 (mm_vs (pr_vmm (k_procs k))) = t;
  iu_process : process_table (k_procs k) !! Z.to_nat pid = Some proc /\ rd (mm_mem (pr_vmm (k_procs k))) (proc + 4) = pid /\
    rd (mm_mem (pr_vmm (k_procs k))) (proc + 8) = PROCESS_RUNNING;
  iu_stack : 0 <= pos < 64 /\ tss_esp0 (pr_tss (k_procs k)) = stack_top pos
}.

Section Start.
Context `{HL : LogHw D 980} `{CpuId D} `{CpuDirection D} `{I8259Objects}.
Variable im : image (devices * drv_state D).
Abbreviation fl := (im_kheap_free_list im).
Abbreviation pm k := (pr_vmm (k_procs k)).
Abbreviation img k := (bs_system_image (k_boot k)).
Abbreviation img_size k := (u32 (bs_system_image_size (k_boot k))).

Record can_start (m0 : mem) (R : list Z) (L : list (Z * Z)) (Lg : list Z) (k : kernel D) : Prop := {
  cs_procs : procs_ok fl (k_procs k) R L;
  cs_list : fl + 8 <= KERNEL_STACK_BASE;
  cs_name : is_u32 (im_system_name im) /\ im_system_name im <> 0;
  cs_kept : forall a, img k <= a < img k + img_size k -> kept_word fl R (pm k) (wd a);
  cs_same : image_same m0 (mm_mem (pm k)) (img k) (img_size k);
  cs_sound : image_sound m0 (img k) (img_size k);
  cs_log : speaks Lg k
}.

(** The kernel stops only if there was not [enough]. *)
Definition system_post (enough : Prop) (m0 : mem) (image : Z) (r : kmain_end) (k' : kernel D) : Prop :=
  (r = KHalted /\ ~ enough /\ exists text, system_error text /\ stopped text k') \/
  (exists f h segs proc t pid pos, r = KUser f /\ in_user m0 image f k' h segs proc t pid pos).

(** From a prepared process to user mode. *)
Lemma kmain_run_wp m0 s R L name proc s1 pid t pos image size h segs v f v1 k :
  created fl s R L name proc s1 pid t pos -> image_same m0 (mm_mem (pr_vmm s1)) image size ->
  bytes m0 image 14 = encode_hdr h -> hdr_valid h -> 16 + 20 * hdr_segment_count h <= size ->
  Z.of_nat (length segs) = hdr_segment_count h ->
  loaded fl (t :: R) (mk_vm_space (proc + 12) (mk_space t)) ((proc, sizeof_process) :: L) proc image size (pr_vmm s1) [] segs v ->
  rd (mm_mem v) (proc + 40) = hdr_entry h ->
  ready fl v (t :: R) (mk_vm_space (proc + 12) (mk_space t)) (add_segs segs []) ((proc, sizeof_process) :: L) proc pos f v1 ->
  wp (kmain_run im proc) (fun r k' => exists fr, r = KUser fr /\ in_user m0 image fr k' h segs proc t pid pos)
    (with_procs (set_pr_vmm v1 s1) k).
Proof.
  intros Hc Hsame Hhb Hhv Hsz Hlen Hld Hentry Hrd. unfold kmain_run.
  destruct (rd_mm _ _ _ _ _ _ _ _ _ _ Hrd) as [ps1 Hmm1].
  assert ((proc, sizeof_process) ∈ (proc, sizeof_process) :: L) as Hin by apply list_elem_of_here.
  destruct (proc_at fl v1 _ _ _ _ _ Hmm1 proc Hin) as [Hobj Hpe].
  destruct (loaded_can_prepare _ _ _ _ _ _ _ _ _ _ _ _ _ _ Hc Hld) as [ps Hcp].
  destruct (ready_top _ _ _ _ _ _ _ _ _ _ _ _ Hcp Hrd) as (pte & Htop & Hr). destruct Hcp as [_ _ _ Hvm _ _ Hpos _].
  assert (forall k, 0 <= k < 52 -> k <> 12 -> k <> 16 -> k <> 32 -> rd (mm_mem v1) (proc + k) = rd (mm_mem v) (proc + k)) as Hw
    by apply (rd_words _ _ _ _ _ _ _ _ _ _ Hrd).
  wp_step. apply wp_k_vmm, (dump_wp _ _ _ _ _ _ _ _ Hmm1). intros _.
  wp_step. apply wp_k_vmm, vm_mem_wp, process_vm_wp; [exact Hobj|]. rewrite with_mem_id.
  assert (vm_of (mm_mem v1) proc = mk_vm_space (proc + 12) (mk_space t)) as ->.
  { rewrite <- Hvm. unfold vm_of. by rewrite !Hw by lia. }
  destruct (t_root _ _ _ (v_tables _ _ (mm_vm _ _ _ _ _ _ _ Hmm1)) t (list_elem_of_here _ _)) as (_ & Ht0 & _).
  wp_step. apply wp_k_vmm, space_load_wp; [unfold is_u32, KERNEL_LOWMEM_LIMIT in *; lia|].
  change (KERR_IS_ERR KERR_OK) with false. cbn iota.
  wp_step. apply wp_k_vmm, vm_mem_wp. unfold set_process_state. apply obj_store_wp; [exact Hobj | lia | done|].
  wp_step. apply wp_on_k_procs. set (v2 := with_cr3 t v1). set (m2 := wr (mm_mem v2) (proc + 8) PROCESS_RUNNING).
  pose proof (mm_ok_cr3 fl t _ _ _ _ _ _ Hmm1) as Hmm2. fold v2 in Hmm2.
  assert (rewritten fl v2 (t :: R) (mk_vm_space (proc + 12) (mk_space t)) ps1 (insert_vma user_stack_vma (add_segs segs []))
    ((proc, sizeof_process) :: L) (with_mem m2 v2) m2) as Hrw.
  { apply rewritten_wr; [by apply rewritten_refl | | done]. eapply proc_word; [exact Hin | done | exact Hmm2 | lia..]. }
  pose proof (rd_sp _ _ _ _ _ _ _ _ _ _ Hrd) as Hsp. unfold kstack_of in Hsp. injection Hsp as K1 K2 K3.
  assert (forall a, a <> proc + 8 -> rd m2 a = rd (mm_mem v1) a) as Hm2 by (intros a Ha; unfold m2; by rewrite rd_wr_ne).
  wp_use (process_start_wp fl v2 (t :: R) _ ps1 _ _ Hmm2 Hr proc pos pte Hin Hpos Htop (set_pr_vmm (with_mem m2 v2) s1) m2 (hdr_entry h)).
  - exact Hrw.
  - destruct (rd_frame _ _ _ _ _ _ _ _ _ _ Hrd) as (F1 & F2 & F3 & F4 & F5). rewrite Hentry in F5.
    unfold frame_words. rewrite !Hm2 by (unfold stack_top; lia). done.
  - rewrite Hm2 by lia. exact K2.
  - rewrite Hm2 by lia. exact K1.
  - rewrite Hm2 by lia. exact K3.
  - intros r p' (-> & ->). wp_step. eexists. split; [done|].
    split.
    + done.
    + done.
    + eapply ready_user; [exact Hc | exact Hsame | exact Hsz | exact Hlen | exact Hld | exact Hrd | done | | exact Hm2].
      intros r q Hrr Hq. exact (proj2 (proj2 Hrw) r q Hrr Hq).
    + done.
    + split; [|split].
      * cbn. rewrite (cr_table _ _ _ _ _ _ _ _ _ _ Hc). apply list_lookup_insert_eq.
        destruct (cr_pid _ _ _ _ _ _ _ _ _ _ Hc) as [_ Hpid]. pose proof (po_table _ _ _ _ (cr_ok _ _ _ _ _ _ _ _ _ _ Hc)) as Hlt.
        rewrite (cr_table _ _ _ _ _ _ _ _ _ _ Hc), length_insert in Hlt. unfold PID_MAX in Hpid. lia.
      * destruct (cr_words _ _ _ _ _ _ _ _ _ _ Hc) as (_ & <- & _). etrans; [apply Hm2; lia|]. rewrite Hw by lia.
        apply (ld_objs _ _ _ _ _ _ _ _ _ _ _ Hld proc sizeof_process); [done | unfold sizeof_process; lia | cbn; lia..].
      * cbn. unfold m2. apply rd_wr_eq.
    + done.
Qed.

Lemma system_panic_wp enough m0 image Lg k fmt args text :
  speaks Lg k -> ~ enough -> message fmt args text -> system_error text -> wp (k_panic fmt args) (system_post enough m0 image) k.
Proof.
  intros Hs He Hm Ht. wp_use k_panic_stops; [exact Hs | exact Hm|]. intros r k' [-> Hst]. left. split; [done|]. split; [done|]. by exists text.
Qed.

Lemma kmain_system_wp (enough : Prop) m0 R L Lg k : can_start m0 R L Lg k ->
  (enough -> exists h sgs, process_room m0 (img k) (img_size k) L (k_procs k) h sgs) ->
  wp (kmain_system im) (system_post enough m0 (img k)) k.
Proof.
  intros [Hp Hlist [Hn1 Hn2] Hkept Hsame0 Hsound0 Hlog] Henough. pose proof (image_sound_same _ _ _ _ Hsame0 Hsound0) as Hsound.
  set (room := process_room m0 (img k) (img_size k) L (k_procs k)) in *.
  unfold kmain_system. rewrite <- (with_procs_id k) at 2. wp_step. apply wp_on_k_procs.
  eapply (wp_ends _ _ (fun p s' => forall h sgs, room h sgs -> KERR_PTR_IS_ERR p = false /\ has_room (2 * segs_pages sgs + 8) (mm_vs (pr_vmm s')))).
  { apply process_create_wp; [exact Hp | exact Hn1 | exact Hn2]. }
  { intros p s' E h sgs Hr. by eapply (process_create_room fl (k_procs k) R L); [| | | exact (pr_create _ _ _ _ _ _ _ Hr) |]. }
  intros proc s1 [[E _]|(E & pid & t & pos & Hc)] Hroom1; rewrite E.
  { eapply (system_panic_wp _ _ _ Lg); [exact Hlog | | apply create_message, u32_range |].
    - intros (h & sgs & Hr)%Henough. destruct (Hroom1 h sgs Hr). congruence.
    - left. by eexists. }
  wp_step. wp_step. change (k_boot (with_procs s1 k)) with (k_boot k).
  destruct (created_can_load _ _ _ _ _ _ _ _ _ _ _ _ Hc Hkept Hsound) as [Hsame Hload].
  pose proof (image_same_trans _ _ _ _ _ Hsame0 Hsame) as Hsame1.
  set (vm := mk_vm_space (proc + 12) (mk_space t)) in *. set (Lo := (proc, sizeof_process) :: L) in *.
  assert ((proc, sizeof_process) ∈ Lo) as Hin by apply list_elem_of_here.
  assert (with_procs s1 k = with_procs (set_pr_vmm (pr_vmm s1) s1) k) as -> by by destruct s1.
  wp_step. apply wp_k_vmm.
  eapply (wp_ends _ _ (fun e v => forall h sgs, room h sgs -> e = KERR_OK /\ has_room 8 (mm_vs v))).
  { exact (process_load_wp fl (t :: R) vm Lo proc (img k) (img_size k) Hin eq_refl (proj1 Hsound) _ _ _ Hload). }
  { intros e v Ee h sgs Hr. eapply (room_load fl m0 (k_procs k) R L); try done; [apply Hsound | by apply (Hroom1 h)]. }
  intros e v [[He _]|(-> & h & segs & Hhb & Hhv & Hsz & Hlen & Hld & Hentry)] Hroom2.
  { replace (KERR_IS_ERR e) with true by (unfold KERR_IS_ERR; lia).
    eapply (system_panic_wp _ _ _ Lg); [exact Hlog | | apply (text_message load_failed); [vm_compute; lia | by apply chars_nonzero | reflexivity]|].
    - intros (h & sgs & Hr)%Henough. destruct (Hroom2 h sgs Hr) as [-> _]. done.
    - right; by left. }
  change (KERR_IS_ERR KERR_OK) with false. cbn iota. wp_step. apply wp_k_vmm.
  destruct (loaded_can_prepare _ _ _ _ _ _ _ _ _ _ _ _ _ _ Hc Hld) as [ps Hprep].
  eapply (wp_ends _ _ (fun e _ => forall h' sgs, room h' sgs -> e = KERR_OK)).
  { exact (process_prepare_wp _ _ _ _ _ _ _ _ _ _ Hlist Hprep). }
  { intros e v1 Ee h' sgs Hr. pose proof (image_good_same _ _ _ _ _ _ Hsame1 (pr_image _ _ _ _ _ _ _ Hr)) as Hg.
    destruct (ig_header _ _ _ _ _ Hg) as [Hb' Hv']. rewrite (header_unique _ _ _ _ Hv' Hhv Hb' Hhb) in Hlen.
    eapply (room_prepare fl m0 (k_procs k) R L); try done. by apply (Hroom2 h' sgs). }
  intros e v1 [[He _]|(-> & f & Hrd)] Hroom3.
  { replace (KERR_IS_ERR e) with true by (unfold KERR_IS_ERR; lia).
    eapply (system_panic_wp _ _ _ Lg); [exact Hlog | | apply (text_message prepare_failed); [vm_compute; lia | by apply chars_nonzero | reflexivity]|].
    - intros (h' & sgs & Hr)%Henough. rewrite (Hroom3 h' sgs Hr) in He. done.
    - right; by right. }
  change (KERR_IS_ERR KERR_OK) with false. cbn iota.
  wp_use (kmain_run_wp m0); [exact Hc | exact Hsame1 | | exact Hhv | exact Hsz | exact Hlen | exact Hld | exact Hentry | exact Hrd |].
  - rewrite <- Hhb. symmetry. apply (image_bytes _ _ (img k) (img_size k)); [exact Hsame1 | lia|]. destruct Hhv as (_ & _ & _ & _ & Hcnt).
    unfold is_u16 in Hcnt. lia.
  - intros r k' (fr & -> & Hu). right. by exists fr, h, segs, proc, t, pid, pos.
Qed.
End Start.

(** ** The devices *)

(** The state of the drivers inside the kernel's. *)
Definition drv_of {D} (k : kernel D) : devices * drv_state D :=
  (k_devices k, mk_drv_state (vmm_heap (pr_vmm (k_procs k))) (k_irqs k) (k_klog k) (k_res k)).
Definition with_drv {D} (w : devices * drv_state D) (k : kernel D) : kernel D :=
  mk_kernel (set_pr_vmm (set_vmm_heap (ds_heap (snd w)) (pr_vmm (k_procs k))) (k_procs k)) (k_boot k) (k_entries k)
    (ds_klog (snd w)) (k_cpu k) (k_gdt k) (k_idt k) (ds_irqs (snd w)) (fst w) (ds_res (snd w)).

Lemma with_drv_id {D} (k : kernel D) : with_drv (drv_of k) k = k.
Proof. destruct k as [[[[[] ? ?] ? ?] ? ? ?] ? ? ? ? ? ? ? ? ?]. done. Qed.

Lemma wp_on_k_drivers {D A} (c : M (devices * drv_state D) A) (Q : A -> kernel D -> Prop) w k :
  wp c (fun a w' => Q a (with_drv w' k)) w -> wp (on_k_drivers c) Q (with_drv w k).
Proof.
  destruct w as [dv [[m hs he] i l r]]. intros H. unfold on_k_drivers. wp_step. cbn. eapply wp_mono; [exact H|]. done.
Qed.

Section Devices.
Context `{PH : PlatformHw D} `{CpuId D} `{CpuDirection D} `{HW : !I8259Hw D} `{OB : I8259Objects}.

Abbreviation logged0 s0 := (logged (base := 980) con_vga s0 0 0 (PHYS_TO_VIRT 753664)).

(** Without a console the state of the machine behind the ports is free. *)
Lemma logged_machine s0 L d d' l :
  logged0 s0 L None d false l -> logged0 s0 L None d' false (mk_klog (kl_syslog l) (set_cdev d' (kl_screens l)) (kl_panicking l)).
Proof. intros [Hl Hs Hc Hp]. split; [done | cbn; by rewrite Hs | done | done]. Qed.

(** The interrupt tables before [irq_init]. *)
Definition irqs_blank (i : irqs) : Prop :=
  length (irq_descs i) = 256%nat /\
  (forall j, 0 <= j < 256 -> desc_map (irq_descs i !!! Z.to_nat j) = 0 /\ desc_handler (irq_descs i !!! Z.to_nat j) = 0) /\
  is_Some (irq_maps i !! i8259_map_addr).

(** After both initialisations line 0 of the controllers is mapped and unclaimed. *)
Definition irqs_start (map : Z) (i : irqs) : Prop :=
  exists m, irqs_ok i /\ irq_maps i !! map = Some m /\ mapped_irq m 0 <> IRQ_INVALID /\ request_code i (mapped_irq m 0) = KERR_OK.

Definition irqs_zero (i : irqs) : irqs :=
  mk_irqs (mk_bitmap (replicate 8 0) 256 (bm_nelems (irq_allocated i))) (irq_descs i) (irq_maps i).

Lemma irqs_zero_ok i : length (irq_descs i) = 256%nat ->
  irqs_ok (irqs_zero i) /\ forall j, 0 <= j < 256 -> irq_used (irqs_zero i) j = false.
Proof.
  intros Hl. split.
  - split; [|done]. split; [repeat constructor; done|]. unfold capacity. cbn. lia.
  - intros j Hj. unfold irq_used, bit. cbn [irqs_zero irq_allocated bm_data].
    rewrite lookup_total_replicate_2 by (apply Nat2Z.inj_lt; rewrite Z2Nat.id by dlia; dlia). apply Z.testbit_0_l.
Qed.

Definition with_machine (i : irqs) (d : D) (s : drv_state D) : drv_state D := set_ds_machine (i, d) s.

Lemma irq_init_k_wp dv s (Q : Z -> devices * drv_state D -> Prop) :
  Q KERR_OK (dv, with_machine (irqs_zero (ds_irqs s)) (cdev (ds_screens s)) s) -> wp (on_machine (on_irqs irq_init)) Q (dv, s).
Proof. intros HQ. unfold on_machine, on_drv, on_irqs, irq_init, bitmap_init. wp_steps. exact HQ. Qed.

Lemma irqchip_init_k_wp dv i d s (Q : Z -> devices * drv_state D -> Prop) :
  objects_ok -> irqs_blank i ->
  (forall i' d', irqs_start i8259_map_addr i' -> Q KERR_OK (dv, with_machine i' d' s)) ->
  wp (on_machine arch_irqchip_init) Q (dv, with_machine (irqs_zero i) d s).
Proof.
  intros Hobj (Hlen & Hdesc & [m0 Hm]) HQ. destruct (irqs_zero_ok i Hlen) as [Hok Hfree].
  unfold on_machine, on_drv, arch_irqchip_init. do 2 wp_step. cbn [fst snd ds_machine with_machine set_ds_machine].
  wp_step. wp_use i8259_init_wp; [exact Hobj | exact Hok | exact Hm | intros j Hj; by apply Hdesc|].
  intros r [i' d'] [_ [(-> & f & Hf & (Hf0 & _ & Hfirst) & Hok' & Hmaps & Hlines & Hused)|(_ & _ & Hno)]].
  2: { exfalso. apply (Hno 0); [lia | lia|]. intros j Hj. apply Hfree. lia. }
  cbn [fst] in *. assert (f = 0) as ->.
  { destruct (Z.eq_dec f 0) as [|Hne]; [done|]. exfalso. apply (Hfirst 0); [lia|]. intros j Hj. apply Hfree. lia. }
  change (KERR_OK <? 0) with false. cbn iota. wp_step. refine (HQ i' d' _). exists (pic_map 0).
  split; [done|]. split; [rewrite Hmaps; apply lookup_insert_eq|].
  change (mapped_irq (pic_map 0) 0) with 0. split; [done|]. unfold request_code. cbn [Z.leb Z.compare].
  rewrite Hused by lia. cbn [Z.leb Z.ltb Z.compare Z.add andb orb negb].
  destruct Hlines as [_ Hl]. rewrite (Hl 0) by lia. change ((0 + 0 <=? 0) && (0 <? 0 + 16)) with true. cbn iota.
  cbn [desc_map desc_chip desc_handler pic_desc]. destruct Hobj as (Hc & Hma & _).
  change (irq_descs (ds_irqs (with_machine (irqs_zero i) d s))) with (irq_descs i).
  rewrite (proj2 (Hdesc 0 ltac:(lia))), !(proj2 (Z.eqb_neq _ 0)) by done. done.
Qed.

(** [platform_init] empties the bus and registers it. *)
Definition with_bus (pb : Z) (b : bus) (dv : devices) : devices :=
  mk_devices (buses dv ++ [pb]) (<[pb := mk_bus (bus_name b) (bus_match b) (bus_probe b) [] []]> (bus_objs dv)) (device_objs dv) (driver_objs dv).

Lemma platform_init_wp pb b dv (s : drv_state D) (Q : Z -> devices * drv_state D -> Prop) :
  pb <> 0 -> bus_objs dv !! pb = Some b -> bus_match b <> 0 -> bus_probe b <> 0 -> Q KERR_OK (with_bus pb b dv, s) ->
  wp (platform_init pb) Q (dv, s).
Proof.
  intros Hb0 Hb Hm Hp HQ. unfold platform_init, bus_init, bus_register. rewrite (proj2 (Z.eqb_neq pb 0)) by done.
  wp_step. wp_step. unfold wp at 1, assign. cbn [fst snd]. rewrite Hb. unfold wp at 1, assign. cbn [fst snd bus_objs set_bus_objs].
  rewrite lookup_insert_eq. wp_step. unfold wp at 1, deref. cbn [fst snd bus_objs set_bus_objs]. rewrite lookup_insert_eq.
  cbn [bus_match bus_probe]. rewrite !(proj2 (Z.eqb_neq _ 0)) by done. cbn [orb]. wp_steps.
  rewrite insert_insert_eq. exact HQ.
Qed.

(** The static objects of the device model. *)
Record devs_static (a : statics) (dv : devices) : Prop := {
  dv_bus : exists b, bus_objs dv !! a_bus a = Some b /\ bus_match b <> 0 /\ bus_probe b <> 0;
  dv_vga : exists d, device_objs dv !! a_vga a = Some d /\ dev_driver d = 0;
  dv_timer : exists d, device_objs dv !! a_timer a = Some d /\ dev_driver d = 0 /\ dev_name d = Some (chars "i8254");
  dv_vga_driver : exists r, driver_objs dv !! a_vga_driver a = Some r /\ drv_name r = Some (chars "vga-text") /\ drv_probe r = a_vga_probe a;
  dv_timer_driver : exists r, driver_objs dv !! a_timer_driver a = Some r /\ drv_name r = Some (chars "i8254") /\ drv_probe r = a_timer_probe a
}.

(** The initcalls, from the state after [platform_init]. *)
Lemma initcalls_k_wp a name_of l s0 Lg d b dv (s : drv_state D) :
  statics_ok a -> l ≡ₚ [VgaDevice; VgaDriver; TimerDevice; TimerDriver] -> active_con s0 = 0 ->
  (exists cells, text_buffers s0 !! PHYS_TO_VIRT 753664 = Some cells /\ length cells = 2000%nat) ->
  devs_static a dv -> bus_objs dv !! a_bus a = Some b ->
  heap_room (a_free_list a) (ds_heap s) (ds_heap s) [] 164 -> irqs_start (a_map a) (ds_irqs s) ->
  logged0 s0 Lg None d false (ds_klog s) ->
  wp (initcalls_invoke_devdrv (linked a name_of l)) (fun _ w => exists L Lg',
    heap_room (a_free_list a) (ds_heap s) (ds_heap (snd w)) L 0 /\ heap_load L = 192 /\ length L = 2%nat /\
    exists s1 con nm buf o d', logged (base := 980) con_vga s1 con nm buf Lg' o d' false (ds_klog (snd w))) (with_bus (a_bus a) b dv, s).
Proof.
  intros Ha Hl Hcon Hbuf [_ (dg & Hdg & Eg) (dt & Hdt & Et & Nt) Hvd Htd] Hb Hroom (m & Hirq) Hlog.
  wp_use (devdrv_wp a name_of (ds_heap s) [] s0 (ds_irqs s) (get_timers d) m l Lg); [done | done | done | done | | done |].
  - split; cbn [with_bus bus_objs device_objs driver_objs].
    + eexists. split; [apply lookup_insert_eq | done].
    + exists dg. split; [done|]. split; [done|]. split; [by intros ?%elem_of_nil | done].
    + by exists dt.
    + exact Hvd.
    + exact Htd.
    + by intros ?%elem_of_nil.
    + by intros ?%elem_of_nil.
    + exists []. split; [done|]. eapply room_le; [exact Hroom | cbn; lia].
    + exists d. done.
  - intros r [dv' s'] (_ & p & q & Hp). destruct (pl_heap _ _ _ _ _ _ _ _ _ _ _ _ _ _ _ _ _ Hp) as (L & EL & HL).
    destruct (pl_machine _ _ _ _ _ _ _ _ _ _ _ _ _ _ _ _ _ Hp) as (d' & Hlog' & _).
    exists L, (Lg ++ map u8 (concat (map call_line l))). split; [eapply room_le; [exact HL | vm_compute; discriminate]|].
    cbn [object_of app] in EL. split; [by rewrite (heap_load_perm _ _ EL)|]. split; [by rewrite (Permutation_length EL)|].
    cbn [log_part] in Hlog'. do 6 eexists. exact Hlog'.
Qed.

(** The kernel when the devices come up: the memory manager with one space [t] and an
    unused heap, the static objects as linked. *)
Record can_init (im : image (devices * drv_state D)) (a : statics) (name_of : Z -> Z) (l : list call)
    (m0 : mem) (t : Z) (s0 : screens D) (Lg : list Z) (d : D) (k : kernel D) : Prop := {
  ci_mm : mm_inv (im_kheap_free_list im) (pr_vmm (k_procs k)) [t] [];
  ci_kvm : kvm_ok (vmm_kvm (pr_vmm (k_procs k))) [t] /\ prepared (vmm_kvm (pr_vmm (k_procs k)));
  ci_heap : exists b ns, heap_inv (im_kheap_free_list im) (vmm_heap (pr_vmm (k_procs k))) [b] ns /\ b_used b = false /\ 164 <= b_size b;
  ci_list : im_kheap_free_list im + 8 <= KERNEL_STACK_BASE;
  ci_pids : pids_ok (pid_bm (k_procs k)) /\ length (process_table (k_procs k)) = 64%nat;
  ci_name : is_u32 (im_system_name im) /\ im_system_name im <> 0;
  ci_image : forall x, bs_system_image (k_boot k) <= x < bs_system_image (k_boot k) + u32 (bs_system_image_size (k_boot k)) ->
    rd (mm_mem (pr_vmm (k_procs k))) (wd x) = rd m0 (wd x) /\ kept_word (im_kheap_free_list im) [t] (pr_vmm (k_procs k)) (wd x);
  ci_sound : image_sound m0 (bs_system_image (k_boot k)) (u32 (bs_system_image_size (k_boot k)));
  ci_log : logged0 s0 Lg None d false (k_klog k);
  ci_screen : active_con s0 = 0 /\ exists cells, text_buffers s0 !! PHYS_TO_VIRT 753664 = Some cells /\ length cells = 2000%nat;
  ci_irqs : objects_ok /\ irqs_blank (k_irqs k);
  ci_devs : devs_static a (k_devices k);
  ci_statics : statics_ok a /\ a_bus a = im_platform_bus im /\ a_map a = i8259_map_addr /\ a_free_list a = im_kheap_free_list im;
  ci_calls : im_devdrv im = linked a name_of l /\ l ≡ₚ [VgaDevice; VgaDriver; TimerDevice; TimerDriver]
}.

Definition welcome : list Z := chars "Welcome to ItWorksOS" ++ [10].

Lemma welcome_message : message (chars "Welcome to ItWorksOS" ++ [10; 0]) [] welcome.
Proof. repeat split; [constructor | vm_compute; lia | unfold welcome; by text_ok]. Qed.

(** The memory manager with the heap [h] in place of its own. *)
Lemma heap_room_mm fl (v : mm) t h L : mm_inv fl v [t] [] -> kvm_ok (vmm_kvm v) [t] -> prepared (vmm_kvm v) ->
  heap_room fl (vmm_heap v) h L 0 ->
  mm_inv fl (set_vmm_heap h v) [t] L /\ kvm_ok (vmm_kvm (set_vmm_heap h v)) [t] /\ prepared (vmm_kvm (set_vmm_heap h v)) /\
  (stack_slots (vmm_kvm v) -> stack_slots (vmm_kvm (set_vmm_heap h v))) /\ same_kernel v (set_vmm_heap h v) /\
  forall a, kept_word fl [t] v a -> rd (kh_mem h) a = rd (mm_mem v) a /\ kept_word fl [t] (set_vmm_heap h v) a.
Proof.
  intros Hmi [Hvm Hr Hbm] Hp Hroom. pose proof (room_client _ _ _ _ _ Hroom) as Hc. destruct Hroom as [[[Hs He] Hw Ho] _].
  destruct (mm_inv_heap fl v [t] [] h L (live_addr fl (vmm_heap v) [])) as [Hmi' Hk]; [done | done | done | done | done
    | intros a; apply live_outside | exact Ho|].
  destruct (Hk) as [(E1 & E2 & E3 & E4) _ Ht Hw' _]. split; [done|]. split; [split; [apply (mi_vm _ _ _ _ Hmi') | done | done]|].
  split; [unfold prepared in *; by rewrite E1, Ht by (done || lia)|].
  split; [apply (stack_slots_same v); [done|]; intros q Hq; by apply Hw'|]. split; [done|]. intros a Ha. apply (keep_kept_to fl _ _ _ _ Hk); [intros x; apply live_outside | done].
Qed.

Lemma one_block_room fl h b ns : heap_inv fl h [b] ns -> heap_words h -> b_used b = false -> 164 <= b_size b -> heap_room fl h h [] 164.
Proof.
  intros Hi Hw Hu Hs. split; [by split|]. exists [b], ns, []. split; [done|]. split; [unfold used_blocks; cbn; by rewrite Hu|].
  split; [constructor|]. right. exists b. split; [apply list_elem_of_here | done].
Qed.

(** Enough for the system process: PIDs, stack slots, frames and the heap's MiB. *)
Record start_room (m0 : mem) (image size : Z) (s : procs pmm) (h : iwbf32_hdr) (sgs : list iwbf32_segment_hdr) : Prop := {
  sr_image : image_good m0 image size h sgs;
  sr_count : Z.of_nat (length sgs) <= 8192;
  sr_pid : exists pid, 1 <= pid < PID_MAX /\ bit (pid_bm s) pid = false;
  sr_slots : stack_slots (vmm_kvm (pr_vmm s));
  sr_frames : has_room (13 + 2 * segs_pages sgs) (mm_vs (pr_vmm s));
  sr_heap : vmm_heap_end (pr_vmm s) = vmm_heap_start (pr_vmm s) + 1048576
}.

Lemma devices_room m0 image size s h sgs L v bm tab tss :
  start_room m0 image size s h sgs -> (stack_slots (vmm_kvm (pr_vmm s)) -> stack_slots (vmm_kvm v)) -> same_kernel (pr_vmm s) v ->
  mm_frames v = mm_frames (pr_vmm s) -> heap_load L = 192 -> length L = 2%nat -> bits_upd (pid_bm s) bm 0 1 true ->
  process_room m0 image size L (mk_procs v bm tab tss) h sgs.
Proof.
  intros [Hg Hn (pid & Hpid & Hbit) Hslots Hfr Hheap] Hsl (_ & _ & E1 & E2) Ef Hl Hlen Hbm.
  assert (0 <= segs_pages sgs) as Hp.
  { apply (segs_pages_nonneg _ size). intros seg [j Hj]%list_elem_of_lookup. apply (ig_segs _ _ _ _ _ Hg _ _ Hj). }
  split; [done | |].
  - split; cbn [pr_vmm pid_bm].
    + exists pid. split; [lia|]. rewrite (proj2 Hbm) by lia. by replace ((0 <=? pid) && (pid <? 1)) with false by lia.
    + unfold heap_fits, vmm_heap. cbn [kheap_start kheap_end]. rewrite E1, E2, Hl, Hlen. change (block_need sizeof_process) with 72. lia.
    + by apply Hsl.
    + split; [lia|]. replace (5 + (2 * segs_pages sgs + 8)) with (13 + 2 * segs_pages sgs) by lia. by apply (has_room_frames _ (pr_vmm s)).
  - cbn [pr_vmm]. rewrite E1, E2, Hl, Hlen. lia.
Qed.

Lemma kmain_devices_wp (enough : Prop) im a name_of l m0 t s0 Lg d k :
  can_init im a name_of l m0 t s0 Lg d k ->
  (enough -> exists h sgs, start_room m0 (bs_system_image (k_boot k)) (u32 (bs_system_image_size (k_boot k))) (k_procs k) h sgs) ->
  wp (kmain_devices im) (system_post enough m0 (bs_system_image (k_boot k))) k.
Proof.
  intros [Hmi [Hkvm Hprep] (b & ns & Hheap & Hfree & Hbig) Hlist [Hpids Htab] Hname Himg Hsound Hlog [Hcon Hbuf] [Hobj Hirqs] Hdevs
    (Hst & Hbus & Hmap & Hfl) [Hcalls Hl]] Henough.
  unfold kmain_devices. rewrite <- (with_drv_id k) at 2. unfold drv_of. set (ds := mk_drv_state _ _ _ _).
  wp_step. apply wp_on_k_drivers, irq_init_k_wp. change (KERR_OK <? 0) with false. cbn iota.
  wp_step. apply wp_on_k_drivers, irqchip_init_k_wp; [exact Hobj | exact Hirqs |]. intros i' d' Hi'. change (KERR_OK <? 0) with false. cbn iota.
  set (ds' := with_machine i' d' _). destruct (dv_bus _ _ Hdevs) as (bs & Hb & Hb1 & Hb2).
  wp_step. apply wp_on_k_drivers. rewrite <- Hbus. apply (platform_init_wp _ bs); [apply Hst | done | done | done |]. change (KERR_OK <? 0) with false. cbn iota.
  wp_step. apply wp_on_k_drivers. rewrite Hcalls.
  wp_use (initcalls_k_wp a name_of l s0 Lg d' bs (k_devices k) ds'); [done | done | done | done | done | done | | by rewrite Hmap | |].
  - rewrite Hfl. by eapply one_block_room; [exact Hheap | apply (v_mem _ _ (mi_vm _ _ _ _ Hmi)) | |].
  - by apply (logged_machine s0 Lg d d').
  - intros _ [dv2 s2] (L & Lg2 & Hroom & HL1 & HL2 & Hlog2). cbn [snd] in *. rewrite Hfl in Hroom.
    destruct (heap_room_mm _ _ _ _ _ Hmi Hkvm Hprep Hroom) as (Hmi2 & Hkvm2 & Hprep2 & Hsl2 & Hk2 & Hkept2).
    rewrite <- (with_procs_id (with_drv (dv2, s2) k)). wp_step. apply wp_on_k_procs. unfold pid_init. wp_step. wp_step.
    pose proof (pid_capacity _ Hpids) as Hcap.
    apply bitmap_set_wp; [apply Hpids | cbn; lia|]. intros bm Hbm. cbn in Hbm. wp_step.
    wp_step. unfold on_k_log. wp_step. destruct Hlog2 as (s1 & con & nm & buf & o & d2 & Hlog2). unfold printk.
    eapply (vprintk_wp con_vga s1 con nm buf); [lia | exact Hlog2 | apply welcome_message|]. cbv zeta. intros d3 l3 Hl3 _ _.
    set (k3 := mk_kernel _ _ _ _ _ _ _ _ _ _). change (bs_system_image (k_boot k)) with (bs_system_image (k_boot k3)).
    apply (kmain_system_wp im enough m0 [t] L (Lg2 ++ map u8 welcome)).
    2: { intros (h & sgs & Hr)%Henough. exists h, sgs. by apply (devices_room m0 _ _ (k_procs k)). }
    split.
    + split; cbn; [exact Hmi2 | exact Hkvm2 | exact Hprep2 | | exact Htab].
      split; [by eapply pids_upd|]. rewrite (proj2 Hbm) by lia. done.
    + exact Hlist.
    + exact Hname.
    + intros x Hx. apply Hkept2, Himg, Hx.
    + intros x Hx. destruct (Himg x Hx) as [<- Hk]. by apply Hkept2.
    + exact Hsound.
    + by exists s1, con, nm, buf, (option_map (fun t => term_write t welcome) o), d3.
Qed.
End Devices.

(** ** From the first instruction *)

Section Run.
Context `{PH : PlatformHw D} `{CD : CpuId D} `{CI : !CpuIdLaws D} `{CX : CpuDirection D} `{CL : !CldLaw D} `{HW : !I8259Hw D} `{OB : I8259Objects}.

(** What the linker, the loader and a reset guarantee.  [map] is the loader's memory
    map, [lay] the sections of the image; the system image lies in frames that are not
    given to the allocator. *)
Record power_on (im : image (devices * drv_state D)) (a : statics) (name_of : Z -> Z) (l : list call)
    (info : boot_info) (map : list boot_mem_map_entry) (lay : layout) (k : kernel D) : Prop := {
  pw_syslog : length (im_syslog_storage im) = 4096%nat;
  pw_quiet : active_con (kl_screens (k_klog k)) = 0 /\ kl_panicking (k_klog k) = false;
  pw_screen : exists cells, text_buffers (kl_screens (k_klog k)) !! PHYS_TO_VIRT 753664 = Some cells /\ length cells = 2000%nat;
  pw_info : boot_info_ok info /\ length (k_entries k) = 64%nat;
  pw_map : map_at (im_stage2 im) (PHYS_TO_VIRT (bi_memory_map_phys info)) map /\ Z.of_nat (length map) = bi_memory_map_count info;
  pw_boot : boot_ok (im_kheap_free_list im) map (im_kernel_start im) (im_kernel_end im) (im_kernel_end_words im) lay;
  pw_layout : lay = mk_layout (im_text_start im) (im_text_end im) (im_rodata_start im) (im_rodata_end im);
  pw_memory : mem_ok (mm_mem (pr_vmm (k_procs k)));
  pw_stacks : bitmap_ok (kernel_stack_bm (vmm_kvm (pr_vmm (k_procs k)))) /\
    bm_nbits (kernel_stack_bm (vmm_kvm (pr_vmm (k_procs k)))) = KERNEL_STACK_MAX;
  pw_pids : pids_ok (pid_bm (k_procs k)) /\ length (process_table (k_procs k)) = 64%nat;
  pw_addresses : is_u32 (im_tss im) /\ (forall v, is_u32 (im_stubs im v)) /\ is_u32 (im_system_name im) /\ im_system_name im <> 0;
  pw_irqs : objects_ok /\ irqs_blank (k_irqs k);
  pw_devs : devs_static a (k_devices k);
  pw_statics : statics_ok a /\ a_bus a = im_platform_bus im /\ a_map a = i8259_map_addr /\ a_free_list a = im_kheap_free_list im;
  pw_calls : im_devdrv im = linked a name_of l /\ l ≡ₚ [VgaDevice; VgaDriver; TimerDevice; TimerDriver];
  pw_image : forall x, let w := wd x in
    PHYS_TO_VIRT (bi_system_image info) <= x < PHYS_TO_VIRT (bi_system_image info) + u32 (bi_system_image_size info) ->
    0 <= (w - KERNEL_VIRT_OFFSET) / 4096 < boot_frames map /\
    boot_free map (im_kernel_start im) (im_kernel_end im) ((w - KERNEL_VIRT_OFFSET) / 4096) = false /\
    ~ (im_kheap_free_list im <= w < im_kheap_free_list im + 8);
  pw_sound : image_sound (mm_mem (pr_vmm (k_procs k))) (PHYS_TO_VIRT (bi_system_image info)) (u32 (bi_system_image_size info))
}.

Lemma started_devices im a name_of l info map lay k t v s0 Lg d tss boot entries klog cpu gdt idt :
  power_on im a name_of l info map lay k -> started (im_kheap_free_list im) map (im_kernel_start im) (im_kernel_end im) lay (pr_vmm (k_procs k)) t v ->
  bs_system_image boot = PHYS_TO_VIRT (bi_system_image info) -> bs_system_image_size boot = bi_system_image_size info ->
  s0 = kl_screens (k_klog k) -> logged (base := 980) con_vga s0 0 0 (PHYS_TO_VIRT 753664) Lg None d false klog ->
  can_init im a name_of l (mm_mem (pr_vmm (k_procs k))) t s0 Lg d
    (mk_kernel (mk_procs v (pid_bm (k_procs k)) (process_table (k_procs k)) tss) boot entries klog cpu gdt idt (k_irqs k) (k_devices k) (k_res k)).
Proof.
  intros [P1 [P2 _] P3 _ _ P5 P6 _ _ P7 (_ & _ & P8) P9 P10 P11 P12 P13 P14] [S1 S2 [S3 _] S4 S5 _ [S6 S7] S8 S9 S10] E1 E2 E3 Hlog.
  split; cbn [k_procs k_boot k_klog k_irqs k_devices pr_vmm pid_bm process_table]; rewrite ?E1, ?E2; try done.
  - split; [done|]. unfold prepared. rewrite S3. cbn. destruct (S5 960) as [q ->]; [lia | done].
  - eexists _, _. split; [exact S7|]. done.
  - pose proof (bk_list _ _ _ _ _ _ P5) as (_ & _ & L2). pose proof (bk_low _ _ _ _ _ _ P5) as L3.
    unfold KERNEL_STACK_BASE, KERNEL_VIRT_OFFSET, KERNEL_LOWMEM_LIMIT in *. lia.
  - intros x Hx. destruct (P13 x Hx) as (I1 & I2 & I3). destruct (S10 _ I1 I2 I3) as [Ew Hk]. done.
  - by rewrite E3.
Qed.

(** Enough memory for the system process: a good image with at most 8192 segments, a run
    of 526 usable frames in LowMem (513 for the memory manager, 13 for the process and its
    stacks) and two for each page of the image, a free PID and a free stack slot. *)
Record boot_enough (im : image (devices * drv_state D)) (info : boot_info) (map : list boot_mem_map_entry) (k : kernel D)
    (h : iwbf32_hdr) (sgs : list iwbf32_segment_hdr) : Prop := {
  be_image : image_good (mm_mem (pr_vmm (k_procs k))) (PHYS_TO_VIRT (bi_system_image info)) (u32 (bi_system_image_size info)) h sgs;
  be_count : Z.of_nat (length sgs) <= 8192;
  be_frames : boot_room map (im_kernel_start im) (im_kernel_end im) (526 + 2 * segs_pages sgs);
  be_pid : exists pid, 1 <= pid < PID_MAX /\ bit (pid_bm (k_procs k)) pid = false;
  be_slot : exists pos, 0 <= pos < KERNEL_STACK_MAX /\ bit (kernel_stack_bm (vmm_kvm (pr_vmm (k_procs k)))) pos = false
}.

Lemma started_room im info map lay k h sgs t v tss r :
  boot_enough im info map k h sgs ->
  (forall n, 0 <= n -> boot_room map (im_kernel_start im) (im_kernel_end im) (513 + n) -> r = KERR_OK /\ lowmem_room (mm_frames v) n) ->
  started (im_kheap_free_list im) map (im_kernel_start im) (im_kernel_end im) lay (pr_vmm (k_procs k)) t v ->
  start_room (mm_mem (pr_vmm (k_procs k))) (PHYS_TO_VIRT (bi_system_image info)) (u32 (bi_system_image_size info))
    (mk_procs v (pid_bm (k_procs k)) (process_table (k_procs k)) tss) h sgs.
Proof.
  intros [Hg Hn Hf Hp Hs] Hr Hst. split; cbn [pr_vmm pid_bm]; [done | done | done | | |].
  - unfold stack_slots. rewrite (sd_bm _ _ _ _ _ _ _ _ Hst). split; [done|]. intros pos i Hpos _ Hi.
    destruct (stack_page_bounds pos Hpos) as [B1 B2]. destruct (sd_kernel _ _ _ _ _ _ _ _ Hst) as [-> _]. cbn [pd_phys].
    rewrite (sd_walk _ _ _ _ _ _ _ _ Hst) by lia. unfold kernel_page.
    replace (stack_page pos + i <? 983040) with false by lia. by rewrite andb_false_r.
  - split; [apply (v_frames _ _ (mi_vm _ _ _ _ (sd_mm _ _ _ _ _ _ _ _ Hst)))|]. apply Hr.
    + enough (0 <= segs_pages sgs) by lia. apply (segs_pages_nonneg _ (u32 (bi_system_image_size info))).
      intros seg [j Hj]%list_elem_of_lookup. apply (ig_segs _ _ _ _ _ Hg _ _ Hj).
    + by replace (513 + (13 + 2 * segs_pages sgs)) with (526 + 2 * segs_pages sgs) by lia.
  - apply (sd_heap _ _ _ _ _ _ _ _ Hst).
Qed.

Lemma kmain_wp im a name_of l info map lay k :
  (forall d : D, id_writable d = true) -> power_on im a name_of l info map lay k ->
  boot_room map (im_kernel_start im) (im_kernel_end im) 513 ->
  wp (kmain im BOOT_MAGIC info) (system_post (exists h sgs, boot_enough im info map k h sgs) (mm_mem (pr_vmm (k_procs k))) (PHYS_TO_VIRT (bi_system_image info))) k.
Proof.
  intros Hcpu Hpw Hroom. destruct (Hpw) as [P1 [P2 P2'] P3 [P4 P4'] [P15 P15'] P5 P6 P16 [P17 P17'] _ (P18 & P19 & _) _ _ _ _ _ _].
  unfold kmain. set (s0 := kl_screens (k_klog k)).
  unfold on_k_log at 1. do 3 wp_step. wp_use syslog_init_wp; [exact P1|]. intros [] l1 Hl1.
  unfold on_k_boot. do 2 wp_step. cbn [k_klog k_boot k_entries]. set (w1 := mk_boot_world _ _ _).
  assert (logged (base := 980) con_vga s0 0 0 (PHYS_TO_VIRT 753664) [] None (cdev s0) false (bw_klog w1)) as Hlog1.
  { split; [exact Hl1 | symmetry; apply set_cdev_id | done | done]. }
  wp_use (boot_init_wp (base := 980) con_vga (im_stage2 im) s0 0 0 (PHYS_TO_VIRT 753664) ltac:(lia) info map);
    [done | exact P4' | exact P15 | exact P15' | exact Hlog1 |].
  intros [] w2 (Hb & He & d2 & Hlog2 & _ & Hf2). cbn [option_map app] in Hlog2.
  rewrite Z.eqb_refl. cbn [negb]. do 4 wp_step. cbn [k_boot k_entries]. rewrite Hb, He. cbn [bs_memory_map bs_memory_map_count].
  rewrite <- P15'. wp_step. unfold on_k_procs. do 2 wp_step. cbn [k_procs].
  assert (im_text_start im = text_start lay /\ im_text_end im = text_end lay /\ im_rodata_start im = rodata_start lay /\ im_rodata_end im = rodata_end lay)
    as (-> & -> & -> & ->) by (by rewrite P6).
  wp_use (mm_init_wp (im_kheap_free_list im) map (im_kernel_start im) (im_kernel_end im) (im_kernel_end_words im) lay); [exact P5 | exact P16 | exact P17 | exact P17' |].
  intros r v [Hr Hres]. destruct (Hr 0 (Z.le_refl 0) Hroom) as [-> _]. destruct Hres as [Hneg|(_ & t & Hst)]; [discriminate Hneg|].
  change (KERR_OK <? 0) with false. cbn iota. wp_step. unfold on_k_arch. wp_step. cbn [k_cpu k_klog k_gdt k_procs pr_tss k_idt set_pr_vmm].
  wp_use (arch_init_wp (base := 980) con_vga s0 0 0 (PHYS_TO_VIRT 753664) (im_gdt im) (im_tss im) (im_idt im) (im_stubs im) ltac:(lia)); [exact P18 | exact P19 | exact Hlog2|].
  intros o ast (d3 & _ & Hpost). rewrite Hcpu in Hpost. destruct Hpost as (-> & _ & Hlog3 & _). cbn [option_map] in Hlog3.
  cbn [k_procs k_boot k_entries k_klog k_cpu k_gdt k_idt k_irqs k_devices k_res].
  match goal with |- wp _ _ ?s => set (k1 := s) end.
  assert (PHYS_TO_VIRT (bi_system_image info) = bs_system_image (k_boot k1)) as -> by reflexivity.
  eapply (kmain_devices_wp _ im a name_of l (mm_mem (pr_vmm (k_procs k))) t s0 _ d3); [by eapply (started_devices im a name_of l info map lay k)|].
  intros (h & sgs & Hen). exists h, sgs. by eapply started_room.
Qed.
End Run.

(** ** Property *)


(** ** A machine *)

Module WholeMachine.
Import PicMachine PlatformMachine.

(** The display, processor and timers of [PlatformMachine] and two interrupt controllers. *)
Definition machine : Type := PlatformMachine.machine * PicMachine.machine.

Definition pic_port (p : Z) : bool := (p =? 32) || (p =? 33) || (p =? 160) || (p =? 161).

Abbreviation pf_ports := PlatformMachine.machine_ports.
Abbreviation pf_cpu := PlatformMachine.machine_cpu.

Definition lift {A} (c : M PlatformMachine.machine A) : M machine A := fun d =>
  match c (fst d) with Some (x, e) => Some (x, (e, snd d)) | None => None end.

Lemma lift_wp {A} (c : M PlatformMachine.machine A) (Q : A -> machine -> Prop) d :
  wp c (fun x e => Q x (e, snd d)) (fst d) -> wp (lift c) Q d.
Proof. unfold wp, lift. by destruct (c (fst d)) as [[x e]|]. Qed.

#[export] Instance machine_ports : PortIO machine := {
  port_in := fun w p => if pic_port p then gets (fun d => PicMachine.read p (snd d)) else lift (port_in (PortIO := pf_ports) w p);
  port_out := fun w p v =>
    if pic_port p then modify (fun d => (fst d, PicMachine.write p v (snd d))) else lift (port_out (PortIO := pf_ports) w p v)
}.

(** What a port instruction keeps. *)
Lemma out_keeps w p v (d : machine) r d' : port_out w p v d = Some (r, d') ->
  PlatformMachine.pm_flags (fst d') = PlatformMachine.pm_flags (fst d) /\
  PlatformMachine.pm_timers (fst d') = PlatformMachine.pm_timers (fst d).
Proof.
  unfold port_out, machine_ports. destruct (pic_port p); [by intros [= _ <-]|]. unfold lift, port_out, pf_ports, modify.
  intros [= _ <-]. cbn. by repeat case_match.
Qed.

#[export] Instance machine_crtc : CrtcHw machine 980.
Proof.
  refine {| crtc_index := fun d : machine => crtc_index (fst d); crtc_reg := fun d : machine => crtc_reg (fst d) |}.
  - intros d v Q Hv HQ. apply lift_wp, crtc_select; [done|]. intros e He Hr. by apply HQ.
  - intros d v Q Hv HQ. apply lift_wp, crtc_store; [done|]. intros e He Hr. by apply HQ.
Defined.

#[export] Instance machine_read : CrtcRead machine.
Proof.
  split.
  - intros d Q HQ. apply lift_wp, crtc_fetch. destruct d. exact HQ.
  - intros d r. apply (crtc_reg_u8 (fst d)).
Qed.

#[export] Instance machine_timers : HasTimers machine := {
  get_timers := fun d => get_timers (fst d); set_timers := fun t d => (set_timers t (fst d), snd d)
}.

#[export] Instance machine_store : TimerStore machine.
Proof. by split. Qed.

#[export] Instance machine_cpu : Cpu machine := {
  eflags := fun d => eflags (fst d);
  popf := fun v => lift (popf v); cli := lift cli; sti := lift sti
}.

#[export] Instance machine_log : LogHw machine.
Proof.
  split.
  - intros d Q HQ. apply lift_wp, cli_display. intros e Hf Hr. by apply HQ.
  - intros w p v d r d' [E _]%out_keeps. unfold if_set. cbn. by rewrite E.
Qed.

#[export] Instance machine_platform : PlatformHw machine.
Proof. split; [apply _ | apply _ |]. by intros w p v d r d' [_ E]%out_keeps. Qed.

#[export] Instance machine_cpuid : CpuId machine := { cpuid := fun _ leaf _ => CpuMachine.answers leaf }.

#[export] Instance machine_cpuid_laws : CpuIdLaws machine.
Proof.
  refine {| id_writable := fun _ : machine => true |}.
  - intros v d Q HQ. apply lift_wp, wp_modify. by apply HQ.
  - intros w p v d r d' [E _]%out_keeps. split; [done|]. cbn. by rewrite E.
  - intros d l k r. unfold r, cpuid, machine_cpuid, CpuMachine.answers, is_u32. repeat case_match; cbn; lia.
Defined.

Definition set_flags (v : Z) (d : machine) : machine :=
  (PlatformMachine.mk_machine (PlatformMachine.pm_index (fst d)) (PlatformMachine.pm_regs (fst d)) v (PlatformMachine.pm_timers (fst d)), snd d).

#[export] Instance machine_direction : CpuDirection machine := {
  cld := modify (fun d => set_flags (Z.clearbit (eflags d) 10) d); std := modify (fun d => set_flags (Z.setbit (eflags d) 10) d)
}.

#[export] Instance machine_cld : CldLaw machine.
Proof.
  split; intros d Q HQ.
  - apply wp_modify, HQ; try done; unfold if_set; cbn [eflags machine_cpu PlatformMachine.machine_cpu fst snd pm_flags set_flags];
      by rewrite Z.clearbit_neq.
  - apply lift_wp, wp_modify, HQ; try done; unfold if_set; cbn [eflags machine_cpu PlatformMachine.machine_cpu fst snd pm_flags];
      [apply Z.clearbit_eq | by rewrite Z.clearbit_neq].
Qed.

#[export] Instance machine_pics : I8259Hw machine.
Proof.
  assert (forall p (c : PlatformMachine.machine) (d : PicMachine.machine) (Q : Z -> machine -> Prop), pic_port p = true ->
    wp (port_in 8 p) (fun v e => Q v (c, e)) d -> wp (port_in 8 p) Q (c, d)) as Hin.
  { intros p c d Q Hp HQ. unfold port_in, machine_ports. rewrite Hp. exact HQ. }
  assert (forall p v (c : PlatformMachine.machine) (d : PicMachine.machine) (Q : unit -> machine -> Prop), pic_port p = true ->
    wp (port_out 8 p v) (fun u e => Q u (c, e)) d -> wp (port_out 8 p v) Q (c, d)) as Hout.
  { intros p v c d Q Hp HQ. unfold port_out, machine_ports. rewrite Hp. exact HQ. }
  refine {| pic1 := fun d : machine => pic1 (snd d); pic2 := fun d : machine => pic2 (snd d) |}.
  - intros d. apply imr_u8.
  - intros d. apply isr_u8.
  - intros [c d] Q HQ. apply Hin; [done|]. apply read_data1. intros e E1 E2. by apply HQ.
  - intros [c d] Q HQ. apply Hin; [done|]. apply read_data2. intros e E1 E2. by apply HQ.
  - intros [c d] Q HQ. apply Hin; [done|]. apply read_command1. intros v e E E1 E2. by apply HQ.
  - intros [c d] Q HQ. apply Hin; [done|]. apply read_command2. intros v e E E1 E2. by apply HQ.
  - intros [c d] v Q Hv HQ. apply Hout; [done|]. apply write_data1; [done|]. intros e E1 E2. by apply HQ.
  - intros [c d] v Q Hv HQ. apply Hout; [done|]. apply write_data2; [done|]. intros e E1 E2. by apply HQ.
  - intros [c d] v Q Hv HQ. apply Hout; [done|]. apply write_command1; [done|]. intros e E1 E2. by apply HQ.
  - intros [c d] v Q Hv HQ. apply Hout; [done|]. apply write_command2; [done|]. intros e E1 E2. by apply HQ.
  - intros [c d] v Q HQ. apply lift_wp, wp_modify. by apply HQ.
Defined.
End WholeMachine.

Import PicMachine PlatformMachine WholeMachine.

(** A machine of 32 MiB after a reset, with a small system image below 1 MiB. *)
#[local] Instance objects_32 : I8259Objects := {| i8259_chip_addr := 20480; i8259_map_addr := 16384; i8259_map_name := 24576 |}.
Definition statics_32 : statics := mk_statics 256 4096 8192 512 768 1024 1280 12288 16384 3221303296.
Definition calls_32 : list call := [TimerDriver; VgaDriver; VgaDevice; TimerDevice].
Definition stage2_32 : gmap Z boot_mem_map_entry :=
  {[3221258240 := mk_entry 0 654336 1 1; 3221258264 := mk_entry 983040 65536 2 1; 3221258288 := mk_entry 1048576 32505856 1 1]}.
Definition info_32 : boot_info := mk_boot_info 3 32768 (mk_boot_video 1 3 0 80 25 753664) 16384 38.
Definition image_32 : image (devices * drv_state WholeMachine.machine) :=
  mk_image _ (replicate 4096 0) stage2_32 3221291008 3221307392 (replicate 256 0) 3221291008 3221299200 3221299200 3221303296
    3221303296 4096 8192 12288 (fun v => 3221291008 + 16 * (v mod 256)) 256 (linked statics_32 (fun _ => 0) calls_32) 3221291100.
Definition mm_reset : mm :=
  mk_vmm (mk_kvm (mk_vmstate (with_image ∅) pmm_sample 0 []) (mk_space 0) (mk_bitmap [0; 0] 64 2)) 0 0.
Definition kernel_32 : kernel WholeMachine.machine :=
  mk_kernel (mk_procs mm_reset (mk_bitmap [0; 0] 64 2) (replicate 64 0) (mk_tss 0 0 0))
    (mk_boot_state 0 false (mk_boot_video 0 0 0 0 0 0) 0 0) (replicate 64 (mk_entry 0 0 0 0))
    (mk_klog (mk_syslog (mk_ringbuf [] 0 0 0) false)
       (mk_screens 0 ∅ {[PHYS_TO_VIRT 753664 := replicate 2000 0]} (PlatformMachine.d0, (reset_pic, reset_pic))) false)
    cpu_info_zero (mk_gdt_state (replicate 6 gdt_raw_zero) (mk_gdt_descriptor 0 0) None) (mk_idt_state [] (mk_idt_descriptor 0 0) None)
    (mk_irqs (mk_bitmap [] 0 0) (replicate 256 (mk_irq_desc 0 0 0 0 0)) {[16384 := mk_irq_map 0 0 0 0]})
    (mk_devices [] {[256 := mk_bus None 1 2 [] []]}
       {[4096 := mk_device None 0 0 0 0; 8192 := mk_device (Some (chars "i8254")) 0 0 0 0]} Boot0.drivers0) ∅.

Lemma mem_ok_empty : mem_ok ∅.
Proof. intros x. unfold rd. rewrite lookup_empty. by unfold is_u32. Qed.

Lemma image_32_sound : image_sound (with_image ∅) image_sample 38.
Proof.
  split; [unfold range_valid, image_sample, KERNEL_VIRT_OFFSET; lia|]. split; [by unfold is_u32|].
  intros _ h Hb Hv. rewrite (sample_hdr _ _ Hb Hv). cbn. split; [lia|]. intros i seg Hi Hs Hsv.
  replace i with 0 in Hs by lia. rewrite (sample_seg _ _ Hs Hsv). cbn. lia.
Qed.

Lemma small_bitmap_ok : bitmap_ok (mk_bitmap [0; 0] 64 2).
Proof. split; [repeat constructor; unfold is_u32; lia|]. unfold capacity. cbn. lia. Qed.

Lemma power_on_32 : power_on image_32 statics_32 (fun _ => 0) calls_32 info_32 map_32 layout_32 kernel_32.
Proof.
  split.
  - by apply length_replicate.
  - done.
  - exists (replicate 2000 0). split; [apply lookup_singleton_eq | by apply length_replicate].
  - split; [|by apply length_replicate]. split; [done | done |]. by repeat constructor.
  - split; [|reflexivity]. split; [by repeat constructor|].
    intros [|[|[|i]]] e He; [injection He as <-; vm_compute; reflexivity..|done].
  - exact boot_ok_32.
  - reflexivity.
  - apply with_image_ok, mem_ok_empty.
  - split; [apply small_bitmap_ok | reflexivity].
  - split; [split; [apply small_bitmap_ok | reflexivity] | by apply length_replicate].
  - split; [done|]. split; [intros v; unfold is_u32; cbn; dlia|]. done.
  - split; [done|]. split; [by apply length_replicate|]. split; [|eexists; apply lookup_singleton_eq].
    intros j Hj. change (irq_descs (k_irqs kernel_32)) with (replicate 256 (mk_irq_desc 0 0 0 0 0)).
    by rewrite lookup_total_replicate_2 by lia.
  - split; eexists; (split; [vm_compute; reflexivity | done]).
  - split; [by split | done].
  - split; [reflexivity|]. unfold calls_32. solve_Permutation.
  - change (PHYS_TO_VIRT (bi_system_image info_32)) with image_sample. change (u32 (bi_system_image_size info_32)) with 38.
    intros x w Hx. assert (image_sample <= w < image_sample + 38) as Hw by (unfold w, wd, image_sample in *; dlia).
    assert ((w - KERNEL_VIRT_OFFSET) / 4096 = 4) as -> by (unfold KERNEL_VIRT_OFFSET, image_sample in *; dlia).
    assert (boot_frames map_32 = 8192) as -> by (vm_compute; reflexivity). split; [lia|]. split; [vm_compute; reflexivity|].
    cbn. unfold image_sample in *. lia.
  - exact image_32_sound.
Qed.

Lemma enough_32 : boot_enough image_32 info_32 map_32 kernel_32 (mk_hdr IWBF_HDR_MAGIC 1 1 4194304 1) [mk_seg 4194304 36 2 4096 5].
Proof.
  change (mm_mem (pr_vmm (k_procs kernel_32))) with (with_image ∅).
  split.
  - change (mm_mem (pr_vmm (k_procs kernel_32))) with (with_image ∅).
    change (PHYS_TO_VIRT (bi_system_image info_32)) with image_sample. change (u32 (bi_system_image_size info_32)) with 38.
    split.
    + split; [vm_compute; reflexivity | by vm_compute].
    + done.
    + intros [|k] seg [= <-]. split; [vm_compute; reflexivity|]. by vm_compute.
    + intros [|k] [|k'] seg seg' [= <-] [= <-] Hne; done.
    + intros seg ->%list_elem_of_singleton. left. by vm_compute.
  - done.
  - apply (room_32 15). lia.
  - by exists 1.
  - by exists 0.
Qed.

