(* ===== verification/Tree.v ===== *)
(** * The file tree of mkimage

    Models [tools/mkimage/tree.c] and [tools/mkimage/parser.c], a program of the
    host.

    - The nodes are objects on the host's heap, by address; 0 is [NULL] and each
      allocation gives a new address.  Reading or freeing an address that holds no
      node is undefined.  [oom n] tells whether the [n]-th request for memory fails.
      The array [dir.children] belongs to its node; its length is [child_count].
    - A [char] array that holds a string is the bytes before its terminating zero.
    - The files of the host are a function [fopen] from paths to contents.
    - [tree] is the specification: a tree of names without addresses.  [rep] relates
      the two, [update] says what an insertion does to a tree. *)

From S2P Require Import Prelude Buffer.

(** ** [tree.h] *)

Definition FS_NAME_MAX : Z := 64.
Definition FS_PATH_MAX : Z := 256.
Definition MAX_PATH_COMPONENTS : Z := 32.

(** The tag and the union of [struct fs_node]. *)
Inductive node_body :=
  | NODE_FILE (host_path : list Z) (size : Z)
  | NODE_DIRECTORY (children : list Z).

Record fs_node := mk_node {
  nd_name : list Z;
  nd_first_cluster : Z;
  nd_parent : Z;
  nd_body : node_body
}.

Record heap := mk_heap { hp_nodes : gmap Z fs_node; hp_allocs : nat }.

(** [for] over the elements of an array, with loop-carried locals and early exit. *)
Fixpoint for_in {S T A R} (l : list T) (acc : A) (body : T -> A -> M S (A + R)) : M S (A + R) :=
  match l with
  | [] => ret (inl acc)
  | x :: l' => bind (body x acc) (fun r =>
      match r with inl acc' => for_in l' acc' body | inr v => ret (inr v) end)
  end.

(** [strncpy(dst, src, max - 1)] followed by [dst[max - 1] = 0]. *)
Definition copy_name (max : Z) (s : list Z) : list Z := take (Z.to_nat (max - 1)) s.

(** [strtok(s, "/")]: the next token and what is left. *)
Fixpoint skip_slashes (s : list Z) : list Z :=
  match s with x :: s' => if x =? 47 then skip_slashes s' else s | [] => [] end.
Fixpoint token (s : list Z) : list Z * list Z :=
  match s with
  | [] => ([], [])
  | x :: s' => if x =? 47 then ([], s') else let '(t, r) := token s' in (x :: t, r)
  end.
Definition strtok (s : list Z) : option (list Z * list Z) :=
  match skip_slashes s with [] => None | s' => Some (token s') end.

Fixpoint split_path_loop (room : nat) (path : list Z) : list (list Z) :=
  match room with
  | O => []
  | S room' =>
      match strtok path with
      | None => []
      | Some (t, rest) => t :: split_path_loop room' rest
      end
  end.
Definition split_path (path : list Z) : list (list Z) :=
  split_path_loop (Z.to_nat MAX_PATH_COMPONENTS) path.

Section Host.
Context (fopen : list Z -> option (list Z)) (oom : nat -> bool).

(** ** The heap *)

Definition request : M heap bool := fun s =>
  Some (negb (oom (hp_allocs s)), mk_heap (hp_nodes s) (S (hp_allocs s))).

Definition zero_node : fs_node := mk_node [] 0 0 (NODE_FILE [] 0).

Definition calloc_node : M heap Z := fun s =>
  let p := Z.of_nat (S (hp_allocs s)) in
  if oom (hp_allocs s) then Some (0, mk_heap (hp_nodes s) (S (hp_allocs s)))
  else Some (p, mk_heap (<[p := zero_node]> (hp_nodes s)) (S (hp_allocs s))).

Definition get_node (p : Z) : M heap fs_node := fun s =>
  match hp_nodes s !! p with Some nd => Some (nd, s) | None => None end.
Definition set_node (p : Z) (nd : fs_node) : M heap unit := fun s =>
  match hp_nodes s !! p with
  | Some _ => Some (tt, mk_heap (<[p := nd]> (hp_nodes s)) (hp_allocs s))
  | None => None
  end.
Definition release_node (p : Z) : M heap unit := fun s =>
  match hp_nodes s !! p with
  | Some _ => Some (tt, mk_heap (delete p (hp_nodes s)) (hp_allocs s))
  | None => None
  end.

Definition children_of (nd : fs_node) : option (list Z) :=
  match nd_body nd with NODE_DIRECTORY cs => Some cs | NODE_FILE _ _ => None end.
(** [node->dir.children]: undefined for a file. *)
Definition get_children (p : Z) : M heap (list Z) :=
  nd <-- get_node p ;;
  match children_of nd with Some cs => ret cs | None => undefined end.
Definition is_dir (nd : fs_node) : bool :=
  match nd_body nd with NODE_DIRECTORY _ => true | NODE_FILE _ _ => false end.

Definition with_parent (q : Z) (nd : fs_node) : fs_node :=
  mk_node (nd_name nd) (nd_first_cluster nd) q (nd_body nd).
Definition with_body (b : node_body) (nd : fs_node) : fs_node :=
  mk_node (nd_name nd) (nd_first_cluster nd) (nd_parent nd) b.

(** ** [tree.c] *)

Definition fs_node_create_directory (name : list Z) : M heap Z :=
  node <-- calloc_node ;;
  if node =? 0 then ret 0
  else
    set_node node (mk_node (copy_name FS_NAME_MAX name) 0 0 (NODE_DIRECTORY [])) ;;;
    ret node.

Definition fs_node_add_child (parent child : Z) : M heap Z :=
  cs <-- get_children parent ;;
  ok <-- request ;;
  if negb ok then ret 0
  else
    nd <-- get_node parent ;;
    set_node parent (with_body (NODE_DIRECTORY (cs ++ [child])) nd) ;;;
    cd <-- get_node child ;;
    set_node child (with_parent parent cd) ;;;
    ret child.

Definition fs_node_find_child (dir : Z) (name : list Z) : M heap Z :=
  cs <-- get_children dir ;;
  r <-- for_in cs tt (fun child _ =>
    nd <-- get_node child ;;
    if bool_decide (nd_name nd = name) then ret (inr child) else ret (inl tt)) ;;
  match r with inr child => ret child | inl _ => ret 0 end.

Definition fs_node_create_file (filename host_path : list Z) : M heap Z :=
  file <-- calloc_node ;;
  if file =? 0 then ret 0
  else
    set_node file (mk_node (copy_name FS_NAME_MAX filename) 0 0
      (NODE_FILE (copy_name FS_PATH_MAX host_path) 0)) ;;;
    match fopen host_path with
    | None => release_node file ;;; ret 0
    | Some content =>
        set_node file (mk_node (copy_name FS_NAME_MAX filename) 0 0
          (NODE_FILE (copy_name FS_PATH_MAX host_path) (u32 (Z.of_nat (length content))))) ;;;
        ret file
    end.

(** The body of the loop over the components of a path: [inr 0] is [return NULL]. *)
Definition enter_directory (part : list Z) (current : Z) : M heap (Z + Z) :=
  child <-- fs_node_find_child current part ;;
  if negb (child =? 0) then
    nd <-- get_node child ;;
    if negb (is_dir nd) then ret (inr 0) else ret (inl child)
  else
    child <-- fs_node_create_directory part ;;
    if child =? 0 then ret (inr 0)
    else fs_node_add_child current child ;;; ret (inl child).

Definition tree_insert_node (root_dir : Z) (path host_path : list Z) : M heap Z :=
  let parts := split_path (copy_name FS_PATH_MAX path) in
  match last parts with
  | None => ret 0
  | Some name =>
      r <-- for_in (removelast parts) root_dir enter_directory ;;
      match r with
      | inr v => ret v
      | inl current =>
          other <-- fs_node_find_child current name ;;
          if negb (other =? 0) then ret 0
          else
            file <-- fs_node_create_file name host_path ;;
            if file =? 0 then ret 0
            else fs_node_add_child current file ;;; ret file
      end
  end.

Definition tree_insert_directory (root_dir : Z) (path : list Z) : M heap Z :=
  let parts := split_path (copy_name FS_PATH_MAX path) in
  match parts with
  | [] => ret 0
  | _ =>
      r <-- for_in parts root_dir enter_directory ;;
      match r with inr v => ret v | inl current => ret current end
  end.

(** The recursion is bounded by the depth of the tree. *)
Fixpoint fs_node_free (fuel : nat) (node : Z) : M heap unit :=
  match fuel with
  | O => undefined
  | S fuel' =>
      if node =? 0 then ret tt
      else
        nd <-- get_node node ;;
        match children_of nd with
        | Some cs =>
            for_in (R := Empty_set) cs tt (fun c _ => fs_node_free fuel' c ;;; ret (inl tt)) ;;;
            release_node node
        | None => release_node node
        end
  end.

(** ** [parser.c] *)

Definition MAX_BUF_SIZE : Z := FS_PATH_MAX * 2 + 3.

(** [fgets]: at most [room] bytes, up to and including a newline. *)
Fixpoint fgets_loop (room : nat) (input : list Z) : list Z * list Z :=
  match room, input with
  | O, _ => ([], input)
  | _, [] => ([], [])
  | S room', x :: input' =>
      if x =? 10 then ([x], input')
      else let '(l, r) := fgets_loop room' input' in (x :: l, r)
  end.
Definition fgets (size : Z) (input : list Z) : option (list Z * list Z) :=
  match input with [] => None | _ => Some (fgets_loop (Z.to_nat (size - 1)) input) end.

(** The string in a buffer, cut at the first byte of [stop] as well. *)
Fixpoint string_until (stop : Z) (buf : list Z) : list Z :=
  match buf with
  | [] => []
  | x :: buf' => if (x =? 0) || (x =? stop) then [] else x :: string_until stop buf'
  end.
(** [strchr(s, ':')]: what is before and after the first colon. *)
Fixpoint split_colon (s : list Z) : option (list Z * list Z) :=
  match s with
  | [] => None
  | x :: s' =>
      if x =? 58 then Some ([], s')
      else match split_colon s' with Some (a, b) => Some (x :: a, b) | None => None end
  end.

Definition ends_with_slash (s : list Z) : bool :=
  match last s with Some c => c =? 47 | None => false end.

(** One line: the node inserted (0 is reported on [stderr]) and the image path, without
    the last slash of a directory. *)
Definition insert_line (root : Z) (host_path image_path : list Z) : M heap (Z * list Z) :=
  if ends_with_slash image_path then
    let image_path := removelast image_path in
    node <-- tree_insert_directory root image_path ;; ret (node, image_path)
  else node <-- tree_insert_node root image_path host_path ;; ret (node, image_path).

(** The loop; the result lists the image paths reported as not inserted. *)
Fixpoint parse_lines (fuel : nat) (root : Z) (input : list Z) : M heap (list (list Z)) :=
  match fuel with
  | O => undefined
  | S fuel' =>
      match fgets MAX_BUF_SIZE input with
      | None => ret []
      | Some (buf, rest) =>
          match split_colon (string_until 10 buf) with
          | None => parse_lines fuel' root rest
          | Some (host_path, image_path) =>
              '(node, path) <-- insert_line root host_path image_path ;;
              errs <-- parse_lines fuel' root rest ;;
              ret (if node =? 0 then path :: errs else errs)
          end
      end
  end.

Definition parse_disk_files (input : list Z) : M heap (Z * list (list Z)) :=
  root <-- fs_node_create_directory [] ;;
  errs <-- parse_lines (S (length input)) root input ;;
  ret (root, errs).
End Host.
