(* ===== verification/TreeProps.v ===== *)
(** * Properties of the file tree of mkimage

    The tree that [tools/mkimage/parser.c] builds from a list of files, stated
    without addresses. *)

From S2P Require Import Prelude Buffer Tree.

#[local] Set Warnings "-register-all".

(** ** Trees *)

(** A tree without addresses. *)
Inductive tree :=
  | File (nm host : list Z) (size : Z)
  | Dir (nm : list Z) (kids : list tree).

Definition tree_name (t : tree) : list Z := match t with File nm _ _ | Dir nm _ => nm end.

(** The position of the first child of a name. *)
Fixpoint child_index (nm : list Z) (ts : list tree) : option nat :=
  match ts with
  | [] => None
  | t :: ts' => if bool_decide (tree_name t = nm) then Some O else S <$> child_index nm ts'
  end.

(** What an insertion does to the children of a directory: enter the directories of a
    path, creating those that are missing, and apply [k] at the end.  The second
    component tells whether it succeeds; directories made on the way stay. *)
Fixpoint update (parts : list (list Z)) (k : list tree -> list tree * bool) (kids : list tree) :
    list tree * bool :=
  match parts with
  | [] => k kids
  | x :: parts' =>
      match child_index x kids with
      | Some i =>
          match kids !! i with
          | Some (Dir nm ks) => let '(ks', ok) := update parts' k ks in (<[i := Dir nm ks']> kids, ok)
          | _ => (kids, false)
          end
      | None =>
          let '(ks', ok) := update parts' k [] in
          (kids ++ [Dir (copy_name FS_NAME_MAX x) ks'], ok)
      end
  end.

Section Spec.
Context (fopen : list Z -> option (list Z)).

Definition add_file (name host : list Z) (kids : list tree) : list tree * bool :=
  match child_index name kids with
  | Some _ => (kids, false)
  | None =>
      match fopen host with
      | None => (kids, false)
      | Some content =>
          (kids ++ [File (copy_name FS_NAME_MAX name) (copy_name FS_PATH_MAX host)
                      (u32 (Z.of_nat (length content)))], true)
      end
  end.

(** A line of the list of files. *)
Definition insert_entry (host image : list Z) (kids : list tree) : list tree * bool :=
  if ends_with_slash image then
    match split_path (copy_name FS_PATH_MAX (removelast image)) with
    | [] => (kids, false)
    | parts => update parts (fun ks => (ks, true)) kids
    end
  else
    let parts := split_path (copy_name FS_PATH_MAX image) in
    match last parts with
    | None => (kids, false)
    | Some name => update (removelast parts) (add_file name host) kids
    end.
End Spec.

(** ** Trees in memory *)

(** A tree with the address and the first cluster of each node. *)
Inductive ntree :=
  | NFile (p c : Z) (nm host : list Z) (size : Z)
  | NDir (p c : Z) (nm : list Z) (kids : list ntree).

Section NtreeInd.
Context (P : ntree -> Prop)
  (HF : forall p c nm host size, P (NFile p c nm host size))
  (HD : forall p c nm kids, Forall P kids -> P (NDir p c nm kids)).
Fixpoint ntree_ind' (t : ntree) : P t :=
  match t with
  | NFile p c nm host size => HF p c nm host size
  | NDir p c nm kids =>
      HD p c nm kids ((fix go (l : list ntree) : Forall P l :=
        match l with
        | [] => Forall_nil_2 P
        | x :: l' => Forall_cons_2 P x l' (ntree_ind' x) (go l')
        end) kids)
  end.
End NtreeInd.

Definition addr (t : ntree) : Z := match t with NFile p _ _ _ _ | NDir p _ _ _ => p end.
Definition cluster (t : ntree) : Z := match t with NFile _ c _ _ _ | NDir _ c _ _ => c end.

Fixpoint erase (t : ntree) : tree :=
  match t with
  | NFile _ _ nm host size => File nm host size
  | NDir _ _ nm kids => Dir nm (erase <$> kids)
  end.

Fixpoint addrs (t : ntree) : list Z :=
  match t with
  | NFile p _ _ _ _ => [p]
  | NDir p _ _ kids => p :: (kids ≫= addrs)
  end.

Definition node_of (par : Z) (t : ntree) : fs_node :=
  match t with
  | NFile p c nm host size => mk_node nm c par (NODE_FILE host size)
  | NDir p c nm kids => mk_node nm c par (NODE_DIRECTORY (addr <$> kids))
  end.

(** The nodes of [t] are in the heap, below the parent [par]. *)
Fixpoint rep (m : gmap Z fs_node) (par : Z) (t : ntree) : Prop :=
  m !! addr t = Some (node_of par t) /\
  match t with
  | NFile _ _ _ _ _ => True
  | NDir p _ _ kids =>
      (fix go (l : list ntree) : Prop := match l with [] => True | x :: l' => rep m p x /\ go l' end) kids
  end.

Lemma rep_go m p kids :
  ((fix go (l : list ntree) : Prop := match l with [] => True | x :: l' => rep m p x /\ go l' end) kids)
  <-> Forall (rep m p) kids.
Proof.
  induction kids as [|x kids IH]; [split; constructor|]. rewrite Forall_cons, IH. done.
Qed.

Lemma rep_dir m par p c nm kids :
  rep m par (NDir p c nm kids) <->
  m !! p = Some (mk_node nm c par (NODE_DIRECTORY (addr <$> kids))) /\ Forall (rep m p) kids.
Proof. cbn [rep]. by rewrite rep_go. Qed.

Lemma rep_addr m par t : rep m par t -> m !! addr t = Some (node_of par t).
Proof. by destruct t; intros []. Qed.

Lemma addr_in_addrs t : addr t ∈ addrs t.
Proof. destruct t; cbn; constructor. Qed.

Lemma addr_in_kids t kids : t ∈ kids -> addr t ∈ kids ≫= addrs.
Proof. intros Ht. apply list_elem_of_bind. eauto using addr_in_addrs. Qed.

Lemma rep_in m t : forall par, rep m par t -> forall q, q ∈ addrs t -> is_Some (m !! q).
Proof.
  induction t as [p c nm host size|p c nm kids IH] using ntree_ind'; intros par Hr q Hq.
  - apply list_elem_of_singleton in Hq as ->. destruct Hr as [Hr _]. eauto.
  - apply rep_dir in Hr as [Hp Hk]. apply elem_of_cons in Hq as [->|Hq]; [eauto|].
    apply list_elem_of_bind in Hq as (x & Hq & Hx). rewrite Forall_forall in IH, Hk. eauto.
Qed.

(** A tree whose nodes did not change is still there. *)
Lemma rep_agree m m' t : forall par, rep m par t -> (forall q, q ∈ addrs t -> m' !! q = m !! q) -> rep m' par t.
Proof.
  induction t as [p c nm host size|p c nm kids IH] using ntree_ind'; intros par Hr Ha.
  - destruct Hr as [Hr _]. split; [|done]. rewrite Ha; [done | apply addr_in_addrs].
  - apply rep_dir in Hr as [Hp Hk]. apply rep_dir. split; [rewrite Ha; [done | constructor]|].
    apply Forall_forall. intros x Hx. rewrite Forall_forall in IH, Hk. apply IH; [done | by apply Hk|].
    intros q Hq. apply Ha. right. apply list_elem_of_bind. eauto.
Qed.

Lemma reps_agree m m' par ts : Forall (rep m par) ts ->
  (forall q, q ∈ (ts ≫= addrs) -> m' !! q = m !! q) -> Forall (rep m' par) ts.
Proof.
  intros H Ha. induction H as [|t ts Ht Hts IH]; constructor.
  - apply (rep_agree m); [done|]. intros q Hq. apply Ha. cbn. apply elem_of_app. auto.
  - apply IH. intros q Hq. apply Ha. cbn. apply elem_of_app. auto.
Qed.

Fixpoint clusters (t : ntree) : list Z :=
  match t with
  | NFile _ c _ _ _ => [c]
  | NDir _ c _ kids => c :: (kids ≫= clusters)
  end.
(** No cluster was assigned yet. *)
Definition zeroed (t : ntree) : Prop := Forall (eq 0) (clusters t).

Definition heap_ok (s : heap) : Prop :=
  forall p, is_Some (hp_nodes s !! p) -> 0 < p <= Z.of_nat (hp_allocs s).

(** [t] became [t'] in a step from [s] to [s']: new nodes are newly allocated, no node
    outside of [t] changed, and no node was lost or leaked. *)
Record evolved (t t' : ntree) (s s' : heap) : Prop := {
  ev_ok : heap_ok s';
  ev_allocs : (hp_allocs s <= hp_allocs s')%nat;
  ev_nodup : NoDup (addrs t');
  ev_addrs : forall q, q ∈ addrs t' -> q ∈ addrs t \/ Z.of_nat (hp_allocs s) < q;
  ev_frame : forall q, q <= Z.of_nat (hp_allocs s) -> q ∉ addrs t -> hp_nodes s' !! q = hp_nodes s !! q;
  ev_sub : addrs t ⊆ addrs t';
  ev_leak : forall q, Z.of_nat (hp_allocs s) < q -> q ∉ addrs t' -> hp_nodes s' !! q = None;
  ev_zero : zeroed t -> zeroed t'
}.

Lemma heap_above s q : heap_ok s -> Z.of_nat (hp_allocs s) < q -> hp_nodes s !! q = None.
Proof.
  intros Hok Hq. destruct (hp_nodes s !! q) eqn:E; [|done]. destruct (Hok q) as [_ ?]; [by rewrite E | lia].
Qed.

Lemma rep_bound s par t : heap_ok s -> rep (hp_nodes s) par t ->
  forall q, q ∈ addrs t -> 0 < q <= Z.of_nat (hp_allocs s).
Proof. intros Hok Hr q Hq. apply Hok. by eapply rep_in. Qed.

Lemma evolved_trans t1 t2 t3 s1 s2 s3 : evolved t1 t2 s1 s2 -> evolved t2 t3 s2 s3 -> evolved t1 t3 s1 s3.
Proof.
  intros [] []. split; [done | lia | done | | | set_solver | | auto].
  - intros q Hq. destruct (ev_addrs1 q Hq) as [Hq'|]; [auto | right; lia].
  - intros q Hq Hn. rewrite ev_frame1; [auto | lia|]. intros Hq'. destruct (ev_addrs0 q Hq'); [done | lia].
  - intros q Hq Hn. destruct (Z.lt_ge_cases (Z.of_nat (hp_allocs s2)) q); [auto|].
    assert (q ∉ addrs t2) by set_solver. rewrite ev_frame1; [auto | lia | done].
Qed.

Lemma bind_middle {A B} (f : A -> list B) l1 x l2 :
  (l1 ++ x :: l2) ≫= f = (l1 ≫= f) ++ f x ++ (l2 ≫= f).
Proof. by rewrite bind_app. Qed.

(** A step inside of one child. *)
Lemma evolved_child p c nm l1 x x' l2 par s s' : heap_ok s ->
  rep (hp_nodes s) par (NDir p c nm (l1 ++ x :: l2)) -> NoDup (addrs (NDir p c nm (l1 ++ x :: l2))) ->
  evolved x x' s s' -> rep (hp_nodes s') p x' -> addr x' = addr x ->
  rep (hp_nodes s') par (NDir p c nm (l1 ++ x' :: l2)) /\
  evolved (NDir p c nm (l1 ++ x :: l2)) (NDir p c nm (l1 ++ x' :: l2)) s s'.
Proof.
  intros Hok Hr Hnd Hev Hr' Ha. pose proof (rep_bound _ _ _ Hok Hr) as Hb. destruct Hev.
  apply rep_dir in Hr as [Hp Hk]. cbn [addrs] in Hnd, Hb. rewrite bind_middle in Hnd, Hb.
  apply NoDup_cons in Hnd as [Hnp Hnd]. apply NoDup_app in Hnd as (Hn1 & Hx & Hnd).
  apply NoDup_app in Hnd as (Hnx & Hx2 & Hn2).
  apply Forall_app in Hk as [Hk1 [_ Hk2]%Forall_cons].
  assert (forall q, q ∈ p :: (l1 ≫= addrs) ++ (l2 ≫= addrs) -> hp_nodes s' !! q = hp_nodes s !! q) as Hsame.
  { intros q Hq. apply ev_frame0.
    - apply Hb. set_solver.
    - set_solver. }
  split.
  - apply rep_dir. split.
    + rewrite Hsame by set_solver. rewrite Hp, !fmap_app, !fmap_cons. by rewrite Ha.
    + apply Forall_app. split; [|constructor; [done|]].
      * apply (reps_agree (hp_nodes s)); [done|]. intros q Hq. apply Hsame. set_solver.
      * apply (reps_agree (hp_nodes s)); [done|]. intros q Hq. apply Hsame. set_solver.
  - assert (forall q, q ∈ addrs x' -> q ∉ p :: (l1 ≫= addrs) ++ (l2 ≫= addrs)) as Hout.
    { intros q Hq Hq'. destruct (ev_addrs0 q Hq) as [Hq0|Hlt]; [set_solver|].
      assert (0 < q <= Z.of_nat (hp_allocs s)) by (apply Hb; set_solver). lia. }
    split; [done | done | | | | | |].
    + cbn [addrs]. rewrite bind_middle. apply NoDup_cons. split; [set_solver|].
      apply NoDup_app. split; [done|]. split; [set_solver|]. apply NoDup_app. set_solver.
    + cbn [addrs]. rewrite !bind_middle. intros q Hq.
      assert (q ∈ addrs x' \/ q ∈ p :: (l1 ≫= addrs) ++ (l2 ≫= addrs)) as [Hq'|Hq'] by set_solver.
      * destruct (ev_addrs0 q Hq'); set_solver.
      * set_solver.
    + cbn [addrs]. rewrite bind_middle. intros q Hq Hn. apply ev_frame0; [done | set_solver].
    + cbn [addrs]. rewrite !bind_middle. set_solver.
    + cbn [addrs]. rewrite bind_middle. intros q Hq Hn. apply ev_leak0; [done | set_solver].
    + unfold zeroed in *. cbn [clusters]. rewrite !bind_middle, !Forall_cons, !Forall_app. naive_solver.
Qed.

(** ** The operations *)

Lemma wp_get_node p nd (s : heap) (Q : fs_node -> heap -> Prop) :
  hp_nodes s !! p = Some nd -> Q nd s -> wp (get_node p) Q s.
Proof. intros Hp HQ. unfold wp, get_node. by rewrite Hp. Qed.
Lemma wp_set_node p nd nd' (s : heap) (Q : unit -> heap -> Prop) :
  hp_nodes s !! p = Some nd -> Q tt (mk_heap (<[p := nd']> (hp_nodes s)) (hp_allocs s)) ->
  wp (set_node p nd') Q s.
Proof. intros Hp HQ. unfold wp, set_node. by rewrite Hp. Qed.
Lemma wp_get_children p nd cs (s : heap) (Q : list Z -> heap -> Prop) :
  hp_nodes s !! p = Some nd -> nd_body nd = NODE_DIRECTORY cs -> Q cs s -> wp (get_children p) Q s.
Proof.
  intros Hp Hb HQ. unfold get_children. wp_steps. eapply wp_get_node; [done|].
  unfold children_of. rewrite Hb. by wp_steps.
Qed.

Lemma node_of_name par t : nd_name (node_of par t) = tree_name (erase t).
Proof. by destruct t. Qed.

Lemma find_child_wp s par p c nm kids name :
  rep (hp_nodes s) par (NDir p c nm kids) ->
  wp (fs_node_find_child p name) (fun r s' => s' = s /\
    match child_index name (erase <$> kids) with
    | Some i => exists t, kids !! i = Some t /\ r = addr t
    | None => r = 0
    end) s.
Proof.
  intros [Hp Hk]%rep_dir. unfold fs_node_find_child. wp_steps.
  eapply wp_get_children; [done..|]. wp_steps.
  eapply wp_mono with (Q := fun r s' => s' = s /\
    match child_index name (erase <$> kids) with
    | Some i => exists t, kids !! i = Some t /\ r = inr (addr t)
    | None => r = inl ()
    end).
  - clear Hp. induction Hk as [|t kids Ht Hk IH]; cbn [fmap list_fmap for_in child_index]; [by apply wp_ret|].
    wp_steps. eapply wp_get_node; [by apply rep_addr|]. rewrite node_of_name.
    case_bool_decide as E; wp_steps; [by eauto|].
    eapply wp_mono; [exact IH|]. cbn beta. intros r s' [-> Hr]. split; [done|].
    by destruct (child_index name (erase <$> kids)).
  - cbn beta. intros r s' [-> Hr]. destruct (child_index name (erase <$> kids)) as [i|].
    + destruct Hr as (t & Ht & ->). wp_steps. eauto.
    + subst r. by wp_steps.
Qed.

Section Ops.
Context (fopen : list Z -> option (list Z)) (oom : nat -> bool) (Hmem : forall n, oom n = false).

Definition fresh (s : heap) : Z := Z.of_nat (S (hp_allocs s)).

Lemma fresh_none s : heap_ok s -> hp_nodes s !! fresh s = None.
Proof. intros Hok. apply heap_above; [done|]. unfold fresh. lia. Qed.

Lemma calloc_wp s (Q : Z -> heap -> Prop) :
  Q (fresh s) (mk_heap (<[fresh s := zero_node]> (hp_nodes s)) (S (hp_allocs s))) -> wp (calloc_node oom) Q s.
Proof. intros HQ. unfold wp, calloc_node. by rewrite Hmem. Qed.

Lemma fresh_nonzero s : (fresh s =? 0) = false.
Proof. unfold fresh. apply Z.eqb_neq. lia. Qed.

(** A state in which a node was allocated. *)
Definition with_node (s : heap) (nd : fs_node) : heap :=
  mk_heap (<[fresh s := nd]> (hp_nodes s)) (S (hp_allocs s)).

Lemma create_directory_wp s name (Q : Z -> heap -> Prop) :
  Q (fresh s) (with_node s (mk_node (copy_name FS_NAME_MAX name) 0 0 (NODE_DIRECTORY []))) ->
  wp (fs_node_create_directory oom name) Q s.
Proof.
  intros HQ. unfold fs_node_create_directory. wp_steps. apply calloc_wp. rewrite fresh_nonzero. wp_steps.
  eapply wp_set_node; [apply lookup_insert_eq|]. cbn [hp_nodes hp_allocs]. rewrite insert_insert_eq. by wp_steps.
Qed.

Lemma create_file_wp s name host (Q : Z -> heap -> Prop) : heap_ok s ->
  match fopen host with
  | None => Q 0 (mk_heap (hp_nodes s) (S (hp_allocs s)))
  | Some content => Q (fresh s) (with_node s (mk_node (copy_name FS_NAME_MAX name) 0 0
      (NODE_FILE (copy_name FS_PATH_MAX host) (u32 (Z.of_nat (length content))))))
  end -> wp (fs_node_create_file fopen oom name host) Q s.
Proof.
  intros Hok HQ. unfold fs_node_create_file. wp_steps. apply calloc_wp. rewrite fresh_nonzero. wp_steps.
  eapply wp_set_node; [apply lookup_insert_eq|]. cbn [hp_nodes hp_allocs]. rewrite insert_insert_eq.
  destruct (fopen host) as [content|]; wp_steps.
  - eapply wp_set_node; [apply lookup_insert_eq|]. cbn [hp_nodes hp_allocs]. rewrite insert_insert_eq. by wp_steps.
  - unfold wp, release_node. cbn [hp_nodes hp_allocs]. rewrite lookup_insert_eq.
    by rewrite delete_insert_id by (by apply fresh_none).
Qed.

(** A new node without children becomes the last child. *)
Definition leaf (t : ntree) : Prop := match t with NFile _ c _ _ _ => c = 0 | NDir _ c _ kids => c = 0 /\ kids = [] end.

Lemma add_child_wp s par p c nm kids x : heap_ok s -> rep (hp_nodes s) par (NDir p c nm kids) ->
  NoDup (addrs (NDir p c nm kids)) -> leaf x -> addr x = fresh s ->
  wp (fs_node_add_child oom p (addr x)) (fun r s' => 
    rep (hp_nodes s') par (NDir p c nm (kids ++ [x])) /\
    evolved (NDir p c nm kids) (NDir p c nm (kids ++ [x])) s s') (with_node s (node_of 0 x)).
Proof.
  intros Hok Hr Hnd Hx Ha. pose proof (rep_bound _ _ _ Hok Hr) as Hb. apply rep_dir in Hr as [Hp Hk].
  assert (addrs x = [addr x]) as Hax by (destruct x; [done | by destruct Hx as [_ ->]]).
  assert (fresh s ∉ addrs (NDir p c nm kids)) as Hf.
  { intros Hf%Hb. unfold fresh in Hf. lia. }
  assert (p <> fresh s) as Hne by (intros ->; apply Hf; cbn; constructor).
  unfold fs_node_add_child. wp_steps.
  eapply wp_get_children; [cbn; by rewrite lookup_insert_ne | done |]. wp_steps.
  unfold request, wp at 1. rewrite Hmem. cbn [negb]. wp_steps.
  eapply wp_get_node; [cbn; by rewrite lookup_insert_ne|]. wp_steps.
  eapply wp_set_node; [cbn; by rewrite lookup_insert_ne|]. wp_steps. rewrite Ha.
  eapply wp_get_node; [cbn; by rewrite lookup_insert_ne, lookup_insert_eq|]. wp_steps.
  eapply wp_set_node; [cbn; by rewrite lookup_insert_ne, lookup_insert_eq|]. wp_steps.
  cbn [with_node hp_nodes hp_allocs].
  set (m := <[fresh s := _]> _).
  assert (m !! fresh s = Some (node_of p x)) as Hmf.
  { unfold m. rewrite lookup_insert_eq. by destruct x. }
  assert (m !! p = Some (mk_node nm c par (NODE_DIRECTORY (addr <$> kids ++ [x])))) as Hmp.
  { unfold m. rewrite lookup_insert_ne, lookup_insert_eq by done. rewrite fmap_app. cbn. by rewrite Ha. }
  assert (forall q, q <> fresh s -> q <> p -> m !! q = hp_nodes s !! q) as Hmo.
  { intros q H1 H2. unfold m. by rewrite !lookup_insert_ne by done. }
  clearbody m. cbn [addrs] in Hnd, Hf. apply NoDup_cons in Hnd as [Hnp Hnd]. split.
  - apply rep_dir. split; [done|]. apply Forall_app. split.
    + apply (reps_agree (hp_nodes s)); [done|]. intros q Hq. apply Hmo; set_solver.
    + constructor; [|constructor]. rewrite <- Ha in Hmf.
      destruct x; [by split|]. destruct Hx as [_ ->]. by split.
  - split.
    + intros q [nd Hq]. cbn [hp_nodes hp_allocs] in *.
      destruct (decide (q = fresh s)) as [->|]; [unfold fresh; lia|].
      destruct (decide (q = p)) as [->|].
      * assert (0 < p <= Z.of_nat (hp_allocs s)) by (apply Hb; cbn; constructor). lia.
      * rewrite Hmo in Hq by done. destruct (Hok q); [eauto | lia].
    + cbn. lia.
    + cbn [addrs]. rewrite bind_app. cbn [mbind list_bind]. rewrite Hax, app_nil_r, Ha.
      apply NoDup_cons. split; [set_solver|]. apply NoDup_app. split; [done|].
      split; [set_solver | apply NoDup_singleton].
    + cbn [addrs]. rewrite bind_app. cbn [mbind list_bind]. rewrite Hax, app_nil_r, Ha. intros q Hq.
      assert (q = fresh s \/ q ∈ p :: (kids ≫= addrs)) as [->|] by set_solver; [|auto].
      right. unfold fresh. lia.
    + cbn [addrs hp_nodes]. intros q Hq Hn. apply Hmo; [unfold fresh; lia | set_solver].
    + cbn [addrs]. rewrite bind_app. set_solver.
    + cbn [addrs hp_nodes]. rewrite bind_app. cbn [mbind list_bind]. rewrite Hax, app_nil_r, Ha. intros q Hq Hn.
      rewrite Hmo by set_solver. by apply heap_above.
    + unfold zeroed. cbn [clusters]. rewrite bind_app, !Forall_cons, Forall_app. intros [Hc Hz]. split; [done|].
      split; [done|]. destruct x; cbn in *; [subst | destruct Hx as [-> ->]]; by repeat constructor.
Qed.

(** [K], run on a directory, does [k] to its children; it returns [NULL] when [k] fails. *)
Definition dir_op (K : Z -> M heap Z) (k : list tree -> list tree * bool) : Prop :=
  forall s par p c nm kids, heap_ok s -> rep (hp_nodes s) par (NDir p c nm kids) ->
  NoDup (addrs (NDir p c nm kids)) ->
  wp (K p) (fun r s' => exists kids', rep (hp_nodes s') par (NDir p c nm kids') /\
    evolved (NDir p c nm kids) (NDir p c nm kids') s s' /\
    k (erase <$> kids) = (erase <$> kids', negb (r =? 0))) s.

Lemma evolved_refl t s : heap_ok s -> NoDup (addrs t) -> evolved t t s s.
Proof. intros. split; auto. intros q Hq _. by apply heap_above. Qed.

Lemma child_index_spec nm ts i : child_index nm ts = Some i -> exists t, ts !! i = Some t.
Proof.
  revert i. induction ts as [|t ts IH]; cbn; [done|]. intros i. case_bool_decide; [intros [= <-]; eauto|].
  destruct (child_index nm ts) as [j|]; [|done]. intros [= <-]. by apply IH.
Qed.

Lemma dir_op_return : dir_op ret (fun ks => (ks, true)).
Proof.
  intros s par p c nm kids Hok Hr Hnd. apply wp_ret. exists kids. split; [done|]. split; [by apply evolved_refl|].
  assert (0 < p <= Z.of_nat (hp_allocs s)) by (apply (rep_bound _ _ _ Hok Hr); cbn; constructor).
  destruct (Z.eqb_spec p 0); [lia | done].
Qed.

(** An operation on one child of a directory. *)
Lemma dir_op_child K k s par p c nm l1 q d nq ks l2 : dir_op K k -> heap_ok s ->
  rep (hp_nodes s) par (NDir p c nm (l1 ++ NDir q d nq ks :: l2)) ->
  NoDup (addrs (NDir p c nm (l1 ++ NDir q d nq ks :: l2))) ->
  wp (K q) (fun r s' => exists ks', let t' := NDir p c nm (l1 ++ NDir q d nq ks' :: l2) in
    rep (hp_nodes s') par t' /\ evolved (NDir p c nm (l1 ++ NDir q d nq ks :: l2)) t' s s' /\
    k (erase <$> ks) = (erase <$> ks', negb (r =? 0))) s.
Proof.
  intros HK Hok Hr Hnd. destruct (proj1 (rep_dir _ _ _ _ _ _) Hr) as [_ [_ [Hx _]%Forall_cons]%Forall_app].
  assert (NoDup (addrs (NDir q d nq ks))) as Hndq.
  { revert Hnd. cbn [addrs]. rewrite bind_middle, NoDup_cons, !NoDup_app. cbn [addrs]. tauto. }
  eapply wp_mono; [by apply HK|]. cbn beta. intros r s' (ks' & Hr' & Hev & Hu). exists ks'.
  destruct (evolved_child _ _ _ _ _ _ _ _ _ _ Hok Hr Hnd Hev Hr') as [Hr2 Hev2]; done.
Qed.

(** Entering the directories of a path. *)
Lemma dir_op_enter parts K k : dir_op K k ->
  dir_op (fun p => bind (for_in parts p (enter_directory oom)) (fun r =>
            match r with inr v => ret v | inl current => K current end))
         (update parts k).
Proof.
  intros HK. induction parts as [|x parts IH]; intros s par p c nm kids Hok Hr Hnd.
  { cbn [for_in update]. wp_steps. by apply HK. }
  cbn [for_in update]. apply wp_bind. unfold enter_directory. wp_steps.
  eapply wp_mono; [by apply (find_child_wp s par p c nm kids x)|]. cbn beta. intros r s1 [-> Hf].
  destruct (child_index x (erase <$> kids)) as [i|] eqn:Ei.
  - destruct Hf as (t & Ht & ->). rewrite list_lookup_fmap, Ht. cbn [fmap option_fmap option_map].
    assert (0 < addr t <= Z.of_nat (hp_allocs s)) as Hat.
    { apply (rep_bound _ _ _ Hok Hr). right. eapply addr_in_kids, list_elem_of_lookup_2, Ht. }
    destruct (Z.eqb_spec (addr t) 0); [lia|]. cbn [negb].
    destruct (proj1 (rep_dir _ _ _ _ _ _) Hr) as [_ Hk].
    wp_steps. eapply wp_get_node; [eapply rep_addr, (Forall_lookup_1 _ _ _ _ Hk Ht)|].
    destruct t as [q d nq hq sq|q d nq ks]; cbn [is_dir node_of nd_body negb erase].
    { wp_steps. exists kids. split; [done|]. split; [by apply evolved_refl | done]. }
    wp_steps. apply list_elem_of_split_length in Ht as (l1 & l2 & -> & ->).
    eapply wp_mono; [by eapply wp_bind_inv, (dir_op_child _ _ _ _ _ _ _ _ _ _ _ _ _ IH Hok Hr Hnd)|].
    cbn beta. intros a s2 Ha. eapply wp_mono; [exact Ha|]. cbn beta zeta.
    intros r s3 (ks' & Hr' & Hev & Hu). rewrite Hu. exists (l1 ++ NDir q d nq ks' :: l2).
    split; [done|]. split; [done|]. f_equal. rewrite !fmap_app, !fmap_cons. cbn [erase].
    rewrite <- (length_fmap erase l1), insert_app_r_alt by lia. by rewrite Nat.sub_diag.
  - subst r. cbn [Z.eqb negb]. wp_steps. apply create_directory_wp. rewrite fresh_nonzero. wp_steps.
    eapply wp_mono; [by apply (add_child_wp s par p c nm kids (NDir (fresh s) 0 (copy_name FS_NAME_MAX x) []))|].
    cbn beta. intros _ s1 [Hr1 Hev1]. wp_steps.
    eapply wp_mono; [by eapply wp_bind_inv, (dir_op_child _ _ _ _ _ _ _ _ _ _ _ _ _ IH (ev_ok _ _ _ _ Hev1) Hr1 (ev_nodup _ _ _ _ Hev1))|].
    cbn beta. intros a s2 Ha. eapply wp_mono; [exact Ha|]. cbn beta zeta.
    intros r s3 (ks' & Hr' & Hev & Hu). cbn [fmap list_fmap] in Hu. rewrite Hu.
    exists (kids ++ [NDir (fresh s) 0 (copy_name FS_NAME_MAX x) ks']).
    split; [done|]. split; [by eapply evolved_trans|]. by rewrite fmap_app.
Qed.

Lemma dir_op_fail : dir_op (fun _ => ret 0) (fun ks => (ks, false)).
Proof.
  intros s par p c nm kids Hok Hr Hnd. apply wp_ret. exists kids. split; [done|]. split; [by apply evolved_refl | done].
Qed.

Lemma dir_op_add_file name host :
  dir_op (fun current =>
      bind (fs_node_find_child current name) (fun other =>
        if negb (other =? 0) then ret 0
        else bind (fs_node_create_file fopen oom name host) (fun file =>
               if file =? 0 then ret 0
               else bind (fs_node_add_child oom current file) (fun _ => ret file))))
    (add_file fopen name host).
Proof.
  intros s par p c nm kids Hok Hr Hnd. wp_steps. unfold add_file.
  eapply wp_mono; [by apply (find_child_wp s par p c nm kids name)|]. cbn beta. intros r s1 [-> Hf].
  destruct (child_index name (erase <$> kids)) as [i|] eqn:Ei.
  - destruct Hf as (t & Ht & ->).
    assert (0 < addr t <= Z.of_nat (hp_allocs s)) as Hat.
    { apply (rep_bound _ _ _ Hok Hr). right. eapply addr_in_kids, list_elem_of_lookup_2, Ht. }
    destruct (Z.eqb_spec (addr t) 0); [lia|]. cbn [negb]. by apply (dir_op_fail s par p c nm kids).
  - subst r. cbn [Z.eqb negb]. wp_steps. apply create_file_wp; [done|].
    destruct (fopen host) as [content|].
    + rewrite fresh_nonzero. wp_steps.
      set (x := NFile (fresh s) 0 (copy_name FS_NAME_MAX name) (copy_name FS_PATH_MAX host)
                  (u32 (Z.of_nat (length content)))).
      eapply wp_mono; [by apply (add_child_wp s par p c nm kids x)|].
      cbn beta. intros _ s1 [Hr1 Hev1]. wp_steps. exists (kids ++ [x]).
      split; [done|]. split; [done|]. by rewrite fmap_app, fresh_nonzero.
    + cbn [Z.eqb]. wp_steps. exists kids. split; [done|]. split; [|done]. split; auto; cbn; [|lia|].
      * intros q Hq. destruct (Hok q Hq). cbn. lia.
      * intros q Hq _. by apply heap_above.
Qed.

(** A line of the list of files. *)
Lemma dir_op_line host image :
  dir_op (fun root => bind (insert_line fopen oom root host image) (fun r => ret r.1)) (insert_entry fopen host image).
Proof.
  unfold insert_line, insert_entry. destruct (ends_with_slash image).
  - unfold tree_insert_directory. destruct (split_path _) as [|x parts].
    + intros s par p c nm kids Hok Hr Hnd. wp_steps. by apply (dir_op_fail s par p c nm kids).
    + intros s par p c nm kids Hok Hr Hnd. wp_steps.
      eapply wp_mono; [by eapply wp_bind_inv, (dir_op_enter (x :: parts) ret _ dir_op_return s par p c nm kids)|].
      cbn beta. intros [v|v] s' Hv; by wp_steps.
  - unfold tree_insert_node. destruct (last _) as [name|].
    + intros s par p c nm kids Hok Hr Hnd. wp_steps.
      eapply wp_mono; [by eapply wp_bind_inv, (dir_op_enter _ _ _ (dir_op_add_file name host) s par p c nm kids)|].
      cbn beta. intros [v|v] s' Hv; [|by wp_steps].
      eapply wp_mono; [exact Hv|]. cbn beta. intros r s2 H2. by wp_steps.
    + intros s par p c nm kids Hok Hr Hnd. wp_steps. by apply (dir_op_fail s par p c nm kids).
Qed.
End Ops.

(** ** Reading the list of files *)

(** A line [host:image] of the list. *)
Definition render (e : list Z * list Z) : list Z := e.1 ++ 58 :: e.2 ++ [10].

(** Host paths without colons, no zero bytes and no newlines, and the line fits in the
    buffer of the parser. *)
Definition line_ok (e : list Z * list Z) : Prop :=
  Forall (fun x => x <> 0 /\ x <> 10 /\ x <> 58) e.1 /\ Forall (fun x => x <> 0 /\ x <> 10) e.2 /\
  Z.of_nat (length e.1 + length e.2) + 3 <= MAX_BUF_SIZE.

Lemma fgets_loop_line l rest room : Forall (fun x => x <> 10) l -> (length l < room)%nat ->
  fgets_loop room (l ++ 10 :: rest) = (l ++ [10], rest).
Proof.
  intros Hl. revert room. induction Hl as [|x l Hx Hl IH]; intros [|room]; cbn; [lia | done | lia |].
  intros Hr. rewrite (proj2 (Z.eqb_neq x 10)) by done. by rewrite IH by lia.
Qed.

Lemma string_until_line l tl : Forall (fun x => x <> 0 /\ x <> 10) l -> string_until 10 (l ++ 10 :: tl) = l.
Proof.
  induction 1 as [|x l [H0 H1] Hl IH]; cbn; [done|].
  by rewrite (proj2 (Z.eqb_neq x 0)), (proj2 (Z.eqb_neq x 10)), IH by done.
Qed.

Lemma split_colon_app h i : Forall (fun x => x <> 58) h -> split_colon (h ++ 58 :: i) = Some (h, i).
Proof.
  induction 1 as [|x h Hx Hh IH]; cbn; [done|]. by rewrite (proj2 (Z.eqb_neq x 58)), IH by done.
Qed.

Section Parser.
Context (fopen : list Z -> option (list Z)) (oom : nat -> bool) (Hmem : forall n, oom n = false).

(** All lines, with the paths that could not be inserted. *)
Fixpoint insert_entries (es : list (list Z * list Z)) (kids : list tree) : list tree * list (list Z) :=
  match es with
  | [] => (kids, [])
  | (host, image) :: es' =>
      let '(kids1, ok) := insert_entry fopen host image kids in
      let '(kids2, errs) := insert_entries es' kids1 in
      let path := if ends_with_slash image then removelast image else image in
      (kids2, if ok then errs else path :: errs)
  end.

Lemma insert_line_path root host image s r s' : insert_line fopen oom root host image s = Some (r, s') ->
  r.2 = if ends_with_slash image then removelast image else image.
Proof.
  unfold insert_line, bind, ret.
  destruct (ends_with_slash image); [destruct (tree_insert_directory _ _ _ _) as [[]|] | destruct (tree_insert_node _ _ _ _ _ _) as [[]|]];
  intros [= <- <-]; done.
Qed.

Lemma parse_lines_wp es : Forall line_ok es -> forall fuel s par root c nm kids, (length (es ≫= render) < fuel)%nat ->
  heap_ok s -> rep (hp_nodes s) par (NDir root c nm kids) -> NoDup (addrs (NDir root c nm kids)) ->
  wp (parse_lines fopen oom fuel root (es ≫= render)) (fun errs s' => exists kids',
    rep (hp_nodes s') par (NDir root c nm kids') /\
    evolved (NDir root c nm kids) (NDir root c nm kids') s s' /\
    insert_entries es (erase <$> kids) = (erase <$> kids', errs)) s.
Proof.
  induction 1 as [|[host image] es (Hh & Hi & Hl) Hes IH]; intros fuel s par root c nm kids Hfuel Hok Hr Hnd.
  { destruct fuel; [cbn in Hfuel; lia|]. cbn. wp_steps. exists kids. eauto using evolved_refl. }
  destruct fuel; [lia|]. rewrite bind_cons in Hfuel |- *. rewrite length_app in Hfuel. cbn [fst snd] in *.
  assert (render (host, image) ++ (es ≫= render) = (host ++ 58 :: image) ++ 10 :: (es ≫= render)) as Hren.
  { unfold render. cbn [fst snd]. by rewrite <- !app_assoc, <- !app_comm_cons, <- app_assoc. }
  cbn [parse_lines]. rewrite Hren. unfold fgets.
  destruct ((host ++ 58 :: image) ++ 10 :: (es ≫= render)) eqn:E; [by destruct host|]. rewrite <- E. clear E.
  assert (Forall (fun x => x <> 0 /\ x <> 10) (host ++ 58 :: image)) as Hline.
  { apply Forall_app. split; [|constructor; [lia | done]]. eapply Forall_impl; [exact Hh|]. naive_solver. }
  rewrite fgets_loop_line.
  2:{ eapply Forall_impl; [exact Hline|]. naive_solver. }
  2:{ rewrite length_app. cbn. lia. }
  rewrite string_until_line by done.
  rewrite split_colon_app by (eapply Forall_impl; [exact Hh|]; naive_solver).
  wp_steps. pose proof (dir_op_line fopen oom Hmem host image s par root c nm kids Hok Hr Hnd) as Hline1.
  cbn beta in Hline1. apply wp_bind_inv, wp_run in Hline1 as ([node path] & s1 & Hrun & kids1 & Hr1 & Hev1 & Hu).
  pose proof (insert_line_path _ _ _ _ _ _ Hrun) as Hpath. cbn [fst snd] in Hu, Hpath.
  apply wp_run. exists (node, path), s1. split; [done|]. wp_steps.
  eapply wp_mono; [apply IH; [|apply Hev1|exact Hr1|apply Hev1]|].
  { assert (0 < length (render (host, image)))%nat by (unfold render; rewrite length_app; cbn; lia). lia. }
  cbn beta. intros errs s2 (kids2 & Hr2 & Hev2 & Hu2). wp_steps. exists kids2. split; [done|].
  split; [by eapply evolved_trans|]. cbn [insert_entries]. rewrite Hu, Hu2, Hpath. by destruct (node =? 0).
Qed.

(** Parsing the lines of a list of files builds the tree of their insertions. *)
Lemma parse_disk_files_wp es s : Forall line_ok es -> heap_ok s ->
  wp (parse_disk_files fopen oom (es ≫= render)) (fun r s' => exists kids,
    let t := NDir r.1 0 [] kids in
    rep (hp_nodes s') 0 t /\ heap_ok s' /\ NoDup (addrs t) /\ zeroed t /\
    (forall q, q ∉ addrs t -> hp_nodes s' !! q = hp_nodes s !! q) /\
    insert_entries es [] = (erase <$> kids, r.2)) s.
Proof.
  intros Hes Hok. unfold parse_disk_files. wp_steps. apply create_directory_wp; [done|]. wp_steps.
  set (s1 := with_node s _). set (t := NDir (fresh s) 0 [] []).
  assert (heap_ok s1) as Hok1.
  { intros q. unfold s1, with_node, fresh. cbn [hp_nodes hp_allocs]. destruct (decide (q = Z.of_nat (S (hp_allocs s)))) as [->|Hne].
    - intros _. lia.
    - rewrite lookup_insert_ne by done. intros Hq. destruct (Hok q Hq). lia. }
  assert (rep (hp_nodes s1) 0 t) as Hr1 by (apply rep_dir; split; [apply lookup_insert_eq | constructor]).
  eapply wp_mono; [apply (parse_lines_wp es Hes (S (length (es ≫= render))) s1 0 (fresh s) 0 [] []); [lia | done | done | apply NoDup_singleton]|].
  cbn beta. intros errs s2 (kids & Hr2 & Hev & Hu). wp_steps. exists kids. split; [done|]. split; [apply Hev|].
  split; [apply Hev|]. split; [apply Hev; by repeat constructor|]. split; [|done].
  intros q Hq. assert (q <> fresh s) as Hne by (intros ->; apply Hq, (ev_sub _ _ _ _ Hev); constructor).
  destruct (Z.lt_ge_cases (Z.of_nat (hp_allocs s1)) q) as [Hlt|Hge].
  - rewrite (ev_leak _ _ _ _ Hev) by done. symmetry. apply heap_above; [done|]. cbn in Hlt. lia.
  - rewrite (ev_frame _ _ _ _ Hev); [|lia|by intros ?%list_elem_of_singleton]. cbn. by rewrite lookup_insert_ne.
Qed.
End Parser.

(** ** Paths *)

Definition child (x : list Z) (kids : list tree) : option tree := child_index x kids ≫= fun i => kids !! i.

(** The node a path leads to. *)
Fixpoint resolve (kids : list tree) (path : list (list Z)) : option tree :=
  match path with
  | [] => None
  | x :: path' =>
      match child x kids, path' with
      | Some t, [] => Some t
      | Some (Dir _ ks), _ => resolve ks path'
      | _, _ => None
      end
  end.

Definition same_node (t t' : tree) : Prop :=
  match t, t' with Dir nm _, Dir nm' _ => nm = nm' | _, _ => t = t' end.
(** Every path that leads to a node still does. *)
Definition keeps (kids kids' : list tree) : Prop :=
  forall q t, resolve kids q = Some t -> exists t', resolve kids' q = Some t' /\ same_node t t'.

Lemma child_cons x t kids : child x (t :: kids) = if bool_decide (tree_name t = x) then Some t else child x kids.
Proof. unfold child. cbn. case_bool_decide; [done|]. by destruct (child_index x kids). Qed.

Lemma child_name x kids t : child x kids = Some t -> tree_name t = x.
Proof.
  induction kids as [|u kids IH]; [done|]. rewrite child_cons. case_bool_decide as E; [|auto]. by intros [= <-].
Qed.

Lemma child_snoc x t kids :
  child x (kids ++ [t]) = match child x kids with Some u => Some u | None => if bool_decide (tree_name t = x) then Some t else None end.
Proof.
  induction kids as [|u kids IH]; cbn [app]; rewrite child_cons; [done|]. rewrite child_cons.
  by destruct (bool_decide (tree_name u = x)).
Qed.

Lemma child_insert x y i t kids : child_index x kids = Some i -> tree_name t = x ->
  child y (<[i := t]> kids) = if bool_decide (y = x) then Some t else child y kids.
Proof.
  intros Hi Hn. revert i Hi. induction kids as [|u kids IH]; intros i; cbn [child_index]; [done|].
  destruct (decide (tree_name u = x)) as [E|E]; [rewrite bool_decide_true by done | rewrite bool_decide_false by done].
  - intros [= <-]. cbn [insert list_insert]. rewrite !child_cons. repeat case_bool_decide; congruence.
  - destruct (child_index x kids) as [j|] eqn:Ej; [|done]. intros [= <-]. cbn [insert list_insert].
    rewrite !child_cons. pose proof (IH j eq_refl) as IHj. repeat case_bool_decide; try congruence; done.
Qed.

Lemma child_index_child x kids i : child_index x kids = Some i -> child x kids = kids !! i.
Proof. unfold child. by intros ->. Qed.
Lemma child_index_none x kids : child_index x kids = None -> child x kids = None.
Proof. unfold child. by intros ->. Qed.

Lemma same_node_refl t : same_node t t.
Proof. by destruct t. Qed.
Lemma keeps_refl kids : keeps kids kids.
Proof. intros q t Hq. eauto using same_node_refl. Qed.

Lemma keeps_snoc kids t : keeps kids (kids ++ [t]).
Proof.
  intros [|x q] u; cbn; [done|]. rewrite child_snoc.
  destruct (child x kids) as [v|] eqn:E; [|done]. intros Hq. eauto using same_node_refl.
Qed.

Lemma keeps_child x i nm ks ks' kids : child_index x kids = Some i -> kids !! i = Some (Dir nm ks) -> keeps ks ks' ->
  keeps kids (<[i := Dir nm ks']> kids).
Proof.
  intros Hi Hk HK. pose proof (child_index_child _ _ _ Hi) as Hc. rewrite Hk in Hc.
  pose proof (child_name _ _ _ Hc) as Hn. cbn in Hn. intros [|y q] u; cbn [resolve]; [done|].
  rewrite (child_insert x y i (Dir nm ks') kids Hi Hn). case_bool_decide as E; [subst y|by eauto using same_node_refl].
  rewrite Hc. destruct q as [|z q]; [intros [= <-]; by exists (Dir nm ks') | apply HK].
Qed.

Lemma update_keeps parts k kids : (forall ks, keeps ks (k ks).1) -> keeps kids (update parts k kids).1.
Proof.
  intros Hk. revert kids. induction parts as [|x parts IH]; intros kids; cbn [update]; [apply Hk|].
  destruct (child_index x kids) as [i|] eqn:Ei.
  - destruct (kids !! i) as [[|nm ks]|] eqn:E; [apply keeps_refl| |apply keeps_refl].
    pose proof (IH ks) as IHk. destruct (update parts k ks) as [ks' ok]. by eapply keeps_child.
  - destruct (update parts k []) as [ks' ok]. apply keeps_snoc.
Qed.

Definition name_fits (x : list Z) : Prop := Z.of_nat (length x) < FS_NAME_MAX.
Lemma copy_name_id x : name_fits x -> copy_name FS_NAME_MAX x = x.
Proof. unfold name_fits, copy_name. intros H. apply take_ge. lia. Qed.

(** The children of the directory at a path ([] when it does not exist). *)
Fixpoint dir_at (kids : list tree) (parts : list (list Z)) : list tree :=
  match parts with
  | [] => kids
  | x :: parts' => match child x kids with Some (Dir _ ks) => dir_at ks parts' | _ => [] end
  end.

Lemma dir_at_nil parts : dir_at [] parts = [].
Proof. by destruct parts. Qed.

(** No file stands in the way of the path. *)
Fixpoint passable (kids : list tree) (parts : list (list Z)) : Prop :=
  match parts with
  | [] => True
  | x :: parts' =>
      match child x kids with
      | Some (Dir _ ks) => passable ks parts'
      | Some (File _ _ _) => False
      | None => True
      end
  end.

(** An insertion succeeds when no file is in the way and the last step does. *)
Lemma update_ok parts k kids :
  (update parts k kids).2 = true <-> passable kids parts /\ (k (dir_at kids parts)).2 = true.
Proof.
  revert kids. induction parts as [|x parts IH]; intros kids; cbn [update passable dir_at]; [naive_solver|].
  destruct (child_index x kids) as [i|] eqn:Ei.
  - rewrite (child_index_child _ _ _ Ei). destruct (child_index_spec _ _ _ Ei) as [t Ht]. rewrite Ht.
    destruct t as [|nm ks]; [naive_solver|]. specialize (IH ks). by destruct (update parts k ks).
  - rewrite (child_index_none _ _ Ei). specialize (IH []). rewrite dir_at_nil in IH.
    assert (passable [] parts) by (by destruct parts). destruct (update parts k []). cbn in *. tauto.
Qed.

Lemma update_resolve parts k kids x : Forall name_fits parts -> (update parts k kids).2 = true ->
  resolve (update parts k kids).1 (parts ++ [x]) = child x (k (dir_at kids parts)).1.
Proof.
  intros Hf. revert kids. induction Hf as [|y parts Hy Hf IH]; intros kids; cbn [update dir_at app resolve].
  { destruct (child x _) as [[]|]; done. }
  assert (forall ks nm, resolve ks (parts ++ [x]) = match parts ++ [x] with [] => Some (Dir nm ks) | _ => resolve ks (parts ++ [x]) end) as Hmatch.
  { intros. by destruct parts. }
  destruct (child_index y kids) as [i|] eqn:Ei.
  - pose proof (child_index_child _ _ _ Ei) as Hc. destruct (child_index_spec _ _ _ Ei) as [t Ht].
    rewrite Ht in Hc |- *. rewrite Hc. destruct t as [|nm ks]; [done|].
    specialize (IH ks). destruct (update parts k ks) as [ks' ok]. intros Hok.
    cbn [fst snd] in *. rewrite (child_insert y y i (Dir nm ks') kids Ei (child_name _ _ _ Hc)), bool_decide_true by done.
    rewrite <- Hmatch. auto.
  - specialize (IH []). rewrite dir_at_nil in IH. rewrite (child_index_none _ _ Ei).
    destruct (update parts k []) as [ks' ok]. intros Hok. cbn [fst snd] in *.
    rewrite child_snoc, (child_index_none _ _ Ei), bool_decide_true by (by apply copy_name_id).
    rewrite <- Hmatch. auto.
Qed.

Lemma add_file_keeps fopen name host kids : keeps kids (add_file fopen name host kids).1.
Proof.
  unfold add_file. destruct (child_index name kids); [apply keeps_refl|].
  destruct (fopen host); [apply keeps_snoc | apply keeps_refl].
Qed.

Lemma add_file_ok fopen name host kids :
  (add_file fopen name host kids).2 = true <-> child name kids = None /\ is_Some (fopen host).
Proof.
  unfold add_file. destruct (child_index name kids) as [i|] eqn:Ei.
  - destruct (child_index_spec _ _ _ Ei) as [t Ht]. rewrite (child_index_child _ _ _ Ei), Ht. naive_solver.
  - rewrite (child_index_none _ _ Ei). destruct (fopen host); cbn; naive_solver.
Qed.

Lemma add_file_child fopen name host kids content : name_fits name -> child name kids = None -> fopen host = Some content ->
  child name (add_file fopen name host kids).1 =
    Some (File name (copy_name FS_PATH_MAX host) (u32 (Z.of_nat (length content)))).
Proof.
  intros Hn Hc Hf. unfold add_file. destruct (child_index name kids) as [i|] eqn:Ei.
  - destruct (child_index_spec _ _ _ Ei) as [t Ht]. by rewrite (child_index_child _ _ _ Ei), Ht in Hc.
  - rewrite Hf. cbn [fst]. rewrite child_snoc, Hc, copy_name_id by done. by rewrite bool_decide_true.
Qed.

Lemma resolve_dir_at kids parts x : passable kids parts -> resolve kids (parts ++ [x]) = child x (dir_at kids parts).
Proof.
  revert kids. induction parts as [|y parts IH]; intros kids; cbn [passable dir_at app resolve].
  { intros _. by destruct (child x kids) as [[]|]. }
  destruct (child y kids) as [[|nm ks]|]; [done| |done]. intros Hp. rewrite <- IH by done. by destruct parts.
Qed.

(** [tree_insert_node] on a tree in memory, for a path whose components fit in a
    node's name: it succeeds exactly when the path is not empty, no file stands in the
    way, nothing has that path yet and the host file can be opened; the path then leads
    to a file node with the host path and size.  In every case the tree stays well
    formed and all paths that led to a node still lead to it. *)
Theorem tree_insert_node_correct fopen oom s par root c nm kids path host :
  (forall n, oom n = false) -> heap_ok s ->
  rep (hp_nodes s) par (NDir root c nm kids) -> NoDup (addrs (NDir root c nm kids)) ->
  let parts := split_path (copy_name FS_PATH_MAX path) in
  Forall name_fits parts ->
  wp (tree_insert_node fopen oom root path host) (fun r s' => exists kids',
    heap_ok s' /\ rep (hp_nodes s') par (NDir root c nm kids') /\ NoDup (addrs (NDir root c nm kids')) /\
    keeps (erase <$> kids) (erase <$> kids') /\
    (r <> 0 <-> parts <> [] /\ passable (erase <$> kids) (removelast parts) /\
       resolve (erase <$> kids) parts = None /\ is_Some (fopen host)) /\
    (r <> 0 -> exists name content, last parts = Some name /\ fopen host = Some content /\
       resolve (erase <$> kids') parts =
         Some (File name (copy_name FS_PATH_MAX host) (u32 (Z.of_nat (length content)))))) s.
Proof.
  intros Hmem Hok Hr Hnd parts Hfit. unfold tree_insert_node. fold parts.
  destruct (last parts) as [name|] eqn:El.
  2:{ apply last_None in El. wp_steps. exists kids. do 3 (split; [done|]). split; [apply keeps_refl|].
      split; [|done]. split; [done|]. by intros [? _]. }
  pose proof (last_Some parts name) as [[init Hinit] _]; [done|]. rewrite Hinit in Hfit |- *.
  apply Forall_app in Hfit as [Hfit [Hn _]%Forall_cons]. rewrite removelast_last.
  eapply wp_mono; [by apply (dir_op_enter fopen oom Hmem _ _ _ (dir_op_add_file fopen oom Hmem name host) s par root c nm kids)|].
  cbn beta. intros r s' (kids' & Hr' & Hev & Hu). exists kids'.
  pose proof (update_keeps init (add_file fopen name host) (erase <$> kids) (add_file_keeps fopen name host)) as Hkeep.
  pose proof (update_ok init (add_file fopen name host) (erase <$> kids)) as Hsucc.
  pose proof (update_resolve init (add_file fopen name host) (erase <$> kids) name Hfit) as Hres.
  rewrite Hu in Hkeep, Hsucc, Hres. cbn [fst snd] in *. rewrite add_file_ok in Hsucc.
  split; [apply Hev|]. split; [done|]. split; [apply Hev|]. split; [done|].
  assert (r <> 0 <-> negb (r =? 0) = true) as -> by (destruct (Z.eqb_spec r 0); naive_solver).
  split.
  - rewrite Hsucc. split.
    + intros (Hp & Hc & Ho). rewrite resolve_dir_at by done. split; [by destruct init | done].
    + intros (_ & Hp & Hc & Ho). by rewrite resolve_dir_at in Hc.
  - intros Hrt. destruct (proj1 Hsucc Hrt) as (Hp & Hc & [content Ho]). exists name, content.
    split; [done|]. split; [done|]. rewrite Hres by done. by apply add_file_child.
Qed.

(** A root directory with one file, and the path of a second one. *)
Definition tree_sample : ntree := NDir 1 0 [] [NFile 2 0 [97] [104] 3].
Definition fs_heap_sample : heap := mk_heap
  {[ 1 := mk_node [] 0 0 (NODE_DIRECTORY [2]); 2 := mk_node [97] 0 1 (NODE_FILE [104] 3) ]} 2.

Lemma fs_heap_sample_ok : heap_ok fs_heap_sample /\ rep (hp_nodes fs_heap_sample) 0 tree_sample /\ NoDup (addrs tree_sample).
Proof.
  split; [|split].
  - intros p. unfold fs_heap_sample. cbn [hp_nodes hp_allocs]. rewrite lookup_insert_is_Some, lookup_singleton_is_Some. lia.
  - by repeat split.
  - by apply (bool_decide_unpack _).
Qed.

Lemma tree_insert_node_correct_witness :
  wp (tree_insert_node (fun _ => Some [7; 8]) (fun _ => false) 1 [98; 47; 99] [104]) (fun r s' => exists kids',
    rep (hp_nodes s') 0 (NDir 1 0 [] kids') /\
    resolve (erase <$> kids') [[98]; [99]] = Some (File [99] [104] 2)) fs_heap_sample.
Proof.
  destruct fs_heap_sample_ok as (Hok & Hr & Hnd).
  eapply wp_mono; [apply (tree_insert_node_correct (fun _ => Some [7; 8]) (fun _ => false) fs_heap_sample 0 1 0 []
    [NFile 2 0 [97] [104] 3] [98; 47; 99] [104]); [done..|by repeat constructor]|].
  intros r s' (kids' & _ & Hr' & _ & _ & Hiff & Hres). exists kids'. split; [done|].
  destruct Hres as (name & content & Hl & Hf & Hres).
  - apply Hiff. split; [done|]. split; [exact I|]. split; [reflexivity | by eexists].
  - injection Hl as <-. injection Hf as <-. exact Hres.
Defined.

(** C19. [parse_disk_files] reads back the list of files [mkimage] is given: for any list
    of lines [host:image] that fit in the parser's buffer, the tree it builds in memory
    is the one obtained by inserting the entries one after the other, and the paths it
    reports are those whose insertion fails.  No cluster is assigned yet, and no other
    node is left on the heap or changed. *)
Theorem parse_disk_files_correct fopen oom es s :
  (forall n, oom n = false) -> Forall line_ok es -> heap_ok s ->
  wp (parse_disk_files fopen oom (es ≫= render)) (fun r s' => exists kids,
    let t := NDir r.1 0 [] kids in
    rep (hp_nodes s') 0 t /\ heap_ok s' /\ NoDup (addrs t) /\ zeroed t /\
    (forall q, q ∉ addrs t -> hp_nodes s' !! q = hp_nodes s !! q) /\
    insert_entries fopen es [] = (erase <$> kids, r.2)) s.
Proof. intros Hmem Hes Hok. by apply parse_disk_files_wp. Qed.

Definition entries_sample : list (list Z * list Z) := [([104], [98; 47; 99]); ([], [98; 47; 100; 47]); ([104], [98])].

(** A file in a new directory, an empty directory, and a path that is taken. *)
Lemma parse_disk_files_correct_witness :
  wp (parse_disk_files (fun _ => Some [7; 8]) (fun _ => false) (entries_sample ≫= render)) (fun r s' => exists kids,
    rep (hp_nodes s') 0 (NDir r.1 0 [] kids) /\ r.2 = [[98]] /\
    erase <$> kids = [Dir [98] [File [99] [104] 2; Dir [100] []]]) (mk_heap ∅ 0).
Proof.
  eapply wp_mono; [apply (parse_disk_files_correct (fun _ => Some [7; 8]) (fun _ => false) entries_sample (mk_heap ∅ 0)); [done| |]|].
  - by repeat constructor.
  - by intros p [? ?].
  - intros [root errs] s' (kids & Hr & _ & _ & _ & _ & Hi). exists kids. split; [done|].
    change (insert_entries _ _ _) with ([Dir [98] [File [99] [104] 2; Dir [100] []]], [[98]]) in Hi.
    by injection Hi as <- <-.
Defined.

(** ** Releasing the tree *)

Fixpoint height (t : ntree) : nat :=
  match t with
  | NFile _ _ _ _ _ => 1
  | NDir _ _ _ kids => S (foldr (fun x n => Nat.max (height x) n) O kids)
  end.

Lemma height_child x kids : x ∈ kids -> (height x <= foldr (fun x n => Nat.max (height x) n) O kids)%nat.
Proof. induction 1; cbn; lia. Qed.

Definition released (t : ntree) (s s' : heap) : Prop :=
  hp_allocs s' = hp_allocs s /\ forall q, hp_nodes s' !! q = if bool_decide (q ∈ addrs t) then None else hp_nodes s !! q.

Lemma free_kids_wp (f : Z -> M heap unit) p kids : NoDup (kids ≫= addrs) ->
  (forall x s, x ∈ kids -> rep (hp_nodes s) p x -> wp (f (addr x)) (fun _ s' => released x s s') s) ->
  forall s, Forall (rep (hp_nodes s) p) kids ->
  wp (for_in (R := Empty_set) (addr <$> kids) tt (fun c _ => bind (f c) (fun _ => ret (inl tt))))
    (fun _ s' => hp_allocs s' = hp_allocs s /\
       forall q, hp_nodes s' !! q = if bool_decide (q ∈ kids ≫= addrs) then None else hp_nodes s !! q) s.
Proof.
  induction kids as [|x kids IH]; intros Hnd Hf s Hk; cbn [fmap list_fmap for_in]; wp_steps; [by split|].
  rewrite bind_cons in Hnd |- *. apply NoDup_app in Hnd as (_ & Hx & Hnd). apply Forall_cons in Hk as [Hr Hk].
  eapply wp_mono; [apply Hf; [constructor | done]|]. cbn beta. intros [] s1 [Ha1 Hn1]. wp_steps.
  eapply wp_mono; [apply IH; [done| |]|].
  - intros y t Hy. apply Hf. by constructor.
  - apply (reps_agree (hp_nodes s)); [done|]. intros q Hq. rewrite Hn1, bool_decide_false; [done|].
    intros Hq'. by apply (Hx q).
  - cbn beta. intros _ s2 [Ha2 Hn2]. split; [congruence|]. intros q. rewrite Hn2, Hn1.
    repeat case_bool_decide; set_solver.
Qed.

Lemma fs_node_free_wp t : forall fuel par s, (height t <= fuel)%nat -> 0 ∉ addrs t ->
  rep (hp_nodes s) par t -> NoDup (addrs t) ->
  wp (fs_node_free fuel (addr t)) (fun _ s' => released t s s') s.
Proof.
  induction t as [p c nm host size|p c nm kids IH] using ntree_ind'; intros fuel par s Hh H0 Hr Hnd.
  all: destruct fuel as [|fuel]; [cbn in Hh; lia|]; cbn [fs_node_free addr].
  all: assert (p <> 0) as Hp by (intros ->; apply H0; cbn; constructor).
  all: rewrite (proj2 (Z.eqb_neq p 0)) by done; wp_steps; eapply wp_get_node; [by apply (rep_addr _ _ _ Hr)|].
  - cbn [children_of nd_body node_of]. unfold wp, release_node. rewrite (rep_addr _ _ _ Hr : _ !! p = _).
    split; [done|]. intros q. cbn [hp_nodes addrs]. case_bool_decide as Hq.
    + apply list_elem_of_singleton in Hq as ->. apply lookup_delete_eq.
    + apply lookup_delete_ne. set_solver.
  - cbn [children_of nd_body node_of]. wp_steps. apply rep_dir in Hr as [Hp1 Hk].
    cbn [addrs] in Hnd, H0. apply NoDup_cons in Hnd as [Hnp Hnd].
    eapply wp_mono.
    { apply (free_kids_wp (fs_node_free fuel) p kids Hnd); [|exact Hk]. intros x s1 Hx Hrx.
      rewrite Forall_forall in IH. apply (IH x Hx fuel p s1); [| |done|].
      - pose proof (height_child x kids Hx). cbn in Hh. lia.
      - intros Hx0. apply H0. right. apply list_elem_of_bind. eauto.
      - apply list_elem_of_split in Hx as (l1 & l2 & ->).
        rewrite bind_middle in Hnd. apply NoDup_app in Hnd as (_ & _ & [Hnd _]%NoDup_app). done. }
    cbn beta. intros _ s1 [Ha1 Hn1]. unfold wp, release_node. rewrite Hn1, bool_decide_false, Hp1 by done.
    split; [done|]. intros q. cbn [hp_nodes addrs].
    destruct (decide (q = p)) as [->|Hne]; [rewrite lookup_delete_eq, bool_decide_true; [done | constructor]|].
    rewrite lookup_delete_ne, Hn1 by done. repeat case_bool_decide; set_solver.
Qed.

(** [fs_node_free] on a tree in memory, with any bound on the recursion that is not
    below the height of the tree: it returns, frees every node of the tree exactly once
    (a second release of a node is undefined) and touches no other node. *)
Theorem fs_node_free_correct t fuel par s : (height t <= fuel)%nat ->
  heap_ok s -> rep (hp_nodes s) par t -> NoDup (addrs t) ->
  wp (fs_node_free fuel (addr t)) (fun _ s' => released t s s') s.
Proof.
  intros Hh Hok Hr Hnd. apply (fs_node_free_wp t fuel par); [done| |done..].
  intros H0%(rep_bound _ _ _ Hok Hr). lia.
Qed.

Lemma fs_node_free_correct_witness :
  wp (fs_node_free 2 1) (fun _ s' => hp_nodes s' !! 1 = None /\ hp_nodes s' !! 2 = None) fs_heap_sample.
Proof.
  destruct fs_heap_sample_ok as (Hok & Hr & Hnd).
  eapply wp_mono; [apply (fs_node_free_correct tree_sample 2 0 fs_heap_sample); [by compute|done..]|].
  intros _ s' [_ Hn]. by rewrite !Hn.
Defined.
