(* ===== verification/Fat32.v ===== *)
(** * Writing the FAT32 image

    Models [tools/mkimage/fat32.c] and [tools/mkimage/main.c].

    - The output file is the list of its bytes; writing behind its end fills the gap
      with zeros.
    - [fat] is an array of 32-bit words; an access outside of it is undefined, as are
      writes behind the end of the buffers of a directory and of a name.
    - The boot sectors are the bytes of their files; [vbr_of] reads the members of
      [fat32_vbr_t] at their offsets (the host is little-endian).
    - Recursion over the tree takes fuel; the number of nodes in memory is enough. *)

From S2P Require Import Prelude Buffer Iwbf Tree.

(** ** [fat32.h] *)

Definition FAT_NAME_LEN : Z := 11.
Definition ATTR_DIRECTORY : Z := 16.
Definition ATTR_ARCHIVE : Z := 32.
Definition FAT_FREE : Z := 0.
Definition FAT_EOF : Z := 268435455. (* 0x0FFFFFFF *)

(** The members of [fat32_vbr_t] that the tool uses. *)
Record fat32_vbr := mk_vbr {
  bytes_per_sector : Z;
  sectors_per_cluster : Z;
  reserved_sectors : Z;
  fat_count : Z;
  media_descriptor : Z;
  total_sectors_32 : Z;
  fat_size_32 : Z;
  root_cluster : Z
}.

Definition byte_at (l : list Z) (i : Z) : Z := default 0 (l !! Z.to_nat i).
Definition word16_at (l : list Z) (i : Z) : Z := byte_at l i + 256 * byte_at l (i + 1).
Definition word32_at (l : list Z) (i : Z) : Z := word16_at l i + 65536 * word16_at l (i + 2).

Definition vbr_of (sector : list Z) : fat32_vbr :=
  mk_vbr (word16_at sector 11) (byte_at sector 13) (word16_at sector 14) (byte_at sector 16)
    (byte_at sector 21) (word32_at sector 32) (word32_at sector 36) (word32_at sector 44).
(** [mbr_entry[0].lba_start]. *)
Definition lba_start (sector : list Z) : Z := word32_at sector 454.

Record fat_dir_entry := mk_entry {
  de_name : list Z;
  de_attr : Z;
  de_fst_clus_hi : Z;
  de_fst_clus_lo : Z;
  de_file_size : Z
}.
(** The 32 bytes of an entry; the members the tool never sets are zero. *)
Definition entry_bytes (e : fat_dir_entry) : list Z :=
  de_name e ++ [de_attr e; 0; 0; 0; 0; 0; 0; 0; 0] ++ le16 (de_fst_clus_hi e) ++ [0; 0; 0; 0] ++
  le16 (de_fst_clus_lo e) ++ le32 (de_file_size e).

(** [ctx_t], with the heap of the process. *)
Record ctx := mk_ctx {
  cx_heap : heap;
  cx_image : list Z;
  cx_fat : list Z;
  cx_next : Z
}.

Definition with_heap (h : heap) (s : ctx) : ctx := mk_ctx h (cx_image s) (cx_fat s) (cx_next s).
Definition on_heap {A} (c : M heap A) : M ctx A := zoom cx_heap with_heap c.

(** [fseek] and [fwrite]. *)
Definition overwrite (off : Z) (bs l : list Z) : list Z :=
  let n := Z.to_nat off in
  take n (l ++ replicate (n - length l) 0) ++ bs ++ drop (n + length bs) l.
Definition fwrite_at (off : Z) (bs : list Z) : M ctx unit :=
  modify (fun s => mk_ctx (cx_heap s) (overwrite off bs (cx_image s)) (cx_fat s) (cx_next s)).

Definition fat_get (i : Z) : M ctx Z := fun s =>
  match (if 0 <=? i then cx_fat s !! Z.to_nat i else None) with Some v => Some (v, s) | None => None end.
Definition fat_set (i v : Z) : M ctx unit := fun s =>
  if (0 <=? i) && (i <? Z.of_nat (length (cx_fat s)))
  then Some (tt, mk_ctx (cx_heap s) (cx_image s) (<[Z.to_nat i := v]> (cx_fat s)) (cx_next s))
  else None.
Definition set_next_free (n : Z) : M ctx unit :=
  modify (fun s => mk_ctx (cx_heap s) (cx_image s) (cx_fat s) n).

Section Fat.
Context (fopen : list Z -> option (list Z)) (oom : nat -> bool).
Context (vbr : fat32_vbr) (partition_offset : Z) (root : Z).

(** ** [fat32.c] *)

Definition fat32_cluster_size : Z := u32 (bytes_per_sector vbr * sectors_per_cluster vbr).
Definition fat32_data_offset : Z :=
  u64 (partition_offset + (reserved_sectors vbr + fat_count vbr * fat_size_32 vbr) * bytes_per_sector vbr).

Definition total_entries : Z := u32 (fat_size_32 vbr * bytes_per_sector vbr) / 4.

Definition fat32_table_init : M ctx Z :=
  ok <-- on_heap (request oom) ;;
  if negb ok then ret 0
  else
    modify (fun s => mk_ctx (cx_heap s) (cx_image s) (replicate (Z.to_nat total_entries) 0) (cx_next s)) ;;;
    fat_set 0 (Z.lor 4294967040 (media_descriptor vbr)) ;;;
    fat_set 1 FAT_EOF ;;;
    fat_set (root_cluster vbr) FAT_EOF ;;;
    set_next_free (u32 (root_cluster vbr + 1)) ;;;
    ret 1.

Definition fat32_cluster_alloc : M ctx Z :=
  next <-- gets cx_next ;;
  r <-- for_lt next total_entries tt (fun i _ =>
    v <-- fat_get i ;;
    if v =? FAT_FREE then
      fat_set i FAT_EOF ;;; set_next_free (u32 (i + 1)) ;;; ret (inr i)
    else ret (inl tt)) ;;
  match r with inr i => ret i | inl _ => ret 0 end.

Definition fat32_table_flush : M ctx unit :=
  let fat_size := fat_size_32 vbr * bytes_per_sector vbr in
  let first_fat := partition_offset + reserved_sectors vbr * bytes_per_sector vbr in
  for_each 0 (fat_count vbr) (fun i =>
    fat <-- gets cx_fat ;;
    let bytes := fat ≫= le32 in
    if Z.of_nat (length bytes) <? fat_size then undefined
    else fwrite_at (u64 (first_fat + i * fat_size)) (take (Z.to_nat fat_size) bytes)).

Definition fat32_write_cluster (cluster : Z) (buffer : list Z) : M ctx unit :=
  let offset := u64 (fat32_data_offset + u32 (cluster - 2) * fat32_cluster_size) in
  fwrite_at offset (take (Z.to_nat fat32_cluster_size) buffer).

(** [memset] and [fread] into the buffer: what was read, then zeros. *)
Definition read_buffer (content : list Z) : list Z :=
  let chunk := take (Z.to_nat fat32_cluster_size) content in
  chunk ++ replicate (Z.to_nat fat32_cluster_size - length chunk) 0.

Fixpoint write_file_loop (fuel : nat) (buffer : bool) (content : list Z) (remaining cluster previous : Z) : M ctx Z :=
  match fuel with
  | O => undefined
  | S fuel' =>
      if negb (0 <? remaining) then ret previous
      else
        (if negb (previous =? 0) then fat_set previous cluster else ret tt) ;;;
        if negb buffer then undefined
        else
          fat32_write_cluster cluster (read_buffer content) ;;;
          let remaining := remaining - (if fat32_cluster_size <? remaining then fat32_cluster_size else remaining) in
          next <-- (if 0 <? remaining then fat32_cluster_alloc else ret cluster) ;;
          write_file_loop fuel' buffer (drop (Z.to_nat fat32_cluster_size) content) remaining next cluster
  end.

Definition fat32_write_file (node : Z) : M ctx unit :=
  nd <-- on_heap (get_node node) ;;
  match nd_body nd with
  | NODE_DIRECTORY _ => undefined
  | NODE_FILE host_path size =>
      match fopen host_path with
      | None => ret tt
      | Some content =>
          buffer <-- on_heap (request oom) ;;
          previous <-- write_file_loop (S (Z.to_nat size)) buffer content size (nd_first_cluster nd) 0 ;;
          fat_set previous FAT_EOF
      end
  end.

(** *** Directory entries *)

(** [strchr(name, '.')] *)
Fixpoint split_dot (s : list Z) : option (list Z * list Z) :=
  match s with
  | [] => None
  | x :: s' =>
      if x =? 46 then Some ([], s')
      else match split_dot s' with Some (a, b) => Some (x :: a, b) | None => None end
  end.

Definition toupper (c : Z) : Z := if (97 <=? c) && (c <=? 122) then c - 32 else c.

(** [memcpy(tmp + off, s, strlen(s))] *)
Definition put (off : nat) (s tmp : list Z) : option (list Z) :=
  if (length tmp <? off + length s)%nat then None
  else Some (take off tmp ++ s ++ drop (off + length s) tmp).

(** The 8.3 name; [None] when a buffer overflows, or when [toupper] is called on a
    negative [char]. *)
Definition short_name (node_name : list Z) : option (list Z) :=
  if (Z.to_nat FAT_NAME_LEN <=? length node_name)%nat then None
  else
    let tmp := replicate (Z.to_nat FAT_NAME_LEN) 32 in
    tmp ← match split_dot node_name with
          | Some (base, ext) => tmp ← put 0 base tmp; put 8 ext tmp
          | None => put 0 node_name tmp
          end;
    if forallb (fun c => c <? 128) tmp then Some (toupper <$> tmp) else None.

Definition fat32_create_entry (nd : fs_node) : option fat_dir_entry :=
  name ← short_name (nd_name nd);
  Some (mk_entry name (if is_dir nd then ATTR_DIRECTORY else ATTR_ARCHIVE)
    (u16 (Z.shiftr (nd_first_cluster nd) 16)) (Z.land (nd_first_cluster nd) 65535)
    (match nd_body nd with NODE_FILE _ size => size | NODE_DIRECTORY _ => 0 end)).

Definition put_entry (index : nat) (e : fat_dir_entry) (buffer : list Z) : option (list Z) :=
  put (32 * index) (entry_bytes e) buffer.

Definition dot_entry (name : list Z) (c : Z) : fat_dir_entry :=
  mk_entry name ATTR_DIRECTORY (u16 (Z.shiftr c 16)) (Z.land c 65535) 0.
(** ["."] and [".."], padded *)
Definition DOT : list Z := [46; 32; 32; 32; 32; 32; 32; 32; 32; 32; 32].
Definition DOTDOT : list Z := [46; 46; 32; 32; 32; 32; 32; 32; 32; 32; 32].

Definition lift {A} (o : option A) : M ctx A := match o with Some a => ret a | None => undefined end.

Definition fat32_write_directory (node : Z) : M ctx unit :=
  ok <-- on_heap (request oom) ;;
  if negb ok then ret tt
  else
    nd <-- on_heap (get_node node) ;;
    let buffer := replicate (Z.to_nat fat32_cluster_size) 0 in
    '(index, buffer) <-- (if node =? root then ret (O, buffer)
      else
        buffer <-- lift (put_entry 0 (dot_entry DOT (nd_first_cluster nd)) buffer) ;;
        parent <-- (if nd_parent nd =? 0 then ret 0
                    else pd <-- on_heap (get_node (nd_parent nd)) ;; ret (nd_first_cluster pd)) ;;
        buffer <-- lift (put_entry 1 (dot_entry DOTDOT parent) buffer) ;;
        ret (2%nat, buffer)) ;;
    cs <-- on_heap (get_children node) ;;
    r <-- for_in (R := Empty_set) cs (index, buffer) (fun child '(index, buffer) =>
      cd <-- on_heap (get_node child) ;;
      e <-- lift (fat32_create_entry cd) ;;
      buffer <-- lift (put_entry index e buffer) ;;
      ret (inl (S index, buffer))) ;;
    match r with
    | inl (_, buffer) => fat32_write_cluster (nd_first_cluster nd) buffer
    | inr v => match v with end
    end.

Definition with_cluster (c : Z) (nd : fs_node) : fs_node :=
  mk_node (nd_name nd) c (nd_parent nd) (nd_body nd).

Fixpoint fat32_prepare_tree (fuel : nat) (node : Z) : M ctx unit :=
  match fuel with
  | O => undefined
  | S fuel' =>
      nd <-- on_heap (get_node node) ;;
      (if node =? root then on_heap (set_node node (with_cluster (root_cluster vbr) nd))
       else if nd_first_cluster nd =? 0 then
         c <-- fat32_cluster_alloc ;; on_heap (set_node node (with_cluster c nd))
       else ret tt) ;;;
      if is_dir nd then
        cs <-- on_heap (get_children node) ;;
        for_in (R := Empty_set) cs tt (fun c _ => fat32_prepare_tree fuel' c ;;; ret (inl tt)) ;;;
        ret tt
      else ret tt
  end.

Fixpoint fat32_write_tree (fuel : nat) (node : Z) : M ctx unit :=
  match fuel with
  | O => undefined
  | S fuel' =>
      nd <-- on_heap (get_node node) ;;
      if negb (is_dir nd) then fat32_write_file node
      else
        fat32_write_directory node ;;;
        cs <-- on_heap (get_children node) ;;
        for_in (R := Empty_set) cs tt (fun c _ => fat32_write_tree fuel' c ;;; ret (inl tt)) ;;;
        ret tt
  end.
End Fat.

(** ** [main.c] *)

(** The number of nodes bounds the depth of the tree. *)
Definition depth_fuel (s : ctx) : nat := S (size (hp_nodes (cx_heap s))).

Section Main.
Context (fopen : list Z -> option (list Z)) (oom : nat -> bool).

(** From the open files on: the contents of the three input files; the output file is
    empty.  [fread] of less than a sector leaves the rest of it indeterminate. *)
Definition mkimage (mbr_file vbr_file files : list Z) : M ctx (Z * list (list Z)) :=
  if ((length mbr_file <? 512) || (length vbr_file <? 512))%nat then undefined
  else
    let mbr := take 512 mbr_file in
    let sector := take 512 vbr_file in
    let vbr := vbr_of sector in
    let partition_offset := lba_start mbr * bytes_per_sector vbr in
    let image_size := partition_offset + total_sectors_32 vbr * bytes_per_sector vbr in
    (* a seek to -1 fails and leaves the position at 0 *)
    fwrite_at (if image_size =? 0 then 0 else image_size - 1) [0] ;;;
    fwrite_at 0 mbr ;;;
    fwrite_at partition_offset sector ;;;
    '(root, errs) <-- on_heap (parse_disk_files fopen oom files) ;;
    if root =? 0 then ret (1, errs)
    else
      init <-- fat32_table_init oom vbr ;;
      fuel <-- gets depth_fuel ;;
      if init =? 0 then on_heap (fs_node_free fuel root) ;;; ret (1, errs)
      else
        fat32_prepare_tree vbr root fuel root ;;;
        fat32_write_tree fopen oom vbr partition_offset root fuel root ;;;
        fat32_table_flush vbr partition_offset ;;;
        on_heap (fs_node_free fuel root) ;;;
        ret (0, errs).

(** [main]: the four files are [None] when they cannot be opened. *)
Definition main (argc : Z) (mbr_file vbr_file files : option (list Z)) (image_fd : bool) :
    M ctx (Z * list (list Z)) :=
  if negb (argc =? 5) then ret (1, [])
  else
    match mbr_file, vbr_file, image_fd, files with
    | Some m, Some v, true, Some f => mkimage m v f
    | _, _, _, _ => ret (1, [])
    end.
End Main.
