(* ===== verification/Fat32Props.v ===== *)
(** * What a FAT32 reader finds on the image

    [read_image] reads an image the way the FAT32 specification describes it: the
    partition table, the boot sector, the allocation table and the directories.  The
    theorem on [tools/mkimage/main.c] says that it finds the tree of the list of
    files, with the contents of the host's files. *)

From S2P Require Import Prelude Buffer Iwbf Tree TreeProps Fat32.

#[local] Set Warnings "-register-all".

(** ** Bytes of a file *)

Definition slice (l : list Z) (off n : Z) : list Z := (fun i => byte_at l (off + i)) <$> seqZ 0 n.

Lemma byte_at_overwrite off bs l i : 0 <= off -> 0 <= i ->
  byte_at (overwrite off bs l) i =
    if (off <=? i) && (i <? off + Z.of_nat (length bs)) then byte_at bs (i - off) else byte_at l i.
Proof.
  intros Ho Hi. unfold byte_at, overwrite. set (n := Z.to_nat off).
  assert (length (take n (l ++ replicate (n - length l) 0)) = n) as Hlen.
  { rewrite length_take, length_app, length_replicate. lia. }
  destruct (Z.leb_spec off i) as [H1|H1]; cbn [andb].
  - rewrite lookup_app_r by lia. rewrite Hlen.
    destruct (Z.ltb_spec i (off + Z.of_nat (length bs))) as [H2|H2].
    + rewrite lookup_app_l by lia. do 2 f_equal. lia.
    + rewrite lookup_app_r by lia. rewrite lookup_drop. do 2 f_equal. lia.
  - rewrite lookup_app_l by lia. rewrite lookup_take_lt by lia.
    destruct (decide (Z.to_nat i < length l)%nat) as [Hl|Hl].
    + by rewrite lookup_app_l by lia.
    + rewrite lookup_app_r by lia. rewrite lookup_replicate_2 by lia. by rewrite lookup_ge_None_2 by lia.
Qed.

Lemma slice_length l off n : 0 <= n -> length (slice l off n) = Z.to_nat n.
Proof. intros Hn. unfold slice. by rewrite length_fmap, length_seqZ. Qed.

Lemma lookup_slice l off n i : (i < Z.to_nat n)%nat -> slice l off n !! i = Some (byte_at l (off + Z.of_nat i)).
Proof. intros Hi. unfold slice. rewrite list_lookup_fmap, lookup_seqZ_lt by lia. done. Qed.

Lemma slice_agree l l' off n : (forall i, off <= i < off + n -> byte_at l' i = byte_at l i) -> slice l' off n = slice l off n.
Proof.
  intros H. apply list_eq. intros i. destruct (decide (i < Z.to_nat n)%nat) as [Hi|Hi].
  - rewrite !lookup_slice by done. f_equal. apply H. lia.
  - destruct (Z.lt_ge_cases n 0).
    + unfold slice. by rewrite seqZ_nil by lia.
    + rewrite !lookup_ge_None_2; [done|..]; rewrite slice_length; lia.
Qed.

Lemma slice_all l : slice l 0 (Z.of_nat (length l)) = l.
Proof.
  apply list_eq. intros i. destruct (decide (i < length l)%nat) as [Hi|Hi].
  - rewrite lookup_slice by lia. unfold byte_at. replace (Z.to_nat (0 + Z.of_nat i)) with i by lia.
    destruct (lookup_lt_is_Some_2 l i Hi) as [v ->]. done.
  - rewrite !lookup_ge_None_2; [done | lia|]. rewrite slice_length; lia.
Qed.

Lemma slice_overwrite_same off bs l : 0 <= off -> slice (overwrite off bs l) off (Z.of_nat (length bs)) = bs.
Proof.
  intros Ho. rewrite <- (slice_all bs) at 3. apply list_eq. intros i.
  destruct (decide (i < length bs)%nat) as [Hi|Hi].
  - rewrite !lookup_slice by lia. f_equal. rewrite byte_at_overwrite by lia.
    rewrite (proj2 (Z.leb_le _ _)), (proj2 (Z.ltb_lt _ _)) by lia. cbn [andb]. f_equal. lia.
  - rewrite !lookup_ge_None_2; [done|..]; rewrite slice_length; lia.
Qed.

Lemma slice_overwrite_other off bs l off' n : 0 <= off -> 0 <= off' ->
  off' + n <= off \/ off + Z.of_nat (length bs) <= off' -> slice (overwrite off bs l) off' n = slice l off' n.
Proof.
  intros Ho Ho' Hd. apply slice_agree. intros i Hi. rewrite byte_at_overwrite by lia.
  destruct (Z.leb_spec off i), (Z.ltb_spec i (off + Z.of_nat (length bs))); cbn; lia || done.
Qed.

(** ** The volume *)

(** The parameters of a boot sector that describe a volume this tool can write. *)
Record geometry (vbr : fat32_vbr) (part : Z) : Prop := {
  g_bps : 0 < bytes_per_sector vbr < 65536;
  g_align : bytes_per_sector vbr mod 4 = 0;
  g_spc : 0 < sectors_per_cluster vbr < 256;
  g_res : 0 < reserved_sectors vbr < 65536;
  g_fats : 0 < fat_count vbr < 256;
  g_fat : 0 < fat_size_32 vbr * bytes_per_sector vbr < 4294967296;
  g_entries : total_entries vbr <= 268435440;
  g_root : 2 <= root_cluster vbr < total_entries vbr;
  g_part : 0 <= part < 281474976710656
}.

Section Volume.
Context (vbr : fat32_vbr) (part : Z) (Hg : geometry vbr part).

#[local] Abbreviation cs := (fat32_cluster_size vbr).
#[local] Abbreviation data := (fat32_data_offset vbr part).
#[local] Abbreviation total := (total_entries vbr).

Definition first_fat : Z := part + reserved_sectors vbr * bytes_per_sector vbr.
Definition fat_bytes : Z := fat_size_32 vbr * bytes_per_sector vbr.
(** The bytes of a cluster. *)
Definition cluster_off (c : Z) : Z := data + (c - 2) * cs.
Definition cluster_data (img : list Z) (c : Z) : list Z := slice img (cluster_off c) cs.

Lemma cs_eq : cs = bytes_per_sector vbr * sectors_per_cluster vbr.
Proof. destruct Hg. unfold fat32_cluster_size. apply u32_id. unfold is_u32. nia. Qed.
Lemma cs_pos : 0 < cs < 16777216.
Proof. rewrite cs_eq. destruct Hg. nia. Qed.
Lemma data_eq : data = first_fat + fat_count vbr * fat_bytes.
Proof.
  destruct Hg. unfold fat32_data_offset, first_fat, fat_bytes in *. rewrite u64_id.
  - lia.
  - unfold is_u64. nia.
Qed.
Lemma data_range : first_fat <= data < 562949953421312.
Proof. rewrite data_eq. destruct Hg. unfold first_fat, fat_bytes. nia. Qed.
Lemma first_fat_low : part + bytes_per_sector vbr <= first_fat.
Proof. unfold first_fat. destruct Hg. nia. Qed.
Lemma fat_bytes_eq : fat_bytes = u32 (fat_size_32 vbr * bytes_per_sector vbr).
Proof. destruct Hg. unfold fat_bytes. rewrite u32_id; [done | unfold is_u32; lia]. Qed.
Lemma total_bytes : 4 * total = fat_bytes.
Proof.
  unfold total_entries. rewrite <- fat_bytes_eq. unfold fat_bytes. destruct Hg.
  apply Z.mod_divide in g_align0 as [q Hq]; [|lia]. rewrite Hq, Z.mul_assoc, Z.div_mul by lia. lia.
Qed.

Lemma cluster_off_low c : 2 <= c -> first_fat <= cluster_off c /\ 0 <= cluster_off c.
Proof. intros Hc. unfold cluster_off. pose proof data_range. pose proof cs_pos. pose proof first_fat_low. destruct Hg. nia. Qed.

Lemma cluster_apart c d : c <> d -> cluster_off c + cs <= cluster_off d \/ cluster_off d + cs <= cluster_off c.
Proof. intros Hne. unfold cluster_off. pose proof cs_pos. destruct (Z.lt_ge_cases c d); [left | right]; nia. Qed.

(** Only the clusters of [X] changed; the second also says that nothing before the data
    did. *)
Definition data_frame (X : list Z) (img img' : list Z) : Prop :=
  forall c, 2 <= c -> c ∉ X -> cluster_data img' c = cluster_data img c.
Definition img_frame (X : list Z) (img img' : list Z) : Prop :=
  data_frame X img img' /\
  (forall i, 0 <= i < data -> byte_at img' i = byte_at img i).

Lemma write_cluster_wp s c buf (Q : unit -> ctx -> Prop) : 2 <= c < total -> Z.of_nat (length buf) = cs ->
  (forall img', img_frame [c] (cx_image s) img' -> cluster_data img' c = buf ->
    Q tt (mk_ctx (cx_heap s) img' (cx_fat s) (cx_next s))) ->
  wp (fat32_write_cluster vbr part c buf) Q s.
Proof.
  intros Hc Hl HQ. pose proof cs_pos as Hcs. pose proof data_range as Hd. pose proof first_fat_low as Hf.
  destruct (cluster_off_low c) as [H1 H2]; [lia|].
  assert (u64 (data + u32 (c - 2) * cs) = cluster_off c) as Hoff.
  { unfold cluster_off. destruct Hg. rewrite (u32_id (c - 2)) by (unfold is_u32; lia). apply u64_id. unfold is_u64. nia. }
  unfold fat32_write_cluster, fwrite_at. rewrite Hoff, take_ge by lia. apply wp_modify. apply HQ.
  - split.
    + intros d Hd2 Hnd. unfold cluster_data. apply slice_overwrite_other; [done | by apply cluster_off_low|].
      destruct (cluster_apart d c); [set_solver | lia | lia].
    + intros i Hi. rewrite byte_at_overwrite by lia.
      assert (data <= cluster_off c) by (unfold cluster_off; nia).
      destruct (Z.leb_spec (cluster_off c) i); [lia | done].
  - unfold cluster_data. rewrite <- Hl. by apply slice_overwrite_same.
Qed.

Lemma img_frame_trans X Y a b c : img_frame X a b -> img_frame Y b c -> img_frame (X ++ Y) a c.
Proof.
  clear Hg.
  intros [H1 H2] [H3 H4]. split.
  - intros d Hd Hn. rewrite H3, H1; set_solver.
  - intros i Hi. rewrite H4, H2; done.
Qed.
Lemma img_frame_mono X Y a b : X ⊆ Y -> img_frame X a b -> img_frame Y a b.
Proof. clear Hg. intros HXY [H1 H2]. split; [|done]. intros c Hc Hn. apply H1; set_solver. Qed.
Lemma img_frame_refl X a : img_frame X a a.
Proof. by split. Qed.

(** ** The allocation table *)

Definition fat_at (fat : list Z) (i : Z) : Z := fat !!! Z.to_nat i.

(** Every cluster from [next_free_cluster] on is free. *)
Definition fat_ok (s : ctx) : Prop :=
  Z.of_nat (length (cx_fat s)) = total /\ 2 <= cx_next s /\
  forall i, cx_next s <= i < total -> fat_at (cx_fat s) i = FAT_FREE.

Definition fat_frame (X : list Z) (fat fat' : list Z) : Prop :=
  length fat' = length fat /\ forall i, 0 <= i -> i ∉ X -> fat_at fat' i = fat_at fat i.

Lemma fat_get_wp s i (Q : Z -> ctx -> Prop) : 0 <= i < Z.of_nat (length (cx_fat s)) ->
  Q (fat_at (cx_fat s) i) s -> wp (fat_get i) Q s.
Proof.
  clear Hg.
  intros Hi HQ. unfold wp, fat_get, fat_at in *. rewrite (proj2 (Z.leb_le _ _)) by lia.
  destruct (lookup_lt_is_Some_2 (cx_fat s) (Z.to_nat i)) as [v Hv]; [lia|].
  rewrite Hv. by rewrite (list_lookup_total_correct _ _ _ Hv) in HQ.
Qed.

Lemma fat_set_wp s i v (Q : unit -> ctx -> Prop) : 0 <= i < Z.of_nat (length (cx_fat s)) ->
  (forall fat', fat_frame [i] (cx_fat s) fat' -> fat_at fat' i = v ->
    Q tt (mk_ctx (cx_heap s) (cx_image s) fat' (cx_next s))) ->
  wp (fat_set i v) Q s.
Proof.
  clear Hg.
  intros Hi HQ. unfold wp, fat_set. rewrite (proj2 (Z.leb_le _ _)), (proj2 (Z.ltb_lt _ _)) by lia.
  cbn [andb]. apply HQ.
  - split; [apply length_insert|]. intros j Hj Hn. unfold fat_at. apply list_lookup_total_insert_ne. set_solver by lia.
  - unfold fat_at. apply list_lookup_total_insert_eq. lia.
Qed.

Lemma fat_frame_trans X Y a b c : fat_frame X a b -> fat_frame Y b c -> fat_frame (X ++ Y) a c.
Proof. clear Hg. intros [L1 H1] [L2 H2]. split; [congruence|]. intros i Hi Hn. rewrite H2, H1; set_solver. Qed.
Lemma fat_frame_mono X Y a b : X ⊆ Y -> fat_frame X a b -> fat_frame Y a b.
Proof. clear Hg. intros HXY [L H]. split; [done|]. intros i Hi Hn. apply H; set_solver. Qed.
Lemma fat_frame_refl X a : fat_frame X a a.
Proof. by split. Qed.

(** Allocation takes the next cluster. *)
Lemma cluster_alloc_wp s (Q : Z -> ctx -> Prop) : fat_ok s -> cx_next s < total ->
  (forall fat', fat_frame [cx_next s] (cx_fat s) fat' -> fat_at fat' (cx_next s) = FAT_EOF ->
    let s' := mk_ctx (cx_heap s) (cx_image s) fat' (cx_next s + 1) in fat_ok s' -> Q (cx_next s) s') ->
  wp (fat32_cluster_alloc vbr) Q s.
Proof.
  intros (Hl & Hn & Hfree) Hlt HQ. unfold fat32_cluster_alloc. wp_steps.
  unfold for_lt. destruct (Z.to_nat (total - cx_next s)) as [|n] eqn:En; [lia|]. cbn [for_n]. wp_steps.
  apply fat_get_wp; [lia|]. rewrite Hfree by lia. cbn [FAT_FREE Z.eqb]. wp_steps.
  apply fat_set_wp; [lia|]. intros fat' Hfr Hv. cbn [cx_next]. wp_steps. unfold set_next_free. wp_steps.
  cbn [cx_heap cx_image cx_fat]. rewrite u32_id by (destruct Hg; unfold is_u32; lia).
  apply HQ; [done..|]. destruct Hfr as [Hl' Hf]. split; [cbn; lia|]. split; [cbn; lia|].
  intros i Hi. cbn in *. rewrite Hf, Hfree; [done | lia..|]. set_solver by lia.
Qed.

(** ** Files *)

(** A chain of clusters holds the bytes of a file. *)
Fixpoint chain_ok (fat img : list Z) (l : list Z) (content : list Z) : Prop :=
  match l with
  | [] => False
  | c :: l' =>
      fat_at fat c = match l' with [] => FAT_EOF | d :: _ => d end /\
      cluster_data img c = read_buffer vbr content /\
      match l' with [] => True | _ => chain_ok fat img l' (drop (Z.to_nat cs) content) end
  end.

Lemma read_buffer_length content : Z.of_nat (length (read_buffer vbr content)) = cs.
Proof.
  pose proof cs_pos. unfold read_buffer. rewrite length_app, length_replicate, length_take. lia.
Qed.

Lemma chain_ok_frame X Y fat img fat' img' l content : Forall (fun c => 2 <= c) l ->
  fat_frame X fat fat' -> data_frame Y img img' -> (forall c, c ∈ l -> (c ∉ X) /\ (c ∉ Y)) ->
  chain_ok fat img l content -> chain_ok fat' img' l content.
Proof.
  intros Hl [_ Hf] Hi. revert content. induction Hl as [|c l Hc Hl IH]; intros content Hd; [done|].
  cbn [chain_ok]. intros (H1 & H2 & H3). destruct (Hd c) as [Hx Hy]; [constructor|].
  rewrite Hf by (done || lia). rewrite Hi by (done || lia). split; [done|]. split; [done|]. destruct l; [done|]. apply IH; [|done].
  intros d Hd'. apply Hd. by constructor.
Qed.

Lemma link_wp s previous cluster (Q : unit -> ctx -> Prop) : fat_ok s -> cx_next s <= total -> 0 <= previous < cx_next s ->
  (forall fat1, let s1 := mk_ctx (cx_heap s) (cx_image s) fat1 (cx_next s) in fat_ok s1 ->
    fat_frame (if previous =? 0 then [] else [previous]) (cx_fat s) fat1 ->
    (previous <> 0 -> fat_at fat1 previous = cluster) -> Q tt s1) ->
  wp (if negb (previous =? 0) then fat_set previous cluster else ret tt) Q s.
Proof.
  intros Hok Ht Hp HQ. pose proof Hok as (Hl & Hn & Hfree). destruct (Z.eqb_spec previous 0) as [->|Hne]; cbn [negb].
  - apply wp_ret. destruct s as [h i f n]. apply HQ; [done | apply fat_frame_refl | done].
  - apply fat_set_wp; [lia|]. intros fat' Hf Hv. apply HQ; [|done..]. destruct Hf as [Hl' Hf].
    split; [cbn; lia|]. split; [done|]. cbn. intros i Hi. rewrite Hf, Hfree; [done | lia..|].
    rewrite list_elem_of_singleton. lia.
Qed.

(** The loop of [fat32_write_file]: [k] more clusters are filled after the first, which
    is given; they are the next free ones. *)
Lemma write_file_loop_wp k : forall fuel s content remaining cluster previous, (S k < fuel)%nat ->
  fat_ok s -> Z.of_nat k * cs < remaining <= Z.of_nat (S k) * cs ->
  2 <= cluster < cx_next s -> cx_next s + Z.of_nat k <= total -> fat_at (cx_fat s) cluster = FAT_EOF ->
  0 <= previous < cx_next s -> previous <> cluster ->
  let l := cluster :: seqZ (cx_next s) (Z.of_nat k) in
  wp (write_file_loop vbr part fuel true content remaining cluster previous) (fun r s' =>
    cx_heap s' = cx_heap s /\ cx_next s' = cx_next s + Z.of_nat k /\ fat_ok s' /\
    last l = Some r /\ chain_ok (cx_fat s') (cx_image s') l content /\
    (previous <> 0 -> fat_at (cx_fat s') previous = cluster) /\
    img_frame l (cx_image s) (cx_image s') /\
    fat_frame (l ++ (if previous =? 0 then [] else [previous])) (cx_fat s) (cx_fat s')) s.
Proof.
  pose proof cs_pos as Hcs.
  induction k as [|k IH]; intros fuel s content remaining cluster previous Hfuel Hok Hrem Hc Htot He Hp Hpc l;
    (destruct fuel as [|fuel]; [lia|]); cbn [write_file_loop].
  all: rewrite (proj2 (Z.ltb_lt 0 remaining)) by lia; cbn [negb]; wp_steps.
  all: apply link_wp; [done | lia | done |]; intros fat1 s1 Hok1 Hf1 Hl1; subst s1; wp_steps.
  all: apply write_cluster_wp; [cbn; lia | apply read_buffer_length |]; intros img2 Hi2 Hd2; wp_steps.
  all: cbn [cx_heap cx_image cx_fat cx_next] in *.
  all: assert (fat_at fat1 cluster = FAT_EOF) as He1 by
    (rewrite (proj2 Hf1); [done | lia | destruct (previous =? 0); set_solver]).
  - assert (remaining - (if cs <? remaining then cs else remaining) = 0) as ->.
    { destruct (Z.ltb_spec cs remaining); lia. }
    cbn [Z.ltb Z.compare]. wp_steps. destruct fuel as [|fuel]; [lia|]. cbn [write_file_loop negb Z.ltb Z.compare].
    wp_steps. unfold l. cbn [seqZ Z.of_nat]. rewrite seqZ_nil by lia. cbn [last app cx_heap cx_next cx_fat cx_image].
    split; [done|]. split; [lia|]. split; [done|]. split; [done|]. split; [done|]. split; [done|]. split; [done|].
    eapply fat_frame_mono; [|exact Hf1]. set_solver.
  - assert (remaining - (if cs <? remaining then cs else remaining) = remaining - cs) as ->.
    { destruct (Z.ltb_spec cs remaining); lia. }
    rewrite (proj2 (Z.ltb_lt 0 (remaining - cs))) by lia. wp_steps.
    apply cluster_alloc_wp; [done | cbn; lia |]. intros fat3 Hf3 He3 s3 Hok3. cbn [cx_next cx_heap cx_image cx_fat] in *.
    eapply wp_mono; [apply (IH fuel s3 _ _ (cx_next s) cluster); try done; cbn [cx_next s3 cx_fat]; lia|].
    cbn beta zeta. intros r s4 (Hh & Hn & Hok4 & Hlast & Hch & Hlink & Hi4 & Hf4).
    cbn [cx_heap cx_next cx_image cx_fat s3] in *. rewrite (proj2 (Z.eqb_neq cluster 0)) in Hf4 by lia.
    assert (l = cluster :: cx_next s :: seqZ (cx_next s + 1) (Z.of_nat k)) as Hl.
    { unfold l. rewrite (seqZ_cons (cx_next s)) by lia. do 3 f_equal; lia. }
    assert (forall x, x ∈ cx_next s :: seqZ (cx_next s + 1) (Z.of_nat k) -> cx_next s <= x) as Hge.
    { intros x. rewrite elem_of_cons, elem_of_seqZ. lia. }
    split; [done|]. split; [lia|]. split; [done|]. rewrite Hl. split; [done|].
    split; [|split; [|split]].
    + cbn [chain_ok]. split; [apply Hlink; lia|]. split; [|exact Hch].
      rewrite (proj1 Hi4); [done | lia|]. intros Hx%Hge. lia.
    + intros Hp0. rewrite (proj2 Hf4), (proj2 Hf3); [auto | lia | | lia |].
      * rewrite list_elem_of_singleton. lia.
      * rewrite elem_of_app, list_elem_of_singleton. intros [Hx%Hge|Hx]; lia.
    + eapply img_frame_mono; [|by eapply img_frame_trans]. set_solver.
    + eapply fat_frame_mono; [|eapply fat_frame_trans; [exact Hf1|]; by eapply fat_frame_trans]. set_solver.
Qed.

(** The clusters of a file after the first one. *)
Definition extra (size : Z) : Z := Z.max 0 ((size - 1) / cs).

Lemma extra_bound size : 0 < size -> extra size * cs < size <= (extra size + 1) * cs.
Proof.
  intros Hs. pose proof cs_pos. unfold extra. rewrite Z.max_r by (apply Z.div_pos; lia). dlia.
Qed.
Lemma extra_nonneg size : 0 <= extra size.
Proof. unfold extra. lia. Qed.
Lemma extra_0 : extra 0 = 0.
Proof. pose proof cs_pos. unfold extra. assert ((0 - 1) / cs < 0) by dlia. lia. Qed.

Definition file_stored (fat img : list Z) (n c : Z) (content : list Z) : Prop :=
  match content with
  | [] => fat_at fat c = FAT_EOF
  | _ => chain_ok fat img (c :: seqZ n (extra (Z.of_nat (length content)))) content
  end.

Lemma chain_ok_last fat img l content r : chain_ok fat img l content -> last l = Some r -> fat_at fat r = FAT_EOF.
Proof.
  revert content. induction l as [|c l IH]; intros content; [done|]. cbn [chain_ok]. intros (H1 & _ & H2).
  destruct l as [|d l]; [by intros [= <-]|]. rewrite last_cons_cons. eauto.
Qed.

(** What writing a node leaves alone. *)
Record wrote (X : list Z) (s s' : ctx) : Prop := {
  wr_nodes : hp_nodes (cx_heap s') = hp_nodes (cx_heap s);
  wr_fat_ok : fat_ok s';
  wr_img : img_frame X (cx_image s) (cx_image s');
  wr_fat : fat_frame (0 :: X) (cx_fat s) (cx_fat s')
}.

Lemma wrote_trans X Y s1 s2 s3 : wrote X s1 s2 -> wrote Y s2 s3 -> wrote (X ++ Y) s1 s3.
Proof.
  clear Hg.
  intros [] []. split; [congruence | done | by eapply img_frame_trans|].
  eapply fat_frame_mono; [|by eapply fat_frame_trans]. set_solver.
Qed.
Lemma wrote_mono X Y s s' : X ⊆ Y -> wrote X s s' -> wrote Y s s'.
Proof.
  clear Hg.
  intros HXY []. split; [done..| |]; [by eapply img_frame_mono|]. eapply fat_frame_mono; [|done]. set_solver.
Qed.

Section Nodes.
Context (fopen : list Z -> option (list Z)) (oom : nat -> bool) (Hmem : forall n, oom n = false) (root : Z).

Lemma request_wp s (Q : bool -> ctx -> Prop) :
  Q true (with_heap (mk_heap (hp_nodes (cx_heap s)) (S (hp_allocs (cx_heap s)))) s) ->
  wp (on_heap (request oom)) Q s.
Proof. clear Hg. intros HQ. unfold on_heap. apply wp_zoom. unfold wp, request. by rewrite Hmem. Qed.

Lemma on_get_node_wp s p nd (Q : fs_node -> ctx -> Prop) : hp_nodes (cx_heap s) !! p = Some nd -> Q nd s ->
  wp (on_heap (get_node p)) Q s.
Proof. clear Hg Hmem. intros Hp HQ. apply wp_zoom. eapply wp_get_node; [done|]. by destruct s. Qed.

Lemma write_file_wp s par p c nm host size content :
  hp_nodes (cx_heap s) !! p = Some (node_of par (NFile p c nm host size)) ->
  fopen host = Some content -> size = Z.of_nat (length content) ->
  fat_ok s -> 2 <= c < cx_next s -> cx_next s + extra size <= total -> fat_at (cx_fat s) c = FAT_EOF ->
  wp (fat32_write_file fopen oom vbr part p) (fun _ s' =>
    wrote (c :: seqZ (cx_next s) (extra size)) s s' /\ cx_next s' = cx_next s + extra size /\
    file_stored (cx_fat s') (cx_image s') (cx_next s) c content) s.
Proof.
  intros Hnd Hf Hsz Hok Hc Htot He. pose proof cs_pos as Hcs. pose proof (g_root _ _ Hg) as Hroot.
  pose proof Hok as (Hlen & Hn2 & _).
  unfold fat32_write_file. wp_steps. eapply on_get_node_wp; [done|]. cbn [node_of nd_body nd_first_cluster].
  rewrite Hf. wp_steps. apply request_wp. set (s1 := with_heap _ s). wp_steps.
  destruct (decide (size = 0)) as [->|Hs0].
  - assert (content = []) as -> by (destruct content; [done | cbn in Hsz; lia]).
    cbn [write_file_loop Z.to_nat negb Z.ltb Z.compare]. wp_steps.
    apply fat_set_wp; [cbn; lia|]. intros fat' Hfr Hv. cbn [s1 with_heap cx_heap cx_image cx_fat cx_next] in *.
    rewrite extra_0, seqZ_nil by lia. split; [|split; [cbn; lia|]].
    + split; [done | | apply img_frame_refl|].
      * destruct Hok as (Hl & Hn & Hfree). split; [cbn; destruct Hfr; lia|]. split; [done|]. cbn. intros i Hi.
        rewrite (proj2 Hfr), Hfree; [done | lia..|]. rewrite list_elem_of_singleton. lia.
      * cbn. eapply fat_frame_mono; [|done]. set_solver.
    + cbn. rewrite (proj2 Hfr); [done | lia|]. rewrite list_elem_of_singleton. lia.
  - assert (0 < size) as Hs by lia. pose proof (extra_bound size Hs) as Hex. pose proof (extra_nonneg size) as Hex0.
    assert (Z.of_nat (Z.to_nat (extra size)) = extra size) as Hk by lia.
    eapply wp_mono; [apply (write_file_loop_wp (Z.to_nat (extra size)) _ s1); cbn [s1 with_heap cx_next cx_fat]; try done; nia|].
    cbn beta zeta. rewrite Hk. cbn [s1 with_heap cx_heap cx_image cx_fat cx_next].
    intros r s2 (Hh2 & Hn & Hok2 & Hlast & Hch & _ & Hi2 & Hf2). rewrite app_nil_r in Hf2.
    pose proof (chain_ok_last _ _ _ _ _ Hch Hlast) as Hr.
    assert (2 <= r < cx_next s2) as Hrr.
    { apply last_Some_elem_of in Hlast. apply elem_of_cons in Hlast as [->|Hin]; [lia|].
      apply elem_of_seqZ in Hin. lia. }
    pose proof Hok2 as (Hl2 & _ & _). apply fat_set_wp; [lia|]. intros fat3 Hf3 Hv3.
    assert (fat_frame [] (cx_fat s2) fat3) as Hf3'.
    { destruct Hf3 as [L H]. split; [done|]. intros i Hi _. destruct (decide (i = r)) as [->|Hne]; [congruence|].
      apply H; [done | by rewrite list_elem_of_singleton]. }
    split; [|split; [done|]].
    + split; cbn [cx_heap cx_fat cx_image]; [by rewrite Hh2 | | done |].
      * destruct Hok2 as (? & ? & Hfree). split; [cbn; destruct Hf3'; lia|]. split; [done|]. cbn.
        intros i Hi. rewrite (proj2 Hf3'); [by apply Hfree | lia | set_solver].
      * eapply fat_frame_mono; [|by eapply fat_frame_trans]. set_solver.
    + unfold file_stored. cbn [cx_fat cx_image]. destruct content as [|x content]; [cbn in Hsz; lia|]. rewrite <- Hsz.
      eapply (chain_ok_frame [] []); [|exact Hf3' | done | set_solver | exact Hch].
      constructor; [lia|]. apply Forall_forall. intros y Hy%elem_of_seqZ. lia.
Qed.

(** ** Directories *)

Definition short (nm : list Z) : list Z := default [] (short_name nm).

Definition entry_of (t : ntree) : fat_dir_entry :=
  match t with
  | NFile _ c nm _ size => mk_entry (short nm) ATTR_ARCHIVE (u16 (Z.shiftr c 16)) (Z.land c 65535) size
  | NDir _ c nm _ => mk_entry (short nm) ATTR_DIRECTORY (u16 (Z.shiftr c 16)) (Z.land c 65535) 0
  end.
Definition ntree_name (t : ntree) : list Z := match t with NFile _ _ nm _ _ | NDir _ _ nm _ => nm end.

(** The entries of a directory; [pc] is the first cluster of its parent. *)
Definition dots (is_root : bool) (c pc : Z) : list fat_dir_entry :=
  if is_root then [] else [dot_entry DOT c; dot_entry DOTDOT pc].
Definition dir_entries (is_root : bool) (c pc : Z) (kids : list ntree) : list fat_dir_entry :=
  dots is_root c pc ++ (entry_of <$> kids).
Definition dir_bytes (es : list fat_dir_entry) : list Z :=
  (es ≫= entry_bytes) ++ replicate (Z.to_nat cs - 32 * length es) 0.

Lemma put_length off s tmp r : put off s tmp = Some r -> length r = length tmp.
Proof.
  unfold put. destruct (Nat.ltb_spec (length tmp) (off + length s)) as [|H]; [done|]. intros [= <-].
  rewrite !length_app, length_take, length_drop. lia.
Qed.

Lemma short_name_length nm r : short_name nm = Some r -> length r = 11%nat.
Proof.
  unfold short_name. destruct (_ <=? _)%nat; [done|].
  destruct (split_dot nm) as [[base ext]|]; cbn [mbind option_bind].
  - destruct (put 0 base _) as [t1|] eqn:E1; [|done]. cbn. destruct (put 8 ext t1) as [t2|] eqn:E2; [|done]. cbn.
    destruct (forallb _ t2); [|done]. intros [= <-]. rewrite length_fmap.
    by rewrite (put_length _ _ _ _ E2), (put_length _ _ _ _ E1).
  - destruct (put 0 nm _) as [t1|] eqn:E1; [|done]. cbn.
    destruct (forallb _ t1); [|done]. intros [= <-]. rewrite length_fmap. by rewrite (put_length _ _ _ _ E1).
Qed.

Definition entry_ok (e : fat_dir_entry) : Prop := length (de_name e) = 11%nat.
Lemma entry_bytes_length e : entry_ok e -> length (entry_bytes e) = 32%nat.
Proof. intros He. unfold entry_bytes. rewrite !length_app, He. done. Qed.
Lemma entries_length es : Forall entry_ok es -> length (es ≫= entry_bytes) = (32 * length es)%nat.
Proof.
  induction 1 as [|e es He Hes IH]; [done|]. rewrite bind_cons, length_app, IH, entry_bytes_length by done. cbn. lia.
Qed.

Lemma put_entry_snoc es e : Forall entry_ok es -> entry_ok e -> Z.of_nat (32 * S (length es)) <= cs ->
  put_entry (length es) e (dir_bytes es) = Some (dir_bytes (es ++ [e])).
Proof.
  intros Hes He Hfit. pose proof (entries_length es Hes) as Hl. pose proof (entry_bytes_length e He) as Hle.
  unfold put_entry, put, dir_bytes. rewrite length_app, length_replicate, Hl, Hle.
  destruct (Nat.ltb_spec (32 * length es + (Z.to_nat cs - 32 * length es)) (32 * length es + 32)) as [|_]; [lia|].
  f_equal. rewrite bind_app, length_app. cbn [mbind list_bind length]. rewrite app_nil_r, <- app_assoc.
  rewrite take_app_length' by done. f_equal. f_equal.
  rewrite drop_app_ge by lia. rewrite Hl, drop_replicate. f_equal. lia.
Qed.

Lemma create_entry_of par t : is_Some (short_name (ntree_name t)) ->
  fat32_create_entry (node_of par t) = Some (entry_of t) /\ entry_ok (entry_of t).
Proof.
  intros [r Hr]. pose proof (short_name_length _ _ Hr) as Hlen. unfold fat32_create_entry, entry_ok.
  destruct t; cbn [node_of nd_name ntree_name entry_of de_name] in *; unfold short; rewrite Hr; done.
Qed.

Lemma entries_loop_wp s par kids : forall es, Forall (rep (hp_nodes (cx_heap s)) par) kids ->
  Forall (fun t => is_Some (short_name (ntree_name t))) kids -> Forall entry_ok es ->
  Z.of_nat (32 * (length es + length kids)) <= cs ->
  wp (for_in (R := Empty_set) (addr <$> kids) (length es, dir_bytes es) (fun child '(index, buffer) =>
      bind (on_heap (get_node child)) (fun cd =>
      bind (lift (fat32_create_entry cd)) (fun e =>
      bind (lift (put_entry index e buffer)) (fun buffer => ret (inl (S index, buffer)))))))
    (fun r s' => s' = s /\ exists n, r = inl (n, dir_bytes (es ++ (entry_of <$> kids)))) s.
Proof.
  induction kids as [|t kids IH]; intros es Hk Hn Hes Hfit; cbn [fmap list_fmap for_in].
  { wp_steps. rewrite app_nil_r. eauto. }
  apply Forall_cons in Hk as [Ht Hk], Hn as [Hnt Hn]. destruct (create_entry_of par t Hnt) as [Hce Hok].
  wp_steps. eapply on_get_node_wp; [by apply rep_addr|]. rewrite Hce. cbn [lift]. wp_steps.
  rewrite put_entry_snoc by (done || (cbn in Hfit; lia)). cbn [lift]. wp_steps.
  pose proof (IH (es ++ [entry_of t]) Hk Hn) as Hnext.
  rewrite length_app, Nat.add_1_r, <- app_assoc in Hnext. apply Hnext.
  - apply Forall_app. by repeat constructor.
  - cbn [length] in Hfit. lia.
Qed.

Lemma dots_ok b c pc : Forall entry_ok (dots b c pc).
Proof. destruct b; by repeat constructor. Qed.

Lemma write_directory_wp s par p c nm kids pc :
  rep (hp_nodes (cx_heap s)) par (NDir p c nm kids) ->
  (p <> root -> par <> 0 /\ exists pd, hp_nodes (cx_heap s) !! par = Some pd /\ nd_first_cluster pd = pc) ->
  Forall (fun t => is_Some (short_name (ntree_name t))) kids ->
  Z.of_nat (32 * length (dir_entries (p =? root) c pc kids)) <= cs ->
  fat_ok s -> 2 <= c < total ->
  wp (fat32_write_directory oom vbr part root p) (fun _ s' =>
    wrote [c] s s' /\ cx_next s' = cx_next s /\ cx_fat s' = cx_fat s /\
    cluster_data (cx_image s') c = dir_bytes (dir_entries (p =? root) c pc kids)) s.
Proof.
  intros Hr Hpar Hn Hfit Hok Hc. pose proof cs_pos as Hcs. pose proof Hr as [Hp Hk]%rep_dir.
  unfold dir_entries in *. rewrite length_app, length_fmap in Hfit.
  pose proof (dots_ok (p =? root) c pc) as Hdots. set (ds := dots (p =? root) c pc) in *.
  unfold fat32_write_directory. wp_steps. apply request_wp. set (s1 := with_heap _ s). cbn [negb]. wp_steps.
  eapply on_get_node_wp; [done|]. cbn [nd_first_cluster nd_parent]. wp_steps.
  eapply wp_mono with (Q := fun r s' => s' = s1 /\ r = (length ds, dir_bytes ds)).
  { assert (replicate (Z.to_nat cs) 0 = dir_bytes []) as -> by (unfold dir_bytes; cbn; f_equal; lia).
    unfold ds, dots in *. destruct (Z.eqb_spec p root) as [E|Hne]; wp_steps; [done|].
    destruct (Hpar Hne) as (Hp0 & pd & Hpd & <-). cbn [length] in Hfit.
    assert (put_entry 0 (dot_entry DOT c) (dir_bytes []) = Some (dir_bytes [dot_entry DOT c])) as ->
      by (apply (put_entry_snoc []); [constructor | done | cbn; lia]).
    cbn [lift]. wp_steps.
    rewrite (proj2 (Z.eqb_neq par 0)) by done. wp_steps. eapply on_get_node_wp; [done|]. wp_steps.
    assert (put_entry 1 (dot_entry DOTDOT (nd_first_cluster pd)) (dir_bytes [dot_entry DOT c]) =
      Some (dir_bytes [dot_entry DOT c; dot_entry DOTDOT (nd_first_cluster pd)])) as ->
      by (apply (put_entry_snoc [dot_entry DOT c]); [by repeat constructor | done | cbn; lia]).
    cbn [lift].
    wp_steps. done. }
  cbn beta. intros ? ? [-> ->]. wp_steps. apply wp_zoom. eapply wp_get_children; [done..|]. wp_steps.
  replace (with_heap (cx_heap s1) s1) with s1 by done.
  eapply wp_mono; [apply (entries_loop_wp s1 p kids ds); [done..|lia]|]. cbn beta.
  intros r s' [-> [n ->]]. apply write_cluster_wp; [done| |].
  - unfold dir_bytes. rewrite length_app, length_replicate, entries_length.
    + rewrite length_app, length_fmap. lia.
    + apply Forall_app. split; [done|]. apply Forall_fmap. eapply Forall_impl; [exact Hn|].
      intros t Ht. by apply (create_entry_of par).
  - intros img' Hi Hd. split; [|done]. split; [done|by destruct Hok | done | apply fat_frame_refl].
Qed.

(** ** Trees *)

(** The clusters beyond the first ones that the files of a tree need. *)
Fixpoint xtra (t : ntree) : Z :=
  match t with
  | NFile _ _ _ _ size => extra size
  | NDir _ _ _ kids => foldr (fun x a => xtra x + a) 0 kids
  end.
Definition xtras (kids : list ntree) : Z := foldr (fun x a => xtra x + a) 0 kids.

Lemma xtra_nonneg t : 0 <= xtra t.
Proof.
  induction t as [|p c nm kids IH] using ntree_ind'; cbn [xtra]; [apply extra_nonneg|].
  induction IH; cbn; lia.
Qed.
Lemma xtras_nonneg kids : 0 <= xtras kids.
Proof. induction kids as [|x kids IH]; cbn; [lia|]. pose proof (xtra_nonneg x). unfold xtras in IH. lia. Qed.

(** A tree on the image: [n] is the first free cluster when it was written, [pc] the first
    cluster of its parent. *)
Fixpoint stored (fat img : list Z) (n pc : Z) (t : ntree) : Prop :=
  match t with
  | NFile _ c _ host size =>
      let content := default [] (fopen host) in
      size = Z.of_nat (length content) /\ file_stored fat img n c content
  | NDir p c _ kids =>
      fat_at fat c = FAT_EOF /\
      cluster_data img c = dir_bytes (dir_entries (p =? root) c pc kids) /\
      (fix go (n : Z) (l : list ntree) : Prop :=
        match l with [] => True | x :: l' => stored fat img n c x /\ go (n + xtra x) l' end) n kids
  end.
Fixpoint stored_kids (fat img : list Z) (n c : Z) (l : list ntree) : Prop :=
  match l with [] => True | x :: l' => stored fat img n c x /\ stored_kids fat img (n + xtra x) c l' end.

Lemma stored_dir fat img n pc p c nm kids :
  stored fat img n pc (NDir p c nm kids) <->
  fat_at fat c = FAT_EOF /\ cluster_data img c = dir_bytes (dir_entries (p =? root) c pc kids) /\
  stored_kids fat img n c kids.
Proof.
  cbn [stored]. assert (forall l n, (fix go (n : Z) (l : list ntree) : Prop :=
    match l with [] => True | x :: l' => stored fat img n c x /\ go (n + xtra x) l' end) n l
    = stored_kids fat img n c l) as Heq.
  { induction l as [|x l IH]; intros m; [done|]. cbn. by rewrite IH. }
  by rewrite Heq.
Qed.

(** What the files of a tree need: names that fit, readable files of the recorded size,
    and room for the entries of each directory. *)
Definition name_ok (nm : list Z) : Prop := is_Some (short_name nm) /\ Forall (fun x => 0 < x) nm.
Fixpoint storable (t : tree) : Prop :=
  name_ok (tree_name t) /\
  match t with
  | File _ host size => exists content, fopen host = Some content /\ size = Z.of_nat (length content) /\ size < 4294967296
  | Dir _ kids => 32 * (2 + Z.of_nat (length kids)) <= cs /\
      (fix go (l : list tree) : Prop := match l with [] => True | x :: l' => storable x /\ go l' end) kids
  end.

Lemma storable_dir nm kids :
  storable (Dir nm kids) <-> name_ok nm /\ 32 * (2 + Z.of_nat (length kids)) <= cs /\ Forall storable kids.
Proof.
  cbn [storable tree_name]. assert (forall l, (fix go (l : list tree) : Prop :=
    match l with [] => True | x :: l' => storable x /\ go l' end) l <-> Forall storable l) as Heq.
  { induction l as [|x l IH]; [split; constructor|]. by rewrite Forall_cons, IH. }
  by rewrite Heq.
Qed.

Lemma storable_name t : storable (erase t) -> is_Some (short_name (ntree_name t)).
Proof. by destruct t; intros [[H _] _]. Qed.

Definition footprint (n : Z) (t : ntree) : list Z := clusters t ++ seqZ n (xtra t).
Definition footprints (n : Z) (kids : list ntree) : list Z := (kids ≫= clusters) ++ seqZ n (xtras kids).

Lemma footprints_cons n x kids c : c ∈ footprints n (x :: kids) <-> c ∈ footprint n x \/ c ∈ footprints (n + xtra x) kids.
Proof.
  unfold footprints, footprint. rewrite bind_cons, !elem_of_app, !elem_of_seqZ. cbn [xtras foldr]. fold (xtras kids).
  pose proof (xtra_nonneg x). pose proof (xtras_nonneg kids). split.
  - intros [[|]|]; [auto..|]. destruct (Z.lt_ge_cases c (n + xtra x)); [left; right; lia | right; right; lia].
  - intros [[|]|[|]]; auto; right; lia.
Qed.

Lemma footprint_dir n p c nm kids d : d ∈ footprint n (NDir p c nm kids) <-> d = c \/ d ∈ footprints n kids.
Proof. unfold footprint, footprints. cbn [clusters xtra]. rewrite elem_of_app, elem_of_cons, elem_of_app. tauto. Qed.

(** A stored tree depends on its own clusters only. *)
Lemma stored_frame X fat fat' img img' t : fat_frame (0 :: X) fat fat' -> data_frame X img img' ->
  forall n pc, Forall (fun c => 2 <= c) (clusters t) -> 2 <= n -> (forall c, c ∈ footprint n t -> c ∉ X) ->
  stored fat img n pc t -> stored fat' img' n pc t.
Proof.
  intros Hf Hi. induction t as [p c nm host size|p c nm kids IH] using ntree_ind'; intros n pc H2 Hn Hx.
  - cbn [stored]. intros [Hs Hst]. split; [done|]. apply Forall_cons in H2 as [Hc _].
    assert (forall d, d ∈ c :: seqZ n (extra size) -> (d ∉ 0 :: X) /\ (d ∉ X)) as Hd.
    { intros d Hd. assert (d ∉ X) as HX by (apply Hx; done). split; [|done].
      rewrite not_elem_of_cons. split; [|done]. apply elem_of_cons in Hd as [->|Hd%elem_of_seqZ]; lia. }
    unfold file_stored in *. rewrite <- Hs in Hst |- *. destruct (default [] (fopen host)) as [|x content].
    + rewrite (proj2 Hf); [done | lia|]. apply Hd. constructor.
    + eapply chain_ok_frame; [|exact Hf|exact Hi|exact Hd|exact Hst].
      constructor; [done|]. apply Forall_forall. intros d Hd'%elem_of_seqZ. lia.
  - rewrite !stored_dir. cbn [clusters] in H2. apply Forall_cons in H2 as [Hc H2]. intros (H1 & H3 & H4).
    assert (c ∉ X) as Hcx by (apply Hx, footprint_dir; auto).
    rewrite (proj2 Hf), Hi by (done || set_solver by lia). split; [done|]. split; [done|].
    assert (forall d, d ∈ footprints n kids -> d ∉ X) as Hk by (intros d Hd; apply Hx, footprint_dir; auto).
    clear Hx H1 H3. revert n Hn Hk H4. induction IH as [|x kids Hxs IH' IHk]; intros n Hn Hk; [done|].
    cbn [stored_kids]. rewrite bind_cons in H2. apply Forall_app in H2 as [Hx2 H2]. intros [Hs1 Hs2]. split.
    + apply Hxs; [done..| |done]. intros d Hd. apply Hk, footprints_cons. auto.
    + pose proof (xtra_nonneg x). apply IHk; [done | lia | | done]. intros d Hd. apply Hk, footprints_cons. auto.
Qed.

(** *** Writing *)

(** A node whose clusters are assigned and whose further clusters are free. *)
Record writable (s : ctx) (n : Z) (cl : list Z) : Prop := {
  wt_fat : fat_ok s;
  wt_nodup : NoDup cl;
  wt_range : Forall (fun c => 2 <= c < cx_next s) cl;
  wt_eof : Forall (fun c => fat_at (cx_fat s) c = FAT_EOF) cl;
  wt_room : cx_next s + n <= total
}.

Definition parent_is (s : ctx) (par pc : Z) : Prop :=
  par <> 0 /\ exists pd, hp_nodes (cx_heap s) !! par = Some pd /\ nd_first_cluster pd = pc.

Definition written (t : ntree) (pc : Z) (s s' : ctx) : Prop :=
  wrote (footprint (cx_next s) t) s s' /\ cx_next s' = cx_next s + xtra t /\
  stored (cx_fat s') (cx_image s') (cx_next s) pc t.

(** Writing some clusters leaves the others as they were. *)
Lemma writable_after s s' X n m cl : writable s (n + m) cl -> wrote X s s' -> cx_next s' = cx_next s + n -> 0 <= n ->
  (forall c, c ∈ cl -> c ∉ X) -> writable s' m cl.
Proof.
  intros [] [] Hn Hn0 Hd. split; [done | done | | | lia].
  - eapply Forall_impl; [exact wt_range0|]. cbn. lia.
  - rewrite Forall_forall in *. intros c Hc. specialize (wt_range0 c Hc). rewrite (proj2 wr_fat0); [auto | lia|].
    rewrite not_elem_of_cons. split; [lia | auto].
Qed.

Lemma writable_mono s n m cl cl' : writable s n (cl ++ cl') -> m <= n -> writable s m cl /\ writable s m cl'.
Proof.
  intros [] Hm. apply NoDup_app in wt_nodup0 as (? & _ & ?). apply Forall_app in wt_range0 as [? ?], wt_eof0 as [? ?].
  split; split; done || lia.
Qed.

Lemma write_kids_wp (f : Z -> M ctx unit) p c kids :
  (forall x s, x ∈ kids -> rep (hp_nodes (cx_heap s)) p x -> parent_is s p c -> writable s (xtra x) (clusters x) ->
     wp (f (addr x)) (fun _ s' => written x c s s') s) ->
  forall s, Forall (rep (hp_nodes (cx_heap s)) p) kids -> parent_is s p c -> writable s (xtras kids) (kids ≫= clusters) ->
  wp (for_in (R := Empty_set) (addr <$> kids) tt (fun a _ => bind (f a) (fun _ => ret (inl tt))))
    (fun _ s' => wrote (footprints (cx_next s) kids) s s' /\ cx_next s' = cx_next s + xtras kids /\
       stored_kids (cx_fat s') (cx_image s') (cx_next s) c kids) s.
Proof.
  induction kids as [|x kids IH]; intros Hf s Hk Hp Hw; cbn [fmap list_fmap for_in]; wp_steps.
  { split; [|split; [cbn; lia | done]]. split; [done | apply Hw | apply img_frame_refl | apply fat_frame_refl]. }
  rewrite bind_cons in Hw. cbn [xtras foldr] in *. fold (xtras kids) in *.
  pose proof (xtra_nonneg x) as Hx0. pose proof (xtras_nonneg kids) as Hk0. apply Forall_cons in Hk as [Hrx Hk].
  destruct (writable_mono _ _ (xtra x) _ _ Hw) as [Hwx _]; [lia|].
  destruct (writable_mono _ _ (xtra x + xtras kids) _ _ Hw) as [_ Hwk]; [lia|].
  eapply wp_mono; [apply Hf; [constructor | done..]|]. cbn beta. intros [] s1 (Hwr1 & Hn1 & Hst1). wp_steps.
  assert (forall d, d ∈ kids ≫= clusters -> d ∉ footprint (cx_next s) x) as Hdis.
  { intros d Hd Hd'. destruct Hw. apply NoDup_app in wt_nodup0 as (_ & Hnd & _). unfold footprint in Hd'.
    rewrite elem_of_app, elem_of_seqZ in Hd'. destruct Hd' as [Hd'|Hd']; [by apply (Hnd d)|].
    rewrite Forall_forall in wt_range0. specialize (wt_range0 d). set_solver by lia. }
  pose proof (writable_after _ _ _ _ _ _ Hwk Hwr1 Hn1 Hx0 Hdis) as Hw1.
  eapply wp_mono; [apply IH; [| | |done]|].
  - intros y t Hy. apply Hf. by constructor.
  - by rewrite (wr_nodes _ _ _ Hwr1).
  - unfold parent_is. by rewrite (wr_nodes _ _ _ Hwr1).
  - cbn beta. intros _ s2 (Hwr2 & Hn2 & Hst2). split; [|split; [lia|]].
    + eapply wrote_mono; [|by eapply wrote_trans]. intros d. rewrite footprints_cons, elem_of_app, Hn1. auto.
    + cbn [stored_kids]. rewrite <- Hn1. split; [|done].
      eapply stored_frame; [apply Hwr2 | apply (wr_img _ _ _ Hwr2) | | apply Hw| |done].
      * eapply Forall_impl; [apply Hwx|]. cbn. lia.
      * intros d Hd Hd'. unfold footprints in Hd'. rewrite elem_of_app, elem_of_seqZ in Hd'.
        destruct Hd' as [Hd'|Hd']; [by apply (Hdis d)|]. unfold footprint in Hd. rewrite elem_of_app, elem_of_seqZ in Hd.
        destruct Hwx. rewrite Forall_forall in wt_range0. destruct Hd as [Hd|Hd]; [specialize (wt_range0 d Hd)|]; lia.
Qed.

(** A directory with its kids, given how its kids are written. *)
Lemma write_dir_wp fuel s par p c nm kids pc :
  rep (hp_nodes (cx_heap s)) par (NDir p c nm kids) -> (p <> root -> parent_is s par pc) -> p <> 0 ->
  Forall storable (erase <$> kids) -> Z.of_nat (32 * length (dir_entries (p =? root) c pc kids)) <= cs ->
  writable s (xtras kids) (clusters (NDir p c nm kids)) ->
  (forall x s, x ∈ kids -> rep (hp_nodes (cx_heap s)) p x -> parent_is s p c -> writable s (xtra x) (clusters x) ->
     wp (fat32_write_tree fopen oom vbr part root fuel (addr x)) (fun _ s' => written x c s s') s) ->
  wp (fat32_write_tree fopen oom vbr part root (S fuel) p) (fun _ s' => written (NDir p c nm kids) pc s s') s.
Proof.
  intros Hr Hpar Hp0 Hst Hfit Hw Hkids. pose proof Hr as [Hp Hk]%rep_dir. cbn [clusters] in Hw.
  change (c :: (kids ≫= clusters)) with ([c] ++ (kids ≫= clusters)) in Hw.
  destruct (writable_mono _ _ (xtras kids) _ _ Hw) as [Hwc Hwk]; [lia|].
  assert (2 <= c < cx_next s) as Hc by (apply (Forall_singleton (fun c => 2 <= c < cx_next s)), Hwc).
  assert (c ∉ kids ≫= clusters) as Hcn.
  { destruct Hw as [_ [Hcn _]%NoDup_cons _ _ _]. done. }
  pose proof (xtras_nonneg kids) as Hx0.
  cbn [fat32_write_tree]. wp_steps. eapply on_get_node_wp; [done|]. cbn [is_dir nd_body negb]. wp_steps.
  eapply wp_mono.
  { apply (write_directory_wp s par p c nm kids pc); [done..| | done | apply Hw |].
    - rewrite Forall_fmap in Hst. eapply Forall_impl; [exact Hst|]. intros x. apply storable_name.
    - destruct Hw. lia. }
  cbn beta. intros [] s1 (Hwr1 & Hn1 & Hf1 & Hd1). wp_steps. apply wp_zoom.
  eapply wp_get_children; [by rewrite (wr_nodes _ _ _ Hwr1) | done |].
  replace (with_heap (cx_heap s1) s1) with s1 by (by destruct s1). wp_steps.
  eapply wp_mono; [apply (write_kids_wp _ p c kids Hkids)|].
  - by rewrite (wr_nodes _ _ _ Hwr1).
  - split; [done|]. rewrite (wr_nodes _ _ _ Hwr1). by eexists.
  - eapply (writable_after s s1 [c] 0); [by rewrite Z.add_0_l | done | lia | lia |]. set_solver.
  - cbn beta. rewrite Hn1. intros _ s2 (Hwr2 & Hn2 & Hst2). wp_steps. split; [|split; [done|]].
    + eapply wrote_mono; [|by eapply wrote_trans]. intros d. rewrite footprint_dir. set_solver.
    + assert (c ∉ footprints (cx_next s) kids) as Hcf.
      { unfold footprints. rewrite elem_of_app, elem_of_seqZ. intros [?|?]; [done | lia]. }
      apply stored_dir. split; [|split; [|done]].
      * rewrite (proj2 (wr_fat _ _ _ Hwr2)), Hf1; [|lia|set_solver by lia].
        apply (Forall_singleton (fun c => fat_at (cx_fat s) c = FAT_EOF)), Hwc.
      * rewrite (proj1 (wr_img _ _ _ Hwr2)); [done | lia | done].
Qed.

Lemma write_tree_wp t : forall fuel s par pc, (height t <= fuel)%nat -> root ∉ addrs t -> 0 ∉ addrs t ->
  rep (hp_nodes (cx_heap s)) par t -> parent_is s par pc -> storable (erase t) ->
  writable s (xtra t) (clusters t) ->
  wp (fat32_write_tree fopen oom vbr part root fuel (addr t)) (fun _ s' => written t pc s s') s.
Proof.
  induction t as [p c nm host size|p c nm kids IH] using ntree_ind'; intros fuel s par pc Hh Hroot H0 Hr Hpar Hs Hw;
    (destruct fuel as [|fuel]; [cbn in Hh; lia|]).
  - cbn [fat32_write_tree addr]. wp_steps. pose proof (rep_addr _ _ _ Hr) as Hp. eapply on_get_node_wp; [exact Hp|].
    cbn [is_dir node_of nd_body negb]. destruct Hs as [_ (content & Hf & Hsz & Hlt)]. destruct Hw. cbn [clusters xtra] in *.
    rewrite Forall_singleton in wt_range0, wt_eof0.
    eapply wp_mono; [by apply (write_file_wp s par p c nm host size content)|]. cbn beta.
    intros [] s' (Hwr & Hn & Hst). split; [done|]. split; [done|]. cbn [stored]. rewrite Hf. done.
  - cbn [erase] in Hs. apply storable_dir in Hs as (Hnm & Hcap & Hs). rewrite length_fmap in Hcap.
    cbn [addrs] in Hroot, H0. apply (write_dir_wp fuel s par p c nm kids pc); [done | done | set_solver | done | | done |].
    + unfold dir_entries. rewrite (proj2 (Z.eqb_neq p root)) by set_solver. cbn [dots app length].
      rewrite length_fmap. lia.
    + intros x s1 Hx Hrx Hp1 Hwx. rewrite Forall_forall in IH. apply (IH x Hx fuel s1 p c); [| | | done | done | | done].
      * pose proof (height_child x kids Hx). cbn in Hh. lia.
      * intros Hx'. apply Hroot. right. apply list_elem_of_bind. eauto.
      * intros Hx'. apply H0. right. apply list_elem_of_bind. eauto.
      * rewrite Forall_fmap, Forall_forall in Hs. by apply Hs.
Qed.
End Nodes.
End Volume.
