(* ===== verification/Fat32Layout.v ===== *)
(** * The layout of the image

    [fat32_table_init], [fat32_prepare_tree] and [fat32_table_flush] of
    [tools/mkimage/fat32.c]: clusters are assigned in the order of the tree, and the
    copies of the allocation table are written before the data. *)

From S2P Require Import Prelude Buffer Iwbf Tree TreeProps Fat32 Fat32Props.

(** ** Sizes of a tree, with and without addresses *)

Fixpoint theight (t : tree) : nat :=
  match t with File _ _ _ => 1 | Dir _ kids => S (foldr (fun x n => Nat.max (theight x) n) O kids) end.
Fixpoint tnodes (t : tree) : Z :=
  match t with File _ _ _ => 1 | Dir _ kids => 1 + foldr (fun x n => tnodes x + n) 0 kids end.
Definition tnodes_list (kids : list tree) : Z := foldr (fun x n => tnodes x + n) 0 kids.
Fixpoint txtra (vbr : fat32_vbr) (t : tree) : Z :=
  match t with File _ _ size => extra vbr size | Dir _ kids => foldr (fun x n => txtra vbr x + n) 0 kids end.
Definition txtras (vbr : fat32_vbr) (kids : list tree) : Z := foldr (fun x n => txtra vbr x + n) 0 kids.

Lemma height_erase t : theight (erase t) = height t.
Proof.
  induction t as [|p c nm kids IH] using ntree_ind'; [done|]. cbn [erase theight height]. f_equal.
  induction IH; cbn; congruence.
Qed.
Lemma xtra_erase vbr t : txtra vbr (erase t) = xtra vbr t.
Proof.
  induction t as [|p c nm kids IH] using ntree_ind'; [done|]. cbn [erase txtra xtra].
  induction IH; cbn; congruence.
Qed.
Lemma nodes_erase t : tnodes (erase t) = Z.of_nat (length (addrs t)).
Proof.
  induction t as [|p c nm kids IH] using ntree_ind'; [done|]. cbn [erase tnodes addrs].
  assert (foldr (fun x n => tnodes x + n) 0 (erase <$> kids) = Z.of_nat (length (kids ≫= addrs))) as ->.
  { induction IH as [|x kids Hx Hk IHk]; [done|]. rewrite bind_cons, length_app. cbn. lia. }
  cbn [length]. lia.
Qed.
Section Prepare.
Context (vbr : fat32_vbr) (part : Z) (Hg : geometry vbr part) (root : Z).
#[local] Abbreviation total := (total_entries vbr).

(** Clusters were given to the nodes at [X]. *)
Record prepared (X : list Z) (s s' : ctx) : Prop := {
  pr_allocs : hp_allocs (cx_heap s') = hp_allocs (cx_heap s);
  pr_image : cx_image s' = cx_image s;
  pr_fat_ok : fat_ok vbr s';
  pr_next : cx_next s' = cx_next s + Z.of_nat (length X);
  pr_frame : fat_frame (seqZ (cx_next s) (Z.of_nat (length X))) (cx_fat s) (cx_fat s');
  pr_eof : Forall (fun c => fat_at (cx_fat s') c = FAT_EOF) (seqZ (cx_next s) (Z.of_nat (length X)));
  pr_nodes : forall q, q ∉ X -> hp_nodes (cx_heap s') !! q = hp_nodes (cx_heap s) !! q
}.

Lemma prepared_refl s : fat_ok vbr s -> prepared [] s s.
Proof. intros Hok. split; [done..| cbn; lia | apply fat_frame_refl | constructor | done]. Qed.

Lemma prepared_trans X Y s1 s2 s3 : 0 <= cx_next s1 -> prepared X s1 s2 -> prepared Y s2 s3 -> prepared (X ++ Y) s1 s3.
Proof.
  intros H0 H1 H2. pose proof (pr_next _ _ _ H1) as Hn.
  assert (forall c, c ∈ seqZ (cx_next s1) (Z.of_nat (length (X ++ Y))) <->
    c ∈ seqZ (cx_next s1) (Z.of_nat (length X)) \/ c ∈ seqZ (cx_next s2) (Z.of_nat (length Y))) as Hseq.
  { intros c. rewrite !elem_of_seqZ, length_app, Hn. lia. }
  destruct H1, H2. split; [congruence | congruence | done | rewrite length_app; lia | | |].
  - eapply fat_frame_mono; [|by eapply fat_frame_trans]. intros c Hc. apply Hseq, elem_of_app, Hc.
  - apply Forall_forall. intros c [Hc|Hc]%Hseq; rewrite Forall_forall in pr_eof0, pr_eof1; [|auto].
    rewrite (proj2 pr_frame1); [auto | |]; apply elem_of_seqZ in Hc; [lia|]. rewrite elem_of_seqZ. lia.
  - intros q Hq. rewrite pr_nodes1, pr_nodes0; set_solver.
Qed.

Definition reassign (c : Z) (t : ntree) : ntree :=
  match t with NFile p _ nm host size => NFile p c nm host size | NDir p _ nm kids => NDir p c nm kids end.
Lemma with_cluster_node c par t : with_cluster c (node_of par t) = node_of par (reassign c t).
Proof. by destruct t. Qed.

(** [t] became [t'], with the next free clusters in the order of the nodes. *)
Definition assigned (par : Z) (t t' : ntree) (s s' : ctx) : Prop :=
  rep (hp_nodes (cx_heap s')) par t' /\ erase t' = erase t /\ addrs t' = addrs t /\ addr t' = addr t /\
  clusters t' = seqZ (cx_next s) (Z.of_nat (length (addrs t))) /\ prepared (addrs t) s s'.

Lemma prepare_kids_wp (f : Z -> M ctx unit) p kids : NoDup (kids ≫= addrs) ->
  (forall x s, x ∈ kids -> rep (hp_nodes (cx_heap s)) p x -> fat_ok vbr s ->
     cx_next s + Z.of_nat (length (addrs x)) <= total ->
     wp (f (addr x)) (fun _ s' => exists x', assigned p x x' s s') s) ->
  forall s, Forall (rep (hp_nodes (cx_heap s)) p) kids -> fat_ok vbr s ->
  cx_next s + Z.of_nat (length (kids ≫= addrs)) <= total ->
  wp (for_in (R := Empty_set) (addr <$> kids) tt (fun a _ => bind (f a) (fun _ => ret (inl tt))))
    (fun _ s' => exists kids', Forall (rep (hp_nodes (cx_heap s')) p) kids' /\
       erase <$> kids' = erase <$> kids /\ kids' ≫= addrs = kids ≫= addrs /\ addr <$> kids' = addr <$> kids /\
       kids' ≫= clusters = seqZ (cx_next s) (Z.of_nat (length (kids ≫= addrs))) /\
       prepared (kids ≫= addrs) s s') s.
Proof.
  induction kids as [|x kids IH]; intros Hnd Hf s Hk Hok Ht; cbn [fmap list_fmap for_in]; wp_steps.
  { exists []. do 5 (split; [done|]). by apply prepared_refl. }
  rewrite bind_cons in Hnd, Ht |- *. rewrite length_app in Ht |- *. apply NoDup_app in Hnd as (_ & Hx & Hnd).
  apply Forall_cons in Hk as [Hr Hk].
  eapply wp_mono; [apply Hf; [constructor | done | done | lia]|].
  cbn beta. intros [] s1 (x' & Hr1 & He1 & Ha1 & Hd1 & Hc1 & Hp1). wp_steps.
  eapply wp_mono; [apply IH; [done| | | apply Hp1 | rewrite (pr_next _ _ _ Hp1); lia]|].
  - intros y t Hy. apply Hf. by constructor.
  - apply (reps_agree (hp_nodes (cx_heap s))); [done|]. intros q Hq. apply (pr_nodes _ _ _ Hp1). intros Hq'. by apply (Hx q).
  - cbn beta. intros _ s2 (kids' & Hk2 & He2 & Ha2 & Hd2 & Hc2 & Hp2). exists (x' :: kids').
    rewrite !bind_cons, Ha1, Ha2, Hc1, Hc2, (pr_next _ _ _ Hp1). cbn [fmap list_fmap]. rewrite He1, Hd1.
    split; [constructor; [|done]|].
    { apply (rep_agree (hp_nodes (cx_heap s1))); [done|]. rewrite Ha1. intros q Hq. apply (pr_nodes _ _ _ Hp2).
      by apply Hx. }
    split; [by f_equal|]. split; [done|]. split; [by f_equal|]. split.
    + rewrite Nat2Z.inj_add, seqZ_app by lia. done.
    + eapply prepared_trans; [destruct Hok as (_ & ? & _); lia | done | done].
Qed.

(** The node itself. *)
Lemma prepare_node_wp s par t (Q : unit -> ctx -> Prop) : rep (hp_nodes (cx_heap s)) par t -> cluster t = 0 ->
  fat_ok vbr s -> cx_next s < total ->
  (forall s', prepared [addr t] s s' -> hp_nodes (cx_heap s') !! addr t = Some (node_of par (reassign (cx_next s) t)) -> Q tt s') ->
  wp (bind (fat32_cluster_alloc vbr) (fun c => on_heap (set_node (addr t) (with_cluster c (node_of par t))))) Q s.
Proof.
  intros Hr Hc0 Hok Hlt HQ. wp_steps. apply (cluster_alloc_wp vbr part Hg); [done..|]. intros fat' Hf He s1 Hok1.
  apply wp_zoom. eapply wp_set_node; [by apply rep_addr|]. rewrite with_cluster_node. apply HQ; [|apply lookup_insert_eq].
  unfold s1 in *. cbn [with_heap cx_heap cx_image cx_fat cx_next] in *. split; cbn [cx_heap cx_image cx_fat cx_next hp_allocs hp_nodes length Z.of_nat]; [done..| | |].
  - by rewrite (seqZ_cons _ 1), seqZ_nil by lia.
  - rewrite (seqZ_cons _ 1), seqZ_nil by lia. by constructor.
  - intros q Hq. cbn. rewrite lookup_insert_ne by set_solver. done.
Qed.

Lemma prepare_tree_wp t : forall fuel s par, (height t <= fuel)%nat -> root ∉ addrs t ->
  rep (hp_nodes (cx_heap s)) par t -> NoDup (addrs t) -> zeroed t -> fat_ok vbr s ->
  cx_next s + Z.of_nat (length (addrs t)) <= total ->
  wp (fat32_prepare_tree vbr root fuel (addr t)) (fun _ s' => exists t', assigned par t t' s s') s.
Proof.
  induction t as [p c nm host size|p c nm kids IH] using ntree_ind'; intros fuel s par Hh Hroot Hr Hnd Hz Hok Ht;
    (destruct fuel as [|fuel]; [cbn in Hh; lia|]); cbn [fat32_prepare_tree].
  all: wp_steps; eapply on_get_node_wp; [by apply (rep_addr _ _ _ Hr)|]; wp_steps.
  all: rewrite (proj2 (Z.eqb_neq (addr _) root)) by (intros <-; apply Hroot, addr_in_addrs).
  all: unfold zeroed in Hz; cbn [clusters] in Hz; apply Forall_cons in Hz as [<- Hz]; cbn [node_of nd_first_cluster Z.eqb].
  - cbn [addrs length Z.of_nat] in *.
    apply (prepare_node_wp s par (NFile p 0 nm host size)); [done..| lia |]. intros s' Hp Hnew.
    cbn [is_dir nd_body]. wp_steps. exists (NFile p (cx_next s) nm host size).
    split; [by split|]. do 3 (split; [done|]). split; [|done].
    cbn. by rewrite (seqZ_cons _ 1), seqZ_nil by lia.
  - cbn [addrs] in *. rewrite length_cons in Ht. apply NoDup_cons in Hnd as [Hnp Hnd]. pose proof Hr as [_ Hk]%rep_dir.
    apply (prepare_node_wp s par (NDir p 0 nm kids)); [done..| lia |]. intros s1 Hp1 Hnew1. cbn [addr reassign node_of] in *.
    cbn [is_dir nd_body]. wp_steps. apply wp_zoom. eapply wp_get_children; [done..|].
    replace (with_heap (cx_heap s1) s1) with s1 by (by destruct s1). wp_steps.
    eapply wp_mono; [apply (prepare_kids_wp (fat32_prepare_tree vbr root fuel) p kids); [done| | | apply Hp1 |]|].
    + intros x s2 Hx Hrx Hok2 Ht2. rewrite Forall_forall in IH. apply (IH x Hx fuel s2 p); [| | done | | | done | done].
      * pose proof (height_child x kids Hx). cbn in Hh. lia.
      * intros Hx'. apply Hroot. right. apply list_elem_of_bind. eauto.
      * apply list_elem_of_split in Hx as (l1 & l2 & ->).
        rewrite bind_middle in Hnd. by apply NoDup_app in Hnd as (_ & _ & [Hnd _]%NoDup_app).
      * apply list_elem_of_split in Hx as (l1 & l2 & ->). rewrite bind_middle in Hz. by apply Forall_app in Hz as [_ [Hz _]%Forall_app].
    + apply (reps_agree (hp_nodes (cx_heap s))); [done|]. intros q Hq. apply (pr_nodes _ _ _ Hp1). set_solver.
    + rewrite (pr_next _ _ _ Hp1). cbn [length Z.of_nat]. lia.
    + cbn beta. intros _ s2 (kids' & Hk2 & He2 & Ha2 & Hd2 & Hc2 & Hp2). wp_steps.
      exists (NDir p (cx_next s) nm kids'). split.
      { apply rep_dir. split; [|done]. rewrite (pr_nodes _ _ _ Hp2), Hnew1, Hd2 by done. done. }
      split; [cbn; by rewrite He2|]. split; [cbn; by rewrite Ha2|]. split; [done|]. split.
      * cbn [clusters]. rewrite Hc2, (pr_next _ _ _ Hp1). cbn [addrs length].
        rewrite (seqZ_cons (cx_next s)) by lia. do 2 f_equal; lia.
      * apply (prepared_trans [p] (kids ≫= addrs) s s1 s2); [destruct Hok as (_ & ? & _); lia | done | done].
Qed.
End Prepare.

(** ** The root *)

Section Root.
Context (vbr : fat32_vbr) (part : Z) (Hg : geometry vbr part) (oom : nat -> bool) (Hmem : forall n, oom n = false).
#[local] Abbreviation total := (total_entries vbr).

Lemma table_init_wp s :
  wp (fat32_table_init oom vbr) (fun r s' => r = 1 /\ hp_nodes (cx_heap s') = hp_nodes (cx_heap s) /\
    (hp_allocs (cx_heap s) <= hp_allocs (cx_heap s'))%nat /\ cx_image s' = cx_image s /\
    cx_next s' = root_cluster vbr + 1 /\ fat_ok vbr s' /\ fat_at (cx_fat s') (root_cluster vbr) = FAT_EOF) s.
Proof.
  pose proof (g_root _ _ Hg) as Hr. pose proof (g_entries _ _ Hg) as He.
  unfold fat32_table_init. wp_steps. apply (request_wp oom Hmem). cbn [negb]. wp_steps. set (s1 := mk_ctx _ _ _ _).
  assert (Z.of_nat (length (cx_fat s1)) = total) as Hl by (cbn; rewrite length_replicate; lia).
  apply fat_set_wp; [lia|]. intros f2 [L2 H2] _. wp_steps. apply fat_set_wp; [cbn; lia|]. intros f3 [L3 H3] _. wp_steps.
  apply fat_set_wp; [cbn in *; lia|]. intros f4 [L4 H4] Hv4. unfold set_next_free. wp_steps.
  rewrite u32_id by (unfold is_u32; lia). cbn [s1 with_heap cx_heap cx_image cx_fat cx_next hp_nodes hp_allocs] in *.
  split; [done|]. split; [done|]. split; [lia|]. split; [done|]. split; [done|]. split; [|done].
  split; [cbn; lia|]. split; [cbn; lia|]. cbn. intros i Hi.
  rewrite H4, H3, H2 by (lia || (rewrite list_elem_of_singleton; lia)). unfold fat_at, FAT_FREE.
  apply list_lookup_total_correct, lookup_replicate_2. lia.
Qed.

Lemma prepare_root_wp fuel s root kids : (height (NDir root 0 [] kids) <= fuel)%nat ->
  rep (hp_nodes (cx_heap s)) 0 (NDir root 0 [] kids) -> NoDup (addrs (NDir root 0 [] kids)) -> zeroed (NDir root 0 [] kids) ->
  fat_ok vbr s -> cx_next s + Z.of_nat (length (kids ≫= addrs)) <= total ->
  wp (fat32_prepare_tree vbr root fuel root) (fun _ s' => exists kids',
    let t' := NDir root (root_cluster vbr) [] kids' in
    rep (hp_nodes (cx_heap s')) 0 t' /\ erase <$> kids' = erase <$> kids /\ addrs t' = addrs (NDir root 0 [] kids) /\
    kids' ≫= clusters = seqZ (cx_next s) (Z.of_nat (length (kids ≫= addrs))) /\
    hp_allocs (cx_heap s') = hp_allocs (cx_heap s) /\ cx_image s' = cx_image s /\ fat_ok vbr s' /\
    cx_next s' = cx_next s + Z.of_nat (length (kids ≫= addrs)) /\
    fat_frame (kids' ≫= clusters) (cx_fat s) (cx_fat s') /\
    Forall (fun c => fat_at (cx_fat s') c = FAT_EOF) (kids' ≫= clusters) /\
    (forall q, q ∉ addrs t' -> hp_nodes (cx_heap s') !! q = hp_nodes (cx_heap s) !! q)) s.
Proof.
  clear oom Hmem. intros Hh Hr Hnd Hz Hok Ht. destruct fuel as [|fuel]; [cbn in Hh; lia|]. pose proof Hr as [Hp Hk]%rep_dir.
  cbn [addrs] in Hnd. apply NoDup_cons in Hnd as [Hnp Hnd]. unfold zeroed in Hz. cbn [clusters] in Hz.
  apply Forall_cons in Hz as [_ Hz].
  cbn [fat32_prepare_tree]. wp_steps. eapply on_get_node_wp; [done|]. rewrite Z.eqb_refl. wp_steps.
  apply wp_zoom. eapply wp_set_node; [done|]. cbn [is_dir nd_body]. wp_steps. apply wp_zoom.
  eapply wp_get_children; [apply lookup_insert_eq | done |]. set (s1 := with_heap _ (with_heap _ _)). wp_steps.
  assert (fat_ok vbr s1) as Hok1 by exact Hok.
  eapply wp_mono; [apply (prepare_kids_wp vbr part Hg (fat32_prepare_tree vbr root fuel) root kids); [done| | | done | done]|].
  - intros x s2 Hx Hrx Hok2 Ht2. apply (prepare_tree_wp vbr part Hg root x fuel s2 root); [| | done | | | done | done].
    + pose proof (height_child x kids Hx). cbn in Hh. lia.
    + intros Hx'. apply Hnp, list_elem_of_bind. eauto.
    + apply list_elem_of_split in Hx as (l1 & l2 & ->).
      rewrite bind_middle in Hnd. by apply NoDup_app in Hnd as (_ & _ & [Hnd _]%NoDup_app).
    + apply list_elem_of_split in Hx as (l1 & l2 & ->). rewrite bind_middle in Hz. by apply Forall_app in Hz as [_ [Hz _]%Forall_app].
  - apply (reps_agree (hp_nodes (cx_heap s))); [done|]. intros q Hq. cbn. rewrite lookup_insert_ne; [done | set_solver].
  - cbn beta. intros _ s2 (kids' & Hk2 & He2 & Ha2 & Hd2 & Hc2 & []). wp_steps. exists kids'. rewrite Hc2.
    split.
    { apply rep_dir. split; [|done]. rewrite pr_nodes0 by done. cbn. by rewrite lookup_insert_eq, Hd2. }
    split; [done|]. split; [cbn; by rewrite Ha2|]. do 6 (split; [done|]). split; [done|].
    cbn [addrs]. rewrite Ha2. intros q Hq. rewrite pr_nodes0 by set_solver. cbn. apply lookup_insert_ne. set_solver.
Qed.

(** ** Writing the allocation table *)

Lemma le32_byte v j : (j < 4)%nat -> le32 v !! j = Some (v / 256 ^ Z.of_nat j mod 256).
Proof.
  intros Hj. destruct j as [|[|[|[|j]]]]; cbn -[Z.div Z.modulo]; try lia; do 2 f_equal.
  by rewrite Z.div_1_r.
Qed.

Lemma fat_byte fat i j : 0 <= i < Z.of_nat (length fat) -> 0 <= j < 4 ->
  byte_at (fat ≫= le32) (4 * i + j) = fat_at fat i / 256 ^ j mod 256.
Proof.
  intros Hi Hj. assert (exists n, i = Z.of_nat n) as [n ->] by (exists (Z.to_nat i); lia).
  unfold fat_at, byte_at. rewrite Nat2Z.id. revert n Hi. induction fat as [|v fat IH]; intros n Hi; [cbn in Hi; lia|].
  rewrite bind_cons. destruct n as [|n].
  - rewrite lookup_app_l by (cbn; lia). rewrite le32_byte by lia.
    by replace (Z.of_nat (Z.to_nat (4 * Z.of_nat 0 + j))) with j by lia.
  - rewrite lookup_app_r by (cbn; lia). cbn [length le32] in *.
    replace (Z.to_nat (4 * Z.of_nat (S n) + j) - 4)%nat with (Z.to_nat (4 * Z.of_nat n + j)) by lia.
    apply IH. lia.
Qed.

(** The words of the table, in its copy number [k]. *)
Definition fat_written (img fat : list Z) (k : Z) : Prop :=
  forall i, 0 <= i < total -> word32_at img (first_fat vbr part + k * fat_bytes vbr + 4 * i) = u32 (fat_at fat i).

Lemma word32_le32 v : v mod 256 + 256 * (v / 256 mod 256) + 65536 * (v / 65536 mod 256 + 256 * (v / 16777216 mod 256)) = u32 v.
Proof. unfold u32. dlia. Qed.

Lemma table_flush_wp s : Z.of_nat (length (cx_fat s)) = total ->
  wp (fat32_table_flush vbr part) (fun _ s' => cx_heap s' = cx_heap s /\
    (forall k, 0 <= k < fat_count vbr -> fat_written (cx_image s') (cx_fat s) k) /\
    (forall i, 0 <= i < first_fat vbr part -> byte_at (cx_image s') i = byte_at (cx_image s) i) /\
    (forall i, fat32_data_offset vbr part <= i -> byte_at (cx_image s') i = byte_at (cx_image s) i)) s.
Proof.
  clear oom Hmem. intros Hlen. pose proof (data_eq vbr part Hg) as Hdata. pose proof (data_range vbr part Hg) as Hdr.
  pose proof (total_bytes vbr part Hg) as Htb. pose proof (first_fat_low vbr part Hg) as Hff.
  pose proof (g_fat _ _ Hg) as Hfb. pose proof (g_fats _ _ Hg) as Hfc. pose proof (g_part _ _ Hg) as Hpt. pose proof (g_bps _ _ Hg) as Hbp.
  fold (fat_bytes vbr) in Hfb.
  assert (length (cx_fat s ≫= le32) = Z.to_nat (fat_bytes vbr)) as Hbl.
  { rewrite <- Htb, <- Hlen. clear. induction (cx_fat s) as [|v l IH]; [done|]. rewrite bind_cons, length_app, IH. cbn. lia. }
  unfold fat32_table_flush. fold (fat_bytes vbr) (first_fat vbr part).
  apply (wp_for_each (fun n s' => cx_heap s' = cx_heap s /\ cx_fat s' = cx_fat s /\
    (forall k, 0 <= k < n -> fat_written (cx_image s') (cx_fat s) k) /\
    (forall i, 0 <= i < first_fat vbr part \/ fat32_data_offset vbr part <= i -> byte_at (cx_image s') i = byte_at (cx_image s) i))).
  - do 2 (split; [done|]). split; [intros; lia | done].
  - intros n s1 Hn (Hh & Hf & Hw & Hb). wp_steps. rewrite Hf, (proj2 (Z.ltb_ge _ _)) by lia.
    rewrite take_ge by lia. unfold fwrite_at. wp_steps. cbn [cx_heap cx_fat cx_image].
    assert (n * fat_bytes vbr + fat_bytes vbr <= fat_count vbr * fat_bytes vbr) as Hbound by nia.
    assert (0 <= n * fat_bytes vbr) as Hnn by nia. rewrite u64_id by (unfold is_u64; lia).
    set (off := first_fat vbr part + n * fat_bytes vbr).
    assert (forall i, 0 <= i -> byte_at (overwrite off (cx_fat s ≫= le32) (cx_image s1)) i =
      if (off <=? i) && (i <? off + fat_bytes vbr) then byte_at (cx_fat s ≫= le32) (i - off) else byte_at (cx_image s1) i) as Hsp.
    { intros i Hi. rewrite byte_at_overwrite by lia. rewrite Hbl. by rewrite Z2Nat.id by lia. }
    split; [done|]. split; [done|]. split.
    + intros k Hk i Hi. unfold word32_at, word16_at. destruct (decide (k = n)) as [->|Hne].
      * fold off. assert (forall j, 0 <= j < 4 -> byte_at (overwrite off (cx_fat s ≫= le32) (cx_image s1)) (off + 4 * i + j) =
          fat_at (cx_fat s) i / 256 ^ j mod 256) as Hj.
        { intros j Hj. rewrite Hsp by lia. rewrite (proj2 (Z.leb_le _ _)), (proj2 (Z.ltb_lt _ _)) by lia. cbn [andb].
          replace (off + 4 * i + j - off) with (4 * i + j) by lia. apply fat_byte; lia. }
        pose proof (Hj 0 ltac:(lia)) as H0. rewrite Z.add_0_r, Z.pow_0_r, Z.div_1_r in H0.
        replace (off + 4 * i + 2 + 1) with (off + 4 * i + 3) by lia. rewrite H0, !Hj by lia. apply word32_le32.
      * specialize (Hw k ltac:(lia) i Hi). unfold word32_at, word16_at in Hw. rewrite <- Hw.
        set (o := first_fat vbr part + k * fat_bytes vbr).
        assert (0 <= o /\ o + fat_bytes vbr <= off) as [Ho1 Ho2].
        { assert ((k + 1) * fat_bytes vbr <= n * fat_bytes vbr) by (apply Z.mul_le_mono_nonneg_r; lia).
          assert (0 <= k * fat_bytes vbr) by (apply Z.mul_nonneg_nonneg; lia). unfold o, off. lia. }
        assert (forall j, 0 <= j < o + fat_bytes vbr ->
          byte_at (overwrite off (cx_fat s ≫= le32) (cx_image s1)) j = byte_at (cx_image s1) j) as Hlow.
        { intros j Hj. rewrite Hsp by lia. by rewrite (proj2 (Z.leb_gt off j)) by lia. }
        clearbody o off. clear - Hlow Ho1 Htb Hi. rewrite !Hlow by lia. done.
    + intros i Hi. rewrite Hsp by lia. rewrite <- Hb by done.
      destruct (Z.leb_spec off i), (Z.ltb_spec i (off + fat_bytes vbr)); cbn [andb]; done || lia.
  - intros s1 (Hh & Hf & Hw & Hb). split; [done|]. split; [|split; auto].
    intros k Hk. apply Hw. lia.
Qed.
End Root.
