(* ===== verification/Fat32Read.v ===== *)
(** * Reading the image back

    [read_image] reads an image the way the FAT32 specification describes it: the
    partition table, the boot sector, the allocation table and the directories.  The
    theorem on [tools/mkimage/main.c] says that it finds the tree of the list of
    files, with the contents of the host's files. *)

From S2P Require Import Prelude Base Buffer Iwbf Tree TreeProps Fat32 Fat32Props Fat32Layout.

#[local] Set Warnings "-register-all".

(** ** A reader *)

(** Names are the 11 bytes of a directory entry. *)
Inductive fs_tree :=
  | FsFile (name content : list Z)
  | FsDir (name : list Z) (kids : list fs_tree).

Section Reader.
Context (img : list Z).

(** Sectors of the disk have 512 bytes; the partition is the first of the table. *)
Definition r_part : Z := lba_start img * 512.
Definition r_vbr : fat32_vbr := vbr_of (slice img r_part 512).
Definition r_cluster_size : Z := bytes_per_sector r_vbr * sectors_per_cluster r_vbr.
Definition r_first_fat : Z := r_part + reserved_sectors r_vbr * bytes_per_sector r_vbr.
Definition r_first_data : Z :=
  r_part + (reserved_sectors r_vbr + fat_count r_vbr * fat_size_32 r_vbr) * bytes_per_sector r_vbr.
Definition r_count : nat := Z.to_nat (fat_size_32 r_vbr * bytes_per_sector r_vbr / 4).

Definition r_fat (c : Z) : Z := Z.land (word32_at img (r_first_fat + 4 * c)) 268435455.
Definition r_cluster (c : Z) : list Z := slice img (r_first_data + (c - 2) * r_cluster_size) r_cluster_size.

(** The clusters of a chain; [0x0FFFFFF8] and above mark its end. *)
Fixpoint r_chain (fuel : nat) (c : Z) : list Z :=
  match fuel with
  | O => []
  | S fuel' => if (c <? 2) || (268435448 <=? c) then [] else c :: r_chain fuel' (r_fat c)
  end.
Definition r_data (c : Z) : list Z := r_chain r_count c ≫= r_cluster.

(** The entries of a directory, up to the first that starts with a zero. *)
Fixpoint r_entries (fuel : nat) (bytes : list Z) : list (list Z) :=
  match fuel with
  | O => []
  | S fuel' => if byte_at bytes 0 =? 0 then [] else take 32 bytes :: r_entries fuel' (drop 32 bytes)
  end.

Fixpoint r_tree (fuel : nat) (c : Z) : list fs_tree :=
  match fuel with
  | O => []
  | S fuel' =>
      let bytes := r_data c in
      r_entries (length bytes) bytes ≫= fun e =>
        let name := take 11 e in
        let first := word16_at e 26 + 65536 * word16_at e 20 in
        if byte_at e 0 =? 46 then []
        else if Z.land (byte_at e 11) 16 =? 0 then [FsFile name (take (Z.to_nat (word32_at e 28)) (r_data first))]
        else [FsDir name (r_tree fuel' first)]
  end.

Definition read_image : list fs_tree := r_tree r_count (root_cluster r_vbr).
End Reader.

(** What a tree looks like on a disk. *)
Fixpoint on_disk (fopen : list Z -> option (list Z)) (t : tree) : fs_tree :=
  match t with
  | File nm host _ => FsFile (short nm) (default [] (fopen host))
  | Dir nm kids => FsDir (short nm) (on_disk fopen <$> kids)
  end.

(** ** Names *)

Lemma split_dot_base s base ext : split_dot s = Some (base, ext) -> (46 ∉ base) /\ base ++ 46 :: ext = s.
Proof.
  revert base ext. induction s as [|x s IH]; intros base ext; cbn; [done|].
  destruct (Z.eqb_spec x 46) as [->|Hx]; [intros [= <- <-]; split; [apply not_elem_of_nil | done]|].
  destruct (split_dot s) as [[a b]|]; [|done]. intros [= <- <-]. destruct (IH a b eq_refl) as [H1 H2].
  split; [set_solver | cbn; by rewrite H2].
Qed.
Lemma split_dot_none s : split_dot s = None -> 46 ∉ s.
Proof.
  induction s as [|x s IH]; cbn; [intros _; apply not_elem_of_nil|].
  destruct (Z.eqb_spec x 46); [done|]. destruct (split_dot s) as [[]|]; [done|]. set_solver.
Qed.

(** The first byte of a padded name. *)
Definition good_first (tmp : list Z) : Prop := exists x l, tmp = x :: l /\ 0 < x /\ x <> 46.

Lemma put_0_first s r : put 0 s (replicate (Z.to_nat FAT_NAME_LEN) 32) = Some r -> (46 ∉ s) -> Forall (fun x => 0 < x) s ->
  good_first r.
Proof.
  unfold put. destruct (_ <? _)%nat; [done|]. intros [= <-] Hs Hp. destruct s as [|x s]; cbn.
  - by exists 32, (replicate 10 32).
  - apply Forall_cons in Hp as [Hx _]. eexists x, _. split; [done|]. split; [done|]. set_solver.
Qed.
Lemma put_8_first s t r : put 8 s t = Some r -> good_first t -> good_first r.
Proof.
  unfold put. destruct (_ <? _)%nat; [done|]. intros [= <-] (x & l & -> & Hx).
  eexists x, _. by split.
Qed.

Lemma short_first nm : name_ok nm -> good_first (short nm) /\ length (short nm) = 11%nat.
Proof.
  intros [[r Hr] Hp]. pose proof (short_name_length _ _ Hr) as Hlen. unfold short. rewrite Hr. cbn [default]. split; [|done].
  assert (forall tmp r, good_first tmp -> (if forallb (fun c => c <? 128) tmp then Some (toupper <$> tmp) else None) = Some r ->
    good_first r) as Hup.
  { intros tmp r' (x & l & -> & Hx & Hd). destruct (forallb _ _); [|done]. intros [= <-]. cbn.
    eexists _, _. split; [done|]. unfold toupper. destruct (Z.leb_spec 97 x), (Z.leb_spec x 122); cbn; lia. }
  revert Hr. unfold short_name. destruct (_ <=? _)%nat; [done|].
  destruct (split_dot nm) as [[base ext]|] eqn:Es; cbn [mbind option_bind].
  - apply split_dot_base in Es as [Hb <-]. apply Forall_app in Hp as [Hpb _].
    destruct (put 0 base _) as [t1|] eqn:E1; [|done]. cbn. destruct (put 8 ext t1) as [t2|] eqn:E2; [|done]. cbn.
    apply Hup. eapply put_8_first; [done|]. by eapply put_0_first.
  - destruct (put 0 nm _) as [t1|] eqn:E1; [|done]. cbn. apply Hup. eapply put_0_first; [done| |done].
    by apply split_dot_none.
Qed.

(** ** Entries *)

Definition entry_range (e : fat_dir_entry) : Prop :=
  entry_ok e /\ good_first (de_name e) \/ de_name e = DOT \/ de_name e = DOTDOT.

Lemma byte_at_cons_app l1 l2 i : byte_at (l1 ++ l2) (Z.of_nat (length l1) + Z.of_nat i) = byte_at l2 (Z.of_nat i).
Proof. unfold byte_at. rewrite lookup_app_r by lia. do 2 f_equal. lia. Qed.

(** The members of an entry, read from its bytes. *)
Lemma entry_read e tl : entry_ok e -> is_u16 (de_fst_clus_hi e) -> is_u16 (de_fst_clus_lo e) -> is_u32 (de_file_size e) ->
  let b := entry_bytes e ++ tl in
  take 11 b = de_name e /\ byte_at b 11 = de_attr e /\ word16_at b 20 = de_fst_clus_hi e /\
  word16_at b 26 = de_fst_clus_lo e /\ word32_at b 28 = de_file_size e.
Proof.
  intros He Hh Hl Hs. cbn zeta. unfold entry_bytes. destruct e as [nm attr hi lo sz]. cbn [de_name de_attr de_fst_clus_hi de_fst_clus_lo de_file_size] in *.
  unfold entry_ok in He. cbn in He. do 11 (destruct nm as [|? nm]; [done|]). destruct nm; [|done].
  cbn [app take byte_at]. split; [done|].
  split; [done|]. unfold word32_at, word16_at, byte_at, le16, le32.
  repeat match goal with |- context [Z.to_nat ?n] => let v := eval vm_compute in (Z.to_nat n) in change (Z.to_nat n) with v end.
  cbn [app lookup list_lookup default from_option id].
  unfold is_u16, is_u32 in *. split; [dlia|]. split; [dlia|]. rewrite word32_le32. by apply u32_id.
Qed.

Lemma cluster_halves c : 0 <= c < 4294967296 ->
  Z.land c 65535 + 65536 * u16 (Z.shiftr c 16) = c /\ is_u16 (u16 (Z.shiftr c 16)) /\ is_u16 (Z.land c 65535).
Proof.
  intros Hc. change 65535 with (Z.ones 16). rewrite Z.land_ones, Z.shiftr_div_pow2 by lia. unfold u16, is_u16. dlia.
Qed.

(** Entries whose first byte is not zero are found one after the other. *)
Lemma r_entries_read es z fuel : Forall entry_ok es -> Forall (fun e => byte_at (de_name e) 0 <> 0) es ->
  (length es < fuel)%nat \/ (z = O /\ length es <= fuel)%nat ->
  r_entries fuel ((es ≫= entry_bytes) ++ replicate z 0) = entry_bytes <$> es.
Proof.
  intros Hes Hn. revert fuel. induction Hes as [|e es He Hes IH]; intros fuel Hf; cbn [mbind list_bind].
  - destruct fuel as [|fuel]; [done|]. cbn [r_entries app]. destruct z; done.
  - apply Forall_cons in Hn as [Hne Hn]. destruct fuel as [|fuel]; [cbn in Hf; lia|].
    pose proof (entry_bytes_length e He) as Hl. cbn [r_entries fmap list_fmap].
    change (es ≫= entry_bytes) with (mbind entry_bytes es). rewrite <- app_assoc.
    assert (byte_at (entry_bytes e ++ (es ≫= entry_bytes) ++ replicate z 0) 0 = byte_at (de_name e) 0) as ->.
    { unfold byte_at, entry_bytes. rewrite <- app_assoc, lookup_app_l; [done|]. unfold entry_ok in He. cbn. lia. }
    rewrite (proj2 (Z.eqb_neq _ _)) by done. rewrite take_app_length', drop_app_length' by done.
    f_equal. apply IH; [done|]. cbn [length] in Hf. lia.
Qed.

(** ** Chains *)

Section ReadVolume.
Context (vbr : fat32_vbr) (part : Z) (Hg : geometry vbr part) (img fat : list Z).
Context (Hpart : r_part img = part) (Hvbr : r_vbr img = vbr) (Hfat : fat_written vbr part img fat 0).
#[local] Abbreviation total := (total_entries vbr).
#[local] Abbreviation cs := (fat32_cluster_size vbr).

Lemma r_cluster_eq c : r_cluster img c = cluster_data vbr part img c.
Proof.
  unfold r_cluster, cluster_data, cluster_off, r_first_data, r_cluster_size. rewrite Hpart, Hvbr, <- (cs_eq vbr part Hg).
  rewrite (data_eq vbr part Hg). unfold first_fat, fat_bytes. f_equal. lia.
Qed.

Lemma r_count_eq : Z.of_nat (r_count img) = total.
Proof.
  unfold r_count, total_entries. rewrite Hvbr. pose proof (g_fat _ _ Hg). rewrite u32_id by (unfold is_u32; lia).
  rewrite Z2Nat.id; [done|]. apply Z.div_pos; lia.
Qed.

Lemma r_fat_eq c : 0 <= c < total -> 0 <= fat_at fat c < 268435456 -> r_fat img c = fat_at fat c.
Proof.
  intros Hc Hv. unfold r_fat, r_first_fat. rewrite Hpart, Hvbr. specialize (Hfat c Hc).
  rewrite Z.mul_0_l, Z.add_0_r in Hfat. unfold first_fat in Hfat. rewrite Hfat.
  rewrite u32_id by (unfold is_u32; lia). change 268435455 with (Z.ones 28). rewrite Z.land_ones by lia. apply Z.mod_small. lia.
Qed.

Lemma r_chain_end fuel : r_chain img fuel FAT_EOF = [].
Proof. by destruct fuel. Qed.

Lemma chain_read l : forall c content fuel, chain_ok vbr part fat img (c :: l) content ->
  Forall (fun c => 2 <= c < total) (c :: l) -> (S (length l) <= fuel)%nat -> r_chain img fuel c = c :: l.
Proof.
  pose proof (g_entries _ _ Hg) as He.
  induction l as [|d l IH]; intros c content fuel Hch Hr Hf; (destruct fuel as [|fuel]; [cbn in Hf; lia|]);
    apply Forall_cons in Hr as [Hc Hr]; destruct Hch as (H1 & _ & H2); cbn [r_chain];
    rewrite (proj2 (Z.ltb_ge c 2)), (proj2 (Z.leb_gt 268435448 c)) by lia; cbn [orb]; f_equal.
  - rewrite r_fat_eq, H1 by (rewrite ?H1; unfold FAT_EOF; lia). apply r_chain_end.
  - pose proof Hr as [Hd _]%Forall_cons. rewrite r_fat_eq, H1 by (rewrite ?H1; lia).
    apply (IH d (drop (Z.to_nat cs) content)); [done | done | cbn in Hf; lia].
Qed.

Lemma chain_data l : forall content, chain_ok vbr part fat img l content ->
  Z.of_nat (length l - 1) * cs <= Z.of_nat (length content) <= Z.of_nat (length l) * cs ->
  take (length content) (l ≫= r_cluster img) = content.
Proof.
  pose proof (cs_pos vbr part Hg) as Hcs.
  induction l as [|c l IH]; intros content; [done|]. cbn [chain_ok]. intros (_ & H1 & H2) Hlen. rewrite bind_cons.
  rewrite r_cluster_eq, H1. unfold read_buffer. destruct l as [|d l].
  - cbn in Hlen. rewrite take_ge with (l := content) by lia. cbn [mbind list_bind]. rewrite app_nil_r.
    by rewrite take_app_length.
  - cbn [length] in Hlen. rewrite length_take, Nat.min_l by nia. rewrite Nat.sub_diag. cbn [replicate]. rewrite app_nil_r.
    assert (length content = length (take (Z.to_nat cs) content) + length (drop (Z.to_nat cs) content))%nat as ->.
    { by rewrite <- length_app, take_drop. }
    rewrite take_app_add, (IH (drop (Z.to_nat cs) content)); [by rewrite take_drop | done |].
    rewrite length_drop. cbn [length]. nia.
Qed.

(** A stored file is read back. *)
Lemma file_read n c content : file_stored vbr part fat img n c content ->
  2 <= c < total -> 2 <= n -> n + extra vbr (Z.of_nat (length content)) <= total ->
  take (length content) (r_data img c) = content.
Proof.
  intros Hs Hc Hn Ht. pose proof r_count_eq as Hrc. destruct content as [|x content']; [done|].
  set (content := x :: content') in *. cbn [file_stored] in Hs. fold content in Hs.
  pose proof (extra_nonneg vbr (Z.of_nat (length content))) as He0.
  pose proof (extra_bound vbr part Hg (Z.of_nat (length content)) ltac:(cbn; lia)) as Heb.
  assert (Forall (fun c => 2 <= c < total) (c :: seqZ n (extra vbr (Z.of_nat (length content))))) as Hr.
  { constructor; [done|]. apply Forall_forall. intros d Hd%elem_of_seqZ. lia. }
  unfold r_data. rewrite (chain_read _ c content (r_count img) Hs Hr).
  - apply chain_data; [done|]. cbn [length]. rewrite length_seqZ. rewrite Nat.sub_1_r. cbn [Nat.pred].
    rewrite Nat2Z.inj_succ, Z2Nat.id by lia. lia.
  - rewrite length_seqZ. lia.
Qed.

(** A stored directory is read back. *)
Lemma dir_read c es : fat_at fat c = FAT_EOF -> 2 <= c < total -> cluster_data vbr part img c = dir_bytes vbr es ->
  Forall entry_ok es -> Forall (fun e => byte_at (de_name e) 0 <> 0) es -> Z.of_nat (32 * length es) <= cs ->
  r_entries (length (r_data img c)) (r_data img c) = entry_bytes <$> es.
Proof.
  intros He Hc Hd Hes Hn Hfit. pose proof r_count_eq as Hrc. pose proof (g_entries _ _ Hg) as Hent.
  assert (r_data img c = dir_bytes vbr es) as ->.
  { unfold r_data. destruct (r_count img) as [|n]; [cbn in Hrc; lia|]. cbn [r_chain].
    rewrite (proj2 (Z.ltb_ge c 2)), (proj2 (Z.leb_gt 268435448 c)) by lia. cbn [orb].
    rewrite r_fat_eq, He, r_chain_end by (rewrite ?He; unfold FAT_EOF; lia).
    cbn [mbind list_bind]. by rewrite app_nil_r, r_cluster_eq. }
  unfold dir_bytes. apply r_entries_read; [done..|]. rewrite length_app, length_replicate, entries_length by done. lia.
Qed.

(** ** Trees *)

Context (fopen : list Z -> option (list Z)) (root : Z).

(** What the reader makes of one entry. *)
Definition r_node (fuel : nat) (e : list Z) : list fs_tree :=
  let name := take 11 e in
  let first := word16_at e 26 + 65536 * word16_at e 20 in
  if byte_at e 0 =? 46 then []
  else if Z.land (byte_at e 11) 16 =? 0 then [FsFile name (take (Z.to_nat (word32_at e 28)) (r_data img first))]
  else [FsDir name (r_tree img fuel first)].

Lemma r_tree_S fuel c : r_tree img (S fuel) c = r_entries (length (r_data img c)) (r_data img c) ≫= r_node fuel.
Proof. done. Qed.

Lemma entry_of_first t : name_ok (ntree_name t) -> entry_ok (entry_of t) /\ good_first (de_name (entry_of t)).
Proof. intros H%short_first. unfold entry_ok. destruct t; cbn in *; tauto. Qed.

Lemma storable_name_ok t : storable vbr fopen (erase t) -> name_ok (ntree_name t).
Proof. by destruct t; intros [H _]. Qed.

Lemma entry_bytes_first e tl : entry_ok e -> byte_at (entry_bytes e ++ tl) 0 = byte_at (de_name e) 0.
Proof.
  intros He. unfold byte_at, entry_bytes. rewrite <- app_assoc, lookup_app_l; [done|]. unfold entry_ok in He. cbn. lia.
Qed.

Lemma node_read fuel n pc x : stored vbr part fopen root fat img n pc x -> storable vbr fopen (erase x) ->
  2 <= cluster x < total -> 2 <= n -> n + xtra vbr x <= total ->
  match x with NDir _ c _ kids => r_tree img fuel c = on_disk fopen <$> (erase <$> kids) | _ => True end ->
  r_node fuel (entry_bytes (entry_of x)) = [on_disk fopen (erase x)].
Proof.
  intros Hst Hs Hc Hn Ht Hd. pose proof (g_entries _ _ Hg) as Hent.
  destruct (entry_of_first x (storable_name_ok x Hs)) as [Hok (b & l & Hb & Hb0 & Hb46)].
  destruct (cluster_halves (cluster x) ltac:(lia)) as (Hsum & Hhi & Hlo).
  assert (is_u32 (de_file_size (entry_of x))) as Hsz.
  { destruct x; cbn; [|unfold is_u32; lia]. destruct Hs as [_ (content & _ & -> & Hlt)]. unfold is_u32. lia. }
  assert (is_u16 (de_fst_clus_hi (entry_of x)) /\ is_u16 (de_fst_clus_lo (entry_of x))) as [Hhi' Hlo'] by (by destruct x).
  destruct (entry_read (entry_of x) [] Hok Hhi' Hlo' Hsz) as (E1 & E2 & E3 & E4 & E5). rewrite app_nil_r in *.
  unfold r_node. rewrite E1, E2, E3, E4, E5.
  assert (byte_at (entry_bytes (entry_of x)) 0 = b) as ->.
  { rewrite <- (app_nil_r (entry_bytes _)), entry_bytes_first, Hb by done. done. }
  rewrite (proj2 (Z.eqb_neq b 46)) by done.
  destruct x as [p c nm host size|p c nm kids]; cbn [entry_of de_name de_attr de_fst_clus_lo de_fst_clus_hi de_file_size cluster erase on_disk] in *;
    rewrite Hsum; cbn [ATTR_ARCHIVE ATTR_DIRECTORY Z.land Z.eqb].
  - cbn [stored] in Hst. destruct Hst as [Hlen Hst]. change (Z.land ATTR_ARCHIVE 16 =? 0) with true. cbn iota.
    rewrite Hlen, Nat2Z.id. cbn [xtra] in Ht. rewrite Hlen in Ht. by erewrite file_read.
  - change (Z.land ATTR_DIRECTORY 16 =? 0) with false. cbn iota. by rewrite Hd.
Qed.

Definition subtree_read (fuel : nat) (x : ntree) : Prop :=
  match x with NDir _ c _ kids => r_tree img fuel c = on_disk fopen <$> (erase <$> kids) | _ => True end.

Lemma kids_read fuel c kids : Forall (storable vbr fopen) (erase <$> kids) ->
  Forall (fun c => 2 <= c < total) (kids ≫= clusters) ->
  (forall x n pc, x ∈ kids -> stored vbr part fopen root fat img n pc x -> 2 <= n -> n + xtra vbr x <= total -> subtree_read fuel x) ->
  forall n, stored_kids vbr part fopen root fat img n c kids -> 2 <= n -> n + xtras vbr kids <= total ->
  (entry_bytes <$> (entry_of <$> kids)) ≫= r_node fuel = on_disk fopen <$> (erase <$> kids).
Proof.
  induction kids as [|x kids IH]; intros Hs Hr Hsub n Hst Hn Ht; [done|].
  cbn [fmap list_fmap] in Hs |- *. apply Forall_cons in Hs as [Hsx Hs]. rewrite bind_cons in Hr. apply Forall_app in Hr as [Hrx Hr].
  destruct Hst as [Hst1 Hst2]. cbn [xtras foldr] in Ht. fold (xtras vbr kids) in Ht.
  pose proof (xtra_nonneg vbr x) as H0. pose proof (xtras_nonneg vbr kids) as H1. rewrite bind_cons.
  rewrite (node_read fuel n c x Hst1 Hsx); [| | done | lia |].
  - cbn [app]. f_equal. apply (IH Hs Hr) with (n := n + xtra vbr x); [|done|lia|lia].
    intros y m pc Hy. apply Hsub. by constructor.
  - destruct x; cbn [clusters cluster] in *; by apply Forall_cons in Hrx as [? _].
  - apply (Hsub x n c); [constructor | done | done | lia].
Qed.

Lemma dir_tree_read fuel n pc p c nm kids : stored vbr part fopen root fat img n pc (NDir p c nm kids) ->
  Forall (storable vbr fopen) (erase <$> kids) -> Z.of_nat (32 * length (dir_entries (p =? root) c pc kids)) <= cs ->
  Forall (fun c => 2 <= c < total) (clusters (NDir p c nm kids)) -> 2 <= n -> n + xtras vbr kids <= total ->
  (forall x n pc, x ∈ kids -> stored vbr part fopen root fat img n pc x -> 2 <= n -> n + xtra vbr x <= total -> subtree_read fuel x) ->
  subtree_read (S fuel) (NDir p c nm kids).
Proof.
  intros (He & Hd & Hst)%stored_dir Hs Hcap Hr Hn Ht Hsub. cbn [clusters] in Hr. apply Forall_cons in Hr as [Hc Hr].
  unfold subtree_read. rewrite r_tree_S.
  assert (Forall (fun x => name_ok (ntree_name x)) kids) as Hnm.
  { rewrite Forall_fmap in Hs. eapply Forall_impl; [exact Hs|]. apply storable_name_ok. }
  assert (Forall entry_ok (dir_entries (p =? root) c pc kids) /\
          Forall (fun e => byte_at (de_name e) 0 <> 0) (dir_entries (p =? root) c pc kids)) as [Hok Hnz].
  { unfold dir_entries. rewrite !Forall_app, !Forall_fmap. repeat split.
    - apply dots_ok.
    - eapply Forall_impl; [exact Hnm|]. intros x. apply entry_of_first.
    - unfold dots. destruct (p =? root); by repeat constructor.
    - eapply Forall_impl; [exact Hnm|]. intros x Hx. destruct (entry_of_first x Hx) as [_ (b & l & Hb & Hb0 & _)].
      change (byte_at (de_name (entry_of x)) 0 <> 0). rewrite Hb. change (b <> 0). lia. }
  rewrite (dir_read c _ He Hc Hd Hok Hnz Hcap). unfold dir_entries. rewrite fmap_app, bind_app.
  assert ((entry_bytes <$> dots (p =? root) c pc) ≫= r_node fuel = []) as ->.
  { unfold dots. by destruct (p =? root). }
  cbn [app]. by eapply kids_read.
Qed.

Lemma tree_read t : forall fuel n pc, (height t <= fuel)%nat -> root ∉ addrs t ->
  stored vbr part fopen root fat img n pc t -> storable vbr fopen (erase t) ->
  Forall (fun c => 2 <= c < total) (clusters t) -> 2 <= n -> n + xtra vbr t <= total -> subtree_read fuel t.
Proof.
  induction t as [|p c nm kids IH] using ntree_ind'; intros fuel n pc Hh Hroot Hst Hs Hr Hn Ht; [done|].
  destruct fuel as [|fuel]; [cbn in Hh; lia|]. cbn [erase] in Hs. apply storable_dir in Hs as (_ & Hcap & Hs).
  rewrite length_fmap in Hcap. cbn [addrs] in Hroot. eapply dir_tree_read; [done | done | | done | done | done |].
  - unfold dir_entries. rewrite (proj2 (Z.eqb_neq p root)) by set_solver. cbn [dots app length]. rewrite length_fmap. lia.
  - intros x m qc Hx Hst' Hm Ht'. rewrite Forall_forall in IH. apply (IH x Hx fuel m qc); [| | done | | | done | done].
    + pose proof (height_child x kids Hx). cbn in Hh. lia.
    + intros Hx'. apply Hroot. right. apply list_elem_of_bind. eauto.
    + rewrite Forall_fmap, Forall_forall in Hs. by apply Hs.
    + cbn [clusters] in Hr. apply Forall_cons in Hr as [_ Hr]. rewrite Forall_forall in Hr |- *. intros d Hd. apply Hr.
      apply list_elem_of_bind. eauto.
Qed.
End ReadVolume.
