(* ===== verification/Mkimage.v ===== *)
(** * mkimage from end to end

    The theorem on [tools/mkimage/main.c]: the image holds the boot sectors, equal
    copies of the allocation table, and a file system in which a FAT32 reader finds the
    tree of the list of files. *)

From S2P Require Import Prelude Base Buffer Iwbf Tree TreeProps Fat32 Fat32Props Fat32Layout Fat32Read.

(** ** Fuel *)

Lemma height_addrs t : (height t <= length (addrs t))%nat.
Proof.
  induction t as [|p c nm kids IH] using ntree_ind'; [done|]. cbn [height addrs length]. apply le_n_S.
  induction IH as [|x kids Hx Hk IHk]; [done|]. rewrite bind_cons, length_app. cbn. lia.
Qed.

Lemma addrs_size m par t : rep m par t -> NoDup (addrs t) -> (length (addrs t) <= size m)%nat.
Proof.
  intros Hr Hnd. rewrite <- size_dom, <- (size_list_to_set (C := gset Z) _ Hnd). apply subseteq_size.
  intros q Hq%elem_of_list_to_set. apply elem_of_dom. by eapply rep_in.
Qed.

Lemma tnodes_erase kids : tnodes_list (erase <$> kids) = Z.of_nat (length (kids ≫= addrs)).
Proof.
  induction kids as [|x kids IH]; [done|]. rewrite bind_cons, length_app. cbn.
  rewrite nodes_erase. unfold tnodes_list in IH. lia.
Qed.
Lemma xtras_erase vbr kids : txtras vbr (erase <$> kids) = xtras vbr kids.
Proof. induction kids as [|x kids IH]; [done|]. cbn. rewrite xtra_erase. unfold txtras, xtras in IH. lia. Qed.

(** ** The boot sectors *)

Definition sector_at (img : list Z) (off : Z) (sector : list Z) : Prop :=
  forall i, 0 <= i < 512 -> byte_at img (off + i) = byte_at sector i.

Lemma sector_slice img off sector : length sector = 512%nat -> sector_at img off sector -> slice img off 512 = sector.
Proof.
  intros Hl Hs. rewrite <- (slice_all sector), Hl. change (Z.of_nat 512) with 512. apply list_eq. intros i.
  destruct (decide (i < 512)%nat) as [Hi|Hi].
  - rewrite !lookup_slice by lia. f_equal. rewrite Hs by lia. done.
  - by rewrite !lookup_ge_None_2 by (rewrite slice_length; lia).
Qed.

Lemma sector_lba img sector : sector_at img 0 sector -> lba_start img = lba_start sector.
Proof. intros Hs. unfold lba_start, word32_at, word16_at. by rewrite <- !(Hs _) by lia. Qed.

Lemma sector_frame n img img' off sector : (forall i, 0 <= i < n -> byte_at img' i = byte_at img i) ->
  0 <= off -> off + 512 <= n -> sector_at img off sector -> sector_at img' off sector.
Proof. intros Hf Ho Hn Hs i Hi. rewrite Hf by lia. by apply Hs. Qed.

(** The image before the file system is written. *)
Definition blank (img mbr sector : list Z) (part : Z) : list Z := overwrite part sector (overwrite 0 mbr img).

Lemma blank_sectors img mbr sector part : length mbr = 512%nat -> length sector = 512%nat -> 512 <= part ->
  sector_at (blank img mbr sector part) 0 mbr /\ sector_at (blank img mbr sector part) part sector.
Proof.
  intros Hm Hs Hp. unfold blank. split; intros i Hi; rewrite !byte_at_overwrite, ?Hm, ?Hs by lia.
  - rewrite (proj2 (Z.leb_gt part (0 + i))) by lia. cbn [andb].
    rewrite (proj2 (Z.leb_le 0 (0 + i))), (proj2 (Z.ltb_lt (0 + i) _)) by lia. cbn [andb]. f_equal. lia.
  - rewrite (proj2 (Z.leb_le part _)), (proj2 (Z.ltb_lt (part + i) _)) by lia. cbn [andb]. f_equal. lia.
Qed.

(** ** The file system *)

Section FileSystem.
Context (vbr : fat32_vbr) (part : Z) (Hg : geometry vbr part).
Context (fopen : list Z -> option (list Z)) (oom : nat -> bool) (Hmem : forall n, oom n = false).
#[local] Abbreviation total := (total_entries vbr).
#[local] Abbreviation cs := (fat32_cluster_size vbr).

(** The directory tree fits on the volume. *)
Record fits (kids : list tree) : Prop := {
  ft_storable : Forall (storable vbr fopen) kids;
  ft_root : 32 * Z.of_nat (length kids) <= cs;
  ft_room : root_cluster vbr + 1 + tnodes_list kids + txtras vbr kids <= total
}.

(** The tree is on the image, not yet the allocation table. *)
Record on_image (s s' : ctx) (t : ntree) (kids : list tree) : Prop := {
  oi_nodes : rep (hp_nodes (cx_heap s')) 0 t;
  oi_fat : Z.of_nat (length (cx_fat s')) = total;
  oi_low : forall i, 0 <= i < fat32_data_offset vbr part -> byte_at (cx_image s') i = byte_at (cx_image s) i;
  oi_tree : exists root kids', t = NDir root (root_cluster vbr) [] kids' /\ erase <$> kids' = kids /\ (root ∉ kids' ≫= addrs) /\
    exists n, stored vbr part fopen root (cx_fat s') (cx_image s') n 0 t /\ 2 <= n /\ n + xtras vbr kids' <= total /\
    Forall (fun c => 2 <= c < total) (clusters t)
}.

Lemma write_fs_wp fuel s root kids : heap_ok (cx_heap s) -> rep (hp_nodes (cx_heap s)) 0 (NDir root 0 [] kids) ->
  NoDup (addrs (NDir root 0 [] kids)) -> zeroed (NDir root 0 [] kids) -> (height (NDir root 0 [] kids) <= fuel)%nat ->
  fits (erase <$> kids) -> fat_ok vbr s -> cx_next s = root_cluster vbr + 1 -> fat_at (cx_fat s) (root_cluster vbr) = FAT_EOF ->
  wp (bind (fat32_prepare_tree vbr root fuel root) (fun _ => fat32_write_tree fopen oom vbr part root fuel root))
    (fun _ s' => exists t, on_image s s' t (erase <$> kids) /\ addrs t = addrs (NDir root 0 [] kids) /\ addr t = root /\
       height t = height (NDir root 0 [] kids) /\
       forall q, q ∉ addrs t -> hp_nodes (cx_heap s') !! q = hp_nodes (cx_heap s) !! q) s.
Proof.
  intros Hok Hr Hnd Hz Hh [Hst Hroot Hroom] Hfok Hnext He. rewrite tnodes_erase, xtras_erase in Hroom. rewrite length_fmap in Hroot.
  pose proof (g_root _ _ Hg) as Hrc. pose proof (xtras_nonneg vbr kids) as Hx0.
  assert (0 < root <= Z.of_nat (hp_allocs (cx_heap s))) as Hr0 by (apply (rep_bound _ _ _ Hok Hr); constructor).
  wp_steps. eapply wp_mono; [apply (prepare_root_wp vbr part Hg fuel s root kids); [done..|lia]|].
  cbn beta zeta. intros [] s1 (kids' & Hr1 & He1 & Ha1 & Hc1 & _ & Hi1 & Hok1 & Hn1 & Hf1 & Heof1 & Hnodes1).
  set (t := NDir root (root_cluster vbr) [] kids') in *.
  assert (xtras vbr kids' = xtras vbr kids) as Hx by (by rewrite <- !xtras_erase, He1).
  assert (height t = height (NDir root 0 [] kids)) as Hht by (rewrite <- !height_erase; unfold t; cbn; by rewrite He1).
  assert (root ∉ kids' ≫= addrs) as Hrn by (rewrite <- Ha1 in Hnd; by apply NoDup_cons in Hnd as [? _]).
  assert (0 ∉ addrs t) as H0.
  { rewrite Ha1. intros H0%(rep_bound _ _ _ Hok Hr). lia. }
  assert (length kids' = length kids) as Hlk by (by rewrite <- (length_fmap erase kids'), He1, length_fmap).
  assert (writable vbr s1 (xtras vbr kids') (clusters t)) as Hw.
  { unfold t. cbn [clusters]. rewrite Hc1, Hnext. split; [done | | | | lia].
    - apply NoDup_cons. split; [rewrite elem_of_seqZ; lia | apply NoDup_seqZ].
    - constructor; [lia|]. apply Forall_forall. intros c Hc%elem_of_seqZ. lia.
    - rewrite <- Hnext, <- Hc1. constructor; [|done]. rewrite (proj2 Hf1); [done | lia|].
      rewrite Hc1, elem_of_seqZ. lia. }
  destruct fuel as [|fuel]; [cbn in Hh; lia|].
  eapply wp_mono; [apply (write_dir_wp vbr part Hg fopen oom Hmem root fuel s1 0 root (root_cluster vbr) [] kids' 0); [done|done|lia| | |done|]|].
  - by rewrite He1.
  - unfold dir_entries. rewrite Z.eqb_refl. cbn [dots app]. rewrite length_fmap. lia.
  - intros x s2 Hx2 Hrx Hp2 Hwx. apply (write_tree_wp vbr part Hg fopen oom Hmem root x fuel s2 root (root_cluster vbr)); try done.
    + pose proof (height_child x kids' Hx2). rewrite <- Hht in Hh. unfold t in Hh. cbn in Hh. lia.
    + intros Hx'. apply Hrn, list_elem_of_bind. eauto.
    + intros Hx'. apply H0. right. apply list_elem_of_bind. eauto.
    + rewrite <- He1, Forall_fmap, Forall_forall in Hst. by apply Hst.
  - cbn beta. intros _ s2 (Hwr & Hn2 & Hs2). exists t. destruct Hwr as [Hnodes (Hfl & _) Hi2 Hf2].
    split; [|split; [done|]; split; [done|]; split; [done|]; intros q Hq; rewrite Hnodes; by apply Hnodes1].
    split; [by rewrite Hnodes | done | |].
    + intros i Hi. rewrite (proj2 Hi2) by done. by rewrite Hi1.
    + exists root, kids'. split; [done|]. split; [done|]. split; [done|]. exists (cx_next s1).
      split; [done|]. split; [destruct Hok1 as (_ & ? & _); lia|]. split; [lia|].
      eapply Forall_impl; [apply (wt_range _ _ _ _ Hw)|]. cbn. lia.
Qed.
End FileSystem.

(** A reader that finds the boot sectors and the table finds the tree. *)
Lemma read_image_tree vbr part fopen img fat root n kids : geometry vbr part -> r_part img = part -> r_vbr img = vbr ->
  fat_written vbr part img fat 0 -> fits vbr fopen (erase <$> kids) ->
  let t := NDir root (root_cluster vbr) [] kids in
  stored vbr part fopen root fat img n 0 t -> 2 <= n -> n + xtras vbr kids <= total_entries vbr ->
  (root ∉ kids ≫= addrs) -> Forall (fun c => 2 <= c < total_entries vbr) (clusters t) ->
  read_image img = on_disk fopen <$> (erase <$> kids).
Proof.
  intros Hg Hp Hv Hf [Hst Hroot Hroom] t Hs Hn Hx Hrn Hr. unfold read_image. rewrite Hv.
  rewrite length_fmap in Hroot. rewrite tnodes_erase, xtras_erase in Hroom.
  pose proof (r_count_eq vbr part Hg img Hv) as Hc. pose proof (xtras_nonneg vbr kids) as Hx0. pose proof (g_root _ _ Hg) as Hrc.
  assert (height t <= r_count img)%nat as Hh.
  { pose proof (height_addrs t) as Hh. unfold t in *. cbn [addrs length] in Hh. lia. }
  destruct (r_count img) as [|fuel]; [cbn in Hh; lia|].
  apply (dir_tree_read vbr part Hg img fat Hp Hv Hf fopen root fuel n 0 root (root_cluster vbr) [] kids); try done.
  - unfold dir_entries. rewrite Z.eqb_refl. cbn [dots app]. rewrite length_fmap. lia.
  - intros x m pc Hx' Hsx Hm Hmx. apply (tree_read vbr part Hg img fat Hp Hv Hf fopen root x fuel m pc); try done.
    + pose proof (height_child x kids Hx'). unfold t in Hh. cbn in Hh. lia.
    + intros Hin. apply Hrn, list_elem_of_bind. eauto.
    + rewrite Forall_fmap, Forall_forall in Hst. by apply Hst.
    + unfold t in Hr. cbn [clusters] in Hr. apply Forall_cons in Hr as [_ Hr]. rewrite Forall_forall in Hr |- *.
      intros d Hd. apply Hr, list_elem_of_bind. eauto.
Qed.

(** What [mkimage] promises of the image. *)
Record image_of (fopen : list Z -> option (list Z)) (mbr sector : list Z) (kids : list tree) (img : list Z) : Prop := {
  im_mbr : slice img 0 512 = mbr;
  im_vbr : slice img (lba_start mbr * 512) 512 = sector;
  im_fats : forall k i, 0 <= k < fat_count (vbr_of sector) -> 0 <= i < total_entries (vbr_of sector) ->
    let first := first_fat (vbr_of sector) (lba_start mbr * 512) in
    word32_at img (first + k * fat_bytes (vbr_of sector) + 4 * i) = word32_at img (first + 4 * i);
  im_tree : read_image img = on_disk fopen <$> kids
}.

Section Main.
Context (fopen : list Z -> option (list Z)) (oom : nat -> bool) (Hmem : forall n, oom n = false).
Context (mbr_file vbr_file : list Z) (Hm : (512 <= length mbr_file)%nat) (Hv : (512 <= length vbr_file)%nat).
#[local] Abbreviation mbr := (take 512 mbr_file).
#[local] Abbreviation sector := (take 512 vbr_file).
#[local] Abbreviation vbr := (vbr_of sector).
#[local] Abbreviation part := (lba_start mbr * bytes_per_sector vbr).
Context (Hsec : bytes_per_sector vbr = 512) (Hlba : 512 <= part) (Hg : geometry vbr part).

(** The sectors before the allocation table stay, the rest is as the reader needs it. *)
Lemma image_from s s' img t kids : on_image vbr part fopen s s' t kids -> fits vbr fopen kids ->
  sector_at (cx_image s) 0 mbr -> sector_at (cx_image s) part sector ->
  (forall k, 0 <= k < fat_count vbr -> fat_written vbr part img (cx_fat s') k) ->
  (forall i, 0 <= i < first_fat vbr part -> byte_at img i = byte_at (cx_image s') i) ->
  (forall i, fat32_data_offset vbr part <= i -> byte_at img i = byte_at (cx_image s') i) ->
  image_of fopen mbr sector kids img.
Proof.
  intros [_ _ Hlow (root & kids' & -> & <- & Hrn & n & Hst & Hn & Hx & Hr)] Hfits Hs1 Hs2 Hfat Hb1 Hb2.
  pose proof (first_fat_low _ _ Hg) as Hff. pose proof (data_range _ _ Hg) as Hdr. rewrite Hsec in *.
  assert (forall i, 0 <= i < first_fat vbr (lba_start mbr * 512) -> byte_at img i = byte_at (cx_image s) i) as Hlow'.
  { intros i Hi. rewrite Hb1, Hlow by lia. done. }
  apply (sector_frame _ _ _ _ _ Hlow') in Hs1; [|lia..]. apply (sector_frame _ _ _ _ _ Hlow') in Hs2; [|lia..].
  assert (slice img 0 512 = mbr) as Hmbr by (apply sector_slice; [rewrite length_take; lia | done]).
  assert (slice img (lba_start mbr * 512) 512 = sector) as Hvbr by (apply sector_slice; [rewrite length_take; lia | done]).
  assert (r_part img = lba_start mbr * 512) as Hrp by (unfold r_part; by rewrite (sector_lba img mbr)).
  split; [done | done | |].
  - intros k i Hk Hi. cbn zeta. pose proof (g_fats _ _ Hg). rewrite (Hfat k Hk i Hi).
    specialize (Hfat 0 ltac:(lia) i Hi). rewrite Z.mul_0_l, Z.add_0_r in Hfat. by rewrite Hfat.
  - eapply read_image_tree; [exact Hg | done | | apply Hfat; pose proof (g_fats _ _ Hg); lia | done | | done..].
    + unfold r_vbr. by rewrite Hrp, Hvbr.
    + eapply (stored_frame vbr _ Hg fopen oom Hmem root []); [apply fat_frame_refl| | | done | set_solver | exact Hst].
      * intros c Hc _. apply slice_agree. intros i Hi. apply Hb2.
        pose proof (cs_pos _ _ Hg). unfold cluster_off in Hi. nia.
      * eapply Forall_impl; [exact Hr|]. cbn. lia.
Qed.

(** Before anything runs: no nodes, an empty output file. *)
Definition fresh_ctx : ctx := mk_ctx (mk_heap ∅ 0) [] [] 0.

Lemma released_all t s s' : (forall q, q ∉ addrs t -> hp_nodes s !! q = None) -> released t s s' -> hp_nodes s' = ∅.
Proof.
  intros Hn [_ Hr]. apply map_eq. intros q. rewrite Hr, lookup_empty. case_bool_decide; auto.
Qed.

(** From the parsed tree to the end. *)
Lemma build_wp s root kids (errs : list (list Z)) : heap_ok (cx_heap s) -> rep (hp_nodes (cx_heap s)) 0 (NDir root 0 [] kids) ->
  NoDup (addrs (NDir root 0 [] kids)) -> zeroed (NDir root 0 [] kids) -> fits vbr fopen (erase <$> kids) ->
  (forall q, q ∉ addrs (NDir root 0 [] kids) -> hp_nodes (cx_heap s) !! q = None) ->
  sector_at (cx_image s) 0 mbr -> sector_at (cx_image s) part sector ->
  wp (bind (fat32_table_init oom vbr) (fun init => bind (gets depth_fuel) (fun fuel =>
      if init =? 0 then bind (on_heap (fs_node_free fuel root)) (fun _ => ret (1, errs))
      else bind (fat32_prepare_tree vbr root fuel root) (fun _ =>
           bind (fat32_write_tree fopen oom vbr part root fuel root) (fun _ =>
           bind (fat32_table_flush vbr part) (fun _ =>
           bind (on_heap (fs_node_free fuel root)) (fun _ => ret (0, errs))))))))
    (fun r s' => r = (0, errs) /\ image_of fopen mbr sector (erase <$> kids) (cx_image s') /\ hp_nodes (cx_heap s') = ∅) s.
Proof.
  intros Hok Hr Hnd Hz Hfits Hempty Hs1 Hs2. wp_steps.
  eapply wp_mono; [apply (table_init_wp vbr part Hg oom Hmem s)|].
  cbn beta. intros r s1 (-> & Hn1 & Ha1 & Hi1 & Hx1 & Hok1 & He1). wp_steps. cbn [Z.eqb].
  assert (heap_ok (cx_heap s1)) as Hhok.
  { intros q Hq. rewrite Hn1 in Hq. destruct (Hok q Hq). lia. }
  rewrite <- Hn1 in Hr.
  assert (height (NDir root 0 [] kids) <= depth_fuel s1)%nat as Hfuel.
  { unfold depth_fuel. pose proof (height_addrs (NDir root 0 [] kids)). pose proof (addrs_size _ _ _ Hr Hnd). lia. }
  set (fuel := depth_fuel s1) in *. clearbody fuel.
  pose proof (write_fs_wp vbr part Hg fopen oom Hmem fuel s1 root kids Hhok Hr Hnd Hz Hfuel Hfits Hok1 Hx1 He1) as Hfs.
  apply wp_bind_inv in Hfs. wp_steps. eapply wp_mono; [exact Hfs|].
  cbn beta. intros [] s2 H2. wp_steps. eapply wp_mono; [exact H2|].
  cbn beta. intros [] s3 (t & Hon & Hat & Hrt & Hht & Hn3). wp_steps.
  eapply wp_mono; [apply (table_flush_wp vbr part Hg s3), (oi_fat _ _ _ _ _ _ _ Hon)|].
  cbn beta. intros [] s4 (Hh4 & Hf4 & Hb4 & Hd4). wp_steps. apply wp_zoom.
  assert (NoDup (addrs t)) as Hndt by (by rewrite Hat). rewrite <- Hrt.
  eapply wp_mono; [apply (fs_node_free_wp t fuel 0); [lia| | |done]|].
  - rewrite Hat. intros H0%(rep_bound _ _ _ Hhok Hr). lia.
  - rewrite Hh4. apply (oi_nodes _ _ _ _ _ _ _ Hon).
  - cbn beta. intros [] h5 Hrel. wp_steps. split; [done|]. cbn [with_heap cx_image cx_heap]. split.
    + rewrite <- Hi1 in Hs1, Hs2. by eapply image_from.
    + eapply released_all; [|exact Hrel]. intros q Hq. rewrite Hh4, Hn3, Hn1 by done. apply Hempty. by rewrite <- Hat.
Qed.

Lemma mkimage_wp es kids errs : Forall line_ok es -> insert_entries fopen es [] = (kids, errs) -> fits vbr fopen kids ->
  wp (mkimage fopen oom mbr_file vbr_file (es ≫= render)) (fun r s' => r = (0, errs) /\
    image_of fopen mbr sector kids (cx_image s') /\ hp_nodes (cx_heap s') = ∅) fresh_ctx.
Proof.
  intros Hes Hins Hfits. unfold mkimage.
  rewrite (proj2 (Nat.ltb_ge _ _) Hm), (proj2 (Nat.ltb_ge _ _) Hv). cbn [orb]. cbv zeta. wp_steps.
  unfold fwrite_at at 1. wp_steps. unfold fwrite_at at 1. wp_steps. unfold fwrite_at at 1. wp_steps.
  cbn [cx_heap cx_image cx_fat cx_next fresh_ctx]. set (img0 := overwrite _ [0] []).
  change (overwrite part sector (overwrite 0 mbr img0)) with (blank img0 mbr sector part).
  destruct (blank_sectors img0 mbr sector part) as [Hs1 Hs2]; [rewrite length_take; lia.. | done |].
  set (img := blank img0 mbr sector part) in *. clearbody img. clear img0.
  apply wp_zoom. eapply wp_mono; [apply (parse_disk_files_wp fopen oom Hmem es); [done|]|].
  { intros q [? Hq]. done. }
  cbn beta zeta. intros [root errs'] h (kids' & Hr & Hok & Hnd & Hz & Hleak & Hi). cbn [fst snd] in *.
  rewrite Hins in Hi. injection Hi as -> ->.
  assert (0 < root <= Z.of_nat (hp_allocs h)) as Hr0 by (apply (rep_bound _ _ _ Hok Hr); constructor).
  rewrite (proj2 (Z.eqb_neq root 0)) by lia.
  apply (build_wp (with_heap h (mk_ctx (mk_heap ∅ 0) img [] 0)) root kids'); try done.
Qed.
End Main.

(** C10. [mkimage], given boot sectors that describe a FAT32 volume in the first partition
    and a list of files whose tree fits on it (8.3 names, at most one cluster of entries
    per directory, enough clusters), returns 0 and reports exactly the paths that could
    not be inserted.  The image then starts with the given boot sectors, all copies of
    the allocation table are equal, and a FAT32 reader finds every directory and file of
    the list with the contents of the host's files.  All nodes have been freed. *)
Theorem mkimage_correct fopen oom mbr_file vbr_file es kids errs :
  (forall n, oom n = false) -> (512 <= length mbr_file)%nat -> (512 <= length vbr_file)%nat ->
  let mbr := take 512 mbr_file in let sector := take 512 vbr_file in
  bytes_per_sector (vbr_of sector) = 512 -> 1 <= lba_start mbr ->
  geometry (vbr_of sector) (lba_start mbr * 512) ->
  Forall line_ok es -> insert_entries fopen es [] = (kids, errs) -> fits (vbr_of sector) fopen kids ->
  wp (main fopen oom 5 (Some mbr_file) (Some vbr_file) (Some (es ≫= render)) true)
    (fun r s' => r = (0, errs) /\ image_of fopen mbr sector kids (cx_image s') /\ hp_nodes (cx_heap s') = ∅) fresh_ctx.
Proof.
  intros Hmem Hm Hv mbr sector Hsec Hlba Hg Hes Hins Hfits. unfold main. cbn [Z.eqb negb Pos.eqb].
  apply mkimage_wp; [done..| | |done|done|done]; fold mbr sector; rewrite Hsec; [lia | done].
Qed.

(** Boot sectors of a small volume. *)
Definition mbr_sample : list Z := replicate 454 0 ++ [1; 0; 0; 0] ++ replicate 54 0.
Definition vbr_sample : list Z :=
  replicate 11 0 ++ [0; 2; 1; 1; 0; 2; 0; 0; 0; 0; 248] ++ replicate 10 0 ++ [40; 0; 0; 0; 1; 0; 0; 0] ++
  replicate 4 0 ++ [2; 0; 0; 0] ++ replicate 464 0.
Definition host_sample (path : list Z) : option (list Z) :=
  if bool_decide (path = [104]) then Some (replicate 513 7) else None.
Definition kids_sample : list tree := [Dir [98] [File [99; 46; 120] [104] 513; Dir [100] []]].

Lemma sample_geometry : geometry (vbr_of (take 512 vbr_sample)) (lba_start (take 512 mbr_sample) * 512).
Proof. split; vm_compute; done || (split; congruence || discriminate). Qed.

Lemma sample_fits : fits (vbr_of (take 512 vbr_sample)) host_sample kids_sample.
Proof.
  assert (name_ok [98] /\ name_ok [99; 46; 120] /\ name_ok [100]) as (H1 & H2 & H3).
  { repeat split; try (eexists; reflexivity); by repeat constructor. }
  split; [|by vm_compute | by vm_compute].
  repeat constructor; try done; try (by vm_compute). exists (replicate 513 7). by vm_compute.
Qed.

(** A directory with a file of two clusters and an empty directory; the third line names a
    host file that does not exist. *)
Lemma mkimage_correct_witness :
  wp (main host_sample (fun _ => false) 5 (Some mbr_sample) (Some vbr_sample)
        (Some ([([104], [98; 47; 99; 46; 120]); ([], [98; 47; 100; 47]); ([105], [101])] ≫= render)) true)
    (fun r s' => r = (0, [[101]]) /\
      read_image (cx_image s') = [FsDir (short [98]) [FsFile (short [99; 46; 120]) (replicate 513 7); FsDir (short [100]) []]])
    fresh_ctx.
Proof.
  eapply wp_mono; [apply (mkimage_correct host_sample (fun _ => false) mbr_sample vbr_sample _ kids_sample [[101]]); [done|..]|].
  - by vm_compute.
  - by vm_compute.
  - by vm_compute.
  - by vm_compute.
  - exact sample_geometry.
  - by repeat constructor.
  - by vm_compute.
  - exact sample_fits.
  - intros r s' (-> & Him & _). split; [done|]. rewrite (im_tree _ _ _ _ _ Him). reflexivity.
Defined.

(** ** Limits of the tool *)

(** [KERNEL12.BIN] is a valid 8.3 name, but its 12 characters do not fit in the buffer of
    [fat32_create_entry]. *)
Lemma short_name_overflow : short_name [75; 69; 82; 78; 69; 76; 49; 50; 46; 66; 73; 78] = None.
Proof. reflexivity. Qed.

(** Writing an empty file ends with [fat[0] = FAT_EOF], which removes the media
    descriptor of the first entry. *)
Lemma empty_file_overwrites_fat0 fopen oom vbr part s p nm c par host : (forall n, oom n = false) ->
  hp_nodes (cx_heap s) !! p = Some (mk_node nm c par (NODE_FILE host 0)) -> is_Some (fopen host) ->
  (0 < length (cx_fat s))%nat ->
  wp (fat32_write_file fopen oom vbr part p) (fun _ s' => fat_at (cx_fat s') 0 = FAT_EOF) s.
Proof.
  intros Hmem Hp [content Hf] Hl. unfold fat32_write_file. wp_steps. eapply on_get_node_wp; [done|].
  cbn [nd_body]. rewrite Hf. wp_steps. apply request_wp; [done|]. cbn [Z.to_nat write_file_loop Z.ltb Z.compare negb].
  wp_steps. apply fat_set_wp; [cbn; lia|]. intros fat' _ Hv. exact Hv.
Qed.

(** On a full volume [fat32_cluster_alloc] returns 0, which its callers use as a cluster. *)
Lemma cluster_alloc_full vbr s : total_entries vbr <= cx_next s -> fat32_cluster_alloc vbr s = Some (0, s).
Proof.
  intros H. unfold fat32_cluster_alloc, bind, gets, for_lt. by replace (Z.to_nat (total_entries vbr - cx_next s)) with O by lia.
Qed.

(** A component of 64 bytes or more is cut when its node is made, so it is never found
    again: inserting the same directory twice makes two nodes. *)
Lemma long_component_duplicated :
  let x := replicate 64 97 in
  update [x] (fun ks => (ks, true)) (update [x] (fun ks => (ks, true)) []).1 =
    ([Dir (take 63 x) []; Dir (take 63 x) []], true).
Proof. reflexivity. Qed.

(** A line with a host directory, [h/:i/], is not refused: it makes an empty directory. *)
Lemma host_directory_accepted fopen : insert_entry fopen [104; 47] [105; 47] [] = ([Dir [105] []], true).
Proof. reflexivity. Qed.
